(* ===== verification/_CoqProject ===== *)
-Q . S2P
Prelude.v
Order.v
Bytes.v
Crc.v
Sha256.v
Layout.v
Tables.v
Join.v
Chain.v
Sealed.v
Prefixed.v
ControlFrame.v
Airtime.v
Session.v
Causal.v
DomainScan.v
Rrmp.v
RrmpPages.v
Mfdt.v
MfdtTransfer.v
MfdtRecords.v
Fabric.v
FabricRecords.v
FabricSelect.v
FabricBaseline.v
Wifi.v
Carriage.v
WifiNetwork.v
Nac1.v
Nar1.v
Transcript.v
Descriptor.v
N6.v
CommitSet.v
CommitImage.v
Preauth.v
CrossPeer.v
CrossGate.v
Profile.v
Crossrow.v
CrossAdopt.v
Ncl1.v
MultiCount.v
StoreRecords.v
Export.v
Bootstrap.v
InitSnapshot.v
Cursor.v
Kind1.v
