(* ===== verification/Prelude.v ===== *)
(** * The protocol oracles of the Ninlil runtime

    Ninlil carries messages between devices over compact radio, USB and Wi-Fi.  Its
    protocols are fixed by Python programs under [src/tools/]: each program holds the
    reference encoders, decoders, classifiers and state machines of one protocol, and
    generates from them the vectors the C runtime is tested with.  This development
    models those reference programs and proves what they promise.  File names below
    without a directory are under [src/tools/].

    ** Shared theory

    - This file: the exceptions of Python and the monad [res] of code that may raise,
      [raise_if] for [if c: raise e], and the inversion tactics for it.
    - [Order]: comparison functions and sorting by a key ([list.sort(key=...)]).
    - [Bytes]: byte strings as lists of integers, slices that clamp as Python's do, slice
      assignment, [struct.pack] (which raises out of range), hexadecimal text.
    - [Crc], [Sha256]: the two hashes as executable functions; CRC-32C detects every
      change within four consecutive bytes.  Nothing is assumed of SHA-256: where a
      statement needs two digests to differ, that is a hypothesis or the statement is
      about the hashed bytes.  The classes [Checksum32] and [Digest32] say what a record
      theory needs of a hash.
    - [Layout], [Join], [Chain]: records built by assigning slices of a zeroed buffer, by
      concatenation, and by filling a buffer from the front, with the laws that read
      every field back; [Tables], [Sealed]: pages of slots and header-and-payload records
      under a checksum; [Prefixed]: parts that mark their own end, so that a
      concatenation determines them; [Cursor]: readers that consume a byte string from a
      cursor on (a take with its error message, integers, sized parts, counted lists),
      with classes for what such a reader reads back and refuses.

    ** Components

    - [ControlFrame] ([control_frame_vector_gen.py]): the NCG1 frame on USB.
      [decode_exact] answers exactly as a specification of frames; it inverts
      [encode_frame].
    - [Airtime] ([airtime_r3_oracle.py]): time on air with exact fractions.  The result
      is the exact time rounded up, or a report that it overflows.
    - [Session], [Causal] ([logical_session_u4_vector_gen.py]): the NCL1 session wire and
      the tracker of scenarios.  A validated descriptor encodes the frame of its message;
      the validator accepts exactly the well-formed descriptors; after any observed
      steps the tracker holds at most one exchange per pair and kind, and only a peer
      whose handshake was delivered is active.
    - [Ncl1] ([ncl1_u4_vector_gen.py]): the second oracle of the same wire, with its own
      encoders, decoder and structural checks.  The decoder accepts exactly what the
      encoder writes, and the two programs agree: what [Session] encodes is decoded here.
    - [DomainScan] ([domain_scan_vector_gen.py]): keys, the NLR1 envelope and the scanner,
      run against a scripted store that may fail at any call.  A scan without faults
      ends with a verdict of its rows; an adopted scan was clean; whatever fails, the
      trace of calls is a well-bracketed protocol.
    - [Rrmp], [RrmpPages] ([route_relay_multiparent_spec_vector_gen.py]): the drain
      formula and the route, relay and parent records and pages.
    - [Mfdt], [MfdtTransfer], [MfdtRecords]
      ([multi_frame_durable_transfer_spec_vector_gen.py]): cutting a content into chunks
      and manifest pages, the control messages, the durable records and their repair.
    - [Fabric], [FabricRecords], [FabricSelect], [FabricBaseline]
      ([fabric_bearer_spec_vector_gen.py]): messages and durable records of the bearer,
      the choice of a path and the snapshot the choice reads.
    - [Wifi], [WifiNetwork], [Carriage] ([wifi_bearer_spec_vector_gen.py]): the framing of
      a Wi-Fi session, its network records, and the composition with [Fabric]: a message
      the one program encodes is one the other accepts and carries unchanged.
    - The attachment of a device ([production_attachment_edhoc_composition.py] and
      [production_attachment_edhoc_r6_oracle.py]), in the order the exchange runs:
      -- [Nac1]: the carrier record and its classification; the NAS1 stream decoder, which
         gives the same verdict however the stream is cut;
      -- [Nar1]: fragments for the compact radio and their reassembly;
      -- [Preauth]: the scratch a responder spends on fragments before it has checked a
         cookie (nested functions of [build_preauth_owner_model]).  The state is a
         record, the nested functions are transitions; bounds on scratch and on the rate
         hold after any operations, and silence empties it;
      -- [Transcript]: the digest over the records of the exchange, built on [Nac1];
      -- [Descriptor]: proposal, install descriptor, receipts, credential and marker;
      -- [N6]: the keys and values of the rows an installation writes;
      -- [CommitSet]: the fifteen rows of one installation ([nab1_exact_inventory], its
         nested [add] as a function of a row) and their manifest;
      -- [CommitImage]: what the store holds after a commit of unknown outcome, and the
         verdicts of [build_lifecycle_snapshots] on torn and forged images.

    - The cross-row scan ([domain_scan_crossrow_vector_gen.py]), which follows each row of a
      store to the row it must be linked to:
      -- [CrossPeer]: the readers of the row bodies and [rebuild_peer], by which one row and
         one of twenty modes give the key of its peer; that key is always well typed;
      -- [CrossGate]: the gate on the rows of family 6 and the builders and patches of rows;
         what they build passes the gate and leads back to its owner;
      -- [Profile]: the seventeen profile rows and the comparison with the expected binding;
      -- [Crossrow]: [run_case].  Its local variables are the record [session], in parts by
         their use ([profile], [walk], [ports]); its nested functions are transitions, each
         kind of call is a constructor of [op], and one pass of the loop of [do_advance] is
         [advance_once].  An adopted scan has found every row and every link right;
      -- [CrossAdopt]: the abstract specification [whole] of a store, and the proof that a
         run without faults adopts exactly the whole stores, however it is budgeted;
      -- [MultiCount] ([domain_scan_d3s2_semantic_oracle.py]): the counters a scan of modes
         21 to 26 closes with; they close exactly when they satisfy arithmetic relations.
    - The schema-1 store ([domain_store_schema1_binding_vector_gen.py]):
      -- [StoreRecords]: keys, the NLR1 envelope and the digests of rows;
      -- [Export]: the portable copy of a namespace; the classifier accepts exactly what the
         encoder writes from ascending rows, and any cut or extension is refused;
      -- [Bootstrap]: the binding payload of both formats, the canonical binding a consumer
         accepts, and the bootstrap rows;
      -- [InitSnapshot]: the snapshots of a store between the groups of its initialization,
         and what they show after a commit of unknown outcome;
      -- [Kind1]: the rows of a service registration with their witness, the frame of a
         fixture, which parses back exactly, and the readers of each row.

    ** What the theorems show

    - Codecs: the encoder succeeds exactly on the arguments of its domain and raises
      otherwise; every field reads back at its offset; the record is sealed; equal bytes
      come from equal arguments; and the decoder or classifier accepts exactly what is
      framed and sealed.
    - State machines: an invariant of every reachable state, the exact effect or verdict
      of each step, and an answer to every input (no run is stuck: the functions are
      total, and their exceptions are values).
    - Commits of unknown outcome ([WifiNetwork], [CommitImage], [InitSnapshot]): the
      classification is the relation of the durable rows to the old and the new ones.
    - Where a program and the repository's documents disagree, an [Example] shows an input
      on which they do: a duplicate row in the path selection
      ([duplicate_row_selects_other]), a damaged network record ([damaged_ssid_is_valid]),
      the sequence number of an attachment record ([wrong_sequence_accepted]).  The
      theorems on the selection, on network records and on streams keep to the inputs on
      which they agree.

    ** Bounds and fuel

    Every loop follows its input (a list, or a count the code computes), so no function
    has fuel of its own.  The scanner of [DomainScan] advances by the budget its caller
    gives it, as in the code; [fault_free_scan_verdict] proves that any budget above the
    number of rows ends the scan, and [clean_scan_adopts_whole] the same of any budgets of
    a cross-row scan that sum to more.  [sha256] runs one step for each block of the padded
    message, and [sha_pad_blocks] proves that the blocks cover it.
    Integers are unbounded, as Python's; where a field has a width, [pack] raises outside
    it, and the theorems carry the range.

    ** Not modelled

    - The generators' JSON documents, C fixtures, command lines and literal tables of
      expected texts: they format what the modelled functions return.  In the snapshots
      of [CommitImage] the digests and copies of the images kept for output are left out.
    - In the attachment: EDHOC itself and its traces (a C library), the cookie (an HMAC of
      literal inputs), the legacy key-presence helper, the counters of repeated
      re-attachment, and the program's second copies of the encoders of the r6 oracle.
    - In [Mfdt]: the catalogues of cases; in [Fabric]: the literal selection vectors.
    - The gates: they search the repository's texts, archives and symbol tables and
      compare generated documents with a second implementation.
    - In the cross-row scan: the tables of vectors, the JSON references of a row and the two
      helpers that rename an existing body; the later slices of that scan, which are data
      over scanners of the same kind.
    - In the schema-1 store: the laboratory namespace, the semantic check of a group of
      registration rows with the classification of its fixtures, and the digests of
      fixtures kept for output; the full vector catalogue of the domain store.
    - The radio hardware runners, the C runtime, and vendored or generated code.

    Hexadecimal text that only transports bytes between functions is modelled as the
    bytes; a message of an exception is kept without the values interpolated in it unless
    the program returns it. *)

From stdpp Require Export prelude gmap strings.
From Stdlib Require Export ZArith Lia.

#[global] Open Scope Z_scope.

(** ** Exceptions and the error monad *)

(** The exceptions the modelled Python code raises.  A message is kept without
    the values an f-string interpolates into it, unless the program returns it. *)
Inductive exn :=
  | ValueError (msg : string)
  | RuntimeError (msg : string)
  | OverflowError (msg : string)
  | AssertionError (msg : string)
  | StructError
  | KeyError (key : string)
  | IndexError
  | StopIteration
  | SystemExit (msg : string)
  | UnicodeDecodeError
  | ZeroDivisionError.

#[export] Instance exn_eq_dec : EqDecision exn.
Proof. solve_decision. Defined.

Inductive res (A : Type) :=
  | Ok (a : A)
  | Raise (e : exn).
Arguments Ok {A} a.
Arguments Raise {A} e.

#[export] Instance res_eq_dec {A} `{EqDecision A} : EqDecision (res A).
Proof. solve_decision. Defined.

#[export] Instance res_ret : MRet res := fun A a => Ok a.
#[export] Instance res_bind : MBind res := fun A B f m =>
  match m with Ok a => f a | Raise e => Raise e end.
#[export] Instance res_fmap : FMap res := fun A B f m =>
  match m with Ok a => Ok (f a) | Raise e => Raise e end.

(** [if cond: raise e] followed by the rest of the function. *)
Definition raise_if (cond : bool) (e : exn) : res unit :=
  if cond then Raise e else Ok tt.

Definition is_ok {A} (m : res A) : bool :=
  match m with Ok _ => true | Raise _ => false end.

(** The value of a computation that is known to succeed. *)
Definition ok_or {A} (d : A) (m : res A) : A :=
  match m with Ok a => a | Raise _ => d end.

Lemma ok_or_Ok {A} (d : A) m : is_ok m = true -> m = Ok (ok_or d m).
Proof. by destruct m. Qed.

Lemma bind_Ok {A B} (m : res A) (f : A -> res B) b :
  (m ≫= f) = Ok b <-> exists a, m = Ok a /\ f a = Ok b.
Proof. destruct m; cbn; naive_solver. Qed.

Lemma raise_if_Ok cond e u : raise_if cond e = Ok u <-> cond = false.
Proof. destruct cond; cbn; [|destruct u]; naive_solver. Qed.

Lemma raise_if_then_Ok {A} cond e (k : unit -> res A) a :
  (raise_if cond e ≫= k) = Ok a <-> cond = false /\ k tt = Ok a.
Proof. destruct cond; cbn; naive_solver. Qed.

Lemma raise_if_skip {A} cond e (k : unit -> res A) : cond = false -> (raise_if cond e ≫= k) = k tt.
Proof. by intros ->. Qed.

Lemma ok_bind {A B} (a : A) (k : A -> res B) : (Ok a ≫= k) = k a.
Proof. done. Qed.

Lemma Ok_inj {A} (a b : A) : Ok a = Ok b -> a = b.
Proof. by intros [= ->]. Qed.

Lemma res_bind_assoc {A B C} (m : res A) (f : A -> res B) (g : B -> res C) :
  ((m ≫= f) ≫= g) = (m ≫= fun a => f a ≫= g).
Proof. by destruct m. Qed.

(** [inv_res] splits every successful computation in the context. *)
Ltac inv_res :=
  repeat match goal with
  | H : (raise_if _ _ ≫= _) = Ok _ |- _ =>
      apply raise_if_then_Ok in H; destruct H as [? H]; cbn beta in H
  | H : (_ ≫= _) = Ok _ |- _ =>
      apply bind_Ok in H; let a := fresh "a" in let E := fresh "E" in
      destruct H as (a & E & H); cbn beta in H
  | H : Ok _ = Ok _ |- _ => injection H as H; subst
  | H : Raise _ = Ok _ |- _ => discriminate H
  | H : mret _ = Ok _ |- _ => cbn in H; injection H as H; subst
  | H : raise_if _ _ = Ok _ |- _ => apply raise_if_Ok in H
  end.

Lemma bind_Raise {A B} (m : res A) (f : A -> res B) e :
  (m ≫= f) = Raise e <-> m = Raise e \/ exists a, m = Ok a /\ f a = Raise e.
Proof. destruct m; cbn; naive_solver. Qed.

Lemma raise_if_Raise cond e e' : raise_if cond e = Raise e' <-> cond = true /\ e' = e.
Proof. destruct cond; cbn; naive_solver. Qed.

(** [inv_raise] finds every place a failing computation may have failed at. *)
Ltac inv_raise :=
  repeat match goal with
  | H : (_ ≫= _) = Raise _ |- _ =>
      apply bind_Raise in H; let a := fresh "a" in let E := fresh "E" in
      destruct H as [H | (a & E & H)]; cbn beta in H
  | H : raise_if _ _ = Raise _ |- _ => apply raise_if_Raise in H as [? ->]
  | H : Ok _ = Raise _ |- _ => discriminate H
  | H : Raise _ = Raise _ |- _ => injection H as <-
  | H : mret _ = Raise _ |- _ => discriminate H
  | H : (if ?c then _ else _) = Raise _ |- _ => lazymatch type of c with bool => destruct c end
  end.

(** ** Booleans and integers *)

(** Verdicts of a chain of guards. *)
Lemma guard_OK (c : bool) (bad x : string) : bad <> "OK"%string -> (if c then bad else x) = "OK"%string <-> c = false /\ x = "OK"%string.
Proof. intros Hb. destruct c; naive_solver. Qed.

Lemma eqb_OK (x : string) : String.eqb x "OK" = true <-> x = "OK"%string.
Proof. apply String.eqb_eq. Qed.

Lemma decided_false {P : Prop} `{Decision P} : negb (bool_decide P) = false <-> P.
Proof. by rewrite negb_false_iff, bool_decide_eq_true. Qed.

(** [bool_to_prop] turns the boolean tests the code makes into propositions. *)
Ltac bool_to_prop :=
  repeat match goal with
  | H : _ && _ = true |- _ => apply andb_true_iff in H as [? ?]
  | H : _ || _ = false |- _ => apply orb_false_iff in H as [? ?]
  | H : negb _ = false |- _ => apply negb_false_iff in H
  | H : negb _ = true |- _ => apply negb_true_iff in H
  | H : (_ =? _) = true |- _ => apply Z.eqb_eq in H
  | H : (_ =? _) = false |- _ => apply Z.eqb_neq in H
  | H : (_ <? _) = true |- _ => apply Z.ltb_lt in H
  | H : (_ <? _) = false |- _ => apply Z.ltb_ge in H
  | H : (_ <=? _) = true |- _ => apply Z.leb_le in H
  | H : (_ <=? _) = false |- _ => apply Z.leb_gt in H
  | H : bool_decide _ = true |- _ => apply bool_decide_eq_true in H
  | H : bool_decide _ = false |- _ => apply bool_decide_eq_false in H
  | H : Is_true _ |- _ => apply Is_true_true in H
  end.

(** [in_list] decides a closed proposition by evaluating its decision. *)
Ltac in_list := apply (bool_decide_unpack _); vm_compute; exact I.

(** [case_ifs H] follows the branches of the nested conditionals of [H]. *)
Ltac case_ifs H :=
  repeat match type of H with
  | context [if ?c then _ else _] =>
      let E := fresh "E" in destruct c eqn:E; try discriminate H
  end.

Definition U8_MAX : Z := 255.
Definition U16_MAX : Z := 65535.
Definition U32_MAX : Z := 4294967295.
Definition U64_MAX : Z := 18446744073709551615.

(** [lo <= v <= hi], Python's chained comparison. *)
Definition in_range (lo hi v : Z) : bool := (lo <=? v) && (v <=? hi).

Lemma in_range_spec lo hi v : in_range lo hi v = true <-> lo <= v <= hi.
Proof. unfold in_range. rewrite andb_true_iff, !Z.leb_le. tauto. Qed.

Lemma in_range_false lo hi v : in_range lo hi v = false <-> ~ (lo <= v <= hi).
Proof. rewrite <- in_range_spec. destruct (in_range lo hi v); naive_solver. Qed.

(** Ceiling division as the code writes it. *)
Definition ceil_div (num den : Z) : Z := (num + den - 1) / den.

Lemma ceil_div_spec num den :
  0 < den -> (ceil_div num den - 1) * den < num <= ceil_div num den * den.
Proof.
  intros H. unfold ceil_div.
  pose proof (Z.div_mod (num + den - 1) den ltac:(lia)).
  pose proof (Z.mod_pos_bound (num + den - 1) den H). nia.
Qed.

Lemma ceil_div_unique num den q :
  0 < den -> (q - 1) * den < num <= q * den -> ceil_div num den = q.
Proof. intros H Hq. pose proof (ceil_div_spec num den H). nia. Qed.

Lemma ceil_div_mono a b den : 0 < den -> a <= b -> ceil_div a den <= ceil_div b den.
Proof. intros. unfold ceil_div. apply Z.div_le_mono; lia. Qed.

Lemma ceil_div_le a den q : 0 < den -> a <= q * den -> ceil_div a den <= q.
Proof. intros H Hq. pose proof (ceil_div_spec a den H). nia. Qed.

Lemma ceil_div_nonneg num den : 0 < den -> 0 <= num -> 0 <= ceil_div num den.
Proof. intros. unfold ceil_div. apply Z.div_pos; lia. Qed.

(** ** Lists *)

Lemma Forall_take_drop {A} (P : A -> Prop) n (l : list A) :
  Forall P l -> Forall P (take n l) /\ Forall P (drop n l).
Proof. intros H. split; [by apply Forall_take | by apply Forall_drop]. Qed.

Lemma app_inj_length {A} (a b c d : list A) :
  length a = length c -> a ++ b = c ++ d -> a = c /\ b = d.
Proof. intros Hl H. by apply app_inj_1. Qed.

Lemma fold_left_ext {A B} (f g : A -> B -> A) l s :
  (forall a b, f a b = g a b) -> fold_left f l s = fold_left g l s.
Proof. intros H. revert s. induction l as [|b l IH]; intros s; [done|]. cbn. by rewrite H, IH. Qed.

Create HintDb ninlil discriminated.
#[export] Hint Constants Transparent : ninlil.
#[export] Hint Resolve ceil_div_nonneg in_range_spec : ninlil.
