(* ===== verification/Order.v ===== *)
(** Total orders as comparison functions: the order of Python's integers, strings, byte
    strings and tuples, and sorting by a key. *)

From stdpp Require Import sorting.
From S2P Require Import Prelude.
#[local] Open Scope Z_scope.

(** A comparison function that decides a total order. *)
Class TotalCompare {A} (cmp : A -> A -> comparison) : Prop := {
  cmp_eq : forall x y, cmp x y = Eq <-> x = y;
  cmp_opp : forall x y, cmp y x = CompOpp (cmp x y);
  cmp_trans : forall x y z, cmp x y = Lt -> cmp y z = Lt -> cmp x z = Lt }.

(** Python compares tuples and lists of one length from the left. *)
Definition lex {A B} (f : A -> A -> comparison) (g : B -> B -> comparison) (x y : A * B) : comparison :=
  match f x.1 y.1 with Eq => g x.2 y.2 | c => c end.

#[export] Instance Z_total_compare : TotalCompare Z.compare.
Proof.
  split.
  - apply Z.compare_eq_iff.
  - intros x y. apply Z.compare_antisym.
  - intros x y z H1 H2. rewrite Z.compare_lt_iff in *. lia.
Qed.

#[export] Instance string_total_compare : TotalCompare String.compare.
Proof.
  assert (Hanti : forall x y, String.compare y x = CompOpp (String.compare x y)) by (intros; apply String.compare_antisym).
  split; [|exact Hanti|].
  { intros x y. split; [apply String.compare_eq_iff|]. intros ->. specialize (Hanti y y). by destruct (String.compare y y). }
  intros x y z H1 H2. assert (L : forall s t, String.compare s t = Lt -> String.le s t).
  { intros s t H. unfold String.le, String.leb. by rewrite H. }
  pose proof (transitivity (L x y H1) (L y z H2)) as H3. unfold String.le, String.leb in H3.
  destruct (String.compare x z) eqn:E; [|done | done]. apply String.compare_eq_iff in E as ->.
  rewrite Hanti, H2 in H1. done.
Qed.

#[export] Instance lex_total_compare {A B} (f : A -> A -> comparison) (g : B -> B -> comparison) :
  TotalCompare f -> TotalCompare g -> TotalCompare (lex f g).
Proof.
  intros Hf Hg. unfold lex. split.
  - intros [a b] [c d]. cbn. destruct (f a c) eqn:E.
    + apply cmp_eq in E as ->. rewrite cmp_eq. naive_solver.
    + split; [done|]. intros [= -> ->]. assert (f c c = Eq) by (by apply cmp_eq). congruence.
    + split; [done|]. intros [= -> ->]. assert (f c c = Eq) by (by apply cmp_eq). congruence.
  - intros [a b] [c d]. cbn. rewrite (cmp_opp a c). destruct (f a c); [apply cmp_opp | done | done].
  - intros [a b] [c d] [x y]. cbn. destruct (f a c) eqn:E1; [|intros _|done].
    + apply cmp_eq in E1 as ->. destruct (f c x); [by apply cmp_trans | done | done].
    + destruct (f c x) eqn:E2; [|intros _|done].
      * apply cmp_eq in E2 as <-. by rewrite E1.
      * by rewrite (cmp_trans _ _ _ E1 E2).
Qed.

Section CompareOrder.
Context {A} (cmp : A -> A -> comparison) `{!TotalCompare cmp}.

Definition cmp_le (x y : A) : Prop := cmp x y <> Gt.

#[export] Instance cmp_le_dec : RelDecision cmp_le.
Proof. intros x y. unfold cmp_le. destruct (cmp x y); [left | left | right]; congruence. Defined.

Lemma cmp_le_refl x : cmp_le x x.
Proof using All. unfold cmp_le. assert (cmp x x = Eq) as -> by (by apply (cmp_eq (cmp := cmp))). done. Qed.

#[export] Instance cmp_le_total : Total cmp_le.
Proof using All. intros x y. unfold cmp_le. rewrite (cmp_opp (cmp := cmp) x y). destruct (cmp x y); cbn; (left + right); congruence. Qed.

#[export] Instance cmp_le_trans : Transitive cmp_le.
Proof using All.
  intros x y z. unfold cmp_le. intros H1 H2 H3. destruct (cmp x y) eqn:E1; [|destruct (cmp y z) eqn:E2|]; try congruence.
  - apply (cmp_eq (cmp := cmp)) in E1 as ->. congruence.
  - apply (cmp_eq (cmp := cmp)) in E2 as ->. congruence.
  - rewrite (cmp_trans (cmp := cmp) _ _ _ E1 E2) in H3. congruence.
Qed.

#[export] Instance cmp_le_antisym : AntiSymm (=) cmp_le.
Proof using All.
  intros x y. unfold cmp_le. rewrite (cmp_opp (cmp := cmp) x y). destruct (cmp x y) eqn:E; cbn; try congruence. intros _ _. by apply (cmp_eq (cmp := cmp)).
Qed.
End CompareOrder.

(** ** Byte strings *)

(** Python compares byte strings byte by byte; a prefix comes first. *)
Fixpoint compare_bytes (a b : list Z) : comparison :=
  match a, b with
  | [], [] => Eq
  | [], _ :: _ => Lt
  | _ :: _, [] => Gt
  | x :: a, y :: b => match x ?= y with Eq => compare_bytes a b | c => c end
  end.

#[export] Instance bytes_total_compare : TotalCompare compare_bytes.
Proof.
  split.
  - intros x. induction x as [|a x IH]; intros [|b y]; cbn; try done.
    destruct (Z.compare_spec a b) as [-> | H | H]; [rewrite IH; naive_solver | |]; (split; [done | intros [= -> _]; lia]).
  - intros x. induction x as [|a x IH]; intros [|b y]; cbn; try done.
    rewrite (Z.compare_antisym a b). destruct (a ?= b); cbn; [apply IH | done | done].
  - intros x. induction x as [|a x IH]; intros [|b y] [|c z]; cbn; try done.
    destruct (a ?= b) eqn:E1; [|intros _ | done]; (destruct (b ?= c) eqn:E2; [|try (intros _) | done]).
    + apply Z.compare_eq_iff in E1 as ->, E2 as ->. rewrite Z.compare_refl. apply IH.
    + apply Z.compare_eq_iff in E1 as ->. by rewrite E2.
    + apply Z.compare_eq_iff in E2 as <-. intros _. by rewrite E1.
    + rewrite Z.compare_lt_iff in E1, E2. intros. by rewrite (proj2 (Z.compare_lt_iff a c)) by lia.
Qed.

(** ** Sorting by a key *)

Section SortBy.
Context {A K} (key : A -> K) (cmp : K -> K -> comparison) `{!TotalCompare cmp}.

Definition by_key (x y : A) : Prop := cmp_le cmp (key x) (key y).

#[export] Instance by_key_dec : RelDecision by_key.
Proof. intros x y. unfold by_key. apply _. Defined.
#[export] Instance by_key_total : Total by_key.
Proof using All. intros x y. unfold by_key. apply (cmp_le_total cmp). Qed.
#[export] Instance by_key_trans : Transitive by_key.
Proof using All. intros x y z. unfold by_key. apply (cmp_le_trans cmp). Qed.

(** [l.sort(key=key)]. *)
Definition sorted_by (l : list A) : list A := merge_sort by_key l.

Lemma sorted_by_spec l : StronglySorted by_key (sorted_by l) /\ sorted_by l ≡ₚ l.
Proof using All. split; [apply (StronglySorted_merge_sort _) | apply merge_sort_Permutation]. Qed.

(** Keys that differ are sorted strictly. *)
Lemma sorted_by_strict l : NoDup (map key l) -> StronglySorted (fun x y => cmp (key x) (key y) = Lt) (sorted_by l).
Proof using All.
  destruct (sorted_by_spec l) as [S P]. intros N. assert (N' : NoDup (map key (sorted_by l))) by (by rewrite P).
  clear P. revert S N'. generalize (sorted_by l). induction l0 as [|x l0 IH]; [constructor|]. intros S N'.
  apply StronglySorted_inv in S as [S H]. cbn in N'. apply NoDup_cons in N' as [Hx N']. constructor; [by apply IH|].
  rewrite Forall_forall in H |- *. intros y Hy. specialize (H y Hy). unfold by_key, cmp_le in H.
  destruct (cmp (key x) (key y)) eqn:E; [|done | done]. exfalso. apply Hx. apply (cmp_eq (cmp := cmp)) in E. rewrite E.
  rewrite list_elem_of_fmap. by exists y.
Qed.
End SortBy.
