(* ===== verification/Bytes.v ===== *)
(** Byte strings: Python's [bytes] and [bytearray] values, slices, big-endian
    [struct.pack]/[struct.unpack], hexadecimal text, and their laws. *)

From S2P Require Import Prelude.
From Stdlib Require Import Ascii.

(** A byte is an integer in [0, 255]; a byte string is a list of bytes. *)
Abbreviation bytes := (list Z).
Definition is_byte (b : Z) : Prop := 0 <= b < 256.
Definition bytes_ok (l : bytes) : Prop := Forall is_byte l.

#[export] Instance is_byte_dec b : Decision (is_byte b).
Proof. unfold is_byte. apply _. Defined.
#[export] Instance bytes_ok_dec l : Decision (bytes_ok l).
Proof. unfold bytes_ok. apply _. Defined.

(** [len(l)]. *)
Definition len {A} (l : list A) : Z := Z.of_nat (length l).

(** A bytes literal [b"..."]. *)
Definition bytes_of_string (s : string) : bytes :=
  map (fun a => Z.of_N (N_of_ascii a)) (String.list_ascii_of_string s).

(** [bytes(n)]: n zero bytes. *)
Definition zeros (n : Z) : bytes := replicate (Z.to_nat n) 0.

(** [l[lo:hi]] and [l[lo:]] for non-negative bounds. *)
Definition slice {A} (lo hi : Z) (l : list A) : list A :=
  take (Z.to_nat (hi - lo)) (drop (Z.to_nat lo) l).
Definition slice_from {A} (lo : Z) (l : list A) : list A := drop (Z.to_nat lo) l.

(** [l[i]] below a length guard. *)
Definition byte_at (i : Z) (l : bytes) : Z := default 0 (l !! Z.to_nat i).

(** [buf[lo:hi] = v] on a bytearray: the slice is replaced, whatever the
    length of [v]. *)
Definition slice_assign (lo hi : Z) (v buf : bytes) : bytes :=
  take (Z.to_nat lo) buf ++ v ++ drop (Z.to_nat (Z.max lo hi)) buf.

(** ** Big-endian integers *)

Fixpoint be_bytes (n : nat) (v : Z) : bytes :=
  match n with
  | O => []
  | S k => (v / 256 ^ Z.of_nat k) mod 256 :: be_bytes k v
  end.

Definition be_val (l : bytes) : Z := fold_left (fun acc b => acc * 256 + b) l 0.

(** [struct.pack] of one unsigned big-endian integer of [n] bytes. *)
Definition pack (n : nat) (v : Z) : res bytes :=
  if (0 <=? v) && (v <? 256 ^ Z.of_nat n) then Ok (be_bytes n v) else Raise StructError.

Definition u8 : Z -> res bytes := pack 1.
Definition u16 : Z -> res bytes := pack 2.
Definition u32 : Z -> res bytes := pack 4.
Definition u64 : Z -> res bytes := pack 8.

(** A byte stored into a bytearray: [buf[i] = v] raises outside [0, 255]. *)
Definition pybyte (v : Z) : res bytes :=
  if (0 <=? v) && (v <? 256) then Ok [v] else Raise (ValueError "byte must be in range(0, 256)").

(** [bytes((start + i) & 0xFF for i in range(length))]. *)
Definition pattern (start length : Z) : bytes :=
  map (fun i => Z.land (start + Z.of_nat i) 255) (seq 0 (Z.to_nat length)).

Definition any_nonzero (l : bytes) : bool := existsb (fun b => negb (b =? 0)) l.

(** ** Hexadecimal text: [bytes.hex] and [bytes.fromhex] *)

Definition hex_digit (d : Z) : ascii :=
  ascii_of_N (Z.to_N (if d <? 10 then 48 + d else 87 + d)).
Definition hex_of (l : bytes) : string :=
  String.string_of_list_ascii (flat_map (fun b => [hex_digit (b / 16); hex_digit (b mod 16)]) l).

Definition hex_val (a : ascii) : option Z :=
  let c := Z.of_N (N_of_ascii a) in
  if in_range 48 57 c then Some (c - 48)
  else if in_range 97 102 c then Some (c - 87)
  else if in_range 65 70 c then Some (c - 55)
  else None.

(** The white space [fromhex] skips between two bytes. *)
Definition is_space (a : ascii) : bool :=
  let c := Z.of_N (N_of_ascii a) in (c =? 32) || in_range 9 13 c.

Fixpoint from_hex_list (l : list ascii) : res bytes :=
  match l with
  | [] => Ok []
  | a :: l1 =>
      if is_space a then from_hex_list l1
      else match l1 with
           | [] => Raise (ValueError "non-hexadecimal number found")
           | b :: l2 =>
               match hex_val a, hex_val b with
               | Some h, Some d => tl ← from_hex_list l2; Ok (h * 16 + d :: tl)
               | _, _ => Raise (ValueError "non-hexadecimal number found")
               end
           end
  end.
Definition from_hex (s : string) : res bytes := from_hex_list (String.list_ascii_of_string s).

(** ** Laws of lengths and slices *)

Lemma len_nonneg {A} (l : list A) : 0 <= len l.
Proof. unfold len. lia. Qed.

Lemma len_app {A} (a b : list A) : len (a ++ b) = len a + len b.
Proof. unfold len. rewrite length_app. lia. Qed.

Lemma len_nil {A} : len (@nil A) = 0.
Proof. reflexivity. Qed.

Lemma len_cons {A} (x : A) l : len (x :: l) = 1 + len l.
Proof. unfold len. cbn [length]. lia. Qed.

(** [simpl_len] computes the lengths of concatenations. *)
Ltac simpl_len :=
  repeat (rewrite len_app in * || rewrite len_cons in * );
  repeat match goal with
  | |- context [len (@nil ?A)] => change (len (@nil A)) with 0
  | H : context [len (@nil ?A)] |- _ => change (len (@nil A)) with 0 in H
  end.

Lemma len_zeros n : 0 <= n -> len (zeros n) = n.
Proof. intros. unfold len, zeros. rewrite length_replicate. lia. Qed.

Lemma zeros_ok n : bytes_ok (zeros n).
Proof. apply Forall_replicate. split; lia. Qed.

Lemma length_be_bytes n v : length (be_bytes n v) = n.
Proof. induction n; cbn; auto. Qed.

Lemma len_be_bytes n v : len (be_bytes n v) = Z.of_nat n.
Proof. unfold len. by rewrite length_be_bytes. Qed.

Lemma len_slice {A} lo hi (l : list A) :
  0 <= lo <= hi -> hi <= len l -> len (slice lo hi l) = hi - lo.
Proof. intros. unfold len, slice in *. rewrite length_take, length_drop. lia. Qed.

Lemma slice_all {A} (l : list A) : slice 0 (len l) l = l.
Proof. unfold slice, len. change (drop (Z.to_nat 0) l) with l. apply take_ge. lia. Qed.

Lemma slice_app_l {A} lo hi (a b : list A) :
  0 <= lo <= hi -> hi <= len a -> slice lo hi (a ++ b) = slice lo hi a.
Proof.
  unfold len, slice. intros.
  rewrite drop_app_le by lia. rewrite take_app_le; [done | rewrite length_drop; lia].
Qed.

Lemma slice_app_r {A} lo hi (a b : list A) :
  len a <= lo -> slice lo hi (a ++ b) = slice (lo - len a) (hi - len a) b.
Proof.
  unfold len, slice. intros. rewrite drop_app_ge by lia. f_equal; [lia|]. f_equal. lia.
Qed.

Lemma slice_app_exact {A} hi (a b : list A) : hi = len a -> slice 0 hi (a ++ b) = a.
Proof. intros ->. rewrite slice_app_l; [apply slice_all | pose proof (len_nonneg a); lia | lia]. Qed.

Lemma slice_app_skip {A} lo hi (a b : list A) :
  lo = len a -> hi = lo + len b -> slice lo hi (a ++ b) = b.
Proof. intros -> ->. rewrite slice_app_r by lia. rewrite Z.sub_diag.
  replace (len a + len b - len a) with (len b) by lia. apply slice_all. Qed.

Lemma slice_slice {A} a b c d (l : list A) :
  0 <= a -> 0 <= c <= d -> d <= b - a -> slice c d (slice a b l) = slice (a + c) (a + d) l.
Proof.
  intros. unfold slice. rewrite skipn_firstn_comm, take_take, drop_drop. f_equal; [lia|]. f_equal; lia.
Qed.

Lemma slice_split {A} lo mid hi (l : list A) :
  0 <= lo <= mid -> mid <= hi -> slice lo hi l = slice lo mid l ++ slice mid hi l.
Proof.
  intros. unfold slice.
  replace (Z.to_nat mid) with (Z.to_nat lo + Z.to_nat (mid - lo))%nat by lia.
  rewrite <- drop_drop.
  rewrite <- (take_drop (Z.to_nat (mid - lo)) (take (Z.to_nat (hi - lo)) (drop (Z.to_nat lo) l))).
  rewrite take_take, skipn_firstn_comm. f_equal; [f_equal; lia | f_equal; lia].
Qed.

Lemma slice_from_app {A} (a b : list A) n : n = len a -> slice_from n (a ++ b) = b.
Proof. intros ->. unfold slice_from, len. rewrite drop_app_ge by lia. by replace (_ - _)%nat with 0%nat by lia. Qed.

Lemma bytes_ok_app a b : bytes_ok (a ++ b) <-> bytes_ok a /\ bytes_ok b.
Proof. apply Forall_app. Qed.

Lemma bytes_ok_slice lo hi l : bytes_ok l -> bytes_ok (slice lo hi l).
Proof. intros. by apply Forall_take, Forall_drop. Qed.

Lemma be_bytes_ok n v : bytes_ok (be_bytes n v).
Proof. induction n; constructor; [apply Z.mod_pos_bound; lia | done]. Qed.

Lemma slice_single l i : 0 <= i < len l -> slice i (i + 1) l = [byte_at i l].
Proof.
  unfold slice, byte_at, len. intros.
  replace (Z.to_nat (i + 1 - i)) with 1%nat by lia.
  destruct (lookup_lt_is_Some_2 l (Z.to_nat i)) as [x Hx]; [lia|].
  rewrite (drop_S l x) by done. by rewrite Hx.
Qed.
Lemma byte_at_val i (m : bytes) : 0 <= i < len m -> be_val (slice i (i + 1) m) = byte_at i m.
Proof. intros H. rewrite slice_single by done. unfold be_val. cbn [fold_left]. lia. Qed.

Lemma byte_at_slice l i lo hi :
  0 <= lo -> 0 <= i < hi - lo -> byte_at i (slice lo hi l) = byte_at (lo + i) l.
Proof.
  intros. unfold byte_at, slice. rewrite lookup_take_lt by lia.
  rewrite lookup_drop. do 2 f_equal. lia.
Qed.

Lemma byte_at_ok i l : bytes_ok l -> is_byte (byte_at i l).
Proof.
  intros H. unfold byte_at. destruct (l !! _) as [x|] eqn:E; cbn; [|split; lia].
  by eapply Forall_lookup_1 in H.
Qed.

#[export] Hint Resolve len_nonneg bytes_ok_slice be_bytes_ok zeros_ok byte_at_ok : ninlil.

(** ** Laws of slice assignment *)

Lemma len_slice_assign lo hi v buf :
  0 <= lo <= hi -> hi <= len buf -> len v = hi - lo -> len (slice_assign lo hi v buf) = len buf.
Proof.
  intros. unfold slice_assign, len in *.
  rewrite !length_app, length_take, length_drop. lia.
Qed.

Lemma slice_assign_read lo hi v buf :
  0 <= lo <= hi -> hi <= len buf -> len v = hi - lo -> slice lo hi (slice_assign lo hi v buf) = v.
Proof.
  intros. unfold slice_assign.
  rewrite slice_app_r; unfold len in *; rewrite length_take; [|lia].
  rewrite slice_app_l; unfold len; [|lia..].
  replace (lo - _) with 0 by lia. replace (hi - _) with (len v) by (unfold len; lia).
  apply slice_all.
Qed.

Lemma slice_assign_other lo hi v buf a b :
  0 <= lo <= hi -> hi <= len buf -> len v = hi - lo ->
  0 <= a <= b -> b <= lo \/ hi <= a -> slice a b (slice_assign lo hi v buf) = slice a b buf.
Proof.
  intros Hlo Hhi Hv Hab [Hb | Ha]; unfold slice_assign.
  - rewrite slice_app_l; [|lia|unfold len in *; rewrite length_take; lia].
    unfold slice. rewrite skipn_firstn_comm, take_take. f_equal. lia.
  - rewrite app_assoc, slice_app_r; unfold len in *; rewrite length_app, length_take; [|lia].
    unfold slice. rewrite drop_drop. f_equal; [lia|]. f_equal. lia.
Qed.

Lemma slice_assign_twice lo hi v w buf :
  0 <= lo <= hi -> hi <= len buf -> len v = hi - lo ->
  slice_assign lo hi w (slice_assign lo hi v buf) = slice_assign lo hi w buf.
Proof.
  intros. unfold slice_assign, len in *. rewrite Z.max_r by lia. f_equal.
  - rewrite take_app_le by (rewrite length_take; lia). rewrite take_take. f_equal. lia.
  - f_equal. rewrite app_assoc, drop_app_ge by (rewrite length_app, length_take; lia).
    rewrite drop_drop. f_equal. rewrite length_app, length_take. lia.
Qed.

Lemma slice_assign_ok lo hi v buf : bytes_ok v -> bytes_ok buf -> bytes_ok (slice_assign lo hi v buf).
Proof. intros. unfold slice_assign. repeat apply Forall_app_2; auto using Forall_take, Forall_drop. Qed.

(** ** Laws of big-endian integers *)

Lemma be_val_app_acc l acc : fold_left (fun a b => a * 256 + b) l acc = acc * 256 ^ len l + be_val l.
Proof.
  unfold be_val. revert acc.
  assert (H : forall acc d, fold_left (fun a b => a * 256 + b) l (acc + d)
            = acc * 256 ^ len l + fold_left (fun a b => a * 256 + b) l d).
  { induction l as [|b l IH]; intros acc d; cbn [fold_left]; [rewrite len_nil; lia|].
    replace ((acc + d) * 256 + b) with (acc * 256 + (d * 256 + b)) by ring.
    rewrite IH, len_cons, Z.pow_add_r by (pose proof (len_nonneg l); lia). lia. }
  intros acc. rewrite <- (Z.add_0_r acc) at 1. apply H.
Qed.

Lemma be_val_app a b : be_val (a ++ b) = be_val a * 256 ^ len b + be_val b.
Proof. unfold be_val at 1. rewrite fold_left_app. apply be_val_app_acc. Qed.

Lemma be_val_cons x l : be_val (x :: l) = x * 256 ^ len l + be_val l.
Proof. unfold be_val at 1. cbn [fold_left]. rewrite be_val_app_acc. lia. Qed.

Lemma be_val_bounds l : bytes_ok l -> 0 <= be_val l < 256 ^ len l.
Proof.
  induction 1 as [|b l Hb Hl IH]; [unfold len; cbn; lia|].
  rewrite be_val_cons, len_cons, Z.pow_add_r by (pose proof (len_nonneg l); lia).
  unfold is_byte in Hb. nia.
Qed.

Lemma be_val_be_bytes n v : be_val (be_bytes n v) = v mod 256 ^ Z.of_nat n.
Proof.
  induction n as [|n IH]; [cbn; by rewrite Z.mod_1_r|].
  cbn [be_bytes]. rewrite be_val_cons, IH, len_be_bytes, Nat2Z.inj_succ, Z.pow_succ_r by lia.
  rewrite (Z.mul_comm 256), Z.rem_mul_r; lia.
Qed.

Lemma be_bytes_be_val l : bytes_ok l -> be_bytes (length l) (be_val l) = l.
Proof.
  intros H.
  assert (Hgen : forall m, be_bytes (length l) (m * 256 ^ len l + be_val l) = l).
  { induction H as [|b l Hb Hl IH]; intros m; [done|]. cbn [length be_bytes].
    pose proof (be_val_bounds l Hl). pose proof (len_nonneg l).
    fold (len l). rewrite be_val_cons, len_cons, Z.pow_add_r by lia.
    f_equal.
    - replace (m * (256 ^ 1 * 256 ^ len l) + (b * 256 ^ len l + be_val l))
        with (be_val l + (m * 256 + b) * 256 ^ len l) by ring.
      rewrite Z.div_add, (Z.div_small (be_val l)) by lia.
      replace (0 + (m * 256 + b)) with (b + m * 256) by ring.
      rewrite Z.mod_add by lia. by apply Z.mod_small.
    - replace (m * (256 ^ 1 * 256 ^ len l) + (b * 256 ^ len l + be_val l))
        with ((m * 256 + b) * 256 ^ len l + be_val l) by ring. apply IH. }
  specialize (Hgen 0). by rewrite Z.mul_0_l, Z.add_0_l in Hgen.
Qed.

Lemma be_val_inj a b : bytes_ok a -> bytes_ok b -> len a = len b -> be_val a = be_val b -> a = b.
Proof.
  intros Ha Hb Hl Hv. rewrite <- (be_bytes_be_val a Ha), <- (be_bytes_be_val b Hb), Hv.
  f_equal. unfold len in Hl. lia.
Qed.

Lemma pack_Ok n v l :
  pack n v = Ok l <-> 0 <= v < 256 ^ Z.of_nat n /\ l = be_bytes n v.
Proof.
  unfold pack. destruct (_ && _) eqn:E.
  - bool_to_prop. naive_solver.
  - apply andb_false_iff in E. rewrite Z.leb_gt, Z.ltb_ge in E. split; [done|lia].
Qed.

Lemma pack_val n v l : pack n v = Ok l -> be_val l = v.
Proof. rewrite pack_Ok. intros [H ->]. rewrite be_val_be_bytes. by apply Z.mod_small. Qed.

Lemma pack_len n v l : pack n v = Ok l -> len l = Z.of_nat n.
Proof. rewrite pack_Ok. intros [_ ->]. apply len_be_bytes. Qed.

Lemma pack_ok n v l : pack n v = Ok l -> bytes_ok l.
Proof. rewrite pack_Ok. intros [_ ->]. apply be_bytes_ok. Qed.

Lemma pack_total n v : 0 <= v < 256 ^ Z.of_nat n -> pack n v = Ok (be_bytes n v).
Proof. intros. by apply pack_Ok. Qed.

Lemma pack_inj n v w : 0 <= v < 256 ^ Z.of_nat n -> pack n v = pack n w -> v = w.
Proof. intros H E. rewrite (pack_total n v H) in E. symmetry in E. apply pack_val in E. rewrite be_val_be_bytes, Z.mod_small in E by done. done. Qed.

Lemma be_bytes_inj n v w : 0 <= v < 256 ^ Z.of_nat n -> 0 <= w < 256 ^ Z.of_nat n -> be_bytes n v = be_bytes n w -> v = w.
Proof. intros Hv Hw E. apply (pack_inj n); [done|]. by rewrite !pack_total, E by done. Qed.

Lemma pack_be_val n l : bytes_ok l -> length l = n -> pack n (be_val l) = Ok l.
Proof.
  intros H <-. apply pack_Ok. pose proof (be_val_bounds l H). unfold len in *.
  split; [done|]. by rewrite be_bytes_be_val.
Qed.

Lemma be_bytes_slice n lo hi l v :
  bytes_ok l -> 0 <= lo -> hi = lo + Z.of_nat n -> hi <= len l -> be_val (slice lo hi l) = v ->
  be_bytes n v = slice lo hi l.
Proof.
  intros H Hlo Hhi Hl <-. rewrite <- (be_bytes_be_val (slice lo hi l)) at 2 by auto with ninlil.
  f_equal. pose proof (len_slice lo hi l ltac:(lia) Hl) as E. unfold len in E. lia.
Qed.

Lemma pack_bind {A} n v (k : bytes -> res A) :
  0 <= v < 256 ^ Z.of_nat n -> (pack n v ≫= k) = k (be_bytes n v).
Proof. intros. by rewrite pack_total. Qed.

(** [pack_range] evaluates the width of a field in its range condition. *)
Ltac pack_range :=
  match goal with
  | |- _ <= _ < 256 ^ Z.of_nat ?n =>
      let v := eval vm_compute in (256 ^ Z.of_nat n) in change (256 ^ Z.of_nat n) with v
  end.

Lemma pybyte_Ok v l : pybyte v = Ok l <-> is_byte v /\ l = [v].
Proof.
  unfold pybyte, is_byte. destruct (_ && _) eqn:E.
  - bool_to_prop. naive_solver.
  - apply andb_false_iff in E. rewrite Z.leb_gt, Z.ltb_ge in E. split; [done|lia].
Qed.

Lemma len_pattern start n : 0 <= n -> len (pattern start n) = n.
Proof. intros. unfold len, pattern. rewrite length_map, length_seq. lia. Qed.

Lemma land_255_byte v : is_byte (Z.land v 255).
Proof. change 255 with (Z.ones 8). rewrite Z.land_ones by lia. apply Z.mod_pos_bound. lia. Qed.

Lemma pattern_ok start n : bytes_ok (pattern start n).
Proof. apply Forall_forall. intros x Hx%list_elem_of_In%in_map_iff. destruct Hx as (i & <- & _). apply land_255_byte. Qed.

Lemma bytes_of_string_ok s : bytes_ok (bytes_of_string s).
Proof.
  apply Forall_forall. intros x Hx%list_elem_of_In%in_map_iff. destruct Hx as (a & <- & _).
  pose proof (N_ascii_bounded a). split; lia.
Qed.

Lemma any_nonzero_false l : any_nonzero l = false <-> l = zeros (len l).
Proof.
  unfold any_nonzero, zeros, len. rewrite Nat2Z.id. induction l as [|b l IH]; [done|].
  cbn. rewrite orb_false_iff, negb_false_iff, Z.eqb_eq, IH. split.
  - intros [-> Hl]. by f_equal.
  - intros [= -> Hl]. done.
Qed.

#[export] Hint Resolve pattern_ok bytes_of_string_ok land_255_byte pack_len pack_ok : ninlil.

(** ** Laws of hexadecimal text *)

Lemma hex_digit_val d : 0 <= d < 16 -> hex_val (hex_digit d) = Some d /\ is_space (hex_digit d) = false.
Proof.
  intros H. assert (Hd : d ∈ [0;1;2;3;4;5;6;7;8;9;10;11;12;13;14;15]).
  { destruct (decide (d ∈ [0;1;2;3;4;5;6;7;8;9;10;11;12;13;14;15])) as [|Hn]; [done|].
    exfalso. rewrite !not_elem_of_cons in Hn. lia. }
  repeat (apply elem_of_cons in Hd as [-> | Hd]; [by vm_compute|]). by apply not_elem_of_nil in Hd.
Qed.

Lemma from_hex_hex_of l : bytes_ok l -> from_hex (hex_of l) = Ok l.
Proof.
  intros H. unfold from_hex, hex_of. rewrite String.list_ascii_of_string_of_list_ascii.
  induction H as [|b l Hb Hl IH]; [done|]. cbn [flat_map app from_hex_list].
  unfold is_byte in Hb.
  pose proof (Z.div_mod b 16 ltac:(lia)). pose proof (Z.mod_pos_bound b 16 ltac:(lia)).
  destruct (hex_digit_val (b / 16)) as [-> ->]; [lia|].
  destruct (hex_digit_val (b mod 16)) as [-> _]; [lia|].
  rewrite IH. cbn. do 2 f_equal. lia.
Qed.

(** ** Reading slices of concatenations *)

Lemma slice_whole {A} lo hi (l : list A) : lo = 0 -> hi = len l -> slice lo hi l = l.
Proof. intros -> ->. apply slice_all. Qed.

Lemma slice_from_slice {A} lo (l : list A) : 0 <= lo <= len l -> slice_from lo l = slice lo (len l) l.
Proof.
  intros. unfold slice_from, slice. rewrite take_ge; [done|]. rewrite length_drop. unfold len in *. lia.
Qed.

Lemma byte_at_app_l i a b : 0 <= i < len a -> byte_at i (a ++ b) = byte_at i a.
Proof. intros. unfold byte_at. rewrite lookup_app_l; [done|]. unfold len in *. lia. Qed.

Lemma byte_at_app_r i a b : len a <= i -> byte_at i (a ++ b) = byte_at (i - len a) b.
Proof.
  intros. unfold byte_at. rewrite lookup_app_r by (unfold len in *; lia).
  do 2 f_equal. unfold len. lia.
Qed.

Create Rewrite HintDb lens.
#[export] Hint Rewrite @len_app @len_cons @len_be_bytes : lens.
#[export] Hint Rewrite @len_zeros using lia : lens.
#[export] Hint Rewrite len_pattern using lia : lens.

Ltac simpl_lens := autorewrite with lens in *; simpl_len.
Ltac solve_len := try done; simpl_lens; lia.

(** [read_slices] locates every slice and index of a concatenation. *)
Ltac read_slices :=
  repeat first
    [ rewrite slice_whole by solve_len
    | rewrite slice_app_l by solve_len
    | rewrite slice_app_r by solve_len
    | rewrite byte_at_app_l by solve_len
    | rewrite byte_at_app_r by solve_len ].

(** [solve_bytes] proves that a byte string built from known pieces is one. *)
Ltac solve_bytes :=
  unfold bytes_ok in *;
  repeat first
    [ assumption
    | match goal with
      | |- Forall is_byte (_ ++ _) => apply Forall_app_2
      | |- Forall is_byte [] => apply Forall_nil_2
      | |- Forall is_byte (_ :: _) => apply Forall_cons_2
      | |- Forall is_byte (be_bytes _ _) => apply be_bytes_ok
      | |- Forall is_byte (zeros _) => apply zeros_ok
      | |- Forall is_byte (pattern _ _) => apply pattern_ok
      | |- Forall is_byte (bytes_of_string _) => apply bytes_of_string_ok
      | |- Forall is_byte (slice _ _ _) => apply bytes_ok_slice
      | |- is_byte (Z.land _ 255) => apply land_255_byte
      | |- is_byte _ => unfold is_byte in *; lia
      end ].

(** ** Windows *)

(** Two byte strings of one length that agree before, inside and after a window are equal. *)
Lemma window_eq lo hi (a b : bytes) :
  0 <= lo <= hi -> hi <= len a -> len a = len b -> slice 0 lo a = slice 0 lo b -> slice lo hi a = slice lo hi b ->
  slice hi (len a) a = slice hi (len b) b -> a = b.
Proof.
  intros Hlo Hhi Hl H1 H2 H3.
  assert (C : forall m : bytes, len m = len a -> m = slice 0 lo m ++ slice lo hi m ++ slice hi (len m) m).
  { intros m Hm. rewrite <- !slice_split by lia. by rewrite slice_all. }
  rewrite (C a eq_refl), (C b (eq_sym Hl)). by rewrite H1, H2, H3.
Qed.

Lemma slice_assign_parts lo hi (v m : bytes) :
  0 <= lo <= hi -> hi <= len m -> slice_assign lo hi v m = slice 0 lo m ++ v ++ slice hi (len m) m.
Proof.
  intros Hlo Hhi. unfold slice_assign. rewrite Z.max_r by lia. f_equal.
  - unfold slice. cbn. f_equal. lia.
  - f_equal. unfold slice. rewrite take_ge; [done|]. rewrite length_drop. unfold len. lia.
Qed.

(** Writing one window into strings that agree outside it. *)
Lemma slice_assign_same lo hi (v a b : bytes) :
  0 <= lo <= hi -> hi <= len a -> len a = len b -> slice 0 lo a = slice 0 lo b -> slice hi (len a) a = slice hi (len b) b ->
  slice_assign lo hi v a = slice_assign lo hi v b.
Proof. intros Hlo Hhi Hl H1 H2. rewrite !slice_assign_parts by lia. by rewrite H1, H2. Qed.

(** ** Values that fit a field *)

Definition raw (n : Z) (v : bytes) : Prop := len v = n /\ bytes_ok v.
Definition u16_ok (v : Z) : Prop := 0 <= v < 65536.
Definition u32_ok (v : Z) : Prop := 0 <= v < 4294967296.
Definition u64_ok (v : Z) : Prop := 0 <= v < 18446744073709551616.

#[export] Instance raw_dec n v : Decision (raw n v).
Proof. unfold raw. apply _. Defined.
#[export] Instance u16_ok_dec v : Decision (u16_ok v).
Proof. unfold u16_ok. apply _. Defined.
#[export] Instance u32_ok_dec v : Decision (u32_ok v).
Proof. unfold u32_ok. apply _. Defined.
#[export] Instance u64_ok_dec v : Decision (u64_ok v).
Proof. unfold u64_ok. apply _. Defined.

Lemma raw_zeros n : 0 <= n -> raw n (zeros n).
Proof. intros. split; [by apply len_zeros | apply zeros_ok]. Qed.
Lemma raw_pattern s n : 0 <= n -> raw n (pattern s n).
Proof. intros. split; [by apply len_pattern | apply pattern_ok]. Qed.
Lemma raw_app n k a b : raw n a -> raw k b -> raw (n + k) (a ++ b).
Proof. intros [La Ha] [Lb Hb]. split; [rewrite len_app; lia | by apply bytes_ok_app]. Qed.

(** ** Integers read from a byte string *)

Lemma be_val_u16 v : 0 <= v < 65536 -> be_val (be_bytes 2 v) = v.
Proof. intros. rewrite be_val_be_bytes. apply Z.mod_small. by pack_range. Qed.
Lemma be_val_u32 v : 0 <= v < 4294967296 -> be_val (be_bytes 4 v) = v.
Proof. intros. rewrite be_val_be_bytes. apply Z.mod_small. by pack_range. Qed.
Lemma be_val_16 a lo : bytes_ok a -> 0 <= lo -> lo + 2 <= len a -> 0 <= be_val (slice lo (lo + 2) a) < 65536.
Proof.
  intros Ha H1 H2. pose proof (be_val_bounds (slice lo (lo + 2) a) ltac:(auto with ninlil)) as Hb.
  rewrite len_slice in Hb by lia. by replace (lo + 2 - lo) with 2 in Hb by lia.
Qed.
