(* ===== verification/Crc.v ===== *)
(** CRC-32C (Castagnoli, reflected) in the two spellings the tools use, and the
    theory the frame codecs rely on: it is a 32-bit value, the two spellings
    agree, and it detects every change confined to four consecutive bytes. *)

From S2P Require Import Prelude Bytes.

Definition CRC_POLY : Z := 0x82F63B78.

(** ** The two spellings *)

(** [crc = (crc >> 1) ^ POLY] if the low bit is set, else [crc >>= 1]. *)
Definition crc_shift (crc : Z) : Z :=
  if negb (Z.land crc 1 =? 0) then Z.lxor (Z.shiftr crc 1) CRC_POLY else Z.shiftr crc 1.

Definition crc_byte (crc b : Z) : Z := Nat.iter 8 crc_shift (Z.lxor crc b).

Definition crc32c (data : bytes) : Z :=
  Z.land (Z.lnot (fold_left crc_byte data 0xFFFFFFFF)) 0xFFFFFFFF.

(** [crc = (crc >> 1) ^ (POLY if crc & 1 else 0)], and [crc ^ 0xFFFFFFFF]. *)
Definition crc_shift_masked (crc : Z) : Z :=
  Z.lxor (Z.shiftr crc 1) (if negb (Z.land crc 1 =? 0) then CRC_POLY else 0).

Definition crc_byte_masked (crc octet : Z) : Z := Nat.iter 8 crc_shift_masked (Z.lxor crc octet).

Definition crc32c_xorout (value : bytes) : Z :=
  Z.lxor (fold_left crc_byte_masked value 0xFFFFFFFF) 0xFFFFFFFF.

(** What a frame codec needs of its checksum. *)
Class Checksum32 (ck : bytes -> Z) := {
  ck_range : forall m, bytes_ok m -> 0 <= ck m <= U32_MAX;
  ck_burst : forall pre w w' post,
    bytes_ok (pre ++ w ++ post) -> bytes_ok w' -> length w = length w' -> (length w <= 4)%nat ->
    ck (pre ++ w ++ post) = ck (pre ++ w' ++ post) -> w = w'
}.

(** ** The shift register is linear and invertible *)

Definition is32 (c : Z) : Prop := 0 <= c < 2 ^ 32.

Lemma low_bit c : negb (Z.land c 1 =? 0) = Z.odd c.
Proof.
  change 1 with (Z.ones 1). rewrite Z.land_ones by lia. change (2 ^ 1) with 2.
  rewrite Zmod_odd. by destruct (Z.odd c).
Qed.

Lemma crc_shift_odd c : crc_shift c = Z.lxor (Z.shiftr c 1) (if Z.odd c then CRC_POLY else 0).
Proof. unfold crc_shift. rewrite low_bit. destruct (Z.odd c); [done|by rewrite Z.lxor_0_r]. Qed.

Lemma crc_shift_masked_eq c : crc_shift_masked c = crc_shift c.
Proof. rewrite crc_shift_odd. unfold crc_shift_masked. by rewrite low_bit. Qed.

Lemma log2_below n x : 0 < n -> 0 <= x < 2 ^ n -> Z.log2 x < n.
Proof.
  intros Hn Hx. destruct (decide (x = 0)) as [->|]; [by cbn|]. apply Z.log2_lt_pow2; lia.
Qed.

Lemma iter_shift_masked_eq n c : Nat.iter n crc_shift_masked c = Nat.iter n crc_shift c.
Proof. induction n as [|n IH]; [done|]. by rewrite !Nat.iter_succ, IH, crc_shift_masked_eq. Qed.

Lemma lxor_bound n a b : 0 < n -> 0 <= a < 2 ^ n -> 0 <= b < 2 ^ n -> 0 <= Z.lxor a b < 2 ^ n.
Proof.
  intros Hn Ha Hb. assert (Hnn : 0 <= Z.lxor a b) by (apply Z.lxor_nonneg; lia).
  split; [done|]. destruct (decide (Z.lxor a b = 0)) as [->|Hne]; [apply Z.pow_pos_nonneg; lia|].
  apply Z.log2_lt_pow2; [lia|]. pose proof (Z.log2_lxor a b ltac:(lia) ltac:(lia)).
  pose proof (log2_below n a Hn Ha). pose proof (log2_below n b Hn Hb). lia.
Qed.

Lemma crc_shift_is32 c : is32 c -> is32 (crc_shift c).
Proof.
  intros H. rewrite crc_shift_odd. apply lxor_bound; [lia| |destruct (Z.odd c); unfold CRC_POLY; lia].
  rewrite Z.shiftr_div_pow2 by lia. unfold is32 in H. change (2 ^ 1) with 2.
  pose proof (Z.div_mod c 2 ltac:(lia)). pose proof (Z.mod_pos_bound c 2 ltac:(lia)).
  change (2 ^ 32) with 4294967296 in *. lia.
Qed.

Lemma odd_lxor a b : Z.odd (Z.lxor a b) = xorb (Z.odd a) (Z.odd b).
Proof. rewrite <- !Z.bit0_odd. apply Z.lxor_spec. Qed.

Lemma crc_shift_linear a b : crc_shift (Z.lxor a b) = Z.lxor (crc_shift a) (crc_shift b).
Proof.
  rewrite !crc_shift_odd, odd_lxor, Z.shiftr_lxor.
  apply Z.bits_inj'. intros n _. rewrite !Z.lxor_spec.
  destruct (Z.odd a), (Z.odd b); cbn [xorb]; rewrite ?Z.bits_0;
    destruct (Z.testbit (Z.shiftr a 1) n), (Z.testbit (Z.shiftr b 1) n),
      (Z.testbit CRC_POLY n); done.
Qed.

Lemma crc_shift_zero c : is32 c -> crc_shift c = 0 -> c = 0.
Proof.
  intros H. rewrite crc_shift_odd. unfold is32 in H.
  rewrite Z.shiftr_div_pow2 by lia. change (2 ^ 1) with 2.
  pose proof (Z.div_mod c 2 ltac:(lia)) as Hdm.
  rewrite Zmod_odd in Hdm. destruct (Z.odd c) eqn:Ho; intros E.
  - apply Z.lxor_eq in E. unfold CRC_POLY in E. change (2 ^ 32) with 4294967296 in H. lia.
  - rewrite Z.lxor_0_r in E. lia.
Qed.

Lemma crc_shift_double x : crc_shift (x * 2) = x.
Proof.
  rewrite crc_shift_odd. rewrite Z.odd_mul, andb_false_r, Z.lxor_0_r.
  rewrite Z.shiftr_div_pow2 by lia. change (2 ^ 1) with 2. by rewrite Z.div_mul.
Qed.

Section Iterated.
Context (n : nat).
Local Abbreviation L := (Nat.iter n crc_shift).

Lemma iter_shift_is32 c : is32 c -> is32 (L c).
Proof. intros. induction n; cbn; auto using crc_shift_is32. Qed.

Lemma iter_shift_linear a b : L (Z.lxor a b) = Z.lxor (L a) (L b).
Proof. induction n as [|k IH]; [done|]. by rewrite !Nat.iter_succ, IH, crc_shift_linear. Qed.

Lemma iter_shift_inj a b : is32 a -> is32 b -> L a = L b -> a = b.
Proof.
  intros Ha Hb E. apply Z.lxor_eq.
  assert (Hab : is32 (Z.lxor a b)) by (apply lxor_bound; [lia|done..]).
  assert (E0 : L (Z.lxor a b) = 0) by (rewrite iter_shift_linear, E; apply Z.lxor_nilpotent).
  clear E Ha Hb. revert E0. revert Hab. generalize (Z.lxor a b). clear a b.
  induction n as [|k IH]; intros c Hc E; [done|]. apply IH; [done|].
  apply crc_shift_zero; [|done].
  clear E IH. induction k; cbn; auto using crc_shift_is32.
Qed.
End Iterated.

Lemma iter_shift_pow2 n x : Nat.iter n crc_shift (x * 2 ^ Z.of_nat n) = x.
Proof.
  revert x. induction n as [|n IH]; intros x; [cbn; lia|].
  rewrite Nat.iter_succ_r. rewrite Nat2Z.inj_succ, Z.pow_succ_r by lia.
  replace (x * (2 * 2 ^ Z.of_nat n)) with (x * 2 ^ Z.of_nat n * 2) by ring.
  rewrite crc_shift_double. apply IH.
Qed.

(** ** Messages *)

Lemma crc_byte_is32 c b : is32 c -> is_byte b -> is32 (crc_byte c b).
Proof.
  intros Hc Hb. apply iter_shift_is32, lxor_bound; [lia|done|].
  unfold is_byte in Hb. change (2 ^ 32) with 4294967296. lia.
Qed.

Lemma crc_fold_is32 l c : is32 c -> bytes_ok l -> is32 (fold_left crc_byte l c).
Proof. intros Hc Hl. revert c Hc. induction Hl; intros c Hc; cbn [fold_left]; auto using crc_byte_is32. Qed.

Lemma crc_fold_inj l c d :
  is32 c -> is32 d -> bytes_ok l -> fold_left crc_byte l c = fold_left crc_byte l d -> c = d.
Proof.
  intros Hc Hd Hl. revert c d Hc Hd. induction Hl as [|b l Hb Hl IH]; intros c d Hc Hd E; [done|].
  cbn [fold_left] in E. apply IH in E; auto using crc_byte_is32.
  assert (H : Z.lxor c b = Z.lxor d b).
  { unfold is_byte in Hb. apply (iter_shift_inj 8); [| |exact E];
      apply lxor_bound; change (2 ^ 32) with 4294967296; unfold is32 in *; lia. }
  apply (f_equal (fun x => Z.lxor x b)) in H.
  by rewrite !Z.lxor_assoc, !Z.lxor_nilpotent, !Z.lxor_0_r in H.
Qed.

(** The little-endian value of a short window of bytes. *)
Fixpoint le_val (l : bytes) : Z := match l with [] => 0 | b :: l => Z.lxor b (le_val l * 2 ^ 8) end.

Lemma le_val_bound l : bytes_ok l -> 0 <= le_val l < 2 ^ (8 * len l).
Proof.
  induction 1 as [|b l Hb Hl IH]; [unfold len; cbn; lia|]. cbn [le_val].
  rewrite len_cons. pose proof (len_nonneg l). unfold is_byte in Hb.
  apply lxor_bound; [lia| |]; replace (8 * (1 + len l)) with (8 + 8 * len l) by ring;
    rewrite Z.pow_add_r by lia; change (2 ^ 8) with 256; [|nia].
  assert (0 < 2 ^ (8 * len l)) by (apply Z.pow_pos_nonneg; lia). nia.
Qed.

Lemma le_val_inj a b : bytes_ok a -> bytes_ok b -> length a = length b -> le_val a = le_val b -> a = b.
Proof.
  intros Ha. revert b. induction Ha as [|x a Hx Ha IH]; intros [|y b] Hb Hl E; try done.
  apply Forall_cons in Hb as [Hy Hb]. cbn [le_val] in E.
  assert (Hlow : forall z t, is_byte z -> 0 <= t -> Z.lxor z (t * 2 ^ 8) = z + t * 2 ^ 8).
  { intros z t Hz Ht. unfold is_byte in Hz. symmetry. apply Z.add_nocarry_lxor.
    rewrite <- (Z.mod_small z (2 ^ 8)) by (change (2 ^ 8) with 256; lia).
    rewrite <- Z.land_ones, <- Z.land_assoc by lia. rewrite (Z.land_comm (Z.ones 8)).
    rewrite Z.land_ones, Z.mod_mul by lia. apply Z.land_0_r. }
  pose proof (le_val_bound a Ha). pose proof (le_val_bound b Hb).
  rewrite !Hlow in E by (done || lia). unfold is_byte in *. change (2 ^ 8) with 256 in E.
  assert (x = y /\ le_val a = le_val b) as [-> ?] by lia.
  f_equal. apply IH; auto.
Qed.

Lemma crc_fold_window w s :
  bytes_ok w -> (length w <= 4)%nat ->
  fold_left crc_byte w s = Nat.iter (8 * length w) crc_shift (Z.lxor s (le_val w)).
Proof.
  intros Hw. revert s. induction Hw as [|b w Hb Hw IH]; intros s Hl.
  - cbn. by rewrite Z.lxor_0_r.
  - cbn [fold_left le_val length] in *. rewrite IH by lia. unfold crc_byte.
    replace (8 * S (length w))%nat with (8 * length w + 8)%nat by lia.
    rewrite Nat.iter_add. f_equal.
    rewrite (iter_shift_linear 8 s), (iter_shift_linear 8 s), (iter_shift_linear 8 b).
    rewrite (iter_shift_pow2 8). by rewrite Z.lxor_assoc.
Qed.

Lemma crc_fold_burst s w w' :
  bytes_ok w -> bytes_ok w' -> length w = length w' -> (length w <= 4)%nat -> is32 s ->
  fold_left crc_byte w s = fold_left crc_byte w' s -> w = w'.
Proof.
  intros Hw Hw' Hl H4 Hs E.
  assert (H32 : forall v, bytes_ok v -> (length v <= 4)%nat -> is32 (le_val v)).
  { intros v Hv Hv4. pose proof (le_val_bound v Hv). unfold is32.
    assert (2 ^ (8 * len v) <= 2 ^ 32) by (apply Z.pow_le_mono_r; unfold len; lia). lia. }
  rewrite !crc_fold_window in E by (done || lia). rewrite <- Hl in E.
  apply iter_shift_inj in E; [| apply lxor_bound; [lia|done|apply H32; auto; lia]..].
  apply (f_equal (Z.lxor s)) in E. rewrite <- !Z.lxor_assoc, !Z.lxor_nilpotent, !Z.lxor_0_l in E.
  by apply le_val_inj.
Qed.

Lemma crc_fold_detects pre w w' post s :
  bytes_ok (pre ++ w ++ post) -> bytes_ok w' -> length w = length w' -> (length w <= 4)%nat -> is32 s ->
  fold_left crc_byte (pre ++ w ++ post) s = fold_left crc_byte (pre ++ w' ++ post) s -> w = w'.
Proof.
  intros Hm Hw' Hl H4 Hs E. rewrite !bytes_ok_app in Hm. destruct Hm as (Hp & Hw & Hq).
  rewrite !fold_left_app in E.
  assert (Hs' : is32 (fold_left crc_byte pre s)) by auto using crc_fold_is32.
  apply crc_fold_inj in E; auto using crc_fold_is32. by eapply crc_fold_burst.
Qed.

Lemma init_is32 : is32 0xFFFFFFFF.
Proof. unfold is32. lia. Qed.

Lemma crc32c_alt m : bytes_ok m -> crc32c m = 0xFFFFFFFF - fold_left crc_byte m 0xFFFFFFFF.
Proof.
  intros H. unfold crc32c. pose proof (crc_fold_is32 m _ init_is32 H) as H32.
  change 0xFFFFFFFF with (Z.ones 32) at 2 3. rewrite Z.land_ones by lia.
  unfold is32 in H32.
  replace (Z.lnot _) with (0xFFFFFFFF - fold_left crc_byte m 0xFFFFFFFF + (-1) * 2 ^ 32)
    by (unfold Z.lnot, Z.pred; change (2 ^ 32) with 4294967296; lia).
  rewrite Z.mod_add by lia. change (Z.ones 32) with 0xFFFFFFFF. apply Z.mod_small. lia.
Qed.

Lemma crc32c_eq_fold a b :
  bytes_ok a -> bytes_ok b -> crc32c a = crc32c b ->
  fold_left crc_byte a 0xFFFFFFFF = fold_left crc_byte b 0xFFFFFFFF.
Proof. intros Ha Hb. rewrite !crc32c_alt by done. lia. Qed.

#[export] Instance crc32c_checksum : Checksum32 crc32c.
Proof.
  split.
  - intros m H. rewrite crc32c_alt by done. pose proof (crc_fold_is32 m _ init_is32 H) as H32.
    unfold is32 in H32. unfold U32_MAX. lia.
  - intros pre w w' post Hm Hw' Hl H4 E.
    assert (Hm' : bytes_ok (pre ++ w' ++ post)) by (rewrite !bytes_ok_app in *; tauto).
    apply crc32c_eq_fold in E; auto. eapply crc_fold_detects; eauto using init_is32.
Qed.

Lemma crc_byte_masked_eq c b : crc_byte_masked c b = crc_byte c b.
Proof. unfold crc_byte_masked, crc_byte. apply iter_shift_masked_eq. Qed.

Lemma crc_fold_masked_eq m s : fold_left crc_byte_masked m s = fold_left crc_byte m s.
Proof. apply fold_left_ext, crc_byte_masked_eq. Qed.

Lemma lxor_ones n c : 0 <= n -> 0 <= c < 2 ^ n -> Z.lxor c (Z.ones n) = Z.ones n - c.
Proof.
  intros Hn Hc. enough (Z.lxor c (Z.ones n) + c = Z.ones n) by lia.
  rewrite Z.add_nocarry_lxor.
  - by rewrite Z.lxor_comm, <- Z.lxor_assoc, Z.lxor_nilpotent, Z.lxor_0_l.
  - apply Z.bits_inj'. intros i Hi. rewrite Z.land_spec, Z.lxor_spec, Z.bits_0.
    destruct (Z.ltb_spec i n).
    + rewrite Z.ones_spec_low by lia. by destruct (Z.testbit c i).
    + rewrite <- (Z.mod_small c (2 ^ n)) by lia.
      rewrite Z.mod_pow2_bits_high by lia. by rewrite andb_false_r.
Qed.

Lemma crc32c_xorout_eq m : bytes_ok m -> crc32c_xorout m = crc32c m.
Proof.
  intros H. rewrite crc32c_alt by done. unfold crc32c_xorout. rewrite crc_fold_masked_eq.
  apply (lxor_ones 32); [lia|]. apply (crc_fold_is32 m _ init_is32 H).
Qed.

#[export] Instance crc32c_xorout_checksum : Checksum32 crc32c_xorout.
Proof.
  split.
  - intros m H. rewrite crc32c_xorout_eq by done. by apply ck_range.
  - intros pre w w' post Hm Hw' Hl H4.
    assert (Hm' : bytes_ok (pre ++ w' ++ post)) by (rewrite !bytes_ok_app in *; tauto).
    rewrite !crc32c_xorout_eq by done. by apply ck_burst.
Qed.

Example crc32c_check_value : crc32c (bytes_of_string "123456789") = 0xE3069283.
Proof. vm_compute. reflexivity. Qed.

(** ** Checksummed messages *)

Section Detection.
Context (ck : bytes -> Z) `{!Checksum32 ck}.

Lemma pack_checksum m : bytes_ok m -> pack 4 (ck m) = Ok (be_bytes 4 (ck m)).
Proof.
  intros H. apply pack_total. pose proof (ck_range m H) as Hr. unfold U32_MAX in Hr.
  change (256 ^ Z.of_nat 4) with 4294967296. lia.
Qed.

Lemma be_val_checksum m : bytes_ok m -> be_val (be_bytes 4 (ck m)) = ck m.
Proof. intros H. eapply pack_val, pack_checksum, H. Qed.

(** Two messages of one length that differ in one byte. *)
Definition one_byte_apart (a b : bytes) : Prop :=
  exists pre x y post, a = pre ++ [x] ++ post /\ b = pre ++ [y] ++ post /\ x <> y.

Lemma one_byte_apart_neq a b : one_byte_apart a b -> a <> b.
Proof. intros (pre & x & y & post & -> & -> & Hxy) E. apply app_inv_head in E. naive_solver. Qed.

Lemma one_byte_apart_len a b : one_byte_apart a b -> len a = len b.
Proof. intros (pre & x & y & post & -> & -> & _). by rewrite !len_app, !len_cons. Qed.

Lemma ck_one_byte a b : bytes_ok a -> bytes_ok b -> one_byte_apart a b -> ck a <> ck b.
Proof.
  intros Ha Hb (pre & x & y & post & -> & -> & Hxy) E. apply Hxy.
  apply ck_burst in E; [by injection E | done | | done | cbn; lia].
  rewrite !bytes_ok_app in Hb. tauto.
Qed.

Lemma one_byte_apart_split a b k :
  one_byte_apart a b -> 0 <= k <= len a ->
  one_byte_apart (slice 0 k a) (slice 0 k b) /\ slice k (len a) a = slice k (len a) b \/
  slice 0 k a = slice 0 k b /\ one_byte_apart (slice k (len a) a) (slice k (len a) b).
Proof.
  intros Hab Hk. pose proof (one_byte_apart_len _ _ Hab) as Hlen.
  destruct Hab as (pre & x & y & post & -> & -> & Hxy).
  pose proof (len_nonneg pre). pose proof (len_nonneg post).
  simpl_len.
  destruct (Z.ltb_spec (len pre) k).
  - left. split.
    + exists pre, x, y, (slice 0 (k - len pre - 1) post). repeat split; [..|done];
        (rewrite (slice_split 0 (len pre)) by lia; rewrite slice_app_l, slice_all by lia; f_equal;
         rewrite slice_app_r by lia; rewrite (slice_split _ 1) by lia; f_equal;
         [rewrite slice_app_l by (simpl_len; lia); by rewrite Z.sub_diag
         |rewrite slice_app_r by (simpl_len; lia); f_equal; simpl_len; lia]).
    + rewrite !(slice_app_r k) by lia. rewrite !slice_app_r by (simpl_len; lia).
      by rewrite !len_cons.
  - right. split.
    + by rewrite !slice_app_l by lia.
    + exists (slice k (len pre) pre), x, y, post.
      repeat split; [..|done];
        (rewrite (slice_split _ (len pre)) by lia; rewrite (slice_app_l k) by lia; f_equal;
         rewrite slice_app_skip; [done|done|simpl_len; lia]).
Qed.

(** A message followed by its big-endian checksum. *)
Definition trailer_ok (m : bytes) : Prop :=
  4 <= len m /\ ck (slice 0 (len m - 4) m) = be_val (slice (len m - 4) (len m) m).

Lemma trailer_detects a b :
  bytes_ok a -> bytes_ok b -> trailer_ok a -> trailer_ok b -> ~ one_byte_apart a b.
Proof.
  intros Ha Hb [H4 Ta] [_ Tb] Hab. pose proof (one_byte_apart_len _ _ Hab) as Hl. rewrite <- Hl in Tb.
  destruct (one_byte_apart_split a b (len a - 4) Hab ltac:(lia)) as [[Hd Heq] | [Heq Hd]].
  - eapply ck_one_byte in Hd; [|by apply bytes_ok_slice..]. apply Hd. by rewrite Ta, Tb, Heq.
  - apply one_byte_apart_neq in Hd. apply Hd. apply be_val_inj; [by apply bytes_ok_slice..| |].
    + by rewrite !len_slice by lia.
    + by rewrite <- Ta, <- Tb, Heq.
Qed.
End Detection.
