(* ===== verification/Sha256.v ===== *)
(** SHA-256, the digest of Python's [hashlib.sha256(value).digest()], as an
    executable function on byte strings. *)

From S2P Require Import Prelude Bytes.

(** What the record encoders need of a digest function. *)
Class Digest32 (h : bytes -> bytes) := {
  digest_len : forall m, len (h m) = 32;
  digest_ok : forall m, bytes_ok (h m)
}.

Definition mask32 (x : Z) : Z := Z.land x 0xFFFFFFFF.
Definition rotr (n x : Z) : Z := mask32 (Z.lor (Z.shiftr x n) (Z.shiftl x (32 - n))).

(** The round constants, computed from their definition (FIPS 180-4): the first
    32 fractional bits of the cube roots of the first 64 primes. *)
Definition is_prime (n : Z) : bool :=
  forallb (fun d => negb (n mod Z.of_nat d =? 0)) (seq 2 (Z.to_nat (Z.sqrt n) - 1)).
Definition sha_primes : list Z :=
  Eval vm_compute in filter is_prime (map Z.of_nat (seq 2 310)).

(** The integer cube root, bit by bit below [2^n]. *)
Fixpoint cbrt_bits (n : nat) (acc x : Z) : Z :=
  match n with
  | O => acc
  | S k => let c := acc + 2 ^ Z.of_nat k in cbrt_bits k (if c * c * c <=? x then c else acc) x
  end.
Definition sha_k : list Z :=
  Eval vm_compute in map (fun p => mask32 (cbrt_bits 36 0 (p * 2 ^ 96))) sha_primes.

Record sha_state := ShaState { sa : Z; sb : Z; sc : Z; sd : Z; se : Z; sf : Z; sg : Z; sh : Z }.

(** The initial state: 32 fractional bits of the square roots of eight primes. *)
Definition sqrt_frac (p : Z) : Z := mask32 (Z.sqrt (p * 2 ^ 64)).
Definition sha_init : sha_state :=
  Eval vm_compute in
  ShaState (sqrt_frac 2) (sqrt_frac 3) (sqrt_frac 5) (sqrt_frac 7) (sqrt_frac 11) (sqrt_frac 13) (sqrt_frac 17)
    (sqrt_frac 19).

Definition sha_small0 (x : Z) : Z := Z.lxor (Z.lxor (rotr 7 x) (rotr 18 x)) (Z.shiftr x 3).
Definition sha_small1 (x : Z) : Z := Z.lxor (Z.lxor (rotr 17 x) (rotr 19 x)) (Z.shiftr x 10).
Definition sha_big0 (x : Z) : Z := Z.lxor (Z.lxor (rotr 2 x) (rotr 13 x)) (rotr 22 x).
Definition sha_big1 (x : Z) : Z := Z.lxor (Z.lxor (rotr 6 x) (rotr 11 x)) (rotr 25 x).

(** The message schedule, newest word first. *)
Definition sha_extend (w : list Z) : list Z :=
  mask32 (sha_small1 (nth 1 w 0) + nth 6 w 0 + sha_small0 (nth 14 w 0) + nth 15 w 0) :: w.

Fixpoint words (n : nat) (l : bytes) : list Z :=
  match n with O => [] | S k => be_val (take 4 l) :: words k (drop 4 l) end.

Definition sha_schedule (block : bytes) : list Z :=
  rev (Nat.iter 48 sha_extend (rev (words 16 block))).

Definition sha_round (s : sha_state) (kw : Z * Z) : sha_state :=
  let t1 := sh s + sha_big1 (se s)
            + Z.lxor (Z.land (se s) (sf s)) (Z.land (Z.lxor (se s) 0xFFFFFFFF) (sg s))
            + kw.1 + kw.2 in
  let t2 := sha_big0 (sa s)
            + Z.lxor (Z.lxor (Z.land (sa s) (sb s)) (Z.land (sa s) (sc s))) (Z.land (sb s) (sc s)) in
  ShaState (mask32 (t1 + t2)) (sa s) (sb s) (sc s) (mask32 (sd s + t1)) (se s) (sf s) (sg s).

Definition sha_compress (s : sha_state) (block : bytes) : sha_state :=
  let r := fold_left sha_round (zip sha_k (sha_schedule block)) s in
  ShaState (mask32 (sa s + sa r)) (mask32 (sb s + sb r)) (mask32 (sc s + sc r)) (mask32 (sd s + sd r))
           (mask32 (se s + se r)) (mask32 (sf s + sf r)) (mask32 (sg s + sg r)) (mask32 (sh s + sh r)).

Definition sha_pad (m : bytes) : bytes :=
  m ++ [128] ++ zeros ((55 - len m) mod 64) ++ be_bytes 8 (8 * len m).

Fixpoint sha_blocks (n : nat) (s : sha_state) (l : bytes) : sha_state :=
  match n with O => s | S k => sha_blocks k (sha_compress s (take 64 l)) (drop 64 l) end.

Definition sha_digest (s : sha_state) : bytes :=
  be_bytes 4 (sa s) ++ be_bytes 4 (sb s) ++ be_bytes 4 (sc s) ++ be_bytes 4 (sd s) ++
  be_bytes 4 (se s) ++ be_bytes 4 (sf s) ++ be_bytes 4 (sg s) ++ be_bytes 4 (sh s).

Definition sha256 (value : bytes) : bytes :=
  let p := sha_pad value in sha_digest (sha_blocks (length p / 64) sha_init p).

(** The padded message is a whole number of 64-byte blocks. *)
Lemma sha_pad_blocks m : (64 | len (sha_pad m)).
Proof.
  unfold sha_pad. rewrite !len_app, len_be_bytes, len_zeros by (apply Z.mod_pos_bound; lia).
  change (len [128]) with 1.
  exists ((len m + 9 + (55 - len m) mod 64) / 64).
  pose proof (Z.div_mod (55 - len m) 64 ltac:(lia)).
  replace (len m + 9 + (55 - len m) mod 64) with ((1 - (55 - len m) / 64) * 64) by lia.
  rewrite Z.div_mul by lia. lia.
Qed.

#[export] Instance sha256_digest : Digest32 sha256.
Proof.
  split; intros m; unfold sha256, sha_digest.
  - by rewrite !len_app, !len_be_bytes.
  - repeat apply Forall_app_2; apply be_bytes_ok.
Qed.

Example sha256_abc :
  hex_of (sha256 (bytes_of_string "abc")) = "ba7816bf8f01cfea414140de5dae2223b00361a396177a9cb410ff61f20015ad"%string.
Proof. vm_compute. reflexivity. Qed.

Example sha256_two_blocks :
  hex_of (sha256 (bytes_of_string "abcdbcdecdefdefgefghfghighijhijkijkljklmklmnlmnomnopnopq"))
  = "248d6a61d20638b8e5c026930c3e6039a33ce45964ff2167f6ecedd419db06c1"%string.
Proof. vm_compute. reflexivity. Qed.

#[global] Opaque sha256.

Lemma raw_sha m : raw 32 (sha256 m).
Proof. split; [apply digest_len | apply digest_ok]. Qed.
