(* ===== verification/Layout.v ===== *)
(** Records assembled in a bytearray: a program of slice assignments run on a
    zeroed buffer, and the laws that read each field back. *)

From S2P Require Import Prelude Bytes Crc Sha256.

(** [buf[lo:hi] = value], where the value may be computed from the buffer as it
    stands (a digest or a checksum of the part already written). *)
Record write := W { w_lo : Z; w_hi : Z; w_val : bytes -> res bytes }.

Definition put (lo hi : Z) (v : res bytes) : write := W lo hi (fun _ => v).

(** [buf[i] = v], an index assignment of one byte: it raises beyond the end. *)
Definition put_index (i : Z) (v : res bytes) : write :=
  W i (i + 1) (fun buf => raise_if (len buf <=? i) IndexError;; v).
Definition put_byte (i v : Z) : write := put_index i (pybyte v).
(** [buf[i] = v & 0xFF]. *)
Definition put_masked (i v : Z) : write := put_index i (Ok [Z.land v 255]).

Fixpoint run_writes (ws : list write) (buf : bytes) : res bytes :=
  match ws with
  | [] => Ok buf
  | w :: ws => v ← w_val w buf; run_writes ws (slice_assign (w_lo w) (w_hi w) v buf)
  end.

(** ** Well-sized programs *)

(** The write stays inside a buffer of [n] bytes and replaces exactly its slice. *)
Definition sized (n : Z) (w : write) : Prop :=
  0 <= w_lo w <= w_hi w /\ w_hi w <= n /\
  forall buf v, w_val w buf = Ok v -> len v = w_hi w - w_lo w /\ (bytes_ok buf -> bytes_ok v).

Definition apart (lo hi : Z) (w : write) : bool := (w_hi w <=? lo) || (hi <=? w_lo w).

Lemma run_writes_app ws1 ws2 buf :
  run_writes (ws1 ++ ws2) buf = (b ← run_writes ws1 buf; run_writes ws2 b).
Proof.
  revert buf. induction ws1 as [|w ws1 IH]; intros buf; [done|]. cbn.
  destruct (w_val w buf); cbn; [apply IH|done].
Qed.

Section Sized.
Context (n : Z) (ws : list write) (buf buf' : bytes).
Context (Hs : Forall (sized n) ws) (Hb : len buf = n) (Hr : run_writes ws buf = Ok buf').

Lemma run_writes_len : len buf' = n.
Proof using Hs Hb Hr.
  revert buf Hb Hr. induction Hs as [|w ws' (Hlo & Hhi & Hv) Hs' IH]; intros b Hb' Hr';
    cbn in Hr'; [naive_solver|].
  apply bind_Ok in Hr' as (v & Ev & Hr'). apply (IH Hs') in Hr'; [done|].
  destruct (Hv _ _ Ev). rewrite len_slice_assign; lia.
Qed.

Lemma run_writes_ok : bytes_ok buf -> bytes_ok buf'.
Proof using Hs Hr.
  clear Hb. revert buf Hr. induction Hs as [|w ws' (Hlo & Hhi & Hv) Hs' IH]; intros b Hr' Hok;
    cbn in Hr'; [naive_solver|].
  apply bind_Ok in Hr' as (v & Ev & Hr'). apply (IH Hs') in Hr'; [done|].
  destruct (Hv _ _ Ev). apply slice_assign_ok; auto.
Qed.

Lemma run_writes_apart lo hi :
  0 <= lo <= hi -> forallb (apart lo hi) ws = true -> slice lo hi buf' = slice lo hi buf.
Proof using Hs Hb Hr.
  intros Hlh. revert buf Hb Hr. induction Hs as [|w ws' (Hlo & Hhi & Hv) Hs' IH];
    intros b Hb' Hr' Ha; cbn in Hr', Ha; [naive_solver|].
  apply andb_true_iff in Ha as [Ha1 Ha2].
  apply bind_Ok in Hr' as (v & Ev & Hr'). destruct (Hv _ _ Ev) as [Hl _].
  assert (Hlen : len (slice_assign (w_lo w) (w_hi w) v b) = n) by (rewrite len_slice_assign; lia).
  rewrite (IH Hs' _ Hlen Hr' Ha2). unfold apart in Ha1. apply orb_true_iff in Ha1.
  rewrite !Z.leb_le in Ha1. apply slice_assign_other; lia.
Qed.
End Sized.

(** ** Reading a field back *)

(** The last write that touches [lo, hi), when it covers exactly that slice,
    with the writes that come after it. *)
Fixpoint last_write (lo hi : Z) (ws : list write) : option (write * list write) :=
  match ws with
  | [] => None
  | w :: ws =>
      match last_write lo hi ws with
      | Some r => Some r
      | None => if forallb (apart lo hi) ws && (w_lo w =? lo) && (w_hi w =? hi) then Some (w, ws) else None
      end
  end.

Lemma last_write_spec lo hi ws w post :
  last_write lo hi ws = Some (w, post) ->
  w_lo w = lo /\ w_hi w = hi /\ forallb (apart lo hi) post = true /\ exists pre, ws = pre ++ w :: post.
Proof.
  induction ws as [|x ws IH]; cbn; [done|].
  destruct (last_write lo hi ws) as [r|] eqn:E.
  - intros [= ->]. destruct (IH eq_refl) as (? & ? & ? & pre & ->). repeat split; auto. by exists (x :: pre).
  - destruct (_ && _) eqn:Ec; [|done]. intros [= -> ->]. bool_to_prop. repeat split; auto. by exists [].
Qed.

Section ReadBack.
Context (n : Z) (ws : list write) (buf buf' : bytes).
Context (Hs : Forall (sized n) ws) (Hb : len buf = n) (Hr : run_writes ws buf = Ok buf').

(** [b] is the buffer just before the field is written: it agrees with the
    final record on every slice that is not written afterwards. *)
Lemma read_write lo hi w post :
  last_write lo hi ws = Some (w, post) ->
  exists b, len b = n /\ (bytes_ok buf -> bytes_ok b) /\ w_val w b = Ok (slice lo hi buf') /\
    (forall a c, 0 <= a <= c -> forallb (apart a c) (w :: post) = true -> slice a c buf' = slice a c b) /\
    (post = [] -> buf' = slice_assign lo hi (slice lo hi buf') b).
Proof using Hs Hb Hr.
  intros Hl. apply last_write_spec in Hl as (Hlo & Hhi & Hpost & pre & ->).
  apply Forall_app in Hs as [Hs1 Hs2]. apply Forall_cons in Hs2 as [(Hw1 & Hw2 & Hw3) Hs2].
  rewrite run_writes_app in Hr. apply bind_Ok in Hr as (b & Hb1 & Hr2).
  pose proof (run_writes_len _ _ _ _ Hs1 Hb Hb1) as Hlb. pose proof Hr2 as Hr3.
  cbn in Hr2. apply bind_Ok in Hr2 as (v & Ev & Hr2). destruct (Hw3 _ _ Ev) as [Hlv _].
  assert (Hlen : len (slice_assign (w_lo w) (w_hi w) v b) = n) by (rewrite len_slice_assign; lia).
  assert (Hsl : slice lo hi buf' = v).
  { rewrite (run_writes_apart _ _ _ _ Hs2 Hlen Hr2) by (lia || done).
    rewrite <- Hlo, <- Hhi. apply slice_assign_read; lia. }
  exists b. split; [done|]. split; [intros Hok; by apply (run_writes_ok _ _ _ _ Hs1 Hb1)|].
  split; [by rewrite Hsl|]. split.
  - intros a c Hac Hap. apply (run_writes_apart n (w :: post)); auto.
    constructor; [|done]. split; [done|]. split; [done|exact Hw3].
  - intros ->. cbn in Hr2. injection Hr2 as <-. by rewrite Hsl, Hlo, Hhi.
Qed.

(** A field written with a constant value reads back as that value. *)
Lemma read_put lo hi v post :
  last_write lo hi ws = Some (put lo hi v, post) -> v = Ok (slice lo hi buf').
Proof using Hs Hb Hr. intros H. by destruct (read_write _ _ _ _ H) as (b & _ & _ & E & _). Qed.

(** A byte stored by index reads back as that byte. *)
Lemma read_index i v post :
  last_write i (i + 1) ws = Some (put_index i v, post) -> v = Ok (slice i (i + 1) buf').
Proof using Hs Hb Hr.
  intros H. destruct (read_write _ _ _ _ H) as (b & _ & _ & E & _). cbn in E. inv_res. done.
Qed.

(** Bytes that no write touches keep the initial value. *)
Lemma read_untouched lo hi :
  0 <= lo <= hi -> forallb (apart lo hi) ws = true -> slice lo hi buf' = slice lo hi buf.
Proof using Hs Hb Hr. by apply (run_writes_apart n ws). Qed.
End ReadBack.

(** ** Sizes of the values the encoders write *)

Lemma sized_put n lo hi v :
  0 <= lo <= hi -> hi <= n -> (forall x, v = Ok x -> len x = hi - lo /\ bytes_ok x) -> sized n (put lo hi v).
Proof. intros H1 H2 H3. split; [done|]. split; [done|]. intros buf x E. destruct (H3 x E). auto. Qed.

Lemma sized_pack n lo hi k v :
  0 <= lo <= hi -> hi <= n -> Z.of_nat k = hi - lo -> sized n (put lo hi (pack k v)).
Proof. intros. apply sized_put; auto. intros x E. split; [rewrite (pack_len _ _ _ E); lia | by eapply pack_ok]. Qed.

Lemma sized_const n lo hi v :
  0 <= lo <= hi -> hi <= n -> len v = hi - lo -> bytes_ok v -> sized n (put lo hi (Ok v)).
Proof. intros. apply sized_put; auto. intros x [= <-]. auto. Qed.

Lemma sized_index n i v :
  0 <= i -> i + 1 <= n -> (forall x, v = Ok x -> len x = 1 /\ bytes_ok x) -> sized n (put_index i v).
Proof.
  intros H1 H2 H3. split; [cbn; lia|]. split; [done|]. cbn. intros buf x E. inv_res.
  destruct (H3 x E). split; [lia | auto].
Qed.

Lemma sized_byte n i v : 0 <= i -> i + 1 <= n -> sized n (put_byte i v).
Proof.
  intros. apply sized_index; [lia..|]. intros x [Hv ->]%pybyte_Ok.
  split; [rewrite len_cons, len_nil; lia | by apply Forall_singleton].
Qed.

Lemma sized_masked n i v : 0 <= i -> i + 1 <= n -> sized n (put_masked i v).
Proof.
  intros. apply sized_index; [lia..|]. intros x [= <-].
  split; [rewrite len_cons, len_nil; lia | apply Forall_singleton, land_255_byte].
Qed.

Lemma sized_computed n lo hi (f : bytes -> res bytes) :
  0 <= lo <= hi -> hi <= n ->
  (forall buf v, f buf = Ok v -> len v = hi - lo /\ (bytes_ok buf -> bytes_ok v)) -> sized n (W lo hi f).
Proof. intros. split; [done|]. split; done. Qed.

#[export] Hint Resolve sized_byte sized_masked : ninlil.

(** ** Programs that succeed *)

Definition total (n : Z) (w : write) : Prop :=
  forall buf, len buf = n -> bytes_ok buf -> exists v, w_val w buf = Ok v.

Lemma run_writes_total n ws buf :
  Forall (sized n) ws -> Forall (total n) ws -> len buf = n -> bytes_ok buf ->
  exists buf', run_writes ws buf = Ok buf' /\ len buf' = n /\ bytes_ok buf'.
Proof.
  intros Hs. revert buf. induction Hs as [|w ws (H1 & H2 & H3) Hs IH]; intros buf Ht Hl Hb; [by exists buf|].
  apply Forall_cons in Ht as [Hw Ht]. destruct (Hw buf Hl Hb) as [v Ev]. destruct (H3 _ _ Ev) as [Hlv Hbv].
  cbn. rewrite Ev, ok_bind. apply IH; [done | rewrite len_slice_assign; lia | by apply slice_assign_ok; auto].
Qed.

Lemma total_pack n lo hi k v : 0 <= v < 256 ^ Z.of_nat k -> total n (put lo hi (pack k v)).
Proof. intros H buf _ _. exists (be_bytes k v). by apply pack_total. Qed.

Lemma total_const n lo hi v : total n (put lo hi (Ok v)).
Proof. intros buf _ _. by exists v. Qed.

Lemma total_masked n i v : i < n -> total n (put_masked i v).
Proof. intros H buf Hl _. cbn. rewrite raise_if_skip by (apply Z.leb_gt; lia). by eexists. Qed.

Lemma total_byte n i v : i < n -> is_byte v -> total n (put_byte i v).
Proof.
  intros Hi H buf Hl _. cbn. rewrite raise_if_skip by (apply Z.leb_gt; lia). exists [v]. by apply pybyte_Ok.
Qed.

(** ** Digest and checksum fields *)

(** [buf[lo:hi] = sha256(bytes(buf[:k]))] and [buf[lo:lo+4] = u32(crc32c(bytes(buf[:k])))]. *)
Definition put_digest (h : bytes -> bytes) (lo k : Z) : write := W lo (lo + 32) (fun buf => Ok (h (slice 0 k buf))).
Definition put_prefix_crc (ck : bytes -> Z) (lo k : Z) : write := W lo (lo + 4) (fun buf => u32 (ck (slice 0 k buf))).
(** [buf[lo:lo+4] = u32(crc32c(bytes(buf)))], over the whole buffer. *)
Definition put_crc (ck : bytes -> Z) (lo : Z) : write := W lo (lo + 4) (fun buf => u32 (ck buf)).

Lemma sized_digest h `{Digest32 h} n lo k : 0 <= lo -> lo + 32 <= n -> sized n (put_digest h lo k).
Proof.
  intros. apply sized_computed; [lia..|]. intros buf v [= <-]. rewrite digest_len. split; [lia|]. intros. apply digest_ok.
Qed.

Lemma sized_u32_computed n lo (f : bytes -> Z) : 0 <= lo -> lo + 4 <= n -> sized n (W lo (lo + 4) (fun buf => u32 (f buf))).
Proof.
  intros. apply sized_computed; [lia..|]. intros buf v E. split; [rewrite (pack_len _ _ _ E); lia | intros; by eapply pack_ok].
Qed.

Lemma sized_prefix_crc ck n lo k : 0 <= lo -> lo + 4 <= n -> sized n (put_prefix_crc ck lo k).
Proof. apply sized_u32_computed. Qed.
Lemma sized_crc ck n lo : 0 <= lo -> lo + 4 <= n -> sized n (put_crc ck lo).
Proof. apply sized_u32_computed. Qed.

Lemma total_digest h n lo k : total n (put_digest h lo k).
Proof. intros buf _ _. by eexists. Qed.
Lemma total_prefix_crc ck `{Checksum32 ck} n lo k : total n (put_prefix_crc ck lo k).
Proof. intros buf _ Hb. eexists. apply (pack_checksum ck). by apply bytes_ok_slice. Qed.
Lemma total_crc ck `{Checksum32 ck} n lo : total n (put_crc ck lo).
Proof. intros buf _ Hb. eexists. by apply (pack_checksum ck). Qed.

#[export] Hint Resolve total_const total_digest total_prefix_crc total_crc : ninlil.

(** [solve_sized] proves that every write of a literal program is well sized. *)
Ltac solve_sized :=
  repeat first
    [ apply Forall_nil_2
    | apply Forall_cons_2
    | apply Forall_app_2
    | apply sized_masked; lia
    | apply sized_byte; lia
    | apply sized_pack; lia
    | (apply sized_digest; [apply _ | lia | lia])
    | apply sized_prefix_crc; lia
    | apply sized_crc; lia
    | (apply sized_const; [lia | lia | solve_len | solve_bytes]) ].

(** [solve_total] proves that every write of a literal program succeeds. *)
Ltac solve_total :=
  repeat first
    [ apply Forall_nil_2
    | apply Forall_cons_2
    | apply Forall_app_2
    | (apply total_masked; lia)
    | (apply total_byte; [lia | split; lia])
    | (apply total_pack; pack_range; lia)
    | apply total_const
    | apply total_digest
    | (apply total_prefix_crc; apply _)
    | (apply total_crc; apply _) ].

Section Seals.
Context (ck : bytes -> Z) {HC : Checksum32 ck}.

(** The checksum at [lo] covers the prefix before it, or the whole record with
    the checksum field zeroed. *)
Definition prefix_sealed (lo : Z) (m : bytes) : Prop := be_val (slice lo (lo + 4) m) = ck (slice 0 lo m).
Definition sealed (lo : Z) (m : bytes) : Prop :=
  be_val (slice lo (lo + 4) m) = ck (slice_assign lo (lo + 4) (zeros 4) m).

Lemma one_byte_zeroed lo a b :
  0 <= lo -> lo + 4 <= len a -> one_byte_apart a b ->
  one_byte_apart (slice_assign lo (lo + 4) (zeros 4) a) (slice_assign lo (lo + 4) (zeros 4) b) /\
    slice lo (lo + 4) a = slice lo (lo + 4) b \/
  slice_assign lo (lo + 4) (zeros 4) a = slice_assign lo (lo + 4) (zeros 4) b /\
  slice lo (lo + 4) a <> slice lo (lo + 4) b.
Proof.
  intros Hlo Hhi Hab. pose proof (one_byte_apart_len _ _ Hab) as Hl.
  assert (Hs : forall m, len m = len a -> slice_assign lo (lo + 4) (zeros 4) m
             = slice 0 lo m ++ zeros 4 ++ slice (lo + 4) (len m) m).
  { intros m Hm. unfold slice_assign. rewrite Z.max_r by lia. f_equal; [unfold slice; cbn; f_equal; lia|].
    f_equal. unfold slice. rewrite take_ge; [done|]. rewrite length_drop. unfold len. lia. }
  rewrite !Hs by congruence. rewrite <- Hl.
  assert (Hcut : forall m : bytes, len m = len a -> m = slice 0 lo m ++ slice lo (lo + 4) m ++ slice (lo + 4) (len m) m).
  { intros m Hm. rewrite <- !slice_split by lia. by rewrite slice_all. }
  destruct (one_byte_apart_split a b lo Hab ltac:(lia)) as [[(p & x & y & q & E1 & E2 & Hn) Heq] | [Heq Hd]].
  - left. split.
    2:{ apply (f_equal (slice 0 4)) in Heq. rewrite !slice_slice in Heq by lia.
        by replace (lo + 0) with lo in Heq by lia. }
    exists p, x, y, (q ++ zeros 4 ++ slice (lo + 4) (len a) a).
    assert (Hr : slice (lo + 4) (len a) a = slice (lo + 4) (len a) b).
    { apply (f_equal (slice 4 (len a - lo))) in Heq. rewrite !slice_slice in Heq by lia.
      by replace (lo + (len a - lo)) with (len a) in Heq by lia. }
    rewrite E1, E2, <- Hr, <- !app_assoc. done.
  - destruct (one_byte_apart_split _ _ 4 Hd) as [[Hf Hr] | [Hf Hr]]; rewrite ?len_slice by lia; [lia| |].
    + right. rewrite !len_slice, !slice_slice in Hr by lia. rewrite !slice_slice in Hf by lia.
      replace (lo + (len a - lo)) with (len a) in Hr by lia. replace (lo + 0) with lo in Hf by lia.
      rewrite Heq, Hr. split; [done|]. by apply one_byte_apart_neq in Hf.
    + left. split; [|rewrite !slice_slice in Hf by lia; by replace (lo + 0) with lo in Hf by lia].
      rewrite !len_slice, !slice_slice in Hr by lia.
      replace (lo + (len a - lo)) with (len a) in Hr by lia. rewrite Heq.
      destruct Hr as (p & x & y & q & -> & -> & Hn). exists (slice 0 lo b ++ zeros 4 ++ p), x, y, q.
      by rewrite <- !app_assoc.
Qed.

(** Neither seal survives the corruption of a single byte it covers. *)
Lemma sealed_detects lo a b :
  bytes_ok a -> bytes_ok b -> 0 <= lo -> lo + 4 <= len a -> sealed lo a -> sealed lo b -> ~ one_byte_apart a b.
Proof using HC.
  intros Ha Hb Hlo Hhi Sa Sb Hab. unfold sealed in *. pose proof (one_byte_apart_len _ _ Hab) as Hl.
  assert (Hok : forall m, bytes_ok m -> bytes_ok (slice_assign lo (lo + 4) (zeros 4) m))
    by (intros; apply slice_assign_ok; [apply zeros_ok | done]).
  destruct (one_byte_zeroed lo a b Hlo Hhi Hab) as [[Hd Heq] | [Heq Hne]].
  - apply (ck_one_byte ck) in Hd; [|by apply Hok ..]. apply Hd. by rewrite <- Sa, <- Sb, Heq.
  - apply Hne, be_val_inj; [by apply bytes_ok_slice..| by rewrite !len_slice by lia |]. by rewrite Sa, Sb, Heq.
Qed.

Lemma prefix_sealed_detects lo a b :
  bytes_ok a -> bytes_ok b -> 0 <= lo -> lo + 4 <= len a -> prefix_sealed lo a -> prefix_sealed lo b ->
  slice (lo + 4) (len a) a = slice (lo + 4) (len a) b -> ~ one_byte_apart a b.
Proof using HC.
  intros Ha Hb Hlo Hhi Sa Sb Heq Hab. pose proof (one_byte_apart_len _ _ Hab) as Hl.
  assert (Hcut : forall m : bytes, len m = len a -> m = slice 0 (lo + 4) m ++ slice (lo + 4) (len a) m).
  { intros m Hm. rewrite <- slice_split by lia. rewrite <- Hm. by rewrite slice_all. }
  assert (T : forall m, len m = len a -> prefix_sealed lo m -> trailer_ok ck (slice 0 (lo + 4) m)).
  { intros m Hm Hs. unfold trailer_ok. rewrite len_slice by lia. split; [lia|].
    rewrite !slice_slice by lia. unfold prefix_sealed in Hs.
    replace (0 + (lo + 4 - 0 - 4)) with lo by lia. replace (0 + (lo + 4 - 0)) with (lo + 4) by lia.
    replace (0 + 0) with 0 by lia. done. }
  destruct (one_byte_apart_split a b (lo + 4) Hab ltac:(lia)) as [[Hd _] | [_ Hd]].
  - by apply (trailer_detects ck _ _ (bytes_ok_slice 0 (lo + 4) _ Ha) (bytes_ok_slice 0 (lo + 4) _ Hb)) in Hd;
      [|apply T..].
  - by apply one_byte_apart_neq in Hd.
Qed.
End Seals.

(** ** Seals of the records a program writes *)

Section Sealing.
Context (ck : bytes -> Z) {HC : Checksum32 ck}.

Lemma run_prefix_sealed n pre lo buf buf' :
  Forall (sized n) pre -> 0 <= lo -> lo + 4 <= n -> len buf = n -> bytes_ok buf ->
  run_writes (pre ++ [put_prefix_crc ck lo lo]) buf = Ok buf' -> prefix_sealed ck lo buf'.
Proof using HC.
  intros Hs Hlo Hn Hl Hb Hr. rewrite run_writes_app in Hr. apply bind_Ok in Hr as (b & Hb1 & Hr).
  pose proof (run_writes_len _ _ _ _ Hs Hl Hb1) as Hlb. pose proof (run_writes_ok _ _ _ _ Hs Hb1 Hb) as Hob.
  cbn in Hr. apply bind_Ok in Hr as (v & Ev & Hr). injection Hr as <-.
  pose proof (pack_len _ _ _ Ev) as Hlv. unfold prefix_sealed.
  rewrite slice_assign_read by lia. rewrite (pack_val _ _ _ Ev).
  rewrite slice_assign_other by lia. done.
Qed.

Lemma run_sealed n pre lo buf buf' :
  Forall (sized n) pre -> 0 <= lo -> lo + 4 <= n -> len buf = n -> bytes_ok buf ->
  run_writes (pre ++ [put lo (lo + 4) (u32 0); put_crc ck lo]) buf = Ok buf' -> sealed ck lo buf'.
Proof using HC.
  intros Hs Hlo Hn Hl Hb Hr. rewrite run_writes_app in Hr. apply bind_Ok in Hr as (b & Hb1 & Hr).
  pose proof (run_writes_len _ _ _ _ Hs Hl Hb1) as Hlb. pose proof (run_writes_ok _ _ _ _ Hs Hb1 Hb) as Hob.
  cbn [run_writes] in Hr. change (w_val (put lo (lo + 4) (u32 0)) b) with (Ok (zeros 4)) in Hr. rewrite ok_bind in Hr.
  apply bind_Ok in Hr as (v & Ev & Hr). injection Hr as <-. cbn [w_lo w_hi put put_crc w_val] in *.
  pose proof (pack_len _ _ _ Ev) as Hlv. unfold sealed.
  assert (Hz : len (slice_assign lo (lo + 4) (zeros 4) b) = n) by (rewrite len_slice_assign; rewrite ?len_zeros; lia).
  rewrite slice_assign_read by lia. rewrite (pack_val _ _ _ Ev). f_equal.
  rewrite slice_assign_twice by (rewrite ?len_zeros; lia). by rewrite slice_assign_twice by (rewrite ?len_zeros; lia).
Qed.
(** The field still holds the zeros of a fresh buffer. *)
Lemma run_sealed_fresh n pre lo buf buf' :
  Forall (sized n) pre -> 0 <= lo -> lo + 4 <= n -> len buf = n -> slice lo (lo + 4) buf = zeros 4 ->
  forallb (apart lo (lo + 4)) pre = true -> run_writes (pre ++ [put_crc ck lo]) buf = Ok buf' -> sealed ck lo buf'.
Proof using HC.
  intros Hs Hlo Hn Hl Hz Ha Hr. rewrite run_writes_app in Hr. apply bind_Ok in Hr as (b & Hb1 & Hr).
  pose proof (run_writes_len _ _ _ _ Hs Hl Hb1) as Hlb.
  pose proof (run_writes_apart n pre buf b Hs Hl Hb1 lo (lo + 4) ltac:(lia) Ha) as Hw. rewrite Hz in Hw.
  cbn in Hr. apply bind_Ok in Hr as (v & Ev & Hr). injection Hr as <-. pose proof (pack_len _ _ _ Ev) as Hlv. unfold sealed.
  rewrite slice_assign_read by lia. rewrite (pack_val _ _ _ Ev). f_equal.
  rewrite slice_assign_twice by (rewrite ?len_zeros; lia). rewrite <- Hw at 1.
  rewrite slice_assign_parts by lia. rewrite <- slice_split by lia. rewrite <- slice_split by lia. by rewrite slice_all.
Qed.
End Sealing.

Section Digests.
Context (h : bytes -> bytes) {HD : Digest32 h}.

Lemma run_digest n ws buf buf' lo k post :
  Forall (sized n) ws -> len buf = n -> run_writes ws buf = Ok buf' -> 0 <= k ->
  last_write lo (lo + 32) ws = Some (put_digest h lo k, post) ->
  forallb (apart 0 k) (put_digest h lo k :: post) = true ->
  slice lo (lo + 32) buf' = h (slice 0 k buf').
Proof.
  intros Hs Hl Hr Hk Hlast Ha. destruct (read_write n ws buf buf' Hs Hl Hr _ _ _ _ Hlast) as (b & _ & _ & Hv & Hsame & _).
  cbn in Hv. apply Ok_inj in Hv. rewrite <- Hv. f_equal. symmetry. apply Hsame; [lia | done].
Qed.
End Digests.

(** [read_field Hs Hl Hr] reads one field of a record written by a literal
    program: an integer, a byte string, or a masked byte. *)
Ltac read_field Hs Hl Hr :=
  match goal with
  | |- be_val (slice ?lo ?hi _) = ?v =>
      let H := fresh in pose proof (read_put _ _ _ _ Hs Hl Hr lo hi _ _ eq_refl) as H;
      exact (pack_val _ _ _ H)
  | |- slice ?lo ?hi _ = [_] =>
      let H := fresh in pose proof (read_index _ _ _ _ Hs Hl Hr lo _ _ eq_refl) as H;
      symmetry; exact (Ok_inj _ _ H)
  | |- slice ?lo ?hi _ = _ =>
      let H := fresh in pose proof (read_put _ _ _ _ Hs Hl Hr lo hi _ _ eq_refl) as H;
      symmetry; exact (Ok_inj _ _ H)
  end.
