(* ===== verification/Tables.v ===== *)
(** Pages: a header, a table of equal slots at a fixed stride, and a checksum over
    the whole page with its own field zeroed. *)

From S2P Require Import Prelude Bytes Crc Sha256 Layout.

(** [for i, slot in enumerate(slots): if slot is not None: page[base + i*stride : base + (i+1)*stride] = f(slot)]. *)
Fixpoint table_writes {A} (base stride : Z) (f : A -> res bytes) (i : Z) (slots : list (option A)) : list write :=
  match slots with
  | [] => []
  | None :: slots => table_writes base stride f (i + 1) slots
  | Some s :: slots => put (base + i * stride) (base + (i + 1) * stride) (f s) :: table_writes base stride f (i + 1) slots
  end.

(** [bitmap |= 1 << i] for each slot present. *)
Fixpoint bitmap_of {A} (i : Z) (slots : list (option A)) (acc : Z) : Z :=
  match slots with
  | [] => acc
  | None :: slots => bitmap_of (i + 1) slots acc
  | Some _ :: slots => bitmap_of (i + 1) slots (Z.lor acc (Z.shiftl 1 i))
  end.

Definition present {A} (slots : list (option A)) (j : Z) : bool :=
  match slots !! Z.to_nat j with Some (Some _) => true | _ => false end.

Lemma bitmap_testbit {A} i (slots : list (option A)) acc j :
  0 <= i -> 0 <= j ->
  Z.testbit (bitmap_of i slots acc) j = Z.testbit acc j || ((i <=? j) && present slots (j - i)).
Proof.
  revert i acc. induction slots as [|s slots IH]; intros i acc Hi Hj; cbn [bitmap_of].
  { unfold present. cbn. by rewrite andb_false_r, orb_false_r. }
  assert (Hcons : i < j -> present (s :: slots) (j - i) = present slots (j - (i + 1))).
  { intros H. unfold present. replace (Z.to_nat (j - i)) with (S (Z.to_nat (j - (i + 1)))) by lia. done. }
  assert (Hhere : present (s :: slots) 0 = match s with Some _ => true | None => false end) by (by destruct s).
  assert (Hstep : (i + 1 <=? j) && present slots (j - (i + 1))
                  = (i <=? j) && negb (i =? j) && present (s :: slots) (j - i)).
  { destruct (Z.lt_trichotomy i j) as [Hij | [-> | Hij]].
    - rewrite Hcons by done. rewrite !(proj2 (Z.leb_le _ _)) by lia. by rewrite (proj2 (Z.eqb_neq _ _)) by lia.
    - rewrite Z.eqb_refl, andb_false_r. by rewrite (proj2 (Z.leb_gt _ _)) by lia.
    - by rewrite !(proj2 (Z.leb_gt _ _)) by lia. }
  destruct s as [s|]; rewrite IH, Hstep by lia.
  - rewrite Z.lor_spec, Z.shiftl_spec by lia. destruct (Z.eqb_spec i j) as [-> | Hn]; cbn [negb andb].
    + rewrite Z.sub_diag, Hhere, Z.leb_refl. by rewrite !orb_true_r.
    + rewrite andb_true_r, <- orb_assoc. f_equal. destruct (Z.ltb_spec j i).
      * rewrite Z.testbit_neg_r by lia. done.
      * change 1 with (Z.ones 1). rewrite Z.testbit_ones_nonneg by lia.
        by rewrite (proj2 (Z.ltb_ge _ _)) by lia.
  - destruct (Z.eqb_spec i j) as [-> | Hn]; cbn [negb andb].
    + rewrite Z.sub_diag, Hhere. by rewrite !andb_false_r.
    + by rewrite andb_true_r.
Qed.

(** Setting a bit above a value adds its weight. *)
Lemma lor_pow2 i a : 0 <= i -> 0 <= a < 2 ^ i -> Z.lor a (2 ^ i) = a + 2 ^ i.
Proof.
  intros Hi Ha. assert (Hd : Z.land a (2 ^ i) = 0).
  { apply Z.bits_inj'. intros k Hk. rewrite Z.land_spec, Z.bits_0, Z.pow2_bits_eqb by lia.
    destruct (Z.eqb_spec i k) as [<- | Hn]; [|by rewrite andb_false_r].
    rewrite andb_true_r, <- (Z.mod_small a (2 ^ i)) by lia. by apply Z.mod_pow2_bits_high. }
  rewrite Z.add_nocarry_lxor by done. symmetry. by apply Z.lxor_lor.
Qed.

Lemma bitmap_range {A} i (slots : list (option A)) acc :
  0 <= i -> 0 <= acc < 2 ^ i -> 0 <= bitmap_of i slots acc < 2 ^ (i + len slots).
Proof.
  revert i acc. induction slots as [|s slots IH]; intros i acc Hi Ha; cbn [bitmap_of].
  { change (len (@nil (option A))) with 0. by rewrite Z.add_0_r. }
  rewrite len_cons. replace (i + (1 + len slots)) with (i + 1 + len slots) by lia.
  destruct s; apply IH; try lia; rewrite Z.pow_add_r by lia; [|lia].
  rewrite Z.shiftl_1_l.
  rewrite lor_pow2 by done. lia.
Qed.

Section TablePage.
Context {A : Type} (n base stride lo : Z) (f : A -> res bytes) (hdr mid : list write) (slots : list (option A)).
Context (ck : bytes -> Z) {HC : Checksum32 ck}.

(** A write inside the first [base] bytes of the page. *)
Definition in_header (w : write) : Prop := sized base w /\ total n w.

Definition page_program : list write :=
  (hdr ++ table_writes base stride f 0 slots ++ mid) ++ [put lo (lo + 4) (u32 0); put_crc ck lo].

Definition slots_encode : Prop :=
  forall s, Some s ∈ slots -> exists v, f s = Ok v /\ len v = stride /\ bytes_ok v.

(** The slices of the table in the final buffer. *)
Definition slot_at (k : nat) (m : bytes) : bytes := slice (base + Z.of_nat k * stride) (base + (Z.of_nat k + 1) * stride) m.

Lemma sized_weaken m k w : sized m w -> m <= k -> sized k w.
Proof. intros (H1 & H2 & H3) Hk. split; [done|]. split; [lia | done]. Qed.

Lemma table_program i sl :
  0 <= stride -> 0 <= base -> 0 <= i -> base + (i + len sl) * stride <= n ->
  (forall s, Some s ∈ sl -> exists v, f s = Ok v /\ len v = stride /\ bytes_ok v) ->
  Forall (fun w => sized n w /\ total n w /\ base + i * stride <= w_lo w /\ w_hi w <= base + (i + len sl) * stride)
    (table_writes base stride f i sl).
Proof.
  intros Hst Hb. revert i. induction sl as [|[s|] sl IH]; intros i Hi Hn Hs; cbn [table_writes]; [constructor| |].
  all: rewrite len_cons in *; pose proof (len_nonneg sl).
  - destruct (Hs s) as (v & Ev & Hl & Hv); [apply list_elem_of_here|]. constructor.
    + split; [|split; [|cbn; nia]].
      * apply sized_put; [nia | nia|]. rewrite Ev. intros x [= <-]. split; [lia | done].
      * intros buf _ _. by exists v.
    + eapply Forall_impl; [apply IH; [lia | nia | intros; apply Hs; by apply list_elem_of_further]|].
      intros w (? & ? & ? & ?). split_and!; try done; nia.
  - eapply Forall_impl; [apply IH; [lia | nia | intros; apply Hs; by apply list_elem_of_further]|].
    intros w (? & ? & ? & ?). split_and!; try done; nia.
Qed.

Lemma apart_all P ws a c : Forall P ws -> (forall w, P w -> apart a c w = true) -> forallb (apart a c) ws = true.
Proof. intros H Hp. apply forallb_forall. intros w Hw%list_elem_of_In. rewrite Forall_forall in H. auto. Qed.

(** After the table has run, each present slot reads back as its encoding. *)
Lemma table_reads i sl buf buf' k s :
  0 <= stride -> 0 <= base -> 0 <= i -> base + (i + len sl) * stride <= n ->
  (forall s, Some s ∈ sl -> exists v, f s = Ok v /\ len v = stride /\ bytes_ok v) ->
  len buf = n -> run_writes (table_writes base stride f i sl) buf = Ok buf' -> sl !! k = Some (Some s) ->
  f s = Ok (slice (base + (i + Z.of_nat k) * stride) (base + (i + Z.of_nat k + 1) * stride) buf').
Proof.
  intros Hst Hb. revert i buf k. induction sl as [|x sl IH]; intros i buf k Hi Hn Hs Hl Hr Hk; [done|].
  rewrite len_cons in Hn. pose proof (len_nonneg sl).
  assert (Hs' : forall s, Some s ∈ sl -> exists v, f s = Ok v /\ len v = stride /\ bytes_ok v)
    by (intros; apply Hs; by apply list_elem_of_further).
  assert (Hprog := table_program (i + 1) sl Hst Hb ltac:(lia) ltac:(nia) Hs').
  assert (Hrest : forall b, len b = n -> run_writes (table_writes base stride f (i + 1) sl) b = Ok buf' ->
            forall j, sl !! j = Some (Some s) ->
            f s = Ok (slice (base + (i + Z.of_nat (S j)) * stride) (base + (i + Z.of_nat (S j) + 1) * stride) buf')).
  { intros b Hlb Hrb j Hj. replace (i + Z.of_nat (S j)) with (i + 1 + Z.of_nat j) by lia.
    apply (IH (i + 1) b j); try done; [lia | nia]. }
  destruct x as [x|]; cbn [table_writes] in Hr.
  - destruct (Hs x) as (v & Ev & Hlv & Hv); [apply list_elem_of_here|].
    cbn [run_writes put w_val w_lo w_hi] in Hr. rewrite Ev, ok_bind in Hr.
    assert (Hl1 : len (slice_assign (base + i * stride) (base + (i + 1) * stride) v buf) = n)
      by (rewrite len_slice_assign; nia).
    destruct k as [|k]; cbn in Hk; [|by apply (Hrest _ Hl1 Hr)]. injection Hk as ->.
    rewrite Z.add_0_r. rewrite Ev. f_equal.
    rewrite (run_writes_apart n _ _ _ (Forall_impl _ _ _ Hprog (fun w H => proj1 H)) Hl1 Hr).
    + symmetry. apply slice_assign_read; nia.
    + nia.
    + eapply apart_all; [exact Hprog|]. intros w (_ & _ & Hw & _). unfold apart. apply orb_true_iff. right.
      apply Z.leb_le. lia.
  - destruct k as [|k]; cbn in Hk; [done|]. by apply (Hrest _ Hl Hr).
Qed.

Lemma table_absent i sl buf buf' k :
  0 <= stride -> 0 <= base -> 0 <= i -> base + (i + len sl) * stride <= n ->
  (forall s, Some s ∈ sl -> exists v, f s = Ok v /\ len v = stride /\ bytes_ok v) ->
  len buf = n -> run_writes (table_writes base stride f i sl) buf = Ok buf' -> sl !! k = Some None ->
  slice (base + (i + Z.of_nat k) * stride) (base + (i + Z.of_nat k + 1) * stride) buf'
  = slice (base + (i + Z.of_nat k) * stride) (base + (i + Z.of_nat k + 1) * stride) buf.
Proof.
  intros Hst Hb. revert i buf k. induction sl as [|x sl IH]; intros i buf k Hi Hn Hs Hl Hr Hk; [done|].
  rewrite len_cons in Hn. pose proof (len_nonneg sl).
  assert (Hs' : forall s, Some s ∈ sl -> exists v, f s = Ok v /\ len v = stride /\ bytes_ok v)
    by (intros; apply Hs; by apply list_elem_of_further).
  assert (Hprog := table_program (i + 1) sl Hst Hb ltac:(lia) ltac:(nia) Hs').
  destruct x as [x|]; cbn [table_writes] in Hr.
  - destruct (Hs x) as (v & Ev & Hlv & Hv); [apply list_elem_of_here|].
    cbn [run_writes put w_val w_lo w_hi] in Hr. rewrite Ev, ok_bind in Hr.
    assert (Hl1 : len (slice_assign (base + i * stride) (base + (i + 1) * stride) v buf) = n)
      by (rewrite len_slice_assign; nia).
    destruct k as [|k]; cbn in Hk; [done|].
    replace (i + Z.of_nat (S k)) with (i + 1 + Z.of_nat k) by lia.
    rewrite (IH (i + 1) _ k ltac:(lia) ltac:(nia) Hs' Hl1 Hr Hk). apply slice_assign_other; nia.
  - destruct k as [|k]; cbn in Hk.
    + rewrite Z.add_0_r. apply (run_writes_apart n _ _ _ (Forall_impl _ _ _ Hprog (fun w H => proj1 H)) Hl Hr); [nia|].
      eapply apart_all; [exact Hprog|]. intros w (_ & _ & Hw & _). unfold apart. apply orb_true_iff. right.
      apply Z.leb_le. lia.
    + replace (i + Z.of_nat (S k)) with (i + 1 + Z.of_nat k) by lia.
      apply (IH (i + 1)); try done; [lia | nia].
Qed.

Context (Hst : 0 <= stride) (Hlo : 0 <= lo) (Hlo4 : lo + 4 <= base) (Hn : base + len slots * stride <= n).
Context (Hhdr : Forall in_header hdr) (Hmid : Forall in_header mid) (Hslots : slots_encode).

Lemma header_program ws : Forall in_header ws -> Forall (sized n) ws /\ Forall (total n) ws /\ Forall (fun w => w_hi w <= base) ws.
Proof using Hst Hlo Hlo4 Hn.
  pose proof (len_nonneg slots). intros Hws. split_and!; eapply Forall_impl; try exact Hws; intros w [Hs Ht].
  - apply (sized_weaken base); [done | nia].
  - done.
  - by destruct Hs as (_ & ? & _).
Qed.

(** The page the program writes: its length and seal, its slots and the unused
    ones, the zero tail, and the header fields as [hdr] and [mid] left them. *)
Lemma table_page :
  exists m, run_writes page_program (zeros n) = Ok m /\ len m = n /\ bytes_ok m /\ sealed ck lo m /\
    (forall k s, slots !! k = Some (Some s) -> f s = Ok (slot_at k m)) /\
    (forall k, slots !! k = Some None -> slot_at k m = zeros stride) /\
    (forall a c, base + len slots * stride <= a <= c -> c <= n -> slice a c m = zeros (c - a)) /\
    (exists b, run_writes hdr (zeros n) = Ok b /\ forall a c, 0 <= a <= c -> c <= base ->
       forallb (apart a c) mid = true -> apart a c (put_crc ck lo) = true -> slice a c m = slice a c b) /\
    (exists b b', len b = n /\ run_writes mid b = Ok b' /\ forall a c, 0 <= a <= c -> c <= base ->
       apart a c (put_crc ck lo) = true -> slice a c m = slice a c b').
Proof using HC Hst Hlo Hlo4 Hn Hhdr Hmid Hslots.
  pose proof (len_nonneg slots) as Hls. assert (Hn0 : 0 <= n) by nia.
  destruct (header_program hdr Hhdr) as (Hh1 & Hh2 & Hh3). destruct (header_program mid Hmid) as (Hm1 & Hm2 & Hm3).
  pose proof (table_program 0 slots Hst ltac:(lia) ltac:(lia) ltac:(lia) Hslots) as Ht.
  assert (Ht1 : Forall (sized n) (table_writes base stride f 0 slots)) by (eapply Forall_impl; [exact Ht|]; by intros w (? & _)).
  assert (Ht2 : Forall (total n) (table_writes base stride f 0 slots)) by (eapply Forall_impl; [exact Ht|]; by intros w (_ & ? & _)).
  assert (Hz : len (zeros n) = n) by (by apply len_zeros).
  destruct (run_writes_total n hdr (zeros n) Hh1 Hh2 Hz (zeros_ok n)) as (b1 & R1 & L1 & O1).
  destruct (run_writes_total n _ b1 Ht1 Ht2 L1 O1) as (b2 & R2 & L2 & O2).
  destruct (run_writes_total n mid b2 Hm1 Hm2 L2 O2) as (b3 & R3 & L3 & O3).
  assert (Htail1 : Forall (sized n) [put lo (lo + 4) (u32 0); put_crc ck lo]).
  { constructor; [apply sized_pack; lia | constructor; [apply sized_crc; lia | constructor]]. }
  assert (Htail2 : Forall (total n) [put lo (lo + 4) (u32 0); put_crc ck lo]).
  { constructor; [apply total_pack; pack_range; lia | constructor; [apply total_crc, _ | constructor]]. }
  destruct (run_writes_total n _ b3 Htail1 Htail2 L3 O3) as (m & R4 & L4 & O4).
  assert (Rpre : run_writes (hdr ++ table_writes base stride f 0 slots ++ mid) (zeros n) = Ok b3)
    by (by rewrite !run_writes_app, R1, ok_bind, run_writes_app, R2, ok_bind).
  assert (Rall : run_writes page_program (zeros n) = Ok m) by (unfold page_program; by rewrite run_writes_app, Rpre, ok_bind).
  assert (T4 : forall a c, 0 <= a <= c -> apart a c (put_crc ck lo) = true -> slice a c m = slice a c b3).
  { intros a c Hac Ha. apply (run_writes_apart n _ _ _ Htail1 L3 R4); [done|]. cbn [forallb].
    change (apart a c (put lo (lo + 4) (u32 0))) with (apart a c (put_crc ck lo)). by rewrite Ha. }
  assert (Above : forall a c, base <= a <= c -> apart a c (put_crc ck lo) = true).
  { intros a c Ha. unfold apart. cbn. apply orb_true_iff. left. apply Z.leb_le. lia. }
  assert (T3 : forall a c, base <= a <= c -> slice a c b3 = slice a c b2).
  { intros a c Ha. apply (run_writes_apart n _ _ _ Hm1 L2 R3); [lia|]. eapply apart_all; [exact Hm3|].
    intros w Hw. cbn beta in Hw. unfold apart. apply orb_true_iff. left. apply Z.leb_le. lia. }
  assert (T1 : forall a c, base <= a <= c -> c <= n -> slice a c b1 = zeros (c - a)).
  { intros a c Ha Hc. rewrite (run_writes_apart n _ _ _ Hh1 Hz R1); [|lia|].
    - unfold slice, zeros. rewrite drop_replicate, take_replicate. f_equal. lia.
    - eapply apart_all; [exact Hh3|]. intros w Hw. cbn beta in Hw. unfold apart. apply orb_true_iff. left. apply Z.leb_le. lia. }
  assert (T2 : forall a c, 0 <= a <= c -> c <= base \/ base + len slots * stride <= a -> slice a c b2 = slice a c b1).
  { intros a c Ha Hc. apply (run_writes_apart n _ _ _ Ht1 L1 R2); [done|]. eapply apart_all; [exact Ht|].
    intros w (_ & _ & W1 & W2). unfold apart. apply orb_true_iff. rewrite !Z.leb_le. lia. }
  exists m. split; [done|]. split; [done|]. split; [done|]. split.
  { apply (run_sealed ck n (hdr ++ table_writes base stride f 0 slots ++ mid) lo (zeros n)); auto using zeros_ok with lia.
    repeat apply Forall_app_2; done. }
  split_and!.
  - intros k s Hk. unfold slot_at. assert (Z.of_nat k < len slots) by (apply lookup_lt_Some in Hk; unfold len; lia).
    rewrite T4, T3 by (try apply Above; nia).
    pose proof (table_reads 0 slots b1 b2 k s Hst ltac:(lia) ltac:(lia) ltac:(lia) Hslots L1 R2 Hk) as E.
    by rewrite !Z.add_0_l in E.
  - intros k Hk. unfold slot_at. assert (Z.of_nat k < len slots) by (apply lookup_lt_Some in Hk; unfold len; lia).
    rewrite T4, T3 by (try apply Above; nia).
    pose proof (table_absent 0 slots b1 b2 k Hst ltac:(lia) ltac:(lia) ltac:(lia) Hslots L1 R2 Hk) as E.
    rewrite !Z.add_0_l in E. rewrite E, T1 by nia. f_equal. lia.
  - intros a c Ha Hc. rewrite T4, T3, T2, T1 by (try apply Above; try right; nia). done.
  - exists b1. split; [done|]. intros a c Ha Hc Hm Hcrc. rewrite T4 by done.
    rewrite (run_writes_apart n _ _ _ Hm1 L2 R3) by done. apply T2; [done | by left].
  - exists b2, b3. split; [done|]. split; [done|]. intros a c Ha Hc Hcrc. by apply T4.
Qed.
End TablePage.
