(* ===== verification/Join.v ===== *)
(** Byte strings built by concatenation: [a + u16(n) + b + ...], evaluated from
    left to right, and the laws that read each part back at its offset. *)

From S2P Require Import Prelude Bytes.

(** The first part that raises decides the exception. *)
Fixpoint join (parts : list (res bytes)) : res bytes :=
  match parts with
  | [] => Ok []
  | p :: parts => a ← p; b ← join parts; mret (a ++ b)
  end.

(** Every value a part can have is [n] bytes long. *)
Definition wide (p : res bytes) (n : Z) : Prop := forall v, p = Ok v -> len v = n.
Definition sound (p : res bytes) : Prop := forall v, p = Ok v -> bytes_ok v.
Definition fine (p : res bytes) : Prop := exists v, p = Ok v.

Lemma wide_pack k v n : n = Z.of_nat k -> wide (pack k v) n.
Proof. intros -> x E. by apply pack_len in E. Qed.
Lemma wide_Ok v n : len v = n -> wide (Ok v) n.
Proof. by intros H x [= <-]. Qed.
Lemma sound_pack k v : sound (pack k v).
Proof. intros x E. by eapply pack_ok. Qed.
Lemma sound_Ok v : bytes_ok v -> sound (Ok v).
Proof. by intros H x [= <-]. Qed.
Lemma fine_pack k v : 0 <= v < 256 ^ Z.of_nat k -> fine (pack k v).
Proof. intros H. eexists. by apply pack_total. Qed.
Lemma fine_Ok v : fine (Ok v).
Proof. by exists v. Qed.
#[export] Hint Resolve fine_Ok sound_pack : ninlil.

(** Integers in the range of their field. *)
Lemma fine_u8 v : is_byte v -> fine (u8 v).
Proof. exact (fine_pack 1 v). Qed.
Lemma fine_u16 v : u16_ok v -> fine (u16 v).
Proof. exact (fine_pack 2 v). Qed.
Lemma fine_u32 v : u32_ok v -> fine (u32 v).
Proof. exact (fine_pack 4 v). Qed.
Lemma fine_u64 v : u64_ok v -> fine (u64 v).
Proof. exact (fine_pack 8 v). Qed.
Lemma wide_raw n v : raw n v -> wide (Ok v) n.
Proof. intros [H _]. by apply wide_Ok. Qed.
Lemma sound_raw n v : raw n v -> sound (Ok v).
Proof. intros [_ H]. by apply sound_Ok. Qed.

Definition total_width (ns : list Z) : Z := foldr Z.add 0 ns.
(** The offset of part [i]. *)
Definition start (ns : list Z) (i : nat) : Z := total_width (take i ns).

Lemma join_app a b : join (a ++ b) = (x ← join a; y ← join b; mret (x ++ y)).
Proof.
  induction a as [|p a IH]; cbn [app join]; [by destruct (join b)|].
  rewrite IH. destruct p as [v|]; [|done]. rewrite !ok_bind. destruct (join a); [|done]. cbn.
  destruct (join b); [|done]. cbn. by rewrite app_assoc.
Qed.

Lemma join_total ps : Forall fine ps -> exists m, join ps = Ok m.
Proof.
  induction 1 as [|p ps [v ->] _ [m Hm]]; [by eexists|]. cbn [join]. rewrite Hm. by eexists.
Qed.

Lemma join_sound ps m : Forall sound ps -> join ps = Ok m -> bytes_ok m.
Proof.
  intros H. revert m. induction H as [|p ps Hp _ IH]; intros m E; [injection E as <-; constructor|].
  cbn in E. apply bind_Ok in E as (a & Ea & E). apply bind_Ok in E as (b & Eb & E). injection E as <-.
  apply bytes_ok_app. split; [by apply Hp | by apply IH].
Qed.

Lemma total_width_nonneg ps ns m : Forall2 wide ps ns -> join ps = Ok m -> total_width ns = len m.
Proof.
  intros H. revert m. induction H as [|p n ps ns Hp _ IH]; intros m E; [injection E as <-; done|].
  cbn in E. apply bind_Ok in E as (a & Ea & E). apply bind_Ok in E as (b & Eb & E). injection E as <-.
  rewrite len_app. cbn. fold (total_width ns). rewrite (IH b Eb), (Hp a Ea). done.
Qed.

Lemma join_len ps ns m : Forall2 wide ps ns -> join ps = Ok m -> len m = total_width ns.
Proof. intros H E. symmetry. by eapply total_width_nonneg. Qed.

(** A part reads back at its offset. *)
Lemma join_read ps ns m i p :
  Forall2 wide ps ns -> join ps = Ok m -> ps !! i = Some p -> p = Ok (slice (start ns i) (start ns (S i)) m).
Proof.
  intros H. revert i m. induction H as [|q n ps ns Hq H IH]; intros i m E Hi; [done|].
  cbn in E. apply bind_Ok in E as (a & Ea & E). apply bind_Ok in E as (b & Eb & E). injection E as <-.
  pose proof (Hq a Ea) as La. pose proof (len_nonneg a) as Na.
  destruct i as [|i]; cbn in Hi.
  - injection Hi as <-. unfold start. cbn. rewrite Z.add_0_r, <- La. by rewrite slice_app_exact.
  - pose proof (IH i b Eb Hi) as Hp. rewrite Hp. unfold start in *. rewrite !firstn_cons. cbn [total_width foldr].
    fold (total_width (take i ns)). fold (total_width (take (S i) ns)).
    assert (0 <= total_width (take i ns)).
    { pose proof (Forall2_take _ _ _ i H) as Ht. destruct (join_total (take i ps)) as [x Ex].
      - apply Forall_take. apply Forall_forall. intros r Hr. clear -Eb Hr.
        revert b Eb. induction ps as [|s ps IHp]; intros b Eb; [by apply elem_of_nil in Hr|].
        cbn in Eb. apply bind_Ok in Eb as (x & Ex & Eb). apply bind_Ok in Eb as (y & Ey & Eb).
        apply elem_of_cons in Hr as [-> | Hr]; [by exists x | by apply (IHp Hr y)].
      - rewrite <- (join_len _ _ _ Ht Ex) || rewrite (total_width_nonneg _ _ _ Ht Ex). apply len_nonneg. }
    rewrite slice_app_r by lia. f_equal. f_equal; lia.
Qed.

(** Every part at once: the spans are literal when the widths are. *)
Definition spans (ns : list Z) : list (Z * Z) := map (fun i => (start ns i, start ns (S i))) (seq 0 (length ns)).

Lemma join_reads ps ns m :
  Forall2 wide ps ns -> join ps = Ok m -> Forall2 (fun p ac => p = Ok (slice ac.1 ac.2 m)) ps (spans ns).
Proof.
  intros W E. apply Forall2_same_length_lookup_2.
  - unfold spans. by rewrite length_map, length_seq, (Forall2_length _ _ _ W).
  - intros i p [a c] Hp Hac. unfold spans in Hac. rewrite list_lookup_fmap in Hac.
    apply fmap_Some in Hac as (k & Hk & [= -> ->]). apply lookup_seq in Hk as [-> _]. by eapply join_read.
Qed.

Lemma total_width_app a b : total_width (a ++ b) = total_width a + total_width b.
Proof. unfold total_width. induction a as [|x a IH]; cbn; [done|]. lia. Qed.

Lemma spans_snoc ns n : spans (ns ++ [n]) = spans ns ++ [(total_width ns, total_width ns + n)].
Proof.
  unfold spans. rewrite length_app, seq_app, map_app. cbn [length seq map]. f_equal.
  - apply map_ext_in. intros i Hi. apply in_seq in Hi. unfold start. by rewrite !take_app_le by lia.
  - unfold start. rewrite (take_app_le ns [n] (0 + length ns)), (take_ge ns), (take_ge (ns ++ [n])) by (rewrite ?length_app; cbn; lia).
    rewrite total_width_app. cbn. by rewrite Z.add_0_r.
Qed.

(** A byte string that reads as the parts is their concatenation. *)
Lemma join_of_reads ps ns m :
  Forall (Z.le 0) ns -> total_width ns <= len m ->
  Forall2 (fun p ac => p = Ok (slice ac.1 ac.2 m)) ps (spans ns) -> join ps = Ok (slice 0 (total_width ns) m).
Proof.
  revert ps. induction ns as [|n ns IH] using rev_ind; intros ps Hn Hl H.
  { apply Forall2_nil_inv_r in H as ->. done. }
  apply Forall_app in Hn as [Hn Hn1]. apply Forall_cons in Hn1 as [Hn1 _].
  rewrite spans_snoc in H. apply Forall2_app_inv_r in H as (ps1 & ps2 & H1 & H2 & ->).
  apply Forall2_cons_inv_r in H2 as (p & ps3 & H2 & H3 & Hp). apply Forall2_nil_inv_r in H3 as ->. subst ps2 p.
  rewrite total_width_app in *. cbn [total_width foldr] in *. rewrite Z.add_0_r in *.
  assert (0 <= total_width ns) by (clear -Hn; unfold total_width; induction Hn; cbn; lia).
  rewrite join_app, (IH ps1 Hn ltac:(lia) H1), ok_bind. cbn [join fst snd]. rewrite ok_bind. cbn. rewrite app_nil_r.
  f_equal. symmetry. apply slice_split; lia.
Qed.

(** Two joins of the same widths with the same bytes have the same parts. *)
Lemma join_inj ps qs ns m :
  Forall2 wide ps ns -> Forall2 wide qs ns -> join ps = Ok m -> join qs = Ok m -> ps = qs.
Proof.
  intros Hp Hq Ep Eq. apply list_eq. intros i.
  pose proof (Forall2_length _ _ _ Hp) as L1. pose proof (Forall2_length _ _ _ Hq) as L2.
  destruct (ps !! i) as [p|] eqn:E1.
  - destruct (qs !! i) as [q|] eqn:E2; [|apply lookup_ge_None in E2; apply lookup_lt_Some in E1; lia].
    f_equal. rewrite (join_read _ _ _ _ _ Hp Ep E1). by rewrite (join_read _ _ _ _ _ Hq Eq E2).
  - apply lookup_ge_None in E1. symmetry. apply lookup_ge_None. lia.
Qed.

(** [solve_wide], [solve_fine] and [solve_sound] discharge the side conditions of
    literal lists of parts. *)
Ltac solve_wide :=
  repeat first [ apply Forall2_nil_2 | apply Forall2_cons_2 ];
  first [ apply wide_pack; reflexivity | apply wide_Ok; solve_len ].
Ltac solve_fine :=
  repeat first [ apply Forall_nil_2 | apply Forall_cons_2 ];
  first [ apply fine_Ok | apply fine_pack; pack_range; lia | apply fine_pack; vm_compute; split; [discriminate | reflexivity] ].
Ltac solve_sound :=
  repeat first [ apply Forall_nil_2 | apply Forall_cons_2 ];
  first [ apply sound_pack | apply sound_Ok; solve_bytes ].

(** [read_part Hw Hj i] reads part [i]: an integer or a byte string. *)
Ltac read_part Hw Hj i :=
  match goal with
  | |- be_val (slice _ _ _) = _ =>
      let H := fresh in pose proof (join_read _ _ _ i _ Hw Hj eq_refl) as H; exact (pack_val _ _ _ H)
  | |- slice _ _ _ = _ =>
      let H := fresh in pose proof (join_read _ _ _ i _ Hw Hj eq_refl) as H; symmetry; exact (Ok_inj _ _ H)
  end.

(** [read_part_at ns Hw Hj i] is [read_part] when an offset is not a literal. *)
Ltac read_part_at ns Hw Hj i :=
  let at_offset a c :=
    let Ha := fresh in let Hc := fresh in let H := fresh in
    assert (Ha : start ns i = a) by (unfold start, total_width; cbn [take foldr]; lia);
    assert (Hc : start ns (S i) = c) by (unfold start, total_width; cbn [take foldr]; lia);
    pose proof (join_read _ _ _ i _ Hw Hj eq_refl) as H; rewrite Ha, Hc in H;
    first [exact (pack_val _ _ _ H) | symmetry; exact (Ok_inj _ _ H)] in
  match goal with
  | |- be_val (slice ?a ?c _) = _ => at_offset a c
  | |- slice ?a ?c _ = _ => at_offset a c
  end.

(** [read_all Hr] turns the reads of a literal list of parts into one hypothesis per
    part; [read_known] closes a goal that is one of them. *)
Ltac read_all Hr :=
  repeat (apply Forall2_cons in Hr; let K := fresh "K" in destruct Hr as [K Hr]; cbn [fst snd] in K);
  repeat match goal with
  | K : context [start ?ns ?i] |- _ => let v := eval vm_compute in (start ns i) in change (start ns i) with v in K
  end; clear Hr.
Ltac read_known :=
  match goal with
  | K : _ = Ok (slice ?a ?c ?m) |- be_val (slice ?a ?c ?m) = _ => exact (pack_val _ _ _ K)
  | K : Ok _ = Ok (slice ?a ?c ?m) |- slice ?a ?c ?m = _ => symmetry; exact (Ok_inj _ _ K)
  end.

(** [run_join] evaluates a join whose integers are in range. *)
Ltac run_join :=
  unfold u8, u16, u32, u64; cbn [join];
  repeat (first [rewrite ok_bind | rewrite pack_bind by (pack_range; lia)]; cbn [mbind res_bind mret res_ret]).
