(* ===== verification/Chain.v ===== *)
(** Buffers filled from front to back: a program of slice assignments that covers a
    zeroed buffer in order builds the concatenation of its values, so the laws
    of Join.v read its fields. *)

From S2P Require Import Prelude Bytes Crc Sha256 Layout Join.

(** Every write stores a value fixed in advance right after the one before it. *)
Inductive chained : Z -> list write -> list (res bytes) -> list Z -> Prop :=
  | chained_nil lo : chained lo [] [] []
  | chained_cons lo w ws v vs n ns :
      w_lo w = lo -> (forall buf, w_val w buf = v) -> (forall x, v = Ok x -> w_hi w = lo + n) ->
      chained (lo + n) ws vs ns -> chained lo (w :: ws) (v :: vs) (n :: ns).

Lemma run_chained_raise lo ws vs ns buf e :
  chained lo ws vs ns -> join vs = Raise e -> run_writes ws buf = Raise e.
Proof.
  intros H. revert buf. induction H as [|lo w ws v vs n ns Hlo Hv Hhi H IH]; intros buf E; [done|].
  cbn in E |- *. rewrite Hv. destruct v as [x|]; [|done]. rewrite ok_bind in *.
  destruct (join vs); [done|]. by apply IH.
Qed.

Lemma run_chained_Ok lo ws vs ns pre rest b :
  chained lo ws vs ns -> Forall2 wide vs ns -> len pre = lo -> total_width ns <= len rest -> join vs = Ok b ->
  run_writes ws (pre ++ rest) = Ok (pre ++ b ++ drop (length b) rest).
Proof.
  intros H. revert pre rest b. induction H as [lo | lo w ws v vs n ns Hlo Hv Hhi H IH]; intros pre rest b W Hp Hr E.
  { cbn in E. by injection E as <-. }
  apply Forall2_cons in W as [Wv W]. cbn in E. apply bind_Ok in E as (x & -> & E). apply bind_Ok in E as (c & Ec & E).
  injection E as <-. cbn [run_writes]. rewrite Hv, ok_bind, Hlo, (Hhi x eq_refl). pose proof (Wv x eq_refl) as Lx.
  assert (Hfirst : slice_assign lo (lo + n) x (pre ++ rest) = (pre ++ x) ++ drop (length x) rest).
  { unfold slice_assign. rewrite take_app_le by (unfold len in *; lia). rewrite take_ge by (unfold len in *; lia).
    rewrite drop_app_ge by (unfold len in *; lia). rewrite <- app_assoc. do 3 f_equal. unfold len in *. lia. }
  cbn [total_width foldr] in Hr. fold (total_width ns) in Hr. rewrite Hfirst.
  rewrite (IH (pre ++ x) _ c W) by (done || (unfold len in *; rewrite ?length_app, ?length_drop; lia)).
  by rewrite drop_drop, length_app, <- !app_assoc.
Qed.

(** The whole buffer is covered. *)
Lemma run_chained_all ws vs ns n :
  chained 0 ws vs ns -> Forall2 wide vs ns -> 0 <= n -> total_width ns = n -> run_writes ws (zeros n) = join vs.
Proof.
  intros H W Hp Hn. destruct (join vs) as [b|e] eqn:E; [|by eapply run_chained_raise].
  pose proof (len_zeros n Hp) as Lz. pose proof (join_len _ _ _ W E) as L.
  change (zeros n) with ([] ++ zeros n). rewrite (run_chained_Ok 0 _ _ _ [] (zeros n) b H W) by (done || lia).
  cbn. f_equal. rewrite drop_ge; [by rewrite app_nil_r|]. unfold len in *. lia.
Qed.

(** The offsets at which values of given widths follow each other. *)
Fixpoint offsets (lo : Z) (ns : list Z) : list Z :=
  match ns with [] => [] | n :: ns => lo :: offsets (lo + n) ns end.

(** [buf[lo:hi] = v] for a list of literal slices. *)
Definition puts (fs : list (Z * Z * res bytes)) : list write := map (fun f => put f.1.1 f.1.2 f.2) fs.

Lemma chained_puts fs ns lo :
  map (fun f => f.1.1) fs = offsets lo ns -> map (fun f => f.1.2 - f.1.1) fs = ns ->
  chained lo (puts fs) (map snd fs) ns.
Proof.
  revert ns lo. induction fs as [|[[a c] v] fs IH]; intros [|n ns] lo Ho Hn; try done; [constructor|].
  cbn in Ho, Hn. injection Ho as -> Ho. injection Hn as <- Hn. cbn. constructor; [done | done | intros; cbn; lia | by apply IH].
Qed.

Lemma run_puts fs ns n :
  map (fun f => f.1.1) fs = offsets 0 ns -> map (fun f => f.1.2 - f.1.1) fs = ns -> Forall2 wide (map snd fs) ns ->
  0 <= n -> total_width ns = n -> run_writes (puts fs) (zeros n) = join (map snd fs).
Proof. intros Ho Hn W H1 H2. by apply (run_chained_all _ _ ns); [apply chained_puts|..]. Qed.

(** ** Sealing a field left zero *)

Section Sealing.
Context (ck : bytes -> Z) {HC : Checksum32 ck}.

(** [buf[lo:lo+4] = u32(crc32c(buf))]. *)
Definition seal_at (lo : Z) (m : bytes) : res bytes := run_writes [put_crc ck lo] m.

Lemma seal_at_Ok lo m :
  bytes_ok m -> 0 <= lo -> lo + 4 <= len m ->
  exists r, seal_at lo m = Ok r /\ len r = len m /\ bytes_ok r /\
    (slice lo (lo + 4) m = zeros 4 -> sealed ck lo r) /\
    forall a c, 0 <= a <= c -> c <= lo \/ lo + 4 <= a -> slice a c r = slice a c m.
Proof using HC.
  intros Hm Hlo Hl. unfold seal_at. cbn. unfold u32. rewrite (pack_checksum ck _ Hm), ok_bind.
  assert (L4 : len (be_bytes 4 (ck m)) = lo + 4 - lo) by (rewrite len_be_bytes; lia).
  eexists. split; [done|]. split; [by rewrite len_slice_assign by lia|].
  split; [apply slice_assign_ok; [apply be_bytes_ok | done]|]. split.
  - intros Hz. unfold sealed. rewrite slice_assign_read by lia. rewrite (be_val_checksum ck _ Hm). f_equal.
    rewrite slice_assign_twice by (rewrite ?len_zeros; lia). rewrite <- Hz. symmetry.
    unfold slice_assign. rewrite Z.max_r by lia. rewrite <- (take_drop (Z.to_nat lo) m) at 4. f_equal.
    unfold slice. replace (Z.to_nat (lo + 4 - lo)) with 4%nat by lia.
    rewrite <- (take_drop 4 (drop (Z.to_nat lo) m)) at 2. f_equal. rewrite drop_drop. f_equal. lia.
  - intros a c Ha Hc. apply slice_assign_other; lia.
Qed.

(** Zeroing the field and sealing gives the one sealed record that agrees with the
    original outside the field. *)
Lemma zero_seal_Ok lo m :
  bytes_ok m -> 0 <= lo -> lo + 4 <= len m ->
  exists r, seal_at lo (slice_assign lo (lo + 4) (zeros 4) m) = Ok r /\ len r = len m /\ bytes_ok r /\ sealed ck lo r /\
    forall a c, 0 <= a <= c -> c <= lo \/ lo + 4 <= a -> slice a c r = slice a c m.
Proof using HC.
  intros Hm Hlo Hl. assert (Lz : len (zeros 4) = lo + 4 - lo) by (rewrite len_zeros; lia).
  destruct (seal_at_Ok lo (slice_assign lo (lo + 4) (zeros 4) m)) as (r & Er & Lr & Br & Sr & Hr).
  - apply slice_assign_ok; [apply zeros_ok | done].
  - done.
  - rewrite len_slice_assign by lia. done.
  - exists r. rewrite len_slice_assign in Lr by lia. split; [done|]. split; [done|]. split; [done|]. split.
    + apply Sr. apply slice_assign_read; lia.
    + intros a c Ha Hc. rewrite Hr by done. apply slice_assign_other; lia.
Qed.

Lemma sealed_unique lo a b :
  bytes_ok a -> bytes_ok b -> 0 <= lo -> lo + 4 <= len a -> len a = len b -> sealed ck lo a -> sealed ck lo b ->
  slice 0 lo a = slice 0 lo b -> slice (lo + 4) (len a) a = slice (lo + 4) (len b) b -> a = b.
Proof.
  intros Ha Hb Hlo Hl Hlen Sa Sb H1 H2. apply (window_eq lo (lo + 4)); try lia; [done| |done].
  apply be_val_inj; auto using bytes_ok_slice; [rewrite !len_slice by lia; lia|]. unfold sealed in *. rewrite Sa, Sb. f_equal.
  apply slice_assign_same; try lia; done.
Qed.
End Sealing.
