(* ===== verification/Sealed.v ===== *)
(** Records made of a header of fixed fields and a payload, with a checksum field
    over the whole: [seal_record] builds them, and a byte string that reads as
    the fields and is sealed is the one the builder makes. *)

From S2P Require Import Prelude Bytes Crc Sha256 Layout Join Chain.

(** The record with its checksum field cleared. *)
Definition zeroed (lo : Z) (m : bytes) : bytes := slice_assign lo (lo + 4) (zeros 4) m.

Lemma len_zeroed lo m : 0 <= lo -> lo + 4 <= len m -> len (zeroed lo m) = len m.
Proof. intros H1 H2. apply len_slice_assign; try lia. rewrite len_zeros; lia. Qed.

Lemma zeroed_other lo m a c : 0 <= lo -> lo + 4 <= len m -> 0 <= a <= c -> c <= lo \/ lo + 4 <= a -> slice a c (zeroed lo m) = slice a c m.
Proof. intros H1 H2 H3 H4. apply slice_assign_other; rewrite ?len_zeros; lia. Qed.

Lemma zeroed_ok lo m : bytes_ok m -> bytes_ok (zeroed lo m).
Proof. intros H. apply slice_assign_ok; [apply zeros_ok | done]. Qed.

(** A field of [k] bytes read back as the integer packed into it. *)
Lemma pack_of_read k v (m : bytes) a c :
  bytes_ok m -> 0 <= a <= c -> c <= len m -> c - a = Z.of_nat k -> be_val (slice a c m) = v -> pack k v = Ok (slice a c m).
Proof.
  intros B H1 H2 H3 <-. apply pack_be_val; [by apply bytes_ok_slice|]. apply Nat2Z.inj. rewrite <- H3. by apply len_slice.
Qed.

Section SealedRecord.
Context (ck : bytes -> Z) {HC : Checksum32 ck}.

Definition seal_record (lo : Z) (ps : list (res bytes)) (payload : bytes) : res bytes :=
  header ← join ps;
  seal_at ck lo (header ++ payload).

(** [r] is sealed, and with the checksum cleared it is the parts followed by the payload. *)
Record sealed_record (lo : Z) (ps : list (res bytes)) (ns : list Z) (payload r : bytes) : Prop := {
  sr_bytes : bytes_ok r;
  sr_len : len r = total_width ns + len payload;
  sr_header : join ps = Ok (slice 0 (total_width ns) (zeroed lo r));
  sr_payload : slice_from (total_width ns) r = payload;
  sr_sealed : sealed ck lo r }.

Lemma seal_record_Ok lo ps ns payload i :
  Forall2 wide ps ns -> Forall fine ps -> Forall sound ps -> bytes_ok payload -> ps !! i = Some (u32 0) ->
  start ns i = lo -> start ns (S i) = lo + 4 -> 0 <= lo -> lo + 4 <= total_width ns ->
  exists r, seal_record lo ps payload = Ok r /\ sealed_record lo ps ns payload r.
Proof using HC.
  intros W F S Bp Hi Hlo Hhi H0 Hw. unfold seal_record. destruct (join_total _ F) as [h Eh]. rewrite Eh, ok_bind.
  pose proof (join_len _ _ _ W Eh) as Lh. pose proof (join_sound _ _ S Eh) as Bh. pose proof (len_nonneg payload) as Np.
  assert (Lx : len (h ++ payload) = total_width ns + len payload) by (rewrite len_app; lia).
  destruct (seal_at_Ok ck lo (h ++ payload)) as (r & Er & Lr & Br & Sr & Hr); [by apply bytes_ok_app | lia | lia|].
  assert (Hz : slice lo (lo + 4) (h ++ payload) = zeros 4).
  { rewrite slice_app_l by lia. apply Ok_inj. rewrite <- Hlo at 1. rewrite <- Hhi. symmetry. exact (join_read _ _ _ i _ W Eh Hi). }
  assert (Hx : zeroed lo r = h ++ payload).
  { unfold zeroed. rewrite slice_assign_parts by lia.
    rewrite (Hr 0 lo), (Hr (lo + 4) (len r)), <- Hz, Lr, <- (slice_split lo), <- slice_split by lia. apply slice_whole; lia. }
  exists r. split; [done|]. split; [done | lia | | | by apply Sr].
  - by rewrite Hx, slice_app_exact by lia.
  - rewrite slice_from_slice, Hr, Lr, <- slice_from_slice by lia. by apply slice_from_app.
Qed.

(** The builder makes the only such record. *)
Lemma sealed_record_unique lo ps ns payload a b :
  0 <= lo -> lo + 4 <= total_width ns -> sealed_record lo ps ns payload a -> sealed_record lo ps ns payload b -> a = b.
Proof using HC.
  intros H0 Hw [Ba La Ha Pa Sa] [Bb Lb Hb Pb Sb]. pose proof (len_nonneg payload) as Np. set (t := total_width ns) in *.
  rewrite Ha in Hb. apply Ok_inj in Hb.
  assert (E : forall x c, 0 <= x <= c -> c <= t -> c <= lo \/ lo + 4 <= x -> slice x c a = slice x c b).
  { intros x c Hx Hc Ho. rewrite <- (zeroed_other lo a), <- (zeroed_other lo b) by lia.
    assert (G : forall m : bytes, slice x c m = slice x c (slice 0 t m)) by (intros m; rewrite slice_slice by lia; f_equal; lia).
    by rewrite (G (zeroed lo a)), Hb, <- G. }
  apply (sealed_unique ck lo); try done; try lia; [apply E; lia|].
  rewrite (slice_split (lo + 4) t), (slice_split (lo + 4) t (len b)) by lia. f_equal; [apply E; lia|].
  rewrite <- !slice_from_slice by lia. congruence.
Qed.

(** A sealed string that reads as the parts is what the builder makes of them. *)
Lemma seal_record_rebuild lo ps ns r i :
  Forall2 wide ps ns -> Forall fine ps -> Forall sound ps -> ps !! i = Some (u32 0) -> start ns i = lo -> start ns (S i) = lo + 4 ->
  0 <= lo -> lo + 4 <= total_width ns -> Forall (Z.le 0) ns -> bytes_ok r -> total_width ns <= len r -> sealed ck lo r ->
  Forall2 (fun p ac => p = Ok (slice ac.1 ac.2 (zeroed lo r))) ps (spans ns) ->
  seal_record lo ps (slice_from (total_width ns) r) = Ok r.
Proof using HC.
  intros W F S Hi Hlo Hhi H0 Hw Hn Br Hl Hs R.
  assert (Bp : bytes_ok (slice_from (total_width ns) r)) by (rewrite slice_from_slice by lia; by apply bytes_ok_slice).
  destruct (seal_record_Ok lo ps ns _ i W F S Bp Hi Hlo Hhi H0 Hw) as (r' & E & H). rewrite E. f_equal.
  apply (sealed_record_unique lo ps ns (slice_from (total_width ns) r)); try done. split; try done.
  - rewrite slice_from_slice, len_slice by lia. lia.
  - apply join_of_reads; [done | by rewrite len_zeroed by lia | done].
Qed.

(** Field [i] of a sealed record, when it is not the checksum. *)
Lemma sealed_read lo ps ns payload r i p :
  Forall2 wide ps ns -> sealed_record lo ps ns payload r -> 0 <= lo -> lo + 4 <= total_width ns -> ps !! i = Some p ->
  0 <= start ns i <= start ns (S i) -> start ns (S i) <= total_width ns -> start ns (S i) <= lo \/ lo + 4 <= start ns i ->
  p = Ok (slice (start ns i) (start ns (S i)) r).
Proof using Type.
  intros W [B L H P Sl] H0 Hw Hi Ha Hc Ho. pose proof (len_nonneg payload) as Np. rewrite (join_read _ _ _ i _ W H Hi). f_equal.
  rewrite slice_slice by lia. rewrite !Z.add_0_l. apply zeroed_other; lia.
Qed.
End SealedRecord.

(** [sealed_reads W Hr lo n]: the first [n] parts of a sealed record as hypotheses, the
    checksum excepted. *)
Ltac sealed_reads ck W Hr n :=
  lazymatch n with
  | O => idtac
  | S ?k =>
      sealed_reads ck W Hr k;
      try (let K := fresh "K" in
           pose proof (sealed_read ck _ _ _ _ _ k _ W Hr ltac:(lia) ltac:(vm_compute; discriminate) eq_refl
             ltac:(vm_compute; split; discriminate) ltac:(vm_compute; discriminate)
             ltac:(first [left; vm_compute; discriminate | right; vm_compute; discriminate])) as K;
           match type of K with context [start ?ns k] => let v := eval vm_compute in (start ns k) in change (start ns k) with v in K end;
           match type of K with context [start ?ns (S k)] => let v := eval vm_compute in (start ns (S k)) in change (start ns (S k)) with v in K end)
  end.
