(* ===== verification/Prefixed.v ===== *)
(** Encodings that mark their own end: fields of a fixed width and fields behind their
    length.  Parts that end themselves can be joined and taken apart again, whatever
    follows. *)

From S2P Require Import Prelude Bytes Join.

(** Wherever both parts begin a byte string, they are the same bytes. *)
Definition locked (p q : res bytes) : Prop :=
  forall x y r s, p = Ok x -> q = Ok y -> x ++ r = y ++ s -> x = y /\ r = s.

Lemma locked_wide n p q : wide p n -> wide q n -> locked p q.
Proof.
  intros Hp Hq x y r s Ex Ey E. apply app_inj_1 in E; [done|].
  pose proof (Hp _ Ex). pose proof (Hq _ Ey). unfold len in *. lia.
Qed.

Lemma locked_Ok n (v w : bytes) : len v = n -> len w = n -> locked (Ok v) (Ok w).
Proof. intros Hv Hw. by apply (locked_wide n); apply wide_Ok. Qed.

Lemma locked_pack k v w : locked (pack k v) (pack k w).
Proof. by apply (locked_wide (Z.of_nat k)); apply wide_pack. Qed.

Lemma locked_app (ps qs : list (res bytes)) x y r s :
  Forall2 locked ps qs -> join ps = Ok x -> join qs = Ok y -> x ++ r = y ++ s -> ps = qs /\ x = y /\ r = s.
Proof.
  intros H. revert x y r s. induction H as [|p q ps qs Hpq _ IH]; intros x y r s Ex Ey E.
  - injection Ex as <-. by injection Ey as <-.
  - cbn in Ex, Ey. apply bind_Ok in Ex as (a & Ea & Ex). apply bind_Ok in Ex as (b & Eb & Ex). injection Ex as <-.
    apply bind_Ok in Ey as (c & Ec & Ey). apply bind_Ok in Ey as (d & Ed & Ey). injection Ey as <-.
    rewrite <- !app_assoc in E. destruct (Hpq _ _ _ _ Ea Ec E) as [-> E2].
    destruct (IH _ _ _ _ Eb Ed E2) as (-> & -> & ->). by rewrite Ea, Ec.
Qed.

(** Joined parts that end themselves end themselves. *)
Lemma locked_join ps qs : Forall2 locked ps qs -> locked (join ps) (join qs).
Proof. intros H x y r s Ex Ey E. by destruct (locked_app _ _ _ _ _ _ H Ex Ey E) as (_ & -> & ->). Qed.

Lemma join_locked ps qs m : Forall2 locked ps qs -> join ps = Ok m -> join qs = Ok m -> ps = qs.
Proof. intros H Ep Eq. by destruct (locked_app ps qs m m [] [] H Ep Eq eq_refl) as [-> _]. Qed.

(** ** A field behind its length *)

(** [struct.pack(">H", len(value)) + value]. *)
Definition opaque_len_prefix (value : bytes) : res bytes :=
  raise_if (65535 <? len value) (ValueError "opaque too long");;
  n ← u16 (len value);
  mret (n ++ value).

Lemma opaque_Ok value : len value <= 65535 -> opaque_len_prefix value = Ok (be_bytes 2 (len value) ++ value).
Proof.
  intros H. unfold opaque_len_prefix. rewrite raise_if_skip by (apply Z.ltb_ge; lia).
  pose proof (len_nonneg value). unfold u16. by rewrite pack_bind by (pack_range; lia).
Qed.

Lemma opaque_inv value x : opaque_len_prefix value = Ok x -> len value <= 65535 /\ x = be_bytes 2 (len value) ++ value.
Proof.
  intros H. destruct (Z.le_gt_cases (len value) 65535) as [Hl|Hl].
  - rewrite opaque_Ok in H by done. by injection H as <-.
  - unfold opaque_len_prefix in H. inv_res. bool_to_prop. lia.
Qed.

Lemma locked_opaque v w : locked (opaque_len_prefix v) (opaque_len_prefix w).
Proof.
  intros x y r s [Hv ->]%opaque_inv [Hw ->]%opaque_inv E. rewrite <- !app_assoc in E.
  apply app_inj_1 in E as [E1 E2]; [|by rewrite !length_be_bytes].
  pose proof (len_nonneg v). pose proof (len_nonneg w).
  apply be_bytes_inj in E1; [|pack_range; lia..]. apply app_inj_1 in E2 as [-> ->]; [done|]. unfold len in E1. lia.
Qed.

Lemma opaque_inj v w x : opaque_len_prefix v = Ok x -> opaque_len_prefix v = opaque_len_prefix w -> v = w.
Proof.
  intros Ev E. rewrite Ev in E. symmetry in E. apply opaque_inv in Ev as [Hv ->]. apply opaque_inv in E as [Hw E].
  pose proof (len_nonneg v). pose proof (len_nonneg w).
  apply app_inj_1 in E as [E1 ->]; [done | by rewrite !length_be_bytes].
Qed.

Lemma fine_opaque v : len v <= 65535 -> fine (opaque_len_prefix v).
Proof. intros H. eexists. by apply opaque_Ok. Qed.

Lemma sound_opaque v : bytes_ok v -> sound (opaque_len_prefix v).
Proof. intros H x [_ ->]%opaque_inv. apply bytes_ok_app. split; [apply be_bytes_ok | done]. Qed.

(** ** Reading the parts of two equal joins *)

Lemma join_parts_fine ps m : join ps = Ok m -> Forall fine ps.
Proof.
  revert m. induction ps as [|p ps IH]; intros m E; [constructor|]. cbn in E.
  apply bind_Ok in E as (a & Ea & E). apply bind_Ok in E as (b & Eb & E). constructor; [by exists a | by eapply IH].
Qed.

Section Parts.
Context {ps qs : list (res bytes)} (F : Forall fine ps) (P : ps = qs).

Lemma part_fine i p q : ps !! i = Some p -> qs !! i = Some q -> fine p /\ p = q.
Proof. intros Hp Hq. split; [by eapply Forall_lookup_1 | congruence]. Qed.

Lemma part_pack i k v w : ps !! i = Some (pack k v) -> qs !! i = Some (pack k w) -> v = w.
Proof. intros Hp Hq. destruct (part_fine _ _ _ Hp Hq) as [[x Ex] E]. apply (pack_inj k); [|done]. by apply pack_Ok in Ex as [? _]. Qed.

Lemma part_opaque i v w : ps !! i = Some (opaque_len_prefix v) -> qs !! i = Some (opaque_len_prefix w) -> v = w.
Proof. intros Hp Hq. destruct (part_fine _ _ _ Hp Hq) as [[x Ex] E]. by eapply opaque_inj. Qed.

Lemma part_bytes i v w : ps !! i = Some (Ok v) -> qs !! i = Some (Ok w) -> v = w.
Proof. intros Hp Hq. destruct (part_fine _ _ _ Hp Hq) as [_ E]. by injection E. Qed.
End Parts.

(** [solve_locked] walks two literal lists of parts of the same shape. *)
Ltac solve_locked :=
  repeat first [ apply Forall2_nil_2 | apply Forall2_cons_2 ];
  first [ apply locked_opaque | apply locked_pack | eapply locked_Ok; [reflexivity | reflexivity] | eapply locked_Ok; eassumption ].
