(* ===== verification/ControlFrame.v ===== *)
(** The NCG1 control frame codec of tools/control_frame_vector_gen.py: the
    encoder, the exact decoder with its result codes, the mutation recipes and
    the golden vectors the tool checks its decoder against. *)

From S2P Require Import Prelude Bytes Crc.

Definition MAGIC : bytes := bytes_of_string "NCG1".
Definition VERSION : Z := 1.
Definition TYPE_PING : Z := 0x01.
Definition TYPE_PONG : Z := 0x02.
Definition TYPE_DATA : Z := 0x03.
Definition TYPE_RESET : Z := 0x04.
Definition HEADER_PREFIX : Z := 18.
Definition HEADER : Z := 22.
Definition OVERHEAD : Z := 26.
Definition MAX_PAYLOAD : Z := 1024.

Definition RESULT_OK : Z := 0.
Definition RESULT_BAD_MAGIC : Z := 2.
Definition RESULT_BAD_VERSION : Z := 3.
Definition RESULT_BAD_TYPE : Z := 4.
Definition RESULT_BAD_FLAGS : Z := 5.
Definition RESULT_BAD_LENGTH : Z := 6.
Definition RESULT_BAD_HEADER_CRC : Z := 7.
Definition RESULT_BAD_FRAME_CRC : Z := 8.
Definition RESULT_TRUNCATED : Z := 9.

Definition KNOWN_TYPES : list Z := [TYPE_PING; TYPE_PONG; TYPE_DATA; TYPE_RESET].

Definition encode (type_ stream_or_cell_id sequence : Z) (payload : bytes) (flags version : Z) : res bytes :=
  raise_if (MAX_PAYLOAD <? len payload) (ValueError "payload too large");;
  f ← u16 (Z.land flags 0xFFFF);
  s ← u32 (Z.land stream_or_cell_id 0xFFFFFFFF);
  q ← u32 (Z.land sequence 0xFFFFFFFF);
  n ← u16 (Z.land (len payload) 0xFFFF);
  let prefix := MAGIC ++ [Z.land version 0xFF; Z.land type_ 0xFF] ++ f ++ s ++ q ++ n in
  raise_if (negb (len prefix =? HEADER_PREFIX)) (AssertionError "HEADER_PREFIX");;
  hc ← u32 (crc32c prefix);
  let header := prefix ++ hc in
  let body := header ++ payload in
  fc ← u32 (crc32c body);
  mret (body ++ fc).

(** The length guard of the first line makes every later read in range. *)
Definition decode_exact (raw : bytes) : Z :=
  if len raw <? HEADER then RESULT_TRUNCATED
  else if negb (bool_decide (slice 0 4 raw = MAGIC)) then RESULT_BAD_MAGIC
  else
    let version := byte_at 4 raw in
    let type_ := byte_at 5 raw in
    let flags := be_val (slice 6 8 raw) in
    let plen := be_val (slice 16 18 raw) in
    let stored_hcrc := be_val (slice 18 22 raw) in
    let computed_hcrc := crc32c (slice 0 HEADER_PREFIX raw) in
    if negb (version =? VERSION) then RESULT_BAD_VERSION
    else if negb (bool_decide (type_ ∈ KNOWN_TYPES)) then RESULT_BAD_TYPE
    else if negb (flags =? 0) then RESULT_BAD_FLAGS
    else if MAX_PAYLOAD <? plen then RESULT_BAD_LENGTH
    else if negb (stored_hcrc =? computed_hcrc) then RESULT_BAD_HEADER_CRC
    else
      let frame_len := OVERHEAD + plen in
      if len raw <? frame_len then RESULT_TRUNCATED
      else if negb (len raw =? frame_len) then RESULT_BAD_LENGTH
      else
        let stored_fcrc := be_val (slice (HEADER + plen) (HEADER + plen + 4) raw) in
        let computed_fcrc := crc32c (slice 0 (HEADER + plen) raw) in
        if negb (stored_fcrc =? computed_fcrc) then RESULT_BAD_FRAME_CRC else RESULT_OK.

(** ** Mutation recipes *)

(** The recipe dictionary, by its ["op"]. *)
Inductive recipe :=
  | Xor0 (byte_index xor : Z)
  | SetByte (byte_index value : Z)
  | SetU16Be (byte_index value : Z) (recompute_header_crc : bool)
  | RecomputeHeaderCrcOnly
  | UnknownOp (op : string).

(** [buf[i] = v] and [buf[i]], with Python's negative indices. *)
Definition py_index (i : Z) (buf : bytes) : res Z :=
  if in_range 0 (len buf - 1) i then Ok i
  else if in_range (- len buf) (-1) i then Ok (i + len buf)
  else Raise IndexError.

Definition store_byte (i v : Z) (buf : bytes) : res bytes :=
  k ← py_index i buf; mret (slice_assign k (k + 1) [v] buf).

Definition recompute_header_crc (buf : bytes) : res bytes :=
  hc ← u32 (crc32c (slice 0 HEADER_PREFIX buf)); mret (slice_assign 18 22 hc buf).

Definition apply_mutation (base : bytes) (r : recipe) : res bytes :=
  match r with
  | Xor0 idx x =>
      k ← py_index idx base;
      store_byte idx (Z.lxor (byte_at k base) (Z.land x 0xFF)) base
  | SetByte idx v => store_byte idx (Z.land v 0xFF) base
  | SetU16Be idx v rec =>
      let val := Z.land v 0xFFFF in
      buf ← store_byte idx (Z.land (Z.shiftr val 8) 0xFF) base;
      buf ← store_byte (idx + 1) (Z.land val 0xFF) buf;
      if rec then recompute_header_crc buf else mret buf
  | RecomputeHeaderCrcOnly => recompute_header_crc base
  | UnknownOp _ => Raise (ValueError "unknown mutation op")
  end.

(** ** Golden vectors and their check *)

(** An entry of the vector document: a frame with its expected result, a recipe
    applied to a named base frame, or the checksum pin. *)
Inductive vector :=
  | Frame (id : string) (frame : bytes) (expected : Z)
  | Mutation (id base_id : string) (r : recipe) (expected : Z)
  | CrcPin (id : string) (crc : Z).

Definition vector_id (v : vector) : string :=
  match v with Frame i _ _ | Mutation i _ _ _ | CrcPin i _ => i end.

Definition golden_frame (id : string) (type_ sid seq : Z) (payload : bytes) : res vector :=
  frame ← encode type_ sid seq payload 0 VERSION; mret (Frame id frame RESULT_OK).

Definition golden_vectors : res (list vector) :=
  v1 ← golden_frame "empty_data" TYPE_DATA 0x01020304 1 [];
  v2 ← golden_frame "ping_4" TYPE_PING 0 0 [0xDE; 0xAD; 0xBE; 0xEF];
  v3 ← golden_frame "pong_ok" TYPE_PONG 7 99 (bytes_of_string "ok");
  v4 ← golden_frame "reset_max_id" TYPE_RESET 0xFFFFFFFF 0x80000001 [0];
  v5 ← golden_frame "max_payload" TYPE_DATA 42 1000 (replicate (Z.to_nat MAX_PAYLOAD) 0xA5);
  base ← encode TYPE_DATA 1 2 (bytes_of_string "xy") 0 VERSION;
  mret [v1; v2; v3; v4; v5;
        CrcPin "crc32c_123456789" (crc32c (bytes_of_string "123456789"));
        Frame "mut_base" base RESULT_OK;
        Mutation "mut_bad_magic" "mut_base" (Xor0 0 1) RESULT_BAD_MAGIC;
        Mutation "mut_bad_version" "mut_base" (SetByte 4 2) RESULT_BAD_VERSION;
        Mutation "mut_bad_type" "mut_base" (SetByte 5 0xFF) RESULT_BAD_TYPE;
        Mutation "mut_bad_flags" "mut_base" (SetByte 7 1) RESULT_BAD_FLAGS;
        Mutation "mut_bad_length" "mut_base" (SetU16Be 16 (MAX_PAYLOAD + 1) true) RESULT_BAD_LENGTH;
        Mutation "mut_bad_header_crc" "mut_base" (Xor0 18 1) RESULT_BAD_HEADER_CRC;
        Mutation "mut_bad_frame_crc" "mut_base" (Xor0 (len base - 1) 0xFF) RESULT_BAD_FRAME_CRC].

(** The base frame a recipe names: the last entry with that id wins, as in the
    dictionary [by_id]. *)
Definition lookup_frame (id : string) (vs : list vector) : res bytes :=
  match find (fun v => String.eqb (vector_id v) id) (rev vs) with
  | Some (Frame _ f _) => Ok f
  | _ => Raise (KeyError id)
  end.

(** [materialize_cases]: every frame and every applied recipe with the result
    the decoder must give; checksum pins are skipped. *)
Fixpoint materialize (doc vs : list vector) : res (list (string * bytes * Z)) :=
  match vs with
  | [] => Ok []
  | CrcPin _ _ :: vs => materialize doc vs
  | Frame id f e :: vs => tl ← materialize doc vs; mret ((id, f, e) :: tl)
  | Mutation id base r e :: vs =>
      b ← lookup_frame base doc; raw ← apply_mutation b r;
      tl ← materialize doc vs; mret ((id, raw, e) :: tl)
  end.
Definition materialize_cases (doc : list vector) : res (list (string * bytes * Z)) := materialize doc doc.

(** The checks [check_vectors] makes on one materialised case. *)
Definition check_case (c : string * bytes * Z) : bool :=
  let '(_, raw, want) := c in
  (decode_exact raw =? want) &&
  (if want =? RESULT_OK then
     bool_decide (slice 0 4 raw = MAGIC) &&
     (len raw =? OVERHEAD + be_val (slice 16 18 raw)) &&
     (crc32c (slice 0 (len raw - 4) raw) =? be_val (slice (len raw - 4) (len raw) raw)) &&
     (crc32c (slice 0 HEADER_PREFIX raw) =? be_val (slice 18 22 raw))
   else true).

Definition check_vectors : res bool :=
  vs ← golden_vectors; cs ← materialize_cases vs;
  mret ((crc32c (bytes_of_string "123456789") =? 0xE3069283) && forallb check_case cs).

(** ** The encoder in closed form *)

Definition frame_prefix (type_ sid seq plen : Z) : bytes :=
  MAGIC ++ [VERSION; type_] ++ be_bytes 2 0 ++ be_bytes 4 sid ++ be_bytes 4 seq ++ be_bytes 2 plen.
Definition frame_header (type_ sid seq plen : Z) : bytes :=
  frame_prefix type_ sid seq plen ++ be_bytes 4 (crc32c (frame_prefix type_ sid seq plen)).
Definition frame_bytes (type_ sid seq : Z) (payload : bytes) : bytes :=
  let body := frame_header type_ sid seq (len payload) ++ payload in body ++ be_bytes 4 (crc32c body).

Lemma len_frame_prefix t s q n : len (frame_prefix t s q n) = 18.
Proof. unfold frame_prefix. by rewrite !len_app, !len_be_bytes. Qed.

Lemma len_MAGIC : len MAGIC = 4.
Proof. done. Qed.
#[export] Hint Rewrite len_MAGIC len_frame_prefix : lens.

Lemma len_frame_header t s q n : len (frame_header t s q n) = 22.
Proof. unfold frame_header. by rewrite len_app, len_frame_prefix, len_be_bytes. Qed.

Lemma len_frame_bytes t s q p : len (frame_bytes t s q p) = OVERHEAD + len p.
Proof. unfold frame_bytes. rewrite !len_app, len_frame_header, len_be_bytes. unfold OVERHEAD. lia. Qed.

Lemma frame_prefix_ok t s q n : is_byte t -> bytes_ok (frame_prefix t s q n).
Proof. intros Ht. unfold frame_prefix, VERSION, MAGIC. solve_bytes. Qed.

Lemma frame_header_ok t s q n : is_byte t -> bytes_ok (frame_header t s q n).
Proof. intros Ht%(frame_prefix_ok _ s q n). unfold frame_header. solve_bytes. Qed.

Lemma frame_body_ok t s q p : is_byte t -> bytes_ok p -> bytes_ok (frame_header t s q (len p) ++ p).
Proof. intros Ht%(frame_header_ok _ s q (len p)) Hp. solve_bytes. Qed.

Lemma frame_bytes_ok t s q p : is_byte t -> bytes_ok p -> bytes_ok (frame_bytes t s q p).
Proof. intros Ht Hp. pose proof (frame_body_ok t s q p Ht Hp). unfold frame_bytes. solve_bytes. Qed.

Lemma land_ones_small v k m : m = Z.ones k -> 0 <= k -> 0 <= v <= m -> Z.land v m = v.
Proof. intros -> Hk Hv. rewrite Z.land_ones by done. apply Z.mod_small. rewrite Z.ones_equiv in Hv. lia. Qed.

#[export] Hint Rewrite len_frame_header len_frame_bytes : lens.

(** The arguments the decoder accepts. *)
Definition valid_args (type_ sid seq : Z) (payload : bytes) : Prop :=
  type_ ∈ KNOWN_TYPES /\ 0 <= sid <= U32_MAX /\ 0 <= seq <= U32_MAX /\
  bytes_ok payload /\ len payload <= MAX_PAYLOAD.

Lemma known_type_byte t : t ∈ KNOWN_TYPES -> is_byte t.
Proof.
  intros H. repeat (apply elem_of_cons in H as [-> | H]; [split; unfold TYPE_PING, TYPE_PONG, TYPE_DATA, TYPE_RESET; lia|]).
  by apply not_elem_of_nil in H.
Qed.

Lemma encode_closed t s q p :
  valid_args t s q p -> encode t s q p 0 VERSION = Ok (frame_bytes t s q p).
Proof.
  intros (Ht & Hs & Hq & Hp & Hl). pose proof (known_type_byte t Ht) as Hb. unfold is_byte in Hb.
  pose proof (len_nonneg p). unfold MAX_PAYLOAD, U32_MAX in *.
  unfold encode. rewrite raise_if_skip by (apply Z.ltb_ge; done).
  rewrite (land_ones_small s 32), (land_ones_small q 32), (land_ones_small (len p) 16),
    (land_ones_small t 8) by (done || lia).
  change (Z.land 0 0xFFFF) with 0. change (Z.land VERSION 0xFF) with VERSION. cbv zeta.
  unfold u16, u32. rewrite (pack_bind 2 0), (pack_bind 4 s), (pack_bind 4 q), (pack_bind 2 (len p)) by (cbn; lia).
  change (MAGIC ++ [VERSION; t] ++ be_bytes 2 0 ++ be_bytes 4 s ++ be_bytes 4 q ++ be_bytes 2 (len p))
    with (frame_prefix t s q (len p)).
  rewrite raise_if_skip by (by rewrite len_frame_prefix).
  rewrite (pack_checksum crc32c (frame_prefix t s q (len p))), ok_bind by (by apply frame_prefix_ok).
  change (frame_prefix t s q (len p) ++ be_bytes 4 (crc32c (frame_prefix t s q (len p))))
    with (frame_header t s q (len p)).
  by rewrite (pack_checksum crc32c (_ ++ p)), ok_bind by (by apply frame_body_ok).
Qed.

(** ** What the decoder accepts *)

Lemma decode_exact_OK_spec raw :
  decode_exact raw = RESULT_OK <->
  let plen := be_val (slice 16 18 raw) in
  slice 0 4 raw = MAGIC /\ byte_at 4 raw = VERSION /\ byte_at 5 raw ∈ KNOWN_TYPES /\
  be_val (slice 6 8 raw) = 0 /\ plen <= MAX_PAYLOAD /\
  be_val (slice 18 22 raw) = crc32c (slice 0 HEADER_PREFIX raw) /\ len raw = OVERHEAD + plen /\
  be_val (slice (HEADER + plen) (HEADER + plen + 4) raw) = crc32c (slice 0 (HEADER + plen) raw) /\
  HEADER <= len raw.
Proof.
  unfold decode_exact. cbv zeta. split.
  - intros H. case_ifs H. bool_to_prop. naive_solver.
  - intros (H1 & H2 & H3 & H4 & H5 & H6 & H7 & H8 & H9).
    rewrite (proj2 (Z.ltb_ge _ _) H9), (bool_decide_true _ H1), H2, (bool_decide_true _ H3), H4.
    cbn [negb]. rewrite (proj2 (Z.ltb_ge _ _) H5), H6, !Z.eqb_refl. cbn [negb].
    rewrite (proj2 (Z.ltb_ge _ _)) by lia. rewrite H7, H8, !Z.eqb_refl. done.
Qed.

Lemma decode_frame_bytes t s q p :
  valid_args t s q p -> decode_exact (frame_bytes t s q p) = RESULT_OK.
Proof.
  intros (Ht & Hs & Hq & Hp & Hl).
  pose proof (known_type_byte t Ht) as Hb. pose proof (len_nonneg p).
  unfold MAX_PAYLOAD in Hl. apply decode_exact_OK_spec.
  rewrite len_frame_bytes. unfold frame_bytes, frame_header, HEADER, HEADER_PREFIX, OVERHEAD, MAX_PAYLOAD.
  cbv zeta.
  assert (Hpl : be_val (slice 16 18 (frame_bytes t s q p)) = len p).
  { unfold frame_bytes, frame_header, frame_prefix. rewrite <- !app_assoc. read_slices.
    apply (pack_val 2), pack_total. cbn; lia. }
  unfold frame_bytes, frame_header in Hpl. rewrite Hpl. split_and!; try (done || lia).
  - read_slices. by apply (be_val_checksum crc32c), frame_prefix_ok.
  - read_slices. by apply (be_val_checksum crc32c), frame_body_ok.
Qed.

Lemma decode_OK_frame raw :
  bytes_ok raw -> decode_exact raw = RESULT_OK ->
  let p := slice 22 (22 + be_val (slice 16 18 raw)) raw in
  valid_args (byte_at 5 raw) (be_val (slice 8 12 raw)) (be_val (slice 12 16 raw)) p /\
  frame_bytes (byte_at 5 raw) (be_val (slice 8 12 raw)) (be_val (slice 12 16 raw)) p = raw.
Proof.
  intros Hok H. cbv zeta. apply decode_exact_OK_spec in H. cbv zeta in H.
  unfold HEADER_PREFIX, HEADER, OVERHEAD in H.
  destruct H as (Hm & Hver & Ht & Hfl & Hpl & Hhc & Hlen & Hfc & H22).
  assert (Hb : forall lo hi, 0 <= be_val (slice lo hi raw)) by (intros; apply be_val_bounds; auto with ninlil).
  assert (H32 : forall lo hi, 0 <= lo -> hi = lo + 4 -> hi <= len raw -> be_val (slice lo hi raw) <= U32_MAX).
  { intros lo hi Hlo -> Hhi. pose proof (be_val_bounds (slice lo (lo + 4) raw) ltac:(auto with ninlil)) as Hbb.
    rewrite len_slice in Hbb by lia. replace (lo + 4 - lo) with 4 in Hbb by lia. unfold U32_MAX. lia. }
  pose proof (Hb 16 18) as Hb16.
  assert (Hp : len (slice 22 (22 + be_val (slice 16 18 raw)) raw) = be_val (slice 16 18 raw))
    by (rewrite len_slice by lia; lia).
  split.
  - split_and!; auto with ninlil; try (apply H32; lia). by rewrite Hp.
  - assert (Hpre : frame_prefix (byte_at 5 raw) (be_val (slice 8 12 raw)) (be_val (slice 12 16 raw))
                     (be_val (slice 16 18 raw)) = slice 0 18 raw).
    { unfold frame_prefix. rewrite <- Hm, <- Hver.
      change [byte_at 4 raw; byte_at 5 raw] with ([byte_at 4 raw] ++ [byte_at 5 raw]).
      rewrite <- !slice_single by lia.
      rewrite (be_bytes_slice 2 6 8 raw 0), (be_bytes_slice 4 8 12 raw), (be_bytes_slice 4 12 16 raw),
        (be_bytes_slice 2 16 18 raw) by (done || lia).
      rewrite <- app_assoc. rewrite <- !slice_split by lia. done. }
    unfold frame_bytes, frame_header. cbv zeta. rewrite Hp, Hpre, <- Hhc.
    rewrite (be_bytes_slice 4 18 22 raw) by (done || lia).
    rewrite <- !slice_split by lia. rewrite <- Hfc.
    rewrite (be_bytes_slice 4 (22 + be_val (slice 16 18 raw)) (22 + be_val (slice 16 18 raw) + 4) raw) by (done || lia).
    rewrite <- slice_split by lia. apply slice_whole; lia.
Qed.

Lemma decode_OK_trailer raw : decode_exact raw = RESULT_OK -> trailer_ok crc32c raw.
Proof.
  intros H. apply decode_exact_OK_spec in H. cbv zeta in H. unfold HEADER_PREFIX, HEADER, OVERHEAD in H.
  destruct H as (_ & _ & _ & _ & _ & _ & Hlen & Hfc & H22). split; [lia|].
  replace (len raw - 4) with (22 + be_val (slice 16 18 raw)) by lia. rewrite <- Hfc. f_equal. f_equal. lia.
Qed.

(** ** Properties *)

(** Frames the encoder produces for a known type, 32-bit ids and at most
    [MAX_PAYLOAD] bytes are accepted by the exact decoder. *)
Theorem decode_encode t s q p :
  valid_args t s q p ->
  exists frame, encode t s q p 0 VERSION = Ok frame /\ len frame = OVERHEAD + len p /\
                decode_exact frame = RESULT_OK.
Proof.
  intros Hv. exists (frame_bytes t s q p). split; [by apply encode_closed|].
  split; [apply len_frame_bytes|]. by apply decode_frame_bytes.
Qed.

(** C5. The exact decoder accepts nothing else: an accepted byte string is the
    encoding of its own type, ids and payload, with flags 0 and version 1. *)
Theorem decode_exact_accepts_encodings raw :
  bytes_ok raw ->
  (decode_exact raw = RESULT_OK <->
   exists t s q p, valid_args t s q p /\ encode t s q p 0 VERSION = Ok raw).
Proof.
  intros Hok. split.
  - intros H. destruct (decode_OK_frame raw Hok H) as [Hv E].
    do 4 eexists. split; [exact Hv|]. by rewrite encode_closed, E.
  - intros (t & s & q & p & Hv & E). rewrite encode_closed in E by done. injection E as <-.
    by apply decode_frame_bytes.
Qed.

(** Corrupting any single byte of an accepted frame makes the exact decoder
    reject it, whatever the byte and its position (header, length, checksums
    or payload). *)
Theorem single_byte_corruption_rejected raw raw' :
  bytes_ok raw -> bytes_ok raw' -> decode_exact raw = RESULT_OK -> one_byte_apart raw raw' ->
  decode_exact raw' <> RESULT_OK.
Proof.
  intros Hr Hr' H Hd H'. eapply (trailer_detects crc32c); [exact Hr|exact Hr'|..|exact Hd];
    by apply decode_OK_trailer.
Qed.

(** The tool's own check succeeds: every golden frame and every applied
    mutation recipe decodes to the result code the catalogue states, and the
    checksum pin holds. *)
Theorem check_vectors_passes : check_vectors = Ok true.
Proof. vm_compute. reflexivity. Qed.

(** ** Witnesses *)

Definition small_payload : bytes := [120; 121].
Definition small_frame : bytes := frame_bytes TYPE_DATA 1 2 small_payload.

#[export] Instance valid_args_dec t s q p : Decision (valid_args t s q p).
Proof. unfold valid_args. apply _. Defined.

Lemma decode_encode_witness :
  exists frame, encode TYPE_DATA 1 2 small_payload 0 VERSION = Ok frame /\ len frame = 28 /\
                decode_exact frame = RESULT_OK.
Proof.
  apply (decode_encode TYPE_DATA 1 2 small_payload).
  apply (bool_decide_unpack (valid_args TYPE_DATA 1 2 small_payload)). vm_compute. exact I.
Defined.

Lemma decode_exact_accepts_encodings_witness :
  decode_exact small_frame = RESULT_OK /\
  exists t s q p, valid_args t s q p /\ encode t s q p 0 VERSION = Ok small_frame.
Proof.
  assert (Hok : bytes_ok small_frame) by (apply (bool_decide_unpack (bytes_ok small_frame)); vm_compute; exact I).
  split; [vm_compute; reflexivity|].
  apply (decode_exact_accepts_encodings small_frame Hok). vm_compute. reflexivity.
Defined.

Lemma single_byte_corruption_rejected_witness :
  decode_exact (take 24 small_frame ++ [0] ++ drop 25 small_frame) <> RESULT_OK.
Proof.
  apply (single_byte_corruption_rejected small_frame);
    [apply (bool_decide_unpack (bytes_ok small_frame)); vm_compute; exact I
    |apply (bool_decide_unpack (bytes_ok (take 24 small_frame ++ [0] ++ drop 25 small_frame))); vm_compute; exact I
    |vm_compute; reflexivity|].
  exists (take 24 small_frame), (byte_at 24 small_frame), 0, (drop 25 small_frame).
  split; [vm_compute; reflexivity|]. split; [reflexivity|]. vm_compute. discriminate.
Defined.
