(* ===== verification/Airtime.v ===== *)
(** The LoRa time-on-air oracle of tools/airtime_r3_oracle.py: low data rate
    optimisation, the exact rational airtime and its status codes. *)

From S2P Require Import Prelude.
From Stdlib Require Import QArith Qround.
#[local] Open Scope Z_scope.

Definition BW_CLOSED : list Z :=
  [7812; 10417; 15625; 20833; 31250; 41667; 62500; 125000; 250000; 500000].

Definition OK : Z := 0.
Definition INVALID_ARGUMENT : Z := 1.
Definition UNSUPPORTED : Z := 2.
Definition OVERFLOW : Z := 3.
Definition STRUCT : Z := 4.

Definition LDRO_OFF : Z := 0.
Definition LDRO_ON : Z := 1.
Definition LDRO_AUTO : Z := 2.
Definition LDRO_AUTO_NUM : Z := 100000.
Definition LDRO_AUTO_DEN : Z := 1638.

Record Input := MkInput {
  sf : Z; cr : Z; header_implicit : Z; crc_on : Z; ldro : Z;
  payload_len_bytes : Z; preamble_len_symbols : Z; bw_hz : Z; reserved_zero : Z
}.

Record Result := MkResult {
  status : Z; airtime_us : Z; n_payload_symbols : Z; tsym_us_ceil : Z;
  toa_numerator : Z; airtime_ms_ceil : Z; ldro_effective : Z
}.

(** [Result(status=st)]: the other fields default to 0. *)
Definition status_only (st : Z) : Result := MkResult st 0 0 0 0 0 0.

(** [fractions.Fraction(n, d)] for a positive [d]. *)
Definition Fraction (n d : Z) : Q := Qmake n (Z.to_pos d).

Definition resolve_de (sf bw_hz ldro : Z) : res (option Z * Z) :=
  if ldro =? LDRO_OFF then Ok (Some 0, OK)
  else if ldro =? LDRO_ON then Ok (Some 1, OK)
  else if ldro =? LDRO_AUTO then
    let tsym := Fraction (Z.shiftl 1 sf) bw_hz in
    let de := if Qle_bool (Fraction 1638 100000) tsym then 1 else 0 in
    let de2 := if bw_hz * LDRO_AUTO_DEN <=? Z.shiftl 1 sf * LDRO_AUTO_NUM then 1 else 0 in
    raise_if (negb (de =? de2)) (RuntimeError "LDRO rational mismatch");;
    mret (Some de, OK)
  else Ok (None, INVALID_ARGUMENT).

Definition toa_numerator_u64 (sf pl crc implicit de cr preamble : Z) : res (Z * Z) :=
  let explicit_bonus := if negb (implicit =? 0) then 0 else 20 in
  let num := pl * 8 + (if negb (crc =? 0) then 16 else 0) - 4 * sf + explicit_bonus in
  let '(num, den) :=
    if sf <=? 6 then (num, 4 * sf)
    else (num + 8, if negb (de =? 0) then 4 * (sf - 2) else 4 * sf) in
  raise_if (den <=? 0) (OverflowError "den");;
  let num := if num <? 0 then 0 else num in
  let ceil_term := (num + den - 1) / den in
  let cr_denom := cr + 4 in
  let n_pay := 8 + ceil_term * cr_denom in
  let intermed := ceil_term * cr_denom + preamble + 12 in
  let intermed := if sf <=? 6 then intermed + 2 else intermed in
  let u := (4 * intermed + 1) * Z.shiftl 1 (sf - 2) in
  raise_if (u <? 0) (OverflowError "u");;
  mret (u, n_pay).

Definition compute (inp : Input) : res Result :=
  if negb (reserved_zero inp =? 0) then Ok (status_only STRUCT)
  else if negb (in_range 5 12 (sf inp)) then Ok (status_only INVALID_ARGUMENT)
  else if negb (in_range 1 4 (cr inp)) then Ok (status_only INVALID_ARGUMENT)
  else if negb (bool_decide (header_implicit inp ∈ [0; 1])) then Ok (status_only INVALID_ARGUMENT)
  else if negb (bool_decide (crc_on inp ∈ [0; 1])) then Ok (status_only INVALID_ARGUMENT)
  else if negb (in_range 6 65535 (preamble_len_symbols inp)) then Ok (status_only INVALID_ARGUMENT)
  else if negb (in_range 0 255 (payload_len_bytes inp)) then Ok (status_only INVALID_ARGUMENT)
  else if negb (bool_decide (bw_hz inp ∈ BW_CLOSED)) then Ok (status_only UNSUPPORTED)
  else
    '(de, st) ← resolve_de (sf inp) (bw_hz inp) (ldro inp);
    match de with
    | None => Ok (status_only st)
    | Some de =>
        if negb (st =? OK) then Ok (status_only st)
        else
          match toa_numerator_u64 (sf inp) (payload_len_bytes inp) (crc_on inp)
                  (header_implicit inp) de (cr inp) (preamble_len_symbols inp) with
          | Raise (OverflowError _) => Ok (status_only OVERFLOW)
          | Raise e => Raise e
          | Ok (u, n_pay) =>
              let ms := Qceiling (Fraction (u * 1000) (bw_hz inp)) in
              let us := Qceiling (Fraction (u * 1000000) (bw_hz inp)) in
              let tsym_us := Qceiling (Fraction (Z.shiftl 1 (sf inp)) (bw_hz inp) * inject_Z 1000000)%Q in
              if (us <? 0) || (0xFFFFFFFF <? us) then
                Ok (MkResult OVERFLOW 0 0 0 u (if in_range 0 (2 ^ 63) ms then ms else 0) de)
              else Ok (MkResult OK us n_pay tsym_us u ms de)
          end
    end.

(** [(id, input, expect_ceil_ms)] of the independent audit. *)
Definition high_value_ms_vectors : list (string * Input * Z) :=
  [("hv_sf7_p0"%string, MkInput 7 1 0 0 0 0 8 125000 0, 21);
   ("hv_sf7_p3"%string, MkInput 7 1 0 0 0 3 8 125000 0, 26);
   ("hv_sf7_p4"%string, MkInput 7 1 0 0 0 4 8 125000 0, 31);
   ("hv_sf7_p5_explicit"%string, MkInput 7 1 0 0 0 5 8 125000 0, 31);
   ("hv_sf7_p5_implicit"%string, MkInput 7 1 1 0 0 5 8 125000 0, 26);
   ("hv_sf5_p16_pre12_de0"%string, MkInput 5 1 0 1 LDRO_OFF 16 12 125000 0, 17);
   ("hv_sf5_p16_pre12_de1_on"%string, MkInput 5 1 0 1 LDRO_ON 16 12 125000 0, 17);
   ("hv_sf6_p16_pre12_cr4_impl"%string, MkInput 6 4 1 0 0 16 12 125000 0, 34);
   ("hv_sf11_de0"%string, MkInput 11 1 0 1 LDRO_OFF 16 8 125000 0, 578);
   ("hv_sf11_de1"%string, MkInput 11 1 0 1 LDRO_ON 16 8 125000 0, 660);
   ("hv_sf12_bw250_de1"%string, MkInput 12 1 0 1 LDRO_ON 16 8 250000 0, 660)].

(** [base.update(kwargs)] over the default case of [boundary_vectors]. *)
Definition base_case : Input := MkInput 7 1 0 1 LDRO_OFF 16 8 125000 0.
Definition with_sf (v : Z) (i : Input) : Input :=
  MkInput v (cr i) (header_implicit i) (crc_on i) (ldro i) (payload_len_bytes i) (preamble_len_symbols i) (bw_hz i) (reserved_zero i).
Definition with_cr (v : Z) (i : Input) : Input :=
  MkInput (sf i) v (header_implicit i) (crc_on i) (ldro i) (payload_len_bytes i) (preamble_len_symbols i) (bw_hz i) (reserved_zero i).
Definition with_header (v : Z) (i : Input) : Input :=
  MkInput (sf i) (cr i) v (crc_on i) (ldro i) (payload_len_bytes i) (preamble_len_symbols i) (bw_hz i) (reserved_zero i).
Definition with_crc (v : Z) (i : Input) : Input :=
  MkInput (sf i) (cr i) (header_implicit i) v (ldro i) (payload_len_bytes i) (preamble_len_symbols i) (bw_hz i) (reserved_zero i).
Definition with_ldro (v : Z) (i : Input) : Input :=
  MkInput (sf i) (cr i) (header_implicit i) (crc_on i) v (payload_len_bytes i) (preamble_len_symbols i) (bw_hz i) (reserved_zero i).
Definition with_payload (v : Z) (i : Input) : Input :=
  MkInput (sf i) (cr i) (header_implicit i) (crc_on i) (ldro i) v (preamble_len_symbols i) (bw_hz i) (reserved_zero i).
Definition with_preamble (v : Z) (i : Input) : Input :=
  MkInput (sf i) (cr i) (header_implicit i) (crc_on i) (ldro i) (payload_len_bytes i) v (bw_hz i) (reserved_zero i).
Definition with_bw (v : Z) (i : Input) : Input :=
  MkInput (sf i) (cr i) (header_implicit i) (crc_on i) (ldro i) (payload_len_bytes i) (preamble_len_symbols i) v (reserved_zero i).

(** The [cases] of [boundary_vectors], in the order they are added. *)
Definition boundary_cases : list Input :=
  [with_sf 5 base_case; with_sf 6 base_case; with_sf 12 (with_ldro LDRO_AUTO base_case)]
  ++ flat_map (fun bw => [with_bw bw (with_sf 7 base_case);
                          with_bw bw (with_sf 5 (with_payload 8 base_case))]) BW_CLOSED
  ++ [with_cr 1 base_case; with_cr 4 base_case]
  ++ flat_map (fun s => flat_map (fun ih => flat_map (fun c =>
       [with_sf s (with_header ih (with_crc c (with_payload 0 base_case)));
        with_sf s (with_header ih (with_crc c (with_payload 255 base_case)))]) [0; 1]) [0; 1]) [5; 7]
  ++ [with_preamble 6 base_case; with_preamble 12 base_case; with_preamble 64 base_case;
      with_preamble 65535 (with_sf 7 (with_bw 500000 (with_payload 1 base_case)));
      with_sf 10 (with_bw 125000 (with_ldro LDRO_AUTO base_case));
      with_sf 11 (with_bw 125000 (with_ldro LDRO_AUTO base_case));
      with_sf 12 (with_bw 125000 (with_ldro LDRO_OFF base_case));
      with_sf 12 (with_bw 125000 (with_ldro LDRO_ON base_case));
      with_sf 12 (with_bw 250000 (with_ldro LDRO_AUTO base_case));
      with_sf 11 (with_bw 250000 (with_ldro LDRO_AUTO base_case));
      with_sf 5 (with_ldro LDRO_AUTO base_case);
      MkInput 12 4 0 1 LDRO_ON 255 65535 7812 0;
      with_sf 12 (with_cr 4 (with_payload 255 (with_preamble 65535 (with_bw 500000 (with_ldro LDRO_ON base_case)))))].

(** Its [neg] list. *)
Definition negative_cases : list (string * Input) :=
  [("sf_low"%string, MkInput 4 1 0 1 0 16 8 125000 0);
   ("sf_high"%string, MkInput 13 1 0 1 0 16 8 125000 0);
   ("cr_0"%string, MkInput 7 0 0 1 0 16 8 125000 0);
   ("cr_5_long_il"%string, MkInput 7 5 0 1 0 16 8 125000 0);
   ("cr_6_long_il"%string, MkInput 7 6 0 1 0 16 8 125000 0);
   ("cr_7_long_il"%string, MkInput 7 7 0 1 0 16 8 125000 0);
   ("preamble_low"%string, MkInput 7 1 0 1 0 16 5 125000 0);
   ("bw_old_7810"%string, MkInput 7 1 0 1 0 16 8 7810 0);
   ("bw_old_10420"%string, MkInput 7 1 0 1 0 16 8 10420 0);
   ("reserved"%string, MkInput 7 1 0 1 0 16 8 125000 1);
   ("header_bad"%string, MkInput 7 1 2 1 0 16 8 125000 0);
   ("crc_bad"%string, MkInput 7 1 0 2 0 16 8 125000 0);
   ("ldro_bad"%string, MkInput 7 1 0 1 9 16 8 125000 0)].

(** [if bad: print(...); return 1] before the rest of the self check. *)
Definition fail_if (bad : bool) (k : res Z) : res Z := if bad then Ok 1 else k.

Definition check_high_value (v : string * Input * Z) (k : res Z) : res Z :=
  let '(name, inp, exp_ms) := v in
  rr ← compute inp;
  fail_if (negb (status rr =? OK) || negb (airtime_ms_ceil rr =? exp_ms))
    (fail_if (String.eqb name "hv_sf5_p16_pre12_de0" && negb (ldro_effective rr =? 0))
      (fail_if (String.eqb name "hv_sf5_p16_pre12_de1_on" && negb (ldro_effective rr =? 1)) k)).

(** The ["self-check"] command of [main]: its exit code. *)
Definition self_check : res Z :=
  r ← compute (MkInput 7 1 0 1 0 16 8 125000 0);
  fail_if (negb (status r =? OK) || negb (airtime_us r =? 51456))
  (foldr check_high_value
    (rm ← compute (MkInput 12 4 0 1 LDRO_ON 255 65535 7812 0);
     fail_if (negb (status rm =? OVERFLOW))
     (fail_if (negb (airtime_ms_ceil rm =? 34581760))
     (fail_if (negb (toa_numerator rm =? 270152704))
     (fail_if (airtime_ms_ceil rm =? 494718)
     (r11 ← compute (MkInput 11 1 0 1 LDRO_AUTO 16 8 125000 0);
      fail_if (negb (ldro_effective r11 =? 1))
     (r10 ← compute (MkInput 10 1 0 1 LDRO_AUTO 16 8 125000 0);
      fail_if (negb (ldro_effective r10 =? 0))
     (r5off ← compute (MkInput 5 1 0 1 LDRO_OFF 16 12 125000 0);
      r5on ← compute (MkInput 5 1 0 1 LDRO_ON 16 12 125000 0);
      fail_if (negb (status r5off =? OK) || negb (status r5on =? OK))
     (fail_if (negb (airtime_ms_ceil r5off =? 17) || negb (airtime_ms_ceil r5on =? 17))
     (fail_if (negb (airtime_us r5off =? airtime_us r5on))
     (fail_if (negb (ldro_effective r5off =? 0) || negb (ldro_effective r5on =? 1))
     (r6on ← compute (MkInput 6 1 0 1 LDRO_ON 16 8 125000 0);
      fail_if (negb (status r6on =? OK) || negb (ldro_effective r6on =? 1))
     (foldr (fun c k => rc ← compute (MkInput 7 c 0 1 0 16 8 125000 0);
                        fail_if (negb (status rc =? INVALID_ARGUMENT)) k) (Ok 0) [5; 6; 7])))))))))))
    ) high_value_ms_vectors).

(** ** The exact rationals *)

Lemma Fraction_ceiling n d : 0 < d -> Qceiling (Fraction n d) = ceil_div n d.
Proof.
  intros H. unfold Qceiling, Qfloor, Qopp, Fraction, ceil_div. cbn [Qnum Qden].
  rewrite Z2Pos.id by done. symmetry. apply (ceil_div_unique n d); [done|].
  pose proof (Z.div_mod (- n) d ltac:(lia)). pose proof (Z.mod_pos_bound (- n) d H). nia.
Qed.

Lemma Fraction_mul_ceiling n d k : 0 < d -> Qceiling (Fraction n d * inject_Z k)%Q = ceil_div (n * k) d.
Proof.
  intros H. rewrite <- Fraction_ceiling by done. apply Qceiling_comp.
  unfold Fraction, Qeq, inject_Z, Qmult. cbn [Qnum Qden]. lia.
Qed.

Lemma Fraction_le a b c d : 0 < b -> 0 < d -> Qle_bool (Fraction a b) (Fraction c d) = (a * d <=? c * b).
Proof. intros. unfold Qle_bool, Fraction. cbn [Qnum Qden]. by rewrite !Z2Pos.id. Qed.

Lemma bw_positive bw : bw ∈ BW_CLOSED -> 7812 <= bw <= 500000.
Proof. intros H. unfold BW_CLOSED in H. rewrite !elem_of_cons in H. set_solver by lia. Qed.

(** The low data rate decision of a valid configuration. *)
Definition effective_de (sf bw ldro : Z) : Z :=
  if ldro =? LDRO_OFF then 0
  else if ldro =? LDRO_ON then 1
  else if bw * 1638 <=? 2 ^ sf * 100000 then 1 else 0.

Lemma resolve_de_spec sf bw ldro :
  0 <= sf -> 0 < bw ->
  resolve_de sf bw ldro =
    Ok (if bool_decide (ldro ∈ [LDRO_OFF; LDRO_ON; LDRO_AUTO])
        then (Some (effective_de sf bw ldro), OK) else (None, INVALID_ARGUMENT)).
Proof.
  intros Hsf Hbw. unfold resolve_de, effective_de, LDRO_OFF, LDRO_ON, LDRO_AUTO, LDRO_AUTO_NUM, LDRO_AUTO_DEN.
  destruct (Z.eqb_spec ldro 0) as [->|H0]; [done|]. destruct (Z.eqb_spec ldro 1) as [->|H1]; [done|].
  destruct (Z.eqb_spec ldro 2) as [->|H2].
  - rewrite Fraction_le, Z.shiftl_mul_pow2, Z.mul_1_l by lia.
    rewrite (Z.mul_comm 1638 bw), (Z.mul_comm (2 ^ sf)).
    destruct (bw * 1638 <=? 100000 * 2 ^ sf); done.
  - rewrite bool_decide_false; [done|]. rewrite !elem_of_cons. intros [|[|[|?%not_elem_of_nil]]]; done.
Qed.

(** ** The airtime of a valid configuration *)

Definition valid_input (i : Input) : Prop :=
  reserved_zero i = 0 /\ 5 <= sf i <= 12 /\ 1 <= cr i <= 4 /\
  header_implicit i ∈ [0; 1] /\ crc_on i ∈ [0; 1] /\
  6 <= preamble_len_symbols i <= 65535 /\ 0 <= payload_len_bytes i <= 255 /\
  bw_hz i ∈ BW_CLOSED /\ ldro i ∈ [LDRO_OFF; LDRO_ON; LDRO_AUTO].

#[export] Instance valid_input_dec i : Decision (valid_input i).
Proof. unfold valid_input. apply _. Defined.

(** The number of payload symbols after the fixed eight, as the data sheet
    defines it: SF5/6 have no eight-bit bonus and ignore the optimisation. *)
Definition coded_symbols (i : Input) (de : Z) : Z :=
  let low := sf i <=? 6 in
  let bits := 8 * payload_len_bytes i + 16 * crc_on i - 4 * sf i
              + 20 * (1 - header_implicit i) + (if low then 0 else 8) in
  ceil_div (Z.max 0 bits) (4 * (sf i - (if low then 0 else 2 * de))) * (cr i + 4).

(** Quarter symbols of the whole packet. *)
Definition quarter_symbols (i : Input) (de : Z) : Z :=
  4 * (preamble_len_symbols i + 12 + (if sf i <=? 6 then 2 else 0) + coded_symbols i de) + 1.

Definition toa_units (i : Input) (de : Z) : Z := quarter_symbols i de * 2 ^ (sf i - 2).

Lemma elem_of_01 x : x ∈ [0; 1] <-> x = 0 \/ x = 1.
Proof. set_solver. Qed.

Lemma effective_de_01 s b l : effective_de s b l = 0 \/ effective_de s b l = 1.
Proof. unfold effective_de. repeat case_match; auto. Qed.

Lemma coded_symbols_nonneg i de :
  5 <= sf i -> 1 <= cr i -> de = 0 \/ de = 1 -> 0 <= coded_symbols i de.
Proof.
  intros Hs Hc Hd. unfold coded_symbols. apply Z.mul_nonneg_nonneg; [|lia].
  apply ceil_div_nonneg; destruct (Z.leb_spec (sf i) 6); lia.
Qed.

(** The code clamps a negative bit count and folds the header, checksum and
    optimisation flags into a numerator and a denominator. *)
Lemma toa_numerator_valid i de :
  5 <= sf i -> 1 <= cr i -> header_implicit i ∈ [0; 1] -> crc_on i ∈ [0; 1] ->
  6 <= preamble_len_symbols i -> de = 0 \/ de = 1 ->
  toa_numerator_u64 (sf i) (payload_len_bytes i) (crc_on i) (header_implicit i) de (cr i) (preamble_len_symbols i)
  = Ok (toa_units i de, 8 + coded_symbols i de).
Proof.
  intros Hs Hc Hh Hk Hp Hd. pose proof (coded_symbols_nonneg i de Hs Hc Hd) as Hn.
  unfold toa_numerator_u64, toa_units, quarter_symbols.
  set (bits := 8 * payload_len_bytes i + 16 * crc_on i - 4 * sf i
               + 20 * (1 - header_implicit i) + (if sf i <=? 6 then 0 else 8)).
  set (den := 4 * (sf i - (if sf i <=? 6 then 0 else 2 * de))).
  match goal with |- context [let '(_, _) := ?p in _] => replace p with (bits, den) end.
  2: { unfold bits, den. apply elem_of_01 in Hh, Hk.
       destruct Hh as [-> | ->], Hk as [-> | ->], Hd as [-> | ->], (sf i <=? 6); cbn; f_equal; ring. }
  assert (Hden : 0 < den) by (unfold den; destruct (Z.leb_spec (sf i) 6); lia).
  rewrite raise_if_skip by (apply Z.leb_gt; done).
  replace (if bits <? 0 then 0 else bits) with (Z.max 0 bits) by (destruct (Z.ltb_spec bits 0); lia).
  fold (ceil_div (Z.max 0 bits) den).
  assert (Hcs : ceil_div (Z.max 0 bits) den * (cr i + 4) = coded_symbols i de) by done.
  cbv zeta. rewrite Hcs, Z.shiftl_mul_pow2, Z.mul_1_l by lia.
  rewrite raise_if_skip.
  - cbn. do 2 f_equal. destruct (sf i <=? 6); ring.
  - apply Z.ltb_ge, Z.mul_nonneg_nonneg; [destruct (sf i <=? 6); lia|apply Z.pow_nonneg; lia].
Qed.

(** The numerator of every valid configuration fits far inside 64 bits. *)
Lemma toa_units_bound i de :
  valid_input i -> de = 0 \/ de = 1 -> 0 < toa_units i de <= 270152704.
Proof.
  intros (_ & Hs & Hc & Hh & Hk & Hp & Hl & _ & _) Hd.
  pose proof (coded_symbols_nonneg i de ltac:(lia) ltac:(lia) Hd) as Hn.
  unfold toa_units, quarter_symbols. split.
  { apply Z.mul_pos_pos; [destruct (sf i <=? 6); lia|apply Z.pow_pos_nonneg; lia]. }
  apply elem_of_01 in Hh, Hk. destruct (decide (sf i = 12)) as [E12|E12].
  - assert (Hsym : coded_symbols i de <= 51 * 8).
    { unfold coded_symbols. rewrite E12. cbn [Z.leb Z.compare Pos.compare Pos.compare_cont].
      apply Z.mul_le_mono_nonneg; [apply ceil_div_nonneg; lia|apply ceil_div_le; lia|lia|lia]. }
    rewrite E12. cbn [Z.leb Z.compare Pos.compare Pos.compare_cont]. change (2 ^ (12 - 2)) with 1024. lia.
  - assert (Hsym : coded_symbols i de <= 2084 * 8).
    { unfold coded_symbols.
      apply Z.mul_le_mono_nonneg; [apply ceil_div_nonneg|apply ceil_div_le|lia|lia];
        destruct (Z.leb_spec (sf i) 6); lia. }
    assert (2 ^ (sf i - 2) <= 2 ^ 9) by (apply Z.pow_le_mono_r; lia). change (2 ^ 9) with 512 in *.
    assert (0 < 2 ^ (sf i - 2)) by (apply Z.pow_pos_nonneg; lia).
    transitivity ((4 * (65535 + 12 + 2 + 2084 * 8) + 1) * 512); [|lia].
    apply Z.mul_le_mono_nonneg; try lia; destruct (sf i <=? 6); lia.
Qed.

(** ** Properties *)

(** The microseconds of a valid configuration, rounded up. *)
Definition exact_us (i : Input) : Z :=
  ceil_div (toa_units i (effective_de (sf i) (bw_hz i) (ldro i)) * 1000000) (bw_hz i).

Lemma compute_valid_eq i :
  valid_input i ->
  let de := effective_de (sf i) (bw_hz i) (ldro i) in
  let u := toa_units i de in
  compute i = Ok (if U32_MAX <? exact_us i
                  then MkResult OVERFLOW 0 0 0 u (ceil_div (u * 1000) (bw_hz i)) de
                  else MkResult OK (exact_us i) (8 + coded_symbols i de)
                         (ceil_div (2 ^ sf i * 1000000) (bw_hz i)) u (ceil_div (u * 1000) (bw_hz i)) de).
Proof.
  intros Hv. pose proof (effective_de_01 (sf i) (bw_hz i) (ldro i)) as Hde. cbv zeta.
  pose proof (toa_units_bound i _ Hv Hde) as Hu.
  destruct Hv as (Hr & Hs & Hc & Hh & Hk & Hp & Hl & Hb & Hldro). pose proof (bw_positive _ Hb) as Hbw.
  unfold compute, exact_us. rewrite Hr, !(proj2 (in_range_spec _ _ _)) by lia.
  rewrite !bool_decide_true by done. cbn [negb].
  rewrite resolve_de_spec, bool_decide_true, ok_bind by (done || lia). cbv iota beta.
  rewrite toa_numerator_valid by (done || lia).
  change (negb (OK =? OK)) with false. cbv iota beta zeta.
  rewrite Fraction_mul_ceiling, !Fraction_ceiling, Z.shiftl_mul_pow2, Z.mul_1_l by lia.
  set (de := effective_de _ _ _) in *. set (u := toa_units i de) in *.
  rewrite (proj2 (Z.ltb_ge _ 0)) by (apply ceil_div_nonneg; lia). cbn [orb].
  change 0xFFFFFFFF with U32_MAX. destruct (U32_MAX <? _); [|done].
  rewrite (proj2 (in_range_spec _ _ _)); [done|]. split; [apply ceil_div_nonneg; lia|].
  apply ceil_div_le; [lia|]. change (2 ^ 63) with 9223372036854775808. nia.
Qed.

(** Every input gets a result, never an exception: the rational and integer
    forms of the low data rate test cannot disagree and the numerator cannot
    overflow.  Exactly the valid configurations are computed; any other input
    gets one of the three reject statuses with all other fields zero. *)
Theorem compute_total i :
  exists r, compute i = Ok r /\
    (valid_input i -> status r = OK \/ status r = OVERFLOW) /\
    (~ valid_input i -> (status r = STRUCT \/ status r = INVALID_ARGUMENT \/ status r = UNSUPPORTED)
                       /\ r = status_only (status r)).
Proof.
  destruct (decide (valid_input i)) as [Hv|Hn].
  - rewrite compute_valid_eq by done. cbv zeta. eexists. split; [done|]. split; [|done].
    intros _. case_match; auto.
  - assert (Hrej : exists st, compute i = Ok (status_only st) /\
                   (st = STRUCT \/ st = INVALID_ARGUMENT \/ st = UNSUPPORTED)).
    { unfold compute.
      repeat match goal with
      | |- context [if negb ?c then _ else _] =>
          destruct c eqn:?; cbn [negb]; [|by eauto]
      end; bool_to_prop.
      all: rewrite ?in_range_spec in *.
      rewrite resolve_de_spec, ok_bind by (pose proof (bw_positive (bw_hz i)); lia || (intuition lia)).
      rewrite bool_decide_false; [by eauto|]. intros Hl. apply Hn. unfold valid_input. tauto. }
    destruct Hrej as (st & E & Hst). exists (status_only st). split; [done|]. split; [done|]. auto.
Qed.

Lemma compute_OK_valid i r : compute i = Ok r -> status r = OK \/ status r = OVERFLOW -> valid_input i.
Proof.
  intros E Hs. destruct (compute_total i) as (r' & E' & Hv & Hn). rewrite E in E'. injection E' as <-.
  destruct (decide (valid_input i)) as [|Hnv]; [done|]. destruct (Hn Hnv) as [Hrej _].
  unfold OK, OVERFLOW, STRUCT, INVALID_ARGUMENT, UNSUPPORTED in *. lia.
Qed.

(** The time on air in units of 1/(4 BW) seconds. *)
Definition quarter_units (i : Input) (de : Z) : Z := quarter_symbols i de * 2 ^ sf i.

Lemma quarter_units_toa i de : 2 <= sf i -> quarter_units i de = 4 * toa_units i de.
Proof.
  intros H. unfold quarter_units, toa_units.
  replace (2 ^ sf i) with (2 ^ (sf i - 2) * 2 ^ 2) by (rewrite <- Z.pow_add_r by lia; f_equal; lia).
  change (2 ^ 2) with 4. ring.
Qed.

(** A successful result is the data-sheet airtime rounded up exactly: the
    microseconds and the milliseconds are the least integers not below
    (preamble + 12.25 [+ 2 for SF5/6] + coded symbols) * 2^SF / BW, the
    microseconds fit in 32 bits, and a valid configuration is reported as
    OVERFLOW exactly when they do not, with the numerator and the milliseconds
    still reported. *)
Theorem compute_rounds_up_exactly i r :
  compute i = Ok r -> status r = OK \/ status r = OVERFLOW ->
  let de := ldro_effective r in
  toa_numerator r * 4 = quarter_units i de /\
  (airtime_ms_ceil r - 1) * (4 * bw_hz i) < quarter_units i de * 1000 <= airtime_ms_ceil r * (4 * bw_hz i) /\
  (status r = OK ->
     (airtime_us r - 1) * (4 * bw_hz i) < quarter_units i de * 1000000 <= airtime_us r * (4 * bw_hz i) /\
     0 < airtime_us r <= U32_MAX /\ n_payload_symbols r = 8 + coded_symbols i de) /\
  (status r = OVERFLOW -> U32_MAX * (4 * bw_hz i) < quarter_units i de * 1000000).
Proof.
  intros E Hs. pose proof (compute_OK_valid i r E Hs) as Hv. rewrite compute_valid_eq in E by done.
  cbv zeta in *. pose proof (effective_de_01 (sf i) (bw_hz i) (ldro i)) as Hde.
  pose proof (toa_units_bound i _ Hv Hde) as Hu. unfold exact_us in E.
  destruct Hv as (_ & Hsf & _ & _ & _ & _ & _ & Hb & _). pose proof (bw_positive _ Hb) as Hbw.
  pose proof (quarter_units_toa i (effective_de (sf i) (bw_hz i) (ldro i)) ltac:(lia)) as Hq.
  set (de := effective_de _ _ _) in *. set (u := toa_units i de) in *.
  pose proof (ceil_div_spec (u * 1000) (bw_hz i) ltac:(lia)).
  pose proof (ceil_div_spec (u * 1000000) (bw_hz i) ltac:(lia)).
  destruct (Z.ltb_spec U32_MAX (ceil_div (u * 1000000) (bw_hz i))) as [Hov|Hov]; injection E as <-;
    cbn -[U32_MAX]; rewrite Hq; repeat split; try done; try lia; try nia.
Qed.

Definition same_radio (i j : Input) : Prop :=
  sf i = sf j /\ cr i = cr j /\ header_implicit i = header_implicit j /\ crc_on i = crc_on j /\
  ldro i = ldro j /\ bw_hz i = bw_hz j.

Lemma toa_units_mono i j de :
  same_radio i j -> payload_len_bytes i <= payload_len_bytes j -> preamble_len_symbols i <= preamble_len_symbols j ->
  5 <= sf i -> 1 <= cr i -> de = 0 \/ de = 1 -> toa_units i de <= toa_units j de.
Proof.
  intros (Hs & Hc & Hh & Hk & _ & _) Hpl Hpre H5 H1 Hd. unfold toa_units, quarter_symbols, coded_symbols.
  rewrite <- Hs, <- Hc, <- Hh, <- Hk. apply Z.mul_le_mono_nonneg_r; [apply Z.pow_nonneg; lia|].
  assert (H : forall a b d, 0 < d -> a <= b -> ceil_div (Z.max 0 a) d * (cr i + 4) <= ceil_div (Z.max 0 b) d * (cr i + 4)).
  { intros. apply Z.mul_le_mono_nonneg_r; [lia|]. apply ceil_div_mono; lia. }
  destruct (Z.leb_spec (sf i) 6);
    (match goal with |- context [ceil_div (Z.max 0 ?a) ?d] =>
       match goal with |- context [ceil_div (Z.max 0 ?b) d] => assert_fails (constr_eq a b);
         pose proof (H a b d ltac:(lia) ltac:(lia)) end end; lia).
Qed.

(** With the same radio parameters, a longer payload or preamble never
    shortens the reported airtime. *)
Theorem airtime_monotone i j ri rj :
  compute i = Ok ri -> compute j = Ok rj -> status ri = OK -> status rj = OK ->
  same_radio i j -> payload_len_bytes i <= payload_len_bytes j ->
  preamble_len_symbols i <= preamble_len_symbols j ->
  airtime_us ri <= airtime_us rj /\ airtime_ms_ceil ri <= airtime_ms_ceil rj.
Proof.
  intros Ei Ej Si Sj Hsame Hpl Hpre.
  pose proof (compute_OK_valid i ri Ei (or_introl Si)) as Hvi.
  pose proof (compute_OK_valid j rj Ej (or_introl Sj)) as Hvj.
  pose proof Hvi as (_ & Hsf & Hcr & _ & _ & _ & _ & Hb & _). pose proof (bw_positive _ Hb).
  pose proof (toa_units_mono i j _ Hsame Hpl Hpre ltac:(lia) ltac:(lia) (effective_de_01 (sf i) (bw_hz i) (ldro i))).
  destruct Hsame as (Es & _ & _ & _ & El & Eb).
  rewrite compute_valid_eq in Ei, Ej by done. cbv zeta in *. unfold exact_us in *.
  rewrite <- Es, <- El, <- Eb in Ej.
  destruct (U32_MAX <? _) in Ei; injection Ei as <-; [done|].
  destruct (U32_MAX <? _) in Ej; injection Ej as <-; [done|].
  cbn. split; apply ceil_div_mono; lia.
Qed.

(** At SF5 and SF6 the low data rate option changes only the reported
    effective flag, never the airtime. *)
Theorem low_sf_ignores_ldro i l :
  valid_input i -> sf i <= 6 -> l ∈ [LDRO_OFF; LDRO_ON; LDRO_AUTO] ->
  exists ri rl, compute i = Ok ri /\ compute (with_ldro l i) = Ok rl /\
    status ri = status rl /\ airtime_us ri = airtime_us rl /\ toa_numerator ri = toa_numerator rl.
Proof.
  intros Hv H6 Hl.
  assert (Hv' : valid_input (with_ldro l i)) by (unfold valid_input in *; cbn; tauto).
  rewrite !compute_valid_eq by done. cbv zeta. do 2 eexists. split; [done|]. split; [done|].
  assert (Hsame : forall d d', toa_units (with_ldro l i) d' = toa_units i d).
  { intros. unfold toa_units, quarter_symbols, coded_symbols. cbn [sf payload_len_bytes crc_on header_implicit cr
      preamble_len_symbols with_ldro]. rewrite (proj2 (Z.leb_le _ _) H6). done. }
  unfold exact_us. rewrite (Hsame (effective_de (sf i) (bw_hz i) (ldro i))). cbn [bw_hz with_ldro].
  by destruct (U32_MAX <? _).
Qed.

(** The tool's self check exits with 0, its boundary cases are all computed
    (only the largest one overflows 32-bit microseconds) and its negative cases
    are all rejected. *)
Theorem self_check_passes :
  self_check = Ok 0 /\
  map (fun i => match compute i with Ok r => status r | Raise _ => -1 end) boundary_cases
    = replicate 52 OK ++ [OVERFLOW; OK] /\
  Forall (fun v => exists st, compute v.2 = Ok (status_only st) /\ (st = STRUCT \/ st = INVALID_ARGUMENT \/ st = UNSUPPORTED))
         negative_cases.
Proof.
  split; [by vm_compute|]. split; [by vm_compute|].
  repeat (apply Forall_cons_2; [eexists; split; [vm_compute; reflexivity|unfold STRUCT, INVALID_ARGUMENT, UNSUPPORTED; lia]|]).
  apply Forall_nil_2.
Qed.

(** ** Witnesses *)

Definition sf7_case : Input := MkInput 7 1 0 1 0 16 8 125000 0.
Definition sf7_long : Input := MkInput 7 1 0 1 0 200 8 125000 0.
Definition sf5_case : Input := MkInput 5 1 0 1 LDRO_OFF 16 12 125000 0.

Lemma compute_rounds_up_exactly_witness :
  exists r, compute sf7_case = Ok r /\ airtime_us r = 51456 /\
    (airtime_us r - 1) * (4 * bw_hz sf7_case) < quarter_units sf7_case (ldro_effective r) * 1000000
      <= airtime_us r * (4 * bw_hz sf7_case).
Proof.
  eexists. split; [vm_compute; reflexivity|]. split; [reflexivity|].
  apply (compute_rounds_up_exactly sf7_case); [vm_compute; reflexivity|left; reflexivity|reflexivity].
Defined.

Lemma airtime_monotone_witness :
  exists r r', compute sf7_case = Ok r /\ compute sf7_long = Ok r' /\ airtime_us r <= airtime_us r'.
Proof.
  do 2 eexists. split; [vm_compute; reflexivity|]. split; [vm_compute; reflexivity|].
  apply (airtime_monotone sf7_case sf7_long);
    [vm_compute; reflexivity|vm_compute; reflexivity|reflexivity|reflexivity
    |repeat split; reflexivity|vm_compute; discriminate|vm_compute; discriminate].
Defined.

Lemma low_sf_ignores_ldro_witness :
  exists ri rl, compute sf5_case = Ok ri /\ compute (with_ldro LDRO_ON sf5_case) = Ok rl /\
    status ri = status rl /\ airtime_us ri = airtime_us rl /\ toa_numerator ri = toa_numerator rl.
Proof.
  apply (low_sf_ignores_ldro sf5_case LDRO_ON);
    [apply (bool_decide_unpack (valid_input sf5_case)); vm_compute; exact I
    |vm_compute; discriminate
    |apply (bool_decide_unpack (LDRO_ON ∈ [LDRO_OFF; LDRO_ON; LDRO_AUTO])); vm_compute; exact I].
Defined.
