(* ===== verification/Session.v ===== *)
(** The NCL1 logical-session wire of tools/logical_session_u4_vector_gen.py: the
    NCG1 and NCL1 encoders, the transmit descriptors with their validator and
    builders, and the encoder from a validated descriptor to hexadecimal text. *)

From S2P Require Import Prelude Bytes Crc ControlFrame.

Definition MAGIC_NCL1 : bytes := bytes_of_string "NCL1".
Definition NCL1_VER : Z := 1.
Definition MSG_HELLO : Z := 0x01.
Definition MSG_HELLO_ACK : Z := 0x02.
Definition MSG_CTRL_ERROR : Z := 0x03.
Definition MSG_PING : Z := 0x10.
Definition MSG_PONG : Z := 0x11.
Definition MSG_RESET : Z := 0x12.

(** [prefix.append(version); prefix.append(type_)]: a value outside a byte raises. *)
Definition ncg1_encode (type_ stream_id sequence : Z) (payload : bytes) : res bytes :=
  t ← pybyte type_;
  f ← u16 0;
  s ← u32 stream_id;
  q ← u32 sequence;
  n ← u16 (len payload);
  let prefix := MAGIC ++ [VERSION] ++ t ++ f ++ s ++ q ++ n in
  hc ← u32 (crc32c prefix);
  let body := (prefix ++ hc) ++ payload in
  fc ← u32 (crc32c body);
  mret (body ++ fc).

Definition ncl1_encode (msg_type request_id generation cookie : Z) (body : bytes) : res bytes :=
  t ← pybyte msg_type;
  f ← u16 0;
  r ← u32 request_id;
  g ← u32 generation;
  c ← u64 cookie;
  n ← u16 (len body);
  mret (MAGIC_NCL1 ++ [NCL1_VER] ++ t ++ f ++ r ++ g ++ c ++ n ++ body).

(** [struct.pack(">HHHH", a, b, c, d)]. *)
Definition pack_HHHH (a b c d : Z) : res bytes :=
  a ← u16 a; b ← u16 b; c ← u16 c; d ← u16 d; mret (a ++ b ++ c ++ d).

Definition hello_body : res bytes := pack_HHHH 1 1 0 0.
Definition hello_ack_body (result : Z) : res bytes :=
  pack_HHHH (if result =? 0 then 1 else 0) 0 result 0.
Definition ping_body (token : Z) : res bytes := u64 token.
(** [bytes([a, b, c, d])]. *)
Definition bytes4 (a b c d : Z) : res bytes :=
  a ← pybyte a; b ← pybyte b; c ← pybyte c; d ← pybyte d; mret (a ++ b ++ c ++ d).
Definition reset_body (code : Z) : res bytes := bytes4 code 0 0 0.
Definition pack_HHI (a b c : Z) : res bytes :=
  a ← u16 a; b ← u16 b; c ← u32 c; mret (a ++ b ++ c).
Definition ctrl_error_body (code : Z) : res bytes := pack_HHI code 0 0.

(** ** Transmit descriptors *)

(** The values a descriptor dictionary holds: an [int], a [bool] (which Python
    also counts as an [int]), or a value of another type. *)
Inductive pyval :=
  | PyInt (z : Z)
  | PyBool (b : bool)
  | PyOther (type_name : string).
#[export] Instance pyval_eq_dec : EqDecision pyval.
Proof. solve_decision. Defined.

Abbreviation desc := (gmap string pyval).
Abbreviation fields := (gmap string Z).

Definition SEQ_RESERVED_TERMINAL : Z := U32_MAX.
Definition HELLO_OK : Z := 0.
Definition HELLO_VERSION_MISMATCH : Z := 1.
Definition HELLO_BUSY : Z := 2.
Definition HELLO_DENIED : Z := 3.
Definition HELLO_RESULTS : list Z := [HELLO_OK; HELLO_VERSION_MISMATCH; HELLO_BUSY; HELLO_DENIED].
Definition RESET_CODES : list Z := [1; 2; 3].
Definition CTRL_ERROR_CODES : list Z := [1; 2; 3; 4; 5; 6; 7].
Definition CONTROL_VERSION_V1 : Z := 1.

(** A dictionary with integer keys, written as a literal. *)
Fixpoint assoc {A} (k : Z) (l : list (Z * A)) : option A :=
  match l with [] => None | (i, v) :: l => if k =? i then Some v else assoc k l end.

Definition FT_MSG_BINDING : list (Z * Z) :=
  [(MSG_HELLO, TYPE_DATA); (MSG_HELLO_ACK, TYPE_DATA); (MSG_CTRL_ERROR, TYPE_DATA);
   (MSG_PING, TYPE_PING); (MSG_PONG, TYPE_PONG); (MSG_RESET, TYPE_RESET)].
Definition TX_BASE_REQUIRED : list string :=
  ["frame_type"; "stream_id"; "sequence"; "message_type"; "generation"; "session_cookie"; "request_id"]%string.
Definition TX_MSG_REQUIRED : list (Z * list string) :=
  [(MSG_HELLO, ["hello_min_version"; "hello_max_version"; "hello_flags_supported"; "hello_reserved"]%string);
   (MSG_HELLO_ACK, ["hello_ack_selected_version"; "hello_ack_flags_selected"; "hello_ack_result";
                    "hello_ack_reserved"]%string);
   (MSG_PING, ["opaque_echo_token"]%string);
   (MSG_PONG, ["opaque_echo_token"]%string);
   (MSG_RESET, ["reset_code"; "reset_reserved0"; "reset_reserved1"; "reset_reserved2"]%string);
   (MSG_CTRL_ERROR, ["error_code"; "error_reserved"; "related_request_id"]%string)].

Definition _require_int (d : desc) (key : string) (lo hi : Z) : res Z :=
  match d !! key with
  | None => Raise (RuntimeError "tx descriptor missing required field")
  | Some (PyInt v) =>
      raise_if ((v <? lo) || (hi <? v)) (RuntimeError "tx descriptor field out of range");; mret v
  | Some _ => Raise (RuntimeError "tx descriptor field must be int")
  end.

(** [for k in keys: if k not in desc: raise]. *)
Definition require_keys (d : desc) (keys : list string) (e : exn) : res unit :=
  raise_if (negb (forallb (fun k => bool_decide (k ∈ dom d)) keys)) e.

(** [{...}] and [out.update({...})]. *)
Definition dict (l : list (string * Z)) : fields := list_to_map l.
Arguments dict : simpl never.

Definition validate_hello (d : desc) (gen cookie req : Z) : res fields :=
  raise_if (negb (gen =? 0) || negb (cookie =? 0)) (RuntimeError "HELLO requires generation=0 and cookie=0");;
  raise_if (req =? 0) (RuntimeError "HELLO request_id must be non-zero");;
  mn ← _require_int d "hello_min_version" 0 U16_MAX;
  mx ← _require_int d "hello_max_version" 0 U16_MAX;
  flags ← _require_int d "hello_flags_supported" 0 U16_MAX;
  reserved ← _require_int d "hello_reserved" 0 U16_MAX;
  raise_if (negb (mn =? CONTROL_VERSION_V1) || negb (mx =? CONTROL_VERSION_V1))
    (RuntimeError "HELLO min/max control version");;
  raise_if (negb (flags =? 0) || negb (reserved =? 0)) (RuntimeError "HELLO flags_supported/reserved must be 0");;
  mret (dict [("hello_min_version", mn); ("hello_max_version", mx);
              ("hello_flags_supported", flags); ("hello_reserved", reserved)]%string).

Definition validate_hello_ack (d : desc) (gen cookie req : Z) : res fields :=
  raise_if (req =? 0) (RuntimeError "HELLO_ACK request_id must be non-zero (echo)");;
  selected ← _require_int d "hello_ack_selected_version" 0 U16_MAX;
  flags_sel ← _require_int d "hello_ack_flags_selected" 0 U16_MAX;
  result ← _require_int d "hello_ack_result" 0 U16_MAX;
  reserved ← _require_int d "hello_ack_reserved" 0 U16_MAX;
  raise_if (negb (flags_sel =? 0) || negb (reserved =? 0))
    (RuntimeError "HELLO_ACK flags_selected/reserved must be 0");;
  raise_if (negb (bool_decide (result ∈ HELLO_RESULTS))) (RuntimeError "HELLO_ACK result_code not in catalog");;
  (if result =? HELLO_OK then
     raise_if ((gen =? 0) || (cookie =? 0)) (RuntimeError "HELLO_ACK OK requires nonzero generation and cookie");;
     raise_if (negb (selected =? CONTROL_VERSION_V1)) (RuntimeError "HELLO_ACK OK selected_control_version")
   else
     raise_if (negb (gen =? 0) || negb (cookie =? 0))
       (RuntimeError "HELLO_ACK error requires generation=0 and cookie=0");;
     raise_if (negb (selected =? 0)) (RuntimeError "HELLO_ACK error selected_control_version must be 0"));;
  mret (dict [("hello_ack_selected_version", selected); ("hello_ack_flags_selected", flags_sel);
              ("hello_ack_result", result); ("hello_ack_reserved", reserved)]%string).

Definition validate_ping_pong (mt : Z) (d : desc) (gen cookie req : Z) : res fields :=
  raise_if ((mt =? MSG_PING) && (req =? 0)) (RuntimeError "PING request_id must be non-zero");;
  raise_if ((mt =? MSG_PONG) && (req =? 0)) (RuntimeError "PONG request_id must be non-zero (echo)");;
  raise_if ((gen =? 0) || (cookie =? 0)) (RuntimeError "PING/PONG requires active generation and cookie");;
  token ← _require_int d "opaque_echo_token" 0 U64_MAX;
  mret (dict [("opaque_echo_token", token)]%string).

Definition validate_reset (d : desc) (gen cookie req : Z) : res fields :=
  raise_if (req =? 0) (RuntimeError "RESET request_id must be non-zero");;
  raise_if ((gen =? 0) || (cookie =? 0)) (RuntimeError "RESET requires nonzero generation and cookie");;
  code ← _require_int d "reset_code" 0 U8_MAX;
  r0 ← _require_int d "reset_reserved0" 0 U8_MAX;
  r1 ← _require_int d "reset_reserved1" 0 U8_MAX;
  r2 ← _require_int d "reset_reserved2" 0 U8_MAX;
  raise_if (negb (bool_decide (code ∈ RESET_CODES))) (RuntimeError "RESET reset_code not in closed catalog");;
  raise_if (negb (r0 =? 0) || negb (r1 =? 0) || negb (r2 =? 0)) (RuntimeError "RESET reserved fields must be 0");;
  mret (dict [("reset_code", code); ("reset_reserved0", r0); ("reset_reserved1", r1);
              ("reset_reserved2", r2)]%string).

Definition validate_ctrl_error (d : desc) (gen cookie : Z) : res fields :=
  raise_if (negb (Bool.eqb (gen =? 0) (cookie =? 0)))
    (RuntimeError "CTRL_ERROR requires (generation==0)==(cookie==0)");;
  ec ← _require_int d "error_code" 0 U16_MAX;
  er ← _require_int d "error_reserved" 0 U16_MAX;
  related ← _require_int d "related_request_id" 0 U32_MAX;
  raise_if (negb (bool_decide (ec ∈ CTRL_ERROR_CODES))) (RuntimeError "CTRL_ERROR error_code not in catalog");;
  raise_if (negb (er =? 0)) (RuntimeError "CTRL_ERROR reserved must be 0");;
  mret (dict [("error_code", ec); ("error_reserved", er); ("related_request_id", related)]%string).

Arguments validate_ping_pong : simpl never.

(** [d1.update(d2)]: the keys of [d2] win. *)
Definition update (d1 d2 : fields) : fields := d2 ∪ d1.

Definition validate_tx_desc (d : desc) : res fields :=
  require_keys d TX_BASE_REQUIRED (RuntimeError "missing required field");;
  mt ← _require_int d "message_type" 0 U8_MAX;
  match assoc mt TX_MSG_REQUIRED, assoc mt FT_MSG_BINDING with
  | None, _ => Raise (RuntimeError "unknown message_type")
  | Some _, None => Raise (KeyError "message_type")
  | Some required, Some bound_ft =>
      require_keys d required (RuntimeError "missing message field");;
      let allowed : gset string := list_to_set (TX_BASE_REQUIRED ++ required) in
      raise_if (negb (bool_decide (dom d ∖ allowed = ∅))) (RuntimeError "surplus fields");;
      ft ← _require_int d "frame_type" 0 U8_MAX;
      raise_if (negb (bound_ft =? ft)) (RuntimeError "frame_type incompatible with message_type");;
      stream ← _require_int d "stream_id" 0 U32_MAX;
      raise_if (negb (stream =? 0)) (RuntimeError "stream_id must be 0 (U4 single control stream)");;
      seq ← _require_int d "sequence" 0 U32_MAX;
      raise_if (seq =? SEQ_RESERVED_TERMINAL) (RuntimeError "sequence UINT32_MAX is reserved terminal");;
      gen ← _require_int d "generation" 0 U32_MAX;
      cookie ← _require_int d "session_cookie" 0 U64_MAX;
      req ← _require_int d "request_id" 0 U32_MAX;
      let out := dict [("frame_type", ft); ("stream_id", stream); ("sequence", seq); ("message_type", mt);
                       ("generation", gen); ("session_cookie", cookie); ("request_id", req)]%string in
      more ← (if mt =? MSG_HELLO then validate_hello d gen cookie req
              else if mt =? MSG_HELLO_ACK then validate_hello_ack d gen cookie req
              else if (mt =? MSG_PING) || (mt =? MSG_PONG) then validate_ping_pong mt d gen cookie req
              else if mt =? MSG_RESET then validate_reset d gen cookie req
              else if mt =? MSG_CTRL_ERROR then validate_ctrl_error d gen cookie
              else Raise (RuntimeError "unhandled message_type"));
      mret (update out more)
  end.

(** [n[key]] on a validated descriptor. *)
Definition getitem (n : fields) (key : string) : res Z :=
  match n !! key with Some v => Ok v | None => Raise (KeyError key) end.

Definition encode_tx_body (n : fields) (mt : Z) : res bytes :=
  if mt =? MSG_HELLO then
    a ← getitem n "hello_min_version"; b ← getitem n "hello_max_version";
    c ← getitem n "hello_flags_supported"; d ← getitem n "hello_reserved"; pack_HHHH a b c d
  else if mt =? MSG_HELLO_ACK then
    a ← getitem n "hello_ack_selected_version"; b ← getitem n "hello_ack_flags_selected";
    c ← getitem n "hello_ack_result"; d ← getitem n "hello_ack_reserved"; pack_HHHH a b c d
  else if (mt =? MSG_PING) || (mt =? MSG_PONG) then
    t ← getitem n "opaque_echo_token"; ping_body t
  else if mt =? MSG_RESET then
    a ← getitem n "reset_code"; b ← getitem n "reset_reserved0";
    c ← getitem n "reset_reserved1"; d ← getitem n "reset_reserved2"; bytes4 a b c d
  else if mt =? MSG_CTRL_ERROR then
    a ← getitem n "error_code"; b ← getitem n "error_reserved"; c ← getitem n "related_request_id";
    pack_HHI a b c
  else Raise (RuntimeError "unhandled message_type").

Definition encode_tx_desc (d : desc) : res string :=
  n ← validate_tx_desc d;
  mt ← getitem n "message_type";
  body ← encode_tx_body n mt;
  req ← getitem n "request_id"; gen ← getitem n "generation"; cookie ← getitem n "session_cookie";
  payload ← ncl1_encode mt req gen cookie body;
  ft ← getitem n "frame_type"; stream ← getitem n "stream_id"; seq ← getitem n "sequence";
  frame ← ncg1_encode ft stream seq payload;
  mret (hex_of frame).

(** ** Descriptor builders *)

Definition base_fields (ft stream seq mt gen cookie req : Z) : list (string * Z) :=
  [("frame_type", ft); ("stream_id", stream); ("sequence", seq); ("message_type", mt);
   ("generation", gen); ("session_cookie", cookie); ("request_id", req)]%string.

Definition tx_hello (req seq stream : Z) : fields :=
  dict (base_fields TYPE_DATA stream seq MSG_HELLO 0 0 req ++
        [("hello_min_version", 1); ("hello_max_version", 1); ("hello_flags_supported", 0);
         ("hello_reserved", 0)]%string).
Definition tx_ack (req gen cookie seq stream result : Z) : fields :=
  let selected := if result =? 0 then 1 else 0 in
  dict (base_fields TYPE_DATA stream seq MSG_HELLO_ACK gen cookie req ++
        [("hello_ack_selected_version", selected); ("hello_ack_flags_selected", 0);
         ("hello_ack_result", result); ("hello_ack_reserved", 0)]%string).
Definition tx_ping (req gen cookie seq token stream : Z) : fields :=
  dict (base_fields TYPE_PING stream seq MSG_PING gen cookie req ++ [("opaque_echo_token", token)]%string).
Definition tx_pong (req gen cookie seq token stream : Z) : fields :=
  dict (base_fields TYPE_PONG stream seq MSG_PONG gen cookie req ++ [("opaque_echo_token", token)]%string).
Definition tx_reset (req gen cookie seq code stream : Z) : fields :=
  dict (base_fields TYPE_RESET stream seq MSG_RESET gen cookie req ++
        [("reset_code", code); ("reset_reserved0", 0); ("reset_reserved1", 0); ("reset_reserved2", 0)]%string).
Definition tx_ctrl_error (req gen cookie seq code related stream : Z) : fields :=
  dict (base_fields TYPE_DATA stream seq MSG_CTRL_ERROR gen cookie req ++
        [("error_code", code); ("error_reserved", 0); ("related_request_id", related)]%string).

Definition ping_token (req now_ms : Z) : Z :=
  let token := Z.lxor (Z.lxor (Z.shiftl (Z.land req 0xFFFFFFFF) 32) (Z.land now_ms 0xFFFFFFFFFFFFFFFF)) 0xA5A5A5A5 in
  let token := Z.land token 0xFFFFFFFFFFFFFFFF in
  if token =? 0 then 1 else token.

Definition wire_ping (req gen cookie seq now_ms stream : Z) : fields :=
  tx_ping req gen cookie seq (ping_token req now_ms) stream.

(** ** The messages a descriptor may denote *)

Inductive message :=
  | Hello (req seq : Z)
  | HelloAck (req gen cookie seq result : Z)
  | Ping (req gen cookie seq token : Z)
  | Pong (req gen cookie seq token : Z)
  | Reset (req gen cookie seq code : Z)
  | CtrlError (req gen cookie seq code related : Z).

Definition build (m : message) : fields :=
  match m with
  | Hello req seq => tx_hello req seq 0
  | HelloAck req gen cookie seq result => tx_ack req gen cookie seq 0 result
  | Ping req gen cookie seq token => tx_ping req gen cookie seq token 0
  | Pong req gen cookie seq token => tx_pong req gen cookie seq token 0
  | Reset req gen cookie seq code => tx_reset req gen cookie seq code 0
  | CtrlError req gen cookie seq code related => tx_ctrl_error req gen cookie seq code related 0
  end.

Definition seq_ok (seq : Z) : Prop := 0 <= seq < U32_MAX.
Definition live_pair (gen cookie : Z) : Prop := 0 < gen <= U32_MAX /\ 0 < cookie <= U64_MAX.
Definition req_ok (req : Z) : Prop := 0 < req <= U32_MAX.

Definition wf_message (m : message) : Prop :=
  match m with
  | Hello req seq => req_ok req /\ seq_ok seq
  | HelloAck req gen cookie seq result =>
      req_ok req /\ seq_ok seq /\
      (result = HELLO_OK /\ live_pair gen cookie \/ 1 <= result <= 3 /\ gen = 0 /\ cookie = 0)
  | Ping req gen cookie seq token | Pong req gen cookie seq token =>
      req_ok req /\ seq_ok seq /\ live_pair gen cookie /\ 0 <= token <= U64_MAX
  | Reset req gen cookie seq code => req_ok req /\ seq_ok seq /\ live_pair gen cookie /\ 1 <= code <= 3
  | CtrlError req gen cookie seq code related =>
      0 <= req <= U32_MAX /\ seq_ok seq /\ (gen = 0 /\ cookie = 0 \/ live_pair gen cookie) /\
      1 <= code <= 7 /\ 0 <= related <= U32_MAX
  end.

#[export] Instance wf_message_dec m : Decision (wf_message m).
Proof. destruct m; unfold wf_message, req_ok, seq_ok, live_pair; apply _. Defined.

(** A descriptor dictionary whose values are exactly these integers. *)
Definition as_desc (f : fields) : desc := PyInt <$> f.

Lemma require_int_Ok d k lo hi v :
  _require_int d k lo hi = Ok v <-> d !! k = Some (PyInt v) /\ lo <= v <= hi.
Proof.
  unfold _require_int. destruct (d !! k) as [[z|b|s]|]; [|naive_solver..]. split.
  - intros H. inv_res. bool_to_prop. naive_solver lia.
  - intros [[= ->] ?]. by rewrite raise_if_skip by (apply orb_false_iff; lia).
Qed.

Lemma require_keys_Ok d ks e : require_keys d ks e = Ok tt <-> Forall (fun k => k ∈ dom d) ks.
Proof.
  unfold require_keys. rewrite raise_if_Ok, negb_false_iff, forallb_True_iff || rewrite raise_if_Ok, negb_false_iff.
  rewrite forallb_forall, Forall_forall. setoid_rewrite bool_decide_eq_true.
  setoid_rewrite list_elem_of_In. done.
Qed.

(** A dictionary with no surplus key is its required part. *)
Lemma dict_exact (d : desc) (l : list (string * Z)) :
  dom d ∖ list_to_set l.*1 =@{gset string} ∅ -> Forall (fun p => d !! p.1 = Some (PyInt p.2)) l ->
  d = as_desc (dict l).
Proof.
  intros Hs Hl. apply map_eq. intros k. unfold as_desc, dict. rewrite lookup_fmap.
  destruct (list_to_map l !! k) as [v|] eqn:E; cbn.
  - apply elem_of_list_to_map_2 in E. rewrite Forall_forall in Hl. by apply (Hl (k, v)).
  - apply not_elem_of_list_to_map_2 in E. apply not_elem_of_dom. set_solver.
Qed.

Definition entries (d : desc) (l : list (string * Z)) : Prop := Forall (fun p => d !! p.1 = Some (PyInt p.2)) l.

(** [read_ints] turns every successful field read into a lookup and a range. *)
Ltac read_ints :=
  repeat match goal with
  | H : _require_int _ _ _ _ = Ok _ |- _ => apply require_int_Ok in H as [? ?]
  | H : require_keys _ _ _ = Ok _ |- _ => clear H
  end; bool_to_prop; subst.

Ltac solve_entries := repeat (apply Forall_cons_2; [cbn; assumption|]); apply Forall_nil_2.

Lemma validate_hello_Ok d gen cookie req more :
  validate_hello d gen cookie req = Ok more ->
  gen = 0 /\ cookie = 0 /\ req <> 0 /\
  exists l, l = [("hello_min_version", 1); ("hello_max_version", 1); ("hello_flags_supported", 0); ("hello_reserved", 0)]%string /\ more = dict l /\ entries d l.
Proof.
  unfold validate_hello, CONTROL_VERSION_V1. intros H. inv_res. read_ints.
  repeat split; auto. eexists. split; [reflexivity|]. split; [reflexivity|solve_entries].
Qed.

Lemma validate_hello_ack_Ok d gen cookie req more :
  validate_hello_ack d gen cookie req = Ok more ->
  req <> 0 /\ exists result,
    (result = HELLO_OK /\ gen <> 0 /\ cookie <> 0 \/ 1 <= result <= 3 /\ gen = 0 /\ cookie = 0) /\
    exists l, l = [("hello_ack_selected_version", if (result =? 0)%Z then 1 else 0); ("hello_ack_flags_selected", 0);
           ("hello_ack_result", result); ("hello_ack_reserved", 0)]%string /\ more = dict l /\ entries d l.
Proof.
  unfold validate_hello_ack, HELLO_RESULTS, HELLO_OK, CONTROL_VERSION_V1. intros H. inv_res. read_ints.
  split; [done|]. rename a1 into result. exists result.
  rewrite !elem_of_cons, elem_of_nil in *. unfold HELLO_VERSION_MISMATCH, HELLO_BUSY, HELLO_DENIED, HELLO_OK in *.
  destruct (result =? 0) eqn:Er in *; inv_res; read_ints;
    (split; [lia|]; eexists; split; [reflexivity|]; split; [reflexivity | solve_entries]).
Qed.

Lemma validate_ping_pong_Ok mt d gen cookie req more :
  validate_ping_pong mt d gen cookie req = Ok more -> mt = MSG_PING \/ mt = MSG_PONG ->
  req <> 0 /\ gen <> 0 /\ cookie <> 0 /\ exists token, 0 <= token <= U64_MAX /\
    exists l, l = [("opaque_echo_token", token)]%string /\ more = dict l /\ entries d l.
Proof.
  unfold validate_ping_pong. intros H Hmt. inv_res. read_ints.
  rewrite andb_false_iff, !Z.eqb_neq in *. repeat split; try lia.
  exists a. split; [done|]. eexists. split; [reflexivity|]. split; [reflexivity|solve_entries].
Qed.

Lemma validate_reset_Ok d gen cookie req more :
  validate_reset d gen cookie req = Ok more ->
  req <> 0 /\ gen <> 0 /\ cookie <> 0 /\ exists code, 1 <= code <= 3 /\
    exists l, l = [("reset_code", code); ("reset_reserved0", 0); ("reset_reserved1", 0); ("reset_reserved2", 0)]%string /\ more = dict l /\ entries d l.
Proof.
  unfold validate_reset, RESET_CODES. intros H. inv_res. read_ints.
  rewrite !elem_of_cons, elem_of_nil in *. repeat split; auto. exists a. split; [lia|].
  eexists. split; [reflexivity|]. split; [reflexivity|solve_entries].
Qed.

Lemma validate_ctrl_error_Ok d gen cookie more :
  validate_ctrl_error d gen cookie = Ok more ->
  (gen = 0 <-> cookie = 0) /\ exists code related, 1 <= code <= 7 /\ 0 <= related <= U32_MAX /\
    exists l, l = [("error_code", code); ("error_reserved", 0); ("related_request_id", related)]%string /\ more = dict l /\ entries d l.
Proof.
  unfold validate_ctrl_error, CTRL_ERROR_CODES. intros H. inv_res. read_ints.
  rewrite !elem_of_cons, elem_of_nil in *.
  split; [apply eqb_prop in H0; rewrite <- !Z.eqb_eq, H0; tauto|]. exists a, a1. repeat split; try lia.
  eexists. split; [reflexivity|]. split; [reflexivity|solve_entries].
Qed.

Lemma update_dict l1 l2 : l1.*1 ## l2.*1 -> update (dict l1) (dict l2) = dict (l1 ++ l2).
Proof.
  intros H. unfold update, dict. rewrite list_to_map_app. apply map_union_comm.
  apply map_disjoint_list_to_map_l, Forall_forall. intros [k v] Hk. cbn.
  apply not_elem_of_list_to_map_1. intros Hin. apply (H k); [done|].
  by apply (list_elem_of_fmap_2 fst l2 (k, v)).
Qed.

Lemma disjoint_keys (l1 l2 : list string) : forallb (fun k => negb (bool_decide (k ∈ l2))) l1 = true -> l1 ## l2.
Proof.
  rewrite forallb_forall. intros H k Hk%list_elem_of_In Hk2. specialize (H k Hk).
  by rewrite bool_decide_true in H.
Qed.

(** [keys_apart] computes that two literal key lists share nothing. *)
Ltac keys_apart := apply disjoint_keys; reflexivity.

Lemma message_type_cases mt keys :
  assoc mt TX_MSG_REQUIRED = Some keys ->
  mt = MSG_HELLO \/ mt = MSG_HELLO_ACK \/ mt = MSG_PING \/ mt = MSG_PONG \/ mt = MSG_RESET \/ mt = MSG_CTRL_ERROR.
Proof.
  cbn. repeat (destruct (mt =? _) eqn:E; [apply Z.eqb_eq in E; tauto | clear E]). discriminate.
Qed.

Ltac by_range := unfold wf_message, req_ok, seq_ok, live_pair, HELLO_OK in *; lia.

Tactic Notation "found" hyp(Hd) constr(m) hyp(He) :=
  match type of He with entries _ ?l =>
    apply (Hd m l); [by_range | reflexivity | assumption | exact He | keys_apart | reflexivity]
  end.

Lemma validate_tx_desc_sound d out :
  validate_tx_desc d = Ok out -> exists m, wf_message m /\ out = build m /\ d = as_desc out.
Proof.
  unfold validate_tx_desc. intros H. inv_res. rename a0 into mt.
  destruct (assoc mt TX_MSG_REQUIRED) as [req_keys|] eqn:Ek; [|discriminate].
  destruct (assoc mt FT_MSG_BINDING) as [ft|] eqn:Eb; [|discriminate].
  inv_res. read_ints. rename a1 into ft, a3 into seq, a4 into gen, a5 into cookie, a6 into req, a7 into more.
  fold (base_fields ft 0 seq mt gen cookie req).
  assert (Hd : forall m l, wf_message m -> l.*1 = req_keys -> more = dict l -> entries d l ->
    TX_BASE_REQUIRED ## l.*1 -> dict (base_fields ft 0 seq mt gen cookie req ++ l) = build m ->
    let out := update (dict (base_fields ft 0 seq mt gen cookie req)) more in
    exists m, wf_message m /\ out = build m /\ d = as_desc out).
  { intros m l Hm Hl -> He Hdis Hb. exists m. cbn zeta. rewrite update_dict by done.
    split; [done|]. split; [done|]. apply dict_exact.
    - rewrite fmap_app, Hl. assumption.
    - apply Forall_app_2; [|done]. unfold base_fields. solve_entries. }
  assert (Hs : seq_ok seq) by (unfold seq_ok, SEQ_RESERVED_TERMINAL in *; lia).
  unfold seq_ok, HELLO_OK in *.
  destruct (message_type_cases _ _ Ek) as [-> | [-> | [-> | [-> | [-> | ->]]]]];
    cbn in Ek, Eb, E8; injection Ek as <-; injection Eb as <-.
  - apply validate_hello_Ok in E8 as (-> & -> & ? & l & -> & Hm & He).
    found Hd (Hello req seq) He.
  - apply validate_hello_ack_Ok in E8 as (? & r & ? & l & -> & Hm & He).
    found Hd (HelloAck req gen cookie seq r) He.
  - apply validate_ping_pong_Ok in E8 as (? & ? & ? & t & ? & l & -> & Hm & He); [|tauto].
    found Hd (Ping req gen cookie seq t) He.
  - apply validate_ping_pong_Ok in E8 as (? & ? & ? & t & ? & l & -> & Hm & He); [|tauto].
    found Hd (Pong req gen cookie seq t) He.
  - apply validate_reset_Ok in E8 as (? & ? & ? & c & ? & l & -> & Hm & He).
    found Hd (Reset req gen cookie seq c) He.
  - apply validate_ctrl_error_Ok in E8 as (? & c & r & ? & ? & l & -> & Hm & He).
    found Hd (CtrlError req gen cookie seq c r) He.
Qed.

Lemma require_int_bind {A} d k lo hi v (K : Z -> res A) :
  d !! k = Some (PyInt v) -> lo <= v <= hi -> (_require_int d k lo hi ≫= K) = K v.
Proof. intros H1 H2. by rewrite (proj2 (require_int_Ok d k lo hi v)). Qed.

(** [solve_false] shows that a guard does not fire. *)
Ltac solve_false :=
  try reflexivity; unfold SEQ_RESERVED_TERMINAL, CONTROL_VERSION_V1, HELLO_OK, RESET_CODES, CTRL_ERROR_CODES in *;
  repeat rewrite ?orb_false_iff, ?negb_false_iff, ?Z.eqb_eq, ?Z.eqb_neq, ?bool_decide_eq_true, ?elem_of_cons;
  first [reflexivity | lia | by rewrite andb_false_r].

(** One step of the validator on a rendered message: the fields are present,
    in range, and no guard fires. *)
Ltac validate_step :=
  match goal with
  | |- (require_keys ?d ?ks ?e ≫= _) = _ =>
      replace (require_keys d ks e) with (@Ok unit tt) by (symmetry; vm_compute; reflexivity); rewrite ok_bind
  | |- (_require_int ?d ?k ?lo ?hi ≫= _) = _ =>
      erewrite (require_int_bind d k lo hi) by
        (reflexivity || (cbn [snd]; unfold U8_MAX, U16_MAX, U32_MAX, U64_MAX in *; lia) ||
         (vm_compute; split; discriminate))
  | |- (raise_if (negb (bool_decide (?X = ∅))) _ ≫= _) = _ =>
      rewrite raise_if_skip by (vm_compute; reflexivity)
  | |- (raise_if _ _ ≫= _) = _ => rewrite raise_if_skip by solve_false
  | |- ((_ ≫= _) ≫= _) = _ => rewrite res_bind_assoc
  | |- (match assoc ?k ?l with _ => _ end) = _ =>
      let v := eval vm_compute in (assoc k l) in change (assoc k l) with v
  | |- ((if ?c then _ else _) ≫= _) = _ => let v := eval vm_compute in c in change c with v
  end; cbv beta iota; cbn [fst snd].

Lemma validate_tx_desc_complete m : wf_message m -> validate_tx_desc (as_desc (build m)) = Ok (build m).
Proof.
  unfold wf_message, req_ok, seq_ok, live_pair. intros Hm.
  unfold validate_tx_desc.
  destruct m as [req seq|req gen cookie seq result|req gen cookie seq token|req gen cookie seq token
                |req gen cookie seq code|req gen cookie seq code related]; cbn [build].
  - repeat validate_step. unfold validate_hello. repeat validate_step. reflexivity.
  - assert (Hr : result = 0 \/ result = 1 \/ result = 2 \/ result = 3) by (unfold HELLO_OK in *; lia).
    destruct Hr as [-> | [-> | [-> | ->]]];
      repeat validate_step; unfold validate_hello_ack; repeat validate_step; reflexivity.
  - repeat validate_step. unfold validate_ping_pong. repeat validate_step. reflexivity.
  - repeat validate_step. unfold validate_ping_pong. repeat validate_step. reflexivity.
  - repeat validate_step. unfold validate_reset. repeat validate_step. reflexivity.
  - repeat validate_step. unfold validate_ctrl_error.
    assert (Hz : (gen =? 0) = (cookie =? 0)) by (apply eq_true_iff_eq; rewrite !Z.eqb_eq; lia).
    rewrite Hz, eqb_reflx. repeat validate_step. reflexivity.
Qed.

(** ** The wire form of a message *)

Definition message_type (m : message) : Z :=
  match m with
  | Hello _ _ => MSG_HELLO | HelloAck _ _ _ _ _ => MSG_HELLO_ACK | Ping _ _ _ _ _ => MSG_PING
  | Pong _ _ _ _ _ => MSG_PONG | Reset _ _ _ _ _ => MSG_RESET | CtrlError _ _ _ _ _ _ => MSG_CTRL_ERROR
  end.
Definition frame_type (m : message) : Z :=
  match m with Ping _ _ _ _ _ => TYPE_PING | Pong _ _ _ _ _ => TYPE_PONG | Reset _ _ _ _ _ => TYPE_RESET | _ => TYPE_DATA end.
Definition message_seq (m : message) : Z :=
  match m with
  | Hello _ s | HelloAck _ _ _ s _ | Ping _ _ _ s _ | Pong _ _ _ s _ | Reset _ _ _ s _ | CtrlError _ _ _ s _ _ => s
  end.
Definition message_req (m : message) : Z :=
  match m with
  | Hello r _ | HelloAck r _ _ _ _ | Ping r _ _ _ _ | Pong r _ _ _ _ | Reset r _ _ _ _ | CtrlError r _ _ _ _ _ => r
  end.
Definition message_pair (m : message) : Z * Z :=
  match m with
  | Hello _ _ => (0, 0)
  | HelloAck _ g c _ _ | Ping _ g c _ _ | Pong _ g c _ _ | Reset _ g c _ _ | CtrlError _ g c _ _ _ => (g, c)
  end.
Definition message_body (m : message) : bytes :=
  match m with
  | Hello _ _ => be_bytes 2 1 ++ be_bytes 2 1 ++ be_bytes 2 0 ++ be_bytes 2 0
  | HelloAck _ _ _ _ result =>
      be_bytes 2 (if result =? 0 then 1 else 0) ++ be_bytes 2 0 ++ be_bytes 2 result ++ be_bytes 2 0
  | Ping _ _ _ _ t | Pong _ _ _ _ t => be_bytes 8 t
  | Reset _ _ _ _ code => [code; 0; 0; 0]
  | CtrlError _ _ _ _ code related => be_bytes 2 code ++ be_bytes 2 0 ++ be_bytes 4 related
  end.

Definition message_payload (m : message) : bytes :=
  MAGIC_NCL1 ++ [NCL1_VER; message_type m] ++ be_bytes 2 0 ++ be_bytes 4 (message_req m) ++
  be_bytes 4 (message_pair m).1 ++ be_bytes 8 (message_pair m).2 ++ be_bytes 2 (len (message_body m)) ++
  message_body m.
Definition message_frame (m : message) : bytes := frame_bytes (frame_type m) 0 (message_seq m) (message_payload m).

Lemma ncg1_encode_closed t q p :
  is_byte t -> 0 <= q < 2 ^ 32 -> bytes_ok p -> len p < 65536 ->
  ncg1_encode t 0 q p = Ok (frame_bytes t 0 q p).
Proof.
  intros Ht Hq Hp Hl. pose proof (len_nonneg p). unfold ncg1_encode.
  rewrite (proj2 (pybyte_Ok t [t])) by done. rewrite ok_bind. unfold u16, u32.
  rewrite (pack_bind 2 0), (pack_bind 4 0), (pack_bind 4 q), (pack_bind 2 (len p)) by (cbn; lia). cbv zeta.
  change (MAGIC ++ [VERSION] ++ [t] ++ be_bytes 2 0 ++ be_bytes 4 0 ++ be_bytes 4 q ++ be_bytes 2 (len p))
    with (frame_prefix t 0 q (len p)).
  rewrite (pack_checksum crc32c (frame_prefix t 0 q (len p))), ok_bind by (by apply frame_prefix_ok).
  change (frame_prefix t 0 q (len p) ++ be_bytes 4 (crc32c (frame_prefix t 0 q (len p))))
    with (frame_header t 0 q (len p)).
  by rewrite (pack_checksum crc32c (_ ++ p)), ok_bind by (by apply frame_body_ok).
Qed.

Lemma getitem_bind {A} n k v (K : Z -> res A) : n !! k = Some v -> (getitem n k ≫= K) = K v.
Proof. unfold getitem. by intros ->. Qed.

Lemma message_body_ok m : wf_message m -> bytes_ok (message_body m) /\ len (message_body m) = (if message_type m =? MSG_RESET then 4 else 8).
Proof.
  intros Hm. split; [|destruct m; by simpl_lens].
  destruct m; cbn [message_body]; cbn in Hm; solve_bytes.
Qed.

Lemma message_type_byte m : is_byte (message_type m).
Proof. destruct m; split; unfold message_type, MSG_HELLO, MSG_HELLO_ACK, MSG_PING, MSG_PONG, MSG_RESET, MSG_CTRL_ERROR; lia. Qed.

Lemma frame_type_known m : frame_type m ∈ KNOWN_TYPES.
Proof. destruct m; unfold KNOWN_TYPES, frame_type; rewrite !elem_of_cons; tauto. Qed.

(** The ranges every well-formed message keeps. *)
Lemma wf_message_ranges m :
  wf_message m ->
  0 <= message_seq m < U32_MAX /\ 0 <= message_req m <= U32_MAX /\
  0 <= (message_pair m).1 <= U32_MAX /\ 0 <= (message_pair m).2 <= U64_MAX.
Proof.
  unfold wf_message, req_ok, seq_ok, live_pair, U32_MAX, U64_MAX.
  destruct m; cbn [message_seq message_req message_pair fst snd]; lia.
Qed.

Lemma len_MAGIC_NCL1 : len MAGIC_NCL1 = 4.
Proof. done. Qed.
#[export] Hint Rewrite len_MAGIC_NCL1 : lens.

Lemma len_message_payload m : wf_message m -> len (message_payload m) = 26 + len (message_body m).
Proof. intros _. unfold message_payload. simpl_lens. lia. Qed.

Lemma message_payload_ok m : wf_message m -> bytes_ok (message_payload m) /\ len (message_payload m) <= 34.
Proof.
  intros Hm. destruct (message_body_ok m Hm) as [Hb Hl]. split.
  - pose proof (message_type_byte m) as Ht. unfold message_payload, NCL1_VER, MAGIC_NCL1. solve_bytes.
  - rewrite len_message_payload, Hl by done. destruct (_ =? _); lia.
Qed.

Lemma ncl1_encode_message m :
  wf_message m ->
  ncl1_encode (message_type m) (message_req m) (message_pair m).1 (message_pair m).2 (message_body m)
  = Ok (message_payload m).
Proof.
  intros Hm. pose proof (wf_message_ranges m Hm) as (_ & Hr & Hg & Hc). unfold U32_MAX, U64_MAX in *.
  destruct (message_body_ok m Hm) as [_ Hl].
  unfold ncl1_encode. rewrite (proj2 (pybyte_Ok _ [message_type m])) by (split; [apply message_type_byte | done]).
  rewrite ok_bind. unfold u16, u32, u64.
  rewrite (pack_bind 2 0), (pack_bind 4 (message_req m)), (pack_bind 4 (message_pair m).1),
    (pack_bind 8 (message_pair m).2), (pack_bind 2 (len (message_body m)))
    by (pack_range; first [lia | rewrite Hl; destruct (_ =? _); lia]).
  reflexivity.
Qed.

Lemma pack_HHHH_closed a b c d :
  0 <= a < 65536 -> 0 <= b < 65536 -> 0 <= c < 65536 -> 0 <= d < 65536 ->
  pack_HHHH a b c d = Ok (be_bytes 2 a ++ be_bytes 2 b ++ be_bytes 2 c ++ be_bytes 2 d).
Proof. intros. unfold pack_HHHH, u16. by rewrite !pack_bind by done. Qed.

Lemma encode_tx_body_message m :
  wf_message m -> encode_tx_body (build m) (message_type m) = Ok (message_body m).
Proof.
  unfold wf_message, U32_MAX, U64_MAX, HELLO_OK. intros Hm. unfold encode_tx_body.
  destruct m; cbn [message_type message_body build]; cbn [Z.eqb MSG_HELLO MSG_HELLO_ACK MSG_PING MSG_PONG MSG_RESET
    MSG_CTRL_ERROR Pos.eqb orb];
    repeat (erewrite getitem_bind by reflexivity; cbn [snd]).
  - by apply pack_HHHH_closed.
  - apply pack_HHHH_closed; try lia. by destruct (_ =? _).
  - apply pack_total. pack_range. lia.
  - apply pack_total. pack_range. lia.
  - unfold bytes4. rewrite (proj2 (pybyte_Ok code [code])) by (unfold is_byte; split; [lia|done]). done.
  - unfold pack_HHI, u16, u32. by rewrite !pack_bind by (pack_range; lia).
Qed.

(** The header fields of a message, as the descriptor states them. *)
Lemma build_header m :
  build m !! "message_type" = Some (message_type m) /\ build m !! "request_id" = Some (message_req m) /\
  build m !! "generation" = Some (message_pair m).1 /\ build m !! "session_cookie" = Some (message_pair m).2 /\
  build m !! "frame_type" = Some (frame_type m) /\ build m !! "stream_id" = Some 0 /\
  build m !! "sequence" = Some (message_seq m).
Proof. by destruct m. Qed.

Lemma encode_tx_desc_closed m :
  wf_message m -> encode_tx_desc (as_desc (build m)) = Ok (hex_of (message_frame m)).
Proof.
  intros Hm. unfold encode_tx_desc. rewrite (validate_tx_desc_complete m Hm), ok_bind.
  destruct (build_header m) as (H1 & H2 & H3 & H4 & H5 & H6 & H7).
  destruct (message_payload_ok m Hm) as [Hp Hl]. pose proof (wf_message_ranges m Hm) as (Hs & _).
  rewrite (getitem_bind _ _ _ _ H1), (encode_tx_body_message m Hm), ok_bind,
    (getitem_bind _ _ _ _ H2), (getitem_bind _ _ _ _ H3), (getitem_bind _ _ _ _ H4),
    (ncl1_encode_message m Hm), ok_bind, (getitem_bind _ _ _ _ H5), (getitem_bind _ _ _ _ H6), (getitem_bind _ _ _ _ H7).
  unfold U32_MAX in Hs. rewrite ncg1_encode_closed; [done | | lia | done | lia].
  apply known_type_byte, frame_type_known.
Qed.

Lemma message_frame_valid m : wf_message m -> valid_args (frame_type m) 0 (message_seq m) (message_payload m).
Proof.
  intros Hm. destruct (message_payload_ok m Hm). pose proof (wf_message_ranges m Hm).
  unfold valid_args, MAX_PAYLOAD. split; [apply frame_type_known|]. unfold U32_MAX in *. lia || intuition lia.
Qed.

Lemma message_frame_ok m : wf_message m -> bytes_ok (message_frame m).
Proof.
  intros Hm. destruct (message_payload_ok m Hm) as [Hp _].
  exact (frame_bytes_ok _ _ _ _ (known_type_byte _ (frame_type_known m)) Hp).
Qed.

(** Where each field of a message stands in its frame. *)
Lemma message_frame_reads m :
  wf_message m ->
  let f := message_frame m in
  byte_at 5 f = frame_type m /\ be_val (slice 12 16 f) = message_seq m /\ byte_at 27 f = message_type m /\
  be_val (slice 30 34 f) = message_req m /\ be_val (slice 34 38 f) = (message_pair m).1 /\
  be_val (slice 38 46 f) = (message_pair m).2 /\ slice 48 (48 + len (message_body m)) f = message_body m.
Proof.
  intros Hm. pose proof (wf_message_ranges m Hm) as (Hs & Hr & Hg & Hc). pose proof (len_nonneg (message_body m)).
  unfold U32_MAX, U64_MAX in *. cbv zeta.
  unfold message_frame, frame_bytes, frame_header, frame_prefix, message_payload. rewrite <- !app_assoc.
  split_and!; read_slices; try done; try (rewrite be_val_be_bytes; apply Z.mod_small; cbn; lia).
Qed.

(** [split_body H] separates the fields of two equal message bodies. *)
Ltac split_body H :=
  repeat match type of H with
  | _ ++ _ = _ ++ _ =>
      let H1 := fresh "Hfield" in
      apply app_inj_length in H as [H1 H]; [|by rewrite !length_be_bytes]
  end;
  repeat match goal with
  | E : be_bytes _ _ = be_bytes _ _ |- _ => apply be_bytes_inj in E; [|pack_range; lia..]
  end.

Lemma message_body_inj m1 m2 :
  wf_message m1 -> wf_message m2 -> message_type m1 = message_type m2 -> message_seq m1 = message_seq m2 ->
  message_req m1 = message_req m2 -> message_pair m1 = message_pair m2 -> message_body m1 = message_body m2 ->
  m1 = m2.
Proof.
  unfold wf_message, U32_MAX, U64_MAX, HELLO_OK. intros H1 H2 Ht Hs Hr Hp Hb.
  destruct m1, m2; cbn [message_type] in Ht; try discriminate Ht; revert Hb;
    cbn [message_seq message_req message_pair message_body] in *; simplify_eq; intros Hb; try done;
    try (destruct (result =? 0), (result0 =? 0)); split_body Hb; try (injection Hb as Hb); subst; done.
Qed.

Lemma message_frame_inj m1 m2 : wf_message m1 -> wf_message m2 -> message_frame m1 = message_frame m2 -> m1 = m2.
Proof.
  intros H1 H2 E.
  destruct (message_frame_reads m1 H1) as (_ & A1 & A2 & A3 & A4 & A5 & A6).
  destruct (message_frame_reads m2 H2) as (_ & B1 & B2 & B3 & B4 & B5 & B6).
  destruct (message_body_ok m1 H1) as [_ L1]. destruct (message_body_ok m2 H2) as [_ L2].
  rewrite E in A1, A2, A3, A4, A5, A6.
  assert (Ht : message_type m1 = message_type m2) by congruence.
  apply message_body_inj; try congruence.
  - destruct (message_pair m1), (message_pair m2); cbn in *; congruence.
  - rewrite <- A6, <- B6, L1, L2, Ht. done.
Qed.

(** ** Properties *)

(** C31. The transmit-descriptor validator accepts exactly the dictionaries the
    [tx_*] builders give on well-formed arguments (no missing, surplus, boolean
    or out-of-range field), and returns their fields unchanged. *)
Theorem validate_tx_desc_exact d out :
  validate_tx_desc d = Ok out <-> exists m, wf_message m /\ out = build m /\ d = as_desc out.
Proof.
  split; [apply validate_tx_desc_sound|]. intros (m & Hm & -> & ->). by apply validate_tx_desc_complete.
Qed.

(** Where the frame keeps the fields of a descriptor, with the name of each: the
    NCG1 header, the NCL1 header, and the body of the message type. *)
Definition header_layout : list (string * Z * Z) :=
  [("frame_type", 5, 6); ("stream_id", 8, 12); ("sequence", 12, 16); ("message_type", 27, 28); ("request_id", 30, 34);
   ("generation", 34, 38); ("session_cookie", 38, 46)]%string.
Definition body_layout (mt : Z) : list (string * Z * Z) :=
  if mt =? MSG_HELLO then
     [("hello_min_version", 48, 50); ("hello_max_version", 50, 52); ("hello_flags_supported", 52, 54); ("hello_reserved", 54, 56)]%string
   else if mt =? MSG_HELLO_ACK then
     [("hello_ack_selected_version", 48, 50); ("hello_ack_flags_selected", 50, 52); ("hello_ack_result", 52, 54); ("hello_ack_reserved", 54, 56)]%string
   else if (mt =? MSG_PING) || (mt =? MSG_PONG) then [("opaque_echo_token", 48, 56)]%string
   else if mt =? MSG_RESET then [("reset_code", 48, 49); ("reset_reserved0", 49, 50); ("reset_reserved1", 50, 51); ("reset_reserved2", 51, 52)]%string
   else [("error_code", 48, 50); ("error_reserved", 50, 52); ("related_request_id", 52, 56)]%string.

Definition holds_fields (out : fields) (raw : bytes) (layout : list (string * Z * Z)) : Prop :=
  Forall (fun '(name, lo, hi) => out !! name = Some (be_val (slice lo hi raw))) layout.

(** The constants between the fields. *)
Definition frame_constants (raw : bytes) : Prop :=
  slice 0 4 raw = MAGIC /\ byte_at 4 raw = VERSION /\ be_val (slice 6 8 raw) = 0 /\ be_val (slice 16 18 raw) = len raw - OVERHEAD /\
  slice 22 26 raw = MAGIC_NCL1 /\ byte_at 26 raw = NCL1_VER /\ be_val (slice 28 30 raw) = 0 /\
  be_val (slice 46 48 raw) = len raw - (OVERHEAD + 26).

Lemma message_frame_headers m : wf_message m ->
  holds_fields (build m) (message_frame m) header_layout /\ frame_constants (message_frame m).
Proof.
  intros Hm. pose proof (wf_message_ranges m Hm) as (Hs & Hr & Hg & Hc). pose proof (len_nonneg (message_body m)).
  destruct (build_header m) as (H1 & H2 & H3 & H4 & H5 & H6 & H7). destruct (message_body_ok m Hm) as [_ Lb].
  assert (Hl : len (message_body m) <= 8) by (rewrite Lb; destruct (_ =? _); lia).
  pose proof (len_message_payload m Hm) as Hp.
  pose proof (known_type_byte _ (frame_type_known m)) as Hft. assert (Hmt : 0 <= message_type m < 256) by (by destruct m).
  destruct (message_frame_reads m Hm) as (R1 & R2 & R3 & R4 & R5 & R6 & _). cbv zeta in *.
  assert (Lf : len (message_frame m) = 52 + len (message_body m)) by (unfold message_frame; rewrite len_frame_bytes, Hp; unfold OVERHEAD; lia).
  unfold holds_fields, header_layout. rewrite !Forall_cons, H1, H2, H3, H4, H5, H6, H7.
  rewrite <- (byte_at_val 5) in R1 by lia. rewrite <- (byte_at_val 27) in R3 by lia. cbn [Z.add Pos.add Pos.succ] in R1, R3. rewrite ?R1, ?R2, ?R3, R4, R5, R6.
  unfold frame_constants, OVERHEAD. rewrite Lf.
  unfold message_frame, frame_bytes, frame_header, frame_prefix. rewrite Hp. unfold message_payload. rewrite <- !app_assoc.
  split_and!; try done; try f_equal; read_slices; try done; rewrite ?be_val_be_bytes; try (symmetry; apply Z.mod_small; cbn; lia);
    try (rewrite Z.mod_small by (cbn; lia); lia).
Qed.

Lemma message_frame_body m : wf_message m -> holds_fields (build m) (message_frame m) (body_layout (message_type m)).
Proof.
  intros Hm. destruct (message_frame_reads m Hm) as (_ & _ & _ & _ & _ & _ & Hb). pose proof (len_nonneg (message_body m)).
  set (n := len (message_body m)) in *.
  assert (R : forall a c, 0 <= a <= c -> c <= n -> slice (48 + a) (48 + c) (message_frame m) = slice a c (message_body m)).
  { intros a c Ha Hc. rewrite <- Hb, slice_slice by lia. done. }
  assert (P : Forall (fun '(name, lo, hi) => 48 <= lo <= hi /\ hi <= 48 + len (message_body m) /\
                build m !! name = Some (be_val (slice (lo - 48) (hi - 48) (message_body m)))) (body_layout (message_type m))).
  { clear Hb R. unfold wf_message, req_ok, seq_ok, live_pair, U32_MAX, U64_MAX, HELLO_OK in Hm.
    destruct m; unfold body_layout; cbn [message_type message_body]; simpl_lens; cbn [Z.eqb Pos.eqb orb MSG_HELLO MSG_HELLO_ACK MSG_PING MSG_PONG MSG_RESET MSG_CTRL_ERROR];
      subst n; repeat (apply Forall_cons_2; [split; [lia|]; split; [lia|] |]); try apply Forall_nil_2.
    all: match goal with
         | |- _ = Some (be_val (slice (?a - ?b) (?c - ?d) ?l)) =>
             let lo := eval vm_compute in (a - b) in let hi := eval vm_compute in (c - d) in
             change (a - b) with lo; change (c - d) with hi;
             first [ read_slices; rewrite be_val_be_bytes, Z.mod_small by (cbn; try case_match; lia); reflexivity
                   | symmetry; change lo with (lo + 0); unfold slice, be_val; cbn -[Z.mul Z.add]; f_equal; lia ]
         end. }

  unfold holds_fields. eapply Forall_impl; [exact P|]. intros [[name lo] hi] (H1 & H2 & ->).
  do 2 f_equal. rewrite <- R by lia. f_equal; lia.
Qed.

Lemma build_dom m : dom (build m) = list_to_set (map (fun f => f.1.1) (header_layout ++ body_layout (message_type m))).
Proof.
  destruct m; unfold build, tx_hello, tx_ack, tx_ping, tx_pong, tx_reset, tx_ctrl_error, dict; rewrite dom_list_to_map_L;
    apply set_eq; intros name; rewrite !elem_of_list_to_set; cbn [message_type header_layout map app]; unfold body_layout, base_fields;
    cbn [Z.eqb Pos.eqb orb MSG_HELLO MSG_HELLO_ACK MSG_PING MSG_PONG MSG_RESET MSG_CTRL_ERROR map app fst fmap list_fmap]; set_solver.
Qed.

(** C20. Every accepted descriptor encodes, without an error, to the hexadecimal text of a
    frame the NCG1 decoder accepts.  Every field of the descriptor, of the two headers
    (the stream identifier included) and of the message's body, reads back from its
    place in the frame, the constants between them are as the two formats say, and the
    descriptor has no other field. *)
Theorem encode_tx_desc_on_wire d out :
  validate_tx_desc d = Ok out ->
  exists raw mt, encode_tx_desc d = Ok (hex_of raw) /\ from_hex (hex_of raw) = Ok raw /\
    decode_exact raw = RESULT_OK /\ OVERHEAD + 30 <= len raw <= OVERHEAD + 34 /\
    out !! "message_type" = Some mt /\ holds_fields out raw header_layout /\ holds_fields out raw (body_layout mt) /\
    frame_constants raw /\ dom out = list_to_set (map (fun f => f.1.1) (header_layout ++ body_layout mt)).
Proof.
  intros (m & Hm & -> & ->)%validate_tx_desc_sound. exists (message_frame m), (message_type m).
  destruct (message_frame_headers m Hm) as [Hh Hc].
  pose proof (message_frame_valid m Hm) as Hv.
  split; [by apply encode_tx_desc_closed|].
  split; [exact (from_hex_hex_of _ (message_frame_ok m Hm))|].
  split; [by apply decode_frame_bytes|]. split.
  { unfold message_frame. rewrite len_frame_bytes, len_message_payload by done.
    destruct (message_body_ok m Hm) as [_ ->]. destruct (_ =? _); lia. }
  split; [apply build_header|]. split; [done|]. split; [by apply message_frame_body|]. split; [done|].
  by apply build_dom.
Qed.

(** The wire text determines the descriptor: two accepted descriptors with
    the same encoding are equal. *)
Theorem encode_tx_desc_injective d1 d2 h :
  encode_tx_desc d1 = Ok h -> encode_tx_desc d2 = Ok h -> d1 = d2.
Proof.
  intros E1 E2.
  assert (Hm : forall d, encode_tx_desc d = Ok h ->
            exists m, wf_message m /\ d = as_desc (build m) /\ h = hex_of (message_frame m)).
  { intros d E. pose proof E as E'. unfold encode_tx_desc in E'. apply bind_Ok in E' as (out & Ev & _).
    apply validate_tx_desc_sound in Ev as (m & Hm & -> & ->). rewrite encode_tx_desc_closed in E by done.
    exists m. naive_solver. }
  destruct (Hm d1 E1) as (m1 & H1 & -> & ->), (Hm d2 E2) as (m2 & H2 & -> & Eh).
  do 2 f_equal. apply message_frame_inj; [done..|].
  pose proof (from_hex_hex_of _ (message_frame_ok m1 H1)) as F1.
  rewrite Eh, (from_hex_hex_of _ (message_frame_ok m2 H2)) in F1. symmetry. exact (Ok_inj _ _ F1).
Qed.

(** ** Witnesses *)

Definition sample_ack : message := HelloAck 1 1 0xC0FFEE0123456789 0 0.

Lemma sample_ack_wf : wf_message sample_ack.
Proof. apply (bool_decide_unpack (wf_message sample_ack)). vm_compute. exact I. Qed.

Lemma encode_tx_desc_on_wire_witness :
  exists raw, encode_tx_desc (as_desc (build sample_ack)) = Ok (hex_of raw) /\ decode_exact raw = RESULT_OK /\
    build sample_ack !! "stream_id" = Some (be_val (slice 8 12 raw)).
Proof.
  destruct (encode_tx_desc_on_wire (as_desc (build sample_ack)) (build sample_ack)) as
    (raw & mt & H1 & _ & H2 & _ & _ & H3 & _); [exact (validate_tx_desc_complete _ sample_ack_wf)|].
  exists raw. split; [exact H1|]. split; [exact H2|]. apply Forall_cons in H3 as [_ H3]. apply Forall_cons in H3 as [H3 _]. exact H3.
Defined.

Lemma encode_tx_desc_injective_witness :
  exists h, encode_tx_desc (as_desc (build sample_ack)) = Ok h /\
    forall d, encode_tx_desc d = Ok h -> d = as_desc (build sample_ack).
Proof.
  exists (hex_of (message_frame sample_ack)). split; [exact (encode_tx_desc_closed _ sample_ack_wf)|].
  intros d Ed. exact (encode_tx_desc_injective d _ _ Ed (encode_tx_desc_closed _ sample_ack_wf)).
Defined.
