(* ===== verification/Causal.v ===== *)
(** The causal tracker of tools/logical_session_u4_vector_gen.py: which HELLO,
    HELLO_ACK, PING, PONG, RESET and CTRL_ERROR frames a scenario may show, given
    the frames delivered before. *)

From S2P Require Import Prelude Bytes ControlFrame Session.

(** ** Scenario actions *)

(** The [expect] dictionary of an action; an absent key is [None]. *)
Record expectation := Expect {
  tx_len : option Z; exp_tx : option desc; exp_state : option Z;
  active_generation : option Z; active_cookie : option Z
}.

(** The [ncl1] dictionary of an injected frame. *)
Record ncl1_dict := Ncl1 {
  msg_type : option Z; request_id : option Z; generation : option Z; cookie : option Z;
  body_hex : option string
}.

Record action := Action {
  op : option string; a_peer : option string; a_frm : option string; a_from : option string;
  a_src : option string; a_source : option string; a_origin : option string;
  a_to : option string; a_dst : option string; expect : expectation; ncl1 : option ncl1_dict
}.

(** [x or y] on optional strings and integers: [None], [""] and [0] are false. *)
Definition truthy (x : option string) : bool :=
  match x with Some s => negb (String.eqb s "") | None => false end.
Definition por (x y : option string) : option string := if truthy x then x else y.
Definition int_or (x : option Z) (d : Z) : Z :=
  match x with Some v => if v =? 0 then d else v | None => d end.

Definition ST_ACT : Z := 4.

Definition FORCE_OPS_CAUSAL : list string :=
  ["force_state"; "force_rx_baseline"; "force_next_tx_seq"; "force_ping_eligible"]%string.

Definition is_op (a : action) (name : string) : bool := bool_decide (op a = Some name).

Definition action_tx_peer (a : action) : option string :=
  if is_op a "forward" then por (a_frm a) (por (a_from a) (por (a_src a) (a_peer a))) else a_peer a.

Definition action_deliver_peer (a : action) : option string :=
  if is_op a "forward" then por (a_to a) (a_dst a) else if is_op a "inject" then a_peer a else None.

Record ack_fields := AckFields { f_request_id : Z; f_generation : Z; f_session_cookie : Z; f_result : Z; f_selected : Z }.

Definition _inject_hello_ack_fields (n : ncl1_dict) : res (option ack_fields) :=
  if negb (int_or (msg_type n) (-1) =? MSG_HELLO_ACK) then Ok None
  else
    let req := int_or (request_id n) 0 in
    let gen := int_or (generation n) 0 in
    let cookie := int_or (cookie n) 0 in
    body ← from_hex (default "" (body_hex n));
    mret (if len body <? 8 then None
    else
      let selected := be_val (slice 0 2 body) in
      let flags_sel := be_val (slice 2 4 body) in
      let result := be_val (slice 4 6 body) in
      let reserved := be_val (slice 6 8 body) in
      if (req =? 0) || negb (flags_sel =? 0) || negb (reserved =? 0) then None
      else if negb (bool_decide (result ∈ HELLO_RESULTS)) then None
      else if (if result =? HELLO_OK then (gen =? 0) || (cookie =? 0) || negb (selected =? CONTROL_VERSION_V1)
               else negb (gen =? 0) || negb (cookie =? 0) || negb (selected =? 0)) then None
      else Some (AckFields req gen cookie result selected)).

(** ** The tracker *)

Abbreviation hello_key := (string * string * Z)%type.
Abbreviation ping_key := (string * string * Z * Z)%type.
Abbreviation ack_key := (string * string * Z * Z * Z * Z)%type.

Record CausalTracker := Tracker {
  hellos_out : gset hello_key;
  pings_out : gset ping_key;
  ack_pending : gset ack_key;
  pong_pending : gset ping_key;
  delivered_ack_to_origin : gset hello_key;
  handshake_active : gset string;
  session_pair : gmap string (Z * Z);
  pre_fence : gmap string (Z * Z)
}.

Definition tracker_init : CausalTracker := Tracker ∅ ∅ ∅ ∅ ∅ ∅ ∅ ∅.

(** Attribute assignments. *)
Definition set_hellos (v : gset hello_key) (t : CausalTracker) : CausalTracker :=
  Tracker v (pings_out t) (ack_pending t) (pong_pending t) (delivered_ack_to_origin t) (handshake_active t)
    (session_pair t) (pre_fence t).
Definition set_pings (v : gset ping_key) (t : CausalTracker) : CausalTracker :=
  Tracker (hellos_out t) v (ack_pending t) (pong_pending t) (delivered_ack_to_origin t) (handshake_active t)
    (session_pair t) (pre_fence t).
Definition set_acks (v : gset ack_key) (t : CausalTracker) : CausalTracker :=
  Tracker (hellos_out t) (pings_out t) v (pong_pending t) (delivered_ack_to_origin t) (handshake_active t)
    (session_pair t) (pre_fence t).
Definition set_pongs (v : gset ping_key) (t : CausalTracker) : CausalTracker :=
  Tracker (hellos_out t) (pings_out t) (ack_pending t) v (delivered_ack_to_origin t) (handshake_active t)
    (session_pair t) (pre_fence t).
Definition set_delivered (v : gset hello_key) (t : CausalTracker) : CausalTracker :=
  Tracker (hellos_out t) (pings_out t) (ack_pending t) (pong_pending t) v (handshake_active t)
    (session_pair t) (pre_fence t).
Definition set_active (v : gset string) (t : CausalTracker) : CausalTracker :=
  Tracker (hellos_out t) (pings_out t) (ack_pending t) (pong_pending t) (delivered_ack_to_origin t) v
    (session_pair t) (pre_fence t).
Definition set_session (v : gmap string (Z * Z)) (t : CausalTracker) : CausalTracker :=
  Tracker (hellos_out t) (pings_out t) (ack_pending t) (pong_pending t) (delivered_ack_to_origin t)
    (handshake_active t) v (pre_fence t).
Definition set_pre_fence (v : gmap string (Z * Z)) (t : CausalTracker) : CausalTracker :=
  Tracker (hellos_out t) (pings_out t) (ack_pending t) (pong_pending t) (delivered_ack_to_origin t)
    (handshake_active t) (session_pair t) v.

(** [if enforce: raise RuntimeError(msg)] followed by [return]. *)
Definition refuse (enforce : bool) (msg : string) (t : CausalTracker) : res CausalTracker :=
  if enforce then Raise (RuntimeError msg) else Ok t.

(** [self.pre_fence[peer] = self.session_pair[peer]; del self.session_pair[peer]]
    when the peer has a pair. *)
Definition _fence_peer (peer : string) (t : CausalTracker) : CausalTracker :=
  match session_pair t !! peer with
  | Some gc => set_session (delete peer (session_pair t)) (set_pre_fence (<[peer := gc]> (pre_fence t)) t)
  | None => t
  end.

Definition _track_state_transition (a : action) (peer : option string) (exp : expectation) (t : CausalTracker) :
    CausalTracker :=
  match peer with
  | Some p =>
      if negb (truthy peer) || negb (is_op a "step" || is_op a "inject" || is_op a "cell_continuity_loss") then t
      else match exp_state exp with
           | None => t
           | Some st => if negb (st =? ST_ACT) then _fence_peer p t else t
           end
  | None => t
  end.

Definition _add_hello_outstanding (origin responder : string) (req : Z) (t : CausalTracker) : CausalTracker :=
  let t := set_hellos (filter (fun k : hello_key => ~ (k.1.2 = responder /\ k.2 = req)) (hellos_out t)) t in
  let t := set_acks (filter (fun p : ack_key => ~ (p.1.1.1.1.2 = responder /\ p.1.1.1.2 = req)) (ack_pending t)) t in
  set_hellos ({[ (origin, responder, req) ]} ∪ hellos_out t) t.

Definition _add_ping_outstanding (origin responder : string) (req token : Z) (t : CausalTracker) : CausalTracker :=
  let t := set_pings (filter (fun k : ping_key => ~ (k.1.1.2 = responder /\ k.1.2 = req)) (pings_out t)) t in
  let t := set_pongs (filter (fun k : ping_key => ~ (k.1.1.2 = responder /\ k.1.2 = req)) (pong_pending t)) t in
  set_pings ({[ (origin, responder, req, token) ]} ∪ pings_out t) t.

(** [{p for p in self.ack_pending if not (p[0] == o and p[1] == r and p[2] == rq)}]. *)
Definition drop_acks (k : hello_key) (t : CausalTracker) : gset ack_key :=
  filter (fun p : ack_key => ~ p.1.1.1 = k) (ack_pending t).

(** [self.handshake_active.add(peer); self.session_pair[peer] = (gen, cookie)]. *)
Definition activate (peer : string) (gc : Z * Z) (t : CausalTracker) : CausalTracker :=
  set_session (<[peer := gc]> (session_pair t)) (set_active ({[ peer ]} ∪ handshake_active t) t).

(** ** The operations *)

(** [int.from_bytes(body[0:8], "big")]. *)
Definition token_of (body : bytes) : Z := be_val (slice 0 8 body).

Definition inject_ack (enforce : bool) (dest source : option string) (f : ack_fields) (t : CausalTracker) :
    res CausalTracker :=
  if negb (truthy dest) || negb (truthy source) then
    refuse enforce "inject HELLO_ACK requires source responder (frm/from/src) and dest peer" t
  else
    let origin := default ""%string dest in
    let responder := default ""%string source in
    let key := (origin, responder, f_request_id f) in
    if negb (bool_decide (key ∈ hellos_out t)) then
      refuse enforce "inject HELLO_ACK requires exact outstanding HELLO" t
    else
      let t := set_hellos (hellos_out t ∖ {[ key ]}) t in
      let t := set_acks (drop_acks key t) t in
      if f_result f =? HELLO_OK then
        let t := activate responder (f_generation f, f_session_cookie f) t in
        Ok (set_delivered ({[ key ]} ∪ delivered_ack_to_origin t) t)
      else Ok t.

Definition inject_pong (enforce : bool) (dest source : option string) (req : Z) (n : ncl1_dict) (t : CausalTracker) :
    res CausalTracker :=
  if negb (truthy dest) || negb (truthy source) then
    refuse enforce "inject PONG requires source responder and dest peer" t
  else
    body ← from_hex (default ""%string (body_hex n));
    if len body <? 8 then Ok t
    else
      let key := (default ""%string dest, default ""%string source, req, token_of body) in
      if negb (bool_decide (key ∈ pings_out t)) then
        refuse enforce "inject PONG requires exact outstanding PING" t
      else Ok (set_pings (pings_out t ∖ {[ key ]}) t).

Definition _observe_inject (enforce : bool) (a : action) (t : CausalTracker) : res CausalTracker :=
  match ncl1 a with
  | None => Ok t
  | Some n =>
      let dest := action_deliver_peer a in
      let source := por (a_frm a) (por (a_from a) (por (a_src a) (por (a_source a) (a_origin a)))) in
      let mt := int_or (msg_type n) (-1) in
      let req := int_or (request_id n) 0 in
      let addressed := negb (req =? 0) && truthy dest && truthy source in
      if (mt =? MSG_HELLO) && addressed then
        Ok (_add_hello_outstanding (default ""%string source) (default ""%string dest) req t)
      else if (mt =? MSG_PING) && addressed then
        body ← from_hex (default ""%string (body_hex n));
        if 8 <=? len body then
          Ok (_add_ping_outstanding (default ""%string source) (default ""%string dest) req (token_of body) t)
        else Ok t
      else if mt =? MSG_HELLO_ACK then
        fields ← _inject_hello_ack_fields n;
        match fields with
        | None => Ok t
        | Some f => inject_ack enforce dest source f t
        end
      else if mt =? MSG_PONG then inject_pong enforce dest source req n t
      else Ok t
  end.

(** [[k for k in outstanding if ...]]: the tuples a list comprehension selects
    from a set.  Their order does not matter: a use with two elements refuses. *)
Definition hellos_to (responder : string) (req : Z) (t : CausalTracker) : list hello_key :=
  elements (filter (fun k : hello_key => k.1.2 = responder /\ k.2 = req) (hellos_out t)).
Definition pings_to (responder : string) (req token : Z) (s : gset ping_key) : list ping_key :=
  elements (filter (fun k : ping_key => k.1.1.2 = responder /\ k.1.2 = req /\ k.2 = token) s).

(** [int(n.get("hello_ack_result", -1))]. *)
Definition ack_result (n : fields) : Z := default (-1) (n !! "hello_ack_result"%string).

Definition _observe_ack_tx (enforce : bool) (peer : option string) (n : fields) (t : CausalTracker) :
    res CausalTracker :=
  if negb (truthy peer) then refuse enforce "HELLO_ACK requires action peer" t
  else
    let p := default ""%string peer in
    req ← getitem n "request_id";
    match hellos_to p req t with
    | [] => refuse enforce "HELLO_ACK request_id has no outstanding HELLO delivered to responder" t
    | [key] =>
        let result := ack_result n in
        gen ← getitem n "generation";
        cookie ← getitem n "session_cookie";
        let t := set_acks (drop_acks key t) t in
        let t := set_acks ({[ (key, result, gen, cookie) ]} ∪ ack_pending t) t in
        if result =? HELLO_OK then Ok (activate p (gen, cookie) t) else Ok t
    | _ => refuse enforce "ambiguous HELLO outstanding for responder" t
    end.

Definition _observe_pong_tx (enforce : bool) (peer : option string) (n : fields) (t : CausalTracker) :
    res CausalTracker :=
  if negb (truthy peer) then refuse enforce "PONG requires action peer" t
  else
    let p := default ""%string peer in
    req ← getitem n "request_id";
    token ← getitem n "opaque_echo_token";
    match pings_to p req token (pings_out t) with
    | [] => refuse enforce "PONG has no outstanding PING delivered to responder" t
    | [key] =>
        let t := set_pings (pings_out t ∖ {[ key ]}) t in
        let t := set_pongs (filter (fun q => q <> key) (pong_pending t)) t in
        Ok (set_pongs ({[ key ]} ∪ pong_pending t) t)
    | _ => refuse enforce "ambiguous PING outstanding for responder" t
    end.

Definition _observe_ctrl_error (enforce : bool) (peer : option string) (n : fields) (t : CausalTracker) :
    res CausalTracker :=
  if negb enforce then Ok t
  else
    gen ← getitem n "generation";
    cookie ← getitem n "session_cookie";
    match (if truthy peer then session_pair t !! default ""%string peer else None) with
    | Some gc =>
        raise_if (negb (bool_decide ((gen, cookie) = gc)))
          (RuntimeError "CTRL_ERROR gen/cookie must equal current ACTIVE pair");; Ok t
    | None =>
        raise_if (negb (gen =? 0) || negb (cookie =? 0))
          (RuntimeError "CTRL_ERROR on non-ACTIVE peer requires generation=0 and cookie=0");; Ok t
    end.

Definition _observe_reset_tx (enforce : bool) (peer : option string) (n : fields) (t : CausalTracker) :
    res CausalTracker :=
  if negb enforce then Ok t
  else
    raise_if (negb (truthy peer)) (RuntimeError "RESET requires action peer");;
    let p := default ""%string peer in
    gen ← getitem n "generation";
    cookie ← getitem n "session_cookie";
    match session_pair t !! p, pre_fence t !! p with
    | Some gc, _ =>
        raise_if (negb (bool_decide ((gen, cookie) = gc))) (RuntimeError "RESET gen/cookie must equal current ACTIVE");;
        Ok (set_session (delete p (session_pair t)) (set_pre_fence (<[p := (gen, cookie)]> (pre_fence t)) t))
    | None, Some gc =>
        raise_if (negb (bool_decide ((gen, cookie) = gc))) (RuntimeError "RESET gen/cookie must equal pre-fence snapshot");;
        Ok t
    | None, None => Raise (RuntimeError "RESET has no ACTIVE pair or pre-fence snapshot")
    end.

(** The tail of the HELLO_ACK delivery, on the pending ACKs that match. *)
Definition deliver_ack (enforce : bool) (frm to : string) (matches : list ack_key) (t : CausalTracker) :
    res CausalTracker :=
  match matches with
  | [] => refuse enforce "HELLO_ACK forward has no pending ACK" t
  | [((origin, responder, rq), res, g, c)] =>
      if negb (bool_decide (frm = responder)) then refuse enforce "HELLO_ACK source must equal responder" t
      else if negb (bool_decide (to = origin)) then
        refuse enforce "HELLO_ACK delivered to another peer than the HELLO origin" t
      else
        let t := set_hellos (hellos_out t ∖ {[ (origin, responder, rq) ]}) t in
        let t := set_acks (ack_pending t ∖ {[ ((origin, responder, rq), res, g, c) ]}) t in
        if res =? HELLO_OK then
          Ok (set_delivered ({[ (origin, responder, rq) ]} ∪ delivered_ack_to_origin t) t)
        else Ok t
  | _ => refuse enforce "ambiguous pending ACK for forward" t
  end.

Definition forward_ack (enforce : bool) (frm to : string) (n : fields) (t : CausalTracker) : res CausalTracker :=
  req ← getitem n "request_id";
  let result := ack_result n in
  gen ← getitem n "generation";
  cookie ← getitem n "session_cookie";
  let matches := elements (filter (fun p : ack_key =>
      p.1.1.1.1.2 = frm /\ p.1.1.1.2 = req /\ p.1.1.2 = result /\ p.1.2 = gen /\ p.2 = cookie) (ack_pending t)) in
  match matches with
  | [] =>
      match hellos_to frm req t with
      | [key] =>
          let t := set_acks ({[ (key, result, gen, cookie) ]} ∪ ack_pending t) t in
          let t := if result =? HELLO_OK then activate frm (gen, cookie) t else t in
          deliver_ack enforce frm to [(key, result, gen, cookie)] t
      | [] => deliver_ack enforce frm to [] t
      | _ => refuse enforce "ambiguous HELLO for ACK forward" t
      end
  | _ => deliver_ack enforce frm to matches t
  end.

Definition deliver_pong (enforce : bool) (to : string) (matches : list ping_key) (t : CausalTracker) :
    res CausalTracker :=
  match matches with
  | [] => refuse enforce "PONG forward has no pending PONG" t
  | [((origin, responder), rq, tok)] =>
      if negb (bool_decide (to = origin)) then refuse enforce "PONG delivered to another peer than the PING origin" t
      else Ok (set_pongs (pong_pending t ∖ {[ ((origin, responder), rq, tok) ]}) t)
  | _ => refuse enforce "ambiguous pending PONG" t
  end.

Definition forward_pong (enforce : bool) (frm to : string) (n : fields) (t : CausalTracker) : res CausalTracker :=
  req ← getitem n "request_id";
  tok ← getitem n "opaque_echo_token";
  match pings_to frm req tok (pong_pending t) with
  | [] =>
      match pings_to frm req tok (pings_out t) with
      | [key] =>
          let t := set_pings (pings_out t ∖ {[ key ]}) t in
          let t := set_pongs ({[ key ]} ∪ pong_pending t) t in
          deliver_pong enforce to [key] t
      | [] => deliver_pong enforce to [] t
      | _ => refuse enforce "ambiguous PING for PONG forward" t
      end
  | matches => deliver_pong enforce to matches t
  end.

Definition _observe_forward_delivery (enforce : bool) (frm to : string) (n : fields) (t : CausalTracker) :
    res CausalTracker :=
  mt ← getitem n "message_type";
  if mt =? MSG_HELLO then
    req ← getitem n "request_id"; Ok (_add_hello_outstanding frm to req t)
  else if mt =? MSG_PING then
    req ← getitem n "request_id"; token ← getitem n "opaque_echo_token";
    Ok (_add_ping_outstanding frm to req token t)
  else if mt =? MSG_HELLO_ACK then forward_ack enforce frm to n t
  else if mt =? MSG_PONG then forward_pong enforce frm to n t
  else Ok t.

(** [for ... in list(self.delivered_ack_to_origin)] visits a set of tuples of
    strings in an order that depends on the hash seed of the process, and stops at
    the first entry of the peer: the order is an argument. *)
Definition iteration := gset hello_key -> list hello_key.

Fixpoint first_of (peer : string) (l : list hello_key) : option hello_key :=
  match l with
  | [] => None
  | k :: l => if bool_decide (k.1.1 = peer) then Some k else first_of peer l
  end.

Definition _maybe_origin_active_from_step (ord : iteration) (a : action) (peer : option string) (exp : expectation)
    (t : CausalTracker) : CausalTracker :=
  if negb (is_op a "step") || negb (truthy peer) then t
  else if negb (bool_decide (exp_state exp = Some ST_ACT)) then t
  else
    let p := default ""%string peer in
    match first_of p (ord (delivered_ack_to_origin t)) with
    | None => t
    | Some (_, r, _) =>
        let t := set_active ({[ p ]} ∪ handshake_active t) t in
        match session_pair t !! r, active_generation exp, active_cookie exp with
        | Some gc, _, _ => set_session (<[p := gc]> (session_pair t)) t
        | None, Some g, Some c => set_session (<[p := (g, c)]> (session_pair t)) t
        | None, _, _ => t
        end
    end.

(** The dispatch of a transmitted frame to the observers of a [step]. *)
Definition observe_step (enforce : bool) (peer : option string) (n : fields) (t : CausalTracker) : res CausalTracker :=
  mt ← getitem n "message_type";
  if mt =? MSG_HELLO_ACK then _observe_ack_tx enforce peer n t
  else if mt =? MSG_PONG then _observe_pong_tx enforce peer n t
  else if mt =? MSG_CTRL_ERROR then _observe_ctrl_error enforce peer n t
  else if mt =? MSG_RESET then _observe_reset_tx enforce peer n t
  else Ok t.

Definition settle (ord : iteration) (a : action) (t : CausalTracker) : CausalTracker :=
  let peer := action_tx_peer a in
  _maybe_origin_active_from_step ord a peer (expect a) (_track_state_transition a peer (expect a) t).

(** [tx = exp.get("tx") if tlen > 0 else None]. *)
Definition action_tx (a : action) : option desc :=
  if 0 <? int_or (tx_len (expect a)) 0 then exp_tx (expect a) else None.

Definition observe (ord : iteration) (enforce : bool) (a : action) (t : CausalTracker) : res CausalTracker :=
  if bool_decide (Exists (fun o => op a = Some o) FORCE_OPS_CAUSAL) then Ok t
  else
    let peer := action_tx_peer a in
    t ← (if is_op a "inject" then _observe_inject enforce a t else Ok t);
    let t := if is_op a "cell_continuity_loss" && truthy peer then _fence_peer (default ""%string peer) t else t in
    match action_tx a with
    | None => Ok (settle ord a t)
    | Some tx =>
        match validate_tx_desc tx with
        | Raise (RuntimeError msg) => if enforce then Raise (RuntimeError msg) else Ok t
        | Raise e => Raise e
        | Ok n =>
            t ← (if is_op a "step" then observe_step enforce peer n t else Ok t);
            t ← (match (if is_op a "forward" then action_deliver_peer a else None), peer with
                 | Some to, Some frm => _observe_forward_delivery enforce frm to n t
                 | _, _ => Ok t
                 end);
            Ok (settle ord a t)
        end
    end.

Fixpoint observe_all (ord : iteration) (enforce : bool) (l : list action) (t : CausalTracker) : res CausalTracker :=
  match l with
  | [] => Ok t
  | a :: l => t ← observe ord enforce a t; observe_all ord enforce l t
  end.

Definition track_handshake_active (ord : iteration) (actions : list action) : res (gset string) :=
  t ← observe_all ord false actions tracker_init; mret (handshake_active t).

Definition validate_scenario_tx_causal (ord : iteration) (actions : list action) : res unit :=
  observe_all ord true actions tracker_init;; mret tt.

(** ** Exchanges: what is outstanding for a request *)

(** The HELLO exchanges that are open: outstanding, or with a pending ACK. *)
Definition owners (t : CausalTracker) : gset hello_key :=
  hellos_out t ∪ set_map (fun p : ack_key => p.1.1.1) (ack_pending t).
Definition exchanges (t : CausalTracker) : gset ping_key := pings_out t ∪ pong_pending t.

Definition same_hello (k k' : hello_key) : Prop := k.1.2 = k'.1.2 /\ k.2 = k'.2.
Definition same_ping (k k' : ping_key) : Prop := k.1.1.2 = k'.1.1.2 /\ k.1.2 = k'.1.2.

(** At most one open exchange per (responder, request id). *)
Definition causal_inv (t : CausalTracker) : Prop :=
  (forall k k', k ∈ owners t -> k' ∈ owners t -> same_hello k k' -> k = k') /\
  (forall k k', k ∈ exchanges t -> k' ∈ exchanges t -> same_ping k k' -> k = k').

(** How one operation may change the tracker: it may open [hello] and [ping],
    which supersede the open exchanges of the same request, and close others. *)
Record evolves (hello : option hello_key) (ping : option ping_key) (t t' : CausalTracker) : Prop := {
  ev_owners : forall k, k ∈ owners t' ->
    hello = Some k \/ k ∈ owners t /\ forall k0, hello = Some k0 -> ~ same_hello k k0;
  ev_exchanges : forall k, k ∈ exchanges t' ->
    ping = Some k \/ k ∈ exchanges t /\ forall k0, ping = Some k0 -> ~ same_ping k k0;
  ev_delivered : forall k, k ∈ delivered_ack_to_origin t' -> k ∈ delivered_ack_to_origin t \/ k ∈ owners t;
  ev_active : forall p, p ∈ handshake_active t' -> p ∈ handshake_active t \/ exists k, k ∈ owners t /\ k.1.2 = p
}.

Lemma owners_spec t k :
  k ∈ owners t <-> k ∈ hellos_out t \/ exists r g c, (k, r, g, c) ∈ ack_pending t.
Proof.
  unfold owners. rewrite elem_of_union, elem_of_map. split.
  - intros [H | ([[[k' r] g] c] & -> & H)]; [by left|]. right. by exists r, g, c.
  - intros [H | (r & g & c & H)]; [by left|]. right. by exists (k, r, g, c).
Qed.

Lemma hellos_to_spec p req t l : hellos_to p req t = l ->
  forall k, k ∈ l <-> k ∈ hellos_out t /\ k.1.2 = p /\ k.2 = req.
Proof. intros <- k. unfold hellos_to. rewrite elem_of_elements, elem_of_filter. tauto. Qed.

Lemma pings_to_spec p req tok s l : pings_to p req tok s = l ->
  forall k, k ∈ l <-> k ∈ s /\ k.1.1.2 = p /\ k.1.2 = req /\ k.2 = tok.
Proof. intros <- k. unfold pings_to. rewrite elem_of_elements, elem_of_filter. tauto. Qed.

Lemma evolves_refl t : evolves None None t t.
Proof. split; intros k Hk; auto; right; by split. Qed.
#[export] Hint Resolve evolves_refl : ninlil.

Lemma evolves_inv h p t t' : evolves h p t t' -> causal_inv t -> causal_inv t'.
Proof.
  intros [Ho He _ _] [H1 H2]. split; intros k k' Hk Hk' Hs.
  - destruct (Ho k Hk) as [Ek | [Ok Hn]], (Ho k' Hk') as [Ek' | [Ok' Hn']]; [congruence | | | by apply H1].
    + destruct (Hn' k Ek). destruct Hs. by split.
    + by destruct (Hn k' Ek').
  - destruct (He k Hk) as [Ek | [Ok Hn]], (He k' Hk') as [Ek' | [Ok' Hn']]; [congruence | | | by apply H2].
    + destruct (Hn' k Ek). destruct Hs. by split.
    + by destruct (Hn k' Ek').
Qed.

(** [by_sets] unfolds the attribute assignments and decides the memberships. *)
Ltac by_sets :=
  cbn [set_hellos set_pings set_acks set_pongs set_delivered set_active set_session set_pre_fence activate
       hellos_out pings_out ack_pending pong_pending delivered_ack_to_origin handshake_active
       session_pair pre_fence drop_acks] in *.

(** An operation that opens nothing and whose open exchanges can only shrink. *)
Lemma evolves_shrink t t' :
  (forall k, k ∈ owners t' -> k ∈ owners t) -> (forall k, k ∈ exchanges t' -> k ∈ exchanges t) ->
  (forall k, k ∈ delivered_ack_to_origin t' -> k ∈ delivered_ack_to_origin t \/ k ∈ owners t) ->
  (forall p, p ∈ handshake_active t' -> p ∈ handshake_active t \/ exists k, k ∈ owners t /\ k.1.2 = p) ->
  evolves None None t t'.
Proof. intros H1 H2 H3 H4. split; auto; intros k Hk; right; (split; [auto | done]). Qed.

Lemma add_hello_evolves o r q t : evolves (Some (o, r, q)) None t (_add_hello_outstanding o r q t).
Proof.
  unfold _add_hello_outstanding. split; by_sets; auto.
  - intros k. rewrite !owners_spec. cbn. rewrite elem_of_union, elem_of_singleton, elem_of_filter.
    setoid_rewrite elem_of_filter. cbn. intros [[-> | [Hn Hk]] | (x & g & c & Hn & Hk)]; [by left|right..];
      (split; [eauto | intros ? [= <-]; exact Hn]).
  - intros k Hk. right. by split.
Qed.

Lemma add_ping_evolves o r q tok t : evolves None (Some (o, r, q, tok)) t (_add_ping_outstanding o r q tok t).
Proof.
  unfold _add_ping_outstanding. split; by_sets; auto.
  - intros k Hk. right. by split.
  - intros k. unfold exchanges. cbn. rewrite !elem_of_union, elem_of_singleton, !elem_of_filter. cbn.
    intros [[-> | [Hn Hk]] | [Hn Hk]]; [by left|right..]; (split; [auto | intros ? [= <-]; exact Hn]).
Qed.

Lemma refuse_Ok enforce msg t t' : refuse enforce msg t = Ok t' -> t' = t /\ enforce = false.
Proof. destruct enforce; cbn; naive_solver. Qed.

(** [shrink] proves [evolves None None] when the sets are built from parts of the
    old ones and keys known to be open. *)
Ltac shrink :=
  apply evolves_shrink; intros ?; rewrite ?owners_spec; unfold exchanges; by_sets;
  repeat setoid_rewrite elem_of_union; repeat setoid_rewrite elem_of_difference;
  repeat setoid_rewrite elem_of_singleton; repeat setoid_rewrite elem_of_filter; repeat setoid_rewrite owners_spec;
  naive_solver.

Lemma inject_ack_evolves enf dest src f t t' : inject_ack enf dest src f t = Ok t' -> evolves None None t t'.
Proof.
  unfold inject_ack. destruct (_ || _); [intros [-> _]%refuse_Ok; auto with ninlil|].
  destruct (bool_decide _) eqn:E; cbn [negb]; [|intros [-> _]%refuse_Ok; auto with ninlil].
  bool_to_prop. unfold drop_acks. destruct (_ =? _); intros [= <-]; shrink.
Qed.

Lemma inject_pong_evolves enf dest src req n t t' :
  inject_pong enf dest src req n t = Ok t' -> evolves None None t t'.
Proof.
  unfold inject_pong. destruct (_ || _); [intros [-> _]%refuse_Ok; auto with ninlil|].
  intros H. inv_res. destruct (_ <? _); inv_res; auto with ninlil.
  destruct (bool_decide _) eqn:Ek; cbn [negb] in H; [|apply refuse_Ok in H as [-> _]; auto with ninlil].
  inv_res. shrink.
Qed.

Lemma single_hello p req t k : hellos_to p req t = [k] -> k ∈ hellos_out t /\ k.1.2 = p /\ k.2 = req.
Proof. intros E. apply (hellos_to_spec _ _ _ _ E). set_solver. Qed.
Lemma single_ping p req tok s k :
  pings_to p req tok s = [k] -> k ∈ s /\ k.1.1.2 = p /\ k.1.2 = req /\ k.2 = tok.
Proof. intros E. apply (pings_to_spec _ _ _ _ _ E). set_solver. Qed.

Lemma ack_tx_evolves enf peer n t t' : _observe_ack_tx enf peer n t = Ok t' -> evolves None None t t'.
Proof.
  unfold _observe_ack_tx. destruct (negb _); [intros [-> _]%refuse_Ok; auto with ninlil|].
  intros H. inv_res. destruct (hellos_to _ _ _) as [|k [|k2 l]] eqn:El;
    [apply refuse_Ok in H as [-> _]; auto with ninlil | | apply refuse_Ok in H as [-> _]; auto with ninlil].
  apply single_hello in El as (Hk & Hp & _). unfold drop_acks in H. inv_res.
  destruct (_ =? _); inv_res; shrink.
Qed.

Lemma pong_tx_evolves enf peer n t t' : _observe_pong_tx enf peer n t = Ok t' -> evolves None None t t'.
Proof.
  unfold _observe_pong_tx. destruct (negb _); [intros [-> _]%refuse_Ok; auto with ninlil|].
  intros H. inv_res. destruct (pings_to _ _ _ _) as [|k [|k2 l]] eqn:El;
    [apply refuse_Ok in H as [-> _]; auto with ninlil | | apply refuse_Ok in H as [-> _]; auto with ninlil].
  apply single_ping in El as (Hk & _). inv_res. shrink.
Qed.

Lemma ctrl_error_same enf peer n t t' : _observe_ctrl_error enf peer n t = Ok t' -> t' = t.
Proof.
  unfold _observe_ctrl_error. destruct (negb enf); [naive_solver|]. intros H. inv_res.
  destruct (if truthy peer then _ else _); inv_res; done.
Qed.

Lemma reset_tx_evolves enf peer n t t' : _observe_reset_tx enf peer n t = Ok t' -> evolves None None t t'.
Proof.
  unfold _observe_reset_tx. destruct (negb enf); [intros [= <-]; auto with ninlil|]. intros H. inv_res.
  destruct (session_pair t !! _); [inv_res; shrink|]. destruct (pre_fence t !! _); inv_res; auto with ninlil.
Qed.

Lemma deliver_ack_evolves enf frm to l t t' :
  (forall p, p ∈ l -> p.1.1.1 ∈ owners t) -> deliver_ack enf frm to l t = Ok t' -> evolves None None t t'.
Proof.
  unfold deliver_ack. intros Hl H. destruct l as [|[[[[[o r] q] x] g] c] [|p2 l]];
    [apply refuse_Ok in H as [-> _]; auto with ninlil | | apply refuse_Ok in H as [-> _]; auto with ninlil].
  specialize (Hl _ (list_elem_of_here _ _)). cbn in Hl.
  destruct (bool_decide _); cbn [negb] in H; [|apply refuse_Ok in H as [-> _]; auto with ninlil].
  destruct (bool_decide _); cbn [negb] in H; [|apply refuse_Ok in H as [-> _]; auto with ninlil].
  apply owners_spec in Hl. destruct (_ =? _); inv_res; shrink.
Qed.

Lemma evolves_trans t1 t2 t3 :
  evolves None None t1 t2 -> evolves None None t2 t3 -> evolves None None t1 t3.
Proof.
  intros [A1 A2 A3 A4] [B1 B2 B3 B4].
  assert (Ho : forall k, k ∈ owners t2 -> k ∈ owners t1) by (intros k Hk; destruct (A1 k Hk); naive_solver).
  apply evolves_shrink.
  - intros k Hk. destruct (B1 k Hk); naive_solver.
  - intros k Hk. destruct (B2 k Hk) as [|[Hk2 _]]; [done|]. destruct (A2 k Hk2); naive_solver.
  - intros k Hk. destruct (B3 k Hk); naive_solver.
  - intros p Hp. destruct (B4 p Hp) as [|(k & ? & ?)]; [auto|]. right. exists k. auto.
Qed.

Lemma forward_ack_evolves enf frm to n t t' : forward_ack enf frm to n t = Ok t' -> evolves None None t t'.
Proof.
  unfold forward_ack. intros H. inv_res.
  match type of H with match ?ms with _ => _ end = _ => destruct ms as [|p l] eqn:El end.
  - destruct (hellos_to frm a t) as [|k [|k2 l]] eqn:Eh;
      [apply refuse_Ok in H as [-> _]; auto with ninlil | | apply refuse_Ok in H as [-> _]; auto with ninlil].
    apply single_hello in Eh as (Hk & Hp & _).
    match type of H with deliver_ack _ _ _ _ ?t1 = _ => apply (evolves_trans _ t1) end.
    + destruct (_ =? _); shrink.
    + eapply deliver_ack_evolves; [|exact H]. intros p ->%list_elem_of_singleton. cbn.
      apply owners_spec. left. by destruct (_ =? _).
  - eapply deliver_ack_evolves; [|exact H]. intros q Hq. rewrite <- El in Hq.
    apply elem_of_elements, elem_of_filter in Hq as [_ Hq]. apply owners_spec. right.
    destruct q as [[[k x] g] c]. by exists x, g, c.
Qed.

Lemma deliver_pong_evolves enf to l t t' : deliver_pong enf to l t = Ok t' -> evolves None None t t'.
Proof.
  unfold deliver_pong. intros H. destruct l as [|[[[o r] q] x] [|p2 l]];
    [apply refuse_Ok in H as [-> _]; auto with ninlil | | apply refuse_Ok in H as [-> _]; auto with ninlil].
  destruct (bool_decide _); cbn [negb] in H; [|apply refuse_Ok in H as [-> _]; auto with ninlil].
  inv_res. shrink.
Qed.

Lemma forward_pong_evolves enf frm to n t t' : forward_pong enf frm to n t = Ok t' -> evolves None None t t'.
Proof.
  unfold forward_pong. intros H. inv_res.
  destruct (pings_to frm a a0 (pong_pending t)) as [|p l]; [|by apply deliver_pong_evolves in H].
  destruct (pings_to frm a a0 (pings_out t)) as [|k [|k2 l]] eqn:Eh;
    [by apply deliver_pong_evolves in H | | apply refuse_Ok in H as [-> _]; auto with ninlil].
  apply single_ping in Eh as (Hk & _).
  match type of H with deliver_pong _ _ _ ?t1 = _ => apply (evolves_trans _ t1) end;
    [shrink | by apply deliver_pong_evolves in H].
Qed.

(** ** What an action opens *)

Definition inject_source (a : action) : option string :=
  por (a_frm a) (por (a_from a) (por (a_src a) (por (a_source a) (a_origin a)))).

(** The action delivers a HELLO: an injected frame, or a forwarded one. *)
Definition opens_hello (a : action) (k : hello_key) : Prop :=
  (is_op a "inject" = true /\ exists n, ncl1 a = Some n /\ int_or (msg_type n) (-1) = MSG_HELLO /\
     k = (default ""%string (inject_source a), default ""%string (action_deliver_peer a), int_or (request_id n) 0)) \/
  (is_op a "forward" = true /\ exists tx n, action_tx a = Some tx /\ validate_tx_desc tx = Ok n /\
     n !! "message_type"%string = Some MSG_HELLO /\ action_tx_peer a = Some k.1.1 /\
     action_deliver_peer a = Some k.1.2 /\ n !! "request_id"%string = Some k.2).

Definition grows (a : action) (t t' : CausalTracker) : Prop :=
  exists h p, evolves h p t t' /\ forall k, h = Some k -> opens_hello a k.

Lemma grows_none a t t' : evolves None None t t' -> grows a t t'.
Proof. intros H. by exists None, None. Qed.

Lemma inject_grows enf a t t' : is_op a "inject" = true -> _observe_inject enf a t = Ok t' -> grows a t t'.
Proof.
  unfold _observe_inject. intros Hop H. destruct (ncl1 a) as [n|] eqn:En; [|inv_res; auto using grows_none with ninlil].
  cbv zeta in H. fold (inject_source a) in H.
  destruct (_ && _) eqn:E1 in H.
  { inv_res. apply andb_true_iff in E1 as [E1 _]. apply Z.eqb_eq in E1. eexists _, _. split; [apply add_hello_evolves|].
    intros k [= <-]. left. split; [done|]. by exists n. }
  destruct (_ && _) in H.
  { inv_res. destruct (_ <=? _); inv_res; [|auto using grows_none with ninlil].
    eexists None, _. split; [apply add_ping_evolves | done]. }
  apply grows_none. destruct (_ =? _) in H.
  { inv_res. destruct a0; inv_res; auto with ninlil. by eapply inject_ack_evolves. }
  destruct (_ =? _) in H; [by eapply inject_pong_evolves | inv_res; auto with ninlil].
Qed.

Lemma observe_step_evolves enf peer n t t' : observe_step enf peer n t = Ok t' -> evolves None None t t'.
Proof.
  unfold observe_step. intros H. inv_res.
  repeat (destruct (_ =? _) in H;
    [first [by eapply ack_tx_evolves | by eapply pong_tx_evolves | by eapply reset_tx_evolves
           | apply ctrl_error_same in H as ->; auto with ninlil]|]).
  inv_res. auto with ninlil.
Qed.

Lemma getitem_Ok n k v : getitem n k = Ok v <-> n !! k = Some v.
Proof. unfold getitem. destruct (n !! k); naive_solver. Qed.

Lemma forward_grows enf a tx n frm to t t' :
  is_op a "forward" = true -> action_tx a = Some tx -> validate_tx_desc tx = Ok n ->
  action_tx_peer a = Some frm -> action_deliver_peer a = Some to ->
  _observe_forward_delivery enf frm to n t = Ok t' -> grows a t t'.
Proof.
  unfold _observe_forward_delivery. intros Hop Htx Hv Hf Ht H. inv_res. apply getitem_Ok in E.
  destruct (_ =? MSG_HELLO) eqn:Em.
  { inv_res. apply Z.eqb_eq in Em as ->. rewrite getitem_Ok in *. eexists _, None. split; [apply add_hello_evolves|].
    intros k [= <-]. right. split; [done|]. by exists tx, n. }
  destruct (_ =? MSG_PING) in H.
  { inv_res. eexists None, _. split; [apply add_ping_evolves|]. done. }
  apply grows_none. destruct (_ =? MSG_HELLO_ACK) in H; [by eapply forward_ack_evolves|].
  destruct (_ =? MSG_PONG) in H; [by eapply forward_pong_evolves | inv_res; auto with ninlil].
Qed.

(** Trackers that differ at most in their session pairs. *)
Definition same_sets (t t' : CausalTracker) : Prop :=
  hellos_out t = hellos_out t' /\ pings_out t = pings_out t' /\ ack_pending t = ack_pending t' /\
  pong_pending t = pong_pending t' /\ delivered_ack_to_origin t = delivered_ack_to_origin t' /\
  handshake_active t = handshake_active t'.

#[export] Instance same_sets_equivalence : Equivalence same_sets.
Proof. split; unfold same_sets; intros ?; intuition congruence. Qed.

#[export] Instance owners_proper : Proper (same_sets ==> eq) owners.
Proof. intros t t' (H1 & _ & H3 & _). unfold owners. by rewrite H1, H3. Qed.
#[export] Instance exchanges_proper : Proper (same_sets ==> eq) exchanges.
Proof. intros t t' (_ & H2 & _ & H4 & _). unfold exchanges. by rewrite H2, H4. Qed.
#[export] Instance delivered_proper : Proper (same_sets ==> eq) delivered_ack_to_origin.
Proof. by intros t t' (_ & _ & _ & _ & H5 & _). Qed.
#[export] Instance active_proper : Proper (same_sets ==> eq) handshake_active.
Proof. by intros t t' (_ & _ & _ & _ & _ & H6). Qed.

#[export] Instance evolves_proper h p : Proper (same_sets ==> same_sets ==> iff) (evolves h p).
Proof.
  assert (H : forall t1 t2 u1 u2, same_sets t1 t2 -> same_sets u1 u2 -> evolves h p t1 u1 -> evolves h p t2 u2).
  { intros t1 t2 u1 u2 E F [H1 H2 H3 H4].
    rewrite (owners_proper _ _ E), (owners_proper _ _ F) in H1.
    rewrite (exchanges_proper _ _ E), (exchanges_proper _ _ F) in H2.
    rewrite (owners_proper _ _ E), (delivered_proper _ _ E), (delivered_proper _ _ F) in H3.
    rewrite (owners_proper _ _ E), (active_proper _ _ E), (active_proper _ _ F) in H4. by split. }
  intros t1 t2 E u1 u2 F. split; apply H; done.
Qed.
#[export] Instance grows_proper a : Proper (same_sets ==> same_sets ==> iff) (grows a).
Proof.
  intros t1 t2 E u1 u2 F. unfold grows.
  split; intros (h & p & H & Hh); exists h, p; (split; [|done]); [by rewrite <- E, <- F | by rewrite E, F].
Qed.
#[export] Instance causal_inv_proper : Proper (same_sets ==> iff) causal_inv.
Proof.
  intros t1 t2 E. pose proof (owners_proper _ _ E) as H1. pose proof (exchanges_proper _ _ E) as H2.
  unfold causal_inv. by rewrite H1, H2.
Qed.

Lemma fence_same p t : same_sets (_fence_peer p t) t.
Proof. unfold _fence_peer. by destruct (_ !! _). Qed.

Lemma track_same a peer exp t : same_sets (_track_state_transition a peer exp t) t.
Proof.
  unfold _track_state_transition. destruct peer; [|done]. destruct (_ || _); [done|].
  destruct (exp_state exp); [|done]. destruct (negb _); [apply fence_same | done].
Qed.

(** The operations run with an iteration order that lists exactly the set. *)
Section Runs.
Context (ord : iteration) (Hord : forall X, ord X ≡ₚ elements X).

Lemma first_of_spec p l k : first_of p l = Some k -> k ∈ l /\ k.1.1 = p.
Proof.
  induction l as [|x l IH]; [done|]. cbn. destruct (bool_decide _) eqn:E.
  - intros [= ->]. bool_to_prop. split; [apply list_elem_of_here | done].
  - intros H. destruct (IH H). split; [by apply list_elem_of_further | done].
Qed.

Lemma first_of_None p l : first_of p l = None <-> forall k, k ∈ l -> k.1.1 <> p.
Proof.
  induction l as [|x l IH]; cbn; [set_solver|]. destruct (bool_decide _) eqn:E; bool_to_prop.
  - split; [done|]. intros H. destruct (H x); [apply list_elem_of_here | done].
  - rewrite IH. set_solver.
Qed.

(** The step that settles an action may only add an origin whose ACK was delivered. *)
Definition settled (t t' : CausalTracker) : Prop :=
  exists v, same_sets t' (set_active v t) /\
    forall p, p ∈ v -> p ∈ handshake_active t \/ exists k, k ∈ delivered_ack_to_origin t /\ k.1.1 = p.

Lemma settled_same t t' : same_sets t' t -> settled t t'.
Proof. intros H. exists (handshake_active t). split; [by destruct t | auto]. Qed.

Lemma maybe_settled a peer exp t : settled t (_maybe_origin_active_from_step ord a peer exp t).
Proof using Hord.
  unfold _maybe_origin_active_from_step. destruct (_ || _); [by apply settled_same|].
  destruct (negb _); [by apply settled_same|].
  destruct (first_of _ _) as [[[o r] q]|] eqn:E; [|by apply settled_same].
  apply first_of_spec in E as [Hk Ho]. rewrite Hord, elem_of_elements in Hk. cbn in Ho.
  exists ({[ default ""%string peer ]} ∪ handshake_active t). split.
  - destruct (_ !! r), (active_generation exp), (active_cookie exp); done.
  - intros p [->%elem_of_singleton | Hp]%elem_of_union; [right; by exists (o, r, q) | by left].
Qed.

Lemma settle_settled a t : settled t (settle ord a t).
Proof using Hord.
  unfold settle. cbv zeta.
  destruct (maybe_settled a (action_tx_peer a) (expect a) (_track_state_transition a (action_tx_peer a) (expect a) t))
    as (v & E & Hv).
  pose proof (track_same a (action_tx_peer a) (expect a) t) as Ht.
  exists v. split.
  - rewrite E. destruct Ht as (? & ? & ? & ? & ? & ?). repeat split; by_sets; done.
  - by rewrite (active_proper _ _ Ht), (delivered_proper _ _ Ht) in Hv.
Qed.

Lemma one_op a x y : is_op a x = true -> String.eqb x y = false -> is_op a y = false.
Proof.
  unfold is_op. intros Hx Hy%String.eqb_neq. bool_to_prop. apply bool_decide_eq_false. congruence.
Qed.

(** One observed action: it opens at most its own exchange, then settles. *)
Lemma observe_shape enf a t t' :
  observe ord enf a t = Ok t' -> exists t1, grows a t t1 /\ settled t1 t'.
Proof using Hord.
  unfold observe. destruct (bool_decide _).
  { intros [= <-]. exists t. split; [apply grows_none, evolves_refl | by apply settled_same]. }
  intros H. inv_res. rename a0 into t1.
  set (t2 := if _ && _ then _ else t1) in H.
  assert (H2 : same_sets t2 t1) by (subst t2; destruct (_ && _); [apply fence_same | done]). clearbody t2.
  assert (G : grows a t t2).
  { rewrite H2. destruct (is_op a "inject") eqn:Hop; [by eapply inject_grows | inv_res; apply grows_none, evolves_refl]. }
  destruct (action_tx a) as [tx|] eqn:Htx; [|inv_res; exists t2; split; [done | apply settle_settled]].
  destruct (validate_tx_desc tx) as [n|e] eqn:Hv.
  2:{ destruct e; try discriminate. destruct enf; inv_res. exists t'. split; [done | by apply settled_same]. }
  inv_res. exists a1. split; [|apply settle_settled].
  destruct (is_op a "inject") eqn:Hi.
  { rewrite (one_op _ _ "step" Hi eq_refl) in E0. rewrite (one_op _ _ "forward" Hi eq_refl) in E1. by inv_res. }
  inv_res. rewrite <- H2.
  destruct (is_op a "step") eqn:Hs.
  { rewrite (one_op _ _ "forward" Hs eq_refl) in E1. inv_res. eapply grows_none, observe_step_evolves, E0. }
  inv_res. destruct (is_op a "forward") eqn:Hf; [|inv_res; apply grows_none, evolves_refl].
  destruct (action_deliver_peer a) as [to|] eqn:Hto, (action_tx_peer a) as [frm|] eqn:Hfrm;
    [by eapply forward_grows | inv_res; apply grows_none, evolves_refl ..].
Qed.

(** ** Reachable trackers *)

Definition delivers (l : list action) (k : hello_key) : Prop := exists a, a ∈ l /\ opens_hello a k.

(** Everything a tracker knows stems from a HELLO delivered in the run. *)
Definition caused (l : list action) (t : CausalTracker) : Prop :=
  (forall k, k ∈ owners t \/ k ∈ delivered_ack_to_origin t -> delivers l k) /\
  (forall p, p ∈ handshake_active t -> exists k, delivers l k /\ (k.1.1 = p \/ k.1.2 = p)).

Lemma settled_inv t t' : settled t t' -> causal_inv t -> causal_inv t'.
Proof. intros (v & E & _) H. rewrite E. exact H. Qed.

Lemma settled_caused l t t' : settled t t' -> caused l t -> caused l t'.
Proof.
  intros (v & E & Hv) [H1 H2]. split.
  - intros k. rewrite (owners_proper _ _ E), (delivered_proper _ _ E). apply H1.
  - intros p. rewrite (active_proper _ _ E). cbn. intros [Hp | (k & Hk & Hp)]%Hv; [by apply H2|].
    exists k. split; [apply H1; by right | by left].
Qed.

Lemma grows_caused l a t t' : grows a t t' -> caused l t -> caused (l ++ [a]) t'.
Proof.
  intros (h & p & [Ho _ Hd Ha] & Hh) [H1 H2].
  assert (Hl : forall k, delivers l k -> delivers (l ++ [a]) k).
  { intros k (x & Hx & Hk). exists x. split; [apply elem_of_app; by left | done]. }
  split.
  - intros k [Hk | Hk].
    + destruct (Ho k Hk) as [E | [Hk' _]]; [|auto].
      exists a. split; [apply elem_of_app; right; apply list_elem_of_singleton; done | by apply Hh].
    + apply Hl, H1. destruct (Hd k Hk); auto.
  - intros q Hq. destruct (Ha q Hq) as [Hq' | (k & Hk & <-)].
    + destruct (H2 q Hq') as (k & ? & ?). exists k. auto.
    + exists k. split; [apply Hl, H1; by left | by right].
Qed.

Lemma observe_all_app enf l1 l2 t :
  observe_all ord enf (l1 ++ l2) t = (t1 ← observe_all ord enf l1 t; observe_all ord enf l2 t1).
Proof.
  revert t. induction l1 as [|a l1 IH]; intros t; [done|]. cbn.
  destruct (observe ord enf a t); cbn; [apply IH | done].
Qed.

Lemma observe_all_inv enf l t :
  observe_all ord enf l tracker_init = Ok t -> causal_inv t /\ caused l t.
Proof using Hord.
  revert t. induction l as [|a l IH] using rev_ind; intros t H.
  - inv_res. split; split; unfold owners, exchanges; cbn; set_solver.
  - rewrite observe_all_app in H. inv_res. cbn in H. inv_res. destruct (IH _ E) as [Hi Hc].
    destruct (observe_shape _ _ _ _ E0) as (t1 & G & S). split.
    + eapply settled_inv; [exact S|]. destruct G as (h & p & G & _). by eapply evolves_inv.
    + eapply settled_caused; [exact S|]. by eapply grows_caused.
Qed.
End Runs.

(** ** Errors the tracker cannot raise *)

Definition ambiguity_errors : list exn := map RuntimeError
  ["ambiguous HELLO outstanding for responder"; "ambiguous PING outstanding for responder";
   "ambiguous HELLO for ACK forward"; "ambiguous pending ACK for forward";
   "ambiguous PING for PONG forward"; "ambiguous pending PONG"; "HELLO_ACK source must equal responder"]%string.

(** [not_listed] refutes that a concrete error is one of them. *)
Ltac not_listed := intros Hlist; unfold ambiguity_errors in Hlist; cbn [map] in Hlist;
  repeat (apply elem_of_cons in Hlist as [Hlist | Hlist]; [discriminate Hlist|]); by apply elem_of_nil in Hlist.

Lemma refuse_Raise enf msg t e : refuse enf msg t = Raise e -> e = RuntimeError msg.
Proof. destruct enf; cbn; naive_solver. Qed.

Lemma require_int_errors d k lo hi e : _require_int d k lo hi = Raise e -> e ∉ ambiguity_errors.
Proof.
  unfold _require_int. destruct (d !! k) as [[]|]; intros H; inv_raise; not_listed.
Qed.

Lemma validate_errors d e : validate_tx_desc d = Raise e -> e ∉ ambiguity_errors.
Proof.
  unfold validate_tx_desc, require_keys. intros H. inv_raise; try not_listed; try (by eapply require_int_errors).
  destruct (assoc _ TX_MSG_REQUIRED); [|inv_raise; not_listed].
  destruct (assoc _ FT_MSG_BINDING); [|inv_raise; not_listed].
  inv_raise; try not_listed; try (by eapply require_int_errors).
  all: unfold validate_hello, validate_hello_ack, validate_ping_pong, validate_reset, validate_ctrl_error in H;
    inv_raise; try not_listed; by eapply require_int_errors.
Qed.

Lemma getitem_errors n k e : getitem n k = Raise e -> e ∉ ambiguity_errors.
Proof. unfold getitem. destruct (n !! k); intros H; inv_raise. unfold ambiguity_errors. set_solver. Qed.

Lemma from_hex_errors s e : from_hex s = Raise e -> e ∉ ambiguity_errors.
Proof.
  unfold from_hex. generalize (String.list_ascii_of_string s). intros l. revert e.
  induction l as [l IH] using (induction_ltof1 _ length); intros e H. destruct l as [|x l]; [discriminate|].
  cbn in H. destruct (is_space x); [apply (IH l); [unfold ltof; cbn; lia | done]|].
  destruct l as [|y l]; [inv_raise; not_listed|].
  destruct (hex_val x), (hex_val y); inv_raise; try not_listed.
  apply (IH l); [unfold ltof; cbn; lia | done].
Qed.

(** [plain_error] closes the failures that are not about ambiguity. *)
Ltac plain_error :=
  match goal with
  | H : refuse _ _ _ = Raise _ |- _ => apply refuse_Raise in H; subst; not_listed
  | H : getitem _ _ = Raise _ |- _ => by eapply getitem_errors
  | H : from_hex _ = Raise _ |- _ => by eapply from_hex_errors
  | H : Ok _ = Raise _ |- _ => discriminate H
  | |- _ => not_listed
  end.

(** Two selected tuples of the same request contradict the invariant. *)
Lemma NoDup_two {A} (k1 k2 : A) l : NoDup (k1 :: k2 :: l) -> k1 = k2 -> False.
Proof. intros H%NoDup_cons ->. destruct H as [H _]. apply H. apply list_elem_of_here. Qed.

Lemma hellos_to_two p req t k1 k2 l : causal_inv t -> hellos_to p req t = k1 :: k2 :: l -> False.
Proof.
  intros [Hi _] E. pose proof (hellos_to_spec _ _ _ _ E) as Hs.
  assert (Hn : NoDup (k1 :: k2 :: l)) by (rewrite <- E; apply NoDup_elements).
  apply (NoDup_two _ _ _ Hn).
  destruct (proj1 (Hs k1)) as (? & ? & ?); [set_solver|]. destruct (proj1 (Hs k2)) as (? & ? & ?); [set_solver|].
  apply Hi; [apply owners_spec; by left.. | split; congruence].
Qed.

Lemma pings_to_two p req tok s t k1 k2 l :
  causal_inv t -> s ⊆ exchanges t -> pings_to p req tok s = k1 :: k2 :: l -> False.
Proof.
  intros [_ Hi] Hsub E. pose proof (pings_to_spec _ _ _ _ _ E) as Hs.
  assert (Hn : NoDup (k1 :: k2 :: l)) by (rewrite <- E; apply NoDup_elements).
  apply (NoDup_two _ _ _ Hn).
  destruct (proj1 (Hs k1)) as (? & ? & ? & ?); [set_solver|]. destruct (proj1 (Hs k2)) as (? & ? & ? & ?); [set_solver|].
  apply Hi; [by apply Hsub.. | split; congruence].
Qed.

Lemma inject_errors enf a t e : _observe_inject enf a t = Raise e -> e ∉ ambiguity_errors.
Proof.
  unfold _observe_inject. destruct (ncl1 a) as [n|]; [|discriminate]. cbv zeta.
  unfold inject_ack, inject_pong, _inject_hello_ack_fields. intros H. inv_raise; try plain_error.
  destruct a0; inv_raise; plain_error.
Qed.

Lemma step_errors enf peer n t e :
  causal_inv t -> observe_step enf peer n t = Raise e -> e ∉ ambiguity_errors.
Proof.
  intros Hi. unfold observe_step, _observe_ack_tx, _observe_pong_tx, _observe_ctrl_error, _observe_reset_tx.
  intros H. inv_raise; try plain_error.
  - destruct (hellos_to _ _ _) as [|k [|k2 l]] eqn:El; inv_raise; try plain_error.
    by destruct (hellos_to_two _ _ _ _ _ _ Hi El).
  - destruct (pings_to _ _ _ _) as [|k [|k2 l]] eqn:El; inv_raise; try plain_error.
    eapply pings_to_two in El; [done | exact Hi | unfold exchanges; set_solver].
  - destruct (if truthy peer then _ else _); inv_raise; plain_error.
  - destruct (session_pair t !! _); [inv_raise; plain_error|]. destruct (pre_fence t !! _); inv_raise; plain_error.
Qed.

Lemma deliver_ack_errors enf frm to l t e :
  (forall p, p ∈ l -> p.1.1.1.1.2 = frm) -> (forall p q, p ∈ l -> q ∈ l -> p = q) -> NoDup l ->
  deliver_ack enf frm to l t = Raise e -> e ∉ ambiguity_errors.
Proof.
  intros Hf Hu Hn. unfold deliver_ack. destruct l as [|[[[[[o r] q] x] g] c] [|p2 l]]; intros H; [plain_error| |].
  - assert (r = frm) as -> by (apply (Hf (o, r, q, x, g, c)), list_elem_of_singleton; done).
    rewrite bool_decide_true in H by done. cbn in H. inv_raise; plain_error.
  - destruct (NoDup_two _ _ _ Hn). apply Hu; set_solver.
Qed.

Lemma forward_errors enf frm to n t e :
  causal_inv t -> _observe_forward_delivery enf frm to n t = Raise e -> e ∉ ambiguity_errors.
Proof.
  intros Hi. unfold _observe_forward_delivery, forward_ack, forward_pong. intros H. inv_raise; try plain_error.
  - match type of H with match ?ms with _ => _ end = _ => destruct ms as [|p l] eqn:El end.
    + destruct (hellos_to _ _ _) as [|k [|k2 l]] eqn:Eh; [cbn in H; plain_error | | by destruct (hellos_to_two _ _ _ _ _ _ Hi Eh)].
      eapply deliver_ack_errors; [| | |exact H]; [| set_solver | apply NoDup_singleton].
      intros p ->%list_elem_of_singleton. by apply single_hello in Eh as (_ & ? & _).
    + assert (Hs : forall q, q ∈ p :: l -> q ∈ ack_pending t /\ q.1.1.1.1.2 = frm /\ q.1.1.1.2 = a0 /\
                  q.1.1.2 = ack_result n /\ q.1.2 = a1 /\ q.2 = a2).
      { intros q Hq. rewrite <- El in Hq. apply elem_of_elements, elem_of_filter in Hq. tauto. }
      eapply deliver_ack_errors; [| | |exact H]; [intros q Hq; apply (Hs q Hq) | | rewrite <- El; apply NoDup_elements].
      intros [[[k x] g] c] [[[k' x'] g'] c'] Hq Hq'.
      destruct (Hs _ Hq) as (M & A1 & A2 & A3 & A4 & A5), (Hs _ Hq') as (M' & B1 & B2 & B3 & B4 & B5). cbn in *.
      assert (k = k') as <-; [|congruence].
      apply Hi; [apply owners_spec; right; by eauto.. | split; congruence].
  - destruct (pings_to frm a0 a1 (pong_pending t)) as [|k [|k2 l]] eqn:Ep.
    + destruct (pings_to frm a0 a1 (pings_out t)) as [|k [|k2 l]] eqn:Eo; unfold deliver_pong in H; [plain_error| |].
      * destruct k as [[[o r] q] x]. inv_raise; plain_error.
      * eapply pings_to_two in Eo; [done | exact Hi | unfold exchanges; set_solver].
    + unfold deliver_pong in H. destruct k as [[[o r] q] x]. inv_raise; plain_error.
    + eapply pings_to_two in Ep; [done | exact Hi | unfold exchanges; set_solver].
Qed.

Lemma observe_errors ord enf a t e :
  causal_inv t -> observe ord enf a t = Raise e -> e ∉ ambiguity_errors.
Proof.
  intros Hi. unfold observe. destruct (bool_decide _); [discriminate|]. intros H.
  apply bind_Raise in H as [H | (t1 & E & H)].
  { destruct (is_op a "inject"); [by eapply inject_errors | discriminate]. }
  set (t2 := if _ && _ then _ else t1) in H.
  assert (H2 : same_sets t2 t1) by (subst t2; destruct (_ && _); [apply fence_same | done]). clearbody t2.
  assert (Hi2 : causal_inv t2).
  { rewrite H2. destruct (is_op a "inject") eqn:Hop; [|inv_res; done].
    destruct (inject_grows _ _ _ _ Hop E) as (h & p & G & _). by eapply evolves_inv. }
  destruct (action_tx a) as [tx|]; [|discriminate].
  destruct (validate_tx_desc tx) as [n|e'] eqn:Ev.
  2:{ apply validate_errors in Ev. destruct e'; inv_raise; done. }
  apply bind_Raise in H as [H | (t3 & E3 & H)].
  { destruct (is_op a "step"); [by eapply step_errors | discriminate]. }
  apply bind_Raise in H as [H | (t4 & E4 & H)]; [|discriminate].
  destruct (is_op a "forward") eqn:Hf; [|discriminate].
  assert (Hs : is_op a "step" = false) by (by apply (one_op _ "forward")). rewrite Hs in E3. inv_res.
  destruct (action_deliver_peer a), (action_tx_peer a); try discriminate. by eapply forward_errors.
Qed.

(** ** The soft scan follows the enforced one *)

(** [follows f g]: a successful enforced step [f] is matched by the soft step [g]
    on trackers with the same sets. *)
Definition follows (f g : CausalTracker -> res CausalTracker) : Prop :=
  forall t s t', same_sets t s -> f t = Ok t' -> exists s', g s = Ok s' /\ same_sets t' s'.

Lemma follows_bind f1 f2 g1 g2 :
  follows f1 g1 -> follows f2 g2 -> follows (fun t => f1 t ≫= f2) (fun s => g1 s ≫= g2).
Proof.
  intros H1 H2 t s t' Hs E. inv_res. destruct (H1 _ _ _ Hs E0) as (s1 & E1 & Hs1).
  destruct (H2 _ _ _ Hs1 E) as (s2 & E2 & Hs2). exists s2. split; [by rewrite E1 | done].
Qed.

(** [same_fields] reduces trackers with the same sets to one set of sets. *)
Ltac same_fields :=
  intros [h p a0 g d c m f] [h' p' a0' g' d' c' m' f'] t' (E1 & E2 & E3 & E4 & E5 & E6);
  cbn in E1, E2, E3, E4, E5, E6; subst h' p' a0' g' d' c'.

(** [follow] runs both steps along the same branches. *)
Ltac follow :=
  cbv zeta; by_sets;
  repeat (match goal with
  | H : Ok _ = Ok _ |- _ => injection H as <-
  | H : refuse true _ _ = Ok _ |- _ => discriminate H
  | H : Raise _ = Ok _ |- _ => discriminate H
  | H : (if ?c then _ else _) = Ok _ |- _ => lazymatch type of c with bool => destruct c eqn:? end
  | H : (match ?l with _ => _ end) = Ok _ |- _ => destruct l eqn:?
  | H : (_ ≫= _) = Ok _ |- _ =>
      apply bind_Ok in H; let x := fresh "x" in let E := fresh "E" in
      destruct H as (x & E & H); try (rewrite E; rewrite ok_bind)
  end; cbv zeta in *; by_sets); 
  try (eexists; split; [reflexivity | done]).

Lemma soft_inject a : follows (_observe_inject true a) (_observe_inject false a).
Proof. same_fields. unfold _observe_inject, inject_ack, inject_pong, drop_acks. intros H. follow. Qed.

Lemma soft_step peer n : follows (observe_step true peer n) (observe_step false peer n).
Proof.
  same_fields. unfold observe_step, _observe_ack_tx, _observe_pong_tx, _observe_ctrl_error, _observe_reset_tx,
    hellos_to, drop_acks. cbn [negb]. intros H. follow.
Qed.

Lemma soft_deliver_ack frm to l : follows (deliver_ack true frm to l) (deliver_ack false frm to l).
Proof. same_fields. unfold deliver_ack. intros H. follow. Qed.

Lemma soft_deliver_pong to l : follows (deliver_pong true to l) (deliver_pong false to l).
Proof. same_fields. unfold deliver_pong. intros H. follow. Qed.

Lemma soft_forward frm to n :
  follows (_observe_forward_delivery true frm to n) (_observe_forward_delivery false frm to n).
Proof.
  same_fields. unfold _observe_forward_delivery, forward_ack, forward_pong, hellos_to. intros H. follow.
  all: first [eapply soft_deliver_ack | eapply soft_deliver_pong]; [|exact H]; try done.
  by destruct (ack_result n =? HELLO_OK).
Qed.

Lemma soft_settle ord a t s : same_sets t s -> same_sets (settle ord a t) (settle ord a s).
Proof.
  intros H. unfold settle. cbv zeta. set (exp := expect a). set (peer := action_tx_peer a).
  assert (Ht : same_sets (_track_state_transition a peer exp t) (_track_state_transition a peer exp s))
    by (by rewrite !track_same).
  revert Ht. generalize (_track_state_transition a peer exp t) (_track_state_transition a peer exp s).
  intros t1 s1 Ht. unfold _maybe_origin_active_from_step. destruct (_ || _); [done|]. destruct (negb _); [done|].
  rewrite (delivered_proper _ _ Ht). destruct (first_of _ _) as [[[o r] q]|]; [|done].
  assert (Ha : same_sets (set_active ({[default ""%string peer]} ∪ handshake_active t1) t1)
                         (set_active ({[default ""%string peer]} ∪ handshake_active s1) s1)).
  { destruct Ht as (? & ? & ? & ? & ? & E). unfold same_sets. by_sets. by rewrite E. }
  cbn. repeat case_match; exact Ha.
Qed.

Lemma soft_observe ord a : follows (observe ord true a) (observe ord false a).
Proof.
  intros t s t' Hs H. unfold observe in *. destruct (bool_decide _); [inv_res; by exists s|].
  inv_res. assert (Hj : exists s1, (if is_op a "inject" then _observe_inject false a s else Ok s) = Ok s1 /\ same_sets a0 s1).
  { destruct (is_op a "inject"); [by eapply soft_inject | inv_res; by exists s]. }
  destruct Hj as (s1 & -> & Hs1). rewrite ok_bind. cbv zeta in *.
  set (t2 := if _ && _ then _ else a0) in H. set (s2 := if _ && _ then _ else s1).
  assert (Hs2 : same_sets t2 s2) by (subst t2 s2; destruct (_ && _); [by rewrite !fence_same | done]).
  clearbody t2 s2. destruct (action_tx a) as [tx|]; [|inv_res; eexists; split; [done | by apply soft_settle]].
  destruct (validate_tx_desc tx) as [n|e]; [|destruct e; discriminate].
  inv_res. assert (Hst : exists s3, (if is_op a "step" then observe_step false (action_tx_peer a) n s2 else Ok s2) = Ok s3 /\ same_sets a1 s3).
  { destruct (is_op a "step"); [by eapply soft_step | inv_res; by exists s2]. }
  destruct Hst as (s3 & -> & Hs3). rewrite ok_bind.
  assert (Hf : exists s4, (match (if is_op a "forward" then action_deliver_peer a else None), action_tx_peer a with
                 | Some to, Some frm => _observe_forward_delivery false frm to n s3
                 | _, _ => Ok s3 end) = Ok s4 /\ same_sets a2 s4).
  { destruct (if is_op a "forward" then _ else _), (action_tx_peer a);
      [by eapply soft_forward | inv_res; by exists s3 ..]. }
  destruct Hf as (s4 & -> & Hs4). rewrite ok_bind. eexists. split; [done | by apply soft_settle].
Qed.

Lemma soft_observe_all ord l : follows (observe_all ord true l) (observe_all ord false l).
Proof.
  induction l as [|a l IH]; intros t s t' Hs H; [injection H as <-; by exists s|]. cbn in *.
  exact (follows_bind _ _ _ _ (soft_observe ord a) IH t s t' Hs H).
Qed.

(** Settling an action leaves a peer without a session alone, unless it reports ACTIVE. *)
Lemma settle_idle ord a p t :
  action_tx_peer a = Some p -> session_pair t !! p = None -> exp_state (expect a) <> Some ST_ACT -> settle ord a t = t.
Proof.
  intros Hpeer Hp Hs. unfold settle, _track_state_transition, _maybe_origin_active_from_step, _fence_peer.
  rewrite Hpeer, Hp. rewrite (bool_decide_false _ Hs). cbn. repeat case_match; done.
Qed.

(** ** Properties *)

(** C27. No peer is ACTIVE without a handshake: in a run from the empty tracker,
    enforced or not, every peer the tracker reports ACTIVE is an end of a HELLO
    that an action of the run delivered, and every ACK delivered to an origin
    answers such a HELLO. *)
Theorem active_peers_shook_hands ord enf l t :
  (forall X, ord X ≡ₚ elements X) -> observe_all ord enf l tracker_init = Ok t ->
  (forall p, p ∈ handshake_active t ->
     exists a k, a ∈ l /\ opens_hello a k /\ (k.1.1 = p \/ k.1.2 = p)) /\
  (forall k, k ∈ delivered_ack_to_origin t -> exists a, a ∈ l /\ opens_hello a k).
Proof.
  intros Hord H. destruct (observe_all_inv ord Hord _ _ _ H) as [_ [H1 H2]]. split.
  - intros p Hp. destruct (H2 p Hp) as (k & (a & Ha & Hk) & Hor). by exists a, k.
  - intros k Hk. apply H1. by right.
Qed.

(** C26. The tracker never becomes ambiguous: after any successful run there is at
    most one open HELLO and one open PING exchange per responder and request
    id, so no further action can fail with one of the "ambiguous ..." errors
    or with the source mismatch the code also guards against. *)
Theorem tracker_never_ambiguous ord enf l t enf' a e :
  (forall X, ord X ≡ₚ elements X) -> observe_all ord enf l tracker_init = Ok t ->
  causal_inv t /\ (observe ord enf' a t = Raise e -> e ∉ ambiguity_errors).
Proof.
  intros Hord H. destruct (observe_all_inv ord Hord _ _ _ H) as [Hi _]. split; [done|]. by apply observe_errors.
Qed.

(** On a scenario the enforced scan accepts, the soft scan used for the force
    checks succeeds too and reports exactly the same ACTIVE peers. *)
Theorem soft_scan_agrees ord l t :
  observe_all ord true l tracker_init = Ok t -> track_handshake_active ord l = Ok (handshake_active t).
Proof.
  intros H. unfold track_handshake_active.
  destruct (soft_observe_all ord l _ tracker_init _ (reflexivity _) H) as (s & -> & Hs). cbn.
  by rewrite Hs.
Qed.

(** An enforced RESET shows exactly the sender's session pair, or its pair
    from before the fence when it has none, and leaves the sender without a
    session unless the same step reports it ACTIVE again. *)
Theorem reset_uses_own_pair ord a tx n p t t' :
  op a = Some "step"%string -> a_peer a = Some p -> p <> ""%string ->
  action_tx a = Some tx -> validate_tx_desc tx = Ok n -> n !! "message_type"%string = Some MSG_RESET ->
  observe ord true a t = Ok t' ->
  exists gc, n !! "generation"%string = Some gc.1 /\ n !! "session_cookie"%string = Some gc.2 /\
    (session_pair t !! p = Some gc \/ session_pair t !! p = None /\ pre_fence t !! p = Some gc) /\
    (exp_state (expect a) <> Some ST_ACT -> session_pair t' !! p = None /\ pre_fence t' !! p = Some gc).
Proof.
  intros Hop Hp Hne Htx Hv Hmt H. unfold observe in H.
  assert (Ho : forall x, is_op a x = String.eqb x "step").
  { intros x. unfold is_op. rewrite Hop. destruct (String.eqb_spec x "step"); [subst; by apply bool_decide_eq_true|].
    apply bool_decide_eq_false. congruence. }
  replace (bool_decide _) with false in H by (rewrite Hop; reflexivity). cbv iota zeta in H.
  assert (Hpeer : action_tx_peer a = Some p) by (unfold action_tx_peer; by rewrite Ho).
  assert (Ht : truthy (Some p) = true) by (by apply negb_true_iff, String.eqb_neq).
  rewrite !Ho, Hpeer, Htx, Hv in H. cbn [String.eqb Ascii.eqb Bool.eqb andb] in H. cbv beta iota zeta in H.
  rewrite ok_bind in H. cbv beta in H. apply bind_Ok in H as (t1 & Hr & H). rewrite ok_bind in H. injection H as <-.
  unfold observe_step, getitem in Hr. rewrite Hmt in Hr. cbn [mbind res_bind] in Hr.
  cbn [Z.eqb Pos.eqb MSG_RESET MSG_HELLO_ACK MSG_PONG MSG_CTRL_ERROR] in Hr.
  unfold _observe_reset_tx in Hr. rewrite Ht in Hr. cbn [negb default] in Hr. inv_res. rewrite getitem_Ok in *.
  exists (a0, a1). split; [done|]. split; [done|]. unfold id in Hr.
  assert (Hend : session_pair t1 !! p = None /\ pre_fence t1 !! p = Some (a0, a1) -> exp_state (expect a) <> Some ST_ACT ->
            session_pair (settle ord a t1) !! p = None /\ pre_fence (settle ord a t1) !! p = Some (a0, a1)).
  { intros [H1 H2] Hs. by rewrite (settle_idle ord a p t1 Hpeer H1 Hs). }
  destruct (session_pair t !! p) as [gc|] eqn:Es; [|destruct (pre_fence t !! p) as [gc|] eqn:Ef; [|discriminate]];
    inv_res; bool_to_prop; subst; (split; [by auto|]); intros Hs; apply Hend; try done.
  cbn. by rewrite lookup_delete_eq, lookup_insert_eq.
Qed.

(** ** Witnesses *)

(** A handshake between a controller and a cell, the activation of its two ends,
    and a RESET of the cell. *)
Definition no_expect : expectation := Expect None None None None None.
Definition blank : action := Action None None None None None None None None None no_expect None.
Definition tx_expect (m : message) (st : Z) : expectation :=
  Expect (Some 60) (Some (as_desc (build m))) (Some st) None None.
Definition step_of (peer : string) (m : message) (st : Z) : action :=
  Action (Some "step"%string) (Some peer) None None None None None None None (tx_expect m st) None.
Definition forward_of (frm to : string) (m : message) : action :=
  Action (Some "forward"%string) None (Some frm) None None None None (Some to) None
    (Expect (Some 60) (Some (as_desc (build m))) None None None) None.

Definition sample_run : list action :=
  [step_of "ctrl" (Hello 1 0) 2; forward_of "ctrl" "cell" (Hello 1 0); step_of "cell" (HelloAck 1 1 7 0 0) 4;
   forward_of "cell" "ctrl" (HelloAck 1 1 7 0 0);
   Action (Some "step"%string) (Some "ctrl"%string) None None None None None None None
     (Expect (Some 0) None (Some 4) (Some 1) (Some 7)) None].
Definition reset_step : action := step_of "cell" (Reset 2 1 7 1 1) 0.

Definition sample_result : res CausalTracker := observe_all elements true sample_run tracker_init.
Definition sample_tracker : CausalTracker :=
  match sample_result with Ok t => t | Raise _ => tracker_init end.

Lemma sample_run_ok : observe_all elements true sample_run tracker_init = Ok sample_tracker.
Proof.
  assert (E : is_ok sample_result = true) by (vm_compute; reflexivity).
  unfold sample_tracker. change (observe_all elements true sample_run tracker_init) with sample_result.
  destruct sample_result; [done | discriminate E].
Qed.

Lemma active_peers_shook_hands_witness :
  "ctrl"%string ∈ handshake_active sample_tracker /\
  exists a k, a ∈ sample_run /\ opens_hello a k /\ (k.1.1 = "ctrl"%string \/ k.1.2 = "ctrl"%string).
Proof.
  assert (H : "ctrl"%string ∈ handshake_active sample_tracker)
    by (apply (bool_decide_unpack ("ctrl"%string ∈ handshake_active sample_tracker)); vm_compute; exact I).
  split; [exact H|].
  destruct (active_peers_shook_hands elements true sample_run sample_tracker (fun X => reflexivity (elements X))
              sample_run_ok) as [Hp _]. exact (Hp _ H).
Defined.

Lemma tracker_never_ambiguous_witness :
  causal_inv sample_tracker /\ forall e, observe elements false reset_step sample_tracker = Raise e -> e ∉ ambiguity_errors.
Proof.
  split; [apply (tracker_never_ambiguous elements true sample_run sample_tracker true reset_step StructError
                   (fun X => reflexivity (elements X)) sample_run_ok)|].
  intros e. apply (tracker_never_ambiguous elements true sample_run sample_tracker false reset_step e
              (fun X => reflexivity (elements X)) sample_run_ok).
Defined.

Lemma soft_scan_agrees_witness :
  track_handshake_active elements sample_run = Ok (handshake_active sample_tracker) /\
  handshake_active sample_tracker = {[ "cell"; "ctrl" ]}%string.
Proof.
  split; [exact (soft_scan_agrees elements sample_run sample_tracker sample_run_ok) | vm_compute; reflexivity].
Defined.

Definition reset_tx : desc := as_desc (build (Reset 2 1 7 1 1)).

Lemma reset_step_ok :
  validate_tx_desc reset_tx = Ok (build (Reset 2 1 7 1 1)) /\
  is_ok (observe elements true reset_step sample_tracker) = true.
Proof.
  split; [apply validate_tx_desc_complete, (bool_decide_unpack (wf_message (Reset 2 1 7 1 1))); vm_compute; exact I
         |vm_compute; reflexivity].
Qed.

Lemma reset_uses_own_pair_witness :
  exists t' gc, observe elements true reset_step sample_tracker = Ok t' /\
    session_pair sample_tracker !! "cell"%string = Some gc /\ session_pair t' !! "cell"%string = None.
Proof.
  destruct reset_step_ok as [Hv Hk].
  destruct (observe elements true reset_step sample_tracker) as [t'|] eqn:E; [|discriminate Hk].
  destruct (reset_uses_own_pair elements reset_step reset_tx (build (Reset 2 1 7 1 1)) "cell" sample_tracker t')
    as (gc & _ & _ & H1 & H2); [reflexivity | reflexivity | discriminate | reflexivity | exact Hv | reflexivity | exact E|].
  exists t', gc. split; [reflexivity|]. split.
  - destruct H1 as [H1 | [H1 _]]; [exact H1|]. vm_compute in H1. discriminate H1.
  - apply H2. discriminate.
Defined.
