(* ===== verification/DomainScan.v ===== *)
(** The domain-scan reference scanner of tools/domain_scan_vector_gen.py: key and
    row classification, the NLR1 envelope, the scanner's state machine with its
    port trace, fault script and cleanup, and the case runner. *)

From S2P Require Import Prelude Bytes Crc.

Definition ROOT_V1 : bytes := [0x4E; 0x49; 0x4E; 0x4C; 0x49; 0x4C; 0x00; 0x01].
Definition KEY_CAP : Z := 255.
Definition VALUE_CAP : Z := 4096.

Definition nlr1 (record_type record_version : Z) (payload : bytes) : res bytes :=
  t ← u16 record_type; v ← u16 record_version; n ← u32 (len payload);
  let body := (bytes_of_string "NLR1" ++ t ++ v ++ n) ++ payload in
  c ← u32 (crc32c body);
  mret (body ++ c).

Definition runtime_key_binding : bytes := ROOT_V1 ++ [0x01].
Definition runtime_key_identity : bytes := ROOT_V1 ++ [0x02].
(** [bytes([a, ...])]: every item must be a byte. *)
Fixpoint bytes_of (l : list Z) : res bytes :=
  match l with [] => Ok [] | b :: l => b ← pybyte b; tl ← bytes_of l; mret (b ++ tl) end.
Definition runtime_key_counter (suffix : Z) : res bytes := b ← bytes_of [0x03; suffix]; mret (ROOT_V1 ++ b).
Definition runtime_key_capacity (suffix : Z) : res bytes := b ← bytes_of [0x04; suffix]; mret (ROOT_V1 ++ b).
Definition domain_key_u64 (family subtype value : Z) : res bytes :=
  b ← bytes_of [family; subtype; 1; 3; 8]; v ← u64 value; mret (ROOT_V1 ++ b ++ v).
Definition domain_key_id128 (family subtype : Z) (identity : bytes) : res bytes :=
  raise_if (negb (len identity =? 16)) (AssertionError "identity");;
  b ← bytes_of [family; subtype; 1; 2; 16]; mret (ROOT_V1 ++ b ++ identity).
Definition future_key : bytes :=
  [0x4E; 0x49; 0x4E; 0x4C; 0x49; 0x4C; 0x00; 0x02; 0x10; 0x20; 0x01; 0x01; 0x00].
Definition future_value : res bytes := nlr1 6 2 [1; 2; 3; 4].
Definition malformed_current_key : bytes := ROOT_V1 ++ [0x06; 0x10].

(** ** Classification *)

Definition root_matches (key : bytes) : bool := bool_decide (slice 0 8 key = ROOT_V1).

Definition is_exact_family14 (key : bytes) : bool :=
  if (len key <? 9) || negb (root_matches key) then false
  else if (len key =? 9) && bool_decide (byte_at 8 key ∈ [0x01; 0x02]) then true
  else if len key =? 10 then
    ((byte_at 8 key =? 0x03) && in_range 1 4 (byte_at 9 key)) ||
    ((byte_at 8 key =? 0x04) && in_range 1 11 (byte_at 9 key))
  else false.

Definition nlr1_valid (value : bytes) : bool :=
  if (len value <? 16) || (4096 <? len value) || negb (bool_decide (slice 0 4 value = bytes_of_string "NLR1"))
  then false
  else
    let payload_len := be_val (slice 8 12 value) in
    if negb (payload_len =? len value - 16) || (4096 - 16 <? payload_len) then false
    else
      let stored := be_val (slice (12 + payload_len) (16 + payload_len) value) in
      stored =? crc32c (slice 0 (12 + payload_len) value).

Definition identity_kind_len_ok (kind length : Z) : bool :=
  if kind =? 1 then length =? 0
  else if kind =? 2 then length =? 16
  else if kind =? 3 then length =? 8
  else if kind =? 4 then length =? 32
  else if kind =? 5 then length =? 32
  else false.

Definition subtype_expected_kind (family subtype : Z) : option Z :=
  if (family =? 0x05) && (subtype =? 0x01) then Some 2
  else if negb (family =? 0x06) then None
  else if bool_decide (subtype ∈ [0x60; 0x62; 0x64]) then Some 1
  else if bool_decide (subtype ∈ [0x20; 0x22; 0x34; 0x50]) then Some 2
  else if bool_decide (subtype ∈ [0x21; 0x26; 0x27]) then Some 3
  else if bool_decide (subtype ∈
    [0x10; 0x11; 0x23; 0x24; 0x25; 0x30; 0x31; 0x32; 0x33; 0x40; 0x41; 0x42;
     0x51; 0x52; 0x61; 0x63; 0x7D; 0x7E; 0x7F]) then Some 5
  else None.

Definition current_key_fields_ok (key : bytes) : bool :=
  if (len key <? 13) || (45 <? len key) || negb (root_matches key) then false
  else
    let family := byte_at 8 key in let subtype := byte_at 9 key in let fmt := byte_at 10 key in
    let kind := byte_at 11 key in let id_len := byte_at 12 key in
    if negb (fmt =? 1) then false
    else match subtype_expected_kind family subtype with
         | None => false
         | Some expected =>
             if negb (kind =? expected) then false
             else if negb (identity_kind_len_ok kind id_len) then false
             else len key =? 13 + id_len
         end.

Inductive row_class := CURRENT | RECOGNIZABLE_FUTURE | MALFORMED.
#[export] Instance row_class_eq_dec : EqDecision row_class.
Proof. solve_decision. Defined.

(** [key[:7] == ROOT_V1[:7] and key[7] >= 2] under the length guard. *)
Definition future_root (key : bytes) : bool :=
  bool_decide (slice 0 7 key = slice 0 7 ROOT_V1) && (2 <=? byte_at 7 key).

Definition classify_key (key : bytes) : row_class :=
  if (len key =? 0) || (255 <? len key) then MALFORMED
  else if (8 <=? len key) && future_root key && (len key <=? 255) then RECOGNIZABLE_FUTURE
  else if (len key <? 8) || negb (root_matches key) then MALFORMED
  else if (len key <? 13) || (45 <? len key) then MALFORMED
  else if current_key_fields_ok key then CURRENT
  else MALFORMED.

Definition classify_row (key value : bytes) : row_class :=
  if bool_decide (classify_key key = CURRENT) then CURRENT
  else if (8 <=? len key) && (len key <=? 255) && future_root key && in_range 16 4096 (len value) && nlr1_valid value
  then RECOGNIZABLE_FUTURE
  else MALFORMED.

(** The loop over the common prefix, then the length test. *)
Fixpoint key_strictly_increases (prev key : bytes) : bool :=
  match prev, key with
  | a :: prev, b :: key => if a <? b then true else if b <? a then false else key_strictly_increases prev key
  | [], _ :: _ => true
  | _, [] => false
  end.

(** ** Fault scripts *)

Record fault := Fault { f_op : string; f_on_call : Z; f_shape : string; f_status : string }.

Definition find_fault (faults : list fault) (op : string) (call_no : Z) : option fault :=
  find (fun f => String.eqb (f_op f) op && (f_on_call f =? call_no)) faults.

(** ** The scanner *)

Inductive status := OK | INVALID_ARGUMENT | UNSUPPORTED | STORAGE | STORAGE_CORRUPT | INVALID_STATE.
#[export] Instance status_eq_dec : EqDecision status.
Proof. solve_decision. Defined.

Inductive phase := IDLE | OPEN | EXHAUSTED | FAILED | DONE.
#[export] Instance phase_eq_dec : EqDecision phase.
Proof. solve_decision. Defined.

Inductive port := Begin_READ_ONLY | Iter_open_prefix0 | Iter_next | Iter_close | Rollback | Close.
#[export] Instance port_eq_dec : EqDecision port.
Proof. solve_decision. Defined.

Record ScannerOracle := Oracle {
  state : phase; has_previous : bool; previous : bytes; has_sticky : bool; sticky : status;
  future_seen : Z; family14 : Z; current : Z; ok_rows : Z; reopen : Z; cleanup_status : string;
  port_trace : list port; mutation_calls : Z; iter_pos : Z; txn_live : bool; iter_live : bool;
  fence_pending : bool; close_count : Z
}.

Definition oracle_init : ScannerOracle :=
  Oracle IDLE false [] false OK 0 0 0 0 0 "OK" [] 0 0 false false false 0.

(** Attribute assignments. *)
Definition set_state (v : phase) (o : ScannerOracle) : ScannerOracle :=
  Oracle v (has_previous o) (previous o) (has_sticky o) (sticky o) (future_seen o) (family14 o) (current o)
    (ok_rows o) (reopen o) (cleanup_status o) (port_trace o) (mutation_calls o) (iter_pos o) (txn_live o)
    (iter_live o) (fence_pending o) (close_count o).
Definition set_prev (v : bytes) (o : ScannerOracle) : ScannerOracle :=
  Oracle (state o) true v (has_sticky o) (sticky o) (future_seen o) (family14 o) (current o)
    (ok_rows o) (reopen o) (cleanup_status o) (port_trace o) (mutation_calls o) (iter_pos o) (txn_live o)
    (iter_live o) (fence_pending o) (close_count o).
Definition set_counts (fut f14 cur ok : Z) (o : ScannerOracle) : ScannerOracle :=
  Oracle (state o) (has_previous o) (previous o) (has_sticky o) (sticky o) fut f14 cur ok
    (reopen o) (cleanup_status o) (port_trace o) (mutation_calls o) (iter_pos o) (txn_live o)
    (iter_live o) (fence_pending o) (close_count o).
Definition set_pos (v : Z) (o : ScannerOracle) : ScannerOracle :=
  Oracle (state o) (has_previous o) (previous o) (has_sticky o) (sticky o) (future_seen o) (family14 o) (current o)
    (ok_rows o) (reopen o) (cleanup_status o) (port_trace o) (mutation_calls o) v (txn_live o)
    (iter_live o) (fence_pending o) (close_count o).
Definition set_live (txn iter : bool) (o : ScannerOracle) : ScannerOracle :=
  Oracle (state o) (has_previous o) (previous o) (has_sticky o) (sticky o) (future_seen o) (family14 o) (current o)
    (ok_rows o) (reopen o) (cleanup_status o) (port_trace o) (mutation_calls o) (iter_pos o) txn iter
    (fence_pending o) (close_count o).
Definition set_fence_pending (v : bool) (o : ScannerOracle) : ScannerOracle :=
  Oracle (state o) (has_previous o) (previous o) (has_sticky o) (sticky o) (future_seen o) (family14 o) (current o)
    (ok_rows o) (reopen o) (cleanup_status o) (port_trace o) (mutation_calls o) (iter_pos o) (txn_live o)
    (iter_live o) v (close_count o).
Definition set_cleanup (v : string) (o : ScannerOracle) : ScannerOracle :=
  Oracle (state o) (has_previous o) (previous o) (has_sticky o) (sticky o) (future_seen o) (family14 o) (current o)
    (ok_rows o) (reopen o) v (port_trace o) (mutation_calls o) (iter_pos o) (txn_live o)
    (iter_live o) (fence_pending o) (close_count o).
(** [self.port_trace.append(e)]. *)
Definition trace (e : port) (o : ScannerOracle) : ScannerOracle :=
  Oracle (state o) (has_previous o) (previous o) (has_sticky o) (sticky o) (future_seen o) (family14 o) (current o)
    (ok_rows o) (reopen o) (cleanup_status o) (port_trace o ++ [e]) (mutation_calls o) (iter_pos o) (txn_live o)
    (iter_live o) (fence_pending o) (close_count o).

Definition _set_sticky (st : status) (o : ScannerOracle) : ScannerOracle :=
  if has_sticky o then o
  else Oracle (state o) (has_previous o) (previous o) true st (future_seen o) (family14 o) (current o)
    (ok_rows o) (reopen o) (cleanup_status o) (port_trace o) (mutation_calls o) (iter_pos o) (txn_live o)
    (iter_live o) (fence_pending o) (close_count o).

(** [_checked_inc]: [None] is the ["STORAGE_CORRUPT"] result. *)
Definition _checked_inc (v : Z) : option Z := if v =? U64_MAX then None else Some (v + 1).

Definition _fence (o : ScannerOracle) : ScannerOracle :=
  let o := trace Close o in
  Oracle (state o) (has_previous o) (previous o) (has_sticky o) (sticky o) (future_seen o) (family14 o) (current o)
    (ok_rows o) 1 (cleanup_status o) (port_trace o) (mutation_calls o) (iter_pos o) (txn_live o)
    (iter_live o) false (close_count o + 1).

Definition begin (faults : list fault) (o : ScannerOracle) : status * ScannerOracle :=
  if negb (bool_decide (state o = IDLE)) then (INVALID_STATE, o)
  else
    let corrupt o := (STORAGE_CORRUPT, _set_sticky STORAGE_CORRUPT (set_state DONE o)) in
    let o := trace Begin_READ_ONLY o in
    let begin_shape := default "natural"%string (f_shape <$> find_fault faults "begin" 1) in
    if String.eqb begin_shape "ok_null" then corrupt (_fence o)
    else if String.eqb begin_shape "error_with_handle" then corrupt (_fence (trace Rollback o))
    else
      let o := trace Iter_open_prefix0 (set_live true (iter_live o) o) in
      let open_shape := default "natural"%string (f_shape <$> find_fault faults "iter_open" 1) in
      if String.eqb open_shape "ok_null" then
        corrupt (_fence (set_live false (iter_live o) (trace Rollback (set_fence_pending true o))))
      else if String.eqb open_shape "error_with_handle" then
        corrupt (_fence (set_live false false (trace Rollback (trace Iter_close (set_fence_pending true o)))))
      else (OK, set_pos 0 (set_state OPEN (set_live (txn_live o) true o))).

Definition count_port (e : port) (l : list port) : Z := len (filter (fun x => x = e) l).

(** [self._set_sticky(err); self.state = "FAILED"; return st]. *)
Definition fail_scan (sticky_st : status) (st : status) (o : ScannerOracle) : option status * ScannerOracle :=
  (Some st, set_state FAILED (_set_sticky sticky_st o)).

(** One row of the loop of [advance], after the port call: [None] continues. *)
Definition scan_row (key value : bytes) (o : ScannerOracle) : option status * ScannerOracle :=
  let o := set_pos (iter_pos o + 1) o in
  if negb (in_range 1 KEY_CAP (len key)) || (VALUE_CAP <? len value) then fail_scan STORAGE_CORRUPT STORAGE_CORRUPT o
  else if has_previous o && negb (key_strictly_increases (previous o) key) then
    fail_scan STORAGE_CORRUPT STORAGE_CORRUPT o
  else if ok_rows o =? U64_MAX then fail_scan STORAGE_CORRUPT STORAGE_CORRUPT o
  else
    let accept o := (None, set_counts (future_seen o) (family14 o) (current o) (ok_rows o + 1) (set_prev key o)) in
    if is_exact_family14 key then
      match _checked_inc (family14 o) with
      | None => fail_scan STORAGE_CORRUPT STORAGE_CORRUPT o
      | Some n => accept (set_counts (future_seen o) n (current o) (ok_rows o) o)
      end
    else
      match classify_row key value with
      | CURRENT =>
          match _checked_inc (current o) with
          | None => fail_scan STORAGE_CORRUPT STORAGE_CORRUPT o
          | Some n => accept (set_counts (future_seen o) (family14 o) n (ok_rows o) o)
          end
      | RECOGNIZABLE_FUTURE => accept (set_counts 1 (family14 o) (current o) (ok_rows o) o)
      | MALFORMED => fail_scan STORAGE_CORRUPT STORAGE_CORRUPT o
      end.

(** One iteration of the loop of [advance]. *)
Definition advance_once (rows : list (bytes * bytes)) (faults : list fault) (o : ScannerOracle) :
    option status * ScannerOracle :=
  let o := trace Iter_next o in
  let call_no := count_port Iter_next (port_trace o) in
  let shape := default "natural"%string (f_shape <$> find_fault faults "iter_next" call_no) in
  if String.eqb shape "bts" || String.eqb shape "not_found_poison" then fail_scan STORAGE_CORRUPT STORAGE_CORRUPT o
  else if String.eqb shape "io_error" then fail_scan STORAGE STORAGE o
  else if String.eqb shape "unknown" then fail_scan STORAGE_CORRUPT STORAGE_CORRUPT (set_fence_pending true o)
  else match rows !! Z.to_nat (iter_pos o) with
       | None => (Some OK, set_state EXHAUSTED o)
       | Some (key, value) => scan_row key value o
       end.

(** [while consumed < row_budget]: each iteration returns or consumes one. *)
Fixpoint advance_loop (n : nat) (rows : list (bytes * bytes)) (faults : list fault) (o : ScannerOracle) :
    status * ScannerOracle :=
  match n with
  | O => (OK, o)
  | S n =>
      match advance_once rows faults o with
      | (Some st, o) => (st, o)
      | (None, o) => advance_loop n rows faults o
      end
  end.

Definition advance (rows : list (bytes * bytes)) (row_budget : Z) (faults : list fault) (o : ScannerOracle) :
    status * ScannerOracle :=
  if negb (bool_decide (state o = OPEN)) then (INVALID_STATE, o)
  else if row_budget =? 0 then (INVALID_ARGUMENT, o)
  else advance_loop (Z.to_nat row_budget) rows faults o.

Definition _cleanup (faults : list fault) (o : ScannerOracle) : status * ScannerOracle :=
  let o := if iter_live o && txn_live o then set_live (txn_live o) false (trace Iter_close o) else o in
  let finish o := (OK, set_state DONE (if fence_pending o then _fence o else o)) in
  if txn_live o then
    let o := trace Rollback o in
    let rb_call := count_port Rollback (port_trace o) in
    let o := set_live false false o in
    match find_fault faults "rollback" rb_call with
    | Some rf =>
        if negb (String.eqb (f_status rf) "OK" || String.eqb (f_status rf) "0") then
          let o := set_state DONE (_fence (set_cleanup "IO_ERROR" o)) in
          ((if has_sticky o then sticky o else STORAGE), o)
        else finish o
    | None => finish o
    end
  else finish o.

Definition finalize (faults : list fault) (o : ScannerOracle) : status * Z * ScannerOracle :=
  if negb (bool_decide (state o ∈ [EXHAUSTED; FAILED])) then (INVALID_STATE, 0, o)
  else
    let prior := state o in
    let '(cleanup, o) := _cleanup faults o in
    let st := if has_sticky o then sticky o
              else if negb (bool_decide (cleanup = OK)) then cleanup
              else if negb (future_seen o =? 0) then UNSUPPORTED else OK in
    let adopted := bool_decide (prior = EXHAUSTED) && negb (has_sticky o) && (future_seen o =? 0) &&
                   bool_decide (cleanup = OK) && bool_decide (st = OK) && (reopen o =? 0) in
    (st, (if adopted then 1 else 0), o).

Definition abort (faults : list fault) (o : ScannerOracle) : status * ScannerOracle :=
  if negb (bool_decide (state o ∈ [OPEN; EXHAUSTED; FAILED])) then (INVALID_STATE, o)
  else
    let '(cleanup, o) := _cleanup faults o in
    ((if has_sticky o then sticky o else cleanup), o).

(** ** The case runner *)

Inductive call := CBegin | CAdvance (row_budget : Z) | CFinalize | CAbort | COther (op : string).

Record run := Run { final_status : status; adopted : Z; oracle : ScannerOracle }.

Definition run_call (rows : list (bytes * bytes)) (faults : list fault) (c : call) (r : run) : res run :=
  match c with
  | CBegin => let '(st, o) := begin faults (oracle r) in Ok (Run st (adopted r) o)
  | CAdvance b => let '(st, o) := advance rows b faults (oracle r) in Ok (Run st (adopted r) o)
  | CFinalize => let '(st, ad, o) := finalize faults (oracle r) in Ok (Run st ad o)
  | CAbort => let '(st, o) := abort faults (oracle r) in Ok (Run st 0 o)
  | COther _ => Raise (ValueError "unknown op")
  end.

Fixpoint run_calls (rows : list (bytes * bytes)) (faults : list fault) (calls : list call) (r : run) : res run :=
  match calls with
  | [] => Ok r
  | c :: calls => r ← run_call rows faults c r; run_calls rows faults calls r
  end.

Fixpoint decode_rows (rows : list (string * string)) : res (list (bytes * bytes)) :=
  match rows with
  | [] => Ok []
  | (k, v) :: rows => k ← from_hex k; v ← from_hex v; tl ← decode_rows rows; mret ((k, v) :: tl)
  end.

Definition run_case (rows : list (string * string)) (faults : list fault) (calls : list call) : res run :=
  rows ← decode_rows rows; run_calls rows faults calls (Run OK 0 oracle_init).

(** ** The order of keys *)

Lemma kinc_irrefl a : key_strictly_increases a a = false.
Proof. induction a as [|x a IH]; [done|]. cbn. by rewrite Z.ltb_irrefl. Qed.

Lemma kinc_cons x y a b :
  key_strictly_increases (x :: a) (y :: b) = true <-> x < y \/ x = y /\ key_strictly_increases a b = true.
Proof.
  cbn. destruct (Z.ltb_spec x y); [naive_solver|]. destruct (Z.ltb_spec y x); [naive_solver lia|].
  assert (x = y) as -> by lia. naive_solver lia.
Qed.

Lemma kinc_trans a b c :
  key_strictly_increases a b = true -> key_strictly_increases b c = true -> key_strictly_increases a c = true.
Proof.
  revert b c. induction a as [|x a IH]; intros [|y b] [|z c]; try done.
  rewrite !kinc_cons. intros [? | [-> ?]] [? | [-> ?]]; naive_solver lia.
Qed.

Lemma kinc_total a b : key_strictly_increases a b = true \/ a = b \/ key_strictly_increases b a = true.
Proof.
  revert b. induction a as [|x a IH]; intros [|y b]; [auto..|].
  rewrite !kinc_cons. destruct (Z.lt_trichotomy x y) as [? | [-> | ?]]; [auto | | auto].
  destruct (IH b) as [? | [-> | ?]]; auto.
Qed.

Definition key_lt (a b : bytes) : Prop := key_strictly_increases a b = true.
#[export] Instance key_lt_strict : StrictOrder key_lt.
Proof.
  split; [intros a H; unfold key_lt in H; by rewrite kinc_irrefl in H | intros a b c; apply kinc_trans].
Qed.
#[export] Instance key_lt_dec : RelDecision key_lt.
Proof. intros a b. unfold key_lt. apply _. Defined.

Fixpoint ascending (l : list bytes) : bool :=
  match l with
  | a :: (b :: _) as tl => key_strictly_increases a b && ascending tl
  | _ => true
  end.

Lemma ascending_snoc l x :
  ascending (l ++ [x]) = ascending l && match last l with Some y => key_strictly_increases y x | None => true end.
Proof.
  induction l as [|a [|b l] IH]; [done | by cbn; rewrite andb_true_r |].
  change ((a :: b :: l) ++ [x]) with (a :: (b :: l) ++ [x]).
  change (last (a :: b :: l)) with (last (b :: l)).
  cbn [ascending app] in *. rewrite IH. by rewrite andb_assoc.
Qed.

Lemma ascending_app_l l1 l2 : ascending (l1 ++ l2) = true -> ascending l1 = true.
Proof.
  induction l2 as [|x l2 IH] using rev_ind; [by rewrite app_nil_r|].
  rewrite app_assoc, ascending_snoc. intros [H _]%andb_true_iff. auto.
Qed.

Lemma ascending_lt l a i b : ascending (a :: l) = true -> l !! i = Some b -> key_lt a b.
Proof.
  revert a i. induction l as [|x l IH]; intros a i H Hi; [done|].
  cbn in H. apply andb_true_iff in H as [H1 H2]. destruct i as [|i]; cbn in Hi; [naive_solver|].
  transitivity x; [done|]. by eapply IH.
Qed.

Lemma ascending_NoDup l : ascending l = true -> NoDup l.
Proof.
  induction l as [|a l IH]; intros H; constructor.
  - intros [i Hi]%list_elem_of_lookup. eapply ascending_lt in Hi; [|done]. by destruct (irreflexivity key_lt a).
  - apply IH. destruct l; [done|]. cbn in H. by apply andb_true_iff in H as [_ H].
Qed.

(** ** What a clean scan is *)

Abbreviation row := (bytes * bytes)%type.

Definition row_sized (r : row) : bool := in_range 1 KEY_CAP (len r.1) && negb (VALUE_CAP <? len r.2).
Definition is_family14 (r : row) : bool := is_exact_family14 r.1.
Definition is_current (r : row) : bool := negb (is_family14 r) && bool_decide (classify_row r.1 r.2 = CURRENT).
Definition is_future (r : row) : bool := negb (is_family14 r) && bool_decide (classify_row r.1 r.2 = RECOGNIZABLE_FUTURE).
Definition row_good (r : row) : bool := row_sized r && (is_family14 r || is_current r || is_future r).
Definition clean (rows : list row) : bool := forallb row_good rows && ascending (map fst rows).
Definition count (f : row -> bool) (rows : list row) : Z := len (List.filter f rows).

Lemma count_snoc f l x : count f (l ++ [x]) = count f l + (if f x then 1 else 0).
Proof. unfold count. rewrite List.filter_app, len_app. cbn. destruct (f x); by rewrite ?len_cons. Qed.

Lemma count_bounds f l : 0 <= count f l <= len l.
Proof. unfold count, len. pose proof (List.filter_length_le f l). lia. Qed.

(** The key of [r] is greater than the last key of [l]. *)
Definition after_last (l : list row) (r : row) : bool :=
  match last l with Some y => key_strictly_increases y.1 r.1 | None => true end.

Lemma clean_snoc l r : clean (l ++ [r]) = clean l && row_good r && after_last l r.
Proof.
  unfold after_last.
  unfold clean. rewrite forallb_app, map_app. cbn [map forallb]. rewrite ascending_snoc.
  replace (last (map fst l)) with (fst <$> last l) by (symmetry; apply fmap_last).
  destruct (forallb row_good l), (row_good r), (ascending (map fst l)), (last l); done.
Qed.

Lemma clean_app_l l1 l2 : clean (l1 ++ l2) = true -> clean l1 = true.
Proof.
  unfold clean. rewrite forallb_app, map_app. intros [[H _]%andb_true_iff H2]%andb_true_iff.
  by rewrite H, (ascending_app_l _ _ H2).
Qed.

(** The data of a scanner that has accepted exactly the rows [pre]. *)
Record scanned (pre : list row) (o : ScannerOracle) : Prop := {
  sc_clean : clean pre = true;
  sc_bound : len pre <= U64_MAX;
  sc_ok : ok_rows o = len pre;
  sc_14 : family14 o = count is_family14 pre;
  sc_cur : current o = count is_current pre;
  sc_fut : future_seen o = (if existsb is_future pre then 1 else 0);
  sc_prev : last pre = None /\ has_previous o = false \/ exists r, last pre = Some r /\ has_previous o = true /\ previous o = r.1
}.

(** The part of a scanner that classifying a row does not touch. *)
Definition control (o : ScannerOracle) :=
  (state o, has_sticky o, sticky o, reopen o, port_trace o, mutation_calls o, txn_live o, iter_live o,
   fence_pending o, close_count o).

Lemma class_cases r :
  is_family14 r = false ->
  classify_row r.1 r.2 = CURRENT /\ is_current r = true /\ is_future r = false \/
  classify_row r.1 r.2 = RECOGNIZABLE_FUTURE /\ is_current r = false /\ is_future r = true \/
  classify_row r.1 r.2 = MALFORMED /\ is_current r = false /\ is_future r = false.
Proof. intros H. unfold is_current, is_future. rewrite H. destruct (classify_row _ _); naive_solver. Qed.

(** The row step accepts exactly the rows that keep the scan clean, and then
    accounts for them. *)
Lemma scan_row_spec pre r o :
  scanned pre o ->
  (scan_row r.1 r.2 o = fail_scan STORAGE_CORRUPT STORAGE_CORRUPT (set_pos (iter_pos o + 1) o) /\
     (clean (pre ++ [r]) = false \/ U64_MAX <= len pre)) \/
  exists o', scan_row r.1 r.2 o = (None, o') /\ scanned (pre ++ [r]) o' /\ control o' = control o /\
     iter_pos o' = iter_pos o + 1 /\ clean (pre ++ [r]) = true.
Proof.
  intros [Hc Hb Ho H14 Hcur Hf Hp]. pose proof (len_nonneg pre) as Hl0. unfold scan_row.
  cbn [iter_pos set_pos has_previous previous ok_rows family14 current future_seen].
  assert (Hinc : has_previous o && negb (key_strictly_increases (previous o) r.1) = negb (after_last pre r)).
  { unfold after_last. destruct Hp as [[-> ->] | (y & -> & -> & ->)]; done. }
  rewrite Hinc, Ho, H14, Hcur, Hf. rewrite clean_snoc, Hc. cbn [andb].
  destruct (row_sized r) eqn:Ez; unfold row_sized in Ez.
  2:{ left. replace (negb (in_range 1 KEY_CAP (len r.1)) || (VALUE_CAP <? len r.2)) with true
        by (destruct (in_range _ _ _), (VALUE_CAP <? _); done).
      split; [done|]. left. unfold row_good, row_sized. by rewrite Ez. }
  apply andb_true_iff in Ez as [Ek Ev]. apply negb_true_iff in Ev. rewrite Ek, Ev. cbn [negb orb].
  destruct (after_last pre r) eqn:Ea; cbn [negb]; [|left; split; [done|left; apply andb_false_r]].
  destruct (Z.eqb_spec (len pre) U64_MAX) as [El|El]; [left; split; [done|right; lia]|]. rewrite andb_true_r.
  assert (Hacc : forall f14 cur fut, f14 = count is_family14 (pre ++ [r]) -> cur = count is_current (pre ++ [r]) ->
    fut = (if existsb is_future (pre ++ [r]) then 1 else 0) -> row_good r = true -> forall o1,
    control o1 = control o -> iter_pos o1 = iter_pos o + 1 ->
    let o' := set_counts fut f14 cur (len pre + 1) (set_prev r.1 o1) in
    scanned (pre ++ [r]) o' /\ control o' = control o /\ iter_pos o' = iter_pos o + 1).
  { intros f14 cur fut -> -> -> Hg o1 Hctl Hpos. cbn. split; [|done]. split; cbn; try done.
    - by rewrite clean_snoc, Hc, Hg, Ea.
    - rewrite len_app. change (len [r]) with 1. lia.
    - rewrite len_app. done.
    - right. exists r. by rewrite last_snoc. }
  pose proof (count_bounds is_family14 pre). pose proof (count_bounds is_current pre).
  assert (Hgood : row_good r = is_family14 r || is_current r || is_future r)
    by (unfold row_good, row_sized; by rewrite Ek, Ev).
  unfold _checked_inc.
  rewrite (proj2 (Z.eqb_neq (count is_family14 pre) U64_MAX)) by lia.
  rewrite (proj2 (Z.eqb_neq (count is_current pre) U64_MAX)) by lia.
  change (is_exact_family14 r.1) with (is_family14 r).
  rewrite !count_snoc, existsb_app in Hacc. cbn [existsb] in Hacc. rewrite orb_false_r in Hacc.
  cbn [set_prev set_counts set_pos family14 future_seen current ok_rows]. rewrite ?H14, ?Hcur, ?Hf, ?Ho.
  (** the accepting branches *)
  assert (Hdone : forall f14 cur fut, f14 = count is_family14 pre + (if is_family14 r then 1 else 0) ->
    cur = count is_current pre + (if is_current r then 1 else 0) ->
    fut = (if existsb is_future pre || is_future r then 1 else 0) -> row_good r = true ->
    exists o', (None, set_counts fut f14 cur (len pre + 1) (set_prev r.1 (set_counts fut f14 cur (len pre)
        (set_pos (iter_pos o + 1) o)))) = (@None status, o') /\
      scanned (pre ++ [r]) o' /\ control o' = control o /\ iter_pos o' = iter_pos o + 1 /\ row_good r = true).
  { intros f14 cur fut E1 E2 E3 Hg. eexists. split; [reflexivity|].
    destruct (Hacc f14 cur fut E1 E2 E3 Hg (set_counts fut f14 cur (len pre) (set_pos (iter_pos o + 1) o)) eq_refl eq_refl)
      as (? & ? & ?). done. }
  destruct (is_family14 r) eqn:E14.
  - right. unfold is_current, is_future in Hdone. rewrite E14 in Hdone. cbn [negb andb] in Hdone.
    apply Hdone; rewrite ?Z.add_0_r, ?orb_false_r; try done.
  - destruct (class_cases r E14) as [(-> & E1 & E2) | [(-> & E1 & E2) | (-> & E1 & E2)]];
      rewrite E1, E2 in Hgood; cbn in Hgood.
    + right. rewrite E1, E2 in Hdone. apply Hdone; rewrite ?Z.add_0_r, ?orb_false_r; done.
    + right. rewrite E1, E2 in Hdone. apply Hdone; rewrite ?Z.add_0_r, ?orb_true_r; done.
    + left. split; [done|]. by left.
Qed.

(** ** The invariant of the state machine *)

(** The port calls of an open scan after [n] iterator steps. *)
Definition scan_trace (n : nat) : list port := [Begin_READ_ONLY; Iter_open_prefix0] ++ replicate n Iter_next.
Arguments scan_trace : simpl never.

(** The port calls of a finished scan: every handle that was opened is closed, in
    the reverse order, and the storage is closed at most once, last. *)
Inductive complete_trace : list port -> Prop :=
  | ct_begin_null : complete_trace [Begin_READ_ONLY; Close]
  | ct_begin_handle : complete_trace [Begin_READ_ONLY; Rollback; Close]
  | ct_open_null : complete_trace [Begin_READ_ONLY; Iter_open_prefix0; Rollback; Close]
  | ct_open_handle : complete_trace [Begin_READ_ONLY; Iter_open_prefix0; Iter_close; Rollback; Close]
  | ct_scan n (fenced : bool) :
      complete_trace (scan_trace n ++ [Iter_close; Rollback] ++ (if fenced then [Close] else [])).

Definition live (o : ScannerOracle) : Prop :=
  txn_live o = true /\ iter_live o = true /\ reopen o = 0 /\ close_count o = 0 /\ mutation_calls o = 0 /\
  exists n, port_trace o = scan_trace n.

Definition at_row (rows : list row) (o : ScannerOracle) : Prop :=
  has_sticky o = false /\ fence_pending o = false /\ 0 <= iter_pos o <= len rows /\
  scanned (take (Z.to_nat (iter_pos o)) rows) o.

Definition ended (o : ScannerOracle) : Prop :=
  txn_live o = false /\ iter_live o = false /\ fence_pending o = false /\ mutation_calls o = 0 /\
  complete_trace (port_trace o) /\ reopen o = close_count o /\ close_count o = count_port Close (port_trace o).

Definition scan_inv (rows : list row) (o : ScannerOracle) : Prop :=
  match state o with
  | IDLE => o = oracle_init
  | OPEN => live o /\ at_row rows o
  | EXHAUSTED => live o /\ at_row rows o /\ iter_pos o = len rows
  | FAILED => live o /\ has_sticky o = true
  | DONE => ended o
  end.

Lemma count_port_app e l1 l2 : count_port e (l1 ++ l2) = count_port e l1 + count_port e l2.
Proof. unfold count_port. by rewrite filter_app, len_app. Qed.

Lemma count_close_scan n : count_port Close (scan_trace n) = 0.
Proof.
  unfold scan_trace. rewrite count_port_app. change (count_port Close [Begin_READ_ONLY; Iter_open_prefix0]) with 0.
  cbn. induction n as [|n IH]; [done|]. cbn. done.
Qed.

Lemma scan_trace_S n : scan_trace n ++ [Iter_next] = scan_trace (S n).
Proof. unfold scan_trace. rewrite <- app_assoc. f_equal. symmetry. apply replicate_S_end. Qed.

Lemma live_next o : live o -> live (trace Iter_next o).
Proof.
  intros (? & ? & ? & ? & ? & n & E). repeat split; try done. exists (S n). cbn. rewrite E. apply scan_trace_S.
Qed.

Lemma set_sticky_spec st o :
  has_sticky (_set_sticky st o) = true /\ (live (_set_sticky st o) <-> live o) /\
  (has_sticky o = false -> sticky (_set_sticky st o) = st) /\ (ended (_set_sticky st o) <-> ended o).
Proof. unfold _set_sticky. destruct (has_sticky o) eqn:E; cbn; done. Qed.

Lemma fail_scan_inv rows s1 s2 o st o' :
  live o -> fail_scan s1 s2 o = (st, o') -> scan_inv rows o'.
Proof.
  intros Hl [= <- <-]. destruct (set_sticky_spec s1 o) as (Hs & Hl' & _). apply Hl' in Hl.
  unfold scan_inv. cbn. by split.
Qed.

Lemma done_inv rows o : state o = DONE -> ended o -> scan_inv rows o.
Proof. unfold scan_inv. by intros ->. Qed.
Lemma open_inv rows o : state o = OPEN -> live o -> at_row rows o -> scan_inv rows o.
Proof. unfold scan_inv. by intros ->. Qed.

Lemma begin_inv rows faults : scan_inv rows (begin faults oracle_init).2.
Proof.
  unfold begin. rewrite bool_decide_true by done. cbn [negb].
  generalize (default "natural"%string (f_shape <$> find_fault faults "begin" 1)) as s1.
  generalize (default "natural"%string (f_shape <$> find_fault faults "iter_open" 1)) as s2. intros s2 s1.
  destruct (String.eqb s1 "ok_null"); [apply done_inv; [done|]; repeat split; constructor|].
  destruct (String.eqb s1 "error_with_handle"); [apply done_inv; [done|]; repeat split; constructor|].
  destruct (String.eqb s2 "ok_null"); [apply done_inv; [done|]; repeat split; constructor|].
  destruct (String.eqb s2 "error_with_handle"); [apply done_inv; [done|]; repeat split; constructor|].
  apply open_inv; [done | repeat split; by exists 0%nat|].
  split; [done|]. split; [done|]. split; [split; [done | apply len_nonneg]|]. cbn.
  split; cbn; try done. by left.
Qed.

Lemma advance_once_inv rows faults o st o' :
  live o -> at_row rows o -> state o = OPEN -> advance_once rows faults o = (st, o') ->
  scan_inv rows o' /\ (st = None -> state o' = OPEN).
Proof.
  intros Hl (Hs & Hf & Hpos & Hsc) Ho. apply live_next in Hl. unfold advance_once.
  destruct (_ || _). { intros E. split; [by eapply fail_scan_inv | by injection E as <-]. }
  destruct (String.eqb _ _). { intros E. split; [by eapply fail_scan_inv | by injection E as <-]. }
  destruct (String.eqb _ _). { intros E. split; [by eapply fail_scan_inv; [|exact E] | by injection E as <-]. }
  cbn [iter_pos trace]. destruct (rows !! Z.to_nat (iter_pos o)) as [[k v]|] eqn:Er.
  - assert (Hsc' : scanned (take (Z.to_nat (iter_pos o)) rows) (trace Iter_next o)) by (by destruct Hsc; split).
    pose proof (scan_row_spec _ (k, v) _ Hsc') as Hrow. cbn [fst snd] in Hrow.
    destruct Hrow as [[-> _] | (o1 & -> & Hsc1 & Hctl & Hp1 & _)].
    + intros E. split; [by eapply fail_scan_inv; [|exact E] | by injection E as <-].
    + intros [= <- <-]. unfold control in Hctl. cbn in Hctl, Hp1.
      injection Hctl as E1 E2 E3 E4 E5 E6 E7 E8 E9 E10.
      assert (Hst : state o1 = OPEN) by (by rewrite E1). split; [|done].
      unfold scan_inv. rewrite Hst. pose proof (lookup_lt_Some _ _ _ Er) as Hlt.
      destruct Hl as (? & ? & ? & ? & ? & n & Hn). split.
      * cbn in *. unfold live. split_and!; try congruence. exists n. congruence.
      * split; [congruence|]. split; [congruence|]. unfold len. rewrite Hp1. split; [lia|].
        replace (Z.to_nat (iter_pos o + 1)) with (S (Z.to_nat (iter_pos o))) by lia.
        by rewrite (take_S_r _ _ (k, v)).
  - intros [= <- <-]. split; [|done]. apply lookup_ge_None in Er. unfold scan_inv. cbn. split; [done|].
    split; [|unfold len in *; lia]. unfold at_row. cbn. split_and!; try done; try (unfold len in *; lia). by destruct Hsc; split.
Qed.

Lemma advance_loop_inv rows faults n o :
  live o -> at_row rows o -> state o = OPEN -> scan_inv rows (advance_loop n rows faults o).2.
Proof.
  revert o. induction n as [|n IH]; intros o Hl Ha Ho; [unfold scan_inv; cbn; rewrite Ho; by split|].
  cbn. destruct (advance_once rows faults o) as [st o'] eqn:E.
  destruct (advance_once_inv _ _ _ _ _ Hl Ha Ho E) as [Hi Hn]. destruct st as [st|]; [done|].
  unfold scan_inv in Hi. rewrite Hn in Hi by done. destruct Hi as [Hl1 Ha1]. apply IH; auto.
Qed.

Lemma cleanup_inv rows faults o :
  live o -> let '(st, o') := _cleanup faults o in
  scan_inv rows o' /\ state o' = DONE /\ has_sticky o' = has_sticky o /\ sticky o' = sticky o /\
  future_seen o' = future_seen o /\ (forall pre, scanned pre o -> scanned pre o') /\
  (st = OK -> has_sticky o = false -> fence_pending o = false -> reopen o' = 0) /\
  (st <> OK -> st = (if has_sticky o then sticky o else STORAGE)).
Proof.
  intros (H1 & H2 & H3 & H4 & H5 & n & Hn). unfold _cleanup. rewrite H1, H2. cbn [andb].
  assert (Hend : forall o1 : ScannerOracle, forall b : bool,
    txn_live o1 = false -> iter_live o1 = false -> mutation_calls o1 = 0 -> reopen o1 = 0 -> close_count o1 = 0 ->
    port_trace o1 = scan_trace n ++ [Iter_close; Rollback] -> (b = false -> fence_pending o1 = false) ->
    ended (if b then _fence o1 else o1)).
  { intros o1 b A1 A2 A3 A4 A5 A6 A7. unfold ended. destruct b; cbn [_fence]; cbn.
    - rewrite A6, <- app_assoc, A5, !count_port_app, count_close_scan. split_and!; try done. apply (ct_scan n true).
    - rewrite A6, A4, A5, !count_port_app, count_close_scan. split_and!; auto. rewrite <- (app_nil_r (scan_trace n ++ _)).
      rewrite <- app_assoc. apply (ct_scan n false). }
  cbn [txn_live set_live trace iter_live].
  set (o1 := set_live false false _).
  assert (Ho1 : port_trace o1 = scan_trace n ++ [Iter_close; Rollback]) by (subst o1; cbn; by rewrite Hn, <- app_assoc).
  assert (Hfin : ended (if fence_pending o then _fence o1 else o1)) by (apply Hend; done).
  assert (Hsame : forall b : bool, let o2 := set_state DONE (if b then _fence o1 else o1) in
    has_sticky o2 = has_sticky o /\ sticky o2 = sticky o /\ future_seen o2 = future_seen o /\
    (forall pre, scanned pre o -> scanned pre o2)).
  { intros b. destruct b; cbn; (split_and!; [done..|]); intros pre []; by split. }
  destruct (find_fault _ _ _) as [rf|]; [destruct (negb _)|].
  - split; [apply done_inv; [done|]; apply (Hend (set_cleanup "IO_ERROR" o1) true); done|].
    destruct (Hsame true) as (S1 & S2 & S3 & _). split; [done|]. split; [exact S1|]. split; [exact S2|]. split; [exact S3|].
    split; [intros pre []; by split|]. cbn. split; [by intros Hst Hns; rewrite Hns in Hst | done].
  - destruct (Hsame (fence_pending o)) as (S1 & S2 & S3 & S4).
    split; [by apply done_inv|]. split_and!; try done. cbn. by intros _ _ ->.
  - destruct (Hsame (fence_pending o)) as (S1 & S2 & S3 & S4).
    split; [by apply done_inv|]. split_and!; try done. cbn. by intros _ _ ->.
Qed.

Lemma finalize_inv rows faults o :
  scan_inv rows o -> let '(st, ad, o') := finalize faults o in
  scan_inv rows o' /\
  (ad <> 0 -> ad = 1 /\ st = OK /\ state o' = DONE /\ scanned rows o' /\ has_sticky o' = false /\
     future_seen o' = 0 /\ reopen o' = 0).
Proof.
  intros Hi. unfold finalize. destruct (bool_decide _) eqn:Est; cbn [negb]; [|by split].
  bool_to_prop. rewrite !elem_of_cons, elem_of_nil in Est. unfold scan_inv in Hi.
  assert (Hl : live o) by (destruct Est as [E | [E | []]]; rewrite E in Hi; tauto).
  pose proof (cleanup_inv rows faults o Hl) as Hc. destruct (_cleanup faults o) as [cl o'].
  destruct Hc as (Hi' & Hd & Hs & Hst & Hf & Hsc & Hre & Hcl). split; [done|].
  destruct (bool_decide (state o = EXHAUSTED)) eqn:Ee; cbn [andb]; [|done]. bool_to_prop. rewrite Ee in Hi.
  destruct Hi as (_ & (A1 & A2 & A3 & A4) & A5). rewrite Hs, A1. cbn [negb andb].
  rewrite Hf. destruct (future_seen o =? 0) eqn:Ef; cbn [andb negb]; [|done].
  destruct (bool_decide (cl = OK)) eqn:Ec; cbn [andb negb]; [|done]. bool_to_prop.
  rewrite (Hre Ec A1 A2). cbn. intros _. split_and!; try done. apply Hsc.
  rewrite A5, take_ge in A4; [done | unfold len; lia].
Qed.

Lemma abort_inv rows faults o : scan_inv rows o -> scan_inv rows (abort faults o).2.
Proof.
  intros Hi. unfold abort. destruct (bool_decide _) eqn:Est; cbn [negb]; [|done].
  bool_to_prop. rewrite !elem_of_cons, elem_of_nil in Est. unfold scan_inv in Hi.
  assert (Hl : live o) by (destruct Est as [E | [E | [E | []]]]; rewrite E in Hi; tauto).
  pose proof (cleanup_inv rows faults o Hl) as Hc. destruct (_cleanup faults o) as [cl o']. tauto.
Qed.

Lemma advance_inv rows faults b o : scan_inv rows o -> scan_inv rows (advance rows b faults o).2.
Proof.
  intros Hi. unfold advance. destruct (bool_decide _) eqn:E; cbn [negb]; [|done]. bool_to_prop.
  destruct (b =? 0); [done|]. unfold scan_inv in Hi. rewrite E in Hi. destruct Hi. by apply advance_loop_inv.
Qed.

Lemma begin_any_inv rows faults o : scan_inv rows o -> scan_inv rows (begin faults o).2.
Proof.
  intros Hi. destruct (decide (state o = IDLE)) as [E|E].
  - unfold scan_inv in Hi. rewrite E in Hi. subst o. apply begin_inv.
  - unfold begin. by rewrite bool_decide_false.
Qed.

(** ** Runs of a case *)

(** What holds whenever a case stops, whatever its calls and faults. *)
Definition run_inv (rows : list row) (r : run) : Prop :=
  scan_inv rows (oracle r) /\
  (adopted r <> 0 -> adopted r = 1 /\ state (oracle r) = DONE /\ scanned rows (oracle r) /\
     has_sticky (oracle r) = false /\ future_seen (oracle r) = 0 /\ reopen (oracle r) = 0).

(** A finished scan is not touched by any further call. *)
Lemma done_absorbs rows faults o :
  state o = DONE -> begin faults o = (INVALID_STATE, o) /\ (forall b, advance rows b faults o = (INVALID_STATE, o)) /\
  finalize faults o = (INVALID_STATE, 0, o) /\ abort faults o = (INVALID_STATE, o).
Proof. intros E. unfold begin, advance, finalize, abort. by rewrite E. Qed.

Lemma run_call_inv rows faults c r r' : run_inv rows r -> run_call rows faults c r = Ok r' -> run_inv rows r'.
Proof.
  intros [Hi Ha] H. destruct c; cbn in H; [| | | |discriminate].
  - pose proof (begin_any_inv rows faults _ Hi) as Hi'. destruct (begin faults (oracle r)) as [st o] eqn:E. inv_res.
    split; [done|]. cbn. intros Had. destruct (Ha Had) as (? & Hd & ?).
    destruct (done_absorbs rows faults _ Hd) as (Eb & _). rewrite Eb in E. by injection E as <- <-.
  - pose proof (advance_inv rows faults row_budget _ Hi) as Hi'. destruct (advance rows row_budget faults (oracle r)) as [st o] eqn:E.
    inv_res. split; [done|]. cbn. intros Had. destruct (Ha Had) as (? & Hd & ?).
    destruct (done_absorbs rows faults _ Hd) as (_ & Eb & _). rewrite Eb in E. by injection E as <- <-.
  - pose proof (finalize_inv rows faults _ Hi) as Hf. destruct (finalize faults (oracle r)) as [[st ad] o]. inv_res.
    destruct Hf as [Hi' Hf]. split; [done|]. cbn. intros Had. by destruct (Hf Had) as (? & _ & ?).
  - pose proof (abort_inv rows faults _ Hi) as Hi'. destruct (abort faults (oracle r)) as [st o]. inv_res. by split.
Qed.

Lemma run_calls_inv rows faults calls r r' :
  run_inv rows r -> run_calls rows faults calls r = Ok r' -> run_inv rows r'.
Proof.
  revert r. induction calls as [|c calls IH]; intros r Hi H; [cbn in H; inv_res; done|]. cbn in H. inv_res.
  eapply IH; [|exact H]. by eapply run_call_inv.
Qed.

Lemma run_inv_init rows : run_inv rows (Run OK 0 oracle_init).
Proof. split; done. Qed.

(** ** Budgets *)

Lemma advance_once_some rows faults o st o' :
  advance_once rows faults o = (Some st, o') -> state o' = FAILED \/ state o' = EXHAUSTED.
Proof.
  unfold advance_once, scan_row, fail_scan. intros H. repeat case_match; simplify_eq; cbn; auto.
Qed.

Lemma advance_once_none rows faults o o' : advance_once rows faults o = (None, o') -> state o' = state o.
Proof. unfold advance_once, scan_row, fail_scan. intros H. repeat case_match; simplify_eq; done. Qed.

Lemma advance_loop_add rows faults n m o st o1 :
  state o = OPEN -> advance_loop n rows faults o = (st, o1) -> state o1 = OPEN ->
  advance_loop (n + m) rows faults o = advance_loop m rows faults o1.
Proof.
  revert o. induction n as [|n IH]; intros o Ho E Ho1; cbn in E |- *; [by injection E as _ <-|].
  destruct (advance_once rows faults o) as [[st1|] o2] eqn:E2.
  - injection E as <- <-. destruct (advance_once_some _ _ _ _ _ E2); congruence.
  - apply IH; [|done..]. by rewrite (advance_once_none _ _ _ _ E2).
Qed.

(** ** The fault-free scan *)

(** The verdict on a sequence of rows. *)
Definition scan_verdict (rows : list row) : status * Z :=
  if clean rows then if existsb is_future rows then (UNSUPPORTED, 0) else (OK, 1)
  else (STORAGE_CORRUPT, 0).

Lemma clean_take n rows : clean rows = true -> clean (take n rows) = true.
Proof. rewrite <- (take_drop n rows) at 1. apply clean_app_l. Qed.

Lemma advance_once_fault_free rows o :
  live o -> at_row rows o -> state o = OPEN -> len rows <= U64_MAX ->
  (exists o', advance_once rows [] o = (Some OK, o') /\ state o' = EXHAUSTED /\ clean rows = true) \/
  (exists o', advance_once rows [] o = (Some STORAGE_CORRUPT, o') /\ state o' = FAILED /\ clean rows = false /\
     sticky o' = STORAGE_CORRUPT) \/
  (exists o', advance_once rows [] o = (None, o') /\ iter_pos o' = iter_pos o + 1 /\ iter_pos o < len rows).
Proof.
  intros Hl (Hs & Hf & Hpos & Hsc) Ho Hlen. unfold advance_once. cbn [find_fault find default String.eqb fmap option_fmap option_map].
  cbn. destruct (rows !! Z.to_nat (iter_pos o)) as [[k v]|] eqn:Er.
  - pose proof (lookup_lt_Some _ _ _ Er) as Hlt.
    assert (Hsc' : scanned (take (Z.to_nat (iter_pos o)) rows) (trace Iter_next o)) by (by destruct Hsc; split).
    pose proof (scan_row_spec _ (k, v) _ Hsc') as Hrow. cbn [fst snd] in Hrow.
    rewrite <- (take_S_r rows _ (k, v)) in Hrow by done.
    destruct Hrow as [[-> Hbad] | (o1 & -> & _ & _ & Hp1 & _)].
    + right. left. eexists. split; [reflexivity|]. cbn. split; [done|].
      split; [|unfold _set_sticky; cbn; by rewrite Hs].
      destruct (clean rows) eqn:Ec; [|done]. destruct Hbad as [Hbad | Hbad].
      * by rewrite clean_take in Hbad.
      * unfold len in *. rewrite length_take in Hbad. lia.
    + right. right. exists o1. split; [done|]. split; [done | unfold len; lia].
  - left. apply lookup_ge_None in Er. eexists. split; [reflexivity|]. cbn. split; [done|].
    rewrite <- (take_ge rows (Z.to_nat (iter_pos o))) by done. apply Hsc.
Qed.

Lemma advance_loop_fault_free rows n o :
  live o -> at_row rows o -> state o = OPEN -> len rows <= U64_MAX -> len rows - iter_pos o < Z.of_nat n ->
  exists st o', advance_loop n rows [] o = (st, o') /\
    (clean rows = true /\ state o' = EXHAUSTED \/
     clean rows = false /\ state o' = FAILED /\ sticky o' = STORAGE_CORRUPT).
Proof.
  revert o. induction n as [|n IH]; intros o Hl Ha Ho Hlen Hn.
  { destruct Ha as (_ & _ & Hp & _). lia. }
  cbn [advance_loop]. destruct (advance_once_fault_free rows o Hl Ha Ho Hlen) as [(o' & E & ? & ?) | [(o' & E & ? & ? & ?) | (o' & E & Hp & ?)]];
    rewrite E.
  - exists OK, o'. split; [done|]. by left.
  - exists STORAGE_CORRUPT, o'. split; [done|]. by right.
  - destruct (advance_once_inv _ _ _ _ _ Hl Ha Ho E) as [Hi Hst]. unfold scan_inv in Hi. rewrite Hst in Hi by done.
    destruct Hi. apply IH; auto. lia.
Qed.

Lemma cleanup_fault_free o :
  live o -> fence_pending o = false ->
  exists o', _cleanup [] o = (OK, o') /\ state o' = DONE /\ has_sticky o' = has_sticky o /\ sticky o' = sticky o /\
    future_seen o' = future_seen o /\ reopen o' = 0.
Proof.
  intros (H1 & H2 & H3 & _) Hf. unfold _cleanup. rewrite H1, H2. cbn [andb txn_live set_live trace find_fault find].
  eexists. split; [reflexivity|]. cbn. by rewrite Hf.
Qed.

(** ** The NLR1 envelope *)

Definition nlr1_body (t v : Z) (payload : bytes) : bytes :=
  (bytes_of_string "NLR1" ++ be_bytes 2 t ++ be_bytes 2 v ++ be_bytes 4 (len payload)) ++ payload.

Lemma len_nlr1_body t v p : len (nlr1_body t v p) = 12 + len p.
Proof. unfold nlr1_body. simpl_lens. change (len (bytes_of_string "NLR1")) with 4. lia. Qed.

Lemma nlr1_body_ok t v p : bytes_ok p -> bytes_ok (nlr1_body t v p).
Proof. intros. unfold nlr1_body. solve_bytes. Qed.

Lemma nlr1_closed t v p :
  0 <= t < 65536 -> 0 <= v < 65536 -> bytes_ok p -> len p < 2 ^ 32 ->
  nlr1 t v p = Ok (nlr1_body t v p ++ be_bytes 4 (crc32c (nlr1_body t v p))).
Proof.
  intros Ht Hv Hp Hl. pose proof (len_nonneg p). unfold nlr1, u16, u32.
  rewrite (pack_bind 2 t), (pack_bind 2 v), (pack_bind 4 (len p)) by (pack_range; lia). cbv zeta.
  fold (nlr1_body t v p). by rewrite (pack_checksum crc32c (nlr1_body t v p)) by (by apply nlr1_body_ok).
Qed.

Lemma nlr1_valid_spec value :
  nlr1_valid value = true <->
  let n := be_val (slice 8 12 value) in
  16 <= len value <= 4096 /\ slice 0 4 value = bytes_of_string "NLR1" /\ n = len value - 16 /\
  be_val (slice (12 + n) (16 + n) value) = crc32c (slice 0 (12 + n) value).
Proof.
  unfold nlr1_valid. cbv zeta. split.
  - intros H. case_ifs H. bool_to_prop. naive_solver lia.
  - intros (H1 & H2 & H3 & H4). rewrite (proj2 (Z.ltb_ge _ _)), (proj2 (Z.ltb_ge _ _)), bool_decide_true by (done || lia).
    cbn [orb negb]. rewrite (proj2 (Z.eqb_eq _ _) H3), (proj2 (Z.ltb_ge _ _)) by lia. cbn [orb negb].
    by apply Z.eqb_eq.
Qed.

Lemma nlr1_valid_trailer value : nlr1_valid value = true -> trailer_ok crc32c value.
Proof.
  intros (H1 & _ & H3 & H4)%nlr1_valid_spec. split; [lia|]. cbv zeta in *.
  replace (len value - 4) with (12 + be_val (slice 8 12 value)) by lia. rewrite <- H4. do 2 f_equal. lia.
Qed.

Lemma nlr1_valid_closed t v p :
  bytes_ok p -> len p <= 4080 -> nlr1_valid (nlr1_body t v p ++ be_bytes 4 (crc32c (nlr1_body t v p))) = true.
Proof.
  intros Hp Hl. pose proof (len_nonneg p). apply nlr1_valid_spec. cbv zeta.
  assert (Hn : be_val (slice 8 12 (nlr1_body t v p ++ be_bytes 4 (crc32c (nlr1_body t v p)))) = len p).
  { unfold nlr1_body at 1. rewrite <- !app_assoc. change (bytes_of_string "NLR1") with [78; 76; 82; 49].
    read_slices. rewrite be_val_be_bytes. apply Z.mod_small. cbn. lia. }
  rewrite Hn, len_app, len_nlr1_body, len_be_bytes. split_and!; try lia.
  - unfold nlr1_body at 1. rewrite <- !app_assoc. change (bytes_of_string "NLR1") with [78; 76; 82; 49]. by read_slices.
  - rewrite slice_app_skip by (rewrite ?len_nlr1_body, ?len_be_bytes; lia).
    rewrite slice_app_exact by (rewrite len_nlr1_body; lia).
    apply (be_val_checksum crc32c). by apply nlr1_body_ok.
Qed.

Lemma be_val_field value lo n :
  bytes_ok value -> 0 <= lo -> lo + Z.of_nat n <= len value ->
  0 <= be_val (slice lo (lo + Z.of_nat n) value) < 256 ^ Z.of_nat n.
Proof.
  intros H Hlo Hhi. pose proof (be_val_bounds (slice lo (lo + Z.of_nat n) value) (bytes_ok_slice _ _ _ H)) as Hb.
  rewrite len_slice in Hb by lia. by replace (lo + Z.of_nat n - lo) with (Z.of_nat n) in Hb by lia.
Qed.

Lemma nlr1_valid_is_envelope value :
  bytes_ok value -> nlr1_valid value = true ->
  exists t v p, 0 <= t < 65536 /\ 0 <= v < 65536 /\ bytes_ok p /\ len p <= 4080 /\ nlr1 t v p = Ok value.
Proof.
  intros Hok H. apply nlr1_valid_spec in H. cbv zeta in H. destruct H as (Hl & Hm & Hn & Hc).
  set (n := be_val (slice 8 12 value)) in *.
  assert (Hp : len (slice 12 (12 + n) value) = n) by (rewrite len_slice by lia; lia).
  pose proof (be_val_field value 4 2 Hok ltac:(lia) ltac:(lia)) as Ht.
  pose proof (be_val_field value 6 2 Hok ltac:(lia) ltac:(lia)) as Hv.
  exists (be_val (slice 4 6 value)), (be_val (slice 6 8 value)), (slice 12 (12 + n) value).
  split; [exact Ht|]. split; [exact Hv|]. split; [by apply bytes_ok_slice|]. split; [rewrite Hp; lia|].
  rewrite nlr1_closed; [|exact Ht | exact Hv | by apply bytes_ok_slice | rewrite Hp; lia].
  assert (Hb : nlr1_body (be_val (slice 4 6 value)) (be_val (slice 6 8 value)) (slice 12 (12 + n) value)
               = slice 0 (12 + n) value).
  { unfold nlr1_body. rewrite Hp, <- Hm.
    rewrite (be_bytes_slice 2 4 6 value), (be_bytes_slice 2 6 8 value), (be_bytes_slice 4 8 12 value) by (done || lia).
    rewrite <- !slice_split by lia. done. }
  rewrite Hb, <- Hc, (be_bytes_slice 4 (12 + n) (16 + n) value) by (done || lia).
  rewrite <- slice_split by lia. f_equal. apply slice_whole; lia.
Qed.

(** ** Properties *)

(** C1. An adopted scan is a clean one, whatever the calls and the faults: every
    row was read and is well formed, the keys are strictly increasing and
    distinct, no row is of a future version, the counters are the exact counts
    of each class, and the storage was not closed under the scan. *)
Theorem adopted_scan_is_clean raw rows faults calls r :
  decode_rows raw = Ok rows -> run_case raw faults calls = Ok r -> adopted r <> 0 ->
  adopted r = 1 /\ clean rows = true /\ existsb is_future rows = false /\ NoDup (map fst rows) /\
  ok_rows (oracle r) = len rows /\ family14 (oracle r) = count is_family14 rows /\
  current (oracle r) = count is_current rows /\ state (oracle r) = DONE /\ reopen (oracle r) = 0.
Proof.
  unfold run_case. intros -> H Had. rewrite ok_bind in H.
  destruct (run_calls_inv rows faults calls _ r (run_inv_init rows) H) as [_ Ha].
  destruct (Ha Had) as (A1 & A2 & [Hc Hb Ho H14 Hcur Hf _] & _ & A4 & A5).
  split_and!; try done.
  - rewrite A4 in Hf. by destruct (existsb is_future rows).
  - apply ascending_NoDup. unfold clean in Hc. by apply andb_true_iff in Hc as [_ Hc].
Qed.

(** The port calls follow the storage protocol for every call sequence and
    every fault script: nothing before [begin], only iterator steps while the
    scan is open, and at the end one of the complete traces, where each handle
    is released once, in reverse order, and the storage is closed at most once,
    last; no mutating call is ever made. *)
Theorem port_trace_protocol raw faults calls r :
  run_case raw faults calls = Ok r ->
  mutation_calls (oracle r) = 0 /\
  (state (oracle r) = IDLE /\ port_trace (oracle r) = [] \/
   state (oracle r) ∈ [OPEN; EXHAUSTED; FAILED] /\ (exists n, port_trace (oracle r) = scan_trace n) \/
   state (oracle r) = DONE /\ complete_trace (port_trace (oracle r)) /\ txn_live (oracle r) = false /\
     iter_live (oracle r) = false /\ reopen (oracle r) = close_count (oracle r) /\
     close_count (oracle r) = count_port Close (port_trace (oracle r))).
Proof.
  unfold run_case. intros H. inv_res. rename a into rows.
  destruct (run_calls_inv rows faults calls _ r (run_inv_init rows) H) as [Hi _]. unfold scan_inv in Hi.
  rewrite !elem_of_cons, elem_of_nil. destruct (state (oracle r)) eqn:Est.
  - rewrite Hi. split; [done|]. by left.
  - destruct Hi as [(? & ? & ? & ? & ? & ?) _]. split; [done|]. right. left. auto.
  - destruct Hi as [(? & ? & ? & ? & ? & ?) _]. split; [done|]. right. left. auto.
  - destruct Hi as [(? & ? & ? & ? & ? & ?) _]. split; [done|]. right. left. auto.
  - destruct Hi as (? & ? & ? & ? & ? & ? & ?). split; [done|]. right. right. done.
Qed.

(** Splitting the row budget over several [advance] calls changes nothing: as
    long as the scan is still open, two calls have the same status and leave the
    same scanner (counters, trace and all) as one call with the summed budget,
    under any fault script. *)
Theorem advance_split rows faults b1 b2 o st o1 :
  0 < b1 -> 0 < b2 -> advance rows b1 faults o = (st, o1) -> state o1 = OPEN ->
  advance rows (b1 + b2) faults o = advance rows b2 faults o1.
Proof.
  intros H1 H2 E Ho1. unfold advance in *. destruct (bool_decide (state o = OPEN)) eqn:Ho; cbn [negb] in *.
  - bool_to_prop. rewrite bool_decide_true by done. cbn [negb].
    rewrite (proj2 (Z.eqb_neq b1 0)) in E by lia. rewrite !(proj2 (Z.eqb_neq _ 0)) by lia.
    rewrite Z2Nat.inj_add by lia. by eapply advance_loop_add.
  - injection E as <- <-. bool_to_prop. congruence.
Qed.

(** C30. Without faults, a scan with a budget beyond the number of rows runs to
    its end and gives exactly the verdict of the rows: corrupt when a row is
    malformed or the keys do not increase, unsupported when a row is of a future
    version, adopted otherwise. *)
Theorem fault_free_scan_verdict raw rows budget :
  decode_rows raw = Ok rows -> len rows <= U64_MAX -> len rows < budget ->
  exists r, run_case raw [] [CBegin; CAdvance budget; CFinalize] = Ok r /\ state (oracle r) = DONE /\
    (final_status r, adopted r) = scan_verdict rows.
Proof.
  intros Hd Hlen Hb. unfold run_case. rewrite Hd, ok_bind. cbn [run_calls run_call oracle].
  pose proof (begin_inv rows []) as Hi. destruct (begin [] oracle_init) as [st0 o0] eqn:E0.
  assert (Hopen : state o0 = OPEN) by (vm_compute in E0; by injection E0 as <- <-). cbn [snd] in Hi.
  unfold scan_inv in Hi. rewrite Hopen in Hi. destruct Hi as [Hl Ha]. rewrite ok_bind. cbn [oracle adopted].
  assert (Hp0 : iter_pos o0 = 0) by (vm_compute in E0; by injection E0 as <- <-).
  pose proof (len_nonneg rows).
  destruct (advance_loop_fault_free rows (Z.to_nat budget) o0 Hl Ha Hopen Hlen) as (st1 & o1 & E1 & Hend); [lia|].
  unfold advance at 1. rewrite bool_decide_true by done. cbn [negb]. rewrite (proj2 (Z.eqb_neq budget 0)) by lia.
  rewrite E1, ok_bind. cbn [oracle adopted].
  pose proof (advance_loop_inv rows [] (Z.to_nat budget) o0 Hl Ha Hopen) as Hi1. rewrite E1 in Hi1. cbn [snd] in Hi1.
  unfold scan_inv in Hi1. unfold finalize, scan_verdict.
  destruct Hend as [[Hc Hs1] | (Hc & Hs1 & Hst)]; rewrite Hs1 in Hi1 |- *; rewrite Hc.
  - destruct Hi1 as (Hl1 & (A1 & A2 & A3 & A4) & A5).
    destruct (cleanup_fault_free o1 Hl1 A2) as (o2 & -> & B1 & B2 & B3 & B4 & B5).
    rewrite bool_decide_true by (apply list_elem_of_here). cbn [negb].
    eexists. split; [reflexivity|]. cbn. split; [done|]. rewrite B2, A1, B4, B5. cbn.
    rewrite A5, take_ge in A4 by (unfold len; lia). destruct A4 as [_ _ _ _ _ Hf _]. rewrite Hf.
    by destruct (existsb is_future rows).
  - destruct Hi1 as (Hl1 & A1).
    assert (Hcl : exists cl o2, _cleanup [] o1 = (cl, o2) /\ state o2 = DONE /\ has_sticky o2 = true /\ sticky o2 = STORAGE_CORRUPT).
    { pose proof (cleanup_inv rows [] o1 Hl1) as Hcl. destruct (_cleanup [] o1) as [cl o2].
      destruct Hcl as (_ & ? & B2 & B3 & _). exists cl, o2. split_and!; congruence. }
    destruct Hcl as (cl & o2 & -> & B1 & B2 & B3).
    rewrite bool_decide_true by (apply list_elem_of_further, list_elem_of_here). cbn [negb].
    eexists. split; [reflexivity|]. cbn. split; [done|]. by rewrite B2, B3.
Qed.

(** The NLR1 validator accepts exactly the envelopes the encoder makes of
    payloads of at most 4080 bytes, and any single corrupted byte of an accepted
    envelope makes it refuse. *)
Theorem nlr1_valid_exact value :
  bytes_ok value ->
  (nlr1_valid value = true <->
   exists t v p, 0 <= t < 65536 /\ 0 <= v < 65536 /\ bytes_ok p /\ len p <= 4080 /\ nlr1 t v p = Ok value) /\
  (nlr1_valid value = true -> forall value', bytes_ok value' -> one_byte_apart value value' -> nlr1_valid value' = false).
Proof.
  intros Hok. split; [split|].
  - intros H. by apply nlr1_valid_is_envelope.
  - intros (t & v & p & Ht & Hv & Hp & Hl & E). rewrite nlr1_closed in E by (done || lia). injection E as <-.
    by apply nlr1_valid_closed.
  - intros H value' Hok' Hd. apply not_true_is_false. intros H'.
    by apply (trailer_detects crc32c value value' Hok Hok'); [apply nlr1_valid_trailer..|].
Qed.

(** ** Witnesses *)

Definition sample_rows : list (string * string) :=
  [(hex_of runtime_key_binding, "00"%string); (hex_of runtime_key_identity, ""%string);
   (hex_of (ROOT_V1 ++ [0x05; 0x01; 1; 2; 16] ++ zeros 16), "ff"%string)].
Definition sample_decoded : list row :=
  match decode_rows sample_rows with Ok l => l | Raise _ => [] end.
Definition sample_calls : list call := [CBegin; CAdvance 2; CAdvance 5; CFinalize].
Definition sample_run_result : run :=
  match run_case sample_rows [] sample_calls with Ok r => r | Raise _ => Run OK 0 oracle_init end.

Lemma adopted_scan_is_clean_witness :
  adopted sample_run_result = 1 /\ clean sample_decoded = true /\ ok_rows (oracle sample_run_result) = 3.
Proof.
  destruct (adopted_scan_is_clean sample_rows sample_decoded [] sample_calls sample_run_result) as
    (H1 & H2 & _ & _ & H3 & _); [vm_compute; reflexivity | vm_compute; reflexivity | vm_compute; discriminate|].
  split; [exact H1|]. split; [exact H2|]. rewrite H3. vm_compute. reflexivity.
Defined.

Definition faulty : list fault := [Fault "iter_next" 2 "unknown" "OK"].
Definition faulty_run : run :=
  match run_case sample_rows faulty sample_calls with Ok r => r | Raise _ => Run OK 0 oracle_init end.

Lemma port_trace_protocol_witness :
  state (oracle faulty_run) = DONE /\ mutation_calls (oracle faulty_run) = 0 /\
  complete_trace (port_trace (oracle faulty_run)).
Proof.
  assert (E : state (oracle faulty_run) = DONE) by (vm_compute; reflexivity).
  destruct (port_trace_protocol sample_rows faulty sample_calls faulty_run) as [H1 H2]; [vm_compute; reflexivity|].
  split; [exact E|]. split; [exact H1|].
  destruct H2 as [[H _] | [[H _] | (_ & H & _)]]; [rewrite E in H; discriminate H | | exact H].
  rewrite E in H. repeat (apply elem_of_cons in H as [H|H]; [discriminate H|]). by apply elem_of_nil in H.
Defined.

Definition opened : ScannerOracle := (begin [] oracle_init).2.

Lemma advance_split_witness :
  advance sample_decoded 3 [] opened = advance sample_decoded 1 [] (advance sample_decoded 2 [] opened).2.
Proof.
  apply (advance_split sample_decoded [] 2 1 opened OK);
    [reflexivity | reflexivity | vm_compute; reflexivity | vm_compute; reflexivity].
Defined.

Lemma fault_free_scan_verdict_witness :
  exists r, run_case sample_rows [] [CBegin; CAdvance 9; CFinalize] = Ok r /\ (final_status r, adopted r) = (OK, 1).
Proof.
  destruct (fault_free_scan_verdict sample_rows sample_decoded 9) as (r & H1 & _ & H2);
    [vm_compute; reflexivity | vm_compute; discriminate | vm_compute; reflexivity|].
  exists r. split; [exact H1|]. rewrite H2. vm_compute. reflexivity.
Defined.

Definition sample_envelope : bytes := match nlr1 6 2 [1; 2; 3; 4] with Ok v => v | Raise _ => [] end.

Lemma nlr1_valid_exact_witness :
  nlr1_valid sample_envelope = true /\ nlr1_valid (0 :: drop 1 sample_envelope) = false.
Proof.
  assert (Hok : bytes_ok sample_envelope) by (apply (bool_decide_unpack (bytes_ok sample_envelope)); vm_compute; exact I).
  assert (H : nlr1_valid sample_envelope = true) by (vm_compute; reflexivity).
  split; [exact H|].
  apply (proj2 (nlr1_valid_exact sample_envelope Hok) H).
  - apply (bool_decide_unpack (bytes_ok (0 :: drop 1 sample_envelope))). vm_compute. exact I.
  - exists [], 78, 0, (drop 1 sample_envelope). split; [vm_compute; reflexivity|]. split; [reflexivity | discriminate].
Defined.
