(* ===== verification/Rrmp.v ===== *)
(** Routes, relays and multiple parents, from
    tools/route_relay_multiparent_spec_vector_gen.py: the drain formula, the
    derived keys, and the binary records (NRM1 management records, slots, NRP1
    pages, the NRD1 directory, NEV1 evidence, NPS1 parent sets, NOA1 assignments
    and the NPH1, NPP1, NEP1, NPT1 and NPA1 pages). *)

From S2P Require Import Prelude Bytes Crc Sha256 Layout Tables.

Definition NRM1_BYTES : Z := 256.
Definition NRP1_HEADER_BYTES : Z := 20.
Definition SLOT_BYTES : Z := 508.
Definition SLOTS_PER_PAGE : Z := 8.
Definition NRP1_BYTES : Z := NRP1_HEADER_BYTES + SLOTS_PER_PAGE * SLOT_BYTES + 12.
Definition PAGE_COUNT : Z := 16.
Definition ROUTE_MAX : Z := 128.
Definition DIR_BYTES : Z := 256.
Definition NOA1_BYTES : Z := 400.
Definition NPS1_BYTES : Z := 256.
Definition ASSIGNMENT_SLOT_BYTES : Z := 472.
Definition ASSIGNMENT_SLOTS_PER_PAGE : Z := 8.
Definition NPA1_HEADER_BYTES : Z := 16.
Definition NPA1_BYTES : Z := 4096.
Definition NPH1_BYTES : Z := 256.
Definition NPT1_HEADER_BYTES : Z := 24.
Definition NPT1_SLOT_BYTES : Z := 48.
Definition NPT1_SLOTS_PER_PAGE : Z := 84.
Definition NPT1_BYTES : Z := 4096.
Definition EVIDENCE_BYTES : Z := 128.
Definition NEV1_BYTES : Z := EVIDENCE_BYTES.
Definition NEP1_HEADER_BYTES : Z := 24.
Definition NEP1_SLOTS : Z := 31.
Definition NEP1_PAGE_COUNT : Z := 4.
Definition NEP1_BYTES : Z := NEP1_HEADER_BYTES + NEP1_SLOTS * NEV1_BYTES + 104.
Definition EVIDENCE_LIFECYCLE_LIVE : Z := 1.
Definition EVIDENCE_LIFECYCLE_COMPLETED : Z := 2.
Definition NPP1_HEADER_BYTES : Z := 16.
Definition NPP1_SLOTS : Z := 15.
Definition NPP1_BYTES : Z := NPP1_HEADER_BYTES + NPP1_SLOTS * NPS1_BYTES + 240.
Definition NPP1_PAGE_COUNT : Z := 5.
Definition MAX_LINK_GROUPS : Z := 13.
Definition MAX_ATTEMPTS : Z := 3.
Definition MAX_AIRTIME_BUDGET_MS : Z := 60000.

Definition crc32c : bytes -> Z := crc32c_xorout.

(** ** The drain formula *)

Definition checked_add_u64 (a b : Z) : option Z :=
  if (a <? 0) || (b <? 0) || (U64_MAX <? a) || (U64_MAX <? b) then None
  else let s := a + b in if U64_MAX <? s then None else Some s.
Definition checked_mul_u64 (a b : Z) : option Z :=
  if (a <? 0) || (b <? 0) || (U64_MAX <? a) || (U64_MAX <? b) then None
  else let p := a * b in if U64_MAX <? p then None else Some p.
Definition checked_add_u32 (a b : Z) : option Z :=
  if (a <? 0) || (b <? 0) || (U32_MAX <? a) || (U32_MAX <? b) then None
  else let s := a + b in if U32_MAX <? s then None else Some s.

Record drain_in := DrainIn {
  now_ms : Z; remaining_link_groups : Z; remaining_attempts : Z; max_airtime_ms : Z; turnaround_ms : Z;
  link_ack_wait_ms : Z; scheduler_guard_ms : Z; inter_group_gap_ms : Z; item_deadline_ms : Z;
  drain_deadline_ms : Z; lease_deadline_ms : Z
}.

(** The result dictionary; [None] is Python's [None]. *)
Record drain_out := DrainOut {
  eligible : Z; reason : string; link_group_cost_ms : option Z; work_ms : option Z; gaps_ms : option Z;
  completion_ms : option Z; deadline_min_ms : option Z; airtime_total_ms : option Z
}.

(** [x or -1] on an optional integer. *)
Definition or_minus_one (x : option Z) : Z := match x with Some v => if v =? 0 then -1 else v | None => -1 end.

(** [f(x) if x is not None else None]. *)
Definition if_some (x : option Z) (f : Z -> option Z) : option Z :=
  match x with Some v => f v | None => None end.

Definition drain_completion (i : drain_in) : drain_out :=
  let f := remaining_link_groups i in
  let r := remaining_attempts i in
  if (f <? 1) || (MAX_LINK_GROUPS <? f) then DrainOut 0 "LINK_GROUPS_RANGE" None None None None None None
  else if (r <? 1) || (MAX_ATTEMPTS <? r) then DrainOut 0 "ATTEMPTS_RANGE" None None None None None None
  else
    let timing := [("max_airtime_ms_RANGE", max_airtime_ms i); ("turnaround_ms_RANGE", turnaround_ms i);
      ("link_ack_wait_ms_RANGE", link_ack_wait_ms i); ("scheduler_guard_ms_RANGE", scheduler_guard_ms i);
      ("inter_group_gap_ms_RANGE", inter_group_gap_ms i)]%string in
    match find (fun nv : string * Z => (nv.2 <? 1) || (3600000 <? nv.2)) timing with
    | Some (name, _) => DrainOut 0 name None None None None None None
    | None =>
        match checked_add_u32 (max_airtime_ms i) (or_minus_one (checked_add_u32 (turnaround_ms i) (link_ack_wait_ms i))) with
        | None => DrainOut 0 "COST_OVERFLOW" None None None None None None
        | Some cost =>
            match if_some (checked_mul_u64 r cost) (checked_mul_u64 f) with
            | None => DrainOut 0 "WORK_OVERFLOW" (Some cost) None None None None None
            | Some work =>
                match checked_mul_u64 (f - 1) (inter_group_gap_ms i) with
                | None => DrainOut 0 "GAPS_OVERFLOW" (Some cost) (Some work) None None None None
                | Some gaps =>
                    match if_some (if_some (checked_add_u64 work gaps) (fun mid => checked_add_u64 mid (scheduler_guard_ms i)))
                            (checked_add_u64 (now_ms i)) with
                    | None => DrainOut 0 "COMPLETION_OVERFLOW" (Some cost) (Some work) (Some gaps) None None None
                    | Some completion =>
                        let airtime_total := checked_mul_u64 f (max_airtime_ms i) in
                        let out el why dl :=
                          DrainOut el why (Some cost) (Some work) (Some gaps) (Some completion) dl airtime_total in
                        if match airtime_total with None => true | Some t => MAX_AIRTIME_BUDGET_MS <? t end
                        then out 0 "AIRTIME_BUDGET"%string None
                        else
                          let deadline := Z.min (Z.min (item_deadline_ms i) (drain_deadline_ms i)) (lease_deadline_ms i) in
                          if deadline <? completion then out 0 "DEADLINE"%string (Some deadline)
                          else if completion <? now_ms i then out 0 "UNDERFLOW"%string (Some deadline)
                          else out 1 "OK"%string (Some deadline)
                    end
                end
            end
        end
    end.

(** ** Derived keys *)

Definition owner_scope_material (endpoint_runtime_id : bytes) (direction : Z) (namespace service : bytes)
    (traffic_class : Z) (path_policy_id : bytes) : res bytes :=
  raise_if (negb (in_range 1 63 (len namespace) && in_range 1 63 (len service))) (ValueError "namespace/service length");;
  raise_if (negb (len endpoint_runtime_id =? 16) || negb (len path_policy_id =? 16)) (ValueError "id length");;
  d ← u8 direction; n ← u16 (len namespace); s ← u16 (len service); t ← u16 traffic_class;
  mret (bytes_of_string "NINLIL-OWNER-SCOPE-V1" ++ endpoint_runtime_id ++ d ++ n ++ namespace ++ s ++ service ++ t ++
        path_policy_id).

Definition owner_scope_id (endpoint_runtime_id : bytes) (direction : Z) (namespace service : bytes)
    (traffic_class : Z) (path_policy_id : bytes) : res bytes :=
  material ← owner_scope_material endpoint_runtime_id direction namespace service traffic_class path_policy_id;
  mret (slice 0 16 (sha256 material)).

Definition loop_key (route_handle route_generation : Z) (e2e_header_digest local_runtime_id : bytes) : res bytes :=
  h ← u16 route_handle; g ← u16 route_generation;
  mret (slice 0 16 (sha256 (bytes_of_string "NINLIL-ROUTE-LOOP-V1" ++ e2e_header_digest ++ h ++ g ++ local_runtime_id))).

Definition dedup_key (ingress_hop_context_id route_handle route_generation : Z) (e2e_header_digest : bytes) : res bytes :=
  c ← u32 ingress_hop_context_id; h ← u16 route_handle; g ← u16 route_generation;
  mret (slice 0 16 (sha256 (bytes_of_string "NINLIL-ROUTE-DEDUP-V1" ++ e2e_header_digest ++ c ++ h ++ g))).

Definition rewrap_e2e_payload (e2e_inner : bytes) : bytes := e2e_inner.

Definition durable_evidence_key (route_handle route_generation admission_seq : Z) (e2e_header_digest : bytes) : res bytes :=
  h ← u16 route_handle; g ← u16 route_generation; a ← u64 admission_seq;
  mret (sha256 (bytes_of_string "NINLIL-ROUTE-EVIDENCE-KEY-V1" ++ e2e_header_digest ++ h ++ g ++ a)).

Definition placement_index (ingress_hop_context_id route_handle route_generation : Z) : Z :=
  Z.lxor (Z.lxor ingress_hop_context_id (Z.shiftl route_handle 16)) route_generation mod ROUTE_MAX.

(** ** Route records *)

Record route_fields := RouteFields {
  authority_id : bytes; controller_term : Z; route_revision : Z; lease_epoch : Z; authority_clock_epoch_id : bytes;
  lease_expiry_ms : Z; ingress_hop_context_id : Z; route_handle : Z; route_generation : Z; egress_peer_id : bytes;
  egress_hop_context_id : Z; egress_route_handle : Z; egress_route_generation : Z; grant_id : bytes;
  queue_quota_entries : Z; queue_quota_bytes : Z; max_hops : Z; ack_policy : Z; terminal_flag : Z;
  path_policy_id : bytes; path_policy_revision : Z
}.

Definition nrm1_body_writes (f : route_fields) : list write :=
  [put 0 4 (Ok (bytes_of_string "NRM1")); put 4 6 (u16 1); put 6 8 (u16 NRM1_BYTES);
   put 8 24 (Ok (authority_id f)); put 24 32 (u64 (controller_term f)); put 32 40 (u64 (route_revision f));
   put 40 48 (u64 (lease_epoch f)); put 48 64 (Ok (authority_clock_epoch_id f)); put 64 72 (u64 (lease_expiry_ms f));
   put 72 76 (u32 (ingress_hop_context_id f)); put 76 78 (u16 (route_handle f)); put 78 80 (u16 (route_generation f));
   put 80 96 (Ok (egress_peer_id f)); put 96 100 (u32 (egress_hop_context_id f));
   put 100 102 (u16 (egress_route_handle f)); put 102 104 (u16 (egress_route_generation f));
   put 104 120 (Ok (grant_id f)); put 120 122 (u16 (queue_quota_entries f)); put 122 124 (u16 0);
   put 124 128 (u32 (queue_quota_bytes f)); put_masked 128 (max_hops f); put_masked 129 (ack_policy f);
   put_masked 130 (terminal_flag f); put_byte 131 0; put 132 148 (Ok (path_policy_id f));
   put 148 156 (u64 (path_policy_revision f)); put_digest sha256 156 156].
Definition nrm1_writes (f : route_fields) : list write := nrm1_body_writes f ++ [put_prefix_crc crc32c 188 188].
Definition encode_nrm1 (f : route_fields) : res bytes := run_writes (nrm1_writes f) (zeros NRM1_BYTES).

Definition exact_writes (f : route_fields) : list write :=
  [put 0 16 (Ok (egress_peer_id f)); put 16 20 (u32 (egress_hop_context_id f)); put 20 22 (u16 (egress_route_handle f));
   put 22 24 (u16 (egress_route_generation f)); put 24 40 (Ok (authority_id f)); put 40 48 (u64 (lease_epoch f));
   put 48 56 (u64 (lease_expiry_ms f)); put 56 72 (Ok (grant_id f)); put 72 74 (u16 (queue_quota_entries f));
   put 74 76 (u16 0); put 76 80 (u32 (queue_quota_bytes f)); put_masked 80 (max_hops f); put_masked 81 (ack_policy f);
   put_masked 82 (terminal_flag f); put_byte 83 0; put 84 88 (u32 (ingress_hop_context_id f));
   put 88 90 (u16 (route_handle f)); put 90 92 (u16 (route_generation f)); put 92 96 (u32 0)].
Definition materialize_exact (f : route_fields) : res bytes := run_writes (exact_writes f) (zeros 96).

Record drain_fields := DrainFields {
  drain_fence : Z; drain_route_revision : Z; drain_drain_deadline_ms : Z; drain_lease_deadline_ms : Z
}.

Definition slot_drain_writes (drain : option drain_fields) : list write :=
  match drain with
  | Some d => [put 388 396 (u64 (drain_fence d)); put 396 404 (u64 (drain_route_revision d));
               put 404 412 (u64 (drain_drain_deadline_ms d)); put 412 420 (u64 (drain_lease_deadline_ms d))]
  | None => []
  end.
Definition slot_writes (state : Z) (f : route_fields) (next_admission_seq : Z) (drain : option drain_fields) : list write :=
  ([put_masked 0 state; put 4 8 (u32 (ingress_hop_context_id f)); put 8 10 (u16 (route_handle f));
    put 10 12 (u16 (route_generation f)); put 12 268 (encode_nrm1 f); put 268 364 (materialize_exact f);
    put 364 380 (Ok (authority_clock_epoch_id f)); put 380 388 (u64 (lease_expiry_ms f))] ++
   slot_drain_writes drain) ++
  [put 420 428 (u64 next_admission_seq); put_digest sha256 428 428; put_prefix_crc crc32c 460 460].
Definition encode_slot (state : Z) (f : route_fields) (next_admission_seq : Z) (drain : option drain_fields) : res bytes :=
  run_writes (slot_writes state f next_admission_seq drain) (zeros SLOT_BYTES).

(** The header common to every page. *)
Definition page_header (magic : string) (page_index page_generation : Z) : list write :=
  [put 0 4 (Ok (bytes_of_string magic)); put 4 6 (u16 1); put 6 8 (u16 page_index); put 8 12 (u32 page_generation)].

Definition page_writes (page_index page_generation : Z) (slots : list (option bytes)) : list write :=
  (page_header "NRP1" page_index page_generation ++
   table_writes 20 SLOT_BYTES Ok 0 slots ++
   [put 12 14 (u16 (bitmap_of 0 slots 0)); put 14 16 (u16 0)]) ++
  [put 16 20 (u32 0); put_crc crc32c 16].
Definition encode_page (page_index page_generation : Z) (slots : list (option bytes)) : res bytes :=
  raise_if (negb (len slots =? SLOTS_PER_PAGE)) (ValueError "slots");;
  run_writes (page_writes page_index page_generation slots) (zeros NRP1_BYTES).

(** A generation of zero leaves its bit clear; every generation is written. *)
Definition nonzero_gen (g : Z) : option Z := if g =? 0 then None else Some g.

(** The bitmap guard stands between the writes of the loops and of the bitmaps,
    as an empty write that may raise. *)
Definition directory_writes (directory_generation : Z) (authority_id : bytes) (controller_term : Z)
    (page_generations evidence : list Z) : list write :=
  ([put 0 4 (Ok (bytes_of_string "NRD1")); put 4 6 (u16 1); put 6 8 (u16 DIR_BYTES); put 8 16 (u64 directory_generation);
    put 16 32 (Ok authority_id); put 32 40 (u64 controller_term)] ++
   table_writes 44 4 u32 0 (map Some page_generations) ++ table_writes 108 4 u32 0 (map Some evidence) ++
   [W 42 42 (fun _ => raise_if (negb (Z.land (bitmap_of 0 (map nonzero_gen evidence) 0) (Z.lnot 0xF) =? 0))
                        (ValueError "evidence bitmap high bits");; Ok []);
    put 40 42 (u16 (bitmap_of 0 (map nonzero_gen page_generations) 0));
    put 42 44 (u16 (bitmap_of 0 (map nonzero_gen evidence) 0))]) ++
  [put 252 256 (u32 0); put_crc crc32c 252].
Definition encode_directory (directory_generation : Z) (authority_id : bytes) (controller_term : Z)
    (page_generations : list Z) (evidence_page_generations : option (list Z)) : res bytes :=
  raise_if (negb (len page_generations =? PAGE_COUNT)) (ValueError "route page_generations");;
  let evidence := default (zeros NEP1_PAGE_COUNT) evidence_page_generations in
  raise_if (negb (len evidence =? NEP1_PAGE_COUNT)) (ValueError "evidence_page_generations");;
  run_writes (directory_writes directory_generation authority_id controller_term page_generations evidence) (zeros DIR_BYTES).

(** ** Evidence and parent records *)

Record evidence := Evidence {
  ev_route_handle : Z; ev_route_generation : Z; ev_admission_seq : Z; ev_e2e_header_digest : bytes;
  outer_rx_counter : Z; outer_tx_counter : Z; local_runtime_id : bytes; hop_remaining_in : Z;
  hop_remaining_out : Z; result_status : Z; lifecycle : Z
}.

Definition evidence_writes (e : evidence) : list write :=
  [put 0 4 (Ok (bytes_of_string "NEV1")); put 4 6 (u16 1); put 6 8 (u16 EVIDENCE_BYTES);
   put 8 10 (u16 (ev_route_handle e)); put 10 12 (u16 (ev_route_generation e)); put 12 20 (u64 (ev_admission_seq e));
   put 20 52 (Ok (ev_e2e_header_digest e)); put 52 60 (u64 (outer_rx_counter e)); put 60 68 (u64 (outer_tx_counter e));
   put 68 84 (Ok (local_runtime_id e)); put_masked 84 (hop_remaining_in e); put_masked 85 (hop_remaining_out e);
   put_masked 86 (lifecycle e); put_byte 87 0; put 88 92 (u32 (result_status e)); put_digest sha256 92 92;
   put_prefix_crc crc32c 124 124].
Definition encode_evidence (e : evidence) : res bytes :=
  raise_if (negb (bool_decide (lifecycle e ∈ [EVIDENCE_LIFECYCLE_LIVE; EVIDENCE_LIFECYCLE_COMPLETED])))
    (ValueError "lifecycle");;
  run_writes (evidence_writes e) (zeros EVIDENCE_BYTES).

Definition parent_set_digest (parent_ids : list bytes) : res bytes :=
  raise_if ((len parent_ids =? 0) || (8 <? len parent_ids)) (ValueError "parent set count");;
  let material := concat parent_ids in
  raise_if (negb (len material =? 16 * len parent_ids)) (ValueError "parent id size");;
  mret (sha256 material).

(** A slot whose size is checked before it is stored. *)
Definition checked_size (n : Z) (e : exn) (v : bytes) : res bytes := raise_if (negb (len v =? n)) e;; mret v.

Definition nps1_writes (owner_scope_id parent_set_id : bytes) (parent_set_revision : Z) (parent_ids : list bytes)
    (dig : bytes) : list write :=
  ([put 0 4 (Ok (bytes_of_string "NPS1")); put 4 6 (u16 1); put 6 8 (u16 NPS1_BYTES); put 8 24 (Ok owner_scope_id);
    put 24 40 (Ok parent_set_id); put 40 48 (u64 parent_set_revision); put_masked 48 (len parent_ids); put 52 84 (Ok dig)] ++
   table_writes 84 16 (checked_size 16 (ValueError "id len")) 0 (map Some parent_ids) ++
   [put_digest sha256 212 212]) ++
  [put 244 248 (u32 0); put_crc crc32c 244].
Definition encode_nps1 (owner_scope_id parent_set_id : bytes) (parent_set_revision : Z) (parent_ids : list bytes) :
    res bytes :=
  let count := len parent_ids in
  raise_if ((count <? 1) || (8 <? count)) (ValueError "count");;
  raise_if (negb (len owner_scope_id =? 16) || negb (len parent_set_id =? 16)) (ValueError "ids");;
  dig ← parent_set_digest parent_ids;
  run_writes (nps1_writes owner_scope_id parent_set_id parent_set_revision parent_ids dig) (zeros NPS1_BYTES).

Definition npp1_writes (page_index page_generation : Z) (slots : list (option bytes)) : list write :=
  (page_header "NPP1" page_index page_generation ++
   table_writes NPP1_HEADER_BYTES NPS1_BYTES (checked_size NPS1_BYTES (ValueError "nps1 size")) 0 slots) ++
  [put 12 16 (u32 0); put_crc crc32c 12].
Definition encode_npp1_page (page_index page_generation : Z) (slots : list (option bytes)) : res bytes :=
  raise_if ((page_index <? 0) || (NPP1_PAGE_COUNT <=? page_index)) (ValueError "page_index");;
  raise_if (negb (len slots =? NPP1_SLOTS)) (ValueError "slots");;
  run_writes (npp1_writes page_index page_generation slots) (zeros NPP1_BYTES).

Record assignment := Assignment {
  as_owner_scope_id : bytes; as_authority_id : bytes; as_controller_term : Z; assignment_epoch : Z;
  assignment_revision : Z; owner_controller_id : bytes; owner_cell_id : bytes; direction : Z; e2e_context_id : Z;
  key_generation : Z; e2e_security_id : bytes; e2e_security_epoch : Z; e2e_binding_digest : bytes;
  as_authority_clock_epoch_id : bytes; lease_not_after_authority_ms : Z; handoff_token_digest : bytes;
  as_parent_set_digest : option bytes; as_parent_set_count : Z; as_parent_set_id : option bytes
}.

Definition noa1_body_writes (f : assignment) : list write :=
  [put 0 4 (Ok (bytes_of_string "NOA1")); put 4 6 (u16 1); put 6 8 (u16 NOA1_BYTES); put 8 24 (Ok (as_owner_scope_id f));
   put 24 40 (Ok (as_authority_id f)); put 40 48 (u64 (as_controller_term f)); put 48 56 (u64 (assignment_epoch f));
   put 56 64 (u64 (assignment_revision f)); put 64 80 (Ok (owner_controller_id f)); put 80 96 (Ok (owner_cell_id f));
   put_masked 96 (direction f); put 97 100 (Ok (zeros 3)); put 100 104 (u32 (e2e_context_id f));
   put 104 112 (u64 (key_generation f)); put 112 128 (Ok (e2e_security_id f)); put 128 136 (u64 (e2e_security_epoch f));
   put 136 168 (Ok (e2e_binding_digest f)); put 168 184 (Ok (as_authority_clock_epoch_id f));
   put 184 192 (u64 (lease_not_after_authority_ms f)); put 192 224 (Ok (handoff_token_digest f));
   put_digest sha256 224 224].

(** The durable parent-set reference, when the assignment has one. *)
Definition noa1_parent_writes (f : assignment) : list write :=
  match as_parent_set_digest f with
  | None => []
  | Some d =>
      put 260 292 (raise_if (negb (len d =? 32) || (as_parent_set_count f <? 1) || (8 <? as_parent_set_count f))
                     (ValueError "parent_set ref");; Ok d) ::
      put_masked 292 (as_parent_set_count f) ::
      match as_parent_set_id f with
      | None => []
      | Some i => [put 296 312 (checked_size 16 (ValueError "parent_set_id") i)]
      end
  end.
Definition encode_noa1 (f : assignment) : res bytes :=
  run_writes ((noa1_body_writes f ++ noa1_parent_writes f) ++ [put 256 260 (u32 0); put_crc crc32c 256]) (zeros NOA1_BYTES).

Definition authority_commit_digest (noa1_body_digest nps1_record_digest handoff_token_digest : bytes)
    (controller_term assignment_revision : Z) : res bytes :=
  t ← u64 controller_term; r ← u64 assignment_revision;
  mret (sha256 (bytes_of_string "NINLIL-PARENT-COMMIT-V1" ++ noa1_body_digest ++ nps1_record_digest ++
                handoff_token_digest ++ t ++ r)).

Record writer_fence := WriterFence {
  wf_authority_id : bytes; writer_controller_id : bytes; wf_controller_term : Z; writer_epoch : Z;
  lease_not_after_ms : Z; wf_authority_clock_epoch_id : bytes; writer_proof_digest : bytes; header_generation : Z;
  assignment_page_bitmap : Z; token_page_bitmap : Z; wf_authority_commit_digest : bytes
}.

Definition nph1_writes (f : writer_fence) : list write :=
  [put 0 4 (Ok (bytes_of_string "NPH1")); put 4 6 (u16 1); put 6 8 (u16 NPH1_BYTES); put 8 24 (Ok (wf_authority_id f));
   put 24 40 (Ok (writer_controller_id f)); put 40 48 (u64 (wf_controller_term f)); put 48 56 (u64 (writer_epoch f));
   put 56 64 (u64 (lease_not_after_ms f)); put 64 80 (Ok (wf_authority_clock_epoch_id f));
   put 80 112 (Ok (writer_proof_digest f)); put 112 120 (u64 (header_generation f));
   put 120 122 (u16 (assignment_page_bitmap f)); put 122 124 (u16 (token_page_bitmap f));
   put 128 160 (Ok (wf_authority_commit_digest f)); put_digest sha256 160 160].
Definition encode_nph1 (f : writer_fence) : res bytes :=
  run_writes (nph1_writes f ++ [put 192 196 (u32 0); put_crc crc32c 192]) (zeros NPH1_BYTES).

(** ** Evidence, token and assignment pages *)

Definition nep1_writes (page_index page_generation : Z) (slots : list bytes) : list write :=
  ((page_header "NEP1" page_index page_generation ++ [put 12 16 (u32 (len slots))]) ++
   table_writes NEP1_HEADER_BYTES NEV1_BYTES (checked_size NEV1_BYTES (ValueError "nev1 size")) 0 (map Some slots)) ++
  [put 20 24 (u32 0); put_crc crc32c 20].
Definition encode_nep1_page (page_index page_generation : Z) (slots : list bytes) : res bytes :=
  raise_if ((page_index <? 0) || (NEP1_PAGE_COUNT <=? page_index)) (ValueError "nep1 page_index");;
  raise_if (NEP1_SLOTS <? len slots) (ValueError "nep1 slots");;
  run_writes (nep1_writes page_index page_generation slots) (zeros NEP1_BYTES).

Record token := Token { t_digest : bytes; t_kind : Z; t_created_ms : Z }.

Definition token_writes (t : token) : list write :=
  [put 0 32 (Ok (t_digest t)); put_masked 32 (t_kind t); put 36 44 (u64 (t_created_ms t)); put_prefix_crc crc32c 44 44].
Definition encode_token (t : token) : res bytes := run_writes (token_writes t) (zeros NPT1_SLOT_BYTES).

Definition npt1_writes (page_index page_generation : Z) (slots : list token) : list write :=
  ((page_header "NPT1" page_index page_generation ++ [put 12 16 (u32 (len slots))]) ++
   table_writes NPT1_HEADER_BYTES NPT1_SLOT_BYTES encode_token 0 (map Some slots)) ++
  [put 20 24 (u32 0); put_crc crc32c 20].
Definition encode_npt1_page (page_index page_generation : Z) (slots : list token) : res bytes :=
  run_writes (npt1_writes page_index page_generation slots) (zeros NPT1_BYTES).

Definition npa1_writes (page_index page_generation : Z) (slots : list (option bytes)) : list write :=
  (page_header "NPA1" page_index page_generation ++
   table_writes NPA1_HEADER_BYTES ASSIGNMENT_SLOT_BYTES (checked_size ASSIGNMENT_SLOT_BYTES (ValueError "slot size")) 0 slots) ++
  [put 12 16 (u32 0); put_crc crc32c 12].
Definition encode_npa1_page (page_index page_generation : Z) (slots : list (option bytes)) : res bytes :=
  raise_if (negb (len slots =? ASSIGNMENT_SLOTS_PER_PAGE)) (ValueError "npa1 slots");;
  run_writes (npa1_writes page_index page_generation slots) (zeros NPA1_BYTES).

(** ** The drain formula, exactly *)

Definition timing_ok (v : Z) : Prop := 1 <= v <= 3600000.
Definition drain_bounds (i : drain_in) : Prop :=
  1 <= remaining_link_groups i <= MAX_LINK_GROUPS /\ 1 <= remaining_attempts i <= MAX_ATTEMPTS /\
  timing_ok (max_airtime_ms i) /\ timing_ok (turnaround_ms i) /\ timing_ok (link_ack_wait_ms i) /\
  timing_ok (scheduler_guard_ms i) /\ timing_ok (inter_group_gap_ms i).
Definition group_cost (i : drain_in) : Z := max_airtime_ms i + (turnaround_ms i + link_ack_wait_ms i).
Definition drain_work (i : drain_in) : Z := remaining_link_groups i * (remaining_attempts i * group_cost i).
Definition drain_gaps (i : drain_in) : Z := (remaining_link_groups i - 1) * inter_group_gap_ms i.
Definition drain_end (i : drain_in) : Z := now_ms i + (drain_work i + drain_gaps i + scheduler_guard_ms i).
Definition drain_deadline (i : drain_in) : Z :=
  Z.min (Z.min (item_deadline_ms i) (drain_deadline_ms i)) (lease_deadline_ms i).

Lemma checked_add_u64_Some a b :
  0 <= a <= U64_MAX -> 0 <= b <= U64_MAX -> a + b <= U64_MAX -> checked_add_u64 a b = Some (a + b).
Proof.
  intros. unfold checked_add_u64. rewrite (proj2 (Z.ltb_ge a 0)), (proj2 (Z.ltb_ge b 0)),
    (proj2 (Z.ltb_ge U64_MAX a)), (proj2 (Z.ltb_ge U64_MAX b)) by lia. cbn [orb]. cbv zeta.
  by rewrite (proj2 (Z.ltb_ge U64_MAX (a + b))) by lia.
Qed.

Lemma checked_add_u64_inv a b s : checked_add_u64 a b = Some s -> 0 <= a <= U64_MAX /\ 0 <= b <= U64_MAX /\ s = a + b /\ s <= U64_MAX.
Proof.
  unfold checked_add_u64. cbv zeta. intros H. case_ifs H. bool_to_prop. injection H as <-. lia.
Qed.

Lemma checked_mul_u64_Some a b :
  0 <= a <= U64_MAX -> 0 <= b <= U64_MAX -> a * b <= U64_MAX -> checked_mul_u64 a b = Some (a * b).
Proof.
  intros. unfold checked_mul_u64. rewrite (proj2 (Z.ltb_ge a 0)), (proj2 (Z.ltb_ge b 0)),
    (proj2 (Z.ltb_ge U64_MAX a)), (proj2 (Z.ltb_ge U64_MAX b)) by lia. cbn [orb]. cbv zeta.
  by rewrite (proj2 (Z.ltb_ge U64_MAX (a * b))) by lia.
Qed.

Lemma checked_add_u32_Some a b :
  0 <= a <= U32_MAX -> 0 <= b <= U32_MAX -> a + b <= U32_MAX -> checked_add_u32 a b = Some (a + b).
Proof.
  intros. unfold checked_add_u32. rewrite (proj2 (Z.ltb_ge a 0)), (proj2 (Z.ltb_ge b 0)),
    (proj2 (Z.ltb_ge U32_MAX a)), (proj2 (Z.ltb_ge U32_MAX b)) by lia. cbn [orb]. cbv zeta.
  by rewrite (proj2 (Z.ltb_ge U32_MAX (a + b))) by lia.
Qed.

(** Inside the bounds no intermediate product or sum leaves its machine width. *)
Lemma drain_arithmetic i :
  drain_bounds i ->
  checked_add_u32 (turnaround_ms i) (link_ack_wait_ms i) = Some (turnaround_ms i + link_ack_wait_ms i) /\
  or_minus_one (Some (turnaround_ms i + link_ack_wait_ms i)) = turnaround_ms i + link_ack_wait_ms i /\
  checked_add_u32 (max_airtime_ms i) (turnaround_ms i + link_ack_wait_ms i) = Some (group_cost i) /\
  checked_mul_u64 (remaining_attempts i) (group_cost i) = Some (remaining_attempts i * group_cost i) /\
  checked_mul_u64 (remaining_link_groups i) (remaining_attempts i * group_cost i) = Some (drain_work i) /\
  checked_mul_u64 (remaining_link_groups i - 1) (inter_group_gap_ms i) = Some (drain_gaps i) /\
  checked_add_u64 (drain_work i) (drain_gaps i) = Some (drain_work i + drain_gaps i) /\
  checked_add_u64 (drain_work i + drain_gaps i) (scheduler_guard_ms i)
    = Some (drain_work i + drain_gaps i + scheduler_guard_ms i) /\
  checked_mul_u64 (remaining_link_groups i) (max_airtime_ms i) = Some (remaining_link_groups i * max_airtime_ms i) /\
  0 < drain_work i + drain_gaps i + scheduler_guard_ms i <= 1000000000.
Proof.
  unfold drain_bounds, timing_ok, MAX_LINK_GROUPS, MAX_ATTEMPTS. intros (Hf & Hr & Ha & Ht & Hk & Hg & Hp).
  assert (Hc : 3 <= group_cost i <= 10800000) by (unfold group_cost; lia).
  assert (Hrc : 3 <= remaining_attempts i * group_cost i <= 32400000) by nia.
  assert (Hw : 3 <= drain_work i <= 421200000) by (unfold drain_work; nia).
  assert (Hgap : 0 <= drain_gaps i <= 43200000) by (unfold drain_gaps; nia).
  assert (Hair : 1 <= remaining_link_groups i * max_airtime_ms i <= 46800000) by nia.
  unfold or_minus_one. rewrite (proj2 (Z.eqb_neq _ 0)) by lia.
  rewrite !checked_add_u32_Some by (unfold U32_MAX; lia).
  fold (drain_gaps i) (drain_work i).
  rewrite !checked_mul_u64_Some by (unfold U64_MAX; fold (drain_work i) (drain_gaps i); lia).
  rewrite !checked_add_u64_Some by (unfold U64_MAX; lia). split_and!; try done; lia.
Qed.

(** The result inside the bounds, in closed form. *)
Lemma drain_completion_closed i :
  drain_bounds i ->
  let out c dl el why :=
    DrainOut el why (Some (group_cost i)) (Some (drain_work i)) (Some (drain_gaps i)) c dl
      (match c with Some _ => Some (remaining_link_groups i * max_airtime_ms i) | None => None end) in
  drain_completion i =
    if negb (in_range 0 (U64_MAX - (drain_end i - now_ms i)) (now_ms i)) then out None None 0 "COMPLETION_OVERFLOW"%string
    else if MAX_AIRTIME_BUDGET_MS <? remaining_link_groups i * max_airtime_ms i then
      out (Some (drain_end i)) None 0 "AIRTIME_BUDGET"%string
    else if drain_deadline i <? drain_end i then
      out (Some (drain_end i)) (Some (drain_deadline i)) 0 "DEADLINE"%string
    else out (Some (drain_end i)) (Some (drain_deadline i)) 1 "OK"%string.
Proof.
  intros Hb. destruct (drain_arithmetic i Hb) as (E1 & E2 & E3 & E4 & E5 & E6 & E7 & E8 & E9 & Hpos).
  unfold drain_bounds, timing_ok in Hb. unfold drain_completion. cbv zeta.
  rewrite !(proj2 (Z.ltb_ge _ 1)) by lia. rewrite !(proj2 (Z.ltb_ge MAX_LINK_GROUPS _)), !(proj2 (Z.ltb_ge MAX_ATTEMPTS _)) by lia.
  cbn [orb find snd]. rewrite !(proj2 (Z.ltb_ge _ 1)) by lia. rewrite !(proj2 (Z.ltb_ge 3600000 _)) by lia. cbn [orb].
  rewrite E1, E2, E3, E4. cbn [if_some]. rewrite E5, E6, E7. cbn [if_some]. rewrite E8, E9. cbn [if_some].
  unfold drain_end. set (total := drain_work i + drain_gaps i + scheduler_guard_ms i) in *.
  replace (now_ms i + total - now_ms i) with total by lia.
  destruct (in_range 0 (U64_MAX - total) (now_ms i)) eqn:Er; cbn [negb].
  - apply in_range_spec in Er. rewrite checked_add_u64_Some by (unfold U64_MAX in *; lia).
    destruct (_ <? _); [done|]. unfold drain_deadline. destruct (_ <? _); [done|].
    by rewrite (proj2 (Z.ltb_ge _ _)) by lia.
  - apply in_range_false in Er. destruct (checked_add_u64 (now_ms i) total) eqn:Ea; [|done].
    apply checked_add_u64_inv in Ea. unfold U64_MAX in *. lia.
Qed.

Lemma drain_out_of_bounds i : ~ drain_bounds i -> exists why, drain_completion i = DrainOut 0 why None None None None None None /\
  why ∈ ["LINK_GROUPS_RANGE"; "ATTEMPTS_RANGE"; "max_airtime_ms_RANGE"; "turnaround_ms_RANGE"; "link_ack_wait_ms_RANGE";
         "scheduler_guard_ms_RANGE"; "inter_group_gap_ms_RANGE"]%string.
Proof.
  intros Hb. unfold drain_completion. cbv zeta.
  destruct ((remaining_link_groups i <? 1) || _) eqn:E1; [eexists; split; [done | set_solver]|].
  destruct ((remaining_attempts i <? 1) || _) eqn:E2; [eexists; split; [done | set_solver]|].
  match goal with |- context [find ?p ?l] => destruct (find p l) as [[name v]|] eqn:Ef end.
  - exists name. split; [done|]. apply find_some in Ef as [Hin _].
    cbn in Hin. repeat destruct Hin as [[= <- _] | Hin]; try set_solver.
  - exfalso. apply Hb. bool_to_prop. unfold drain_bounds, timing_ok.
    cbn [find snd] in Ef. case_ifs Ef. bool_to_prop. lia.
Qed.

(** ** Well-sized fields *)

Definition id_ok (n : Z) (v : bytes) : Prop := len v = n /\ bytes_ok v.
Definition u16_ok (v : Z) : Prop := 0 <= v < 65536.
Definition u32_ok (v : Z) : Prop := 0 <= v < 4294967296.
Definition u64_ok (v : Z) : Prop := 0 <= v < 18446744073709551616.

Definition route_sizes (f : route_fields) : Prop :=
  id_ok 16 (authority_id f) /\ id_ok 16 (authority_clock_epoch_id f) /\ id_ok 16 (egress_peer_id f) /\
  id_ok 16 (grant_id f) /\ id_ok 16 (path_policy_id f).
Definition route_ranges (f : route_fields) : Prop :=
  u64_ok (controller_term f) /\ u64_ok (route_revision f) /\ u64_ok (lease_epoch f) /\ u64_ok (lease_expiry_ms f) /\
  u32_ok (ingress_hop_context_id f) /\ u16_ok (route_handle f) /\ u16_ok (route_generation f) /\
  u32_ok (egress_hop_context_id f) /\ u16_ok (egress_route_handle f) /\ u16_ok (egress_route_generation f) /\
  u16_ok (queue_quota_entries f) /\ u32_ok (queue_quota_bytes f) /\ u64_ok (path_policy_revision f).

Lemma nrm1_sized f : route_sizes f -> Forall (sized NRM1_BYTES) (nrm1_writes f).
Proof. intros ([] & [] & [] & [] & []). unfold nrm1_writes, nrm1_body_writes, NRM1_BYTES. solve_sized. Qed.

Lemma nrm1_total f : route_ranges f -> Forall (total NRM1_BYTES) (nrm1_writes f).
Proof.
  unfold route_ranges, u16_ok, u32_ok, u64_ok. intros H. unfold nrm1_writes, nrm1_body_writes, NRM1_BYTES. solve_total.
Qed.

Lemma exact_sized f : route_sizes f -> Forall (sized 96) (exact_writes f).
Proof. intros ([] & [] & [] & [] & []). unfold exact_writes. solve_sized. Qed.

Lemma exact_total f : route_ranges f -> Forall (total 96) (exact_writes f).
Proof. unfold route_ranges, u16_ok, u32_ok, u64_ok. intros H. unfold exact_writes. solve_total. Qed.

Lemma zeros_buf n : 0 <= n -> len (zeros n) = n /\ bytes_ok (zeros n).
Proof. intros. split; [by apply len_zeros | apply zeros_ok]. Qed.

(** What a management record of [f] holds. *)
Definition nrm1_holds (f : route_fields) (m : bytes) : Prop :=
  len m = NRM1_BYTES /\ bytes_ok m /\ slice 0 4 m = bytes_of_string "NRM1" /\ slice 8 24 m = authority_id f /\
  be_val (slice 24 32 m) = controller_term f /\ be_val (slice 32 40 m) = route_revision f /\
  be_val (slice 40 48 m) = lease_epoch f /\ slice 48 64 m = authority_clock_epoch_id f /\
  be_val (slice 64 72 m) = lease_expiry_ms f /\ be_val (slice 72 76 m) = ingress_hop_context_id f /\
  be_val (slice 76 78 m) = route_handle f /\ be_val (slice 78 80 m) = route_generation f /\
  slice 80 96 m = egress_peer_id f /\ be_val (slice 96 100 m) = egress_hop_context_id f /\
  be_val (slice 100 102 m) = egress_route_handle f /\ be_val (slice 102 104 m) = egress_route_generation f /\
  slice 104 120 m = grant_id f /\ be_val (slice 120 122 m) = queue_quota_entries f /\
  be_val (slice 124 128 m) = queue_quota_bytes f /\ slice 128 129 m = [Z.land (max_hops f) 255] /\
  slice 129 130 m = [Z.land (ack_policy f) 255] /\ slice 130 131 m = [Z.land (terminal_flag f) 255] /\
  slice 132 148 m = path_policy_id f /\ be_val (slice 148 156 m) = path_policy_revision f /\
  slice 156 188 m = sha256 (slice 0 156 m) /\ prefix_sealed crc32c 188 m /\ slice 192 256 m = zeros 64.

Lemma encode_nrm1_holds f :
  route_sizes f -> route_ranges f -> exists m, encode_nrm1 f = Ok m /\ nrm1_holds f m.
Proof.
  intros Hs Hr. destruct (zeros_buf NRM1_BYTES) as [Hl Hb]; [done|].
  destruct (run_writes_total _ _ _ (nrm1_sized f Hs) (nrm1_total f Hr) Hl Hb) as (m & Hm & Hlm & Hbm).
  exists m. split; [done|]. pose proof (nrm1_sized f Hs) as Hsz. unfold nrm1_holds.
  split; [done|]. split; [done|].
  split_and!; try (read_field Hsz Hl Hm).
  - eapply (run_digest sha256 _ _ _ _ 156 156 _ Hsz Hl Hm); [done | reflexivity | reflexivity].
  - by eapply (run_prefix_sealed crc32c _ (nrm1_body_writes f) 188); [apply Forall_app in Hsz as [] | | | exact Hl | | exact Hm].
  - by rewrite (read_untouched _ _ _ _ Hsz Hl Hm 192 256).
Qed.

Definition exact_holds (f : route_fields) (m : bytes) : Prop :=
  len m = 96 /\ bytes_ok m /\ slice 0 16 m = egress_peer_id f /\ be_val (slice 16 20 m) = egress_hop_context_id f /\
  be_val (slice 20 22 m) = egress_route_handle f /\ be_val (slice 22 24 m) = egress_route_generation f /\
  slice 24 40 m = authority_id f /\ be_val (slice 40 48 m) = lease_epoch f /\ be_val (slice 48 56 m) = lease_expiry_ms f /\
  slice 56 72 m = grant_id f /\ be_val (slice 72 74 m) = queue_quota_entries f /\
  be_val (slice 76 80 m) = queue_quota_bytes f /\ slice 80 81 m = [Z.land (max_hops f) 255] /\
  slice 81 82 m = [Z.land (ack_policy f) 255] /\ slice 82 83 m = [Z.land (terminal_flag f) 255] /\
  be_val (slice 84 88 m) = ingress_hop_context_id f /\ be_val (slice 88 90 m) = route_handle f /\
  be_val (slice 90 92 m) = route_generation f.

Lemma materialize_exact_holds f :
  route_sizes f -> route_ranges f -> exists m, materialize_exact f = Ok m /\ exact_holds f m.
Proof.
  intros Hs Hr. destruct (zeros_buf 96) as [Hl Hb]; [done|].
  destruct (run_writes_total _ _ _ (exact_sized f Hs) (exact_total f Hr) Hl Hb) as (m & Hm & Hlm & Hbm).
  exists m. split; [done|]. pose proof (exact_sized f Hs) as Hsz.
  split; [done|]. split; [done|]. split_and!; read_field Hsz Hl Hm.
Qed.

(** A record of known size written whole into a slice. *)
Lemma sized_record n lo hi (v : res bytes) x :
  0 <= lo <= hi -> hi <= n -> v = Ok x -> len x = hi - lo -> bytes_ok x -> sized n (put lo hi v).
Proof. intros ? ? -> ? ?. apply sized_put; auto. intros y [= <-]. auto. Qed.

Lemma total_record n lo hi (v : res bytes) x : v = Ok x -> total n (put lo hi v).
Proof. intros -> buf _ _. by exists x. Qed.

Definition drain_ok (d : option drain_fields) : Prop :=
  match d with
  | Some d => u64_ok (drain_fence d) /\ u64_ok (drain_route_revision d) /\ u64_ok (drain_drain_deadline_ms d) /\
              u64_ok (drain_lease_deadline_ms d)
  | None => True
  end.

Lemma slot_program f st seq d :
  route_sizes f -> route_ranges f -> u64_ok seq -> drain_ok d ->
  Forall (sized SLOT_BYTES) (slot_writes st f seq d) /\ Forall (total SLOT_BYTES) (slot_writes st f seq d).
Proof.
  intros Hs Hr Hq Hd. destruct (encode_nrm1_holds f Hs Hr) as (n & En & Hln & Hbn & _).
  destruct (materialize_exact_holds f Hs Hr) as (x & Ex & Hlx & Hbx & _).
  unfold slot_writes, slot_drain_writes, SLOT_BYTES. unfold drain_ok, route_ranges, u16_ok, u32_ok, u64_ok in *. unfold NRM1_BYTES in Hln.
  destruct Hs as (_ & [] & _). split.
  - destruct d; solve_sized;
      first [eapply sized_record; [lia | lia | exact En | lia | done] | eapply sized_record; [lia | lia | exact Ex | lia | done]].
  - destruct d; solve_total; first [eapply total_record; exact En | eapply total_record; exact Ex].
Qed.

(** What a stored slot of [f] holds. *)
Definition slot_holds (st : Z) (f : route_fields) (seq : Z) (d : option drain_fields) (m : bytes) : Prop :=
  len m = SLOT_BYTES /\ bytes_ok m /\ slice 0 1 m = [Z.land st 255] /\
  be_val (slice 4 8 m) = ingress_hop_context_id f /\ be_val (slice 8 10 m) = route_handle f /\
  be_val (slice 10 12 m) = route_generation f /\
  Ok (slice 12 268 m) = encode_nrm1 f /\ nrm1_holds f (slice 12 268 m) /\
  Ok (slice 268 364 m) = materialize_exact f /\ exact_holds f (slice 268 364 m) /\
  slice 364 380 m = authority_clock_epoch_id f /\ be_val (slice 380 388 m) = lease_expiry_ms f /\
  match d with
  | Some d => be_val (slice 388 396 m) = drain_fence d /\ be_val (slice 396 404 m) = drain_route_revision d /\
              be_val (slice 404 412 m) = drain_drain_deadline_ms d /\ be_val (slice 412 420 m) = drain_lease_deadline_ms d
  | None => slice 388 420 m = zeros 32
  end /\
  be_val (slice 420 428 m) = seq /\ slice 428 460 m = sha256 (slice 0 428 m) /\ prefix_sealed crc32c 460 m /\
  slice 464 508 m = zeros 44.

Lemma encode_slot_holds st f seq d :
  route_sizes f -> route_ranges f -> u64_ok seq -> drain_ok d ->
  exists m, encode_slot st f seq d = Ok m /\ slot_holds st f seq d m.
Proof.
  intros Hs Hr Hq Hd. destruct (zeros_buf SLOT_BYTES) as [Hl Hb]; [done|].
  destruct (slot_program f st seq d Hs Hr Hq Hd) as [Hsz Htot].
  destruct (run_writes_total _ _ _ Hsz Htot Hl Hb) as (m & Hm & Hlm & Hbm).
  exists m. split; [done|]. split; [done|]. split; [done|].
  destruct (encode_nrm1_holds f Hs Hr) as (n & En & Hn). destruct (materialize_exact_holds f Hs Hr) as (x & Ex & Hx).
  assert (En' : encode_nrm1 f = Ok (slice 12 268 m)).
  { destruct d; exact (read_put _ _ _ _ Hsz Hl Hm 12 268 _ _ eq_refl). }
  assert (Ex' : materialize_exact f = Ok (slice 268 364 m)).
  { destruct d; exact (read_put _ _ _ _ Hsz Hl Hm 268 364 _ _ eq_refl). }
  assert (Hn' : nrm1_holds f (slice 12 268 m)) by (rewrite En in En'; apply Ok_inj in En'; by rewrite <- En').
  assert (Hx' : exact_holds f (slice 268 364 m)) by (rewrite Ex in Ex'; apply Ok_inj in Ex'; by rewrite <- Ex').
  assert (Hdg : slice 428 460 m = sha256 (slice 0 428 m)).
  { destruct d; eapply (run_digest sha256 _ _ _ _ 428 428 _ Hsz Hl Hm); [done | reflexivity | reflexivity | done | reflexivity | reflexivity]. }
  assert (Hps : prefix_sealed crc32c 460 m).
  { unfold slot_writes in Hm, Hsz. rewrite (app_assoc _ [put 420 428 _; put_digest _ _ _] [_]) in Hm, Hsz ||
      change [put 420 428 (u64 seq); put_digest sha256 428 428; put_prefix_crc crc32c 460 460] with
        ([put 420 428 (u64 seq); put_digest sha256 428 428] ++ [put_prefix_crc crc32c 460 460]) in Hm, Hsz.
    rewrite app_assoc in Hm, Hsz.
    by eapply (run_prefix_sealed crc32c); [apply Forall_app in Hsz as [Hsz _]; exact Hsz | | | exact Hl | | exact Hm]. }
  assert (Hz : slice 464 508 m = zeros 44) by (destruct d; by rewrite (read_untouched _ _ _ _ Hsz Hl Hm 464 508)).
  destruct d as [d|].
  - split_and!; try done; read_field Hsz Hl Hm.
  - split_and!; try done; try (read_field Hsz Hl Hm). by rewrite (read_untouched _ _ _ _ Hsz Hl Hm 388 420).
Qed.

(** ** Pages *)

Lemma in_header_intro base n ws : Forall (sized base) ws -> Forall (total n) ws -> Forall (in_header n base) ws.
Proof. intros H1 H2. apply Forall_and. by split. Qed.

Ltac solve_header := apply in_header_intro; [solve_sized | solve_total].

(** A list of byte strings of one size, as the slots of a page. *)
Definition slots_ok (n : Z) (slots : list (option bytes)) : Prop :=
  Forall (fun s => match s with Some v => id_ok n v | None => True end) slots.

Lemma slots_ok_Some n slots v : slots_ok n slots -> Some v ∈ slots -> len v = n /\ bytes_ok v.
Proof. intros H Hv. unfold slots_ok in H. rewrite Forall_forall in H. exact (H _ Hv). Qed.

(** The page slot [k] of a page with slots at [base], every [stride] bytes. *)
Definition page_slots (base stride : Z) (slots : list (option bytes)) (m : bytes) : Prop :=
  forall k s, slots !! k = Some s ->
    slice (base + Z.of_nat k * stride) (base + (Z.of_nat k + 1) * stride) m = default (zeros stride) s.

Definition page_head (magic : string) (page_index page_generation : Z) (m : bytes) : Prop :=
  slice 0 4 m = bytes_of_string magic /\ be_val (slice 6 8 m) = page_index /\ be_val (slice 8 12 m) = page_generation.

(** A page of byte-string slots: what [table_page] gives when every slot is
    stored as it is. *)
Lemma slot_page n base stride lo (f : bytes -> res bytes) hdr mid slots :
  0 <= stride -> 0 <= lo -> lo + 4 <= base -> base + len slots * stride <= n ->
  Forall (in_header n base) hdr -> Forall (in_header n base) mid ->
  (forall v, len v = stride -> f v = Ok v) -> slots_ok stride slots ->
  exists m, run_writes (page_program base stride lo f hdr mid slots crc32c) (zeros n) = Ok m /\
    len m = n /\ bytes_ok m /\ sealed crc32c lo m /\ page_slots base stride slots m /\
    slice (base + len slots * stride) n m = zeros (n - (base + len slots * stride)) /\
    (exists b, run_writes hdr (zeros n) = Ok b /\ forall a c, 0 <= a <= c -> c <= base ->
       forallb (apart a c) mid = true -> apart a c (put_crc crc32c lo) = true -> slice a c m = slice a c b) /\
    (exists b b', len b = n /\ run_writes mid b = Ok b' /\ forall a c, 0 <= a <= c -> c <= base ->
       apart a c (put_crc crc32c lo) = true -> slice a c m = slice a c b').
Proof.
  intros Hst Hlo Hlo4 Hn Hh Hm Hf Hs.
  assert (Hsl : slots_encode stride f slots).
  { intros v Hv. destruct (slots_ok_Some _ _ _ Hs Hv) as [Hl Hb]. exists v. auto. }
  destruct (table_page n base stride lo f hdr mid slots crc32c Hst Hlo Hlo4 Hn Hh Hm Hsl)
    as (m & E & Hl & Hb & Hseal & Hsome & Hnone & Htail & H1 & H2).
  exists m. split_and!; auto; [|apply Htail; lia].
  intros k [v|] Hk; [|by apply (Hnone k)]. pose proof (Hsome k v Hk) as Ek.
  destruct (slots_ok_Some _ _ v Hs) as [Hlv _]; [by eapply list_elem_of_lookup_2|].
  rewrite Hf in Ek by done. by apply Ok_inj in Ek.
Qed.

(** [via_header H Hs Hl Hr] reads a header field through the buffer the header
    program left. *)
Ltac via_header H Hs Hl Hr :=
  match goal with
  | |- be_val (slice ?a ?c _) = _ => rewrite (H a c) by (lia || done); read_field Hs Hl Hr
  | |- slice ?a ?c _ = _ => rewrite (H a c) by (lia || done); read_field Hs Hl Hr
  end.

Lemma header_sized n base ws : base <= n -> Forall (in_header n base) ws -> Forall (sized n) ws.
Proof. intros Hb H. eapply Forall_impl; [exact H|]. intros w [Hs _]. by apply (sized_weaken base). Qed.

Lemma encode_page_holds idx gen slots :
  len slots = SLOTS_PER_PAGE -> slots_ok SLOT_BYTES slots -> u16_ok idx -> u32_ok gen ->
  exists m, encode_page idx gen slots = Ok m /\ len m = NRP1_BYTES /\ bytes_ok m /\ page_head "NRP1" idx gen m /\
    (forall k, Z.testbit (be_val (slice 12 14 m)) (Z.of_nat k) = present slots (Z.of_nat k)) /\
    page_slots 20 SLOT_BYTES slots m /\ slice 4084 4096 m = zeros 12 /\ sealed crc32c 16 m.
Proof.
  unfold u16_ok, u32_ok. intros Hlen Hs Hi Hg. unfold encode_page. rewrite raise_if_skip by (rewrite Hlen; done).
  pose proof (bitmap_range 0 slots 0 ltac:(lia) ltac:(lia)) as Hbm. rewrite Hlen in Hbm.
  change (2 ^ (0 + SLOTS_PER_PAGE)) with 256 in Hbm.
  set (hdr := page_header "NRP1" idx gen). set (mid := [put 12 14 (u16 (bitmap_of 0 slots 0)); put 14 16 (u16 0)]).
  assert (Hh : Forall (in_header NRP1_BYTES 20) hdr) by (unfold hdr, page_header; solve_header).
  assert (Hm : Forall (in_header NRP1_BYTES 20) mid) by (unfold mid; solve_header).
  destruct (slot_page NRP1_BYTES 20 SLOT_BYTES 16 Ok hdr mid slots)
    as (m & E & Hl & Hb & Hseal & Hslots & Htail & (b1 & R1 & T1) & (b2 & b3 & L2 & R2 & T2));
    try (rewrite ?Hlen; done).
  exists m. split; [exact E|]. split; [done|]. split; [done|].
  pose proof (header_sized NRP1_BYTES 20 hdr ltac:(done) Hh) as Sh.
  pose proof (header_sized NRP1_BYTES 20 mid ltac:(done) Hm) as Sm.
  assert (Hz : len (zeros NRP1_BYTES) = NRP1_BYTES) by done.
  split; [split_and!; via_header T1 Sh Hz R1|].
  rewrite Hlen in Htail. split_and!; try done. intros k.
  assert (Eb : be_val (slice 12 14 m) = bitmap_of 0 slots 0) by (via_header T2 Sm L2 R2).
  rewrite Eb, bitmap_testbit by lia. rewrite Z.bits_0, Z.sub_0_r. cbn [orb].
  by rewrite (proj2 (Z.leb_le 0 _)) by lia.
Qed.

(** ** What a drain needs, and what keeps it possible *)

Definition drain_fits (i : drain_in) : Prop :=
  drain_bounds i /\ 0 <= now_ms i /\ drain_end i <= U64_MAX /\
  remaining_link_groups i * max_airtime_ms i <= MAX_AIRTIME_BUDGET_MS /\
  drain_end i <= item_deadline_ms i /\ drain_end i <= drain_deadline_ms i /\ drain_end i <= lease_deadline_ms i.

Lemma drain_bounds_dec i : drain_bounds i \/ ~ drain_bounds i.
Proof. unfold drain_bounds, timing_ok. lia. Qed.

Lemma drain_eligible_fits i : eligible (drain_completion i) = 1 <-> drain_fits i.
Proof.
  unfold drain_fits. destruct (drain_bounds_dec i) as [Hb | Hb].
  2:{ destruct (drain_out_of_bounds i Hb) as (why & -> & _). cbn. split; [done | tauto]. }
  destruct (drain_arithmetic i Hb) as (_ & _ & _ & _ & _ & _ & _ & _ & _ & Hpos).
  rewrite drain_completion_closed by done.
  destruct (in_range 0 _ _) eqn:Er; cbn [negb].
  2:{ apply in_range_false in Er. cbn. unfold drain_end in *. split; [done | lia]. }
  apply in_range_spec in Er. assert (He : drain_end i <= U64_MAX) by (unfold drain_end in *; lia).
  destruct (Z.ltb_spec MAX_AIRTIME_BUDGET_MS (remaining_link_groups i * max_airtime_ms i)); [cbn; split; [done | lia]|].
  unfold drain_deadline. destruct (Z.ltb_spec (Z.min (Z.min (item_deadline_ms i) (drain_deadline_ms i)) (lease_deadline_ms i)) (drain_end i));
    cbn; split; try done; try lia.
  intros _. split_and!; try done; lia.
Qed.

(** [i'] asks for no more than [i]: fewer groups and attempts, shorter times,
    an earlier clock and later deadlines. *)
Definition drain_easier (i' i : drain_in) : Prop :=
  remaining_link_groups i' <= remaining_link_groups i /\ remaining_attempts i' <= remaining_attempts i /\
  max_airtime_ms i' <= max_airtime_ms i /\ turnaround_ms i' <= turnaround_ms i /\
  link_ack_wait_ms i' <= link_ack_wait_ms i /\ scheduler_guard_ms i' <= scheduler_guard_ms i /\
  inter_group_gap_ms i' <= inter_group_gap_ms i /\ now_ms i' <= now_ms i /\
  item_deadline_ms i <= item_deadline_ms i' /\ drain_deadline_ms i <= drain_deadline_ms i' /\
  lease_deadline_ms i <= lease_deadline_ms i'.

Lemma drain_end_mono i' i : drain_bounds i' -> drain_bounds i -> drain_easier i' i -> drain_end i' <= drain_end i.
Proof.
  unfold drain_bounds, timing_ok, MAX_LINK_GROUPS, MAX_ATTEMPTS, drain_easier. intros Hb' Hb Hz.
  assert (Hc : 0 <= group_cost i' <= group_cost i) by (unfold group_cost; lia).
  assert (Hrc : 0 <= remaining_attempts i' * group_cost i' <= remaining_attempts i * group_cost i) by nia.
  unfold drain_end, drain_work, drain_gaps.
  assert (remaining_link_groups i' * (remaining_attempts i' * group_cost i')
          <= remaining_link_groups i * (remaining_attempts i * group_cost i)) by (apply Z.mul_le_mono_nonneg; lia).
  assert ((remaining_link_groups i' - 1) * inter_group_gap_ms i' <= (remaining_link_groups i - 1) * inter_group_gap_ms i)
    by (apply Z.mul_le_mono_nonneg; lia).
  lia.
Qed.

(** C32. A drain is eligible exactly when every input is in its range, the
    completion time (every link group sent with every remaining attempt, the gaps
    between groups and the scheduler guard, after [now_ms]) fits an unsigned
    64-bit integer and meets all three deadlines, and the air time of the groups
    is inside the budget; the reported figures are then those of the formula. *)
Theorem drain_eligible_exact i :
  (eligible (drain_completion i) = 1 <-> drain_fits i) /\
  (eligible (drain_completion i) = 1 ->
   drain_completion i =
     DrainOut 1 "OK" (Some (group_cost i)) (Some (drain_work i)) (Some (drain_gaps i)) (Some (drain_end i))
       (Some (drain_deadline i)) (Some (remaining_link_groups i * max_airtime_ms i))).
Proof.
  split; [apply drain_eligible_fits|]. intros He. pose proof (proj1 (drain_eligible_fits i) He) as (Hb & _).
  revert He. rewrite drain_completion_closed by done. repeat case_match; cbn; done.
Qed.

(** The overflow answers for the group cost, the work and the gaps and the
    [UNDERFLOW] answer cannot happen: the range checks come first, so only the
    completion sum can leave its width; and [eligible] is 1 exactly when the reason is [OK]. *)
Theorem drain_reasons i :
  reason (drain_completion i) ∈
    ["LINK_GROUPS_RANGE"; "ATTEMPTS_RANGE"; "max_airtime_ms_RANGE"; "turnaround_ms_RANGE"; "link_ack_wait_ms_RANGE";
     "scheduler_guard_ms_RANGE"; "inter_group_gap_ms_RANGE"; "COMPLETION_OVERFLOW"; "AIRTIME_BUDGET"; "DEADLINE"; "OK"]%string /\
  (eligible (drain_completion i) = 1 <-> reason (drain_completion i) = "OK"%string) /\
  (reason (drain_completion i) = "COMPLETION_OVERFLOW"%string -> now_ms i < 0 \/ U64_MAX < drain_end i).
Proof.
  destruct (drain_bounds_dec i) as [Hb | Hb].
  - rewrite drain_completion_closed by done. destruct (in_range 0 _ _) eqn:Er; cbn [negb].
    + repeat case_match; cbn; split_and!; try done; set_solver.
    + apply in_range_false in Er. cbn. split_and!; [set_solver | done|]. intros _. unfold drain_end in *. lia.
  - destruct (drain_out_of_bounds i Hb) as (why & -> & Hw). cbn. split_and!; [set_solver| |].
    + split; [done|]. intros ->. exfalso. set_solver.
    + intros ->. exfalso. set_solver.
Qed.

(** Easing an eligible drain keeps it eligible: fewer groups or attempts,
    shorter times, an earlier clock or later deadlines never turn it away. *)
Theorem drain_eligible_monotone i i' :
  eligible (drain_completion i) = 1 -> drain_bounds i' -> 0 <= now_ms i' -> drain_easier i' i ->
  eligible (drain_completion i') = 1.
Proof.
  intros He Hb' Hn Hz. apply drain_eligible_fits in He as (Hb & Hnow & Hmax & Hair & D1 & D2 & D3).
  apply drain_eligible_fits. pose proof (drain_end_mono i' i Hb' Hb Hz) as Hend.
  unfold drain_bounds, timing_ok in Hb, Hb'. unfold drain_easier in Hz.
  assert (remaining_link_groups i' * max_airtime_ms i' <= remaining_link_groups i * max_airtime_ms i)
    by (apply Z.mul_le_mono_nonneg; lia).
  split; [done|]. lia.
Qed.

Definition drain_sample : drain_in := DrainIn 1000 3 2 400 20 60 50 10 100000 90000 80000.
Definition drain_sample_easier : drain_in := DrainIn 900 2 2 400 20 60 50 10 100000 90000 80000.

Lemma drain_eligible_monotone_witness : eligible (drain_completion drain_sample_easier) = 1.
Proof.
  apply (drain_eligible_monotone drain_sample).
  - reflexivity.
  - unfold drain_bounds, timing_ok, MAX_LINK_GROUPS, MAX_ATTEMPTS. cbn. lia.
  - cbn. lia.
  - unfold drain_easier. cbn. lia.
Defined.
