(* ===== verification/RrmpPages.v ===== *)
(** What the route, evidence, parent and token pages of Rrmp.v hold: the fields
    read back from a page, its seal against corruption, and the sizes the
    encoders keep. *)

From S2P Require Import Prelude Bytes Crc Sha256 Layout Tables Rrmp.

(** ** Route pages *)

(** A slot of a route page before it is encoded. *)
Record slot_entry := SlotEntry {
  se_state : Z; se_fields : route_fields; se_next_admission_seq : Z; se_drain : option drain_fields
}.

Definition entry_ok (e : slot_entry) : Prop :=
  route_sizes (se_fields e) /\ route_ranges (se_fields e) /\ u64_ok (se_next_admission_seq e) /\ drain_ok (se_drain e).

Definition encode_entry (e : slot_entry) : res bytes :=
  encode_slot (se_state e) (se_fields e) (se_next_admission_seq e) (se_drain e).
Definition entry_holds (e : slot_entry) (m : bytes) : Prop :=
  slot_holds (se_state e) (se_fields e) (se_next_admission_seq e) (se_drain e) m.

(** Encode every present slot, then the page. *)
Fixpoint encode_entries (es : list (option slot_entry)) : res (list (option bytes)) :=
  match es with
  | [] => Ok []
  | None :: es => rest ← encode_entries es; mret (None :: rest)
  | Some e :: es => b ← encode_entry e; rest ← encode_entries es; mret (Some b :: rest)
  end.
Definition encode_route_page (page_index page_generation : Z) (es : list (option slot_entry)) : res bytes :=
  slots ← encode_entries es; encode_page page_index page_generation slots.

Lemma encode_entries_holds es :
  Forall (fun e => match e with Some e => entry_ok e | None => True end) es ->
  exists slots, encode_entries es = Ok slots /\ slots_ok SLOT_BYTES slots /\
    Forall2 (fun e s => match e, s with Some e, Some b => entry_holds e b | None, None => True | _, _ => False end) es slots.
Proof.
  induction 1 as [|e es He _ (slots & E & Hs & Hf)]; [exists []; split_and!; [done | constructor | constructor]|].
  destruct e as [e|]; cbn [encode_entries].
  - destruct He as (H1 & H2 & H3 & H4). destruct (encode_slot_holds (se_state e) _ _ _ H1 H2 H3 H4) as (m & Em & Hm).
    exists (Some m :: slots). unfold encode_entry. rewrite Em, ok_bind, E, ok_bind. split; [done|].
    split; [|by constructor]. constructor; [|done]. destruct Hm as (Hl & Hb & _). by split.
  - exists (None :: slots). rewrite E, ok_bind. split; [done|]. split; by constructor.
Qed.

Definition route_page_slot (k : nat) (m : bytes) : bytes :=
  slice (20 + Z.of_nat k * SLOT_BYTES) (20 + (Z.of_nat k + 1) * SLOT_BYTES) m.

(** What a page of [es] holds. *)
Definition route_page_holds (page_index page_generation : Z) (es : list (option slot_entry)) (m : bytes) : Prop :=
  len m = NRP1_BYTES /\ bytes_ok m /\ page_head "NRP1" page_index page_generation m /\ sealed crc32c 16 m /\
  forall k e, es !! k = Some e ->
    Z.testbit (be_val (slice 12 14 m)) (Z.of_nat k) = match e with Some _ => true | None => false end /\
    match e with Some e => entry_holds e (route_page_slot k m) | None => route_page_slot k m = zeros SLOT_BYTES end.

Lemma route_page_built idx gen es :
  len es = SLOTS_PER_PAGE -> u16_ok idx -> u32_ok gen ->
  Forall (fun e => match e with Some e => entry_ok e | None => True end) es ->
  exists m, encode_route_page idx gen es = Ok m /\ route_page_holds idx gen es m.
Proof.
  intros Hlen Hi Hg He. destruct (encode_entries_holds es He) as (slots & E & Hs & Hf).
  pose proof (Forall2_length _ _ _ Hf) as Hl2.
  destruct (encode_page_holds idx gen slots) as (m & Em & Hl & Hb & Hh & Hbit & Hsl & _ & Hseal); auto.
  { unfold len in *. by rewrite <- Hl2. }
  exists m. unfold encode_route_page. rewrite E, ok_bind. split; [done|]. split_and!; try done.
  intros k e Hk. destruct (Forall2_lookup_l _ _ _ _ _ Hf Hk) as (s & Hks & Hes). rewrite Hbit. unfold present.
  rewrite Nat2Z.id, Hks. pose proof (Hsl k s Hks) as Hp. unfold route_page_slot. rewrite Hp.
  destruct e, s; cbn in *; try done.
Qed.

(** Two slots that hold the same bytes are of the same route. *)
Lemma id_fields_inj f g m : nrm1_holds f m -> nrm1_holds g m ->
  f = RouteFields (authority_id g) (controller_term g) (route_revision g) (lease_epoch g) (authority_clock_epoch_id g)
        (lease_expiry_ms g) (ingress_hop_context_id g) (route_handle g) (route_generation g) (egress_peer_id g)
        (egress_hop_context_id g) (egress_route_handle g) (egress_route_generation g) (grant_id g)
        (queue_quota_entries g) (queue_quota_bytes g) (max_hops f) (ack_policy f) (terminal_flag f)
        (path_policy_id g) (path_policy_revision g).
Proof. intros H1 H2. unfold nrm1_holds in *. destruct f; cbn in *. destruct_and!. f_equal; congruence. Qed.

(** The masked bytes are whole bytes. *)
Definition entry_bytes (e : slot_entry) : Prop :=
  is_byte (se_state e) /\ is_byte (max_hops (se_fields e)) /\ is_byte (ack_policy (se_fields e)) /\
  is_byte (terminal_flag (se_fields e)).

Lemma byte_masked a b : is_byte a -> is_byte b -> [Z.land a 255] = [Z.land b 255] -> a = b.
Proof.
  unfold is_byte. change 255 with (Z.ones 8). intros Ha Hb [= H]. rewrite !Z.land_ones in H by lia.
  change (2 ^ 8) with 256 in H. by rewrite !Z.mod_small in H by lia.
Qed.

Lemma nrm1_unique f g m :
  nrm1_holds f m -> nrm1_holds g m -> is_byte (max_hops f) -> is_byte (max_hops g) -> is_byte (ack_policy f) ->
  is_byte (ack_policy g) -> is_byte (terminal_flag f) -> is_byte (terminal_flag g) -> f = g.
Proof.
  intros Hf Hg ? ? ? ? ? ?. rewrite (id_fields_inj f g m Hf Hg). unfold nrm1_holds in *. destruct_and!.
  assert (max_hops f = max_hops g) as -> by (apply byte_masked; congruence).
  assert (ack_policy f = ack_policy g) as -> by (apply byte_masked; congruence).
  assert (terminal_flag f = terminal_flag g) as -> by (apply byte_masked; congruence).
  by destruct g.
Qed.

(** The state, route and admission sequence of an entry. *)
Definition entry_key (e : slot_entry) : Z * route_fields * Z := (se_state e, se_fields e, se_next_admission_seq e).

Lemma entry_unique e e' m :
  entry_holds e m -> entry_holds e' m -> entry_bytes e -> entry_bytes e' -> entry_key e = entry_key e'.
Proof.
  intros H H' (B1 & B2 & B3 & B4) (B1' & B2' & B3' & B4'). unfold entry_holds, slot_holds in *.
  destruct H as (_ & _ & S & _ & _ & _ & _ & N & _ & _ & _ & _ & _ & Q & _).
  destruct H' as (_ & _ & S' & _ & _ & _ & _ & N' & _ & _ & _ & _ & _ & Q' & _).
  unfold entry_key. rewrite (nrm1_unique _ _ _ N N') by done. f_equal; [f_equal|congruence].
  apply byte_masked; [done.. | congruence].
Qed.

Lemma entry_not_zero e m : entry_holds e m -> m <> zeros SLOT_BYTES.
Proof.
  intros (_ & _ & _ & _ & _ & _ & _ & (_ & _ & Hm & _) & _) ->. by vm_compute in Hm.
Qed.

Definition entries_ok (es : list (option slot_entry)) : Prop :=
  len es = SLOTS_PER_PAGE /\ Forall (fun e => match e with Some e => entry_ok e /\ entry_bytes e | None => True end) es.

Lemma entries_ok_weak es :
  entries_ok es -> Forall (fun e => match e with Some e => entry_ok e | None => True end) es.
Proof. intros [_ H]. eapply Forall_impl; [exact H|]. intros [e|]; [by intros [] | done]. Qed.

(** C33. A route page stores each route it is given: the page of eight optional
    entries is 4096 sealed bytes; bit [k] of its bitmap says whether slot [k] is
    used; a used slot holds the state, the management record, the exact fields,
    the drain fields and the admission sequence of its entry, each at its offset,
    with its digest and checksum; an unused slot is zero. *)
Theorem route_page_stores idx gen es :
  entries_ok es -> u16_ok idx -> u32_ok gen ->
  exists m, encode_route_page idx gen es = Ok m /\ route_page_holds idx gen es m.
Proof. intros H ? ?. apply route_page_built; auto; [apply H | by apply entries_ok_weak]. Qed.

(** The page determines what was stored: two lists of entries with the same
    page, whatever their index and generation arguments, agree in index,
    generation, which slots are used, and the state, route and admission sequence
    of every used slot. *)
Theorem route_page_injective idx gen es idx' gen' es' m :
  entries_ok es -> entries_ok es' -> u16_ok idx -> u32_ok gen -> u16_ok idx' -> u32_ok gen' ->
  encode_route_page idx gen es = Ok m -> encode_route_page idx' gen' es' = Ok m ->
  idx = idx' /\ gen = gen' /\ map (option_map entry_key) es = map (option_map entry_key) es'.
Proof.
  intros H H' Hi Hg Hi' Hg' E E'.
  destruct (route_page_built idx gen es) as (x & Ex & _ & _ & (_ & P1 & P2) & _ & Hs); auto using entries_ok_weak; [apply H|].
  destruct (route_page_built idx' gen' es') as (y & Ey & _ & _ & (_ & Q1 & Q2) & _ & Hs'); auto using entries_ok_weak; [apply H'|].
  rewrite E in Ex. apply Ok_inj in Ex as <-. rewrite E' in Ey. apply Ok_inj in Ey as <-.
  split; [congruence|]. split; [congruence|]. destruct H as [L F], H' as [L' F'].
  apply list_eq_same_length with (length es); rewrite ?length_map; [unfold len in *; lia | done |].
  intros k a b Hk Ha Hb. rewrite !list_lookup_fmap in Ha, Hb. 
  destruct (es !! k) as [e|] eqn:Ee; [|done]. destruct (es' !! k) as [e'|] eqn:Ee'; [|done].
  cbn in Ha, Hb. injection Ha as <-. injection Hb as <-.
  destruct (Hs k e Ee) as [_ A]. destruct (Hs' k e' Ee') as [_ B].
  rewrite Forall_lookup in F, F'. pose proof (F k e Ee) as G. pose proof (F' k e' Ee') as G'.
  destruct e as [e|], e' as [e'|]; cbn; try done.
  - f_equal. destruct G, G'. by eapply entry_unique.
  - by apply entry_not_zero in A.
  - by apply entry_not_zero in B.
Qed.

(** A corrupted page is recognised: changing any one byte of an encoded page
    (into another byte) breaks its seal, and no call of the encoder gives the
    changed page. *)
Theorem page_corruption_detected idx gen slots m m' :
  len slots = SLOTS_PER_PAGE -> slots_ok SLOT_BYTES slots -> u16_ok idx -> u32_ok gen ->
  encode_page idx gen slots = Ok m -> bytes_ok m' -> one_byte_apart m m' ->
  ~ sealed crc32c 16 m' /\
  (forall idx' gen' slots', slots_ok SLOT_BYTES slots' -> u16_ok idx' -> u32_ok gen' -> encode_page idx' gen' slots' <> Ok m').
Proof.
  intros Hl Hs Hi Hg E Hb Ha.
  destruct (encode_page_holds idx gen slots Hl Hs Hi Hg) as (x & Ex & Lx & Bx & _ & _ & _ & _ & Sx).
  rewrite E in Ex. apply Ok_inj in Ex as <-.
  assert (Hn : ~ sealed crc32c 16 m').
  { intros Sy. revert Ha. apply (sealed_detects crc32c 16); auto; [done | by rewrite Lx]. }
  split; [done|]. intros idx' gen' slots' Hs' Hi' Hg' E'.
  destruct (len slots' =? SLOTS_PER_PAGE) eqn:El; [|by unfold encode_page in E'; rewrite El in E'].
  apply Z.eqb_eq in El. destruct (encode_page_holds idx' gen' slots' El Hs' Hi' Hg') as (y & Ey & _ & _ & _ & _ & _ & _ & Sy).
  rewrite E' in Ey. by apply Ok_inj in Ey as <-.
Qed.

(** ** The page directory *)

(** Four-byte integers at a stride, as the directory stores its generations. *)
Definition gens_at (base : Z) (gens : list Z) (m : bytes) : Prop :=
  forall k g, gens !! k = Some g -> be_val (slice (base + Z.of_nat k * 4) (base + (Z.of_nat k + 1) * 4) m) = g.
Definition gens_bits (lo : Z) (gens : list Z) (m : bytes) : Prop :=
  forall k, Z.testbit (be_val (slice lo (lo + 2) m)) (Z.of_nat k) = match gens !! k with Some g => negb (g =? 0) | None => false end.

Lemma present_nonzero gens k : present (map nonzero_gen gens) (Z.of_nat k)
  = match gens !! k with Some g => negb (g =? 0) | None => false end.
Proof.
  unfold present. rewrite Nat2Z.id, list_lookup_fmap. destruct (gens !! k) as [g|]; [|done]. cbn.
  unfold nonzero_gen. by destruct (g =? 0).
Qed.

Lemma gens_bits_intro lo gens m :
  be_val (slice lo (lo + 2) m) = bitmap_of 0 (map nonzero_gen gens) 0 -> gens_bits lo gens m.
Proof.
  intros H k. rewrite H, bitmap_testbit by lia. rewrite Z.bits_0, Z.sub_0_r, present_nonzero.
  by rewrite (proj2 (Z.leb_le 0 _)) by lia.
Qed.

(** The directory program, on any lists of generations. *)
Definition directory_head (gen : Z) (authority : bytes) (term : Z) : list write :=
  [put 0 4 (Ok (bytes_of_string "NRD1")); put 4 6 (u16 1); put 6 8 (u16 DIR_BYTES); put 8 16 (u64 gen);
   put 16 32 (Ok authority); put 32 40 (u64 term)].

Lemma length_16 {A} (l : list A) : len l = 16 ->
  exists a b c d e f g h i j k n o p q r, l = [a; b; c; d; e; f; g; h; i; j; k; n; o; p; q; r].
Proof.
  unfold len. intros H. do 16 (destruct l as [|? l]; [done|]). destruct l; [|cbn in H; lia]. by repeat eexists.
Qed.

Lemma length_4 {A} (l : list A) : len l = 4 -> exists a b c d, l = [a; b; c; d].
Proof.
  unfold len. intros H. do 4 (destruct l as [|? l]; [done|]). destruct l; [|cbn in H; lia]. by repeat eexists.
Qed.

Lemma evidence_bits_small evidence :
  len evidence = 4 -> negb (Z.land (bitmap_of 0 (map nonzero_gen evidence) 0) (Z.lnot 0xF) =? 0) = false.
Proof.
  intros H. apply negb_false_iff, Z.eqb_eq. pose proof (bitmap_range 0 (map nonzero_gen evidence) 0 ltac:(lia) ltac:(lia)) as Hr.
  unfold len in *. rewrite length_map, H in Hr. change (2 ^ (0 + 4)) with 16 in Hr.
  change 0xF with (Z.ones 4). apply Z.bits_inj'. intros k Hk. rewrite Z.land_spec, Z.bits_0, Z.lnot_spec by lia.
  destruct (Z.ltb_spec k 4).
  - rewrite Z.ones_spec_low by lia. by rewrite andb_false_r.
  - rewrite <- (Z.mod_small (bitmap_of _ _ _) (2 ^ 4)) by (change (2 ^ 4) with 16; lia).
    by rewrite Z.mod_pow2_bits_high by lia.
Qed.

(** What a directory holds. *)
Definition directory_holds (gen : Z) (authority : bytes) (term : Z) (gens evidence : list Z) (m : bytes) : Prop :=
  len m = DIR_BYTES /\ bytes_ok m /\ slice 0 4 m = bytes_of_string "NRD1" /\ be_val (slice 8 16 m) = gen /\
  slice 16 32 m = authority /\ be_val (slice 32 40 m) = term /\ gens_bits 40 gens m /\ gens_bits 42 evidence m /\
  gens_at 44 gens m /\ gens_at 108 evidence m /\ slice 124 252 m = zeros 128 /\ sealed crc32c 252 m.

(** The directory names every page: for sixteen route page generations and
    four evidence page generations (zeroes when none are given) the 256 sealed
    bytes hold each generation at its offset, the two bitmaps flag exactly the
    generations that are not zero (the guard on the high bits of the evidence
    bitmap never fires), and the reserved middle is zero. *)
Theorem directory_names_pages gen authority term gens evidence :
  u64_ok gen -> id_ok 16 authority -> u64_ok term -> len gens = PAGE_COUNT -> Forall u32_ok gens ->
  match evidence with Some e => len e = NEP1_PAGE_COUNT /\ Forall u32_ok e | None => True end ->
  exists m, encode_directory gen authority term gens evidence = Ok m /\
    directory_holds gen authority term gens (default [0; 0; 0; 0] evidence) m.
Proof.
  intros Hg [Ha Hab] Ht Hlen Hgs Hev. unfold encode_directory.
  rewrite raise_if_skip by (by rewrite Hlen).
  set (evi := default (zeros NEP1_PAGE_COUNT) evidence). cbv zeta.
  change [0; 0; 0; 0] with (zeros NEP1_PAGE_COUNT). fold evi.
  assert (He : len evi = 4 /\ Forall u32_ok evi).
  { subst evi. destruct evidence; [exact Hev|]. split; [done|]. repeat constructor; done. }
  clearbody evi. destruct He as [He Hes]. rewrite raise_if_skip by (by rewrite He).
  pose proof (bitmap_range 0 (map nonzero_gen gens) 0 ltac:(lia) ltac:(lia)) as R1.
  pose proof (bitmap_range 0 (map nonzero_gen evi) 0 ltac:(lia) ltac:(lia)) as R2.
  replace (len (map nonzero_gen gens)) with 16 in R1 by (unfold len in *; rewrite length_map; done).
  replace (len (map nonzero_gen evi)) with 4 in R2 by (unfold len in *; rewrite length_map; done).
  change (2 ^ (0 + 16)) with 65536 in R1. change (2 ^ (0 + 4)) with 16 in R2.
  pose proof (evidence_bits_small evi He) as Hbits. 
  assert (HB1 := gens_bits_intro 40 gens). assert (HB2 := gens_bits_intro 42 evi).
  unfold directory_writes. set (bm := bitmap_of 0 (map nonzero_gen gens) 0) in *.
  set (be := bitmap_of 0 (map nonzero_gen evi) 0) in *. clearbody bm be. rewrite Hbits.
  destruct (length_16 gens Hlen) as (g0 & g1 & g2 & g3 & g4 & g5 & g6 & g7 & g8 & g9 & g10 & g11 & g12 & g13 & g14 & g15 & ->).
  destruct (length_4 evi He) as (e0 & e1 & e2 & e3 & ->).
  unfold u64_ok, u32_ok in *. repeat (apply Forall_cons in Hgs as [? Hgs]). repeat (apply Forall_cons in Hes as [? Hes]).
  cbn [map table_writes].
  match goal with |- exists m, run_writes (?pre ++ ?post) ?b = Ok m /\ _ => set (ws := pre); set (ps := post) end.
  assert (Sz : Forall (sized DIR_BYTES) ws).
  { unfold ws, DIR_BYTES. solve_sized. }
  assert (To : Forall (total DIR_BYTES) ws).
  { unfold ws, DIR_BYTES. solve_total. }
  assert (Sz2 : Forall (sized DIR_BYTES) (ws ++ ps)) by (apply Forall_app_2; [done | unfold ps, DIR_BYTES; solve_sized]).
  assert (To2 : Forall (total DIR_BYTES) (ws ++ ps)) by (apply Forall_app_2; [done | unfold ps, DIR_BYTES; solve_total]).
  destruct (zeros_buf DIR_BYTES) as [Hl Hb]; [done|].
  destruct (run_writes_total _ _ _ Sz2 To2 Hl Hb) as (m & Hm & Hlm & Hbm). exists m. split; [done|].
  unfold directory_holds. split_and!; try done; try (read_field Sz2 Hl Hm).
  - apply HB1. read_field Sz2 Hl Hm.
  - apply HB2. read_field Sz2 Hl Hm.
  - intros k g Hk. do 16 (destruct k as [|k]; [cbn in Hk; injection Hk as <-; read_field Sz2 Hl Hm|]). done.
  - intros k g Hk. do 4 (destruct k as [|k]; [cbn in Hk; injection Hk as <-; read_field Sz2 Hl Hm|]). done.
  - by rewrite (read_untouched _ _ _ _ Sz2 Hl Hm 124 252).
  - by apply (run_sealed crc32c DIR_BYTES ws 252 (zeros DIR_BYTES)).
Qed.

(** ** Token pages *)

Definition token_ok (t : token) : Prop := id_ok 32 (t_digest t) /\ u64_ok (t_created_ms t).

Definition token_holds (t : token) (m : bytes) : Prop :=
  len m = NPT1_SLOT_BYTES /\ bytes_ok m /\ slice 0 32 m = t_digest t /\ slice 32 33 m = [Z.land (t_kind t) 255] /\
  be_val (slice 36 44 m) = t_created_ms t /\ prefix_sealed crc32c 44 m.

Lemma encode_token_holds t : token_ok t -> exists m, encode_token t = Ok m /\ token_holds t m.
Proof.
  intros [[Hd Hb] Ht]. unfold u64_ok in Ht. destruct (zeros_buf NPT1_SLOT_BYTES) as [Hl Hz]; [done|].
  assert (Sz : Forall (sized NPT1_SLOT_BYTES) (token_writes t)) by (unfold token_writes, NPT1_SLOT_BYTES; solve_sized).
  assert (To : Forall (total NPT1_SLOT_BYTES) (token_writes t)) by (unfold token_writes, NPT1_SLOT_BYTES; solve_total).
  destruct (run_writes_total _ _ _ Sz To Hl Hz) as (m & Hm & Hlm & Hbm). exists m. split; [done|].
  split; [done|]. split; [done|]. split_and!; try (read_field Sz Hl Hm).
  change (token_writes t) with ([put 0 32 (Ok (t_digest t)); put_masked 32 (t_kind t); put 36 44 (u64 (t_created_ms t))] ++
    [put_prefix_crc crc32c 44 44]) in *.
  by apply (run_prefix_sealed crc32c NPT1_SLOT_BYTES _ 44 _ _ (proj1 (proj1 (Forall_app _ _ _) Sz)) ltac:(lia) ltac:(done) Hl Hz).
Qed.

Lemma slots_encode_all {A} n (f : A -> res bytes) (l : list A) :
  Forall (fun a => exists v, f a = Ok v /\ len v = n /\ bytes_ok v) l -> slots_encode n f (map Some l).
Proof.
  intros H s Hs. apply list_elem_of_fmap in Hs as (a & [= ->] & Ha). rewrite Forall_forall in H. auto.
Qed.

(** Writing a full table extends the buffer to the end of the table. *)
Lemma len_slice_assign_max lo hi v buf :
  0 <= lo <= len buf -> lo <= hi -> len v = hi - lo -> len (slice_assign lo hi v buf) = Z.max (len buf) hi.
Proof. intros. unfold slice_assign, len in *. rewrite !length_app, length_take, length_drop. lia. Qed.

Lemma table_len {A} base stride (f : A -> res bytes) (l : list A) i buf :
  0 < stride -> 0 <= base + i * stride <= len buf -> bytes_ok buf ->
  Forall (fun a => exists v, f a = Ok v /\ len v = stride /\ bytes_ok v) l ->
  exists m, run_writes (table_writes base stride f i (map Some l)) buf = Ok m /\
    len m = Z.max (len buf) (base + (i + len l) * stride) /\ bytes_ok m.
Proof.
  intros Hst. revert i buf. induction l as [|a l IH]; intros i buf Hi Hb Hl.
  { exists buf. rewrite len_nil. split; [done|]. split; [lia | done]. }
  apply Forall_cons in Hl as [(v & Ev & Hv & Hvb) Hl]. cbn [map table_writes run_writes put w_val w_lo w_hi].
  rewrite Ev, ok_bind. pose proof (len_nonneg l).
  assert (L : len (slice_assign (base + i * stride) (base + (i + 1) * stride) v buf) = Z.max (len buf) (base + (i + 1) * stride))
    by (apply len_slice_assign_max; nia).
  destruct (IH (i + 1) (slice_assign (base + i * stride) (base + (i + 1) * stride) v buf)) as (m & Hm & Hlm & Hbm); [rewrite L; nia | by apply slice_assign_ok | done|].
  exists m. split; [done|]. rewrite Hlm, L, len_cons. split; [nia | done].
Qed.

Lemma npt1_header_in idx gen n :
  u16_ok idx -> u32_ok gen -> u32_ok n ->
  Forall (in_header NPT1_BYTES 24) (page_header "NPT1" idx gen ++ [put 12 16 (u32 n)]).
Proof. unfold u16_ok, u32_ok. intros. unfold page_header. solve_header. Qed.

Lemma npt1_page_len idx gen tokens :
  u16_ok idx -> u32_ok gen -> u32_ok (len tokens) -> Forall token_ok tokens ->
  exists m, encode_npt1_page idx gen tokens = Ok m /\ len m = Z.max NPT1_BYTES (24 + len tokens * 48).
Proof.
  intros Hi Hg Hn Ht. unfold encode_npt1_page, npt1_writes. rewrite <- !app_assoc, app_assoc, run_writes_app.
  destruct (header_program NPT1_BYTES 24 48 20 (@nil (option token)) ltac:(lia) ltac:(lia) ltac:(lia) ltac:(done) _ (npt1_header_in idx gen (len tokens) Hi Hg Hn))
    as (S1 & T1 & _).
  destruct (run_writes_total _ _ _ S1 T1 (proj1 (zeros_buf NPT1_BYTES ltac:(done))) (zeros_ok _)) as (b & Eb & Lb & Bb).
  rewrite Eb, ok_bind, run_writes_app.
  destruct (table_len NPT1_HEADER_BYTES NPT1_SLOT_BYTES encode_token tokens 0 b) as (c & Ec & Lc & Bc); [done | rewrite Lb; done | done | |].
  { eapply Forall_impl; [exact Ht|]. intros t Hk. destruct (encode_token_holds t Hk) as (v & Ev & Hlv & Hbv & _). by exists v. }
  rewrite Ec, ok_bind. rewrite Lb, Z.add_0_l in Lc.
  assert (Sp : Forall (sized (len c)) [put 20 24 (u32 0); put_crc crc32c 20])
    by (assert (4096 <= len c) by (unfold NPT1_BYTES in Lc; lia); solve_sized).
  assert (Tp : Forall (total (len c)) [put 20 24 (u32 0); put_crc crc32c 20]) by solve_total.
  destruct (run_writes_total _ _ _ Sp Tp eq_refl Bc) as (m & Em & Lm & _). exists m. split; [done|]. by rewrite Lm, Lc.
Qed.

(** A token page of up to 84 tokens is 4096 sealed bytes that hold the count and
    each token at its offset, sealed in its turn; the encoder has no guard on
    the count, and with more than 84 tokens it returns a longer buffer instead
    of a page. *)
Theorem token_page_sizes idx gen tokens :
  u16_ok idx -> u32_ok gen -> u32_ok (len tokens) -> Forall token_ok tokens ->
  exists m, encode_npt1_page idx gen tokens = Ok m /\
    (len tokens <= NPT1_SLOTS_PER_PAGE ->
       len m = NPT1_BYTES /\ sealed crc32c 20 m /\ page_head "NPT1" idx gen m /\ be_val (slice 12 16 m) = len tokens /\
       forall k t, tokens !! k = Some t ->
         token_holds t (slice (24 + Z.of_nat k * 48) (24 + (Z.of_nat k + 1) * 48) m)) /\
    (NPT1_SLOTS_PER_PAGE < len tokens -> len m = 24 + len tokens * 48 /\ NPT1_BYTES < len m).
Proof.
  intros Hi Hg Hn Ht. destruct (npt1_page_len idx gen tokens Hi Hg Hn Ht) as (m & Em & Lm).
  exists m. split; [done|]. unfold NPT1_SLOTS_PER_PAGE, NPT1_BYTES in *. split; [|lia]. intros H84.
  assert (Hlen : len (map Some tokens) = len tokens) by (unfold len; by rewrite length_map).
  assert (He : slots_encode NPT1_SLOT_BYTES encode_token (map Some tokens)).
  { apply slots_encode_all. eapply Forall_impl; [exact Ht|]. intros t Hk.
    destruct (encode_token_holds t Hk) as (v & Ev & Hlv & Hbv & _). by exists v. }
  destruct (table_page 4096 24 NPT1_SLOT_BYTES 20 encode_token (page_header "NPT1" idx gen ++ [put 12 16 (u32 (len tokens))])
     [] (map Some tokens) crc32c) as (x & Ex & Lx & _ & Sx & Hslots & _ & _ & (b1 & R1 & T1) & _); try done.
  { rewrite Hlen. unfold NPT1_SLOT_BYTES. lia. }
  { by apply npt1_header_in. }
  assert (Heq : encode_npt1_page idx gen tokens = Ok x).
  { unfold encode_npt1_page, npt1_writes. unfold page_program in Ex. by rewrite app_nil_r in Ex. }
  rewrite Em in Heq. apply Ok_inj in Heq as <-.
  pose proof (header_sized 4096 24 _ ltac:(lia) (npt1_header_in idx gen (len tokens) Hi Hg Hn)) as Sh.
  assert (Hz : len (zeros 4096) = 4096) by done.
  split; [done|]. split; [done|]. split; [split_and!; via_header T1 Sh Hz R1|].
  split; [via_header T1 Sh Hz R1|]. intros k t Hk.
  pose proof (Hslots k t) as E. rewrite list_lookup_fmap, Hk in E. specialize (E eq_refl).
  rewrite Forall_lookup in Ht. destruct (encode_token_holds t (Ht k t Hk)) as (v & Ev & Hv).
  rewrite Ev in E. apply Ok_inj in E as ->. done.
Qed.

(** ** Parent sets *)

Lemma run_writes_each ws buf m w : run_writes ws buf = Ok m -> w ∈ ws -> exists b v, w_val w b = Ok v.
Proof.
  revert buf. induction ws as [|x ws IH]; intros buf H Hw; [by apply elem_of_nil in Hw|].
  cbn in H. apply bind_Ok in H as (v & Ev & H). apply elem_of_cons in Hw as [-> | Hw]; [by eauto | by eapply IH].
Qed.

Lemma table_writes_elem {A} base stride (f : A -> res bytes) l i a :
  a ∈ l -> exists lo hi, put lo hi (f a) ∈ table_writes base stride f i (map Some l).
Proof.
  intros H. revert i. induction H as [a l | a b l H IH]; intros i; cbn.
  - eexists _, _. apply list_elem_of_here.
  - destruct (IH (i + 1)) as (lo & hi & Hin). exists lo, hi. by apply list_elem_of_further.
Qed.

Lemma checked_size_Ok n e v x : checked_size n e v = Ok x <-> len v = n /\ x = v.
Proof.
  unfold checked_size. rewrite raise_if_then_Ok, negb_false_iff, Z.eqb_eq. split; intros [? H]; (split; [done|]).
  - by injection H.
  - by subst.
Qed.

Lemma concat_len_16 (l : list bytes) : Forall (fun p => len p = 16) l -> len (concat l) = 16 * len l.
Proof. induction 1 as [|p l Hp _ IH]; [done|]. cbn [concat]. rewrite len_app, len_cons, Hp, IH. lia. Qed.

Lemma concat_bytes_ok (l : list bytes) : Forall bytes_ok l -> bytes_ok (concat l).
Proof. induction 1; [constructor|]. cbn [concat]. by apply bytes_ok_app. Qed.

Definition parents_ok (scope set_id : bytes) (revision : Z) (parents : list bytes) : Prop :=
  1 <= len parents <= 8 /\ len scope = 16 /\ len set_id = 16 /\ u64_ok revision /\ Forall (fun p => len p = 16) parents.

Lemma nps1_ok_args scope set_id revision parents m :
  encode_nps1 scope set_id revision parents = Ok m -> parents_ok scope set_id revision parents.
Proof.
  unfold encode_nps1. intros H. inv_res. bool_to_prop.
  assert (Hrev : u64_ok revision).
  { destruct (run_writes_each _ _ _ (put 40 48 (u64 revision)) H) as (b & v & Ev).
    - unfold nps1_writes. rewrite <- !app_assoc. do 5 apply list_elem_of_further. apply list_elem_of_here.
    - cbn in Ev. apply pack_Ok in Ev as [Hv _]. change (256 ^ Z.of_nat 8) with 18446744073709551616 in Hv. exact Hv. }
  split; [lia|]. split; [done|]. split; [done|]. split; [done|]. apply Forall_forall. intros p Hp.
  destruct (table_writes_elem 84 16 (checked_size 16 (ValueError "id len")) parents 0 p Hp) as (lo & hi & Hin).
  destruct (run_writes_each _ _ _ (put lo hi (checked_size 16 (ValueError "id len") p)) H) as (b & v & Ev).
  - unfold nps1_writes. rewrite <- !app_assoc. apply elem_of_app. right. apply elem_of_app. by left.
  - cbn in Ev. by apply checked_size_Ok in Ev as [? _].
Qed.

Definition nps1_holds (scope set_id : bytes) (revision : Z) (parents : list bytes) (m : bytes) : Prop :=
  len m = NPS1_BYTES /\ bytes_ok m /\ slice 0 4 m = bytes_of_string "NPS1" /\ slice 8 24 m = scope /\
  slice 24 40 m = set_id /\ be_val (slice 40 48 m) = revision /\ slice 48 49 m = [len parents] /\
  slice 52 84 m = sha256 (concat parents) /\
  (forall k p, parents !! k = Some p -> slice (84 + Z.of_nat k * 16) (84 + (Z.of_nat k + 1) * 16) m = p) /\
  slice (84 + len parents * 16) 212 m = zeros (128 - len parents * 16) /\
  slice 212 244 m = sha256 (slice 0 212 m) /\ sealed crc32c 244 m.

Lemma nps1_digest_ok (parents : list bytes) :
  1 <= len parents <= 8 -> Forall (fun p => len p = 16) parents -> parent_set_digest parents = Ok (sha256 (concat parents)).
Proof.
  intros Hc Hp. unfold parent_set_digest. rewrite raise_if_skip.
  - cbv zeta. rewrite raise_if_skip; [done|]. rewrite concat_len_16 by done. by rewrite Z.eqb_refl.
  - apply orb_false_iff. split; [apply Z.eqb_neq; lia | apply Z.ltb_ge; lia].
Qed.

Lemma sized_checked n lo hi k e v :
  0 <= lo <= hi -> hi <= n -> k = hi - lo -> bytes_ok v -> sized n (put lo hi (checked_size k e v)).
Proof. intros ? ? -> ?. apply sized_put; [done..|]. intros x [Hx ->]%checked_size_Ok. done. Qed.

Lemma total_checked n lo hi k e v : len v = k -> total n (put lo hi (checked_size k e v)).
Proof. intros H buf _ _. exists v. by apply checked_size_Ok. Qed.

Ltac read_checked Hs Hl Hr :=
  match goal with |- slice ?a ?c _ = _ =>
    let H := fresh in pose proof (read_put _ _ _ _ Hs Hl Hr a c _ _ eq_refl) as H;
    apply checked_size_Ok in H as [_ H]; exact H
  end.

(** The record program with a literal list of parents. *)
Ltac nps1_case :=
  match goal with |- exists m, run_writes (?pre ++ ?post) ?b = Ok m /\ _ =>
    let Hl := fresh "Hl" in let Hb := fresh "Hb" in let Sz := fresh "Sz" in let To := fresh "To" in
    let m := fresh "m" in let Hm := fresh "Hm" in
    assert (Hl : len b = NPS1_BYTES) by done; assert (Hb : bytes_ok b) by apply zeros_ok;
    assert (Sz : Forall (sized NPS1_BYTES) (pre ++ post))
      by (unfold NPS1_BYTES; cbn [app]; solve_sized; (apply sized_checked; [lia | lia | lia | done]));
    assert (To : Forall (total NPS1_BYTES) (pre ++ post))
      by (unfold NPS1_BYTES; cbn [app]; solve_total; apply total_checked; done);
    destruct (run_writes_total _ _ _ Sz To Hl Hb) as (m & Hm & ? & ?); exists m;
    split; [exact Hm|]; split; [done|]; split; [done|]; split; [read_field Sz Hl Hm|]; split; [read_field Sz Hl Hm|];
    split; [read_field Sz Hl Hm|]; split; [read_field Sz Hl Hm|];
    split; [let H := fresh in pose proof (read_index _ _ _ _ Sz Hl Hm 48 _ _ eq_refl) as H; symmetry; exact (Ok_inj _ _ H)|];
    split; [read_field Sz Hl Hm|];
    split; [intros k p Hk; do 8 (try (destruct k as [|k]; [cbn in Hk; try done; injection Hk as <-; read_checked Sz Hl Hm|])); done|];
    split; [by rewrite (read_untouched _ _ _ _ Sz Hl Hm)|];
    split; [by eapply (run_digest sha256 _ _ _ _ 212 212 _ Sz Hl Hm)|];
    by apply (run_sealed crc32c NPS1_BYTES pre 244 b m (proj1 (proj1 (Forall_app _ _ _) Sz)))
  end.

Lemma nps1_built scope set_id revision parents :
  parents_ok scope set_id revision parents -> bytes_ok scope -> bytes_ok set_id -> Forall bytes_ok parents ->
  exists m, encode_nps1 scope set_id revision parents = Ok m /\ nps1_holds scope set_id revision parents m.
Proof.
  intros (Hc & Hs & Hi & Hr & Hp) Bs Bi Bp. unfold u64_ok in Hr. unfold encode_nps1. cbv zeta.
  rewrite raise_if_skip by (apply orb_false_iff; split; apply Z.ltb_ge; lia).
  rewrite raise_if_skip by (rewrite Hs, Hi; done). rewrite nps1_digest_ok, ok_bind by done.
  pose proof (concat_bytes_ok _ Bp) as Bc. pose proof (digest_len (h := sha256) (concat parents)) as Ld.
  pose proof (digest_ok (h := sha256) (concat parents)) as Bd.
  unfold nps1_holds. set (dg := sha256 (concat parents)) in *. clearbody dg.
  unfold nps1_writes. destruct parents as [|p0 parents]; [rewrite len_nil in Hc; lia|].
  do 8 (destruct parents as [|? parents];
        [cbn [map table_writes]; repeat (apply Forall_cons in Hp as [? Hp]);
         repeat (apply Forall_cons in Bp as [? Bp]); nps1_case|]).
  rewrite !len_cons in Hc. pose proof (len_nonneg parents). lia.
Qed.

(** A parent set is encoded exactly when it has one to eight parents, every
    identifier has sixteen bytes and the revision fits 64 bits; the record then
    holds the scope, the set, the revision, the count, the digest of the ordered
    parents, each parent in order and zeroes after the last, its digest and its
    seal. *)
Theorem nps1_exact scope set_id revision parents :
  bytes_ok scope -> bytes_ok set_id -> Forall bytes_ok parents ->
  (is_ok (encode_nps1 scope set_id revision parents) = true <-> parents_ok scope set_id revision parents) /\
  (forall m, encode_nps1 scope set_id revision parents = Ok m -> nps1_holds scope set_id revision parents m).
Proof.
  intros Bs Bi Bp. split; [split|].
  - destruct (encode_nps1 _ _ _ _) eqn:E; [|done]. intros _. by apply nps1_ok_args in E.
  - intros H. by destruct (nps1_built _ _ _ _ H Bs Bi Bp) as (m & -> & _).
  - intros m E. destruct (nps1_built scope set_id revision parents (nps1_ok_args _ _ _ _ _ E) Bs Bi Bp) as (x & Ex & Hx).
    rewrite E in Ex. by apply Ok_inj in Ex as <-.
Qed.

(** ** Owner scopes *)

Lemma app_inj_len {A} (a b c d : list A) : len a = len c -> a ++ b = c ++ d -> a = c /\ b = d.
Proof. intros H. apply app_inj_length. unfold len in H. lia. Qed.

(** [peel H] splits the two sides of an equality of concatenations at their first part. *)
Ltac peel H := apply app_inj_len in H as [? H]; [|lia].

(** The owner scope material is unambiguous: two sets of arguments with the
    same material are the same, because the two texts carry their lengths and every
    other part has a fixed size. *)
Theorem owner_scope_material_injective e d n s t p e' d' n' s' t' p' m :
  owner_scope_material e d n s t p = Ok m -> owner_scope_material e' d' n' s' t' p' = Ok m ->
  e = e' /\ d = d' /\ n = n' /\ s = s' /\ t = t' /\ p = p'.
Proof.
  unfold owner_scope_material. intros H H'.
  apply raise_if_then_Ok in H as [_ H]. apply raise_if_then_Ok in H' as [_ H'].
  apply raise_if_then_Ok in H as [Hl H]. apply raise_if_then_Ok in H' as [Hl' H']. bool_to_prop.
  apply bind_Ok in H as (bd & Ed & H). apply bind_Ok in H as (bn & En & H). apply bind_Ok in H as (bs & Es & H). apply bind_Ok in H as (bt & Et & H).
  apply bind_Ok in H' as (bd' & Ed' & H'). apply bind_Ok in H' as (bn' & En' & H'). apply bind_Ok in H' as (bs' & Es' & H'). apply bind_Ok in H' as (bt' & Et' & H').
  apply Ok_inj in H. apply Ok_inj in H'. rewrite <- H' in H. clear H'.
  pose proof (pack_len _ _ _ Ed). pose proof (pack_len _ _ _ En). pose proof (pack_len _ _ _ Es). pose proof (pack_len _ _ _ Et).
  pose proof (pack_len _ _ _ Ed'). pose proof (pack_len _ _ _ En'). pose proof (pack_len _ _ _ Es'). pose proof (pack_len _ _ _ Et').
  apply pack_val in Ed, En, Es, Et, Ed', En', Es', Et'.
  apply app_inv_head in H. peel H. peel H. peel H.
  assert (len n = len n') by congruence. peel H. peel H.
  assert (len s = len s') by congruence. peel H. peel H. split_and!; congruence.
Qed.

(** ** Witnesses *)

Definition sample_route : route_fields :=
  RouteFields (pattern 1 16) 7 3 2 (pattern 17 16) 900000 5 17 2 (pattern 33 16) 6 18 3 (pattern 49 16) 8 4096 4 1 0
    (pattern 65 16) 11.
Definition sample_entry : slot_entry := SlotEntry 1 sample_route 42 (Some (DrainFields 1 3 800000 900000)).
Definition sample_entries : list (option slot_entry) := [Some sample_entry; None; None; Some sample_entry; None; None; None; None].

Lemma pattern_id i n : 0 <= n -> id_ok n (pattern i n).
Proof. intros. split; [by apply len_pattern | apply pattern_ok]. Qed.

Lemma sample_entries_ok : entries_ok sample_entries.
Proof.
  assert (H : entry_ok sample_entry /\ entry_bytes sample_entry).
  { split; [|unfold entry_bytes, is_byte; cbn; lia]. split.
    - split_and!; by apply pattern_id.
    - unfold route_ranges, drain_ok, u16_ok, u32_ok, u64_ok. cbn -[pattern]. lia. }
  split; [done|]. repeat constructor; apply H.
Qed.

Lemma route_page_stores_witness :
  exists m, encode_route_page 2 9 sample_entries = Ok m /\ route_page_holds 2 9 sample_entries m.
Proof. apply route_page_stores; [apply sample_entries_ok | split; lia | split; lia]. Defined.

Lemma route_page_injective_witness :
  exists m, encode_route_page 2 9 sample_entries = Ok m /\ 2 = 2.
Proof.
  assert (H2 : u16_ok 2) by (split; lia). assert (H9 : u32_ok 9) by (split; lia).
  destruct (route_page_built 2 9 sample_entries eq_refl H2 H9 (entries_ok_weak _ sample_entries_ok)) as (m & E & _).
  exists m. split; [exact E|].
  exact (proj1 (route_page_injective 2 9 sample_entries 2 9 sample_entries m sample_entries_ok sample_entries_ok H2 H9 H2 H9 E E)).
Defined.

Definition empty_slots : list (option bytes) := [None; None; None; None; None; None; None; None].
Definition flip_first (m : bytes) : bytes := match m with b :: m => Z.lxor b 1 :: m | [] => [] end.

Lemma page_first_byte m : slice 0 4 m = bytes_of_string "NRP1" -> exists m', m = 78 :: m'.
Proof. destruct m as [|b m]; [done|]. intros [= -> _]. by exists m. Qed.

Lemma page_corruption_detected_witness :
  exists m, encode_page 2 9 empty_slots = Ok m /\ ~ sealed crc32c 16 (flip_first m).
Proof.
  assert (H2 : u16_ok 2) by (split; lia). assert (H9 : u32_ok 9) by (split; lia).
  assert (Hs : slots_ok SLOT_BYTES empty_slots) by repeat constructor.
  destruct (encode_page_holds 2 9 empty_slots eq_refl Hs H2 H9) as (m & E & _ & Hb & (Hm & _) & _).
  exists m. split; [exact E|]. destruct (page_first_byte m Hm) as [m' ->].
  apply (page_corruption_detected 2 9 empty_slots (78 :: m') (79 :: m') eq_refl Hs H2 H9 E).
  - apply Forall_cons in Hb as [_ Hb]. constructor; [split; lia | exact Hb].
  - exists [], 78, 79, m'. split; [reflexivity|]. split; [reflexivity | lia].
Defined.

Definition sample_gens : list Z := [3; 0; 0; 1; 0; 0; 0; 0; 0; 0; 0; 0; 0; 0; 0; 9].

Lemma directory_names_pages_witness :
  exists m, encode_directory 12 (pattern 1 16) 7 sample_gens (Some [0; 2; 0; 0]) = Ok m /\
    directory_holds 12 (pattern 1 16) 7 sample_gens [0; 2; 0; 0] m.
Proof.
  apply (directory_names_pages 12 (pattern 1 16) 7 sample_gens (Some [0; 2; 0; 0])).
  - split; lia.
  - split; [done | apply pattern_ok].
  - split; lia.
  - done.
  - repeat constructor; done.
  - split; [done | repeat constructor; done].
Defined.

Definition sample_token : token := Token (pattern 9 32) 1 5000.

Lemma token_page_sizes_witness :
  exists m, encode_npt1_page 0 1 (replicate 85 sample_token) = Ok m /\ len m = 4104.
Proof.
  destruct (token_page_sizes 0 1 (replicate 85 sample_token)) as (m & E & _ & H).
  - split; lia.
  - split; lia.
  - unfold u32_ok. vm_compute. by split.
  - apply Forall_replicate. split; [split; [done | apply pattern_ok] | split; done].
  - exists m. split; [exact E|]. destruct H as [H _]; [done|]. exact H.
Defined.

Lemma nps1_exact_witness :
  is_ok (encode_nps1 (pattern 1 16) (pattern 2 16) 4 [pattern 3 16; pattern 4 16]) = true.
Proof.
  apply nps1_exact.
  - apply pattern_ok.
  - apply pattern_ok.
  - apply Forall_cons_2; [apply pattern_ok|]. apply Forall_cons_2; [apply pattern_ok | apply Forall_nil_2].
  - split; [done|]. split; [done|]. split; [done|]. split; [split; lia|]. by repeat constructor.
Defined.

Lemma owner_scope_material_injective_witness :
  owner_scope_material (pattern 1 16) 1 [97] [98; 99] 5 (pattern 2 16)
  = owner_scope_material (pattern 1 16) 1 [97] [98; 99] 5 (pattern 2 16) /\ [98; 99] = [98; 99].
Proof.
  assert (E : owner_scope_material (pattern 1 16) 1 [97] [98; 99] 5 (pattern 2 16) =
    Ok (bytes_of_string "NINLIL-OWNER-SCOPE-V1" ++ pattern 1 16 ++ [1; 0; 1; 97; 0; 2; 98; 99; 0; 5] ++ pattern 2 16))
    by reflexivity.
  split; [done|]. apply (owner_scope_material_injective _ _ _ _ _ _ _ _ _ _ _ _ _ E E).
Defined.
