(* ===== verification/Mfdt.v ===== *)
(** Multi-frame durable transfer, from
    tools/multi_frame_durable_transfer_spec_vector_gen.py: the geometry of a
    transfer, its manifest, pages and chunk offers, the control messages, and the
    durable records (NM3 active records, NM30 tombstones, NRC1 response rows). *)

From S2P Require Import Prelude Bytes Crc Sha256 Layout Join.

Definition crc32c : bytes -> Z := crc32c_xorout.

Definition MAX_CONTENT : Z := 32768.
Definition CHUNK_SIZE : Z := 896.
Definition MAX_CHUNKS : Z := 37.
Definition ENTRY_BYTES : Z := 40.
Definition ENTRIES_PER_PAGE : Z := 22.
Definition MAX_PAGES : Z := 2.
Definition OPEN_BASE_FIXED : Z := 234.
Definition APPLICATION_BINDING_BYTES : Z := 228.
Definition OPEN_FIXED : Z := OPEN_BASE_FIXED + APPLICATION_BINDING_BYTES.
Definition OPEN_MIN : Z := OPEN_FIXED + 3.
Definition OPEN_MAX : Z := OPEN_FIXED + 3 * 63.
Definition HEADER_BYTES : Z := 308.
Definition ACTIVE_VALUE_MAX : Z := HEADER_BYTES + OPEN_MAX + MAX_CHUNKS * ENTRY_BYTES + MAX_CONTENT + 4.
Definition ACTIVE_RECORD_SCHEMA : Z := 2.
Definition NM30_BYTES : Z := 180.
Definition NM30_LEGACY_SCHEMA1_BYTES : Z := 164.
Definition RESUME_MAX : Z := 8.
Definition ABORT_GEN_MAX : Z := 8.
Definition RETRY_BUDGET_MAX : Z := 8.
Definition SESSION_GEN_MAX_PER_TRANSFER : Z := 2.
Definition MFDT_STORAGE_NAMESPACE_DOMAIN : bytes := bytes_of_string "NINLIL-MFDT-STORAGE-NAMESPACE-V1".
Definition MFDT_BASE_NAMESPACE_DOMAIN : bytes := bytes_of_string "NINLIL-MFDT-BASE-NAMESPACE-V1".
Definition MFDT_STORAGE_NAMESPACE_MAGIC : bytes := bytes_of_string "NMF1".
Definition MFDT_STORAGE_BINDING_MAGIC : bytes := bytes_of_string "NMS1".
Definition MFDT_STORAGE_BINDING_HEADER_BYTES : Z := 48.
Definition MFDT_STORAGE_BINDING_FIXED_BYTES : Z := 52.
Definition MFDT_STORAGE_BINDING_SCHEMA : Z := 1.
Definition ZERO16 : bytes := zeros 16.
Definition ZERO32 : bytes := zeros 32.
Definition APPLICATION_EVIDENCE_DOMAIN : bytes := bytes_of_string "NINLIL-MFDT-APPLICATION-EVIDENCE-V1".
Definition DEFAULT_TARGET_ORDINAL : Z := 3.
Definition DEFAULT_SOURCE_BINDING_EPOCH : Z := 11.
Definition DEFAULT_SOURCE_MEMBERSHIP_EPOCH : Z := 12.
Definition DEFAULT_TARGET_BINDING_EPOCH : Z := 21.
Definition DEFAULT_TARGET_MEMBERSHIP_EPOCH : Z := 22.
Definition DEFAULT_IDENTITY_FLAGS : Z := 7.
Definition DEFAULT_SCHEMA_MAJOR : Z := 1.
Definition DEFAULT_SCHEMA_MINOR : Z := 0.
Definition DEFAULT_SERVICE_FAMILY : Z := 2.
Definition DEFAULT_APPLICATION_GENERATION : Z := 7.
Definition DEFAULT_EVIDENCE_GRACE_MS : Z := 5000.
Definition DEFAULT_REQUIRED_EVIDENCE : Z := 3.

(** ** Storage names *)

Definition derive_mfdt_storage_namespace (base_namespace : bytes) : res bytes :=
  raise_if (negb (in_range 1 255 (len base_namespace))) (ValueError "base namespace");;
  material ← join [Ok MFDT_STORAGE_NAMESPACE_DOMAIN; u16 (len base_namespace); Ok base_namespace];
  mret (MFDT_STORAGE_NAMESPACE_MAGIC ++ sha256 material).

Definition build_mfdt_storage_binding (base_namespace : bytes) : res bytes :=
  raise_if (negb (in_range 1 255 (len base_namespace))) (ValueError "base namespace");;
  let total_length := MFDT_STORAGE_BINDING_FIXED_BYTES + len base_namespace in
  value ← join [Ok MFDT_STORAGE_BINDING_MAGIC; u16 MFDT_STORAGE_BINDING_SCHEMA; u16 MFDT_STORAGE_BINDING_HEADER_BYTES;
                u32 total_length; u16 (len base_namespace); u16 0;
                (m ← join [Ok MFDT_BASE_NAMESPACE_DOMAIN; u16 (len base_namespace); Ok base_namespace]; mret (sha256 m));
                Ok base_namespace];
  raise_if (negb (len value =? total_length - 4)) (AssertionError "binding framing");;
  crc ← u32 (crc32c value);
  let value := value ++ crc in
  raise_if (negb (len value =? total_length)) (AssertionError "binding total");;
  mret value.

(** ** Geometry *)

Definition checked_ceil_div (num den : Z) : res Z :=
  raise_if ((den <=? 0) || (num <? 0)) (ValueError "ceil_div");;
  if num =? 0 then mret 0 else mret ((num + den - 1) / den).

Record geometry := Geometry { total_length : Z; chunk_count : Z; manifest_page_count : Z; chunk_size : Z }.

Definition derive_geometry (total_length : Z) : res geometry :=
  raise_if (negb (in_range 0 MAX_CONTENT total_length)) (ValueError "total_length");;
  if total_length =? 0 then mret (Geometry 0 0 0 CHUNK_SIZE)
  else
    chunks ← checked_ceil_div total_length CHUNK_SIZE;
    raise_if (MAX_CHUNKS <? chunks) (ValueError "chunk_count");;
    pages ← checked_ceil_div chunks ENTRIES_PER_PAGE;
    raise_if (MAX_PAGES <? pages) (ValueError "page_count");;
    mret (Geometry total_length chunks pages CHUNK_SIZE).

Definition chunk_range (total_length index : Z) : res (Z * Z) :=
  let offset := CHUNK_SIZE * index in
  let length := Z.min CHUNK_SIZE (total_length - offset) in
  raise_if (length <=? 0) (ValueError "chunk range");;
  mret (offset, length).

Definition content_bytes (total_length seed : Z) : bytes := pattern seed total_length.

(** [l[lo:hi]] and [l[lo:]] with Python's negative bounds. *)
Definition py_bound {A} (i : Z) (l : list A) : Z := if i <? 0 then Z.max 0 (len l + i) else i.
Definition py_slice {A} (lo hi : Z) (l : list A) : list A := slice (py_bound lo l) (py_bound hi l) l.
Definition py_slice_from {A} (lo : Z) (l : list A) : list A := slice_from (py_bound lo l) l.

(** [u16(index) + u16(length) + u32(offset) + sha256(chunk)]. *)
Definition build_entry (content : bytes) (index : Z) : res bytes :=
  '(offset, length) ← chunk_range (len content) index;
  let chunk := py_slice offset (offset + length) content in
  entry ← join [u16 index; u16 length; u32 offset; Ok (sha256 chunk)];
  raise_if (negb (len entry =? ENTRY_BYTES)) (AssertionError "entry");;
  mret entry.

(** [for index in range(n)]. *)
Definition range (n : Z) : list Z := map Z.of_nat (seq 0 (Z.to_nat n)).

Fixpoint build_each {A B} (f : A -> res B) (l : list A) : res (list B) :=
  match l with
  | [] => Ok []
  | a :: l => b ← f a; rest ← build_each f l; mret (b :: rest)
  end.

Definition build_entries (content : bytes) : res (list bytes) :=
  let total := len content in
  if total =? 0 then mret []
  else geo ← derive_geometry total; build_each (build_entry content) (range (chunk_count geo)).

(** ** Identifiers *)

Definition derive_transfer_id (origin_transaction_id target_runtime_id : bytes) (target_ordinal : Z) : res bytes :=
  raise_if (negb (len origin_transaction_id =? 16) || negb (len target_runtime_id =? 16)) (ValueError "transfer id bind");;
  material ← join [Ok origin_transaction_id; Ok target_runtime_id; u32 target_ordinal;
                   Ok (bytes_of_string "ninlil-mfdt-v1id")];
  let result := slice 0 16 (sha256 material) in
  mret (if bool_decide (result = ZERO16) then slice_assign 15 16 [1] result else result).

Record id_set := Ids {
  origin_transaction_id : bytes; original_attempt_id : bytes; origin_event_id : bytes; source_runtime_id : bytes;
  source_application_instance_id : bytes; source_device_id : bytes; source_installation_id : bytes;
  source_site_domain_id : bytes; target_runtime_id : bytes; target_application_instance_id : bytes;
  target_device_id : bytes; target_installation_id : bytes; target_site_domain_id : bytes;
  service_descriptor_digest : bytes; deadline_clock_epoch_id : bytes; reservation_id : bytes;
  reservation_clock_epoch_id : bytes; receiver_evidence_id : bytes; authority_actor_id : bytes; transfer_id : bytes
}.

Definition transfer_ids (salt : Z) : res id_set :=
  b ← pybyte salt;
  tid ← derive_transfer_id (pattern (0x20 + salt) 16) (pattern (0x90 + salt) 16) DEFAULT_TARGET_ORDINAL;
  mret (Ids (pattern (0x20 + salt) 16) (pattern (0x30 + salt) 16) ZERO16 (pattern (0x40 + salt) 16)
    (pattern (0x50 + salt) 16) (pattern (0x60 + salt) 16) (pattern (0x70 + salt) 16) (pattern (0x80 + salt) 16)
    (pattern (0x90 + salt) 16) (pattern (0xA0 + salt) 16) (pattern (0xB0 + salt) 16) (pattern (0xC0 + salt) 16)
    (pattern (0xD0 + salt) 16) (sha256 (bytes_of_string "mfdt-service-descriptor" ++ b)) (pattern (0xE1 + salt) 16)
    (pattern (0x11 + salt) 16) (pattern (0x31 + salt) 16) (pattern (0x51 + salt) 16) (pattern (0x71 + salt) 16) tid).

(** ** OPEN *)

(** Name, offset in the OPEN body and size of each part of the application binding. *)
Definition APPLICATION_BINDING_LAYOUT : list (string * Z * Z) :=
  [("original_attempt_id", 234, 16); ("target_ordinal_u32", 250, 4);
   ("source_application_instance_id", 254, 16); ("source_device_id", 270, 16);
   ("source_installation_id", 286, 16); ("source_site_domain_id", 302, 16);
   ("source_binding_epoch_u64", 318, 8); ("source_membership_epoch_u64", 326, 8);
   ("source_identity_flags_u32", 334, 4); ("source_reserved_u32", 338, 4);
   ("target_application_instance_id", 342, 16); ("target_device_id", 358, 16);
   ("target_installation_id", 374, 16); ("target_site_domain_id", 390, 16);
   ("target_binding_epoch_u64", 406, 8); ("target_membership_epoch_u64", 414, 8);
   ("target_identity_flags_u32", 422, 4); ("target_reserved_u32", 426, 4);
   ("service_schema_major_u16", 430, 2); ("service_schema_minor_u16", 432, 2);
   ("service_family_u32", 434, 4); ("application_generation_u64", 438, 8);
   ("evidence_grace_ms_u64", 446, 8); ("required_evidence_u32", 454, 4);
   ("application_binding_flags_u32", 458, 4)]%string.

Definition binding_parts (ids : id_set) (service_family application_generation evidence_grace_ms : Z) : list (res bytes) :=
  [Ok (original_attempt_id ids); u32 DEFAULT_TARGET_ORDINAL; Ok (source_application_instance_id ids);
   Ok (source_device_id ids); Ok (source_installation_id ids); Ok (source_site_domain_id ids);
   u64 DEFAULT_SOURCE_BINDING_EPOCH; u64 DEFAULT_SOURCE_MEMBERSHIP_EPOCH; u32 DEFAULT_IDENTITY_FLAGS; u32 0;
   Ok (target_application_instance_id ids); Ok (target_device_id ids); Ok (target_installation_id ids);
   Ok (target_site_domain_id ids); u64 DEFAULT_TARGET_BINDING_EPOCH; u64 DEFAULT_TARGET_MEMBERSHIP_EPOCH;
   u32 DEFAULT_IDENTITY_FLAGS; u32 0; u16 DEFAULT_SCHEMA_MAJOR; u16 DEFAULT_SCHEMA_MINOR; u32 service_family;
   u64 application_generation; u64 evidence_grace_ms; u32 DEFAULT_REQUIRED_EVIDENCE; u32 0].
Definition encode_application_binding (ids : id_set) (service_family application_generation evidence_grace_ms : Z) :
    res bytes :=
  binding ← join (binding_parts ids service_family application_generation evidence_grace_ms);
  raise_if (negb (len binding =? APPLICATION_BINDING_BYTES)) (AssertionError "application binding");;
  mret binding.

(** The keyword arguments of [encode_open] with their defaults. *)
Record open_args := OpenArgs {
  manifest_revision : Z; namespace : bytes; service : bytes; schema : bytes; absolute_effect_deadline_ms : Z;
  oa_deadline_clock_epoch_id : option bytes; service_family : Z; application_generation : Z; evidence_grace_ms : Z
}.
Definition open_defaults : open_args :=
  OpenArgs 1 (bytes_of_string "n") (bytes_of_string "s") (bytes_of_string "x") 200000 None DEFAULT_SERVICE_FAMILY
    DEFAULT_APPLICATION_GENERATION DEFAULT_EVIDENCE_GRACE_MS.

(** [value.decode("ascii")]: the text, or an error on a byte above 127. *)
Definition decode_ascii (value : bytes) : res bytes :=
  raise_if (existsb (fun b => 127 <? b) value) UnicodeDecodeError;; mret value.

Record open_facts := OpenFacts {
  of_geometry : geometry; open_body_length : Z; whole_content_sha256 : bytes; of_manifest_digest : bytes;
  of_namespace : bytes; of_service : bytes; of_schema : bytes; of_manifest_revision : Z; application_binding : bytes;
  of_service_family : Z; of_application_generation : Z; of_evidence_grace_ms : Z
}.

Definition open_head_parts (geo : geometry) (whole : bytes) (ids : id_set) (a : open_args) : list (res bytes) :=
  [Ok (transfer_id ids); u32 (manifest_revision a); u32 (total_length geo); u16 (chunk_size geo); u16 (chunk_count geo);
   u16 (manifest_page_count geo); u16 ENTRIES_PER_PAGE; Ok whole; Ok (origin_transaction_id ids);
   Ok (origin_event_id ids); Ok (source_runtime_id ids); Ok (target_runtime_id ids); u64 1; u16 1;
   Ok (service_descriptor_digest ids); u16 (len (namespace a)); u16 (len (service a)); u16 (len (schema a)); u16 0;
   Ok (default (deadline_clock_epoch_id ids) (oa_deadline_clock_epoch_id a)); u64 (absolute_effect_deadline_ms a)].

Definition encode_open (content : bytes) (ids : id_set) (a : open_args) :
    res (bytes * bytes * list bytes * open_facts) :=
  geo ← derive_geometry (len content);
  entries ← build_entries content;
  let whole := sha256 content in
  head ← join (open_head_parts geo whole ids a);
  raise_if (negb (len head =? 202)) (AssertionError "head");;
  binding ← encode_application_binding ids (service_family a) (application_generation a) (evidence_grace_ms a);
  let text := namespace a ++ service a ++ schema a in
  let digest_input := bytes_of_string "NM3-MANIFEST-V1" ++ head ++ binding ++ text ++ concat entries in
  let manifest_digest := sha256 digest_input in
  let open_body := head ++ manifest_digest ++ binding ++ text in
  raise_if (negb (OPEN_FIXED + len text =? len open_body)) (AssertionError "open");;
  ns ← decode_ascii (namespace a); sv ← decode_ascii (service a); sc ← decode_ascii (schema a);
  mret (open_body, manifest_digest, entries,
        OpenFacts geo (len open_body) whole manifest_digest ns sv sc (manifest_revision a) binding
          (service_family a) (application_generation a) (evidence_grace_ms a)).

(** ** Pages and chunk offers *)

(** The three values every message after OPEN starts with. *)
Record binding := Binding { b_transfer_id : bytes; b_revision : Z; b_manifest_digest : bytes }.

Definition bind_parts (b : binding) : list (res bytes) := [Ok (b_transfer_id b); u32 (b_revision b); Ok (b_manifest_digest b)].
Definition bind52 (b : binding) : res bytes := join (bind_parts b).

Record page_facts := PageFacts {
  pf_page_index : Z; pf_page_count : Z; first_chunk_index : Z; entry_count : Z; pf_page_digest : bytes; pf_body_length : Z
}.

Definition page_parts (b : binding) (page_index page_count first entry_count : Z) : list (res bytes) :=
  bind_parts b ++ [u16 page_index; u16 page_count; u16 first; u16 entry_count].
Definition page_entries_of (page_index page_count : Z) (entries : list bytes) : list bytes :=
  let first := page_index * ENTRIES_PER_PAGE in
  if page_index + 1 <? page_count then py_slice first (first + ENTRIES_PER_PAGE) entries else py_slice_from first entries.

Definition encode_page (b : binding) (page_index page_count : Z) (entries : list bytes) :
    res (bytes * bytes * page_facts) :=
  let first := page_index * ENTRIES_PER_PAGE in
  let page_entries := page_entries_of page_index page_count entries in
  let entry_count := len page_entries in
  raise_if ((page_count =? 0) || (entry_count =? 0)) (ValueError "empty page");;
  let entry_bytes := concat page_entries in
  pre ← join (page_parts b page_index page_count first entry_count);
  let page_digest := sha256 (bytes_of_string "NM3-PAGE-V1" ++ pre ++ entry_bytes) in
  let body := pre ++ page_digest ++ entry_bytes in
  raise_if (negb (len body =? 92 + 40 * entry_count)) (AssertionError "page");;
  mret (body, page_digest, PageFacts page_index page_count first entry_count page_digest (len body)).

Record offer_facts := OfferFacts {
  cf_chunk_index : Z; cf_chunk_count : Z; chunk_offset : Z; chunk_length : Z; chunk_sha256 : bytes;
  cf_body_length : Z; chunk_bytes : bytes
}.

Definition offer_parts (b : binding) (chunk_index chunk_count offset length : Z) (digest chunk : bytes) :
    list (res bytes) :=
  bind_parts b ++ [u16 chunk_index; u16 chunk_count; u32 offset; u16 length; u16 0; Ok digest; Ok chunk].
Definition encode_chunk_offer (b : binding) (content : bytes) (chunk_index chunk_count : Z) : res (bytes * offer_facts) :=
  '(offset, length) ← chunk_range (len content) chunk_index;
  let chunk := py_slice offset (offset + length) content in
  let digest := sha256 chunk in
  body ← join (offer_parts b chunk_index chunk_count offset length digest chunk);
  raise_if (negb (len body =? 96 + length)) (AssertionError "chunk offer");;
  mret (body, OfferFacts chunk_index chunk_count offset length digest (len body) chunk).

(** ** Control messages *)

Definition open_accept_parts (b : binding) (reservation_id : bytes) (total_length : Z)
    (reservation_clock_epoch_id : bytes) (reservation_not_after_ms manifest_complete : Z) : list (res bytes) :=
  bind_parts b ++ [Ok reservation_id; u32 total_length; Ok reservation_clock_epoch_id; u64 reservation_not_after_ms;
                   u8 manifest_complete; Ok (zeros 3)].
Definition encode_open_accept (b : binding) (reservation_id : bytes) (total_length : Z)
    (reservation_clock_epoch_id : bytes) (reservation_not_after_ms manifest_complete : Z) : res bytes :=
  join (open_accept_parts b reservation_id total_length reservation_clock_epoch_id reservation_not_after_ms manifest_complete).

Definition page_accept_parts (b : binding) (page_index received_page_count : Z) (page_digest reservation_id : bytes)
    (manifest_complete : Z) : list (res bytes) :=
  bind_parts b ++ [u16 page_index; u16 received_page_count; Ok page_digest; Ok reservation_id; u8 manifest_complete;
                   Ok (zeros 3)].
Definition encode_page_accept (b : binding) (page_index received_page_count : Z) (page_digest reservation_id : bytes)
    (manifest_complete : Z) : res bytes :=
  join (page_accept_parts b page_index received_page_count page_digest reservation_id manifest_complete).

Definition chunk_accept_parts (b : binding) (chunk_index : Z) (chunk_sha256 : bytes) : list (res bytes) :=
  bind_parts b ++ [u16 chunk_index; u16 0; Ok chunk_sha256].
Definition encode_chunk_accept (b : binding) (chunk_index : Z) (chunk_sha256 : bytes) : res bytes :=
  join (chunk_accept_parts b chunk_index chunk_sha256).

Definition finalize_parts (b : binding) (whole : bytes) (total_length : Z) : list (res bytes) :=
  bind_parts b ++ [Ok whole; u32 total_length; u32 0].
Definition encode_finalize (b : binding) (whole : bytes) (total_length : Z) : res bytes :=
  join (finalize_parts b whole total_length).

Definition accept_parts (b : binding) (whole : bytes) (total_length : Z) (receiver_evidence_id : bytes)
    (acceptance_record_generation : Z) (reservation_id : bytes) : list (res bytes) :=
  bind_parts b ++ [Ok whole; u32 total_length; Ok receiver_evidence_id; u64 acceptance_record_generation; Ok reservation_id].
Definition encode_accept (b : binding) (whole : bytes) (total_length : Z) (receiver_evidence_id : bytes)
    (acceptance_record_generation : Z) (reservation_id : bytes) : res (bytes * bytes) :=
  pre ← join (accept_parts b whole total_length receiver_evidence_id acceptance_record_generation reservation_id);
  let digest := sha256 (bytes_of_string "NM3-ACCEPT-V1" ++ pre) in
  mret (pre ++ digest, digest).

Definition abort_parts (b : binding) (reason : Z) (authority_actor_id : bytes) (abort_generation : Z) : list (res bytes) :=
  bind_parts b ++ [u16 reason; u16 0; Ok authority_actor_id; u32 abort_generation].
Definition encode_abort (b : binding) (reason : Z) (authority_actor_id : bytes) (abort_generation : Z) : res bytes :=
  join (abort_parts b reason authority_actor_id abort_generation).

Definition abort_ack_parts (b : binding) (abort_generation final_state : Z) (tombstone_digest : bytes) : list (res bytes) :=
  bind_parts b ++ [u32 abort_generation; u16 final_state; u16 0; Ok tombstone_digest].
Definition encode_abort_ack (b : binding) (abort_generation final_state : Z) (tombstone_digest : bytes) : res bytes :=
  join (abort_ack_parts b abort_generation final_state tombstone_digest).

Definition resume_query_parts (b : binding) (query_generation : Z) : list (res bytes) :=
  bind_parts b ++ [u32 query_generation; u32 0].
Definition encode_resume_query (b : binding) (query_generation : Z) : res bytes :=
  join (resume_query_parts b query_generation).

Definition resume_state_parts (b : binding) (query_generation receiver_record_generation bitmap transfer_state : Z) :
    list (res bytes) :=
  bind_parts b ++ [u32 query_generation; u64 receiver_record_generation; u64 bitmap; u16 transfer_state; u16 0].
Definition encode_resume_state (b : binding) (query_generation receiver_record_generation bitmap transfer_state : Z) :
    res (bytes * bytes) :=
  pre ← join (resume_state_parts b query_generation receiver_record_generation bitmap transfer_state);
  raise_if (negb (len pre =? 76)) (AssertionError "resume state");;
  let digest := sha256 (bytes_of_string "NM3-RESUME-V1" ++ pre) in
  mret (pre ++ digest, digest).

Definition reject_parts (b : binding) (stage code detail : Z) : list (res bytes) :=
  bind_parts b ++ [u16 stage; u16 code; u32 detail].
Definition encode_reject (b : binding) (stage code detail : Z) : res bytes := join (reject_parts b stage code detail).

Definition publication_token (b : binding) (whole : bytes) (total_length : Z) (receiver_evidence_id : bytes) : res bytes :=
  material ← join (Ok (bytes_of_string "NM3-PUBLISH-V1") :: bind_parts b ++ [Ok whole; u32 total_length; Ok receiver_evidence_id]);
  mret (slice 0 16 (sha256 material)).

Definition evidence_parts (publication_token_v origin_transaction_id original_attempt_id : bytes)
    (target_ordinal evidence_stage : Z) (evidence_bytes : bytes) : list (res bytes) :=
  [Ok APPLICATION_EVIDENCE_DOMAIN; Ok publication_token_v; Ok origin_transaction_id; Ok original_attempt_id;
   u32 target_ordinal; u32 evidence_stage; u32 (len evidence_bytes); Ok evidence_bytes].
Definition application_evidence_digest (publication_token_v origin_transaction_id original_attempt_id : bytes)
    (target_ordinal evidence_stage : Z) (evidence_bytes : bytes) : res (bytes * bytes) :=
  raise_if (negb (len publication_token_v =? 16) || negb (len origin_transaction_id =? 16) ||
            negb (len original_attempt_id =? 16)) (ValueError "application evidence bind");;
  preimage ← join (evidence_parts publication_token_v origin_transaction_id original_attempt_id target_ordinal
                     evidence_stage evidence_bytes);
  mret (preimage, sha256 preimage).

Definition storage_key (kind transfer_id : bytes) : res bytes :=
  raise_if (negb (len kind =? 4) || negb (len transfer_id =? 16)) (AssertionError "storage key");;
  mret (kind ++ transfer_id).

(** ** Durable records *)

(** The keyword arguments of [build_active_record]. *)
Record active_args := ActiveArgs {
  kind : bytes; owner_side : Z; state_code : Z; open_body : bytes; entries : list bytes; content : bytes; ids : id_set;
  manifest_digest : bytes; revision : Z; record_generation : Z; chunk_bitmap : Z; page_bitmap : Z;
  publication_state : Z; handoff_state : Z; accept_notified : Z; acceptance_record_generation : Z;
  acceptance_record_digest : bytes; publication_token_v : bytes; publication_evidence_digest : bytes;
  reservation_not_after_ms : Z; abort_generation : Z; abort_reason : Z; local_mono_ms : Z; session_generation : Z
}.

(** [(reservation_id, res_epoch, res_exp)]: a sender offer has no reservation yet. *)
Definition reservation_of (a : active_args) : bytes * bytes * Z :=
  let reservation_id :=
    if negb (state_code a =? 1) || (owner_side a =? 2) then reservation_id (ids a) else ZERO16 in
  if (owner_side a =? 1) && (state_code a =? 1) then (ZERO16, ZERO16, 0)
  else
    let none := bool_decide (reservation_id = ZERO16) in
    (reservation_id, if none then ZERO16 else reservation_clock_epoch_id (ids a),
     if none then 0 else reservation_not_after_ms a).

Definition evidence_of (a : active_args) : bytes :=
  let receiver_evidence :=
    if negb (acceptance_record_generation a =? 0) || (1 <=? publication_state a) then receiver_evidence_id (ids a)
    else ZERO16 in
  if (publication_state a =? 0) && (acceptance_record_generation a =? 0) then ZERO16 else receiver_evidence.

Definition active_header_writes (a : active_args) (geo : geometry) (total_record open_len : Z) : list write :=
  let '(reservation_id, res_epoch, res_exp) := reservation_of a in
  [put 0 4 (Ok (kind a)); put 4 6 (u16 ACTIVE_RECORD_SCHEMA); put 6 8 (u16 HEADER_BYTES); put 8 12 (u32 total_record);
   put_byte 12 (owner_side a); put_byte 13 (state_code a); put 14 16 (u16 0); put 16 32 (Ok (transfer_id (ids a)));
   put 32 36 (u32 (revision a)); put 36 68 (Ok (manifest_digest a)); put 68 76 (u64 (record_generation a));
   put 76 84 (u64 (acceptance_record_generation a)); put 84 86 (u16 open_len);
   put 86 88 (u16 (ENTRY_BYTES * chunk_count geo)); put 88 92 (u32 (total_length geo)); put 92 94 (u16 (chunk_count geo));
   put 94 96 (u16 (manifest_page_count geo)); put 96 104 (u64 (chunk_bitmap a)); put_masked 104 (page_bitmap a);
   put_byte 105 8; put_byte 106 1; put_byte 107 (publication_state a); put_byte 108 (handoff_state a);
   put_byte 109 (accept_notified a); put 110 112 (u16 0); put 112 128 (Ok reservation_id); put 128 144 (Ok res_epoch);
   put 144 152 (u64 res_exp); put 152 168 (Ok (evidence_of a)); put 168 200 (Ok (acceptance_record_digest a));
   put 200 216 (Ok (reservation_clock_epoch_id (ids a))); put 216 224 (u64 (local_mono_ms a));
   put 224 228 (u32 (abort_generation a)); put 228 230 (u16 (abort_reason a)); put 230 232 (u16 0);
   put 232 248 (Ok (if abort_generation a =? 0 then ZERO16 else authority_actor_id (ids a)));
   put 248 264 (Ok (publication_token_v a)); put 264 296 (Ok (publication_evidence_digest a)); put 296 300 (u32 0);
   put 300 304 (raise_if (negb (in_range 1 0xFFFFFFFF (session_generation a))) (ValueError "session_generation");;
                u32 (session_generation a))].
Definition active_header (a : active_args) (geo : geometry) (total_record open_len : Z) : res bytes :=
  run_writes (active_header_writes a geo total_record open_len ++ [put_prefix_crc crc32c 304 304]) (zeros HEADER_BYTES).

(** [bytes(n)] raises for a negative count. *)
Definition py_zeros (n : Z) : res bytes := raise_if (n <? 0) (ValueError "negative count");; mret (zeros n).

Definition build_active_record (a : active_args) : res bytes :=
  geo ← derive_geometry (len (content a));
  let blob := concat (entries a) in
  entry_blob ←
    (if negb (len blob =? ENTRY_BYTES * chunk_count geo) then
       pad ← py_zeros (ENTRY_BYTES * chunk_count geo - len blob); mret (blob ++ pad)
     else mret blob);
  slots_pad ← py_zeros (total_length geo - len (content a));
  let content_slots := content a ++ slots_pad in
  let open_len := len (open_body a) in
  let total_record := HEADER_BYTES + open_len + len entry_blob + total_length geo + 4 in
  header ← active_header a geo total_record open_len;
  let record := header ++ open_body a ++ entry_blob ++ content_slots in
  crc ← u32 (crc32c record);
  let record := record ++ crc in
  raise_if (negb (len record =? total_record)) (AssertionError "record");;
  mret record.

Record nm30_args := Nm30Args {
  nm_transfer_id : bytes; nm_reservation_clock_epoch_id : bytes; nm_source_runtime_id : bytes; nm_revision : Z;
  nm_manifest_digest : bytes; terminal_state : Z; terminal_reason : Z; nm_abort_generation : Z;
  nm_receiver_evidence_id : bytes; nm_acceptance_record_digest : bytes; nm_authority_actor_id : bytes; retention_ms : Z
}.

(** The part the two schemas share, from the transfer id to the retention. *)
Definition nm30_common_writes (schema size : Z) (a : nm30_args) : list write :=
  [put 0 4 (Ok (bytes_of_string "NM30")); put 4 6 (u16 schema); put 6 8 (u16 size); put 8 24 (Ok (nm_transfer_id a));
   put 24 28 (u32 (nm_revision a)); put 28 60 (Ok (nm_manifest_digest a)); put 60 62 (u16 (terminal_state a));
   put 62 64 (u16 (terminal_reason a)); put 64 68 (u32 (nm_abort_generation a));
   put 68 84 (Ok (nm_receiver_evidence_id a)); put 84 116 (Ok (nm_acceptance_record_digest a));
   put 116 132 (Ok (nm_authority_actor_id a)); put 132 148 (Ok (nm_reservation_clock_epoch_id a));
   put 148 156 (u64 (retention_ms a))].
Definition nm30_writes (a : nm30_args) (peer_endpoint_id : bytes) (owner_role : Z) : list write :=
  nm30_common_writes 2 NM30_BYTES a ++
  [put 156 172 (Ok peer_endpoint_id); put_byte 172 owner_role; put 173 176 (Ok (zeros 3))].
Definition build_nm30 (a : nm30_args) (peer_endpoint_id : option bytes) (owner_role : Z) : res (bytes * bytes) :=
  let peer := default (nm_source_runtime_id a) peer_endpoint_id in
  raise_if (negb (len peer =? 16) || bool_decide (peer = ZERO16)) (ValueError "peer_endpoint_id");;
  raise_if (negb (bool_decide (owner_role ∈ [1; 2]))) (ValueError "owner_role");;
  body ← run_writes (nm30_writes a peer owner_role ++ [put_prefix_crc crc32c 176 176]) (zeros NM30_BYTES);
  mret (body, sha256 body).
Definition build_nm30_legacy_schema1 (a : nm30_args) : res bytes :=
  run_writes ((nm30_common_writes 1 NM30_LEGACY_SCHEMA1_BYTES a ++ [put 156 160 (Ok (zeros 4))]) ++
              [put_prefix_crc crc32c 160 160]) (zeros NM30_LEGACY_SCHEMA1_BYTES).

(** [mutable[lo:lo+4] = u32(crc32c(bytes(mutable[0:lo])))]. *)
Definition reseal (lo : Z) (m : bytes) : res bytes :=
  crc ← u32 (crc32c (slice 0 lo m)); mret (slice_assign lo (lo + 4) crc m).

(** [mutable[-4:] = u32(crc32c(bytes(mutable[:-4])))] is the same at [len - 4]. *)
Definition repair_record_crc (record : bytes) : res bytes :=
  raise_if (len record <? HEADER_BYTES + 4) (ValueError "record");;
  mutable ← reseal 304 record; reseal (len mutable - 4) mutable.

Definition repair_nm30_crc (value : bytes) : res bytes :=
  tag2 ← join [u16 2; u16 NM30_BYTES]; tag1 ← join [u16 1; u16 NM30_LEGACY_SCHEMA1_BYTES];
  if (len value =? NM30_BYTES) && bool_decide (slice 4 8 value = tag2) then reseal 176 value
  else if (len value =? NM30_LEGACY_SCHEMA1_BYTES) && bool_decide (slice 4 8 value = tag1) then reseal 160 value
  else Raise (ValueError "nm30 schema/length").

(** ** Response cache *)

Definition NRC1_SLOT_BYTES : Z := 208.

Record reach := Reach {
  first_open : Z; first_pages : Z; first_chunks : Z; first_resume_per_session_generation : Z; first_finalize : Z;
  first_abort : Z; retry_new_ids : Z; non_resume_ids : Z; n_complete_peak : Z; n_abort_peak : Z;
  illegal_two_gen_no_reclaim : Z; reachable_max : Z; happy_first : Z; naive_union : Z; illegal_two_gen_exceeds_72 : bool
}.

Definition reachable_request_id_counts : reach :=
  let first_open := 1 in let first_pages := MAX_PAGES in let first_chunks := MAX_CHUNKS in
  let first_resume_per_gen := RESUME_MAX in let first_finalize := 1 in let first_abort := ABORT_GEN_MAX in
  let retry_new_ids := RETRY_BUDGET_MAX in
  let non_resume := first_open + first_pages + first_chunks + first_finalize + first_abort + retry_new_ids in
  let n_complete_peak := non_resume + first_resume_per_gen in
  let n_abort_peak := first_open + first_pages + first_chunks + first_abort + retry_new_ids + first_resume_per_gen in
  let illegal := non_resume + first_resume_per_gen * SESSION_GEN_MAX_PER_TRANSFER in
  let happy_first := first_open + first_pages + first_chunks + first_finalize in
  let naive_union := first_open + first_pages + first_chunks + first_resume_per_gen + first_finalize + first_abort in
  Reach first_open first_pages first_chunks first_resume_per_gen first_finalize first_abort retry_new_ids non_resume
    n_complete_peak n_abort_peak illegal (Z.max n_complete_peak n_abort_peak) happy_first naive_union (72 <? illegal).

Definition NRC1_REACHABLE_MAX_IDS : Z := reachable_max reachable_request_id_counts.
Definition NRC1_SLOT_COUNT : Z := 72.
Definition NRC1_VALUE_BYTES : Z := 40 + NRC1_SLOT_BYTES * NRC1_SLOT_COUNT + 4.
Definition NRC1_MAX_RESPONSE : Z := 160.

Definition repair_nrc1_crc (value : bytes) : res bytes :=
  raise_if (negb (len value =? NRC1_VALUE_BYTES)) (ValueError "nrc1 value length");;
  mutable ← reseal 36 value; reseal (len mutable - 4) mutable.

Definition request_body_digest (message_type : Z) (body : bytes) : res bytes :=
  raise_if ((message_type <? 0) || (0xFF <? message_type)) (ValueError "type");;
  raise_if (0xFFFF <? len body) (ValueError "body");;
  material ← join [Ok [Z.land message_type 0xFF]; u16 (len body); Ok body];
  mret (sha256 material).

Definition nrc1_key (transfer_id : bytes) : res bytes :=
  raise_if (negb (len transfer_id =? 16)) (AssertionError "nrc1 key");; mret (bytes_of_string "NRC1" ++ transfer_id).
Definition nrc1_empty_slot : bytes := zeros NRC1_SLOT_BYTES.

Record response := Response {
  request_id : Z; r_session_generation : Z; r_request_body_digest : bytes; response_type : Z; response_body : bytes
}.

Definition slot_parts (r : response) : list (res bytes) :=
  [u64 (request_id r); u32 (r_session_generation r); Ok (r_request_body_digest r); u16 (response_type r);
   u16 (len (response_body r)); Ok (response_body r ++ zeros (NRC1_MAX_RESPONSE - len (response_body r)))].
Definition nrc1_slot (r : response) : res bytes :=
  raise_if (negb (in_range 1 0xFFFFFFFFFFFFFFFF (request_id r))) (ValueError "request_id");;
  raise_if (negb (len (r_request_body_digest r) =? 32)) (ValueError "digest");;
  raise_if (negb (in_range 1 0xFFFFFFFF (r_session_generation r))) (ValueError "session_generation");;
  raise_if ((len (response_body r) =? 0) || (NRC1_MAX_RESPONSE <? len (response_body r))) (ValueError "response length");;
  join (slot_parts r).

Definition nrc1_head_parts (transfer_id : bytes) (session_generation occupied next_insert_seq : Z) : list (res bytes) :=
  [Ok (bytes_of_string "NRC1"); u16 1; u16 NRC1_VALUE_BYTES; Ok transfer_id; u32 session_generation; u16 NRC1_SLOT_COUNT;
   u16 occupied; u32 next_insert_seq].
Definition build_nrc1_value (transfer_id : bytes) (session_generation : Z) (slots : list bytes) (next_insert_seq : Z) :
    res bytes :=
  raise_if (negb (len transfer_id =? 16)) (ValueError "tid");;
  raise_if (NRC1_SLOT_COUNT <? len slots) (ValueError "slots");;
  let filled := slots ++ replicate (Z.to_nat (NRC1_SLOT_COUNT - len slots)) nrc1_empty_slot in
  let occupied := len (List.filter (fun s => negb (bool_decide (slice 0 8 s = zeros 8))) filled) in
  head ← join (nrc1_head_parts transfer_id session_generation occupied next_insert_seq);
  raise_if (negb (len head =? 36)) (AssertionError "nrc1 head");;
  crc ← u32 (crc32c head);
  let head := head ++ crc in
  raise_if (negb (len head =? 40)) (AssertionError "nrc1 head crc");;
  let value := head ++ concat filled in
  crc ← u32 (crc32c value);
  let value := value ++ crc in
  raise_if (negb (len value =? NRC1_VALUE_BYTES)) (AssertionError "nrc1 value");;
  mret value.
