(* ===== verification/MfdtTransfer.v ===== *)
(** What a transfer of Mfdt.v carries: the geometry, the chunks and pages that
    partition the content and its manifest, and the messages. *)

From S2P Require Import Prelude Bytes Crc Sha256 Layout Join Mfdt.

(** ** Geometry *)

Definition geometry_of (n : Z) (g : geometry) : Prop :=
  total_length g = n /\ chunk_size g = CHUNK_SIZE /\ 0 <= chunk_count g <= MAX_CHUNKS /\
  0 <= manifest_page_count g <= MAX_PAGES /\
  (n = 0 -> chunk_count g = 0 /\ manifest_page_count g = 0) /\
  (0 < n -> (chunk_count g - 1) * CHUNK_SIZE < n <= chunk_count g * CHUNK_SIZE /\
            (manifest_page_count g - 1) * ENTRIES_PER_PAGE < chunk_count g <= manifest_page_count g * ENTRIES_PER_PAGE).

Lemma checked_ceil_div_Ok num den : 0 < den -> 0 < num -> checked_ceil_div num den = Ok (ceil_div num den).
Proof.
  intros. unfold checked_ceil_div. rewrite raise_if_skip by (apply orb_false_iff; rewrite Z.leb_gt, Z.ltb_ge; lia).
  by rewrite (proj2 (Z.eqb_neq _ _)) by lia.
Qed.

Lemma derive_geometry_Ok n : 0 <= n <= MAX_CONTENT -> exists g, derive_geometry n = Ok g /\ geometry_of n g.
Proof.
  unfold MAX_CONTENT. intros Hn. unfold derive_geometry.
  rewrite raise_if_skip by (apply negb_false_iff, in_range_spec; unfold MAX_CONTENT; lia).
  destruct (Z.eqb_spec n 0) as [-> | Hn0].
  { eexists. split; [done|]. unfold geometry_of. cbn. unfold MAX_CHUNKS, MAX_PAGES. split_and!; try done; lia. }
  rewrite checked_ceil_div_Ok, ok_bind by (unfold CHUNK_SIZE; lia).
  pose proof (ceil_div_spec n CHUNK_SIZE ltac:(done)) as Hc. set (c := ceil_div n CHUNK_SIZE) in *.
  assert (Hc37 : 0 < c <= 37) by (unfold CHUNK_SIZE in Hc; lia).
  rewrite raise_if_skip by (apply Z.ltb_ge; unfold MAX_CHUNKS; lia).
  rewrite checked_ceil_div_Ok, ok_bind by (unfold ENTRIES_PER_PAGE; lia).
  pose proof (ceil_div_spec c ENTRIES_PER_PAGE ltac:(done)) as Hp. set (p := ceil_div c ENTRIES_PER_PAGE) in *.
  assert (Hp2 : 0 < p <= 2) by (unfold ENTRIES_PER_PAGE in Hp; lia).
  rewrite raise_if_skip by (apply Z.ltb_ge; unfold MAX_PAGES; lia).
  eexists. split; [done|]. unfold geometry_of, MAX_CHUNKS, MAX_PAGES. cbn. split_and!; try done; lia.
Qed.

Lemma derive_geometry_bad n : ~ (0 <= n <= MAX_CONTENT) -> derive_geometry n = Raise (ValueError "total_length").
Proof. intros H. unfold derive_geometry. apply in_range_false in H. by rewrite H. Qed.

(** The geometry is defined exactly for contents of 0 to 32768 bytes: it has the
    fewest chunks of 896 bytes and the fewest pages of 22 entries that cover the
    content, at most 37 and 2; the guards on the number of chunks and pages can never
    fire, since a length out of range is refused first. *)
Theorem geometry_exact n :
  (0 <= n <= MAX_CONTENT -> exists g, derive_geometry n = Ok g /\ geometry_of n g) /\
  (~ (0 <= n <= MAX_CONTENT) -> derive_geometry n = Raise (ValueError "total_length")).
Proof. split; [apply derive_geometry_Ok | apply derive_geometry_bad]. Qed.

(** ** Chunks *)

Definition chunk_at (content : bytes) (i : Z) : bytes :=
  slice (CHUNK_SIZE * i) (Z.min (CHUNK_SIZE * (i + 1)) (len content)) content.

Lemma chunk_range_Ok n i :
  0 <= i -> CHUNK_SIZE * i < n -> chunk_range n i = Ok (CHUNK_SIZE * i, Z.min CHUNK_SIZE (n - CHUNK_SIZE * i)).
Proof. intros. unfold chunk_range. rewrite raise_if_skip; [done|]. apply Z.leb_gt. unfold CHUNK_SIZE in *. lia. Qed.

Lemma chunk_py_slice content i :
  0 <= i -> CHUNK_SIZE * i < len content ->
  py_slice (CHUNK_SIZE * i) (CHUNK_SIZE * i + Z.min CHUNK_SIZE (len content - CHUNK_SIZE * i)) content = chunk_at content i.
Proof.
  intros Hi Hl. unfold py_slice, py_bound, chunk_at, CHUNK_SIZE in *.
  rewrite !(proj2 (Z.ltb_ge _ 0)) by lia. f_equal; lia.
Qed.

Lemma chunk_at_len content i :
  0 <= i -> CHUNK_SIZE * i < len content -> len (chunk_at content i) = Z.min CHUNK_SIZE (len content - CHUNK_SIZE * i).
Proof. intros. unfold chunk_at, CHUNK_SIZE in *. rewrite len_slice by lia. lia. Qed.

Lemma range_S n : 0 <= n -> range (n + 1) = range n ++ [n].
Proof.
  intros H. unfold range. replace (Z.to_nat (n + 1)) with (S (Z.to_nat n)) by lia.
  rewrite seq_S, map_app, Nat.add_0_l. cbn [map]. by rewrite Z2Nat.id.
Qed.

Lemma range_lookup n (k : nat) : Z.of_nat k < n -> range n !! k = Some (Z.of_nat k).
Proof. intros H. unfold range. rewrite list_lookup_fmap, lookup_seq_lt by lia. done. Qed.

Lemma range_elem n i : i ∈ range n <-> 0 <= i < n.
Proof.
  unfold range. rewrite list_elem_of_fmap. split.
  - intros (k & -> & Hk%elem_of_seq). lia.
  - intros H. exists (Z.to_nat i). split; [lia|]. apply elem_of_seq. lia.
Qed.

Lemma chunks_prefix content n :
  0 <= n -> concat (map (chunk_at content) (range n)) = slice 0 (Z.min (CHUNK_SIZE * n) (len content)) content.
Proof.
  intros H. pattern n. apply natlike_ind; [| |done].
  - cbn. rewrite Z.min_l by apply len_nonneg. done.
  - clear n H. intros n Hn IH. rewrite <- Z.add_1_r, range_S, map_app, concat_app, IH by done. cbn [map concat].
    rewrite app_nil_r. unfold chunk_at, CHUNK_SIZE in *. pose proof (len_nonneg content).
    destruct (Z.le_gt_cases (len content) (896 * n)).
    + rewrite !Z.min_r by lia. replace (slice (896 * n) (len content) content) with (@nil Z); [by rewrite app_nil_r|].
      unfold slice. by replace (Z.to_nat (len content - 896 * n)) with O by lia.
    + rewrite (Z.min_l (896 * n)) by lia. rewrite <- slice_split by lia. done.
Qed.

(** The chunks of a content partition it. *)
Lemma chunks_partition content g :
  derive_geometry (len content) = Ok g -> concat (map (chunk_at content) (range (chunk_count g))) = content.
Proof.
  intros E. destruct (decide (0 <= len content <= MAX_CONTENT)) as [Hn | Hn].
  2:{ rewrite derive_geometry_bad in E by done. done. }
  destruct (derive_geometry_Ok _ Hn) as (g' & E' & _ & _ & Hc & _ & H0 & H1). rewrite E in E'. apply Ok_inj in E' as <-.
  rewrite chunks_prefix by lia. apply slice_whole; [done|].
  destruct (Z.eq_dec (len content) 0) as [Hz | Hz].
  - destruct (H0 Hz) as [-> _]. lia.
  - specialize (H1 ltac:(lia)). lia.
Qed.

(** ** Offers *)

Definition binding_ok (b : binding) : Prop :=
  len (b_transfer_id b) = 16 /\ bytes_ok (b_transfer_id b) /\ 0 <= b_revision b < 4294967296 /\
  len (b_manifest_digest b) = 32 /\ bytes_ok (b_manifest_digest b).

Lemma build_each_Ok {A B} (f : A -> res B) l :
  (forall a, a ∈ l -> exists b, f a = Ok b) -> exists bs, build_each f l = Ok bs.
Proof.
  induction l as [|a l IH]; intros H; [by eexists|]. destruct (H a) as [b Hb]; [apply list_elem_of_here|].
  destruct IH as [bs Hbs]; [intros; apply H; by apply list_elem_of_further|]. cbn [build_each]. rewrite Hb, ok_bind, Hbs. by eexists.
Qed.

Lemma build_each_Forall2 {A B} (f : A -> res B) l bs : build_each f l = Ok bs -> Forall2 (fun a b => f a = Ok b) l bs.
Proof.
  revert bs. induction l as [|a l IH]; intros bs E; cbn in E; [injection E as <-; constructor|].
  apply bind_Ok in E as (b & Eb & E). apply bind_Ok in E as (r & Er & E). injection E as <-. constructor; auto.
Qed.

Lemma build_each_map {A B C} (f : A -> res B) (g : B -> C) (h : A -> C) l bs :
  build_each f l = Ok bs -> (forall a b, a ∈ l -> f a = Ok b -> g b = h a) -> map g bs = map h l.
Proof.
  intros E%build_each_Forall2. induction E as [|a b l bs Hab _ IH]; intros H; [done|]. cbn. f_equal.
  - apply H; [apply list_elem_of_here | done].
  - apply IH. intros. apply H; [by apply list_elem_of_further | done].
Qed.

(** What an offer of chunk [i] holds. *)
Definition offer_holds (b : binding) (content : bytes) (i count : Z) (body : bytes) : Prop :=
  let chunk := chunk_at content i in
  len body = 96 + len chunk /\ bytes_ok body /\ slice 0 16 body = b_transfer_id b /\
  be_val (slice 16 20 body) = b_revision b /\ slice 20 52 body = b_manifest_digest b /\ be_val (slice 52 54 body) = i /\
  be_val (slice 54 56 body) = count /\ be_val (slice 56 60 body) = CHUNK_SIZE * i /\
  be_val (slice 60 62 body) = len chunk /\ slice 64 96 body = sha256 chunk /\ slice 96 (96 + len chunk) body = chunk.

Lemma offer_built b content i count :
  binding_ok b -> bytes_ok content -> len content <= MAX_CONTENT -> 0 <= i -> CHUNK_SIZE * i < len content -> 0 <= count < 65536 ->
  exists body f, encode_chunk_offer b content i count = Ok (body, f) /\ offer_holds b content i count body.
Proof.
  intros (Ht & Hbt & Hr & Hd & Hbd) Hc Hmax Hi Hil Hcount. unfold encode_chunk_offer.
  rewrite chunk_range_Ok, ok_bind by done. cbv zeta. rewrite chunk_py_slice, <- chunk_at_len by done.
  pose proof (chunk_at_len content i Hi Hil) as Hlen. unfold offer_holds.
  pose proof (bytes_ok_slice (CHUNK_SIZE * i) (Z.min (CHUNK_SIZE * (i + 1)) (len content)) _ Hc) as Hbc. fold (chunk_at content i) in Hbc.
  set (chunk := chunk_at content i) in *. clearbody chunk. unfold CHUNK_SIZE, MAX_CONTENT in *.
  pose proof (digest_len (h := sha256) chunk) as Ld. pose proof (digest_ok (h := sha256) chunk) as Bd.
  set (dg := sha256 chunk) in *. clearbody dg.
  set (ps := offer_parts b i count (896 * i) (len chunk) dg chunk).
  assert (W : Forall2 wide ps [16; 4; 32; 2; 2; 4; 2; 2; 32; len chunk]) by (subst ps; unfold offer_parts, bind_parts; cbn [app]; solve_wide).
  assert (F : Forall fine ps) by (subst ps; unfold offer_parts, bind_parts; cbn [app]; solve_fine).
  assert (S : Forall sound ps) by (subst ps; unfold offer_parts, bind_parts; cbn [app]; solve_sound).
  destruct (join_total ps F) as [body E]. rewrite E, ok_bind.
  pose proof (join_len _ _ _ W E) as Hl. cbn [total_width foldr] in Hl.
  rewrite raise_if_skip by (apply negb_false_iff, Z.eqb_eq; lia).
  eexists _, _. split; [reflexivity|]. split; [lia|]. split; [by eapply join_sound|]. cbn [chunk_sha256].
  split_and!; [read_part W E 0%nat | read_part W E 1%nat | read_part W E 2%nat | read_part W E 3%nat | read_part W E 4%nat
              | read_part W E 5%nat | read_part W E 6%nat | read_part W E 8%nat | read_part_at [16; 4; 32; 2; 2; 4; 2; 2; 32; len chunk] W E 9%nat].
Qed.

(** ** Manifest entries *)

Definition entry_holds (content : bytes) (i : Z) (e : bytes) : Prop :=
  let chunk := chunk_at content i in
  len e = ENTRY_BYTES /\ bytes_ok e /\ be_val (slice 0 2 e) = i /\ be_val (slice 2 4 e) = len chunk /\
  be_val (slice 4 8 e) = CHUNK_SIZE * i /\ slice 8 40 e = sha256 chunk.

Lemma entry_built content i :
  bytes_ok content -> len content <= MAX_CONTENT -> 0 <= i -> CHUNK_SIZE * i < len content ->
  exists e, build_entry content i = Ok e /\ entry_holds content i e.
Proof.
  intros Hc Hmax Hi Hil. unfold build_entry. rewrite chunk_range_Ok, ok_bind by done. cbv zeta.
  rewrite chunk_py_slice, <- chunk_at_len by done. pose proof (chunk_at_len content i Hi Hil) as Hlen. unfold entry_holds.
  set (chunk := chunk_at content i) in *. clearbody chunk. unfold CHUNK_SIZE, MAX_CONTENT in *.
  pose proof (digest_len (h := sha256) chunk) as Ld. pose proof (digest_ok (h := sha256) chunk) as Bd.
  set (dg := sha256 chunk) in *. clearbody dg. pose proof (len_nonneg content).
  set (ps := [u16 i; u16 (len chunk); u32 (896 * i); Ok dg]).
  assert (W : Forall2 wide ps [2; 2; 4; 32]) by (subst ps; solve_wide).
  assert (F : Forall fine ps) by (subst ps; solve_fine). assert (S : Forall sound ps) by (subst ps; solve_sound).
  destruct (join_total ps F) as [e E]. rewrite E, ok_bind. pose proof (join_len _ _ _ W E) as Hl. cbn in Hl.
  rewrite raise_if_skip by (rewrite Hl; done). exists e. split; [done|]. split; [done|]. split; [by eapply join_sound|].
  split_and!; [read_part W E 0%nat | read_part W E 1%nat | read_part W E 2%nat | read_part W E 3%nat].
Qed.

Lemma geometry_chunk n g i : derive_geometry n = Ok g -> 0 <= i < chunk_count g -> 0 <= n <= MAX_CONTENT /\ CHUNK_SIZE * i < n.
Proof.
  intros E Hi. destruct (decide (0 <= n <= MAX_CONTENT)) as [Hn | Hn]; [|by rewrite derive_geometry_bad in E].
  split; [done|]. destruct (derive_geometry_Ok n Hn) as (g' & E' & _ & _ & _ & _ & H0 & H1).
  rewrite E in E'. apply Ok_inj in E' as <-. destruct (Z.eq_dec n 0) as [Hz | Hz]; [destruct (H0 Hz); lia|].
  specialize (H1 ltac:(lia)). unfold CHUNK_SIZE in *. lia.
Qed.

Lemma entries_built content g :
  bytes_ok content -> derive_geometry (len content) = Ok g ->
  exists es, build_entries content = Ok es /\ len es = chunk_count g /\
    (forall k e, es !! k = Some e -> entry_holds content (Z.of_nat k) e).
Proof.
  intros Hc E. unfold build_entries. cbv zeta. destruct (Z.eqb_spec (len content) 0) as [Hz | Hz].
  { rewrite Hz in E. apply Ok_inj in E as <-. exists []. split_and!; done. }
  rewrite E, ok_bind.
  assert (Hb : forall i, i ∈ range (chunk_count g) -> exists e, build_entry content i = Ok e /\ entry_holds content i e).
  { intros i Hi%range_elem. destruct (geometry_chunk _ _ _ E Hi). apply entry_built; [done | lia | lia | done]. }
  destruct (build_each_Ok (build_entry content) (range (chunk_count g))) as [es Hes].
  { intros i Hi. destruct (Hb i Hi) as (e & He & _). by exists e. }
  exists es. split; [done|]. pose proof (build_each_Forall2 _ _ _ Hes) as F2.
  assert (Hcc : 0 <= chunk_count g).
  { destruct (decide (0 <= len content <= MAX_CONTENT)) as [Hn | Hn]; [|by rewrite derive_geometry_bad in E].
    destruct (derive_geometry_Ok _ Hn) as (g' & E' & _ & _ & ? & _). rewrite E in E'. apply Ok_inj in E' as <-. lia. }
  split.
  - apply Forall2_length in F2. unfold len. rewrite <- F2. unfold range. rewrite length_map, length_seq. lia.
  - intros k e Hk. destruct (Forall2_lookup_r _ _ _ _ _ F2 Hk) as (i & Hi & He).
    assert (Hlt : Z.of_nat k < chunk_count g).
    { apply lookup_lt_Some in Hi. unfold range in Hi. rewrite length_map, length_seq in Hi. lia. }
    rewrite range_lookup in Hi by done. injection Hi as <-.
    destruct (Hb (Z.of_nat k)) as (e' & He' & Hh); [apply range_elem; lia|]. rewrite He in He'. by apply Ok_inj in He' as <-.
Qed.

(** The chunk an offer carries, as its own header describes it. *)
Definition carried (offer : bytes * offer_facts) : bytes :=
  slice 96 (96 + be_val (slice 60 62 offer.1)) offer.1.

Definition all_offers (b : binding) (content : bytes) (count : Z) : res (list (bytes * offer_facts)) :=
  build_each (fun i => encode_chunk_offer b content i count) (range count).

(** An entry describes an offer: index, length, offset and digest. *)
Definition describes (e body : bytes) : Prop :=
  slice 0 2 e = slice 52 54 body /\ slice 2 4 e = slice 60 62 body /\ slice 4 8 e = slice 56 60 body /\
  slice 8 40 e = slice 64 96 body.

Lemma be_slice_eq a b lo hi lo' hi' :
  bytes_ok a -> bytes_ok b -> 0 <= lo <= hi -> hi <= len a -> 0 <= lo' <= hi' -> hi' <= len b -> hi - lo = hi' - lo' ->
  be_val (slice lo hi a) = be_val (slice lo' hi' b) -> slice lo hi a = slice lo' hi' b.
Proof. intros. apply be_val_inj; auto using bytes_ok_slice. rewrite !len_slice by lia. lia. Qed.

Lemma holds_describes content i count b e body :
  entry_holds content i e -> offer_holds b content i count body -> describes e body.
Proof.
  unfold ENTRY_BYTES. intros (Le & Be & E1 & E2 & E3 & E4) (Lo & Bo & _ & _ & _ & O1 & _ & O2 & O3 & O4 & _).
  pose proof (len_nonneg (chunk_at content i)). unfold ENTRY_BYTES in Le.
  split_and!; [apply be_slice_eq; try lia; try done; congruence .. | congruence].
Qed.

(** C28. A transfer delivers its content: for every content of at most 32768 bytes
    the offers of all chunks are encoded, each at most 992 bytes long; the chunk bytes
    they carry, one after the other, are the content again; there is one manifest
    entry for each offer, and it states the index, length, offset and digest the
    offer has. *)
Theorem transfer_reassembles b content :
  binding_ok b -> bytes_ok content -> len content <= MAX_CONTENT ->
  exists g offers entries,
    derive_geometry (len content) = Ok g /\ all_offers b content (chunk_count g) = Ok offers /\
    build_entries content = Ok entries /\
    concat (map carried offers) = content /\
    Forall (fun o => len o.1 <= 992) offers /\ Forall2 (fun e o => describes e o.1) entries offers.
Proof.
  intros Hb Hc Hmax. destruct (derive_geometry_Ok (len content)) as (g & E & Hg); [pose proof (len_nonneg content); lia|].
  destruct (entries_built content g Hc E) as (es & Ees & Les & Hes).
  assert (Hof : forall i, i ∈ range (chunk_count g) ->
            exists o, encode_chunk_offer b content i (chunk_count g) = Ok o /\ offer_holds b content i (chunk_count g) o.1).
  { intros i Hi%range_elem. destruct (geometry_chunk _ _ _ E Hi).
    destruct (offer_built b content i (chunk_count g)) as (body & f & Eo & Ho); auto; [lia| |by exists (body, f)].
    destruct Hg as (_ & _ & Hcc & _). unfold MAX_CHUNKS in Hcc. lia. }
  destruct (build_each_Ok (fun i => encode_chunk_offer b content i (chunk_count g)) (range (chunk_count g))) as [os Hos].
  { intros i Hi. destruct (Hof i Hi) as (o & Eo & _). by exists o. }
  assert (Hk : forall k o, os !! k = Some o -> offer_holds b content (Z.of_nat k) (chunk_count g) o.1 /\ Z.of_nat k < chunk_count g).
  { intros k o Ho. pose proof (build_each_Forall2 _ _ _ Hos) as F2.
    destruct (Forall2_lookup_r _ _ _ _ _ F2 Ho) as (i & Hi & Eo).
    assert (Hlt : Z.of_nat k < chunk_count g).
    { apply lookup_lt_Some in Hi. unfold range in Hi. rewrite length_map, length_seq in Hi. lia. }
    rewrite range_lookup in Hi by done. injection Hi as <-. split; [|done].
    destruct (Hof (Z.of_nat k)) as (o' & Eo' & Hh); [apply range_elem; lia|]. rewrite Eo in Eo'. by apply Ok_inj in Eo' as <-. }
  exists g, os, es. split; [done|]. split; [done|]. split; [done|]. split; [|split].
  - rewrite (build_each_map _ carried (chunk_at content) _ _ Hos); [by apply chunks_partition|].
    intros i o Hi Eo. destruct (Hof i Hi) as (o' & Eo' & Hh). rewrite Eo in Eo'. apply Ok_inj in Eo' as <-.
    destruct Hh as (_ & _ & _ & _ & _ & _ & _ & _ & H1 & _ & H2). unfold carried. by rewrite H1.
  - apply Forall_lookup. intros k o Ho. destruct (Hk k o Ho) as [(Hl & _) Hlt].
    destruct (geometry_chunk _ _ (Z.of_nat k) E) as [_ Hin]; [lia|]. rewrite Hl, chunk_at_len by (lia || done).
    unfold CHUNK_SIZE. lia.
  - apply Forall2_same_length_lookup. split.
    + apply build_each_Forall2, Forall2_length in Hos. unfold range in Hos. rewrite length_map, length_seq in Hos.
      unfold len in Les. lia.
    + intros k e o He Ho. destruct (Hk k o Ho) as [Hh _]. by eapply holds_describes; [apply Hes|].
Qed.

(** ** Pages *)

Lemma page_entries_first (es : list bytes) count page :
  0 <= page -> page + 1 < count ->
  page_entries_of page count es = slice (page * ENTRIES_PER_PAGE) ((page + 1) * ENTRIES_PER_PAGE) es.
Proof.
  intros. unfold page_entries_of, py_slice, py_bound, ENTRIES_PER_PAGE. cbv zeta.
  rewrite (proj2 (Z.ltb_lt _ _)) by lia. rewrite !(proj2 (Z.ltb_ge _ 0)) by lia. f_equal; lia.
Qed.

Lemma page_entries_last (es : list bytes) count page :
  0 <= page -> count <= page + 1 -> page_entries_of page count es = slice_from (page * ENTRIES_PER_PAGE) es.
Proof.
  intros. unfold page_entries_of, py_slice_from, py_bound, ENTRIES_PER_PAGE. cbv zeta.
  rewrite (proj2 (Z.ltb_ge _ _)) by lia. by rewrite (proj2 (Z.ltb_ge _ 0)) by lia.
Qed.

(** The pages of a manifest hold its entries, in order. *)
Lemma pages_partition (es : list bytes) g n :
  derive_geometry n = Ok g -> len es = chunk_count g ->
  concat (map (fun p => page_entries_of p (manifest_page_count g) es) (range (manifest_page_count g))) = es.
Proof.
  intros E Hl. destruct (decide (0 <= n <= MAX_CONTENT)) as [Hn | Hn]; [|by rewrite derive_geometry_bad in E].
  destruct (derive_geometry_Ok n Hn) as (g' & E' & _ & _ & _ & Hp & H0 & H1). rewrite E in E'. apply Ok_inj in E' as <-.
  unfold MAX_PAGES in Hp. destruct (Z.eq_dec n 0) as [Hz | Hz].
  { destruct (H0 Hz) as [Hc ->]. rewrite Hc in Hl. destruct es; [done|]. rewrite len_cons in Hl. pose proof (len_nonneg es). lia. }
  specialize (H1 ltac:(lia)) as [_ H1]. unfold ENTRIES_PER_PAGE in *.
  assert (Hcase : manifest_page_count g = 1 \/ manifest_page_count g = 2).
  { assert (0 < chunk_count g); [|lia]. destruct (geometry_chunk n g 0 E) as [? ?].
    - destruct (derive_geometry_Ok n Hn) as (g' & E' & _ & _ & _ & _ & _ & K). rewrite E in E'. apply Ok_inj in E' as <-.
      specialize (K ltac:(lia)) as [K _]. unfold CHUNK_SIZE in K. lia.
    - destruct (derive_geometry_Ok n Hn) as (g' & E' & _ & _ & _ & _ & _ & K). rewrite E in E'. apply Ok_inj in E' as <-.
      specialize (K ltac:(lia)) as [K _]. unfold CHUNK_SIZE in K. lia. }
  destruct Hcase as [-> | ->].
  - change (range 1) with [0]. cbn [map concat]. rewrite page_entries_last by lia. by rewrite app_nil_r.
  - change (range 2) with [0; 1]. cbn [map concat]. rewrite page_entries_first, page_entries_last by lia.
    rewrite app_nil_r. unfold slice, slice_from, ENTRIES_PER_PAGE. cbn. by rewrite take_drop.
Qed.

Lemma page_entries_len (es : list bytes) g n p :
  derive_geometry n = Ok g -> len es = chunk_count g -> 0 <= p < manifest_page_count g ->
  1 <= len (page_entries_of p (manifest_page_count g) es) <= ENTRIES_PER_PAGE.
Proof.
  intros E Hl Hp. destruct (decide (0 <= n <= MAX_CONTENT)) as [Hn | Hn]; [|by rewrite derive_geometry_bad in E].
  destruct (derive_geometry_Ok n Hn) as (g' & E' & _ & _ & _ & _ & H0 & H1). rewrite E in E'. apply Ok_inj in E' as <-.
  destruct (Z.eq_dec n 0) as [Hz | Hz]; [destruct (H0 Hz); lia|]. specialize (H1 ltac:(lia)) as [_ H1].
  unfold ENTRIES_PER_PAGE in *. destruct (Z.lt_ge_cases (p + 1) (manifest_page_count g)).
  - rewrite page_entries_first by lia. unfold ENTRIES_PER_PAGE. rewrite len_slice; lia.
  - rewrite page_entries_last by lia. unfold ENTRIES_PER_PAGE, slice_from. unfold len in *. rewrite length_drop. lia.
Qed.

Lemma page_entries_sub (es : list bytes) count p e : e ∈ page_entries_of p count es -> e ∈ es.
Proof.
  unfold page_entries_of, py_slice, py_slice_from, slice, slice_from. cbv zeta. destruct (_ <? _).
  - intros (i & Hi)%list_elem_of_lookup. apply lookup_take_Some in Hi as [Hi _]. rewrite lookup_drop in Hi.
    by eapply list_elem_of_lookup_2.
  - intros (i & Hi)%list_elem_of_lookup. rewrite lookup_drop in Hi. by eapply list_elem_of_lookup_2.
Qed.

Lemma concat_len_each n (l : list bytes) : Forall (fun e => len e = n) l -> len (concat l) = n * len l.
Proof. induction 1 as [|e l He _ IH]; [change (0 = n * 0); lia|]. cbn [concat]. rewrite len_app, len_cons, He, IH. lia. Qed.

(** What page [p] holds. *)
Definition page_holds (b : binding) (p count : Z) (es : list bytes) (body : bytes) : Prop :=
  let mine := page_entries_of p count es in
  len body = 92 + 40 * len mine /\ slice 0 16 body = b_transfer_id b /\ be_val (slice 16 20 body) = b_revision b /\
  slice 20 52 body = b_manifest_digest b /\ be_val (slice 52 54 body) = p /\ be_val (slice 54 56 body) = count /\
  be_val (slice 56 58 body) = p * ENTRIES_PER_PAGE /\ be_val (slice 58 60 body) = len mine /\
  slice 60 92 body = sha256 (bytes_of_string "NM3-PAGE-V1" ++ slice 0 60 body ++ slice 92 (len body) body) /\
  slice 92 (len body) body = concat mine.

Lemma page_built b es g n p :
  binding_ok b -> derive_geometry n = Ok g -> len es = chunk_count g -> Forall (fun e => len e = ENTRY_BYTES) es ->
  0 <= p < manifest_page_count g ->
  exists body d f, encode_page b p (manifest_page_count g) es = Ok (body, d, f) /\ page_holds b p (manifest_page_count g) es body.
Proof.
  intros (Ht & Hbt & Hr & Hd & Hbd) E Hl Hes Hp. pose proof (page_entries_len es g n p E Hl Hp) as Hm.
  assert (Hpc : 0 <= manifest_page_count g <= 2).
  { destruct (decide (0 <= n <= MAX_CONTENT)) as [Hn | Hn]; [|by rewrite derive_geometry_bad in E].
    destruct (derive_geometry_Ok n Hn) as (g' & E' & _ & _ & _ & K & _). rewrite E in E'. by apply Ok_inj in E' as <-. }
  assert (Hcl : len (concat (page_entries_of p (manifest_page_count g) es)) = 40 * len (page_entries_of p (manifest_page_count g) es)).
  { apply concat_len_each, Forall_forall. intros e He%page_entries_sub. rewrite Forall_forall in Hes. by apply Hes. }
  unfold encode_page, page_holds. cbv zeta.
  set (mine := page_entries_of p (manifest_page_count g) es) in *. clearbody mine. unfold ENTRIES_PER_PAGE in *.
  rewrite raise_if_skip by (apply orb_false_iff; split; apply Z.eqb_neq; lia).
  set (ps := page_parts b p (manifest_page_count g) (p * 22) (len mine)).
  assert (W : Forall2 wide ps [16; 4; 32; 2; 2; 2; 2]) by (subst ps; unfold page_parts, bind_parts; cbn [app]; solve_wide).
  assert (F : Forall fine ps) by (subst ps; unfold page_parts, bind_parts; cbn [app]; solve_fine).
  destruct (join_total ps F) as [pre Epre]. rewrite Epre, ok_bind. pose proof (join_len _ _ _ W Epre) as Lp. cbn in Lp.
  pose proof (digest_len (h := sha256) (bytes_of_string "NM3-PAGE-V1" ++ pre ++ concat mine)) as Ld.
  set (dg := sha256 (bytes_of_string "NM3-PAGE-V1" ++ pre ++ concat mine)) in *.
  assert (Lb : len (pre ++ dg ++ concat mine) = 92 + 40 * len mine) by (rewrite !len_app; lia).
  rewrite raise_if_skip by (apply negb_false_iff, Z.eqb_eq; exact Lb).
  eexists _, _, _. split; [reflexivity|]. split; [exact Lb|].
  assert (Hpre : forall a c, 0 <= a <= c -> c <= 60 -> slice a c (pre ++ dg ++ concat mine) = slice a c pre)
    by (intros; apply slice_app_l; lia).
  rewrite !Hpre by lia. rewrite Lb. split_and!;
    [read_part W Epre 0%nat | read_part W Epre 1%nat | read_part W Epre 2%nat | read_part W Epre 3%nat | read_part W Epre 4%nat
    | read_part W Epre 5%nat | read_part W Epre 6%nat | |].
  - rewrite (Hpre 0 60) by lia. rewrite (slice_whole 0 60 pre) by lia. rewrite slice_app_r, slice_app_l, (slice_whole _ _ dg) by lia.
    unfold dg at 1. do 3 f_equal. rewrite slice_app_r, slice_app_r, slice_whole; lia || done.
  - rewrite slice_app_r, slice_app_r, slice_whole; lia || done.
Qed.

(** The manifest is paged without loss: every page of a transfer is encoded, is at
    most 972 bytes long and states its index, its first chunk and how many
    entries it has; its digest covers the rest of its body; and the entries of the pages,
    one page after the other, are the manifest. *)
Theorem manifest_paged b content :
  binding_ok b -> bytes_ok content -> len content <= MAX_CONTENT ->
  exists g entries pages,
    derive_geometry (len content) = Ok g /\ build_entries content = Ok entries /\
    build_each (fun p => encode_page b p (manifest_page_count g) entries) (range (manifest_page_count g)) = Ok pages /\
    concat (map (fun pg : bytes * bytes * page_facts => slice 92 (len pg.1.1) pg.1.1) pages) = concat entries /\
    forall k pg, pages !! k = Some pg ->
      page_holds b (Z.of_nat k) (manifest_page_count g) entries pg.1.1 /\ len pg.1.1 <= 972.
Proof.
  intros Hb Hc Hmax. destruct (derive_geometry_Ok (len content)) as (g & E & Hg); [pose proof (len_nonneg content); lia|].
  destruct (entries_built content g Hc E) as (es & Ees & Les & Hes).
  assert (Hw : Forall (fun e => len e = ENTRY_BYTES) es) by (apply Forall_lookup; intros k e Hk; apply (Hes k e Hk)).
  assert (Hpg : forall p, p ∈ range (manifest_page_count g) -> exists pg,
      encode_page b p (manifest_page_count g) es = Ok pg /\ page_holds b p (manifest_page_count g) es pg.1.1).
  { intros p Hp%range_elem. destruct (page_built b es g _ p Hb E Les Hw Hp) as (x & d & f & Ex & Hx). by exists (x, d, f). }
  destruct (build_each_Ok (fun p => encode_page b p (manifest_page_count g) es) (range (manifest_page_count g))) as [pages Hps].
  { intros p Hp. destruct (Hpg p Hp) as (pg & Epg & _). by exists pg. }
  exists g, es, pages. split; [done|]. split; [done|]. split; [exact Hps|]. split.
  - rewrite (build_each_map _ _ (fun p => concat (page_entries_of p (manifest_page_count g) es)) _ _ Hps).
    + transitivity (concat (concat (map (fun p => page_entries_of p (manifest_page_count g) es) (range (manifest_page_count g))))).
      * generalize (range (manifest_page_count g)). intros l. induction l as [|p l IH]; [done|]. cbn [map concat].
        by rewrite concat_app, IH.
      * by rewrite (pages_partition es g _ E Les).
    + intros p pg Hp Epg. destruct (Hpg p Hp) as (pg' & Epg' & Hh). rewrite Epg in Epg'. apply Ok_inj in Epg' as <-. apply Hh.
  - intros k pg Hk. pose proof (build_each_Forall2 _ _ _ Hps) as F2.
    destruct (Forall2_lookup_r _ _ _ _ _ F2 Hk) as (p & Hp & Epg).
    assert (Hlt : Z.of_nat k < manifest_page_count g).
    { apply lookup_lt_Some in Hp. unfold range in Hp. rewrite length_map, length_seq in Hp. lia. }
    rewrite range_lookup in Hp by done. injection Hp as <-.
    destruct (Hpg (Z.of_nat k)) as (pg' & Epg' & Hh); [apply range_elem; lia|]. rewrite Epg in Epg'. apply Ok_inj in Epg' as <-.
    split; [done|]. destruct Hh as (-> & _). pose proof (page_entries_len es g _ (Z.of_nat k) E Les ltac:(lia)) as Hm.
    unfold ENTRIES_PER_PAGE in Hm. lia.
Qed.

(** ** Messages *)

Lemma join_fine ps m : join ps = Ok m -> Forall fine ps.
Proof.
  revert m. induction ps as [|p ps IH]; intros m E; [constructor|]. cbn in E.
  apply bind_Ok in E as (a & Ea & E). apply bind_Ok in E as (b & Eb & E). constructor; [by exists a | by eapply IH].
Qed.

Lemma pack_fine_inj k x y : fine (pack k x) -> pack k x = pack k y -> x = y.
Proof. intros [v E] H. pose proof (pack_val _ _ _ E). rewrite H in E. apply pack_val in E. congruence. Qed.

(** The control messages a transfer exchanges after OPEN. *)
Inductive message :=
  | OpenAccept (b : binding) (reservation : bytes) (total : Z) (epoch : bytes) (not_after complete : Z)
  | PageAccept (b : binding) (page received : Z) (digest reservation : bytes) (complete : Z)
  | ChunkAccept (b : binding) (index : Z) (digest : bytes)
  | Finalize (b : binding) (whole : bytes) (total : Z)
  | Accept (b : binding) (whole : bytes) (total : Z) (evidence : bytes) (generation : Z) (reservation : bytes)
  | Abort (b : binding) (reason : Z) (actor : bytes) (generation : Z)
  | AbortAck (b : binding) (generation final : Z) (tombstone : bytes)
  | ResumeQuery (b : binding) (generation : Z)
  | ResumeState (b : binding) (query record bitmap state : Z)
  | Reject (b : binding) (stage code detail : Z).

Definition encode_message (m : message) : res bytes :=
  match m with
  | OpenAccept b r t e n c => encode_open_accept b r t e n c
  | PageAccept b p n d r c => encode_page_accept b p n d r c
  | ChunkAccept b i d => encode_chunk_accept b i d
  | Finalize b w t => encode_finalize b w t
  | Accept b w t e g r => fst <$> encode_accept b w t e g r
  | Abort b r a g => encode_abort b r a g
  | AbortAck b g f t => encode_abort_ack b g f t
  | ResumeQuery b g => encode_resume_query b g
  | ResumeState b q r m s => fst <$> encode_resume_state b q r m s
  | Reject b s c d => encode_reject b s c d
  end.

Definition bind_sized (b : binding) : Prop := len (b_transfer_id b) = 16 /\ len (b_manifest_digest b) = 32.
Definition message_sized (m : message) : Prop :=
  match m with
  | OpenAccept b r _ e _ _ => bind_sized b /\ len r = 16 /\ len e = 16
  | PageAccept b _ _ d r _ => bind_sized b /\ len d = 32 /\ len r = 16
  | ChunkAccept b _ d => bind_sized b /\ len d = 32
  | Finalize b w _ => bind_sized b /\ len w = 32
  | Accept b w _ e _ r => bind_sized b /\ len w = 32 /\ len e = 16 /\ len r = 16
  | Abort b _ a _ => bind_sized b /\ len a = 16
  | AbortAck b _ _ t => bind_sized b /\ len t = 32
  | ResumeQuery b _ => bind_sized b
  | ResumeState b _ _ _ _ => bind_sized b
  | Reject b _ _ _ => bind_sized b
  end.

Definition message_kind (m : message) : Z :=
  match m with
  | OpenAccept _ _ _ _ _ _ => 1 | PageAccept _ _ _ _ _ _ => 2 | ChunkAccept _ _ _ => 3 | Finalize _ _ _ => 4
  | Accept _ _ _ _ _ _ => 5 | Abort _ _ _ _ => 6 | AbortAck _ _ _ _ => 7 | ResumeQuery _ _ => 8
  | ResumeState _ _ _ _ _ => 9 | Reject _ _ _ _ => 10
  end.

(** The length each kind of message has. *)
Definition message_size (m : message) : Z :=
  match m with
  | OpenAccept _ _ _ _ _ _ => 100 | PageAccept _ _ _ _ _ _ => 108 | ChunkAccept _ _ _ => 88 | Finalize _ _ _ => 92
  | Accept _ _ _ _ _ _ => 160 | Abort _ _ _ _ => 76 | AbortAck _ _ _ _ => 92 | ResumeQuery _ _ => 60
  | ResumeState _ _ _ _ _ => 108 | Reject _ _ _ _ => 60
  end.

Lemma parts_Ok_inj a b ps qs :
  Forall fine (Ok a :: ps) -> Ok a :: ps = Ok b :: qs -> a = b /\ Forall fine ps /\ ps = qs.
Proof. intros [_ F]%Forall_cons [= -> ->]. done. Qed.

Lemma parts_pack_inj k x y ps qs :
  Forall fine (pack k x :: ps) -> pack k x :: ps = pack k y :: qs -> x = y /\ Forall fine ps /\ ps = qs.
Proof.
  intros [Fx F]%Forall_cons H. pose proof (f_equal (fun l => default (Ok []) (head l)) H) as H1.
  pose proof (f_equal tail H) as H2. cbn in H1, H2.
  split; [by eapply pack_fine_inj | by subst].
Qed.

(** Equal literal lists of parts have equal arguments. *)
Ltac parts_inj F H :=
  repeat (let E := fresh in
    first [ destruct (parts_Ok_inj _ _ _ _ F H) as (E & F' & H') | destruct (parts_pack_inj _ _ _ _ _ F H) as (E & F' & H') ];
    clear F H; rename F' into F; rename H' into H; try rewrite E in *; clear E).

Definition message_parts (m : message) : list (res bytes) :=
  match m with
  | OpenAccept b r t e n c => open_accept_parts b r t e n c
  | PageAccept b p n d r c => page_accept_parts b p n d r c
  | ChunkAccept b i d => chunk_accept_parts b i d
  | Finalize b w t => finalize_parts b w t
  | Accept b w t e g r => accept_parts b w t e g r
  | Abort b r a g => abort_parts b r a g
  | AbortAck b g f t => abort_ack_parts b g f t
  | ResumeQuery b g => resume_query_parts b g
  | ResumeState b q r m s => resume_state_parts b q r m s
  | Reject b s c d => reject_parts b s c d
  end.
Definition message_widths (kind : Z) : list Z :=
  [16; 4; 32] ++
  (if kind =? 1 then [16; 4; 16; 8; 1; 3] else if kind =? 2 then [2; 2; 32; 16; 1; 3] else if kind =? 3 then [2; 2; 32]
   else if kind =? 4 then [32; 4; 4] else if kind =? 5 then [32; 4; 16; 8; 16] else if kind =? 6 then [2; 2; 16; 4]
   else if kind =? 7 then [4; 2; 2; 32] else if kind =? 8 then [4; 4] else if kind =? 9 then [4; 8; 8; 2; 2] else [2; 2; 4]).
(** The digest two of the kinds end with. *)
Definition message_seal (kind : Z) (pre : bytes) : bytes :=
  if kind =? 5 then sha256 (bytes_of_string "NM3-ACCEPT-V1" ++ pre)
  else if kind =? 9 then sha256 (bytes_of_string "NM3-RESUME-V1" ++ pre) else [].

Lemma message_parts_wide m : message_sized m -> Forall2 wide (message_parts m) (message_widths (message_kind m)).
Proof.
  destruct m; cbn [message_sized message_parts message_kind]; unfold bind_sized, message_widths; intros H; cbn;
    destruct_and?; solve_wide.
Qed.

Lemma resume_parts_len b q r m s pre :
  bind_sized b -> join (resume_state_parts b q r m s) = Ok pre -> len pre = 76.
Proof. intros H E. by rewrite (join_len _ _ _ (message_parts_wide (ResumeState b q r m s) H) E). Qed.

Lemma encode_message_join m x : message_sized m ->
  encode_message m = Ok x <-> exists pre, join (message_parts m) = Ok pre /\ x = pre ++ message_seal (message_kind m) pre.
Proof.
  intros Hm. assert (Hplain : forall ps, join ps = Ok x <-> exists pre, join ps = Ok pre /\ x = pre ++ []).
  { intros ps. split; [intros E; exists x; by rewrite app_nil_r | intros (pre & E & ->); by rewrite app_nil_r]. }
  destruct m; try apply Hplain.
  - cbn [encode_message message_parts message_kind]. unfold encode_accept, message_seal. cbn [Z.eqb Pos.eqb].
    destruct (join _) as [pre|]; cbn; split; try naive_solver. 
  - cbn [encode_message message_parts message_kind]. unfold encode_resume_state, message_seal. cbn [Z.eqb Pos.eqb].
    destruct (join _) as [pre|] eqn:E; cbn [mbind res_bind]; [|cbn; naive_solver].
    rewrite raise_if_skip by (rewrite (resume_parts_len _ _ _ _ _ _ Hm E); done). cbn. naive_solver.
Qed.

Lemma message_parts_inj m m' :
  message_kind m = message_kind m' -> Forall fine (message_parts m) -> message_parts m = message_parts m' -> m = m'.
Proof.
  intros Hk F H. destruct m as [[]|[]|[]|[]|[]|[]|[]|[]|[]|[]], m' as [[]|[]|[]|[]|[]|[]|[]|[]|[]|[]]; try discriminate Hk; clear Hk;
    cbn [message_parts] in F, H;
    unfold open_accept_parts, page_accept_parts, chunk_accept_parts, finalize_parts, accept_parts, abort_parts, abort_ack_parts,
      resume_query_parts, resume_state_parts, reject_parts, bind_parts in F, H; cbn [app Mfdt.b_transfer_id Mfdt.b_revision Mfdt.b_manifest_digest] in F, H.
  all: parts_inj F H; reflexivity.
Qed.

(** A control message is unambiguous: it has the fixed length of its kind, at most
    160 bytes, so every response fits a response-cache slot; and two messages of the
    same kind with the same bytes have the same fields. *)
Theorem message_unambiguous m m' x :
  message_sized m -> message_sized m' -> message_kind m = message_kind m' ->
  encode_message m = Ok x ->
  len x = message_size m /\ message_size m <= NRC1_MAX_RESPONSE /\ (encode_message m' = Ok x -> m = m').
Proof.
  intros Hm Hm' Hk E. apply (encode_message_join m x Hm) in E as (pre & E & ->).
  pose proof (join_len _ _ _ (message_parts_wide m Hm) E) as Hl. split; [|split].
  - rewrite len_app, Hl. unfold message_seal, message_widths.
    destruct m; cbn [message_kind message_size Z.eqb Pos.eqb]; rewrite ?digest_len, ?len_nil; reflexivity.
  - unfold NRC1_MAX_RESPONSE. destruct m; cbn; lia.
  - intros E'. apply (encode_message_join m' _ Hm') in E' as (pre' & E' & Hx). rewrite <- Hk in Hx.
    pose proof (message_parts_wide m' Hm') as W'. rewrite <- Hk in W'.
    pose proof (join_len _ _ _ W' E') as Hl'. apply app_inj_length in Hx as [<- _]; [|unfold len in *; lia].
    apply message_parts_inj; [done | by eapply join_fine|].
    eapply join_inj; [by apply message_parts_wide | exact W' | exact E | exact E'].
Qed.

(** ** Transfer identifiers *)

(** A transfer identifier is always sixteen bytes and never the reserved zero
    identifier; it exists for every pair of sixteen-byte identifiers and
    every 32-bit target ordinal, and for no other arguments. *)
Theorem transfer_id_never_zero origin target ordinal :
  (is_ok (derive_transfer_id origin target ordinal) = true <->
   len origin = 16 /\ len target = 16 /\ 0 <= ordinal < 4294967296) /\
  (forall tid, derive_transfer_id origin target ordinal = Ok tid -> len tid = 16 /\ bytes_ok tid /\ tid <> ZERO16).
Proof.
  unfold derive_transfer_id. split.
  - split.
    + intros H. destruct (raise_if _ _ ≫= _) as [t|] eqn:E in H; [|done]. inv_res. bool_to_prop. split; [done|]. split; [done|].
      apply join_fine in E0. apply Forall_cons in E0 as [_ E0]. apply Forall_cons in E0 as [_ E0].
      apply Forall_cons in E0 as [[v Hv] _]. by apply pack_Ok in Hv as [Hv _].
    + intros (H1 & H2 & H3). rewrite raise_if_skip by (rewrite H1, H2; done).
      destruct (join_total [Ok origin; Ok target; u32 ordinal; Ok (bytes_of_string "ninlil-mfdt-v1id")]) as [m ->]; [solve_fine|].
      done.
  - intros tid E. inv_res. pose proof (digest_len (h := sha256) a) as Ld. pose proof (digest_ok (h := sha256) a) as Bd.
    set (d := sha256 a) in *. clearbody d.
    assert (L16 : len (slice 0 16 d) = 16) by (rewrite len_slice; lia).
    assert (B16 : bytes_ok (slice 0 16 d)) by (by apply bytes_ok_slice).
    set (r := slice 0 16 d) in *. clearbody r.
    destruct (bool_decide (r = ZERO16)) eqn:Ez; bool_to_prop; [|done]. subst r.
    split; [reflexivity|]. split; [|by vm_compute].
    apply slice_assign_ok; [constructor; [split; lia | constructor] | apply zeros_ok].
Qed.

(** ** OPEN *)

Definition ids_sized (ids : id_set) : Prop :=
  Forall (fun v => len v = 16)
    [transfer_id ids; origin_transaction_id ids; original_attempt_id ids; origin_event_id ids; source_runtime_id ids;
     source_application_instance_id ids; source_device_id ids; source_installation_id ids; source_site_domain_id ids;
     target_runtime_id ids; target_application_instance_id ids; target_device_id ids; target_installation_id ids;
     target_site_domain_id ids; deadline_clock_epoch_id ids] /\ len (service_descriptor_digest ids) = 32.

Definition ascii (t : bytes) : Prop := Forall (fun b => 0 <= b <= 127) t.
Definition open_args_ok (a : open_args) : Prop :=
  0 <= manifest_revision a < 4294967296 /\ 0 <= absolute_effect_deadline_ms a < 18446744073709551616 /\
  0 <= service_family a < 4294967296 /\ 0 <= application_generation a < 18446744073709551616 /\
  0 <= evidence_grace_ms a < 18446744073709551616 /\
  match oa_deadline_clock_epoch_id a with Some e => len e = 16 | None => True end /\
  Forall (fun t => ascii t /\ 1 <= len t <= 63) [namespace a; service a; schema a].

Definition binding_widths : list Z := [16; 4; 16; 16; 16; 16; 8; 8; 4; 4; 16; 16; 16; 16; 8; 8; 4; 4; 2; 2; 4; 8; 8; 4; 4].

Lemma binding_wide ids f g e : ids_sized ids -> Forall2 wide (binding_parts ids f g e) binding_widths.
Proof. unfold ids_sized. rewrite !Forall_cons. intros H. destruct_and!. unfold binding_parts, binding_widths. solve_wide. Qed.

Lemma binding_built ids f g e :
  ids_sized ids -> 0 <= f < 4294967296 -> 0 <= g < 18446744073709551616 -> 0 <= e < 18446744073709551616 ->
  exists b, encode_application_binding ids f g e = Ok b /\ join (binding_parts ids f g e) = Ok b /\ len b = APPLICATION_BINDING_BYTES.
Proof.
  intros Hi Hf Hg He. unfold encode_application_binding.
  destruct (join_total (binding_parts ids f g e)) as [b E]; [unfold binding_parts; solve_fine|].
  pose proof (join_len _ _ _ (binding_wide ids f g e Hi) E) as Hl. change (total_width _) with APPLICATION_BINDING_BYTES in Hl.
  rewrite E, ok_bind, raise_if_skip by (by rewrite Hl). by exists b.
Qed.

(** The layout table names consecutive parts from offset 234. *)
Lemma layout_offsets i name off size :
  APPLICATION_BINDING_LAYOUT !! i = Some (name, off, size) ->
  off = OPEN_BASE_FIXED + start binding_widths i /\ off + size = OPEN_BASE_FIXED + start binding_widths (S i) /\ (i < 25)%nat.
Proof.
  unfold APPLICATION_BINDING_LAYOUT. intros H.
  do 25 (destruct i as [|i]; [cbn in H; injection H as <- <- <-; split_and!; [reflexivity | reflexivity | lia]|]). done.
Qed.

Definition head_widths : list Z := [16; 4; 4; 2; 2; 2; 2; 32; 16; 16; 16; 16; 8; 2; 32; 2; 2; 2; 2; 16; 8].

Lemma decode_ascii_Ok t : ascii t -> decode_ascii t = Ok t.
Proof.
  intros H. unfold decode_ascii. rewrite raise_if_skip; [done|]. apply not_true_is_false. rewrite existsb_exists.
  intros (b & Hb & Hlt%Z.ltb_lt). apply list_elem_of_In in Hb. unfold ascii in H. rewrite Forall_forall in H. specialize (H b Hb). cbn in H. lia.
Qed.

(** What an OPEN body holds. *)
Definition open_holds (content : bytes) (ids : id_set) (a : open_args) (g : geometry) (es : list bytes) (body : bytes) : Prop :=
  len body = OPEN_FIXED + len (namespace a) + len (service a) + len (schema a) /\ OPEN_MIN <= len body <= OPEN_MAX /\
  slice 0 16 body = transfer_id ids /\ be_val (slice 16 20 body) = manifest_revision a /\
  be_val (slice 20 24 body) = len content /\ be_val (slice 24 26 body) = CHUNK_SIZE /\
  be_val (slice 26 28 body) = chunk_count g /\ be_val (slice 28 30 body) = manifest_page_count g /\
  slice 32 64 body = sha256 content /\ slice 64 80 body = origin_transaction_id ids /\
  slice 96 112 body = source_runtime_id ids /\ slice 112 128 body = target_runtime_id ids /\
  be_val (slice 194 202 body) = absolute_effect_deadline_ms a /\
  slice 202 234 body =
    sha256 (bytes_of_string "NM3-MANIFEST-V1" ++ slice 0 202 body ++ slice 234 (len body) body ++ concat es) /\
  slice 462 (len body) body = namespace a ++ service a ++ schema a /\
  forall i name off size, APPLICATION_BINDING_LAYOUT !! i = Some (name, off, size) ->
    exists p, binding_parts ids (service_family a) (application_generation a) (evidence_grace_ms a) !! i = Some p /\
              p = Ok (slice off (off + size) body).

(** OPEN announces the transfer: for sized identifiers, 32- and 64-bit
    numbers and three ASCII texts of 1 to 63 bytes, the body is 465 to 651 bytes
    long, holds the geometry, the content digest and the identifiers at their
    offsets and every part of the application binding where the layout table says, and
    its manifest digest covers all the rest of the body and every entry. *)
Theorem open_announces content ids a :
  len content <= MAX_CONTENT -> bytes_ok content -> ids_sized ids -> open_args_ok a ->
  exists g es body digest facts,
    derive_geometry (len content) = Ok g /\ build_entries content = Ok es /\
    encode_open content ids a = Ok (body, digest, es, facts) /\ digest = slice 202 234 body /\
    open_holds content ids a g es body.
Proof.
  intros Hmax Hc Hids (Hr & Hdl & Hf & Hg & He & Hep & Ht). unfold encode_open.
  destruct (derive_geometry_Ok (len content)) as (g & E & G1 & G2 & G3 & G4 & _); [pose proof (len_nonneg content); lia|].
  destruct (entries_built content g Hc E) as (es & Ees & _). unfold MAX_CHUNKS, MAX_PAGES, MAX_CONTENT in *.
  rewrite !Forall_cons in Ht. destruct Ht as ((A1 & L1) & (A2 & L2) & (A3 & L3) & _).
  destruct (binding_built ids _ _ _ Hids Hf Hg He) as (bd & Ebd & Jbd & Lbd). pose proof (binding_wide ids _ _ _ Hids : Forall2 wide (binding_parts ids (service_family a) (application_generation a) (evidence_grace_ms a)) _) as Wb.
  pose proof (len_nonneg content) as Hn.
  rewrite E, ok_bind, Ees, ok_bind. cbv zeta. unfold open_holds.
  pose proof (digest_len (h := sha256) content) as Lw. set (whole := sha256 content) in *. clearbody whole.
  set (ps := open_head_parts g whole ids a).
  assert (W : Forall2 wide ps head_widths).
  { unfold ids_sized in Hids. rewrite !Forall_cons in Hids. destruct_and!. subst ps. unfold open_head_parts, head_widths.
    destruct (oa_deadline_clock_epoch_id a); cbn [default]; solve_wide. }
  assert (F : Forall fine ps) by (subst ps; unfold open_head_parts; rewrite G1, G2; unfold CHUNK_SIZE, ENTRIES_PER_PAGE; solve_fine).
  destruct (join_total ps F) as [head Eh]. rewrite Eh, ok_bind. pose proof (join_len _ _ _ W Eh) as Lh. change (total_width _) with 202 in Lh.
  rewrite raise_if_skip by (by rewrite Lh). rewrite Ebd, ok_bind.
  set (text := namespace a ++ service a ++ schema a).
  assert (Ltx : len text = len (namespace a) + len (service a) + len (schema a)) by (unfold text; rewrite !len_app; lia).
  set (input := bytes_of_string "NM3-MANIFEST-V1" ++ head ++ bd ++ text ++ concat es).
  pose proof (digest_len (h := sha256) input) as Ld. set (dg := sha256 input) in *.
  assert (Lbody : len (head ++ dg ++ bd ++ text) = OPEN_FIXED + len text).
  { rewrite !len_app, Lh, Ld, Lbd. unfold OPEN_FIXED, OPEN_BASE_FIXED. lia. }
  rewrite raise_if_skip by (by rewrite Lbody, Z.eqb_refl).
  rewrite !decode_ascii_Ok, !ok_bind by done.
  assert (Hpre : forall lo hi, 0 <= lo <= hi -> hi <= 202 -> slice lo hi (head ++ dg ++ bd ++ text) = slice lo hi head)
    by (intros; apply slice_app_l; lia).
  assert (Hdg : slice 202 234 (head ++ dg ++ bd ++ text) = dg).
  { rewrite slice_app_r, slice_app_l, slice_whole; lia || done. }
  assert (Hbt : slice 234 (len (head ++ dg ++ bd ++ text)) (head ++ dg ++ bd ++ text) = bd ++ text).
  { rewrite slice_app_r, slice_app_r, slice_whole; try done; rewrite ?len_app; unfold OPEN_FIXED, OPEN_BASE_FIXED, APPLICATION_BINDING_BYTES in *; lia. }
  exists g, es, (head ++ dg ++ bd ++ text), dg. eexists. split; [done|]. split; [done|]. split; [reflexivity|]. split; [done|].
  split; [rewrite Lbody; lia|]. split; [rewrite Lbody; unfold OPEN_MIN, OPEN_MAX; lia|].
  split; [rewrite Hpre by lia; read_part W Eh 0%nat|]. split; [rewrite Hpre by lia; read_part W Eh 1%nat|].
  split; [rewrite Hpre, <- G1 by lia; read_part W Eh 2%nat|]. split; [rewrite Hpre, <- G2 by lia; read_part W Eh 3%nat|].
  split; [rewrite Hpre by lia; read_part W Eh 4%nat|]. split; [rewrite Hpre by lia; read_part W Eh 5%nat|].
  split; [rewrite Hpre by lia; read_part W Eh 7%nat|]. split; [rewrite Hpre by lia; read_part W Eh 8%nat|].
  split; [rewrite Hpre by lia; read_part W Eh 10%nat|]. split; [rewrite Hpre by lia; read_part W Eh 11%nat|].
  split; [rewrite Hpre by lia; read_part W Eh 20%nat|].
  split; [rewrite Hdg, Hbt, Hpre, (slice_whole 0 202 head) by lia; unfold dg, input; by rewrite <- app_assoc|]. split.
  - rewrite slice_app_r, slice_app_r, slice_app_r, slice_whole; try done; unfold OPEN_FIXED, OPEN_BASE_FIXED, APPLICATION_BINDING_BYTES in *; lia.
  - intros i name off size Hrow. destruct (layout_offsets _ _ _ _ Hrow) as (Ho & Hs & Hi).
    destruct (lookup_lt_is_Some_2 (binding_parts ids (service_family a) (application_generation a) (evidence_grace_ms a)) i) as [p Hp];
      [exact Hi|].
    exists p. split; [done|]. rewrite (join_read _ _ _ _ _ Wb Jbd Hp). f_equal.
    assert (0 <= start binding_widths i <= start binding_widths (S i) /\ start binding_widths (S i) <= 228).
    { clear -Hi. do 25 (destruct i as [|i]; [vm_compute; split_and!; discriminate|]). lia. }
    unfold OPEN_BASE_FIXED in *. unfold APPLICATION_BINDING_BYTES in Lbd.
    rewrite slice_app_r, slice_app_r, slice_app_l by lia. f_equal; lia.
Qed.

(** ** Witnesses *)

Definition sample_binding : binding := Binding (pattern 1 16) 1 (pattern 2 32).
Definition sample_content : bytes := pattern 64 2000.

Lemma sample_binding_ok : binding_ok sample_binding.
Proof. split_and!; [reflexivity | apply pattern_ok | done | done | reflexivity | apply pattern_ok]. Qed.
Lemma sample_content_len : len sample_content <= MAX_CONTENT.
Proof. unfold sample_content. rewrite len_pattern by lia. unfold MAX_CONTENT. lia. Qed.

Lemma geometry_exact_witness : exists g, derive_geometry 32768 = Ok g /\ geometry_of 32768 g.
Proof. apply (geometry_exact 32768). unfold MAX_CONTENT. lia. Defined.

Lemma transfer_reassembles_witness :
  exists g offers entries, derive_geometry (len sample_content) = Ok g /\
    all_offers sample_binding sample_content (chunk_count g) = Ok offers /\ build_entries sample_content = Ok entries /\
    concat (map carried offers) = sample_content.
Proof.
  destruct (transfer_reassembles sample_binding sample_content sample_binding_ok (pattern_ok _ _) sample_content_len)
    as (g & os & es & H1 & H2 & H3 & H4 & _).
  exists g, os, es. exact (conj H1 (conj H2 (conj H3 H4))).
Defined.

Lemma manifest_paged_witness :
  exists g entries, derive_geometry (len sample_content) = Ok g /\ build_entries sample_content = Ok entries.
Proof.
  destruct (manifest_paged sample_binding sample_content sample_binding_ok (pattern_ok _ _) sample_content_len)
    as (g & es & ps & H1 & H2 & _).
  exists g, es. exact (conj H1 H2).
Defined.

Lemma message_unambiguous_witness : len ((pattern 1 16 ++ [0; 0; 0; 1] ++ pattern 2 32) ++ [0; 0; 0; 5; 0; 0; 0; 0]) = 60.
Proof.
  assert (Hs : message_sized (ResumeQuery sample_binding 5)) by (split; reflexivity).
  exact (proj1 (message_unambiguous (ResumeQuery sample_binding 5) (ResumeQuery sample_binding 5) _ Hs Hs eq_refl eq_refl)).
Defined.

Definition sample_ids : id_set :=
  Ids (pattern 32 16) (pattern 48 16) ZERO16 (pattern 64 16) (pattern 80 16) (pattern 96 16) (pattern 112 16)
    (pattern 128 16) (pattern 144 16) (pattern 160 16) (pattern 176 16) (pattern 192 16) (pattern 208 16) (pattern 3 32)
    (pattern 225 16) (pattern 17 16) (pattern 49 16) (pattern 81 16) (pattern 113 16) (pattern 9 16).

Lemma open_announces_witness :
  exists g es body digest facts, derive_geometry (len sample_content) = Ok g /\
    encode_open sample_content sample_ids open_defaults = Ok (body, digest, es, facts).
Proof.
  assert (Hi : ids_sized sample_ids) by (split; [repeat (apply Forall_cons_2; [reflexivity|]); apply Forall_nil_2 | reflexivity]).
  assert (Ha : open_args_ok open_defaults).
  { unfold open_args_ok. cbn -[Z.le Z.lt]. do 5 (split; [split; [by vm_compute | by vm_compute]|]). split; [done|].
    repeat (apply Forall_cons_2; [split; [apply Forall_cons_2; [lia | apply Forall_nil_2] | vm_compute; split; discriminate]|]). apply Forall_nil_2. }
  destruct (open_announces sample_content sample_ids open_defaults sample_content_len (pattern_ok _ _) Hi Ha)
    as (g & es & body & d & f & H1 & _ & H2 & _).
  exists g, es, body, d, f. exact (conj H1 H2).
Defined.
