(* ===== verification/MfdtRecords.v ===== *)
(** The durable records of Mfdt.v: what an active record, a tombstone and a
    response row hold, their seals, and the routines that repair the seals. *)

From S2P Require Import Prelude Bytes Crc Sha256 Layout Join Mfdt MfdtTransfer.

(** ** Resealing *)

Lemma reseal_Ok lo m :
  bytes_ok m -> 0 <= lo -> lo + 4 <= len m ->
  exists m', reseal lo m = Ok m' /\ m' = slice_assign lo (lo + 4) (be_bytes 4 (crc32c (slice 0 lo m))) m /\
    len m' = len m /\ bytes_ok m' /\ prefix_sealed crc32c lo m'.
Proof.
  intros Hm Hlo Hl. unfold reseal, crc32c. pose proof (bytes_ok_slice 0 lo _ Hm) as Hs.
  pose proof (pack_checksum crc32c_xorout _ Hs) as Hp. unfold u32. rewrite Hp, ok_bind.
  eexists. split; [done|]. split; [done|].
  assert (L4 : len (be_bytes 4 (crc32c_xorout (slice 0 lo m))) = lo + 4 - lo) by (rewrite len_be_bytes; lia).
  split; [by rewrite len_slice_assign by lia|]. split; [apply slice_assign_ok; [apply be_bytes_ok | done]|].
  unfold prefix_sealed. rewrite slice_assign_read by lia. rewrite slice_assign_other by lia. exact (be_val_checksum crc32c_xorout _ Hs).
Qed.

(** The checksum field is the only completion of the rest: resealing anything that
    agrees with a sealed record outside the field gives that record. *)
Lemma reseal_completes lo m r :
  bytes_ok m -> bytes_ok r -> 0 <= lo -> lo + 4 <= len r -> len m = len r -> prefix_sealed crc32c lo r ->
  slice 0 lo m = slice 0 lo r -> slice (lo + 4) (len m) m = slice (lo + 4) (len r) r -> reseal lo m = Ok r.
Proof.
  intros Hm Hr Hlo Hl Hlen Hs H1 H2. destruct (reseal_Ok lo m Hm Hlo ltac:(lia)) as (m' & E & -> & L' & B' & S').
  rewrite E. f_equal. assert (L4 : len (be_bytes 4 (crc32c (slice 0 lo m))) = lo + 4 - lo) by (rewrite len_be_bytes; lia).
  apply (window_eq lo (lo + 4)); try lia.
  - rewrite slice_assign_other by lia. done.
  - apply be_val_inj; auto using bytes_ok_slice; [rewrite !len_slice by lia; lia|].
    unfold prefix_sealed in *. rewrite S', Hs. rewrite slice_assign_other by lia. by rewrite H1.
  - rewrite L'. rewrite slice_assign_other by lia. done.
Qed.

Lemma reseal_other lo m m' a c :
  bytes_ok m -> 0 <= lo -> lo + 4 <= len m -> reseal lo m = Ok m' -> 0 <= a <= c -> c <= lo \/ lo + 4 <= a ->
  slice a c m' = slice a c m.
Proof.
  intros Hm Hlo Hl E Hac Hap. destruct (reseal_Ok lo m Hm Hlo Hl) as (x & Ex & -> & _). rewrite E in Ex.
  apply Ok_inj in Ex as ->. apply slice_assign_other; try lia. rewrite len_be_bytes. lia.
Qed.

(** A record with a checksum at [lo] over its header and one over the record in
    its last four bytes. *)
Definition two_seals (lo : Z) (r : bytes) : Prop := prefix_sealed crc32c lo r /\ prefix_sealed crc32c (len r - 4) r.

Definition reseal_both (lo : Z) (m : bytes) : res bytes := x ← reseal lo m; reseal (len x - 4) x.

(** [m] is [r] but for the two checksum fields. *)
Definition same_but_seals (lo : Z) (m r : bytes) : Prop :=
  len m = len r /\ slice 0 lo m = slice 0 lo r /\ slice (lo + 4) (len r - 4) m = slice (lo + 4) (len r - 4) r.

Lemma reseal_both_Ok lo m :
  bytes_ok m -> 0 <= lo -> lo + 8 <= len m ->
  exists r, reseal_both lo m = Ok r /\ bytes_ok r /\ two_seals lo r /\ same_but_seals lo m r.
Proof.
  intros Hm Hlo Hl. destruct (reseal_Ok lo m Hm Hlo ltac:(lia)) as (x & Ex & _ & Lx & Bx & Sx).
  destruct (reseal_Ok (len x - 4) x Bx ltac:(lia) ltac:(lia)) as (r & Er & _ & Lr & Br & Sr).
  exists r. unfold reseal_both. rewrite Ex, ok_bind. split; [done|]. split; [done|].
  assert (Hxr : forall a c, 0 <= a <= c -> c <= len x - 4 -> slice a c r = slice a c x).
  { intros a c Ha Hc. apply (reseal_other (len x - 4) x r a c Bx ltac:(lia) ltac:(lia) Er); lia. }
  assert (Hmx : forall a c, 0 <= a <= c -> c <= lo \/ lo + 4 <= a -> slice a c x = slice a c m).
  { intros a c Ha Hc. by apply (reseal_other lo m x a c Hm Hlo ltac:(lia) Ex). }
  split.
  - split; [|by rewrite Lr]. unfold prefix_sealed in *. by rewrite !Hxr by lia.
  - split; [lia|]. split; rewrite Hxr, Hmx by lia; done.
Qed.

Lemma reseal_both_completes lo m r :
  bytes_ok m -> bytes_ok r -> 0 <= lo -> lo + 8 <= len r -> two_seals lo r -> same_but_seals lo m r -> reseal_both lo m = Ok r.
Proof.
  intros Hm Hr Hlo Hl [S1 S2] (L & H1 & H2). destruct (reseal_both_Ok lo m Hm Hlo ltac:(lia)) as (q & E & Bq & [Q1 Q2] & Lq & K1 & K2).
  rewrite E. f_equal. rewrite <- L in *. rewrite <- Lq in *.
  assert (P1 : slice 0 (lo + 4) q = slice 0 (lo + 4) r).
  { rewrite !(slice_split 0 lo (lo + 4)) by lia. f_equal; [congruence|]. apply be_val_inj; auto using bytes_ok_slice.
    - rewrite !len_slice by lia. lia.
    - unfold prefix_sealed in *. rewrite Q1, S1. congruence. }
  assert (P2 : slice 0 (len m - 4) q = slice 0 (len m - 4) r).
  { rewrite !(slice_split 0 (lo + 4) (len m - 4)) by lia. f_equal; [done|]. congruence. }
  apply (window_eq (len m - 4) (len m)); try lia; [done| |].
  - apply be_val_inj; auto using bytes_ok_slice; [rewrite !len_slice by lia; lia|]. unfold prefix_sealed in *.
    assert (Hx : forall x : bytes, slice (len m - 4) (len m) x = slice (len m - 4) (len m - 4 + 4) x) by (intros; f_equal; lia).
    rewrite !Hx, Q2, S2. congruence.
  - rewrite <- Lq, <- L. unfold slice. by replace (Z.to_nat (len m - len m)) with O by lia.
Qed.

Lemma repair_record_both r : HEADER_BYTES + 4 <= len r -> repair_record_crc r = reseal_both 304 r.
Proof. intros H. unfold repair_record_crc. rewrite raise_if_skip; [done | by apply Z.ltb_ge]. Qed.
Lemma repair_nrc1_both r : len r = NRC1_VALUE_BYTES -> repair_nrc1_crc r = reseal_both 36 r.
Proof. intros H. unfold repair_nrc1_crc. rewrite raise_if_skip; [done | by rewrite H]. Qed.

(** Repairing a record restores its seals and nothing else: any byte string of at
    least 312 bytes is repaired into one of the same length whose header and record
    checksums hold and whose other bytes are unchanged; it is the only such
    record, so repairing it again changes nothing; a shorter string is refused. *)
Theorem record_repair_restores m :
  bytes_ok m ->
  (len m < HEADER_BYTES + 4 -> repair_record_crc m = Raise (ValueError "record")) /\
  (HEADER_BYTES + 4 <= len m ->
   exists r, repair_record_crc m = Ok r /\ two_seals 304 r /\ same_but_seals 304 m r /\
     repair_record_crc r = Ok r /\
     forall r', bytes_ok r' -> two_seals 304 r' -> same_but_seals 304 m r' -> r' = r).
Proof.
  intros Hm. split; intros Hl.
  - unfold repair_record_crc. by rewrite (proj2 (Z.ltb_lt _ _) Hl).
  - unfold HEADER_BYTES in Hl. destruct (reseal_both_Ok 304 m Hm ltac:(lia) ltac:(lia)) as (r & E & Br & Sr & Hr).
    exists r. rewrite repair_record_both by (unfold HEADER_BYTES; lia). split; [done|]. split; [done|]. split; [done|].
    pose proof Hr as (Lr & _). split.
    + rewrite repair_record_both by (unfold HEADER_BYTES; lia). by apply reseal_both_completes; [..|split_and!]; try done; lia.
    + intros r' Br' Sr' Hr'. pose proof Hr' as (Lr' & _).
      pose proof (reseal_both_completes 304 m r' Hm Br' ltac:(lia) ltac:(lia) Sr' Hr') as E'. rewrite E in E'. by apply Ok_inj in E'.
Qed.

(** ** Active records *)

Record active_ok (a : active_args) : Prop := {
  ok_bytes : Forall (fun v => raw 16 v)
    [transfer_id (ids a); reservation_id (ids a); reservation_clock_epoch_id (ids a); receiver_evidence_id (ids a);
     authority_actor_id (ids a); publication_token_v a];
  ok_digests : Forall (fun v => raw 32 v) [manifest_digest a; acceptance_record_digest a; publication_evidence_digest a];
  ok_kind : raw 4 (kind a);
  ok_small : Forall is_byte [owner_side a; state_code a; publication_state a; handoff_state a; accept_notified a];
  ok_words : Forall u64_ok [record_generation a; acceptance_record_generation a; chunk_bitmap a; reservation_not_after_ms a; local_mono_ms a];
  ok_revision : u32_ok (revision a); ok_abort : u32_ok (abort_generation a); ok_reason : u16_ok (abort_reason a);
  ok_session : 1 <= session_generation a <= 0xFFFFFFFF;
  ok_open : bytes_ok (open_body a) /\ len (open_body a) <= OPEN_MAX;
  ok_entries : bytes_ok (concat (entries a));
  ok_content : bytes_ok (content a)
}.

Lemma reservation_raw a r e x : active_ok a -> reservation_of a = (r, e, x) -> raw 16 r /\ raw 16 e /\ u64_ok x.
Proof.
  intros H E. pose proof (ok_bytes a H) as Hb. pose proof (ok_words a H) as Hw. rewrite !Forall_cons in Hb. rewrite !Forall_cons in Hw. destruct_and!.
  assert (Z16 : raw 16 ZERO16) by (split; [done | apply zeros_ok]). assert (Z0 : u64_ok 0) by (split; lia).
  unfold reservation_of in E. repeat case_match; simplify_eq; done.
Qed.

Lemma evidence_raw a : active_ok a -> raw 16 (evidence_of a).
Proof.
  intros H. pose proof (ok_bytes a H) as Hb. rewrite !Forall_cons in Hb. destruct_and!.
  assert (Z16 : raw 16 ZERO16) by (split; [done | apply zeros_ok]). unfold evidence_of. repeat case_match; done.
Qed.

Definition geometry_ok (g : geometry) : Prop :=
  0 <= total_length g <= MAX_CONTENT /\ 0 <= chunk_count g <= MAX_CHUNKS /\ 0 <= manifest_page_count g <= MAX_PAGES.

(** The reservation a record names: a sender that has only opened has none, and a
    reservation of the zero identifier has no clock and no expiry. *)
Definition reservation_holds (a : active_args) (m : bytes) : Prop :=
  let none := state_code a = 1 /\ owner_side a <> 2 \/ reservation_id (ids a) = ZERO16 in
  (none -> slice 112 128 m = ZERO16 /\ slice 128 144 m = ZERO16 /\ be_val (slice 144 152 m) = 0) /\
  (~ none -> slice 112 128 m = reservation_id (ids a) /\ slice 128 144 m = reservation_clock_epoch_id (ids a) /\
             be_val (slice 144 152 m) = reservation_not_after_ms a).

(** The receiver's evidence, once something was published or accepted. *)
Definition evidence_holds (a : active_args) (m : bytes) : Prop :=
  slice 152 168 m = if bool_decide (acceptance_record_generation a = 0 /\ publication_state a = 0) then ZERO16 else receiver_evidence_id (ids a).

(** What the header of an active record holds: every byte of it belongs to one of
    these reads, or is the checksum at its end. *)
Definition header_holds (a : active_args) (g : geometry) (total : Z) (m : bytes) : Prop :=
  len m = HEADER_BYTES /\ bytes_ok m /\ prefix_sealed crc32c 304 m /\
  slice 0 4 m = kind a /\ be_val (slice 4 6 m) = ACTIVE_RECORD_SCHEMA /\ be_val (slice 6 8 m) = HEADER_BYTES /\
  be_val (slice 8 12 m) = total /\ slice 12 13 m = [owner_side a] /\ slice 13 14 m = [state_code a] /\ be_val (slice 14 16 m) = 0 /\
  slice 16 32 m = transfer_id (ids a) /\ be_val (slice 32 36 m) = revision a /\ slice 36 68 m = manifest_digest a /\
  be_val (slice 68 76 m) = record_generation a /\ be_val (slice 76 84 m) = acceptance_record_generation a /\
  be_val (slice 84 86 m) = len (open_body a) /\ be_val (slice 86 88 m) = ENTRY_BYTES * chunk_count g /\
  be_val (slice 88 92 m) = total_length g /\ be_val (slice 92 94 m) = chunk_count g /\ be_val (slice 94 96 m) = manifest_page_count g /\
  be_val (slice 96 104 m) = chunk_bitmap a /\ slice 104 105 m = [Z.land (page_bitmap a) 255] /\
  slice 105 106 m = [8] /\ slice 106 107 m = [1] /\ slice 107 108 m = [publication_state a] /\
  slice 108 109 m = [handoff_state a] /\ slice 109 110 m = [accept_notified a] /\ be_val (slice 110 112 m) = 0 /\
  reservation_holds a m /\ evidence_holds a m /\
  slice 168 200 m = acceptance_record_digest a /\ slice 200 216 m = reservation_clock_epoch_id (ids a) /\
  be_val (slice 216 224 m) = local_mono_ms a /\ be_val (slice 224 228 m) = abort_generation a /\
  be_val (slice 228 230 m) = abort_reason a /\ be_val (slice 230 232 m) = 0 /\
  slice 232 248 m = (if abort_generation a =? 0 then ZERO16 else authority_actor_id (ids a)) /\
  slice 248 264 m = publication_token_v a /\ slice 264 296 m = publication_evidence_digest a /\
  be_val (slice 296 300 m) = 0 /\ be_val (slice 300 304 m) = session_generation a.

Lemma reservation_exact a m :
  slice 112 128 m = (reservation_of a).1.1 -> slice 128 144 m = (reservation_of a).1.2 ->
  be_val (slice 144 152 m) = (reservation_of a).2 -> reservation_holds a m.
Proof.
  unfold reservation_holds, reservation_of. intros -> -> ->.
  destruct (Z.eqb_spec (state_code a) 1), (Z.eqb_spec (owner_side a) 1), (Z.eqb_spec (owner_side a) 2),
    (decide (reservation_id (ids a) = ZERO16)) as [Hz|Hz];
    cbn [negb andb orb fst snd]; rewrite ?Hz, ?bool_decide_eq_true_2, ?(bool_decide_eq_false_2 _ Hz) by done; cbn [negb andb orb fst snd];
    (split; [intros [[? ?]|?] | intros Hn]); try done; try lia; exfalso; apply Hn; auto.
Qed.

Lemma evidence_exact a m : is_byte (publication_state a) -> slice 152 168 m = evidence_of a -> evidence_holds a m.
Proof.
  unfold is_byte, evidence_holds, evidence_of. intros Hp ->. unfold is_byte in Hp.
  destruct (Z.eqb_spec (acceptance_record_generation a) 0), (Z.eqb_spec (publication_state a) 0);
    [rewrite bool_decide_eq_true_2 by done | rewrite bool_decide_eq_false_2 by tauto..]; cbn [negb andb orb]; try done.
  by rewrite (proj2 (Z.leb_le 1 _)) by lia.
Qed.

(** Read back whatever one write of the program put there. *)
Ltac read_back Hs Hl Hr :=
  first
    [ read_field Hs Hl Hr
    | match goal with |- slice ?lo ?hi _ = _ =>
        let K := fresh in pose proof (read_index _ _ _ _ Hs Hl Hr lo _ _ eq_refl) as K; apply pybyte_Ok in K as [_ K]; exact K end
    | match goal with |- be_val (slice ?lo ?hi _) = _ =>
        let K := fresh in pose proof (read_put _ _ _ _ Hs Hl Hr lo hi _ _ eq_refl) as K;
        apply raise_if_then_Ok in K as [_ K]; exact (pack_val _ _ _ K) end ].

Lemma sized_guarded n lo hi cond e k v :
  0 <= lo <= hi -> hi <= n -> Z.of_nat k = hi - lo -> sized n (put lo hi (raise_if cond e;; pack k v)).
Proof.
  intros ? ? Hk. apply sized_put; auto. intros x E. inv_res. split; [rewrite (pack_len _ _ _ E); lia | by eapply pack_ok].
Qed.

Lemma header_program_ok a g total :
  active_ok a -> geometry_ok g -> u32_ok total ->
  Forall (sized HEADER_BYTES) (active_header_writes a g total (len (open_body a))) /\
  Forall (Layout.total HEADER_BYTES) (active_header_writes a g total (len (open_body a))).
Proof.
  intros H (G1 & G2 & G3) Ht. pose proof (ok_bytes a H) as Hb. pose proof (ok_digests a H) as Hd. destruct (ok_kind a H) as [K1 K2].
  pose proof (ok_small a H) as Hs. pose proof (ok_words a H) as Hw. pose proof (ok_revision a H). pose proof (ok_abort a H).
  pose proof (ok_reason a H). pose proof (ok_session a H) as Hses. destruct (ok_open a H) as [_ Hol].
  rewrite !Forall_cons in Hb. rewrite !Forall_cons in Hd. rewrite !Forall_cons in Hs. rewrite !Forall_cons in Hw.
  destruct (evidence_raw a H) as [V1 V2]. pose proof (len_nonneg (open_body a)).
  unfold active_header_writes. destruct (reservation_of a) as [[r e] x] eqn:Er.
  destruct (reservation_raw a r e x H Er) as ((R1 & R2) & (E1 & E2) & Hx).
  unfold u64_ok, u32_ok, u16_ok, is_byte, MAX_CONTENT, MAX_CHUNKS, MAX_PAGES, OPEN_MAX, OPEN_FIXED, OPEN_BASE_FIXED,
    APPLICATION_BINDING_BYTES, ENTRY_BYTES, HEADER_BYTES, ACTIVE_RECORD_SCHEMA, raw in *. destruct_and!.
  assert (Hact : len (if abort_generation a =? 0 then ZERO16 else authority_actor_id (ids a)) = 16 /\
                 bytes_ok (if abort_generation a =? 0 then ZERO16 else authority_actor_id (ids a))).
  { destruct (_ =? 0); [split; [done | apply zeros_ok] | done]. } destruct Hact as [P1 P2].
  set (actor := if abort_generation a =? 0 then _ else _) in *. clearbody actor. split.
  - solve_sized. apply sized_guarded; lia.
  - solve_total. intros buf _ _. exists (be_bytes 4 (session_generation a)). cbn [w_val put].
    rewrite raise_if_skip by (apply negb_false_iff, in_range_spec; lia). apply pack_total. pack_range. lia.
Qed.

Lemma header_built a g total :
  active_ok a -> geometry_ok g -> u32_ok total ->
  exists m, active_header a g total (len (open_body a)) = Ok m /\ header_holds a g total m.
Proof.
  intros H G Ht. destruct (header_program_ok a g total H G Ht) as [Sz To].
  unfold active_header, header_holds.
  assert (Sz2 : Forall (sized HEADER_BYTES) (active_header_writes a g total (len (open_body a)) ++ [put_prefix_crc crc32c 304 304]))
    by (apply Forall_app_2; [done | unfold HEADER_BYTES; solve_sized]).
  assert (To2 : Forall (Layout.total HEADER_BYTES) (active_header_writes a g total (len (open_body a)) ++ [put_prefix_crc crc32c 304 304]))
    by (apply Forall_app_2; [done | unfold HEADER_BYTES; solve_total]).
  assert (Hl : len (zeros HEADER_BYTES) = HEADER_BYTES) by done. pose proof (zeros_ok HEADER_BYTES) as Hb.
  destruct (run_writes_total _ _ _ Sz2 To2 Hl Hb) as (m & Hm & Hlm & Hbm). exists m. split; [done|].
  split; [done|]. split; [done|].
  assert (Hps : prefix_sealed crc32c 304 m) by (by eapply (run_prefix_sealed crc32c); [exact Sz | | | exact Hl | | exact Hm]).
  pose proof (ok_small a H) as Hs. rewrite !Forall_cons in Hs. destruct Hs as (_ & _ & Bp & _).
  pose proof (reservation_exact a m) as Hres. pose proof (evidence_exact a m Bp) as Hev.
  unfold active_header_writes in *. destruct (reservation_of a) as [[r e] x]. cbn [fst snd] in *.
  split_and!; first [exact Hps | read_back Sz2 Hl Hm | apply Hres; read_back Sz2 Hl Hm | apply Hev; read_back Sz2 Hl Hm].
Qed.

Lemma own_seal hd :
  bytes_ok hd -> exists crc, u32 (crc32c hd) = Ok crc /\ len crc = 4 /\ bytes_ok (hd ++ crc) /\
    prefix_sealed crc32c (len hd) (hd ++ crc).
Proof.
  intros B. exists (be_bytes 4 (crc32c hd)). split; [exact (pack_checksum crc32c_xorout _ B)|].
  split; [by rewrite len_be_bytes|]. split; [apply bytes_ok_app; auto using be_bytes_ok|].
  unfold prefix_sealed. rewrite slice_app_exact by done. rewrite slice_app_r by lia.
  rewrite slice_whole; [exact (be_val_checksum crc32c_xorout _ B) | lia | rewrite len_be_bytes; lia].
Qed.

(** A header with its own seal at [lo], a body, and a checksum over both. *)
Lemma append_seal lo n hd rest :
  len hd = n -> bytes_ok hd -> bytes_ok rest -> 0 <= lo -> lo + 4 <= n -> prefix_sealed crc32c lo hd ->
  exists crc, u32 (crc32c (hd ++ rest)) = Ok crc /\ len crc = 4 /\
    two_seals lo ((hd ++ rest) ++ crc) /\ bytes_ok ((hd ++ rest) ++ crc) /\ slice 0 n ((hd ++ rest) ++ crc) = hd /\
    forall a c, n <= a <= c -> c <= n + len rest -> slice a c ((hd ++ rest) ++ crc) = slice (a - n) (c - n) rest.
Proof.
  intros Hn Bh Br Hlo Hln Hs. assert (Bb : bytes_ok (hd ++ rest)) by (by apply bytes_ok_app).
  exists (be_bytes 4 (crc32c (hd ++ rest))).
  pose proof (pack_checksum crc32c_xorout _ Bb) as Hp. split; [exact Hp|].
  pose proof (len_be_bytes 4 (crc32c (hd ++ rest))) as L4. change (Z.of_nat 4) with 4 in L4.
  pose proof (be_val_checksum crc32c_xorout _ Bb) as Hv. fold (crc32c (hd ++ rest)) in Hv. change (crc32c_xorout (hd ++ rest)) with (crc32c (hd ++ rest)) in Hv.
  pose proof (be_bytes_ok 4 (crc32c (hd ++ rest))) as B4.
  set (crc := be_bytes 4 (crc32c (hd ++ rest))) in *. clearbody crc. split; [done|].
  pose proof (len_nonneg rest) as Nr. assert (Lm : len ((hd ++ rest) ++ crc) = n + len rest + 4) by (rewrite !len_app; lia).
  assert (Hhd : forall a c, 0 <= a <= c -> c <= n -> slice a c ((hd ++ rest) ++ crc) = slice a c hd).
  { intros a c Ha Hc. rewrite slice_app_l by (rewrite ?len_app; lia). apply slice_app_l; lia. }
  split_and!.
  - unfold two_seals, prefix_sealed in *. rewrite Lm, !Hhd by lia. split; [done|].
    replace (n + len rest + 4 - 4) with (len (hd ++ rest)) by (rewrite len_app; lia).
    rewrite slice_app_exact by done. rewrite slice_app_r by lia. rewrite slice_whole by lia. exact Hv.
  - by apply bytes_ok_app.
  - rewrite Hhd by lia. apply slice_whole; lia.
  - intros a c Ha Hc. rewrite slice_app_l by (rewrite ?len_app; lia). rewrite slice_app_r by lia. f_equal; lia.
Qed.

(** What an active record holds: the header, then OPEN, the entries padded to the
    manifest's size, the content, and the two checksums. *)
Definition active_holds (a : active_args) (g : geometry) (m : bytes) : Prop :=
  let total := HEADER_BYTES + len (open_body a) + ENTRY_BYTES * chunk_count g + len (content a) + 4 in
  let e0 := HEADER_BYTES + len (open_body a) in
  let c0 := e0 + ENTRY_BYTES * chunk_count g in
  len m = total /\ total <= ACTIVE_VALUE_MAX /\ bytes_ok m /\ header_holds a g total (slice 0 HEADER_BYTES m) /\
  slice HEADER_BYTES e0 m = open_body a /\
  slice e0 (e0 + len (concat (entries a))) m = concat (entries a) /\
  slice (e0 + len (concat (entries a))) c0 m = zeros (c0 - (e0 + len (concat (entries a)))) /\
  slice c0 (c0 + len (content a)) m = content a /\ two_seals 304 m.

(** C29. An active record is a faithful, sealed image of its transfer: for sized
    identifiers and digests, numbers in range, an OPEN body of at most 651 bytes, at
    most one entry for each chunk and a content of at most 32768 bytes, the record is
    built, is at most 35211 bytes long, holds every header field at its offset, the
    OPEN body, the entries (zero-padded), and the content where its own lengths say,
    carries both seals, and is left as it is by the repair routine. *)
Theorem active_record_faithful a g :
  active_ok a -> derive_geometry (len (content a)) = Ok g -> len (concat (entries a)) <= ENTRY_BYTES * chunk_count g ->
  exists m, build_active_record a = Ok m /\ active_holds a g m /\ repair_record_crc m = Ok m.
Proof.
  intros H E Hent. unfold build_active_record. rewrite E, ok_bind. cbv zeta.
  destruct (decide (0 <= len (content a) <= MAX_CONTENT)) as [Hn | Hn]; [|by rewrite derive_geometry_bad in E].
  destruct (derive_geometry_Ok _ Hn) as (g' & E' & G1 & _ & G2 & G3 & _). rewrite E in E'. apply Ok_inj in E' as <-.
  destruct (ok_open a H) as [Bo Lo]. pose proof (ok_entries a H) as Be. pose proof (ok_content a H) as Bc.
  pose proof (len_nonneg (open_body a)) as N1. pose proof (len_nonneg (concat (entries a))) as N2.
  set (blob := concat (entries a)) in *. 
  set (pad := ENTRY_BYTES * chunk_count g - len blob).
  assert (Hblob : (if negb (len blob =? ENTRY_BYTES * chunk_count g) then p ← py_zeros pad; mret (blob ++ p) else mret blob)
                  = Ok (blob ++ zeros pad)).
  { destruct (Z.eqb_spec (len blob) (ENTRY_BYTES * chunk_count g)) as [Heq | Hne]; cbn [negb].
    - unfold pad. rewrite Heq, Z.sub_diag. cbn. by rewrite app_nil_r.
    - unfold py_zeros. rewrite raise_if_skip by (apply Z.ltb_ge; unfold pad; lia). done. }
  rewrite Hblob, ok_bind. assert (Hzero : py_zeros (total_length g - len (content a)) = Ok []) by (by rewrite G1, Z.sub_diag).
  rewrite Hzero, ok_bind, app_nil_r.
  assert (Hpad : 0 <= pad) by (unfold pad; lia).
  assert (Leb : len (blob ++ zeros pad) = ENTRY_BYTES * chunk_count g) by (rewrite len_app, len_zeros by done; unfold pad; lia).
  rewrite Leb, G1. unfold active_holds. fold blob.
  set (total := HEADER_BYTES + len (open_body a) + ENTRY_BYTES * chunk_count g + len (content a) + 4) in *.
  assert (Ht : total <= ACTIVE_VALUE_MAX).
  { unfold total, ACTIVE_VALUE_MAX, MAX_CHUNKS in *. unfold ENTRY_BYTES. lia. }
  assert (Ht0 : u32_ok total).
  { unfold ACTIVE_VALUE_MAX, OPEN_MAX, OPEN_FIXED, OPEN_BASE_FIXED, APPLICATION_BINDING_BYTES, HEADER_BYTES, MAX_CHUNKS, ENTRY_BYTES, MAX_CONTENT in *.
    unfold u32_ok. unfold total, HEADER_BYTES, ENTRY_BYTES in *. lia. }
  destruct (header_built a g total H) as (hd & Eh & Hh); [by rewrite <- G1 in Hn | done|].
  rewrite Eh, ok_bind. destruct Hh as (Lh & Bh & Hrest).
  set (body := hd ++ open_body a ++ (blob ++ zeros pad) ++ content a).
  assert (Bb : bytes_ok body) by (unfold body; rewrite !bytes_ok_app; auto using zeros_ok).
  assert (Lb : len body = total - 4) by (unfold body, total; rewrite !len_app, Lh in *; lia).
  destruct (append_seal 304 308 hd (open_body a ++ (blob ++ zeros pad) ++ content a)) as (crc & Ec & Lc & Hse & Bm & Hhd & Hre);
    try done; [by rewrite !bytes_ok_app; auto using zeros_ok | by apply Hrest|].
  fold body in Ec, Hse, Bm, Hhd, Hre. rewrite Ec, ok_bind.
  assert (Lm : len (body ++ crc) = total) by (rewrite len_app; lia).
  rewrite raise_if_skip by (by rewrite Lm, Z.eqb_refl). eexists. split; [reflexivity|]. split.
  - unfold HEADER_BYTES in *. split; [done|]. split; [done|]. split; [done|]. split; [by rewrite Hhd|].
    rewrite !len_app, len_zeros in Hre by done.
    split; [rewrite Hre by lia; by rewrite slice_app_l, slice_whole by lia|].
    split; [rewrite Hre by lia; by rewrite slice_app_r, <- app_assoc, slice_app_l, slice_whole by lia|].
    split.
    { rewrite Hre by lia. rewrite slice_app_r, <- app_assoc, slice_app_r, slice_app_l by (rewrite ?len_zeros by done; unfold pad; lia).
      rewrite slice_whole by (rewrite ?len_zeros by done; unfold pad; lia). f_equal. unfold pad. lia. }
    split; [|done]. rewrite Hre by lia. rewrite slice_app_r, slice_app_r by (rewrite ?Leb; lia).
    rewrite slice_whole by (rewrite ?Leb; lia). done.
  - rewrite repair_record_both by (rewrite Lm; unfold total, HEADER_BYTES in *; unfold ENTRY_BYTES in *; lia).
    apply reseal_both_completes; try done; rewrite Lm; unfold total, HEADER_BYTES, ENTRY_BYTES in *; lia.
Qed.

(** ** Response rows *)

Definition response_ok (r : response) : Prop :=
  1 <= request_id r <= 0xFFFFFFFFFFFFFFFF /\ 1 <= r_session_generation r <= 0xFFFFFFFF /\
  raw 32 (r_request_body_digest r) /\ u16_ok (response_type r) /\
  1 <= len (response_body r) <= NRC1_MAX_RESPONSE /\ bytes_ok (response_body r).

Definition response_holds (r : response) (m : bytes) : Prop :=
  len m = NRC1_SLOT_BYTES /\ bytes_ok m /\ be_val (slice 0 8 m) = request_id r /\
  be_val (slice 8 12 m) = r_session_generation r /\ slice 12 44 m = r_request_body_digest r /\
  be_val (slice 44 46 m) = response_type r /\ be_val (slice 46 48 m) = len (response_body r) /\
  slice 48 (48 + len (response_body r)) m = response_body r.

Lemma slot_built r : response_ok r -> exists m, nrc1_slot r = Ok m /\ response_holds r m.
Proof.
  intros (H1 & H2 & [H3 H3'] & H4 & H5 & H6). unfold nrc1_slot, u16_ok, NRC1_MAX_RESPONSE in *.
  rewrite raise_if_skip by (apply negb_false_iff, in_range_spec; lia).
  rewrite raise_if_skip by (by rewrite H3).
  rewrite raise_if_skip by (apply negb_false_iff, in_range_spec; lia).
  rewrite raise_if_skip by (apply orb_false_iff; split; [apply Z.eqb_neq; lia | apply Z.ltb_ge; lia]).
  assert (Lp : len (response_body r ++ zeros (160 - len (response_body r))) = 160) by (rewrite len_app, len_zeros; lia).
  assert (Bp : bytes_ok (response_body r ++ zeros (160 - len (response_body r)))) by (apply bytes_ok_app; auto using zeros_ok).
  assert (W : Forall2 wide (slot_parts r) [8; 4; 32; 2; 2; 160]) by (unfold slot_parts, NRC1_MAX_RESPONSE; solve_wide).
  assert (F : Forall fine (slot_parts r)) by (unfold slot_parts, NRC1_MAX_RESPONSE; solve_fine).
  assert (S : Forall sound (slot_parts r)).
  { unfold slot_parts, NRC1_MAX_RESPONSE. repeat first [ apply Forall_nil_2 | apply Forall_cons_2 ];
      first [apply sound_pack | apply sound_Ok; assumption]. }
  destruct (join_total _ F) as [m E]. exists m. split; [done|]. pose proof (join_len _ _ _ W E) as Lm. change (total_width _) with 208 in Lm.
  split; [done|]. split; [by eapply join_sound|].
  split; [read_part W E 0%nat|]. split; [read_part W E 1%nat|]. split; [read_part W E 2%nat|]. split; [read_part W E 3%nat|].
  split; [read_part W E 4%nat|].
  assert (Hb : slice 48 208 m = response_body r ++ zeros (160 - len (response_body r))) by read_part W E 5%nat.
  pose proof (f_equal (slice 0 (len (response_body r))) Hb) as Hc. rewrite slice_slice in Hc by lia.
  rewrite slice_app_exact in Hc by done. by rewrite Z.add_0_r in Hc.
Qed.

Lemma slot_occupied r m : response_ok r -> response_holds r m -> negb (bool_decide (slice 0 8 m = zeros 8)) = true.
Proof.
  intros (H1 & _) (_ & _ & E & _). apply negb_true_iff, bool_decide_eq_false. intros Hz. rewrite Hz in E. change (be_val (zeros 8)) with 0 in E. lia.
Qed.

(** Encode the responses, then the row. *)
Definition build_row (transfer_id : bytes) (session_generation : Z) (rs : list response) (next_insert_seq : Z) : res bytes :=
  slots ← build_each nrc1_slot rs; build_nrc1_value transfer_id session_generation slots next_insert_seq.

Definition row_slot (k : nat) (m : bytes) : bytes := slice (40 + Z.of_nat k * 208) (40 + (Z.of_nat k + 1) * 208) m.

Definition row_holds (tid : bytes) (gen : Z) (rs : list response) (seq : Z) (m : bytes) : Prop :=
  len m = NRC1_VALUE_BYTES /\ bytes_ok m /\ slice 8 24 m = tid /\ be_val (slice 24 28 m) = gen /\
  be_val (slice 28 30 m) = NRC1_SLOT_COUNT /\ be_val (slice 30 32 m) = len rs /\ be_val (slice 32 36 m) = seq /\
  (forall k r, rs !! k = Some r -> response_holds r (row_slot k m)) /\
  (forall k, len rs <= Z.of_nat k < NRC1_SLOT_COUNT -> row_slot k m = zeros NRC1_SLOT_BYTES) /\ two_seals 36 m.

Lemma concat_ok (l : list bytes) : Forall bytes_ok l -> bytes_ok (concat l).
Proof. induction 1; [constructor|]. cbn [concat]. by apply bytes_ok_app. Qed.

(** A slice of a concatenation of equal records. *)
Lemma concat_slot (l : list bytes) k s n :
  0 < n -> Forall (fun x => len x = n) l -> l !! k = Some s ->
  slice (Z.of_nat k * n) ((Z.of_nat k + 1) * n) (concat l) = s.
Proof.
  intros Hn H. revert k. induction H as [|x l Hx H IH]; intros k Hk; [done|]. cbn [concat].
  destruct k as [|k]; cbn in Hk.
  - injection Hk as ->. rewrite slice_app_l by lia. apply slice_whole; lia.
  - rewrite slice_app_r by nia. rewrite <- (IH k Hk) at 1. f_equal; lia.
Qed.

Lemma filter_all {A} (f : A -> bool) l : Forall (fun x => f x = true) l -> List.filter f l = l.
Proof. induction 1 as [|x l Hx _ IH]; [done|]. cbn. by rewrite Hx, IH. Qed.
Lemma filter_none {A} (f : A -> bool) l : Forall (fun x => f x = false) l -> List.filter f l = [].
Proof. induction 1 as [|x l Hx _ IH]; [done|]. cbn. by rewrite Hx. Qed.

Lemma row_built tid gen rs seq :
  raw 16 tid -> u32_ok gen -> u32_ok seq -> Forall response_ok rs -> len rs <= NRC1_SLOT_COUNT ->
  exists m, build_row tid gen rs seq = Ok m /\ row_holds tid gen rs seq m.
Proof.
  intros [Ht Bt] Hg Hq Hrs Hmax. unfold u32_ok in *. pose proof (len_nonneg rs) as Nr.
  destruct (build_each_Ok nrc1_slot rs) as [slots Es].
  { intros r Hr. rewrite Forall_forall in Hrs. destruct (slot_built r (Hrs r Hr)) as (m & Em & _). by exists m. }
  unfold build_row. rewrite Es, ok_bind. pose proof (build_each_Forall2 _ _ _ Es) as F2.
  assert (Hslot : forall k r s, rs !! k = Some r -> slots !! k = Some s -> response_holds r s /\ response_ok r).
  { intros k r s Hr Hs. pose proof (Forall2_lookup_lr _ _ _ _ _ _ F2 Hr Hs) as E. rewrite Forall_lookup in Hrs.
    destruct (slot_built r (Hrs k r Hr)) as (m & Em & Hm). rewrite E in Em. apply Ok_inj in Em as ->. by split; [|apply (Hrs k)]. }
  assert (Lsl : len slots = len rs) by (unfold len; apply Forall2_length in F2; by rewrite F2).
  assert (Hall : Forall (fun s => len s = 208 /\ bytes_ok s /\ negb (bool_decide (slice 0 8 s = zeros 8)) = true) slots).
  { apply Forall_lookup. intros k s Hs. destruct (Forall2_lookup_r _ _ _ _ _ F2 Hs) as (r & Hr & _).
    destruct (Hslot k r s Hr Hs) as [Hh Hok]. split; [apply Hh|]. split; [apply Hh | by eapply slot_occupied]. }
  unfold build_nrc1_value. rewrite raise_if_skip by (by rewrite Ht). rewrite raise_if_skip by (apply Z.ltb_ge; lia). cbv zeta.
  set (fill := replicate (Z.to_nat (NRC1_SLOT_COUNT - len slots)) nrc1_empty_slot).
  assert (Hfill : Forall (fun s => len s = 208 /\ bytes_ok s /\ negb (bool_decide (slice 0 8 s = zeros 8)) = false) fill).
  { apply Forall_replicate. split; [done|]. split; [apply zeros_ok | done]. }
  assert (Hocc : len (List.filter (fun s => negb (bool_decide (slice 0 8 s = zeros 8))) (slots ++ fill)) = len rs).
  { rewrite List.filter_app, filter_all, filter_none, app_nil_r; [done| |].
    - eapply Forall_impl; [exact Hfill|]. by intros s (_ & _ & ?).
    - eapply Forall_impl; [exact Hall|]. by intros s (_ & _ & ?). }
  rewrite Hocc. set (ps := nrc1_head_parts tid gen (len rs) seq). unfold NRC1_SLOT_COUNT in *.
  assert (W : Forall2 wide ps [4; 2; 2; 16; 4; 2; 2; 4]) by (subst ps; unfold nrc1_head_parts; solve_wide).
  assert (F : Forall fine ps) by (subst ps; unfold nrc1_head_parts; solve_fine).
  assert (S : Forall sound ps) by (subst ps; unfold nrc1_head_parts; solve_sound).
  destruct (join_total ps F) as [head Eh]. rewrite Eh, ok_bind. pose proof (join_len _ _ _ W Eh) as Lh. change (total_width _) with 36 in Lh.
  pose proof (join_sound _ _ S Eh) as Bh. rewrite raise_if_skip by (by rewrite Lh).
  destruct (own_seal head Bh) as (c1 & E1 & L1 & B1 & S1). rewrite E1, ok_bind.
  assert (Lh1 : len (head ++ c1) = 40) by (rewrite len_app; lia). rewrite raise_if_skip by (by rewrite Lh1).
  assert (Hw : Forall (fun x => len x = 208) (slots ++ fill)).
  { apply Forall_app; split; eapply Forall_impl; [exact Hall | by intros s (? & _) | exact Hfill | by intros s (? & _)]. }
  assert (Bfl : bytes_ok (concat (slots ++ fill))).
  { apply concat_ok. apply Forall_app; split; eapply Forall_impl; [exact Hall | by intros s (_ & ? & _) | exact Hfill | by intros s (_ & ? & _)]. }
  assert (Lfl : len (concat (slots ++ fill)) = 208 * 72).
  { rewrite (concat_len_each 208) by done. rewrite len_app, Lsl.
    assert (len fill = 72 - len slots) by (unfold fill; unfold len at 1; rewrite length_replicate; unfold NRC1_SLOT_COUNT; lia). lia. }
  rewrite Lh in S1. destruct (append_seal 36 40 (head ++ c1) (concat (slots ++ fill))) as (c2 & E2 & L2 & Hse & Bm & Hhd & Hre); try done.
  rewrite E2, ok_bind. set (m := ((head ++ c1) ++ concat (slots ++ fill)) ++ c2) in *.
  assert (Lm : len m = NRC1_VALUE_BYTES) by (unfold m; rewrite !len_app; unfold NRC1_VALUE_BYTES, NRC1_SLOT_BYTES, NRC1_SLOT_COUNT; lia).
  rewrite raise_if_skip by (by rewrite Lm). exists m. split; [done|]. split; [done|]. split; [done|].
  assert (Hh : forall a c, 0 <= a <= c -> c <= 36 -> slice a c m = slice a c head).
  { intros a c Ha Hc. rewrite <- (slice_app_l a c head c1) by lia. rewrite <- Hhd. rewrite slice_slice by lia. f_equal; lia. }
  split; [rewrite Hh by lia; read_part W Eh 3%nat|]. split; [rewrite Hh by lia; read_part W Eh 4%nat|].
  split; [rewrite Hh by lia; read_part W Eh 5%nat|]. split; [rewrite Hh by lia; read_part W Eh 6%nat|].
  split; [rewrite Hh by lia; read_part W Eh 7%nat|].
  assert (Hrow : forall k s, (slots ++ fill) !! k = Some s -> row_slot k m = s).
  { intros k s Hk. assert (Z.of_nat k < 72).
    { apply lookup_lt_Some in Hk. apply (concat_len_each 208) in Hw. unfold len in *. lia. }
    unfold row_slot. rewrite Hre by lia. rewrite <- (concat_slot _ k s 208 ltac:(lia) Hw Hk). f_equal; lia. }
  split; [|split; [|done]].
  - intros k r Hr. destruct (Forall2_lookup_l _ _ _ _ _ F2 Hr) as (s & Hs & _).
    rewrite (Hrow k s) by (by apply lookup_app_l_Some). by apply (Hslot k r s).
  - intros k Hk. apply Hrow. unfold len in *. rewrite lookup_app_r by lia. apply lookup_replicate. split; [done|]. unfold NRC1_SLOT_COUNT in *. lia.
Qed.

(** A response row keeps every response: up to 72 well-formed responses make a
    sealed row of 15020 bytes whose occupied count is their number, slot [k] holds
    response [k] with its length, the other slots are zero, and repair leaves the
    row as it is; more responses are refused.  The row is big enough: a transfer reaches at
    most 65 request ids at a time, and keeping two generations of resume ids would
    need 73. *)
Theorem response_row_keeps tid gen rs seq :
  raw 16 tid -> u32_ok gen -> u32_ok seq -> Forall response_ok rs ->
  (len rs <= NRC1_SLOT_COUNT ->
     exists m, build_row tid gen rs seq = Ok m /\ row_holds tid gen rs seq m /\ repair_nrc1_crc m = Ok m) /\
  (NRC1_SLOT_COUNT < len rs -> build_row tid gen rs seq = Raise (ValueError "slots")) /\
  NRC1_REACHABLE_MAX_IDS = 65 /\ NRC1_REACHABLE_MAX_IDS <= NRC1_SLOT_COUNT /\
  NRC1_SLOT_COUNT < illegal_two_gen_no_reclaim reachable_request_id_counts.
Proof.
  intros Ht Hg Hq Hrs. split; [|split].
  - intros Hl. destruct (row_built tid gen rs seq Ht Hg Hq Hrs Hl) as (m & Em & Hm). exists m. split; [done|]. split; [done|].
    destruct Hm as (Lm & Bm & _ & _ & _ & _ & _ & _ & _ & Hs). rewrite repair_nrc1_both by done.
    apply reseal_both_completes; try done. rewrite Lm. unfold NRC1_VALUE_BYTES, NRC1_SLOT_BYTES, NRC1_SLOT_COUNT. lia.
  - intros Hl. destruct (build_each_Ok nrc1_slot rs) as [slots Es].
    { intros r Hr. rewrite Forall_forall in Hrs. destruct (slot_built r (Hrs r Hr)) as (m & Em & _). by exists m. }
    unfold build_row. rewrite Es, ok_bind. unfold build_nrc1_value. destruct Ht as [Ht _]. rewrite raise_if_skip by (by rewrite Ht).
    apply build_each_Forall2, Forall2_length in Es. unfold len in *. rewrite <- Es. by rewrite (proj2 (Z.ltb_lt _ _) Hl).
  - by vm_compute.
Qed.

(** ** Tombstones *)

Record nm30_ok (a : nm30_args) : Prop := {
  ok_nm_ids : Forall (fun v => raw 16 v)
    [nm_transfer_id a; nm_reservation_clock_epoch_id a; nm_source_runtime_id a; nm_receiver_evidence_id a; nm_authority_actor_id a];
  ok_nm_digests : Forall (fun v => raw 32 v) [nm_manifest_digest a; nm_acceptance_record_digest a];
  ok_nm_numbers : u32_ok (nm_revision a) /\ u16_ok (terminal_state a) /\ u16_ok (terminal_reason a) /\
    u32_ok (nm_abort_generation a) /\ u64_ok (retention_ms a)
}.

Definition nm30_fields (a : nm30_args) (m : bytes) : Prop :=
  slice 0 4 m = bytes_of_string "NM30" /\ slice 8 24 m = nm_transfer_id a /\ be_val (slice 24 28 m) = nm_revision a /\
  slice 28 60 m = nm_manifest_digest a /\ be_val (slice 60 62 m) = terminal_state a /\
  be_val (slice 62 64 m) = terminal_reason a /\ be_val (slice 64 68 m) = nm_abort_generation a /\
  slice 68 84 m = nm_receiver_evidence_id a /\ slice 84 116 m = nm_acceptance_record_digest a /\
  slice 116 132 m = nm_authority_actor_id a /\ slice 132 148 m = nm_reservation_clock_epoch_id a /\
  be_val (slice 148 156 m) = retention_ms a.

Lemma nm30_program n schema a tail :
  nm30_ok a -> 156 <= n < 65536 -> u16_ok schema ->
  Forall (sized n) tail -> Forall (Layout.total n) tail ->
  Forall (sized n) (nm30_common_writes schema n a ++ tail) /\ Forall (Layout.total n) (nm30_common_writes schema n a ++ tail).
Proof.
  intros [H1 H2 (H3 & H4 & H5 & H6 & H7)] Hn Hsc St Tt. rewrite !Forall_cons in H1. rewrite !Forall_cons in H2.
  unfold raw, u16_ok, u32_ok, u64_ok in *. destruct_and!. split; (apply Forall_app_2; [|done]); unfold nm30_common_writes; [solve_sized | solve_total].
Qed.

Lemma nm30_current_built a peer role :
  nm30_ok a -> raw 16 peer -> is_byte role ->
  exists m, run_writes (nm30_writes a peer role ++ [put_prefix_crc crc32c 176 176]) (zeros NM30_BYTES) = Ok m /\
    len m = NM30_BYTES /\ bytes_ok m /\ nm30_fields a m /\ slice 4 8 m = [0; 2; 0; 180] /\ slice 156 172 m = peer /\
    slice 172 173 m = [role] /\ prefix_sealed crc32c 176 m.
Proof.
  intros H [Hp Bp] Hr. unfold is_byte in Hr.
  assert (Hl : len (zeros NM30_BYTES) = NM30_BYTES) by done. pose proof (zeros_ok NM30_BYTES) as Hb.
  assert (St : Forall (sized 180) [put 156 172 (Ok peer); put_byte 172 role; put 173 176 (Ok (zeros 3))]) by solve_sized.
  assert (Tt : Forall (Layout.total 180) [put 156 172 (Ok peer); put_byte 172 role; put 173 176 (Ok (zeros 3))]) by solve_total.
  destruct (nm30_program 180 2 a _ H ltac:(lia) ltac:(split; lia) St Tt) as [S T].
  assert (S2 : Forall (sized NM30_BYTES) (nm30_writes a peer role ++ [put_prefix_crc crc32c 176 176]))
    by (apply Forall_app_2; [exact S | unfold NM30_BYTES; solve_sized]).
  assert (T2 : Forall (Layout.total NM30_BYTES) (nm30_writes a peer role ++ [put_prefix_crc crc32c 176 176]))
    by (apply Forall_app_2; [exact T | unfold NM30_BYTES; solve_total]).
  destruct (run_writes_total _ _ _ S2 T2 Hl Hb) as (m & Hm & Hlm & Hbm). exists m.
  assert (Hv : slice 4 6 m = [0; 2] /\ slice 6 8 m = [0; 180]) by (split; read_field S2 Hl Hm).
  split_and!; try done; try (read_field S2 Hl Hm).
  - unfold nm30_fields. split_and!; read_field S2 Hl Hm.
  - rewrite (slice_split 4 6 8) by lia. destruct Hv as [-> ->]. done.
  - pose proof (read_index _ _ _ _ S2 Hl Hm 172 _ _ eq_refl) as K. apply pybyte_Ok in K as [_ K]. exact K.
  - by eapply (run_prefix_sealed crc32c NM30_BYTES); [exact S | | | exact Hl | | exact Hm].
Qed.

Lemma nm30_legacy_built a :
  nm30_ok a -> exists m, build_nm30_legacy_schema1 a = Ok m /\ len m = NM30_LEGACY_SCHEMA1_BYTES /\ bytes_ok m /\
    nm30_fields a m /\ slice 4 8 m = [0; 1; 0; 164] /\ prefix_sealed crc32c 160 m.
Proof.
  intros H. unfold build_nm30_legacy_schema1.
  assert (Hl : len (zeros NM30_LEGACY_SCHEMA1_BYTES) = NM30_LEGACY_SCHEMA1_BYTES) by done.
  pose proof (zeros_ok NM30_LEGACY_SCHEMA1_BYTES) as Hb.
  assert (St : Forall (sized 164) [put 156 160 (Ok (zeros 4))]) by solve_sized.
  assert (Tt : Forall (Layout.total 164) [put 156 160 (Ok (zeros 4))]) by solve_total.
  destruct (nm30_program 164 1 a _ H ltac:(lia) ltac:(split; lia) St Tt) as [S T].
  assert (S2 : Forall (sized NM30_LEGACY_SCHEMA1_BYTES) ((nm30_common_writes 1 NM30_LEGACY_SCHEMA1_BYTES a ++ [put 156 160 (Ok (zeros 4))]) ++ [put_prefix_crc crc32c 160 160]))
    by (apply Forall_app_2; [exact S | unfold NM30_LEGACY_SCHEMA1_BYTES; solve_sized]).
  assert (T2 : Forall (Layout.total NM30_LEGACY_SCHEMA1_BYTES) ((nm30_common_writes 1 NM30_LEGACY_SCHEMA1_BYTES a ++ [put 156 160 (Ok (zeros 4))]) ++ [put_prefix_crc crc32c 160 160]))
    by (apply Forall_app_2; [exact T | unfold NM30_LEGACY_SCHEMA1_BYTES; solve_total]).
  destruct (run_writes_total _ _ _ S2 T2 Hl Hb) as (m & Hm & Hlm & Hbm). exists m.
  assert (Hv : slice 4 6 m = [0; 1] /\ slice 6 8 m = [0; 164]) by (split; read_field S2 Hl Hm).
  split_and!; try done; try (read_field S2 Hl Hm).
  - unfold nm30_fields. split_and!; read_field S2 Hl Hm.
  - rewrite (slice_split 4 6 8) by lia. destruct Hv as [-> ->]. done.
  - by eapply (run_prefix_sealed crc32c NM30_LEGACY_SCHEMA1_BYTES); [exact S | | | exact Hl | | exact Hm].
Qed.

(** A tombstone keeps its facts in both schemas: the current one (180 bytes, with
    the peer and the role) is written exactly when the peer is a nonzero
    sixteen-byte identifier and the role is 1 or 2, the legacy one (164 bytes) always;
    each holds every field, is sealed, and is left as it is by repair, which refuses
    the other schema's length. *)
Theorem tombstone_faithful a peer role :
  nm30_ok a -> match peer with Some p => bytes_ok p | None => True end ->
  let p := default (nm_source_runtime_id a) peer in
  (is_ok (build_nm30 a peer role) = true <-> len p = 16 /\ p <> ZERO16 /\ (role = 1 \/ role = 2)) /\
  (forall m d, build_nm30 a peer role = Ok (m, d) ->
     d = sha256 m /\ len m = NM30_BYTES /\ nm30_fields a m /\ slice 156 172 m = p /\ slice 172 173 m = [role] /\
     repair_nm30_crc m = Ok m) /\
  (exists m, build_nm30_legacy_schema1 a = Ok m /\ len m = NM30_LEGACY_SCHEMA1_BYTES /\ nm30_fields a m /\
     repair_nm30_crc m = Ok m).
Proof.
  intros H Hp p.
  assert (Bp : bytes_ok p) by (pose proof (ok_nm_ids a H) as Hi; rewrite !Forall_cons in Hi; subst p; destruct peer; [done | apply Hi]).
  assert (Hb : forall (Hc : len p = 16 /\ p <> ZERO16 /\ (role = 1 \/ role = 2)), exists m, build_nm30 a peer role = Ok (m, sha256 m) /\
     len m = NM30_BYTES /\ bytes_ok m /\ nm30_fields a m /\ slice 4 8 m = [0; 2; 0; 180] /\ slice 156 172 m = p /\
     slice 172 173 m = [role] /\ prefix_sealed crc32c 176 m).
  { intros (H1 & H2 & H3). unfold build_nm30. fold p. cbv zeta. rewrite raise_if_skip by (rewrite H1, (bool_decide_false _ H2); done).
    rewrite raise_if_skip by (destruct H3 as [-> | ->]; done).
    destruct (nm30_current_built a p role H (conj H1 Bp)) as (m & Em & Hm); [destruct H3 as [-> | ->]; split; lia|].
    rewrite Em, ok_bind. by exists m. }
  assert (Hok : forall m d, build_nm30 a peer role = Ok (m, d) -> len p = 16 /\ p <> ZERO16 /\ (role = 1 \/ role = 2)).
  { unfold build_nm30. fold p. cbv zeta. intros m d E. apply raise_if_then_Ok in E as [E1 E]. apply raise_if_then_Ok in E as [E2 _].
    bool_to_prop. split; [done|]. split; [done|]. set_solver. }
  split; [|split].
  - split; [|intros Hc; by destruct (Hb Hc) as (m & -> & _)]. intros Hi. destruct (build_nm30 a peer role) as [[m d]|]; [by eapply Hok | done].
  - intros m d E. destruct (Hb (Hok m d E)) as (m' & E' & Lm & Bm & Fm & Tm & Pm & Rm & Sm). rewrite E in E'.
    apply Ok_inj in E'. injection E' as -> ->. split_and!; try done. unfold repair_nm30_crc.
    change (join [u16 2; u16 NM30_BYTES]) with (Ok [0; 2; 0; 180]). change (join [u16 1; u16 NM30_LEGACY_SCHEMA1_BYTES]) with (Ok [0; 1; 0; 164]).
    rewrite !ok_bind, Lm, Tm. cbn [Z.eqb andb]. rewrite Z.eqb_refl, bool_decide_true by done. cbn [andb].
    apply reseal_completes; try done; rewrite Lm; done.
  - destruct (nm30_legacy_built a H) as (m & Em & Lm & Bm & Fm & Tm & Sm). exists m. split_and!; try done. unfold repair_nm30_crc.
    change (join [u16 2; u16 NM30_BYTES]) with (Ok [0; 2; 0; 180]). change (join [u16 1; u16 NM30_LEGACY_SCHEMA1_BYTES]) with (Ok [0; 1; 0; 164]).
    rewrite !ok_bind, Lm, Tm. rewrite (bool_decide_true ([0; 1; 0; 164] = [0; 1; 0; 164])) by done. cbn.
    apply reseal_completes; try done; rewrite Lm; done.
Qed.

(** ** Witnesses *)

Lemma record_repair_restores_witness : exists r, repair_record_crc (zeros 400) = Ok r /\ two_seals 304 r.
Proof.
  destruct (record_repair_restores (zeros 400) (zeros_ok 400)) as [_ H].
  destruct H as (r & H1 & H2 & _); [done|]. exists r. exact (conj H1 H2).
Defined.

Definition sample_active : active_args :=
  ActiveArgs (bytes_of_string "NM3R") 1 3 (pattern 5 465) [pattern 6 40; pattern 7 40] (pattern 8 2000) sample_ids (pattern 9 32)
    1 4 3 1 0 0 0 0 ZERO32 ZERO16 ZERO32 500000 0 0 100000 1.

Lemma sample_active_ok : active_ok sample_active.
Proof.
  assert (Z16 : raw 16 ZERO16) by (split; [reflexivity | apply zeros_ok]).
  assert (Z32 : raw 32 ZERO32) by (split; [reflexivity | apply zeros_ok]).
  constructor; cbn -[pattern Z.le Z.lt]; unfold u64_ok, u32_ok, u16_ok, is_byte; try lia.
  - repeat (apply Forall_cons_2; [first [exact Z16 | by apply raw_pattern]|]). apply Forall_nil_2.
  - repeat (apply Forall_cons_2; [first [exact Z32 | by apply raw_pattern]|]). apply Forall_nil_2.
  - split; [reflexivity | exact (bytes_of_string_ok "NM3R")].
  - repeat (apply Forall_cons_2; [lia|]). apply Forall_nil_2.
  - repeat (apply Forall_cons_2; [lia|]). apply Forall_nil_2.
  - split; [apply pattern_ok|]. rewrite len_pattern by lia. vm_compute. discriminate.
  - apply bytes_ok_app. split; [apply pattern_ok|]. rewrite app_nil_r. apply pattern_ok.
  - apply pattern_ok.
Qed.

Lemma active_record_faithful_witness : exists m, build_active_record sample_active = Ok m /\ repair_record_crc m = Ok m.
Proof.
  assert (E : derive_geometry (len (content sample_active)) = Ok (Geometry 2000 3 1 896)) by reflexivity.
  destruct (active_record_faithful sample_active _ sample_active_ok E) as (m & H1 & _ & H2); [|exists m; exact (conj H1 H2)].
  vm_compute. discriminate.
Defined.

Definition sample_response : response := Response 7 1 (pattern 1 32) 3 (pattern 2 100).

Lemma response_row_keeps_witness : exists m, build_row (pattern 3 16) 1 [sample_response] 2 = Ok m /\ repair_nrc1_crc m = Ok m.
Proof.
  assert (Hr : Forall response_ok [sample_response]).
  { apply Forall_cons_2; [|apply Forall_nil_2]. unfold response_ok, sample_response. cbn -[pattern Z.le Z.lt].
    split; [lia|]. split; [lia|]. split; [by apply raw_pattern|]. split; [split; lia|]. rewrite len_pattern by lia.
    split; [unfold NRC1_MAX_RESPONSE; lia | apply pattern_ok]. }
  destruct (response_row_keeps (pattern 3 16) 1 [sample_response] 2) as [H _].
  - by apply raw_pattern.
  - split; lia.
  - split; lia.
  - exact Hr.
  - destruct H as (m & H1 & _ & H2); [vm_compute; discriminate|]. exists m. exact (conj H1 H2).
Defined.

Definition sample_nm30 : nm30_args :=
  Nm30Args (pattern 1 16) (pattern 2 16) (pattern 3 16) 1 (pattern 4 32) 1 0 0 (pattern 5 16) (pattern 6 32) (pattern 7 16) 500000.

Lemma tombstone_faithful_witness : is_ok (build_nm30 sample_nm30 None 2) = true.
Proof.
  assert (H : nm30_ok sample_nm30).
  { constructor; cbn -[pattern Z.le Z.lt].
    - repeat (apply Forall_cons_2; [by apply raw_pattern|]). apply Forall_nil_2.
    - repeat (apply Forall_cons_2; [by apply raw_pattern|]). apply Forall_nil_2.
    - unfold u16_ok, u32_ok, u64_ok. lia. }
  apply (tombstone_faithful sample_nm30 None 2 H I). split; [reflexivity|]. split; [by vm_compute | by right].
Defined.
