(* ===== verification/Fabric.v ===== *)
(** The Fabric bearer: the NFL1 message header, its orientation, the identity and
    digests read from it ([tools/fabric_bearer_spec_vector_gen.py]); the durable
    records are in FabricRecords.v, the selection of a path in FabricSelect.v. *)

From S2P Require Import Prelude Bytes Crc Sha256 Layout Join Chain.

(** ** Constants and primitives *)

Definition NFL1_HEADER : Z := 584.
Definition NFL1_STRUCTURAL_MIN : Z := 587.
Definition NFL1_STRUCTURAL_MAX : Z := 1925.
Definition ZERO16 : bytes := zeros 16.
Definition ZERO32 : bytes := zeros 32.

Definition crc32c (value : bytes) : Z := crc32c_xorout value.
Definition tagged_digest (tag value : bytes) : bytes := sha256 (tag ++ value).

(** [buffer[offset : offset + len(value)] = value]; evaluating the value may raise
    before anything is written. *)
Definition write_at (offset : Z) (value : res bytes) : write :=
  W offset (offset + match value with Ok v => len v | Raise _ => 0 end) (fun _ => value).

(** ** NFL1 messages *)

(** The fields of a message, a Python dictionary; an end of the message is one
    [endpoint] (the keys [source_*] and [target_*]), the keys about the outcome,
    the authority and the route, and the byte strings after the header are
    grouped the same way. *)
Record endpoint := {
  runtime_id : bytes; application_id : bytes; device_id : bytes; installation_id : bytes; site_id : bytes;
  binding_epoch : Z; membership_epoch : Z; flags : Z }.

Record outcome_fields := {
  receipt_stage : Z; disposition : Z; effect_certainty : Z; retry_guidance : Z; cancel_kind : Z; retry_delay_ms : Z;
  evidence_time_clock_epoch_id : bytes; evidence_time_now_ms : Z; evidence_time_trust : Z }.

Record authority_fields := { authority_id : bytes; authority_term : Z; assignment_epoch : Z }.

Record route_fields := {
  route_policy_id : bytes; route_policy_revision : Z; route_policy_digest : bytes;
  selected_path_id : bytes; path_selection_epoch : Z; route_flags : Z }.

Record strings := { namespace : bytes; service : bytes; schema : bytes; payload : bytes; evidence : bytes }.

Record nfl1_fields := {
  message_kind : Z; message_flags : Z; transaction_id : bytes; attempt_id : bytes; event_id : bytes;
  source : endpoint; target : endpoint; authority : authority_fields;
  descriptor_revision : Z; descriptor_digest : bytes; schema_major : Z; schema_minor : Z; family : Z;
  content_digest : bytes; generation : Z; deadline_clock_epoch_id : bytes;
  absolute_effect_deadline_ms : Z; evidence_grace_ms : Z; required_evidence : Z;
  outcome : outcome_fields; route : route_fields; body : strings }.

Definition common_nfl1_fields : nfl1_fields := {|
  message_kind := 1; message_flags := 0;
  transaction_id := pattern 0x10 16; attempt_id := pattern 0x20 16; event_id := ZERO16;
  source := {| runtime_id := pattern 0x30 16; application_id := pattern 0x40 16; device_id := pattern 0x50 16;
               installation_id := pattern 0x60 16; site_id := pattern 0x70 16;
               binding_epoch := 7; membership_epoch := 9; flags := 7 |};
  target := {| runtime_id := pattern 0x80 16; application_id := pattern 0x90 16; device_id := pattern 0xA0 16;
               installation_id := pattern 0xB0 16; site_id := pattern 0xC0 16;
               binding_epoch := 11; membership_epoch := 13; flags := 7 |};
  authority := {| authority_id := pattern 0xD0 16; authority_term := 17; assignment_epoch := 19 |};
  descriptor_revision := 23; descriptor_digest := sha256 (bytes_of_string "fabric-vector-descriptor");
  schema_major := 1; schema_minor := 0; family := 2;
  content_digest := sha256 (bytes_of_string "fabric-vector-content");
  generation := 29; deadline_clock_epoch_id := pattern 0xA1 16;
  absolute_effect_deadline_ms := 200000; evidence_grace_ms := 5000; required_evidence := 3;
  outcome := {| receipt_stage := 0; disposition := 0; effect_certainty := 0; retry_guidance := 0; cancel_kind := 0;
                retry_delay_ms := 0; evidence_time_clock_epoch_id := ZERO16; evidence_time_now_ms := 0;
                evidence_time_trust := 0 |};
  route := {| route_policy_id := pattern 0xF0 16; route_policy_revision := 31;
              route_policy_digest := sha256 (bytes_of_string "fabric-vector-route-policy");
              selected_path_id := pattern 0x01 16; path_selection_epoch := 37; route_flags := 0 |};
  body := {| namespace := bytes_of_string "n"; service := bytes_of_string "s"; schema := bytes_of_string "x";
             payload := []; evidence := [] |} |}.

Definition service_identity_parts (fields : nfl1_fields) : list (res bytes) :=
  let b := body fields in
  [u16 (len (namespace b)); Ok (namespace b); u16 (len (service b)); Ok (service b); u16 (len (schema b)); Ok (schema b);
   u64 (descriptor_revision fields); u16 1; Ok (descriptor_digest fields);
   u16 (schema_major fields); u16 (schema_minor fields); u32 (family fields)].

Definition service_identity_digest (fields : nfl1_fields) : res bytes :=
  canonical ← join (service_identity_parts fields);
  mret (tagged_digest (bytes_of_string "NINLIL-FABRIC-SERVICE-IDENTITY-V1") canonical).

Definition policy_direction_and_traffic (kind : Z) : Z * Z :=
  (if (kind =? 1) || (kind =? 4) then 1 else 2, if (kind =? 4) || (kind =? 6) then 2 else 1).

(** The eight values of an endpoint, from [offset] on. *)
Definition endpoint_at (offset : Z) (e : endpoint) : list (Z * res bytes) :=
  [(offset, Ok (runtime_id e)); (offset + 16, Ok (application_id e)); (offset + 32, Ok (device_id e));
   (offset + 48, Ok (installation_id e)); (offset + 64, Ok (site_id e));
   (offset + 80, u64 (binding_epoch e)); (offset + 88, u64 (membership_epoch e)); (offset + 96, u32 (flags e))].

Definition nfl1_header_values (fields : nfl1_fields) (total_length : Z) : list (Z * res bytes) :=
  let a := authority fields in let o := outcome fields in let r := route fields in let b := body fields in
  [(0, Ok (bytes_of_string "NFL1")); (4, u16 1); (6, u16 NFL1_HEADER); (8, u32 total_length); (12, u32 0);
   (16, u32 (message_kind fields)); (20, u32 (message_flags fields));
   (24, Ok (transaction_id fields)); (40, Ok (attempt_id fields)); (56, Ok (event_id fields))]
  ++ endpoint_at 72 (source fields) ++ endpoint_at 172 (target fields) ++
  [(272, Ok (authority_id a)); (288, u64 (authority_term a)); (296, u32 (assignment_epoch a));
   (300, u64 (descriptor_revision fields)); (308, u16 1); (310, Ok (descriptor_digest fields));
   (342, u16 (schema_major fields)); (344, u16 (schema_minor fields)); (346, u32 (family fields));
   (350, u16 1); (352, Ok (content_digest fields)); (384, u64 (generation fields));
   (392, Ok (deadline_clock_epoch_id fields)); (408, u64 (absolute_effect_deadline_ms fields));
   (416, u64 (evidence_grace_ms fields)); (424, u32 (required_evidence fields));
   (428, u32 (receipt_stage o)); (432, u32 (disposition o)); (436, u32 (effect_certainty o));
   (440, u32 (retry_guidance o)); (444, u32 (cancel_kind o)); (448, u64 (retry_delay_ms o));
   (456, Ok (evidence_time_clock_epoch_id o)); (472, u64 (evidence_time_now_ms o)); (480, u32 (evidence_time_trust o));
   (484, Ok (route_policy_id r)); (500, u64 (route_policy_revision r)); (508, u16 1); (510, Ok (route_policy_digest r));
   (542, Ok (selected_path_id r)); (558, u64 (path_selection_epoch r)); (566, u32 (route_flags r));
   (570, u16 (len (namespace b))); (572, u16 (len (service b))); (574, u16 (len (schema b)));
   (576, u32 (len (payload b))); (580, u32 (len (evidence b)))].

(** [namespace + service + schema + payload + evidence]. *)
Definition tail_of (b : strings) : bytes := namespace b ++ service b ++ schema b ++ payload b ++ evidence b.

(** [write_at(mutable, offset, u32(crc32c(mutable)))]. *)
Definition write_crc_at (offset : Z) (m : bytes) : res bytes := seal_at crc32c offset m.

Definition encode_nfl1 (fields : nfl1_fields) : res bytes :=
  let total_length := NFL1_HEADER + len (tail_of (body fields)) in
  header ← run_writes (map (fun v => write_at v.1 v.2) (nfl1_header_values fields total_length)) (zeros NFL1_HEADER);
  write_crc_at 12 (header ++ tail_of (body fields)).

Definition apply_reverse_orientation (fields : nfl1_fields) : nfl1_fields := {|
  message_kind := message_kind fields; message_flags := message_flags fields;
  transaction_id := transaction_id fields; attempt_id := attempt_id fields; event_id := event_id fields;
  source := target fields; target := source fields; authority := authority fields;
  descriptor_revision := descriptor_revision fields; descriptor_digest := descriptor_digest fields;
  schema_major := schema_major fields; schema_minor := schema_minor fields; family := family fields;
  content_digest := content_digest fields; generation := generation fields;
  deadline_clock_epoch_id := deadline_clock_epoch_id fields;
  absolute_effect_deadline_ms := absolute_effect_deadline_ms fields; evidence_grace_ms := evidence_grace_ms fields;
  required_evidence := required_evidence fields;
  outcome := outcome fields; route := route fields; body := body fields |}.

(** The dictionary entries a message kind replaces. *)
Definition with_case (fields : nfl1_fields) (kind : Z) (attempt : bytes) (o : outcome_fields) (b : strings) : nfl1_fields := {|
  message_kind := kind; message_flags := message_flags fields;
  transaction_id := transaction_id fields; attempt_id := attempt; event_id := event_id fields;
  source := source fields; target := target fields; authority := authority fields;
  descriptor_revision := descriptor_revision fields; descriptor_digest := descriptor_digest fields;
  schema_major := schema_major fields; schema_minor := schema_minor fields; family := family fields;
  content_digest := content_digest fields; generation := generation fields;
  deadline_clock_epoch_id := deadline_clock_epoch_id fields;
  absolute_effect_deadline_ms := absolute_effect_deadline_ms fields; evidence_grace_ms := evidence_grace_ms fields;
  required_evidence := required_evidence fields;
  outcome := o; route := route fields; body := b |}.

Definition case_outcome (o : outcome_fields) (kind receipt_stage_arg : Z) : res outcome_fields :=
  match kind with
  | 1 | 4 | 5 => Ok o
  | 2 => Ok {| receipt_stage := receipt_stage_arg; disposition := disposition o; effect_certainty := effect_certainty o;
               retry_guidance := retry_guidance o; cancel_kind := cancel_kind o; retry_delay_ms := retry_delay_ms o;
               evidence_time_clock_epoch_id := pattern 0x11 16; evidence_time_now_ms := 199000; evidence_time_trust := 1 |}
  | 3 => Ok {| receipt_stage := receipt_stage o; disposition := 1; effect_certainty := 1; retry_guidance := 1;
               cancel_kind := cancel_kind o; retry_delay_ms := 250;
               evidence_time_clock_epoch_id := evidence_time_clock_epoch_id o;
               evidence_time_now_ms := evidence_time_now_ms o; evidence_time_trust := evidence_time_trust o |}
  | 6 => Ok {| receipt_stage := receipt_stage o; disposition := disposition o; effect_certainty := effect_certainty o;
               retry_guidance := retry_guidance o; cancel_kind := 1; retry_delay_ms := retry_delay_ms o;
               evidence_time_clock_epoch_id := evidence_time_clock_epoch_id o;
               evidence_time_now_ms := evidence_time_now_ms o; evidence_time_trust := evidence_time_trust o |}
  | _ => Raise (ValueError "unknown message kind")
  end.

Definition case_strings (b : strings) (kind : Z) (maximal : bool) : strings := {|
  namespace := if maximal then replicate 63 110 else namespace b;
  service := if maximal then replicate 63 115 else service b;
  schema := if maximal then replicate 63 120 else schema b;
  payload := if kind =? 1 then (if maximal then pattern 0x41 1024 else []) else payload b;
  evidence := if kind =? 2 then (if maximal then pattern 0x21 128 else []) else evidence b |}.

Definition nfl1_case (kind : Z) (maximal : bool) (receipt_stage_arg : Z) : res (nfl1_fields * bytes) :=
  let common := common_nfl1_fields in
  o ← case_outcome (outcome common) kind receipt_stage_arg;
  let attempt := if (kind =? 4) || (kind =? 6) then pattern 0x28 16 else attempt_id common in
  let fields := with_case common kind attempt o (case_strings (body common) kind maximal) in
  let fields := if bool_decide (kind ∈ [2; 3; 5; 6]) then apply_reverse_orientation fields else fields in
  packet ← encode_nfl1 fields;
  mret (fields, packet).

(** ** What a packet identifies *)

Record nfl1_identity := { id_kind : Z; id_slot : Z; id_transaction : bytes; id_attempt : bytes }.

(** [struct.unpack(">I", packet[lo:lo+4])[0]]: it raises when the slice is short. *)
Definition unpack_u32_at (lo : Z) (m : bytes) : res Z :=
  raise_if (negb (len (slice lo (lo + 4) m) =? 4)) StructError;;
  mret (be_val (slice lo (lo + 4) m)).
Definition unpack_u64_at (lo : Z) (m : bytes) : res Z :=
  raise_if (negb (len (slice lo (lo + 8) m) =? 8)) StructError;;
  mret (be_val (slice lo (lo + 8) m)).

Definition decode_nfl1_identity (nfl1_packet : bytes) : res nfl1_identity :=
  kind ← unpack_u32_at 16 nfl1_packet;
  slot ← (if kind =? 2 then unpack_u32_at 428 nfl1_packet
          else if kind =? 3 then unpack_u32_at 432 nfl1_packet
          else if kind =? 6 then unpack_u32_at 444 nfl1_packet
          else Ok 0);
  mret {| id_kind := kind; id_slot := slot;
          id_transaction := slice 24 40 nfl1_packet; id_attempt := slice 40 56 nfl1_packet |}.

Definition normalized_message (nfl1_packet : bytes) : res bytes :=
  run_writes [write_at 12 (u32 0); write_at 272 (Ok (zeros 28)); write_at 484 (Ok (zeros 86))] nfl1_packet.

Definition foundation_message_digest (nfl1_packet : bytes) : res bytes :=
  normalized ← normalized_message nfl1_packet;
  mret (sha256 (bytes_of_string "NINLIL-FABRIC-FOUNDATION-MESSAGE-V1" ++ normalized)).

Definition local_dispatch_id (key : bytes) : bytes :=
  tagged_digest (bytes_of_string "NINLIL-FABRIC-LOCAL-DISPATCH-V1") key.


(** ** Layout of the header *)

#[export] Instance crc32c_checksum : Checksum32 crc32c := _.
#[export] Instance tagged_digest_digest tag : Digest32 (tagged_digest tag).
Proof. split; intros m; unfold tagged_digest; [apply digest_len | apply digest_ok]. Qed.

Definition ENDPOINT_WIDTHS : list Z := [16; 16; 16; 16; 16; 8; 8; 4].
Definition NFL1_WIDTHS : list Z :=
  [4; 2; 2; 4; 4; 4; 4; 16; 16; 16] ++ ENDPOINT_WIDTHS ++ ENDPOINT_WIDTHS ++
  [16; 8; 4; 8; 2; 32; 2; 2; 4; 2; 32; 8; 16; 8; 8; 4; 4; 4; 4; 4; 4; 8; 16; 8; 4; 16; 8; 2; 32; 16; 8; 4; 2; 2; 2; 4; 4].

Lemma chained_write_at vs ns lo :
  map fst vs = offsets lo ns -> Forall2 wide (map snd vs) ns ->
  chained lo (map (fun v => write_at v.1 v.2) vs) (map snd vs) ns.
Proof.
  revert ns lo. induction vs as [|[o v] vs IH]; intros [|n ns] lo Ho W; try done; [constructor|].
  cbn in Ho. injection Ho as -> Ho. apply Forall2_cons in W as [Wv W]. cbn [map snd fst].
  constructor; [done | done | | by apply IH]. intros x ->. cbn. by rewrite (Wv x eq_refl).
Qed.

(** A header written field by field, each right after the other, is their concatenation. *)
Lemma run_write_ats vs ns n :
  map fst vs = offsets 0 ns -> Forall2 wide (map snd vs) ns -> 0 <= n -> total_width ns = n ->
  run_writes (map (fun v => write_at v.1 v.2) vs) (zeros n) = join (map snd vs).
Proof. intros. by apply (run_chained_all _ _ ns); [apply chained_write_at|..]. Qed.

Definition endpoint_ok (e : endpoint) : Prop :=
  Forall (raw 16) [runtime_id e; application_id e; device_id e; installation_id e; site_id e] /\
  Forall u64_ok [binding_epoch e; membership_epoch e] /\ u32_ok (flags e).

(** The values a dictionary must have for its message to be encodable. *)
Record nfl1_ok (f : nfl1_fields) : Prop := {
  ok_ids : Forall (raw 16)
    [transaction_id f; attempt_id f; event_id f; authority_id (authority f); deadline_clock_epoch_id f;
     evidence_time_clock_epoch_id (outcome f); route_policy_id (route f); selected_path_id (route f)];
  ok_digests : Forall (raw 32) [descriptor_digest f; content_digest f; route_policy_digest (route f)];
  ok_u16 : Forall u16_ok
    [schema_major f; schema_minor f; len (namespace (body f)); len (service (body f)); len (schema (body f))];
  ok_u32 : Forall u32_ok
    [message_kind f; message_flags f; assignment_epoch (authority f); family f; required_evidence f;
     receipt_stage (outcome f); disposition (outcome f); effect_certainty (outcome f); retry_guidance (outcome f);
     cancel_kind (outcome f); evidence_time_trust (outcome f); route_flags (route f);
     len (payload (body f)); len (evidence (body f)); NFL1_HEADER + len (tail_of (body f))];
  ok_u64 : Forall u64_ok
    [authority_term (authority f); descriptor_revision f; generation f; absolute_effect_deadline_ms f; evidence_grace_ms f;
     retry_delay_ms (outcome f); evidence_time_now_ms (outcome f); route_policy_revision (route f);
     path_selection_epoch (route f)];
  ok_source : endpoint_ok (source f); ok_target : endpoint_ok (target f);
  ok_tail : bytes_ok (tail_of (body f)) }.

#[export] Instance endpoint_ok_dec e : Decision (endpoint_ok e).
Proof. unfold endpoint_ok. apply _. Defined.

Ltac open_nfl1_ok H :=
  destruct H as [Hids Hdigests H16 H32 H64 (Hs1 & Hs2 & Hs3) (Ht1 & Ht2 & Ht3) Htail];
  repeat match goal with H : Forall _ (_ :: _) |- _ => apply Forall_cons in H as [? H] end;
  unfold raw, u16_ok, u32_ok, u64_ok in *; destruct_and!.

Lemma header_wide f total : nfl1_ok f -> Forall2 wide (map snd (nfl1_header_values f total)) NFL1_WIDTHS.
Proof. intros H. open_nfl1_ok H. unfold nfl1_header_values, endpoint_at. cbn [map snd app NFL1_WIDTHS ENDPOINT_WIDTHS]. solve_wide. Qed.

Lemma header_fine f : nfl1_ok f -> Forall fine (map snd (nfl1_header_values f (NFL1_HEADER + len (tail_of (body f))))).
Proof. intros H. open_nfl1_ok H. unfold nfl1_header_values, endpoint_at, NFL1_HEADER in *. cbn [map snd app]. solve_fine. Qed.

Lemma header_sound f total : nfl1_ok f -> Forall sound (map snd (nfl1_header_values f total)).
Proof. intros H. open_nfl1_ok H. unfold nfl1_header_values, endpoint_at. cbn [map snd app]. solve_sound. Qed.

Lemma header_join f total :
  nfl1_ok f ->
  run_writes (map (fun v => write_at v.1 v.2) (nfl1_header_values f total)) (zeros NFL1_HEADER) =
  join (map snd (nfl1_header_values f total)).
Proof. intros H. apply (run_write_ats _ NFL1_WIDTHS); [reflexivity | by apply header_wide | done | reflexivity]. Qed.

(** The packet is the joined header and the tail, sealed at 12. *)
Lemma encode_nfl1_Ok f :
  nfl1_ok f ->
  exists h m, join (map snd (nfl1_header_values f (NFL1_HEADER + len (tail_of (body f))))) = Ok h /\
    encode_nfl1 f = Ok m /\ len h = NFL1_HEADER /\ len m = NFL1_HEADER + len (tail_of (body f)) /\ bytes_ok m /\
    sealed crc32c 12 m /\
    (forall a c, 0 <= a <= c -> c <= 12 \/ 16 <= a -> slice a c m = slice a c (h ++ tail_of (body f))).
Proof.
  intros H. set (tail := tail_of (body f)). destruct (join_total _ (header_fine f H)) as [h Eh]. fold tail in Eh.
  pose proof (header_wide f (NFL1_HEADER + len tail) H) as W. pose proof (join_len _ _ _ W Eh) as Lh.
  pose proof (join_sound _ _ (header_sound f (NFL1_HEADER + len tail) H) Eh) as Bh.
  change (total_width NFL1_WIDTHS) with NFL1_HEADER in Lh. pose proof (len_nonneg tail) as Nt.
  assert (Bm : bytes_ok (h ++ tail)) by (apply bytes_ok_app; split; [done | by destruct H]).
  destruct (seal_at_Ok crc32c 12 (h ++ tail) Bm ltac:(lia)) as (m & Em & Lm & Hm & Hseal & Hsame).
  { rewrite len_app, Lh. unfold NFL1_HEADER. lia. }
  exists h, m. split; [done|]. split_and!; [| done | | done | |].
  - unfold encode_nfl1. fold tail. rewrite header_join by done. rewrite Eh, ok_bind. exact Em.
  - rewrite Lm, len_app, Lh. done.
  - apply Hseal. rewrite slice_app_l by (unfold NFL1_HEADER in Lh; lia). symmetry.
    apply Ok_inj. exact (join_read _ _ _ 4 _ W Eh eq_refl).
  - intros a c Ha [Hc | Hc]; apply Hsame; lia.
Qed.

(** The fields of the header where the wire format has them. *)
Definition endpoint_holds (offset : Z) (e : endpoint) (m : bytes) : Prop :=
  slice offset (offset + 16) m = runtime_id e /\ slice (offset + 16) (offset + 32) m = application_id e /\
  slice (offset + 32) (offset + 48) m = device_id e /\ slice (offset + 48) (offset + 64) m = installation_id e /\
  slice (offset + 64) (offset + 80) m = site_id e /\ be_val (slice (offset + 80) (offset + 88) m) = binding_epoch e /\
  be_val (slice (offset + 88) (offset + 96) m) = membership_epoch e /\ be_val (slice (offset + 96) (offset + 100) m) = flags e.

Definition nfl1_authority_holds (a : authority_fields) (m : bytes) : Prop :=
  slice 272 288 m = authority_id a /\ be_val (slice 288 296 m) = authority_term a /\ be_val (slice 296 300 m) = assignment_epoch a.

Definition outcome_holds (o : outcome_fields) (m : bytes) : Prop :=
  be_val (slice 428 432 m) = receipt_stage o /\ be_val (slice 432 436 m) = disposition o /\
  be_val (slice 436 440 m) = effect_certainty o /\ be_val (slice 440 444 m) = retry_guidance o /\
  be_val (slice 444 448 m) = cancel_kind o /\ be_val (slice 448 456 m) = retry_delay_ms o /\
  slice 456 472 m = evidence_time_clock_epoch_id o /\ be_val (slice 472 480 m) = evidence_time_now_ms o /\
  be_val (slice 480 484 m) = evidence_time_trust o.

Definition route_holds (r : route_fields) (m : bytes) : Prop :=
  slice 484 500 m = route_policy_id r /\ be_val (slice 500 508 m) = route_policy_revision r /\ be_val (slice 508 510 m) = 1 /\
  slice 510 542 m = route_policy_digest r /\ slice 542 558 m = selected_path_id r /\
  be_val (slice 558 566 m) = path_selection_epoch r /\ be_val (slice 566 570 m) = route_flags r.

Definition lengths_hold (b : strings) (m : bytes) : Prop :=
  be_val (slice 570 572 m) = len (namespace b) /\ be_val (slice 572 574 m) = len (service b) /\
  be_val (slice 574 576 m) = len (schema b) /\ be_val (slice 576 580 m) = len (payload b) /\
  be_val (slice 580 584 m) = len (evidence b).

(** Every byte of the header belongs to one of these reads, or is the checksum. *)
Definition nfl1_holds (f : nfl1_fields) (m : bytes) : Prop :=
  let total := NFL1_HEADER + len (tail_of (body f)) in
  len m = total /\ slice 0 4 m = bytes_of_string "NFL1" /\ be_val (slice 4 6 m) = 1 /\ be_val (slice 6 8 m) = NFL1_HEADER /\
  be_val (slice 8 12 m) = total /\ be_val (slice 16 20 m) = message_kind f /\ be_val (slice 20 24 m) = message_flags f /\
  slice 24 40 m = transaction_id f /\ slice 40 56 m = attempt_id f /\ slice 56 72 m = event_id f /\
  endpoint_holds 72 (source f) m /\ endpoint_holds 172 (target f) m /\ nfl1_authority_holds (authority f) m /\
  be_val (slice 300 308 m) = descriptor_revision f /\ be_val (slice 308 310 m) = 1 /\ slice 310 342 m = descriptor_digest f /\
  be_val (slice 342 344 m) = schema_major f /\ be_val (slice 344 346 m) = schema_minor f /\
  be_val (slice 346 350 m) = family f /\ be_val (slice 350 352 m) = 1 /\ slice 352 384 m = content_digest f /\
  be_val (slice 384 392 m) = generation f /\ slice 392 408 m = deadline_clock_epoch_id f /\
  be_val (slice 408 416 m) = absolute_effect_deadline_ms f /\ be_val (slice 416 424 m) = evidence_grace_ms f /\
  be_val (slice 424 428 m) = required_evidence f /\
  outcome_holds (outcome f) m /\ route_holds (route f) m /\ lengths_hold (body f) m /\
  slice NFL1_HEADER total m = tail_of (body f) /\ sealed crc32c 12 m.

Ltac open_nfl1_holds Hm :=
  unfold nfl1_holds, nfl1_authority_holds, outcome_holds, route_holds, lengths_hold in Hm; cbv zeta in Hm; destruct_and!.

Lemma encoding_holds f : nfl1_ok f -> exists m, encode_nfl1 f = Ok m /\ bytes_ok m /\ nfl1_holds f m.
Proof.
  intros H. destruct (encode_nfl1_Ok f H) as (h & m & Eh & Em & Lh & Lm & Bm & Hs & Hsame).
  pose proof (header_wide f (NFL1_HEADER + len (tail_of (body f))) H) as W.
  pose proof (len_nonneg (tail_of (body f))) as Nt. unfold NFL1_HEADER in Lh, Lm.
  assert (R : forall a c, 0 <= a <= c -> c <= 584 -> c <= 12 \/ 16 <= a -> slice a c m = slice a c h).
  { intros a c Ha Hc Hg. rewrite Hsame by done. apply slice_app_l; lia. }
  exists m. split; [done|]. split; [done|]. unfold nfl1_holds, endpoint_holds, nfl1_authority_holds, outcome_holds, route_holds, lengths_hold, NFL1_HEADER. cbv zeta.
  split; [done|]. pose proof (join_reads _ _ _ W Eh) as Hr. read_all Hr.
  split_and!; rewrite ?R by lia; try read_known.
  - rewrite Hsame by lia. rewrite slice_app_r by lia. apply slice_whole; lia.
  - exact Hs.
Qed.

(** C34. Encoding a message whose values fit their fields succeeds and produces the
    584-byte header with every field at its wire offset (each byte of the header
    belongs to one), followed by the namespace, service, schema, payload and evidence,
    with the total length and the five lengths recorded and the checksum at 12
    covering the whole packet. *)
Theorem nfl1_on_wire f : nfl1_ok f -> exists m, encode_nfl1 f = Ok m /\ bytes_ok m /\ nfl1_holds f m.
Proof. apply encoding_holds. Qed.

(** ** Round trip *)

Lemma len_tail b : len (tail_of b) = len (namespace b) + len (service b) + len (schema b) + len (payload b) + len (evidence b).
Proof. unfold tail_of. rewrite !len_app. lia. Qed.

Lemma tail_inj b c :
  len (namespace b) = len (namespace c) -> len (service b) = len (service c) -> len (schema b) = len (schema c) ->
  len (payload b) = len (payload c) -> tail_of b = tail_of c -> b = c.
Proof.
  destruct b, c. unfold tail_of, len. cbn. intros L1 L2 L3 L4 E.
  repeat (apply app_inj_1 in E as [-> E]; [|lia]). by rewrite E.
Qed.

(** [same_parts] turns two reads of the same span into the equality of the values. *)
Ltac same_parts :=
  repeat match goal with
  | K1 : Ok ?x = Ok (slice ?a ?c ?h), K2 : Ok ?y = Ok (slice ?a ?c ?h) |- _ =>
      let Q := fresh "Q" in assert (Q : x = y) by (rewrite (Ok_inj _ _ K1); symmetry; exact (Ok_inj _ _ K2)); clear K1 K2
  | K1 : _ ?x = Ok (slice ?a ?c ?h), K2 : _ ?y = Ok (slice ?a ?c ?h) |- _ =>
      let Q := fresh "Q" in assert (Q : x = y) by (rewrite <- (pack_val _ _ _ K1); exact (pack_val _ _ _ K2)); clear K1 K2
  end.

(** The header determines every value written into it. *)
Lemma header_inj f g h tf tg :
  nfl1_ok f -> nfl1_ok g -> join (map snd (nfl1_header_values f tf)) = Ok h ->
  join (map snd (nfl1_header_values g tg)) = Ok h -> tail_of (body f) = tail_of (body g) -> f = g.
Proof.
  intros Hf Hg Ef Eg Ht. pose proof (join_reads _ _ _ (header_wide f tf Hf) Ef) as Rf. pose proof (join_reads _ _ _ (header_wide g tg Hg) Eg) as Rg.
  read_all Rf. read_all Rg. same_parts.
  assert (Hb : body f = body g) by (apply tail_inj; congruence).
  destruct f as [? ? ? ? ? [] [] [] ? ? ? ? ? ? ? ? ? ? ? [] [] ?], g as [? ? ? ? ? [] [] [] ? ? ? ? ? ? ? ? ? ? ? [] [] ?].
  simpl in *. subst. reflexivity.
Qed.

Lemma nfl1_injective f g m : nfl1_ok f -> nfl1_ok g -> encode_nfl1 f = Ok m -> encode_nfl1 g = Ok m -> f = g.
Proof.
  intros Hf Hg Ef Eg.
  destruct (encode_nfl1_Ok f Hf) as (h & m1 & Jf & E1 & Lh & Lm & _ & _ & Sf). rewrite Ef in E1. apply Ok_inj in E1 as <-.
  destruct (encode_nfl1_Ok g Hg) as (k & m2 & Jg & E2 & Lk & Lm' & _ & _ & Sg). rewrite Eg in E2. apply Ok_inj in E2 as <-.
  pose proof (len_nonneg (tail_of (body f))) as Nf. unfold NFL1_HEADER in Lh, Lk, Lm, Lm'.
  assert (Hcut : forall x : bytes, len x = 584 -> x = slice 0 12 x ++ slice 12 16 x ++ slice 16 584 x).
  { intros x Hx. rewrite <- !slice_split by lia. by rewrite slice_whole by lia. }
  assert (Hhk : h = k).
  { rewrite (Hcut h Lh), (Hcut k Lk).
    assert (P : forall (x t : bytes) a c, len x = 584 -> 0 <= a <= c -> c <= 584 -> slice a c (x ++ t) = slice a c x)
      by (intros; apply slice_app_l; lia).
    rewrite <- (P h (tail_of (body f)) 0 12), <- (P h (tail_of (body f)) 16 584), <- !Sf by lia.
    rewrite <- (P k (tail_of (body g)) 0 12), <- (P k (tail_of (body g)) 16 584), <- !Sg by lia.
    do 2 f_equal. assert (Z4 : forall x y, Ok x = u32 0 -> u32 0 = Ok y -> x = y) by (intros x y Hx Hy; rewrite Hy in Hx; by apply Ok_inj).
    apply Z4; [symmetry; exact (join_read _ _ _ 4 _ (header_wide f _ Hf) Jf eq_refl) | exact (join_read _ _ _ 4 _ (header_wide g _ Hg) Jg eq_refl)]. }
  subst k. apply (header_inj f g h _ _ Hf Hg Jf Jg).
  assert (T : forall t : bytes, slice 584 (584 + len t) (h ++ t) = t).
  { intros t. rewrite slice_app_r by lia. pose proof (len_nonneg t). apply slice_whole; lia. }
  rewrite <- (T (tail_of (body f))), <- (T (tail_of (body g))), <- Sf, <- Sg by (pose proof (len_nonneg (tail_of (body g))); lia).
  f_equal. lia.
Qed.

(** A packet determines its message: two encodable dictionaries with the same
    packet are equal, byte strings of variable length and both ends included. *)
Theorem nfl1_unambiguous f g m : nfl1_ok f -> nfl1_ok g -> encode_nfl1 f = Ok m -> encode_nfl1 g = Ok m -> f = g.
Proof. apply nfl1_injective. Qed.

(** ** The digest of the Foundation message *)

(** Two messages that differ at most in the authority and the route the Fabric
    pins to them. *)
Definition same_message (f g : nfl1_fields) : Prop :=
  (message_kind f, message_flags f, transaction_id f, attempt_id f, event_id f, source f, target f) =
  (message_kind g, message_flags g, transaction_id g, attempt_id g, event_id g, source g, target g) /\
  (descriptor_revision f, descriptor_digest f, schema_major f, schema_minor f, family f, content_digest f, generation f) =
  (descriptor_revision g, descriptor_digest g, schema_major g, schema_minor g, family g, content_digest g, generation g) /\
  (deadline_clock_epoch_id f, absolute_effect_deadline_ms f, evidence_grace_ms f, required_evidence f, outcome f, body f) =
  (deadline_clock_epoch_id g, absolute_effect_deadline_ms g, evidence_grace_ms g, required_evidence g, outcome g, body g).

#[export] Instance same_message_equiv : Equivalence same_message.
Proof. split; [done | |]; unfold same_message; [intros f g | intros f g h]; naive_solver congruence. Qed.

(** The header values with those of the authority and the route zeroed. *)
Definition blanked (vs : list (res bytes)) : list (res bytes) :=
  take 26 vs ++ [Ok (zeros 16); Ok (zeros 8); Ok (zeros 4)] ++ take 22 (drop 29 vs) ++
  [Ok (zeros 16); Ok (zeros 8); Ok (zeros 2); Ok (zeros 32); Ok (zeros 16); Ok (zeros 8); Ok (zeros 4)] ++ drop 58 vs.

Lemma blanked_same f g t : same_message f g -> blanked (map snd (nfl1_header_values f t)) = blanked (map snd (nfl1_header_values g t)).
Proof.
  intros (H1 & H2 & H3). injection H1 as K1 K2 K3 K4 K5 K6 K7. injection H2 as L1 L2 L3 L4 L5 L6 L7.
  injection H3 as M1 M2 M3 M4 M5 M6. unfold blanked, nfl1_header_values.
  rewrite K1, K2, K3, K4, K5, K6, K7, L1, L2, L3, L4, L5, L6, L7, M1, M2, M3, M4, M5, M6. reflexivity.
Qed.

Lemma normalized_spans m :
  584 <= len m -> bytes_ok m ->
  exists n, normalized_message m = Ok n /\ len n = len m /\
    slice 12 16 n = zeros 4 /\ slice 272 300 n = zeros 28 /\ slice 484 570 n = zeros 86 /\
    forall a c, 0 <= a <= c -> (c <= 12 \/ 16 <= a) -> (c <= 272 \/ 300 <= a) -> (c <= 484 \/ 570 <= a) ->
      slice a c n = slice a c m.
Proof.
  intros Hl Hb. unfold normalized_message.
  set (ws := [put 12 16 (Ok (zeros 4)); put 272 300 (Ok (zeros 28)); put 484 570 (Ok (zeros 86))]).
  change (run_writes _ m) with (run_writes ws m).
  assert (Sz : Forall (sized (len m)) ws) by (unfold ws; solve_sized).
  destruct (run_writes_total (len m) ws m Sz) as (n & En & Ln & Bn); [unfold ws; solve_total | done | done|].
  exists n. split; [done|]. split; [done|]. split_and!; [read_field Sz (eq_refl (len m)) En..|].
  intros a c Ha H1 H2 H3. apply (run_writes_apart (len m) ws m n Sz eq_refl En); [done|].
  unfold ws, apart. cbn. rewrite !andb_true_iff, !orb_true_iff, !Z.leb_le. tauto.
Qed.

Lemma blanked_wide f t : nfl1_ok f -> Forall2 wide (blanked (map snd (nfl1_header_values f t))) NFL1_WIDTHS.
Proof.
  intros H. open_nfl1_ok H. unfold blanked, nfl1_header_values, endpoint_at.
  cbn [map snd app take drop NFL1_WIDTHS ENDPOINT_WIDTHS]. solve_wide.
Qed.

Lemma zero_part (n : bytes) lo hi a c k :
  0 <= lo <= a -> a <= c <= hi -> k = c - a -> slice lo hi n = zeros (hi - lo) -> Ok (zeros k) = Ok (slice a c n).
Proof.
  intros Ha Hc -> Hz. f_equal. replace (slice a c n) with (slice (a - lo) (c - lo) (slice lo hi n)).
  - rewrite Hz. unfold slice, zeros. rewrite drop_replicate, take_replicate. f_equal. lia.
  - rewrite slice_slice by lia. f_equal; lia.
Qed.

(** The normalized packet of a message: the blanked header and the tail. *)
Lemma normalized_join f m :
  nfl1_ok f -> encode_nfl1 f = Ok m ->
  exists n, normalized_message m = Ok n /\ len n = NFL1_HEADER + len (tail_of (body f)) /\
    join (blanked (map snd (nfl1_header_values f (NFL1_HEADER + len (tail_of (body f)))))) = Ok (slice 0 584 n) /\
    slice 584 (len n) n = tail_of (body f).
Proof.
  intros H E. destruct (encode_nfl1_Ok f H) as (h & m' & Eh & Em & Lh & Lm & Bm & _ & Hsame).
  rewrite E in Em. apply Ok_inj in Em as <-. pose proof (len_nonneg (tail_of (body f))) as Nt.
  pose proof (join_reads _ _ _ (header_wide f _ H) Eh) as Hr.
  set (total := NFL1_HEADER + len (tail_of (body f))) in *. assert (Ht : total = 584 + len (tail_of (body f))) by done.
  clearbody total. unfold NFL1_HEADER in Lh.
  destruct (normalized_spans m ltac:(lia) Bm) as (n & En & Ln & Z1 & Z2 & Z3 & Hn).
  exists n. split; [done|]. split; [lia|].
  assert (R : forall a c, 0 <= a <= c -> c <= 584 -> (c <= 12 \/ 16 <= a) -> (c <= 272 \/ 300 <= a) ->
    (c <= 484 \/ 570 <= a) -> slice a c h = slice a c n).
  { intros a c ? ? ? ? ?. rewrite Hn, Hsame by done. symmetry. apply slice_app_l; lia. }
  split.
  - apply (join_of_reads _ NFL1_WIDTHS); [repeat constructor; done | change (total_width NFL1_WIDTHS) with 584; lia|].
    unfold blanked, nfl1_header_values, endpoint_at in *. cbn [map snd app take drop] in *. read_all Hr.
    repeat (apply Forall2_cons_2; [|]); try apply Forall2_nil_2; cbn [fst snd];
      repeat match goal with |- context [start ?ns ?i] => let v := eval vm_compute in (start ns i) in change (start ns i) with v end;
      try (rewrite <- R by lia; assumption); [exact (f_equal Ok (eq_sym Z1)) | ..];
      first [apply (zero_part n 272 300); [lia | lia | reflexivity | exact Z2] | apply (zero_part n 484 570); [lia | lia | reflexivity | exact Z3]].
  - rewrite Ln, Lm, Hn, Hsame by lia. rewrite slice_app_r by lia. apply slice_whole; lia.
Qed.

(** Messages that agree up to the authority and the route have one normalized
    packet, hence one digest. *)
Lemma normalized_same f g mf mg :
  nfl1_ok f -> nfl1_ok g -> encode_nfl1 f = Ok mf -> encode_nfl1 g = Ok mg -> same_message f g ->
  normalized_message mf = normalized_message mg.
Proof.
  intros Hf Hg Ef Eg Hs. destruct (normalized_join f mf Hf Ef) as (n & -> & Ln & Jn & Tn).
  destruct (normalized_join g mg Hg Eg) as (k & -> & Lk & Jk & Tk). f_equal.
  pose proof (len_nonneg (tail_of (body f))) as Nf. unfold NFL1_HEADER in Ln, Lk.
  assert (Hb : body f = body g) by (destruct Hs as (_ & _ & Hs); by injection Hs).
  rewrite Hb in *. rewrite (blanked_same f g _ Hs), Jk in Jn. apply Ok_inj in Jn.
  rewrite <- (slice_all n), <- (slice_all k), (slice_split 0 584 (len n)), (slice_split 0 584 (len k)) by lia.
  by rewrite Jn, Tn, Tk.
Qed.

(** The Foundation message digest identifies the message and nothing the Fabric adds
    to it: for two encodable messages, the bytes the digest is taken of are
    equal exactly when the messages agree on every field but the authority
    (identifier, term, assignment epoch) and the route (policy, path, flags). *)
Theorem foundation_preimage_exact f g mf mg :
  nfl1_ok f -> nfl1_ok g -> encode_nfl1 f = Ok mf -> encode_nfl1 g = Ok mg ->
  exists n k, normalized_message mf = Ok n /\ normalized_message mg = Ok k /\ (n = k <-> same_message f g).
Proof.
  intros Hf Hg Ef Eg. destruct (normalized_join f mf Hf Ef) as (n & En & _ & Jn & Tn).
  destruct (normalized_join g mg Hg Eg) as (k & Ek & _ & Jk & Tk). exists n, k. split; [done|]. split; [done|]. split.
  - intros ->. rewrite Tn in Tk. pose proof (join_reads _ _ _ (blanked_wide f _ Hf) Jn) as Rf.
    pose proof (join_reads _ _ _ (blanked_wide g _ Hg) Jk) as Rg.
    unfold blanked, nfl1_header_values, endpoint_at in Rf, Rg. cbn [map snd app take drop] in Rf, Rg.
    read_all Rf. read_all Rg. same_parts. assert (Hb : body f = body g) by (apply tail_inj; congruence).
    unfold same_message.
    destruct f as [? ? ? ? ? [] [] [] ? ? ? ? ? ? ? ? ? ? ? [] [] ?], g as [? ? ? ? ? [] [] [] ? ? ? ? ? ? ? ? ? ? ? [] [] ?].
    simpl in *. subst. split_and!; reflexivity.
  - intros Hs. pose proof (normalized_same f g mf mg Hf Hg Ef Eg Hs) as E. rewrite En, Ek in E. by apply Ok_inj in E.
Qed.

(** ** Identity and cases *)

(** The response slot of a message: the field its kind answers with. *)
Definition response_slot (f : nfl1_fields) : Z :=
  if message_kind f =? 2 then receipt_stage (outcome f)
  else if message_kind f =? 3 then disposition (outcome f)
  else if message_kind f =? 6 then cancel_kind (outcome f) else 0.

Lemma unpack_u32_at_Ok lo m : 0 <= lo -> lo + 4 <= len m -> unpack_u32_at lo m = Ok (be_val (slice lo (lo + 4) m)).
Proof. intros. unfold unpack_u32_at. rewrite raise_if_skip; [done|]. apply negb_false_iff, Z.eqb_eq. rewrite len_slice by lia. lia. Qed.
Lemma unpack_u64_at_Ok lo m : 0 <= lo -> lo + 8 <= len m -> unpack_u64_at lo m = Ok (be_val (slice lo (lo + 8) m)).
Proof. intros. unfold unpack_u64_at. rewrite raise_if_skip; [done|]. apply negb_false_iff, Z.eqb_eq. rewrite len_slice by lia. lia. Qed.

(** The identity of a packet is that of its message. *)
Lemma identity_of_encoding f m :
  nfl1_ok f -> encode_nfl1 f = Ok m ->
  decode_nfl1_identity m = Ok {| id_kind := message_kind f; id_slot := response_slot f;
                                 id_transaction := transaction_id f; id_attempt := attempt_id f |}.
Proof.
  intros H E. destruct (encoding_holds f H) as (m' & E' & _ & Hm). rewrite E in E'. apply Ok_inj in E' as <-.
  open_nfl1_holds Hm. pose proof (len_nonneg (tail_of (body f))).
  unfold NFL1_HEADER in *. unfold decode_nfl1_identity. rewrite !unpack_u32_at_Ok, ok_bind by lia.
  change (16 + 4) with 20. change (428 + 4) with 432. change (432 + 4) with 436. change (444 + 4) with 448.
  repeat match goal with K : be_val _ = _ |- _ => rewrite K; clear K | K : slice _ _ m = _ |- _ => rewrite K; clear K end.
  unfold response_slot. by repeat case_match.
Qed.


(** [solve_values] closes the side conditions of values the generator fixes. *)
Ltac solve_values :=
  repeat first
    [ apply Forall_cons_2 | apply Forall_nil_2 | (apply raw_pattern; done) | (apply raw_zeros; done) | apply raw_sha
    | (refine (bool_decide_unpack _ _); lazy; exact I) ].

Lemma endpoint_common : endpoint_ok (source common_nfl1_fields) /\ endpoint_ok (target common_nfl1_fields).
Proof. split; (split; [|split]); solve_values. Qed.

Lemma reverse_ok f : nfl1_ok f -> nfl1_ok (apply_reverse_orientation f).
Proof. by intros []. Qed.

Lemma case_outcome_known kind stage o :
  1 <= kind <= 6 -> exists o', case_outcome o kind stage = Ok o' /\ kind ∈ [1; 2; 3; 4; 5; 6].
Proof.
  intros H. assert (Hk : kind ∈ [1; 2; 3; 4; 5; 6]) by (rewrite !elem_of_cons; lia).
  rewrite !elem_of_cons in Hk. destruct Hk as [-> | [-> | [-> | [-> | [-> | [-> | Hk]]]]]]; try (eexists; split; [done | set_solver]).
  by apply elem_of_nil in Hk.
Qed.

Lemma case_fields_ok kind maximal stage attempt o :
  kind ∈ [1; 2; 3; 4; 5; 6] -> u32_ok stage -> raw 16 attempt -> case_outcome (outcome common_nfl1_fields) kind stage = Ok o ->
  nfl1_ok (with_case common_nfl1_fields kind attempt o (case_strings (body common_nfl1_fields) kind maximal)).
Proof.
  intros Hk Hstage Ha E. destruct endpoint_common as [Es Et]. rewrite !elem_of_cons in Hk.
  destruct Hk as [-> | [-> | [-> | [-> | [-> | [-> | Hk]]]]]]; [..|by apply elem_of_nil in Hk]; cbn in E; injection E as <-;
    destruct maximal; (split; [| | | | |exact Es|exact Et|]);
    repeat (apply Forall_cons_2; [first [exact Ha | exact Hstage | solve [solve_values]] |]); try apply Forall_nil_2;
    refine (bool_decide_unpack _ _); lazy; exact I.
Qed.

Definition NFL1_SEMANTIC_MAX : Z := 1797.

(** The sizes of the case messages. *)
Lemma case_tail_len kind maximal :
  3 <= len (tail_of (case_strings (body common_nfl1_fields) kind maximal)) <= 1213.
Proof.
  unfold case_strings, tail_of. cbn [namespace service schema payload evidence].
  destruct maximal, (Z.eqb_spec kind 1) as [->|]; [|destruct (kind =? 2)| |destruct (kind =? 2)];
    vm_compute; split; intros H; discriminate H.
Qed.

(** A known case: its dictionary, its packet and what the packet identifies. *)
Lemma nfl1_case_built kind maximal stage :
  u32_ok stage -> 1 <= kind <= 6 ->
   exists f m, nfl1_case kind maximal stage = Ok (f, m) /\ nfl1_ok f /\ encode_nfl1 f = Ok m /\
     body f = case_strings (body common_nfl1_fields) kind maximal /\ message_flags f = 0 /\
     NFL1_STRUCTURAL_MIN <= len m <= NFL1_SEMANTIC_MAX /\ message_kind f = kind /\
     (source f, target f) = (if (policy_direction_and_traffic kind).1 =? 2
                             then (target common_nfl1_fields, source common_nfl1_fields)
                             else (source common_nfl1_fields, target common_nfl1_fields)) /\
     exists i, decode_nfl1_identity m = Ok i /\ id_kind i = kind /\ id_transaction i = pattern 0x10 16 /\
       id_attempt i = pattern (if (policy_direction_and_traffic kind).2 =? 2 then 0x28 else 0x20) 16 /\
       id_slot i = (if kind =? 2 then stage else if kind =? 3 then 1 else if kind =? 6 then 1 else 0).
Proof.
  intros Hs Hk.
  destruct (case_outcome_known kind stage (outcome common_nfl1_fields) Hk) as (o & Eo & Hin).
  set (attempt := if (kind =? 4) || (kind =? 6) then pattern 0x28 16 else attempt_id common_nfl1_fields).
  assert (Ha : raw 16 attempt) by (unfold attempt; destruct (_ || _); apply raw_pattern; done).
  pose proof (case_fields_ok kind maximal stage attempt o Hin Hs Ha Eo) as Hf.
  pose proof (case_tail_len kind maximal) as Hlen.
  set (f0 := with_case common_nfl1_fields kind attempt o (case_strings (body common_nfl1_fields) kind maximal)) in *.
  set (f := if bool_decide (kind ∈ [2; 3; 5; 6]) then apply_reverse_orientation f0 else f0).
  assert (Hok : nfl1_ok f) by (unfold f; destruct (bool_decide _); [by apply reverse_ok | done]).
  destruct (encode_nfl1_Ok f Hok) as (h & m & _ & Em & _ & Lm & _). exists f, m.
  assert (Hb : tail_of (body f) = tail_of (body f0)) by (unfold f; by destruct (bool_decide _)).
  rewrite Hb in Lm. unfold f0 in Lm. cbn [body with_case] in Lm. unfold NFL1_HEADER in Lm.
  split; [unfold nfl1_case; cbv zeta; rewrite Eo, ok_bind; fold attempt f0 f; by rewrite Em|].
  split; [done|]. split; [done|]. split; [unfold f; by destruct (bool_decide _)|].
  split; [unfold f; by destruct (bool_decide _)|]. split; [unfold NFL1_STRUCTURAL_MIN, NFL1_SEMANTIC_MAX; lia|].
  pose proof (identity_of_encoding f m Hok Em) as Hid.
  clear Em Lm Hb Hf Hlen Hok. rewrite !elem_of_cons in Hin.
  destruct Hin as [-> | [-> | [-> | [-> | [-> | [-> | Hin]]]]]]; [..|by apply elem_of_nil in Hin];
    cbn in Eo; injection Eo as <-; (split; [reflexivity|]); (split; [reflexivity|]);
    (eexists; split; [exact Hid|]); repeat split; reflexivity.
Qed.

(** The case generator: each message kind 1 to 6, small or maximal, gives an
    encodable dictionary and its packet, between the structural minimum of 587 and
    the semantic maximum of 1797 bytes; a kind of the policy direction 2 (the
    responses 2, 3, 5 and 6) has its two ends exchanged, one of direction 1 has not; the packet identifies the kind, the
    transaction, the attempt and the response slot; any other kind is refused. *)
Theorem nfl1_case_exact kind maximal stage :
  u32_ok stage ->
  (1 <= kind <= 6 ->
   exists f m, nfl1_case kind maximal stage = Ok (f, m) /\ nfl1_ok f /\ encode_nfl1 f = Ok m /\
     NFL1_STRUCTURAL_MIN <= len m <= NFL1_SEMANTIC_MAX /\ message_kind f = kind /\
     (source f, target f) = (if (policy_direction_and_traffic kind).1 =? 2
                             then (target common_nfl1_fields, source common_nfl1_fields)
                             else (source common_nfl1_fields, target common_nfl1_fields)) /\
     exists i, decode_nfl1_identity m = Ok i /\ id_kind i = kind /\ id_transaction i = pattern 0x10 16 /\
       id_attempt i = pattern (if (policy_direction_and_traffic kind).2 =? 2 then 0x28 else 0x20) 16 /\
       id_slot i = (if kind =? 2 then stage else if kind =? 3 then 1 else if kind =? 6 then 1 else 0)) /\
  (~ 1 <= kind <= 6 -> nfl1_case kind maximal stage = Raise (ValueError "unknown message kind")).
Proof.
  intros Hs. split; intros Hk.
  - destruct (nfl1_case_built kind maximal stage Hs Hk) as (f & m & E & Hf & Em & _ & _ & H). by exists f, m.
  - unfold nfl1_case. cbv zeta.
    assert (Er : case_outcome (outcome common_nfl1_fields) kind stage = Raise (ValueError "unknown message kind")).
    { unfold case_outcome. repeat case_match; try done; lia. }
    by rewrite Er.
Qed.

(** ** Concrete messages *)

Lemma common_ok : nfl1_ok common_nfl1_fields.
Proof.
  refine (case_fields_ok 1 false 0 (pattern 0x20 16) (outcome common_nfl1_fields) _ _ _ eq_refl);
    [set_solver | split; lia | by apply raw_pattern].
Qed.

Lemma common_encoded : exists m, encode_nfl1 common_nfl1_fields = Ok m.
Proof. destruct (encode_nfl1_Ok _ common_ok) as (h & m & _ & E & _). by exists m. Qed.

Lemma nfl1_on_wire_witness : exists m, encode_nfl1 common_nfl1_fields = Ok m /\ len m = 587 /\ be_val (slice 8 12 m) = 587.
Proof.
  destruct (nfl1_on_wire common_nfl1_fields common_ok) as (m & E & _ & L & _ & _ & _ & H & _). exists m. exact (conj E (conj L H)).
Defined.

Lemma nfl1_unambiguous_witness :
  exists m, encode_nfl1 common_nfl1_fields = Ok m /\ forall g, nfl1_ok g -> encode_nfl1 g = Ok m -> common_nfl1_fields = g.
Proof.
  destruct common_encoded as [m E]. exists m. split; [exact E|]. intros g Hg Eg.
  exact (nfl1_unambiguous common_nfl1_fields g m common_ok Hg E Eg).
Defined.

Lemma foundation_preimage_exact_witness :
  exists mf mg, encode_nfl1 common_nfl1_fields = Ok mf /\ encode_nfl1 (apply_reverse_orientation common_nfl1_fields) = Ok mg /\
    normalized_message mf <> normalized_message mg.
Proof.
  destruct common_encoded as [mf Ef]. destruct (encode_nfl1_Ok _ (reverse_ok _ common_ok)) as (h & mg & _ & Eg & _).
  exists mf, mg. split; [exact Ef|]. split; [exact Eg|].
  destruct (foundation_preimage_exact _ _ mf mg common_ok (reverse_ok _ common_ok) Ef Eg) as (n & k & En & Ek & H).
  rewrite En, Ek. intros Q. apply Ok_inj in Q. apply H in Q as (Q & _ & _).
  apply (f_equal (fun x => binding_epoch x.1.2)) in Q. discriminate Q.
Defined.

Lemma nfl1_case_exact_witness :
  (exists f m, nfl1_case 2 true 3 = Ok (f, m) /\ source f = target common_nfl1_fields) /\
  nfl1_case 7 true 3 = Raise (ValueError "unknown message kind").
Proof.
  assert (Hs : u32_ok 3) by (split; lia). split.
  - destruct (proj1 (nfl1_case_exact 2 true 3 Hs) ltac:(lia)) as (f & m & E & _ & _ & _ & _ & Q & _). exists f, m.
    split; [exact E|]. exact (f_equal fst Q).
  - apply (proj2 (nfl1_case_exact 7 true 3 Hs)). lia.
Defined.
