(* ===== verification/FabricRecords.v ===== *)
(** The durable records of the Fabric bearer: metadata (FBM1), registry (FBR1), policy
    (FBP1), authority (FBC1), attempt (FBA1) and trigger (FBT1) rows, their
    seals and digests ([tools/fabric_bearer_spec_vector_gen.py]). *)

From S2P Require Import Prelude Bytes Crc Sha256 Layout Join Chain Fabric.

(** ** Durable records *)

Definition record_value (magic : bytes) (revision : Z) (payload : bytes) : res bytes :=
  value ← join [Ok magic; u16 1; u16 24; u32 (24 + len payload); u64 revision; u32 0; Ok payload];
  write_crc_at 20 value.

(** [assert len(payload) == n]. *)
Definition assert_len (n : Z) (payload : bytes) : res unit :=
  raise_if (negb (len payload =? n)) (AssertionError "").

Definition repair_record_crc (value : bytes) : res bytes :=
  zeroed ← run_writes [write_at 20 (u32 0)] value;
  write_crc_at 20 zeroed.

Definition POLICY_TAG : bytes := bytes_of_string "NINLIL-FABRIC-POLICY-V1".

Definition repair_policy_canonical_digest (value : bytes) : res bytes :=
  zeroed ← run_writes [write_at (24 + 24) (Ok ZERO32)] value;
  let digest := tagged_digest POLICY_TAG (slice_from 24 zeroed) in
  repaired ← run_writes [write_at (24 + 24) (Ok digest)] zeroed;
  repair_record_crc repaired.

Definition mutate (packet : bytes) (offset : Z) (replacement : bytes) : res bytes :=
  run_writes [write_at offset (Ok replacement)] packet.

(** A key, a value and the facts the generator reports about them. *)
Abbreviation row := (bytes * bytes)%type.

Definition registry_payload_parts : list (res bytes) :=
  [Ok (pattern 0x61 16); u32 2; u32 3; u32 0x6F; u64 1;
   Ok (sha256 (bytes_of_string "fabric-registry-descriptor-v1")); Ok (pattern 0x21 16); u32 0xF;
   Ok (sha256 (bytes_of_string "fabric-security-binding-v1")); u64 5; Ok (pattern 0xA1 16); u64 300000;
   Ok (sha256 (bytes_of_string "fabric-security-attestation-v1")); Ok (pattern 0x31 16); Ok (pattern 0x41 16);
   Ok (sha256 (bytes_of_string "fabric-attachment-binding-v1")); u32 1925; u32 1925; u16 10; u16 20; u16 8; u16 0;
   u64 7; Ok (pattern 0xA1 16); u8 1; u8 1; u16 0; u64 250000; u16 1; u16 0; u32 1; u64 1;
   Ok (sha256 (bytes_of_string "fabric-registry-config-v1"))].

Definition registry_record : res row :=
  payload ← join registry_payload_parts;
  assert_len 348 payload;;
  value ← record_value (bytes_of_string "FBR1") 1 payload;
  mret (bytes_of_string "FBR1" ++ pattern 0x61 16, value).

(** A policy candidate: instance, rank, flags and reservation units. *)
Record policy_entry := { pe_instance_id : bytes; pe_rank : Z; pe_flags : Z; pe_units : Z }.

Definition DEFAULT_CANDIDATES : list policy_entry :=
  [{| pe_instance_id := pattern 0x01 16; pe_rank := 20; pe_flags := 0; pe_units := 1 |};
   {| pe_instance_id := pattern 0x61 16; pe_rank := 10; pe_flags := 0; pe_units := 1 |}].

Definition policy_entry_parts (c : policy_entry) : list (res bytes) :=
  [Ok (pe_instance_id c); u16 (pe_rank c); u16 (pe_flags c); u16 (pe_units c); u16 0].

Record policy_args := {
  scope_selector : Z; policy_id_start : Z; authority_mode : Z; policy_revision : Z; candidates : option (list policy_entry) }.
Definition policy_defaults : policy_args :=
  {| scope_selector := 2; policy_id_start := 0x71; authority_mode := 1; policy_revision := 3; candidates := None |}.

Definition policy_payload_parts (a : policy_args) (service_digest : res bytes) (count : Z) (entries : bytes) : list (res bytes) :=
  [Ok (pattern (policy_id_start a) 16); u64 (policy_revision a); Ok ZERO32; service_digest; u32 2; u32 1; u16 1;
   u16 (scope_selector a); u32 2; u32 0xF; u16 50; u16 50; u32 587; u8 (authority_mode a); Ok (zeros 3); u64 100;
   u16 count; u16 0; u32 0; Ok entries].

Definition policy_payload_with_zero_digest (a : policy_args) : res bytes :=
  let candidates := default DEFAULT_CANDIDATES (candidates a) in
  entries ← join (concat (map policy_entry_parts candidates));
  let padding := concat (replicate (Z.to_nat (8 - len candidates)) (zeros 24)) in
  payload ← join (policy_payload_parts a (service_identity_digest common_nfl1_fields) (len candidates) (entries ++ padding));
  assert_len 328 payload;;
  mret payload.

(** The key, the value and the canonical digest. *)
Definition policy_record (a : policy_args) : res (row * bytes) :=
  zero_payload ← policy_payload_with_zero_digest a;
  let digest := tagged_digest POLICY_TAG zero_payload in
  payload ← run_writes [write_at 24 (Ok digest)] zero_payload;
  key ← join [Ok (bytes_of_string "FBP1"); Ok (pattern (policy_id_start a) 16); u64 (policy_revision a)];
  value ← record_value (bytes_of_string "FBP1") 1 payload;
  mret ((key, value), digest).

(** ** Authority *)

Definition owner_tuple_parts : list (res bytes) :=
  [Ok (pattern 0x81 16); u64 11; Ok (pattern 0x91 16); Ok (pattern 0xA1 16); u32 1; Ok (pattern 0xB1 16); u64 13;
   Ok (pattern 0xC1 16); u64 17; Ok (sha256 (bytes_of_string "fabric-owner-e2e-binding-v1")); Ok (pattern 0xD1 16);
   u64 300000; Ok (sha256 (bytes_of_string "fabric-owner-handoff-v1")); u32 0].

Definition owner_tuple_canonical : res bytes :=
  value ← join owner_tuple_parts;
  assert_len 200 value;;
  mret value.

Definition owner_tuple_digest : res bytes :=
  value ← owner_tuple_canonical;
  mret (tagged_digest (bytes_of_string "NINLIL-FABRIC-OWNER-TUPLE-V1") value).

Record authority_args := {
  au_scope_selector : Z; au_state : Z; au_binding_start : Z; au_policy_id_start : Z; au_policy_revision : Z }.
Definition authority_defaults : authority_args :=
  {| au_scope_selector := 2; au_state := 1; au_binding_start := 0xB8; au_policy_id_start := 0x71; au_policy_revision := 3 |}.

(** The owner of a binding: none when ABSENT, the fixed owner tuple when BOUND. *)
Record owner_values := {
  ow_authority : authority_fields; ow_scope_id : bytes; ow_digest : bytes; ow_canonical : bytes;
  ow_clock_epoch_id : bytes; ow_lease_expires_at_ms : Z }.

Definition endpoint_of_scope (fields : nfl1_fields) (selector : Z) : res bytes :=
  if selector =? 1 then Ok (runtime_id (source fields))
  else if selector =? 2 then Ok (runtime_id (target fields))
  else Raise (ValueError "unknown scope selector").

Definition owner_of_state (fields : nfl1_fields) (authority_state : Z) : res owner_values :=
  if authority_state =? 0 then
    Ok {| ow_authority := {| authority_id := ZERO16; authority_term := 0; assignment_epoch := 0 |};
          ow_scope_id := ZERO16; ow_digest := ZERO32; ow_canonical := zeros 200;
          ow_clock_epoch_id := ZERO16; ow_lease_expires_at_ms := 0 |}
  else if authority_state =? 1 then
    digest ← owner_tuple_digest;
    canonical ← owner_tuple_canonical;
    Ok {| ow_authority := authority fields; ow_scope_id := pattern 0x81 16; ow_digest := digest;
          ow_canonical := canonical; ow_clock_epoch_id := pattern 0xD1 16; ow_lease_expires_at_ms := 300000 |}
  else Raise (ValueError "unknown authority state").

Definition authority_payload_parts (policy_digest : bytes) (a : authority_args) (fields : nfl1_fields)
    (endpoint_runtime_id : bytes) (o : owner_values) : list (res bytes) :=
  let w := ow_authority o in
  [Ok (pattern (au_binding_start a) 16); service_identity_digest fields; u32 (family fields); u32 1; u16 1;
   u16 (au_scope_selector a); Ok endpoint_runtime_id; Ok (runtime_id (target fields)); Ok (application_id (target fields));
   Ok (pattern (au_policy_id_start a) 16); u64 (au_policy_revision a); Ok policy_digest; u32 (au_state a);
   Ok (authority_id w); u64 (authority_term w); u32 (assignment_epoch w); u32 0; Ok (ow_scope_id o);
   Ok (ow_digest o); Ok (ow_canonical o); Ok (ow_clock_epoch_id o); u64 (ow_lease_expires_at_ms o); u64 11; u64 0].

Definition authority_record (policy_digest : bytes) (a : authority_args) : res row :=
  let fields := common_nfl1_fields in
  let binding_id := pattern (au_binding_start a) 16 in
  endpoint_runtime_id ← endpoint_of_scope fields (au_scope_selector a);
  o ← owner_of_state fields (au_state a);
  payload ← join (authority_payload_parts policy_digest a fields endpoint_runtime_id o);
  assert_len 488 payload;;
  value ← record_value (bytes_of_string "FBC1") 11 payload;
  mret (bytes_of_string "FBC1" ++ binding_id, value).

(** ** Attempts, triggers and metadata *)

Record attempt_args := {
  at_policy_digest : bytes; at_registry_record_digest : bytes; at_state : Z; at_record_revision : Z;
  at_terminal_revision : Z; at_retry_expires_at_ms : Z; at_permit_generation : Z; at_permit_expires_at_ms : Z;
  at_permit_claim_state : Z }.
Definition attempt_defaults (policy_digest registry_record_digest : bytes) : attempt_args := {|
  at_policy_digest := policy_digest; at_registry_record_digest := registry_record_digest; at_state := 2;
  at_record_revision := 3; at_terminal_revision := 0; at_retry_expires_at_ms := 200000; at_permit_generation := 0;
  at_permit_expires_at_ms := 450000; at_permit_claim_state := 1 |}.

Definition attempt_key_parts (i : nfl1_identity) (message_digest : bytes) : list (res bytes) :=
  [Ok (bytes_of_string "FBA1"); Ok (id_transaction i); Ok (id_attempt i); u32 (id_kind i); u32 (id_slot i); Ok message_digest].

Definition permit_id (key : bytes) (generation : Z) : res bytes :=
  preimage ← join [Ok (bytes_of_string "NINLIL-FABRIC-PERMIT-V1"); Ok key; u32 generation];
  mret (slice 0 16 (sha256 preimage)).

Definition attempt_payload_parts (nfl1_packet : bytes) (a : attempt_args) (i : nfl1_identity)
    (deadline_epoch : bytes) (deadline : Z) (message_digest key permit : bytes) : list (res bytes) :=
  [Ok (id_transaction i); Ok (id_attempt i); u32 (id_kind i); u32 (id_slot i); u32 (at_state a); Ok message_digest;
   Ok (pattern 0x71 16); u64 3; Ok (at_policy_digest a); Ok (pattern 0x61 16); u64 37; u32 0; u32 1;
   Ok (pattern 0xD0 16); u64 17; u32 19; Ok (pattern 0x81 16); owner_tuple_digest; u64 1;
   Ok (at_registry_record_digest a); Ok (sha256 (bytes_of_string "fabric-registry-descriptor-v1"));
   Ok (pattern 0x21 16); u64 5; Ok (pattern 0xA1 16); Ok (sha256 (bytes_of_string "fabric-security-attestation-v1"));
   u64 300000; Ok (pattern 0x31 16); Ok (pattern 0x41 16); Ok (sha256 (bytes_of_string "fabric-attachment-binding-v1"));
   u64 7; Ok (pattern 0xA1 16); u8 1; Ok (zeros 7); u64 250000; Ok (id_attempt i); Ok deadline_epoch; u64 deadline;
   u32 (len nfl1_packet); Ok (sha256 nfl1_packet); Ok (pattern 0xA1 16); u64 400000; Ok deadline_epoch;
   u64 (at_retry_expires_at_ms a); Ok (local_dispatch_id key); u64 (at_terminal_revision a); Ok permit;
   u64 (at_permit_expires_at_ms a); u32 (at_permit_claim_state a)].

Definition attempt_record (nfl1_packet : bytes) (a : attempt_args) : res row :=
  i ← decode_nfl1_identity nfl1_packet;
  deadline ← unpack_u64_at 408 nfl1_packet;
  message_digest ← foundation_message_digest nfl1_packet;
  key ← join (attempt_key_parts i message_digest);
  permit ← permit_id key (at_permit_generation a);
  payload ← join (attempt_payload_parts nfl1_packet a i (slice 392 408 nfl1_packet) deadline message_digest key permit);
  assert_len 688 payload;;
  value ← record_value (bytes_of_string "FBA1") (at_record_revision a) payload;
  mret (key, value).

Definition trigger_payload_parts (kind : Z) (triggering_attempt policy_digest : bytes) : list (res bytes) :=
  [Ok (pattern 0x10 16); Ok triggering_attempt; u32 kind; u32 1; Ok (pattern 0x80 16); Ok (pattern 0x81 16);
   Ok (pattern 0xD0 16); u64 17; u32 19; u32 0; owner_tuple_digest; Ok (pattern 0x71 16); u64 3; Ok policy_digest;
   Ok (pattern 0xA1 16); u64 400000; u64 0].

Definition trigger_record (kind : Z) : res row :=
  let triggering_attempt := pattern (if kind =? 4 then 0x28 else 0x20) 16 in
  zero_payload ← policy_payload_with_zero_digest policy_defaults;
  payload ← join (trigger_payload_parts kind triggering_attempt (sha256 (POLICY_TAG ++ zero_payload)));
  assert_len 224 payload;;
  key ← join [Ok (bytes_of_string "FBT1"); Ok (pattern 0x10 16); Ok triggering_attempt; u32 kind];
  value ← record_value (bytes_of_string "FBT1") 1 payload;
  mret (key, value).

Definition meta_record (record_revision outer_epoch outer_available : Z) : res row :=
  payload ← join [u16 1; u16 1; u16 1; u16 0; u64 1; u64 0; u64 outer_epoch; u32 outer_available; u32 0];
  assert_len 40 payload;;
  value ← record_value (bytes_of_string "FBM1") record_revision payload;
  mret (bytes_of_string "FBM1", value).

(** ** What a record holds *)

(** The 24-byte header and the payload of a record, sealed at 20. *)
Definition record_holds (magic : bytes) (revision : Z) (payload v : bytes) : Prop :=
  bytes_ok v /\ len v = 24 + len payload /\ slice 0 4 v = magic /\ be_val (slice 4 6 v) = 1 /\ be_val (slice 6 8 v) = 24 /\
  be_val (slice 8 12 v) = 24 + len payload /\ be_val (slice 12 20 v) = revision /\ slice 24 (len v) v = payload /\
  sealed crc32c 20 v.

Lemma record_value_Ok magic revision payload :
  raw 4 magic -> u64_ok revision -> bytes_ok payload -> u32_ok (24 + len payload) ->
  exists v, record_value magic revision payload = Ok v /\ record_holds magic revision payload v.
Proof.
  intros [Lm Bm] Hr Bp Hl. pose proof (len_nonneg payload) as Np. unfold u64_ok, u32_ok in *.
  set (ps := [Ok magic; u16 1; u16 24; u32 (24 + len payload); u64 revision; u32 0; Ok payload]).
  set (ns := [4; 2; 2; 4; 8; 4; len payload]).
  assert (W : Forall2 wide ps ns) by (unfold ps, ns; solve_wide).
  destruct (join_total ps) as [x Ex]; [unfold ps; solve_fine|].
  assert (Bx : bytes_ok x) by (apply (join_sound ps); [unfold ps; solve_sound | done]).
  pose proof (join_len _ _ _ W Ex) as Lx. unfold ns, total_width in Lx. cbn [foldr] in Lx.
  destruct (seal_at_Ok crc32c 20 x Bx ltac:(lia) ltac:(lia)) as (v & Ev & Lv & Bv & Sv & Hv).
  exists v. split; [unfold record_value; fold ps; rewrite Ex, ok_bind; exact Ev|].
  assert (Z4 : slice 20 24 x = zeros 4).
  { symmetry. apply Ok_inj. exact (join_read _ _ _ 5 _ W Ex eq_refl). }
  unfold record_holds. rewrite Lv. split; [done|]. split; [lia|].
  split; [rewrite Hv by lia; read_part W Ex 0%nat|]. split; [rewrite Hv by lia; read_part W Ex 1%nat|].
  split; [rewrite Hv by lia; read_part W Ex 2%nat|]. split; [rewrite Hv by lia; read_part W Ex 3%nat|].
  split; [rewrite Hv by lia; read_part W Ex 4%nat|]. split; [|by apply Sv].
  rewrite Hv by lia. pose proof (join_read _ _ _ 6 _ W Ex eq_refl) as K.
  assert (E6 : start ns 6 = 24) by done. rewrite E6 in K.
  assert (E7 : start ns 7 = len x) by (unfold start, ns, total_width; cbn [take foldr]; lia). rewrite E7 in K.
  symmetry. exact (Ok_inj _ _ K).
Qed.

(** ** Repairs *)

Lemma repair_record_zeroes v : repair_record_crc v = write_crc_at 20 (slice_assign 20 (20 + 4) (zeros 4) v).
Proof. reflexivity. Qed.

(** The canonical digest of a policy record covers the payload with the digest zeroed. *)
Definition canonical (v : bytes) : Prop :=
  slice 48 80 v = tagged_digest POLICY_TAG (slice_from 24 (slice_assign 48 80 ZERO32 v)).

(** The bytes of [v] and [r] outside the checksum and the digest are the same. *)
Definition same_policy (v r : bytes) : Prop :=
  len r = len v /\ slice 0 20 r = slice 0 20 v /\ slice 24 48 r = slice 24 48 v /\ slice 80 (len r) r = slice 80 (len v) v.

Lemma tail_from_24 (v : bytes) : 80 <= len v ->
  slice_from 24 (slice_assign 48 80 ZERO32 v) = slice 24 48 v ++ ZERO32 ++ slice 80 (len v) v.
Proof.
  intros Hl. rewrite slice_assign_parts by lia. rewrite (slice_split 0 24 48) by lia. rewrite <- app_assoc.
  apply slice_from_app. rewrite len_slice by lia. lia.
Qed.

Lemma canonical_unique a b : 80 <= len a -> canonical a -> canonical b -> same_policy a b -> slice 48 80 a = slice 48 80 b.
Proof. intros Hl Ha Hb (L & _ & H2 & H3). rewrite Ha, Hb, !tail_from_24 by lia. by rewrite H2, H3. Qed.

Lemma repair_policy_Ok v :
  bytes_ok v -> 80 <= len v ->
  exists r, repair_policy_canonical_digest v = Ok r /\ bytes_ok r /\ canonical r /\ sealed crc32c 20 r /\ same_policy v r.
Proof.
  intros Hv Hl. set (z := slice_assign 48 80 ZERO32 v). set (d := tagged_digest POLICY_TAG (slice_from 24 z)).
  assert (Lz : len z = len v) by (unfold z; by rewrite len_slice_assign by (done || lia)).
  assert (Bz : bytes_ok z) by (apply slice_assign_ok; [apply zeros_ok | done]).
  assert (Ld : len d = 80 - 48) by apply digest_len. assert (Bd : bytes_ok d) by apply digest_ok.
  set (p := slice_assign 48 80 d z).
  assert (Lp : len p = len v) by (unfold p; rewrite len_slice_assign by lia; lia).
  assert (Bp : bytes_ok p) by (by apply slice_assign_ok).
  destruct (zero_seal_Ok crc32c 20 p Bp ltac:(lia) ltac:(lia)) as (r & Er & Lr & Br & Sr & Hr).
  assert (Lz32 : len ZERO32 = 80 - 48) by done.
  assert (Hz : forall a c, 0 <= a <= c -> c <= 48 \/ 80 <= a -> slice a c z = slice a c v) by (intros; apply slice_assign_other; lia).
  assert (Hp : forall a c, 0 <= a <= c -> c <= 48 \/ 80 <= a -> slice a c p = slice a c z) by (intros; apply slice_assign_other; lia).
  assert (P1 : same_policy v r) by (unfold same_policy; rewrite Lr, Lp; split_and!; rewrite ?Hr, ?Hp, ?Hz by lia; done).
  exists r. split; [|split; [done|]; split; [|done]].
  - unfold repair_policy_canonical_digest. cbn [run_writes write_at w_val w_lo w_hi]. rewrite !ok_bind.
    change (24 + 24) with 48. change (48 + len ZERO32) with 80. fold z. fold d. rewrite Ld. change (48 + (80 - 48)) with 80.
    fold p. by rewrite repair_record_zeroes.
  - unfold canonical. rewrite Hr by lia. unfold p at 1. rewrite slice_assign_read by lia. unfold d. f_equal.
    destruct P1 as (L & _ & H2 & H3). unfold z. rewrite !tail_from_24 by lia. by rewrite H2, H3.
Qed.

(** Nothing else completes the rest: two self-consistent records that agree outside the
    digest and the checksum are equal. *)
Lemma policy_unique a b :
  bytes_ok a -> bytes_ok b -> 80 <= len a -> canonical a -> canonical b -> sealed crc32c 20 a -> sealed crc32c 20 b ->
  same_policy a b -> a = b.
Proof.
  intros Ba Bb La Ca Cb Sa Sb P. pose proof (canonical_unique a b La Ca Cb P) as Hd. destruct P as (L & H1 & H2 & H3).
  apply (sealed_unique crc32c 20); try done; try lia.
  rewrite (slice_split 24 48 (len a)), (slice_split 48 80 (len a)), (slice_split 24 48 (len b)), (slice_split 48 80 (len b)) by lia.
  by rewrite H2, Hd, H3.
Qed.

(** A self-consistent record is left alone. *)
Lemma policy_repair_exact v :
  bytes_ok v -> 80 <= len v -> canonical v -> sealed crc32c 20 v -> repair_policy_canonical_digest v = Ok v.
Proof.
  intros Bv Lv Cv Sv. destruct (repair_policy_Ok v Bv Lv) as (r & -> & Br & Cr & Sr & Pr). f_equal. symmetry. by apply policy_unique.
Qed.

(** Repairing a policy record restores its canonical digest and its checksum and
    nothing else: any byte string of at least 80 bytes is repaired into one of
    the same length and the same bytes elsewhere whose digest covers its payload
    with the digest zeroed and whose checksum covers the whole record; it is
    the only such record, so repairing it again changes nothing. *)
Theorem policy_repair_restores v :
  bytes_ok v -> 80 <= len v ->
  exists r, repair_policy_canonical_digest v = Ok r /\ canonical r /\ sealed crc32c 20 r /\ same_policy v r /\
    repair_policy_canonical_digest r = Ok r /\
    forall r', bytes_ok r' -> canonical r' -> sealed crc32c 20 r' -> same_policy v r' -> r' = r.
Proof.
  intros Hv Hl. destruct (repair_policy_Ok v Hv Hl) as (r & Er & Br & Cr & Sr & Pr).
  assert (Lr : len r = len v) by (by destruct Pr).
  exists r. split; [done|]. split; [done|]. split; [done|]. split; [done|]. split; [apply policy_repair_exact; [done | lia | done | done]|].
  intros r' Br' Cr' Sr' Pr'. assert (len r' = len v) by (by destruct Pr'). apply policy_unique; try done; [lia|].
  unfold same_policy in *. destruct_and!. split_and!; congruence.
Qed.

(** ** Building the records *)

(** A payload of literal widths, total and of the asserted length. *)
Lemma payload_built ps ns n :
  Forall2 wide ps ns -> Forall fine ps -> Forall sound ps -> total_width ns = n ->
  exists p, join ps = Ok p /\ raw n p /\ assert_len n p = Ok tt.
Proof.
  intros W F S Hn. destruct (join_total ps F) as [p Ep]. exists p. pose proof (join_len _ _ _ W Ep) as L.
  split; [done|]. split; [split; [by rewrite L | by eapply join_sound]|].
  unfold assert_len. rewrite L, Hn, Z.eqb_refl. done.
Qed.

Lemma wide_service f : wide (service_identity_digest f) 32.
Proof. intros v E. unfold service_identity_digest in E. inv_res. apply digest_len. Qed.
Lemma sound_service f : sound (service_identity_digest f).
Proof. intros v E. unfold service_identity_digest in E. inv_res. apply digest_ok. Qed.
Lemma fine_service : fine (service_identity_digest common_nfl1_fields).
Proof.
  unfold service_identity_digest. destruct (join_total (service_identity_parts common_nfl1_fields)) as [x ->]; [|by eexists].
  unfold service_identity_parts. cbn [body common_nfl1_fields namespace service schema descriptor_revision schema_major schema_minor family].
  solve_fine.
Qed.

(** [solve_parts] proves the side conditions of a literal list of parts; [solve_all_parts]
    also knows the computed digests. *)
Ltac solve_raw :=
  lazymatch goal with
  | H : raw ?n ?v |- raw ?n ?v => exact H
  | H : raw _ ?v |- raw _ ?v => exact H
  | |- raw _ (sha256 _) => apply raw_sha
  | |- raw _ (pattern _ _) => apply raw_pattern; done
  | |- raw _ (zeros _) => apply raw_zeros; done
  | |- raw _ ZERO16 => apply raw_zeros; done
  | |- raw _ ZERO32 => apply raw_zeros; done
  end.
Ltac solve_part :=
  lazymatch goal with
  | |- wide (Ok _) _ => apply wide_raw; solve_raw
  | |- wide _ _ => apply wide_pack; reflexivity
  | |- sound (Ok _) => eapply sound_raw; solve_raw
  | |- sound _ => apply sound_pack
  | |- fine (Ok _) => apply fine_Ok
  | |- fine _ =>
      first [apply fine_u64 | apply fine_u32 | apply fine_u16 | apply fine_u8];
      first [assumption | split; [intros Hlt; discriminate Hlt | reflexivity]]
  end.
Ltac solve_parts :=
  repeat first [ apply Forall_nil_2 | apply Forall_cons_2 | apply Forall2_nil_2 | apply Forall2_cons_2 ]; solve_part.

Lemma owner_tuple_Ok : exists c, owner_tuple_canonical = Ok c /\ raw 200 c.
Proof.
  destruct (payload_built owner_tuple_parts [16; 8; 16; 16; 4; 16; 8; 16; 8; 32; 16; 8; 32; 4] 200) as (p & Ep & Hp & Ha).
  - unfold owner_tuple_parts. solve_parts.
  - unfold owner_tuple_parts. solve_parts.
  - unfold owner_tuple_parts. solve_parts.
  - done.
  - exists p. split; [|done]. unfold owner_tuple_canonical. by rewrite Ep, ok_bind, Ha.
Qed.
Lemma owner_digest_Ok : exists d, owner_tuple_digest = Ok d /\ raw 32 d.
Proof.
  destruct owner_tuple_Ok as (c & Ec & _). unfold owner_tuple_digest. rewrite Ec, ok_bind. eexists. split; [done|].
  split; [apply digest_len | apply digest_ok].
Qed.
Lemma wide_owner : wide owner_tuple_digest 32.
Proof. destruct owner_digest_Ok as (d & -> & L & _). by apply wide_Ok. Qed.
Lemma sound_owner : sound owner_tuple_digest.
Proof. destruct owner_digest_Ok as (d & -> & _ & B). by apply sound_Ok. Qed.
Lemma fine_owner : fine owner_tuple_digest.
Proof. destruct owner_digest_Ok as (d & -> & _). apply fine_Ok. Qed.

Ltac solve_all_parts :=
  repeat first [ apply Forall_nil_2 | apply Forall_cons_2 | apply Forall2_nil_2 | apply Forall2_cons_2 ];
  lazymatch goal with
  | |- wide (service_identity_digest _) _ => apply wide_service
  | |- sound (service_identity_digest _) => apply sound_service
  | |- fine (service_identity_digest _) => apply fine_service
  | |- wide owner_tuple_digest _ => apply wide_owner
  | |- sound owner_tuple_digest => apply sound_owner
  | |- fine owner_tuple_digest => apply fine_owner
  | |- _ => solve_part
  end.

(** *** Attempts *)

Record attempt_ok (a : attempt_args) : Prop := {
  ao_digests : Forall (raw 32) [at_policy_digest a; at_registry_record_digest a];
  ao_u32 : Forall u32_ok [at_state a; at_permit_generation a; at_permit_claim_state a];
  ao_u64 : Forall u64_ok
    [at_record_revision a; at_terminal_revision a; at_retry_expires_at_ms a; at_permit_expires_at_ms a] }.

Definition ATTEMPT_WIDTHS : list Z :=
  [16; 16; 4; 4; 4; 32; 16; 8; 32; 16; 8; 4; 4; 16; 8; 4; 16; 32; 8; 32; 32; 16; 8; 16; 32; 8; 16; 16; 32; 8; 16; 1; 7; 8;
   16; 16; 8; 4; 32; 16; 8; 16; 8; 32; 8; 16; 8; 4].

(** The key names the transaction, the attempt, the kind, the response slot and the message digest. *)
Definition attempt_key (f : nfl1_fields) (digest : bytes) : bytes :=
  bytes_of_string "FBA1" ++ transaction_id f ++ attempt_id f ++ be_bytes 4 (message_kind f) ++ be_bytes 4 (response_slot f) ++ digest.

Lemma response_slot_ok f : nfl1_ok f -> u32_ok (response_slot f).
Proof. intros H. open_nfl1_ok H. unfold response_slot, u32_ok. repeat case_match; lia. Qed.

Lemma foundation_digest_Ok f m : nfl1_ok f -> encode_nfl1 f = Ok m -> exists d, foundation_message_digest m = Ok d /\ raw 32 d.
Proof.
  intros H E. destruct (normalized_join f m H E) as (n & En & _). unfold foundation_message_digest. rewrite En, ok_bind.
  eexists. split; [done | apply raw_sha].
Qed.

Lemma attempt_key_Ok f d : nfl1_ok f -> raw 32 d ->
  join (attempt_key_parts {| id_kind := message_kind f; id_slot := response_slot f;
          id_transaction := transaction_id f; id_attempt := attempt_id f |} d) = Ok (attempt_key f d) /\ bytes_ok (attempt_key f d).
Proof.
  intros H [Ld Bd]. pose proof (response_slot_ok f H) as Hs. open_nfl1_ok H.
  unfold attempt_key_parts, attempt_key. cbn [id_kind id_slot id_transaction id_attempt join].
  unfold u32, u32_ok in *. rewrite !pack_total by (pack_range; lia). rewrite !ok_bind. split.
  - cbn [mret res_ret ok_bind]. rewrite app_nil_r. reflexivity.
  - rewrite !bytes_ok_app. split_and!; try done; auto using be_bytes_ok, bytes_of_string_ok.
Qed.

(** What the payload of an attempt says of the message and its packet [m]. *)
Definition attempt_holds (f : nfl1_fields) (m key digest : bytes) (a : attempt_args) (p : bytes) : Prop :=
  len p = 688 /\ slice 0 16 p = transaction_id f /\ slice 16 32 p = attempt_id f /\ be_val (slice 32 36 p) = message_kind f /\
  be_val (slice 36 40 p) = response_slot f /\ be_val (slice 40 44 p) = at_state a /\ slice 44 76 p = digest /\
  slice 100 132 p = at_policy_digest a /\ slice 248 280 p = at_registry_record_digest a /\
  slice 496 512 p = attempt_id f /\ slice 512 528 p = deadline_clock_epoch_id f /\
  be_val (slice 528 536 p) = absolute_effect_deadline_ms f /\ be_val (slice 536 540 p) = len m /\
  slice 540 572 p = sha256 m /\ slice 596 612 p = deadline_clock_epoch_id f /\
  be_val (slice 612 620 p) = at_retry_expires_at_ms a /\ slice 620 652 p = local_dispatch_id key.

Lemma deadline_of_encoding f m : nfl1_ok f -> encode_nfl1 f = Ok m ->
  unpack_u64_at 408 m = Ok (absolute_effect_deadline_ms f) /\ slice 392 408 m = deadline_clock_epoch_id f /\
  u32_ok (len m) /\ bytes_ok m.
Proof.
  intros H E. destruct (encoding_holds f H) as (m' & E' & Bm & Hm). rewrite E in E'. apply Ok_inj in E' as <-.
  open_nfl1_holds Hm. pose proof (len_nonneg (tail_of (body f))). pose proof (ok_u32 f H) as Hw.
  rewrite !Forall_cons in Hw. destruct_and!. unfold NFL1_HEADER, u32_ok in *. rewrite unpack_u64_at_Ok by lia.
  change (408 + 8) with 416. split_and!; try done; try lia. f_equal. assumption.
Qed.

Lemma permit_Ok key g : bytes_ok key -> u32_ok g -> exists p, permit_id key g = Ok p /\ raw 16 p.
Proof.
  intros Hk Hg. unfold permit_id. unfold u32_ok in Hg. cbn [join]. unfold u32. rewrite pack_total by (pack_range; lia). rewrite !ok_bind.
  eexists. split; [done|]. split; [rewrite len_slice; rewrite ?digest_len; lia | apply bytes_ok_slice, digest_ok].
Qed.

Lemma attempt_payload_built f m a d key permit :
  nfl1_ok f -> encode_nfl1 f = Ok m -> attempt_ok a -> raw 32 d -> bytes_ok key -> raw 16 permit ->
  exists p, join (attempt_payload_parts m a {| id_kind := message_kind f; id_slot := response_slot f;
         id_transaction := transaction_id f; id_attempt := attempt_id f |} (deadline_clock_epoch_id f)
         (absolute_effect_deadline_ms f) d key permit) = Ok p /\
    bytes_ok p /\ assert_len 688 p = Ok tt /\ attempt_holds f m key d a p.
Proof.
  intros H E Ha [Ld Bd] Bk [Lp Bp]. destruct (deadline_of_encoding f m H E) as (_ & _ & Hm & _). pose proof (response_slot_ok f H) as Hs.
  destruct Ha as [Da Ha32 Ha64].
  set (ps := attempt_payload_parts _ _ _ _ _ _ _ _).
  assert (Hdig : raw 32 (local_dispatch_id key)) by apply raw_sha.
  assert (Hps : Forall2 wide ps ATTEMPT_WIDTHS /\ Forall fine ps /\ Forall sound ps).
  { destruct H as [Hids _ _ H32 H64 _ _ _]. unfold ps, attempt_payload_parts. cbn [id_kind id_slot id_transaction id_attempt].
    repeat match goal with K : Forall _ (_ :: _) |- _ => apply Forall_cons in K as [? K] end.
    assert (raw 32 d) by done. assert (raw 16 permit) by done. assert (raw 32 (sha256 m)) by apply raw_sha. unfold ATTEMPT_WIDTHS. split_and!; solve_all_parts. }
  destruct Hps as (W & F & S). destruct (payload_built ps ATTEMPT_WIDTHS 688 W F S eq_refl) as (p & Ep & [L B] & Hl).
  exists p. split; [done|]. split; [done|]. split; [done|]. unfold attempt_holds. split; [done|].
  pose proof (join_reads _ _ _ W Ep) as R. unfold ps, attempt_payload_parts in R. cbn [id_kind id_slot id_transaction id_attempt] in R.
  read_all R. split_and!; read_known.
Qed.

(** The attempt record of an encodable message. *)
Lemma attempt_record_Ok f m a :
  nfl1_ok f -> encode_nfl1 f = Ok m -> attempt_ok a ->
  exists d p v, foundation_message_digest m = Ok d /\ attempt_record m a = Ok (attempt_key f d, v) /\
    attempt_holds f m (attempt_key f d) d a p /\ record_holds (bytes_of_string "FBA1") (at_record_revision a) p v.
Proof.
  intros H E Ha. destruct (foundation_digest_Ok f m H E) as (d & Ed & Hd). destruct (attempt_key_Ok f d H Hd) as [Ek Bk].
  destruct (deadline_of_encoding f m H E) as (Hdl & Hep & _).
  assert (Hg : u32_ok (at_permit_generation a)) by (destruct Ha as [_ Hu _]; rewrite !Forall_cons in Hu; by destruct_and!).
  assert (Hrev : u64_ok (at_record_revision a)) by (destruct Ha as [_ _ Hu]; rewrite !Forall_cons in Hu; by destruct_and!).
  destruct (permit_Ok (attempt_key f d) (at_permit_generation a) Bk Hg) as (permit & Epm & Hpm).
  destruct (attempt_payload_built f m a d (attempt_key f d) permit H E Ha Hd Bk Hpm) as (p & Ep & Bp & Hl & Hp).
  destruct (record_value_Ok (bytes_of_string "FBA1") (at_record_revision a) p) as (v & Ev & Hv);
    [split; [done | apply bytes_of_string_ok] | done | done | destruct Hp as [Hp _]; unfold u32_ok; lia|].
  exists d, p, v. split; [done|]. split; [|done]. unfold attempt_record.
  rewrite (identity_of_encoding f m H E), ok_bind, Hdl, ok_bind, Ed, ok_bind, Ek, ok_bind, Epm, ok_bind, Hep, Ep, ok_bind, Hl, ok_bind, Ev.
  done.
Qed.

(** An attempt record binds its packet: for an encodable message and arguments in
    range the record is built; its payload names the transaction, the attempt, the
    kind, the response slot, the deadline and its clock, the length and the
    digest of the packet; its key does not change when the Fabric pins another
    authority or route to the same message, and two messages with one key are
    the same transaction, attempt, kind and slot. *)
Theorem attempt_record_binds f m a g mg b :
  nfl1_ok f -> encode_nfl1 f = Ok m -> attempt_ok a -> nfl1_ok g -> encode_nfl1 g = Ok mg -> attempt_ok b ->
  exists d p key v key' v', attempt_record m a = Ok (key, v) /\ attempt_record mg b = Ok (key', v') /\
    foundation_message_digest m = Ok d /\ attempt_holds f m key d a p /\
    record_holds (bytes_of_string "FBA1") (at_record_revision a) p v /\
    (same_message f g -> key = key') /\
    (key = key' -> transaction_id f = transaction_id g /\ attempt_id f = attempt_id g /\ message_kind f = message_kind g /\
                   response_slot f = response_slot g).
Proof.
  intros Hf Ef Ha Hg Eg Hb. destruct (attempt_record_Ok f m a Hf Ef Ha) as (d & p & v & Ed & Er & Hp & Hv).
  destruct (attempt_record_Ok g mg b Hg Eg Hb) as (d' & p' & v' & Ed' & Er' & Hp' & Hv').
  exists d, p, (attempt_key f d), v, (attempt_key g d'), v'. split; [done|]. split; [done|]. split; [done|]. split; [done|]. split; [done|]. split.
  - intros Hs. assert (d = d') as <-.
    { unfold foundation_message_digest in Ed, Ed'. rewrite (normalized_same f g m mg Hf Hg Ef Eg Hs) in Ed. rewrite Ed in Ed'. by apply Ok_inj. }
    destruct Hs as (H1 & _ & H3). injection H1 as K1 K2 K3 K4 K5 K6 K7. injection H3 as M1 M2 M3 M4 M5 M6.
    unfold attempt_key, response_slot. by rewrite K1, K3, K4, M5.
  - intros Hk. pose proof (response_slot_ok f Hf) as S1. pose proof (response_slot_ok g Hg) as S2.
    pose proof (ok_ids f Hf) as I1. pose proof (ok_ids g Hg) as I2. pose proof (ok_u32 f Hf) as U1. pose proof (ok_u32 g Hg) as U2.
    rewrite !Forall_cons in I1. rewrite !Forall_cons in I2. rewrite !Forall_cons in U1. rewrite !Forall_cons in U2.
    unfold raw, u32_ok, len in *. destruct_and!. unfold attempt_key in Hk. apply app_inv_head in Hk.
    apply app_inj_1 in Hk as [-> Hk]; [|lia]. apply app_inj_1 in Hk as [-> Hk]; [|lia].
    apply app_inj_1 in Hk as [Hk1 Hk]; [|by rewrite !length_be_bytes]. apply app_inj_1 in Hk as [Hk2 _]; [|by rewrite !length_be_bytes].
    apply (f_equal be_val) in Hk1, Hk2. rewrite !be_val_be_bytes in Hk1. rewrite !be_val_be_bytes in Hk2.
    change (256 ^ Z.of_nat 4) with 4294967296 in *. rewrite !Z.mod_small in Hk1 by lia. rewrite !Z.mod_small in Hk2 by lia. done.
Qed.

(** *** Policies *)

Definition entry_ok (c : policy_entry) : Prop := raw 16 (pe_instance_id c) /\ u16_ok (pe_rank c) /\ u16_ok (pe_flags c) /\ u16_ok (pe_units c).

(** The 24 bytes of a candidate. *)
Definition entry_bytes (c : policy_entry) : bytes :=
  pe_instance_id c ++ be_bytes 2 (pe_rank c) ++ be_bytes 2 (pe_flags c) ++ be_bytes 2 (pe_units c) ++ be_bytes 2 0.

Lemma entry_raw c : entry_ok c -> raw 24 (entry_bytes c).
Proof.
  intros ([L B] & _). unfold entry_bytes. split; [rewrite !len_app, !len_be_bytes; lia|].
  rewrite !bytes_ok_app. auto using be_bytes_ok.
Qed.

Lemma entries_joined cs :
  Forall entry_ok cs -> join (concat (map policy_entry_parts cs)) = Ok (concat (map entry_bytes cs)).
Proof.
  induction 1 as [|c cs (_ & H2 & H3 & H4) _ IH]; [done|]. cbn [map concat]. rewrite join_app, IH.
  unfold policy_entry_parts. cbn [join]. unfold u16, u16_ok in *. rewrite !pack_total by (pack_range; lia). rewrite !ok_bind.
  reflexivity.
Qed.

Lemma entries_raw cs : Forall entry_ok cs -> raw (24 * len cs) (concat (map entry_bytes cs)).
Proof.
  induction 1 as [|c cs H _ IH]; [split; [done | constructor]|]. cbn [map concat]. rewrite len_cons.
  replace (24 * (1 + len cs)) with (24 + 24 * len cs) by lia. apply raw_app; [by apply entry_raw | done].
Qed.

Lemma padding_raw k : raw (24 * Z.of_nat k) (concat (replicate k (zeros 24))).
Proof.
  induction k as [|k IH]; [split; [done | constructor]|]. cbn [replicate concat].
  replace (24 * Z.of_nat (S k)) with (24 + 24 * Z.of_nat k) by lia. apply raw_app; [by apply raw_zeros | done].
Qed.

Lemma padding_zeros k n : n = 24 * Z.of_nat k -> concat (replicate k (zeros 24)) = zeros n.
Proof.
  intros ->. induction k as [|k IH]; [done|]. cbn [replicate concat]. rewrite IH. unfold zeros. rewrite <- replicate_add. f_equal. lia.
Qed.

Record policy_ok (a : policy_args) : Prop := {
  po_selector : u16_ok (scope_selector a); po_mode : is_byte (authority_mode a); po_revision : u64_ok (policy_revision a);
  po_candidates : Forall entry_ok (default DEFAULT_CANDIDATES (candidates a)) }.

Definition POLICY_WIDTHS : list Z := [16; 8; 32; 32; 4; 4; 2; 2; 4; 4; 2; 2; 4; 1; 3; 8; 2; 2; 4; 192].

(** What the payload of a policy holds. *)
Definition policy_holds (a : policy_args) (cs : list policy_entry) (digest p : bytes) : Prop :=
  len p = 328 /\ slice 0 16 p = pattern (policy_id_start a) 16 /\ be_val (slice 16 24 p) = policy_revision a /\
  slice 24 56 p = digest /\ be_val (slice 98 100 p) = scope_selector a /\ be_val (slice 112 116 p) = 587 /\
  slice 116 117 p = [authority_mode a] /\ be_val (slice 128 130 p) = len cs /\
  slice 136 (136 + 24 * len cs) p = concat (map entry_bytes cs) /\
  slice (136 + 24 * len cs) 328 p = zeros (192 - 24 * len cs).

Lemma policy_payload_built a :
  policy_ok a -> len (default DEFAULT_CANDIDATES (candidates a)) <= 8 ->
  exists p, policy_payload_with_zero_digest a = Ok p /\ raw 328 p /\
    policy_holds a (default DEFAULT_CANDIDATES (candidates a)) ZERO32 p.
Proof.
  intros [Hsel Hmode Hrev Hcs] Hn. set (cs := default DEFAULT_CANDIDATES (candidates a)) in *.
  pose proof (len_nonneg cs) as N. pose proof (entries_raw cs Hcs) as [Le Be].
  set (entries := concat (map entry_bytes cs)) in *. pose proof (padding_raw (Z.to_nat (8 - len cs))) as [Lq Bq].
  set (padding := concat (replicate (Z.to_nat (8 - len cs)) (zeros 24))) in *.
  assert (Hslots : raw 192 (entries ++ padding)) by (split; [rewrite len_app; lia | by apply bytes_ok_app]).
  set (ps := policy_payload_parts a (service_identity_digest common_nfl1_fields) (len cs) (entries ++ padding)).
  assert (Hc : u16_ok (len cs)) by (unfold u16_ok; lia).
  assert (Hps : Forall2 wide ps POLICY_WIDTHS /\ Forall fine ps /\ Forall sound ps)
    by (unfold ps, policy_payload_parts, POLICY_WIDTHS; split_and!; solve_all_parts).
  destruct Hps as (W & F & S). destruct (payload_built ps POLICY_WIDTHS 328 W F S eq_refl) as (p & Ep & Hp & Hl).
  exists p. split; [|split; [done|]].
  - unfold policy_payload_with_zero_digest. fold cs. rewrite entries_joined, ok_bind by done. cbv zeta. fold entries padding ps.
    by rewrite Ep, ok_bind, Hl.
  - pose proof (join_reads _ _ _ W Ep) as R. unfold ps, policy_payload_parts in R. read_all R.
    match goal with K : Ok (entries ++ padding) = Ok (slice _ _ p) |- _ => apply Ok_inj in K; rename K into Ks end.
    assert (E1 : slice 136 (136 + 24 * len cs) p = entries).
    { replace (slice 136 (136 + 24 * len cs) p) with (slice 0 (24 * len cs) (slice 136 328 p)) by (rewrite slice_slice by lia; f_equal; lia).
      rewrite <- Ks. by apply slice_app_exact. }
    assert (E2 : slice (136 + 24 * len cs) 328 p = zeros (192 - 24 * len cs)).
    { replace (slice (136 + 24 * len cs) 328 p) with (slice (24 * len cs) 192 (slice 136 328 p)) by (rewrite slice_slice by lia; f_equal; lia).
      rewrite <- Ks, slice_app_r by lia. rewrite slice_whole by lia. apply padding_zeros. lia. }
    unfold policy_holds. destruct Hp as [Lp _]. split_and!; try read_known; try done.
    match goal with K : u8 _ = Ok ?x |- ?x = _ => unfold u8 in K; rewrite pack_total in K by exact Hmode; apply Ok_inj in K; rewrite <- K end.
    cbn. rewrite Z.div_1_r. unfold is_byte in Hmode. by rewrite Z.mod_small by lia.
Qed.

(** Storing the digest keeps every other part of the payload. *)
Lemma policy_digest_stored a cs p d :
  raw 328 p -> raw 32 d -> len cs <= 8 -> policy_holds a cs ZERO32 p ->
  raw 328 (slice_assign 24 56 d p) /\ policy_holds a cs d (slice_assign 24 56 d p) /\
  slice_assign 24 56 ZERO32 (slice_assign 24 56 d p) = p.
Proof.
  intros [Lp Bp] [Ld Bd] Hn Hp. pose proof (len_nonneg cs) as N. set (q := slice_assign 24 56 d p).
  assert (Lq : len q = 328) by (unfold q; rewrite len_slice_assign by lia; done).
  assert (R : forall x y, 0 <= x <= y -> y <= 24 \/ 56 <= x -> slice x y q = slice x y p) by (intros; apply slice_assign_other; lia).
  destruct Hp as (_ & H1 & H2 & H3 & H4 & H5 & H6 & H7 & H8 & H9). split; [split; [done | by apply slice_assign_ok]|]. split.
  - assert (Hd : slice 24 56 q = d) by (apply slice_assign_read; lia).
    unfold policy_holds. rewrite Hd, !R by lia. split_and!; done.
  - unfold q. rewrite slice_assign_twice by (rewrite ?(eq_refl : len ZERO32 = 32); lia).
    rewrite slice_assign_parts by lia. rewrite <- H3, <- !slice_split by lia. by rewrite slice_all.
Qed.

Lemma policy_too_many a :
  policy_ok a -> 8 < len (default DEFAULT_CANDIDATES (candidates a)) <= 65535 -> policy_payload_with_zero_digest a = Raise (AssertionError "").
Proof.
  intros [Hsel Hmode Hrev Hcs] Hn. unfold policy_payload_with_zero_digest. set (cs := default DEFAULT_CANDIDATES (candidates a)) in *.
  rewrite entries_joined, ok_bind by done. cbv zeta. replace (Z.to_nat (8 - len cs)) with O by lia. cbn [replicate concat]. rewrite app_nil_r.
  pose proof (entries_raw cs Hcs) as Hraw. set (entries := concat (map entry_bytes cs)) in *.
  set (ps := policy_payload_parts a (service_identity_digest common_nfl1_fields) (len cs) entries).
  assert (Hc : u16_ok (len cs)) by (unfold u16_ok; lia).
  set (ns := take 19 POLICY_WIDTHS ++ [24 * len cs]).
  assert (Hps : Forall2 wide ps ns /\ Forall fine ps /\ Forall sound ps)
    by (unfold ps, policy_payload_parts, ns, POLICY_WIDTHS; cbn [take app]; split_and!; solve_all_parts).
  destruct Hps as (W & F & S). destruct (join_total ps F) as [p Ep]. rewrite Ep, ok_bind.
  pose proof (join_len _ _ _ W Ep) as L. unfold ns in L. rewrite total_width_app in L. change (total_width (take 19 POLICY_WIDTHS)) with 136 in L.
  cbn in L. unfold assert_len. by rewrite (proj2 (Z.eqb_neq (len p) 328)) by lia.
Qed.

Lemma policy_record_Ok a :
  policy_ok a ->
  let cs := default DEFAULT_CANDIDATES (candidates a) in
  len cs <= 8 -> exists v z p,
    policy_payload_with_zero_digest a = Ok z /\
    policy_record a = Ok ((bytes_of_string "FBP1" ++ pattern (policy_id_start a) 16 ++ be_bytes 8 (policy_revision a), v),
                          tagged_digest POLICY_TAG z) /\
    record_holds (bytes_of_string "FBP1") 1 p v /\ policy_holds a cs (tagged_digest POLICY_TAG z) p /\ canonical v /\
    repair_policy_canonical_digest v = Ok v.
Proof.
  intros H cs Hn.
  destruct (policy_payload_built a H Hn) as (z & Ez & Hz & Hhold). fold cs in Hhold.
  set (d := tagged_digest POLICY_TAG z). assert (Hd : raw 32 d) by apply raw_sha.
  destruct (policy_digest_stored a cs z d Hz Hd Hn Hhold) as ([Lp Bp] & Hp & Hback).
  set (p := slice_assign 24 56 d z) in *.
  destruct (record_value_Ok (bytes_of_string "FBP1") 1 p) as (v & Ev & Hv);
    [split; [done | apply bytes_of_string_ok] | done | done | unfold u32_ok; lia|].
  pose proof Hv as (Bv & Lv & _ & _ & _ & _ & _ & Hpay & Sv).
  assert (Hin : forall x y, 0 <= x <= y -> y <= 328 -> slice (24 + x) (24 + y) v = slice x y p).
  { intros x y Hx Hy. rewrite <- Hpay. by rewrite slice_slice by lia. }
  assert (Hcan : canonical v).
  { unfold canonical. rewrite tail_from_24 by lia.
    change (slice 48 80 v) with (slice (24 + 24) (24 + 56) v). change (slice 24 48 v) with (slice (24 + 0) (24 + 24) v).
    rewrite (Hin 24 56), (Hin 0 24) by lia.
    replace (slice 80 (len v) v) with (slice 56 328 p) by (rewrite <- Hin by lia; f_equal; lia).
    unfold p at 1. rewrite slice_assign_read by (destruct Hz, Hd; lia). unfold d at 1. f_equal.
    rewrite <- Hback. rewrite slice_assign_parts by lia. by rewrite Lp. }
  exists v, z, p. split; [done|]. split.
  - unfold policy_record. rewrite Ez, ok_bind. cbv zeta. fold d. destruct Hd as [Ld _].
    cbn [run_writes write_at w_val w_lo w_hi]. rewrite !ok_bind, Ld. change (24 + 32) with 56. fold p.
    cbn [join]. unfold u64. rewrite pack_total by (destruct H as [_ _ Hr _]; unfold u64_ok in Hr; pack_range; lia).
    rewrite !ok_bind, Ev, ok_bind. by rewrite app_nil_r.
  - split; [done|]. split; [done|]. split; [done|].
    apply policy_repair_exact; [done | lia | done | done].
Qed.

(** A policy record is self-consistent: for at most eight candidates with values in
    range it is built, holds the identifier, the revision, the selector, the mode
    and the candidates in order (zero-padded), its digest covers the payload with
    the digest zeroed, its checksum covers the record, and the repair routine
    leaves it alone; with more candidates the size assertion fails. *)
Theorem policy_record_canonical a :
  policy_ok a ->
  let cs := default DEFAULT_CANDIDATES (candidates a) in
  (len cs <= 8 -> exists v d p,
     policy_record a = Ok ((bytes_of_string "FBP1" ++ pattern (policy_id_start a) 16 ++ be_bytes 8 (policy_revision a), v), d) /\
     record_holds (bytes_of_string "FBP1") 1 p v /\ policy_holds a cs d p /\ canonical v /\
     repair_policy_canonical_digest v = Ok v) /\
  (8 < len cs <= 65535 -> policy_record a = Raise (AssertionError "")).
Proof.
  intros H cs. split; intros Hn; [|unfold policy_record; by rewrite policy_too_many].
  destruct (policy_record_Ok a H Hn) as (v & z & p & _ & E & Hp). by exists v, (tagged_digest POLICY_TAG z), p.
Qed.

(** *** Authority bindings *)

Definition AUTHORITY_WIDTHS : list Z :=
  [16; 32; 4; 4; 2; 2; 16; 16; 16; 16; 8; 32; 4; 16; 8; 4; 4; 16; 32; 200; 16; 8; 8; 8].

(** The owner of a binding and its digest. *)
Definition owner_holds (bound : bool) (p : bytes) : Prop :=
  if bound then
    exists c, owner_tuple_canonical = Ok c /\ slice 248 448 p = c /\
      slice 216 248 p = tagged_digest (bytes_of_string "NINLIL-FABRIC-OWNER-TUPLE-V1") c /\
      slice 168 184 p = authority_id (authority common_nfl1_fields) /\ be_val (slice 184 192 p) = 17 /\
      be_val (slice 464 472 p) = 300000
  else slice 168 184 p = ZERO16 /\ be_val (slice 184 192 p) = 0 /\ slice 216 248 p = ZERO32 /\ slice 248 448 p = zeros 200 /\
    be_val (slice 464 472 p) = 0.

Definition authority_holds (policy_digest : bytes) (a : authority_args) (p : bytes) : Prop :=
  len p = 488 /\ slice 0 16 p = pattern (au_binding_start a) 16 /\ be_val (slice 58 60 p) = au_scope_selector a /\
  slice 60 76 p = runtime_id (if au_scope_selector a =? 1 then source common_nfl1_fields else target common_nfl1_fields) /\
  slice 76 92 p = runtime_id (target common_nfl1_fields) /\ slice 108 124 p = pattern (au_policy_id_start a) 16 /\
  be_val (slice 124 132 p) = au_policy_revision a /\ slice 132 164 p = policy_digest /\ be_val (slice 164 168 p) = au_state a.

Lemma owner_of_state_Ok s :
  s = 0 \/ s = 1 ->
  exists o, owner_of_state common_nfl1_fields s = Ok o /\ raw 16 (authority_id (ow_authority o)) /\
    u64_ok (authority_term (ow_authority o)) /\ u32_ok (assignment_epoch (ow_authority o)) /\ raw 16 (ow_scope_id o) /\
    raw 32 (ow_digest o) /\ raw 200 (ow_canonical o) /\ raw 16 (ow_clock_epoch_id o) /\ u64_ok (ow_lease_expires_at_ms o) /\
    (if s =? 1 then owner_tuple_canonical = Ok (ow_canonical o) /\ owner_tuple_digest = Ok (ow_digest o) /\
                    ow_authority o = authority common_nfl1_fields /\ ow_lease_expires_at_ms o = 300000
     else ow_authority o = {| authority_id := ZERO16; authority_term := 0; assignment_epoch := 0 |} /\ ow_digest o = ZERO32 /\
          ow_canonical o = zeros 200 /\ ow_lease_expires_at_ms o = 0).
Proof.
  unfold owner_of_state. intros [-> | ->]; cbn [Z.eqb].
  - eexists. split; [done|]. cbn. split_and!; try (apply raw_zeros; done); try done; split; done.
  - destruct owner_tuple_Ok as (c & Ec & Hc). destruct owner_digest_Ok as (d & Ed & Hd). rewrite Ed, Ec, !ok_bind.
    eexists. split; [done|]. cbn. split_and!; try (apply raw_pattern; done); try done; split; done.
Qed.

Lemma endpoint_of_scope_Ok s :
  s = 1 \/ s = 2 ->
  let e := runtime_id (if s =? 1 then source common_nfl1_fields else target common_nfl1_fields) in
  endpoint_of_scope common_nfl1_fields s = Ok e /\ raw 16 e /\ u16_ok s.
Proof. intros [-> | ->]; (split; [done|]; split; [apply raw_pattern; done | done]). Qed.

Lemma two_values (v x y : Z) : bool_decide (v ∈ [x; y]) = true <-> v = x \/ v = y.
Proof. rewrite bool_decide_eq_true, !elem_of_cons, elem_of_nil. tauto. Qed.
Lemma not_two_values (v x y : Z) : bool_decide (v ∈ [x; y]) = false -> (v =? x) = false /\ (v =? y) = false.
Proof. rewrite bool_decide_eq_false, !elem_of_cons, elem_of_nil, !Z.eqb_neq. tauto. Qed.

Lemma authority_built policy_digest a :
  raw 32 policy_digest -> u64_ok (au_policy_revision a) -> au_scope_selector a = 1 \/ au_scope_selector a = 2 ->
  au_state a = 0 \/ au_state a = 1 ->
  exists p v, authority_record policy_digest a = Ok (bytes_of_string "FBC1" ++ pattern (au_binding_start a) 16, v) /\
    record_holds (bytes_of_string "FBC1") 11 p v /\ authority_holds policy_digest a p /\ owner_holds (au_state a =? 1) p.
Proof.
  intros Hd Hr Hs Ht. destruct (endpoint_of_scope_Ok _ Hs) as (Ee & He & Hsel).
  destruct (owner_of_state_Ok _ Ht) as (o & Eo & O1 & O2 & O3 & O4 & O5 & O6 & O7 & O8 & Hcase).
  assert (Hst : u32_ok (au_state a)) by (unfold u32_ok; destruct Ht as [-> | ->]; done).
  unfold authority_record. cbv zeta. rewrite Ee, ok_bind, Eo, ok_bind. clear Ee Eo.
  set (e := runtime_id (if au_scope_selector a =? 1 then _ else _)) in *.
  set (ps := authority_payload_parts policy_digest a common_nfl1_fields e o).
  assert (Hps : Forall2 wide ps AUTHORITY_WIDTHS /\ Forall fine ps /\ Forall sound ps).
  { unfold ps, authority_payload_parts, AUTHORITY_WIDTHS. cbn [family target common_nfl1_fields runtime_id application_id].
    cbv zeta. split_and!; solve_all_parts. }
  destruct Hps as (W & F & S). destruct (payload_built ps AUTHORITY_WIDTHS 488 W F S eq_refl) as (p & Ep & [Lp Bp] & Hl).
  destruct (record_value_Ok (bytes_of_string "FBC1") 11 p) as (v & Ev & Hv);
    [split; [done | apply bytes_of_string_ok] | done | done | unfold u32_ok; lia|].
  exists p, v. split; [by rewrite Ep, ok_bind, Hl, ok_bind, Ev|]. split; [done|].
  pose proof (join_reads _ _ _ W Ep) as R. unfold ps, authority_payload_parts in R. cbv zeta in R. read_all R.
  split; [unfold authority_holds; split_and!; first [done | read_known]|].
  unfold owner_holds. destruct (au_state a =? 1); destruct Hcase as (C1 & C2 & C3 & C4).
  - exists (ow_canonical o). unfold owner_tuple_digest in C2. rewrite C1, ok_bind in C2. apply Ok_inj in C2. rewrite C2.
    rewrite C3, C4 in *. split_and!; first [done | read_known].
  - rewrite C1, C2, C3, C4 in *. split_and!; read_known.
Qed.

(** An authority binding is built exactly for the scope selectors SOURCE (1) and
    TARGET (2) and the states ABSENT (0) and BOUND (1), the scope being checked
    first; it names the endpoint its selector selects, the policy identifier,
    revision and digest; a BOUND record holds the owner tuple, its digest, the
    authority and the lease, an ABSENT one holds zeros there. *)
Theorem authority_record_exact policy_digest a :
  raw 32 policy_digest -> u64_ok (au_policy_revision a) ->
  let known_scope := bool_decide (au_scope_selector a ∈ [1; 2]) in
  let known_state := bool_decide (au_state a ∈ [0; 1]) in
  (known_scope = false -> authority_record policy_digest a = Raise (ValueError "unknown scope selector")) /\
  (known_scope = true -> known_state = false -> authority_record policy_digest a = Raise (ValueError "unknown authority state")) /\
  (known_scope = true -> known_state = true -> exists p v,
     authority_record policy_digest a = Ok (bytes_of_string "FBC1" ++ pattern (au_binding_start a) 16, v) /\
     record_holds (bytes_of_string "FBC1") 11 p v /\ authority_holds policy_digest a p /\ owner_holds (au_state a =? 1) p).
Proof.
  intros Hd Hr known_scope known_state. unfold known_scope, known_state. split; [|split].
  - intros [H1 H2]%not_two_values. unfold authority_record, endpoint_of_scope. by rewrite H1, H2.
  - intros Hs%two_values [H1 H2]%not_two_values. destruct (endpoint_of_scope_Ok _ Hs) as (Ee & _).
    unfold authority_record. cbv zeta. rewrite Ee, ok_bind. unfold owner_of_state. by rewrite H1, H2.
  - intros Hs%two_values Ht%two_values. by apply authority_built.
Qed.

(** *** Triggers and metadata *)

Definition TRIGGER_WIDTHS : list Z := [16; 16; 4; 4; 16; 16; 16; 8; 4; 4; 32; 16; 8; 32; 16; 8; 8].

Lemma policy_defaults_ok : policy_ok policy_defaults.
Proof.
  split; try done. cbn. repeat first [apply Forall_cons_2 | apply Forall_nil_2]; (split; [apply raw_pattern; done | done]).
Qed.

(** A trigger record names what triggered it: the transaction, the attempt (the
    second one for a cancellation, kind 4), the kind, and the canonical digest of the policy
    record the generator builds from the same defaults. *)
Theorem trigger_names_policy kind :
  u32_ok kind ->
  exists p v pv d, trigger_record kind = Ok (bytes_of_string "FBT1" ++ pattern 0x10 16 ++
      pattern (if kind =? 4 then 0x28 else 0x20) 16 ++ be_bytes 4 kind, v) /\
    record_holds (bytes_of_string "FBT1") 1 p v /\ len p = 224 /\ slice 0 16 p = pattern 0x10 16 /\
    slice 16 32 p = pattern (if kind =? 4 then 0x28 else 0x20) 16 /\ be_val (slice 32 36 p) = kind /\
    policy_record policy_defaults = Ok pv /\ pv.2 = d /\ slice 160 192 p = d.
Proof.
  intros Hk. unfold trigger_record. cbv zeta. set (attempt := pattern (if kind =? 4 then 0x28 else 0x20) 16).
  assert (Hat : raw 16 attempt) by (apply raw_pattern; done).
  assert (Hlen : len (default DEFAULT_CANDIDATES (candidates policy_defaults)) <= 8) by (change (2 <= 8); lia).
  destruct (policy_record_Ok policy_defaults policy_defaults_ok Hlen) as (pv & z & q & Ez & Epv & _).
  rewrite Ez, ok_bind. change (sha256 (POLICY_TAG ++ z)) with (tagged_digest POLICY_TAG z).
  set (d := tagged_digest POLICY_TAG z) in *. assert (Hd : raw 32 d) by apply raw_sha.
  assert (Hpol : exists pv, policy_record policy_defaults = Ok (pv, d)) by (eexists; exact Epv). clearbody d. clear pv z q Ez Epv.
  set (ps := trigger_payload_parts kind attempt d).
  assert (Hps : Forall2 wide ps TRIGGER_WIDTHS /\ Forall fine ps /\ Forall sound ps)
    by (unfold ps, trigger_payload_parts, TRIGGER_WIDTHS; split_and!; solve_all_parts).
  destruct Hps as (W & F & S). destruct (payload_built ps TRIGGER_WIDTHS 224 W F S eq_refl) as (p & Ep & [Lp Bp] & Hl).
  destruct (record_value_Ok (bytes_of_string "FBT1") 1 p) as (v & Ev & Hv);
    [split; [done | apply bytes_of_string_ok] | done | done | unfold u32_ok; lia|].
  destruct Hpol as [pv Epv]. exists p, v, (pv, d), d. split.
  { rewrite Ep, ok_bind, Hl, ok_bind. cbn [join]. unfold u32. rewrite pack_total by (unfold u32_ok in Hk; pack_range; lia).
    rewrite !ok_bind, Ev, ok_bind. by rewrite app_nil_r. }
  pose proof (join_reads _ _ _ W Ep) as R. unfold ps, trigger_payload_parts in R. read_all R.
  split; [exact Hv|]. split; [exact Lp|]. split; [read_known|]. split; [read_known|]. split; [read_known|].
  split; [exact Epv|]. split; [reflexivity|]. read_known.
Qed.

(** ** Concrete records *)

Lemma policy_repair_restores_witness :
  exists r, repair_policy_canonical_digest (zeros 100) = Ok r /\ canonical r /\ repair_policy_canonical_digest r = Ok r.
Proof.
  destruct (policy_repair_restores (zeros 100) (zeros_ok 100) ltac:(rewrite len_zeros; lia)) as (r & E & C & _ & _ & F & _).
  exists r. exact (conj E (conj C F)).
Defined.

Lemma attempt_defaults_ok : attempt_ok (attempt_defaults (pattern 0x11 32) (pattern 0x22 32)).
Proof.
  split; repeat first [ apply Forall_nil_2 | apply Forall_cons_2 ]; try (apply raw_pattern; done);
    (split; [intros Hlt; discriminate Hlt | reflexivity]).
Qed.

Lemma attempt_record_binds_witness :
  exists m key v, encode_nfl1 common_nfl1_fields = Ok m /\
    attempt_record m (attempt_defaults (pattern 0x11 32) (pattern 0x22 32)) = Ok (key, v).
Proof.
  destruct common_encoded as [m E].
  destruct (attempt_record_binds common_nfl1_fields m _ common_nfl1_fields m _ common_ok E attempt_defaults_ok common_ok E attempt_defaults_ok)
    as (d & p & key & v & _ & _ & R & _). exists m, key, v. exact (conj E R).
Defined.

Lemma policy_record_canonical_witness :
  exists v d p, policy_record policy_defaults = Ok ((bytes_of_string "FBP1" ++ pattern 0x71 16 ++ be_bytes 8 3, v), d) /\
    policy_holds policy_defaults DEFAULT_CANDIDATES d p.
Proof.
  destruct (proj1 (policy_record_canonical policy_defaults policy_defaults_ok)) as (v & d & p & E & _ & H & _);
    [change (2 <= 8); lia|]. exists v, d, p. exact (conj E H).
Defined.

Lemma authority_record_exact_witness :
  (exists p v, authority_record (zeros 32) authority_defaults = Ok (bytes_of_string "FBC1" ++ pattern 0xB8 16, v) /\ owner_holds true p) /\
  authority_record (zeros 32) {| au_scope_selector := 2; au_state := 5; au_binding_start := 0; au_policy_id_start := 0;
    au_policy_revision := 3 |} = Raise (ValueError "unknown authority state").
Proof.
  assert (Hr : u64_ok 3) by (split; lia). split.
  - destruct (authority_record_exact (zeros 32) authority_defaults (raw_zeros 32 ltac:(lia)) Hr) as (_ & _ & H).
    destruct (H eq_refl eq_refl) as (p & v & E & _ & _ & O). exists p, v. exact (conj E O).
  - exact (proj1 (proj2 (authority_record_exact (zeros 32) {| au_scope_selector := 2; au_state := 5; au_binding_start := 0;
      au_policy_id_start := 0; au_policy_revision := 3 |} (raw_zeros 32 ltac:(lia)) Hr)) eq_refl eq_refl).
Defined.

Lemma trigger_names_policy_witness :
  exists p v, trigger_record 4 = Ok (bytes_of_string "FBT1" ++ pattern 0x10 16 ++ pattern 0x28 16 ++ be_bytes 4 4, v) /\
    slice 16 32 p = pattern 0x28 16.
Proof.
  destruct (trigger_names_policy 4 ltac:(split; lia)) as (p & v & pv & d & E & _ & _ & _ & H & _). exists p, v. exact (conj E H).
Defined.
