(* ===== verification/FabricSelect.v ===== *)
(** Path selection of the Fabric bearer: the policy join, the hard filters in their
    normative order, and the choice of the least eligible candidate
    ([select_candidate] of [tools/fabric_bearer_spec_vector_gen.py]). *)

From S2P Require Import Prelude Order Bytes.
From stdpp Require Import sorting.
#[local] Open Scope Z_scope.

(** ** The snapshot *)

(** The decoded rows and the query of one admission.  Identifiers and digests are
    lower-case hexadecimal text, as in the source; a Python truth value is a
    [bool], every integer is unbounded. *)
Record query := {
  q_service_identity_digest_hex : string; q_family : Z; q_direction : Z; q_traffic_class : Z;
  q_source_runtime_id_hex : string; q_target_runtime_id_hex : string; q_target_application_id_hex : string;
  q_packet_bytes : Z; q_transfer_bytes : Z;
  q_deadline_clock_epoch_id_hex : string; q_admission_clock_epoch_id_hex : string; q_deadline_ms : Z; q_now_ms : Z;
  q_required_capability_flags : Z; q_requires_sleep_compatible : bool; q_required_security_flags : Z;
  q_requires_custody : bool; q_requires_evidence : bool;
  q_authenticated_peer_runtime_id_hex : string; q_attachment_authority_id_hex : string;
  q_attachment_binding_digest_hex : string; q_attestation_clock_epoch_id_hex : string;
  q_availability_clock_epoch_id_hex : string; q_authority_clock_epoch_id_hex : string;
  q_rf_permit_valid : bool; q_rf_mapping_accepted : bool }.

Record policy_candidate := { c_instance_id_hex : string; c_rank : Z; c_reservation_units : Z }.

Record policy := {
  p_policy_id_hex : string; p_revision : Z; p_revision_chain : list Z; p_canonical_digest_hex : string;
  p_service_identity_digest_hex : string; p_family : Z; p_direction : Z; p_traffic_class : Z; p_scope_selector : string;
  p_required_capability_flags : Z; p_required_security_flags : Z; p_maximum_latency_class : Z; p_maximum_cost_class : Z;
  p_minimum_packet_bytes : Z; p_authority_mode : string; p_deadline_guard_ms : Z; p_candidates : list policy_candidate }.

Record registry_row := {
  r_instance_id_hex : string; r_record_revision : Z; r_lifecycle : string; r_direction_mask : Z; r_link_kind : string;
  r_capability_flags : Z; r_maximum_packet_bytes : Z; r_maximum_transfer_bytes : Z; r_latency_class : Z; r_cost_class : Z;
  r_reservation_capacity : Z; r_security_capability_flags : Z; r_peer_nfl1_version : Z; r_peer_fabric_capability_flags : Z;
  r_authenticated_peer_runtime_id_hex : string; r_attachment_authority_id_hex : string;
  r_attachment_binding_digest_hex : string; r_attestation_epoch : Z; r_attestation_clock_epoch_id_hex : string;
  r_attestation_expires_at_ms : Z; r_availability_epoch : Z; r_availability_clock_epoch_id_hex : string;
  r_availability_state : Z; r_availability_expires_at_ms : Z }.

Record authority_row := {
  a_service_identity_digest_hex : string; a_family : Z; a_direction : Z; a_traffic_class : Z; a_scope_selector : string;
  a_endpoint_runtime_id_hex : string; a_target_runtime_id_hex : string; a_target_application_id_hex : string;
  a_policy_id_hex : string; a_policy_revision : Z; a_policy_digest_hex : string; a_authority_state : string;
  a_authority_clock_epoch_id_hex : string; a_lease_expires_at_ms : Z }.

Record attempt_row := { t_instance_id_hex : string; t_reservation_units : Z; t_state : string }.

Record snapshot := {
  s_outer_available : Z; s_query : query; s_policies : list policy; s_registry : list registry_row;
  s_authorities : list authority_row; s_active_attempts : list attempt_row }.

(** ** Selection *)

(** [sort_key] is the list [rank, latency, cost, instance id]; a row pairs it with the
    instance id. *)
Abbreviation sort_key := (Z * (Z * (Z * string)))%type.
Definition compare_keys : sort_key -> sort_key -> comparison := lex Z.compare (lex Z.compare (lex Z.compare String.compare)).
Definition compare_rows : sort_key * string -> sort_key * string -> comparison := lex compare_keys String.compare.

Record evaluation := {
  e_instance_id_hex : string; e_eligible : bool; e_primary_rejection : option string;
  e_rejection_reasons : list string; e_sort_key : option sort_key }.

Record selection := {
  resolution : string; primary_rejection : option string; evaluated : list evaluation;
  eligible_instance_ids_hex : list string; selected_instance_id_hex : option string }.

Definition refused (resolution_arg reason : string) : selection := {|
  resolution := resolution_arg; primary_rejection := Some reason; evaluated := [];
  eligible_instance_ids_hex := []; selected_instance_id_hex := None |}.

(** [not chain or chain[-1] != revision or any(right != left + 1 ...)]. *)
Definition revision_gap (p : policy) : bool :=
  match p_revision_chain p with
  | [] => true
  | first :: next =>
      negb (List.last (first :: next) 0 =? p_revision p) ||
      existsb (fun '(l, r) => negb (r =? l + 1)) (combine (first :: next) next)
  end.

Definition policy_matches (q : query) (p : policy) : bool :=
  String.eqb (p_service_identity_digest_hex p) (q_service_identity_digest_hex q) && (p_family p =? q_family q) &&
  (p_direction p =? q_direction q) && (p_traffic_class p =? q_traffic_class q).

Definition authority_matches (q : query) (p : policy) (a : authority_row) : bool :=
  let endpoint_hex := if String.eqb (p_scope_selector p) "SOURCE_RUNTIME" then q_source_runtime_id_hex q
                      else q_target_runtime_id_hex q in
  String.eqb (a_service_identity_digest_hex a) (q_service_identity_digest_hex q) && (a_family a =? q_family q) &&
  (a_direction a =? q_direction q) && (a_traffic_class a =? q_traffic_class q) &&
  String.eqb (a_scope_selector a) (p_scope_selector p) && String.eqb (a_endpoint_runtime_id_hex a) endpoint_hex &&
  String.eqb (a_target_runtime_id_hex a) (q_target_runtime_id_hex q) &&
  String.eqb (a_target_application_id_hex a) (q_target_application_id_hex q) &&
  String.eqb (a_policy_id_hex a) (p_policy_id_hex p) && (a_policy_revision a =? p_revision p) &&
  String.eqb (a_policy_digest_hex a) (p_canonical_digest_hex p).

(** [matches[0] if len(matches) == 1 else None]. *)
Definition sole {A} (matches : list A) : option A := match matches with [x] => Some x | _ => None end.

(** [if cond: reasons.append(reason)]. *)
Definition when (cond : bool) (reason : string) : list string := if cond then [reason] else [].

Definition join_reason {A} (matches : list A) (missing ambiguous : string) : list string :=
  match matches with [_] => [] | [] => [missing] | _ => [ambiguous] end.

(** [flags & required != required]. *)
Definition lacks (flags required : Z) : bool := negb (Z.land flags required =? required).

Definition units_in_use (s : snapshot) (instance_id_hex : string) : Z :=
  foldr Z.add 0 (map t_reservation_units
    (filter (fun t => String.eqb (t_instance_id_hex t) instance_id_hex &&
                      (String.eqb (t_state t) "PREPARED" || String.eqb (t_state t) "LINK_RETAINED") = true)
       (s_active_attempts s))).

(** The filters that need the registry row of the candidate, in order. *)
Definition registry_reasons (s : snapshot) (p : policy) (c : policy_candidate) (r : registry_row) : list string :=
  let q := s_query s in
  when (negb (String.eqb (r_lifecycle r) "ACTIVE")) "LIFECYCLE_DRAINING" ++
  when (Z.land (r_direction_mask r) 1 =? 0) "DIRECTION_MISMATCH" ++
  when (q_packet_bytes q <? 587) "STRUCTURAL_LENGTH_FLOOR" ++
  when (1925 <? q_packet_bytes q) "STRUCTURAL_LENGTH_CEILING" ++
  when (q_packet_bytes q <? p_minimum_packet_bytes p) "PACKET_MINIMUM" ++
  when (r_maximum_packet_bytes r <? q_packet_bytes q) "PACKET_MTU" ++
  when (r_maximum_transfer_bytes r <? q_transfer_bytes q) "TRANSFER_MTU" ++
  when (p_maximum_latency_class p <? r_latency_class r) "LATENCY_CLASS" ++
  when (p_maximum_cost_class p <? r_cost_class r) "COST_CLASS" ++
  when (q_deadline_ms q - q_now_ms q <? p_deadline_guard_ms p) "DEADLINE_GUARD" ++
  when (negb (String.eqb (q_deadline_clock_epoch_id_hex q) (q_admission_clock_epoch_id_hex q)) ||
        negb (String.eqb (q_deadline_clock_epoch_id_hex q) (q_availability_clock_epoch_id_hex q))) "RETRY_LIFETIME_CLOCK_EPOCH" ++
  when (r_reservation_capacity r <? units_in_use s (c_instance_id_hex c) + c_reservation_units c) "RESERVATION_CAPACITY" ++
  when (lacks (r_capability_flags r) (Z.lor (p_required_capability_flags p) (q_required_capability_flags q))) "CAPABILITY_MISSING" ++
  when (q_requires_sleep_compatible q && (Z.land (r_capability_flags r) 0x01 =? 0)) "ENERGY_SLEEP_CAPABILITY_MISSING" ++
  when (lacks (r_security_capability_flags r) (Z.lor (p_required_security_flags p) (q_required_security_flags q))) "SECURITY_MISSING" ++
  when (q_requires_custody q && (String.eqb (r_link_kind r) "WIFI" || (Z.land (r_capability_flags r) 0x20 =? 0))) "CUSTODY_MISSING" ++
  when (q_requires_evidence q && (Z.land (r_capability_flags r) 0x40 =? 0)) "EVIDENCE_MISSING" ++
  when (negb (r_peer_nfl1_version r =? 1) || (Z.land (r_peer_fabric_capability_flags r) 1 =? 0)) "PEER_NFL1" ++
  when (negb (String.eqb (r_authenticated_peer_runtime_id_hex r) (q_authenticated_peer_runtime_id_hex q))) "AUTHENTICATED_PEER_MISMATCH" ++
  when (negb (String.eqb (r_attachment_authority_id_hex r) (q_attachment_authority_id_hex q))) "ATTACHMENT_AUTHORITY_MISMATCH" ++
  when (negb (String.eqb (r_attachment_binding_digest_hex r) (q_attachment_binding_digest_hex q))) "ATTACHMENT_BINDING_MISMATCH" ++
  (if negb (String.eqb (r_attestation_clock_epoch_id_hex r) (q_attestation_clock_epoch_id_hex q)) then ["ATTESTATION_EPOCH"%string]
   else when (r_attestation_expires_at_ms r <=? q_now_ms q) "ATTESTATION_EXPIRED") ++
  (if negb (String.eqb (r_availability_clock_epoch_id_hex r) (q_availability_clock_epoch_id_hex q)) then ["AVAILABILITY_EPOCH"%string]
   else if negb (r_availability_state r =? 1) then ["AVAILABILITY_STATE"%string]
   else when (r_availability_expires_at_ms r <=? q_now_ms q) "AVAILABILITY_EXPIRED").

Definition authority_reasons (q : query) (p : policy) (a : authority_row) : list string :=
  if String.eqb (p_authority_mode p) "BOUND_REQUIRED" && negb (String.eqb (a_authority_state a) "BOUND") then ["BOUND_REQUIRED_ABSENT"%string]
  else if String.eqb (a_authority_state a) "BOUND" then
    if negb (String.eqb (a_authority_clock_epoch_id_hex a) (q_authority_clock_epoch_id_hex q)) then ["AUTHORITY_CLOCK_EPOCH"%string]
    else when (a_lease_expires_at_ms a <=? q_now_ms q) "AUTHORITY_LEASE_EXPIRED"
  else [].

Definition rf_reasons (q : query) (r : registry_row) : list string :=
  if String.eqb (r_link_kind r) "RF" then
    when (negb (q_rf_permit_valid q)) "RF_PERMIT" ++ when (negb (q_rf_mapping_accepted q)) "RF_MAPPING_UNSUPPORTED"
  else [].

Definition registry_rows (s : snapshot) (c : policy_candidate) : list registry_row :=
  filter (fun r => String.eqb (r_instance_id_hex r) (c_instance_id_hex c) = true) (s_registry s).
Definition authority_rows (s : snapshot) (p : policy) : list authority_row :=
  filter (fun a => authority_matches (s_query s) p a = true) (s_authorities s).

(** One turn of the loop over the policy's candidates. *)
Definition evaluate (s : snapshot) (p : policy) (c : policy_candidate) : evaluation :=
  let registry := sole (registry_rows s c) in
  let authority := sole (authority_rows s p) in
  let reasons :=
    join_reason (registry_rows s c) "REGISTRY_JOIN_MISSING" "REGISTRY_JOIN_AMBIGUOUS" ++
    join_reason (authority_rows s p) "AUTHORITY_JOIN_MISSING" "AUTHORITY_JOIN_AMBIGUOUS" ++
    from_option (registry_reasons s p c) [] registry ++
    from_option (authority_reasons (s_query s) p) [] authority ++
    from_option (rf_reasons (s_query s)) [] registry in
  {| e_instance_id_hex := c_instance_id_hex c;
     e_eligible := match reasons with [] => true | _ => false end;
     e_primary_rejection := head reasons;
     e_rejection_reasons := reasons;
     e_sort_key := (fun r => (c_rank c, (r_latency_class r, (r_cost_class r, c_instance_id_hex c)))) <$> registry |}.

(** [if not reasons and sort_key is not None: eligible.append((sort_key, instance_id_hex))]. *)
Definition eligible_row (e : evaluation) : option (sort_key * string) :=
  match e_rejection_reasons e, e_sort_key e with
  | [], Some key => Some (key, e_instance_id_hex e)
  | _, _ => None
  end.

Definition select_candidate (s : snapshot) : selection :=
  if negb (s_outer_available s =? 1) then refused "NO_ELIGIBLE_PATH" "META_OUTER_UNAVAILABLE"
  else if existsb revision_gap (s_policies s) then refused "CORRUPT" "POLICY_REVISION_GAP"
  else match filter (fun p => policy_matches (s_query s) p = true) (s_policies s) with
       | [] => refused "NO_POLICY" "POLICY_NO_MATCH"
       | [p] =>
           let evaluated := map (evaluate s p) (p_candidates p) in
           let eligible := merge_sort (cmp_le compare_rows) (omap eligible_row evaluated) in
           {| resolution := match eligible with [] => "NO_ELIGIBLE_PATH" | _ => "SELECTED" end;
              primary_rejection := head (omap e_primary_rejection evaluated);
              FabricSelect.evaluated := evaluated;
              eligible_instance_ids_hex := map snd eligible;
              selected_instance_id_hex := snd <$> head eligible |}
       | _ => refused "CORRUPT" "POLICY_AMBIGUOUS"
       end.

(** ** What makes a candidate eligible *)

(** The instance can carry the message: one requirement per hard filter. *)
Record link_usable (s : snapshot) (p : policy) (c : policy_candidate) (r : registry_row) : Prop := {
  lu_active : r_lifecycle r = "ACTIVE"%string;
  lu_sends : Z.testbit (r_direction_mask r) 0 = true;
  lu_structural : 587 <= q_packet_bytes (s_query s) <= 1925;
  lu_minimum : p_minimum_packet_bytes p <= q_packet_bytes (s_query s);
  lu_packet_mtu : q_packet_bytes (s_query s) <= r_maximum_packet_bytes r;
  lu_transfer_mtu : q_transfer_bytes (s_query s) <= r_maximum_transfer_bytes r;
  lu_latency : r_latency_class r <= p_maximum_latency_class p;
  lu_cost : r_cost_class r <= p_maximum_cost_class p;
  lu_guard : q_now_ms (s_query s) + p_deadline_guard_ms p <= q_deadline_ms (s_query s);
  lu_retry_clock : q_deadline_clock_epoch_id_hex (s_query s) = q_admission_clock_epoch_id_hex (s_query s) /\
    q_deadline_clock_epoch_id_hex (s_query s) = q_availability_clock_epoch_id_hex (s_query s);
  lu_capacity : units_in_use s (c_instance_id_hex c) + c_reservation_units c <= r_reservation_capacity r;
  lu_capabilities : forall i, 0 <= i ->
    Z.testbit (p_required_capability_flags p) i || Z.testbit (q_required_capability_flags (s_query s)) i = true ->
    Z.testbit (r_capability_flags r) i = true;
  lu_sleep : q_requires_sleep_compatible (s_query s) = true -> Z.testbit (r_capability_flags r) 0 = true;
  lu_security : forall i, 0 <= i ->
    Z.testbit (p_required_security_flags p) i || Z.testbit (q_required_security_flags (s_query s)) i = true ->
    Z.testbit (r_security_capability_flags r) i = true;
  lu_custody : q_requires_custody (s_query s) = true ->
    r_link_kind r <> "WIFI"%string /\ Z.testbit (r_capability_flags r) 5 = true;
  lu_evidence : q_requires_evidence (s_query s) = true -> Z.testbit (r_capability_flags r) 6 = true;
  lu_peer : r_peer_nfl1_version r = 1 /\ Z.testbit (r_peer_fabric_capability_flags r) 0 = true;
  lu_identity : r_authenticated_peer_runtime_id_hex r = q_authenticated_peer_runtime_id_hex (s_query s);
  lu_attachment : r_attachment_authority_id_hex r = q_attachment_authority_id_hex (s_query s) /\
    r_attachment_binding_digest_hex r = q_attachment_binding_digest_hex (s_query s);
  lu_attestation : r_attestation_clock_epoch_id_hex r = q_attestation_clock_epoch_id_hex (s_query s) /\
    q_now_ms (s_query s) < r_attestation_expires_at_ms r;
  lu_available : r_availability_clock_epoch_id_hex r = q_availability_clock_epoch_id_hex (s_query s) /\
    r_availability_state r = 1 /\ q_now_ms (s_query s) < r_availability_expires_at_ms r;
  lu_rf : r_link_kind r = "RF"%string ->
    q_rf_permit_valid (s_query s) = true /\ q_rf_mapping_accepted (s_query s) = true }.

(** The binding authorises it: bound when the policy requires it, and a bound one
    on the current clock before its lease ends. *)
Definition authorised (q : query) (p : policy) (a : authority_row) : Prop :=
  (p_authority_mode p = "BOUND_REQUIRED"%string -> a_authority_state a = "BOUND"%string) /\
  (a_authority_state a = "BOUND"%string ->
   a_authority_clock_epoch_id_hex a = q_authority_clock_epoch_id_hex q /\ q_now_ms q < a_lease_expires_at_ms a).

(** Exactly one registry row and one authority row join, and both admit it. *)
Definition eligible (s : snapshot) (p : policy) (c : policy_candidate) (r : registry_row) : Prop :=
  exists a, registry_rows s c = [r] /\ authority_rows s p = [a] /\ link_usable s p c r /\ authorised (s_query s) p a.

Lemma when_nil c reason : when c reason = [] <-> c = false.
Proof. by destruct c. Qed.

Lemma eqb_refl_string (a b : string) : String.eqb a b = true <-> a = b.
Proof. apply String.eqb_eq. Qed.

Lemma land_bit x i : 0 <= i -> (Z.land x (2 ^ i) =? 0) = negb (Z.testbit x i).
Proof.
  intros Hi. destruct (Z.testbit x i) eqn:E; cbn.
  - apply Z.eqb_neq. intros H. apply (f_equal (fun v => Z.testbit v i)) in H.
    rewrite Z.land_spec, Z.pow2_bits_true, E, Z.bits_0 in H by done. done.
  - apply Z.eqb_eq. apply Z.bits_inj'. intros j Hj. rewrite Z.land_spec, Z.bits_0, Z.pow2_bits_eqb by done.
    destruct (Z.eqb_spec i j) as [->|]; [by rewrite E | by rewrite andb_false_r].
Qed.

Lemma lacks_false flags a b :
  lacks flags (Z.lor a b) = false <-> forall i, 0 <= i -> Z.testbit a i || Z.testbit b i = true -> Z.testbit flags i = true.
Proof.
  unfold lacks. rewrite negb_false_iff, Z.eqb_eq. split.
  - intros H i Hi Hb. apply (f_equal (fun v => Z.testbit v i)) in H. rewrite Z.land_spec, Z.lor_spec, Hb in H.
    by apply andb_true_iff in H as [H _].
  - intros H. apply Z.bits_inj'. intros i Hi. rewrite Z.land_spec, Z.lor_spec. specialize (H i Hi).
    destruct (Z.testbit a i || Z.testbit b i); [by rewrite H | by rewrite andb_false_r].
Qed.

Lemma bit0 x : (Z.land x 1 =? 0) = negb (Z.testbit x 0).
Proof. exact (land_bit x 0 ltac:(lia)). Qed.
Lemma bit5 x : (Z.land x 0x20 =? 0) = negb (Z.testbit x 5).
Proof. exact (land_bit x 5 ltac:(lia)). Qed.
Lemma bit6 x : (Z.land x 0x40 =? 0) = negb (Z.testbit x 6).
Proof. exact (land_bit x 6 ltac:(lia)). Qed.

Lemma unless_nil (c : bool) reason l : (if negb c then [reason] else l) = [] <-> c = true /\ l = [] :> list string.
Proof. destruct c; cbn; naive_solver. Qed.
Lemma only_if_nil (c : bool) l : (if c then l else []) = [] <-> (c = true -> l = [] :> list string).
Proof. destruct c; naive_solver. Qed.
Lemma imply_false (a b : bool) : a && negb b = false <-> (a = true -> b = true).
Proof. destruct a, b; naive_solver. Qed.
Lemma string_neqb (a b : string) : String.eqb a b = false <-> a <> b.
Proof. apply String.eqb_neq. Qed.

Lemma registry_reasons_nil s p c r :
  registry_reasons s p c r = [] /\ rf_reasons (s_query s) r = [] <-> link_usable s p c r.
Proof.
  unfold registry_reasons, rf_reasons. cbv zeta.
  rewrite !bit0, bit5, bit6, !app_nil, !unless_nil, only_if_nil, app_nil, !when_nil, !lacks_false, !orb_false_iff, !negb_false_iff,
    !imply_false, !andb_false_iff, !Z.ltb_ge, !Z.leb_gt, !Z.eqb_eq, !eqb_refl_string, orb_false_iff, negb_false_iff, string_neqb.
  split.
  - intros (H & Hrf). destruct_and!. split; try done; try lia.
    intros Hc. destruct H15 as [H15 | H15]; [congruence | done].
  - intros H. destruct H. destruct_and!. split_and!; try done; try lia.
    destruct (q_requires_custody (s_query s)); [right; auto | by left].
Qed.

Lemma authority_reasons_nil q p a : authority_reasons q p a = [] <-> authorised q p a.
Proof.
  unfold authority_reasons, authorised. rewrite <- !eqb_refl_string.
  destruct (String.eqb (p_authority_mode p) "BOUND_REQUIRED"), (String.eqb (a_authority_state a) "BOUND"); cbn [andb negb];
    rewrite ?unless_nil, ?when_nil, ?Z.leb_gt; naive_solver.
Qed.

(** The reasons are empty exactly for an eligible candidate. *)
Lemma evaluate_eligible s p c :
  e_rejection_reasons (evaluate s p c) = [] <-> exists r, eligible s p c r.
Proof.
  unfold evaluate, eligible. cbn [e_rejection_reasons].
  destruct (registry_rows s c) as [|r [|r' rs]]; [split; [done | naive_solver] | | split; [done | naive_solver]].
  destruct (authority_rows s p) as [|a [|a' al]]; [split; [done | naive_solver] | | split; [done | naive_solver]].
  cbn [join_reason sole from_option app]. rewrite !app_nil, authority_reasons_nil. split.
  - intros (H1 & H2 & H3). exists r, a. by rewrite <- registry_reasons_nil.
  - intros (r0 & a0 & [= <-] & [= <-] & H1 & H2). apply registry_reasons_nil in H1. naive_solver.
Qed.

(** The sort key of a candidate joined to a registry row. *)
Definition key_of (c : policy_candidate) (r : registry_row) : sort_key :=
  (c_rank c, (r_latency_class r, (r_cost_class r, c_instance_id_hex c))).

Lemma eligible_row_spec s p c row :
  eligible_row (evaluate s p c) = Some row <-> exists r, eligible s p c r /\ row = (key_of c r, c_instance_id_hex c).
Proof.
  pose proof (evaluate_eligible s p c) as He. unfold eligible_row. destruct (e_rejection_reasons (evaluate s p c)) as [|x l] eqn:E.
  - destruct (proj1 He eq_refl) as (r & Hr). pose proof Hr as (a & Hreg & _). unfold evaluate. cbn [e_sort_key e_instance_id_hex].
    rewrite Hreg. cbn. split.
    + intros [= <-]. by exists r.
    + intros (r' & (a' & Hreg' & _) & ->). rewrite Hreg in Hreg'. by injection Hreg' as <-.
  - split; [done|]. intros (r & Hr & _). discriminate (proj2 He (ex_intro _ r Hr)).
Qed.

(** ** The choice *)

Definition eligible_rows (s : snapshot) (p : policy) : list (sort_key * string) :=
  omap eligible_row (map (evaluate s p) (p_candidates p)).
Definition ranking (s : snapshot) (p : policy) : list (sort_key * string) :=
  merge_sort (cmp_le compare_rows) (eligible_rows s p).
Definition key_le : sort_key -> sort_key -> Prop := cmp_le compare_keys.

Lemma eligible_rows_spec s p row :
  row ∈ eligible_rows s p <-> exists c r, c ∈ p_candidates p /\ eligible s p c r /\ row = (key_of c r, c_instance_id_hex c).
Proof.
  unfold eligible_rows. rewrite list_elem_of_omap. split.
  - intros (e & He & Hr). apply list_elem_of_fmap in He as (c & -> & Hc). apply eligible_row_spec in Hr as (r & Hr). by exists c, r.
  - intros (c & r & Hc & Hr). exists (evaluate s p c). split; [by apply list_elem_of_fmap_2|]. apply eligible_row_spec. by exists r.
Qed.

Lemma ranking_sorted s p : StronglySorted (cmp_le compare_rows) (ranking s p) /\ ranking s p ≡ₚ eligible_rows s p.
Proof. split; [apply (StronglySorted_merge_sort _) | apply merge_sort_Permutation]. Qed.

Lemma row_le_key c r c' r' :
  cmp_le compare_rows (key_of c r, c_instance_id_hex c) (key_of c' r', c_instance_id_hex c') <-> key_le (key_of c r) (key_of c' r').
Proof.
  unfold key_le, cmp_le, compare_rows, lex at 1. cbn [fst snd]. destruct (compare_keys (key_of c r) (key_of c' r')) eqn:E; try done.
  apply (cmp_eq (cmp := compare_keys)) in E. injection E as _ _ _ ->.
  assert (String.compare (c_instance_id_hex c') (c_instance_id_hex c') = Eq) as -> by (by apply (cmp_eq (cmp := String.compare))).
  done.
Qed.

(** The first of a ranking is the least eligible candidate. *)
Lemma ranking_head s p id :
  snd <$> head (ranking s p) = Some id <->
  exists c r, c ∈ p_candidates p /\ eligible s p c r /\ id = c_instance_id_hex c /\
    forall c' r', c' ∈ p_candidates p -> eligible s p c' r' -> key_le (key_of c r) (key_of c' r').
Proof.
  destruct (ranking_sorted s p) as [Hs Hp]. split.
  - destruct (ranking s p) as [|row rows] eqn:E; cbn; [done|]. intros [= <-].
    assert (Hin : row ∈ eligible_rows s p) by (rewrite <- Hp; by left).
    apply eligible_rows_spec in Hin as (c & r & Hc & Hr & ->). exists c, r. split_and!; try done.
    intros c' r' Hc' Hr'. apply row_le_key. apply StronglySorted_inv in Hs as [_ Hall]. rewrite Forall_forall in Hall.
    assert (Hin : (key_of c' r', c_instance_id_hex c') ∈ eligible_rows s p) by (apply eligible_rows_spec; by exists c', r').
    rewrite <- Hp in Hin. apply elem_of_cons in Hin as [-> | Hin]; [apply cmp_le_refl; apply _ | by apply Hall].
  - intros (c & r & Hc & Hr & -> & Hmin).
    assert (Hin : (key_of c r, c_instance_id_hex c) ∈ ranking s p) by (rewrite Hp; apply eligible_rows_spec; by exists c, r).
    destruct (ranking s p) as [|row rows] eqn:E; [by apply elem_of_nil in Hin|]. cbn. f_equal.
    assert (Hrow : row ∈ eligible_rows s p) by (rewrite <- Hp; by left).
    apply eligible_rows_spec in Hrow as (c' & r' & Hc' & Hr' & ->). cbn.
    assert (Hle : key_le (key_of c' r') (key_of c r)).
    { apply row_le_key. apply elem_of_cons in Hin as [-> | Hin]; [apply cmp_le_refl; apply _|].
      apply StronglySorted_inv in Hs as [_ Hall]. rewrite Forall_forall in Hall. by apply Hall. }
    pose proof (anti_symm key_le _ _ Hle (Hmin c' r' Hc' Hr')) as Hk. by injection Hk.
Qed.

(** The choice, in terms of the joins as the loop makes them. *)
Lemma least_eligible s p :
  s_outer_available s = 1 -> existsb revision_gap (s_policies s) = false ->
  filter (fun p => policy_matches (s_query s) p = true) (s_policies s) = [p] ->
  let out := select_candidate s in
  selected_instance_id_hex out = snd <$> head (ranking s p) /\ eligible_instance_ids_hex out = map snd (ranking s p) /\
  map e_instance_id_hex (evaluated out) = map c_instance_id_hex (p_candidates p) /\
  (resolution out = "SELECTED"%string <-> exists c r, c ∈ p_candidates p /\ eligible s p c r) /\
  (resolution out <> "SELECTED"%string -> resolution out = "NO_ELIGIBLE_PATH"%string /\ selected_instance_id_hex out = None).
Proof.
  intros H1 H2 H3. unfold select_candidate. rewrite H1, H2, H3. cbn [negb Z.eqb Pos.eqb]. cbv zeta.
  cbn [selected_instance_id_hex resolution eligible_instance_ids_hex evaluated].
  change (merge_sort (cmp_le compare_rows) (omap eligible_row (map (evaluate s p) (p_candidates p)))) with (ranking s p).
  destruct (ranking_sorted s p) as [_ Hp]. split; [done|]. split; [done|]. split; [by rewrite map_map|]. split; [|by destruct (ranking s p)].
  split.
  - destruct (ranking s p) as [|row rows]; [done|]. intros _. assert (Hin : row ∈ eligible_rows s p) by (rewrite <- Hp; by left).
    apply eligible_rows_spec in Hin as (c & r & Hc & Hr & _). by exists c, r.
  - intros (c & r & Hc & Hr). destruct (ranking s p) as [|row rows]; [|done].
    assert (Hin : (key_of c r, c_instance_id_hex c) ∈ eligible_rows s p) by (apply eligible_rows_spec; by exists c, r).
    rewrite <- Hp in Hin. by apply elem_of_nil in Hin.
Qed.

(** The store joins the policy without ambiguity: no two registry rows for a candidate, no
    two authority rows for the policy, and every authority row is absent or bound.
    ADR-0017 (path selection, steps 4 and 5) makes a store that is not so corrupt. *)
Record joins_unique (s : snapshot) (p : policy) : Prop := {
  ju_registry : Forall (fun c => len (registry_rows s c) <= 1) (p_candidates p);
  ju_authority : len (authority_rows s p) <= 1;
  ju_states : Forall (fun a => a_authority_state a ∈ ["ABSENT"; "BOUND"]%string) (s_authorities s) }.

(** A registry row of the store names the candidate, an authority row of the store names
    the policy and the flow, and both pass every hard filter. *)
Definition admitted (s : snapshot) (p : policy) (c : policy_candidate) (r : registry_row) : Prop :=
  r ∈ s_registry s /\ r_instance_id_hex r = c_instance_id_hex c /\ link_usable s p c r /\
  exists a, a ∈ s_authorities s /\ authority_matches (s_query s) p a = true /\ authorised (s_query s) p a.

Lemma sole_member {A} (l : list A) x : len l <= 1 -> x ∈ l -> l = [x].
Proof.
  destruct l as [|y [|z l]]; intros Hl Hx; [by apply elem_of_nil in Hx | by apply list_elem_of_singleton in Hx as -> |].
  rewrite !len_cons in Hl. pose proof (len_nonneg l). lia.
Qed.

Lemma admitted_eligible s p c r : joins_unique s p -> c ∈ p_candidates p -> admitted s p c r <-> eligible s p c r.
Proof.
  intros [J1 J2 _] Hc. unfold admitted, eligible. split.
  - intros (Hr & Hid & Hu & a & Ha & Hm & Hau). exists a.
    assert (Hr' : r ∈ registry_rows s c) by (apply list_elem_of_filter; split; [by apply String.eqb_eq | done]).
    split; [apply sole_member; [|done]; rewrite Forall_forall in J1; by apply J1|].
    split; [by apply sole_member; [|apply list_elem_of_filter] | done].
  - intros (a & Hr & Ha & Hu & Hau). assert (Hr' : r ∈ registry_rows s c) by (rewrite Hr; by left).
    assert (Ha' : a ∈ authority_rows s p) by (rewrite Ha; by left).
    apply list_elem_of_filter in Hr' as [Hid Hr']. apply list_elem_of_filter in Ha' as [Hm Ha']. apply String.eqb_eq in Hid.
    split_and!; try done. by exists a.
Qed.

(** C4. The Fabric selects the least admitted candidate.  Let the metadata be available, the
    revision chains be whole, exactly one policy match the query and its joins be
    unique.  Then the instance selected is that of a candidate of the policy that a
    registry row and an authority row of the store admit through every hard filter,
    and whose rank, latency class, cost class and identifier are least in that order
    among all admitted ones; one is selected exactly when some candidate is admitted,
    and otherwise none is eligible; the identifiers reported as eligible are those of
    the admitted candidates, in that order, none lost; every candidate is evaluated. *)
Theorem selection_is_least_eligible s p :
  s_outer_available s = 1 -> existsb revision_gap (s_policies s) = false ->
  filter (fun p => policy_matches (s_query s) p = true) (s_policies s) = [p] -> joins_unique s p ->
  let out := select_candidate s in
  (forall id, selected_instance_id_hex out = Some id <->
     exists c r, c ∈ p_candidates p /\ admitted s p c r /\ id = c_instance_id_hex c /\
       forall c' r', c' ∈ p_candidates p -> admitted s p c' r' -> key_le (key_of c r) (key_of c' r')) /\
  (resolution out = "SELECTED"%string <-> exists c r, c ∈ p_candidates p /\ admitted s p c r) /\
  (resolution out <> "SELECTED"%string -> resolution out = "NO_ELIGIBLE_PATH"%string /\ selected_instance_id_hex out = None) /\
  (exists rows, eligible_instance_ids_hex out = map snd rows /\ StronglySorted (cmp_le compare_rows) rows /\
    (forall row, row ∈ rows <-> exists c r, c ∈ p_candidates p /\ admitted s p c r /\ row = (key_of c r, c_instance_id_hex c)) /\
    rows ≡ₚ eligible_rows s p) /\
  map e_instance_id_hex (evaluated out) = map c_instance_id_hex (p_candidates p).
Proof.
  intros H1 H2 H3 J. destruct (least_eligible s p H1 H2 H3) as (E1 & E2 & E3 & E4 & E5). cbv zeta in *.
  pose proof (fun c r Hc => admitted_eligible s p c r J Hc) as A. destruct (ranking_sorted s p) as [Hs Hp].
  split; [|split; [|split; [done|split; [|done]]]].
  - intros id. rewrite E1, ranking_head. split; intros (c & r & Hc & Hr & Hid & Hmin); exists c, r;
      (split; [done|]; split; [by apply A|]; split; [done|]; intros c' r' Hc' Hr'; apply Hmin; [done | by apply A]).
  - rewrite E4. split; intros (c & r & Hc & Hr); exists c, r; (split; [done | by apply A]).
  - exists (ranking s p). split; [done|]. split; [done|]. split; [|done]. intros row. rewrite Hp, eligible_rows_spec.
    split; intros (c & r & Hc & Hr & ->); exists c, r; (split; [done | split; [by apply A | done]]).
Qed.

(** ** Policies and their revisions *)

(** A whole chain: consecutive revisions ending in the current one. *)
Definition whole_chain (p : policy) : Prop :=
  exists first n, p_revision_chain p = map (fun i => first + Z.of_nat i) (seq 0 (S n)) /\ p_revision p = first + Z.of_nat n.

Lemma consecutive_spec next first :
  existsb (fun '(l, r) => negb (r =? l + 1)) (combine (first :: next) next) = false <->
  first :: next = map (fun i => first + Z.of_nat i) (seq 0 (S (length next))).
Proof.
  revert first. induction next as [|x next IH]; intros first.
  - cbn. split; [|done]. intros _. f_equal. lia.
  - change (existsb _ (combine (first :: x :: next) (x :: next)))
      with (negb (x =? first + 1) || existsb (fun '(l, r) => negb (r =? l + 1)) (combine (x :: next) next)).
    rewrite orb_false_iff, negb_false_iff, Z.eqb_eq, IH. cbn [length].
    change (seq 0 (S (S (length next)))) with (0%nat :: seq 1 (S (length next))). cbn [map].
    assert (Hshift : map (fun i => first + Z.of_nat i) (seq 1 (S (length next))) =
                     map (fun i => first + 1 + Z.of_nat i) (seq 0 (S (length next)))).
    { rewrite <- seq_shift, map_map. apply map_ext. intros. lia. }
    rewrite Hshift. split.
    + intros [-> H]. f_equal; [lia | exact H].
    + intros H. injection H as _ H H'. assert (x = first + 1) as -> by lia. split; [done|]. cbn [seq map]. f_equal; [lia | exact H'].
Qed.

Lemma last_consecutive first n : List.last (map (fun i => first + Z.of_nat i) (seq 0 (S n))) 0 = first + Z.of_nat n.
Proof. rewrite seq_S, map_app. cbn [map]. by rewrite List.last_last. Qed.

Lemma revision_gap_false p : revision_gap p = false <-> whole_chain p.
Proof.
  unfold revision_gap, whole_chain. destruct (p_revision_chain p) as [|first next].
  - split; [done|]. intros (f & n & H & _). discriminate H.
  - rewrite orb_false_iff, negb_false_iff, Z.eqb_eq, consecutive_spec. split.
    + intros [Hl Hc]. exists first, (length next). split; [done|]. rewrite <- Hl, Hc. apply last_consecutive.
    + intros (f & n & H & Hr). assert (f = first) as -> by (cbn in H; injection H as -> _; lia).
      assert (length next = n) as <- by (apply (f_equal length) in H; cbn in H; rewrite length_map, length_seq in H; lia).
      split; [|done]. rewrite Hr, H. apply last_consecutive.
Qed.

(** The verdict without a choice, in the order the snapshot is checked: an
    unavailable store selects nothing; then a policy whose revisions are not
    consecutive up to the current one is corruption, whatever the query; then no
    matching policy, and two or more, are reported as such; only with exactly one
    are candidates evaluated, and then the verdict is never corruption, a
    duplicate registry row included. *)
Theorem verdict_exact s :
  let out := select_candidate s in
  let matching := filter (fun p => policy_matches (s_query s) p = true) (s_policies s) in
  (s_outer_available s <> 1 -> out = refused "NO_ELIGIBLE_PATH" "META_OUTER_UNAVAILABLE") /\
  (s_outer_available s = 1 -> ~ Forall whole_chain (s_policies s) -> out = refused "CORRUPT" "POLICY_REVISION_GAP") /\
  (s_outer_available s = 1 -> Forall whole_chain (s_policies s) ->
     (length matching = 0%nat -> out = refused "NO_POLICY" "POLICY_NO_MATCH") /\
     (2 <= len matching -> out = refused "CORRUPT" "POLICY_AMBIGUOUS") /\
     (forall p, matching = [p] -> evaluated out = map (evaluate s p) (p_candidates p) /\
        (resolution out = "SELECTED"%string \/ resolution out = "NO_ELIGIBLE_PATH"%string))).
Proof.
  cbv zeta. assert (Hgap : existsb revision_gap (s_policies s) = false <-> Forall whole_chain (s_policies s)).
  { induction (s_policies s) as [|p ps IH]; [split; [constructor | done]|]. cbn [existsb].
    by rewrite orb_false_iff, revision_gap_false, IH, Forall_cons. }
  unfold select_candidate. split; [|split].
  - intros H. by rewrite (proj2 (Z.eqb_neq _ _) H).
  - intros -> H. cbn [negb Z.eqb Pos.eqb]. destruct (existsb revision_gap (s_policies s)); [done|]. by destruct (H (proj1 Hgap eq_refl)).
  - intros -> H. cbn [negb Z.eqb Pos.eqb]. rewrite (proj2 Hgap H).
    set (matching := filter _ _). split; [|split].
    + by destruct matching.
    + destruct matching as [|p1 [|p2 ps]]; [done| |done]. unfold len. cbn. lia.
    + intros p ->. cbn [evaluated resolution]. split; [done|]. destruct (merge_sort _ _); [by right | by left].
Qed.

(** ** The order of the reasons *)

(** Every reason a candidate may be rejected for, in the normative order: the two
    joins, the filters on the registry row, the binding, the radio. *)
Definition HARD_FILTERS : list string := [
  "REGISTRY_JOIN_MISSING"; "REGISTRY_JOIN_AMBIGUOUS"; "AUTHORITY_JOIN_MISSING"; "AUTHORITY_JOIN_AMBIGUOUS";
  "LIFECYCLE_DRAINING"; "DIRECTION_MISMATCH"; "STRUCTURAL_LENGTH_FLOOR"; "STRUCTURAL_LENGTH_CEILING"; "PACKET_MINIMUM";
  "PACKET_MTU"; "TRANSFER_MTU"; "LATENCY_CLASS"; "COST_CLASS"; "DEADLINE_GUARD"; "RETRY_LIFETIME_CLOCK_EPOCH";
  "RESERVATION_CAPACITY"; "CAPABILITY_MISSING"; "ENERGY_SLEEP_CAPABILITY_MISSING"; "SECURITY_MISSING"; "CUSTODY_MISSING";
  "EVIDENCE_MISSING"; "PEER_NFL1"; "AUTHENTICATED_PEER_MISMATCH"; "ATTACHMENT_AUTHORITY_MISMATCH";
  "ATTACHMENT_BINDING_MISMATCH"; "ATTESTATION_EPOCH"; "ATTESTATION_EXPIRED"; "AVAILABILITY_EPOCH"; "AVAILABILITY_STATE";
  "AVAILABILITY_EXPIRED"; "BOUND_REQUIRED_ABSENT"; "AUTHORITY_CLOCK_EPOCH"; "AUTHORITY_LEASE_EXPIRED"; "RF_PERMIT";
  "RF_MAPPING_UNSUPPORTED"]%string.

Lemma when_sublist c reason l k : l `sublist_of` k -> when c reason ++ l `sublist_of` reason :: k.
Proof. intros H. destruct c; cbn; by constructor. Qed.
Lemma when_last c reason : when c reason `sublist_of` [reason].
Proof. destruct c; cbn; repeat constructor. Qed.

Lemma either_sublist (c : bool) (x : string) l k : l `sublist_of` k -> (if c then [x] else l) `sublist_of` x :: k.
Proof. intros H. destruct c; [apply sublist_skip, sublist_nil_l | by apply sublist_cons]. Qed.

Lemma join_sublist {A} (matches : list A) missing ambiguous : join_reason matches missing ambiguous `sublist_of` [missing; ambiguous].
Proof. destruct matches as [|x [|y l]]; cbn; repeat constructor. Qed.

Lemma registry_reasons_sublist s p c r : registry_reasons s p c r `sublist_of` take 26 (drop 4 HARD_FILTERS).
Proof.
  unfold registry_reasons. cbv zeta. cbn [take drop HARD_FILTERS].
  do 21 apply when_sublist. change ["ATTESTATION_EPOCH"; "ATTESTATION_EXPIRED"; "AVAILABILITY_EPOCH"; "AVAILABILITY_STATE"; "AVAILABILITY_EXPIRED"]%string
    with (["ATTESTATION_EPOCH"; "ATTESTATION_EXPIRED"]%string ++ ["AVAILABILITY_EPOCH"; "AVAILABILITY_STATE"; "AVAILABILITY_EXPIRED"]%string).
  apply sublist_app; [apply either_sublist, when_last | apply either_sublist, either_sublist, when_last].
Qed.

Lemma authority_reasons_sublist q p a : authority_reasons q p a `sublist_of` take 3 (drop 30 HARD_FILTERS).
Proof.
  unfold authority_reasons. cbn [take drop HARD_FILTERS]. apply either_sublist. destruct (String.eqb _ _); [|apply sublist_nil_l].
  apply either_sublist, when_last.
Qed.

Lemma rf_reasons_sublist q r : rf_reasons q r `sublist_of` drop 33 HARD_FILTERS.
Proof. unfold rf_reasons. cbn [drop HARD_FILTERS]. destruct (String.eqb _ _); [|apply sublist_nil_l]. apply when_sublist, when_last. Qed.

(** The reasons a candidate is rejected for are listed in the normative order of the
    hard filters, none twice, whatever the snapshot; the primary reason is the
    first of them, so it is the earliest filter that fails; and a candidate is
    eligible exactly when no filter fails, that is when the joins are exact and
    every requirement holds. *)
Theorem reasons_in_order s p c :
  let e := evaluate s p c in
  e_rejection_reasons e `sublist_of` HARD_FILTERS /\ NoDup HARD_FILTERS /\
  e_primary_rejection e = head (e_rejection_reasons e) /\ e_instance_id_hex e = c_instance_id_hex c /\
  (e_eligible e = true <-> exists r, eligible s p c r).
Proof.
  cbv zeta. split; [|split; [|split; [done | split; [done|]]]].
  - unfold evaluate. cbn [e_rejection_reasons].
    change HARD_FILTERS with (take 2 HARD_FILTERS ++ take 2 (drop 2 HARD_FILTERS) ++ take 26 (drop 4 HARD_FILTERS) ++
                              take 3 (drop 30 HARD_FILTERS) ++ drop 33 HARD_FILTERS).
    repeat apply sublist_app; [apply join_sublist..| | |].
    + destruct (sole _); [apply registry_reasons_sublist | apply sublist_nil_l].
    + destruct (sole _); [apply authority_reasons_sublist | apply sublist_nil_l].
    + destruct (sole _); [apply rf_reasons_sublist | apply sublist_nil_l].
  - refine (bool_decide_unpack _ _). vm_compute. exact I.
  - rewrite <- evaluate_eligible. unfold evaluate. cbn [e_eligible e_rejection_reasons]. set (l := _ ++ _). by destruct l.
Qed.

(** ** Independence of row order *)

(** The same policy with its candidates listed in another order. *)
Definition with_candidates (p : policy) (cs : list policy_candidate) : policy := {|
  p_policy_id_hex := p_policy_id_hex p; p_revision := p_revision p; p_revision_chain := p_revision_chain p;
  p_canonical_digest_hex := p_canonical_digest_hex p; p_service_identity_digest_hex := p_service_identity_digest_hex p;
  p_family := p_family p; p_direction := p_direction p; p_traffic_class := p_traffic_class p;
  p_scope_selector := p_scope_selector p; p_required_capability_flags := p_required_capability_flags p;
  p_required_security_flags := p_required_security_flags p; p_maximum_latency_class := p_maximum_latency_class p;
  p_maximum_cost_class := p_maximum_cost_class p; p_minimum_packet_bytes := p_minimum_packet_bytes p;
  p_authority_mode := p_authority_mode p; p_deadline_guard_ms := p_deadline_guard_ms p; p_candidates := cs |}.

Definition same_policy_rows (p p' : policy) : Prop := exists cs, p' = with_candidates p cs /\ p_candidates p ≡ₚ cs.

#[export] Instance same_policy_rows_sym : Symmetric same_policy_rows.
Proof. intros [] p' (cs & -> & H). cbn in *. by eexists; split; [|symmetry]. Qed.

(** Two snapshots of the same rows, but for the policies. *)
Record same_tables (s s' : snapshot) : Prop := {
  st_outer : s_outer_available s = s_outer_available s';
  st_query : s_query s = s_query s';
  st_registry : s_registry s ≡ₚ s_registry s';
  st_authorities : s_authorities s ≡ₚ s_authorities s';
  st_attempts : s_active_attempts s ≡ₚ s_active_attempts s' }.

#[export] Instance same_tables_sym : Symmetric same_tables.
Proof. intros s s' []. by split. Qed.

Definition same_rows (s s' : snapshot) : Prop :=
  same_tables s s' /\ exists ps, s_policies s ≡ₚ ps /\ Forall2 same_policy_rows ps (s_policies s').

Lemma filter_sole {A} (P : A -> Prop) `{!forall x, Decision (P x)} (l l' : list A) x :
  l ≡ₚ l' -> filter P l = [x] -> filter P l' = [x].
Proof.
  intros Hl E. assert (Hp : filter P l ≡ₚ filter P l') by by rewrite Hl. rewrite E in Hp. by apply Permutation_singleton_l in Hp.
Qed.

#[export] Instance sum_perm : Proper ((≡ₚ) ==> (=)) (foldr Z.add 0).
Proof. intros l l' Hl. induction Hl; cbn; lia. Qed.

Lemma units_in_use_tables s s' i : same_tables s s' -> units_in_use s i = units_in_use s' i.
Proof. intros Hs. unfold units_in_use. by rewrite (st_attempts _ _ Hs). Qed.

Lemma eligible_tables s s' p p' c r : same_tables s s' -> same_policy_rows p p' -> eligible s p c r -> eligible s' p' c r.
Proof.
  intros Hs (cs & -> & _) (a & Hr & Ha & Hu & Hau). exists a. unfold registry_rows, authority_rows in *.
  rewrite <- (st_query _ _ Hs). split; [by apply (filter_sole _ _ _ _ (st_registry _ _ Hs))|].
  split; [by apply (filter_sole _ _ _ _ (st_authorities _ _ Hs))|]. split; [|done].
  destruct Hu. split; rewrite <- ?(st_query _ _ Hs), <- ?(units_in_use_tables s s' _ Hs); assumption.
Qed.

Lemma eligible_row_tables s s' p p' c :
  same_tables s s' -> same_policy_rows p p' -> eligible_row (evaluate s p c) = eligible_row (evaluate s' p' c).
Proof.
  intros Hs Hp. apply option_eq. intros row. rewrite !eligible_row_spec. split; intros (r & Hr & ->); exists r; (split; [|done]).
  - by apply (eligible_tables s s' p p').
  - by apply (eligible_tables s' s p' p); [symmetry..|].
Qed.

(** The ranking depends on the rows alone. *)
Lemma ranking_tables s s' p p' : same_tables s s' -> same_policy_rows p p' -> ranking s p = ranking s' p'.
Proof.
  intros Hs Hp. destruct (ranking_sorted s p) as [S1 P1], (ranking_sorted s' p') as [S2 P2].
  apply (StronglySorted_unique (cmp_le compare_rows)); [done | done|]. rewrite P1, P2.
  unfold eligible_rows. pose proof Hp as (cs & Hcs & Hperm). rewrite Hcs at 2. cbn [p_candidates with_candidates]. rewrite <- Hperm.
  assert (E : forall l, omap eligible_row (map (evaluate s p) l) = omap eligible_row (map (evaluate s' p') l)).
  { induction l as [|c l IH]; [done|]. cbn. rewrite (eligible_row_tables s s' p p' c Hs Hp). destruct (eligible_row _); by rewrite IH. }
  by rewrite E.
Qed.

Lemma policies_same (s s' : snapshot) (f : policy -> bool) :
  (forall p p', same_policy_rows p p' -> f p = f p') ->
  (exists ps, s_policies s ≡ₚ ps /\ Forall2 same_policy_rows ps (s_policies s')) ->
  existsb f (s_policies s) = existsb f (s_policies s') /\
  exists qs, filter (fun p => f p = true) (s_policies s) ≡ₚ qs /\
    Forall2 same_policy_rows qs (filter (fun p => f p = true) (s_policies s')).
Proof.
  intros Hf (ps & Hp & H2). split.
  - transitivity (existsb f ps).
    + clear H2. induction Hp; cbn; [done | by rewrite IHHp | rewrite !orb_assoc; f_equal; apply orb_comm | congruence].
    + clear Hp. induction H2 as [|p p' ps ps' Hpp _ IH]; [done|]. cbn. by rewrite (Hf p p' Hpp), IH.
  - exists (filter (fun p => f p = true) ps). split; [by rewrite Hp|]. clear Hp.
    induction H2 as [|p p' ps ps' Hpp _ IH]; [constructor|]. rewrite !filter_cons, (Hf p p' Hpp).
    destruct (decide (f p' = true)); [by constructor | done].
Qed.

(** The verdict and the choice depend on the rows, not on the order in which they
    are listed: permuting the policies, the candidates of each, the registry,
    the authority rows and the active attempts changes neither the resolution,
    nor the ranking, nor the instance selected. *)
Theorem selection_order_irrelevant s s' :
  same_rows s s' ->
  resolution (select_candidate s) = resolution (select_candidate s') /\
  eligible_instance_ids_hex (select_candidate s) = eligible_instance_ids_hex (select_candidate s') /\
  selected_instance_id_hex (select_candidate s) = selected_instance_id_hex (select_candidate s').
Proof.
  intros [Hs Hp].
  destruct (policies_same s s' revision_gap) as [Hgap _]; [by intros p p' (cs & -> & _) | done|].
  destruct (policies_same s s' (policy_matches (s_query s))) as (_ & qs & Hqs & H2); [by intros p p' (cs & -> & _) | done|].
  unfold select_candidate. rewrite <- (st_outer _ _ Hs), <- (st_query _ _ Hs), <- Hgap.
  destruct (negb _); [done|]. destruct (existsb _ _); [done|].
  revert H2 Hqs. generalize (filter (fun p => policy_matches (s_query s) p = true) (s_policies s')) as ms'.
  generalize (filter (fun p => policy_matches (s_query s) p = true) (s_policies s)) as ms. intros ms ms' H2 Hqs.
  pose proof (Permutation_length Hqs) as L1. pose proof (Forall2_length _ _ _ H2) as L2.
  destruct ms as [|p [|p2 ms]], ms' as [|p' [|p2' ms']]; cbn [length] in *; try lia; try done.
  apply Permutation_singleton_l in Hqs. subst qs. apply Forall2_cons in H2 as [Hpp _].
  cbv zeta. cbn [resolution eligible_instance_ids_hex selected_instance_id_hex].
  fold (eligible_rows s p) (eligible_rows s' p') (ranking s p) (ranking s' p'). by rewrite (ranking_tables s s' p p' Hs Hpp).
Qed.

(** ** The passing of time *)

(** The same snapshot evaluated at another instant. *)
Definition at_time (s : snapshot) (now : Z) : snapshot :=
  let q := s_query s in {|
  s_outer_available := s_outer_available s;
  s_query := {|
    q_service_identity_digest_hex := q_service_identity_digest_hex q; q_family := q_family q; q_direction := q_direction q;
    q_traffic_class := q_traffic_class q; q_source_runtime_id_hex := q_source_runtime_id_hex q;
    q_target_runtime_id_hex := q_target_runtime_id_hex q; q_target_application_id_hex := q_target_application_id_hex q;
    q_packet_bytes := q_packet_bytes q; q_transfer_bytes := q_transfer_bytes q;
    q_deadline_clock_epoch_id_hex := q_deadline_clock_epoch_id_hex q;
    q_admission_clock_epoch_id_hex := q_admission_clock_epoch_id_hex q; q_deadline_ms := q_deadline_ms q; q_now_ms := now;
    q_required_capability_flags := q_required_capability_flags q;
    q_requires_sleep_compatible := q_requires_sleep_compatible q; q_required_security_flags := q_required_security_flags q;
    q_requires_custody := q_requires_custody q; q_requires_evidence := q_requires_evidence q;
    q_authenticated_peer_runtime_id_hex := q_authenticated_peer_runtime_id_hex q;
    q_attachment_authority_id_hex := q_attachment_authority_id_hex q;
    q_attachment_binding_digest_hex := q_attachment_binding_digest_hex q;
    q_attestation_clock_epoch_id_hex := q_attestation_clock_epoch_id_hex q;
    q_availability_clock_epoch_id_hex := q_availability_clock_epoch_id_hex q;
    q_authority_clock_epoch_id_hex := q_authority_clock_epoch_id_hex q;
    q_rf_permit_valid := q_rf_permit_valid q; q_rf_mapping_accepted := q_rf_mapping_accepted q |};
  s_policies := s_policies s; s_registry := s_registry s; s_authorities := s_authorities s;
  s_active_attempts := s_active_attempts s |}.

(** The first instant at which a joined candidate is no longer eligible. *)
Definition window_end (s : snapshot) (p : policy) (r : registry_row) (a : authority_row) : Z :=
  let until_link := Z.min (r_attestation_expires_at_ms r) (r_availability_expires_at_ms r) in
  let until := Z.min until_link (q_deadline_ms (s_query s) - p_deadline_guard_ms p + 1) in
  if String.eqb (a_authority_state a) "BOUND" then Z.min until (a_lease_expires_at_ms a) else until.

(** Eligibility is a window in time: a candidate eligible at one instant is
    eligible exactly before the earliest of the attestation's expiry, the
    availability's expiry, the last instant that leaves the policy's deadline
    guard, and the lease of a bound authority; every later admission with the
    same rows rejects it. *)
Theorem eligibility_window s p c r t0 :
  eligible (at_time s t0) p c r ->
  exists a, authority_rows s p = [a] /\ t0 < window_end s p r a /\
    forall t, eligible (at_time s t) p c r <-> t < window_end s p r a.
Proof.
  intros (a & Hr & Ha & Hu & Hau). exists a. split; [exact Ha|].
  assert (Hlease : forall t, authorised (s_query (at_time s t)) p a <->
            (a_authority_state a = "BOUND"%string -> t < a_lease_expires_at_ms a)).
  { intros t. destruct Hau as [H1 H2]. unfold authorised in *. cbn in *. naive_solver. }
  assert (Hlink : forall t, link_usable (at_time s t) p c r <->
            t < r_attestation_expires_at_ms r /\ t < r_availability_expires_at_ms r /\
            t + p_deadline_guard_ms p <= q_deadline_ms (s_query s)).
  { intros t. split.
    - intros K. destruct K. cbn in *. tauto.
    - intros (K1 & K2 & K3). destruct Hu. split; cbn in *; try assumption; tauto. }
  assert (Hw : forall t, t < window_end s p r a <-> link_usable (at_time s t) p c r /\ authorised (s_query (at_time s t)) p a).
  { intros t. rewrite Hlink, Hlease. unfold window_end. cbv zeta.
    destruct (String.eqb_spec (a_authority_state a) "BOUND") as [Hb | Hb].
    - split; [intros; split_and!; intros; lia|]. intros [? Hl]. specialize (Hl Hb). lia.
    - split; [intros; split_and!; intros; (lia || done) | intros; lia]. }
  split; [by apply Hw|]. intros t. rewrite Hw. unfold eligible. split.
  - intros (a' & _ & Ha' & Hu' & Hau'). change (authority_rows (at_time s t) p) with (authority_rows s p) in Ha'.
    change (authority_rows s p = [a]) in Ha. rewrite Ha in Ha'. injection Ha' as <-. done.
  - intros [Hu' Hau']. by exists a.
Qed.

(** ** A concrete admission *)

Definition demo_query : query := {|
  q_service_identity_digest_hex := "5e"; q_family := 2; q_direction := 1; q_traffic_class := 1;
  q_source_runtime_id_hex := "30"; q_target_runtime_id_hex := "80"; q_target_application_id_hex := "90";
  q_packet_bytes := 587; q_transfer_bytes := 587; q_deadline_clock_epoch_id_hex := "a1";
  q_admission_clock_epoch_id_hex := "a1"; q_deadline_ms := 200000; q_now_ms := 100000; q_required_capability_flags := 2;
  q_requires_sleep_compatible := true; q_required_security_flags := 15; q_requires_custody := true;
  q_requires_evidence := true; q_authenticated_peer_runtime_id_hex := "31"; q_attachment_authority_id_hex := "41";
  q_attachment_binding_digest_hex := "ab"; q_attestation_clock_epoch_id_hex := "a1";
  q_availability_clock_epoch_id_hex := "a1"; q_authority_clock_epoch_id_hex := "d1"; q_rf_permit_valid := true;
  q_rf_mapping_accepted := true |}.

Definition demo_registry (id : string) (latency : Z) : registry_row := {|
  r_instance_id_hex := id; r_record_revision := 1; r_lifecycle := "ACTIVE"; r_direction_mask := 3; r_link_kind := "LOOPBACK";
  r_capability_flags := 0x6F; r_maximum_packet_bytes := 1925; r_maximum_transfer_bytes := 1925; r_latency_class := latency;
  r_cost_class := 20; r_reservation_capacity := 8; r_security_capability_flags := 15; r_peer_nfl1_version := 1;
  r_peer_fabric_capability_flags := 1; r_authenticated_peer_runtime_id_hex := "31"; r_attachment_authority_id_hex := "41";
  r_attachment_binding_digest_hex := "ab"; r_attestation_epoch := 5; r_attestation_clock_epoch_id_hex := "a1";
  r_attestation_expires_at_ms := 300000; r_availability_epoch := 7; r_availability_clock_epoch_id_hex := "a1";
  r_availability_state := 1; r_availability_expires_at_ms := 250000 |}.

Definition demo_candidate (id : string) (rank : Z) : policy_candidate :=
  {| c_instance_id_hex := id; c_rank := rank; c_reservation_units := 1 |}.

Definition demo_policy (cs : list policy_candidate) : policy := {|
  p_policy_id_hex := "71"; p_revision := 3; p_revision_chain := [1; 2; 3]; p_canonical_digest_hex := "cd";
  p_service_identity_digest_hex := "5e"; p_family := 2; p_direction := 1; p_traffic_class := 1;
  p_scope_selector := "TARGET_RUNTIME"; p_required_capability_flags := 2; p_required_security_flags := 15;
  p_maximum_latency_class := 50; p_maximum_cost_class := 50; p_minimum_packet_bytes := 587;
  p_authority_mode := "BOUND_REQUIRED"; p_deadline_guard_ms := 100; p_candidates := cs |}.

Definition demo_authority : authority_row := {|
  a_service_identity_digest_hex := "5e"; a_family := 2; a_direction := 1; a_traffic_class := 1;
  a_scope_selector := "TARGET_RUNTIME"; a_endpoint_runtime_id_hex := "80"; a_target_runtime_id_hex := "80";
  a_target_application_id_hex := "90"; a_policy_id_hex := "71"; a_policy_revision := 3; a_policy_digest_hex := "cd";
  a_authority_state := "BOUND"; a_authority_clock_epoch_id_hex := "d1"; a_lease_expires_at_ms := 300000 |}.

Definition demo_candidates : list policy_candidate := [demo_candidate "b1" 10; demo_candidate "a1" 10; demo_candidate "c1" 5].

Definition demo (cs : list policy_candidate) (registry : list registry_row) : snapshot := {|
  s_outer_available := 1; s_query := demo_query; s_policies := [demo_policy cs]; s_registry := registry;
  s_authorities := [demo_authority]; s_active_attempts := [] |}.
Definition demo_rows : list registry_row := [demo_registry "b1" 10; demo_registry "a1" 10].

(** Two candidates tie on rank and classes, so the identifier decides; the third joins no row. *)
Example demo_selects :
  selected_instance_id_hex (select_candidate (demo demo_candidates demo_rows)) = Some "a1"%string /\
  eligible_instance_ids_hex (select_candidate (demo demo_candidates demo_rows)) = ["a1"; "b1"]%string /\
  primary_rejection (select_candidate (demo demo_candidates demo_rows)) = Some "REGISTRY_JOIN_MISSING"%string.
Proof. by vm_compute. Qed.

Lemma demo_joins : joins_unique (demo demo_candidates demo_rows) (demo_policy demo_candidates).
Proof. split; [in_list | vm_compute; discriminate | in_list]. Qed.

Lemma selection_is_least_eligible_witness :
  resolution (select_candidate (demo demo_candidates demo_rows)) = "SELECTED"%string /\
  exists c r, c ∈ demo_candidates /\ admitted (demo demo_candidates demo_rows) (demo_policy demo_candidates) c r /\
    "a1"%string = c_instance_id_hex c.
Proof.
  destruct (selection_is_least_eligible (demo demo_candidates demo_rows) (demo_policy demo_candidates) eq_refl eq_refl eq_refl demo_joins)
    as (H & _).
  split; [vm_compute; reflexivity|].
  destruct (proj1 (H "a1"%string)) as (c & r & Hc & Hr & Hid & _); [vm_compute; reflexivity|]. by exists c, r.
Defined.

(** A duplicate registry row only makes its own candidate ineligible. *)
Example duplicate_row_selects_other :
  resolution (select_candidate (demo demo_candidates (demo_registry "a1" 10 :: demo_rows))) = "SELECTED"%string /\
  selected_instance_id_hex (select_candidate (demo demo_candidates (demo_registry "a1" 10 :: demo_rows))) = Some "b1"%string.
Proof. by vm_compute. Qed.

Lemma selection_order_irrelevant_witness :
  resolution (select_candidate (demo demo_candidates demo_rows)) =
  resolution (select_candidate (demo (reverse demo_candidates) (reverse demo_rows))) /\
  selected_instance_id_hex (select_candidate (demo demo_candidates demo_rows)) =
  selected_instance_id_hex (select_candidate (demo (reverse demo_candidates) (reverse demo_rows))).
Proof.
  destruct (selection_order_irrelevant (demo demo_candidates demo_rows) (demo (reverse demo_candidates) (reverse demo_rows)))
    as (H1 & _ & H2); [|exact (conj H1 H2)].
  split; [split; try reflexivity; symmetry; apply reverse_Permutation|].
  exists [demo_policy demo_candidates]. split; [reflexivity|]. constructor; [|constructor].
  exists (reverse demo_candidates). split; [reflexivity|]. symmetry. apply reverse_Permutation.
Defined.

Lemma demo_eligible t :
  t < 199901 ->
  eligible (at_time (demo demo_candidates demo_rows) t) (demo_policy demo_candidates) (demo_candidate "a1" 10) (demo_registry "a1" 10).
Proof.
  intros Ht. exists demo_authority. split; [reflexivity|]. split; [reflexivity|]. split.
  - apply registry_reasons_nil. split; [|reflexivity]. unfold registry_reasons. cbv zeta.
    rewrite !app_nil, !unless_nil, !when_nil. split_and!; try reflexivity; cbn; first [apply Z.ltb_ge; lia | apply Z.leb_gt; lia].
  - split; [reflexivity|]. intros _. cbn. split; [reflexivity | lia].
Qed.

Lemma eligibility_window_witness :
  exists a, authority_rows (demo demo_candidates demo_rows) (demo_policy demo_candidates) = [a] /\
    forall t, eligible (at_time (demo demo_candidates demo_rows) t) (demo_policy demo_candidates) (demo_candidate "a1" 10)
      (demo_registry "a1" 10) <-> t < 199901.
Proof.
  destruct (eligibility_window (demo demo_candidates demo_rows) (demo_policy demo_candidates) (demo_candidate "a1" 10)
    (demo_registry "a1" 10) 0 (demo_eligible 0 ltac:(lia))) as (a & Ha & _ & H). exists a. split; [exact Ha|].
  assert (Hd : authority_rows (demo demo_candidates demo_rows) (demo_policy demo_candidates) = [demo_authority]) by reflexivity.
  rewrite Hd in Ha. injection Ha as <-. exact H.
Defined.

Lemma verdict_exact_witness :
  select_candidate (demo demo_candidates demo_rows) <> refused "CORRUPT" "POLICY_AMBIGUOUS" /\
  (resolution (select_candidate (demo demo_candidates demo_rows)) = "SELECTED"%string \/
   resolution (select_candidate (demo demo_candidates demo_rows)) = "NO_ELIGIBLE_PATH"%string).
Proof.
  destruct (verdict_exact (demo demo_candidates demo_rows)) as (_ & _ & H).
  destruct (H eq_refl) as (_ & _ & H').
  { repeat constructor. by apply revision_gap_false. }
  destruct (H' (demo_policy demo_candidates) eq_refl) as (He & Hr).
  split; [|exact Hr]. intros E. rewrite E in Hr. by destruct Hr.
Defined.
