(* ===== verification/FabricBaseline.v ===== *)
(** The baseline snapshot of the Fabric selection vectors: its durable rows, the
    routine that writes a projected registry row back into its record, and the
    agreement of the two ([tools/fabric_bearer_spec_vector_gen.py]). *)

From S2P Require Import Prelude Bytes Crc Sha256 Layout Join Chain Fabric FabricRecords FabricSelect.
#[local] Open Scope Z_scope.

(** A durable row in hexadecimal, as the vectors store it. *)
Record durable := { key_hex : string; value_hex : string }.

Definition durable_of (kv : row) : durable := {| key_hex := hex_of kv.1; value_hex := hex_of kv.2 |}.

(** [f"FBP1-REVISION-{revision}"] for a one-digit revision. *)
Definition policy_row_name (revision : Z) : string := String.append "FBP1-REVISION-" (String (hex_digit revision) EmptyString).

(** The rows of every revision and the digest of the last one ([ZERO32] when there is none). *)
Fixpoint selection_policy_rows (scope policy_start mode : Z) (revision_chain : list Z) (cs : list policy_entry)
    (rows : list (string * durable)) (current_digest : bytes) : res (list (string * durable) * bytes) :=
  match revision_chain with
  | [] => Ok (rows, current_digest)
  | revision :: chain =>
      r ← policy_record {| scope_selector := scope; policy_id_start := policy_start; authority_mode := mode;
                           policy_revision := revision; candidates := Some cs |};
      selection_policy_rows scope policy_start mode chain cs (rows ++ [(policy_row_name revision, durable_of r.1)]) r.2
  end.

Definition link_kind_code (kind : string) : res Z :=
  if String.eqb kind "LOOPBACK" then Ok 1 else if String.eqb kind "WIFI" then Ok 2
  else if String.eqb kind "USB" then Ok 3 else if String.eqb kind "RF" then Ok 4 else Raise (KeyError kind).
Definition lifecycle_code (lifecycle : string) : res Z :=
  if String.eqb lifecycle "ACTIVE" then Ok 1 else if String.eqb lifecycle "DRAINING" then Ok 2 else Raise (KeyError lifecycle).

(** The slices of the record a projected row is written into, in order. *)
Definition registry_writes (r : registry_row) (instance_id : bytes) : list write := [
  put 12 20 (u64 (r_record_revision r)); put 24 40 (Ok instance_id); put 40 44 (k ← link_kind_code (r_link_kind r); u32 k);
  put 44 48 (u32 (r_direction_mask r)); put 48 52 (u32 (r_capability_flags r));
  put 108 112 (u32 (r_security_capability_flags r)); put 144 152 (u64 (r_attestation_epoch r));
  put 152 168 (from_hex (r_attestation_clock_epoch_id_hex r)); put 168 176 (u64 (r_attestation_expires_at_ms r));
  put 208 224 (from_hex (r_authenticated_peer_runtime_id_hex r)); put 224 240 (from_hex (r_attachment_authority_id_hex r));
  put 240 272 (from_hex (r_attachment_binding_digest_hex r)); put 272 276 (u32 (r_maximum_packet_bytes r));
  put 276 280 (u32 (r_maximum_transfer_bytes r)); put 280 282 (u16 (r_latency_class r)); put 282 284 (u16 (r_cost_class r));
  put 284 286 (u16 (r_reservation_capacity r)); put 288 296 (u64 (r_availability_epoch r));
  put 296 312 (from_hex (r_availability_clock_epoch_id_hex r)); put_byte 312 (r_availability_state r);
  put_index 313 (k ← lifecycle_code (r_lifecycle r); pybyte k); put 316 324 (u64 (r_availability_expires_at_ms r));
  put 324 326 (u16 (r_peer_nfl1_version r)); put 328 332 (u32 (r_peer_fabric_capability_flags r))].

Definition rewrite_selection_registry (d : durable) (r : registry_row) : res durable :=
  key ← from_hex (key_hex d);
  value ← from_hex (value_hex d);
  instance_id ← from_hex (r_instance_id_hex r);
  key' ← run_writes [put 4 20 (Ok instance_id)] key;
  value' ← run_writes (registry_writes r instance_id) value;
  repaired ← repair_record_crc value';
  mret {| key_hex := hex_of key'; value_hex := hex_of repaired |}.

Definition rewrite_selection_authority_policy (d : durable) (policy_id : bytes) (revision : Z) (digest : bytes) : res durable :=
  value ← from_hex (value_hex d);
  value' ← run_writes [put 132 148 (Ok policy_id); put 148 156 (u64 revision); put 156 188 (Ok digest)] value;
  repaired ← repair_record_crc value';
  mret {| key_hex := key_hex d; value_hex := hex_of repaired |}.

(** ** The baseline *)

Definition INSTANCE_HEX : string := hex_of (pattern 0x61 16).
Definition EPOCH_HEX : string := hex_of (pattern 0xA1 16).
Definition BINDING_HEX : string := hex_of (sha256 (bytes_of_string "fabric-attachment-binding-v1")).

Definition baseline_query (service_digest_hex : string) : query :=
  let f := common_nfl1_fields in {|
  q_service_identity_digest_hex := service_digest_hex; q_family := family f; q_direction := 1; q_traffic_class := 1;
  q_source_runtime_id_hex := hex_of (runtime_id (source f)); q_target_runtime_id_hex := hex_of (runtime_id (target f));
  q_target_application_id_hex := hex_of (application_id (target f));
  q_packet_bytes := NFL1_STRUCTURAL_MIN; q_transfer_bytes := NFL1_STRUCTURAL_MIN;
  q_deadline_clock_epoch_id_hex := EPOCH_HEX; q_admission_clock_epoch_id_hex := EPOCH_HEX;
  q_deadline_ms := 200000; q_now_ms := 100000; q_required_capability_flags := 2; q_requires_sleep_compatible := true;
  q_required_security_flags := 0xF; q_requires_custody := true; q_requires_evidence := true;
  q_authenticated_peer_runtime_id_hex := hex_of (pattern 0x31 16); q_attachment_authority_id_hex := hex_of (pattern 0x41 16);
  q_attachment_binding_digest_hex := BINDING_HEX; q_attestation_clock_epoch_id_hex := EPOCH_HEX;
  q_availability_clock_epoch_id_hex := EPOCH_HEX; q_authority_clock_epoch_id_hex := hex_of (pattern 0xD1 16);
  q_rf_permit_valid := true; q_rf_mapping_accepted := true |}.

Definition baseline_policy (service_digest_hex policy_digest_hex : string) : policy := {|
  p_policy_id_hex := hex_of (pattern 0x71 16); p_revision := 3; p_revision_chain := [1; 2; 3];
  p_canonical_digest_hex := policy_digest_hex; p_service_identity_digest_hex := service_digest_hex;
  p_family := family common_nfl1_fields; p_direction := 1; p_traffic_class := 1; p_scope_selector := "TARGET_RUNTIME";
  p_required_capability_flags := 2; p_required_security_flags := 0xF; p_maximum_latency_class := 50;
  p_maximum_cost_class := 50; p_minimum_packet_bytes := NFL1_STRUCTURAL_MIN; p_authority_mode := "BOUND_REQUIRED";
  p_deadline_guard_ms := 100;
  p_candidates := [{| c_instance_id_hex := INSTANCE_HEX; c_rank := 10; c_reservation_units := 1 |}] |}.

Definition baseline_registry : registry_row := {|
  r_instance_id_hex := INSTANCE_HEX; r_record_revision := 1; r_lifecycle := "ACTIVE"; r_direction_mask := 3;
  r_link_kind := "LOOPBACK"; r_capability_flags := 0x6F; r_maximum_packet_bytes := NFL1_STRUCTURAL_MAX;
  r_maximum_transfer_bytes := NFL1_STRUCTURAL_MAX; r_latency_class := 10; r_cost_class := 20; r_reservation_capacity := 8;
  r_security_capability_flags := 0xF; r_peer_nfl1_version := 1; r_peer_fabric_capability_flags := 1;
  r_authenticated_peer_runtime_id_hex := hex_of (pattern 0x31 16); r_attachment_authority_id_hex := hex_of (pattern 0x41 16);
  r_attachment_binding_digest_hex := BINDING_HEX; r_attestation_epoch := 5; r_attestation_clock_epoch_id_hex := EPOCH_HEX;
  r_attestation_expires_at_ms := 300000; r_availability_epoch := 7; r_availability_clock_epoch_id_hex := EPOCH_HEX;
  r_availability_state := 1; r_availability_expires_at_ms := 250000 |}.

Definition baseline_authority (service_digest_hex policy_digest_hex : string) : authority_row :=
  let f := common_nfl1_fields in {|
  a_service_identity_digest_hex := service_digest_hex; a_family := family f; a_direction := 1; a_traffic_class := 1;
  a_scope_selector := "TARGET_RUNTIME"; a_endpoint_runtime_id_hex := hex_of (runtime_id (target f));
  a_target_runtime_id_hex := hex_of (runtime_id (target f)); a_target_application_id_hex := hex_of (application_id (target f));
  a_policy_id_hex := hex_of (pattern 0x71 16); a_policy_revision := 3; a_policy_digest_hex := policy_digest_hex;
  a_authority_state := "BOUND"; a_authority_clock_epoch_id_hex := hex_of (pattern 0xD1 16);
  a_lease_expires_at_ms := 300000 |}.

Definition baseline_candidates : list policy_entry :=
  [{| pe_instance_id := pattern 0x61 16; pe_rank := 10; pe_flags := 0; pe_units := 1 |}].

(** The durable rows and the decoded snapshot. *)
Definition selection_baseline : res (list (string * durable) * snapshot) :=
  service ← service_identity_digest common_nfl1_fields;
  meta ← meta_record 2 2 1;
  registry ← registry_record;
  policies ← selection_policy_rows 2 0x71 1 [1; 2; 3] baseline_candidates [] ZERO32;
  authority ← authority_record policies.2
    {| au_scope_selector := 2; au_state := 1; au_binding_start := 0xB8; au_policy_id_start := 0x71; au_policy_revision := 3 |};
  rewritten ← rewrite_selection_registry (durable_of registry) baseline_registry;
  let service_hex := hex_of service in
  let digest_hex := hex_of policies.2 in
  mret ([("FBM1"%string, durable_of meta); ("FBR1"%string, rewritten)] ++ policies.1 ++ [("FBC1"%string, durable_of authority)],
        {| s_outer_available := 1; s_query := baseline_query service_hex;
           s_policies := [baseline_policy service_hex digest_hex]; s_registry := [baseline_registry];
           s_authorities := [baseline_authority service_hex digest_hex]; s_active_attempts := [] |}).

(** The baseline snapshot is built, and the selection from it picks its one candidate
    with no reason to reject it and the sort key (10, 10, 20, instance). *)
Theorem baseline_selects :
  exists rows s, selection_baseline = Ok (rows, s) /\ map fst rows =
    ["FBM1"; "FBR1"; "FBP1-REVISION-1"; "FBP1-REVISION-2"; "FBP1-REVISION-3"; "FBC1"]%string /\
  select_candidate s = {|
    resolution := "SELECTED"; primary_rejection := None;
    evaluated := [{| e_instance_id_hex := INSTANCE_HEX; e_eligible := true; e_primary_rejection := None;
                     e_rejection_reasons := []; e_sort_key := Some (10, (10, (20, INSTANCE_HEX))) |}];
    eligible_instance_ids_hex := [INSTANCE_HEX]; selected_instance_id_hex := Some INSTANCE_HEX |}.
Proof.
  assert (E : is_ok selection_baseline = true) by (vm_compute; reflexivity).
  destruct selection_baseline as [[rows s]|] eqn:Eb; [|discriminate E]. clear E. exists rows, s. split; [reflexivity|].
  assert (H : match selection_baseline with
              | Ok (rows, s) => bool_decide (map fst rows = ["FBM1"; "FBR1"; "FBP1-REVISION-1"; "FBP1-REVISION-2"; "FBP1-REVISION-3"; "FBC1"]%string)
              | _ => false end = true) by (vm_compute; reflexivity).
  assert (K : (x ← selection_baseline; Ok (select_candidate x.2)) = Ok {|
    resolution := "SELECTED"; primary_rejection := None;
    evaluated := [{| e_instance_id_hex := INSTANCE_HEX; e_eligible := true; e_primary_rejection := None;
                     e_rejection_reasons := []; e_sort_key := Some (10, (10, (20, INSTANCE_HEX))) |}];
    eligible_instance_ids_hex := [INSTANCE_HEX]; selected_instance_id_hex := Some INSTANCE_HEX |}) by (vm_compute; reflexivity).
  rewrite Eb in H, K. split; [by apply bool_decide_eq_true in H|]. exact (Ok_inj _ _ K).
Qed.

(** ** The registry row and its projection *)

(** Identifiers are hexadecimal text of 16 or 32 bytes, numbers fit their fields. *)
Definition hex_raw (n : Z) (s : string) : Prop := exists v, from_hex s = Ok v /\ raw n v.

Record registry_ok (r : registry_row) : Prop := {
  rk_ids : Forall (hex_raw 16)
    [r_instance_id_hex r; r_attestation_clock_epoch_id_hex r; r_authenticated_peer_runtime_id_hex r;
     r_attachment_authority_id_hex r; r_availability_clock_epoch_id_hex r];
  rk_binding : hex_raw 32 (r_attachment_binding_digest_hex r);
  rk_u16 : Forall u16_ok [r_latency_class r; r_cost_class r; r_reservation_capacity r; r_peer_nfl1_version r];
  rk_u32 : Forall u32_ok
    [r_direction_mask r; r_capability_flags r; r_security_capability_flags r; r_maximum_packet_bytes r;
     r_maximum_transfer_bytes r; r_peer_fabric_capability_flags r];
  rk_u64 : Forall u64_ok
    [r_record_revision r; r_attestation_epoch r; r_attestation_expires_at_ms r; r_availability_epoch r; r_availability_expires_at_ms r];
  rk_state : is_byte (r_availability_state r);
  rk_kind : exists k, link_kind_code (r_link_kind r) = Ok k;
  rk_lifecycle : exists l, lifecycle_code (r_lifecycle r) = Ok l }.

(** The fields of the record at their offsets, as decoded text and numbers. *)
Definition registry_holds (r : registry_row) (v : bytes) : Prop :=
  be_val (slice 12 20 v) = r_record_revision r /\ Ok (slice 24 40 v) = from_hex (r_instance_id_hex r) /\
  Ok (be_val (slice 40 44 v)) = link_kind_code (r_link_kind r) /\ be_val (slice 44 48 v) = r_direction_mask r /\
  be_val (slice 48 52 v) = r_capability_flags r /\ be_val (slice 108 112 v) = r_security_capability_flags r /\
  be_val (slice 144 152 v) = r_attestation_epoch r /\ Ok (slice 152 168 v) = from_hex (r_attestation_clock_epoch_id_hex r) /\
  be_val (slice 168 176 v) = r_attestation_expires_at_ms r /\
  Ok (slice 208 224 v) = from_hex (r_authenticated_peer_runtime_id_hex r) /\
  Ok (slice 224 240 v) = from_hex (r_attachment_authority_id_hex r) /\
  Ok (slice 240 272 v) = from_hex (r_attachment_binding_digest_hex r) /\
  be_val (slice 272 276 v) = r_maximum_packet_bytes r /\ be_val (slice 276 280 v) = r_maximum_transfer_bytes r /\
  be_val (slice 280 282 v) = r_latency_class r /\ be_val (slice 282 284 v) = r_cost_class r /\
  be_val (slice 284 286 v) = r_reservation_capacity r /\ be_val (slice 288 296 v) = r_availability_epoch r /\
  Ok (slice 296 312 v) = from_hex (r_availability_clock_epoch_id_hex r) /\ slice 312 313 v = [r_availability_state r] /\
  be_val (slice 316 324 v) = r_availability_expires_at_ms r /\ be_val (slice 324 326 v) = r_peer_nfl1_version r /\
  be_val (slice 328 332 v) = r_peer_fabric_capability_flags r.

Lemma sized_hex n lo hi s w : 0 <= lo <= hi -> hi <= n -> w = hi - lo -> hex_raw w s -> sized n (put lo hi (from_hex s)).
Proof. intros H1 H2 -> (v & E & L & B). apply sized_put; [done | done|]. intros x Ex. rewrite E in Ex. apply Ok_inj in Ex as <-. done. Qed.
Lemma total_hex n lo hi s w : hex_raw w s -> total n (put lo hi (from_hex s)).
Proof. intros (v & E & _) buf _ _. exists v. exact E. Qed.

Lemma code_small s k : link_kind_code s = Ok k \/ lifecycle_code s = Ok k -> 1 <= k <= 4.
Proof. unfold link_kind_code, lifecycle_code. intros [H | H]; repeat case_match; simplify_eq; lia. Qed.

Lemma registry_program_ok r i :
  registry_ok r -> raw 16 i -> Forall (sized 372) (registry_writes r i) /\ Forall (total 372) (registry_writes r i).
Proof.
  intros [Hids Hb H16 H32 H64 Hst (k & Ek) (l & El)] [Li Bi].
  repeat match goal with K : Forall _ (_ :: _) |- _ => apply Forall_cons in K as [? K] end.
  pose proof (code_small _ k (or_introl Ek)) as Hk. pose proof (code_small _ l (or_intror El)) as Hl.
  unfold registry_writes. rewrite Ek, El, !ok_bind. unfold u16_ok, u32_ok, u64_ok, is_byte in *. split.
  - repeat first [ apply Forall_nil_2 | apply Forall_cons_2 ];
      first [ apply sized_byte; lia | apply sized_pack; lia | apply sized_const; lia || assumption
            | (eapply sized_hex; [lia | lia | | eassumption]; reflexivity) ].
  - repeat first [ apply Forall_nil_2 | apply Forall_cons_2 ];
      first [ apply total_byte; [lia | split; lia] | apply total_pack; pack_range; lia | apply total_const | eapply total_hex; eassumption ].
Qed.

Lemma registry_written r i v :
  registry_ok r -> from_hex (r_instance_id_hex r) = Ok i -> raw 16 i -> raw 372 v ->
  exists v', run_writes (registry_writes r i) v = Ok v' /\ raw 372 v' /\ registry_holds r v'.
Proof.
  intros H Ei Hi [Lv Bv]. destruct (registry_program_ok r i H Hi) as [Sz To].
  destruct (run_writes_total 372 _ v Sz To Lv Bv) as (v' & Ev & Lv' & Bv'). exists v'. split; [exact Ev|]. split; [done|].
  destruct (rk_kind r H) as (k & Ek). pose proof (code_small _ k (or_introl Ek)) as Hk.
  unfold registry_holds. unfold registry_writes in *.
  assert (Rhex : forall lo hi s post, last_write lo hi (registry_writes r i) = Some (put lo hi (from_hex s), post) ->
            Ok (slice lo hi v') = from_hex s).
  { intros lo hi s post Hl. symmetry. exact (read_put 372 _ v v' Sz Lv Ev lo hi _ post Hl). }
  split; [read_field Sz Lv Ev|]. split; [rewrite Ei; f_equal; read_field Sz Lv Ev|]. split.
  { pose proof (read_put _ _ _ _ Sz Lv Ev 40 44 _ _ eq_refl) as K. rewrite Ek, ok_bind in K. rewrite Ek. f_equal. exact (pack_val _ _ _ K). }
  do 4 (split; [read_field Sz Lv Ev|]). split; [by eapply Rhex|]. split; [read_field Sz Lv Ev|].
  do 3 (split; [by eapply Rhex|]). do 6 (split; [read_field Sz Lv Ev|]). split; [by eapply Rhex|]. split.
  { pose proof (read_index _ _ _ _ Sz Lv Ev 312 _ _ eq_refl) as K. apply pybyte_Ok in K as [_ K]. exact K. }
  split; [read_field Sz Lv Ev|]. split; read_field Sz Lv Ev.
Qed.

(** Writing a projected registry row back into its durable record agrees with the
    projection: for a 20-byte key and a 372-byte value, the key names the instance,
    every projected field reads back from its offset, the bytes the projection
    does not cover are unchanged, and the record is sealed again. *)
Theorem registry_projection_agrees r k v :
  registry_ok r -> raw 20 k -> raw 372 v ->
  exists i v', from_hex (r_instance_id_hex r) = Ok i /\
    rewrite_selection_registry {| key_hex := hex_of k; value_hex := hex_of v |} r =
      Ok {| key_hex := hex_of (slice 0 4 k ++ i); value_hex := hex_of v' |} /\
    raw 372 v' /\ registry_holds r v' /\ sealed crc32c 20 v' /\ slice 52 108 v' = slice 52 108 v /\
    slice 176 208 v' = slice 176 208 v /\ slice 332 372 v' = slice 332 372 v.
Proof.
  intros H [Lk Bk] [Lv Bv]. pose proof (rk_ids r H) as Hids. apply Forall_cons in Hids as [(i & Ei & Hi) _].
  destruct (registry_written r i v H Ei Hi (conj Lv Bv)) as (w & Ew & [Lw Bw] & Hw).
  destruct (registry_program_ok r i H Hi) as [Sz _].
  destruct (zero_seal_Ok crc32c 20 w Bw ltac:(lia) ltac:(lia)) as (v' & Ev' & Lv' & Bv' & Sv' & Hsame).
  exists i, v'. split; [exact Ei|]. split.
  - unfold rewrite_selection_registry. cbn [key_hex value_hex]. rewrite !from_hex_hex_of, !ok_bind by done.
    rewrite Ei, ok_bind. cbn [run_writes w_val w_lo w_hi put]. rewrite !ok_bind, Ew, ok_bind.
    rewrite repair_record_zeroes. change (write_crc_at 20) with (seal_at crc32c 20). rewrite Ev', ok_bind. destruct Hi as [Li Bi].
    do 3 f_equal. rewrite slice_assign_parts by lia. rewrite Lk. by rewrite app_nil_r.
  - split; [split; [lia | done]|]. split; [|split; [done|]].
    + unfold registry_holds in *. rewrite !Hsame by lia. exact Hw.
    + assert (R : forall a c, 0 <= a <= c -> forallb (apart a c) (registry_writes r i) = true -> slice a c w = slice a c v)
        by (intros a c; exact (run_writes_apart 372 _ v w Sz Lv Ew a c)).
      split_and!; rewrite Hsame by lia; apply R; (lia || reflexivity).
Qed.

Lemma baseline_registry_ok : registry_ok baseline_registry.
Proof.
  assert (Hhex : forall n v, raw n v -> hex_raw n (hex_of v)) by (intros n v [L B]; exists v; split; [by apply from_hex_hex_of | done]).
  split; repeat first [ apply Forall_nil_2 | apply Forall_cons_2 ]; try (apply Hhex, raw_pattern; done); try (apply Hhex, raw_sha);
    try (split; [intros Hlt; discriminate Hlt | reflexivity]); eexists; reflexivity.
Qed.

Lemma registry_projection_agrees_witness :
  exists v', rewrite_selection_registry {| key_hex := hex_of (zeros 20); value_hex := hex_of (zeros 372) |} baseline_registry =
    Ok {| key_hex := hex_of (zeros 4 ++ pattern 0x61 16); value_hex := hex_of v' |} /\ registry_holds baseline_registry v'.
Proof.
  destruct (registry_projection_agrees baseline_registry (zeros 20) (zeros 372) baseline_registry_ok (raw_zeros 20 ltac:(lia))
    (raw_zeros 372 ltac:(lia))) as (i & v' & Ei & E & _ & H & _).
  exists v'. split; [|exact H]. assert (Hi : i = pattern 0x61 16).
  { apply Ok_inj. rewrite <- Ei. apply from_hex_hex_of, pattern_ok. }
  rewrite Hi in E. exact E.
Defined.
