(* ===== verification/Wifi.v ===== *)
(** The Wi-Fi bearer's framing: the structural NFL1 check and the NWB1 session record
    that carries an NFL1 packet ([tools/wifi_bearer_spec_vector_gen.py]); its
    network records are in WifiNetwork.v. *)

From S2P Require Import Prelude Bytes Crc Sha256 Layout Join Chain.

Definition NWB1_MAGIC : bytes := bytes_of_string "NWB1".
Definition NWB1_VERSION : Z := 1.
Definition NWB1_HEADER : Z := 40.
Definition NWB1_PAYLOAD_MIN : Z := 587.
Definition NWB1_PAYLOAD_MAX : Z := 1925.
Definition NWB1_TOTAL_MIN : Z := 627.
Definition NWB1_TOTAL_MAX : Z := 1965.
Definition NFL1_MAGIC : bytes := bytes_of_string "NFL1".
Definition NFL1_VERSION : Z := 1.
Definition NFL1_HEADER : Z := 584.

Definition crc32c (value : bytes) : Z := crc32c_xorout value.
Definition all_zero (value : bytes) : bool := negb (any_nonzero value).

(** ** Structural NFL1 packets *)

(** [header[lo:hi] = v], in order; the offsets are those of the Fabric's NFL1. *)
Definition structural_fields (valid : bool) (version total_length payload_len : Z) : list (Z * Z * res bytes) := [
  (0, 4, Ok (if valid then NFL1_MAGIC else bytes_of_string "BAD1")); (4, 6, u16 version); (6, 8, u16 NFL1_HEADER);
  (8, 12, u32 total_length); (12, 16, Ok (zeros 4)); (16, 20, u32 1); (20, 24, u32 0);
  (24, 40, Ok (pattern 0x10 16)); (40, 56, Ok (pattern 0x20 16)); (56, 72, Ok (zeros 16));
  (72, 88, Ok (pattern 0x30 16)); (88, 104, Ok (pattern 0x40 16)); (104, 120, Ok (pattern 0x50 16));
  (120, 136, Ok (pattern 0x60 16)); (136, 152, Ok (pattern 0x70 16)); (152, 160, u64 1); (160, 168, u64 1); (168, 172, u32 7);
  (172, 188, Ok (pattern 0x80 16)); (188, 204, Ok (pattern 0x90 16)); (204, 220, Ok (pattern 0xA0 16));
  (220, 236, Ok (pattern 0xB0 16)); (236, 252, Ok (pattern 0xC0 16)); (252, 260, u64 1); (260, 268, u64 1); (268, 272, u32 7);
  (272, 288, Ok (pattern 0xD0 16)); (288, 296, u64 1); (296, 300, u32 1); (300, 308, u64 1); (308, 310, u16 1);
  (310, 342, Ok (sha256 (bytes_of_string "wifi-nfl1-descriptor"))); (342, 344, u16 1); (344, 346, u16 0); (346, 350, u32 2);
  (350, 352, u16 1); (352, 384, Ok (sha256 (bytes_of_string "wifi-nfl1-content"))); (384, 392, u64 1);
  (392, 408, Ok (pattern 0xA1 16)); (408, 416, u64 200000); (416, 424, u64 5000); (424, 428, u32 0); (428, 432, u32 0);
  (432, 436, u32 0); (436, 440, u32 0); (440, 444, u32 0); (444, 448, u32 0); (448, 456, u64 0); (456, 472, Ok (zeros 16));
  (472, 480, u64 0); (480, 484, u32 0); (484, 500, Ok (pattern 0xF0 16)); (500, 508, u64 1); (508, 510, u16 1);
  (510, 542, Ok (sha256 (bytes_of_string "wifi-nfl1-route"))); (542, 558, Ok (pattern 0x01 16)); (558, 566, u64 1);
  (566, 570, u32 0); (570, 572, u16 1); (572, 574, u16 1); (574, 576, u16 1); (576, 580, u32 payload_len); (580, 584, u32 0)].

Definition encode_nfl1_structural (total_length : Z) (valid : bool) (version : Z) : res bytes :=
  raise_if (total_length <? NFL1_HEADER) (ValueError "nfl1 too short");;
  let body_len := total_length - NFL1_HEADER in
  raise_if ((body_len <? 3) && valid) (ValueError "nfl1 body");;
  let payload := pattern 0x41 (Z.max 0 (body_len - 3)) in
  header ← run_writes (puts (structural_fields valid version total_length (len payload))) (zeros NFL1_HEADER);
  let packet := header ++ bytes_of_string "n" ++ bytes_of_string "s" ++ bytes_of_string "x" ++ payload in
  raise_if (negb (len packet =? total_length)) (AssertionError "nfl1 length");;
  seal_at crc32c 12 packet.

Definition classify_nfl1_structural (packet : bytes) : string :=
  if len packet <? NFL1_HEADER then "INVALID_NFL1"
  else if negb (bool_decide (slice 0 4 packet = NFL1_MAGIC)) then "INVALID_NFL1"
  else
    let version := be_val (slice 4 6 packet) in
    let header_length := be_val (slice 6 8 packet) in
    let total_length := be_val (slice 8 12 packet) in
    let stored_crc := be_val (slice 12 16 packet) in
    if negb (header_length =? NFL1_HEADER) then "INVALID_NFL1"
    else if negb (total_length =? len packet) then "INVALID_NFL1"
    else if negb (in_range NWB1_PAYLOAD_MIN NWB1_PAYLOAD_MAX total_length) then "INVALID_NFL1"
    else if negb (version =? NFL1_VERSION) then "INVALID_NFL1"
    else if negb (crc32c (slice_assign 12 16 (zeros 4) packet) =? stored_crc) then "INVALID_NFL1"
    else
      let ns_len := be_val (slice 570 572 packet) in
      let svc_len := be_val (slice 572 574 packet) in
      let schema_len := be_val (slice 574 576 packet) in
      let payload_len := be_val (slice 576 580 packet) in
      let evidence_len := be_val (slice 580 584 packet) in
      if (63 <? ns_len) || (63 <? svc_len) || (63 <? schema_len) then "INVALID_NFL1"
      else if (65535 <? payload_len) || (65535 <? evidence_len) then "INVALID_NFL1"
      else if negb (NFL1_HEADER + ns_len + svc_len + schema_len + payload_len + evidence_len =? total_length) then "INVALID_NFL1"
      else if negb (Z.land (be_val (slice 20 24 packet)) 0xFFFF0000 =? 0) then "INVALID_NFL1"
      else "OK".

Definition synthetic_nfl1_payload (length : Z) (valid_magic : bool) : res bytes :=
  if (length <? NWB1_PAYLOAD_MIN) || (NWB1_PAYLOAD_MAX <? length) then
    raise_if (length <? 0) (ValueError "negative count");;
    let body := slice_assign 0 4 (if valid_magic then NFL1_MAGIC else bytes_of_string "BAD1") (zeros length) in
    run_writes (map (fun i => let index := 4 + Z.of_nat i in put_masked index (0x40 + index)) (seq 0 (Z.to_nat (length - 4)))) body
  else if valid_magic then encode_nfl1_structural length true NFL1_VERSION
  else
    good ← encode_nfl1_structural length true NFL1_VERSION;
    bad ← run_writes [put 0 4 (Ok (bytes_of_string "BAD1")); put 12 16 (Ok (zeros 4))] good;
    seal_at crc32c 12 bad.

(** ** NWB1 records *)

(** The keyword arguments of [encode_nwb1]. *)
Record nwb1_args := {
  session_id : bytes; sequence : Z; payload : bytes; version : Z; header_length : Z;
  force_total : option Z; force_payload_length : option Z; force_crc : option Z }.

(** The arguments with their defaults. *)
Definition nwb1 (session : bytes) (seq : Z) (pl : bytes) : nwb1_args := {|
  session_id := session; sequence := seq; payload := pl; version := NWB1_VERSION; header_length := NWB1_HEADER;
  force_total := None; force_payload_length := None; force_crc := None |}.

Definition nwb1_writes (a : nwb1_args) : list write :=
  let payload_length := default (len (payload a)) (force_payload_length a) in
  let total_length := default (NWB1_HEADER + len (payload a)) (force_total a) in
  [put 0 4 (Ok NWB1_MAGIC); put 4 6 (u16 (version a)); put 6 8 (u16 (header_length a)); put 8 12 (u32 total_length);
   put 12 16 (u32 payload_length); put 16 32 (Ok (session_id a)); put 32 36 (u32 (Z.land (sequence a) 0xFFFFFFFF));
   put 36 40 (Ok (zeros 4)); put 40 (NWB1_HEADER + len (payload a)) (Ok (payload a))].

Definition encode_nwb1 (a : nwb1_args) : res bytes :=
  raise_if (negb (len (session_id a) =? 16)) (ValueError "session_id");;
  record ← run_writes (nwb1_writes a) (zeros (NWB1_HEADER + len (payload a)));
  match force_crc a with
  | None => seal_at crc32c 36 record
  | Some crc => run_writes [put 36 40 (u32 (Z.land crc 0xFFFFFFFF))] record
  end.

Definition differs {A} `{EqDecision A} (expected : option A) (v : A) : bool :=
  match expected with Some e => negb (bool_decide (v = e)) | None => false end.

Definition classify_nwb1_framing (record : bytes) (expected_session : option bytes) (expected_sequence : option Z) : string :=
  if len record <? NWB1_HEADER then "CORRUPT"
  else if negb (bool_decide (slice 0 4 record = NWB1_MAGIC)) then "CORRUPT"
  else
    let version := be_val (slice 4 6 record) in
    let header_length := be_val (slice 6 8 record) in
    let total_length := be_val (slice 8 12 record) in
    let payload_length := be_val (slice 12 16 record) in
    let session_id := slice 16 32 record in
    let sequence := be_val (slice 32 36 record) in
    let stored_crc := be_val (slice 36 40 record) in
    if negb (header_length =? NWB1_HEADER) then "CORRUPT"
    else if negb (total_length =? len record) then "CORRUPT"
    else if negb (payload_length =? len record - NWB1_HEADER) then "CORRUPT"
    else if negb (in_range NWB1_PAYLOAD_MIN NWB1_PAYLOAD_MAX payload_length) then "CORRUPT"
    else if negb (in_range NWB1_TOTAL_MIN NWB1_TOTAL_MAX total_length) then "CORRUPT"
    else if negb (crc32c (slice_assign 36 40 (zeros 4) record) =? stored_crc) then "CORRUPT"
    else if NWB1_VERSION <? version then "UNSUPPORTED"
    else if negb (version =? NWB1_VERSION) then "CORRUPT"
    else if all_zero session_id then "CORRUPT"
    else if differs expected_session session_id then "WRONG_SESSION"
    else if sequence =? 0xFFFFFFFF then "SEQUENCE_REJECT"
    else if differs expected_sequence sequence then "SEQUENCE_REJECT"
    else if negb (String.eqb (classify_nfl1_structural (slice_from 40 record)) "OK") then "INVALID_NFL1"
    else "OK".

(** ** Which packets are accepted *)

#[export] Instance crc32c_checksum : Checksum32 crc32c := _.

(** A structurally valid packet of [n] bytes. *)
Record nfl1_framed (m : bytes) : Prop := {
  nf_size : NWB1_PAYLOAD_MIN <= len m <= NWB1_PAYLOAD_MAX;
  nf_magic : slice 0 4 m = NFL1_MAGIC;
  nf_version : be_val (slice 4 6 m) = NFL1_VERSION;
  nf_header : be_val (slice 6 8 m) = NFL1_HEADER;
  nf_total : be_val (slice 8 12 m) = len m;
  nf_sealed : sealed crc32c 12 m;
  nf_names : be_val (slice 570 572 m) <= 63 /\ be_val (slice 572 574 m) <= 63 /\ be_val (slice 574 576 m) <= 63;
  nf_tail : be_val (slice 576 580 m) <= 65535 /\ be_val (slice 580 584 m) <= 65535;
  nf_sum : NFL1_HEADER + be_val (slice 570 572 m) + be_val (slice 572 574 m) + be_val (slice 574 576 m) +
           be_val (slice 576 580 m) + be_val (slice 580 584 m) = len m;
  nf_flags : be_val (slice 20 24 m) < 65536 }.


Lemma high_half_zero v : 0 <= v < 4294967296 -> Z.land v 0xFFFF0000 = 0 <-> v < 65536.
Proof.
  intros Hv. assert (H1 : Z.land v 0xFFFF0000 = Z.shiftl (Z.shiftr v 16) 16).
  { apply Z.bits_inj'. intros i Hi. rewrite Z.land_spec, Z.shiftl_spec by done.
    destruct (Z.ltb_spec i 16) as [Hlt | Hge].
    - rewrite (Z.testbit_neg_r (Z.shiftr v 16)) by lia. change 0xFFFF0000 with (Z.shiftl 0xFFFF 16).
      rewrite Z.shiftl_spec, (Z.testbit_neg_r 0xFFFF) by lia. apply andb_false_r.
    - rewrite Z.shiftr_spec by lia. replace (i - 16 + 16) with i by lia. change 0xFFFF0000 with (Z.shiftl (Z.ones 16) 16).
      rewrite Z.shiftl_spec by lia. destruct (Z.ltb_spec i 32) as [Hi2 | Hi2].
      + rewrite Z.ones_spec_low by lia. apply andb_true_r.
      + rewrite Z.ones_spec_high by lia. rewrite andb_false_r. symmetry. apply Z.bits_above_log2; [lia|].
        destruct (decide (v = 0)) as [-> | Hn]; [cbn; lia|]. apply Z.log2_lt_pow2; [lia|].
        assert (2 ^ 32 <= 2 ^ i) by (apply Z.pow_le_mono_r; lia). lia. }
  rewrite H1, Z.shiftl_eq_0_iff, Z.shiftr_div_pow2 by lia. change (2 ^ 16) with 65536.
  pose proof (Z.div_mod v 65536 ltac:(lia)). pose proof (Z.mod_pos_bound v 65536 ltac:(lia)). split; [lia|]. intros. apply Z.div_small. lia.
Qed.

(** The classifier accepts exactly the structurally valid packets. *)
Lemma classify_nfl1_OK m : bytes_ok m -> classify_nfl1_structural m = "OK"%string <-> nfl1_framed m.
Proof.
  intros Hm. unfold classify_nfl1_structural. cbv zeta. rewrite !guard_OK by discriminate.
  rewrite !decided_false, !negb_false_iff, !orb_false_iff, !Z.ltb_ge, !Z.eqb_eq, !in_range_spec.
  assert (Hf : 584 <= len m -> 0 <= be_val (slice 20 24 m) < 4294967296).
  { intros Hl. pose proof (be_val_bounds _ (bytes_ok_slice 20 24 m Hm)) as B. rewrite len_slice in B by lia. exact B. }
  split.
  - intros H. destruct_and!. unfold NFL1_HEADER in *. split; try tauto; try lia.
    + unfold sealed. change (12 + 4) with 16. congruence.
    + unfold NFL1_HEADER. congruence.
    + apply high_half_zero; auto.
  - intros H. destruct H. unfold NFL1_HEADER, NWB1_PAYLOAD_MIN, NWB1_PAYLOAD_MAX in *. split_and!; try tauto; try lia.
    + symmetry. exact nf_sealed0.
    + apply high_half_zero; [apply Hf|]; lia.
Qed.

Lemma classify_nfl1_cases m : classify_nfl1_structural m = "OK"%string \/ classify_nfl1_structural m = "INVALID_NFL1"%string.
Proof. unfold classify_nfl1_structural. repeat case_match; auto. Qed.

(** ** NWB1 records and their fields *)

Definition nwb1_parts (s : bytes) (q : Z) (pl : bytes) : list (res bytes) :=
  [Ok NWB1_MAGIC; u16 1; u16 40; u32 (40 + len pl); u32 (len pl); Ok s; u32 (Z.land q 0xFFFFFFFF); Ok (zeros 4); Ok pl].
Definition nwb1_widths (n : Z) : list Z := [4; 2; 2; 4; 4; 16; 4; 4; n].

Lemma low_word q : Z.land q 0xFFFFFFFF = q mod 4294967296.
Proof. change 0xFFFFFFFF with (Z.ones 32). by rewrite Z.land_ones by lia. Qed.

Lemma nwb1_parts_ok s q pl :
  raw 16 s -> bytes_ok pl -> len pl <= 65535 ->
  Forall2 wide (nwb1_parts s q pl) (nwb1_widths (len pl)) /\ Forall fine (nwb1_parts s q pl) /\ Forall sound (nwb1_parts s q pl).
Proof.
  intros [Ls Bs] Bp Hl. pose proof (len_nonneg pl). pose proof (Z.mod_pos_bound q 4294967296 ltac:(lia)).
  unfold nwb1_parts, nwb1_widths, NWB1_MAGIC. rewrite low_word. split_and!; [solve_wide | solve_fine | solve_sound].
Qed.

Lemma encode_nwb1_join s q pl :
  raw 16 s -> bytes_ok pl -> len pl <= 65535 -> encode_nwb1 (nwb1 s q pl) = (x ← join (nwb1_parts s q pl); seal_at crc32c 36 x).
Proof.
  intros Hs Bp Hl. destruct (nwb1_parts_ok s q pl Hs Bp Hl) as (W & _ & _). destruct Hs as [Ls _]. pose proof (len_nonneg pl).
  unfold encode_nwb1. cbn [session_id nwb1 payload force_crc]. rewrite raise_if_skip by (by rewrite Ls). cbv zeta.
  set (fs := [(0, 4, Ok NWB1_MAGIC); (4, 6, u16 1); (6, 8, u16 40); (8, 12, u32 (40 + len pl)); (12, 16, u32 (len pl)); (16, 32, Ok s);
              (32, 36, u32 (Z.land q 0xFFFFFFFF)); (36, 40, Ok (zeros 4)); (40, 40 + len pl, Ok pl)]).
  change (nwb1_writes (nwb1 s q pl)) with (puts fs). change (nwb1_parts s q pl) with (map snd fs).
  rewrite (run_puts fs (nwb1_widths (len pl))); [reflexivity | reflexivity | | exact W | unfold NWB1_HEADER; lia | ].
  - unfold fs, nwb1_widths. cbn [map fst snd]. repeat f_equal. lia.
  - unfold nwb1_widths, total_width, NWB1_HEADER. cbn [foldr]. lia.
Qed.

(** What a record holds. *)
Definition nwb1_holds (s : bytes) (q : Z) (pl r : bytes) : Prop :=
  bytes_ok r /\ len r = 40 + len pl /\ slice 0 4 r = NWB1_MAGIC /\ be_val (slice 4 6 r) = 1 /\ be_val (slice 6 8 r) = 40 /\
  be_val (slice 8 12 r) = 40 + len pl /\ be_val (slice 12 16 r) = len pl /\ slice 16 32 r = s /\
  be_val (slice 32 36 r) = q mod 4294967296 /\ slice_from 40 r = pl /\ sealed crc32c 36 r.

Lemma encode_nwb1_Ok s q pl :
  raw 16 s -> bytes_ok pl -> len pl <= 65535 -> exists r, encode_nwb1 (nwb1 s q pl) = Ok r /\ nwb1_holds s q pl r.
Proof.
  intros Hs Bp Hl. pose proof (len_nonneg pl) as Np. rewrite encode_nwb1_join by done.
  destruct (nwb1_parts_ok s q pl Hs Bp Hl) as (W & F & S). destruct (join_total _ F) as [x Ex]. rewrite Ex, ok_bind.
  pose proof (join_len _ _ _ W Ex) as Lx. unfold nwb1_widths, total_width in Lx. cbn [foldr] in Lx.
  destruct (seal_at_Ok crc32c 36 x (join_sound _ _ S Ex) ltac:(lia) ltac:(lia)) as (r & Er & Lr & Br & Sr & Hr).
  exists r. split; [exact Er|].
  assert (Hz : slice 36 40 x = zeros 4) by (symmetry; apply Ok_inj; exact (join_read _ _ _ 7 _ W Ex eq_refl)).
  unfold nwb1_holds. split; [exact Br|]. split; [lia|].
  split; [rewrite Hr by lia; read_part W Ex 0%nat|]. split; [rewrite Hr by lia; read_part W Ex 1%nat|].
  split; [rewrite Hr by lia; read_part W Ex 2%nat|]. split; [rewrite Hr by lia; read_part W Ex 3%nat|].
  split; [rewrite Hr by lia; read_part W Ex 4%nat|]. split; [rewrite Hr by lia; read_part W Ex 5%nat|].
  split; [rewrite Hr, <- low_word by lia; read_part W Ex 6%nat|]. split; [|by apply Sr].
  rewrite slice_from_slice by lia. rewrite Hr by lia. rewrite Lr, Lx. unfold nwb1_widths in W. read_part_at [4; 2; 2; 4; 4; 16; 4; 4; len pl] W Ex 8%nat.
Qed.

(** A sealed record whose header is well formed is the encoding of its parts. *)
Lemma nwb1_rebuild r :
  bytes_ok r -> 40 <= len r -> len r - 40 <= 65535 -> slice 0 4 r = NWB1_MAGIC -> be_val (slice 4 6 r) = 1 -> be_val (slice 6 8 r) = 40 ->
  be_val (slice 8 12 r) = len r -> be_val (slice 12 16 r) = len r - 40 -> sealed crc32c 36 r ->
  encode_nwb1 (nwb1 (slice 16 32 r) (be_val (slice 32 36 r)) (slice_from 40 r)) = Ok r.
Proof.
  intros Br Hl Hmax H1 H2 H3 H4 H5 Hs.
  assert (Lp : len (slice_from 40 r) = len r - 40) by (rewrite slice_from_slice by lia; rewrite len_slice by lia; lia).
  assert (Bp : bytes_ok (slice_from 40 r)) by (rewrite slice_from_slice by lia; by apply bytes_ok_slice).
  assert (Ls : raw 16 (slice 16 32 r)) by (split; [rewrite len_slice by lia; lia | by apply bytes_ok_slice]).
  destruct (encode_nwb1_Ok (slice 16 32 r) (be_val (slice 32 36 r)) (slice_from 40 r) Ls Bp ltac:(lia)) as (r' & E & Hh).
  rewrite E. f_equal. destruct Hh as (B' & L' & K1 & K2 & K3 & K4 & K5 & K6 & K7 & K8 & K9). rewrite Lp in *.
  pose proof (be_val_bounds _ (bytes_ok_slice 32 36 r Br)) as Bq. rewrite len_slice in Bq by lia. change (256 ^ (36 - 32)) with 4294967296 in Bq.
  rewrite Z.mod_small in K7 by exact Bq.
  apply (sealed_unique crc32c 36); try done; try lia.
  - assert (C : forall m : bytes, len m = len r -> slice 0 36 m = slice 0 4 m ++ slice 4 6 m ++ slice 6 8 m ++ slice 8 12 m ++ slice 12 16 m
              ++ slice 16 32 m ++ slice 32 36 m) by (intros m Hm; rewrite <- !slice_split by lia; done).
    rewrite !C by lia. rewrite K1, K6, H1.
    assert (V : forall a c, 0 <= a <= c -> c <= len r -> be_val (slice a c r') = be_val (slice a c r) -> slice a c r' = slice a c r).
    { intros a c Ha Hc Hv. apply be_val_inj; auto using bytes_ok_slice. rewrite !len_slice by lia. done. }
    rewrite (V 4 6), (V 6 8), (V 8 12), (V 12 16), (V 32 36) by (lia || congruence). done.
  - rewrite L'. rewrite !slice_from_slice in K8 by lia. rewrite L' in K8.
    replace (40 + (len r - 40)) with (len r) in * by lia. exact K8.
Qed.

Lemma differs_false {A} `{EqDecision A} (expected : option A) v : differs expected v = false <-> forall e, expected = Some e -> v = e.
Proof. destruct expected as [x|]; cbn; [rewrite decided_false|]; naive_solver. Qed.

(** The checks before the version: framing and checksum. *)
Record nwb1_intact (r : bytes) : Prop := {
  ni_size : NWB1_TOTAL_MIN <= len r <= NWB1_TOTAL_MAX;
  ni_magic : slice 0 4 r = NWB1_MAGIC;
  ni_header : be_val (slice 6 8 r) = NWB1_HEADER;
  ni_total : be_val (slice 8 12 r) = len r;
  ni_payload : be_val (slice 12 16 r) = len r - NWB1_HEADER;
  ni_sealed : sealed crc32c 36 r }.

(** What follows them. *)
Definition after_intact (r : bytes) (expected_session : option bytes) (expected_sequence : option Z) : string :=
  if NWB1_VERSION <? be_val (slice 4 6 r) then "UNSUPPORTED"
  else if negb (be_val (slice 4 6 r) =? NWB1_VERSION) then "CORRUPT"
  else if all_zero (slice 16 32 r) then "CORRUPT"
  else if differs expected_session (slice 16 32 r) then "WRONG_SESSION"
  else if be_val (slice 32 36 r) =? 0xFFFFFFFF then "SEQUENCE_REJECT"
  else if differs expected_sequence (be_val (slice 32 36 r)) then "SEQUENCE_REJECT"
  else if negb (String.eqb (classify_nfl1_structural (slice_from 40 r)) "OK") then "INVALID_NFL1"
  else "OK".

Lemma classify_intact r es eq : nwb1_intact r -> classify_nwb1_framing r es eq = after_intact r es eq.
Proof.
  intros [S1 S2 S3 S4 S5 S6]. unfold classify_nwb1_framing. cbv zeta. unfold NWB1_TOTAL_MIN, NWB1_TOTAL_MAX, NWB1_HEADER in *.
  rewrite (proj2 (Z.ltb_ge _ _)) by lia. rewrite S2, bool_decide_eq_true_2 by done. cbn [negb].
  rewrite S3, S4, S5, !Z.eqb_refl. cbn [negb].
  rewrite (proj2 (in_range_spec NWB1_PAYLOAD_MIN NWB1_PAYLOAD_MAX _)) by (unfold NWB1_PAYLOAD_MIN, NWB1_PAYLOAD_MAX; lia).
  rewrite (proj2 (in_range_spec 627 1965 _)) by lia. unfold sealed in S6. change (36 + 4) with 40 in S6. rewrite <- S6, Z.eqb_refl. done.
Qed.

Lemma classify_not_corrupt r es eq : classify_nwb1_framing r es eq <> "CORRUPT"%string -> nwb1_intact r.
Proof.
  unfold classify_nwb1_framing. cbv zeta. unfold NWB1_TOTAL_MIN, NWB1_TOTAL_MAX, NWB1_HEADER. intros H.
  repeat match type of H with (if ?c then "CORRUPT"%string else _) <> _ => destruct c eqn:?; [by destruct H|] end.
  clear H. rewrite !decided_false, !negb_false_iff, !Z.eqb_eq, !in_range_spec in *. bool_to_prop.
  split; unfold NWB1_TOTAL_MIN, NWB1_TOTAL_MAX, NWB1_HEADER; try done; try lia.
Qed.

(** The encoding of an acceptable payload is accepted by whom it is meant for. *)
Lemma nwb1_accepted s q pl r expected_session expected_sequence :
  encode_nwb1 (nwb1 s q pl) = Ok r -> raw 16 s -> any_nonzero s = true -> 0 <= q < 0xFFFFFFFF -> bytes_ok pl -> nfl1_framed pl ->
  (forall e, expected_session = Some e -> s = e) -> (forall e, expected_sequence = Some e -> q = e) ->
  classify_nwb1_framing r expected_session expected_sequence = "OK"%string.
Proof.
  intros E Hs Hz Hq Bp Hp He Hsq. pose proof (nf_size _ Hp) as Hl.
  unfold NWB1_PAYLOAD_MIN, NWB1_PAYLOAD_MAX in Hl.
  destruct (encode_nwb1_Ok s q pl Hs Bp ltac:(lia)) as (r' & E' & Hh). rewrite E in E'. apply Ok_inj in E' as <-.
  destruct Hh as (_ & L & K1 & K2 & K3 & K4 & K5 & K6 & K7 & K8 & K9). rewrite Z.mod_small in K7 by lia.
  rewrite classify_intact by (split; unfold NWB1_TOTAL_MIN, NWB1_TOTAL_MAX, NWB1_HEADER; try done; lia).
  unfold after_intact. rewrite !guard_OK by discriminate. unfold all_zero. rewrite K2, K6, K7, K8, Hz.
  rewrite !differs_false, !negb_false_iff, Z.eqb_neq, eqb_OK. split_and!; try done; try lia. by apply classify_nfl1_OK.
Qed.

(** C6. The NWB1 classifier accepts exactly the records the encoder makes: a record
    passes for an expected session and sequence number when, and only when, it is
    the encoding of a nonzero 16-byte session identifier, a sequence number below
    2^32 - 1 and a structurally valid NFL1 packet, with the session and the
    sequence number expected. *)
Theorem nwb1_accepts_exactly r expected_session expected_sequence :
  bytes_ok r ->
  classify_nwb1_framing r expected_session expected_sequence = "OK"%string <->
  exists s q pl, encode_nwb1 (nwb1 s q pl) = Ok r /\ raw 16 s /\ any_nonzero s = true /\ 0 <= q < 0xFFFFFFFF /\
    bytes_ok pl /\ nfl1_framed pl /\ (forall e, expected_session = Some e -> s = e) /\ (forall e, expected_sequence = Some e -> q = e).
Proof.
  intros Br. split.
  - intros H. assert (Hi : nwb1_intact r) by (apply (classify_not_corrupt r expected_session expected_sequence); by rewrite H).
    rewrite classify_intact in H by done. destruct Hi as [S1 S2 S3 S4 S5 S6]. unfold after_intact in H. rewrite !guard_OK in H by discriminate.
    rewrite !differs_false, !negb_false_iff, Z.ltb_ge, Z.eqb_eq, Z.eqb_neq, eqb_OK in H. destruct_and!.
    unfold NWB1_TOTAL_MIN, NWB1_TOTAL_MAX, NWB1_HEADER in *.
    assert (Lp : slice_from 40 r = slice 40 (len r) r) by (apply slice_from_slice; lia).
    assert (Bp : bytes_ok (slice_from 40 r)) by (rewrite Lp; by apply bytes_ok_slice).
    pose proof (be_val_bounds _ (bytes_ok_slice 32 36 r Br)) as Bq. rewrite len_slice in Bq by lia. change (256 ^ (36 - 32)) with 4294967296 in Bq.
    exists (slice 16 32 r), (be_val (slice 32 36 r)), (slice_from 40 r). split_and!; try done; try lia.
    + apply nwb1_rebuild; try done; lia.
    + split; [rewrite len_slice by lia; lia | by apply bytes_ok_slice].
    + unfold all_zero in *. by apply negb_false_iff.
    + by apply classify_nfl1_OK.
  - intros (s & q & pl & E & Hs & Hz & Hq & Bp & Hp & He & Hsq). by apply (nwb1_accepted s q pl).
Qed.

(** Every verdict on a record the encoder makes from a payload of acceptable size:
    the zero session is corruption, another session than the one expected is
    reported as such, then the last sequence number and one that is not
    expected, then a payload that is no structurally valid NFL1 packet. *)
Theorem nwb1_verdicts s q pl expected_session expected_sequence :
  raw 16 s -> bytes_ok pl -> NWB1_PAYLOAD_MIN <= len pl <= NWB1_PAYLOAD_MAX ->
  exists r, encode_nwb1 (nwb1 s q pl) = Ok r /\
    let sequence := q mod 4294967296 in
    classify_nwb1_framing r expected_session expected_sequence =
      if negb (any_nonzero s) then "CORRUPT"%string
      else if differs expected_session s then "WRONG_SESSION"%string
      else if (sequence =? 0xFFFFFFFF) || differs expected_sequence sequence then "SEQUENCE_REJECT"%string
      else classify_nfl1_structural pl.
Proof.
  intros Hs Bp Hl. unfold NWB1_PAYLOAD_MIN, NWB1_PAYLOAD_MAX in Hl.
  destruct (encode_nwb1_Ok s q pl Hs Bp ltac:(lia)) as (r & E & Hh). exists r. split; [done|]. cbv zeta.
  destruct Hh as (_ & L & K1 & K2 & K3 & K4 & K5 & K6 & K7 & K8 & K9).
  rewrite classify_intact by (split; unfold NWB1_TOTAL_MIN, NWB1_TOTAL_MAX, NWB1_HEADER; try done; lia).
  unfold after_intact, all_zero. rewrite K2, K6, K7, K8. cbn [NWB1_VERSION Z.ltb Z.eqb Z.compare Pos.compare Pos.compare_cont negb Pos.eqb].
  destruct (any_nonzero s), (differs expected_session s), (q mod 4294967296 =? 4294967295), (differs expected_sequence (q mod 4294967296)); try done; cbn;
    by destruct (classify_nfl1_cases pl) as [-> | ->].
Qed.

(** Corrupting any single byte of an encoded record, header, checksum or payload,
    is reported as corruption, whatever is expected. *)
Theorem nwb1_corruption_reported s q pl r r' expected_session expected_sequence :
  raw 16 s -> bytes_ok pl -> NWB1_PAYLOAD_MIN <= len pl <= NWB1_PAYLOAD_MAX -> encode_nwb1 (nwb1 s q pl) = Ok r ->
  bytes_ok r' -> one_byte_apart r r' -> classify_nwb1_framing r' expected_session expected_sequence = "CORRUPT"%string.
Proof.
  intros Hs Bp Hl E Br' Hd. unfold NWB1_PAYLOAD_MIN, NWB1_PAYLOAD_MAX in Hl.
  destruct (encode_nwb1_Ok s q pl Hs Bp ltac:(lia)) as (x & Ex & Hh). rewrite E in Ex. apply Ok_inj in Ex as <-.
  destruct Hh as (Br & L & _ & _ & _ & _ & _ & _ & _ & _ & Hsealed).
  destruct (decide (classify_nwb1_framing r' expected_session expected_sequence = "CORRUPT"%string)) as [|Hn]; [done|].
  apply classify_not_corrupt in Hn. exfalso. exact (sealed_detects crc32c 36 r r' Br Br' ltac:(lia) ltac:(lia) Hsealed (ni_sealed _ Hn) Hd).
Qed.

(** ** The synthetic NFL1 encoder *)

Definition STRUCTURAL_WIDTHS : list Z := Eval cbn in map (fun f => f.1.2 - f.1.1) (structural_fields true 1 0 0).

Lemma structural_ok version n k :
  u16_ok version -> u32_ok n -> u32_ok k ->
  Forall2 wide (map snd (structural_fields true version n k)) STRUCTURAL_WIDTHS /\
  Forall fine (map snd (structural_fields true version n k)) /\ Forall sound (map snd (structural_fields true version n k)).
Proof.
  intros Hv Hn Hk. unfold u16_ok, u32_ok in *. unfold structural_fields, STRUCTURAL_WIDTHS, NFL1_MAGIC, NFL1_HEADER. cbn [map snd].
  pose proof (digest_len (h := sha256) (bytes_of_string "wifi-nfl1-descriptor")) as L1. pose proof (digest_ok (h := sha256) (bytes_of_string "wifi-nfl1-descriptor")) as B1.
  pose proof (digest_len (h := sha256) (bytes_of_string "wifi-nfl1-content")) as L2. pose proof (digest_ok (h := sha256) (bytes_of_string "wifi-nfl1-content")) as B2.
  pose proof (digest_len (h := sha256) (bytes_of_string "wifi-nfl1-route")) as L3. pose proof (digest_ok (h := sha256) (bytes_of_string "wifi-nfl1-route")) as B3.
  split_and!; [solve_wide | solve_fine | solve_sound].
Qed.

(** The packet, its header and its seal. *)
Lemma structural_built n version :
  u16_ok version -> 587 <= n <= 65535 ->
  exists m, encode_nfl1_structural n true version = Ok m /\ len m = n /\ bytes_ok m /\ sealed crc32c 12 m /\
    slice 0 4 m = NFL1_MAGIC /\ be_val (slice 4 6 m) = version /\ be_val (slice 6 8 m) = 584 /\ be_val (slice 8 12 m) = n /\
    be_val (slice 20 24 m) = 0 /\ be_val (slice 570 572 m) = 1 /\ be_val (slice 572 574 m) = 1 /\ be_val (slice 574 576 m) = 1 /\
    be_val (slice 576 580 m) = n - 587 /\ be_val (slice 580 584 m) = 0.
Proof.
  intros Hv Hn. unfold encode_nfl1_structural, NFL1_HEADER. cbv zeta.
  rewrite !raise_if_skip by (rewrite ?andb_false_iff, ?Z.ltb_ge; auto with lia).
  replace (Z.max 0 (n - 584 - 3)) with (n - 587) by lia. set (pl := pattern 0x41 (n - 587)).
  assert (Lp : len pl = n - 587) by (apply len_pattern; lia). rewrite Lp.
  destruct (structural_ok version n (n - 587) Hv ltac:(unfold u32_ok; lia) ltac:(unfold u32_ok; lia)) as (W & F & S).
  rewrite (run_puts _ STRUCTURAL_WIDTHS) by (reflexivity || done).
  destruct (join_total _ F) as [h Eh]. rewrite Eh, ok_bind.
  pose proof (join_len _ _ _ W Eh) as Lh. change (total_width STRUCTURAL_WIDTHS) with 584 in Lh.
  change (bytes_of_string "n" ++ bytes_of_string "s" ++ bytes_of_string "x" ++ pl) with ([110; 115; 120] ++ pl).
  set (x := h ++ [110; 115; 120] ++ pl).
  assert (Lx : len x = n) by (unfold x; rewrite !len_app, Lh, Lp; change (len [110; 115; 120]) with 3; lia).
  rewrite raise_if_skip by (by rewrite Lx, Z.eqb_refl).
  assert (Bx : bytes_ok x).
  { unfold x. rewrite !bytes_ok_app. split; [by eapply join_sound|]. split; [repeat constructor; lia | apply pattern_ok]. }
  destruct (seal_at_Ok crc32c 12 x Bx ltac:(lia) ltac:(lia)) as (m & Em & Lm & Bm & Sm & Hm).
  exists m. split; [exact Em|]. split; [lia|]. split; [exact Bm|].
  assert (R : forall a c, 0 <= a <= c -> c <= 584 -> c <= 12 \/ 16 <= a -> slice a c m = slice a c h).
  { intros a c Ha Hc Hg. rewrite Hm by done. apply slice_app_l; lia. }
  pose proof (join_reads _ _ _ W Eh) as Q. unfold structural_fields in Q. cbn [map snd] in Q. read_all Q.
  assert (Z4 : slice 12 16 x = zeros 4) by (unfold x; rewrite slice_app_l by lia; read_known).
  split; [by apply Sm|]. rewrite !R by lia. split_and!; read_known.
Qed.

(** The synthetic packet of [n] bytes: below 587 the encoder refuses; from there
    on it produces exactly [n] bytes, and the structural classifier accepts them exactly
    when the version is 1 and [n] is at most 1925. *)
Theorem structural_exact n version :
  u16_ok version -> n <= 65535 ->
  (n < 584 -> encode_nfl1_structural n true version = Raise (ValueError "nfl1 too short")) /\
  (584 <= n < 587 -> encode_nfl1_structural n true version = Raise (ValueError "nfl1 body")) /\
  (587 <= n -> exists m, encode_nfl1_structural n true version = Ok m /\ len m = n /\ bytes_ok m /\
     (classify_nfl1_structural m = "OK"%string <-> version = NFL1_VERSION /\ n <= NWB1_PAYLOAD_MAX)).
Proof.
  intros Hv Hn. split; [|split].
  - intros H. unfold encode_nfl1_structural, NFL1_HEADER. by rewrite (proj2 (Z.ltb_lt _ _) H).
  - intros H. unfold encode_nfl1_structural, NFL1_HEADER. rewrite raise_if_skip by (apply Z.ltb_ge; lia).
    cbv zeta. by rewrite (proj2 (Z.ltb_lt _ _)) by lia.
  - intros H. destruct (structural_built n version Hv ltac:(lia)) as (m & E & L & B & Hs & H1 & H2 & H3 & H4 & H5 & H6 & H7 & H8 & H9 & H10).
    exists m. split; [done|]. split; [done|]. split; [done|]. rewrite classify_nfl1_OK by done. unfold NWB1_PAYLOAD_MAX. split.
    + intros [N1 _ N3 _ _ _ _ _ _ _]. unfold NWB1_PAYLOAD_MAX in N1. split; [congruence | lia].
    + intros [-> Hle]. split; unfold NWB1_PAYLOAD_MIN, NWB1_PAYLOAD_MAX, NFL1_HEADER; rewrite ?H6, ?H7, ?H8, ?H9, ?H10; try done; lia.
Qed.

(** ** Concrete packets *)

Lemma structural_exact_witness :
  exists m, encode_nfl1_structural 600 true NFL1_VERSION = Ok m /\ classify_nfl1_structural m = "OK"%string.
Proof.
  assert (Hv : u16_ok NFL1_VERSION) by (split; [intros Hlt; discriminate Hlt | reflexivity]).
  destruct (structural_exact 600 NFL1_VERSION Hv ltac:(lia)) as (_ & _ & H).
  destruct (H ltac:(lia)) as (m & E & _ & _ & C). exists m. split; [exact E|]. apply C. split; [reflexivity | unfold NWB1_PAYLOAD_MAX; lia].
Defined.

Lemma example_packet : exists m, bytes_ok m /\ nfl1_framed m.
Proof.
  assert (Hv : u16_ok NFL1_VERSION) by (split; [intros Hlt; discriminate Hlt | reflexivity]).
  destruct (structural_built 600 NFL1_VERSION Hv ltac:(lia)) as (m & E & L & B & Hs & H1 & H2 & H3 & H4 & H5 & H6 & H7 & H8 & H9 & H10).
  clear E. exists m. split; [exact B|].
  split; unfold NWB1_PAYLOAD_MIN, NWB1_PAYLOAD_MAX, NFL1_HEADER; rewrite ?H6, ?H7, ?H8, ?H9, ?H10, ?L; first [assumption | lia].
Qed.

Lemma nwb1_accepts_exactly_witness :
  exists pl r, encode_nwb1 (nwb1 (pattern 1 16) 7 pl) = Ok r /\ classify_nwb1_framing r (Some (pattern 1 16)) (Some 7) = "OK"%string.
Proof.
  destruct example_packet as (pl & Bp & Hp). pose proof (nf_size _ Hp) as Hl.
  destruct (encode_nwb1_Ok (pattern 1 16) 7 pl (raw_pattern 1 16 ltac:(lia)) Bp ltac:(unfold NWB1_PAYLOAD_MAX in Hl; lia)) as (r & E & Hh).
  exists pl, r. split; [exact E|].
  apply (nwb1_accepts_exactly r (Some (pattern 1 16)) (Some 7) (proj1 Hh)). exists (pattern 1 16), 7, pl.
  split; [exact E|]. split; [apply raw_pattern; lia|]. split; [reflexivity|]. split; [lia|]. split; [exact Bp|]. split; [exact Hp|].
  split; intros e Ee; injection Ee; auto.
Defined.

Lemma nwb1_verdicts_witness :
  exists r, encode_nwb1 (nwb1 (pattern 1 16) 0xFFFFFFFF (zeros 600)) = Ok r /\
    classify_nwb1_framing r None None = "SEQUENCE_REJECT"%string.
Proof.
  exact (nwb1_verdicts (pattern 1 16) 0xFFFFFFFF (zeros 600) None None (raw_pattern 1 16 ltac:(lia)) (zeros_ok 600)
    ltac:(rewrite len_zeros; unfold NWB1_PAYLOAD_MIN, NWB1_PAYLOAD_MAX; lia)).
Defined.

Lemma nwb1_corruption_reported_witness :
  exists r, encode_nwb1 (nwb1 (pattern 1 16) 7 (zeros 600)) = Ok r /\
    forall r', bytes_ok r' -> one_byte_apart r r' -> classify_nwb1_framing r' None None = "CORRUPT"%string.
Proof.
  destruct (encode_nwb1_Ok (pattern 1 16) 7 (zeros 600) (raw_pattern 1 16 ltac:(lia)) (zeros_ok 600) ltac:(rewrite len_zeros; lia)) as (r & E & _).
  exists r. split; [exact E|]. intros r' B D.
  exact (nwb1_corruption_reported (pattern 1 16) 7 (zeros 600) r r' None None (raw_pattern 1 16 ltac:(lia)) (zeros_ok 600)
    ltac:(rewrite len_zeros; unfold NWB1_PAYLOAD_MIN, NWB1_PAYLOAD_MAX; lia) E B D).
Defined.
