(* ===== verification/Carriage.v ===== *)
(** The Fabric's messages on the Wi-Fi bearer: the packets the one generator encodes
    (Fabric.v) are the packets the other one accepts (Wifi.v), and a session record
    gives back the message it carries. *)

From S2P Require Import Prelude Bytes Crc Sha256 Layout Join Chain Fabric Wifi.

(** The sizes and flags the Wi-Fi bearer asks of a message. *)
Definition carriable (f : nfl1_fields) : Prop :=
  NWB1_PAYLOAD_MIN <= NFL1_HEADER + len (tail_of (body f)) <= NWB1_PAYLOAD_MAX /\
  len (namespace (body f)) <= 63 /\ len (service (body f)) <= 63 /\ len (schema (body f)) <= 63 /\ message_flags f < 65536.

Lemma packet_framed f m : nfl1_ok f -> encode_nfl1 f = Ok m -> bytes_ok m /\ (nfl1_framed m <-> carriable f).
Proof.
  intros H E. destruct (encoding_holds f H) as (m' & E' & B & Hm). rewrite E in E'. apply Ok_inj in E' as <-. split; [done|].
  pose proof (len_tail (body f)) as Lt. pose proof (len_nonneg (Fabric.payload (body f))). pose proof (len_nonneg (evidence (body f))).
  pose proof (len_nonneg (namespace (body f))). pose proof (len_nonneg (service (body f))). pose proof (len_nonneg (schema (body f))).
  open_nfl1_holds Hm. unfold carriable.
  change Fabric.NFL1_HEADER with 584 in *. unfold NFL1_HEADER, NWB1_PAYLOAD_MIN, NWB1_PAYLOAD_MAX in *. split.
  - intros Hf. destruct Hf. unfold NFL1_HEADER, NWB1_PAYLOAD_MIN, NWB1_PAYLOAD_MAX in *. lia.
  - intros ((N1 & N2) & N3 & N4 & N5 & N6).
    split; unfold NFL1_HEADER, NWB1_PAYLOAD_MIN, NWB1_PAYLOAD_MAX; first [assumption | lia].
Qed.

(** The two generators agree on NFL1: a packet the Fabric encoder makes from an
    encodable message passes the Wi-Fi structural check exactly when it is between
    587 and 1925 bytes long, its three names are at most 63 bytes each, and the upper
    half of its flags is zero. *)
Theorem fabric_packet_accepted f m :
  nfl1_ok f -> encode_nfl1 f = Ok m -> classify_nfl1_structural m = "OK"%string <-> carriable f.
Proof. intros H E. destruct (packet_framed f m H E) as [B Hf]. by rewrite classify_nfl1_OK. Qed.

(** Every case message of the Fabric is acceptable. *)
Lemma case_accepted kind maximal stage :
  u32_ok stage -> 1 <= kind <= 6 ->
  exists f m, nfl1_case kind maximal stage = Ok (f, m) /\ nfl1_ok f /\ encode_nfl1 f = Ok m /\ bytes_ok m /\ nfl1_framed m.
Proof.
  intros Hs Hk. destruct (nfl1_case_built kind maximal stage Hs Hk) as (f & m & E & Hf & Em & Hb & Hfl & Hl & _).
  exists f, m. destruct (packet_framed f m Hf Em) as [B Hc]. split_and!; try done. apply Hc. clear E Hc B.
  destruct (encode_nfl1_Ok f Hf) as (h & m' & _ & E' & _ & L & _). rewrite Em in E'. apply Ok_inj in E' as <-.
  unfold carriable. change Fabric.NFL1_HEADER with 584 in L. rewrite Hfl.
  change NFL1_HEADER with 584. unfold NFL1_STRUCTURAL_MIN, NFL1_SEMANTIC_MAX, NWB1_PAYLOAD_MIN, NWB1_PAYLOAD_MAX in *.
  split; [lia|]. rewrite Hb. unfold case_strings. cbn [namespace service schema].
  clear. destruct maximal; vm_compute; split_and!; first [reflexivity | intros Hlt; discriminate Hlt].
Qed.

(** From message to session and back: every case message of the Fabric, small or
    maximal, travels in an NWB1 record that the receiver expecting that session and
    sequence number accepts, and the record's payload decodes to the kind,
    transaction and attempt of the message and to no other message. *)
Theorem fabric_message_carried kind maximal stage session q :
  u32_ok stage -> 1 <= kind <= 6 -> raw 16 session -> any_nonzero session = true -> 0 <= q < 0xFFFFFFFF ->
  exists f m r, nfl1_case kind maximal stage = Ok (f, m) /\ encode_nwb1 (nwb1 session q m) = Ok r /\
    classify_nwb1_framing r (Some session) (Some q) = "OK"%string /\ slice_from 40 r = m /\
    (exists i, decode_nfl1_identity (slice_from 40 r) = Ok i /\ id_kind i = kind /\ id_transaction i = transaction_id f /\
       id_attempt i = attempt_id f) /\
    forall g, nfl1_ok g -> encode_nfl1 g = Ok (slice_from 40 r) -> g = f.
Proof.
  intros Hs Hk Hses Hz Hq. destruct (case_accepted kind maximal stage Hs Hk) as (f & m & E & Hf & Em & B & Hfr).
  pose proof (nf_size _ Hfr) as Hl. unfold NWB1_PAYLOAD_MIN, NWB1_PAYLOAD_MAX in Hl.
  destruct (encode_nwb1_Ok session q m Hses B ltac:(lia)) as (r & Er & Hh). exists f, m, r. split; [exact E|]. split; [exact Er|].
  destruct Hh as (Br & L & K1 & K2 & K3 & K4 & K5 & K6 & K7 & K8 & K9). rewrite K8. split; [|split; [done|split]].
  - apply (nwb1_accepted session q m); try assumption; by intros e [= <-].
  - eexists. split; [exact (identity_of_encoding f m Hf Em)|]. cbn. split; [|done].
    destruct (nfl1_case_built kind maximal stage Hs Hk) as (f' & m' & E' & _ & _ & _ & _ & _ & Hkind & _).
    rewrite E in E'. apply Ok_inj in E'. by injection E' as -> _.
  - intros g Hg Eg. symmetry. by apply (nfl1_injective f g m).
Qed.

(** ** A concrete message *)

Lemma fabric_packet_accepted_witness :
  exists m, encode_nfl1 common_nfl1_fields = Ok m /\ classify_nfl1_structural m = "OK"%string.
Proof.
  destruct common_encoded as [m E]. exists m. split; [exact E|]. apply (fabric_packet_accepted common_nfl1_fields m common_ok E).
  unfold carriable. unfold NFL1_HEADER, NWB1_PAYLOAD_MIN, NWB1_PAYLOAD_MAX. clear.
  lazy. split_and!; first [reflexivity | intros Hlt; discriminate Hlt].
Defined.

Lemma fabric_message_carried_witness :
  exists f m r, nfl1_case 2 true 3 = Ok (f, m) /\ encode_nwb1 (nwb1 (pattern 1 16) 0 m) = Ok r /\ slice_from 40 r = m.
Proof.
  destruct (fabric_message_carried 2 true 3 (pattern 1 16) 0) as (f & m & r & E & Er & _ & H & _);
    [split; lia | lia | apply raw_pattern; lia | reflexivity | lia|].
  exists f, m, r. exact (conj E (conj Er H)).
Defined.
