(* ===== verification/WifiNetwork.v ===== *)
(** The Wi-Fi bearer's network authority: association inputs, the durable NWD1 record,
    what a commit of unknown outcome left behind, the TLS exporter contexts, and
    the reconnection backoff ([tools/wifi_bearer_spec_vector_gen.py]). *)

From S2P Require Import Prelude Bytes Crc Sha256 Layout Join Chain Sealed.

Definition NETWORK_PROFILE_TAG : bytes := bytes_of_string "NINLIL-WIFI-NETWORK-PROFILE-V1".
Definition ASSOC_AUTHORITY_TAG : bytes := bytes_of_string "NINLIL-WIFI-ASSOC-AUTHORITY-V1".
Definition NWD1_COMPLETE_TAG : bytes := bytes_of_string "NINLIL-WIFI-NWD1-COMPLETE-V1".
Definition NWD1_AUTH_TAG : bytes := bytes_of_string "NINLIL-WIFI-NWD1-AUTH-V1".
Definition ASSOC_INPUT_LEN : Z := 80.
Definition NWD1_MAGIC : bytes := bytes_of_string "NWD1".
Definition NWD1_VERSION : Z := 1.
Definition NWD1_HEADER : Z := 128.
Definition NWD1_RECORD_BYTES : Z := 160.
Definition PEER_CONTEXT_LEN : Z := 62.
Definition ATTACHED_CONTEXT_LEN : Z := 64.

Definition is_len (n : Z) (v : bytes) : bool := len v =? n.
Definition all_zero (value : bytes) : bool := negb (any_nonzero value).

(** [bytes(n - len(v))] after [v]: a negative count raises. *)
Definition padded (n : Z) (v : bytes) : res bytes :=
  raise_if (n <? len v) (ValueError "negative count");; mret (v ++ zeros (n - len v)).

(** ** Network profiles *)

Record profile_args := {
  pf_profile_id : bytes; pf_revision : Z; pf_binding_id : bytes; pf_ssid : bytes; pf_auth_mode : Z; pf_password_length : Z;
  pf_pmf_required : Z; pf_bssid_present : Z; pf_bssid : bytes; pf_channel : Z }.

Definition profile_parts (a : profile_args) (ssid_field : bytes) : list (res bytes) :=
  [Ok (pf_profile_id a); u64 (pf_revision a); Ok (zeros 32); Ok (pf_binding_id a); u8 (len (pf_ssid a)); Ok ssid_field;
   u8 (pf_auth_mode a); u8 (pf_password_length a); u8 (pf_pmf_required a); u8 (pf_bssid_present a); Ok (pf_bssid a);
   u8 (pf_channel a); Ok (zeros 7)].

Definition network_profile_digest (a : profile_args) : res bytes :=
  raise_if (negb (in_range 1 32 (len (pf_ssid a)))) (ValueError "ssid");;
  raise_if (negb (is_len 16 (pf_profile_id a)) || negb (is_len 16 (pf_binding_id a)) || negb (is_len 6 (pf_bssid a)))
    (ValueError "ids");;
  ssid_field ← padded 32 (pf_ssid a);
  meta ← join (profile_parts a ssid_field);
  mret (sha256 (NETWORK_PROFILE_TAG ++ meta)).

(** ** Association authority *)

(** The arguments of the input, and what parsing it gives back ([revision] is the
    parsed [association_epoch]). *)
Record association := {
  as_profile_id : bytes; as_revision : Z; as_profile_digest : bytes; as_binding_id : bytes; as_bssid : bytes;
  as_channel : Z; as_auth_mode : Z }.

Definition association_parts (a : association) : list (res bytes) :=
  [Ok (as_profile_id a); u64 (as_revision a); Ok (as_profile_digest a); Ok (as_binding_id a); Ok (as_bssid a);
   u8 (as_channel a); u8 (as_auth_mode a)].

Definition association_authority_input (a : association) : res bytes :=
  raise_if (negb (is_len 16 (as_profile_id a)) || negb (is_len 32 (as_profile_digest a)) || negb (is_len 16 (as_binding_id a)) ||
            negb (is_len 6 (as_bssid a))) (ValueError "assoc field sizes");;
  out ← join (association_parts a);
  raise_if (negb (len out =? ASSOC_INPUT_LEN)) (AssertionError "assoc input length");;
  mret out.

Definition parse_association_authority_input (canonical : bytes) : res association :=
  raise_if (negb (len canonical =? ASSOC_INPUT_LEN)) (ValueError "assoc input length");;
  mret {| as_profile_id := slice 0 16 canonical; as_revision := be_val (slice 16 24 canonical);
          as_profile_digest := slice 24 56 canonical; as_binding_id := slice 56 72 canonical;
          as_bssid := slice 72 78 canonical; as_channel := byte_at 78 canonical; as_auth_mode := byte_at 79 canonical |}.

Definition association_authority_digest_from_input (canonical : bytes) : res bytes :=
  raise_if (negb (len canonical =? ASSOC_INPUT_LEN)) (ValueError "assoc input");;
  mret (sha256 (ASSOC_AUTHORITY_TAG ++ canonical)).

Definition association_authority_digest (a : association) : res bytes :=
  canonical ← association_authority_input a;
  association_authority_digest_from_input canonical.

(** A value of the emitted row: hexadecimal text or an integer. *)
Inductive field_value := Hex (s : string) | Int (v : Z).

Definition assoc_row_fields_from_input (canonical : bytes) (prefix : string) : res (list (string * field_value)) :=
  parsed ← parse_association_authority_input canonical;
  digest ← association_authority_digest_from_input canonical;
  mret (map (fun kv => (String.append prefix kv.1, kv.2)) [
    ("profile_id_hex"%string, Hex (hex_of (as_profile_id parsed)));
    ("association_epoch"%string, Int (as_revision parsed)); ("profile_revision"%string, Int (as_revision parsed));
    ("profile_digest_hex"%string, Hex (hex_of (as_profile_digest parsed)));
    ("binding_id_hex"%string, Hex (hex_of (as_binding_id parsed))); ("bssid_hex"%string, Hex (hex_of (as_bssid parsed)));
    ("channel"%string, Int (as_channel parsed)); ("auth_mode"%string, Int (as_auth_mode parsed));
    ("association_authority_input_hex"%string, Hex (hex_of canonical));
    ("association_authority_digest_hex"%string, Hex (hex_of digest))]).

(** ** The NWD1 record *)

Record nwd1_args := {
  nw_profile_id : bytes; nw_revision : Z; nw_profile_digest : bytes; nw_binding_id : bytes; nw_ssid : bytes; nw_auth_mode : Z;
  nw_channel : Z; nw_bssid_present : Z; nw_bssid : bytes; nw_secret_ref_digest : bytes }.

Definition nwd1_writes (a : nwd1_args) : list write := [
  put 0 4 (Ok NWD1_MAGIC); put 4 6 (u16 NWD1_VERSION); put 6 8 (u16 NWD1_HEADER); put 8 12 (u32 NWD1_RECORD_BYTES);
  put 12 28 (Ok (nw_profile_id a)); put 28 36 (u64 (nw_revision a)); put 36 68 (Ok (nw_profile_digest a));
  put 68 84 (Ok (nw_binding_id a)); put_byte 84 (len (nw_ssid a)); put 85 117 (padded 32 (nw_ssid a));
  put_byte 117 (nw_auth_mode a); put_byte 118 (nw_channel a); put_byte 119 (nw_bssid_present a); put 120 126 (Ok (nw_bssid a));
  put 126 128 (Ok (zeros 2))].

Definition encode_nwd1 (a : nwd1_args) : res bytes :=
  raise_if (negb (is_len 32 (nw_secret_ref_digest a))) (ValueError "secret_ref");;
  raise_if (negb (in_range 1 32 (len (nw_ssid a)))) (ValueError "ssid");;
  body ← run_writes (nwd1_writes a) (zeros NWD1_HEADER);
  mret (body ++ nw_secret_ref_digest a).

Definition nwd1_complete_digest (record : bytes) : bytes := sha256 (NWD1_COMPLETE_TAG ++ record).

Definition nwd1_header_crc32c (record : bytes) : res Z :=
  raise_if (len record <? NWD1_HEADER) (ValueError "nwd1 short");;
  mret (crc32c_xorout (slice 0 NWD1_HEADER record)).

Definition nwd1_auth_digest (record : bytes) : res bytes :=
  raise_if (negb (len record =? NWD1_RECORD_BYTES)) (ValueError "nwd1");;
  mret (sha256 (NWD1_AUTH_TAG ++ slice 0 NWD1_HEADER record ++ slice_from NWD1_HEADER record)).

Definition validate_nwd1_record (record : bytes) : string :=
  if negb (len record =? NWD1_RECORD_BYTES) then "CORRUPT"
  else if negb (bool_decide (slice 0 4 record = NWD1_MAGIC)) then "CORRUPT"
  else if negb (be_val (slice 4 6 record) =? NWD1_VERSION) then "CORRUPT"
  else if negb (be_val (slice 6 8 record) =? NWD1_HEADER) then "CORRUPT"
  else if negb (be_val (slice 8 12 record) =? NWD1_RECORD_BYTES) then "CORRUPT"
  else if negb (bool_decide (slice 126 128 record = zeros 2)) then "CORRUPT"
  else if negb (in_range 1 32 (byte_at 84 record)) then "CORRUPT"
  else if negb (any_nonzero (slice 12 28 record)) then "CORRUPT"
  else if be_val (slice 28 36 record) =? 0 then "CORRUPT"
  else if negb (any_nonzero (slice 36 68 record)) then "CORRUPT"
  else if negb (any_nonzero (slice 68 84 record)) then "CORRUPT"
  else if negb (any_nonzero (slice 128 160 record)) then "CORRUPT"
  else "OK".

Record nwd1_authority := { va_value_hex : string; va_header_crc32c : Z; va_auth_digest_hex : string; va_complete_digest_hex : string }.

Definition nwd1_value_authority (record : bytes) : res nwd1_authority :=
  raise_if (negb (String.eqb (validate_nwd1_record record) "OK")) (ValueError "nwd1 framing");;
  crc ← nwd1_header_crc32c record;
  auth ← nwd1_auth_digest record;
  mret {| va_value_hex := hex_of record; va_header_crc32c := crc; va_auth_digest_hex := hex_of auth;
          va_complete_digest_hex := hex_of (nwd1_complete_digest record) |}.

(** ** Exporter contexts and bindings *)

Record peer := { pr_authority_id : bytes; pr_authority_term : Z; pr_assignment_epoch : Z; pr_client : bytes; pr_server : bytes }.

Definition peer_parts (p : peer) : list (res bytes) :=
  [Ok (pr_authority_id p); u64 (pr_authority_term p); u32 (pr_assignment_epoch p); u8 0x01; Ok (pr_client p); u8 0x02;
   Ok (pr_server p)].

Definition peer_context (p : peer) : res bytes :=
  raise_if (negb (is_len 16 (pr_authority_id p) && is_len 16 (pr_client p) && is_len 16 (pr_server p)))
    (ValueError "peer_context ids");;
  ctx ← join (peer_parts p);
  raise_if (negb (len ctx =? PEER_CONTEXT_LEN)) (AssertionError "peer_context");;
  mret ctx.

Definition attached_context (peer_session_id attachment_authority_id active_attachment_binding_digest : bytes) : res bytes :=
  raise_if (negb (is_len 16 peer_session_id && is_len 16 attachment_authority_id && is_len 32 active_attachment_binding_digest))
    (ValueError "attached_context ids");;
  let ctx := peer_session_id ++ attachment_authority_id ++ active_attachment_binding_digest in
  raise_if (negb (len ctx =? ATTACHED_CONTEXT_LEN)) (AssertionError "attached_context");;
  mret ctx.

Definition authority_group_class (authority_id : bytes) (authority_term assignment_epoch : Z) : string :=
  let zeros := all_zero authority_id && (authority_term =? 0) && (assignment_epoch =? 0) in
  let nonzeros := any_nonzero authority_id && negb (authority_term =? 0) && negb (assignment_epoch =? 0) in
  if zeros then "ALL_ZERO" else if nonzeros then "ALL_NONZERO" else "MIXED".

Record leaf := {
  lf_role : Z; lf_runtime_id : bytes; lf_candidate_digest : bytes; lf_authority_id : bytes; lf_authority_term : Z;
  lf_credential_generation : Z; lf_revocation_generation : Z }.

Definition leaf_parts (l : leaf) : list (res bytes) :=
  [u8 0x01; u8 (lf_role l); Ok (lf_runtime_id l); Ok (lf_candidate_digest l); Ok (lf_authority_id l); u64 (lf_authority_term l);
   u32 (lf_credential_generation l); u32 (lf_revocation_generation l)].

Definition leaf_binding_value (l : leaf) : res bytes :=
  raise_if (negb ((lf_role l =? 1) || (lf_role l =? 2))) (ValueError "role");;
  value ← join (leaf_parts l);
  raise_if (negb (len value =? 82)) (AssertionError "leaf");;
  mret value.

(** ** Backoff *)

Definition BACKOFF_MS : list Z := [1000; 2000; 4000; 8000; 16000; 32000].
Definition BACKOFF_CAP_MS : Z := 32000.

Definition backoff_ms (failure_generation : Z) : res Z :=
  raise_if (failure_generation <? 1) (ValueError "failure_generation");;
  if failure_generation <=? len BACKOFF_MS then mret (default 0 (BACKOFF_MS !! Z.to_nat (failure_generation - 1)))
  else mret BACKOFF_CAP_MS.

Definition jitter_ms (instance_id : bytes) (failure_generation : Z) : res Z :=
  g ← u64 failure_generation;
  mret (be_val (slice 0 2 (sha256 (instance_id ++ g))) mod 1000).

(** ** Commits of unknown outcome *)

Abbreviation rows := (list (bytes * bytes)).
Abbreviation image := (gmap bytes bytes).

(** [as_map]: [None] on a duplicate key or a value that is not a valid record. *)
Fixpoint as_map_from (out : image) (rs : rows) : option image :=
  match rs with
  | [] => Some out
  | (key, value) :: rs =>
      if bool_decide (is_Some (out !! key)) then None
      else if negb (String.eqb (validate_nwd1_record value) "OK") then None
      else as_map_from (<[key := value]> out) rs
  end.
Definition as_map (rs : rows) : option image := as_map_from ∅ rs.

(** [all(obs_map[k] == m[k] for k in keys)]; the keys are in both maps where it is used. *)
Definition agree_on (keys : gset bytes) (obs m : image) : bool :=
  forallb (fun k => bool_decide (obs !! k = m !! k)) (elements keys).

Definition classify_images (old_map new_map obs_map : image) : string :=
  let old_keys : gset bytes := dom old_map in
  let new_keys : gset bytes := dom new_map in
  let obs_keys : gset bytes := dom obs_map in
  if bool_decide (old_keys = ∅) && bool_decide (obs_keys = ∅) && negb (bool_decide (new_keys = ∅)) then "ABSENT"
  else if bool_decide (obs_map = old_map) && negb (bool_decide (old_keys = ∅)) then "OLD"
  else if bool_decide (obs_map = new_map) && negb (bool_decide (new_keys = ∅)) then "NEW"
  else if negb (bool_decide (old_keys = ∅)) && negb (bool_decide (new_keys = ∅)) && negb (bool_decide (old_map = new_map)) &&
          bool_decide (old_keys ## new_keys) && bool_decide (old_keys ⊆ obs_keys) && bool_decide (new_keys ⊆ obs_keys) &&
          agree_on old_keys obs_map old_map && agree_on new_keys obs_map new_map then "BOTH"
  else if negb (bool_decide (obs_keys = ∅)) && bool_decide (obs_keys ⊂ new_keys) && agree_on obs_keys obs_map new_map then "PARTIAL"
  else if negb (bool_decide (new_keys = ∅)) && bool_decide (new_keys ⊂ obs_keys) && agree_on new_keys obs_map new_map then "EXTRA"
  else "THIRD".

Definition classify_commit_unknown (old_rows new_rows observed_rows : rows) : string :=
  match as_map old_rows, as_map new_rows, as_map observed_rows with
  | Some old_map, Some new_map, Some obs_map => classify_images old_map new_map obs_map
  | _, _, _ => "CORRUPT"
  end.

(** ** Association inputs *)

Definition association_ok (a : association) : Prop :=
  raw 16 (as_profile_id a) /\ u64_ok (as_revision a) /\ raw 32 (as_profile_digest a) /\ raw 16 (as_binding_id a) /\
  raw 6 (as_bssid a) /\ is_byte (as_channel a) /\ is_byte (as_auth_mode a).

Definition ASSOC_WIDTHS : list Z := [16; 8; 32; 16; 6; 1; 1].

Lemma is_len_true n v : len v = n -> is_len n v = true.
Proof. intros <-. unfold is_len. apply Z.eqb_refl. Qed.

Lemma association_input_built a :
  association_ok a -> exists c, association_authority_input a = Ok c /\ join (association_parts a) = Ok c /\ raw 80 c /\
    Forall2 wide (association_parts a) ASSOC_WIDTHS.
Proof.
  intros ([L1 B1] & Hr & [L2 B2] & [L3 B3] & [L4 B4] & Hc & Hm). unfold u64_ok, is_byte in *.
  assert (W : Forall2 wide (association_parts a) ASSOC_WIDTHS) by (unfold association_parts, ASSOC_WIDTHS; solve_wide).
  destruct (join_total (association_parts a)) as [c Ec]; [unfold association_parts; solve_fine|].
  assert (Bc : bytes_ok c) by (apply (join_sound (association_parts a)); [unfold association_parts; solve_sound | done]).
  pose proof (join_len _ _ _ W Ec) as Lc. change (total_width ASSOC_WIDTHS) with 80 in Lc.
  exists c. split; [|done]. unfold association_authority_input. rewrite !is_len_true by done. cbn [negb orb].
  rewrite raise_if_skip by done. rewrite Ec, ok_bind. rewrite raise_if_skip by (by rewrite Lc). done.
Qed.

(** An association input and its parse are inverse: an association whose values fit
    is encoded into exactly 80 bytes that parse back to it, every 80-byte string
    parses to an association that encodes to it, and any other length is refused. *)
Theorem association_round_trip :
  (forall a, association_ok a -> exists c, association_authority_input a = Ok c /\ raw 80 c /\ parse_association_authority_input c = Ok a) /\
  (forall c, raw 80 c -> exists a, parse_association_authority_input c = Ok a /\ association_ok a /\ association_authority_input a = Ok c) /\
  (forall c, len c <> 80 -> parse_association_authority_input c = Raise (ValueError "assoc input length")).
Proof.
  split; [|split].
  - intros a Ha. destruct (association_input_built a Ha) as (c & E & Ec & [Lc Bc] & W). exists c. split; [done|]. split; [done|].
    unfold parse_association_authority_input. rewrite raise_if_skip by (by rewrite Lc). pose proof (join_reads _ _ _ W Ec) as R.
    unfold association_parts in R. read_all R.
    rewrite <- !byte_at_val by lia. change (78 + 1) with 79. change (79 + 1) with 80.
    repeat match goal with
    | K : Ok ?v = Ok (slice ?x ?y c) |- _ => rewrite <- (Ok_inj _ _ K); clear K
    | K : _ ?v = Ok (slice ?x ?y c) |- _ => rewrite (pack_val _ _ _ K); clear K
    end. by destruct a.
  - intros c [Lc Bc]. unfold parse_association_authority_input. rewrite raise_if_skip by (by rewrite Lc). eexists. split; [done|].
    set (a := {| as_profile_id := _ |}).
    assert (V : forall x y, 0 <= x <= y -> y <= 80 -> raw (y - x) (slice x y c))
      by (intros x y Hx Hy; split; [apply len_slice; lia | by apply bytes_ok_slice]).
    assert (Ha : association_ok a).
    { unfold association_ok, a. cbn. split; [exact (V 0 16 ltac:(lia) ltac:(lia))|].
      split; [pose proof (be_val_bounds _ (bytes_ok_slice 16 24 c Bc)) as Bd; rewrite len_slice in Bd by lia; exact Bd|].
      split; [exact (V 24 56 ltac:(lia) ltac:(lia))|]. split; [exact (V 56 72 ltac:(lia) ltac:(lia))|].
      split; [exact (V 72 78 ltac:(lia) ltac:(lia))|]. split; by apply byte_at_ok. }
    split; [done|]. destruct (association_input_built a Ha) as (c' & E & Ec & [Lc' Bc'] & W). rewrite E. f_equal.
    apply Ok_inj. rewrite <- Ec. rewrite <- (slice_whole 0 80 c) by lia. apply (join_of_reads _ ASSOC_WIDTHS); [repeat constructor; done | rewrite Lc; done|].
    unfold association_parts, a. cbn [as_profile_id as_revision as_profile_digest as_binding_id as_bssid as_channel as_auth_mode].
    rewrite <- !byte_at_val by lia. unfold u64, u8.
    repeat (apply Forall2_cons_2; [|]); try apply Forall2_nil_2; cbn [fst snd]; first
      [ reflexivity | (apply pack_be_val; [by apply bytes_ok_slice | apply Nat2Z.inj; change (Z.of_nat (length ?l)) with (len l); vm_compute start; rewrite len_slice by lia; reflexivity]) ].
  - intros c Hc. unfold parse_association_authority_input, ASSOC_INPUT_LEN. by rewrite (proj2 (Z.eqb_neq _ _) Hc).
Qed.

(** ** What a commit of unknown outcome left behind *)

(** Rows that form an image: no key twice, every value a valid record. *)
Definition image_rows (rs : rows) : Prop := NoDup rs.*1 /\ Forall (fun r => validate_nwd1_record r.2 = "OK"%string) rs.
#[export] Instance image_rows_dec rs : Decision (image_rows rs) := _.

Lemma as_map_from_spec out rs m :
  as_map_from out rs = Some m <->
  image_rows rs /\ Forall (fun r => out !! r.1 = None) rs /\ m = list_to_map rs ∪ out.
Proof.
  revert out. induction rs as [|[k v] rs IH]; intros out; cbn [as_map_from].
  { rewrite list_to_map_nil, (left_id_L ∅ (∪)). split; [intros [= ->]; split_and!; try done; split; constructor | by intros (_ & _ & ->)]. }
  case_bool_decide as Hk.
  { split; [done|]. intros (_ & H & _). apply Forall_cons in H as [H _]. cbn in H. rewrite H in Hk. by destruct Hk. }
  apply eq_None_not_Some in Hk. destruct (String.eqb_spec (validate_nwd1_record v) "OK") as [Hv|Hv]; cbn [negb].
  2: { split; [done|]. intros ([_ H] & _). by apply Forall_cons in H as [H _]. }
  rewrite IH. unfold image_rows. rewrite fmap_cons, NoDup_cons, !Forall_cons. cbn [fst snd].
  rewrite list_to_map_cons, <- insert_union_l. split.
  - intros ((Nd & Vs) & Hn & ->). split_and!; try done.
    + rewrite list_elem_of_fmap. intros ([k' v'] & -> & Hin). rewrite Forall_forall in Hn. specialize (Hn _ Hin).
      cbn in Hn. by rewrite lookup_insert_eq in Hn.
    + eapply Forall_impl; [exact Hn|]. intros [k' v'] H. by apply lookup_insert_None in H as [H _].
    + rewrite <- insert_union_r; [done|]. apply not_elem_of_list_to_map_1. rewrite list_elem_of_fmap. intros ([k' v'] & -> & Hin).
      rewrite Forall_forall in Hn. specialize (Hn _ Hin). cbn in Hn. by rewrite lookup_insert_eq in Hn.
  - intros (((Hni & Nd) & _ & Vs) & [_ Hn] & ->). split_and!; try done.
    + apply Forall_forall. intros [k' v'] Hin. rewrite Forall_forall in Hn. apply lookup_insert_None. split; [by apply (Hn _ Hin)|].
      cbn. intros ->. apply Hni. apply list_elem_of_fmap. by exists (k', v').
    + rewrite <- insert_union_r; [done|]. by apply not_elem_of_list_to_map_1.
Qed.

Lemma as_map_spec rs m : as_map rs = Some m <-> image_rows rs /\ m = list_to_map rs.
Proof.
  unfold as_map. rewrite as_map_from_spec. rewrite (right_id_L ∅ (∪)). split; [naive_solver|].
  intros [H ->]. split_and!; try done. apply Forall_forall. intros r _. apply lookup_empty.
Qed.

Lemma as_map_None rs : as_map rs = None <-> ~ image_rows rs.
Proof.
  destruct (as_map rs) as [m|] eqn:E.
  - apply as_map_spec in E as [H _]. split; [done|]. by intros [].
  - split; [|done]. intros _ H. rewrite (proj2 (as_map_spec rs _) (conj H eq_refl)) in E. done.
Qed.

Lemma agree_on_spec (keys : gset bytes) obs m : agree_on keys obs m = true <-> forall k, k ∈ keys -> obs !! k = m !! k.
Proof.
  unfold agree_on. rewrite forallb_forall. split; intros H k Hk.
  - specialize (H k). rewrite bool_decide_eq_true in H. apply H, list_elem_of_In, elem_of_elements. done.
  - apply bool_decide_eq_true, H, elem_of_elements, list_elem_of_In. done.
Qed.

(** Being part of an image, by keys and by rows. *)
Lemma included (m1 m2 : image) : dom m1 ⊆ dom m2 /\ (forall k, k ∈ dom m1 -> m1 !! k = m2 !! k) <-> m1 ⊆ m2.
Proof.
  rewrite map_subseteq_spec. split.
  - intros [_ H] k x Hk. rewrite <- Hk. symmetry. apply H, elem_of_dom. by exists x.
  - intros H. split; intros k Hk; apply elem_of_dom in Hk as [x Hk].
    + apply elem_of_dom. exists x. by apply H.
    + rewrite Hk. symmetry. by apply H.
Qed.

Lemma properly_included (m1 m2 : image) : dom m1 ⊂ dom m2 /\ (forall k, k ∈ dom m1 -> m1 !! k = m2 !! k) <-> m1 ⊂ m2.
Proof.
  split.
  - intros [[Hd Hn] He]. split; [by apply included|]. intros H. apply Hn. by apply subseteq_dom.
  - intros H. split; [by apply subset_dom|]. destruct H as [H _]. by apply included in H as [_ H].
Qed.

Definition holds_both (old new obs : image) : Prop := old <> ∅ /\ new <> ∅ /\ old ##ₘ new /\ old ∪ new ⊆ obs.
#[export] Instance holds_both_dec old new obs : Decision (holds_both old new obs).
Proof. unfold holds_both. apply _. Defined.

Lemma both_spelled (old new obs : image) :
  holds_both old new obs <-> old <> ∅ /\ new <> ∅ /\ old ##ₘ new /\ old ⊆ obs /\ new ⊆ obs.
Proof.
  unfold holds_both. split; intros (Ho & Hn & Hd & H); split_and!; try done.
  - etrans; [apply map_union_subseteq_l | done].
  - etrans; [by apply map_union_subseteq_r | done].
  - destruct H. by apply map_union_least.
Qed.

Lemma dom_decided (m : image) : bool_decide (dom m = (∅ : gset bytes)) = bool_decide (m = ∅).
Proof. apply bool_decide_ext. apply dom_empty_iff_L. Qed.

Lemma map_disjoint_self (m : image) : m ##ₘ m -> m = ∅.
Proof.
  intros H. apply map_eq. intros k. rewrite lookup_empty. destruct (m !! k) as [x|] eqn:E; [|done].
  exfalso. rewrite map_disjoint_spec in H. exact (H k x x E E).
Qed.

(** The conditions of the code in terms of rows instead of keys. *)
Lemma classify_images_rows (old new obs : image) :
  classify_images old new obs =
    if decide (old = ∅ /\ obs = ∅ /\ new <> ∅) then "ABSENT"%string
    else if decide (obs = old /\ old <> ∅) then "OLD"%string
    else if decide (obs = new /\ new <> ∅) then "NEW"%string
    else if decide (holds_both old new obs) then "BOTH"%string
    else if decide (obs <> ∅ /\ obs ⊂ new) then "PARTIAL"%string
    else if decide (new <> ∅ /\ new ⊂ obs) then "EXTRA"%string
    else "THIRD"%string.
Proof.
  assert (G : forall {A} (b : bool) (P : Prop) `{Decision P} (x y z : A), (b = true <-> P) -> y = z ->
              (if b then x else y) = (if decide P then x else z)).
  { intros A b P ? x y z Hb ->. destruct b, (decide P); naive_solver. }
  unfold classify_images. cbv zeta. rewrite !dom_decided.
  repeat (apply G; [|]); try reflexivity;
    rewrite ?andb_true_iff, ?negb_true_iff, ?bool_decide_eq_true, ?bool_decide_eq_false, ?agree_on_spec; try (rewrite and_assoc; reflexivity); try reflexivity.
  - tauto.
  - rewrite both_spelled, <- (included old obs), <- (included new obs), map_disjoint_dom. split; [naive_solver|].
    intros (Ho & Hn & Hd & [Io Eo] & [In En]). split_and!; try done; [|naive_solver..].
    intros ->. apply Ho. apply map_disjoint_self. by apply map_disjoint_dom.
  - rewrite <- (properly_included obs new). naive_solver.
  - rewrite <- (properly_included new obs). naive_solver.
Qed.

Lemma proper_irrefl (m : image) : ~ m ⊂ m.
Proof. apply (irreflexivity (⊂)). Qed.

Lemma both_new (old new obs : image) : holds_both old new obs -> new ⊆ obs /\ ~ obs ⊆ new.
Proof.
  intros (Ho & _ & Hd & Hu). split; [etrans; [by apply map_union_subseteq_r | done]|]. intros H. apply Ho, map_disjoint_self.
  eapply map_disjoint_weaken_r; [exact Hd|]. etrans; [apply map_union_subseteq_l | by etrans].
Qed.

(** What each verdict says about the images. *)
Definition outcome (old new obs : image) (verdict : string) : Prop :=
  (verdict = "ABSENT"%string <-> old = ∅ /\ obs = ∅ /\ new <> ∅) /\
  (verdict = "OLD"%string <-> obs = old /\ old <> ∅) /\
  (verdict = "NEW"%string <-> obs = new /\ new <> ∅ /\ obs <> old) /\
  (verdict = "BOTH"%string <-> holds_both old new obs) /\
  (verdict = "PARTIAL"%string <-> obs <> ∅ /\ obs ⊂ new /\ obs <> old) /\
  (verdict = "EXTRA"%string <-> new <> ∅ /\ new ⊂ obs /\ obs <> old /\ ~ holds_both old new obs) /\
  verdict <> "CORRUPT"%string.

Lemma classify_images_outcome old new obs : outcome old new obs (classify_images old new obs).
Proof.
  pose proof (both_new old new obs) as Hb. pose proof (proper_irrefl obs) as Hi.
  pose proof (proper_irrefl new) as Hj. assert (Hbo : holds_both old new obs -> obs <> old).
  { intros (_ & Hn & Hd & Hu) ->. apply Hn, map_disjoint_self. eapply map_disjoint_weaken_l; [exact Hd|].
    etrans; [by apply map_union_subseteq_r | exact Hu]. }
  assert (Hq : obs ⊂ new -> ~ new ⊂ obs) by (intros H1 H2; apply Hi; by etrans). assert (Hsub : obs ⊂ new -> obs ⊆ new) by (by intros []).
  rewrite classify_images_rows. unfold outcome.
  repeat case_decide; split_and!; try (split; [intros Hd; discriminate Hd | idtac]); try (split; [intros _ | reflexivity]);
    try (intros Hd; discriminate Hd); naive_solver.
Qed.

Lemma classified_rows old_rows new_rows observed_rows :
  let verdict := classify_commit_unknown old_rows new_rows observed_rows in
  (verdict = "CORRUPT"%string <-> ~ (image_rows old_rows /\ image_rows new_rows /\ image_rows observed_rows)) /\
  (verdict <> "CORRUPT"%string -> outcome (list_to_map old_rows) (list_to_map new_rows) (list_to_map observed_rows) verdict).
Proof.
  cbv zeta. unfold classify_commit_unknown.
  destruct (as_map old_rows) as [o|] eqn:Eo; [|apply as_map_None in Eo; tauto].
  destruct (as_map new_rows) as [n|] eqn:En; [|apply as_map_None in En; tauto].
  destruct (as_map observed_rows) as [b|] eqn:Eb; [|apply as_map_None in Eb; tauto].
  apply as_map_spec in Eo as [Io ->], En as [In ->], Eb as [Ib ->].
  pose proof (classify_images_outcome (list_to_map old_rows) (list_to_map new_rows) (list_to_map observed_rows)) as H.
  split; [|done]. destruct H as (_ & _ & _ & _ & _ & _ & H). tauto.
Qed.

(** The order in which the three groups of rows are read does not change the verdict. *)
Theorem commit_unknown_order_irrelevant old_rows new_rows observed_rows old' new' observed' :
  old_rows ≡ₚ old' -> new_rows ≡ₚ new' -> observed_rows ≡ₚ observed' ->
  classify_commit_unknown old_rows new_rows observed_rows = classify_commit_unknown old' new' observed'.
Proof.
  assert (P : forall rs rs', rs ≡ₚ rs' -> as_map rs = as_map rs').
  { intros rs rs' H. assert (I : image_rows rs <-> image_rows rs') by (unfold image_rows; by rewrite H).
    destruct (as_map rs') as [m|] eqn:E.
    - apply as_map_spec in E as [Hi ->]. apply as_map_spec. split; [tauto|]. apply list_to_map_proper; [apply Hi | done].
    - apply as_map_None in E. apply as_map_None. tauto. }
  intros Ho Hn Hb. unfold classify_commit_unknown. by rewrite (P _ _ Ho), (P _ _ Hn), (P _ _ Hb).
Qed.

(** ** The NWD1 record *)

Definition nwd1_ok (a : nwd1_args) : Prop :=
  raw 16 (nw_profile_id a) /\ u64_ok (nw_revision a) /\ raw 32 (nw_profile_digest a) /\ raw 16 (nw_binding_id a) /\
  (1 <= len (nw_ssid a) <= 32 /\ bytes_ok (nw_ssid a)) /\ is_byte (nw_auth_mode a) /\ is_byte (nw_channel a) /\
  is_byte (nw_bssid_present a) /\ raw 6 (nw_bssid a) /\ raw 32 (nw_secret_ref_digest a).

Record nwd1_holds (a : nwd1_args) (r : bytes) : Prop := {
  nh_raw : raw NWD1_RECORD_BYTES r;
  nh_magic : slice 0 4 r = NWD1_MAGIC;
  nh_version : be_val (slice 4 6 r) = NWD1_VERSION;
  nh_header : be_val (slice 6 8 r) = NWD1_HEADER;
  nh_total : be_val (slice 8 12 r) = NWD1_RECORD_BYTES;
  nh_profile_id : slice 12 28 r = nw_profile_id a;
  nh_revision : be_val (slice 28 36 r) = nw_revision a;
  nh_profile_digest : slice 36 68 r = nw_profile_digest a;
  nh_binding_id : slice 68 84 r = nw_binding_id a;
  nh_ssid_length : slice 84 85 r = [len (nw_ssid a)];
  nh_ssid : slice 85 117 r = nw_ssid a ++ zeros (32 - len (nw_ssid a));
  nh_auth_mode : slice 117 118 r = [nw_auth_mode a];
  nh_channel : slice 118 119 r = [nw_channel a];
  nh_bssid_present : slice 119 120 r = [nw_bssid_present a];
  nh_bssid : slice 120 126 r = nw_bssid a;
  nh_reserved : slice 126 128 r = zeros 2;
  nh_secret : slice 128 160 r = nw_secret_ref_digest a }.

Lemma padded_Ok n v : len v <= n -> padded n v = Ok (v ++ zeros (n - len v)).
Proof. intros H. unfold padded. by rewrite raise_if_skip by (apply Z.ltb_ge; lia). Qed.

Lemma nwd1_built a : nwd1_ok a -> exists r, encode_nwd1 a = Ok r /\ nwd1_holds a r.
Proof.
  intros ([L1 B1] & Hr & [L2 B2] & [L3 B3] & (Ls & Bs) & Ha & Hc & Hp & [L4 B4] & [L5 B5]). unfold u64_ok in Hr.
  unfold encode_nwd1, NWD1_HEADER. rewrite (is_len_true 32 _ L5), (proj2 (in_range_spec 1 32 _) Ls), !raise_if_skip by done.
  unfold nwd1_writes. rewrite padded_Ok by lia. assert (Lz : len (zeros (32 - len (nw_ssid a))) = 32 - len (nw_ssid a)) by (apply len_zeros; lia).
  set (ssid := nw_ssid a ++ zeros _). assert (Ld : len ssid = 32) by (unfold ssid; rewrite len_app; lia).
  assert (Bd : bytes_ok ssid) by (unfold ssid; apply bytes_ok_app; split; [done | apply zeros_ok]).
  unfold is_byte in *.
  match goal with |- context [run_writes ?ws (zeros 128)] =>
    assert (S : Forall (sized 128) ws) by (unfold NWD1_MAGIC; solve_sized);
    assert (T : Forall (Layout.total 128) ws) by (unfold NWD1_MAGIC, NWD1_VERSION, NWD1_HEADER, NWD1_RECORD_BYTES; solve_total)
  end.
  assert (H128 : len (zeros 128) = 128) by done.
  destruct (run_writes_total _ _ _ S T H128 (zeros_ok 128)) as (m & Hm & Lm & Bm). rewrite Hm, ok_bind.
  exists (m ++ nw_secret_ref_digest a). split; [done|].
  assert (R : forall x y, 0 <= x <= y -> y <= 128 -> slice x y (m ++ nw_secret_ref_digest a) = slice x y m) by (intros; apply slice_app_l; lia).
  split; rewrite ?R by lia; try (read_field S H128 Hm).
  - split; [rewrite len_app; unfold NWD1_RECORD_BYTES; lia | by apply bytes_ok_app].
  - pose proof (read_index _ _ _ _ S H128 Hm 84 _ _ eq_refl) as K. by apply pybyte_Ok in K as [_ K].
  - pose proof (read_index _ _ _ _ S H128 Hm 117 _ _ eq_refl) as K. by apply pybyte_Ok in K as [_ K].
  - pose proof (read_index _ _ _ _ S H128 Hm 118 _ _ eq_refl) as K. by apply pybyte_Ok in K as [_ K].
  - pose proof (read_index _ _ _ _ S H128 Hm 119 _ _ eq_refl) as K. by apply pybyte_Ok in K as [_ K].
  - rewrite slice_app_r by lia. rewrite Lm. apply slice_whole; lia.
Qed.

(** Exactly what the framing check requires. *)
Record nwd1_framed (r : bytes) : Prop := {
  ff_size : len r = NWD1_RECORD_BYTES; ff_magic : slice 0 4 r = NWD1_MAGIC; ff_version : be_val (slice 4 6 r) = NWD1_VERSION;
  ff_header : be_val (slice 6 8 r) = NWD1_HEADER; ff_total : be_val (slice 8 12 r) = NWD1_RECORD_BYTES;
  ff_reserved : slice 126 128 r = zeros 2; ff_ssid : 1 <= byte_at 84 r <= 32; ff_profile_id : any_nonzero (slice 12 28 r) = true;
  ff_revision : be_val (slice 28 36 r) <> 0; ff_profile_digest : any_nonzero (slice 36 68 r) = true;
  ff_binding_id : any_nonzero (slice 68 84 r) = true; ff_secret : any_nonzero (slice 128 160 r) = true }.

Lemma validate_nwd1_OK r : validate_nwd1_record r = "OK"%string <-> nwd1_framed r.
Proof.
  unfold validate_nwd1_record. rewrite !guard_OK by discriminate.
  rewrite !decided_false, !negb_false_iff, !Z.eqb_eq, Z.eqb_neq, in_range_spec. split.
  - intros H. destruct_and!. by split.
  - intros []. repeat (split; [assumption|]). done.
Qed.

Lemma nwd1_framed_iff a r :
  nwd1_ok a -> nwd1_holds a r ->
  (nwd1_framed r <-> any_nonzero (nw_profile_id a) = true /\ nw_revision a <> 0 /\ any_nonzero (nw_profile_digest a) = true /\
                     any_nonzero (nw_binding_id a) = true /\ any_nonzero (nw_secret_ref_digest a) = true).
Proof.
  intros Ha []. destruct nh_raw0 as [L _]. rewrite <- nh_profile_id0, <- nh_revision0, <- nh_profile_digest0, <- nh_binding_id0, <- nh_secret0. split.
  - by intros [].
  - intros (H1 & H2 & H3 & H4 & H5). split; try assumption. destruct Ha as (_ & _ & _ & _ & (Hs & _) & _).
    rewrite <- byte_at_val by (rewrite L; unfold NWD1_RECORD_BYTES; lia). change (84 + 1) with 85. rewrite nh_ssid_length0. unfold be_val. cbn [fold_left]. lia.
Qed.

(** ** Commit groups of encoded records *)

(** A record the framing check lets pass. *)
Definition nwd1_complete (a : nwd1_args) : Prop :=
  any_nonzero (nw_profile_id a) = true /\ nw_revision a <> 0 /\ any_nonzero (nw_profile_digest a) = true /\
  any_nonzero (nw_binding_id a) = true /\ any_nonzero (nw_secret_ref_digest a) = true.

(** The rows of a group of profiles, each value as [encode_nwd1] writes it: intact, so
    that its header checksum and its two digests are those of the profile. *)
Definition encoded_rows (group : list (bytes * nwd1_args)) : rows :=
  map (fun r => (r.1, match encode_nwd1 r.2 with Ok v => v | Raise _ => [] end)) group.

(** One complete record under each of its keys. *)
Definition sound_group (group : list (bytes * nwd1_args)) : Prop := NoDup group.*1 /\ Forall (fun r => nwd1_complete r.2) group.

Lemma encoded_image group : Forall (fun r => nwd1_ok r.2) group -> image_rows (encoded_rows group) <-> sound_group group.
Proof.
  intros H. unfold image_rows, sound_group, encoded_rows. rewrite map_map. change (map (fun x => _) group) with group.*1 at 1.
  assert (V : Forall (fun r => validate_nwd1_record r.2 = "OK"%string) (map (fun r => (r.1, match encode_nwd1 r.2 with Ok v => v | Raise _ => [] end)) group)
              <-> Forall (fun r => nwd1_complete r.2) group); [|by rewrite V].
  induction H as [|[k a] group Ha _ IH]; [done|]. cbn [map]. rewrite !Forall_cons, IH. cbn [fst snd] in *.
  destruct (nwd1_built a Ha) as (r & -> & Hr). by rewrite validate_nwd1_OK, (nwd1_framed_iff a r Ha Hr).
Qed.


(** The durable NWD1 record is exact: arguments that fit their fields are encoded
    into 160 bytes from which every field reads back at its place, two different
    argument lists never give one record, the framing check accepts the record exactly
    when the profile, the revision, the profile digest, the binding and the secret
    reference are nonzero, and a secret reference or an SSID of the wrong size is refused. *)
Theorem nwd1_record_exact :
  (forall a, nwd1_ok a -> exists r, encode_nwd1 a = Ok r /\ nwd1_holds a r /\
     (validate_nwd1_record r = "OK"%string <->
        any_nonzero (nw_profile_id a) = true /\ nw_revision a <> 0 /\ any_nonzero (nw_profile_digest a) = true /\
        any_nonzero (nw_binding_id a) = true /\ any_nonzero (nw_secret_ref_digest a) = true)) /\
  (forall a b r, nwd1_ok a -> nwd1_ok b -> encode_nwd1 a = Ok r -> encode_nwd1 b = Ok r -> a = b) /\
  (forall a, len (nw_secret_ref_digest a) <> 32 -> encode_nwd1 a = Raise (ValueError "secret_ref")) /\
  (forall a, len (nw_secret_ref_digest a) = 32 -> ~ (1 <= len (nw_ssid a) <= 32) -> encode_nwd1 a = Raise (ValueError "ssid")).
Proof.
  split_and!.
  - intros a Ha. destruct (nwd1_built a Ha) as (r & E & H). exists r. split; [done|]. split; [done|].
    rewrite validate_nwd1_OK. by apply nwd1_framed_iff.
  - intros a b r Ha Hb Ea Eb. destruct (nwd1_built a Ha) as (r1 & E1 & H1), (nwd1_built b Hb) as (r2 & E2 & H2).
    rewrite Ea in E1. rewrite Eb in E2. apply Ok_inj in E1 as <-, E2 as <-. destruct H1, H2.
    assert (Hs : nw_ssid a = nw_ssid b).
    { assert (Hl : len (nw_ssid a) = len (nw_ssid b)) by congruence. apply (app_inj_1 _ _ (zeros (32 - len (nw_ssid a))) (zeros (32 - len (nw_ssid b)))).
      - unfold len in Hl. lia.
      - congruence. }
    destruct a, b; cbn in *. f_equal; congruence.
  - intros a H. unfold encode_nwd1, is_len. by rewrite (proj2 (Z.eqb_neq _ _) H).
  - intros a H1 H2. unfold encode_nwd1. rewrite (is_len_true 32 _ H1), raise_if_skip by done.
    destruct (in_range 1 32 (len (nw_ssid a))) eqn:E; [by apply in_range_spec in E | done].
Qed.

(** ** Exporter contexts and the leaf binding *)

Definition peer_ok (p : peer) : Prop :=
  raw 16 (pr_authority_id p) /\ u64_ok (pr_authority_term p) /\ u32_ok (pr_assignment_epoch p) /\ raw 16 (pr_client p) /\
  raw 16 (pr_server p).

Definition leaf_ok (l : leaf) : Prop :=
  (lf_role l = 1 \/ lf_role l = 2) /\ raw 16 (lf_runtime_id l) /\ raw 32 (lf_candidate_digest l) /\ raw 16 (lf_authority_id l) /\
  u64_ok (lf_authority_term l) /\ u32_ok (lf_credential_generation l) /\ u32_ok (lf_revocation_generation l).

Definition PEER_WIDTHS : list Z := [16; 8; 4; 1; 16; 1; 16].
Definition LEAF_WIDTHS : list Z := [1; 1; 16; 32; 16; 8; 4; 4].

Lemma peer_built p : peer_ok p -> exists c, peer_context p = Ok c /\ join (peer_parts p) = Ok c /\ Forall2 wide (peer_parts p) PEER_WIDTHS /\ len c = 62.
Proof.
  intros ([L1 B1] & H1 & H2 & [L2 B2] & [L3 B3]). unfold u64_ok, u32_ok in *.
  assert (W : Forall2 wide (peer_parts p) PEER_WIDTHS) by (unfold peer_parts, PEER_WIDTHS; solve_wide).
  destruct (join_total (peer_parts p)) as [c Ec]; [unfold peer_parts; solve_fine|]. exists c.
  pose proof (join_len _ _ _ W Ec) as Lc. change (total_width PEER_WIDTHS) with 62 in Lc. split; [|done].
  unfold peer_context. rewrite !is_len_true, raise_if_skip, Ec, ok_bind by done. by rewrite Lc.
Qed.

Lemma leaf_built l : leaf_ok l -> exists c, leaf_binding_value l = Ok c /\ join (leaf_parts l) = Ok c /\ Forall2 wide (leaf_parts l) LEAF_WIDTHS /\ len c = 82.
Proof.
  intros (Hr & [L1 B1] & [L2 B2] & [L3 B3] & H1 & H2 & H3). unfold u64_ok, u32_ok in *.
  assert (W : Forall2 wide (leaf_parts l) LEAF_WIDTHS) by (unfold leaf_parts, LEAF_WIDTHS; solve_wide).
  destruct (join_total (leaf_parts l)) as [c Ec]; [unfold leaf_parts; solve_fine|]. exists c.
  pose proof (join_len _ _ _ W Ec) as Lc. change (total_width LEAF_WIDTHS) with 82 in Lc. split; [|done].
  unfold leaf_binding_value. rewrite raise_if_skip, Ec, ok_bind by (by destruct Hr as [-> | ->]). by rewrite Lc.
Qed.

(** The byte strings bound into the TLS exporter and the certificates are exact and
    unambiguous: the peer context has 62 bytes, the attached context 64 and the leaf
    binding 82, and equal strings come from equal identities; identifiers of another
    length and another role are refused. *)
Theorem contexts_unambiguous :
  (forall p, peer_ok p -> exists c, peer_context p = Ok c /\ len c = PEER_CONTEXT_LEN) /\
  (forall p q, peer_ok p -> peer_ok q -> peer_context p = peer_context q -> p = q) /\
  (forall a b d a' b' d' c, attached_context a b d = Ok c -> len c = ATTACHED_CONTEXT_LEN /\
     (attached_context a' b' d' = Ok c -> a = a' /\ b = b' /\ d = d')) /\
  (forall l, leaf_ok l -> exists c, leaf_binding_value l = Ok c /\ len c = 82) /\
  (forall l m, leaf_ok l -> leaf_ok m -> leaf_binding_value l = leaf_binding_value m -> l = m) /\
  (forall p, is_len 16 (pr_authority_id p) && is_len 16 (pr_client p) && is_len 16 (pr_server p) = false ->
     peer_context p = Raise (ValueError "peer_context ids")) /\
  (forall l, lf_role l <> 1 -> lf_role l <> 2 -> leaf_binding_value l = Raise (ValueError "role")).
Proof.
  split_and!.
  - intros p Hp. destruct (peer_built p Hp) as (c & E & _ & _ & L). by exists c.
  - intros p q Hp Hq E. destruct (peer_built p Hp) as (c & E1 & J1 & W1 & _), (peer_built q Hq) as (c' & E2 & J2 & W2 & _).
    rewrite E1, E2 in E. apply Ok_inj in E as <-. pose proof (join_inj _ _ _ _ W1 W2 J1 J2) as P. unfold peer_parts in P.
    injection P as P1 P2 P3 P4 P5. destruct Hp as (_ & H1 & H2 & _), Hq as (_ & H3 & H4 & _).
    destruct p, q; cbn in *. f_equal; try done; [by apply (pack_inj 8) | by apply (pack_inj 4)].
  - intros a b d a' b' d' c E. unfold attached_context in *. inv_res. bool_to_prop. unfold is_len in *. bool_to_prop.
    split; [done|]. intros E'. inv_res. bool_to_prop. unfold is_len in *. bool_to_prop. unfold len in *.
    match goal with H : _ ++ _ ++ _ = _ ++ _ ++ _ |- _ => apply app_inj_1 in H as [<- H]; [|lia]; apply app_inj_1 in H as [<- H]; [done|lia] end.
  - intros l Hl. destruct (leaf_built l Hl) as (c & E & _ & _ & L). by exists c.
  - intros l m Hl Hm E. destruct (leaf_built l Hl) as (c & E1 & J1 & W1 & _), (leaf_built m Hm) as (c' & E2 & J2 & W2 & _).
    rewrite E1, E2 in E. apply Ok_inj in E as <-. pose proof (join_inj _ _ _ _ W1 W2 J1 J2) as P. unfold leaf_parts in P.
    injection P as P1 P2 P3 P4 P5 P6 P7. destruct Hl as (R1 & _ & _ & _ & H1 & H2 & H3), Hm as (R2 & _ & _ & _ & H4 & H5 & H6).
    destruct l, m; cbn in *. f_equal; try done; [by apply (pack_inj 1); [lia..|] | by apply (pack_inj 8) | by apply (pack_inj 4) | by apply (pack_inj 4)].
  - intros p H. unfold peer_context. by rewrite H.
  - intros l H1 H2. unfold leaf_binding_value. by rewrite (proj2 (Z.eqb_neq _ _) H1), (proj2 (Z.eqb_neq _ _) H2).
Qed.

(** ** Backoff *)

(** The reconnection delay doubles from one second and saturates at 32 seconds,
    never shrinks, and generation zero is refused; the jitter added to it is below one
    second for every 64-bit generation. *)
Theorem backoff_exact :
  (forall g, 1 <= g -> backoff_ms g = Ok (Z.min (1000 * 2 ^ (g - 1)) BACKOFF_CAP_MS)) /\
  (forall g g' d d', g <= g' -> backoff_ms g = Ok d -> backoff_ms g' = Ok d' -> 1000 <= d <= d' /\ d' <= BACKOFF_CAP_MS) /\
  (forall g, g < 1 -> backoff_ms g = Raise (ValueError "failure_generation")) /\
  (forall i g, u64_ok g -> exists j, jitter_ms i g = Ok j /\ 0 <= j < 1000).
Proof.
  assert (F : forall g, 1 <= g -> backoff_ms g = Ok (Z.min (1000 * 2 ^ (g - 1)) BACKOFF_CAP_MS)).
  { intros g Hg. unfold backoff_ms, BACKOFF_CAP_MS. rewrite raise_if_skip by (apply Z.ltb_ge; lia). change (len BACKOFF_MS) with 6.
    destruct (Z.leb_spec g 6) as [H|H].
    - assert (C : g = 1 \/ g = 2 \/ g = 3 \/ g = 4 \/ g = 5 \/ g = 6) by lia. by destruct C as [-> | [-> | [-> | [-> | [-> | ->]]]]].
    - rewrite Z.min_r; [done|]. pose proof (Z.pow_le_mono_r 2 6 (g - 1) ltac:(lia) ltac:(lia)). lia. }
  assert (R : forall g, g < 1 -> backoff_ms g = Raise (ValueError "failure_generation")).
  { intros g Hg. unfold backoff_ms. by rewrite (proj2 (Z.ltb_lt _ _)) by lia. }
  split_and!; [done| |done|].
  - intros g g' d d' Hg E E'. destruct (Z.lt_ge_cases g 1) as [H|H]; [by rewrite R in E|].
    rewrite F in E by lia. rewrite F in E' by lia. apply Ok_inj in E as <-, E' as <-. unfold BACKOFF_CAP_MS.
    pose proof (Z.pow_le_mono_r 2 (g - 1) (g' - 1) ltac:(lia) ltac:(lia)). pose proof (Z.pow_le_mono_r 2 0 (g - 1) ltac:(lia) ltac:(lia)). lia.
  - intros i g Hg. unfold jitter_ms. destruct (fine_u64 g Hg) as [v ->]. rewrite ok_bind. eexists. split; [done|]. apply Z.mod_pos_bound. lia.
Qed.

(** ** Concrete inputs *)

Definition demo_nwd1 (ssid : string) : nwd1_args :=
  {| nw_profile_id := pattern 1 16; nw_revision := 3; nw_profile_digest := pattern 33 32; nw_binding_id := pattern 65 16;
     nw_ssid := bytes_of_string ssid; nw_auth_mode := 2; nw_channel := 6; nw_bssid_present := 1; nw_bssid := pattern 7 6;
     nw_secret_ref_digest := pattern 97 32 |}.
Definition demo_record (ssid : string) : bytes := match encode_nwd1 (demo_nwd1 ssid) with Ok r => r | Raise _ => [] end.

Lemma demo_nwd1_ok : nwd1_ok (demo_nwd1 "lab").
Proof.
  unfold nwd1_ok, demo_nwd1, u64_ok, is_byte. cbn [nw_profile_id nw_revision nw_profile_digest nw_binding_id nw_ssid nw_auth_mode nw_channel nw_bssid_present nw_bssid nw_secret_ref_digest].
  split_and!; try (apply raw_pattern; done); try done. apply bytes_of_string_ok.
Qed.

(** One image per verdict: keys 1 and 2, and three records. *)
Example commit_verdicts :
  let a := demo_record "a" in let b := demo_record "b" in let c := demo_record "c" in
  let verdict := classify_commit_unknown in
  (verdict [] [([1], a)] [], verdict [([1], a)] [([1], b)] [([1], a)], verdict [([1], a)] [([1], b)] [([1], b)],
   verdict [([1], a)] [([2], b)] [([2], b); ([1], a)], verdict [] [([1], a); ([2], b)] [([1], a)],
   verdict [] [([1], a)] [([1], a); ([2], b)], verdict [([1], a)] [([1], b)] [([1], c)], verdict [] [([1], a); ([1], b)] [])
  = ("ABSENT", "OLD", "NEW", "BOTH", "PARTIAL", "EXTRA", "THIRD", "CORRUPT")%string.
Proof. vm_compute. reflexivity. Qed.

(** The framing check looks at neither a checksum nor the bytes after the SSID: a record
    with a damaged SSID is still valid, and a commit group that holds it is not CORRUPT. *)
Example damaged_ssid_is_valid :
  let damaged := slice_assign 85 86 [255] (demo_record "lab") in
  validate_nwd1_record damaged = "OK"%string /\
  classify_commit_unknown [([1], demo_record "lab")] [([1], demo_record "new")] [([1], damaged)] = "THIRD"%string.
Proof. vm_compute. split; reflexivity. Qed.

Lemma association_round_trip_witness :
  exists c, association_authority_input {| as_profile_id := pattern 1 16; as_revision := 3; as_profile_digest := pattern 33 32;
    as_binding_id := pattern 65 16; as_bssid := pattern 7 6; as_channel := 6; as_auth_mode := 2 |} = Ok c /\ raw 80 c.
Proof.
  destruct association_round_trip as [H _].
  destruct (H {| as_profile_id := pattern 1 16; as_revision := 3; as_profile_digest := pattern 33 32;
    as_binding_id := pattern 65 16; as_bssid := pattern 7 6; as_channel := 6; as_auth_mode := 2 |}) as (c & E & R & _).
  - unfold association_ok, u64_ok, is_byte. cbn. split_and!; try (apply raw_pattern; done); done.
  - exists c. exact (conj E R).
Defined.


Lemma commit_unknown_order_irrelevant_witness :
  classify_commit_unknown [] [([1], demo_record "a"); ([2], demo_record "b")] [] =
  classify_commit_unknown [] [([2], demo_record "b"); ([1], demo_record "a")] [].
Proof. exact (commit_unknown_order_irrelevant [] _ [] [] _ [] (Permutation_refl _) (perm_swap _ _ _) (Permutation_refl _)). Defined.

Lemma nwd1_record_exact_witness :
  nwd1_ok (demo_nwd1 "lab") /\ exists r, encode_nwd1 (demo_nwd1 "lab") = Ok r /\ nwd1_holds (demo_nwd1 "lab") r.
Proof.
  split; [exact demo_nwd1_ok|]. destruct nwd1_record_exact as [H _]. destruct (H _ demo_nwd1_ok) as (r & E & F & _).
  exists r. exact (conj E F).
Defined.

Lemma contexts_unambiguous_witness :
  exists c, peer_context {| pr_authority_id := pattern 1 16; pr_authority_term := 4; pr_assignment_epoch := 9;
    pr_client := pattern 33 16; pr_server := pattern 65 16 |} = Ok c /\ len c = PEER_CONTEXT_LEN.
Proof.
  destruct contexts_unambiguous as [H _]. apply H. unfold peer_ok, u64_ok, u32_ok. cbn.
  split_and!; try (apply raw_pattern; done); done.
Defined.

Lemma backoff_exact_witness : backoff_ms 4 = Ok 8000 /\ exists j, jitter_ms (pattern 1 16) 4 = Ok j /\ 0 <= j < 1000.
Proof.
  destruct backoff_exact as (F & _ & _ & J). split; [exact (F 4 ltac:(lia))|]. apply J. split; [lia | reflexivity].
Defined.
