(* ===== verification/Nac1.v ===== *)
(** The production attachment carrier: NAC1 records, the NAS1 stream wrapper and the
    incremental decoder of one wrapped record
    ([tools/production_attachment_edhoc_composition.py]); the fragments of the
    compact radio are in Nar1.v. *)

From S2P Require Import Prelude Bytes Crc Sha256 Layout Join Chain Sealed.

Definition NAC1_VERSION : Z := 1.
Definition NAC1_HEADER_BYTES : Z := 88.
Definition NAC1_PAYLOAD_MAX : Z := 512.
Definition NAC1_RECORD_MAX : Z := 600.
Definition NAS1_HEADER_BYTES : Z := 12.
Definition NAS1_RECORD_MAX : Z := 612.
Definition KIND_COOKIE_CHALLENGE : Z := 1.
Definition KIND_COOKIE_RESPONSE : Z := 2.
Definition KIND_EDHOC_ERROR : Z := 3.
Definition KIND_ATTACH_CONFIRM_AUTHORITY : Z := 11.
Definition NAC1_KIND_MAX : Z := KIND_ATTACH_CONFIRM_AUTHORITY.
Definition STATUS_OK : string := "NINLIL_PA_OK".
Definition STATUS_CORRUPT : string := "NINLIL_PA_CORRUPT".
Definition STATUS_UNSUPPORTED : string := "NINLIL_PA_UNSUPPORTED".

Definition crc32c (value : bytes) : Z := crc32c_xorout value.

(** ** NAC1 records *)

Record nac1_args := {
  kind : Z; carrier_class : Z; session_id : bytes; exchange_generation : Z; record_sequence : Z;
  carrier_binding_digest : bytes; payload : bytes }.

(** The values of the [struct.pack] format [>4sHHIIBBBB16sQII32sI]. *)
Definition nac1_parts (a : nac1_args) : list (res bytes) :=
  [Ok (bytes_of_string "NAC1"); u16 NAC1_VERSION; u16 NAC1_HEADER_BYTES; u32 (NAC1_HEADER_BYTES + len (payload a));
   u32 (len (payload a)); u8 (kind a); u8 0; u8 (carrier_class a); u8 0; Ok (session_id a); u64 (exchange_generation a);
   u32 (record_sequence a); u32 0; Ok (carrier_binding_digest a); u32 0].

Definition encode_nac1 (a : nac1_args) : res bytes :=
  raise_if (negb (len (session_id a) =? 16) || negb (any_nonzero (session_id a))) (ValueError "NAC1 session_id");;
  raise_if (negb (len (carrier_binding_digest a) =? 32) || negb (any_nonzero (carrier_binding_digest a)))
    (ValueError "NAC1 carrier binding");;
  raise_if (negb (in_range 1 NAC1_KIND_MAX (kind a))) (ValueError "NAC1 kind");;
  raise_if (negb (in_range 1 3 (carrier_class a))) (ValueError "NAC1 carrier");;
  raise_if (negb (in_range 1 0xFFFFFFFFFFFFFFFF (exchange_generation a))) (ValueError "NAC1 generation");;
  raise_if (NAC1_PAYLOAD_MAX <? len (payload a)) (ValueError "NAC1 payload");;
  seal_record crc32c 84 (nac1_parts a) (payload a).

Definition classify_nac1 (record : bytes) : string :=
  if len record <? NAC1_HEADER_BYTES then STATUS_CORRUPT
  else if negb (bool_decide (slice 0 4 record = bytes_of_string "NAC1")) then STATUS_CORRUPT
  else
    let version := be_val (slice 4 6 record) in
    let header_bytes := be_val (slice 6 8 record) in
    let total_bytes := be_val (slice 8 12 record) in
    let payload_bytes := be_val (slice 12 16 record) in
    if negb (header_bytes =? NAC1_HEADER_BYTES) || negb (total_bytes =? len record) ||
       negb (payload_bytes =? len record - NAC1_HEADER_BYTES) || (NAC1_RECORD_MAX <? total_bytes) then STATUS_CORRUPT
    else
      let stored_crc := be_val (slice 84 88 record) in
      if negb (crc32c (slice_assign 84 88 (zeros 4) record) =? stored_crc) then STATUS_CORRUPT
      else if NAC1_VERSION <? version then STATUS_UNSUPPORTED
      else if negb (version =? NAC1_VERSION) then STATUS_CORRUPT
      else if negb (in_range 1 NAC1_KIND_MAX (byte_at 16 record)) || negb (byte_at 17 record =? 0) ||
              negb (in_range 1 3 (byte_at 18 record)) || negb (byte_at 19 record =? 0) ||
              negb (any_nonzero (slice 20 36 record)) || (be_val (slice 36 44 record) =? 0) ||
              any_nonzero (slice 48 52 record) || negb (any_nonzero (slice 52 84 record)) then STATUS_CORRUPT
      else if (byte_at 16 record =? KIND_COOKIE_CHALLENGE) || (byte_at 16 record =? KIND_COOKIE_RESPONSE) then
        if negb (be_val (slice 44 48 record) =? 0) then STATUS_CORRUPT else STATUS_OK
      else if negb (in_range 1 8 (be_val (slice 44 48 record))) then STATUS_CORRUPT
      else STATUS_OK.

(** ** The NAS1 stream wrapper *)

Definition nas1_parts (carrier_class : Z) (record : bytes) : list (res bytes) :=
  [Ok (bytes_of_string "NAS1"); u8 1; u8 carrier_class; u16 NAS1_HEADER_BYTES; u32 (len record)].

Definition encode_nas1 (carrier_class : Z) (record : bytes) : res bytes :=
  raise_if (negb (in_range 1 2 carrier_class)) (ValueError "NAS1 carrier");;
  raise_if (negb (in_range NAC1_HEADER_BYTES NAC1_RECORD_MAX (len record))) (ValueError "NAS1 record");;
  header ← join (nas1_parts carrier_class record);
  mret (header ++ record).

Record nas1_result := {
  outcome : string; delivery_count : Z; read_count : Z; buffered_bytes : Z; inner_sha256 : option string }.

Definition closed (reason : string) (reads : Z) (buffer : bytes) : nas1_result := {|
  outcome := reason; delivery_count := 0; read_count := reads; buffered_bytes := len buffer; inner_sha256 := None |}.

(** The checks on the 12-byte header: why to close, or the expected total. *)
Definition nas1_header (buffer : bytes) : string + Z :=
  if negb (bool_decide (slice 0 4 buffer = bytes_of_string "NAS1")) then inl "CLOSE_MAGIC"%string
  else if negb (byte_at 4 buffer =? 1) then inl "CLOSE_FUTURE_OR_BAD_VERSION"%string
  else if negb (in_range 1 2 (byte_at 5 buffer)) || negb (be_val (slice 6 8 buffer) =? 12) then inl "CLOSE_HEADER"%string
  else
    let inner_len := be_val (slice 8 12 buffer) in
    if negb (in_range NAC1_HEADER_BYTES NAC1_RECORD_MAX inner_len) then inl "CLOSE_LENGTH"%string
    else inr (NAS1_HEADER_BYTES + inner_len).

(** The loop over the chunks: an early close, or the buffer, the expected total and the
    number of reads at its end. *)
Fixpoint nas1_feed (chunks : list bytes) (buffer : bytes) (expected_total : option Z) (reads : Z) :
    nas1_result + bytes * option Z * Z :=
  match chunks with
  | [] => inr (buffer, expected_total, reads)
  | chunk :: chunks =>
      let reads := reads + 1 in
      if NAS1_RECORD_MAX <? len buffer + len chunk then inl (closed "CLOSE_OVERFLOW" reads buffer)
      else
        let buffer := buffer ++ chunk in
        match (if (NAS1_HEADER_BYTES <=? len buffer) && bool_decide (expected_total = None) then
                 match nas1_header buffer with inl reason => inl reason | inr total => inr (Some total) end
               else inr expected_total) with
        | inl reason => inl (closed reason reads buffer)
        | inr expected_total =>
            if match expected_total with Some total => total <? len buffer | None => false end
            then inl (closed "CLOSE_TRAILING_BYTES" reads buffer)
            else nas1_feed chunks buffer expected_total reads
        end
  end.

Definition run_nas1_stream (chunks : list bytes) (eof : bool) : nas1_result :=
  match nas1_feed chunks [] None 0 with
  | inl result => result
  | inr (buffer, expected_total, reads) =>
      if bool_decide (expected_total = Some (len buffer)) then
        let inner := slice_from 12 buffer in
        if negb (String.eqb (classify_nac1 inner) STATUS_OK) then closed "CLOSE_INNER_CORRUPT" reads buffer
        else if negb (byte_at 18 inner =? byte_at 5 buffer) then closed "CLOSE_INNER_CARRIER_MISMATCH" reads buffer
        else {| outcome := "DELIVERED"; delivery_count := 1; read_count := reads; buffered_bytes := len buffer;
                inner_sha256 := Some (hex_of (sha256 inner)) |}
      else if eof then closed "CLOSE_SHORT_EOF" reads buffer
      else closed "NEED_MORE" reads buffer
  end.

(** ** What the classifier accepts *)

Definition nac1_ok (a : nac1_args) : Prop :=
  1 <= kind a <= NAC1_KIND_MAX /\ 1 <= carrier_class a <= 3 /\ (raw 16 (session_id a) /\ any_nonzero (session_id a) = true) /\
  1 <= exchange_generation a <= 0xFFFFFFFFFFFFFFFF /\ u32_ok (record_sequence a) /\
  (raw 32 (carrier_binding_digest a) /\ any_nonzero (carrier_binding_digest a) = true) /\
  (bytes_ok (payload a) /\ len (payload a) <= NAC1_PAYLOAD_MAX).

(** Cookies have sequence 0, every other kind one of 1 to 8. *)
Definition sequence_allowed (kind sequence : Z) : Prop :=
  if (kind =? KIND_COOKIE_CHALLENGE) || (kind =? KIND_COOKIE_RESPONSE) then sequence = 0 else 1 <= sequence <= 8.

Definition NAC1_WIDTHS : list Z := [4; 2; 2; 4; 4; 1; 1; 1; 1; 16; 8; 4; 4; 32; 4].

(** A record whose framing is consistent. *)
Record nac1_framed (r : bytes) : Prop := {
  nf_size : NAC1_HEADER_BYTES <= len r <= NAC1_RECORD_MAX;
  nf_magic : slice 0 4 r = bytes_of_string "NAC1";
  nf_header : be_val (slice 6 8 r) = NAC1_HEADER_BYTES;
  nf_total : be_val (slice 8 12 r) = len r;
  nf_payload : be_val (slice 12 16 r) = len r - NAC1_HEADER_BYTES;
  nf_sealed : sealed crc32c 84 r }.

(** And whose fields are those of version 1. *)
Record nac1_valid (r : bytes) : Prop := {
  nv_framed : nac1_framed r;
  nv_version : be_val (slice 4 6 r) = NAC1_VERSION;
  nv_kind : 1 <= byte_at 16 r <= NAC1_KIND_MAX;
  nv_flags : byte_at 17 r = 0;
  nv_carrier : 1 <= byte_at 18 r <= 3;
  nv_reserved : byte_at 19 r = 0;
  nv_session : any_nonzero (slice 20 36 r) = true;
  nv_generation : be_val (slice 36 44 r) <> 0;
  nv_reserved2 : any_nonzero (slice 48 52 r) = false;
  nv_binding : any_nonzero (slice 52 84 r) = true;
  nv_sequence : sequence_allowed (byte_at 16 r) (be_val (slice 44 48 r)) }.

(** What follows the framing checks. *)
Definition after_framing (r : bytes) : string :=
  if NAC1_VERSION <? be_val (slice 4 6 r) then STATUS_UNSUPPORTED
  else if negb (be_val (slice 4 6 r) =? NAC1_VERSION) then STATUS_CORRUPT
  else if negb (in_range 1 NAC1_KIND_MAX (byte_at 16 r)) || negb (byte_at 17 r =? 0) ||
          negb (in_range 1 3 (byte_at 18 r)) || negb (byte_at 19 r =? 0) ||
          negb (any_nonzero (slice 20 36 r)) || (be_val (slice 36 44 r) =? 0) ||
          any_nonzero (slice 48 52 r) || negb (any_nonzero (slice 52 84 r)) then STATUS_CORRUPT
  else if (byte_at 16 r =? KIND_COOKIE_CHALLENGE) || (byte_at 16 r =? KIND_COOKIE_RESPONSE) then
    if negb (be_val (slice 44 48 r) =? 0) then STATUS_CORRUPT else STATUS_OK
  else if negb (in_range 1 8 (be_val (slice 44 48 r))) then STATUS_CORRUPT
  else STATUS_OK.

Lemma classify_framed r : nac1_framed r -> classify_nac1 r = after_framing r.
Proof.
  intros [H1 H2 H3 H4 H5 H6]. unfold classify_nac1. unfold NAC1_HEADER_BYTES, NAC1_RECORD_MAX in *.
  rewrite (proj2 (Z.ltb_ge _ _)) by lia. rewrite H2, bool_decide_eq_true_2 by done. cbn [negb]. cbv zeta.
  rewrite H3, H4, H5, !Z.eqb_refl. rewrite (proj2 (Z.ltb_ge 600 _)) by lia. cbn [negb orb].
  unfold sealed in H6. change (84 + 4) with 88 in H6. by rewrite <- H6, Z.eqb_refl.
Qed.

Lemma nac1_not_corrupt r : classify_nac1 r <> STATUS_CORRUPT -> nac1_framed r.
Proof.
  unfold classify_nac1. cbv zeta. intros H.
  do 4 (match type of H with (if ?c then STATUS_CORRUPT else _) <> _ => destruct c eqn:?; [by destruct H|] end). clear H.
  rewrite ?decided_false in *. bool_to_prop. unfold NAC1_HEADER_BYTES, NAC1_RECORD_MAX in *.
  split; unfold NAC1_HEADER_BYTES, NAC1_RECORD_MAX; try done; lia.
Qed.

Lemma sequence_allowed_dec r :
  (if (byte_at 16 r =? KIND_COOKIE_CHALLENGE) || (byte_at 16 r =? KIND_COOKIE_RESPONSE) then
     if negb (be_val (slice 44 48 r) =? 0) then STATUS_CORRUPT else STATUS_OK
   else if negb (in_range 1 8 (be_val (slice 44 48 r))) then STATUS_CORRUPT else STATUS_OK) = STATUS_OK <->
  sequence_allowed (byte_at 16 r) (be_val (slice 44 48 r)).
Proof.
  unfold sequence_allowed. destruct (_ || _).
  - destruct (Z.eqb_spec (be_val (slice 44 48 r)) 0); naive_solver.
  - rewrite <- (in_range_spec 1 8). destruct (in_range _ _ _); naive_solver.
Qed.

Lemma classify_OK r : classify_nac1 r = STATUS_OK <-> nac1_valid r.
Proof.
  split.
  - intros H. assert (Hf : nac1_framed r) by (apply nac1_not_corrupt; by rewrite H).
    rewrite classify_framed in H by done. unfold after_framing in H.
    do 3 (match type of H with (if ?c then _ else _) = _ => destruct c eqn:?; [discriminate H|] end).
    apply sequence_allowed_dec in H. bool_to_prop. rewrite ?in_range_spec in *. by split.
  - intros [Hf H1 H2 H3 H4 H5 H6 H7 H8 H9 H10]. rewrite classify_framed by done. unfold after_framing.
    apply sequence_allowed_dec in H10. rewrite H1, (proj2 (in_range_spec _ _ _) H2), H3, (proj2 (in_range_spec _ _ _) H4), H5, H6, H8, H9.
    rewrite (proj2 (Z.eqb_neq _ _) H7). exact H10.
Qed.

Lemma classify_UNSUPPORTED r : classify_nac1 r = STATUS_UNSUPPORTED <-> nac1_framed r /\ NAC1_VERSION < be_val (slice 4 6 r).
Proof.
  split.
  - intros H. assert (Hf : nac1_framed r) by (apply nac1_not_corrupt; by rewrite H). split; [done|].
    rewrite classify_framed in H by done. unfold after_framing in H.
    destruct (_ <? _) eqn:E; [by apply Z.ltb_lt|].
    repeat match type of H with (if ?c then _ else _) = _ => destruct c; try discriminate H end.
  - intros [Hf Hv]. rewrite classify_framed by done. unfold after_framing. by rewrite (proj2 (Z.ltb_lt _ _) Hv).
Qed.

(** ** Encoding *)

Lemma nac1_built a : nac1_ok a -> exists r, encode_nac1 a = Ok r /\ sealed_record crc32c 84 (nac1_parts a) NAC1_WIDTHS (payload a) r /\
  Forall2 wide (nac1_parts a) NAC1_WIDTHS.
Proof.
  intros (Hk & Hc & ([Ls Bs] & Ns) & Hg & Hq & ([Lb Bb] & Nb) & Bp & Hp). unfold u32_ok, NAC1_KIND_MAX, KIND_ATTACH_CONFIRM_AUTHORITY, NAC1_PAYLOAD_MAX in *.
  pose proof (len_nonneg (payload a)) as Np.
  assert (W : Forall2 wide (nac1_parts a) NAC1_WIDTHS) by (unfold nac1_parts, NAC1_WIDTHS; solve_wide).
  destruct (seal_record_Ok crc32c 84 (nac1_parts a) NAC1_WIDTHS (payload a) 14) as (r & E & H); try done; try lia.
  - unfold nac1_parts, NAC1_VERSION, NAC1_HEADER_BYTES. solve_fine.
  - unfold nac1_parts. solve_sound.
  - exists r. split; [|done]. unfold encode_nac1, NAC1_KIND_MAX, KIND_ATTACH_CONFIRM_AUTHORITY.
    rewrite Ls, Ns, Lb, Nb. rewrite (proj2 (in_range_spec _ _ _) Hk), (proj2 (in_range_spec _ _ _) Hc), (proj2 (in_range_spec _ _ _) Hg).
    by rewrite (proj2 (Z.ltb_ge NAC1_PAYLOAD_MAX _) Hp).
Qed.

(** Every field of an encoded record. *)
Record nac1_holds (a : nac1_args) (r : bytes) : Prop := {
  nh_framed : nac1_framed r;
  nh_bytes : bytes_ok r;
  nh_length : len r = NAC1_HEADER_BYTES + len (payload a);
  nh_version : be_val (slice 4 6 r) = NAC1_VERSION;
  nh_kind : byte_at 16 r = kind a;
  nh_flags : byte_at 17 r = 0;
  nh_carrier : byte_at 18 r = carrier_class a;
  nh_reserved : byte_at 19 r = 0;
  nh_session : slice 20 36 r = session_id a;
  nh_generation : be_val (slice 36 44 r) = exchange_generation a;
  nh_sequence : be_val (slice 44 48 r) = record_sequence a;
  nh_reserved2 : slice 48 52 r = zeros 4;
  nh_binding : slice 52 84 r = carrier_binding_digest a;
  nh_payload : slice_from 88 r = payload a }.

Lemma nac1_encoded a : nac1_ok a -> exists r, encode_nac1 a = Ok r /\ nac1_holds a r.
Proof.
  intros Ha. destruct (nac1_built a Ha) as (r & E & H & W). exists r. split; [done|].
  pose proof (sr_len _ _ _ _ _ _ H) as L. change (total_width NAC1_WIDTHS) with 88 in L.
  destruct Ha as (_ & _ & _ & _ & _ & _ & _ & Hp). unfold NAC1_PAYLOAD_MAX in Hp. pose proof (len_nonneg (payload a)) as Np.
  sealed_reads crc32c W H 14%nat.
  repeat match goal with
  | K : Ok ?v = Ok (slice ?x ?y r) |- _ => apply Ok_inj in K
  | K : _ ?v = Ok (slice ?x ?y r) |- _ => apply pack_val in K
  end.
  split; unfold NAC1_HEADER_BYTES in *; try done; try (rewrite <- byte_at_val by lia; done); try congruence.
  - split; unfold NAC1_HEADER_BYTES, NAC1_RECORD_MAX; try done; try congruence; try lia. exact (sr_sealed _ _ _ _ _ _ H).
  - exact (sr_bytes _ _ _ _ _ _ H).
  - apply be_val_inj; [apply bytes_ok_slice, (sr_bytes _ _ _ _ _ _ H) | apply zeros_ok | rewrite len_slice by lia; done | done].
  - exact (sr_payload _ _ _ _ _ _ H).
Qed.

Lemma nac1_holds_valid a r : nac1_ok a -> nac1_holds a r -> (nac1_valid r <-> sequence_allowed (kind a) (record_sequence a)).
Proof.
  intros (Hk & Hc & (_ & Ns) & Hg & _ & (_ & Nb) & _) []. rewrite <- nh_kind0, <- nh_sequence0. split; [by intros []|].
  intros Hs. split; try done; try congruence; try lia. by rewrite nh_reserved3.
Qed.

(** The fields of a record, and the record they give. *)
Definition nac1_of (r : bytes) : nac1_args := {|
  kind := byte_at 16 r; carrier_class := byte_at 18 r; session_id := slice 20 36 r; exchange_generation := be_val (slice 36 44 r);
  record_sequence := be_val (slice 44 48 r); carrier_binding_digest := slice 52 84 r; payload := slice_from 88 r |}.

Lemma nac1_of_ok r : bytes_ok r -> nac1_valid r -> nac1_ok (nac1_of r).
Proof.
  intros Br [[S1 _ _ _ _ _] _ Hk _ Hc _ Hs Hg _ Hb _]. unfold NAC1_HEADER_BYTES, NAC1_RECORD_MAX in *.
  unfold nac1_ok, nac1_of, u32_ok, NAC1_PAYLOAD_MAX. cbn.
  assert (V : forall x y, 0 <= x <= y -> y <= 88 -> raw (y - x) (slice x y r))
    by (intros x y Hx Hy; split; [apply len_slice; lia | by apply bytes_ok_slice]).
  pose proof (be_val_bounds _ (bytes_ok_slice 36 44 r Br)) as B1. rewrite len_slice in B1 by lia. change (256 ^ (44 - 36)) with 18446744073709551616 in B1.
  pose proof (be_val_bounds _ (bytes_ok_slice 44 48 r Br)) as B2. rewrite len_slice in B2 by lia.
  rewrite slice_from_slice, len_slice by lia.
  split; [done|]. split; [done|]. split; [exact (conj (V 20 36 ltac:(lia) ltac:(lia)) Hs)|]. split; [lia|]. split; [exact B2|].
  split; [exact (conj (V 52 84 ltac:(lia) ltac:(lia)) Hb)|]. split; [by apply bytes_ok_slice | lia].
Qed.

Lemma zeros_of_false (l : bytes) n : len l = n -> any_nonzero l = false -> l = zeros n.
Proof. intros <-. apply any_nonzero_false. Qed.

Lemma nac1_rebuild r : bytes_ok r -> nac1_valid r -> encode_nac1 (nac1_of r) = Ok r.
Proof.
  intros Br Hv. pose proof (nac1_of_ok r Br Hv) as Ha. destruct (nac1_built _ Ha) as (r' & E & H & W).
  rewrite E. f_equal. apply (sealed_record_unique crc32c 84 (nac1_parts (nac1_of r)) NAC1_WIDTHS (payload (nac1_of r))); try done.
  destruct Hv as [[S1 S2 S3 S4 S5 S6] V1 V2 V3 V4 V5 V6 V7 V8 V9 V10]. unfold NAC1_HEADER_BYTES, NAC1_RECORD_MAX, NAC1_VERSION in *.
  assert (L : total_width NAC1_WIDTHS = 88) by done. split; rewrite ?L; try done.
  - cbn [payload nac1_of]. rewrite slice_from_slice, len_slice by lia. lia.
  - rewrite <- L. apply join_of_reads; [repeat constructor; done | rewrite len_zeroed by lia; rewrite L; lia|].
    pose proof (zeroed_ok 84 r Br) as Bz. assert (Lz : len (zeroed 84 r) = len r) by (apply len_zeroed; lia).
    assert (Hz : slice 84 88 (zeroed 84 r) = zeros 4) by (apply (slice_assign_read 84 88); rewrite ?len_zeros; lia).
    pose proof (byte_at_val 16 r ltac:(lia) : be_val (slice 16 17 r) = _). pose proof (byte_at_val 17 r ltac:(lia) : be_val (slice 17 18 r) = _).
    pose proof (byte_at_val 18 r ltac:(lia) : be_val (slice 18 19 r) = _). pose proof (byte_at_val 19 r ltac:(lia) : be_val (slice 19 20 r) = _).
    assert (be_val (slice 48 52 r) = 0) by (by rewrite (zeros_of_false (slice 48 52 r) 4 ltac:(rewrite len_slice; lia) V8)).
    unfold nac1_parts, nac1_of, NAC1_HEADER_BYTES, NAC1_VERSION. cbn [kind carrier_class session_id exchange_generation record_sequence carrier_binding_digest payload].
    rewrite slice_from_slice, len_slice by lia.
    repeat (apply Forall2_cons_2; [|]); try apply Forall2_nil_2; cbn [fst snd];
      repeat match goal with |- context [start ?ns ?i] => let v := eval vm_compute in (start ns i) in change (start ns i) with v end;
      first
      [ (rewrite zeroed_other by lia; rewrite S2; reflexivity)
      | (rewrite zeroed_other by lia; reflexivity)
      | (rewrite Hz; reflexivity)
      | (apply pack_of_read; rewrite ?Lz; try done; try lia; rewrite zeroed_other by lia; lia) ].
Qed.

(** The NAC1 classifier is exact: it accepts a record when, and only when, it is the
    encoding of well-formed arguments whose sequence number the kind allows; it says
    UNSUPPORTED exactly for a consistent frame of a later version; everything else
    is CORRUPT. *)
Theorem nac1_classified_exactly r :
  bytes_ok r ->
  (classify_nac1 r = STATUS_OK <->
     exists a, nac1_ok a /\ sequence_allowed (kind a) (record_sequence a) /\ encode_nac1 a = Ok r) /\
  (classify_nac1 r = STATUS_UNSUPPORTED <-> nac1_framed r /\ NAC1_VERSION < be_val (slice 4 6 r)) /\
  (classify_nac1 r = STATUS_OK \/ classify_nac1 r = STATUS_UNSUPPORTED \/ classify_nac1 r = STATUS_CORRUPT).
Proof.
  intros Br. split; [|split; [apply classify_UNSUPPORTED|]].
  - rewrite classify_OK. split.
    + intros Hv. exists (nac1_of r). split; [by apply nac1_of_ok|]. split; [apply Hv | by apply nac1_rebuild].
    + intros (a & Ha & Hs & E). destruct (nac1_encoded a Ha) as (r' & E' & H). rewrite E in E'. apply Ok_inj in E' as <-.
      by apply (nac1_holds_valid a).
  - destruct (decide (classify_nac1 r = STATUS_CORRUPT)) as [|Hn]; [auto|]. apply nac1_not_corrupt in Hn.
    rewrite classify_framed by done. unfold after_framing. repeat match goal with |- context [if ?c then _ else _] => destruct c end; auto.
Qed.

(** ** The incremental decoder *)

(** What the bytes read so far allow: too few for the header, or a good header and no
    more bytes than it announces. *)
Definition viable (s : bytes) : Prop :=
  len s < NAS1_HEADER_BYTES \/ exists total, nas1_header s = inr total /\ len s <= total.

(** All the bytes the header announces. *)
Definition whole (s : bytes) : Prop := NAS1_HEADER_BYTES <= len s /\ nas1_header s = inr (len s).

Lemma nas1_header_app a b : NAS1_HEADER_BYTES <= len a -> nas1_header (a ++ b) = nas1_header a.
Proof.
  unfold NAS1_HEADER_BYTES. intros H. unfold nas1_header. rewrite !slice_app_l, !byte_at_app_l by lia. done.
Qed.

Lemma nas1_header_total s total : bytes_ok s -> nas1_header s = inr total -> 100 <= total <= 612.
Proof.
  unfold nas1_header. cbv zeta. intros _ H. do 3 (match type of H with (if ?c then _ else _) = _ => destruct c eqn:?; [discriminate H|] end).
  destruct (in_range NAC1_HEADER_BYTES _ _) eqn:E; cbn [negb] in H; [|discriminate H]. apply in_range_spec in E. unfold NAC1_HEADER_BYTES, NAC1_RECORD_MAX in E.
  injection H as <-. unfold NAS1_HEADER_BYTES. lia.
Qed.

Lemma viable_app a b : viable (a ++ b) -> viable a.
Proof.
  intros H. destruct (Z.lt_ge_cases (len a) NAS1_HEADER_BYTES) as [Ha|Ha]; [by left|]. right.
  pose proof (len_nonneg b). destruct H as [H|(t & E & H)]; rewrite len_app in H; [lia|].
  rewrite nas1_header_app in E by done. exists t. split; [done | lia].
Qed.

(** The decoder's state after the bytes [s]: the expected total is known from the
    header on. *)
Definition decoder_state (s : bytes) (expected : option Z) : Prop :=
  bytes_ok s /\ (len s < NAS1_HEADER_BYTES /\ expected = None \/
  NAS1_HEADER_BYTES <= len s /\ exists total, nas1_header s = inr total /\ expected = Some total /\ len s <= total).

Lemma decoder_state_viable s expected : decoder_state s expected -> viable s.
Proof. intros [_ [[H _]|(_ & t & E & _ & H)]]; [by left | right; by exists t]. Qed.

(** A refused result delivers nothing and closes the connection. *)
Definition refusal (result : nas1_result) : Prop :=
  delivery_count result = 0 /\ inner_sha256 result = None /\
  outcome result ∈ ["CLOSE_OVERFLOW"; "CLOSE_MAGIC"; "CLOSE_FUTURE_OR_BAD_VERSION"; "CLOSE_HEADER"; "CLOSE_LENGTH"; "CLOSE_TRAILING_BYTES"]%string.

Lemma nas1_header_reasons s reason : nas1_header s = inl reason -> forall n b, refusal (closed reason n b).
Proof.
  unfold nas1_header. cbv zeta. intros H n b. repeat match type of H with (if ?c then _ else _) = _ => destruct c; [injection H as <- | ] end;
    try discriminate H; (split; [done|]; split; [done|]; set_solver).
Qed.

Lemma nas1_feed_spec chunks s expected n :
  Forall bytes_ok chunks -> decoder_state s expected ->
  match nas1_feed chunks s expected n with
  | inl result => refusal result /\ ~ viable (s ++ concat chunks)
  | inr (s', expected', n') => s' = s ++ concat chunks /\ decoder_state s' expected' /\ n' = n + len chunks
  end.
Proof.
  intros B. revert s expected n. induction B as [|chunk chunks Bc B IH]; intros s expected n Hs; cbn [nas1_feed concat].
  { rewrite app_nil_r. split; [done|]. split; [done|]. rewrite len_nil. lia. }
  assert (Bs : bytes_ok (s ++ chunk)) by (apply bytes_ok_app; split; [apply Hs | done]).
  pose proof (len_nonneg chunk) as Nc. rewrite app_assoc.
  assert (Hno : forall P, ~ viable (s ++ chunk) -> P -> P /\ ~ viable ((s ++ chunk) ++ concat chunks))
    by (intros P Hn HP; split; [done|]; intros Hv; by apply viable_app in Hv).
  destruct (Z.ltb_spec NAS1_RECORD_MAX (len s + len chunk)) as [Ho|Ho].
  { apply Hno; [|split; [done|]; split; [done | set_solver]].
    intros [Hv|(t & E & Hv)]; rewrite len_app in Hv; unfold NAS1_RECORD_MAX, NAS1_HEADER_BYTES in *; [lia|].
    apply nas1_header_total in E; [lia | done]. }
  assert (Hnext : match (if (NAS1_HEADER_BYTES <=? len (s ++ chunk)) && bool_decide (expected = None) then
                 match nas1_header (s ++ chunk) with inl reason => inl reason | inr total => inr (Some total) end
               else inr expected) with
          | inl reason => nas1_header (s ++ chunk) = inl reason /\ NAS1_HEADER_BYTES <= len (s ++ chunk)
          | inr e => len (s ++ chunk) < NAS1_HEADER_BYTES /\ e = None \/
                     NAS1_HEADER_BYTES <= len (s ++ chunk) /\ exists total, nas1_header (s ++ chunk) = inr total /\ e = Some total end).
  { destruct Hs as [_ [[Hl ->]|(Hl & t & E & -> & Ht)]].
    - rewrite bool_decide_eq_true_2, andb_true_r by done. destruct (Z.leb_spec NAS1_HEADER_BYTES (len (s ++ chunk))); [|left; done].
      destruct (nas1_header (s ++ chunk)) eqn:E; [done|]. right. split; [done|]. by eexists.
    - rewrite bool_decide_eq_false_2, andb_false_r by done. right. split; [rewrite len_app; lia|].
      exists t. by rewrite nas1_header_app. }
  destruct (if (NAS1_HEADER_BYTES <=? len (s ++ chunk)) && bool_decide (expected = None) then _ else _) as [reason|e].
  { destruct Hnext as [E Hl]. apply Hno; [|by eapply nas1_header_reasons]. intros [Hv|(t & E' & _)]; [lia | congruence]. }
  destruct Hnext as [[Hl ->]|(Hl & t & E & ->)].
  - specialize (IH (s ++ chunk) None (n + 1)). rewrite len_cons. destruct (nas1_feed _ _ _ _) as [|[[s' e'] n']]; [apply IH; split; auto|].
    destruct IH as (-> & H & ->); [split; auto|]. split; [done|]. split; [done | lia].
  - destruct (Z.ltb_spec t (len (s ++ chunk))) as [Ht|Ht].
    { apply Hno; [|split; [done|]; split; [done | set_solver]]. intros [Hv|(t' & E' & Hv)]; [lia|]. rewrite E in E'. injection E' as <-. lia. }
    specialize (IH (s ++ chunk) (Some t) (n + 1)). rewrite len_cons. destruct (nas1_feed _ _ _ _) as [|[[s' e'] n']].
    + apply IH. split; [done|]. right. split; [done|]. by exists t.
    + destruct IH as (-> & H & ->); [split; [done|]; right; split; [done|]; by exists t|]. split; [done|]. split; [done | lia].
Qed.

Lemma nas1_encode_Ok c r : 1 <= c <= 2 -> NAC1_HEADER_BYTES <= len r <= NAC1_RECORD_MAX -> bytes_ok r ->
  exists h, encode_nas1 c r = Ok (h ++ r) /\ len h = 12 /\ bytes_ok h /\ slice 0 4 h = bytes_of_string "NAS1" /\ byte_at 4 h = 1 /\
    byte_at 5 h = c /\ be_val (slice 6 8 h) = 12 /\ be_val (slice 8 12 h) = len r.
Proof.
  intros Hc Hr Br. unfold NAC1_HEADER_BYTES, NAC1_RECORD_MAX in *. assert (W : Forall2 wide (nas1_parts c r) [4; 1; 1; 2; 4]) by (unfold nas1_parts; solve_wide).
  destruct (join_total (nas1_parts c r)) as [h Eh]; [unfold nas1_parts, NAS1_HEADER_BYTES; solve_fine|].
  assert (Bh : bytes_ok h) by (apply (join_sound (nas1_parts c r)); [unfold nas1_parts; solve_sound | done]).
  pose proof (join_len _ _ _ W Eh) as Lh. change (total_width _) with 12 in Lh. exists h. split.
  - unfold encode_nas1, NAC1_HEADER_BYTES, NAC1_RECORD_MAX. rewrite (proj2 (in_range_spec _ _ _) Hc), (proj2 (in_range_spec _ _ _) Hr).
    rewrite !raise_if_skip by done. by rewrite Eh.
  - split; [done|]. split; [done|]. rewrite <- !byte_at_val by lia. change (4 + 1) with 5. change (5 + 1) with 6.
    split_and!; [read_part W Eh 0%nat | read_part W Eh 1%nat | read_part W Eh 2%nat | read_part W Eh 3%nat | read_part W Eh 4%nat].
Qed.

(** A whole stream is the wrapping of the record in it, and only that. *)
Lemma whole_header s : bytes_ok s -> whole s ->
  slice 0 4 s = bytes_of_string "NAS1" /\ byte_at 4 s = 1 /\ 1 <= byte_at 5 s <= 2 /\ be_val (slice 6 8 s) = 12 /\
  be_val (slice 8 12 s) = len s - 12 /\ 88 <= len s - 12 <= 600.
Proof.
  intros Bs [_ E]. unfold nas1_header, NAS1_HEADER_BYTES, NAC1_HEADER_BYTES, NAC1_RECORD_MAX in E. cbv zeta in E.
  do 4 (match type of E with (if ?c then _ else _) = _ => destruct c eqn:?; [discriminate E|] end). injection E as E.
  rewrite ?decided_false in *. bool_to_prop. rewrite ?in_range_spec in *. split_and!; try done; lia.
Qed.

Lemma whole_encode s : bytes_ok s -> whole s -> encode_nas1 (byte_at 5 s) (slice_from 12 s) = Ok s.
Proof.
  intros Bs Hw. destruct (whole_header s Bs Hw) as (H1 & H2 & H3 & H4 & H5 & H6).
  assert (Br : bytes_ok (slice_from 12 s)) by (rewrite slice_from_slice by lia; by apply bytes_ok_slice).
  assert (Lr : len (slice_from 12 s) = len s - 12) by (rewrite slice_from_slice, len_slice by lia; lia).
  unfold encode_nas1, NAC1_HEADER_BYTES, NAC1_RECORD_MAX. rewrite Lr, (proj2 (in_range_spec _ _ _) H3), (proj2 (in_range_spec _ _ _) H6).
  rewrite !raise_if_skip by done.
  assert (E : join (nas1_parts (byte_at 5 s) (slice_from 12 s)) = Ok (slice 0 12 s)).
  { apply (join_of_reads _ [4; 1; 1; 2; 4]); [repeat constructor; done | change (total_width _) with 12; lia|].
    unfold nas1_parts, NAS1_HEADER_BYTES. rewrite Lr. rewrite <- byte_at_val in * by lia. change (4 + 1) with 5 in *. change (5 + 1) with 6 in *.
    repeat (apply Forall2_cons_2; [|]); try apply Forall2_nil_2; cbn [fst snd];
      repeat match goal with |- context [start ?ns ?i] => let v := eval vm_compute in (start ns i) in change (start ns i) with v end;
      first [ by rewrite H1 | apply pack_of_read; try done; lia ]. }
  rewrite E, ok_bind. cbn. f_equal. rewrite slice_from_slice, <- slice_split by lia. by apply slice_whole.
Qed.

Lemma encode_whole c r s : bytes_ok r -> encode_nas1 c r = Ok s -> bytes_ok s /\ whole s /\ byte_at 5 s = c /\ slice_from 12 s = r.
Proof.
  intros Br E. assert (Hg : 1 <= c <= 2 /\ NAC1_HEADER_BYTES <= len r <= NAC1_RECORD_MAX).
  { unfold encode_nas1 in E. destruct (in_range 1 2 c) eqn:E1; [|discriminate E]. destruct (in_range NAC1_HEADER_BYTES _ _) eqn:E2; [|discriminate E].
    by rewrite !in_range_spec in *. }
  destruct Hg as [Hc Hr]. destruct (nas1_encode_Ok c r Hc Hr Br) as (h & E' & Lh & Bh & H1 & H2 & H3 & H4 & H5).
  rewrite E in E'. apply Ok_inj in E' as ->. unfold NAC1_HEADER_BYTES, NAC1_RECORD_MAX in Hr.
  split; [by apply bytes_ok_app|]. split; [|split; [by rewrite byte_at_app_l by lia | by apply slice_from_app]].
  unfold whole, NAS1_HEADER_BYTES. rewrite len_app. split; [lia|]. rewrite nas1_header_app by (unfold NAS1_HEADER_BYTES; lia).
  unfold nas1_header, NAC1_HEADER_BYTES, NAC1_RECORD_MAX, NAS1_HEADER_BYTES. rewrite H1, H2, H3, H4, H5. rewrite bool_decide_eq_true_2 by done.
  rewrite (proj2 (in_range_spec _ _ _) Hc), (proj2 (in_range_spec _ _ _) Hr). cbn. f_equal. lia.
Qed.

(** The result is a function of the bytes alone, but for the number of reads. *)
Lemma run_nas1_spec chunks eof :
  Forall bytes_ok chunks ->
  let s := concat chunks in let result := run_nas1_stream chunks eof in
  (whole s -> result = if negb (String.eqb (classify_nac1 (slice_from 12 s)) STATUS_OK) then closed "CLOSE_INNER_CORRUPT" (len chunks) s
                       else if negb (byte_at 18 (slice_from 12 s) =? byte_at 5 s) then closed "CLOSE_INNER_CARRIER_MISMATCH" (len chunks) s
                       else {| outcome := "DELIVERED"; delivery_count := 1; read_count := len chunks; buffered_bytes := len s;
                               inner_sha256 := Some (hex_of (sha256 (slice_from 12 s))) |}) /\
  (viable s -> ~ whole s -> result = closed (if eof then "CLOSE_SHORT_EOF" else "NEED_MORE") (len chunks) s) /\
  (~ viable s -> refusal result).
Proof.
  intros B. cbv zeta. unfold run_nas1_stream.
  pose proof (nas1_feed_spec chunks [] None 0 B) as H. cbn [app] in H.
  assert (Hs : decoder_state [] None) by (split; [constructor | left; done]). specialize (H Hs).
  destruct (nas1_feed chunks [] None 0) as [result|[[s e] n]].
  - destruct H as [Hr Hn]. split_and!; [|done|done]. intros [Hl E]. destruct Hn. right. by eexists.
  - destruct H as (-> & Hd & ->). rewrite Z.add_0_l. pose proof (decoder_state_viable _ _ Hd) as Hv.
    assert (Hw : e = Some (len (concat chunks)) <-> whole (concat chunks)).
    { destruct Hd as [_ [[Hl ->]|(Hl & t & E & -> & Ht)]]; unfold whole.
      - split; [done|]. intros [H _]. lia.
      - split; [intros [= ->]; done|]. intros [_ E']. congruence. }
    split; [|split; [|done]].
    + intros H. rewrite bool_decide_eq_true_2 by (by apply Hw). done.
    + intros _ H. rewrite bool_decide_eq_false_2 by (by rewrite Hw). by destruct eof.
Qed.

Lemma refusal_not r : refusal r -> outcome r <> "DELIVERED"%string /\ outcome r <> "NEED_MORE"%string /\ outcome r <> "CLOSE_SHORT_EOF"%string.
Proof. intros (_ & _ & H). set_unfold in H. split_and!; intros E; rewrite E in H; naive_solver. Qed.

Lemma bytes_ok_concat (ls : list bytes) : Forall bytes_ok ls -> bytes_ok (concat ls).
Proof. induction 1; cbn; [constructor | by apply bytes_ok_app]. Qed.

Lemma whole_viable s : whole s -> viable s.
Proof. intros [H E]. right. by exists (len s). Qed.

Lemma stream_cases s : whole s \/ viable s /\ ~ whole s \/ ~ viable s.
Proof.
  assert (D : Decision (whole s)) by (unfold whole; apply _). destruct D as [|Hw]; [by left|].
  destruct (Z.lt_ge_cases (len s) NAS1_HEADER_BYTES) as [H|H]; [right; left; split; [by left | done]|].
  destruct (nas1_header s) as [reason|t] eqn:E; [right; right; intros [Hv|(t & E' & _)]; [lia | congruence]|].
  destruct (Z.le_gt_cases (len s) t); [right; left; split; [right; by exists t | done]|].
  right; right. intros [Hv|(t' & E' & Ht)]; [lia|]. rewrite E in E'. injection E' as <-. lia.
Qed.

(** Delivery, for a whole stream and for the others. *)
Lemma delivered_whole chunks eof :
  Forall bytes_ok chunks -> outcome (run_nas1_stream chunks eof) = "DELIVERED"%string <->
  whole (concat chunks) /\ classify_nac1 (slice_from 12 (concat chunks)) = STATUS_OK /\
  byte_at 18 (slice_from 12 (concat chunks)) = byte_at 5 (concat chunks).
Proof.
  intros B. pose proof (run_nas1_spec chunks eof B) as (H1 & H2 & H3). cbv zeta in *. set (s := concat chunks) in *.
  destruct (stream_cases s) as [Hw|[[Hv Hw]|Hv]].
  - rewrite (H1 Hw). destruct (String.eqb_spec (classify_nac1 (slice_from 12 s)) STATUS_OK) as [E|E]; [|cbn; naive_solver].
    destruct (Z.eqb_spec (byte_at 18 (slice_from 12 s)) (byte_at 5 s)); cbn; naive_solver.
  - rewrite (H2 Hv Hw). split; [destruct eof; discriminate|]. by intros [? _].
  - destruct (refusal_not _ (H3 Hv)) as [Hn _]. split; [done|]. intros [Hw _]. destruct Hv. by apply whole_viable.
Qed.

(** What can still become a record: less than a header, or a proper prefix of the
    wrapping of some record of an admissible size. *)
Definition awaited (s : bytes) : Prop :=
  len s < NAS1_HEADER_BYTES \/ exists t c r, t <> [] /\ bytes_ok r /\ encode_nas1 c r = Ok (s ++ t).

Lemma awaited_viable s : bytes_ok s -> awaited s <-> viable s /\ ~ whole s.
Proof.
  intros Bs. split.
  - intros [Hl|(t & c & r & Ht & Br & E)].
    { split; [by left|]. intros [H _]. lia. }
    destruct (encode_whole c r _ Br E) as (_ & Hw & _). split; [apply (viable_app s t); by apply whole_viable|].
    intros [H1 H2]. destruct Hw as [_ Hw]. rewrite nas1_header_app, H2 in Hw by done. injection Hw as Hw.
    rewrite len_app in Hw. destruct t; [done|]. rewrite len_cons in Hw. pose proof (len_nonneg t). lia.
  - intros [[Hl|(total & E & Hl)] Hn]; [by left|]. destruct (Z.lt_ge_cases (len s) NAS1_HEADER_BYTES) as [H|H]; [by left|]. right.
    assert (Hlt : len s < total) by (destruct (Z.eq_dec (len s) total) as [<-|]; [by destruct Hn | lia]).
    set (t := zeros (total - len s)). assert (Lt : len t = total - len s) by (apply len_zeros; lia).
    assert (Bst : bytes_ok (s ++ t)) by (apply bytes_ok_app; split; [done | apply zeros_ok]).
    assert (Hw : whole (s ++ t)).
    { split; [rewrite len_app; lia|]. rewrite nas1_header_app, E by done. f_equal. rewrite len_app. lia. }
    exists t, (byte_at 5 (s ++ t)), (slice_from 12 (s ++ t)). split; [intros Ht; rewrite Ht, len_nil in Lt; lia|].
    split; [|by apply whole_encode]. destruct Hw as [Hw _]. unfold NAS1_HEADER_BYTES in Hw. rewrite slice_from_slice by lia. by apply bytes_ok_slice.
Qed.

(** The reasons a connection is closed for, the end of file apart. *)
Definition CLOSE_REASONS : list string :=
  ["CLOSE_OVERFLOW"; "CLOSE_MAGIC"; "CLOSE_FUTURE_OR_BAD_VERSION"; "CLOSE_HEADER"; "CLOSE_LENGTH"; "CLOSE_TRAILING_BYTES";
   "CLOSE_INNER_CORRUPT"; "CLOSE_INNER_CARRIER_MISMATCH"]%string.

(** Exactly the awaited streams wait, or end short; the rest is delivered or closed. *)
Lemma outcome_cases chunks eof :
  Forall bytes_ok chunks ->
  let s := concat chunks in let result := run_nas1_stream chunks eof in
  awaited s /\ result = closed (if eof then "CLOSE_SHORT_EOF" else "NEED_MORE") (len chunks) s \/
  ~ awaited s /\ (outcome result = "DELIVERED"%string \/ outcome result ∈ CLOSE_REASONS /\ delivery_count result = 0 /\ inner_sha256 result = None).
Proof.
  intros B. cbv zeta. pose proof (awaited_viable _ (bytes_ok_concat chunks B)) as Ha.
  pose proof (run_nas1_spec chunks eof B) as (H1 & H2 & H3). cbv zeta in *. set (s := concat chunks) in *.
  destruct (stream_cases s) as [Hw|[[Hv Hw]|Hv]].
  - right. split; [by rewrite Ha; intros [_ H]|]. rewrite (H1 Hw). destruct (negb (String.eqb _ _)); [right; split; [|done]; in_list|].
    destruct (negb (_ =? _)); [right; split; [|done]; in_list | by left].
  - left. split; [by apply Ha | by apply H2].
  - right. split; [by rewrite Ha; intros [H _]|]. right. destruct (H3 Hv) as (D & I & H). split; [|done].
    set_unfold in H. unfold CLOSE_REASONS. set_unfold. tauto.
Qed.

(** The sequence number the attachment profile (docs/35, section 5) fixes for the kind of a
    record; cookies and errors have their range from the classifier.  The classifier is
    laxer: it lets the other kinds have any of 1 to 8 (see [wrong_sequence_accepted]). *)
Definition profile_sequence (r : bytes) : Prop :=
  KIND_EDHOC_ERROR < byte_at 16 r <= NAC1_KIND_MAX -> be_val (slice 44 48 r) = byte_at 16 r - 3.

(** The record a stream wraps, if any, keeps to the profile. *)
Definition in_profile (s : bytes) : Prop := forall c r, bytes_ok r -> encode_nas1 c r = Ok s -> profile_sequence r.

(** C25. However the bytes of a stream are cut into reads, and unless it wraps a record whose
    sequence number the profile forbids, the decoder delivers exactly the streams that
    are the NAS1 wrapping of one NAC1 record of the same carrier class that the record
    classifier accepts and whose sequence number is that of its kind, once, with all the
    bytes buffered.  It waits (at the end of file: reports a short end) exactly for a
    stream of less than a header or a proper prefix of the wrapping of some record of an
    admissible size.  Every other stream is closed with one of the eight reasons.
    Whatever is not delivered publishes no record and no digest. *)
Theorem nas1_stream_exact chunks eof :
  Forall bytes_ok chunks -> in_profile (concat chunks) ->
  let s := concat chunks in let result := run_nas1_stream chunks eof in
  (outcome result = "DELIVERED"%string <->
     exists c r, encode_nas1 c r = Ok s /\ bytes_ok r /\ classify_nac1 r = STATUS_OK /\ byte_at 18 r = c /\ profile_sequence r) /\
  (outcome result = "DELIVERED"%string ->
     delivery_count result = 1 /\ read_count result = len chunks /\ buffered_bytes result = len s /\
     inner_sha256 result = Some (hex_of (sha256 (slice_from 12 s)))) /\
  (outcome result = (if eof then "CLOSE_SHORT_EOF" else "NEED_MORE")%string <-> awaited s) /\
  (outcome result <> "DELIVERED"%string -> ~ awaited s -> outcome result ∈ CLOSE_REASONS) /\
  (outcome result <> "DELIVERED"%string -> delivery_count result = 0 /\ inner_sha256 result = None).
Proof.
  intros B P. cbv zeta. pose proof (bytes_ok_concat chunks B) as Bs.
  pose proof (delivered_whole chunks eof B) as Hd. pose proof (outcome_cases chunks eof B) as Ho. cbv zeta in *.
  pose proof (run_nas1_spec chunks eof B) as (H1 & _ & _). cbv zeta in *.
  set (s := concat chunks) in *. split; [|split; [|split; [|split]]].
  - rewrite Hd. split.
    + intros (Hw & Hc & Hb). pose proof (whole_encode s Bs Hw) as E. exists (byte_at 5 s), (slice_from 12 s).
      assert (Br : bytes_ok (slice_from 12 s)).
      { destruct Hw as [Hl _]. unfold NAS1_HEADER_BYTES in Hl. rewrite slice_from_slice by lia. by apply bytes_ok_slice. }
      split_and!; try done. by eapply P.
    + intros (c & r & E & Br & Hc & Hb & _). destruct (encode_whole c r s Br E) as (_ & Hw & <- & <-). done.
  - intros E. apply Hd in E as (Hw & Hc & Hb). rewrite (H1 Hw), Hc, Hb, Z.eqb_refl. done.
  - destruct Ho as [[Ha ->]|[Hn [E|[E _]]]]; [done | rewrite E; by destruct eof |].
    split; [|done]. intros E'. exfalso. rewrite E' in E. destruct eof; revert E; apply (bool_decide_unpack (_ ∉ CLOSE_REASONS)); vm_compute; exact I.
  - intros Hn Hna. destruct Ho as [[? _]|[_ [?|[? _]]]]; done.
  - intros Hn. destruct Ho as [[_ ->]|[_ [?|[_ ?]]]]; done.
Qed.

(** The decoder waits for, and never gives up on, a stream that can still be
    completed: after any proper prefix of an acceptable stream it asks for more (or
    reports the short end of file), and the remaining bytes, in whatever reads they
    come, then deliver the record. *)
Theorem nas1_stream_completes c r s xs ys :
  bytes_ok r -> classify_nac1 r = STATUS_OK -> byte_at 18 r = c -> encode_nas1 c r = Ok s ->
  Forall bytes_ok xs -> Forall bytes_ok ys -> s = concat xs ++ concat ys -> concat ys <> [] ->
  outcome (run_nas1_stream xs false) = "NEED_MORE"%string /\ outcome (run_nas1_stream xs true) = "CLOSE_SHORT_EOF"%string /\
  forall eof, outcome (run_nas1_stream (xs ++ ys) eof) = "DELIVERED"%string.
Proof.
  intros Br Hc Hb E Bx By Es Hne. destruct (encode_whole c r s Br E) as (Bs & Hw & H5 & H12).
  assert (Hv : viable (concat xs)) by (apply (viable_app _ (concat ys)); rewrite <- Es; by apply whole_viable).
  assert (Hl : 0 < len (concat ys)) by (destruct (concat ys); [done | rewrite len_cons; pose proof (len_nonneg l); lia]).
  assert (Hn : ~ whole (concat xs)).
  { intros [H1 H2]. destruct Hw as [_ Hw]. rewrite Es, nas1_header_app, H2 in Hw by done. injection Hw as Hw. rewrite len_app in Hw. lia. }
  split; [|split].
  - destruct (run_nas1_spec xs false Bx) as (_ & H & _). by rewrite H.
  - destruct (run_nas1_spec xs true Bx) as (_ & H & _). by rewrite H.
  - intros eof. apply delivered_whole; [by apply Forall_app|]. rewrite concat_app, <- Es, H5, H12. done.
Qed.

(** ** The matrix of stream cases *)

(** [out[84:88] = bytes(4); out[84:88] = pack(">I", crc32c(bytes(out)))]. *)
Definition recrc (record : bytes) : res bytes :=
  zeroed ← run_writes [put 84 88 (Ok (zeros 4))] record;
  seal_at crc32c 84 zeroed.

Definition nas1_cases (nas : bytes) : res (list (string * nas1_result * string)) :=
  mismatch ← run_writes [put_byte (12 + 18) 2] nas;
  inner ← recrc (slice_from 12 mismatch);
  let inner_mismatch := (slice 0 12 mismatch ++ inner)%list in
  future ← run_writes [put_byte 4 2] nas;
  mret [("single_read_success", run_nas1_stream [nas] false, "DELIVERED");
        ("partial_read_success",
         run_nas1_stream [slice 0 1 nas; slice 1 7 nas; slice 7 12 nas; slice 12 91 nas; slice_from 91 nas] false, "DELIVERED");
        ("short_eof_close", run_nas1_stream [slice 0 (len nas - 1) nas] true, "CLOSE_SHORT_EOF");
        ("trailing_bytes_close", run_nas1_stream [(nas ++ [0])%list] false, "CLOSE_TRAILING_BYTES");
        ("future_version_close", run_nas1_stream [future] false, "CLOSE_FUTURE_OR_BAD_VERSION");
        ("inner_carrier_mismatch_close", run_nas1_stream [inner_mismatch] false, "CLOSE_INNER_CARRIER_MISMATCH")]%string.

(** The first case whose outcome is not the expected one raises. *)
Definition check_nas1_case (case : string * nas1_result * string) : res unit :=
  let '(name, result, want) := case in
  raise_if (negb (String.eqb (outcome result) want)) (AssertionError ("NAS matrix " ++ name ++ ": " ++ outcome result ++ " != " ++ want));;
  raise_if (negb (String.eqb want "DELIVERED") && negb (delivery_count result =? 0)) (AssertionError ("NAS failure delivered " ++ name)).

Fixpoint check_nas1_cases (cases : list (string * nas1_result * string)) : res unit :=
  match cases with [] => Ok tt | c :: cases => check_nas1_case c;; check_nas1_cases cases end.

Definition build_nas1_stream_matrix (nas : bytes) : res (list (string * nas1_result)) :=
  cases ← nas1_cases nas;
  check_nas1_cases cases;;
  mret (map fst cases).

(** ** A concrete record *)

Definition sample_nac1 : nac1_args := {|
  kind := 4; carrier_class := 1; session_id := pattern 1 16; exchange_generation := 9; record_sequence := 1;
  carrier_binding_digest := pattern 33 32; payload := pattern 7 37 |}.

Lemma sample_nac1_ok : nac1_ok sample_nac1.
Proof.
  unfold nac1_ok, sample_nac1, u32_ok, NAC1_KIND_MAX, KIND_ATTACH_CONFIRM_AUTHORITY, NAC1_PAYLOAD_MAX. cbn [kind carrier_class session_id exchange_generation record_sequence carrier_binding_digest payload].
  split; [lia|]. split; [lia|]. split; [split; [apply raw_pattern; lia | done]|]. split; [lia|]. split; [lia|].
  split; [split; [apply raw_pattern; lia | done]|]. split; [apply pattern_ok | rewrite len_pattern; lia].
Qed.

(** The sequence number of a kind is not fixed: the first EDHOC message with sequence 7
    is accepted. *)
Example wrong_sequence_accepted :
  (r ← encode_nac1 {| kind := 4; carrier_class := 1; session_id := pattern 1 16; exchange_generation := 9; record_sequence := 7;
      carrier_binding_digest := pattern 33 32; payload := [] |}; Ok (classify_nac1 r)) = Ok STATUS_OK.
Proof. vm_compute. reflexivity. Qed.

(** The matrix is built for the sample record. *)
Example sample_matrix : is_ok (r ← encode_nac1 sample_nac1; nas ← encode_nas1 1 r; build_nas1_stream_matrix nas) = true.
Proof. vm_compute. reflexivity. Qed.

Definition sample_record : bytes := match encode_nac1 sample_nac1 with Ok r => r | Raise _ => [] end.
Definition sample_stream : bytes := match encode_nas1 1 sample_record with Ok s => s | Raise _ => [] end.

Lemma sample_record_encoded : encode_nac1 sample_nac1 = Ok sample_record.
Proof. unfold sample_record. destruct (nac1_encoded _ sample_nac1_ok) as (r & -> & _). done. Qed.

Lemma sample_record_bytes : bytes_ok sample_record.
Proof. destruct (nac1_encoded _ sample_nac1_ok) as (r & E & H). rewrite sample_record_encoded in E. apply Ok_inj in E as ->. apply H. Qed.

Lemma sample_stream_bytes : bytes_ok sample_stream.
Proof. apply (bool_decide_unpack _). vm_compute. exact I. Qed.

Lemma nac1_classified_exactly_witness : classify_nac1 sample_record = STATUS_OK.
Proof.
  apply (nac1_classified_exactly sample_record sample_record_bytes). exists sample_nac1.
  split; [exact sample_nac1_ok|]. split; [vm_compute; split; discriminate | exact sample_record_encoded].
Defined.

Lemma sample_stream_profile : in_profile (concat [slice 0 7 sample_stream; []; slice_from 7 sample_stream]).
Proof.
  intros c r Br E. destruct (encode_whole c r _ Br E) as (_ & _ & _ & <-). intros _. vm_compute. reflexivity.
Qed.

Lemma nas1_stream_exact_witness :
  delivery_count (run_nas1_stream [slice 0 7 sample_stream; []; slice_from 7 sample_stream] false) = 1.
Proof.
  assert (B : Forall bytes_ok [slice 0 7 sample_stream; []; slice_from 7 sample_stream])
    by (apply (bool_decide_unpack _); vm_compute; exact I).
  destruct (nas1_stream_exact _ false B sample_stream_profile) as (_ & H & _). apply H. vm_compute. reflexivity.
Defined.

Lemma nas1_stream_completes_witness :
  outcome (run_nas1_stream [slice 0 7 sample_stream] false) = "NEED_MORE"%string /\
  outcome (run_nas1_stream [slice 0 7 sample_stream; slice_from 7 sample_stream] false) = "DELIVERED"%string.
Proof.
  assert (B1 : Forall bytes_ok [slice 0 7 sample_stream]) by (apply (bool_decide_unpack _); vm_compute; exact I).
  assert (B2 : Forall bytes_ok [slice_from 7 sample_stream]) by (apply (bool_decide_unpack _); vm_compute; exact I).
  destruct (nas1_stream_completes 1 sample_record sample_stream [slice 0 7 sample_stream] [slice_from 7 sample_stream]
    sample_record_bytes) as (H1 & _ & H2); [vm_compute; reflexivity..| exact B1 | exact B2 | vm_compute; reflexivity | vm_compute; discriminate|].
  exact (conj H1 (H2 false)).
Defined.
