(* ===== verification/Nar1.v ===== *)
(** NAR1: an attachment record cut into compact-radio fragments, the parser of one
    fragment, and the owner that puts the fragments together again
    ([tools/production_attachment_edhoc_composition.py]). *)

From S2P Require Import Prelude Bytes Crc Sha256 Layout Join Chain Sealed Nac1.
From stdpp Require Import pretty.
#[local] Open Scope Z_scope.

Definition NAR1_PROFILE : Z := 0x12.
Definition NAR1_VERSION : Z := 1.
Definition NAR1_HEADER_BYTES : Z := 68.
Definition NAR1_PACKET_MAX : Z := 192.
Definition NAR1_PAYLOAD_MAX : Z := 124.
Definition NAR1_FRAGMENT_MAX : Z := 5.

(** ** Fragments *)

(** The fields of a fragment, as the parser reports them. *)
Record nar1 := {
  f_session_id : bytes; f_generation : Z; f_sequence : Z; f_complete_len : Z; f_index : Z; f_count : Z; f_digest16 : bytes;
  f_offset : Z; f_payload : bytes }.

(** The values of the [struct.pack] format [>4sBBHHH16sQIHBB16sII]. *)
Definition nar1_parts (f : nar1) : list (res bytes) :=
  [Ok (bytes_of_string "NAR1"); u8 NAR1_PROFILE; u8 NAR1_VERSION; u16 NAR1_HEADER_BYTES; u16 (NAR1_HEADER_BYTES + len (f_payload f));
   u16 (len (f_payload f)); Ok (f_session_id f); u64 (f_generation f); u32 (f_sequence f); u16 (f_complete_len f); u8 (f_index f);
   u8 (f_count f); Ok (f_digest16 f); u32 (f_offset f); u32 0].

(** One turn of the loop that builds the packets. *)
Definition fragment_of (record : bytes) (count index : Z) : nar1 := {|
  f_session_id := slice 20 36 record; f_generation := be_val (slice 36 44 record); f_sequence := be_val (slice 44 48 record);
  f_complete_len := len record; f_index := index; f_count := count; f_digest16 := slice 0 16 (sha256 record);
  f_offset := index * NAR1_PAYLOAD_MAX; f_payload := slice (index * NAR1_PAYLOAD_MAX) (index * NAR1_PAYLOAD_MAX + NAR1_PAYLOAD_MAX) record |}.

Definition nar1_packet (f : nar1) : res bytes := seal_record crc32c 64 (nar1_parts f) (f_payload f).

Fixpoint nar1_packets (record : bytes) (count : Z) (indices : list Z) : res (list bytes) :=
  match indices with
  | [] => Ok []
  | index :: indices =>
      packet ← nar1_packet (fragment_of record count index);
      packets ← nar1_packets record count indices;
      mret (packet :: packets)
  end.

(** [range(count)]. *)
Definition indices (count : Z) : list Z := map Z.of_nat (seq 0 (Z.to_nat count)).

Definition fragment_nar1 (record : bytes) : res (list bytes) :=
  raise_if (negb (in_range NAC1_HEADER_BYTES NAC1_RECORD_MAX (len record))) (ValueError "NAR1 record length");;
  let count := (len record + NAR1_PAYLOAD_MAX - 1) / NAR1_PAYLOAD_MAX in
  raise_if (negb (in_range 1 NAR1_FRAGMENT_MAX count)) (ValueError "NAR1 fragment count");;
  nar1_packets record count (indices count).

Definition _nar1_parse (packet : bytes) : res nar1 :=
  raise_if (negb (in_range NAR1_HEADER_BYTES NAR1_PACKET_MAX (len packet))) (ValueError "NAR length");;
  raise_if (negb (bool_decide (slice 0 4 packet = bytes_of_string "NAR1")) || negb (byte_at 4 packet =? NAR1_PROFILE))
    (ValueError "NAR magic/profile");;
  raise_if (negb (byte_at 5 packet =? NAR1_VERSION) || negb (be_val (slice 6 8 packet) =? 68)) (ValueError "NAR version/header");;
  let total := be_val (slice 8 10 packet) in
  let payload_len := be_val (slice 10 12 packet) in
  raise_if (negb (total =? len packet) || negb (payload_len =? len packet - 68)) (ValueError "NAR lengths");;
  let stored_crc := be_val (slice 64 68 packet) in
  raise_if (negb (crc32c (slice_assign 64 68 (zeros 4) packet) =? stored_crc)) (ValueError "NAR crc");;
  let index := byte_at 42 packet in
  let count := byte_at 43 packet in
  let complete_len := be_val (slice 40 42 packet) in
  let offset := be_val (slice 60 64 packet) in
  raise_if (negb (in_range 1 5 count) || (count <=? index)) (ValueError "NAR index/count");;
  raise_if (negb (offset =? index * NAR1_PAYLOAD_MAX)) (ValueError "NAR gap/overlap");;
  raise_if ((index + 1 <? count) && negb (payload_len =? NAR1_PAYLOAD_MAX)) (ValueError "NAR non-final length");;
  raise_if (complete_len <? offset + payload_len) (ValueError "NAR payload overrun");;
  raise_if ((index + 1 =? count) && negb (offset + payload_len =? complete_len)) (ValueError "NAR final gap");;
  mret {| f_session_id := slice 12 28 packet; f_generation := be_val (slice 28 36 packet); f_sequence := be_val (slice 36 40 packet);
          f_complete_len := complete_len; f_index := index; f_count := count; f_digest16 := slice 44 60 packet; f_offset := offset;
          f_payload := slice_from 68 packet |}.

(** ** Reassembly *)

(** The owner's key: the source locator and the [source_tuple] of a fragment. *)
Record owner := {
  o_source : bytes; o_session_id : bytes; o_generation : Z; o_sequence : Z; o_complete_len : Z; o_digest16 : bytes; o_count : Z }.
#[export] Instance owner_eq_dec : EqDecision owner.
Proof. solve_decision. Defined.

Definition owner_of (source : bytes) (f : nar1) : owner := {|
  o_source := source; o_session_id := f_session_id f; o_generation := f_generation f; o_sequence := f_sequence f;
  o_complete_len := f_complete_len f; o_digest16 := f_digest16 f; o_count := f_count f |}.

Record nar1_result := {
  outcome : string; reason : option string; progress_count : Z; duplicate_count : Z; published_bytes : Z;
  complete_sha256 : option string; transitions : list string }.

Record nar1_state := {
  owner_tuple : option owner; slots : gmap Z bytes; progress : Z; duplicates : Z; history : list string }.

Definition nar1_init : nar1_state := {| owner_tuple := None; slots := ∅; progress := 0; duplicates := 0; history := [] |}.

(** A result that publishes nothing. *)
Definition discarded (st : nar1_state) (result : string) (why : option string) (last : list string) : nar1_result := {|
  outcome := result; reason := why; progress_count := progress st; duplicate_count := duplicates st; published_bytes := 0;
  complete_sha256 := None; transitions := history st ++ last |}.

(** One packet: the run ends with a result, or goes on in a new state. *)
Definition nar1_step (source : bytes) (st : nar1_state) (packet : bytes) : res (nar1_result + nar1_state) :=
  match _nar1_parse packet with
  | Raise (ValueError error) => Ok (inl (discarded st "DISCARDED_MALFORMED" (Some error) ["MALFORMED_DISCARD"%string]))
  | Raise e => Raise e
  | Ok parsed =>
      let tuple_with_source := owner_of source parsed in
      let st := match owner_tuple st with
                | None => {| owner_tuple := Some tuple_with_source; slots := slots st; progress := progress st;
                             duplicates := duplicates st; history := history st ++ ["OWNER_ALLOCATED"%string] |}
                | Some _ => st
                end in
      if negb (bool_decide (owner_tuple st = Some tuple_with_source)) then
        Ok (inl (discarded st "DISCARDED_MIXED_TUPLE" None ["MIXED_TUPLE_DISCARD"%string]))
      else
        match slots st !! f_index parsed with
        | Some prior =>
            if bool_decide (prior = packet) then
              Ok (inr {| owner_tuple := owner_tuple st; slots := slots st; progress := progress st;
                         duplicates := duplicates st + 1; history := history st ++ ["DUPLICATE_NO_PROGRESS"%string] |})
            else Ok (inl (discarded st "DISCARDED_CONFLICTING_DUPLICATE" None ["CONFLICT_DISCARD"%string]))
        | None =>
            Ok (inr {| owner_tuple := owner_tuple st; slots := <[f_index parsed := packet]> (slots st); progress := progress st + 1;
                       duplicates := duplicates st; history := history st ++ ["PROGRESS_" +:+ pretty (progress st + 1)] |})
        end
  end.

Fixpoint nar1_run (source : bytes) (packets : list bytes) (st : nar1_state) : res (nar1_result + nar1_state) :=
  match packets with
  | [] => Ok (inr st)
  | packet :: packets =>
      r ← nar1_step source st packet;
      match r with
      | inl result => Ok (inl result)
      | inr st => nar1_run source packets st
      end
  end.

(** [[_nar1_parse(slots[index]) for index in ...]]. *)
Fixpoint parsed_slots (slots : gmap Z bytes) (wanted : list Z) : res (list nar1) :=
  match wanted with
  | [] => Ok []
  | index :: wanted =>
      packet ← match slots !! index with Some packet => Ok packet | None => Raise (KeyError (pretty index)) end;
      parsed ← _nar1_parse packet;
      rest ← parsed_slots slots wanted;
      mret (parsed :: rest)
  end.

(** What follows the loop, when every slot is filled. *)
Definition nar1_complete (st : nar1_state) (o : owner) : res nar1_result :=
  parsed ← parsed_slots (slots st) (indices (o_count o));
  let complete := concat (map f_payload parsed) in
  first ← match parsed with f :: _ => Ok f | [] => Raise IndexError end;
  if negb (len complete =? f_complete_len first) || negb (bool_decide (slice 0 16 (sha256 complete) = f_digest16 first)) then
    Ok (discarded st "DISCARDED_DIGEST_OR_LENGTH" None ["DIGEST_DISCARD"%string])
  else if negb (String.eqb (classify_nac1 complete) STATUS_OK) || negb (bool_decide (slice 20 36 complete = f_session_id first)) ||
          negb (be_val (slice 36 44 complete) =? f_generation first) || negb (be_val (slice 44 48 complete) =? f_sequence first) then
    Ok (discarded st "DISCARDED_INNER_MISMATCH" None ["INNER_MISMATCH_DISCARD"%string])
  else
    Ok {| outcome := "COMPLETE"; reason := None; progress_count := progress st; duplicate_count := duplicates st;
          published_bytes := len complete; complete_sha256 := Some (hex_of (sha256 complete));
          transitions := history st ++ ["COMPLETE"%string] |}.

Definition run_nar1_reassembly (packets : list bytes) (source_locator_digest : bytes)
    (owner_source_locator_digest : option bytes) (timeout : bool) : res nar1_result :=
  raise_if (negb (len source_locator_digest =? 32)) (ValueError "source locator");;
  let expected_source := match owner_source_locator_digest with
                         | Some [] | None => source_locator_digest
                         | Some s => s
                         end in
  if negb (bool_decide (source_locator_digest = expected_source)) then
    Ok (discarded nar1_init "DISCARDED_SOURCE_MISMATCH" None ["SOURCE_MISMATCH_DISCARD"%string])
  else
    r ← nar1_run source_locator_digest packets nar1_init;
    match r with
    | inl result => Ok result
    | inr st =>
        match owner_tuple st with
        | None => Ok (discarded st "INCOMPLETE" None [])
        | Some o =>
            if timeout && (progress st <? o_count o) then Ok (discarded st "DISCARDED_IDLE_TIMEOUT" None ["IDLE_TIMEOUT_DISCARD"%string])
            else if progress st <? o_count o then Ok (discarded st "INCOMPLETE" None [])
            else nar1_complete st o
        end
    end.

(** ** The packet codec *)

Definition nar1_ok (f : nar1) : Prop :=
  raw 16 (f_session_id f) /\ u64_ok (f_generation f) /\ u32_ok (f_sequence f) /\ u16_ok (f_complete_len f) /\
  1 <= f_count f <= 5 /\ 0 <= f_index f < f_count f /\ raw 16 (f_digest16 f) /\ f_offset f = f_index f * NAR1_PAYLOAD_MAX /\
  (bytes_ok (f_payload f) /\ len (f_payload f) <= NAR1_PAYLOAD_MAX) /\
  (f_index f + 1 < f_count f -> len (f_payload f) = NAR1_PAYLOAD_MAX) /\
  f_offset f + len (f_payload f) <= f_complete_len f /\
  (f_index f + 1 = f_count f -> f_offset f + len (f_payload f) = f_complete_len f).

Definition NAR1_WIDTHS : list Z := [4; 1; 1; 2; 2; 2; 16; 8; 4; 2; 1; 1; 16; 4; 4].

Lemma nar1_built f : nar1_ok f -> exists p, nar1_packet f = Ok p /\ sealed_record crc32c 64 (nar1_parts f) NAR1_WIDTHS (f_payload f) p /\
  Forall2 wide (nar1_parts f) NAR1_WIDTHS.
Proof.
  intros ([L1 B1] & Hg & Hq & Hc & Hn & Hi & [L2 B2] & Ho & [Bp Hp] & _). unfold u64_ok, u32_ok, u16_ok, NAR1_PAYLOAD_MAX in *.
  pose proof (len_nonneg (f_payload f)) as Np.
  assert (W : Forall2 wide (nar1_parts f) NAR1_WIDTHS) by (unfold nar1_parts, NAR1_WIDTHS; solve_wide).
  destruct (seal_record_Ok crc32c 64 (nar1_parts f) NAR1_WIDTHS (f_payload f) 14) as (p & E & H); try done; try lia.
  - unfold nar1_parts, NAR1_PROFILE, NAR1_VERSION, NAR1_HEADER_BYTES. solve_fine.
  - unfold nar1_parts. solve_sound.
  - by exists p.
Qed.

Lemma be_val_slice (m : bytes) a c n : bytes_ok m -> 0 <= a <= c -> c <= len m -> c - a = n -> 0 <= be_val (slice a c m) < 256 ^ n.
Proof. intros B Ha Hc <-. pose proof (be_val_bounds _ (bytes_ok_slice a c m B)) as H. by rewrite len_slice in H by lia. Qed.

(** A packet that parses is well formed, and is the packet of its fields. *)
Lemma parse_sound p f : bytes_ok p -> _nar1_parse p = Ok f -> nar1_ok f /\ nar1_packet f = Ok p.
Proof.
  intros Bp E. unfold _nar1_parse in E. cbv zeta in E. inv_res. bool_to_prop.
  rewrite ?decided_false, ?in_range_spec, ?negb_false_iff in *. unfold NAR1_HEADER_BYTES, NAR1_PACKET_MAX, NAR1_PAYLOAD_MAX, NAR1_VERSION, NAR1_PROFILE in *.
  match goal with |- nar1_ok ?x /\ _ => set (f := x) end.
  pose proof (byte_at_ok 42 p Bp) as B42. unfold is_byte in B42.
  pose proof (be_val_slice p 28 36 8 Bp ltac:(lia) ltac:(lia) eq_refl). pose proof (be_val_slice p 36 40 4 Bp ltac:(lia) ltac:(lia) eq_refl).
  pose proof (be_val_slice p 40 42 2 Bp ltac:(lia) ltac:(lia) eq_refl).
  assert (Lp : len (slice_from 68 p) = len p - 68) by (rewrite slice_from_slice, len_slice by lia; lia).
  assert (Hf : nar1_ok f).
  { unfold nar1_ok, f, u64_ok, u32_ok, u16_ok, NAR1_PAYLOAD_MAX. cbn. rewrite Lp.
    assert (V : forall x y, 0 <= x <= y -> y <= 68 -> raw (y - x) (slice x y p)) by (intros x y Hx Hy; split; [apply len_slice; lia | by apply bytes_ok_slice]).
    split; [exact (V 12 28 ltac:(lia) ltac:(lia))|]. split; [done|]. split; [done|]. split; [done|]. split; [lia|]. split; [lia|].
    split; [exact (V 44 60 ltac:(lia) ltac:(lia))|]. split; [lia|].
    split; [split; [rewrite slice_from_slice by lia; by apply bytes_ok_slice|] |]; [|split; [|split; [lia|]]]; lia. }
  split; [done|]. destruct (nar1_built f Hf) as (p' & E & H' & W). rewrite E. f_equal.
  apply (sealed_record_unique crc32c 64 (nar1_parts f) NAR1_WIDTHS (f_payload f)); try done.
  assert (L : total_width NAR1_WIDTHS = 68) by done. split; rewrite ?L; try done.
  - unfold f. cbn [f_payload]. lia.
  - rewrite <- L. apply join_of_reads; [repeat constructor; done | rewrite len_zeroed by lia; rewrite L; lia|].
    pose proof (zeroed_ok 64 p Bp) as Bz. assert (Lz : len (zeroed 64 p) = len p) by (apply len_zeroed; lia).
    assert (Hz : slice 64 68 (zeroed 64 p) = zeros 4) by (apply (slice_assign_read 64 68); rewrite ?len_zeros; lia).
    pose proof (byte_at_val 4 p ltac:(lia) : be_val (slice 4 5 p) = _). pose proof (byte_at_val 5 p ltac:(lia) : be_val (slice 5 6 p) = _).
    pose proof (byte_at_val 42 p ltac:(lia) : be_val (slice 42 43 p) = _). pose proof (byte_at_val 43 p ltac:(lia) : be_val (slice 43 44 p) = _).
    unfold nar1_parts, f, NAR1_PROFILE, NAR1_VERSION, NAR1_HEADER_BYTES.
    cbn [f_session_id f_generation f_sequence f_complete_len f_index f_count f_digest16 f_offset f_payload]. rewrite Lp.
    repeat (apply Forall2_cons_2; [|]); try apply Forall2_nil_2; cbn [fst snd];
      repeat match goal with |- context [start ?ns ?i] => let v := eval vm_compute in (start ns i) in change (start ns i) with v end;
      first
      [ (rewrite zeroed_other by lia; reflexivity)
      | (rewrite zeroed_other by lia; f_equal; done)
      | (rewrite Hz; reflexivity)
      | (apply pack_of_read; rewrite ?Lz; try done; try lia; rewrite zeroed_other by lia; lia) ].
Qed.

Lemma parse_complete f p : nar1_ok f -> nar1_packet f = Ok p -> bytes_ok p /\ _nar1_parse p = Ok f.
Proof.
  intros Hf E. destruct (nar1_built f Hf) as (p' & E' & H & W). rewrite E in E'. apply Ok_inj in E' as <-.
  pose proof (sr_bytes _ _ _ _ _ _ H) as Bp. split; [done|].
  pose proof (sr_len _ _ _ _ _ _ H) as L. change (total_width NAR1_WIDTHS) with 68 in L. pose proof (len_nonneg (f_payload f)) as Np.
  pose proof (sr_payload _ _ _ _ _ _ H) as P. change (total_width NAR1_WIDTHS) with 68 in P.
  pose proof (sr_sealed _ _ _ _ _ _ H) as Sl. unfold sealed in Sl. change (64 + 4) with 68 in Sl.
  destruct Hf as (_ & _ & _ & _ & Hn & Hi & _ & Ho & [_ Hp] & Hmid & Hle & Hend). unfold NAR1_PAYLOAD_MAX in *.
  sealed_reads crc32c W H 14%nat.
  repeat match goal with
  | K : Ok ?v = Ok (slice ?x ?y p) |- _ => apply Ok_inj in K
  | K : _ ?v = Ok (slice ?x ?y p) |- _ => apply pack_val in K
  end.
  pose proof (byte_at_val 4 p ltac:(lia) : be_val (slice 4 5 p) = _). pose proof (byte_at_val 5 p ltac:(lia) : be_val (slice 5 6 p) = _).
  pose proof (byte_at_val 42 p ltac:(lia) : be_val (slice 42 43 p) = _). pose proof (byte_at_val 43 p ltac:(lia) : be_val (slice 43 44 p) = _).
  assert (R4 : byte_at 4 p = 18) by (unfold NAR1_PROFILE in *; lia). assert (R5 : byte_at 5 p = 1) by (unfold NAR1_VERSION in *; lia).
  assert (R42 : byte_at 42 p = f_index f) by lia. assert (R43 : byte_at 43 p = f_count f) by lia.
  assert (R8 : be_val (slice 8 10 p) = len p) by (unfold NAR1_HEADER_BYTES in *; lia).
  assert (R10 : be_val (slice 10 12 p) = len p - 68) by lia. assert (R6 : be_val (slice 6 8 p) = 68) by (unfold NAR1_HEADER_BYTES in *; lia).
  unfold _nar1_parse, NAR1_HEADER_BYTES, NAR1_PACKET_MAX, NAR1_PAYLOAD_MAX, NAR1_PROFILE, NAR1_VERSION. cbv zeta.
  rewrite R4, R5, R6, R8, R10, R42, R43, <- Sl, !Z.eqb_refl. rewrite bool_decide_eq_true_2 by congruence.
  repeat match goal with K : be_val (slice ?x ?y p) = ?v |- context [be_val (slice ?x ?y p)] => rewrite K end.
  rewrite (proj2 (in_range_spec 68 192 _)), (proj2 (in_range_spec 1 5 _)) by lia. rewrite Ho, Z.eqb_refl.
  rewrite !raise_if_skip; try done.
  - cbn. f_equal. destruct f. cbn in *. f_equal; congruence.
  - apply andb_false_iff. destruct (Z.eqb_spec (f_index f + 1) (f_count f)); [right; apply negb_false_iff, Z.eqb_eq; lia | by left].
  - apply Z.ltb_ge. lia.
  - apply andb_false_iff. destruct (Z.ltb_spec (f_index f + 1) (f_count f)); [right; apply negb_false_iff, Z.eqb_eq; lia | by left].
  - cbn. apply Z.leb_gt. lia.
Qed.

(** Parsing never raises anything but a [ValueError]. *)
Lemma parse_total p : (exists f, _nar1_parse p = Ok f) \/ exists m, _nar1_parse p = Raise (ValueError m).
Proof.
  unfold _nar1_parse. cbv zeta. repeat match goal with |- context [raise_if ?c ?e ;; _] => destruct c; [right; eexists; reflexivity|]; cbn [raise_if]; rewrite ?ok_bind end.
  left. by eexists.
Qed.

(** Parsing a NAR1 packet and building one are inverse: a byte string parses to the
    fields [f] when, and only when, [f] is well formed and the string is the packet of
    [f]; and parsing anything else reports a malformed packet, nothing worse. *)
Theorem nar1_parse_exact p :
  bytes_ok p ->
  (forall f, _nar1_parse p = Ok f <-> nar1_ok f /\ nar1_packet f = Ok p) /\
  ((exists f, _nar1_parse p = Ok f) \/ exists m, _nar1_parse p = Raise (ValueError m)).
Proof.
  intros Bp. split; [|apply parse_total]. intros f. split; [by apply parse_sound|]. intros [Hf E]. by apply (parse_complete f p).
Qed.

(** ** The owner's state *)

(** The packets parse, belong to one owner, and no two of them claim one index with
    different bytes. *)
Definition consistent (source : bytes) (ps : list bytes) : Prop :=
  forall p q, p ∈ ps -> q ∈ ps -> exists f g, _nar1_parse p = Ok f /\ _nar1_parse q = Ok g /\
    owner_of source f = owner_of source g /\ (f_index f = f_index g -> p = q).

(** The state after the packets [ps]. *)
Record represents (source : bytes) (ps : list bytes) (st : nar1_state) : Prop := {
  rp_consistent : consistent source ps;
  rp_owner : forall p f, p ∈ ps -> _nar1_parse p = Ok f -> owner_tuple st = Some (owner_of source f);
  rp_empty : ps = [] -> owner_tuple st = None;
  rp_slots : forall i p, slots st !! i = Some p <-> p ∈ ps /\ exists f, _nar1_parse p = Ok f /\ f_index f = i;
  rp_progress : progress st = Z.of_nat (size (slots st));
  rp_count : progress st + duplicates st = len ps }.

Lemma represents_init source : represents source [] nar1_init.
Proof.
  split; try done.
  - intros p q H. by apply elem_of_nil in H.
  - intros p f H. by apply elem_of_nil in H.
  - intros i p. cbn. rewrite lookup_empty. split; [done|]. intros [H _]. by apply elem_of_nil in H.
Qed.

Lemma consistent_app source ps qs : consistent source (ps ++ qs) -> consistent source ps.
Proof. intros H p q Hp Hq. apply H; apply elem_of_app; auto. Qed.

(** Nothing published. *)
Definition silent (r : nar1_result) : Prop := outcome r <> "COMPLETE"%string /\ published_bytes r = 0 /\ complete_sha256 r = None.

(** A new packet that agrees with the others. *)
Lemma consistent_snoc source ps p f :
  consistent source ps -> _nar1_parse p = Ok f ->
  (forall q g, q ∈ ps -> _nar1_parse q = Ok g -> owner_of source g = owner_of source f /\ (f_index g = f_index f -> q = p)) ->
  consistent source (ps ++ [p]).
Proof.
  intros C E H x y Hx Hy. apply elem_of_app in Hx, Hy.
  assert (S : forall q, q ∈ ps -> exists g, _nar1_parse q = Ok g) by (intros q Hq; destruct (C q q Hq Hq) as (g & _ & Eg & _); by exists g).
  destruct Hx as [Hx|Hx], Hy as [Hy|Hy]; rewrite ?list_elem_of_singleton in *; subst.
  - by apply C.
  - destruct (S x Hx) as [g Eg]. destruct (H x g Hx Eg). by exists g, f.
  - destruct (S y Hy) as [g Eg]. destruct (H y g Hy Eg) as [Ho Hi]. exists f, g. split_and!; try done. intros Ei. symmetry. by apply Hi.
  - by exists f, f.
Qed.

Lemma nar1_step_spec source ps st p :
  represents source ps st ->
  match nar1_step source st p with
  | Raise _ => False
  | Ok (inl r) => silent r /\ ~ consistent source (ps ++ [p])
  | Ok (inr st') => represents source (ps ++ [p]) st'
  end.
Proof.
  intros [C O Em Sl Pr Ct]. unfold nar1_step. assert (Hin : p ∈ ps ++ [p]) by set_solver.
  destruct (parse_total p) as [[f E]|[m E]]; rewrite E.
  2: { split; [done|]. intros H. destruct (H p p Hin Hin) as (f & _ & Ef & _). congruence. }
  set (st1 := match owner_tuple st with None => _ | Some _ => st end).
  assert (H1 : slots st1 = slots st /\ progress st1 = progress st /\ duplicates st1 = duplicates st) by (unfold st1; destruct (owner_tuple st); auto).
  destruct H1 as (S1 & P1 & D1).
  assert (Hown : forall q g, q ∈ ps -> _nar1_parse q = Ok g -> owner_tuple st1 = Some (owner_of source g)).
  { intros q g Hq Eg. pose proof (O q g Hq Eg) as K. unfold st1. rewrite K. exact K. }
  case_bool_decide as Ho; cbn [negb].
  2: { split; [done|]. intros H. destruct ps as [|q ps].
       - apply Ho. pose proof (Em eq_refl) as K. unfold st1. by rewrite K.
       - destruct (H p q Hin ltac:(set_solver)) as (f' & g & Ef & Eg & Eo & _). rewrite E in Ef. apply Ok_inj in Ef as <-.
         apply Ho. rewrite (Hown q g ltac:(set_solver) Eg). by rewrite Eo. }
  assert (Hsame : forall q g, q ∈ ps -> _nar1_parse q = Ok g -> owner_of source g = owner_of source f) by (intros q g Hq Eg; pose proof (Hown q g Hq Eg); congruence).
  assert (Howner' : forall q g, q ∈ ps ++ [p] -> _nar1_parse q = Ok g -> owner_tuple st1 = Some (owner_of source g)).
  { intros q g Hq Eg. apply elem_of_app in Hq as [Hq|Hq%list_elem_of_singleton]; [by apply (Hown q)|]. subst q. congruence. }
  rewrite S1. destruct (slots st !! f_index f) as [prior|] eqn:Es.
  - apply Sl in Es as (Hp & g & Eg & Ei). case_bool_decide as Hpp.
    + subst prior. assert (Hps : forall q, q ∈ ps ++ [p] <-> q ∈ ps) by (intros q; set_solver).
      split; cbn [owner_tuple slots progress duplicates]; rewrite ?S1, ?P1, ?D1; try done.
      * intros x y Hx Hy. apply C; by apply Hps.
      * intros Hnil. by destruct ps.
      * intros i q. rewrite Sl, Hps. done.
      * rewrite len_app. change (len [p]) with 1. lia.
    + split; [done|]. intros H. destruct (H prior p ltac:(set_solver) Hin) as (g' & f' & Eg' & Ef' & _ & Hi).
      rewrite Eg in Eg'. rewrite E in Ef'. apply Ok_inj in Eg' as <-, Ef' as <-. by apply Hpp, Hi.
  - split; cbn [owner_tuple slots progress duplicates]; rewrite ?S1, ?P1, ?D1; try done.
    + apply (consistent_snoc source ps p f C E). intros q g Hq Eg. split; [by apply (Hsame q)|]. intros Ei. exfalso.
      assert (slots st !! f_index f = Some q) by (apply Sl; split; [done|]; by exists g). congruence.
    + intros Hnil. by destruct ps.
    + intros i q. destruct (decide (i = f_index f)) as [->|Hi].
      * rewrite lookup_insert_eq. split.
        -- intros [= <-]. split; [done|]. by exists f.
        -- intros (Hq & g & Eg & Ei). f_equal. apply elem_of_app in Hq as [Hq|Hq%list_elem_of_singleton]; [|done]. exfalso.
           assert (slots st !! f_index f = Some q) by (apply Sl; split; [done|]; by exists g). congruence.
      * rewrite lookup_insert_ne by done. rewrite Sl. split.
        -- intros (Hq & g & Eg & Ei). split; [set_solver|]. by exists g.
        -- intros (Hq & g & Eg & Ei). apply elem_of_app in Hq as [Hq|Hq%list_elem_of_singleton]; [split; [done|]; by exists g|].
           subst q. congruence.
    + rewrite map_size_insert_None by done. lia.
    + rewrite len_app. change (len [p]) with 1. lia.
Qed.

Lemma nar1_run_spec source packets ps st :
  represents source ps st ->
  match nar1_run source packets st with
  | Raise _ => False
  | Ok (inl r) => silent r /\ ~ consistent source (ps ++ packets)
  | Ok (inr st') => represents source (ps ++ packets) st'
  end.
Proof.
  revert ps st. induction packets as [|p packets IH]; intros ps st H; cbn [nar1_run]; [by rewrite app_nil_r|].
  pose proof (nar1_step_spec source ps st p H) as Hs. destruct (nar1_step source st p) as [[r|st']|e]; [| |done]; rewrite ok_bind.
  - destruct Hs as [Hr Hn]. split; [done|]. intros C. apply Hn. apply (consistent_app source _ packets). by rewrite <- app_assoc.
  - specialize (IH _ _ Hs). rewrite <- app_assoc in IH. exact IH.
Qed.

(** ** Pieces of a record *)

Definition piece (record : bytes) (i : Z) : bytes := slice (i * NAR1_PAYLOAD_MAX) (i * NAR1_PAYLOAD_MAX + NAR1_PAYLOAD_MAX) record.

(** The number of fragments is right: all but the last are full. *)
Definition fits (count : Z) (record : bytes) : Prop :=
  1 <= count <= 5 /\ (count - 1) * NAR1_PAYLOAD_MAX <= len record <= count * NAR1_PAYLOAD_MAX.

Lemma slice_ge {A} (l : list A) n : len l <= n -> slice 0 n l = l.
Proof. intros H. unfold slice. cbn. apply take_ge. unfold len in H. lia. Qed.

Lemma len_piece record i : 0 <= i -> len (piece record i) = Z.max 0 (Z.min NAR1_PAYLOAD_MAX (len record - i * NAR1_PAYLOAD_MAX)).
Proof.
  intros Hi. unfold piece, slice, NAR1_PAYLOAD_MAX, len. rewrite length_take, length_drop. lia.
Qed.

Lemma concat_pieces record (n : nat) :
  concat (map (fun i => piece record (Z.of_nat i)) (seq 0 n)) = slice 0 (Z.of_nat n * NAR1_PAYLOAD_MAX) record.
Proof.
  induction n as [|n IH]; [done|]. rewrite seq_S, map_app, concat_app, IH. cbn [map concat Nat.add]. rewrite app_nil_r.
  unfold piece, NAR1_PAYLOAD_MAX. rewrite <- (slice_split 0) by lia. f_equal. lia.
Qed.

(** The other way round: full pieces but the last are found again in their concatenation. *)
Lemma pieces_of (ls : list bytes) (i : nat) l :
  (forall j x, ls !! j = Some x -> len x <= NAR1_PAYLOAD_MAX /\ ((S j < length ls)%nat -> len x = NAR1_PAYLOAD_MAX)) ->
  ls !! i = Some l -> piece (concat ls) (Z.of_nat i) = l.
Proof.
  unfold piece, NAR1_PAYLOAD_MAX. revert i. induction ls as [|x ls IH]; intros i H Hi; [done|]. cbn [concat].
  assert (H' : forall j y, ls !! j = Some y -> len y <= 124 /\ ((S j < length ls)%nat -> len y = 124)).
  { intros j y Hj. destruct (H (S j) y Hj) as [H1 H2]. split; [done|]. intros Hlt. apply H2. cbn. lia. }
  destruct (H 0%nat x eq_refl) as [Hx Hx']. cbn [length] in Hx'. destruct i as [|i]; cbn in Hi.
  - injection Hi as <-. cbn [Z.of_nat Z.mul Z.add]. destruct ls as [|y ls]; cbn [concat].
    + rewrite app_nil_r. by apply slice_ge.
    + apply slice_app_exact. symmetry. apply Hx'. cbn. lia.
  - assert (Lx : len x = 124) by (apply Hx'; apply lookup_lt_Some in Hi; lia).
    rewrite slice_app_r by lia. rewrite <- (IH i H' Hi). f_equal; lia.
Qed.

Lemma len_concat (ls : list bytes) :
  (forall j x, ls !! j = Some x -> len x <= NAR1_PAYLOAD_MAX /\ ((S j < length ls)%nat -> len x = NAR1_PAYLOAD_MAX)) ->
  forall k l, ls !! k = Some l -> S k = length ls -> len (concat ls) = Z.of_nat k * NAR1_PAYLOAD_MAX + len l.
Proof.
  unfold NAR1_PAYLOAD_MAX. induction ls as [|x ls IH]; intros H k l Hk Hl; [done|]. cbn [concat]. rewrite len_app.
  destruct (H 0%nat x eq_refl) as [_ Hx]. cbn [length] in *. destruct k as [|k]; cbn in Hk.
  - injection Hk as <-. destruct ls; [cbn; rewrite len_nil; lia | cbn in Hl; lia].
  - rewrite (IH ltac:(intros j y Hj; destruct (H (S j) y Hj) as [H1 H2]; split; [done|]; intros; apply H2; lia) k l Hk ltac:(lia)).
    rewrite Hx by (apply lookup_lt_Some in Hk; lia). lia.
Qed.

Lemma fragment_ok record count i : bytes_ok record -> NAC1_HEADER_BYTES <= len record <= NAC1_RECORD_MAX -> fits count record ->
  0 <= i < count -> nar1_ok (fragment_of record count i).
Proof.
  intros Br Hl [Hc Hf] Hi. unfold NAC1_HEADER_BYTES, NAC1_RECORD_MAX in Hl. unfold nar1_ok, fragment_of, u64_ok, u32_ok, u16_ok.
  cbn [f_session_id f_generation f_sequence f_complete_len f_index f_count f_digest16 f_offset f_payload].
  fold (piece record i). rewrite len_piece by lia. unfold NAR1_PAYLOAD_MAX in *.
  pose proof (digest_len (h := sha256) record) as Ld. pose proof (digest_ok (h := sha256) record) as Bd.
  split; [split; [apply len_slice; lia | by apply bytes_ok_slice]|]. split; [apply (be_val_slice record 36 44 8); done || lia|].
  split; [apply (be_val_slice record 44 48 4); done || lia|]. split; [lia|]. split; [lia|]. split; [lia|].
  split; [split; [apply len_slice; lia | by apply bytes_ok_slice]|]. split; [lia|].
  split; [split; [by apply bytes_ok_slice | lia] |]. split; [lia|]. split; lia.
Qed.

(** The packets are the fragments of an accepted record, in any order and with any
    repetitions, and each of them is there. *)
Definition carried (record : bytes) (count : Z) (packets : list bytes) : Prop :=
  classify_nac1 record = STATUS_OK /\ bytes_ok record /\ fits count record /\
  forall p, p ∈ packets <-> exists i, 0 <= i < count /\ nar1_packet (fragment_of record count i) = Ok p.

Lemma accepted_size r : classify_nac1 r = STATUS_OK -> NAC1_HEADER_BYTES <= len r <= NAC1_RECORD_MAX.
Proof. intros H. apply classify_OK in H as [[H _ _ _ _ _] _ _ _ _ _ _ _ _ _ _]. exact H. Qed.

(** Each fragment is there, and parses. *)
Lemma carried_packet record count packets i :
  carried record count packets -> 0 <= i < count ->
  exists p, p ∈ packets /\ nar1_packet (fragment_of record count i) = Ok p /\ _nar1_parse p = Ok (fragment_of record count i).
Proof.
  intros (Hc & Br & Hf & Hp) Hi. pose proof (fragment_ok record count i Br (accepted_size _ Hc) Hf Hi) as Ho.
  destruct (nar1_built _ Ho) as (p & E & _). exists p. split; [apply Hp; by exists i|]. split; [done|]. by apply (parse_complete _ p Ho).
Qed.

Lemma carried_parse record count packets p f :
  carried record count packets -> p ∈ packets -> _nar1_parse p = Ok f -> exists i, 0 <= i < count /\ f = fragment_of record count i /\ nar1_packet f = Ok p.
Proof.
  intros Hcar Hp E. assert (H := Hcar). destruct H as (Hc & Br & Hf & H). apply H in Hp as (i & Hi & Ep).
  pose proof (fragment_ok record count i Br (accepted_size _ Hc) Hf Hi) as Ho.
  destruct (parse_complete _ p Ho Ep) as [_ E']. rewrite E in E'. apply Ok_inj in E' as ->. by exists i.
Qed.

Lemma carried_consistent source record count packets : carried record count packets -> consistent source packets.
Proof.
  intros Hcar p q Hp Hq.
  assert (G : forall x, x ∈ packets -> exists i, 0 <= i < count /\ _nar1_parse x = Ok (fragment_of record count i) /\ nar1_packet (fragment_of record count i) = Ok x).
  { intros x Hx. assert (H := Hcar). destruct H as (Hc & Br & Hf & H). apply H in Hx as (i & Hi & Ep). exists i. split; [done|]. split; [|done].
    by apply (parse_complete _ x (fragment_ok record count i Br (accepted_size _ Hc) Hf Hi)). }
  destruct (G p Hp) as (i & Hi & E1 & P1), (G q Hq) as (j & Hj & E2 & P2).
  exists (fragment_of record count i), (fragment_of record count j). split_and!; try done. cbn. intros ->. congruence.
Qed.

(** ** The filled owner *)

Lemma elem_of_indices count i : i ∈ indices count <-> 0 <= i < count.
Proof.
  unfold indices. rewrite list_elem_of_fmap. split.
  - intros (k & -> & Hk). apply elem_of_seq in Hk. lia.
  - intros Hi. exists (Z.to_nat i). split; [lia|]. apply elem_of_seq. lia.
Qed.

Lemma size_indices count : 0 <= count -> Z.of_nat (size (list_to_set (indices count) : gset Z)) = count.
Proof.
  intros H. rewrite size_list_to_set.
  - unfold indices. rewrite length_map, length_seq. lia.
  - unfold indices. apply NoDup_fmap_2; [intros ???; lia | apply NoDup_seq].
Qed.

Lemma parsed_slots_spec (m : gmap Z bytes) wanted :
  (forall i, i ∈ wanted -> exists p f, m !! i = Some p /\ _nar1_parse p = Ok f) ->
  exists fs, parsed_slots m wanted = Ok fs /\ Forall2 (fun i f => exists p, m !! i = Some p /\ _nar1_parse p = Ok f) wanted fs.
Proof.
  induction wanted as [|i wanted IH]; intros H; cbn [parsed_slots]; [by exists []|].
  destruct (H i ltac:(set_solver)) as (p & f & E1 & E2). destruct IH as (fs & E & F); [set_solver|].
  rewrite E1, ok_bind, E2, ok_bind, E, ok_bind. exists (f :: fs). split; [done|]. constructor; [by exists p | done].
Qed.

Section Filled.
Context (source : bytes) (packets : list bytes) (st : nar1_state) (o : owner).
Hypothesis (R : represents source packets st) (B : Forall bytes_ok packets) (Ho : owner_tuple st = Some o).

Lemma slot_facts i p : slots st !! i = Some p ->
  p ∈ packets /\ exists f, _nar1_parse p = Ok f /\ nar1_ok f /\ nar1_packet f = Ok p /\ f_index f = i /\ owner_of source f = o.
Proof using R B Ho.
  intros E. apply (rp_slots _ _ _ R) in E as (Hp & f & Ef & Ei). split; [done|]. exists f.
  rewrite Forall_forall in B. destruct (parse_sound p f (B p Hp) Ef) as [H1 H2]. split_and!; try done.
  pose proof (rp_owner _ _ _ R p f Hp Ef). congruence.
Qed.

Lemma owner_count : 1 <= o_count o <= 5.
Proof using R B Ho.
  destruct packets as [|p ps] eqn:Hps; [by rewrite (rp_empty _ _ _ R eq_refl) in Ho|].
  destruct (rp_consistent _ _ _ R p p) as (f & _ & Ef & _); [set_solver..|].
  assert (Hp : p ∈ packets) by (rewrite Hps; set_solver). rewrite Forall_forall in B.
  destruct (parse_sound p f (B p ltac:(set_solver)) Ef) as [(_ & _ & _ & _ & Hc & _) _].
  pose proof (rp_owner _ _ _ R p f ltac:(set_solver) Ef) as E. rewrite Ho in E. injection E as ->. exact Hc.
Qed.

Lemma slot_index i p : slots st !! i = Some p -> 0 <= i < o_count o.
Proof using R B Ho. intros E. destruct (slot_facts i p E) as (_ & f & _ & (_ & _ & _ & _ & _ & Hi & _) & _ & <- & <-). exact Hi. Qed.

Lemma slots_filled : progress st <= o_count o /\ (o_count o <= progress st <-> forall i, 0 <= i < o_count o -> is_Some (slots st !! i)).
Proof using R B Ho.
  pose proof owner_count as Hc. pose proof (size_indices (o_count o) ltac:(lia)) as Hs. set (Y := list_to_set (indices (o_count o)) : gset Z) in *.
  assert (Hsub : dom (slots st) ⊆ Y).
  { intros i Hi. apply elem_of_dom in Hi as [p Hp]. unfold Y. rewrite elem_of_list_to_set, elem_of_indices. by eapply slot_index. }
  pose proof (subseteq_size _ _ Hsub) as Hle. rewrite size_dom in Hle. rewrite (rp_progress _ _ _ R). split; [lia|]. split.
  - intros Hge i Hi. apply elem_of_dom. assert (E : dom (slots st) = Y).
    { apply set_subseteq_size_eq; [done|]. rewrite size_dom. lia. }
    rewrite E. unfold Y. by rewrite elem_of_list_to_set, elem_of_indices.
  - intros H. assert (Hsub' : Y ⊆ dom (slots st)).
    { intros i Hi. unfold Y in Hi. rewrite elem_of_list_to_set, elem_of_indices in Hi. by apply elem_of_dom, H. }
    apply subseteq_size in Hsub'. rewrite size_dom in Hsub'. lia.
Qed.

(** With every slot filled, the fragments in order. *)
Section Full.
Hypothesis full : forall i, 0 <= i < o_count o -> is_Some (slots st !! i).

Definition in_slots (fs : list nar1) : Prop :=
  Z.of_nat (length fs) = o_count o /\
  forall k f, fs !! k = Some f -> f_index f = Z.of_nat k /\ owner_of source f = o /\ nar1_ok f /\
    exists p, slots st !! Z.of_nat k = Some p /\ _nar1_parse p = Ok f /\ nar1_packet f = Ok p.

Lemma fragments_parsed : exists fs, parsed_slots (slots st) (indices (o_count o)) = Ok fs /\ in_slots fs.
Proof using R B Ho full.
  pose proof (owner_count) as Hc. destruct (parsed_slots_spec (slots st) (indices (o_count o))) as (fs & E & F).
  { intros i Hi. apply elem_of_indices in Hi. destruct (full i Hi) as [p Hp]. destruct (slot_facts i p Hp) as (_ & f & Ef & _). by exists p, f. }
  exists fs. split; [done|]. pose proof (Forall2_length _ _ _ F) as L. unfold indices in L. rewrite length_map, length_seq in L. split; [lia|].
  intros k f Hk. destruct (Forall2_lookup_r _ _ _ _ _ F Hk) as (i & Hi & p & Hp & Ef).
  unfold indices in Hi. rewrite list_lookup_fmap in Hi. apply fmap_Some in Hi as (k' & Hk' & ->). apply lookup_seq in Hk' as [-> _]. cbn in *.
  destruct (slot_facts _ p Hp) as (_ & f' & Ef' & Hok & Hpk & Hi' & Ho'). rewrite Ef in Ef'. apply Ok_inj in Ef' as <-.
  split_and!; try done. by exists p.
Qed.

Lemma payload_widths fs :
  in_slots fs ->
  forall j x, map f_payload fs !! j = Some x -> len x <= NAR1_PAYLOAD_MAX /\ ((S j < length (map f_payload fs))%nat -> len x = NAR1_PAYLOAD_MAX).
Proof using Type.
  intros [L H] j x Hx. rewrite list_lookup_fmap in Hx. apply fmap_Some in Hx as (f & Hf & ->). destruct (H j f Hf) as (Hi & Hof & Hok & _).
  destruct Hok as (_ & _ & _ & _ & _ & _ & _ & _ & [_ Hp] & Hmid & _). split; [done|]. rewrite length_map. intros Hj. apply Hmid.
  assert (f_count f = o_count o) by (by rewrite <- Hof). lia.
Qed.

(** The length of what the fragments hold, and each fragment as a piece of it. *)
Lemma assembled fs (record := concat (map f_payload fs)) :
  in_slots fs ->
  len record = o_complete_len o /\ fits (o_count o) record /\ (forall k f, fs !! k = Some f -> f_payload f = piece record (Z.of_nat k)).
Proof using R B Ho.
  intros Hin. pose proof owner_count as Hc. pose proof (payload_widths fs Hin) as Hw. destruct Hin as [L H].
  destruct (fs !! (length fs - 1)%nat) as [f|] eqn:Ef; [|apply lookup_ge_None in Ef; lia].
  destruct (H _ f Ef) as (Hi & Hof & Hok & _). assert (Hcf : f_count f = o_count o) by (by rewrite <- Hof).
  assert (Hlf : f_complete_len f = o_complete_len o) by (by rewrite <- Hof).
  assert (Hlast : map f_payload fs !! (length fs - 1)%nat = Some (f_payload f)) by (by rewrite list_lookup_fmap, Ef).
  pose proof (len_concat (map f_payload fs) Hw _ _ Hlast ltac:(rewrite length_map; lia)) as Lr. fold record in Lr.
  destruct Hok as (_ & _ & _ & _ & _ & _ & _ & Hoff & [_ Hp] & _ & _ & Hend). pose proof (len_nonneg (f_payload f)).
  unfold fits, NAR1_PAYLOAD_MAX in *. split; [|split; [lia|]]; [rewrite <- Hlf; rewrite <- Hend by lia; lia|].
  intros k g Hg. symmetry. apply pieces_of; [exact Hw|]. by rewrite list_lookup_fmap, Hg.
Qed.

(** Whoever carries the packets is the assembled record. *)
Lemma assembled_unique fs record' count' :
  in_slots fs -> carried record' count' packets ->
  record' = concat (map f_payload fs) /\ count' = o_count o /\ forall k f, fs !! k = Some f -> f = fragment_of record' count' (Z.of_nat k).
Proof using R B Ho.
  intros [L H] Hcar. pose proof owner_count as Hc.
  assert (G : forall k f, fs !! k = Some f -> f = fragment_of record' count' (Z.of_nat k)).
  { intros k f Hk. destruct (H k f Hk) as (Hi & _ & _ & p & Hp & Ef & _). destruct (slot_facts _ _ Hp) as (Hin & _).
    destruct (carried_parse _ _ _ _ _ Hcar Hin Ef) as (i & _ & -> & _). cbn in Hi. by subst i. }
  destruct (fs !! 0%nat) as [first|] eqn:H0; [|apply lookup_ge_None in H0; lia].
  assert (Ec : count' = o_count o) by (destruct (H _ _ H0) as (_ & Hof & _); pose proof (G _ _ H0) as K; rewrite <- Hof, K; done).
  split; [|done]. destruct Hcar as (Hok & _ & [_ Hfit'] & _). subst count'.
  assert (Em : map f_payload fs = map (fun i => piece record' (Z.of_nat i)) (seq 0 (length fs))).
  { apply list_eq. intros k. rewrite !list_lookup_fmap. destruct (fs !! k) as [f|] eqn:Ek.
    - rewrite lookup_seq_lt by (by eapply lookup_lt_Some). cbn. by rewrite (G k f Ek).
    - rewrite lookup_seq_ge by (by apply lookup_ge_None). done. }
  rewrite Em, concat_pieces, L. symmetry. apply slice_ge. lia.
Qed.

(** The assembled record carries the packets when its digest and its header agree with
    the first fragment. *)
Lemma assembled_carried fs first (record := concat (map f_payload fs)) :
  in_slots fs -> fs !! 0%nat = Some first -> slice 0 16 (sha256 record) = f_digest16 first -> classify_nac1 record = STATUS_OK ->
  slice 20 36 record = f_session_id first -> be_val (slice 36 44 record) = f_generation first ->
  be_val (slice 44 48 record) = f_sequence first -> carried record (o_count o) packets.
Proof using R B Ho.
  intros Hin H0 E1 E2 E3 E4 E5. destruct (assembled fs Hin) as (Lr & Hfit & Hpay). fold record in Lr, Hfit, Hpay. destruct Hin as [L H].
  assert (G : forall k f, fs !! k = Some f -> f = fragment_of record (o_count o) (Z.of_nat k)).
  { intros k f Hk. destruct (H k f Hk) as (Hi & Hof' & Hok & _), (H _ _ H0) as (_ & Hof & _). pose proof (Hpay k f Hk) as Hp.
    destruct Hok as (_ & _ & _ & _ & _ & _ & _ & Hoff & _). pose proof (f_equal o_count Hof'). pose proof (f_equal o_complete_len Hof'). rewrite <- Hof in Hof'. injection Hof' as I1 I2 I3 I4 I5 I6.
    unfold fragment_of. fold (piece record (Z.of_nat k)). destruct f. cbn in *. f_equal; congruence. }
  split; [done|]. split.
  { unfold record. apply bytes_ok_concat, Forall_lookup. intros k x Hk. rewrite list_lookup_fmap in Hk. apply fmap_Some in Hk as (f & Hf & ->).
    destruct (H k f Hf) as (_ & _ & (_ & _ & _ & _ & _ & _ & _ & _ & [Hb _] & _) & _). exact Hb. }
  split; [done|]. intros p. split.
  - intros Hp. destruct (rp_consistent _ _ _ R p p Hp Hp) as (f & _ & Ef & _).
    assert (Hs : slots st !! f_index f = Some p) by (apply (rp_slots _ _ _ R); split; [done|]; by exists f).
    pose proof (slot_index _ _ Hs) as Hi. destruct (slot_facts _ _ Hs) as (_ & f' & Ef' & _ & Hpk & _). rewrite Ef in Ef'. apply Ok_inj in Ef' as <-.
    exists (f_index f). split; [done|]. destruct (fs !! Z.to_nat (f_index f)) as [g|] eqn:Eg; [|apply lookup_ge_None in Eg; lia].
    pose proof (G _ _ Eg) as K. destruct (H _ _ Eg) as (_ & _ & _ & q & Hq & _ & Hqk). rewrite Z2Nat.id in Hq, K by lia.
    rewrite Hs in Hq. injection Hq as <-. congruence.
  - intros (i & Hi & Hpk). destruct (fs !! Z.to_nat i) as [g|] eqn:Eg; [|apply lookup_ge_None in Eg; lia].
    pose proof (G _ _ Eg) as K. destruct (H _ _ Eg) as (_ & _ & _ & q & Hq & _ & Hqk). rewrite Z2Nat.id in Hq, K by lia.
    rewrite K, Hpk in Hqk. apply Ok_inj in Hqk as ->. by apply (slot_facts i q).
Qed.

Lemma nar1_complete_spec : exists r, nar1_complete st o = Ok r /\
  (outcome r <> "COMPLETE"%string -> silent r /\ forall record count, ~ carried record count packets) /\
  (outcome r = "COMPLETE"%string -> exists record, carried record (o_count o) packets /\ published_bytes r = len record /\
     complete_sha256 r = Some (hex_of (sha256 record)) /\ progress_count r = progress st /\ duplicate_count r = duplicates st /\
     forall record' count', carried record' count' packets -> record' = record /\ count' = o_count o).
Proof using R B Ho full.
  destruct fragments_parsed as (fs & E & Hin). pose proof owner_count as Hc. assert (L := proj1 Hin).
  set (record := concat (map f_payload fs)).
  destruct (fs !! 0%nat) as [first|] eqn:H0; [|apply lookup_ge_None in H0; lia].
  assert (Hd : match fs with f :: _ => Ok f | [] => Raise IndexError end = Ok first) by (clear -H0; destruct fs; [done | by injection H0 as ->]).
  assert (U : forall record' count', carried record' count' packets -> record' = record /\ count' = o_count o /\ first = fragment_of record (o_count o) 0).
  { intros record' count' Hcar. destruct (assembled_unique fs _ _ Hin Hcar) as (-> & -> & G). split_and!; try done. exact (G _ _ H0). }
  unfold nar1_complete. rewrite E, ok_bind. cbv zeta. fold record. rewrite Hd, ok_bind.
  destruct (negb (len record =? f_complete_len first) || _) eqn:E1.
  { eexists. split; [done|]. split; [|done]. intros _. split; [done|]. intros record' count' Hcar.
    destruct (U _ _ Hcar) as (_ & _ & K). rewrite K in E1. cbn in E1. rewrite Z.eqb_refl, bool_decide_eq_true_2 in E1 by done. discriminate E1. }
  destruct (negb (String.eqb _ _) || _ || _ || _) eqn:E2.
  { eexists. split; [done|]. split; [|done]. intros _. split; [done|]. intros record' count' Hcar.
    destruct (U _ _ Hcar) as (<- & _ & K). destruct Hcar as (Hok & _). rewrite K, Hok in E2. cbn in E2.
    rewrite !Z.eqb_refl, bool_decide_eq_true_2 in E2 by done. discriminate E2. }
  eexists. split; [done|]. split; [done|]. intros _. bool_to_prop. rewrite ?decided_false in *. exists record.
  cbn [published_bytes complete_sha256 progress_count duplicate_count].
  split; [apply (assembled_carried fs first); try done; by apply String.eqb_eq|].
  split_and!; try done. intros r' c' Hcar. by destruct (U r' c' Hcar) as (? & ? & _).
Qed.
End Full.
End Filled.

(** ** Reassembly, exactly *)

(** The whole run, when the source is the expected one. *)
Lemma reassembly_spec packets source owner_source timeout :
  Forall bytes_ok packets -> len source = 32 -> owner_source = None \/ owner_source = Some [] \/ owner_source = Some source ->
  exists r, run_nar1_reassembly packets source owner_source timeout = Ok r /\
    (outcome r <> "COMPLETE"%string -> silent r /\ forall record count, ~ carried record count packets) /\
    (outcome r = "COMPLETE"%string -> exists record count, carried record count packets /\ published_bytes r = len record /\
       complete_sha256 r = Some (hex_of (sha256 record)) /\ progress_count r = count /\ progress_count r + duplicate_count r = len packets /\
       forall record' count', carried record' count' packets -> record' = record).
Proof.
  intros B Ls Hs. unfold run_nar1_reassembly. rewrite raise_if_skip by (by rewrite Ls).
  assert (Hexp : match owner_source with Some [] | None => source | Some s => s end = source).
  { destruct Hs as [->|[->| ->]]; try done. by destruct source. }
  cbv zeta. rewrite Hexp, bool_decide_eq_true_2 by done. cbn [negb].
  pose proof (nar1_run_spec source packets [] nar1_init (represents_init source)) as H. cbn [app] in H.
  destruct (nar1_run source packets nar1_init) as [[r|st]|e]; [| |done]; rewrite ok_bind.
  { destruct H as [Hr Hn]. exists r. split; [done|]. split; [|by intros E; destruct Hr as [Hr _]]. intros _. split; [done|].
    intros record count Hcar. by apply Hn, (carried_consistent source record count). }
  destruct (owner_tuple st) as [o|] eqn:Ho.
  2: { eexists. split; [done|]. split; [|done]. intros _. split; [done|]. intros record count Hcar.
       assert (Hc : 0 <= 0 < count) by (destruct Hcar as (_ & _ & [Hc _] & _); lia).
       destruct (carried_packet record count packets 0 Hcar Hc) as (p & Hp & _ & Ep). pose proof (rp_owner _ _ _ H p _ Hp Ep). congruence. }
  destruct (slots_filled source packets st o H B Ho) as [Hle Hfull].
  destruct (Z.ltb_spec (progress st) (o_count o)) as [Hlt|Hge].
  - assert (Hno : forall record count, ~ carried record count packets).
    { intros record count Hcar. assert (Hc : 0 <= 0 < count) by (destruct Hcar as (_ & _ & [Hc _] & _); lia).
      assert (Hco : o_count o = count).
      { destruct (carried_packet record count packets 0 Hcar Hc) as (p & Hp & _ & Ep). pose proof (rp_owner _ _ _ H p _ Hp Ep) as K. rewrite Ho in K. by injection K as ->. }
      assert (o_count o <= progress st); [|lia]. apply Hfull. intros i Hi. rewrite Hco in Hi.
      destruct (carried_packet record count packets i Hcar Hi) as (p & Hp & _ & Ep). exists p. apply (rp_slots _ _ _ H). split; [done|]. by eexists. }
    rewrite andb_true_r. destruct timeout; (eexists; split; [done|]; split; [|done]); intros _; by split.
  - rewrite andb_false_r. pose proof (proj1 Hfull Hge) as Full.
    destruct (nar1_complete_spec source packets st o H B Ho Full) as (r & E & Hn & Hy). exists r. split; [exact E|]. split; [exact Hn|].
    intros Hc. destruct (Hy Hc) as (record & Hcar & P1 & P2 & P3 & P4 & U). exists record, (o_count o).
    pose proof (rp_count _ _ _ H). split_and!; try done; [lia | lia|]. intros r' c' Hcar'. by apply (U r' c').
Qed.


(** Fragmenting an accepted record. *)
Lemma nar1_packets_spec record count ids :
  bytes_ok record -> NAC1_HEADER_BYTES <= len record <= NAC1_RECORD_MAX -> fits count record -> (forall i, i ∈ ids -> 0 <= i < count) ->
  exists ps, nar1_packets record count ids = Ok ps /\ len ps = len ids /\ Forall bytes_ok ps /\
    forall p, p ∈ ps <-> exists i, i ∈ ids /\ nar1_packet (fragment_of record count i) = Ok p.
Proof.
  intros Br Hl Hf. induction ids as [|i ids IH]; intros H; cbn [nar1_packets].
  { exists []. split; [done|]. split; [done|]. split; [constructor|]. intros p. set_solver. }
  pose proof (fragment_ok record count i Br Hl Hf (H i ltac:(set_solver))) as Ho. destruct (nar1_built _ Ho) as (p & E & _). rewrite E, ok_bind.
  destruct IH as (ps & Eps & L & B & Hps); [set_solver|]. rewrite Eps, ok_bind. exists (p :: ps). split; [done|].
  split; [rewrite !len_cons; lia|]. split; [constructor; [by apply (parse_complete _ p Ho) | done]|].
  intros q. rewrite elem_of_cons, Hps. split.
  - intros [->|(j & Hj & Ej)]; [exists i | exists j]; set_solver.
  - intros (j & [->|Hj]%elem_of_cons & Ej); [left; congruence | right; by exists j].
Qed.

Lemma canonical_count record : NAC1_HEADER_BYTES <= len record <= NAC1_RECORD_MAX -> fits ((len record + NAR1_PAYLOAD_MAX - 1) / NAR1_PAYLOAD_MAX) record.
Proof. unfold NAC1_HEADER_BYTES, NAC1_RECORD_MAX, fits, NAR1_PAYLOAD_MAX. intros H. Z.div_mod_to_equations. lia. Qed.

(** Fragmenting an accepted record and putting the fragments together gives it
    back: it has at most five fragments of at most 192 bytes, and every run over them,
    in any order, with duplicates, with or without a timeout, completes with the
    record's bytes and digest. *)
Theorem nar1_fragments_reassemble record :
  bytes_ok record -> classify_nac1 record = STATUS_OK ->
  exists ps, fragment_nar1 record = Ok ps /\ 1 <= len ps <= NAR1_FRAGMENT_MAX /\ Forall (fun p => len p <= NAR1_PACKET_MAX) ps /\
    forall packets source timeout, (forall p, p ∈ packets <-> p ∈ ps) -> len source = 32 ->
      exists r, run_nar1_reassembly packets source None timeout = Ok r /\ outcome r = "COMPLETE"%string /\
        published_bytes r = len record /\ complete_sha256 r = Some (hex_of (sha256 record)) /\
        progress_count r = len ps /\ duplicate_count r = len packets - len ps.
Proof.
  intros Br Hc. pose proof (accepted_size _ Hc) as Hl. pose proof (canonical_count record Hl) as Hf. set (count := (len record + _ - 1) / _) in *.
  destruct (nar1_packets_spec record count (indices count) Br Hl Hf) as (ps & E & L & B & Hps); [intros i; apply elem_of_indices|].
  assert (Hcnt := proj1 Hf). assert (Lps : len ps = count) by (rewrite L; unfold indices, len; rewrite length_map, length_seq; lia).
  exists ps. split.
  { unfold fragment_nar1. rewrite (proj2 (in_range_spec _ _ _) Hl), raise_if_skip by done. cbv zeta. fold count.
    rewrite (proj2 (in_range_spec 1 NAR1_FRAGMENT_MAX _) Hcnt), raise_if_skip by done. exact E. }
  split; [unfold NAR1_FRAGMENT_MAX; lia|]. split.
  { apply Forall_forall. intros p Hp. apply Hps in Hp as (i & Hi & Ep). apply elem_of_indices in Hi.
    pose proof (fragment_ok record count i Br Hl Hf Hi) as Ho. destruct (nar1_built _ Ho) as (q & Eq & Hq & _). rewrite Ep in Eq. apply Ok_inj in Eq as <-.
    rewrite (sr_len _ _ _ _ _ _ Hq). change (total_width NAR1_WIDTHS) with 68. destruct Ho as (_ & _ & _ & _ & _ & _ & _ & _ & [_ Hp'] & _).
    unfold NAR1_PACKET_MAX, NAR1_PAYLOAD_MAX in *. lia. }
  intros packets source timeout Hsame Ls. assert (Hcar : carried record count packets).
  { split; [done|]. split; [done|]. split; [done|]. intros p. rewrite Hsame, Hps. split; intros (i & Hi & Ep); exists i; (split; [by apply elem_of_indices|done]). }
  assert (Bp : Forall bytes_ok packets) by (apply Forall_forall; intros p Hp; apply Hsame in Hp; rewrite Forall_forall in B; by apply B).
  destruct (reassembly_spec packets source None timeout Bp Ls (or_introl eq_refl)) as (r & Er & Hn & Hy). exists r. split; [done|].
  destruct (decide (outcome r = "COMPLETE"%string)) as [Hd|Hd]; [|by destruct (Hn Hd) as [_ Hno]; destruct (Hno record count)].
  destruct (Hy Hd) as (record' & count' & Hcar' & P1 & P2 & P3 & P4 & U). rewrite <- (U record count Hcar) in *.
  assert (Ec : count' = count).
  { assert (Hi : 0 <= 0 < count') by (destruct Hcar' as (_ & _ & [? _] & _); lia).
    destruct (carried_packet _ _ _ 0 Hcar' Hi) as (p & Hp & _ & Ep). destruct (carried_parse _ _ _ _ _ Hcar Hp Ep) as (i & _ & Ef & _).
    by injection Ef. }
  split_and!; try done; lia.
Qed.

(** ** The matrix of reassembly cases *)

Definition _nar_recrc (packet : bytes) : res bytes :=
  cleared ← run_writes [put 64 68 (Ok (zeros 4))] packet;
  seal_at crc32c 64 cleared.

(** [mutated[28:36] = pack(">Q", unpack(">Q", mutated[28:36])[0] + 1)], then the checksum. *)
Definition next_generation (packet : bytes) : res bytes :=
  mutated ← run_writes [put 28 36 (u64 (be_val (slice 28 36 packet) + 1))] packet;
  _nar_recrc mutated.

Fixpoint each (f : bytes -> res bytes) (packets : list bytes) : res (list bytes) :=
  match packets with [] => Ok [] | p :: packets => q ← f p; qs ← each f packets; mret (q :: qs) end.

(** [fragments[0]] and [fragments[1]], which there must be. *)
Definition fragment_at (fragments : list bytes) (i : nat) : res bytes :=
  match fragments !! i with Some p => Ok p | None => Raise IndexError end.

Definition nar1_cases (fragments : list bytes) (source : bytes) : res (list (string * nar1_result * string)) :=
  let run packets := run_nar1_reassembly packets source None false in
  canonical ← run fragments;
  reordered ← run (rev fragments);
  first ← fragment_at fragments 0;
  duplicate ← run (first :: first :: tail fragments);
  flipped ← run_writes [W (len first - 1) (len first) (fun buf => pybyte (Z.lxor (byte_at (len first - 1) buf) 1))] first;
  conflict ← _nar_recrc flipped;
  conflicting ← run (first :: conflict :: tail fragments);
  second ← fragment_at fragments 1;
  overlap_packet ← run_writes [put 60 64 (u32 100)] second;
  overlap_sealed ← _nar_recrc overlap_packet;
  overlap ← run [first; overlap_sealed];
  mixed_sealed ← next_generation second;
  mixed ← run [first; mixed_sealed];
  loss_timeout ← run_nar1_reassembly (removelast fragments) source None true;
  inner_packets ← each next_generation fragments;
  inner_mismatch ← run inner_packets;
  source_mismatch ← run_nar1_reassembly fragments (sha256 (bytes_of_string "other-source")) (Some source) false;
  mret [("canonical_success", canonical, "COMPLETE"); ("reordered_success", reordered, "COMPLETE");
        ("same_duplicate_no_progress", duplicate, "COMPLETE");
        ("conflicting_duplicate_discard", conflicting, "DISCARDED_CONFLICTING_DUPLICATE");
        ("gap_loss_timeout_discard", loss_timeout, "DISCARDED_IDLE_TIMEOUT"); ("overlap_discard", overlap, "DISCARDED_MALFORMED");
        ("mixed_tuple_discard", mixed, "DISCARDED_MIXED_TUPLE"); ("inner_mismatch_discard", inner_mismatch, "DISCARDED_INNER_MISMATCH");
        ("source_mismatch_discard", source_mismatch, "DISCARDED_SOURCE_MISMATCH")]%string.

Fixpoint check_nar1_cases (cases : list (string * nar1_result * string)) : res unit :=
  match cases with
  | [] => Ok tt
  | (name, result, want) :: cases =>
      raise_if (negb (String.eqb (outcome result) want)) (AssertionError ("NAR matrix " +:+ name +:+ ": " +:+ outcome result +:+ " != " +:+ want));;
      check_nar1_cases cases
  end.

Definition build_nar1_reassembly_matrix (fragments : list bytes) (source : bytes) : res (list (string * nar1_result)) :=
  cases ← nar1_cases fragments source;
  check_nar1_cases cases;;
  match cases !! 2%nat with
  | Some (_, duplicate, _) =>
      raise_if (negb (duplicate_count duplicate =? 1) || negb (progress_count duplicate =? len fragments))
        (AssertionError "same duplicate must make no progress");;
      mret (map fst cases)
  | None => mret (map fst cases)
  end.

(** ** Concrete fragments *)

Definition sample_fragments : list bytes := match fragment_nar1 sample_record with Ok ps => ps | Raise _ => [] end.

(** The sample record has two fragments, and its matrix of cases is built. *)
Example sample_reassembly_matrix : len sample_fragments = 2 /\ is_ok (build_nar1_reassembly_matrix sample_fragments (pattern 5 32)) = true.
Proof. vm_compute. split; reflexivity. Qed.

(** A record of exactly one full fragment is also accepted in two, the last one empty:
    the number of fragments is not tied to the length. *)
Definition one_fragment_record : bytes :=
  match encode_nac1 {| kind := 4; carrier_class := 3; session_id := pattern 1 16; exchange_generation := 9; record_sequence := 1;
    carrier_binding_digest := pattern 33 32; payload := pattern 7 36 |} with Ok r => r | Raise _ => [] end.

Example empty_last_fragment :
  len one_fragment_record = NAR1_PAYLOAD_MAX /\
  (ps ← fragment_nar1 one_fragment_record; Ok (len ps)) = Ok 1 /\
  (ps ← nar1_packets one_fragment_record 2 (indices 2); r ← run_nar1_reassembly ps (pattern 5 32) None false; Ok (outcome r)) = Ok "COMPLETE"%string.
Proof. vm_compute. split_and!; reflexivity. Qed.

Lemma nar1_parse_exact_witness : exists p, bytes_ok p /\ exists f, _nar1_parse p = Ok f.
Proof.
  assert (B : bytes_ok sample_record) by exact sample_record_bytes.
  assert (Hf : fits 2 sample_record) by (split; [lia | vm_compute; split; discriminate]).
  assert (Hl : NAC1_HEADER_BYTES <= len sample_record <= NAC1_RECORD_MAX) by (vm_compute; split; discriminate).
  pose proof (fragment_ok sample_record 2 0 B Hl Hf ltac:(lia)) as Ho. destruct (nar1_built _ Ho) as (p & E & _).
  destruct (parse_complete _ p Ho E) as [Bp _]. exists p. split; [exact Bp|]. exists (fragment_of sample_record 2 0).
  apply (nar1_parse_exact p Bp). exact (conj Ho E).
Defined.


Lemma nar1_fragments_reassemble_witness : exists ps, fragment_nar1 sample_record = Ok ps /\ 1 <= len ps <= NAR1_FRAGMENT_MAX.
Proof.
  assert (Hc : classify_nac1 sample_record = STATUS_OK) by (vm_compute; reflexivity).
  destruct (nar1_fragments_reassemble sample_record sample_record_bytes Hc) as (ps & E & H & _). exists ps. exact (conj E H).
Defined.
