(* ===== verification/Transcript.v ===== *)
(** The carrier transcript: the digest that binds an attachment to the exact NAC1
    records exchanged before it, and the negative cases kept for it
    ([tools/production_attachment_edhoc_composition.py]). *)

From stdpp Require Import pretty.
From S2P Require Import Prelude Bytes Crc Sha256 Layout Join Chain Sealed Prefixed Nac1.
#[local] Open Scope Z_scope.

Definition METHOD_STATIC_DH_BOTH : Z := 3.
Definition SUITE_2 : Z := 2.
Definition SUITE_3 : Z := 3.
Definition KIND_EDHOC_MESSAGE_1 : Z := 4.
Definition KIND_EDHOC_MESSAGE_2 : Z := 5.
Definition KIND_EDHOC_MESSAGE_3 : Z := 6.
Definition KIND_EDHOC_MESSAGE_4 : Z := 7.
Definition CARRIER_TRANSCRIPT_LABEL : bytes := bytes_of_string "NINLIL-PA-CARRIER-TRANSCRIPT-V1".
Definition CARRIER_TRANSCRIPT_SCHEMA_VERSION : Z := 1.
Definition COOKIE_MODE_ABSENT : Z := 0.
Definition COOKIE_MODE_INCLUDED : Z := 1.

(** ** One entry *)

Definition nac1_kind (record : bytes) : res Z :=
  raise_if ((len record <? NAC1_HEADER_BYTES) || negb (bool_decide (slice 0 4 record = bytes_of_string "NAC1"))) (ValueError "NAC1 record");;
  mret (byte_at 16 record).

(** [struct.unpack] of a slice that may be too short. *)
Definition unpack_at (lo hi : Z) (record : bytes) : res Z :=
  raise_if (negb (len (slice lo hi record) =? hi - lo)) StructError;;
  mret (be_val (slice lo hi record)).

Definition nac1_sequence (record : bytes) : res Z := unpack_at 44 48 record.

Definition encode_length_prefixed_nac1_entry (record : bytes) : res bytes :=
  raise_if ((len record <? NAC1_HEADER_BYTES) || (NAC1_RECORD_MAX <? len record)) (ValueError "NAC1 entry length");;
  total ← unpack_at 8 12 record;
  raise_if (negb (len record =? total)) (ValueError "NAC1 total field");;
  kind ← nac1_kind record;
  sequence ← nac1_sequence record;
  join [pybyte kind; u32 sequence; u16 (len record); Ok record].

(** ** The transcript *)

Record transcript_args := {
  t_carrier_class : Z; t_session_id : bytes; t_exchange_generation : Z; t_attempt_index : Z; t_attachment_epoch : Z; t_method : Z;
  t_suite : Z; t_cookie_mode : Z; t_records : list bytes }.

Record entry_meta := {
  em_kind : Z; em_record_sequence : Z; em_total_bytes : Z; em_payload_bytes : Z; em_sha256 : string; em_hex : string }.

(** The digest, the preimage and the parts of the metadata that are computed. *)
Record transcript := { t_digest : bytes; t_preimage : bytes; t_kinds : list Z; t_entries : list entry_meta }.

Definition expected_kinds (cookie_mode : Z) : list Z :=
  let edhoc := [KIND_EDHOC_MESSAGE_1; KIND_EDHOC_MESSAGE_2; KIND_EDHOC_MESSAGE_3; KIND_EDHOC_MESSAGE_4] in
  if cookie_mode =? COOKIE_MODE_INCLUDED then KIND_COOKIE_CHALLENGE :: KIND_COOKIE_RESPONSE :: edhoc else edhoc.

Definition is_cookie (kind : Z) : bool := (kind =? KIND_COOKIE_CHALLENGE) || (kind =? KIND_COOKIE_RESPONSE).

(** The message of a record of another kind, which a negative case reports. *)
Definition kind_order (kind expected_kind : Z) : string := "kind order " +:+ pretty kind +:+ " != " +:+ pretty expected_kind.

(** The body of the loop over the expected kinds and the records. *)
Definition transcript_entry (x : transcript_args) (expected_kind : Z) (record : bytes) : res (bytes * entry_meta) :=
  kind ← nac1_kind record;
  raise_if (negb (kind =? expected_kind)) (ValueError (kind_order kind expected_kind));;
  raise_if (negb (byte_at 18 record =? t_carrier_class x)) (ValueError "entry carrier_class");;
  raise_if (negb (bool_decide (slice 20 36 record = t_session_id x))) (ValueError "entry session_id");;
  generation ← unpack_at 36 44 record;
  raise_if (negb (generation =? t_exchange_generation x)) (ValueError "entry exchange_generation");;
  seq ← nac1_sequence record;
  (if is_cookie kind then raise_if (negb (seq =? 0)) (ValueError "cookie sequence")
   else raise_if (negb (seq =? kind - 3)) (ValueError "edhoc sequence"));;
  pref ← encode_length_prefixed_nac1_entry record;
  mret (pref, {| em_kind := kind; em_record_sequence := seq; em_total_bytes := len record;
                 em_payload_bytes := len record - NAC1_HEADER_BYTES; em_sha256 := hex_of (sha256 record); em_hex := hex_of record |}).

Fixpoint transcript_entries (x : transcript_args) (kinds : list Z) (records : list bytes) : res (bytes * list entry_meta) :=
  match kinds, records with
  | kind :: kinds, record :: records =>
      '(pref, meta) ← transcript_entry x kind record;
      '(entry_bytes, metas) ← transcript_entries x kinds records;
      mret (pref ++ entry_bytes, meta :: metas)
  | [], [] => Ok ([], [])
  | _, _ => Raise (ValueError "zip() arguments have different lengths")
  end.

(** The preimage before the entries. *)
Definition transcript_parts (x : transcript_args) : list (res bytes) :=
  [Ok CARRIER_TRANSCRIPT_LABEL; pybyte CARRIER_TRANSCRIPT_SCHEMA_VERSION; pybyte (t_carrier_class x); Ok (t_session_id x);
   u64 (t_exchange_generation x); u32 (t_attempt_index x); u64 (t_attachment_epoch x);
   pybyte (t_method x); pybyte (t_suite x); pybyte (t_cookie_mode x); pybyte (len (t_records x))].

Definition compute_carrier_transcript_digest (x : transcript_args) : res transcript :=
  raise_if (negb (in_range 1 3 (t_carrier_class x))) (ValueError "carrier_class");;
  raise_if (negb (len (t_session_id x) =? 16) || negb (any_nonzero (t_session_id x))) (ValueError "session_id");;
  raise_if ((t_exchange_generation x <? 1) || (t_attempt_index x <? 0)) (ValueError "generation/attempt");;
  raise_if (t_attachment_epoch x <? 1) (ValueError "attachment_epoch");;
  raise_if (negb (t_method x =? METHOD_STATIC_DH_BOTH) || negb ((t_suite x =? SUITE_2) || (t_suite x =? SUITE_3))) (ValueError "method/suite");;
  raise_if (negb ((t_cookie_mode x =? COOKIE_MODE_ABSENT) || (t_cookie_mode x =? COOKIE_MODE_INCLUDED))) (ValueError "cookie_mode");;
  let kinds := expected_kinds (t_cookie_mode x) in
  raise_if (negb (len (t_records x) =? len kinds)) (ValueError "entry count");;
  '(entry_bytes, metas) ← transcript_entries x kinds (t_records x);
  header ← join (transcript_parts x);
  let preimage := header ++ entry_bytes in
  mret {| t_digest := sha256 preimage; t_preimage := preimage; t_kinds := kinds; t_entries := metas |}.

(** ** The negative cases *)

Definition _nac1_with_generation (record : bytes) (generation : Z) : res bytes :=
  g ← u64 generation;
  let out := slice_assign 84 88 (zeros 4) (slice_assign 36 44 g record) in
  c ← u32 (crc32c out);
  mret (slice_assign 84 88 c out).

Record negative := { n_id : string; n_digest : bytes; n_preimage : bytes; n_rejected : bool; n_reason : string }.

Definition add_negative (base : bytes) (neg_id : string) (x : transcript_args) : res negative :=
  t ← compute_carrier_transcript_digest x;
  raise_if (bool_decide (t_digest t = base)) (AssertionError "negative collided with base digest");;
  mret {| n_id := neg_id; n_digest := t_digest t; n_preimage := t_preimage t; n_rejected := false; n_reason := "" |}.

(** A case that may be refused: the message of the [ValueError] becomes the reason. *)
Definition try_negative (base : bytes) (neg_id collision : string) (x : transcript_args) : res negative :=
  match compute_carrier_transcript_digest x with
  | Ok t =>
      raise_if (bool_decide (t_digest t = base)) (AssertionError collision);;
      mret {| n_id := neg_id; n_digest := t_digest t; n_preimage := t_preimage t; n_rejected := false; n_reason := "" |}
  | Raise (ValueError err) => Ok {| n_id := neg_id; n_digest := zeros 32; n_preimage := []; n_rejected := true; n_reason := err |}
  | Raise e => Raise e
  end.

(** [next(i for i, r in enumerate(records) if nac1_kind(r) == kind)]. *)
Fixpoint find_kind (kind : Z) (records : list bytes) : res nat :=
  match records with
  | [] => Raise StopIteration
  | r :: records =>
      k ← nac1_kind r;
      if k =? kind then Ok 0%nat else i ← find_kind kind records; mret (S i)
  end.

(** The first payload byte flipped and the checksum of the record recomputed. *)
Definition flip_payload (record : bytes) : res bytes :=
  raise_if (len record <=? NAC1_HEADER_BYTES) IndexError;;
  let flipped := slice_assign 88 89 [Z.lxor (byte_at 88 record) 1] record in
  let out := slice_assign 84 88 (zeros 4) flipped in
  c ← u32 (crc32c out);
  mret (slice_assign 84 88 c out).

Definition with_records (rs : list bytes) (x : transcript_args) : transcript_args := {|
  t_carrier_class := t_carrier_class x; t_session_id := t_session_id x; t_exchange_generation := t_exchange_generation x;
  t_attempt_index := t_attempt_index x; t_attachment_epoch := t_attachment_epoch x; t_method := t_method x; t_suite := t_suite x;
  t_cookie_mode := t_cookie_mode x; t_records := rs |}.

Definition with_numbers (generation attempt epoch suite mode : Z) (x : transcript_args) : transcript_args := {|
  t_carrier_class := t_carrier_class x; t_session_id := t_session_id x; t_exchange_generation := generation;
  t_attempt_index := attempt; t_attachment_epoch := epoch; t_method := t_method x; t_suite := suite;
  t_cookie_mode := mode; t_records := t_records x |}.

Fixpoint each_record (f : bytes -> res bytes) (records : list bytes) : res (list bytes) :=
  match records with
  | [] => Ok []
  | r :: records => a ← f r; b ← each_record f records; mret (a :: b)
  end.

Definition swap_at (i j : nat) (records : list bytes) : list bytes :=
  match records !! i, records !! j with
  | Some a, Some b => <[j := a]> (<[i := b]> records)
  | _, _ => records
  end.

(** [base] is the digest the base metadata records. *)
Definition carrier_transcript_negatives (base : bytes) (x : transcript_args) : res (list negative) :=
  let generation := t_exchange_generation x in
  let attempt := t_attempt_index x in
  let epoch := t_attachment_epoch x in
  let suite := t_suite x in
  let mode := t_cookie_mode x in
  m1_idx ← find_kind KIND_EDHOC_MESSAGE_1 (t_records x);
  flipped ← flip_payload (default [] (t_records x !! m1_idx));
  n1 ← add_negative base "flip_message_1_payload_byte0_recrc" (with_records (<[m1_idx := flipped]> (t_records x)) x);
  idx1 ← find_kind KIND_EDHOC_MESSAGE_1 (t_records x);
  idx2 ← find_kind KIND_EDHOC_MESSAGE_2 (t_records x);
  n2 ← try_negative base "swap_message_1_message_2_order" "order swap digest collision" (with_records (swap_at idx1 idx2 (t_records x)) x);
  moved ← each_record (fun r => _nac1_with_generation r (generation + 1)) (t_records x);
  n3 ← add_negative base "exchange_generation_plus_1" (with_records moved (with_numbers (generation + 1) attempt epoch suite mode x));
  n4 ← add_negative base "attempt_index_plus_1" (with_numbers generation (attempt + 1) epoch suite mode x);
  n5 ← add_negative base "attachment_epoch_plus_1" (with_numbers generation attempt (epoch + 1) suite mode x);
  n6 ← add_negative base "suite_2_to_3" (with_numbers generation attempt epoch SUITE_3 mode x);
  let other_mode := if mode =? COOKIE_MODE_INCLUDED then COOKIE_MODE_ABSENT else COOKIE_MODE_INCLUDED in
  n7 ← try_negative base "cookie_mode_flip_same_entries" "cookie_mode flip collision" (with_numbers generation attempt epoch suite other_mode x);
  mret [n1; n2; n3; n4; n5; n6; n7].

(** ** What is accepted *)

Definition expected_sequence (kind : Z) : Z := if is_cookie kind then 0 else kind - 3.

Record entry_ok (x : transcript_args) (kind : Z) (r : bytes) : Prop := {
  eo_len : NAC1_HEADER_BYTES <= len r <= NAC1_RECORD_MAX;
  eo_magic : slice 0 4 r = bytes_of_string "NAC1";
  eo_total : be_val (slice 8 12 r) = len r;
  eo_kind : byte_at 16 r = kind;
  eo_carrier : byte_at 18 r = t_carrier_class x;
  eo_session : slice 20 36 r = t_session_id x;
  eo_generation : be_val (slice 36 44 r) = t_exchange_generation x;
  eo_sequence : be_val (slice 44 48 r) = expected_sequence kind }.

Record transcript_ok (x : transcript_args) : Prop := {
  to_carrier : 1 <= t_carrier_class x <= 3;
  to_session : len (t_session_id x) = 16 /\ any_nonzero (t_session_id x) = true;
  to_generation : 1 <= t_exchange_generation x < 2 ^ 64;
  to_attempt : 0 <= t_attempt_index x < 2 ^ 32;
  to_epoch : 1 <= t_attachment_epoch x < 2 ^ 64;
  to_method : t_method x = METHOD_STATIC_DH_BOTH;
  to_suite : t_suite x = SUITE_2 \/ t_suite x = SUITE_3;
  to_mode : t_cookie_mode x = COOKIE_MODE_ABSENT \/ t_cookie_mode x = COOKIE_MODE_INCLUDED;
  to_entries : Forall2 (entry_ok x) (expected_kinds (t_cookie_mode x)) (t_records x) }.

(** The bytes of an entry. *)
Definition entry_bytes (kind : Z) (r : bytes) : bytes := [kind] ++ be_bytes 4 (expected_sequence kind) ++ be_bytes 2 (len r) ++ r.

Definition kind_ok (kind : Z) : Prop := 1 <= kind <= 7 /\ kind <> 3.

Lemma expected_kinds_ok mode : Forall kind_ok (expected_kinds mode).
Proof.
  unfold expected_kinds. destruct (_ =? _); repeat (apply Forall_cons_2; [split; [split; vm_compute; discriminate | vm_compute; discriminate]|]);
    apply Forall_nil_2.
Qed.

Lemma sequence_range kind : kind_ok kind -> 0 <= expected_sequence kind <= 4.
Proof.
  unfold kind_ok, expected_sequence, is_cookie, KIND_COOKIE_CHALLENGE, KIND_COOKIE_RESPONSE. intros H.
  destruct (Z.eqb_spec kind 1), (Z.eqb_spec kind 2); cbn; lia.
Qed.

Lemma unpack_at_Ok lo hi r : 0 <= lo <= hi -> hi <= len r -> unpack_at lo hi r = Ok (be_val (slice lo hi r)).
Proof. intros H1 H2. unfold unpack_at. by rewrite len_slice, Z.eqb_refl by lia. Qed.

Lemma nac1_kind_Ok r k : nac1_kind r = Ok k <-> NAC1_HEADER_BYTES <= len r /\ slice 0 4 r = bytes_of_string "NAC1" /\ byte_at 16 r = k.
Proof.
  unfold nac1_kind. rewrite raise_if_then_Ok, orb_false_iff, Z.ltb_ge, decided_false. unfold mret, res_ret. split.
  - by intros [[H1 H2] [= H3]].
  - intros (H1 & H2 & H3). split; [done | congruence].
Qed.

Lemma entry_encoded r kind : kind_ok kind -> NAC1_HEADER_BYTES <= len r <= NAC1_RECORD_MAX -> slice 0 4 r = bytes_of_string "NAC1" ->
  be_val (slice 8 12 r) = len r -> byte_at 16 r = kind -> be_val (slice 44 48 r) = expected_sequence kind ->
  encode_length_prefixed_nac1_entry r = Ok (entry_bytes kind r).
Proof.
  intros Hk [L1 L2] Hm Ht Hkd Hs. pose proof (sequence_range kind Hk) as Hr. unfold NAC1_HEADER_BYTES, NAC1_RECORD_MAX in *.
  unfold encode_length_prefixed_nac1_entry, NAC1_HEADER_BYTES, NAC1_RECORD_MAX.
  rewrite raise_if_skip by (apply orb_false_iff; split; apply Z.ltb_ge; lia).
  rewrite (unpack_at_Ok 8 12) by lia. rewrite ok_bind, Ht, Z.eqb_refl, (raise_if_skip (negb true)) by done.
  rewrite (proj2 (nac1_kind_Ok r kind)) by (unfold NAC1_HEADER_BYTES; split_and!; [lia | done..]).
  rewrite ok_bind. unfold nac1_sequence. rewrite (unpack_at_Ok 44 48) by lia. rewrite ok_bind, Hs. cbn [join].
  rewrite (proj2 (pybyte_Ok kind [kind])) by (split; [destruct Hk; split; lia | done]). rewrite ok_bind.
  unfold u32, u16. rewrite !pack_bind by (pack_range; lia). cbn. unfold entry_bytes. by rewrite app_nil_r.
Qed.

Lemma transcript_entry_spec x kind r : kind_ok kind ->
  (entry_ok x kind r -> exists m, transcript_entry x kind r = Ok (entry_bytes kind r, m)) /\
  (forall p m, transcript_entry x kind r = Ok (p, m) -> entry_ok x kind r /\ p = entry_bytes kind r).
Proof.
  intros Hk. split.
  - intros [L Hm Ht Hkd Hc Hs Hg Hq]. unfold transcript_entry. unfold NAC1_HEADER_BYTES, NAC1_RECORD_MAX in L.
    rewrite (proj2 (nac1_kind_Ok r kind)) by (unfold NAC1_HEADER_BYTES; split_and!; [lia | done..]).
    rewrite ok_bind, Z.eqb_refl, (raise_if_skip (negb true)), Hc, Z.eqb_refl, (raise_if_skip (negb true)) by done.
    rewrite bool_decide_eq_true_2, (raise_if_skip (negb true)), (unpack_at_Ok 36 44), ok_bind, Hg, Z.eqb_refl, (raise_if_skip (negb true)) by (done || lia).
    unfold nac1_sequence. rewrite (unpack_at_Ok 44 48), ok_bind, Hq by lia.
    assert (E : (if is_cookie kind then raise_if (negb (expected_sequence kind =? 0)) (ValueError "cookie sequence")
                 else raise_if (negb (expected_sequence kind =? kind - 3)) (ValueError "edhoc sequence")) = Ok tt)
      by (unfold expected_sequence; destruct (is_cookie kind); by rewrite Z.eqb_refl).
    rewrite E, ok_bind, (entry_encoded r kind), ok_bind by done. by eexists.
  - intros p m H. unfold transcript_entry in H. inv_res. bool_to_prop. subst.
    match goal with H : nac1_kind r = Ok _ |- _ => apply nac1_kind_Ok in H as (L1 & Hm & Hkd) end. subst.
    assert (Hs : be_val (slice 44 48 r) = expected_sequence (byte_at 16 r) /\ be_val (slice 36 44 r) = t_exchange_generation x).
    { unfold NAC1_HEADER_BYTES in L1.
      repeat match goal with H : nac1_sequence r = Ok _ |- _ => unfold nac1_sequence in H | H : unpack_at _ _ r = Ok _ |- _ => rewrite unpack_at_Ok in H by lia; injection H as <- end.
      split; [|done]. unfold expected_sequence. destruct (is_cookie (byte_at 16 r)); inv_res; bool_to_prop; lia. }
    destruct Hs as [Hs Hg].
    assert (Hl : len r <= NAC1_RECORD_MAX /\ be_val (slice 8 12 r) = len r).
    { match goal with H : encode_length_prefixed_nac1_entry r = Ok _ |- _ => unfold encode_length_prefixed_nac1_entry in H end.
      inv_res. bool_to_prop. unfold NAC1_HEADER_BYTES, NAC1_RECORD_MAX in *.
      repeat match goal with H : unpack_at _ _ r = Ok _ |- _ => rewrite unpack_at_Ok in H by lia; injection H as <- end. lia. }
    destruct Hl as [L2 Ht]. split; [by split|].
    match goal with H : encode_length_prefixed_nac1_entry r = Ok _ |- _ => rewrite (entry_encoded r (byte_at 16 r)) in H by done; injection H as <- end. done.
Qed.

(** All the entries, one after the other. *)
Fixpoint entries_bytes (kinds : list Z) (records : list bytes) : bytes :=
  match kinds, records with
  | kind :: kinds, r :: records => entry_bytes kind r ++ entries_bytes kinds records
  | _, _ => []
  end.

Lemma transcript_entries_spec x kinds records : Forall kind_ok kinds ->
  (Forall2 (entry_ok x) kinds records -> exists ms, transcript_entries x kinds records = Ok (entries_bytes kinds records, ms)) /\
  (forall p ms, transcript_entries x kinds records = Ok (p, ms) -> Forall2 (entry_ok x) kinds records /\ p = entries_bytes kinds records).
Proof.
  intros Hk. revert records. induction Hk as [|k kinds Hk _ IH]; intros [|r records]; cbn [transcript_entries entries_bytes].
  - split; [by eexists|]. intros p ms [= <- <-]. by split.
  - split; [by inversion 1 | done].
  - split; [by inversion 1 | done].
  - destruct (transcript_entry_spec x k r Hk) as [T1 T2], (IH records) as [I1 I2]. split.
    + intros [H1 H2]%Forall2_cons. destruct (T1 H1) as (m & ->), (I1 H2) as (ms & ->). cbn. by eexists.
    + intros p ms H. apply bind_Ok in H as ([p1 m1] & E1 & H). apply bind_Ok in H as ([p2 m2] & E2 & H). injection H as <- <-.
      destruct (T2 _ _ E1) as [H1 ->], (I2 _ _ E2) as [H2 ->]. split; [by constructor | done].
Qed.

Lemma count_expected mode : len (expected_kinds mode) <= 6.
Proof. unfold expected_kinds. destruct (_ =? _); vm_compute; discriminate. Qed.

(** What remains once the numbers are in range. *)
Definition compute_entries (x : transcript_args) : res transcript :=
  let kinds := expected_kinds (t_cookie_mode x) in
  raise_if (negb (len (t_records x) =? len kinds)) (ValueError "entry count");;
  '(entry_bytes, metas) ← transcript_entries x kinds (t_records x);
  header ← join (transcript_parts x);
  let preimage := header ++ entry_bytes in
  mret {| t_digest := sha256 preimage; t_preimage := preimage; t_kinds := kinds; t_entries := metas |}.

Record numbers_ok (x : transcript_args) : Prop := {
  no_carrier : 1 <= t_carrier_class x <= 3;
  no_session : len (t_session_id x) = 16 /\ any_nonzero (t_session_id x) = true;
  no_generation : 1 <= t_exchange_generation x < 2 ^ 64;
  no_attempt : 0 <= t_attempt_index x < 2 ^ 32;
  no_epoch : 1 <= t_attachment_epoch x < 2 ^ 64;
  no_method : t_method x = METHOD_STATIC_DH_BOTH;
  no_suite : t_suite x = SUITE_2 \/ t_suite x = SUITE_3;
  no_mode : t_cookie_mode x = COOKIE_MODE_ABSENT \/ t_cookie_mode x = COOKIE_MODE_INCLUDED }.

Lemma transcript_split x : transcript_ok x <-> numbers_ok x /\ Forall2 (entry_ok x) (expected_kinds (t_cookie_mode x)) (t_records x).
Proof. split; [intros []; split; [by split | done] | intros [[] ?]; by split]. Qed.

Lemma compute_guarded x : numbers_ok x -> compute_carrier_transcript_digest x = compute_entries x.
Proof.
  intros [H1 [H2 H3] H4 H5 H6 H7 H8 H9]. unfold compute_carrier_transcript_digest.
  rewrite (raise_if_skip _ (ValueError "carrier_class")) by (rewrite negb_false_iff; by apply in_range_spec).
  rewrite raise_if_skip by (by rewrite H2, H3). rewrite raise_if_skip by (apply orb_false_iff; split; apply Z.ltb_ge; lia).
  rewrite raise_if_skip by (apply Z.ltb_ge; lia). rewrite raise_if_skip by (rewrite H7; by destruct H8 as [-> | ->]).
  rewrite raise_if_skip by (by destruct H9 as [-> | ->]). done.
Qed.

Lemma transcript_accepted x : transcript_ok x -> exists h ms,
  join (transcript_parts x) = Ok h /\
  compute_carrier_transcript_digest x = Ok {| t_digest := sha256 (h ++ entries_bytes (expected_kinds (t_cookie_mode x)) (t_records x));
    t_preimage := h ++ entries_bytes (expected_kinds (t_cookie_mode x)) (t_records x); t_kinds := expected_kinds (t_cookie_mode x); t_entries := ms |}.
Proof.
  intros [N H10]%transcript_split. pose proof (Forall2_length _ _ _ H10) as HL. pose proof (count_expected (t_cookie_mode x)) as HC.
  destruct (proj1 (transcript_entries_spec x _ (t_records x) (expected_kinds_ok (t_cookie_mode x))) H10) as (ms & E).
  assert (F : Forall fine (transcript_parts x)).
  { destruct N as [H1 [H2 H3] H4 H5 H6 H7 H8 H9].
    unfold transcript_parts, CARRIER_TRANSCRIPT_SCHEMA_VERSION, METHOD_STATIC_DH_BOTH, SUITE_2, SUITE_3, COOKIE_MODE_ABSENT, COOKIE_MODE_INCLUDED in *.
    assert (B : forall v, 0 <= v < 256 -> fine (pybyte v)) by (intros v Hv; exists [v]; by apply pybyte_Ok).
    repeat (apply Forall_cons_2; [first [apply fine_Ok | apply B; unfold len in *; lia | apply fine_pack; pack_range; lia]|]). apply Forall_nil_2. }
  destruct (join_total _ F) as (h & Eh). exists h, ms. split; [done|]. rewrite compute_guarded by done. unfold compute_entries. cbv zeta.
  rewrite raise_if_skip by (unfold len; by rewrite HL, Z.eqb_refl). by rewrite E, ok_bind, Eh, ok_bind.
Qed.

Lemma transcript_inv x t : compute_carrier_transcript_digest x = Ok t -> transcript_ok x.
Proof.
  unfold compute_carrier_transcript_digest. intros H. inv_res. destruct a as [eb metas]. cbn beta iota in H. inv_res. bool_to_prop.
  match goal with H : in_range 1 3 _ = true |- _ => apply in_range_spec in H end.
  match goal with H : transcript_entries _ _ _ = Ok _ |- _ => apply (proj2 (transcript_entries_spec x _ _ (expected_kinds_ok _))) in H as [He _] end.
  match goal with H : join _ = Ok _ |- _ => rename H into Ej end.
  assert (R : forall i k v, transcript_parts x !! i = Some (pack k v) -> 0 <= v < 256 ^ Z.of_nat k).
  { intros i k v Hi. destruct (Forall_lookup_1 _ _ _ _ (join_parts_fine _ _ Ej) Hi) as [y Ey]. by apply pack_Ok in Ey as [? _]. }
  pose proof (R 4%nat 8%nat _ eq_refl) as R1. pose proof (R 5%nat 4%nat _ eq_refl) as R2. pose proof (R 6%nat 8%nat _ eq_refl) as R3.
  split; try done; try lia.
Qed.

(** ** What the preimage binds *)

Lemma locked_pybyte v w : locked (pybyte v) (pybyte w).
Proof. apply (locked_wide 1); intros x [_ ->]%pybyte_Ok; done. Qed.

Lemma pybyte_inj v w x : pybyte v = Ok x -> pybyte v = pybyte w -> v = w.
Proof.
  intros Ev E. rewrite Ev in E. symmetry in E. apply pybyte_Ok in Ev as [_ ->]. by apply pybyte_Ok in E as [_ [= ->]].
Qed.

Lemma len_label : len CARRIER_TRANSCRIPT_LABEL = 31.
Proof. reflexivity. Qed.

Lemma transcript_parts_locked x y : transcript_ok x -> transcript_ok y -> Forall2 locked (transcript_parts x) (transcript_parts y).
Proof.
  intros Hx Hy. destruct (to_session x Hx) as [Lx _], (to_session y Hy) as [Ly _]. unfold transcript_parts.
  repeat (apply Forall2_cons_2; [first [apply locked_pybyte | apply locked_pack | exact (locked_Ok 31 _ _ len_label len_label) | exact (locked_Ok 16 _ _ Lx Ly)]|]).
  apply Forall2_nil_2.
Qed.

Lemma entry_bytes_prefix k r r' s s' : len r <= NAC1_RECORD_MAX -> len r' <= NAC1_RECORD_MAX ->
  entry_bytes k r ++ s = entry_bytes k r' ++ s' -> r = r' /\ s = s'.
Proof.
  unfold NAC1_RECORD_MAX. intros H H' E. pose proof (len_nonneg r). pose proof (len_nonneg r').
  unfold entry_bytes in E. rewrite <- !app_assoc in E. apply (app_inj_1 [k] [k]) in E as [_ E]; [|done].
  apply app_inj_1 in E as [_ E]; [|done]. apply app_inj_1 in E as [El E]; [|done].
  apply be_bytes_inj in El; [|pack_range; lia..]. apply app_inj_1 in E; [done|]. unfold len in El. lia.
Qed.

Lemma entries_inj x y kinds rs rs' : Forall2 (entry_ok x) kinds rs -> Forall2 (entry_ok y) kinds rs' ->
  entries_bytes kinds rs = entries_bytes kinds rs' -> rs = rs'.
Proof.
  intros H. revert rs'. induction H as [|k r kinds rs Hr _ IH]; intros rs' H' E; [by inversion H'|].
  inversion H' as [|? r' ? rs2 Hr' H2]; subst. cbn in E.
  apply entry_bytes_prefix in E as [-> E]; [|apply (eo_len _ _ _ Hr) | apply (eo_len _ _ _ Hr')]. f_equal. by apply IH.
Qed.

Lemma transcript_preimage_inj x y : transcript_ok x -> transcript_ok y ->
  (forall t u, compute_carrier_transcript_digest x = Ok t -> compute_carrier_transcript_digest y = Ok u -> t_preimage t = t_preimage u -> x = y).
Proof.
  intros Hx Hy t u Et Eu E.
  destruct (transcript_accepted x Hx) as (h & ms & Eh & Ex), (transcript_accepted y Hy) as (h' & ms' & Eh' & Ey).
  rewrite Ex in Et. rewrite Ey in Eu. injection Et as <-. injection Eu as <-. cbn in E.
  destruct (locked_app _ _ _ _ _ _ (transcript_parts_locked x y Hx Hy) Eh Eh' E) as (P & <- & E2).
  pose proof (join_parts_fine _ _ Eh) as F. pose proof (fun i k v w => part_pack F P i k v w) as K.
  assert (B : forall i v w, transcript_parts x !! i = Some (pybyte v) -> transcript_parts y !! i = Some (pybyte w) -> v = w).
  { intros i v w Hv Hw. destruct (part_fine F P _ _ _ Hv Hw) as [[b Hb] E']. by apply (pybyte_inj v w b). }
  pose proof (B 2%nat _ _ eq_refl eq_refl) as P1. pose proof (K 4%nat 8%nat _ _ eq_refl eq_refl) as P3. pose proof (K 5%nat 4%nat _ _ eq_refl eq_refl) as P4.
  pose proof (K 6%nat 8%nat _ _ eq_refl eq_refl) as P5. pose proof (B 7%nat _ _ eq_refl eq_refl) as P6. pose proof (B 8%nat _ _ eq_refl eq_refl) as P7.
  pose proof (B 9%nat _ _ eq_refl eq_refl) as P8.
  assert (P2 : t_session_id x = t_session_id y).
  { pose proof (f_equal (fun l => l !! 3%nat) P) as P2. cbn in P2. congruence. }
  pose proof (to_entries y Hy) as Hy2. rewrite <- P8 in E2, Hy2. pose proof (entries_inj _ _ _ _ _ (to_entries x Hx) Hy2 E2) as P9.
  destruct x, y; cbn in *. congruence.
Qed.

(** C18. A transcript is computed exactly when its numbers are in range, its session is
    known and its records are, in order, the complete records of the expected kinds, of
    this session, carrier and generation, with the sequence of their kind.  The digest
    is then the hash of a preimage that determines every argument: two transcripts with
    the same preimage are the same. *)
Theorem transcript_binds x :
  (is_ok (compute_carrier_transcript_digest x) = true <-> transcript_ok x) /\
  (forall t, compute_carrier_transcript_digest x = Ok t -> t_digest t = sha256 (t_preimage t)) /\
  (forall y t u, compute_carrier_transcript_digest x = Ok t -> compute_carrier_transcript_digest y = Ok u -> t_preimage t = t_preimage u -> x = y).
Proof.
  split_and!.
  - split.
    + destruct (compute_carrier_transcript_digest x) as [t|] eqn:E; [|done]. intros _. by apply (transcript_inv x t).
    + intros H. destruct (transcript_accepted x H) as (h & ms & _ & ->). done.
  - intros t E. destruct (transcript_accepted x (transcript_inv x t E)) as (h & ms & _ & Ex). rewrite Ex in E. by injection E as <-.
  - intros y t u Et Eu. apply transcript_preimage_inj; [by eapply transcript_inv | by eapply transcript_inv | done | done].
Qed.

(** ** The negative cases *)

Lemma find_kind_spec x kinds records k i : Forall2 (entry_ok x) kinds records -> kinds !! i = Some k -> (forall j, (j < i)%nat -> kinds !! j <> Some k) ->
  find_kind k records = Ok i.
Proof.
  intros H. revert i. induction H as [|k' r kinds rs Hr _ IH]; intros i Hi Hj; [done|]. cbn [find_kind].
  rewrite (proj2 (nac1_kind_Ok r k')) by (destruct Hr as [[? _] ? _ ? _ _ _ _]; done). rewrite ok_bind.
  destruct i as [|i]; [injection Hi as ->; by rewrite Z.eqb_refl|].
  rewrite (proj2 (Z.eqb_neq _ _)) by (intros ->; by apply (Hj 0%nat); [lia|]).
  rewrite (IH i Hi) by (intros j Hl; apply (Hj (S j)); lia). done.
Qed.

(** A record with another kind than the one expected. *)
Lemma entry_wrong_kind x k k' r : entry_ok x k' r -> k <> k' -> transcript_entry x k r = Raise (ValueError (kind_order k' k)).
Proof.
  intros [[L _] Hm _ Hk _ _ _ _] Hn. unfold transcript_entry. rewrite (proj2 (nac1_kind_Ok r k')) by done. rewrite ok_bind.
  by rewrite (proj2 (Z.eqb_neq k' k)) by congruence.
Qed.

Lemma entries_wrong x ks rs k r ks' rs' e : Forall kind_ok ks -> Forall2 (entry_ok x) ks rs -> transcript_entry x k r = Raise e ->
  transcript_entries x (ks ++ k :: ks') (rs ++ r :: rs') = Raise e.
Proof.
  intros Hk H E. induction H as [|k1 r1 ks rs H1 _ IH]; cbn [app transcript_entries]; [by rewrite E|].
  apply Forall_cons in Hk as [Hk1 Hk]. destruct (proj1 (transcript_entry_spec x k1 r1 Hk1) H1) as (m & ->). by rewrite ok_bind, IH.
Qed.

(** A resealed copy of a record keeps everything but the bytes [lo..hi) and its checksum. *)
Lemma resealed_reads r lo hi v a c : 0 <= lo <= hi -> hi <= 84 \/ 88 <= lo -> hi <= len r -> 88 <= len r -> len v = hi - lo -> bytes_ok r -> bytes_ok v ->
  let out := slice_assign 84 88 (zeros 4) (slice_assign lo hi v r) in
  exists w, u32 (crc32c out) = Ok w /\ len (slice_assign 84 88 w out) = len r /\
    (0 <= a <= c -> c <= 84 -> c <= lo \/ hi <= a -> slice a c (slice_assign 84 88 w out) = slice a c r) /\
    slice lo hi (slice_assign 84 88 w out) = v.
Proof.
  intros H1 H2 H3 H4 Hv Br Bv out. pose proof (len_slice_assign lo hi v r H1 H3 Hv) as L1.
  assert (L2 : len out = len r) by (unfold out; rewrite len_slice_assign; rewrite ?len_zeros; lia).
  assert (Bo : bytes_ok out) by (apply slice_assign_ok; [apply zeros_ok | by apply slice_assign_ok]).
  pose proof (pack_checksum crc32c out Bo) as Ew. exists (be_bytes 4 (crc32c out)).
  assert (Lw : len (be_bytes 4 (crc32c out)) = 4) by apply len_be_bytes.
  split; [apply Ew|]. generalize dependent (be_bytes 4 (crc32c out)). intros w _ Lw. split; [rewrite len_slice_assign; lia|]. split.
  - intros Ha Hc Ho. unfold out. rewrite slice_assign_twice by (rewrite ?len_zeros; lia). rewrite !slice_assign_other by lia. done.
  - unfold out. rewrite slice_assign_twice by (rewrite ?len_zeros; lia). rewrite slice_assign_other by lia. apply slice_assign_read; lia.
Qed.

Lemma entry_ok_copy x y k r r' :
  entry_ok x k r -> t_carrier_class y = t_carrier_class x -> t_session_id y = t_session_id x -> len r' = len r ->
  (forall a c, 0 <= a <= c -> c <= 84 -> c <= 36 \/ 44 <= a -> slice a c r' = slice a c r) ->
  be_val (slice 36 44 r') = t_exchange_generation y -> entry_ok y k r'.
Proof.
  intros [L Hm Ht Hk Hc Hs Hg Hq] Ec Es El E Eg. unfold NAC1_HEADER_BYTES, NAC1_RECORD_MAX in *.
  assert (B : forall i, 0 <= i < 36 -> byte_at i r' = byte_at i r) by (intros i Hi; rewrite <- !byte_at_val, E by lia; done).
  split; unfold NAC1_HEADER_BYTES, NAC1_RECORD_MAX; rewrite ?B, ?E by lia; try done; try lia; congruence.
Qed.

Lemma flip_spec r : bytes_ok r -> NAC1_HEADER_BYTES < len r -> exists r', flip_payload r = Ok r' /\ len r' = len r /\ r' <> r /\
  forall a c, 0 <= a <= c -> c <= 84 -> slice a c r' = slice a c r.
Proof.
  unfold NAC1_HEADER_BYTES. intros Br Hl. pose proof (byte_at_ok 88 r Br) as Bb.
  assert (Bv : bytes_ok [Z.lxor (byte_at 88 r) 1]).
  { constructor; [|constructor]. split; [apply Z.lxor_nonneg; destruct Bb; lia|]. change 256 with (2 ^ 8).
    destruct Bb. apply lxor_bound; lia. }
  destruct (resealed_reads r 88 89 [Z.lxor (byte_at 88 r) 1] 0 0) as (w & Ew & El & _ & Eb); try done; try lia.
  exists (slice_assign 84 88 w (slice_assign 84 88 (zeros 4) (slice_assign 88 89 [Z.lxor (byte_at 88 r) 1] r))).
  unfold flip_payload, NAC1_HEADER_BYTES. rewrite raise_if_skip by (apply Z.leb_gt; lia). cbv zeta. rewrite Ew, ok_bind.
  split; [done|]. split; [done|]. split.
  - intros Er. rewrite Er in Eb. rewrite slice_single in Eb by lia. injection Eb as Eb.
    assert (H : Z.lxor (byte_at 88 r) (byte_at 88 r) = Z.lxor (byte_at 88 r) (Z.lxor (byte_at 88 r) 1)) by congruence.
    rewrite <- Z.lxor_assoc, !Z.lxor_nilpotent in H. done.
  - intros a c Ha Hc. destruct (resealed_reads r 88 89 [Z.lxor (byte_at 88 r) 1] a c) as (w' & Ew' & _ & Ea & _); try done; try lia.
    rewrite Ew in Ew'. injection Ew' as <-. apply Ea; lia.
Qed.

Lemma regenerate_spec r g : bytes_ok r -> NAC1_HEADER_BYTES <= len r -> 0 <= g < 2 ^ 64 -> exists r', _nac1_with_generation r g = Ok r' /\
  len r' = len r /\ be_val (slice 36 44 r') = g /\ forall a c, 0 <= a <= c -> c <= 84 -> c <= 36 \/ 44 <= a -> slice a c r' = slice a c r.
Proof.
  unfold NAC1_HEADER_BYTES. intros Br Hl Hg. unfold _nac1_with_generation, u64. rewrite pack_bind by (pack_range; lia). cbv zeta.
  assert (Lg : len (be_bytes 8 g) = 44 - 36) by apply len_be_bytes. pose proof (be_bytes_ok 8 g) as Bg.
  destruct (resealed_reads r 36 44 (be_bytes 8 g) 0 0) as (w & Ew & El & _ & Eb); try done; try lia. rewrite Ew, ok_bind.
  eexists. split; [done|]. split; [done|]. split.
  - rewrite Eb, be_val_be_bytes. apply Z.mod_small. pack_range. lia.
  - intros a c Ha Hc Ho. destruct (resealed_reads r 36 44 (be_bytes 8 g) a c) as (w' & Ew' & _ & Ea & _); try done; try lia.
    rewrite Ew in Ew'. injection Ew' as <-. by apply Ea.
Qed.

Lemma regenerate_all x y g kinds rs : Forall bytes_ok rs -> 0 <= g < 2 ^ 64 -> Forall2 (entry_ok x) kinds rs ->
  t_carrier_class y = t_carrier_class x -> t_session_id y = t_session_id x -> t_exchange_generation y = g ->
  exists rs', each_record (fun r => _nac1_with_generation r g) rs = Ok rs' /\ Forall2 (entry_ok y) kinds rs'.
Proof.
  intros B Hg H Ec Es Eg. induction H as [|k r kinds rs Hr _ IH]; cbn [each_record]; [by exists []|].
  apply Forall_cons in B as [Br B]. destruct (regenerate_spec r g Br ltac:(apply Hr) Hg) as (r' & -> & El & Ev & E).
  destruct (IH B) as (rs' & -> & H'). exists (r' :: rs'). split; [done|]. constructor; [|done]. by apply (entry_ok_copy x y k r r'); rewrite ?Eg.
Qed.

(** The five variations of a transcript that are accepted: the flipped payload, the next
    generation, attempt and epoch, and the other suite. *)
Definition variants (x : transcript_args) : res (list transcript_args) :=
  let generation := t_exchange_generation x in
  let attempt := t_attempt_index x in
  let epoch := t_attachment_epoch x in
  let suite := t_suite x in
  let mode := t_cookie_mode x in
  m1_idx ← find_kind KIND_EDHOC_MESSAGE_1 (t_records x);
  flipped ← flip_payload (default [] (t_records x !! m1_idx));
  moved ← each_record (fun r => _nac1_with_generation r (generation + 1)) (t_records x);
  mret [with_records (<[m1_idx := flipped]> (t_records x)) x; with_records moved (with_numbers (generation + 1) attempt epoch suite mode x);
        with_numbers generation (attempt + 1) epoch suite mode x; with_numbers generation attempt (epoch + 1) suite mode x;
        with_numbers generation attempt epoch SUITE_3 mode x].

Record variable (x : transcript_args) : Prop := {
  va_ok : transcript_ok x;
  va_bytes : Forall bytes_ok (t_records x);
  va_payload : Forall (fun r => byte_at 16 r = KIND_EDHOC_MESSAGE_1 -> NAC1_HEADER_BYTES < len r) (t_records x);
  va_suite : t_suite x = SUITE_2;
  va_room : t_exchange_generation x + 1 < 2 ^ 64 /\ t_attempt_index x + 1 < 2 ^ 32 /\ t_attachment_epoch x + 1 < 2 ^ 64 }.

(** Where the first two EDHOC messages are. *)
Definition first_message (x : transcript_args) : nat := if t_cookie_mode x =? COOKIE_MODE_INCLUDED then 2 else 0.

Lemma message_kinds x : expected_kinds (t_cookie_mode x) !! first_message x = Some KIND_EDHOC_MESSAGE_1 /\
  expected_kinds (t_cookie_mode x) !! S (first_message x) = Some KIND_EDHOC_MESSAGE_2.
Proof. unfold expected_kinds, first_message. by destruct (_ =? _). Qed.

Lemma find_messages x : transcript_ok x -> find_kind KIND_EDHOC_MESSAGE_1 (t_records x) = Ok (first_message x) /\
  find_kind KIND_EDHOC_MESSAGE_2 (t_records x) = Ok (S (first_message x)).
Proof.
  intros H. apply to_entries in H. destruct (message_kinds x) as [H1 H2].
  split; (eapply find_kind_spec; [exact H | first [exact H1 | exact H2] |]); clear; unfold expected_kinds, first_message;
    destruct (_ =? _); intros [|[|[|j]]] Hj; try lia; discriminate.
Qed.

Lemma variants_accepted x : variable x -> exists flipped moved,
  variants x = Ok [with_records (<[first_message x := flipped]> (t_records x)) x;
    with_records moved (with_numbers (t_exchange_generation x + 1) (t_attempt_index x) (t_attachment_epoch x) (t_suite x) (t_cookie_mode x) x);
    with_numbers (t_exchange_generation x) (t_attempt_index x + 1) (t_attachment_epoch x) (t_suite x) (t_cookie_mode x) x;
    with_numbers (t_exchange_generation x) (t_attempt_index x) (t_attachment_epoch x + 1) (t_suite x) (t_cookie_mode x) x;
    with_numbers (t_exchange_generation x) (t_attempt_index x) (t_attachment_epoch x) SUITE_3 (t_cookie_mode x) x] /\
  flip_payload (default [] (t_records x !! first_message x)) = Ok flipped /\
  each_record (fun r => _nac1_with_generation r (t_exchange_generation x + 1)) (t_records x) = Ok moved /\
  Forall (fun v => transcript_ok v /\ v <> x) (ok_or [] (variants x)).
Proof.
  intros [Hx Hb Hp Hs (R1 & R2 & R3)]. pose proof (find_messages x Hx) as [F1 _]. pose proof (proj1 (message_kinds x)) as K1.
  assert (Hx' := Hx). apply transcript_split in Hx as [N He].
  destruct (Forall2_lookup_l _ _ _ _ _ He K1) as (r & Er & Hr).
  pose proof (proj1 (Forall_lookup _ _) Hb _ _ Er) as Br. pose proof (proj1 (Forall_lookup _ _) Hp _ _ Er (eo_kind _ _ _ Hr)) as Lr.
  destruct (flip_spec r Br Lr) as (r' & Ef & El & En & Es).
  set (g := t_exchange_generation x + 1).
  destruct (regenerate_all x (with_numbers g (t_attempt_index x) (t_attachment_epoch x) (t_suite x) (t_cookie_mode x) x) g _ _ Hb
    ltac:(pose proof (no_generation x N); unfold g; lia) He eq_refl eq_refl eq_refl) as (rs' & Em & Hm).
  exists r', rs'.
  assert (Ev : variants x = Ok [with_records (<[first_message x := r']> (t_records x)) x;
    with_records rs' (with_numbers g (t_attempt_index x) (t_attachment_epoch x) (t_suite x) (t_cookie_mode x) x);
    with_numbers (t_exchange_generation x) (t_attempt_index x + 1) (t_attachment_epoch x) (t_suite x) (t_cookie_mode x) x;
    with_numbers (t_exchange_generation x) (t_attempt_index x) (t_attachment_epoch x + 1) (t_suite x) (t_cookie_mode x) x;
    with_numbers (t_exchange_generation x) (t_attempt_index x) (t_attachment_epoch x) SUITE_3 (t_cookie_mode x) x]).
  { unfold variants. rewrite F1, ok_bind, Er. cbn [default]. cbn. rewrite Ef, ok_bind. fold g. by rewrite Em, ok_bind. }
  split; [exact Ev|]. split; [by rewrite Er|]. split; [exact Em|]. rewrite Ev. cbn [ok_or].
  assert (C : forall y, t_carrier_class y = t_carrier_class x -> t_session_id y = t_session_id x -> t_exchange_generation y = t_exchange_generation x ->
              Forall2 (entry_ok y) (expected_kinds (t_cookie_mode x)) (t_records x)).
  { intros y E1 E2 E3. eapply Forall2_impl; [exact He|]. intros k q Hq. apply (entry_ok_copy x y k q q); try done. rewrite E3. apply Hq. }
  destruct N as [N1 N2 N3 N4 N5 N6 N7 N8].
  repeat (apply Forall_cons_2); [..|apply Forall_nil_2]; (split; [apply transcript_split; split; [split; cbn; try done; try lia | cbn]|]).
  - rewrite <- (list_insert_id _ _ _ K1). apply Forall2_insert; [by apply C|].
    apply (entry_ok_copy x _ _ r r'); try done; [intros; apply Es; lia|]. rewrite Es by lia. apply Hr.
  - intros E. apply (f_equal t_records) in E. cbn in E. apply (f_equal (.!! first_message x)) in E.
    rewrite list_lookup_insert_eq, Er in E by (by eapply lookup_lt_Some). congruence.
  - eapply Forall2_impl; [exact Hm|]. intros k q Hq. apply (entry_ok_copy _ _ k q q Hq); try done. apply Hq.
  - intros E. apply (f_equal t_exchange_generation) in E. cbn in E. lia.
  - by apply C.
  - intros E. apply (f_equal t_attempt_index) in E. cbn in E. lia.
  - by apply C.
  - intros E. apply (f_equal t_attachment_epoch) in E. cbn in E. lia.
  - by apply C.
  - intros E. apply (f_equal t_suite) in E. cbn in E. rewrite Hs in E. done.
Qed.

Lemma try_refused base id why x e : compute_carrier_transcript_digest x = Raise (ValueError e) ->
  try_negative base id why x = Ok {| n_id := id; n_digest := zeros 32; n_preimage := []; n_rejected := true; n_reason := e |}.
Proof. unfold try_negative. by intros ->. Qed.

Lemma add_accepted base id x t : compute_carrier_transcript_digest x = Ok t -> t_digest t <> base ->
  add_negative base id x = Ok {| n_id := id; n_digest := t_digest t; n_preimage := t_preimage t; n_rejected := false; n_reason := "" |}.
Proof. unfold add_negative. intros -> H. by rewrite ok_bind, bool_decide_eq_false_2. Qed.

(** Records that belong to a transcript, given in another order. *)
Lemma entries_of x y : t_carrier_class y = t_carrier_class x -> t_session_id y = t_session_id x ->
  t_exchange_generation y = t_exchange_generation x -> forall kinds rs, Forall2 (entry_ok x) kinds rs -> Forall2 (entry_ok y) kinds rs.
Proof. intros E1 E2 E3 kinds rs H. eapply Forall2_impl; [exact H|]. intros k q Hq. apply (entry_ok_copy x y k q q Hq); try done. rewrite E3. apply Hq. Qed.

Lemma swapped_refused x kinds rs i k k' : Forall kind_ok kinds -> Forall2 (entry_ok x) kinds rs -> kinds !! i = Some k -> kinds !! S i = Some k' -> k <> k' ->
  transcript_entries x kinds (swap_at i (S i) rs) = Raise (ValueError (kind_order k' k)).
Proof.
  intros Hk H Ei Ej Hn. destruct (Forall2_lookup_l _ _ _ _ _ H Ei) as (a & Ea & _), (Forall2_lookup_l _ _ _ _ _ H Ej) as (b & Eb & Hb).
  unfold swap_at. rewrite Ea, Eb. pose proof (Forall2_length _ _ _ H) as L. pose proof (lookup_lt_Some _ _ _ Ea) as La.
  rewrite <- (take_drop_middle kinds i k Ei).
  rewrite <- (take_drop_middle (<[S i := a]> (<[i := b]> rs)) i b) by (rewrite list_lookup_insert_ne by lia; by apply list_lookup_insert_eq).
  rewrite !take_insert_ge by lia. apply entries_wrong; [by apply Forall_take | by apply Forall2_take|].
  by apply (entry_wrong_kind x k k').
Qed.

Lemma refused_order x : transcript_ok x ->
  compute_carrier_transcript_digest (with_records (swap_at (first_message x) (S (first_message x)) (t_records x)) x) = Raise (ValueError "kind order 5 != 4").
Proof.
  intros [N He]%transcript_split. set (y := with_records _ x). destruct (message_kinds x) as [K1 K2].
  rewrite compute_guarded by (destruct N; by split). unfold compute_entries. cbv zeta. change (t_cookie_mode y) with (t_cookie_mode x).
  rewrite raise_if_skip.
  - change (t_records y) with (swap_at (first_message x) (S (first_message x)) (t_records x)).
    by rewrite (swapped_refused y _ _ _ _ _ (expected_kinds_ok _) (entries_of x y eq_refl eq_refl eq_refl _ _ He) K1 K2).
  - cbn. unfold swap_at, len. rewrite (Forall2_length _ _ _ He).
    destruct (t_records x !! first_message x); [|by rewrite Z.eqb_refl]. destruct (t_records x !! S _); by rewrite ?length_insert, Z.eqb_refl.
Qed.

Definition other_mode (mode : Z) : Z := if mode =? COOKIE_MODE_INCLUDED then COOKIE_MODE_ABSENT else COOKIE_MODE_INCLUDED.

Lemma refused_mode x : transcript_ok x ->
  compute_carrier_transcript_digest (with_numbers (t_exchange_generation x) (t_attempt_index x) (t_attachment_epoch x) (t_suite x) (other_mode (t_cookie_mode x)) x) =
  Raise (ValueError "entry count").
Proof.
  intros [N He]%transcript_split. pose proof (Forall2_length _ _ _ He) as L.
  rewrite compute_guarded by (destruct N as [? ? ? ? ? ? ? [E|E]]; split; cbn; try done; rewrite E; [by right | by left]).
  unfold compute_entries. cbv zeta. cbn [t_records t_cookie_mode with_numbers]. unfold len. rewrite <- L.
  destruct (no_mode x N) as [-> | ->]; reflexivity.
Qed.

(** C37. For a transcript of suite 2 whose counters are below their maximum, each of the
    five accepted variations (a flipped payload byte under a new checksum, the next
    generation, attempt or epoch, the other suite) changes the preimage; so the matrix
    of negatives is built, unless SHA-256 itself collides on one of the five, and then
    its swapped messages are refused for their order and its other cookie mode for the
    number of entries. *)
Theorem transcript_negatives_exact x t vs :
  variable x -> compute_carrier_transcript_digest x = Ok t -> variants x = Ok vs ->
  length vs = 5%nat /\
  Forall (fun v => exists u, compute_carrier_transcript_digest v = Ok u /\ t_preimage u <> t_preimage t) vs /\
  (Forall (fun v => forall u, compute_carrier_transcript_digest v = Ok u -> t_digest u <> t_digest t) vs ->
   exists ns, carrier_transcript_negatives (t_digest t) x = Ok ns /\
     map (fun n => (n_id n, n_rejected n, n_reason n)) ns =
       [("flip_message_1_payload_byte0_recrc", false, ""); ("swap_message_1_message_2_order", true, "kind order 5 != 4");
        ("exchange_generation_plus_1", false, ""); ("attempt_index_plus_1", false, ""); ("attachment_epoch_plus_1", false, "");
        ("suite_2_to_3", false, ""); ("cookie_mode_flip_same_entries", true, "entry count")]%string).
Proof.
  intros V Et Ev. destruct (variants_accepted x V) as (flipped & moved & Ev' & Ef & Em & Hv). rewrite Ev' in Ev. apply Ok_inj in Ev as Ev.
  rewrite Ev' in Hv. cbn [ok_or] in Hv. rewrite Ev in Hv. assert (Hx := va_ok x V).
  split; [by rewrite <- Ev|]. split.
  - eapply Forall_impl; [exact Hv|]. intros v [Hok Hne]. destruct (transcript_accepted v Hok) as (h & ms & _ & Eu). eexists. split; [exact Eu|].
    intros E. apply Hne. exact (transcript_preimage_inj v x Hok Hx _ _ Eu Et E).
  - intros Hd. pose proof (conj Hv Hd) as Ha. apply Forall_and in Ha. clear Hv Hd. subst vs.
    assert (A : forall id v, (transcript_ok v /\ v <> x) /\ (forall u, compute_carrier_transcript_digest v = Ok u -> t_digest u <> t_digest t) ->
                exists n, add_negative (t_digest t) id v = Ok n /\ n_id n = id /\ n_rejected n = false /\ n_reason n = ""%string).
    { intros id v [[Hok _] Hu]. destruct (transcript_accepted v Hok) as (h & ms & _ & Eu). rewrite (add_accepted _ id v _ Eu (Hu _ Eu)). by eexists. }
    repeat (apply Forall_cons in Ha; let H := fresh "V" in destruct Ha as [H Ha]). destruct (find_messages x Hx) as [F1 F2].
    destruct (A "flip_message_1_payload_byte0_recrc"%string _ V0) as (n1 & E1 & I1 & R1 & S1), (A "exchange_generation_plus_1"%string _ V1) as (n3 & E3 & I3 & R3 & S3),
      (A "attempt_index_plus_1"%string _ V2) as (n4 & E4 & I4 & R4 & S4), (A "attachment_epoch_plus_1"%string _ V3) as (n5 & E5 & I5 & R5 & S5),
      (A "suite_2_to_3"%string _ V4) as (n6 & E6 & I6 & R6 & S6).
    unfold carrier_transcript_negatives. cbv zeta. rewrite F1, ok_bind, Ef, ok_bind, E1, ok_bind. cbn [mbind res_bind].
    rewrite F2, ok_bind, (try_refused _ _ _ _ _ (refused_order x Hx)), ok_bind, Em, ok_bind, E3, ok_bind, E4, ok_bind, E5, ok_bind, E6, ok_bind.
    fold (other_mode (t_cookie_mode x)). rewrite (try_refused _ _ _ _ _ (refused_mode x Hx)), ok_bind.
    eexists. split; [done|]. cbn. by rewrite I1, R1, S1, I3, R3, S3, I4, R4, S4, I5, R5, S5, I6, R6, S6.
Qed.

(** ** A concrete exchange *)

Definition sample_entry (kind sequence : Z) (payload : bytes) : bytes :=
  ok_or [] (encode_nac1 {| kind := kind; carrier_class := 1; session_id := pattern 1 16; exchange_generation := 9; record_sequence := sequence;
    carrier_binding_digest := pattern 33 32; payload := payload |}).

Definition sample_transcript : transcript_args := {|
  t_carrier_class := 1; t_session_id := pattern 1 16; t_exchange_generation := 9; t_attempt_index := 0; t_attachment_epoch := 13;
  t_method := METHOD_STATIC_DH_BOTH; t_suite := SUITE_2; t_cookie_mode := COOKIE_MODE_INCLUDED;
  t_records := [sample_entry 1 0 (pattern 2 32); sample_entry 2 0 (pattern 3 36); sample_entry 4 1 (pattern 4 37); sample_entry 5 2 (pattern 5 45);
                sample_entry 6 3 (pattern 6 19); sample_entry 7 4 (pattern 7 9)] |}.

Definition sample_value : transcript := ok_or {| t_digest := []; t_preimage := []; t_kinds := []; t_entries := [] |}
  (compute_carrier_transcript_digest sample_transcript).

Lemma sample_computed : compute_carrier_transcript_digest sample_transcript = Ok sample_value.
Proof. apply ok_or_Ok. vm_compute. reflexivity. Qed.

Lemma sample_variants : variants sample_transcript = Ok (ok_or [] (variants sample_transcript)).
Proof. apply ok_or_Ok. vm_compute. reflexivity. Qed.

(** The byte check of a list, for concrete values. *)
Definition all_bytes (rs : list bytes) : bool := forallb (forallb (in_range 0 255)) rs.

Lemma all_bytes_ok rs : all_bytes rs = true -> Forall bytes_ok rs.
Proof.
  unfold all_bytes. rewrite forallb_forall. intros H. apply Forall_forall. intros r Hr%list_elem_of_In. specialize (H _ Hr).
  rewrite forallb_forall in H. apply Forall_forall. intros b Hb%list_elem_of_In. specialize (H _ Hb). apply in_range_spec in H. split; lia.
Qed.

Lemma sample_variable : variable sample_transcript.
Proof.
  split.
  - exact (transcript_inv _ _ sample_computed).
  - apply all_bytes_ok. vm_compute. reflexivity.
  - repeat (apply Forall_cons_2; [intros _; vm_compute; reflexivity|]). apply Forall_nil_2.
  - reflexivity.
  - vm_compute. split_and!; reflexivity.
Qed.

Lemma transcript_binds_witness : compute_carrier_transcript_digest (with_records (t_records sample_transcript) sample_transcript) = Ok sample_value /\
  t_digest sample_value = sha256 (t_preimage sample_value).
Proof. split; [exact sample_computed|]. apply (proj1 (proj2 (transcript_binds sample_transcript))). exact sample_computed. Defined.

Definition differs_from (base : bytes) (v : transcript_args) : bool :=
  match compute_carrier_transcript_digest v with Ok u => negb (bool_decide (t_digest u = base)) | Raise _ => false end.

Lemma transcript_negatives_exact_witness :
  exists ns, carrier_transcript_negatives (t_digest sample_value) sample_transcript = Ok ns /\ length ns = 7%nat.
Proof.
  destruct (transcript_negatives_exact sample_transcript sample_value _ sample_variable sample_computed sample_variants) as (_ & _ & H).
  destruct H as (ns & E & Hn); [|exists ns; split; [exact E|]; apply (f_equal length) in Hn; rewrite length_map in Hn; exact Hn].
  assert (D : forallb (differs_from (t_digest sample_value)) (ok_or [] (variants sample_transcript)) = true) by (vm_compute; reflexivity).
  rewrite forallb_forall in D. apply Forall_forall. intros v Hv%list_elem_of_In u Eu. specialize (D v Hv). unfold differs_from in D.
  rewrite Eu in D. apply negb_true_iff, bool_decide_eq_false in D. exact D.
Defined.
