(* ===== verification/Descriptor.v ===== *)
(** The records an attachment is agreed with: the context of the exchange (NAX1), the
    proposal of the device (NAP1), the install descriptor of the authority (NAI1), the
    receipt (NAT1), the durable attachment marker (N6AT) and the public-key credential
    ([tools/production_attachment_edhoc_composition.py]). *)

From S2P Require Import Prelude Bytes Crc Sha256 Layout Join Chain Sealed Prefixed Nac1 Transcript.
#[local] Open Scope Z_scope.

Definition NAP1_BYTES : Z := 208.
Definition NAI1_BYTES : Z := 416.
Definition N6AT_KEY_BYTES : Z := 20.
Definition N6AT_VALUE_BYTES : Z := 120.

(** ** The fields of a proposal and of a descriptor *)

Record nap1_fields := {
  p_proposal_id : bytes; p_initiator_stable_digest : bytes; p_site_domain : bytes; p_authority_id : bytes; p_authority_term : Z;
  p_membership_epoch : Z; p_credential_set_revision : Z; p_revocation_generation : Z; p_assignment_epoch : Z;
  p_device_hop_context_ri : Z; p_device_e2e_context_ri : Z; p_device_hop_min_key_generation_ri : Z;
  p_device_e2e_min_key_generation_ri : Z; p_e2e_security_id : bytes; p_e2e_security_epoch : Z; p_membership_grant_digest : bytes }.

Record nai1_fields := {
  attachment_id : bytes; initiator_stable_digest : bytes; responder_stable_digest : bytes; site_domain : bytes; authority_id : bytes;
  authority_term : Z; membership_epoch : Z; attachment_epoch : Z; lease_epoch : Z; lease_clock_epoch : bytes;
  lease_not_before_ms : Z; lease_expires_at_ms : Z; credential_set_revision : Z; initiator_credential_generation : Z;
  responder_credential_generation : Z; revocation_generation : Z; assignment_epoch : Z; hop_context_ir : Z; hop_context_ri : Z;
  e2e_context_ir : Z; e2e_context_ri : Z; hop_key_generation_ir : Z; hop_key_generation_ri : Z; e2e_key_generation_ir : Z;
  e2e_key_generation_ri : Z; e2e_security_id : bytes; e2e_security_epoch : Z; route_policy_digest : bytes;
  membership_grant_digest : bytes; f_carrier_transcript_digest : bytes; f_proposal_digest : bytes }.

Definition the_nap1_fields : nap1_fields := {|
  p_proposal_id := pattern 0x08 16; p_initiator_stable_digest := sha256 (bytes_of_string "initiator-stable-id");
  p_site_domain := pattern 0x20 16; p_authority_id := pattern 0x30 16; p_authority_term := 7; p_membership_epoch := 11;
  p_credential_set_revision := 19; p_revocation_generation := 31; p_assignment_epoch := 37; p_device_hop_context_ri := 43;
  p_device_e2e_context_ri := 53; p_device_hop_min_key_generation_ri := 61; p_device_e2e_min_key_generation_ri := 71;
  p_e2e_security_id := pattern 0x50 16; p_e2e_security_epoch := 73; p_membership_grant_digest := sha256 (bytes_of_string "membership-grant") |}.

Definition the_nai1_fields (proposal_digest carrier_transcript_digest : bytes) : nai1_fields := {|
  attachment_id := pattern 0x10 16; initiator_stable_digest := sha256 (bytes_of_string "initiator-stable-id");
  responder_stable_digest := sha256 (bytes_of_string "responder-stable-id"); site_domain := pattern 0x20 16;
  authority_id := pattern 0x30 16; authority_term := 7; membership_epoch := 11; attachment_epoch := 13; lease_epoch := 17;
  lease_clock_epoch := pattern 0x40 16; lease_not_before_ms := 1000000; lease_expires_at_ms := 1300000; credential_set_revision := 19;
  initiator_credential_generation := 23; responder_credential_generation := 29; revocation_generation := 31; assignment_epoch := 37;
  hop_context_ir := 41; hop_context_ri := 43; e2e_context_ir := 47; e2e_context_ri := 53; hop_key_generation_ir := 59;
  hop_key_generation_ri := 61; e2e_key_generation_ir := 67; e2e_key_generation_ri := 71; e2e_security_id := pattern 0x50 16;
  e2e_security_epoch := 73; route_policy_digest := sha256 (bytes_of_string "route-policy");
  membership_grant_digest := sha256 (bytes_of_string "membership-grant"); f_carrier_transcript_digest := carrier_transcript_digest;
  f_proposal_digest := proposal_digest |}.

(** ** NAX1, NAP1, NAI1 and NAT1 *)

(** The [struct.pack] format [>4sHHBBH16sQ32s32s32s16sQI]. *)
Definition nax1_parts (suite : Z) (session_id : bytes) (exchange_generation : Z) (initiator responder transcript authority : bytes)
    (term : Z) : list (res bytes) :=
  [Ok (bytes_of_string "NAX1"); u16 1; u16 160; u8 METHOD_STATIC_DH_BOTH; u8 suite; u16 0; Ok session_id; u64 exchange_generation;
   Ok initiator; Ok responder; Ok transcript; Ok authority; u64 term; u32 0].

Definition nap1_writes (f : nap1_fields) : list write := [
  put 0 4 (Ok (bytes_of_string "NAP1")); put 4 6 (u16 1); put 6 8 (u16 NAP1_BYTES); put 8 12 (Ok (zeros 4));
  put_byte 12 METHOD_STATIC_DH_BOTH; put_byte 13 SUITE_2; put_byte 14 1; put_byte 15 0;
  put 16 32 (Ok (p_proposal_id f)); put 32 64 (Ok (p_initiator_stable_digest f)); put 64 80 (Ok (p_site_domain f));
  put 80 96 (Ok (p_authority_id f)); put 96 104 (u64 (p_authority_term f)); put 104 112 (u64 (p_membership_epoch f));
  put 112 120 (u64 (p_credential_set_revision f)); put 120 124 (u32 (p_revocation_generation f));
  put 124 128 (u32 (p_assignment_epoch f)); put 128 132 (u32 (p_device_hop_context_ri f)); put 132 136 (u32 (p_device_e2e_context_ri f));
  put 136 144 (u64 (p_device_hop_min_key_generation_ri f)); put 144 152 (u64 (p_device_e2e_min_key_generation_ri f));
  put 152 168 (Ok (p_e2e_security_id f)); put 168 176 (u64 (p_e2e_security_epoch f)); put 176 208 (Ok (p_membership_grant_digest f))].

Definition make_nap1 : res (bytes * nap1_fields) :=
  proposal ← run_writes (nap1_writes the_nap1_fields) (zeros NAP1_BYTES);
  mret (proposal, the_nap1_fields).

Definition nai1_writes (f : nai1_fields) : list write := [
  put 0 4 (Ok (bytes_of_string "NAI1")); put 4 6 (u16 1); put 6 8 (u16 NAI1_BYTES); put 8 12 (u32 0);
  put_byte 12 SUITE_2; put_byte 13 METHOD_STATIC_DH_BOTH; put_byte 14 4; put_byte 15 0;
  put 16 32 (Ok (attachment_id f)); put 32 64 (Ok (initiator_stable_digest f)); put 64 96 (Ok (responder_stable_digest f));
  put 96 112 (Ok (site_domain f)); put 112 128 (Ok (authority_id f)); put 128 136 (u64 (authority_term f));
  put 136 144 (u64 (membership_epoch f)); put 144 152 (u64 (attachment_epoch f)); put 152 160 (u64 (lease_epoch f));
  put 160 176 (Ok (lease_clock_epoch f)); put 176 184 (u64 (lease_not_before_ms f)); put 184 192 (u64 (lease_expires_at_ms f));
  put 192 200 (u64 (credential_set_revision f)); put 200 204 (u32 (initiator_credential_generation f));
  put 204 208 (u32 (responder_credential_generation f)); put 208 212 (u32 (revocation_generation f));
  put 212 216 (u32 (assignment_epoch f)); put 216 220 (u32 (hop_context_ir f)); put 220 224 (u32 (hop_context_ri f));
  put 224 228 (u32 (e2e_context_ir f)); put 228 232 (u32 (e2e_context_ri f)); put 232 240 (u64 (hop_key_generation_ir f));
  put 240 248 (u64 (hop_key_generation_ri f)); put 248 256 (u64 (e2e_key_generation_ir f)); put 256 264 (u64 (e2e_key_generation_ri f));
  put 264 280 (Ok (e2e_security_id f)); put 280 288 (u64 (e2e_security_epoch f)); put 288 320 (Ok (route_policy_digest f));
  put 320 352 (Ok (membership_grant_digest f)); put 352 384 (Ok (f_carrier_transcript_digest f)); put 384 416 (Ok (f_proposal_digest f))].

Definition make_nai1 (proposal_digest carrier_transcript_digest : bytes) : res (bytes * nai1_fields) :=
  raise_if (negb (len carrier_transcript_digest =? 32) || negb (any_nonzero carrier_transcript_digest)) (ValueError "carrier_transcript_digest");;
  let fields := the_nai1_fields proposal_digest carrier_transcript_digest in
  descriptor ← run_writes (nai1_writes fields) (zeros NAI1_BYTES);
  mret (descriptor, fields).

(** The [struct.pack] format [>4sHH32s16sQQQQII]. *)
Definition nat1_parts (install_digest attachment : bytes) (membership attachment_epoch e2e_epoch lease assignment : Z) : list (res bytes) :=
  [Ok (bytes_of_string "NAT1"); u16 1; u16 96; Ok install_digest; Ok attachment; u64 membership; u64 attachment_epoch; u64 e2e_epoch;
   u64 lease; u32 assignment; u32 0].

(** A [struct.pack] field [Ns] pads or cuts its value to N bytes. *)
Definition fixed (n : Z) (v : bytes) : bytes := slice 0 n v ++ zeros (n - len v).

Definition make_nax1 (suite : Z) (session_id : bytes) (exchange_generation : Z) (initiator responder transcript authority : bytes) (term : Z) : res bytes :=
  join (nax1_parts suite (fixed 16 session_id) exchange_generation (fixed 32 initiator) (fixed 32 responder) (fixed 32 transcript) (fixed 16 authority) term).

Definition make_nat1 (install_digest attachment : bytes) (membership attachment_epoch e2e_epoch lease assignment : Z) : res bytes :=
  join (nat1_parts (fixed 32 install_digest) (fixed 16 attachment) membership attachment_epoch e2e_epoch lease assignment).

(** ** The public-key credential *)

Definition cbor_bstr (value : bytes) : res bytes :=
  let length := len value in
  if length <? 24 then a ← pybyte (Z.lor 0x40 length); mret (a ++ value)
  else if length <? 256 then n ← pybyte length; mret (0x58 :: n ++ value)
  else Raise (ValueError "cbor bstr length").

Definition ccs_parts (kid x y : bytes) : list (res bytes) :=
  [Ok [0xA1; 0x08]; Ok [0xA1; 0x01]; Ok [0xA5]; Ok [0x01; 0x02]; Ok [0x02]; cbor_bstr kid; Ok [0x20; 0x01]; Ok [0x21]; cbor_bstr x;
   Ok [0x22]; cbor_bstr y].

Definition make_ccs_rpk (kid x y : bytes) : res bytes :=
  raise_if (negb (in_range 1 8 (len kid)) || negb (len x =? 32) || negb (len y =? 32)) (ValueError "CCS RPK fields");;
  join (ccs_parts kid x y).

(** ** The attachment marker *)

Record n6at_args := {
  local_role : Z; state : Z; m_attachment_id : bytes; m_membership_epoch : Z; m_attachment_epoch : Z; m_install_digest : bytes;
  m_authority_term : Z; m_lease_epoch : Z; m_e2e_security_epoch : Z; m_credential_set_revision : Z; m_revocation_generation : Z;
  m_assignment_epoch : Z }.

Definition n6at_key (role : Z) (attachment : bytes) : res bytes := join [u8 5; u8 role; u8 1; u8 0; Ok (fixed 16 attachment)].

Definition n6at_writes (a : n6at_args) : list write := [
  put 0 4 (Ok (bytes_of_string "N6AT")); put 4 6 (u16 1); put 6 8 (u16 N6AT_VALUE_BYTES); put_byte 8 (state a); put_byte 9 (local_role a);
  put 10 12 (Ok (zeros 2)); put 12 28 (Ok (m_attachment_id a)); put 28 36 (u64 (m_membership_epoch a)); put 36 44 (u64 (m_attachment_epoch a));
  put 44 52 (u64 (m_lease_epoch a)); put 52 60 (u64 (m_e2e_security_epoch a)); put 60 68 (u64 (m_authority_term a));
  put 68 76 (u64 (m_credential_set_revision a)); put 76 80 (u32 (m_revocation_generation a)); put 80 84 (u32 (m_assignment_epoch a));
  put 84 116 (Ok (m_install_digest a))] ++ [put_prefix_crc crc32c 116 116].

Definition make_n6at (a : n6at_args) : res (bytes * bytes) :=
  raise_if (negb (in_range 1 2 (local_role a)) || negb (in_range 1 3 (state a))) (ValueError "N6AT role/state");;
  key ← n6at_key (local_role a) (m_attachment_id a);
  value ← run_writes (n6at_writes a) (zeros N6AT_VALUE_BYTES);
  mret (key, value).

Definition make_n6at_third_from_pending (pending_value : bytes) : res bytes :=
  run_writes [put_byte 8 3; put_prefix_crc crc32c 116 116] pending_value.

(** ** The install descriptor *)

Record nai1_ok (f : nai1_fields) : Prop := {
  io_raw16 : raw 16 (attachment_id f) /\ raw 16 (site_domain f) /\ raw 16 (authority_id f) /\ raw 16 (lease_clock_epoch f) /\ raw 16 (e2e_security_id f);
  io_raw32 : raw 32 (initiator_stable_digest f) /\ raw 32 (responder_stable_digest f) /\ raw 32 (route_policy_digest f) /\
             raw 32 (membership_grant_digest f) /\ raw 32 (f_carrier_transcript_digest f) /\ raw 32 (f_proposal_digest f);
  io_u64 : Forall u64_ok [authority_term f; membership_epoch f; attachment_epoch f; lease_epoch f; lease_not_before_ms f; lease_expires_at_ms f;
             credential_set_revision f; hop_key_generation_ir f; hop_key_generation_ri f; e2e_key_generation_ir f; e2e_key_generation_ri f; e2e_security_epoch f];
  io_u32 : Forall u32_ok [initiator_credential_generation f; responder_credential_generation f; revocation_generation f; assignment_epoch f;
             hop_context_ir f; hop_context_ri f; e2e_context_ir f; e2e_context_ri f] }.

(** Every field at its offset. *)
Record nai1_holds (f : nai1_fields) (d : bytes) : Prop := {
  ih_size : len d = NAI1_BYTES /\ bytes_ok d;
  ih_head : slice 0 4 d = bytes_of_string "NAI1" /\ be_val (slice 4 6 d) = 1 /\ be_val (slice 6 8 d) = NAI1_BYTES /\
            slice 12 13 d = [SUITE_2] /\ slice 13 14 d = [METHOD_STATIC_DH_BOTH];
  ih_ids : slice 16 32 d = attachment_id f /\ slice 32 64 d = initiator_stable_digest f /\ slice 64 96 d = responder_stable_digest f /\
           slice 96 112 d = site_domain f /\ slice 112 128 d = authority_id f /\ slice 160 176 d = lease_clock_epoch f /\
           slice 264 280 d = e2e_security_id f;
  ih_epochs : be_val (slice 128 136 d) = authority_term f /\ be_val (slice 136 144 d) = membership_epoch f /\
              be_val (slice 144 152 d) = attachment_epoch f /\ be_val (slice 152 160 d) = lease_epoch f /\
              be_val (slice 176 184 d) = lease_not_before_ms f /\ be_val (slice 184 192 d) = lease_expires_at_ms f /\
              be_val (slice 192 200 d) = credential_set_revision f /\ be_val (slice 200 204 d) = initiator_credential_generation f /\
              be_val (slice 204 208 d) = responder_credential_generation f /\ be_val (slice 208 212 d) = revocation_generation f /\
              be_val (slice 212 216 d) = assignment_epoch f /\ be_val (slice 280 288 d) = e2e_security_epoch f;
  ih_contexts : be_val (slice 216 220 d) = hop_context_ir f /\ be_val (slice 220 224 d) = hop_context_ri f /\
                be_val (slice 224 228 d) = e2e_context_ir f /\ be_val (slice 228 232 d) = e2e_context_ri f /\
                be_val (slice 232 240 d) = hop_key_generation_ir f /\ be_val (slice 240 248 d) = hop_key_generation_ri f /\
                be_val (slice 248 256 d) = e2e_key_generation_ir f /\ be_val (slice 256 264 d) = e2e_key_generation_ri f;
  ih_digests : slice 288 320 d = route_policy_digest f /\ slice 320 352 d = membership_grant_digest f /\
               slice 352 384 d = f_carrier_transcript_digest f /\ slice 384 416 d = f_proposal_digest f }.

Ltac split_foralls :=
  repeat match goal with
  | H : Forall _ (_ :: _) |- _ => apply Forall_cons in H as [? H]
  | H : Forall _ [] |- _ => clear H
  | H : raw _ _ |- _ => destruct H
  | H : _ /\ _ |- _ => destruct H
  end.

Lemma nai1_built f : nai1_ok f -> exists d, run_writes (nai1_writes f) (zeros NAI1_BYTES) = Ok d /\ nai1_holds f d.
Proof.
  intros [H1 H2 H3 H4]. split_foralls. unfold u64_ok, u32_ok in *.
  assert (S : Forall (sized NAI1_BYTES) (nai1_writes f)) by (unfold nai1_writes, NAI1_BYTES; solve_sized).
  assert (T : Forall (total NAI1_BYTES) (nai1_writes f))
    by (unfold nai1_writes, NAI1_BYTES, SUITE_2, METHOD_STATIC_DH_BOTH; solve_total).
  assert (L : len (zeros NAI1_BYTES) = NAI1_BYTES) by done.
  destruct (run_writes_total _ _ _ S T L (zeros_ok _)) as (d & Hd & Ld & Bd). exists d. split; [done|].
  split; [done | ..]; split_and!; read_field S L Hd.
Qed.

(** The proposal, on its own fields. *)
Record nap1_holds (f : nap1_fields) (p : bytes) : Prop := {
  ph_size : len p = NAP1_BYTES /\ bytes_ok p;
  ph_ids : slice 0 4 p = bytes_of_string "NAP1" /\ slice 16 32 p = p_proposal_id f /\ slice 32 64 p = p_initiator_stable_digest f /\
           slice 64 80 p = p_site_domain f /\ slice 80 96 p = p_authority_id f /\ slice 152 168 p = p_e2e_security_id f /\
           slice 176 208 p = p_membership_grant_digest f;
  ph_epochs : be_val (slice 96 104 p) = p_authority_term f /\ be_val (slice 104 112 p) = p_membership_epoch f /\
              be_val (slice 112 120 p) = p_credential_set_revision f /\ be_val (slice 120 124 p) = p_revocation_generation f /\
              be_val (slice 124 128 p) = p_assignment_epoch f /\ be_val (slice 168 176 p) = p_e2e_security_epoch f;
  ph_contexts : be_val (slice 128 132 p) = p_device_hop_context_ri f /\ be_val (slice 132 136 p) = p_device_e2e_context_ri f /\
                be_val (slice 136 144 p) = p_device_hop_min_key_generation_ri f /\
                be_val (slice 144 152 p) = p_device_e2e_min_key_generation_ri f }.

Record nap1_ok (f : nap1_fields) : Prop := {
  po_raw : raw 16 (p_proposal_id f) /\ raw 32 (p_initiator_stable_digest f) /\ raw 16 (p_site_domain f) /\ raw 16 (p_authority_id f) /\
           raw 16 (p_e2e_security_id f) /\ raw 32 (p_membership_grant_digest f);
  po_u64 : Forall u64_ok [p_authority_term f; p_membership_epoch f; p_credential_set_revision f; p_device_hop_min_key_generation_ri f;
             p_device_e2e_min_key_generation_ri f; p_e2e_security_epoch f];
  po_u32 : Forall u32_ok [p_revocation_generation f; p_assignment_epoch f; p_device_hop_context_ri f; p_device_e2e_context_ri f] }.

Lemma nap1_built f : nap1_ok f -> exists p, run_writes (nap1_writes f) (zeros NAP1_BYTES) = Ok p /\ nap1_holds f p.
Proof.
  intros [H1 H2 H3]. split_foralls. unfold u64_ok, u32_ok in *.
  assert (S : Forall (sized NAP1_BYTES) (nap1_writes f)) by (unfold nap1_writes, NAP1_BYTES; solve_sized).
  assert (T : Forall (total NAP1_BYTES) (nap1_writes f)) by (unfold nap1_writes, NAP1_BYTES, SUITE_2, METHOD_STATIC_DH_BOTH; solve_total).
  assert (L : len (zeros NAP1_BYTES) = NAP1_BYTES) by done.
  destruct (run_writes_total _ _ _ S T L (zeros_ok _)) as (p & Hp & Lp & Bp). exists p. split; [done|].
  split; [done | ..]; split_and!; read_field S L Hp.
Qed.

(** Literal fields: patterns, hashes and small numbers. *)
Ltac solve_literal :=
  repeat first
    [ apply Forall_nil_2 | apply Forall_cons_2 | (apply raw_pattern; done) | apply raw_sha | assumption | split; vm_compute; [discriminate | reflexivity] | split ].

Lemma the_nap1_ok : nap1_ok the_nap1_fields.
Proof. split; cbn; solve_literal. Qed.

Lemma the_nai1_ok pd td : raw 32 pd -> raw 32 td -> nai1_ok (the_nai1_fields pd td).
Proof. intros Hp Ht. split; cbn; solve_literal. Qed.

(** What the authority installs is what the device proposed. *)
Record agrees (p d : bytes) : Prop := {
  ag_identity : slice 32 64 d = slice 32 64 p /\ slice 96 112 d = slice 64 80 p /\ slice 112 128 d = slice 80 96 p /\ slice 264 280 d = slice 152 168 p;
  ag_epochs : slice 128 136 d = slice 96 104 p /\ slice 136 144 d = slice 104 112 p /\ slice 192 200 d = slice 112 120 p /\
              slice 208 212 d = slice 120 124 p /\ slice 212 216 d = slice 124 128 p /\ slice 280 288 d = slice 168 176 p;
  ag_contexts : slice 220 224 d = slice 128 132 p /\ slice 228 232 d = slice 132 136 p;
  ag_generations : be_val (slice 136 144 p) <= be_val (slice 240 248 d) /\ be_val (slice 144 152 p) <= be_val (slice 256 264 d);
  ag_grant : slice 320 352 d = slice 176 208 p }.

(** C39. For a proposal digest of 32 bytes the install descriptor is built exactly when
    the transcript digest is 32 bytes and not zero.  It is then 416 bytes, holds every
    field at its offset, the transcript digest at 352 and the proposal digest at 384
    among them, and agrees with the proposal of the device on everything both carry:
    identities, epochs, the inbound contexts and the least key generations. *)
Theorem descriptor_exact pd td :
  raw 32 pd -> bytes_ok td ->
  (len td = 32 /\ any_nonzero td = true ->
   exists d p, make_nai1 pd td = Ok (d, the_nai1_fields pd td) /\ nai1_holds (the_nai1_fields pd td) d /\
     slice 352 384 d = td /\ slice 384 416 d = pd /\ make_nap1 = Ok (p, the_nap1_fields) /\ nap1_holds the_nap1_fields p /\ agrees p d) /\
  (~ (len td = 32 /\ any_nonzero td = true) -> make_nai1 pd td = Raise (ValueError "carrier_transcript_digest")).
Proof.
  intros Hp Ht. unfold make_nai1. split.
  - intros [Hl Hz]. rewrite raise_if_skip by (by rewrite Hl, Hz). cbv zeta.
    destruct (nai1_built _ (the_nai1_ok pd td Hp (conj Hl Ht))) as (d & Ed & Hd), (nap1_built _ the_nap1_ok) as (p & Ep & Hq).
    exists d, p. rewrite Ed, ok_bind. unfold make_nap1. rewrite Ep, ok_bind. split; [done|]. split; [done|].
    destruct Hd as [[Ld Bd] _ Hi He Hc Hg], Hq as [[Lp Bp] Qi Qe Qc]. unfold NAI1_BYTES, NAP1_BYTES in *. split_foralls. split; [done|]. split; [done|]. split; [done|]. split.
    + by split.
    + assert (E : forall a c x y v, 0 <= a <= c -> c <= 416 -> 0 <= x <= y -> y <= 208 -> c - a = y - x -> be_val (slice a c d) = v -> be_val (slice x y p) = v ->
                  slice a c d = slice x y p).
      { intros a c x y v ? ? ? ? Hw Hv1 Hv2. apply be_val_inj; [by apply bytes_ok_slice..| rewrite !len_slice by lia; done | congruence]. }
      split; cbn in *; try split_and!; first [eapply E; [lia.. | eassumption | eassumption] | congruence | lia].
  - intros Hn. destruct (negb (len td =? 32) || negb (any_nonzero td)) eqn:E; [done|]. bool_to_prop. by destruct Hn.
Qed.

(** ** The attachment marker *)

Record n6at_ok (a : n6at_args) : Prop := {
  mo_ids : raw 16 (m_attachment_id a) /\ raw 32 (m_install_digest a);
  mo_u64 : Forall u64_ok [m_membership_epoch a; m_attachment_epoch a; m_lease_epoch a; m_e2e_security_epoch a; m_authority_term a; m_credential_set_revision a];
  mo_u32 : Forall u32_ok [m_revocation_generation a; m_assignment_epoch a] }.

Record n6at_holds (a : n6at_args) (k v : bytes) : Prop := {
  mh_size : len k = N6AT_KEY_BYTES /\ len v = N6AT_VALUE_BYTES /\ bytes_ok v;
  mh_key : k = [5; local_role a; 1; 0] ++ m_attachment_id a;
  mh_head : slice 0 4 v = bytes_of_string "N6AT" /\ be_val (slice 4 6 v) = 1 /\ be_val (slice 6 8 v) = N6AT_VALUE_BYTES /\ slice 8 9 v = [state a] /\ slice 9 10 v = [local_role a] /\ slice 10 12 v = zeros 2;
  mh_fields : slice 12 28 v = m_attachment_id a /\ be_val (slice 28 36 v) = m_membership_epoch a /\ be_val (slice 36 44 v) = m_attachment_epoch a /\
              be_val (slice 44 52 v) = m_lease_epoch a /\ be_val (slice 52 60 v) = m_e2e_security_epoch a /\
              be_val (slice 60 68 v) = m_authority_term a /\ be_val (slice 68 76 v) = m_credential_set_revision a /\
              be_val (slice 76 80 v) = m_revocation_generation a /\ be_val (slice 80 84 v) = m_assignment_epoch a /\
              slice 84 116 v = m_install_digest a;
  mh_sealed : prefix_sealed crc32c 116 v }.

Lemma fixed_exact n v : len v = n -> fixed n v = v.
Proof. intros <-. unfold fixed. rewrite slice_all, Z.sub_diag. apply app_nil_r. Qed.

Definition with_state (s : Z) (a : n6at_args) : n6at_args := {|
  local_role := local_role a; state := s; m_attachment_id := m_attachment_id a; m_membership_epoch := m_membership_epoch a;
  m_attachment_epoch := m_attachment_epoch a; m_install_digest := m_install_digest a; m_authority_term := m_authority_term a;
  m_lease_epoch := m_lease_epoch a; m_e2e_security_epoch := m_e2e_security_epoch a; m_credential_set_revision := m_credential_set_revision a;
  m_revocation_generation := m_revocation_generation a; m_assignment_epoch := m_assignment_epoch a |}.

Lemma n6at_built a : n6at_ok a -> 1 <= local_role a <= 2 -> 1 <= state a <= 3 ->
  exists k v, make_n6at a = Ok (k, v) /\ n6at_holds a k v.
Proof.
  intros [[[L1 B1] [L2 B2]] H3 H4] Hr Hs. split_foralls. unfold u64_ok, u32_ok in *.
  assert (S : Forall (sized N6AT_VALUE_BYTES) (n6at_writes a)) by (unfold n6at_writes, N6AT_VALUE_BYTES; solve_sized).
  assert (T : Forall (total N6AT_VALUE_BYTES) (n6at_writes a)) by (unfold n6at_writes, N6AT_VALUE_BYTES; solve_total).
  assert (L : len (zeros N6AT_VALUE_BYTES) = N6AT_VALUE_BYTES) by done.
  destruct (run_writes_total _ _ _ S T L (zeros_ok _)) as (v & Hv & Lv & Bv).
  exists ([5; local_role a; 1; 0] ++ m_attachment_id a), v. unfold make_n6at.
  rewrite raise_if_skip by (rewrite (proj2 (in_range_spec 1 2 (local_role a))), (proj2 (in_range_spec 1 3 (state a))) by lia; done).
  assert (Ek : n6at_key (local_role a) (m_attachment_id a) = Ok ([5; local_role a; 1; 0] ++ m_attachment_id a)).
  { unfold n6at_key. rewrite fixed_exact by done. unfold u8. cbn [join]. rewrite !pack_bind by (pack_range; lia).
    unfold be_bytes. cbn. change (256 ^ Z.of_nat 0) with 1. unfold mret, res_ret.
    rewrite app_nil_r, !Z.div_1_r, (Z.mod_small (local_role a)) by lia. reflexivity. }
  rewrite Ek, ok_bind, Hv, ok_bind. split; [done|]. split.
  - split; [rewrite len_app, L1; done | done].
  - done.
  - split_and!; read_field S L Hv || idtac.
    + pose proof (read_index _ _ _ _ S L Hv 8 _ _ eq_refl) as K. apply pybyte_Ok in K as [_ K]. done.
    + pose proof (read_index _ _ _ _ S L Hv 9 _ _ eq_refl) as K. apply pybyte_Ok in K as [_ K]. done.
  - split_and!; read_field S L Hv.
  - unfold n6at_writes in Hv, S. eapply (run_prefix_sealed crc32c); [apply Forall_app in S as [S _]; exact S | | | exact L | apply zeros_ok | exact Hv]; done.
Qed.

Lemma slices_join (v w : bytes) a b c : 0 <= a <= b -> b <= c -> slice a b v = slice a b w -> slice b c v = slice b c w -> slice a c v = slice a c w.
Proof. intros H1 H2 E1 E2. rewrite (slice_split a b c v), (slice_split a b c w) by done. by rewrite E1, E2. Qed.

Lemma be_slices_eq (v w : bytes) a c x : bytes_ok v -> bytes_ok w -> len v = len w -> 0 <= a <= c -> c <= len v ->
  be_val (slice a c v) = x -> be_val (slice a c w) = x -> slice a c v = slice a c w.
Proof. intros Bv Bw L H1 H2 E1 E2. apply be_val_inj; [by apply bytes_ok_slice.. | rewrite !len_slice by lia; done | congruence]. Qed.

(** Two markers of one attachment differ in the state byte and the checksum only. *)
Lemma markers_agree a s k k' v v' : n6at_holds a k v -> n6at_holds (with_state s a) k' v' ->
  k = k' /\ slice 0 8 v = slice 0 8 v' /\ slice 9 116 v = slice 9 116 v'.
Proof.
  intros [[_ [L B]] K Hh Hf _] [[_ [L' B']] K' Hh' Hf' _]. unfold N6AT_VALUE_BYTES in *. split_foralls. cbn [with_state local_role state m_attachment_id
    m_membership_epoch m_attachment_epoch m_install_digest m_authority_term m_lease_epoch m_e2e_security_epoch m_credential_set_revision
    m_revocation_generation m_assignment_epoch] in *.
  assert (E : forall x y n, 0 <= x <= y -> y <= 120 -> be_val (slice x y v) = n -> be_val (slice x y v') = n -> slice x y v = slice x y v')
    by (intros x y n ? ? ? ?; apply (be_slices_eq v v' x y n); done || lia).
  assert (J : forall x y z, 0 <= x <= y -> y <= z -> slice x y v = slice x y v' -> slice y z v = slice y z v' -> slice x z v = slice x z v')
    by (intros; by apply (slices_join v v' x y z)).
  split; [congruence|]. split.
  - apply (J 0 4 8); [lia | lia | congruence|]. apply (J 4 6 8); [lia | lia | eapply E; eassumption || lia | eapply E; eassumption || lia].
  - apply (J 9 10 116); [lia | lia | congruence|]. apply (J 10 12 116); [lia | lia | congruence|]. apply (J 12 28 116); [lia | lia | congruence|].
    apply (J 28 36 116); [lia | lia | eapply E; eassumption || lia|]. apply (J 36 44 116); [lia | lia | eapply E; eassumption || lia|].
    apply (J 44 52 116); [lia | lia | eapply E; eassumption || lia|]. apply (J 52 60 116); [lia | lia | eapply E; eassumption || lia|].
    apply (J 60 68 116); [lia | lia | eapply E; eassumption || lia|]. apply (J 68 76 116); [lia | lia | eapply E; eassumption || lia|].
    apply (J 76 80 116); [lia | lia | eapply E; eassumption || lia|]. apply (J 80 84 116); [lia | lia | eapply E; eassumption || lia|]. congruence.
Qed.

(** The state byte set and the checksum recomputed: the only sealed marker with that state
    and the other bytes of this one. *)
Lemma third_built v w : len v = N6AT_VALUE_BYTES -> bytes_ok v -> len w = N6AT_VALUE_BYTES -> bytes_ok w -> prefix_sealed crc32c 116 w ->
  slice 8 9 w = [3] -> slice 0 8 v = slice 0 8 w -> slice 9 116 v = slice 9 116 w -> make_n6at_third_from_pending v = Ok w.
Proof.
  unfold N6AT_VALUE_BYTES. intros Lv Bv Lw Bw Sw H8 H0 H9. unfold make_n6at_third_from_pending.
  assert (S : Forall (sized 120) [put_byte 8 3; put_prefix_crc crc32c 116 116]) by solve_sized.
  assert (T : Forall (total 120) [put_byte 8 3; put_prefix_crc crc32c 116 116]) by solve_total.
  destruct (run_writes_total _ _ _ S T Lv Bv) as (u & Hu & Lu & Bu). rewrite Hu. f_equal.
  assert (E : slice 0 116 u = slice 0 116 w).
  { apply (slices_join u w 0 8 116); [lia | lia | by rewrite <- H0; apply (run_writes_apart _ _ _ _ S Lv Hu)|].
    apply (slices_join u w 8 9 116); [lia | lia | |by rewrite <- H9; apply (run_writes_apart _ _ _ _ S Lv Hu)].
    pose proof (read_index _ _ _ _ S Lv Hu 8 _ _ eq_refl) as K. apply pybyte_Ok in K as [_ K]. change (8 + 1) with 9 in K. congruence. }
  assert (Su : prefix_sealed crc32c 116 u)
    by (eapply (run_prefix_sealed crc32c 120 [put_byte 8 3]); [apply Forall_cons in S as [S _]; by constructor | lia | lia | exact Lv | exact Bv | exact Hu]).
  apply (window_eq 116 120); try lia; [done | | by rewrite Lu, Lw; unfold slice; rewrite Z.sub_diag].
  apply be_val_inj; [by apply bytes_ok_slice.. | rewrite !len_slice by lia; done|]. unfold prefix_sealed in *. change (116 + 4) with 120 in *. congruence.
Qed.

(** The marker of an attachment is built exactly for a known role and state, under
    the key of its role and attachment, and holds every field behind a checksum.
    Changing its state changes the state byte and the checksum only, and the third
    state is made from the pending marker as if it had been built. *)
Theorem marker_exact a :
  n6at_ok a ->
  (1 <= local_role a <= 2 /\ 1 <= state a <= 3 -> exists k v, make_n6at a = Ok (k, v) /\ n6at_holds a k v) /\
  (~ (1 <= local_role a <= 2 /\ 1 <= state a <= 3) -> make_n6at a = Raise (ValueError "N6AT role/state")) /\
  (forall s k v k' v', make_n6at a = Ok (k, v) -> make_n6at (with_state s a) = Ok (k', v') ->
     k' = k /\ slice 0 8 v' = slice 0 8 v /\ slice 9 116 v' = slice 9 116 v /\ (s = 3 -> make_n6at_third_from_pending v = Ok v')).
Proof.
  intros Ha.
  assert (R : forall b, n6at_ok b -> ~ (1 <= local_role b <= 2 /\ 1 <= state b <= 3) -> make_n6at b = Raise (ValueError "N6AT role/state")).
  { intros b _ Hn. unfold make_n6at. destruct (negb (in_range 1 2 (local_role b)) || negb (in_range 1 3 (state b))) eqn:E; [done|].
    apply orb_false_iff in E as [E1%negb_false_iff%in_range_spec E2%negb_false_iff%in_range_spec]. by destruct Hn. }
  assert (H : forall b k v, n6at_ok b -> make_n6at b = Ok (k, v) -> n6at_holds b k v /\ 1 <= state b <= 3).
  { intros b k v Hb E. destruct (decide (1 <= local_role b <= 2 /\ 1 <= state b <= 3)) as [[H1 H2]|Hn]; [|by rewrite (R b Hb Hn) in E].
    destruct (n6at_built b Hb H1 H2) as (k' & v' & E' & Hh). rewrite E' in E. by injection E as <- <-. }
  split; [intros [H1 H2]; by apply n6at_built|]. split; [by apply R|].
  intros s k v k' v' E E'. assert (Ha' : n6at_ok (with_state s a)) by (by destruct Ha).
  destruct (H _ _ _ Ha E) as [Hv _], (H _ _ _ Ha' E') as [Hv' _]. destruct (markers_agree a s k k' v v' Hv Hv') as (-> & E1 & E2).
  split; [done|]. split; [done|]. split; [done|]. intros ->. destruct Hv as [[_ [L B]] _ _ _ _], Hv' as [[_ [L' B']] _ Hh' _ S'].
  apply third_built; try done. split_foralls. done.
Qed.

(** ** The credential *)

Lemma cbor_bstr_Ok v : len v < 24 -> cbor_bstr v = Ok ((0x40 + len v) :: v).
Proof.
  intros H. pose proof (len_nonneg v) as Hn. unfold cbor_bstr. cbv zeta. rewrite (proj2 (Z.ltb_lt _ _)) by done.
  assert (E : Z.lor 0x40 (len v) = 0x40 + len v).
  { assert (D : len v ∈ [0;1;2;3;4;5;6;7;8;9;10;11;12;13;14;15;16;17;18;19;20;21;22;23]).
    { destruct (decide (len v ∈ [0;1;2;3;4;5;6;7;8;9;10;11;12;13;14;15;16;17;18;19;20;21;22;23])) as [|Hd]; [done|]. exfalso.
      rewrite !not_elem_of_cons in Hd. lia. }
    rewrite !elem_of_cons in D. repeat (destruct D as [-> | D]; [done|]). by apply elem_of_nil in D. }
  rewrite E, (proj2 (pybyte_Ok _ [0x40 + len v])) by (split; [split; lia | done]). done.
Qed.

Lemma cbor_bstr_long v : 24 <= len v < 256 -> cbor_bstr v = Ok (0x58 :: len v :: v).
Proof.
  intros H. unfold cbor_bstr. cbv zeta. rewrite (proj2 (Z.ltb_ge _ _)) by lia. rewrite (proj2 (Z.ltb_lt _ _)) by lia.
  by rewrite (proj2 (pybyte_Ok _ [len v])) by (split; [split; lia | done]).
Qed.

(** The CBOR byte strings end themselves. *)
Lemma locked_cbor v w : locked (cbor_bstr v) (cbor_bstr w).
Proof.
  pose proof (len_nonneg v) as Nv. pose proof (len_nonneg w) as Nw.
  assert (R : forall u x, cbor_bstr u = Ok x -> len u < 24 /\ x = (0x40 + len u) :: u \/ 24 <= len u < 256 /\ x = 0x58 :: len u :: u).
  { intros u x E. destruct (Z.lt_ge_cases (len u) 24) as [H|H]; [left; rewrite cbor_bstr_Ok in E by done; by injection E as <-|].
    destruct (Z.lt_ge_cases (len u) 256) as [H'|H']; [right; rewrite cbor_bstr_long in E by lia; by injection E as <-|].
    unfold cbor_bstr in E. cbv zeta in E. rewrite (proj2 (Z.ltb_ge _ _)) in E by lia. rewrite (proj2 (Z.ltb_ge _ _)) in E by lia. done. }
  intros x y r s [[Hv ->]|[Hv ->]]%R [[Hw ->]|[Hw ->]]%R E; cbn [app] in E; pose proof (f_equal (hd 0) E) as E0; cbn in E0; try lia.
  - pose proof (f_equal tail E) as E1. cbn [tail] in E1. apply app_inj_1 in E1 as [-> ->]; [done|]. unfold len in *. lia.
  - pose proof (f_equal (fun l => hd 0 (tail l)) E) as E1. pose proof (f_equal (fun l => tail (tail l)) E) as E2. cbn in E1, E2.
    apply app_inj_1 in E2 as [-> ->]; [done|]. unfold len in *. lia.
Qed.

Lemma cbor_inj v w x : cbor_bstr v = Ok x -> cbor_bstr v = cbor_bstr w -> v = w.
Proof.
  intros Ev E. assert (Ew := Ev). rewrite E in Ew.
  assert (R : forall u y, cbor_bstr u = Ok y -> y = (0x40 + len u) :: u /\ len u < 24 \/ y = 0x58 :: len u :: u).
  { intros u y Eu. destruct (Z.lt_ge_cases (len u) 24) as [H|H]; [left; rewrite cbor_bstr_Ok in Eu by done; by injection Eu as <-|].
    destruct (Z.lt_ge_cases (len u) 256) as [H'|H']; [right; rewrite cbor_bstr_long in Eu by lia; by injection Eu as <-|].
    unfold cbor_bstr in Eu. cbv zeta in Eu. rewrite (proj2 (Z.ltb_ge _ _)) in Eu by lia. rewrite (proj2 (Z.ltb_ge _ _)) in Eu by lia. done. }
  pose proof (len_nonneg v). pose proof (len_nonneg w).
  destruct (R _ _ Ev) as [[-> ?]| ->], (R _ _ Ew) as [[E' ?]|E']; pose proof (f_equal (hd 0) E') as E0; cbn in E0; try lia;
    [by injection E' | by injection E'].
Qed.

(** A credential is built exactly for a key identifier of one to eight bytes and two
    coordinates of 32; it then has at most 89 bytes and determines all three. *)
Theorem credential_unambiguous kid x y :
  (is_ok (make_ccs_rpk kid x y) = true <-> 1 <= len kid <= 8 /\ len x = 32 /\ len y = 32) /\
  (forall c, make_ccs_rpk kid x y = Ok c -> len c = 81 + len kid /\
     forall kid' x' y', make_ccs_rpk kid' x' y' = Ok c -> kid' = kid /\ x' = x /\ y' = y).
Proof.
  assert (G : forall k a b : bytes, negb (in_range 1 8 (len k)) || negb (len a =? 32) || negb (len b =? 32) = false <-> 1 <= len k <= 8 /\ len a = 32 /\ len b = 32)
    by (intros k a b; rewrite !orb_false_iff, !negb_false_iff, in_range_spec, !Z.eqb_eq; tauto).
  assert (W : forall k a b : bytes, 1 <= len k <= 8 /\ len a = 32 /\ len b = 32 ->
              Forall fine (ccs_parts k a b) /\ Forall2 wide (ccs_parts k a b) [2; 2; 1; 2; 1; 1 + len k; 2; 1; 34; 1; 34]).
  { intros k a b (H1 & H2 & H3). unfold ccs_parts. rewrite (cbor_bstr_Ok k), (cbor_bstr_long a), (cbor_bstr_long b) by lia. split.
    - repeat (apply Forall_cons_2; [apply fine_Ok|]). apply Forall_nil_2.
    - repeat (apply Forall2_cons_2; [apply wide_Ok; try done; rewrite ?len_cons; lia|]). apply Forall2_nil_2. }
  split.
  - unfold make_ccs_rpk. split.
    + destruct (raise_if _ _) as [[]|] eqn:E; [|done]. intros _. apply raise_if_Ok in E. by apply G.
    + intros H. rewrite raise_if_skip by (by apply G). destruct (join_total _ (proj1 (W _ _ _ H))) as (c & ->). done.
  - unfold make_ccs_rpk. intros c E. apply raise_if_then_Ok in E as [Hg E]. apply G in Hg. split.
    + rewrite (join_len _ _ _ (proj2 (W _ _ _ Hg)) E). cbn. lia.
    + intros kid' x' y' E'. apply raise_if_then_Ok in E' as [Hg' E'].
      assert (P : ccs_parts kid x y = ccs_parts kid' x' y').
      { eapply join_locked; [|exact E | exact E']. unfold ccs_parts.
        repeat (apply Forall2_cons_2; [first [apply locked_cbor | eapply locked_Ok; reflexivity]|]). apply Forall2_nil_2. }
      pose proof (f_equal (fun l => l !! 5%nat) P) as P1. pose proof (f_equal (fun l => l !! 8%nat) P) as P2. pose proof (f_equal (fun l => l !! 10%nat) P) as P3.
      cbn in P1, P2, P3. apply (f_equal (default (Ok []))) in P1, P2, P3. cbn in P1, P2, P3. apply G in Hg'.
      split_and!; symmetry; (eapply cbor_inj; [|eassumption]); first [apply cbor_bstr_Ok; lia | apply cbor_bstr_long; lia].
Qed.

(** ** Concrete records *)

Definition sample_marker (s : Z) : n6at_args := {|
  local_role := 1; state := s; m_attachment_id := pattern 0x10 16; m_membership_epoch := 11; m_attachment_epoch := 13;
  m_install_digest := pattern 9 32; m_authority_term := 7; m_lease_epoch := 17; m_e2e_security_epoch := 73; m_credential_set_revision := 19;
  m_revocation_generation := 31; m_assignment_epoch := 37 |}.

Lemma sample_marker_ok s : n6at_ok (sample_marker s).
Proof. split; cbn; solve_literal. Qed.

Lemma descriptor_exact_witness : exists d, make_nai1 (pattern 3 32) (pattern 1 32) = Ok (d, the_nai1_fields (pattern 3 32) (pattern 1 32)).
Proof.
  assert (R : raw 32 (pattern 3 32)) by (apply raw_pattern; lia).
  destruct (proj1 (descriptor_exact (pattern 3 32) (pattern 1 32) R (pattern_ok 1 32))) as (d & p & E & _); [|by exists d].
  split; reflexivity.
Defined.

Lemma marker_exact_witness : exists k v, make_n6at (sample_marker 1) = Ok (k, v) /\ n6at_holds (sample_marker 1) k v.
Proof. apply (proj1 (marker_exact (sample_marker 1) (sample_marker_ok 1))). cbn. lia. Defined.
