(* ===== verification/N6.v ===== *)
(** The keys and values of the N6 rows an attachment installs: node identities, context
    bindings, lane, allocation and high-water rows
    ([tools/production_attachment_edhoc_r6_oracle.py]).  The dictionary of descriptor
    fields is the record of [Descriptor]. *)

From S2P Require Import Prelude Bytes Crc Sha256 Layout Join Chain Sealed Prefixed Nac1 Descriptor.
#[local] Open Scope Z_scope.

Definition WIRE_PROFILE_ID : Z := 0x11.
Definition ENVIRONMENT_FIELD : Z := 2.
Definition ALLOWED_KIND_MASK_HOP : Z := 0x0003.
Definition N6_MAGIC_TX : Z := 0x4E365458.
Definition N6_MAGIC_RX : Z := 0x4E365258.
Definition N6_MAGIC_HW : Z := 0x4E364857.
Definition N6_MAGIC_AL : Z := 0x4E36414C.
Definition N6_SCHEMA_LANE : Z := 2.
Definition N6_SCHEMA_HW : Z := 1.
Definition N6_SCHEMA_AL : Z := 2.

(** [bytes([v & 0xFF, ...])]. *)
Definition masked (vs : list Z) : res bytes := Ok (map (fun v => Z.land v 255) vs).

(** ** Identities *)

Definition node_id16 (stable_id_bytes : bytes) : res bytes :=
  p ← opaque_len_prefix stable_id_bytes;
  mret (slice 0 16 (sha256 (bytes_of_string "NINLIL-R6-NODE-ID-v1" ++ p))).

Definition ns_fingerprint12 (receiver_node_id : bytes) (layer_code membership_epoch alloc_side : Z) : res bytes :=
  raise_if (negb (len receiver_node_id =? 16)) (ValueError "receiver_node_id");;
  raise_if (negb (in_range 1 2 alloc_side)) (ValueError "alloc_side");;
  m ← join [Ok receiver_node_id; masked [layer_code]; u64 membership_epoch; masked [alloc_side]];
  mret (slice 0 12 (sha256 m)).

Definition scope_digest28 (local_node_id : bytes) (layer_code direction membership_epoch : Z) (receiver_node_id : bytes) : res bytes :=
  m ← join [Ok local_node_id; masked [layer_code; direction]; u64 membership_epoch; Ok receiver_node_id];
  mret (slice 0 28 (sha256 m)).

(** ** Context bindings *)

Record hop_args := {
  h_environment_code : Z; h_site_domain : bytes; h_membership_epoch : Z; h_attachment_id : bytes; h_attachment_epoch : Z;
  h_initiator_stable_id : bytes; h_responder_stable_id : bytes; h_controller_authority_id : bytes; h_controller_term : Z;
  h_hop_context_id : Z; h_direction_code : Z }.

Definition hop_parts (a : hop_args) : list (res bytes) :=
  [Ok (bytes_of_string "NINLIL-R6-HOP-CTX-v1"); masked [WIRE_PROFILE_ID; h_environment_code a]; opaque_len_prefix (h_site_domain a);
   u64 (h_membership_epoch a); opaque_len_prefix (h_attachment_id a); u64 (h_attachment_epoch a);
   opaque_len_prefix (h_initiator_stable_id a); opaque_len_prefix (h_responder_stable_id a);
   opaque_len_prefix (h_controller_authority_id a); u64 (h_controller_term a); u32 (h_hop_context_id a); masked [h_direction_code a];
   u16 ALLOWED_KIND_MASK_HOP].

Definition encode_hop_binding_input (a : hop_args) : res bytes := join (hop_parts a).

Record e2e_args := {
  x_environment_code : Z; x_site_domain : bytes; x_membership_epoch : Z; x_e2e_security_id : bytes; x_e2e_security_epoch : Z;
  x_sender_stable_id : bytes; x_receiver_stable_id : bytes; x_authority_id : bytes; x_authority_term : Z; x_e2e_context_id : Z;
  x_direction_code : Z }.

Definition e2e_parts (a : e2e_args) : list (res bytes) :=
  [Ok (bytes_of_string "NINLIL-R6-E2E-CTX-v1"); masked [WIRE_PROFILE_ID; x_environment_code a]; opaque_len_prefix (x_site_domain a);
   u64 (x_membership_epoch a); opaque_len_prefix (x_e2e_security_id a); u64 (x_e2e_security_epoch a);
   opaque_len_prefix (x_sender_stable_id a); opaque_len_prefix (x_receiver_stable_id a); opaque_len_prefix (x_authority_id a);
   u64 (x_authority_term a); u32 (x_e2e_context_id a); masked [x_direction_code a]].

Definition encode_e2e_binding_input (a : e2e_args) : res bytes :=
  raise_if (x_e2e_security_epoch a <? 1) (ValueError "e2e_security_epoch domain");;
  join (e2e_parts a).

Definition hop_context_binding_digest (a : hop_args) : res bytes := m ← encode_hop_binding_input a; mret (sha256 m).
Definition e2e_context_binding_digest (a : e2e_args) : res bytes := m ← encode_e2e_binding_input a; mret (sha256 m).

(** The arguments [binding_for_lane] takes from the descriptor. *)
Definition hop_args_of (f : nai1_fields) (direction context_id : Z) : hop_args := {|
  h_environment_code := ENVIRONMENT_FIELD; h_site_domain := site_domain f; h_membership_epoch := membership_epoch f;
  h_attachment_id := attachment_id f; h_attachment_epoch := attachment_epoch f; h_initiator_stable_id := initiator_stable_digest f;
  h_responder_stable_id := responder_stable_digest f; h_controller_authority_id := authority_id f; h_controller_term := authority_term f;
  h_hop_context_id := context_id; h_direction_code := direction |}.

Definition e2e_args_of (f : nai1_fields) (direction context_id : Z) : e2e_args := {|
  x_environment_code := ENVIRONMENT_FIELD; x_site_domain := site_domain f; x_membership_epoch := membership_epoch f;
  x_e2e_security_id := e2e_security_id f; x_e2e_security_epoch := e2e_security_epoch f;
  x_sender_stable_id := if direction =? 0 then initiator_stable_digest f else responder_stable_digest f;
  x_receiver_stable_id := if direction =? 0 then responder_stable_digest f else initiator_stable_digest f;
  x_authority_id := authority_id f; x_authority_term := authority_term f; x_e2e_context_id := context_id; x_direction_code := direction |}.

Definition binding_for_lane (layer_code direction context_id : Z) (fields : nai1_fields) : res bytes :=
  if layer_code =? 1 then hop_context_binding_digest (hop_args_of fields direction context_id)
  else if layer_code =? 2 then e2e_context_binding_digest (e2e_args_of fields direction context_id)
  else Raise (ValueError "layer_code").

(** ** Complete keys *)

Definition lane_complete_key (layer_code lane direction context_id key_generation : Z) (binding_digest32 : bytes) : res bytes :=
  raise_if (negb (len binding_digest32 =? 32)) (ValueError "binding_digest32");;
  raise_if ((context_id <? 1) || (key_generation <? 1)) (ValueError "context/kgen domain");;
  join [masked [layer_code; lane; direction; 0]; u32 context_id; Ok binding_digest32; u64 key_generation].

Definition n6al_complete_key (layer_code local_side membership_epoch : Z) (receiver_node_id : bytes) : res bytes :=
  fp ← ns_fingerprint12 receiver_node_id layer_code membership_epoch local_side;
  join [masked [2; layer_code; local_side; 0]; u64 membership_epoch; Ok fp].

Definition n6hw_complete_key (layer_code direction membership_epoch : Z) (local_node_id receiver_node_id : bytes) : res bytes :=
  scope ← scope_digest28 local_node_id layer_code direction membership_epoch receiver_node_id;
  join [masked [1; layer_code; direction; 0]; Ok scope].

Definition materialize_complete_key (member_kind direction lane local_side local_role context_id key_generation layer_code : Z)
    (fields : nai1_fields) (attachment local_node_id peer_node_id : bytes) : res bytes :=
  if member_kind =? 1 then
    binding ← binding_for_lane layer_code direction context_id fields;
    lane_complete_key layer_code lane direction context_id key_generation binding
  else if member_kind =? 2 then
    n6al_complete_key layer_code local_side (membership_epoch fields) (if local_side =? 2 then peer_node_id else local_node_id)
  else if member_kind =? 3 then
    n6hw_complete_key layer_code direction (membership_epoch fields) local_node_id (if local_side =? 2 then peer_node_id else local_node_id)
  else if member_kind =? 4 then n6at_key local_role attachment
  else Raise (ValueError "member_kind").

(** ** Values *)

Definition lane_writes (local_side key_generation : Z) (binding_prefix16 : bytes) (membership_epoch : Z) (ns_fingerprint : bytes) : list write := [
  put 0 4 (u32 (if local_side =? 2 then N6_MAGIC_TX else N6_MAGIC_RX)); put 4 6 (u16 N6_SCHEMA_LANE); put 6 8 (u16 0);
  put 8 16 (u64 (if local_side =? 2 then 1 else 0)); put 16 24 (u64 key_generation); put 24 40 (Ok binding_prefix16);
  put 40 48 (u64 membership_epoch); put_byte 48 local_side; put 49 52 (Ok (zeros 3)); put 52 64 (Ok ns_fingerprint)] ++
  [put_prefix_crc crc32c 64 64].

Definition encode_lane_value (local_side key_generation : Z) (binding_prefix16 : bytes) (membership_epoch : Z) (ns_fingerprint : bytes) : res bytes :=
  raise_if (negb (in_range 1 2 local_side) || (key_generation =? 0) || (membership_epoch <? 1)) (ValueError "lane value domain");;
  raise_if (negb (len binding_prefix16 =? 16) || negb (len ns_fingerprint =? 12)) (ValueError "lane prefixes");;
  run_writes (lane_writes local_side key_generation binding_prefix16 membership_epoch ns_fingerprint) (zeros 68).

Definition hw_writes (high_water_key_generation authority_now_ms : Z) : list write := [
  put 0 4 (u32 N6_MAGIC_HW); put 4 6 (u16 N6_SCHEMA_HW); put 6 8 (u16 0); put 8 16 (u64 high_water_key_generation);
  put 16 24 (u64 authority_now_ms)] ++ [put_prefix_crc crc32c 24 24].

Definition encode_hw_value (high_water_key_generation authority_now_ms : Z) : res bytes :=
  raise_if (high_water_key_generation =? 0) (ValueError "hw high-water domain");;
  run_writes (hw_writes high_water_key_generation authority_now_ms) (zeros 28).

Definition al_writes (floor active retired membership_epoch authority_now_ms : Z) (receiver_node_id : bytes) : list write := [
  put 0 4 (u32 N6_MAGIC_AL); put 4 6 (u16 N6_SCHEMA_AL); put 6 8 (u16 0); put 8 12 (u32 floor); put 12 14 (u16 active);
  put 14 16 (u16 retired); put 16 20 (u32 0); put 20 28 (u64 membership_epoch); put 28 36 (u64 authority_now_ms);
  put 36 52 (Ok receiver_node_id)] ++ [put_prefix_crc crc32c 52 52].

Definition encode_al_value (floor active retired membership_epoch authority_now_ms : Z) (receiver_node_id : bytes) : res bytes :=
  raise_if ((floor =? 0) || (membership_epoch <? 1) || negb (len receiver_node_id =? 16)) (ValueError "al value domain");;
  run_writes (al_writes floor active retired membership_epoch authority_now_ms receiver_node_id) (zeros 56).

Definition al_floor_after_install (context_id : Z) : res Z :=
  raise_if (context_id <? 1) (ValueError "context_id");;
  mret (context_id + 1).

Definition fresh_lane_counter (local_side : Z) : res Z :=
  if local_side =? 2 then Ok 1 else if local_side =? 1 then Ok 0 else Raise (ValueError "local_side").

(** [phase] is ["old"] or ["new"]; a node identity may be absent. *)
Definition materialize_member_value (member_kind : Z) (complete_key : bytes) (value_length : Z) (marker_value : option bytes)
    (local_side key_generation membership_epoch : Z) (phase : string) (peer_node_id local_node_id : option bytes)
    (context_id layer_code : Z) : res bytes :=
  let old := String.eqb phase "old" in
  let receiver := if local_side =? 2 then peer_node_id else local_node_id in
  let authority_now := if old then 1000000 else 1300000 in
  if member_kind =? 4 then
    raise_if old (ValueError "marker OLD-absent");;
    match marker_value with
    | Some value => raise_if (negb (len value =? value_length)) (ValueError "marker value");; mret value
    | None => Raise (ValueError "marker value")
    end
  else if member_kind =? 1 then
    match receiver with
    | None => Raise (ValueError "lane domain")
    | Some receiver =>
        raise_if (negb (len receiver =? 16) || negb (len complete_key =? 48)) (ValueError "lane domain");;
        ns_fp ← ns_fingerprint12 receiver layer_code membership_epoch local_side;
        value ← encode_lane_value local_side key_generation (slice 8 24 complete_key) membership_epoch ns_fp;
        raise_if (negb (len value =? value_length)) (AssertionError "lane value length");;
        mret value
    end
  else if member_kind =? 3 then
    value ← encode_hw_value (if old then 1 else Z.max 1 key_generation) authority_now;
    raise_if (negb (len value =? value_length)) (AssertionError "hw value length");;
    mret value
  else if member_kind =? 2 then
    match receiver with
    | None => Raise (ValueError "al receiver")
    | Some receiver =>
        raise_if (negb (len receiver =? 16)) (ValueError "al receiver");;
        floor ← (if old then Ok 1 else al_floor_after_install context_id);
        value ← encode_al_value floor (if old then 0 else 1) 0 membership_epoch authority_now receiver;
        raise_if (negb (len value =? value_length)) (AssertionError "al value length");;
        mret value
    end
  else Raise (ValueError "member_kind").

(** ** Bindings determine their arguments *)

Definition same_hop (a b : hop_args) : Prop :=
  Z.land (h_environment_code a) 255 = Z.land (h_environment_code b) 255 /\ h_site_domain a = h_site_domain b /\
  h_membership_epoch a = h_membership_epoch b /\ h_attachment_id a = h_attachment_id b /\ h_attachment_epoch a = h_attachment_epoch b /\
  h_initiator_stable_id a = h_initiator_stable_id b /\ h_responder_stable_id a = h_responder_stable_id b /\
  h_controller_authority_id a = h_controller_authority_id b /\ h_controller_term a = h_controller_term b /\
  h_hop_context_id a = h_hop_context_id b /\ Z.land (h_direction_code a) 255 = Z.land (h_direction_code b) 255.

Definition same_e2e (a b : e2e_args) : Prop :=
  Z.land (x_environment_code a) 255 = Z.land (x_environment_code b) 255 /\ x_site_domain a = x_site_domain b /\
  x_membership_epoch a = x_membership_epoch b /\ x_e2e_security_id a = x_e2e_security_id b /\
  x_e2e_security_epoch a = x_e2e_security_epoch b /\ x_sender_stable_id a = x_sender_stable_id b /\
  x_receiver_stable_id a = x_receiver_stable_id b /\ x_authority_id a = x_authority_id b /\ x_authority_term a = x_authority_term b /\
  x_e2e_context_id a = x_e2e_context_id b /\ Z.land (x_direction_code a) 255 = Z.land (x_direction_code b) 255.

Lemma hop_parts_locked a b : Forall2 locked (hop_parts a) (hop_parts b).
Proof. unfold hop_parts, masked. solve_locked. Qed.

Lemma e2e_parts_locked a b : Forall2 locked (e2e_parts a) (e2e_parts b).
Proof. unfold e2e_parts, masked. solve_locked. Qed.

(** [parts_equal F P] reads every field out of two equal lists of parts. *)
Ltac parts_equal F P :=
  pose proof (part_bytes F P 1%nat _ _ eq_refl eq_refl) as P1; pose proof (part_bytes F P 11%nat _ _ eq_refl eq_refl) as P11;
  injection P1 as P1; injection P11 as P11;
  split_and!; first
  [ assumption
  | match goal with
    | |- ?v = ?w => 
        first [ exact (part_opaque F P 2 v w eq_refl eq_refl) | exact (part_opaque F P 4 v w eq_refl eq_refl)
              | exact (part_opaque F P 6 v w eq_refl eq_refl) | exact (part_opaque F P 7 v w eq_refl eq_refl)
              | exact (part_opaque F P 8 v w eq_refl eq_refl) | exact (part_pack F P 3 8 v w eq_refl eq_refl)
              | exact (part_pack F P 5 8 v w eq_refl eq_refl) | exact (part_pack F P 9 8 v w eq_refl eq_refl)
              | exact (part_pack F P 10 4 v w eq_refl eq_refl) ]
    end ].

Lemma hop_label a m : encode_hop_binding_input a = Ok m -> exists r, m = bytes_of_string "NINLIL-R6-HOP-CTX-v1" ++ r.
Proof. unfold encode_hop_binding_input, hop_parts. cbn [join]. rewrite ok_bind. intros H. apply bind_Ok in H as (r & _ & H). injection H as <-. by exists r. Qed.

Lemma e2e_label a m : encode_e2e_binding_input a = Ok m -> exists r, m = bytes_of_string "NINLIL-R6-E2E-CTX-v1" ++ r.
Proof.
  unfold encode_e2e_binding_input, e2e_parts. intros H. apply raise_if_then_Ok in H as [_ H]. cbn [join] in H. rewrite ok_bind in H.
  apply bind_Ok in H as (r & _ & H). injection H as <-. by exists r.
Qed.

(** C38. The input of a context binding determines every argument it binds (the two codes
    modulo 256): two hop bindings, or two end-to-end bindings, with the same input are of
    the same context, and no input is both. *)
Theorem bindings_unambiguous m :
  (forall a b, encode_hop_binding_input a = Ok m -> encode_hop_binding_input b = Ok m -> same_hop a b) /\
  (forall a b, encode_e2e_binding_input a = Ok m -> encode_e2e_binding_input b = Ok m -> same_e2e a b) /\
  (forall a b, encode_hop_binding_input a = Ok m -> encode_e2e_binding_input b <> Ok m).
Proof.
  split_and!.
  - intros a b Ea Eb. pose proof (join_locked _ _ _ (hop_parts_locked a b) Ea Eb) as P. pose proof (join_parts_fine _ _ Ea) as F.
    unfold same_hop. parts_equal F P.
  - intros a b Ea Eb. apply raise_if_then_Ok in Ea as [_ Ea]. apply raise_if_then_Ok in Eb as [_ Eb].
    pose proof (join_locked _ _ _ (e2e_parts_locked a b) Ea Eb) as P. pose proof (join_parts_fine _ _ Ea) as F.
    unfold same_e2e. parts_equal F P.
  - intros a b (r & ->)%hop_label (s & E)%e2e_label. vm_compute in E. discriminate E.
Qed.

(** ** Keys and values of usable fields *)

(** Fields an attachment can be installed from: in their widths, with a non-zero epoch,
    non-zero generations, and contexts that leave room for the floor above them. *)
Record usable (f : nai1_fields) : Prop := {
  us_fields : nai1_ok f;
  us_epochs : 1 <= membership_epoch f /\ 1 <= e2e_security_epoch f;
  us_contexts : Forall (fun c => 1 <= c < 2 ^ 32 - 1) [hop_context_ir f; hop_context_ri f; e2e_context_ir f; e2e_context_ri f];
  us_generations : Forall (fun g => 1 <= g < 2 ^ 64) [hop_key_generation_ir f; hop_key_generation_ri f; e2e_key_generation_ir f; e2e_key_generation_ri f] }.

(** A key of [n] bytes that opens with [head]. *)
Definition headed (n : Z) (head k : bytes) : Prop := len k = n /\ slice 0 4 k = head /\ bytes_ok k.

Lemma masked_byte v : is_byte v -> Z.land v 255 = v.
Proof. unfold is_byte. intros H. change 255 with (Z.ones 8). rewrite Z.land_ones by lia. change (2 ^ 8) with 256. apply Z.mod_small. lia. Qed.

Lemma masked_4 a b c d : is_byte a -> is_byte b -> is_byte c -> is_byte d -> masked [a; b; c; d] = Ok [a; b; c; d].
Proof. intros. unfold masked. cbn [map]. by rewrite !masked_byte by done. Qed.

(** Parts that open with a literal head of four bytes. *)
Lemma headed_join head ps n ns :
  len head = 4 -> bytes_ok head -> Forall2 wide ps ns -> Forall fine ps -> Forall sound ps -> n = 4 + total_width ns ->
  exists k, join (Ok head :: ps) = Ok k /\ headed n head k.
Proof.
  intros L B W F S ->. destruct (join_total _ F) as (r & Er). exists (head ++ r). cbn [join]. rewrite ok_bind, Er. split; [done|].
  split_and!; [by rewrite len_app, L, (join_len _ _ _ W Er) | by apply slice_app_exact | apply bytes_ok_app; split; [done|by eapply join_sound]].
Qed.

(** [solve_parts] checks the parts of a literal list one at a time. *)
Ltac solve_parts :=
  repeat first [ apply Forall_nil_2 | apply Forall2_nil_2 | apply Forall_cons_2 | apply Forall2_cons_2 ];
  first [ done | by apply wide_Ok | by apply wide_pack | apply fine_Ok | apply fine_pack; pack_range; lia | by apply sound_Ok | apply sound_pack
        | unfold is_byte; lia ].

Lemma node_id16_raw s : len s <= 65535 -> exists n, node_id16 s = Ok n /\ raw 16 n.
Proof.
  intros H. unfold node_id16. rewrite opaque_Ok, ok_bind by done. eexists. split; [done|].
  destruct (raw_sha (bytes_of_string "NINLIL-R6-NODE-ID-v1" ++ be_bytes 2 (len s) ++ s)) as [L B].
  split; [rewrite len_slice by lia; lia | by apply bytes_ok_slice].
Qed.

Section Usable.
Context (f : nai1_fields) (U : usable f).

Lemma hop_binding_built direction context : 0 <= context < 2 ^ 32 ->
  exists d, binding_for_lane 1 direction context f = Ok d /\ raw 32 d.
Proof using U.
  intros Hc. destruct U as [[[[L1 _] [[L2 _] [[L3 _] _]]] [[L4 _] [[L5 _] _]] H64 H32] [He _] _ _]. split_foralls. unfold u64_ok in *.
  unfold binding_for_lane, hop_context_binding_digest, encode_hop_binding_input. cbn [Z.eqb Pos.eqb].
  assert (F : Forall fine (hop_parts (hop_args_of f direction context))).
  { unfold hop_parts, hop_args_of, ALLOWED_KIND_MASK_HOP. cbn [h_environment_code h_site_domain h_membership_epoch h_attachment_id h_attachment_epoch
      h_initiator_stable_id h_responder_stable_id h_controller_authority_id h_controller_term h_hop_context_id h_direction_code].
    repeat (apply Forall_cons_2; [first [apply fine_Ok | apply fine_opaque; lia | apply fine_pack; pack_range; lia]|]). apply Forall_nil_2. }
  destruct (join_total _ F) as (m & ->). rewrite ok_bind. eexists. split; [done | apply raw_sha].
Qed.

Lemma e2e_binding_built direction context : 0 <= context < 2 ^ 32 ->
  exists d, binding_for_lane 2 direction context f = Ok d /\ raw 32 d.
Proof using U.
  intros Hc. destruct U as [[[[L1 _] [[L2 _] [[L3 _] [_ [L6 _]]]]] [[L4 _] [[L5 _] _]] H64 H32] [He Hs] _ _]. split_foralls. unfold u64_ok in *.
  unfold binding_for_lane, e2e_context_binding_digest, encode_e2e_binding_input. cbn [Z.eqb Pos.eqb].
  rewrite raise_if_skip by (cbn; lia).
  assert (F : Forall fine (e2e_parts (e2e_args_of f direction context))).
  { unfold e2e_parts, e2e_args_of. cbn [x_environment_code x_site_domain x_membership_epoch x_e2e_security_id x_e2e_security_epoch
      x_sender_stable_id x_receiver_stable_id x_authority_id x_authority_term x_e2e_context_id x_direction_code].
    repeat (apply Forall_cons_2; [first [apply fine_Ok | apply fine_opaque; try destruct (direction =? 0); lia | apply fine_pack; pack_range; lia]|]). apply Forall_nil_2. }
  destruct (join_total _ F) as (m & ->). rewrite ok_bind. eexists. split; [done | apply raw_sha].
Qed.

Lemma lane_binding_built layer direction context : 1 <= layer <= 2 -> 0 <= context < 2 ^ 32 ->
  exists d, binding_for_lane layer direction context f = Ok d /\ raw 32 d.
Proof using U.
  intros Hl Hc. assert (layer = 1 \/ layer = 2) as [-> | ->] by lia; [by apply hop_binding_built | by apply e2e_binding_built].
Qed.

Lemma lane_key_built layer lane direction context generation binding :
  is_byte layer -> is_byte lane -> is_byte direction -> 1 <= context < 2 ^ 32 -> 1 <= generation < 2 ^ 64 -> raw 32 binding ->
  exists k, lane_complete_key layer lane direction context generation binding = Ok k /\ headed 48 [layer; lane; direction; 0] k.
Proof using.
  intros Hl Hn Hd Hc Hg [Lb Bb]. unfold lane_complete_key. rewrite raise_if_skip by (by rewrite Lb). rewrite raise_if_skip by lia.
  rewrite masked_4 by done. apply (headed_join _ _ _ [4; 32; 8]); try done.
  all: solve_parts.
Qed.

Lemma ns_fingerprint_built receiver layer epoch side : raw 16 receiver -> 0 <= epoch < 2 ^ 64 -> 1 <= side <= 2 ->
  exists d, ns_fingerprint12 receiver layer epoch side = Ok d /\ raw 12 d.
Proof using.
  intros [L B] He Hs. unfold ns_fingerprint12. rewrite raise_if_skip by (by rewrite L). rewrite raise_if_skip by (by rewrite (proj2 (in_range_spec 1 2 side)) by lia).
  destruct (join_total [Ok receiver; masked [layer]; u64 epoch; masked [side]]) as (m & ->); [unfold masked; solve_parts|].
  rewrite ok_bind. eexists. split; [done|]. destruct (raw_sha m) as [L' B']. split; [rewrite len_slice by lia; lia | by apply bytes_ok_slice].
Qed.

Lemma al_key_built layer side epoch receiver : is_byte layer -> 1 <= side <= 2 -> 0 <= epoch < 2 ^ 64 -> raw 16 receiver ->
  exists k, n6al_complete_key layer side epoch receiver = Ok k /\ headed 24 [2; layer; side; 0] k.
Proof using.
  intros Hl Hs He Hr. unfold n6al_complete_key. destruct (ns_fingerprint_built receiver layer epoch side Hr He Hs) as (d & -> & [L B]).
  rewrite ok_bind. assert (is_byte side) by (unfold is_byte; lia). rewrite masked_4 by done.
  apply (headed_join _ _ _ [8; 12]); try done. all: solve_parts.
Qed.

Lemma hw_key_built layer direction epoch node receiver : is_byte layer -> is_byte direction -> 0 <= epoch < 2 ^ 64 ->
  exists k, n6hw_complete_key layer direction epoch node receiver = Ok k /\ headed 32 [1; layer; direction; 0] k.
Proof using.
  intros Hl Hd He. unfold n6hw_complete_key, scope_digest28.
  destruct (join_total [Ok node; masked [layer; direction]; u64 epoch; Ok receiver]) as (m & ->); [unfold masked; solve_parts|].
  rewrite !ok_bind. cbv beta. rewrite masked_4 by done. destruct (raw_sha m) as [L B].
  assert (L' : len (slice 0 28 (sha256 m)) = 28) by (rewrite len_slice by lia; lia).
  assert (B' : bytes_ok (slice 0 28 (sha256 m))) by (by apply bytes_ok_slice).
  apply (headed_join _ _ _ [28]); try done. all: solve_parts.
Qed.
End Usable.

Lemma marker_key_built role attachment : is_byte role -> raw 16 attachment ->
  exists k, n6at_key role attachment = Ok k /\ headed 20 [5; role; 1; 0] k.
Proof.
  intros Hr [L B]. unfold is_byte in Hr. exists ([5; role; 1; 0] ++ attachment). split.
  - unfold n6at_key. rewrite fixed_exact by done. unfold u8. cbn [join]. rewrite !pack_bind by (pack_range; lia).
    unfold be_bytes. cbn. change (256 ^ Z.of_nat 0) with 1. unfold mret, res_ret. rewrite app_nil_r, !Z.div_1_r, (Z.mod_small role) by lia. done.
  - split_and!; [by rewrite len_app, L | done |]. apply bytes_ok_app. split; [solve_parts | done].
Qed.

(** What a lane, high-water and allocation value hold. *)
Definition lane_holds (side generation : Z) (prefix : bytes) (epoch : Z) (fp v : bytes) : Prop :=
  raw 68 v /\ prefix_sealed crc32c 64 v /\ be_val (slice 0 4 v) = (if side =? 2 then N6_MAGIC_TX else N6_MAGIC_RX) /\
  be_val (slice 8 16 v) = (if side =? 2 then 1 else 0) /\ be_val (slice 16 24 v) = generation /\ slice 24 40 v = prefix /\
  be_val (slice 40 48 v) = epoch /\ slice 48 49 v = [side] /\ slice 52 64 v = fp.

Definition hw_holds (generation now : Z) (v : bytes) : Prop :=
  raw 28 v /\ prefix_sealed crc32c 24 v /\ be_val (slice 0 4 v) = N6_MAGIC_HW /\ be_val (slice 8 16 v) = generation /\ be_val (slice 16 24 v) = now.

Definition al_holds (floor active epoch now : Z) (receiver v : bytes) : Prop :=
  raw 56 v /\ prefix_sealed crc32c 52 v /\ be_val (slice 0 4 v) = N6_MAGIC_AL /\ be_val (slice 8 12 v) = floor /\ be_val (slice 12 14 v) = active /\
  be_val (slice 20 28 v) = epoch /\ be_val (slice 28 36 v) = now /\ slice 36 52 v = receiver.

Lemma lane_value_built side generation prefix epoch fp :
  1 <= side <= 2 -> 1 <= generation < 2 ^ 64 -> 1 <= epoch < 2 ^ 64 -> raw 16 prefix -> raw 12 fp ->
  exists v, encode_lane_value side generation prefix epoch fp = Ok v /\ lane_holds side generation prefix epoch fp v.
Proof.
  intros Hs Hg He [Lp Bp] [Lf Bf].
  assert (Hm : 0 <= (if side =? 2 then N6_MAGIC_TX else N6_MAGIC_RX) < 256 ^ Z.of_nat 4) by (destruct (side =? 2); done).
  assert (Hk : 0 <= (if side =? 2 then 1 else 0) < 256 ^ Z.of_nat 8) by (destruct (side =? 2); done).
  assert (S : Forall (sized 68) (lane_writes side generation prefix epoch fp)) by (unfold lane_writes; solve_sized).
  assert (T : Forall (total 68) (lane_writes side generation prefix epoch fp)).
  { unfold lane_writes, N6_SCHEMA_LANE. revert Hm Hk. generalize (if side =? 2 then N6_MAGIC_TX else N6_MAGIC_RX), (if side =? 2 then 1 else 0).
    intros m c Hm Hk. change (256 ^ Z.of_nat 4) with 4294967296 in *. change (256 ^ Z.of_nat 8) with 18446744073709551616 in *. change (2 ^ 64) with 18446744073709551616 in *. solve_total. }
  destruct (run_writes_total _ _ _ S T (eq_refl : len (zeros 68) = 68) (zeros_ok _)) as (v & Hv & Lv & Bv).
  exists v. unfold encode_lane_value.
  rewrite raise_if_skip by (rewrite (proj2 (in_range_spec 1 2 side)) by lia; cbn; lia). rewrite raise_if_skip by (by rewrite Lp, Lf).
  split; [done|]. pose proof (eq_refl : len (zeros 68) = 68) as L. unfold lane_holds. split_and!; try done; try read_field S L Hv.
  - unfold lane_writes in Hv, S. eapply (run_prefix_sealed crc32c); [apply Forall_app in S as [S _]; exact S | | | exact L | apply zeros_ok | exact Hv]; done.
  - pose proof (read_index _ _ _ _ S L Hv 48 _ _ eq_refl) as K. by apply pybyte_Ok in K as [_ K].
Qed.

Lemma hw_value_built generation now : 1 <= generation < 2 ^ 64 -> 0 <= now < 2 ^ 64 ->
  exists v, encode_hw_value generation now = Ok v /\ hw_holds generation now v.
Proof.
  intros Hg Hn. assert (S : Forall (sized 28) (hw_writes generation now)) by (unfold hw_writes; solve_sized).
  assert (T : Forall (total 28) (hw_writes generation now)) by (unfold hw_writes, N6_MAGIC_HW, N6_SCHEMA_HW; solve_total).
  pose proof (eq_refl : len (zeros 28) = 28) as L.
  destruct (run_writes_total _ _ _ S T L (zeros_ok _)) as (v & Hv & Lv & Bv).
  exists v. unfold encode_hw_value. rewrite raise_if_skip by lia. split; [done|]. unfold hw_holds. split_and!; try done; try read_field S L Hv.
  unfold hw_writes in Hv, S. eapply (run_prefix_sealed crc32c); [apply Forall_app in S as [S _]; exact S | | | exact L | apply zeros_ok | exact Hv]; done.
Qed.

Lemma al_value_built floor active epoch now receiver :
  1 <= floor < 2 ^ 32 -> 0 <= active < 2 ^ 16 -> 1 <= epoch < 2 ^ 64 -> 0 <= now < 2 ^ 64 -> raw 16 receiver ->
  exists v, encode_al_value floor active 0 epoch now receiver = Ok v /\ al_holds floor active epoch now receiver v.
Proof.
  intros Hf Ha He Hn [Lr Br].
  assert (S : Forall (sized 56) (al_writes floor active 0 epoch now receiver)) by (unfold al_writes; solve_sized).
  assert (T : Forall (total 56) (al_writes floor active 0 epoch now receiver)) by (unfold al_writes, N6_MAGIC_AL, N6_SCHEMA_AL; solve_total).
  pose proof (eq_refl : len (zeros 56) = 56) as L.
  destruct (run_writes_total _ _ _ S T L (zeros_ok _)) as (v & Hv & Lv & Bv).
  exists v. unfold encode_al_value. rewrite raise_if_skip by (rewrite Lr; cbn; lia). split; [done|].
  unfold al_holds. split_and!; try done; try read_field S L Hv.
  unfold al_writes in Hv, S. eapply (run_prefix_sealed crc32c); [apply Forall_app in S as [S _]; exact S | | | exact L | apply zeros_ok | exact Hv]; done.
Qed.

(** No allocation value holds the floor above the last context number. *)
Lemma al_value_overflow active epoch now receiver : 1 <= epoch -> len receiver = 16 ->
  encode_al_value (2 ^ 32) active 0 epoch now receiver = Raise StructError.
Proof.
  intros He Hl. unfold encode_al_value. rewrite raise_if_skip by (rewrite Hl; cbn; lia). done.
Qed.

(** ** A concrete set of fields *)

Definition sample_fields : nai1_fields := the_nai1_fields (pattern 3 32) (pattern 1 32).
Definition sample_hop : hop_args := hop_args_of sample_fields 0 (hop_context_ir sample_fields).
Definition sample_hop_input : bytes := ok_or [] (encode_hop_binding_input sample_hop).

Lemma sample_usable : usable sample_fields.
Proof.
  split; [apply the_nai1_ok; by apply raw_pattern | done | |].
  all: repeat (apply Forall_cons_2; [vm_compute; intuition congruence|]); apply Forall_nil_2.
Qed.

Lemma bindings_unambiguous_witness : encode_hop_binding_input sample_hop = Ok sample_hop_input /\ same_hop sample_hop sample_hop /\
  encode_e2e_binding_input (e2e_args_of sample_fields 0 7) <> Ok sample_hop_input.
Proof.
  assert (E : encode_hop_binding_input sample_hop = Ok sample_hop_input) by (apply ok_or_Ok; vm_compute; reflexivity).
  destruct (bindings_unambiguous sample_hop_input) as (H & _ & D).
  split; [exact E | split; [exact (H _ _ E E) | exact (D _ _ E)]].
Defined.
