(* ===== verification/CommitSet.v ===== *)
(** The write set of an attachment: the fifteen durable rows it installs in one commit,
    their order, and the manifest that lists them
    ([tools/production_attachment_edhoc_composition.py]). *)

From stdpp Require Import sorting.
From S2P Require Import Prelude Order Bytes Crc Sha256 Layout Join Sealed Prefixed Descriptor N6.
#[local] Open Scope Z_scope.

Definition NAB1_HEADER_BYTES : Z := 68.
Definition NAB1_ENTRY_BYTES : Z := 20.
Definition NAB1_ENTRY_COUNT : Z := 15.
Definition NAB1_TOTAL_BYTES : Z := NAB1_HEADER_BYTES + NAB1_ENTRY_BYTES * NAB1_ENTRY_COUNT.

(** [bytes([member_kind])] of a kind in range. *)
Definition materialize_context_digest (member_kind : Z) (complete_key install_digest attachment : bytes) : res bytes :=
  if member_kind =? 4 then Ok (zeros 32)
  else m ← join [Ok (bytes_of_string "NINLIL-PA-N6-CTX-DIGEST-V1"); pybyte member_kind; Ok complete_key; Ok install_digest; Ok attachment];
       mret (sha256 m).

Definition old_context_digest_of (member_kind : Z) (complete_key attachment : bytes) : res bytes :=
  m ← join [Ok (bytes_of_string "NINLIL-PA-N6-OLD-CTX-DIGEST-V1"); pybyte member_kind; Ok complete_key; Ok attachment];
  mret (sha256 m).

(** ** Rows *)

(** The arguments of one call of [add]. *)
Record row_args := {
  r_kind : Z; r_direction : Z; r_lane : Z; r_context : Z; r_generation : Z; r_key_length : Z; r_value_length : Z; r_identity : string;
  r_layer : Z }.

(** A row of the inventory; the code keeps byte strings in hexadecimal, and an absent old
    value as a flag and empty strings. *)
Record member := {
  m_row : row_args; m_side : Z; m_key : bytes; m_value : bytes; m_value_sha256 : bytes; m_context_digest : bytes; m_old : option bytes;
  m_old_sha256 : bytes; m_old_context_digest : bytes; m_relation : string }.

(** What every row of one inventory shares. *)
Record commit_args := {
  c_role : Z; c_fields : nai1_fields; c_install : bytes; c_marker : bytes; c_local_node : bytes; c_peer_node : bytes }.

Definition side_of (role kind direction : Z) : Z :=
  if kind =? 4 then 0 else if Bool.eqb (role =? 1) (direction =? 0) then 2 else 1.

Definition row_key (c : commit_args) (r : row_args) : res bytes :=
  materialize_complete_key (r_kind r) (r_direction r) (r_lane r) (side_of (c_role c) (r_kind r) (r_direction r)) (c_role c) (r_context r)
    (r_generation r) (r_layer r) (c_fields c) (attachment_id (c_fields c)) (c_local_node c) (c_peer_node c).

Definition row_value (c : commit_args) (r : row_args) (key : bytes) (phase : string) : res bytes :=
  materialize_member_value (r_kind r) key (r_value_length r) (if r_kind r =? 4 then Some (c_marker c) else None)
    (side_of (c_role c) (r_kind r) (r_direction r)) (r_generation r) (membership_epoch (c_fields c)) phase (Some (c_peer_node c))
    (Some (c_local_node c)) (r_context r) (r_layer r).

(** The checks of a new value against the old one. *)
Definition no_rollback (r : row_args) (old value : bytes) : res unit :=
  raise_if ((r_kind r =? 3) && (be_val (slice 8 16 value) <? be_val (slice 8 16 old))) (AssertionError "hw high-water rollback");;
  let old_floor := be_val (slice 8 12 old) in let new_floor := be_val (slice 8 12 value) in
  raise_if ((r_kind r =? 2) && (new_floor <? old_floor)) (AssertionError "al floor rollback");;
  raise_if ((r_kind r =? 2) && negb (new_floor =? r_context r + 1)) (AssertionError "al floor must be context_id+1");;
  mret tt.

Definition old_value_of (c : commit_args) (r : row_args) (key value : bytes) : res (option bytes) :=
  if r_kind r =? 4 then Ok None
  else old ← row_value c r key "old"; no_rollback r old value;; mret (Some old).

Definition relation_of (value context_digest : bytes) (old : option bytes) (old_context_digest : bytes) : string :=
  match old with
  | Some old => if negb (bool_decide (old = value)) || negb (bool_decide (old_context_digest = context_digest)) then "DIFFERENT" else "ABSENT_TO_NEW"
  | None => "ABSENT_TO_NEW"
  end.

Definition add (c : commit_args) (r : row_args) : res member :=
  let side := side_of (c_role c) (r_kind r) (r_direction r) in
  key ← row_key c r;
  raise_if (negb (len key =? r_key_length r)) (AssertionError "complete key length");;
  value ← row_value c r key "new";
  old ← old_value_of c r key value;
  let counter := be_val (slice 8 16 value) in
  raise_if ((r_kind r =? 1) && negb (counter =? (if side =? 2 then 1 else 0))) (AssertionError "lane counter TX=1/RX=0");;
  context_digest ← materialize_context_digest (r_kind r) key (c_install c) (attachment_id (c_fields c));
  old_context_digest ← match old with Some _ => old_context_digest_of (r_kind r) key (attachment_id (c_fields c)) | None => Ok [] end;
  mret {| m_row := r; m_side := side; m_key := key; m_value := value; m_value_sha256 := sha256 value; m_context_digest := context_digest;
    m_old := old; m_old_sha256 := match old with Some v => sha256 v | None => [] end; m_old_context_digest := old_context_digest;
    m_relation := relation_of value context_digest old old_context_digest |}.

(** ** The inventory *)

Definition hop_rows (direction context generation : Z) (tag : string) : list row_args :=
  let row kind lane key_length value_length name := {|
    r_kind := kind; r_direction := direction; r_lane := lane; r_context := context; r_generation := generation; r_key_length := key_length;
    r_value_length := value_length; r_identity := tag ++ name; r_layer := 1 |} in
  [row 1 1 48 68 "_lane1"; row 1 2 48 68 "_lane2"; row 2 0 24 56 "_n6al"; row 3 0 32 28 "_n6hw"]%string.

Definition e2e_rows (direction context generation : Z) (tag : string) : list row_args :=
  let row kind lane key_length value_length name := {|
    r_kind := kind; r_direction := direction; r_lane := lane; r_context := context; r_generation := generation; r_key_length := key_length;
    r_value_length := value_length; r_identity := tag ++ name; r_layer := 2 |} in
  [row 1 3 48 68 "_lane3"; row 2 0 24 56 "_n6al"; row 3 0 32 28 "_n6hw"]%string.

Definition marker_row : row_args := {|
  r_kind := 4; r_direction := 0; r_lane := 0; r_context := 0; r_generation := 0; r_key_length := N6AT_KEY_BYTES;
  r_value_length := N6AT_VALUE_BYTES; r_identity := "attachment_marker"; r_layer := 0 |}.

Definition inventory_rows (f : nai1_fields) : list row_args :=
  hop_rows 0 (hop_context_ir f) (hop_key_generation_ir f) "hop_ir" ++ hop_rows 1 (hop_context_ri f) (hop_key_generation_ri f) "hop_ri" ++
  e2e_rows 0 (e2e_context_ir f) (e2e_key_generation_ir f) "e2e_ir" ++ e2e_rows 1 (e2e_context_ri f) (e2e_key_generation_ri f) "e2e_ri" ++
  [marker_row].

(** Neighbours are in strictly ascending order. *)
Fixpoint check_order (l : list member) : res unit :=
  match l with
  | a :: (b :: _) as rest =>
      raise_if (match compare_bytes (m_key a) (m_key b) with Lt => false | _ => true end) (AssertionError "complete-key order not strict");;
      check_order rest
  | _ => Ok tt
  end.

(** The index of a row is its position. *)
Definition nab1_exact_inventory (local_role : Z) (fields : nai1_fields) (install_digest marker_value : bytes) : res (list member) :=
  raise_if (negb (in_range 1 2 local_role)) (ValueError "NAB1 role");;
  raise_if (negb (len marker_value =? N6AT_VALUE_BYTES)) (ValueError "marker value length");;
  local_node_id ← node_id16 (if local_role =? 1 then initiator_stable_digest fields else responder_stable_digest fields);
  peer_node_id ← node_id16 (if local_role =? 1 then responder_stable_digest fields else initiator_stable_digest fields);
  raw ← mapM (add {| c_role := local_role; c_fields := fields; c_install := install_digest; c_marker := marker_value;
    c_local_node := local_node_id; c_peer_node := peer_node_id |}) (inventory_rows fields);
  raise_if (negb (len raw =? NAB1_ENTRY_COUNT)) (AssertionError "NAB1 member count");;
  let inventory := sorted_by m_key compare_bytes raw in
  check_order inventory;;
  mret inventory.

(** ** The manifest *)

Definition entry_parts (m : member) : list (res bytes) := let r := m_row m in
  [u8 (r_kind r); u8 (r_direction r); u8 (r_lane r); u8 (m_side m); u32 (r_context r); u64 (r_generation r); u16 (r_key_length r);
   u16 (r_value_length r)].

Definition put_entry (index : Z) (m : member) : write :=
  let off := NAB1_HEADER_BYTES + index * NAB1_ENTRY_BYTES in put off (off + NAB1_ENTRY_BYTES) (join (entry_parts m)).

Definition nab1_writes (local_role : Z) (attachment install_digest : bytes) (inventory : list member) : list write :=
  [put 0 4 (Ok (bytes_of_string "NAB1")); put 4 6 (u16 1); put 6 8 (u16 NAB1_TOTAL_BYTES); put_byte 8 local_role; put_byte 9 1;
   put 10 12 (Ok (zeros 2)); put 12 28 (Ok attachment); put 28 60 (Ok install_digest); put 60 62 (u16 NAB1_ENTRY_COUNT);
   put 62 64 (u16 NAB1_ENTRY_BYTES)] ++
  imap (fun i m => put_entry (Z.of_nat i) m) inventory ++ [put_crc crc32c 64].

Definition make_nab1 (local_role : Z) (attachment install_digest : bytes) (fields : nai1_fields) (marker_value : bytes) : res (bytes * list member) :=
  inventory ← nab1_exact_inventory local_role fields install_digest marker_value;
  batch ← run_writes (nab1_writes local_role attachment install_digest inventory) (zeros NAB1_TOTAL_BYTES);
  mret (batch, inventory).

(** ** Every row is built *)

Definition receiver_of (c : commit_args) (r : row_args) : bytes :=
  if side_of (c_role c) (r_kind r) (r_direction r) =? 2 then c_peer_node c else c_local_node c.

(** The first four bytes of the key of a row. *)
Definition head_of (role : Z) (r : row_args) : bytes :=
  if r_kind r =? 1 then [r_layer r; r_lane r; r_direction r; 0]
  else if r_kind r =? 2 then [2; r_layer r; side_of role (r_kind r) (r_direction r); 0]
  else if r_kind r =? 3 then [1; r_layer r; r_direction r; 0]
  else [5; role; 1; 0].

(** What a row holds before ([NEW = false]) and after the commit. *)
Definition value_holds (c : commit_args) (r : row_args) (key : bytes) (new : bool) (v : bytes) : Prop :=
  let side := side_of (c_role c) (r_kind r) (r_direction r) in let epoch := membership_epoch (c_fields c) in
  let now := if new then 1300000 else 1000000 in
  len v = r_value_length r /\
  (r_kind r = 1 -> exists fp, ns_fingerprint12 (receiver_of c r) (r_layer r) epoch side = Ok fp /\ lane_holds side (r_generation r) (slice 8 24 key) epoch fp v) /\
  (r_kind r = 2 -> al_holds (if new then r_context r + 1 else 1) (if new then 1 else 0) epoch now (receiver_of c r) v) /\
  (r_kind r = 3 -> hw_holds (if new then r_generation r else 1) now v) /\
  (r_kind r = 4 -> new = true /\ v = c_marker c).

Record member_holds (c : commit_args) (m : member) : Prop := {
  mb_side : m_side m = side_of (c_role c) (r_kind (m_row m)) (r_direction (m_row m));
  mb_row_key : row_key c (m_row m) = Ok (m_key m);
  mb_key : headed (r_key_length (m_row m)) (head_of (c_role c) (m_row m)) (m_key m);
  mb_value : value_holds c (m_row m) (m_key m) true (m_value m);
  mb_old : match m_old m with Some old => value_holds c (m_row m) (m_key m) false old | None => r_kind (m_row m) = 4 end;
  mb_digests : raw 32 (m_context_digest m) /\ len (m_old_context_digest m) = match m_old m with Some _ => 32 | None => 0 end }.

Record commit_ok (c : commit_args) : Prop := {
  cm_fields : usable (c_fields c);
  cm_role : 1 <= c_role c <= 2;
  cm_marker : len (c_marker c) = N6AT_VALUE_BYTES;
  cm_nodes : raw 16 (c_local_node c) /\ raw 16 (c_peer_node c) }.

(** A row [inventory_rows] can list. *)
Definition row_ok (r : row_args) : Prop :=
  r = marker_row \/
  (1 <= r_layer r <= 2 /\ 0 <= r_direction r <= 1 /\ 0 <= r_lane r <= 3 /\ 1 <= r_context r < 2 ^ 32 - 1 /\ 1 <= r_generation r < 2 ^ 64 /\
   ((r_kind r = 1 /\ r_key_length r = 48 /\ r_value_length r = 68) \/ (r_kind r = 2 /\ r_key_length r = 24 /\ r_value_length r = 56) \/
    (r_kind r = 3 /\ r_key_length r = 32 /\ r_value_length r = 28))).

Lemma inventory_rows_ok f : usable f -> Forall row_ok (inventory_rows f).
Proof.
  intros [_ _ C G]. split_foralls. unfold inventory_rows, hop_rows, e2e_rows. cbn [app].
  repeat (apply Forall_cons_2; [first [by left | right; cbn; lia]|]). apply Forall_nil_2.
Qed.

Section Rows.
Context (c : commit_args) (C : commit_ok c).

Lemma side_range r : row_ok r -> r <> marker_row -> 1 <= side_of (c_role c) (r_kind r) (r_direction r) <= 2.
Proof using. intros [-> | (_ & _ & _ & _ & _ & H)] N; [done|]. unfold side_of. destruct (Z.eqb_spec (r_kind r) 4); [lia|]. destruct (Bool.eqb _ _); lia. Qed.

Lemma receiver_raw r : raw 16 (receiver_of c r).
Proof using C. destruct C as [_ _ _ [? ?]]. unfold receiver_of. by destruct (_ =? 2). Qed.

Lemma epoch_range : 1 <= membership_epoch (c_fields c) < 2 ^ 64.
Proof using C. destruct C as [[F [E _] _ _] _ _ _]. pose proof (io_u64 _ F) as H. split_foralls. unfold u64_ok in *. lia. Qed.

Lemma row_key_built r : row_ok r -> exists k, row_key c r = Ok k /\ headed (r_key_length r) (head_of (c_role c) r) k.
Proof using C.
  intros H. pose proof (side_range r H) as Hs. pose proof (receiver_raw r) as Hr. pose proof epoch_range as He. destruct C as [U R _ _].
  destruct H as [-> | (Hl & Hd & Hn & Hc & Hg & HK)].
  - unfold row_key. cbn. apply marker_key_built; [unfold is_byte; lia | exact (proj1 (io_raw16 _ (us_fields _ U)))].
  - assert (N : r <> marker_row) by (intros ->; cbn in HK; lia). specialize (Hs N).
    unfold row_key, materialize_complete_key, head_of, receiver_of in *. destruct HK as [(K & L & _) | [(K & L & _) | (K & L & _)]]; rewrite K, L in *; cbn [Z.eqb Pos.eqb] in *.
    + destruct (lane_binding_built (c_fields c) U (r_layer r) (r_direction r) (r_context r) Hl) as (b & -> & Hb); [lia|]. rewrite ok_bind.
      apply lane_key_built; try done; unfold is_byte; lia.
    + apply al_key_built; try done; unfold is_byte; lia.
    + apply hw_key_built; unfold is_byte; lia.
Qed.

Lemma some_if {A} (b : bool) (x y : A) : (if b then Some x else Some y) = Some (if b then x else y).
Proof using. by destruct b. Qed.

Lemma old_new (phase : string) (new : bool) : phase = (if new then "new" else "old")%string -> String.eqb phase "old" = negb new.
Proof using. by intros ->; destruct new. Qed.

Lemma row_value_built r k new : row_ok r -> headed (r_key_length r) (head_of (c_role c) r) k -> new = true \/ r_kind r <> 4 ->
  exists v, row_value c r k (if new then "new" else "old") = Ok v /\ value_holds c r k new v.
Proof using C.
  intros H Hk Hn. pose proof (side_range r H) as Hs. pose proof (receiver_raw r) as Hr. pose proof epoch_range as He. destruct C as [U R M _].
  unfold row_value, materialize_member_value. rewrite (old_new _ new eq_refl).
  destruct H as [-> | (Hl & Hd & Hln & Hc & Hg & HK)].
  - destruct Hn as [-> | []]; [|done]. cbn. rewrite M. cbn. eexists. split; [done|]. unfold value_holds. cbn. split_and!; done.
  - assert (N : r <> marker_row) by (intros ->; cbn in HK; lia). specialize (Hs N). unfold value_holds, receiver_of in *.
    destruct HK as [(K & L & V) | [(K & L & V) | (K & L & V)]]; rewrite K, L, V in *; cbn [Z.eqb Pos.eqb] in *.
    all: rewrite ?some_if; set (side := side_of _ _ _) in *; set (receiver := if side =? 2 then c_peer_node c else c_local_node c) in *; clearbody receiver.
    + destruct (ns_fingerprint_built receiver (r_layer r) (membership_epoch (c_fields c)) side Hr) as (fp & Ef & Hf); [lia.. |].
      destruct Hk as (Lk & _ & Bk). assert (Hp : raw 16 (slice 8 24 k)) by (split; [rewrite len_slice by lia; lia | by apply bytes_ok_slice]).
      destruct (lane_value_built side (r_generation r) (slice 8 24 k) (membership_epoch (c_fields c)) fp) as (v & Ev & Hv); [done..|].
      destruct Hr as [Lr _]. rewrite raise_if_skip by (by rewrite Lr, Lk). rewrite Ef, !ok_bind, Ev, ok_bind.
      destruct (Hv) as ((Lv & _) & _). rewrite raise_if_skip by (by rewrite Lv). exists v. split_and!; try done. intros _. by exists fp.
    + destruct (Hr) as [Lr _]. rewrite raise_if_skip by (by rewrite Lr).
      assert (Ea : (if negb new then Ok 1 else al_floor_after_install (r_context r)) = Ok (if new then r_context r + 1 else 1)).
      { destruct new; [|done]. cbn. unfold al_floor_after_install. by rewrite raise_if_skip by lia. }
      destruct (al_value_built (if new then r_context r + 1 else 1) (if new then 1 else 0) (membership_epoch (c_fields c)) (if new then 1300000 else 1000000) receiver)
        as (v & Ev & Hv); [destruct new; lia.. | done |].
      rewrite Ea, !ok_bind. replace (if negb new then 0 else 1) with (if new then 1 else 0) by (by destruct new).
      replace (if negb new then 1000000 else 1300000) with (if new then 1300000 else 1000000) by (by destruct new). rewrite Ev, ok_bind.
      destruct (Hv) as ((Lv & _) & _). rewrite raise_if_skip by (by rewrite Lv). exists v. by split_and!.
    + destruct (hw_value_built (if new then r_generation r else 1) (if new then 1300000 else 1000000)) as (v & Ev & Hv); [destruct new; lia.. |].
      replace (if negb new then 1 else 1 `max` r_generation r) with (if new then r_generation r else 1) by (destruct new; cbn; lia).
      replace (if negb new then 1000000 else 1300000) with (if new then 1300000 else 1000000) by (by destruct new). rewrite Ev, ok_bind.
      destruct (Hv) as ((Lv & _) & _). rewrite raise_if_skip by (by rewrite Lv). exists v. by split_and!.
Qed.

(** The new value of a row never falls behind the old one. *)
Lemma no_rollback_holds r k old value : row_ok r -> r_kind r <> 4 ->
  value_holds c r k false old -> value_holds c r k true value -> no_rollback r old value = Ok tt.
Proof using.
  intros H K4 (_ & _ & O2 & O3 & _) (_ & _ & V2 & V3 & _). destruct H as [-> | (_ & _ & _ & Hc & Hg & HK)]; [done|]. unfold no_rollback.
  destruct HK as [(K & _) | [(K & _) | (K & _)]]; rewrite K in *; cbn [Z.eqb Pos.eqb andb].
  - by rewrite !raise_if_skip.
  - destruct (O2 eq_refl) as (_ & _ & _ & Fo & _), (V2 eq_refl) as (_ & _ & _ & Fv & _).
    rewrite raise_if_skip by done. cbv zeta. rewrite Fo, Fv. rewrite raise_if_skip by lia. rewrite raise_if_skip by (by rewrite Z.eqb_refl). done.
  - destruct (O3 eq_refl) as (_ & _ & _ & Fo & _), (V3 eq_refl) as (_ & _ & _ & Fv & _).
    rewrite Fo, Fv. rewrite raise_if_skip by lia. cbv zeta. by rewrite !raise_if_skip.
Qed.

Lemma kind_byte r : row_ok r -> is_byte (r_kind r).
Proof using. unfold is_byte. intros [-> | (_ & _ & _ & _ & _ & H)]; [done | lia]. Qed.

Lemma context_digest_built r k : row_ok r -> exists d, materialize_context_digest (r_kind r) k (c_install c) (attachment_id (c_fields c)) = Ok d /\ raw 32 d.
Proof using.
  intros H%kind_byte. unfold materialize_context_digest. destruct (r_kind r =? 4); [eexists; split; [done | by apply raw_zeros]|].
  cbn [join]. rewrite (proj2 (pybyte_Ok _ _) (conj H eq_refl)), !ok_bind. eexists. split; [done | apply raw_sha].
Qed.

Lemma old_digest_built r k : row_ok r -> exists d, old_context_digest_of (r_kind r) k (attachment_id (c_fields c)) = Ok d /\ raw 32 d.
Proof using.
  intros H%kind_byte. unfold old_context_digest_of.
  cbn [join]. rewrite (proj2 (pybyte_Ok _ _) (conj H eq_refl)), !ok_bind. eexists. split; [done | apply raw_sha].
Qed.

Lemma old_built r k value : row_ok r -> headed (r_key_length r) (head_of (c_role c) r) k -> value_holds c r k true value ->
  exists o, old_value_of c r k value = Ok o /\ match o with Some old => value_holds c r k false old | None => r_kind r = 4 end.
Proof using C.
  intros H Hk Hv. unfold old_value_of. destruct (Z.eqb_spec (r_kind r) 4) as [E|N]; [by exists None|].
  destruct (row_value_built r k false H Hk (or_intror N)) as (old & -> & Ho). rewrite ok_bind.
  rewrite (no_rollback_holds r k old value H N Ho Hv), ok_bind. by exists (Some old).
Qed.

Lemma add_built r : row_ok r -> exists m, add c r = Ok m /\ m_row m = r /\ member_holds c m.
Proof using C.
  intros H. destruct (row_key_built r H) as (k & Ek & Hk). destruct (row_value_built r k true H Hk (or_introl eq_refl)) as (v & Ev & Hv).
  destruct (old_built r k v H Hk Hv) as (o & Eo & Ho). destruct (context_digest_built r k H) as (d & Ed & Hd).
  destruct (old_digest_built r k H) as (od & Eod & [Lod _]). unfold add. cbv zeta.
  rewrite Ek, ok_bind. rewrite raise_if_skip by (by rewrite (proj1 Hk), Z.eqb_refl). rewrite Ev, ok_bind, Eo, ok_bind.
  rewrite raise_if_skip.
  2:{ destruct (Z.eqb_spec (r_kind r) 1) as [K|]; [|done]. destruct Hv as (_ & V1 & _). destruct (V1 K) as (fp & _ & _ & _ & _ & Hc & _).
      by rewrite Hc, Z.eqb_refl. }
  rewrite Ed, ok_bind. destruct o as [old|]; [rewrite Eod|]; rewrite ok_bind; (eexists; split; [done|]; split; [done|]; split; cbn; done).
Qed.
End Rows.

(** ** The inventory *)

Lemma adds_built c rows : commit_ok c -> Forall row_ok rows ->
  exists ms, mapM (add c) rows = Ok ms /\ map m_row ms = rows /\ Forall (member_holds c) ms.
Proof.
  intros C. induction 1 as [|r rows H _ (ms & E & Er & Hm)]; [by exists []|].
  destruct (add_built c C r H) as (m & Em & Rm & M). exists (m :: ms). cbn. rewrite Em, ok_bind.
  split_and!; [by rewrite E | by rewrite Rm, Er | by constructor].
Qed.

(** The length and head of a key set it apart. *)
Lemma rows_apart f role : 1 <= role <= 2 ->
  NoDup (map (fun r => (r_key_length r, head_of role r)) (inventory_rows f)).
Proof. intros H. assert (role = 1 \/ role = 2) as [-> | ->] by lia; apply (bool_decide_unpack _); vm_compute; exact I. Qed.

Lemma keys_apart c rows ms : map m_row ms = rows -> Forall (member_holds c) ms ->
  NoDup (map (fun r => (r_key_length r, head_of (c_role c) r)) rows) -> NoDup (map m_key ms).
Proof.
  intros <- H N. apply (NoDup_fmap_1 (fun k => (len k, slice 0 4 k))).
  assert (E : (fun k => (len k, slice 0 4 k)) <$> map m_key ms = map (fun r => (r_key_length r, head_of (c_role c) r)) (map m_row ms)).
  { clear N. induction H as [|m ms [_ _ (L & S & _) _ _ _] _ IH]; [done|]. cbn. rewrite L, S. f_equal. exact IH. }
  by rewrite E.
Qed.

Lemma check_order_Ok l : StronglySorted (fun a b => compare_bytes (m_key a) (m_key b) = Lt) l -> check_order l = Ok tt.
Proof.
  induction 1 as [|a l S IH H]; [done|]. destruct l as [|b l]; [done|]. cbn. apply Forall_inv in H. rewrite H. exact IH.
Qed.

(** The arguments every row of an inventory shares. *)
Definition commit_of (role : Z) (f : nai1_fields) (install marker local peer : bytes) : commit_args := {|
  c_role := role; c_fields := f; c_install := install; c_marker := marker; c_local_node := local; c_peer_node := peer |}.

Lemma inventory_built role f install marker :
  usable f -> 1 <= role <= 2 -> len marker = N6AT_VALUE_BYTES ->
  exists local peer inventory,
    node_id16 (if role =? 1 then initiator_stable_digest f else responder_stable_digest f) = Ok local /\
    node_id16 (if role =? 1 then responder_stable_digest f else initiator_stable_digest f) = Ok peer /\
    nab1_exact_inventory role f install marker = Ok inventory /\
    map m_row inventory ≡ₚ inventory_rows f /\ len inventory = 15 /\
    StronglySorted (fun a b => compare_bytes (m_key a) (m_key b) = Lt) inventory /\
    Forall (member_holds (commit_of role f install marker local peer)) inventory.
Proof.
  intros U R M. destruct (io_raw32 _ (us_fields _ U)) as ([Li _] & [Lr _] & _).
  destruct (node_id16_raw (if role =? 1 then initiator_stable_digest f else responder_stable_digest f)) as (local & El & Hl); [destruct (_ =? _); lia|].
  destruct (node_id16_raw (if role =? 1 then responder_stable_digest f else initiator_stable_digest f)) as (peer & Ep & Hp); [destruct (_ =? _); lia|].
  exists local, peer. set (c := commit_of role f install marker local peer).
  assert (C : commit_ok c) by (split; done).
  destruct (adds_built c _ C (inventory_rows_ok f U)) as (ms & Ems & Er & Hm).
  pose proof (keys_apart c _ ms Er Hm (rows_apart f role R)) as N.
  pose proof (sorted_by_strict m_key compare_bytes ms N) as S. destruct (sorted_by_spec m_key compare_bytes ms) as [_ P].
  assert (L : len ms = 15) by (unfold len; rewrite <- (length_map m_row ms), Er; reflexivity).
  exists (sorted_by m_key compare_bytes ms). split_and!; [done | done | | by rewrite P, Er | unfold len in *; by rewrite P | exact S | by rewrite P].
  unfold nab1_exact_inventory. rewrite raise_if_skip by (rewrite (proj2 (in_range_spec 1 2 role)) by lia; done).
  rewrite raise_if_skip by (by rewrite M). rewrite El, ok_bind, Ep, ok_bind. fold (commit_of role f install marker local peer). fold c.
  rewrite Ems, ok_bind. rewrite raise_if_skip by (by rewrite L). cbv zeta. rewrite (check_order_Ok _ S). done.
Qed.

(** ** The manifest *)

Lemma entry_locked m m' : Forall2 locked (entry_parts m) (entry_parts m').
Proof. unfold entry_parts. solve_locked. Qed.

Lemma entry_wide m : Forall2 wide (entry_parts m) [1; 1; 1; 1; 4; 8; 2; 2].
Proof. unfold entry_parts. solve_parts. Qed.

Lemma entry_sound m : Forall sound (entry_parts m).
Proof. unfold entry_parts. solve_parts. Qed.

Lemma entry_fine c m : member_holds c m -> row_ok (m_row m) -> Forall fine (entry_parts m).
Proof.
  intros M H. assert (Hs : 0 <= m_side m <= 2).
  { rewrite (mb_side _ _ M). unfold side_of. destruct (_ =? 4); [lia|]. destruct (Bool.eqb _ _); lia. }
  unfold entry_parts. destruct H as [-> | (Hl & Hd & Hn & Hc & Hg & HK)]; solve_parts.
Qed.

Lemma sized_entry i m : 0 <= i < 15 -> sized NAB1_TOTAL_BYTES (put_entry i m).
Proof.
  intros H. unfold put_entry, NAB1_TOTAL_BYTES, NAB1_HEADER_BYTES, NAB1_ENTRY_BYTES, NAB1_ENTRY_COUNT. apply sized_put; [lia..|].
  intros x E. split; [rewrite (join_len _ _ _ (entry_wide m) E); cbn; lia | by apply (join_sound _ _ (entry_sound m))].
Qed.

Lemma total_entry n c i m : member_holds c m -> row_ok (m_row m) -> total n (put_entry i m).
Proof. intros M H buf _ _. exact (join_total _ (entry_fine c m M H)). Qed.

Lemma nab1_sized role attachment install inventory : raw 16 attachment -> raw 32 install -> len inventory = 15 ->
  Forall (sized NAB1_TOTAL_BYTES) (nab1_writes role attachment install inventory).
Proof.
  intros [La Ba] [Li Bi] L. unfold nab1_writes. apply Forall_app_2; [|apply Forall_app_2].
  - unfold NAB1_TOTAL_BYTES, NAB1_HEADER_BYTES, NAB1_ENTRY_BYTES, NAB1_ENTRY_COUNT. solve_sized.
  - apply Forall_lookup. intros i w. rewrite list_lookup_imap. intros (m & Hm & ->)%fmap_Some. apply lookup_lt_Some in Hm. apply sized_entry. unfold len in L. lia.
  - unfold NAB1_TOTAL_BYTES, NAB1_HEADER_BYTES, NAB1_ENTRY_BYTES, NAB1_ENTRY_COUNT. solve_sized.
Qed.

Lemma nab1_total c attachment install inventory : 1 <= c_role c <= 2 -> Forall (member_holds c) inventory -> Forall row_ok (map m_row inventory) ->
  Forall (total NAB1_TOTAL_BYTES) (nab1_writes (c_role c) attachment install inventory).
Proof.
  intros R M H. unfold nab1_writes. apply Forall_app_2; [|apply Forall_app_2].
  - unfold NAB1_TOTAL_BYTES, NAB1_HEADER_BYTES, NAB1_ENTRY_BYTES, NAB1_ENTRY_COUNT. solve_total.
  - rewrite Forall_map in H. apply Forall_lookup. intros i w. rewrite list_lookup_imap. intros (m & Hm & ->)%fmap_Some.
    eapply total_entry; [by eapply Forall_lookup_1 | exact (Forall_lookup_1 _ _ _ _ H Hm)].
  - solve_total.
Qed.

(** Entry [i] reads back at its offset. *)
Lemma entry_read role attachment install inventory batch i m :
  raw 16 attachment -> raw 32 install -> len inventory = 15 -> run_writes (nab1_writes role attachment install inventory) (zeros NAB1_TOTAL_BYTES) = Ok batch ->
  inventory !! i = Some m -> join (entry_parts m) = Ok (slice (68 + 20 * Z.of_nat i) (88 + 20 * Z.of_nat i) batch).
Proof.
  intros Ha Hi L Hr Hm. pose proof (nab1_sized role attachment install inventory Ha Hi L) as S.
  pose proof (eq_refl : len (zeros NAB1_TOTAL_BYTES) = NAB1_TOTAL_BYTES) as Lz.
  assert (Hl : (i < 15)%nat) by (apply lookup_lt_Some in Hm; unfold len in L; lia).
  do 15 (destruct inventory as [|? inventory]; [unfold len in L; cbn in L; lia|]). destruct inventory; [|unfold len in L; cbn in L; lia].
  do 15 (destruct i as [|i]; [injection Hm as ->;
    match goal with |- _ = Ok (slice ?lo ?hi _) => let a := eval vm_compute in lo in let b := eval vm_compute in hi in change lo with a; change hi with b; exact (read_put _ _ _ _ S Lz Hr a b _ _ eq_refl) end|]).
  lia.
Qed.

Record manifest_ok (role : Z) (attachment install : bytes) (f : nai1_fields) (marker : bytes) : Prop := {
  mo_usable : usable f;
  mo_role : 1 <= role <= 2;
  mo_marker : len marker = N6AT_VALUE_BYTES;
  mo_ids : raw 16 attachment /\ raw 32 install }.

(** What the manifest says of a row. *)
Definition listed (m : member) : Z * Z * Z * Z * Z * Z * Z * Z := let r := m_row m in
  (r_kind r, r_direction r, r_lane r, m_side m, r_context r, r_generation r, r_key_length r, r_value_length r).

Record manifest_holds (role : Z) (attachment install : bytes) (inventory : list member) (batch : bytes) : Prop := {
  mf_size : len batch = NAB1_TOTAL_BYTES /\ len inventory = 15 /\ bytes_ok batch;
  mf_head : slice 0 4 batch = bytes_of_string "NAB1" /\ be_val (slice 4 6 batch) = 1 /\ be_val (slice 6 8 batch) = NAB1_TOTAL_BYTES /\
            slice 8 9 batch = [role] /\ slice 9 10 batch = [1] /\ slice 10 12 batch = zeros 2 /\ slice 12 28 batch = attachment /\
            slice 28 60 batch = install /\ be_val (slice 60 62 batch) = 15 /\ be_val (slice 62 64 batch) = 20;
  mf_entries : forall i m, inventory !! i = Some m -> join (entry_parts m) = Ok (slice (68 + 20 * Z.of_nat i) (88 + 20 * Z.of_nat i) batch);
  mf_sealed : sealed crc32c 64 batch }.

Lemma manifest_header role attachment install inventory batch :
  raw 16 attachment -> raw 32 install -> len inventory = 15 -> run_writes (nab1_writes role attachment install inventory) (zeros NAB1_TOTAL_BYTES) = Ok batch ->
  manifest_holds role attachment install inventory batch.
Proof.
  intros Ha Hi L Hr. pose proof (nab1_sized role attachment install inventory Ha Hi L) as S.
  pose proof (eq_refl : len (zeros NAB1_TOTAL_BYTES) = NAB1_TOTAL_BYTES) as Lz.
  split.
  - split_and!; [by eapply run_writes_len | done | eapply run_writes_ok; [exact S | exact Hr | apply zeros_ok]].
  - clear Ha Hi. do 15 (destruct inventory as [|? inventory]; [unfold len in L; cbn in L; lia|]). destruct inventory; [|unfold len in L; cbn in L; lia].
    split_and!; try read_field S Lz Hr.
    pose proof (read_index _ _ _ _ S Lz Hr 8 _ _ eq_refl) as K. by apply pybyte_Ok in K as [_ K].
  - intros i m Hm. by eapply entry_read.
  - unfold nab1_writes in S, Hr. rewrite app_assoc in S, Hr. apply Forall_app in S as [S _].
    apply (run_sealed_fresh crc32c NAB1_TOTAL_BYTES _ 64 (zeros NAB1_TOTAL_BYTES) batch S); try done.
    clear Ha Hi Hr S. do 15 (destruct inventory as [|? inventory]; [unfold len in L; cbn in L; lia|]). destruct inventory; [done | unfold len in L; cbn in L; lia].
Qed.

(** Entries with the same bytes list the same row. *)
Lemma entry_determines m m' e : join (entry_parts m) = Ok e -> join (entry_parts m') = Ok e -> listed m = listed m'.
Proof.
  intros E E'. pose proof (join_locked _ _ _ (entry_locked m m') E E') as P. pose proof (join_parts_fine _ _ E) as F.
  unfold listed. rewrite (part_pack F P 0 1 _ _ eq_refl eq_refl), (part_pack F P 1 1 _ _ eq_refl eq_refl), (part_pack F P 2 1 _ _ eq_refl eq_refl),
    (part_pack F P 3 1 _ _ eq_refl eq_refl), (part_pack F P 4 4 _ _ eq_refl eq_refl), (part_pack F P 5 8 _ _ eq_refl eq_refl),
    (part_pack F P 6 2 _ _ eq_refl eq_refl), (part_pack F P 7 2 _ _ eq_refl eq_refl). done.
Qed.

Lemma entries_determine inv inv' batch : len inv = len inv' ->
  (forall i m, inv !! i = Some m -> join (entry_parts m) = Ok (slice (68 + 20 * Z.of_nat i) (88 + 20 * Z.of_nat i) batch)) ->
  (forall i m, inv' !! i = Some m -> join (entry_parts m) = Ok (slice (68 + 20 * Z.of_nat i) (88 + 20 * Z.of_nat i) batch)) ->
  map listed inv = map listed inv'.
Proof.
  intros L H H'. apply list_eq. intros i. change (map listed inv) with (listed <$> inv). change (map listed inv') with (listed <$> inv').
  rewrite !list_lookup_fmap. destruct (inv !! i) as [m|] eqn:E, (inv' !! i) as [m'|] eqn:E'; cbn; [| | |done].
  - f_equal. exact (entry_determines m m' _ (H i m E) (H' i m' E')).
  - apply lookup_lt_Some in E. apply lookup_ge_None in E'. unfold len in L. lia.
  - apply lookup_lt_Some in E'. apply lookup_ge_None in E. unfold len in L. lia.
Qed.

(** C7. Usable fields, a role and a marker of its size always give an inventory: the
    fifteen rows of the two hop and two end-to-end contexts and the marker, in
    strictly ascending order of their keys, whatever the hashes.  Every row has a key
    and values of its size, with the counters of its side, and a new value that does
    not fall behind the old one; the fourteen context rows are sealed, and the marker
    row, which alone is new, has the given 120 bytes as they are. *)
Theorem inventory_exact role f install marker :
  usable f -> 1 <= role <= 2 -> len marker = N6AT_VALUE_BYTES ->
  exists local peer inventory,
    node_id16 (if role =? 1 then initiator_stable_digest f else responder_stable_digest f) = Ok local /\
    node_id16 (if role =? 1 then responder_stable_digest f else initiator_stable_digest f) = Ok peer /\
    nab1_exact_inventory role f install marker = Ok inventory /\
    map m_row inventory ≡ₚ inventory_rows f /\ len inventory = 15 /\
    StronglySorted (fun a b => compare_bytes (m_key a) (m_key b) = Lt) inventory /\
    Forall (member_holds (commit_of role f install marker local peer)) inventory.
Proof. apply inventory_built. Qed.

(** C19. The manifest of usable fields is always built: 368 sealed bytes with every header
    field of the code at its place and, for each row of the inventory in order, the
    twenty bytes the code's entry encoder writes for it.  It determines what it was
    built from: two manifests with the same bytes have the same role, attachment and
    installation, and list the same rows. *)
Theorem manifest_exact role attachment install f marker :
  manifest_ok role attachment install f marker ->
  exists batch inventory, make_nab1 role attachment install f marker = Ok (batch, inventory) /\
    nab1_exact_inventory role f install marker = Ok inventory /\ manifest_holds role attachment install inventory batch /\
    forall role' attachment' install' f' marker' inventory', manifest_ok role' attachment' install' f' marker' ->
      make_nab1 role' attachment' install' f' marker' = Ok (batch, inventory') ->
      role' = role /\ attachment' = attachment /\ install' = install /\ map listed inventory' = map listed inventory.
Proof.
  assert (B : forall role attachment install f marker, manifest_ok role attachment install f marker ->
            exists batch inventory, make_nab1 role attachment install f marker = Ok (batch, inventory) /\
              nab1_exact_inventory role f install marker = Ok inventory /\ manifest_holds role attachment install inventory batch).
  { clear. intros role attachment install f marker [U R M [Ha Hi]].
    destruct (inventory_built role f install marker U R M) as (local & peer & inv & _ & _ & E & P & L & _ & H).
    assert (Ho : Forall row_ok (map m_row inv)) by (rewrite P; by apply inventory_rows_ok).
    destruct (run_writes_total _ _ _ (nab1_sized role attachment install inv Ha Hi L)
                (nab1_total (commit_of role f install marker local peer) attachment install inv R H Ho) (eq_refl : len (zeros NAB1_TOTAL_BYTES) = _) (zeros_ok _)) as (batch & Eb & _).
    exists batch, inv. unfold make_nab1. rewrite E, ok_bind. cbn [c_role commit_of] in Eb. rewrite Eb, ok_bind. split_and!; [done..|]. by apply manifest_header. }
  intros K. destruct (B _ _ _ _ _ K) as (batch & inv & E & Ei & H). exists batch, inv. split_and!; [done..|].
  intros role' attachment' install' f' marker' inv' K' E'. destruct (B _ _ _ _ _ K') as (batch2 & inv2 & E2 & _ & H').
  rewrite E2 in E'. injection E' as -> ->. destruct H as [(_ & L & _) Hh He _], H' as [(_ & L' & _) Hh' He' _].
  destruct Hh as (_ & _ & _ & R & _ & _ & A & I & _), Hh' as (_ & _ & _ & R' & _ & _ & A' & I' & _).
  split_and!; [congruence.. |]. eapply entries_determine; [lia | exact He' | exact He].
Qed.

Lemma inventory_exact_witness : exists inventory, nab1_exact_inventory 1 sample_fields (pattern 9 32) (zeros 120) = Ok inventory /\ len inventory = 15.
Proof.
  destruct (inventory_exact 1 sample_fields (pattern 9 32) (zeros 120) sample_usable) as (l & p & inv & _ & _ & E & _ & L & _); [lia | reflexivity |].
  exists inv. split; [exact E | exact L].
Defined.

Lemma manifest_exact_witness : exists batch inventory, make_nab1 1 (pattern 1 16) (pattern 9 32) sample_fields (zeros 120) = Ok (batch, inventory) /\ len batch = 368.
Proof.
  destruct (manifest_exact 1 (pattern 1 16) (pattern 9 32) sample_fields (zeros 120)) as (batch & inv & E & _ & H & _).
  { split; [exact sample_usable | lia | reflexivity | split; apply raw_pattern; lia]. }
  exists batch, inv. split; [exact E | exact (proj1 (mf_size _ _ _ _ _ H))].
Defined.
