(* ===== verification/CommitImage.v ===== *)
(** Commits of unknown outcome of an attachment: durable images of the write set, their
    classification against the observed old rows and the proposed new ones, and torn
    commits ([tools/production_attachment_edhoc_composition.py]). *)

From stdpp Require Import sorting pretty.
From S2P Require Import Prelude Order Bytes Crc Sha256 Layout Join Descriptor N6 CommitSet.
#[local] Open Scope Z_scope.

(** ** Images *)

(** A row of an image, as [full_member_records] writes it. *)
Record image_row := {
  i_index : Z; i_identity : string; i_kind : Z; i_key : bytes; i_value : bytes; i_value_sha256 : bytes; i_value_bytes : Z; i_context : bytes }.

Definition full_member_records (inventory : list member) : list image_row :=
  imap (fun i m => {| i_index := Z.of_nat i; i_identity := r_identity (m_row m); i_kind := r_kind (m_row m); i_key := m_key m;
    i_value := m_value m; i_value_sha256 := m_value_sha256 m; i_value_bytes := r_value_length (m_row m); i_context := m_context_digest m |}) inventory.

Definition full_image_bytes (rows : list image_row) : bytes :=
  concat (map (fun r => i_key r ++ i_value r ++ i_context r) rows).

(** The old rows, at the index of their new row. *)
Fixpoint old_rows_from (i : Z) (inventory : list member) : res (list image_row) :=
  match inventory with
  | [] => Ok []
  | m :: inventory =>
      match m_old m with
      | None => old_rows_from (i + 1) inventory
      | Some old =>
          raise_if (negb (len old =? r_value_length (m_row m)) || negb (len (m_old_context_digest m) =? 32)) (AssertionError "observed OLD shape");;
          rows ← old_rows_from (i + 1) inventory;
          mret ({| i_index := i; i_identity := r_identity (m_row m); i_kind := r_kind (m_row m); i_key := m_key m; i_value := old;
                   i_value_sha256 := sha256 old; i_value_bytes := r_value_length (m_row m); i_context := m_old_context_digest m |} :: rows)
      end
  end.

Definition observed_old_members (inventory : list member) : res (list image_row) :=
  rows ← old_rows_from 0 inventory;
  raise_if ((len rows =? 0) || (15 <=? len rows)) (AssertionError "observed OLD count must be data in 1..14");;
  raise_if (negb (existsb (fun r => i_kind r =? 1) rows)) (AssertionError "fixture must contain a legal non-empty lane OLD");;
  mret rows.

(** [{m["complete_key_hex"]: value(m) for m in rows}]: a later row replaces an earlier one. *)
Definition dict_of {V} (value : image_row -> V) (rows : list image_row) : gmap bytes V :=
  fold_left (fun m r => <[i_key r := value r]> m) rows ∅.

Definition mix_row (old_by_key : gmap bytes image_row) (advanced : Z) (i : nat) (r : image_row) : option image_row :=
  if Z.of_nat i <? advanced then Some r else old_by_key !! i_key r.

Definition mix_partial_members (old_by_key : gmap bytes image_row) (new_members : list image_row) (advanced : Z) : list image_row :=
  omap id (imap (mix_row old_by_key advanced) new_members).

(** ** The classification of one row *)

Definition classify_row_value_image (old_present : bool) (old_value old_context new_value new_context : bytes)
    (durable_present : bool) (durable_value durable_context : bytes) : string :=
  let old_pair := if old_present then Some (old_value, old_context) else None in
  let new_pair := Some (new_value, new_context) in
  let durable_pair := if durable_present then Some (durable_value, durable_context) else None in
  let old_match := bool_decide (durable_pair = old_pair) in
  let new_match := bool_decide (durable_pair = new_pair) in
  if old_match && new_match then "STABLE" else if old_match then "OLD" else if new_match then "NEW" else "THIRD".

(** ** The classification of an image *)

Definition pair_of (r : image_row) : bytes * bytes := (i_value r, i_context r).
Abbreviation image := (gmap bytes (bytes * bytes)).

Definition image_of (rows : list image_row) : image := dict_of pair_of rows.

(** The durable rows; a key may occur once. *)
Fixpoint present_image (rows : list image_row) (m : image) : option image :=
  match rows with
  | [] => Some m
  | r :: rows => match m !! i_key r with Some _ => None | None => present_image rows (<[i_key r := pair_of r]> m) end
  end.

Fixpoint add_foreign (write_set foreign_keys : list bytes) (m : image) : string + image :=
  match foreign_keys with
  | [] => inr m
  | fk :: foreign_keys =>
      if bool_decide (is_Some (m !! fk)) then inl "DUPLICATE_KEYS_CORRUPT"%string
      else if negb (bool_decide (fk ∈ write_set)) then inl "FOREIGN_OR_EXTRA_CORRUPT"%string
      else add_foreign write_set foreign_keys (<[fk := ([0], zeros 32)]> m)
  end.

(** The counts of rows at the new value, at the old value and at neither. *)
Fixpoint count_rows (write_set : list bytes) (old new present : image) (counts : Z * Z * Z) : res (Z * Z * Z) :=
  match write_set with
  | [] => Ok counts
  | k :: write_set =>
      match new !! k with
      | None => Raise (KeyError "new_map")
      | Some new_v =>
          let got := present !! k in
          let matches_old := bool_decide (got = old !! k) in
          let matches_new := bool_decide (got = Some new_v) in
          let '(pure_new, pure_old, third) := counts in
          count_rows write_set old new present
            (if matches_old && matches_new then (pure_new, pure_old, third)
             else if matches_new then (pure_new + 1, pure_old, third)
             else if matches_old then (pure_new, pure_old + 1, third)
             else (pure_new, pure_old, third + 1))
      end
  end.

(** All rows are at their new value: the state of the marker decides. *)
Definition new_outcome (marker : option (bytes * bytes)) : res string :=
  match marker with
  | None => Ok "MISSING_MARKER_CORRUPT"
  | Some (value, _) =>
      match value !! 8%nat with
      | None => Raise IndexError
      | Some state =>
          Ok (if state =? 1 then "EXACT_NEW_PENDING_15"%string else if state =? 2 then "EXACT_NEW_ACTIVE_MARKER_IN_15"%string
              else if state =? 3 then "THIRD_OR_MISMATCH_CORRUPT"%string else "UNKNOWN_MARKER_STATE_CORRUPT"%string)
      end
  end.

Definition partial_class (n : Z) : string := "PARTIAL_" ++ pretty n ++ "_CORRUPT".

(** The verdict on the counts. *)
Definition counts_class (marker : option (bytes * bytes)) (counts : Z * Z * Z) : res string :=
  let '(pure_new, pure_old, third) := counts in
  if negb (third =? 0) then Ok "THIRD_OR_MISMATCH_CORRUPT"%string
  else if pure_new =? 0 then Ok "EXACT_OLD"%string
  else if pure_old =? 0 then new_outcome marker
  else if in_range 1 14 pure_new then Ok (partial_class pure_new)
  else Ok "UNCLASSIFIED_CORRUPT"%string.

(** No foreign keys are an empty list. *)
Definition classify_write_set_value_image (present_members old_members new_members : list image_row) (write_set : list bytes)
    (marker_key : bytes) (foreign_keys : list bytes) : res string :=
  if negb (len write_set =? 15) || negb (Z.of_nat (size (list_to_set write_set : gset bytes)) =? 15) then Ok "UNCLASSIFIED_CORRUPT"%string
  else match present_image present_members ∅ with
  | None => Ok "DUPLICATE_KEYS_CORRUPT"%string
  | Some present =>
      match add_foreign write_set foreign_keys present with
      | inl class => Ok class
      | inr present =>
          if negb (forallb (fun kv : bytes * (bytes * bytes) => bool_decide (kv.1 ∈ write_set)) (map_to_list present)) then Ok "FOREIGN_OR_EXTRA_CORRUPT"%string
          else if existsb (fun fk => negb (bool_decide (fk ∈ write_set))) foreign_keys then Ok "FOREIGN_OR_EXTRA_CORRUPT"%string
          else if negb (Z.of_nat (size (image_of new_members)) =? 15) then Ok "UNCLASSIFIED_CORRUPT"%string
          else counts ← count_rows write_set (image_of old_members) (image_of new_members) present (0, 0, 0);
               counts_class (present !! marker_key) counts
      end
  end.

(** ** The snapshots of one role *)

Definition with_value (v : bytes) (r : image_row) : image_row := {|
  i_index := i_index r; i_identity := i_identity r; i_kind := i_kind r; i_key := i_key r; i_value := v; i_value_sha256 := sha256 v;
  i_value_bytes := i_value_bytes r; i_context := i_context r |}.

Definition with_context (d : bytes) (r : image_row) : image_row := {|
  i_index := i_index r; i_identity := i_identity r; i_kind := i_kind r; i_key := i_key r; i_value := i_value r;
  i_value_sha256 := i_value_sha256 r; i_value_bytes := i_value_bytes r; i_context := d |}.

(** [raw[0] ^= 1] and [raw[-1] ^= 1]. *)
Definition flip_first (v : bytes) : res bytes :=
  match v with [] => Raise IndexError | b :: v => Ok (Z.lxor b 1 :: v) end.
Definition flip_last (v : bytes) : res bytes := w ← flip_first (rev v); mret (rev w).

(** The first row of a kind decides; the four verdicts are checked on it. *)
Definition check_row_cases (old_members new_members : list image_row) : res unit :=
  match list_find (fun r => i_kind r = 1) new_members with
  | None => Raise StopIteration
  | Some (_, lane_new) =>
      match dict_of id old_members !! i_key lane_new with
      | None => Raise (KeyError "old_by_key")
      | Some lane_old =>
          third_value ← flip_last (i_value lane_new);
          let case expected old_value old_context durable_value durable_context :=
            raise_if (negb (String.eqb (classify_row_value_image true old_value old_context (i_value lane_new) (i_context lane_new) true durable_value durable_context) expected))
              (AssertionError "PA-CU-ROW") in
          case "OLD"%string (i_value lane_old) (i_context lane_old) (i_value lane_old) (i_context lane_old);;
          case "NEW"%string (i_value lane_old) (i_context lane_old) (i_value lane_new) (i_context lane_new);;
          case "STABLE"%string (i_value lane_new) (i_context lane_new) (i_value lane_new) (i_context lane_new);;
          case "THIRD"%string (i_value lane_old) (i_context lane_old) third_value (i_context lane_new)
      end
  end.

Record snapshots := {
  sn_old : string; sn_partials : list string; sn_new : string; sn_value_substituted : string; sn_context_substituted : string; sn_third : string }.

Definition lifecycle_role (inventory : list member) (marker_key third_value : bytes) : res snapshots :=
  let ordered_keys := map m_key inventory in
  let new_members := full_member_records inventory in
  old_members ← observed_old_members inventory;
  let classify present := classify_write_set_value_image present old_members new_members ordered_keys marker_key [] in
  old_cls ← classify old_members;
  raise_if (negb (String.eqb old_cls "EXACT_OLD")) (AssertionError "observed OLD must classify EXACT_OLD");;
  raise_if (negb (len inventory =? 15)) (AssertionError "write-set row model must be exact 15");;
  check_row_cases old_members new_members;;
  partials ← mapM (fun n =>
    p_cls ← classify (mix_partial_members (dict_of id old_members) new_members n);
    raise_if (negb (String.eqb p_cls (partial_class n))) (AssertionError "partial");;
    mret p_cls) (seqZ 1 14);
  cls ← classify new_members;
  match list_find (fun r => i_kind r <> 4) new_members with
  | None => Raise StopIteration
  | Some (subst_idx, row) =>
      raw ← flip_last (i_value row);
      subst_cls ← classify (<[subst_idx := with_value raw row]> new_members);
      cd_raw ← flip_first (i_context row);
      cd_cls ← classify (<[subst_idx := with_context cd_raw row]> new_members);
      raise_if (negb (String.eqb subst_cls "THIRD_OR_MISMATCH_CORRUPT") || negb (String.eqb cd_cls "THIRD_OR_MISMATCH_CORRUPT"))
        (AssertionError "substitution must be value-image THIRD");;
      third_cls ← classify (match list_find (fun r => i_kind r = 4) new_members with
                            | Some (i, marker) => <[i := with_value third_value marker]> new_members
                            | None => new_members
                            end);
      mret {| sn_old := old_cls; sn_partials := partials; sn_new := cls; sn_value_substituted := subst_cls;
              sn_context_substituted := cd_cls; sn_third := third_cls |}
  end.

(** ** Images as maps *)

Definition keys (rows : list image_row) : list bytes := map i_key rows.

Section Dict.
Context {V : Type} (value : image_row -> V).
Implicit Types m : gmap bytes V.

Let fill (rows : list image_row) m : gmap bytes V := fold_left (fun m r => <[i_key r := value r]> m) rows m.

Lemma fill_out rows m k : k ∉ keys rows -> fill rows m !! k = m !! k.
Proof.
  revert m. induction rows as [|r rows IH]; intros m H; [done|]. cbn in *. apply not_elem_of_cons in H as [Hr H].
  unfold fill in IH |- *. cbn. rewrite IH by done. by rewrite lookup_insert_ne.
Qed.

Lemma fill_in rows m r : NoDup (keys rows) -> r ∈ rows -> fill rows m !! i_key r = Some (value r).
Proof.
  revert m. induction rows as [|r' rows IH]; intros m N H; [by apply elem_of_nil in H|].
  cbn in N. apply NoDup_cons in N as [Hr N]. apply elem_of_cons in H as [<- | H]; [|by apply (IH _ N H)].
  unfold fill in *. cbn. fold (fill rows (<[i_key r := value r]> m)). rewrite fill_out by done. by rewrite lookup_insert_eq.
Qed.

Lemma dict_of_out rows k : k ∉ keys rows -> dict_of value rows !! k = None.
Proof. intros H. exact (fill_out rows ∅ k H). Qed.

Lemma dict_of_in rows r : NoDup (keys rows) -> r ∈ rows -> dict_of value rows !! i_key r = Some (value r).
Proof. exact (fill_in rows ∅ r). Qed.

Lemma dict_of_key rows k : NoDup (keys rows) -> k ∈ keys rows -> exists r, r ∈ rows /\ k = i_key r /\ dict_of value rows !! k = Some (value r).
Proof. intros N H. apply list_elem_of_fmap in H as (r & -> & H). exists r. by rewrite dict_of_in. Qed.

Lemma dict_of_size rows : NoDup (keys rows) -> size (dict_of value rows) = length rows.
Proof.
  intros N. rewrite <- (size_dom (D := gset bytes)). assert (E : dom (dict_of value rows) = (list_to_set (keys rows) : gset bytes)).
  { apply set_eq. intros k. rewrite elem_of_list_to_set, elem_of_dom. split.
    - intros [v Hv]. destruct (decide (k ∈ keys rows)) as [|H]; [done|]. by rewrite dict_of_out in Hv.
    - intros H. destruct (dict_of_key rows k N H) as (r & _ & _ & ->). by eexists. }
  rewrite E, size_list_to_set by done. apply length_map.
Qed.
End Dict.

Lemma present_image_spec rows m : (forall k, k ∈ keys rows -> m !! k = None) ->
  present_image rows m = if bool_decide (NoDup (keys rows)) then Some (fold_left (fun m r => <[i_key r := pair_of r]> m) rows m) else None.
Proof.
  revert m. induction rows as [|r rows IH]; intros m H; [done|]. cbn [present_image]. rewrite (H (i_key r)) by (cbn; set_solver).
  destruct (decide (i_key r ∈ keys rows)) as [Hr|Hr].
  - rewrite bool_decide_false by (cbn; rewrite NoDup_cons; tauto).
    clear -Hr. assert (E : is_Some ((<[i_key r := pair_of r]> m) !! i_key r)) by (rewrite lookup_insert_eq; by eexists).
    revert E. generalize (<[i_key r := pair_of r]> m). induction rows as [|r' rows IH]; intros m' E; [by apply elem_of_nil in Hr|].
    cbn. destruct (m' !! i_key r') eqn:E'; [done|]. cbn in Hr. apply elem_of_cons in Hr as [Hr | Hr]; [rewrite Hr, E' in E; by destruct E|].
    apply IH; [done|]. rewrite lookup_insert_is_Some. destruct (decide (i_key r' = i_key r)); [by left | by right].
  - rewrite IH.
    + cbn. assert (E : NoDup (keys rows) <-> NoDup (i_key r :: keys rows)) by (rewrite NoDup_cons; tauto). by rewrite (bool_decide_ext _ _ E).
    + intros k Hk. rewrite lookup_insert_ne by (intros <-; done). apply H. cbn. set_solver.
Qed.

(** ** The classification, row by row *)

Section Rows.
Context (old new present : image).

(** A row is at its new value, at a different old value, or at neither. *)
Definition is_new (k : bytes) : Prop := present !! k = new !! k /\ old !! k <> new !! k.
Definition is_old (k : bytes) : Prop := present !! k = old !! k /\ old !! k <> new !! k.
Definition is_third (k : bytes) : Prop := present !! k <> old !! k /\ present !! k <> new !! k.

#[export] Instance is_new_dec k : Decision (is_new k).
Proof. unfold is_new. apply _. Defined.
#[export] Instance is_old_dec k : Decision (is_old k).
Proof. unfold is_old. apply _. Defined.
#[export] Instance is_third_dec k : Decision (is_third k).
Proof. unfold is_third. apply _. Defined.

Definition count (P : bytes -> Prop) `{!forall k, Decision (P k)} (ws : list bytes) : Z := len (filter P ws).

Lemma count_cons P `{!forall k, Decision (P k)} k ws : count P (k :: ws) = (if decide (P k) then 1 else 0) + count P ws.
Proof using. unfold count. rewrite filter_cons. destruct (decide (P k)); [by rewrite len_cons | lia]. Qed.

Lemma count_nonneg P `{!forall k, Decision (P k)} ws : 0 <= count P ws.
Proof using. apply len_nonneg. Qed.

Lemma count_zero P `{!forall k, Decision (P k)} ws : count P ws = 0 <-> forall k, k ∈ ws -> ~ P k.
Proof using.
  unfold count. split.
  - intros L k Hk Pk. assert (E : filter P ws = []) by (destruct (filter P ws); [done | unfold len in L; cbn in L; lia]).
    assert (Hin : k ∈ filter P ws) by (by apply list_elem_of_filter). rewrite E in Hin. by apply elem_of_nil in Hin.
  - intros L. assert (E : filter P ws = []); [|by rewrite E].
    induction ws as [|x ws IH]; [done|]. rewrite filter_cons_False by (apply L; left). apply IH. intros k Hk. apply L. by right.
Qed.

Lemma triple_eq (a b c a' b' c' : Z) : a = a' -> b = b' -> c = c' -> @Ok (Z * Z * Z) (a, b, c) = Ok (a', b', c').
Proof using. by intros -> -> ->. Qed.

Lemma count_rows_spec ws a b c : (forall k, k ∈ ws -> is_Some (new !! k)) ->
  count_rows ws old new present (a, b, c) = Ok (a + count is_new ws, b + count is_old ws, c + count is_third ws).
Proof using.
  revert a b c. induction ws as [|k ws IH]; intros a b c H; [by rewrite !Z.add_0_r|].
  cbn [count_rows]. destruct (H k) as [v Hv]; [left|]. rewrite Hv, !count_cons. cbv zeta. rewrite <- Hv.
  assert (H' : forall k, k ∈ ws -> is_Some (new !! k)) by (intros; apply H; by right).
  set (n1 := count is_new ws) in *. set (n2 := count is_old ws) in *. set (n3 := count is_third ws) in *. clearbody n1 n2 n3. unfold is_new, is_old, is_third.
  destruct (decide (present !! k = old !! k)) as [E1|E1], (decide (present !! k = new !! k)) as [E2|E2];
    rewrite ?(bool_decide_true (present !! k = old !! k)), ?(bool_decide_false (present !! k = old !! k)), ?(bool_decide_true (present !! k = new !! k)), ?(bool_decide_false (present !! k = new !! k)) by done;
    cbn [andb]; rewrite IH by done; rewrite ?E1, ?E2; repeat case_decide; try (exfalso; intuition congruence); (apply triple_eq; lia).
Qed.

(** [classify_row_value_image] of the row at [k]. *)
Definition row_verdict (k : bytes) : string :=
  let parts v := default ([], []) v in
  classify_row_value_image (bool_decide (is_Some (old !! k))) (parts (old !! k)).1 (parts (old !! k)).2 (parts (new !! k)).1 (parts (new !! k)).2
    (bool_decide (is_Some (present !! k))) (parts (present !! k)).1 (parts (present !! k)).2.

Lemma row_verdict_spec k : is_Some (new !! k) ->
  (row_verdict k = "STABLE"%string <-> present !! k = old !! k /\ old !! k = new !! k) /\
  (row_verdict k = "NEW"%string <-> is_new k) /\ (row_verdict k = "OLD"%string <-> is_old k) /\ (row_verdict k = "THIRD"%string <-> is_third k).
Proof using.
  intros [[nv nc] Hn]. unfold row_verdict, classify_row_value_image, is_new, is_old, is_third. cbv zeta. rewrite Hn. cbn [default fst snd].
  assert (E : forall m : option (bytes * bytes), (if bool_decide (is_Some m) then Some ((default ([], []) m).1, (default ([], []) m).2) else None) = m)
    by (intros [[x y]|]; done).
  rewrite !E. change ((id (nv, nc)).1, (id (nv, nc)).2) with (nv, nc). repeat case_bool_decide; cbn; split_and!; (split; [intros Hx; first [discriminate Hx | intuition congruence] | intros Hx; first [done | exfalso; intuition congruence]]).
Qed.
End Rows.

(** ** The classification of a well-formed image *)

(** Fifteen keys, each proposed once, of which some occur once. *)
Record images_ok (write_set : list bytes) (present new : list image_row) : Prop := {
  im_keys : NoDup write_set /\ len write_set = 15;
  im_present : NoDup (keys present) /\ forall k, k ∈ keys present -> k ∈ write_set;
  im_new : keys new = write_set }.

Lemma classify_counts write_set present old new marker : images_ok write_set present new ->
  let P := image_of present in let O := image_of old in let N := image_of new in
  (forall k, k ∈ write_set -> is_Some (N !! k)) /\
  classify_write_set_value_image present old new write_set marker [] =
    counts_class (P !! marker) (count (is_new O N P) write_set, count (is_old O N P) write_set, count (is_third O N P) write_set).
Proof.
  intros [[HN HL] [HP HS] HK]. cbv zeta.
  assert (HNew : NoDup (keys new)) by (by rewrite HK).
  assert (HSome : forall k, k ∈ write_set -> is_Some (image_of new !! k)).
  { intros k Hk. rewrite <- HK in Hk. destruct (dict_of_key pair_of new k HNew Hk) as (r & _ & _ & E). unfold image_of. rewrite E. by eexists. }
  split; [exact HSome|]. unfold classify_write_set_value_image.
  rewrite size_list_to_set by done. rewrite HL. change (Z.of_nat (length write_set)) with (len write_set). rewrite HL. cbn [Z.eqb Pos.eqb negb orb].
  rewrite present_image_spec by (intros; apply lookup_empty). rewrite bool_decide_true by done. cbn [add_foreign existsb].
  change (fold_left _ present ∅) with (image_of present).
  replace (forallb _ (map_to_list (image_of present))) with true.
  2:{ symmetry. apply forallb_forall. intros [k v] Hkv. apply bool_decide_true. cbn. apply HS.
      apply list_elem_of_In, elem_of_map_to_list in Hkv. destruct (decide (k ∈ keys present)) as [|Hk]; [done|].
      unfold image_of in Hkv. by rewrite dict_of_out in Hkv. }
  cbn [negb]. replace (Z.of_nat (size (image_of new)) =? 15) with true.
  2:{ symmetry. apply Z.eqb_eq. unfold image_of. rewrite dict_of_size by done. rewrite <- HL, <- HK. unfold len, keys. by rewrite length_map. }
  cbn [negb]. by rewrite count_rows_spec.
Qed.

Lemma counts_total O N P ws : len ws = count (is_new O N P) ws + count (is_old O N P) ws + count (is_third O N P) ws + count (fun k => P !! k = O !! k /\ P !! k = N !! k) ws.
Proof.
  induction ws as [|k ws IH]; [done|]. rewrite len_cons, !count_cons. 
  assert (D : 1 = (if decide (is_new O N P k) then 1 else 0) + (if decide (is_old O N P k) then 1 else 0) + (if decide (is_third O N P k) then 1 else 0) +
                  (if decide (P !! k = O !! k /\ P !! k = N !! k) then 1 else 0)); [|lia].
  unfold is_new, is_old, is_third. destruct (decide (P !! k = O !! k)), (decide (P !! k = N !! k)); repeat case_decide; try (exfalso; intuition congruence); lia.
Qed.

Lemma commit_image_cases write_set present old new marker : images_ok write_set present new ->
  let P := image_of present in let O := image_of old in let N := image_of new in
  let class := classify_write_set_value_image present old new write_set marker [] in
  let at_old k := P !! k = O !! k in let at_new k := P !! k = N !! k in
  ((forall k, k ∈ write_set -> at_old k) -> class = Ok "EXACT_OLD"%string) /\
  ((forall k, k ∈ write_set -> at_new k) -> (exists k, k ∈ write_set /\ ~ at_old k) -> class = new_outcome (P !! marker)) /\
  ((forall k, k ∈ write_set -> at_old k \/ at_new k) -> (exists k, k ∈ write_set /\ ~ at_old k) -> (exists k, k ∈ write_set /\ ~ at_new k) ->
    exists n, 1 <= n <= 14 /\ n = len (filter (is_new O N P) write_set) /\ class = Ok (partial_class n)) /\
  ((exists k, k ∈ write_set /\ ~ at_old k /\ ~ at_new k) -> class = Ok "THIRD_OR_MISMATCH_CORRUPT"%string) /\
  (forall k, k ∈ write_set ->
    (row_verdict O N P k = "STABLE"%string <-> at_old k /\ O !! k = N !! k) /\
    (row_verdict O N P k = "NEW"%string <-> at_new k /\ O !! k <> N !! k) /\
    (row_verdict O N P k = "OLD"%string <-> at_old k /\ O !! k <> N !! k) /\
    (row_verdict O N P k = "THIRD"%string <-> ~ at_old k /\ ~ at_new k)).
Proof.
  intros I. cbv zeta. destruct (classify_counts write_set present old new marker I) as [S ->].
  set (P := image_of present) in *. set (O := image_of old). set (N := image_of new) in *.
  assert (Z1 := count_zero (is_new O N P) write_set). assert (Z2 := count_zero (is_old O N P) write_set). assert (Z3 := count_zero (is_third O N P) write_set).
  pose proof (counts_total O N P write_set) as T. rewrite (proj2 (im_keys _ _ _ I)) in T.
  pose proof (count_nonneg (is_new O N P) write_set). pose proof (count_nonneg (is_old O N P) write_set). pose proof (count_nonneg (is_third O N P) write_set).
  pose proof (count_nonneg (fun k => P !! k = O !! k /\ P !! k = N !! k) write_set).
  unfold counts_class. split_and!.
  - intros A. rewrite (proj2 Z3), (proj2 Z1); [done | |]; intros k Hk; specialize (A k Hk); unfold is_new, is_third; intuition congruence.
  - intros A (k & Hk & B). rewrite (proj2 Z3) by (intros j Hj; specialize (A j Hj); unfold is_third; tauto). cbn [Z.eqb negb].
    rewrite (proj2 (Z.eqb_neq (count (is_new O N P) write_set) 0)).
    2:{ intros E. apply (proj1 Z1 E k Hk). specialize (A k Hk). unfold is_new. split; [done | congruence]. }
    rewrite (proj2 Z2) by (intros j Hj; specialize (A j Hj); unfold is_old; intuition congruence). done.
  - intros A (k & Hk & B) (j & Hj & D). exists (count (is_new O N P) write_set).
    assert (N1 : count (is_new O N P) write_set <> 0).
    { intros E. apply (proj1 Z1 E k Hk). destruct (A k Hk); [done|]. split; [done | congruence]. }
    assert (N2 : count (is_old O N P) write_set <> 0).
    { intros E. apply (proj1 Z2 E j Hj). destruct (A j Hj); [|done]. split; [done | congruence]. }
    split_and!; [lia | lia | done |]. rewrite (proj2 Z3) by (intros i Hi; specialize (A i Hi); unfold is_third; tauto). cbn [Z.eqb negb].
    rewrite (proj2 (Z.eqb_neq _ _) N1), (proj2 (Z.eqb_neq _ _) N2). by rewrite (proj2 (in_range_spec 1 14 _)) by lia.
  - intros (k & Hk & B). rewrite (proj2 (Z.eqb_neq (count (is_third O N P) write_set) 0)); [done|]. intros E. by apply (proj1 Z3 E k Hk).
  - intros k Hk. exact (row_verdict_spec O N P k (S k Hk)).
Qed.

(** C8. An image of the write set is read as the relation of its rows to the old and the
    proposed values, never as a number of keys: all old is the exact old image, all new
    with one row changed is decided by the state of the marker, a mixture names the
    number of rows it advanced, between one and fourteen, and a row at neither value is
    corrupt.  The verdicts of [classify_row_value_image] are these relations.  One of
    the four cases always holds. *)
Theorem commit_image_exact write_set present old new marker : images_ok write_set present new ->
  let P := image_of present in let O := image_of old in let N := image_of new in
  let class := classify_write_set_value_image present old new write_set marker [] in
  let at_old k := P !! k = O !! k in let at_new k := P !! k = N !! k in
  ((forall k, k ∈ write_set -> at_old k) -> class = Ok "EXACT_OLD"%string) /\
  ((forall k, k ∈ write_set -> at_new k) -> (exists k, k ∈ write_set /\ ~ at_old k) -> class = new_outcome (P !! marker)) /\
  ((forall k, k ∈ write_set -> at_old k \/ at_new k) -> (exists k, k ∈ write_set /\ ~ at_old k) -> (exists k, k ∈ write_set /\ ~ at_new k) ->
    exists n, 1 <= n <= 14 /\ n = len (filter (is_new O N P) write_set) /\ class = Ok (partial_class n)) /\
  ((exists k, k ∈ write_set /\ ~ at_old k /\ ~ at_new k) -> class = Ok "THIRD_OR_MISMATCH_CORRUPT"%string) /\
  (forall k, k ∈ write_set ->
    (row_verdict O N P k = "STABLE"%string <-> at_old k /\ O !! k = N !! k) /\
    (row_verdict O N P k = "NEW"%string <-> at_new k /\ O !! k <> N !! k) /\
    (row_verdict O N P k = "OLD"%string <-> at_old k /\ O !! k <> N !! k) /\
    (row_verdict O N P k = "THIRD"%string <-> ~ at_old k /\ ~ at_new k)).
Proof. exact (commit_image_cases write_set present old new marker). Qed.

(** ** Images of an inventory *)

(** The rows [g] selects, in the order of the inventory. *)
Definition rows_of (g : nat -> member -> option image_row) (inventory : list member) : list image_row := omap id (imap g inventory).

Definition new_row (i : nat) (m : member) : image_row := {|
  i_index := Z.of_nat i; i_identity := r_identity (m_row m); i_kind := r_kind (m_row m); i_key := m_key m;
  i_value := m_value m; i_value_sha256 := m_value_sha256 m; i_value_bytes := r_value_length (m_row m); i_context := m_context_digest m |}.

Definition old_row (i : Z) (m : member) : option image_row :=
  (fun old => {| i_index := i; i_identity := r_identity (m_row m); i_kind := r_kind (m_row m); i_key := m_key m; i_value := old;
                 i_value_sha256 := sha256 old; i_value_bytes := r_value_length (m_row m); i_context := m_old_context_digest m |}) <$> m_old m.

(** A row whose old image has its shape. *)
Definition shaped (m : member) : Prop :=
  match m_old m with Some old => len old = r_value_length (m_row m) /\ len (m_old_context_digest m) = 32 | None => True end.

Lemma imap_imap {A B C} (f : nat -> B -> C) (g : nat -> A -> B) l : imap f (imap g l) = imap (fun i x => f i (g i x)) l.
Proof. apply list_eq. intros i. rewrite !list_lookup_imap. by destruct (l !! i). Qed.

Lemma omap_all {A} (f : nat -> A -> image_row) (l : list A) : omap id (imap (fun i x => Some (f i x)) l) = imap f l.
Proof. revert f. induction l as [|x l IH]; intros f; [done|]. cbn. f_equal. exact (IH (fun i => f (S i))). Qed.

Lemma full_rows inventory : full_member_records inventory = rows_of (fun i m => Some (new_row i m)) inventory.
Proof. unfold rows_of. by rewrite omap_all. Qed.

Lemma old_rows_built i inventory : Forall shaped inventory -> old_rows_from i inventory = Ok (rows_of (fun j m => old_row (i + Z.of_nat j) m) inventory).
Proof.
  intros H. revert i. induction H as [|m inventory Hm _ IH]; intros i; [done|]. cbn [old_rows_from].
  assert (E : rows_of (fun j m => old_row (i + Z.of_nat j) m) (m :: inventory) =
              match old_row i m with Some r => r :: rows_of (fun j m => old_row (i + 1 + Z.of_nat j) m) inventory | None => rows_of (fun j m => old_row (i + 1 + Z.of_nat j) m) inventory end).
  { unfold rows_of. rewrite imap_cons. cbn [omap list_omap]. rewrite Z.add_0_r. 
    assert (Ex : imap ((fun j m => old_row (i + Z.of_nat j) m) ∘ S) inventory = imap (fun j m => old_row (i + 1 + Z.of_nat j) m) inventory).
    { apply imap_ext. intros j x _. cbn [compose]. f_equal. lia. }
    unfold id at 1. destruct (old_row i m); by rewrite <- Ex. }
  rewrite E. unfold shaped, old_row in *. destruct (m_old m) as [old|]; cbn [fmap option_fmap option_map]; [|apply IH].
  destruct Hm as [H1 H2]. rewrite raise_if_skip by (by rewrite H1, H2, Z.eqb_refl). by rewrite IH, ok_bind.
Qed.

Section RowsOf.
Context (inventory : list member) (HN : NoDup (map m_key inventory)).

Definition keyed (g : nat -> member -> option image_row) : Prop := forall i m r, inventory !! i = Some m -> g i m = Some r -> i_key r = m_key m.

Lemma rows_of_in g r : r ∈ rows_of g inventory <-> exists i m, inventory !! i = Some m /\ g i m = Some r.
Proof using.
  unfold rows_of. rewrite list_elem_of_omap. split.
  - intros (o & H & E). apply elem_of_lookup_imap in H as (i & m & -> & H). exists i, m. split; [done | exact E].
  - intros (i & m & H & E). exists (g i m). split; [apply elem_of_lookup_imap; by exists i, m | exact E].
Qed.

Lemma rows_of_sublist g l : (forall i m r, l !! i = Some m -> g i m = Some r -> i_key r = m_key m) -> keys (rows_of g l) `sublist_of` map m_key l.
Proof using.
  revert g. induction l as [|m l IH]; intros g K; [constructor|]. unfold rows_of. rewrite imap_cons. cbn [omap list_omap map].
  assert (K' : keys (rows_of (g ∘ S) l) `sublist_of` map m_key l) by (apply IH; intros i m' r Hi; exact (K (S i) m' r Hi)).
  unfold id at 1. destruct (g 0%nat m) as [r|] eqn:E.
  - cbn. rewrite (K 0%nat m r eq_refl E). by apply sublist_skip.
  - by apply sublist_cons.
Qed.

Lemma rows_of_NoDup g : keyed g -> NoDup (keys (rows_of g inventory)) /\ forall k, k ∈ keys (rows_of g inventory) -> k ∈ map m_key inventory.
Proof using HN.
  intros K. pose proof (rows_of_sublist g inventory K) as S. split; [by eapply sublist_NoDup|].
  intros k Hk. by eapply elem_of_sublist.
Qed.

Lemma same_member i j m m' : inventory !! i = Some m -> inventory !! j = Some m' -> m_key m = m_key m' -> i = j.
Proof using HN.
  intros Hi Hj E. apply (NoDup_lookup (map m_key inventory) i j (m_key m)); [done | |];
    change (map m_key inventory) with (m_key <$> inventory); rewrite list_lookup_fmap; [by rewrite Hi | by rewrite Hj, E].
Qed.

Lemma dict_of_rows {V} (value : image_row -> V) g i m : keyed g -> inventory !! i = Some m ->
  dict_of value (rows_of g inventory) !! m_key m = value <$> g i m.
Proof using HN.
  intros K Hi. destruct (rows_of_NoDup g K) as [N _]. destruct (g i m) as [r|] eqn:E.
  - rewrite <- (K i m r Hi E). rewrite (dict_of_in value _ r); [done | done |]. apply rows_of_in. by exists i, m.
  - rewrite dict_of_out; [done|]. intros H. apply list_elem_of_fmap in H as (r & Er & H). apply rows_of_in in H as (j & m' & Hj & Ej).
    rewrite (K j m' r Hj Ej) in Er. pose proof (same_member i j m m' Hi Hj Er) as ->. rewrite Hi in Hj. injection Hj as <-. congruence.
Qed.
End RowsOf.

(** An inventory whose rows all differ between the two images: the observed old rows are
    all but one marker, and the two digests of a row are different, also when the first
    byte of the new one is flipped. *)
Record lifecycle_ok (inventory : list member) (marker_key marker_value : bytes) : Prop := {
  lc_keys : NoDup (map m_key inventory) /\ len inventory = 15;
  lc_shaped : Forall shaped inventory;
  lc_lane : exists i m, inventory !! i = Some m /\ r_kind (m_row m) = 1 /\ m_old m <> None;
  lc_marker : exists i m, inventory !! i = Some m /\ m_key m = marker_key /\ m_value m = marker_value /\ r_kind (m_row m) = 4;
  lc_old : forall m, m ∈ inventory -> m_old m = None <-> r_kind (m_row m) = 4;
  lc_one : forall i j m m', inventory !! i = Some m -> inventory !! j = Some m' -> r_kind (m_row m) = 4 -> r_kind (m_row m') = 4 -> i = j;
  lc_sized : forall m, m ∈ inventory -> 0 < len (m_value m) /\ len (m_context_digest m) = 32;
  lc_digests : forall m, m ∈ inventory -> r_kind (m_row m) <> 4 ->
    m_old_context_digest m <> m_context_digest m /\ flip_first (m_context_digest m) <> Ok (m_old_context_digest m) }.

Lemma filter_take {A} (P : A -> Prop) `{!forall x, Decision (P x)} (l : list A) n :
  (forall i x, l !! i = Some x -> P x <-> (i < n)%nat) -> filter P l = take n l.
Proof.
  revert n. induction l as [|x l IH]; intros n Hp; [by destruct n|]. rewrite filter_cons. pose proof (Hp 0%nat x eq_refl) as H0.
  destruct n as [|n]; case_decide as Hx; rewrite H0 in Hx; try (exfalso; lia); cbn.
  - rewrite (IH 0%nat); [done|]. intros i y Hi. rewrite (Hp (S i) y Hi). lia.
  - f_equal. apply IH. intros i y Hi. rewrite (Hp (S i) y Hi). lia.
Qed.

Section Lifecycle.
Context (inventory : list member) (marker_key marker_value : bytes) (L : lifecycle_ok inventory marker_key marker_value).

Let g_new (i : nat) (m : member) : option image_row := Some (new_row i m).
Let g_old (i : nat) (m : member) : option image_row := old_row (0 + Z.of_nat i) m.
Let old_rows : list image_row := rows_of g_old inventory.

Lemma old_keyed : keyed inventory g_old.
Proof using. intros i m r _ E. unfold g_old, old_row in E. destruct (m_old m); [|done]. by injection E as <-. Qed.

Lemma new_keyed : keyed inventory g_new.
Proof using. intros i m r _ E. by injection E as <-. Qed.

Lemma old_count : len old_rows < 15.
Proof using L.
  destruct L as [[HN HL] _ _ (j & m & Hj & _ & _ & Hk) HO _ _ _]. destruct (rows_of_NoDup inventory HN g_old old_keyed) as [N S].
  assert (Hm : m_key m ∉ keys old_rows).
  { intros H. apply list_elem_of_fmap in H as (r & Er & H). apply rows_of_in in H as (i & m' & Hi & Ei).
    rewrite (old_keyed i m' r Hi Ei) in Er. pose proof (same_member inventory HN j i m m' Hj Hi Er) as ->. rewrite Hj in Hi. injection Hi as <-.
    unfold g_old, old_row in Ei. by rewrite (proj2 (HO m (list_elem_of_lookup_2 _ _ _ Hj)) Hk) in Ei. }
  assert (Hs : m_key m :: keys old_rows ⊆+ map m_key inventory).
  { apply NoDup_submseteq; [by apply NoDup_cons|]. intros k Hk'. apply elem_of_cons in Hk' as [-> | Hk']; [|by apply S].
    apply list_elem_of_fmap. exists m. split; [done | by eapply list_elem_of_lookup_2]. }
  apply submseteq_length in Hs. cbn in Hs. unfold keys in Hs. rewrite !length_map in Hs. unfold len in *. lia.
Qed.

Lemma observed_old : observed_old_members inventory = Ok old_rows.
Proof using L.
  pose proof old_count as Hl. destruct L as [_ HS (i & m & Hi & Hk & Ho) _ _ _ _ _].
  unfold observed_old_members. rewrite (old_rows_built 0 inventory HS), ok_bind. fold g_old. change (rows_of _ inventory) with old_rows.
  destruct (m_old m) as [old|] eqn:E; [|done].
  assert (Hr : exists r, r ∈ old_rows /\ i_kind r = 1).
  { eexists. split; [apply rows_of_in; exists i, m; split; [done | unfold g_old, old_row; rewrite E; reflexivity] | done]. }
  destruct Hr as (r & Hr & Kr).
  assert (1 <= len old_rows) by (destruct old_rows; [by apply elem_of_nil in Hr | unfold len; cbn; lia]).
  rewrite raise_if_skip by lia. rewrite raise_if_skip; [done|]. apply negb_false_iff, existsb_exists. exists r.
  split; [by apply list_elem_of_In | by rewrite Kr].
Qed.

(** The old and the new value of a row. *)
Definition old_pair (m : member) : option (bytes * bytes) := (fun old => (old, m_old_context_digest m)) <$> m_old m.
Definition new_pair (m : member) : bytes * bytes := (m_value m, m_context_digest m).

Lemma old_at i m : inventory !! i = Some m -> image_of old_rows !! m_key m = old_pair m.
Proof using L.
  intros Hi. unfold image_of, old_rows. rewrite (dict_of_rows inventory (proj1 (lc_keys _ _ _ L)) pair_of g_old i m old_keyed Hi).
  unfold g_old, old_row, old_pair. by destruct (m_old m).
Qed.

Lemma new_at i m : inventory !! i = Some m -> image_of (full_member_records inventory) !! m_key m = Some (new_pair m).
Proof using L.
  intros Hi. rewrite full_rows. change (rows_of _ inventory) with (rows_of g_new inventory). unfold image_of. by rewrite (dict_of_rows inventory (proj1 (lc_keys _ _ _ L)) pair_of g_new i m new_keyed Hi).
Qed.

Lemma pairs_differ i m : inventory !! i = Some m -> old_pair m <> Some (new_pair m).
Proof using L.
  intros Hi. pose proof (list_elem_of_lookup_2 _ _ _ Hi) as Hm. unfold old_pair, new_pair.
  destruct (m_old m) as [old|] eqn:E; [|cbn; discriminate]. cbn. intros [= _ D].
  destruct (decide (r_kind (m_row m) = 4)) as [K|K]; [by rewrite (proj2 (lc_old _ _ _ L m Hm) K) in E|].
  exact (proj1 (lc_digests _ _ _ L m Hm K) D).
Qed.

Let ws : list bytes := map m_key inventory.

Lemma new_keys : keys (full_member_records inventory) = ws.
Proof using. unfold full_member_records, keys, ws. change (i_key <$> imap new_row inventory = m_key <$> inventory). rewrite fmap_imap. apply list_eq. intros i. rewrite list_lookup_imap, list_lookup_fmap. by destruct (inventory !! i). Qed.

Lemma images_of present : NoDup (keys present) -> (forall k, k ∈ keys present -> k ∈ ws) -> images_ok ws present (full_member_records inventory).
Proof using L.
  intros N S. split; [|done | apply new_keys]. destruct (lc_keys _ _ _ L) as [HN HL]. split; [done|]. unfold ws, len in *. by rewrite length_map.
Qed.

Lemma ws_member k : k ∈ ws -> exists i m, inventory !! i = Some m /\ k = m_key m.
Proof using. intros H. apply list_elem_of_fmap in H as (m & -> & H). apply list_elem_of_lookup in H as (i & H). by exists i, m. Qed.

Lemma member_ws i m : inventory !! i = Some m -> m_key m ∈ ws.
Proof using. intros H. apply list_elem_of_fmap. exists m. split; [done | by eapply list_elem_of_lookup_2]. Qed.

(** ** Torn commits *)

Let g_mix (n : Z) (i : nat) (m : member) : option image_row := if Z.of_nat i <? n then Some (new_row i m) else g_old i m.

Lemma mix_keyed n : keyed inventory (g_mix n).
Proof using. intros i m r Hi E. unfold g_mix in E. destruct (_ <? n); [by injection E as <- | by eapply old_keyed]. Qed.

Lemma mix_rows n : mix_partial_members (dict_of id old_rows) (full_member_records inventory) n = rows_of (g_mix n) inventory.
Proof using L.
  unfold mix_partial_members, rows_of, full_member_records. rewrite imap_imap. f_equal. apply imap_ext. intros i m Hi. unfold mix_row, g_mix.
  destruct (_ <? n); [done|]. cbn [i_key]. unfold old_rows.
  rewrite (dict_of_rows inventory (proj1 (lc_keys _ _ _ L)) id g_old i m old_keyed Hi). by destruct (g_old i m).
Qed.
Lemma mix_at n i m : inventory !! i = Some m ->
  image_of (rows_of (g_mix n) inventory) !! m_key m = if Z.of_nat i <? n then Some (new_pair m) else old_pair m.
Proof using L.
  intros Hi. unfold image_of. rewrite (dict_of_rows inventory (proj1 (lc_keys _ _ _ L)) pair_of (g_mix n) i m (mix_keyed n) Hi).
  unfold g_mix. destruct (_ <? n); [done|]. unfold g_old, old_row, old_pair. by destruct (m_old m).
Qed.

Lemma member_at i : 0 <= i < 15 -> exists m, inventory !! Z.to_nat i = Some m.
Proof using L. intros H. apply lookup_lt_is_Some. pose proof (proj2 (lc_keys _ _ _ L)) as E. unfold len in E. lia. Qed.

Lemma count_advanced n : 0 <= n <= 15 ->
  len (filter (is_new (image_of old_rows) (image_of (full_member_records inventory)) (image_of (rows_of (g_mix n) inventory))) ws) = n.
Proof using L.
  intros Hn. rewrite (filter_take _ ws (Z.to_nat n)).
  - unfold len, ws. rewrite length_take, length_map. pose proof (proj2 (lc_keys _ _ _ L)) as E. unfold len in E. lia.
  - intros i k Hk. unfold ws in Hk. change (map m_key inventory) with (m_key <$> inventory) in Hk. rewrite list_lookup_fmap in Hk.
    destruct (inventory !! i) as [m|] eqn:Hi; [|done]. injection Hk as <-. unfold is_new. rewrite (mix_at n i m Hi), (old_at i m Hi), (new_at i m Hi).
    pose proof (pairs_differ i m Hi) as D. destruct (Z.ltb_spec (Z.of_nat i) n); (split; [intros [A B] | intros A]); try lia; [by split | congruence].
Qed.

(** The classification of a commit torn after [n] rows. *)
Lemma torn_class n : 0 <= n <= 15 ->
  classify_write_set_value_image (mix_partial_members (dict_of id old_rows) (full_member_records inventory) n) old_rows (full_member_records inventory) ws marker_key [] =
  if n =? 0 then Ok "EXACT_OLD"%string else if n <? 15 then Ok (partial_class n)
  else new_outcome (image_of (rows_of (g_mix 15) inventory) !! marker_key).
Proof using L.
  intros Hn. rewrite mix_rows. destruct (rows_of_NoDup inventory (proj1 (lc_keys _ _ _ L)) (g_mix n) (mix_keyed n)) as [N S].
  destruct (commit_image_cases ws (rows_of (g_mix n) inventory) old_rows (full_member_records inventory) marker_key (images_of _ N S)) as (C1 & C2 & C3 & _).
  cbv zeta in C1, C2, C3. destruct (Z.eqb_spec n 0) as [->|N0]; [|destruct (Z.ltb_spec n 15) as [H15|H15]].
  - apply C1. intros k (i & m & Hi & ->)%ws_member. rewrite (mix_at 0 i m Hi), (old_at i m Hi). by rewrite (proj2 (Z.ltb_ge _ 0)) by lia.
  - destruct C3 as (c & _ & Ec & ->); [| | |by rewrite Ec, count_advanced].
    + intros k (i & m & Hi & ->)%ws_member. rewrite (mix_at n i m Hi), (old_at i m Hi), (new_at i m Hi). destruct (_ <? n); [by right | by left].
    + destruct (member_at 0) as (m & Hm); [lia|]. exists (m_key m). split; [by eapply member_ws|].
      rewrite (mix_at n _ m Hm), (old_at _ m Hm). rewrite (proj2 (Z.ltb_lt _ n)) by lia. intros E. by apply (pairs_differ _ m Hm).
    + destruct (member_at 14) as (m & Hm); [lia|]. exists (m_key m). split; [by eapply member_ws|].
      rewrite (mix_at n _ m Hm), (new_at _ m Hm). rewrite (proj2 (Z.ltb_ge _ n)) by lia. by apply (pairs_differ _ m Hm).
  - assert (n = 15) as -> by lia. rewrite C2; [done | |].
    + intros k (i & m & Hi & ->)%ws_member. rewrite (mix_at 15 i m Hi), (new_at i m Hi). rewrite (proj2 (Z.ltb_lt _ 15)); [done|].
      apply lookup_lt_Some in Hi. pose proof (proj2 (lc_keys _ _ _ L)) as E. unfold len in E. lia.
    + destruct (member_at 0) as (m & Hm); [lia|]. exists (m_key m). split; [by eapply member_ws|].
      rewrite (mix_at 15 _ m Hm), (old_at _ m Hm). rewrite (proj2 (Z.ltb_lt _ 15)) by lia. intros E. by apply (pairs_differ _ m Hm).
Qed.
Lemma new_class m i : inventory !! i = Some m -> m_key m = marker_key ->
  classify_write_set_value_image (full_member_records inventory) old_rows (full_member_records inventory) ws marker_key [] = new_outcome (Some (new_pair m)).
Proof using L.
  intros Hi Hk. destruct (rows_of_NoDup inventory (proj1 (lc_keys _ _ _ L)) g_new new_keyed) as [N S].
  assert (E : rows_of g_new inventory = full_member_records inventory) by (by rewrite full_rows).
  rewrite E in N, S. destruct (commit_image_cases ws (full_member_records inventory) old_rows (full_member_records inventory) marker_key (images_of _ N S)) as (_ & C2 & _).
  cbv zeta in C2. rewrite C2; [by rewrite <- Hk, (new_at i m Hi) | done |].
  exists (m_key m). split; [by eapply member_ws|]. rewrite (new_at i m Hi), (old_at i m Hi). intros E'. by apply (pairs_differ i m Hi).
Qed.

Lemma new_lookup i r : full_member_records inventory !! i = Some r -> exists m, inventory !! i = Some m /\ r = new_row i m.
Proof using. unfold full_member_records. rewrite list_lookup_imap. intros (m & Hm & ->)%fmap_Some. by exists m. Qed.

(** One row replaced by neither its old nor its new value. *)
Lemma replaced_class i m r : inventory !! i = Some m -> i_key r = m_key m -> pair_of r <> new_pair m -> old_pair m <> Some (pair_of r) ->
  classify_write_set_value_image (<[i := r]> (full_member_records inventory)) old_rows (full_member_records inventory) ws marker_key [] =
  Ok "THIRD_OR_MISMATCH_CORRUPT"%string.
Proof using L.
  intros Hi Hk Hn Ho. assert (Hl : (i < length (full_member_records inventory))%nat).
  { unfold full_member_records. rewrite length_imap. by eapply lookup_lt_Some. }
  assert (K : keys (<[i := r]> (full_member_records inventory)) = ws).
  { unfold keys. change (i_key <$> <[i := r]> (full_member_records inventory) = ws). rewrite list_fmap_insert, Hk.
    change (i_key <$> full_member_records inventory) with (keys (full_member_records inventory)). rewrite new_keys. apply list_insert_id.
    unfold ws. change (map m_key inventory) with (m_key <$> inventory). by rewrite list_lookup_fmap, Hi. }
  assert (N : NoDup (keys (<[i := r]> (full_member_records inventory)))) by (rewrite K; exact (proj1 (lc_keys _ _ _ L))).
  assert (S : forall k, k ∈ keys (<[i := r]> (full_member_records inventory)) -> k ∈ ws) by (by rewrite K).
  destruct (commit_image_cases ws _ old_rows (full_member_records inventory) marker_key (images_of _ N S)) as (_ & _ & _ & C4 & _).
  cbv zeta in C4. apply C4. exists (m_key m). split; [by eapply member_ws|]. rewrite (new_at i m Hi), (old_at i m Hi).
  assert (E : image_of (<[i := r]> (full_member_records inventory)) !! m_key m = Some (pair_of r)).
  { rewrite <- Hk. apply (dict_of_in pair_of); [done|]. apply list_elem_of_lookup_2 with i. by apply list_lookup_insert_eq. }
  rewrite E. split; [intros A; by apply Ho | intros A; apply (inj Some) in A; by apply Hn].
Qed.

Lemma flip_first_changes v w : flip_first v = Ok w -> w <> v.
Proof using.
  destruct v as [|b v]; [done|]. cbn. intros [= <-] [= E]. apply (f_equal (fun x => Z.lxor b x)) in E. rewrite <- Z.lxor_assoc, Z.lxor_nilpotent in E. done.
Qed.

Lemma flip_first_total v : 0 < len v -> exists w, flip_first v = Ok w.
Proof using. destruct v; [unfold len; cbn; lia | by eexists]. Qed.

Lemma flip_last_total v : 0 < len v -> exists w, flip_last v = Ok w /\ w <> v.
Proof using.
  intros H. unfold flip_last. destruct (flip_first_total (rev v)) as (w & E); [unfold len in *; by rewrite length_rev|].
  rewrite E, ok_bind. exists (rev w). split; [done|]. intros R. apply (flip_first_changes _ _ E). by rewrite <- R, rev_involutive.
Qed.

Lemma first_row (P : image_row -> Prop) `{!forall r, Decision (P r)} : (exists r, r ∈ full_member_records inventory /\ P r) ->
  exists i m, list_find P (full_member_records inventory) = Some (i, new_row i m) /\ inventory !! i = Some m /\ P (new_row i m).
Proof using.
  intros (r & Hr & Pr). destruct (list_find_elem_of P _ r Hr Pr) as [[i x] E]. rewrite E. apply list_find_Some in E as (Hi & Px & _).
  destruct (new_lookup i x Hi) as (m & Hm & ->). by exists i, m.
Qed.

Lemma row_cases_pass : check_row_cases old_rows (full_member_records inventory) = Ok tt.
Proof using L.
  unfold check_row_cases. destruct (lc_lane _ _ _ L) as (i0 & m0 & Hi0 & Hk0 & _).
  destruct (first_row (fun r => i_kind r = 1)) as (i & m & -> & Hi & Hk).
  { exists (new_row i0 m0). split; [|done]. rewrite full_rows. apply rows_of_in. by exists i0, m0. }
  cbn [i_key new_row]. unfold old_rows. rewrite (dict_of_rows inventory (proj1 (lc_keys _ _ _ L)) id g_old i m old_keyed Hi).
  pose proof (pairs_differ i m Hi) as D. pose proof (list_elem_of_lookup_2 _ _ _ Hi) as Hm. unfold old_pair, new_pair in D. unfold g_old, old_row.
  destruct (m_old m) as [old|] eqn:E; [|exfalso; apply (lc_old _ _ _ L m Hm) in E; cbn in Hk; lia]. cbn [fmap option_fmap option_map id i_value i_context new_row] in *.
  destruct (flip_last_total (m_value m)) as (w & -> & Hw); [apply (lc_sized _ _ _ L m Hm)|]. rewrite ok_bind. cbv zeta.
  assert (Hd : m_old_context_digest m <> m_context_digest m) by (apply (lc_digests _ _ _ L m Hm); cbn in Hk; lia).
  unfold classify_row_value_image.
  repeat (rewrite raise_if_skip; [|repeat case_bool_decide; cbn; first [done | exfalso; congruence]]).
  unfold raise_if. repeat case_bool_decide; cbn; first [done | exfalso; congruence].
Qed.
Lemma partials_pass : mapM (fun n =>
    p_cls ← classify_write_set_value_image (mix_partial_members (dict_of id old_rows) (full_member_records inventory) n) old_rows (full_member_records inventory) ws marker_key [];
    raise_if (negb (String.eqb p_cls (partial_class n))) (AssertionError "partial");;
    mret p_cls) (seqZ 1 14) = Ok (map partial_class (seqZ 1 14)).
Proof using L.
  assert (H : Forall (fun n => 1 <= n <= 14) (seqZ 1 14)) by (apply Forall_forall; intros n Hn%elem_of_seqZ; lia).
  induction H as [|n l Hn _ IH]; [done|]. cbn [mapM map]. rewrite torn_class by lia.
  rewrite (proj2 (Z.eqb_neq n 0)), (proj2 (Z.ltb_lt n 15)) by lia. rewrite ok_bind, String.eqb_refl. cbn [negb raise_if]. rewrite !ok_bind.
  change (mapM ?f l) with (mapM f l). rewrite IH. done.
Qed.

Lemma old_class : classify_write_set_value_image old_rows old_rows (full_member_records inventory) ws marker_key [] = Ok "EXACT_OLD"%string.
Proof using L.
  destruct (rows_of_NoDup inventory (proj1 (lc_keys _ _ _ L)) g_old old_keyed) as [N S].
  destruct (commit_image_cases ws old_rows old_rows (full_member_records inventory) marker_key (images_of _ N S)) as (C1 & _). by apply C1.
Qed.

Lemma lifecycle_built third_value : marker_value !! 8%nat = Some 1 -> third_value <> marker_value ->
  lifecycle_role inventory marker_key third_value = Ok {|
    sn_old := "EXACT_OLD"; sn_partials := map partial_class (seqZ 1 14); sn_new := "EXACT_NEW_PENDING_15";
    sn_value_substituted := "THIRD_OR_MISMATCH_CORRUPT"; sn_context_substituted := "THIRD_OR_MISMATCH_CORRUPT";
    sn_third := "THIRD_OR_MISMATCH_CORRUPT" |}.
Proof using L.
  intros Hs Ht. unfold lifecycle_role. cbv zeta. rewrite observed_old, ok_bind. fold ws. rewrite old_class, ok_bind, String.eqb_refl.
  rewrite (proj2 (lc_keys _ _ _ L)). cbn [negb Z.eqb Pos.eqb raise_if]. rewrite !ok_bind, row_cases_pass, ok_bind, partials_pass, ok_bind.
  destruct (lc_marker _ _ _ L) as (jm & mm & Hjm & Hkm & Hvm & Hk4). rewrite (new_class mm jm Hjm Hkm). unfold new_outcome, new_pair. rewrite Hvm, Hs. cbn [Z.eqb Pos.eqb].
  destruct (lc_lane _ _ _ L) as (i0 & m0 & Hi0 & Hk0 & _).
  destruct (first_row (fun r => i_kind r <> 4)) as (i & m & -> & Hi & Hk).
  { exists (new_row i0 m0). split; [rewrite full_rows; apply rows_of_in; by exists i0, m0 | cbn; lia]. }
  pose proof (list_elem_of_lookup_2 _ _ _ Hi) as Hm. destruct (lc_sized _ _ _ L m Hm) as [Lv Lc]. destruct (lc_digests _ _ _ L m Hm Hk) as [D1 D2].
  cbn [i_value i_context new_row]. destruct (flip_last_total (m_value m)) as (w & -> & Hw); [done|]. rewrite !ok_bind.
  rewrite (replaced_class i m); [rewrite ok_bind | done | done | unfold pair_of, new_pair; cbn; congruence |].
  2:{ unfold old_pair. destruct (m_old m); [|done]. cbn. unfold pair_of. cbn. congruence. }
  destruct (flip_first_total (m_context_digest m)) as (d & Ed); [lia|]. rewrite Ed, ok_bind.
  rewrite (replaced_class i m); [rewrite ok_bind | done | done | |].
  2:{ unfold pair_of, new_pair. cbn. intros [= A]. by apply (flip_first_changes _ _ Ed). }
  2:{ unfold old_pair. destruct (m_old m); [|done]. cbn. unfold pair_of. cbn. intros [= _ A]. by rewrite A in D2. }
  rewrite String.eqb_refl. cbn [negb orb raise_if]. rewrite ok_bind.
  destruct (first_row (fun r => i_kind r = 4)) as (j & m4 & -> & Hj & Hk4').
  { exists (new_row jm mm). split; [rewrite full_rows; apply rows_of_in; by exists jm, mm | done]. }
  pose proof (lc_one _ _ _ L j jm m4 mm Hj Hjm Hk4' Hk4) as ->. rewrite Hjm in Hj. injection Hj as <-.
  rewrite (replaced_class jm mm); [done | done | done | |].
  - unfold pair_of, new_pair. cbn. intros [= A]. congruence.
  - unfold old_pair. by rewrite (proj2 (lc_old _ _ _ L mm (list_elem_of_lookup_2 _ _ _ Hjm)) Hk4).
Qed.
End Lifecycle.

(** ** The snapshots of an inventory of the code *)

(** What SHA-256 is relied on for: the digests of a row's two contexts differ, also when
    the first byte of the new one is flipped. *)
Definition digests_apart (inventory : list member) : Prop :=
  Forall (fun m => r_kind (m_row m) <> 4 ->
    m_old_context_digest m <> m_context_digest m /\ flip_first (m_context_digest m) <> Ok (m_old_context_digest m)) inventory.

Lemma strict_NoDup inventory : StronglySorted (fun a b => compare_bytes (m_key a) (m_key b) = Lt) inventory -> NoDup (map m_key inventory).
Proof.
  induction 1 as [|m l _ IH H]; [constructor|]. cbn. apply NoDup_cons. split; [|done]. intros Hm.
  apply list_elem_of_fmap in Hm as (m' & E & Hm). rewrite Forall_forall in H. specialize (H m' Hm). rewrite E in H.
  assert (E' : compare_bytes (m_key m') (m_key m') = Eq) by (by apply (cmp_eq (cmp := compare_bytes))). congruence.
Qed.

Lemma inventory_lifecycle role f install marker inventory marker_key :
  usable f -> 1 <= role <= 2 -> len marker = N6AT_VALUE_BYTES -> nab1_exact_inventory role f install marker = Ok inventory ->
  n6at_key role (attachment_id f) = Ok marker_key -> digests_apart inventory -> lifecycle_ok inventory marker_key marker.
Proof.
  intros U R M E K D. destruct (inventory_built role f install marker U R M) as (local & peer & inv & _ & _ & E' & P & HL & S & H).
  rewrite E in E'. injection E' as <-. set (c := commit_of role f install marker local peer) in *.
  pose proof (strict_NoDup inventory S) as N.
  assert (Hr : forall m, m ∈ inventory -> row_ok (m_row m) /\ (r_kind (m_row m) = 4 -> m_row m = marker_row)).
  { intros m Hm. assert (Hi : m_row m ∈ inventory_rows f) by (rewrite <- P; apply list_elem_of_fmap; by exists m).
    pose proof (inventory_rows_ok f U) as RO. rewrite Forall_forall in RO. split; [by apply RO|]. intros K4.
    destruct (RO _ Hi) as [|(_ & _ & _ & _ & _ & HK)]; [done | lia]. }
  assert (HH : forall m, m ∈ inventory -> member_holds c m) by (rewrite Forall_forall in H; exact H).
  assert (HM : forall m, m ∈ inventory -> r_kind (m_row m) = 4 -> m_key m = marker_key).
  { intros m Hm K4. pose proof (mb_row_key _ _ (HH m Hm)) as RK. rewrite (proj2 (Hr m Hm) K4) in RK. change (n6at_key role (attachment_id f) = Ok (m_key m)) in RK. congruence. }
  assert (row_in : forall r, r ∈ inventory_rows f -> exists i m, inventory !! i = Some m /\ m_row m = r).
  { intros r Hi. rewrite <- P in Hi. apply list_elem_of_fmap in Hi as (m & -> & Hm). apply list_elem_of_lookup in Hm as (i & Hm). by exists i, m. }
  split.
  - done.
  - apply Forall_forall. intros m Hm. destruct (HH m Hm) as [_ _ _ _ HO [_ HD]]. unfold shaped. destruct (m_old m); [|done]. by destruct HO as [? _].
  - destruct (row_in (hd marker_row (inventory_rows f))) as (i & m & Hi & Er); [cbn; left|]. exists i, m. split; [done|].
    pose proof (list_elem_of_lookup_2 _ _ _ Hi) as Hm. rewrite Er. cbn. split; [done|]. intros O. pose proof (mb_old _ _ (HH m Hm)) as HO. rewrite O, Er in HO. by cbn in HO.
  - destruct (row_in marker_row) as (i & m & Hi & Er); [unfold inventory_rows, hop_rows, e2e_rows; cbn [app]; set_solver|].
    pose proof (list_elem_of_lookup_2 _ _ _ Hi) as Hm. exists i, m. assert (K4 : r_kind (m_row m) = 4) by (by rewrite Er).
    split_and!; [done | by apply HM | | done]. destruct (mb_value _ _ (HH m Hm)) as (_ & _ & _ & _ & V). by apply V.
  - intros m Hm. pose proof (mb_old _ _ (HH m Hm)) as HO. destruct (m_old m) as [old|]; [|done]. split; [done|]. intros K4.
    destruct HO as (_ & _ & _ & _ & V). by destruct (V K4) as [? _].
  - intros i j m m' Hi Hj K4 K4'. apply (same_member inventory N i j m m' Hi Hj).
    rewrite (HM m), (HM m'); [done | by eapply list_elem_of_lookup_2 | done | by eapply list_elem_of_lookup_2 | done].
  - intros m Hm. destruct (HH m Hm) as [_ _ _ [HV _] _ [[HD _] _]]. split; [|done]. rewrite HV.
    destruct (proj1 (Hr m Hm)) as [-> | (_ & _ & _ & _ & _ & HK)]; [done | lia].
  - intros m Hm. unfold digests_apart in D. rewrite Forall_forall in D. by apply D.
Qed.

(** C12. The snapshots kept for a role are what the generator expects of them, for any
    usable fields and a pending marker, provided the digests of the inventory's rows
    do not collide (a hypothesis about SHA-256 on these fifteen rows): the observed
    old image is the exact old image, a commit torn after one to fourteen rows is the
    partial class of that number, the complete image is the exact new pending image,
    and a substituted value, a substituted context digest and a marker of a third
    state are corrupt. *)
Theorem lifecycle_exact role f install marker third_value inventory marker_key :
  usable f -> 1 <= role <= 2 -> len marker = N6AT_VALUE_BYTES -> nab1_exact_inventory role f install marker = Ok inventory ->
  n6at_key role (attachment_id f) = Ok marker_key -> digests_apart inventory -> marker !! 8%nat = Some 1 -> third_value <> marker ->
  lifecycle_role inventory marker_key third_value = Ok {|
    sn_old := "EXACT_OLD"; sn_partials := map partial_class (seqZ 1 14); sn_new := "EXACT_NEW_PENDING_15";
    sn_value_substituted := "THIRD_OR_MISMATCH_CORRUPT"; sn_context_substituted := "THIRD_OR_MISMATCH_CORRUPT";
    sn_third := "THIRD_OR_MISMATCH_CORRUPT" |}.
Proof.
  intros U R M E K D H8 Ht. exact (lifecycle_built inventory marker_key marker (inventory_lifecycle role f install marker inventory marker_key U R M E K D) third_value H8 Ht).
Qed.

Definition pending_marker : bytes := zeros 8 ++ [1] ++ zeros 111.
Definition sample_inventory : list member := ok_or [] (nab1_exact_inventory 1 sample_fields (pattern 9 32) pending_marker).

Lemma sample_inventory_built : nab1_exact_inventory 1 sample_fields (pattern 9 32) pending_marker = Ok sample_inventory.
Proof. apply ok_or_Ok. vm_compute. reflexivity. Qed.

Lemma sample_digests_apart : digests_apart sample_inventory.
Proof. unfold digests_apart. apply (bool_decide_unpack _). vm_compute. exact I. Qed.

Definition sample_row (value : Z) (i : Z) : image_row := {|
  i_index := i; i_identity := ""; i_kind := 1; i_key := [i]; i_value := zeros 8 ++ [value]; i_value_sha256 := []; i_value_bytes := 9; i_context := zeros 32 |}.
Definition sample_keys : list bytes := map (fun i => [i]) (seqZ 0 15).

Lemma sample_images : images_ok sample_keys (map (sample_row 1) (seqZ 0 7)) (map (sample_row 1) (seqZ 0 15)).
Proof.
  split; [split; [apply (bool_decide_unpack _); vm_compute; exact I | reflexivity] | split; [apply (bool_decide_unpack _); vm_compute; exact I|] | reflexivity].
  intros k H. assert (F : Forall (.∈ sample_keys) (keys (map (sample_row 1) (seqZ 0 7)))) by (apply (bool_decide_unpack _); vm_compute; exact I).
  rewrite Forall_forall in F. exact (F k H).
Qed.

Lemma commit_image_exact_witness :
  classify_write_set_value_image (map (sample_row 1) (seqZ 0 7)) [] (map (sample_row 1) (seqZ 0 15)) sample_keys [14] [] = Ok (partial_class 7).
Proof.
  destruct (commit_image_exact sample_keys (map (sample_row 1) (seqZ 0 7)) [] (map (sample_row 1) (seqZ 0 15)) [14] sample_images) as (_ & _ & C & _).
  destruct C as (n & _ & En & E).
  - intros k H. assert (F : Forall (fun k => image_of (map (sample_row 1) (seqZ 0 7)) !! k = image_of [] !! k \/ image_of (map (sample_row 1) (seqZ 0 7)) !! k = image_of (map (sample_row 1) (seqZ 0 15)) !! k) sample_keys)
      by (apply (bool_decide_unpack _); vm_compute; exact I).
    rewrite Forall_forall in F. exact (F k H).
  - exists [0]. split; [apply (bool_decide_unpack _); vm_compute; exact I | vm_compute; discriminate].
  - exists [14]. split; [apply (bool_decide_unpack _); vm_compute; exact I | vm_compute; discriminate].
  - rewrite E, En. reflexivity.
Defined.

Lemma lifecycle_exact_witness : exists marker_key s, lifecycle_role sample_inventory marker_key (zeros 120) = Ok s /\ sn_third s = "THIRD_OR_MISMATCH_CORRUPT"%string.
Proof.
  destruct (marker_key_built 1 (attachment_id sample_fields)) as (k & Ek & _); [split; lia | exact (proj1 (io_raw16 _ (us_fields _ sample_usable)))|].
  exists k. eexists. split; [|].
  - apply (lifecycle_exact 1 sample_fields (pattern 9 32) pending_marker); [exact sample_usable | lia | reflexivity | exact sample_inventory_built | exact Ek | exact sample_digests_apart | reflexivity | vm_compute; discriminate].
  - reflexivity.
Defined.
