(* ===== verification/Preauth.v ===== *)
(** The owner of pre-authentication scratch: before a cookie is checked, a radio
    responder keeps at most two fragments per source, one source at a time, behind a
    token bucket and an idle timeout ([build_preauth_owner_model] of
    [tools/production_attachment_edhoc_composition.py]).

    The dictionaries of the code hold byte strings as hexadecimal text, which
    [bytes.fromhex] turns back into the bytes; the model keeps the bytes. *)

From S2P Require Import Prelude Bytes Crc Sha256.
From stdpp Require Import pretty.
#[local] Open Scope Z_scope.

Definition per_source_limit : Z := 1.
Definition global_limit : Z := 8.
Definition idle_timeout_ms : Z := 9000.
Definition token_capacity : Z := 2.
Definition token_refill_ms : Z := 2000.

(** ** Operations *)

Inductive operation_kind := RECEIVE_FRAGMENT | TICK.

Record operation := {
  scenario : string; reset_before : bool; at_ms : Z; op_kind : operation_kind; source_label : string; source_locator : bytes;
  op_session : bytes; op_generation : Z; op_sequence : Z; op_complete_bytes : Z; op_digest16 : bytes; cookie_bucket : Z;
  fragment_index : Z; payload_variant : string; fragment_payload : bytes }.

(** The parameters of the model. *)
Record preauth_inputs := {
  source_locator_digest : bytes; in_session : bytes; in_generation : Z; in_sequence : Z; complete_record_bytes : Z; in_digest16 : bytes;
  current_bucket : Z; fragment_payloads : bytes * bytes }.

Definition source (x : preauth_inputs) (label : string) : bytes :=
  if String.eqb label "PRIMARY" then source_locator_digest x
  else sha256 (bytes_of_string "NINLIL-PA-PREAUTH-SOURCE-V1" ++ bytes_of_string label)%list.

(** [conflict_payload[-1] ^= 0x01]. *)
Definition conflict_payload (x : preauth_inputs) : bytes :=
  let p := fst (fragment_payloads x) in
  slice 0 (len p - 1) p ++ [Z.lxor (byte_at (len p - 1) p) 1].

Definition payload_by_variant (x : preauth_inputs) (variant : string) : bytes :=
  if String.eqb variant "F0" then fst (fragment_payloads x)
  else if String.eqb variant "F1" then snd (fragment_payloads x)
  else if String.eqb variant "F0_CONFLICT" then conflict_payload x
  else [].

Definition receive (x : preauth_inputs) (name : string) (at_ms : Z) (label : string) (sequence bucket index : Z) (variant : string)
    (reset : bool) : operation := {|
  scenario := name; reset_before := reset; at_ms := at_ms; op_kind := RECEIVE_FRAGMENT; source_label := label;
  source_locator := source x label; op_session := in_session x; op_generation := in_generation x; op_sequence := sequence;
  op_complete_bytes := complete_record_bytes x; op_digest16 := in_digest16 x; cookie_bucket := bucket; fragment_index := index;
  payload_variant := variant; fragment_payload := payload_by_variant x variant |}.

Definition tick (name : string) (at_ms : Z) (reset : bool) : operation := {|
  scenario := name; reset_before := reset; at_ms := at_ms; op_kind := TICK; source_label := "NONE"; source_locator := [];
  op_session := []; op_generation := 0; op_sequence := 0; op_complete_bytes := 0; op_digest16 := []; cookie_bucket := 0;
  fragment_index := -1; payload_variant := "NONE"; fragment_payload := [] |}.

Definition operations (x : preauth_inputs) : list operation :=
  let b := current_bucket x in
  [receive x "FRAGMENT_LIFECYCLE" 0 "PRIMARY" (in_sequence x) b 0 "F0" true;
   receive x "FRAGMENT_LIFECYCLE" 1 "PRIMARY" (in_sequence x) b 0 "F0" false;
   receive x "FRAGMENT_LIFECYCLE" 2 "PRIMARY" (in_sequence x) b 1 "F1" false;
   receive x "CONFLICTING_DUPLICATE" 0 "CONFLICT" 10 b 0 "F0" true;
   receive x "CONFLICTING_DUPLICATE" 1 "CONFLICT" 10 b 0 "F0_CONFLICT" false;
   receive x "PER_SOURCE_QUOTA" 0 "QUOTA" 20 b 0 "F0" true;
   receive x "PER_SOURCE_QUOTA" 1 "QUOTA" 21 b 0 "F0" false] ++
  map (fun index => receive x "GLOBAL_QUOTA" index ("GLOBAL_" +:+ pretty index) (30 + index) b 0 "F0" (index =? 0))
    (map Z.of_nat (seq 0 (Z.to_nat global_limit))) ++
  [receive x "GLOBAL_QUOTA" global_limit "GLOBAL_8" 38 b 0 "F0" false;
   receive x "TOKEN_REFILL_BOUNDARY" 0 "TOKEN" 40 b 0 "F0" true;
   receive x "TOKEN_REFILL_BOUNDARY" 1 "TOKEN" 40 b 1 "F1" false;
   receive x "TOKEN_REFILL_BOUNDARY" 2 "TOKEN" 41 b 0 "F0" false;
   receive x "TOKEN_REFILL_BOUNDARY" 3 "TOKEN" 41 b 1 "F1" false;
   receive x "TOKEN_REFILL_BOUNDARY" 1999 "TOKEN" 42 b 0 "F0" false;
   receive x "TOKEN_REFILL_BOUNDARY" 2000 "TOKEN" 42 b 0 "F0" false;
   receive x "TOKEN_REFILL_BOUNDARY" 2001 "TOKEN" 42 b 1 "F1" false;
   receive x "IDLE_BOUNDARY" 0 "IDLE" 50 b 0 "F0" true;
   tick "IDLE_BOUNDARY" 8999 false;
   tick "IDLE_BOUNDARY" 9000 false;
   receive x "PREVIOUS_COOKIE_BUCKET" 0 "PREVIOUS" 60 (b - 1) 0 "F0" true;
   receive x "PREVIOUS_COOKIE_BUCKET" 1 "PREVIOUS" 60 (b - 1) 1 "F1" false;
   receive x "OLDER_BUCKET_DISCARDS_EXISTING" 0 "OLDER_EXISTING" 70 b 0 "F0" true;
   receive x "OLDER_BUCKET_DISCARDS_EXISTING" 1 "OLDER_EXISTING" 70 (b - 2) 1 "F1" false;
   receive x "OLDER_BUCKET_WITHOUT_OWNER" 0 "OLDER_FRESH" 80 (b - 2) 0 "F0" true].

Definition required_branches : list string :=
  ["ALLOCATE"; "FRAGMENT_0_ACCEPT"; "FRAGMENT_1_ACCEPT"; "SAME_DUPLICATE"; "CONFLICTING_DUPLICATE_TERMINAL"; "COMPLETE_RELEASE";
   "PER_SOURCE_QUOTA_DENY"; "GLOBAL_QUOTA_DENY"; "TOKEN_CAPACITY_DENY"; "REFILL_BEFORE_2S"; "REFILL_AT_2S"; "IDLE_BEFORE_9S";
   "IDLE_AT_9S_RELEASE"; "COOKIE_CURRENT_ACCEPT"; "COOKIE_PREVIOUS_ACCEPT"; "COOKIE_OLDER_EXISTING_TERMINAL"; "COOKIE_OLDER_NO_OWNER"].

(** ** The state of the owner *)

(** Source locator, session, generation, sequence, complete length, digest. *)
Definition owner_key : Type := bytes * bytes * Z * Z * Z * bytes.

Definition key_of (op : operation) : owner_key :=
  (source_locator op, op_session op, op_generation op, op_sequence op, op_complete_bytes op, op_digest16 op).

(** [key[0]]. *)
Definition key_source (k : owner_key) : bytes := let '(s, _, _, _, _, _) := k in s.

Record scratch := { last_activity_ms : Z; fragments : gmap Z bytes }.
Record token_bucket := { tokens : Z; last_refill_ms : Z }.

Record preauth := {
  owners : gmap owner_key scratch; token_buckets : gmap bytes token_bucket;
  completion_count : Z; release_count : Z; terminal_discard_count : Z; current_scenario : string; last_now : Z }.

Definition reset_state (name : string) : preauth := {|
  owners := ∅; token_buckets := ∅; completion_count := 0; release_count := 0; terminal_discard_count := 0;
  current_scenario := name; last_now := 0 |}.

Definition set_owners (m : gmap owner_key scratch) (st : preauth) : preauth := {|
  owners := m; token_buckets := token_buckets st; completion_count := completion_count st; release_count := release_count st;
  terminal_discard_count := terminal_discard_count st; current_scenario := current_scenario st; last_now := last_now st |}.

Definition set_buckets (m : gmap bytes token_bucket) (st : preauth) : preauth := {|
  owners := owners st; token_buckets := m; completion_count := completion_count st; release_count := release_count st;
  terminal_discard_count := terminal_discard_count st; current_scenario := current_scenario st; last_now := last_now st |}.

Definition set_now (now : Z) (st : preauth) : preauth := {|
  owners := owners st; token_buckets := token_buckets st; completion_count := completion_count st; release_count := release_count st;
  terminal_discard_count := terminal_discard_count st; current_scenario := current_scenario st; last_now := now |}.

Definition add_counts (completed released discarded : Z) (st : preauth) : preauth := {|
  owners := owners st; token_buckets := token_buckets st; completion_count := completion_count st + completed;
  release_count := release_count st + released; terminal_discard_count := terminal_discard_count st + discarded;
  current_scenario := current_scenario st; last_now := last_now st |}.

Definition release (key : owner_key) (st : preauth) : res preauth :=
  match owners st !! key with
  | Some _ => Ok (add_counts 0 1 0 (set_owners (delete key (owners st)) st))
  | None => Raise (KeyError "owner")
  end.

(** The tokens available to a source now, the branches met and the new state. *)
Definition refill (source_digest : bytes) (now : Z) (st : preauth) : res (Z * list string * preauth) :=
  match token_buckets st !! source_digest with
  | None =>
      Ok (token_capacity, [],
          set_buckets (<[source_digest := {| tokens := token_capacity; last_refill_ms := now |}]> (token_buckets st)) st)
  | Some bucket =>
      let elapsed := now - last_refill_ms bucket in
      raise_if (elapsed <? 0) (AssertionError "preauth non-monotonic time");;
      let hits := if (0 <? elapsed) && (elapsed <? token_refill_ms) then ["REFILL_BEFORE_2S"%string] else [] in
      let intervals := elapsed / token_refill_ms in
      if intervals =? 0 then Ok (tokens bucket, hits, st)
      else
        let bucket := {| tokens := Z.min token_capacity (tokens bucket + intervals);
                         last_refill_ms := last_refill_ms bucket + intervals * token_refill_ms |} in
        Ok (tokens bucket, hits ++ ["REFILL_AT_2S"%string], set_buckets (<[source_digest := bucket]> (token_buckets st)) st)
  end.

(** The loop of [expire]: how many owners were released, and whether one is still waiting. *)
Fixpoint expire_rows (now : Z) (rows : list (owner_key * scratch)) (st : preauth) : res (Z * bool * preauth) :=
  match rows with
  | [] => Ok (0, false, st)
  | (key, scratch) :: rows =>
      let elapsed := now - last_activity_ms scratch in
      raise_if (elapsed <? 0) (AssertionError "preauth non-monotonic owner time");;
      if idle_timeout_ms <=? elapsed then
        st ← release key st;
        '(expired, before_boundary, st) ← expire_rows now rows st;
        mret (expired + 1, before_boundary, st)
      else
        '(expired, before_boundary, st) ← expire_rows now rows st;
        mret (expired, before_boundary || (0 <? elapsed), st)
  end.

Definition expire (now : Z) (st : preauth) : res (Z * list string * preauth) :=
  '(expired, before_boundary, st) ← expire_rows now (map_to_list (owners st)) st;
  mret (expired, (if before_boundary : bool then ["IDLE_BEFORE_9S"%string] else []) ++ (if expired =? 0 then [] else ["IDLE_AT_9S_RELEASE"%string]), st).

(** [sum(1 for owner in owners if owner[0] == source)]. *)
Definition source_active (source_digest : bytes) (st : preauth) : Z :=
  Z.of_nat (size (filter (fun kv : owner_key * scratch => key_source kv.1 = source_digest) (owners st))).

Definition active_scratch_count (st : preauth) : Z := Z.of_nat (size (owners st)).

Definition fragment_accept (index : Z) : string := "FRAGMENT_" +:+ pretty index +:+ "_ACCEPT".

(** A fragment for the scratch its key already has. *)
Definition continue_scratch (op : operation) (s : scratch) (st : preauth) : res (string * list string * preauth) :=
  let key := key_of op in
  match fragments s !! fragment_index op with
  | Some existing =>
      if bool_decide (existing = fragment_payload op) then
        Ok ("DUPLICATE_NO_PROGRESS"%string, ["SAME_DUPLICATE"%string],
            set_owners (<[key := {| last_activity_ms := at_ms op; fragments := fragments s |}]> (owners st)) st)
      else
        st ← release key st;
        mret ("CONFLICTING_DUPLICATE_TERMINAL_DISCARD"%string, ["CONFLICTING_DUPLICATE_TERMINAL"%string], add_counts 0 0 1 st)
  | None =>
      let s := {| last_activity_ms := at_ms op; fragments := <[fragment_index op := fragment_payload op]> (fragments s) |} in
      let st := set_owners (<[key := s]> (owners st)) st in
      if Z.of_nat (size (fragments s)) =? 2 then
        st ← release key st;
        mret ("COMPLETE_RELEASED"%string, [fragment_accept (fragment_index op); "COMPLETE_RELEASE"%string], add_counts 1 0 0 st)
      else Ok ("FRAGMENT_ACCEPTED_PROGRESS"%string, [fragment_accept (fragment_index op)], st)
  end.

(** A fragment of a key that has no scratch: the quotas, then the allocation. *)
Definition admit_fragment (bucket : Z) (op : operation) (st : preauth) : res (string * list string * preauth) :=
  let key := key_of op in
  '(available, hits, st) ← refill (key_source key) (at_ms op) st;
  if available <? 1 then Ok ("TOKEN_BUCKET_DENY"%string, hits ++ ["TOKEN_CAPACITY_DENY"%string], st)
  else if per_source_limit <=? source_active (key_source key) st then
    Ok ("PER_SOURCE_QUOTA_DENY"%string, hits ++ ["PER_SOURCE_QUOTA_DENY"%string], st)
  else if global_limit <=? active_scratch_count st then Ok ("GLOBAL_QUOTA_DENY"%string, hits ++ ["GLOBAL_QUOTA_DENY"%string], st)
  else
    let taken := alter (fun b => {| tokens := tokens b - 1; last_refill_ms := last_refill_ms b |}) (key_source key) (token_buckets st) in
    let s := {| last_activity_ms := at_ms op; fragments := {[ fragment_index op := fragment_payload op ]} |} in
    Ok ("FRAGMENT_ACCEPTED_ALLOCATED"%string,
        hits ++ ["ALLOCATE"%string; fragment_accept (fragment_index op);
                 (if cookie_bucket op =? bucket then "COOKIE_CURRENT_ACCEPT"%string else "COOKIE_PREVIOUS_ACCEPT"%string)],
        set_owners (<[key := s]> (owners st)) (set_buckets taken st)).

Definition receive_fragment (bucket : Z) (op : operation) (st : preauth) : res (string * list string * preauth) :=
  let key := key_of op in
  let scratch := owners st !! key in
  if negb ((cookie_bucket op =? bucket) || (cookie_bucket op =? bucket - 1)) then
    match scratch with
    | Some _ =>
        st ← release key st;
        mret ("COOKIE_BUCKET_EXPIRED_TERMINAL_DISCARD"%string, ["COOKIE_OLDER_EXISTING_TERMINAL"%string], add_counts 0 0 1 st)
    | None => Ok ("COOKIE_BUCKET_EXPIRED_NO_OWNER"%string, ["COOKIE_OLDER_NO_OWNER"%string], st)
    end
  else
    match scratch with
    | Some s => continue_scratch op s st
    | None => admit_fragment bucket op st
    end.

(** ** The run *)

(** What a transition reports. *)
Record expected := {
  result : string; branches : list string; e_active : Z; e_source_active : Z; e_source_tokens : Z; e_received_mask : Z;
  e_expired_delta : Z; e_completions : Z; e_releases : Z; e_discards : Z; identity_allocations : Z; credential_resolver_calls : Z }.

Definition received_mask (key : owner_key) (st : preauth) : Z :=
  match owners st !! key with
  | Some s => fold_right (fun kv m => Z.lor m (Z.shiftl 1 kv.1)) 0 (map_to_list (fragments s))
  | None => 0
  end.

Definition report (op : operation) (result : string) (hits : list string) (expired : Z) (st : preauth) : expected :=
  let source_digest := match op_kind op with TICK => None | RECEIVE_FRAGMENT => Some (key_source (key_of op)) end in {|
  result := result; branches := hits; e_active := active_scratch_count st;
  e_source_active := match source_digest with Some s => source_active s st | None => 0 end;
  e_source_tokens := match source_digest with
                     | Some s => match token_buckets st !! s with Some b => tokens b | None => -1 end
                     | None => -1
                     end;
  e_received_mask := match source_digest with Some _ => received_mask (key_of op) st | None => 0 end;
  e_expired_delta := expired; e_completions := completion_count st; e_releases := release_count st;
  e_discards := terminal_discard_count st; identity_allocations := 0; credential_resolver_calls := 0 |}.

Fixpoint count_hits (hits : list string) (branch_counts : gmap string Z) : res (gmap string Z) :=
  match hits with
  | [] => Ok branch_counts
  | hit :: hits =>
      match branch_counts !! hit with
      | Some n => count_hits hits (<[hit := n + 1]> branch_counts)
      | None => Raise (AssertionError "unknown preauth branch")
      end
  end.

(** One turn of the loop over the operations. *)
Definition perform (bucket : Z) (op : operation) (st : preauth) : res (expected * preauth) :=
  let st := if reset_before op then reset_state (scenario op) else st in
  raise_if (negb (String.eqb (scenario op) (current_scenario st)) || (at_ms op <? last_now st))
    (AssertionError "preauth scenario/time ordering");;
  '(expired, hits, st) ← expire (at_ms op) (set_now (at_ms op) st);
  match op_kind op with
  | TICK =>
      Ok (report op (if expired =? 0 then "TICK_NO_EXPIRY" else "IDLE_EXPIRED_RELEASED") hits expired st, st)
  | RECEIVE_FRAGMENT =>
      '(result, more, st) ← receive_fragment bucket op st;
      Ok (report op result (hits ++ more) expired st, st)
  end.

Fixpoint run_operations (bucket : Z) (ops : list operation) (branch_counts : gmap string Z) (st : preauth) :
    res (list (operation * expected) * gmap string Z * preauth) :=
  match ops with
  | [] => Ok ([], branch_counts, st)
  | op :: ops =>
      '(report, st) ← perform bucket op st;
      branch_counts ← count_hits (branches report) branch_counts;
      '(transitions, branch_counts, st) ← run_operations bucket ops branch_counts st;
      mret ((op, report) :: transitions, branch_counts, st)
  end.

Definition zero_counts : gmap string Z := list_to_map (map (fun name => (name, 0)) required_branches).

Definition inputs_ok (x : preauth_inputs) : bool :=
  (len (source_locator_digest x) =? 32) && (len (in_session x) =? 16) && (len (in_digest16 x) =? 16) &&
  (len (fst (fragment_payloads x)) =? 124) && in_range 1 124 (len (snd (fragment_payloads x))).

(** The transitions and the branch coverage of the model. *)
Definition build_preauth_owner_model (x : preauth_inputs) : res (list (operation * expected) * gmap string Z) :=
  raise_if (negb (inputs_ok x)) (ValueError "preauth owner inputs");;
  '(transitions, branch_counts, _) ← run_operations (current_bucket x) (operations x) zero_counts (reset_state "");
  raise_if (existsb (fun name => match branch_counts !! name with Some n => n =? 0 | None => true end) required_branches)
    (AssertionError "preauth branch gap");;
  mret (transitions, branch_counts).

(** ** What the state keeps *)

#[local] Instance scratch_eq_dec : EqDecision scratch.
Proof. solve_decision. Defined.

(** One fragment, the first or the second, received less than nine seconds ago. *)
Record scratch_ok (now : Z) (s : scratch) : Prop := {
  so_fragment : exists i p, fragments s = {[ i := p ]} /\ (i = 0 \/ i = 1);
  so_activity : last_activity_ms s <= now < last_activity_ms s + idle_timeout_ms }.

Record preauth_inv (st : preauth) : Prop := {
  inv_scratch : forall k s, owners st !! k = Some s -> scratch_ok (last_now st) s;
  inv_sources : forall k k', is_Some (owners st !! k) -> is_Some (owners st !! k') -> key_source k = key_source k' -> k = k';
  inv_global : active_scratch_count st <= global_limit;
  inv_buckets : forall s b, token_buckets st !! s = Some b -> 0 <= tokens b <= token_capacity /\ last_refill_ms b <= last_now st;
  inv_counts : 0 <= completion_count st /\ 0 <= terminal_discard_count st /\
               completion_count st + terminal_discard_count st <= release_count st }.

Lemma reset_inv name : preauth_inv (reset_state name).
Proof.
  split; cbn; try done; try lia.
  intros k k' [? ?]. simplify_map_eq.
Qed.

(** *** The idle timeout *)

Definition awake (now : Z) (m : gmap owner_key scratch) : gmap owner_key scratch :=
  filter (fun kv => now - last_activity_ms kv.2 < idle_timeout_ms) m.

Lemma awake_lookup now m k s : awake now m !! k = Some s <-> m !! k = Some s /\ now - last_activity_ms s < idle_timeout_ms.
Proof. unfold awake. rewrite map_lookup_filter_Some. naive_solver. Qed.

Fixpoint drop_idle (now : Z) (rows : list (owner_key * scratch)) (m : gmap owner_key scratch) : gmap owner_key scratch :=
  match rows with
  | [] => m
  | (k, s) :: rows => drop_idle now rows (if idle_timeout_ms <=? now - last_activity_ms s then delete k m else m)
  end.

Lemma drop_idle_lookup now rows m k s :
  NoDup rows.*1 -> (forall r, r ∈ rows -> m !! r.1 = Some r.2) ->
  drop_idle now rows m !! k = Some s <-> m !! k = Some s /\ ((k, s) ∈ rows -> now - last_activity_ms s < idle_timeout_ms).
Proof.
  revert m. induction rows as [|[k' s'] rows IH]; intros m ND Hm; cbn.
  - set_solver.
  - cbn in ND. apply NoDup_cons in ND as [Hk ND].
    pose proof (Hm (k', s') ltac:(set_solver)) as Hk'. cbn in Hk'.
    assert (Hne : forall r, r ∈ rows -> r.1 <> k').
    { intros r Hr ->%eq_sym. apply Hk. apply list_elem_of_fmap. eauto. }
    destruct (Z.leb_spec idle_timeout_ms (now - last_activity_ms s')) as [Hl|Hl]; rewrite IH; clear IH; try done.
    + rewrite lookup_delete_Some, elem_of_cons. split.
      * intros [[Hd H1] H2]. split; [done|]. intros [[= -> ->]|H3]; [done | by apply H2].
      * intros [H1 H2]. split; [split; [intros ->; rewrite Hk' in H1; injection H1 as ->; specialize (H2 ltac:(by left)); lia | done]|].
        intros H3. apply H2. by right.
    + intros r Hr. rewrite lookup_delete_ne by (by apply not_eq_sym, Hne). apply Hm. set_solver.
    + rewrite elem_of_cons. split.
      * intros [H1 H2]. split; [done|]. intros [[= -> ->]|H3]; [lia | by apply H2].
      * intros [H1 H2]. split; [done|]. intros H3. apply H2. by right.
    + intros r Hr. apply Hm. set_solver.
Qed.

Lemma drop_idle_all now m : drop_idle now (map_to_list m) m = awake now m.
Proof.
  apply map_eq. intros k. apply option_eq. intros s. rewrite awake_lookup, drop_idle_lookup.
  - rewrite elem_of_map_to_list. naive_solver.
  - apply NoDup_fst_map_to_list.
  - intros [k' s'] H. by apply elem_of_map_to_list in H.
Qed.

Lemma expire_rows_spec now rows st :
  NoDup rows.*1 -> (forall r, r ∈ rows -> owners st !! r.1 = Some r.2 /\ last_activity_ms r.2 <= now) ->
  exists e b, expire_rows now rows st = Ok (e, b, add_counts 0 e 0 (set_owners (drop_idle now rows (owners st)) st)) /\
    0 <= e /\ Z.of_nat (size (drop_idle now rows (owners st))) + e = Z.of_nat (size (owners st)).
Proof.
  revert st. induction rows as [|[k s] rows IH]; intros st ND Hm; cbn [expire_rows drop_idle].
  - exists 0, false. split; [|lia]. destruct st; unfold add_counts, set_owners; cbn. rewrite !Z.add_0_r. done.
  - cbn in ND. apply NoDup_cons in ND as [Hk ND]. destruct (Hm (k, s) ltac:(set_solver)) as [Hks Ha]. cbn in Hks, Ha.
    assert (Hne : forall r, r ∈ rows -> r.1 <> k).
    { intros r Hr ->%eq_sym. apply Hk. apply list_elem_of_fmap. eauto. }
    rewrite raise_if_skip by (apply Z.ltb_ge; lia). cbv zeta.
    destruct (Z.leb_spec idle_timeout_ms (now - last_activity_ms s)) as [Hl|Hl].
    + unfold release. rewrite Hks, ok_bind.
      edestruct (IH (add_counts 0 1 0 (set_owners (delete k (owners st)) st))) as (e & b & -> & He & Hs); [done | |].
      { intros r Hr. cbn. rewrite lookup_delete_ne by (by apply not_eq_sym, Hne). apply Hm. set_solver. }
      rewrite ok_bind. exists (e + 1), b. split; [|split].
      * unfold mret, res_ret, add_counts, set_owners. cbn. repeat first [done | lia | f_equal].
      * lia.
      * cbn in Hs. assert (E : size (delete k (owners st)) = Nat.pred (size (owners st))) by (by rewrite map_size_delete, Hks).
        assert (size (owners st) <> 0%nat) by (intros H0; apply map_size_empty_iff in H0; rewrite H0 in Hks; simplify_map_eq). lia.
    + edestruct (IH st) as (e & b & -> & He & Hs); [done | intros r Hr; apply Hm; set_solver |].
      rewrite ok_bind. eauto.
Qed.

Lemma expire_spec now st : (forall k s, owners st !! k = Some s -> last_activity_ms s <= now) ->
  exists e hits, expire now st = Ok (e, hits, add_counts 0 e 0 (set_owners (awake now (owners st)) st)) /\
    0 <= e /\ Z.of_nat (size (awake now (owners st))) + e = Z.of_nat (size (owners st)) /\ Forall (.∈ required_branches) hits.
Proof.
  intros H. unfold expire.
  destruct (expire_rows_spec now (map_to_list (owners st)) st) as (e & b & -> & He & Hs); [apply NoDup_fst_map_to_list | |].
  { intros [k s] Hr%elem_of_map_to_list. cbn. split; [done | by eapply H]. }
  rewrite ok_bind. rewrite drop_idle_all in *. eexists e, _. split; [done|]. split; [done|]. split; [done|].
  apply Forall_app. split; [destruct b | destruct (e =? 0)]; repeat constructor; set_solver.
Qed.

(** *** The token bucket *)

(** A bucket brought up to date: whole refill intervals are credited, up to the capacity. *)
Definition refilled (now : Z) (ob : option token_bucket) : token_bucket :=
  match ob with
  | None => {| tokens := token_capacity; last_refill_ms := now |}
  | Some b =>
      let intervals := (now - last_refill_ms b) / token_refill_ms in
      {| tokens := Z.min token_capacity (tokens b + intervals); last_refill_ms := last_refill_ms b + intervals * token_refill_ms |}
  end.

Definition bucket_ok (now : Z) (b : token_bucket) : Prop := 0 <= tokens b <= token_capacity /\ last_refill_ms b <= now.

Lemma refilled_ok now ob : (forall b, ob = Some b -> bucket_ok now b) ->
  bucket_ok now (refilled now ob) /\ now - last_refill_ms (refilled now ob) < token_refill_ms.
Proof.
  intros H. destruct ob as [b|]; unfold bucket_ok, refilled, token_capacity, token_refill_ms in *; cbn; [|lia].
  destruct (H b eq_refl). unfold token_capacity, token_refill_ms in *.
  pose proof (Z.div_mod (now - last_refill_ms b) 2000 ltac:(lia)). pose proof (Z.mod_pos_bound (now - last_refill_ms b) 2000 ltac:(lia)).
  assert (0 <= (now - last_refill_ms b) / 2000) by (apply Z.div_pos; lia). lia.
Qed.

Lemma refill_spec s now st : (forall b, token_buckets st !! s = Some b -> bucket_ok now b) ->
  exists hits, refill s now st = Ok (tokens (refilled now (token_buckets st !! s)), hits,
      set_buckets (<[s := refilled now (token_buckets st !! s)]> (token_buckets st)) st) /\
    Forall (.∈ required_branches) hits.
Proof.
  intros H. unfold refill. destruct (token_buckets st !! s) as [b|] eqn:E; [|eexists; split; [done | constructor]].
  destruct (H b eq_refl) as [Hb Hr]. rewrite raise_if_skip by (apply Z.ltb_ge; lia). cbv zeta.
  set (h := if _ : bool then ["REFILL_BEFORE_2S"%string] else []).
  assert (Hh : Forall (.∈ required_branches) h) by (unfold h; destruct (_ && _); repeat constructor; set_solver).
  destruct (Z.eqb_spec ((now - last_refill_ms b) / token_refill_ms) 0) as [E0|E0].
  - exists h. split; [|done]. unfold refilled. rewrite E0, Z.add_0_r, Z.mul_0_l, Z.add_0_r, Z.min_r by (unfold token_capacity in *; lia).
    destruct b as [t r]. cbn in *. repeat f_equal. unfold set_buckets. rewrite insert_id by done. by destruct st.
  - eexists. split; [done|]. apply Forall_app. split; [done|]. repeat constructor; set_solver.
Qed.

(** What a source may still be allocated until [until], at the rate of the bucket. *)
Definition allowance (s : bytes) (until : Z) (st : preauth) : Z :=
  let b := refilled (last_now st) (token_buckets st !! s) in
  tokens b + (until - last_refill_ms b) / token_refill_ms.

Lemma refilled_later now now' until ob : now <= now' <= until -> (forall b, ob = Some b -> bucket_ok now b) ->
  tokens (refilled now' ob) + (until - last_refill_ms (refilled now' ob)) / token_refill_ms <=
  tokens (refilled now ob) + (until - last_refill_ms (refilled now ob)) / token_refill_ms.
Proof.
  intros Hn H. destruct ob as [b|]; cbn; unfold token_capacity, token_refill_ms in *.
  - assert (E : forall i, (until - (last_refill_ms b + i * 2000)) / 2000 = (until - last_refill_ms b) / 2000 - i).
    { intros i. replace (until - (last_refill_ms b + i * 2000)) with (until - last_refill_ms b + - i * 2000) by lia. rewrite Z.div_add by lia. lia. }
    rewrite !E. assert ((now - last_refill_ms b) / 2000 <= (now' - last_refill_ms b) / 2000) by (apply Z.div_le_mono; lia). lia.
  - assert ((until - now') / 2000 <= (until - now) / 2000) by (apply Z.div_le_mono; lia). lia.
Qed.

Lemma refilled_idem now ob : (forall b, ob = Some b -> bucket_ok now b) -> refilled now (Some (refilled now ob)) = refilled now ob.
Proof.
  intros H. destruct (refilled_ok now ob H) as [[H1 H2] H3]. unfold refilled at 1.
  rewrite (Z.div_small (now - _)) by (unfold token_refill_ms in *; lia).
  rewrite Z.add_0_r, Z.mul_0_l, Z.add_0_r, Z.min_r by (unfold token_capacity in *; lia). by destruct (refilled now ob).
Qed.

(** *** One fragment *)

Definition allocated (result : string) : Z := if String.eqb result "FRAGMENT_ACCEPTED_ALLOCATED" then 1 else 0.

(** What handling a fragment does to the state, whatever the branch. *)
Record handled (op : operation) (st : preauth) (r : string) (hits : list string) (st' : preauth) : Prop := {
  hd_inv : preauth_inv st';
  hd_now : last_now st' = last_now st;
  hd_scenario : current_scenario st' = current_scenario st;
  hd_hits : Forall (.∈ required_branches) hits;
  hd_flow : release_count st' + active_scratch_count st' = release_count st + active_scratch_count st + allocated r;
  hd_allowance : forall s until, last_now st <= until ->
    allowance s until st' + (if bool_decide (s = source_locator op) then allocated r else 0) <= allowance s until st }.

Lemma fragment_accept_known i : i = 0 \/ i = 1 -> fragment_accept i ∈ required_branches.
Proof. intros [-> | ->]; vm_compute; set_solver. Qed.

Lemma release_spec k st s : owners st !! k = Some s ->
  release k st = Ok (add_counts 0 1 0 (set_owners (delete k (owners st)) st)).
Proof. intros H. unfold release. by rewrite H. Qed.

Lemma size_delete (k : owner_key) (s : scratch) (m : gmap owner_key scratch) : m !! k = Some s -> Z.of_nat (size (delete k m)) = Z.of_nat (size m) - 1.
Proof.
  intros H. rewrite map_size_delete, H. cbn. assert (size m <> 0%nat) by (intros H0; apply map_size_empty_iff in H0; subst m; simplify_map_eq). lia.
Qed.

(** The owners may shrink, and one of them may be touched, without breaking the state. *)
Lemma shrink_inv st m : preauth_inv st -> (forall k s, m !! k = Some s -> is_Some (owners st !! k) /\ scratch_ok (last_now st) s) ->
  Z.of_nat (size m) <= active_scratch_count st -> preauth_inv (set_owners m st).
Proof.
  intros [H1 H2 H3 H4 H5] Hm Hs. split; cbn; try done.
  - intros k s Hk. by apply Hm in Hk as [_ ?].
  - intros k k' [? Hk] [? Hk']. apply Hm in Hk as [? _]. apply Hm in Hk' as [? _]. by apply H2.
  - unfold active_scratch_count in *. cbn. lia.
Qed.

Lemma counts_inv st c r d : preauth_inv st -> 0 <= c -> 0 <= d -> c + d <= r -> preauth_inv (add_counts c r d st).
Proof. intros [H1 H2 H3 H4 H5] Hc Hd Hr. split; cbn; try done. lia. Qed.

(** The three ways a scratch is released. *)
Lemma released_handled op st r c d hits s :
  preauth_inv st -> owners st !! key_of op = Some s -> 0 <= c -> 0 <= d -> c + d <= 1 -> Forall (.∈ required_branches) hits ->
  allocated r = 0 ->
  handled op st r hits (add_counts c 1 d (set_owners (delete (key_of op) (owners st)) st)).
Proof.
  intros I Hk Hc Hd Hcd Hh Hr. split; try done.
  - apply counts_inv; try done. apply shrink_inv; [done | | unfold active_scratch_count; rewrite (size_delete _ _ _ Hk); lia].
    intros k s' H%lookup_delete_Some. destruct H as [_ H]. split; [by eexists | by eapply inv_scratch].
  - rewrite Hr. unfold active_scratch_count. cbn. rewrite (size_delete _ _ _ Hk). lia.
  - intros s' until _. rewrite Hr. unfold allowance. cbn. destruct (bool_decide _); lia.
Qed.

(** The scratch of a key is touched: the state keeps its shape. *)
Lemma touched_handled op st s s' r hits :
  preauth_inv st -> owners st !! key_of op = Some s -> scratch_ok (last_now st) s' -> Forall (.∈ required_branches) hits -> allocated r = 0 ->
  handled op st r hits (set_owners (<[key_of op := s']> (owners st)) st).
Proof.
  intros I Hk Hs Hh Hr.
  assert (Hz : size (<[key_of op := s']> (owners st)) = size (owners st)) by (apply map_size_insert_Some; by eexists).
  split; try done.
  - apply shrink_inv; [done | | unfold active_scratch_count; rewrite Hz; lia].
    intros k s'' [[<- <-]|[_ H]]%lookup_insert_Some; [split; [by eexists | done]|]. split; [by eexists | by eapply inv_scratch].
  - rewrite Hr. unfold active_scratch_count. cbn. rewrite Hz. lia.
  - intros s'' until _. rewrite Hr. unfold allowance. cbn. destruct (bool_decide _); lia.
Qed.

Lemma handled_nothing op st r hits : preauth_inv st -> Forall (.∈ required_branches) hits -> allocated r = 0 -> handled op st r hits st.
Proof. intros I Hh Hr. split; try done; [lia|]. intros s until _. rewrite Hr. destruct (bool_decide _); lia. Qed.

Lemma add_counts_add a b c a' b' c' st : add_counts a b c (add_counts a' b' c' st) = add_counts (a' + a) (b' + b) (c' + c) st.
Proof. unfold add_counts. cbn. f_equal; lia. Qed.

Definition index_ok (op : operation) : Prop := op_kind op = RECEIVE_FRAGMENT -> fragment_index op = 0 \/ fragment_index op = 1.

(** A second fragment always completes the scratch: no scratch ever waits with two. *)
Lemma continue_spec op st s :
  preauth_inv st -> at_ms op = last_now st -> fragment_index op = 0 \/ fragment_index op = 1 -> owners st !! key_of op = Some s ->
  exists r hits st', continue_scratch op s st = Ok (r, hits, st') /\ handled op st r hits st' /\
    r = match fragments s !! fragment_index op with
        | Some existing => if bool_decide (existing = fragment_payload op) then "DUPLICATE_NO_PROGRESS"
                           else "CONFLICTING_DUPLICATE_TERMINAL_DISCARD"
        | None => "COMPLETE_RELEASED"
        end%string.
Proof.
  intros I Ht Hi Hk. destruct (inv_scratch st I _ _ Hk) as [(i & p & Ef & Hip) Ha]. unfold continue_scratch. cbv zeta.
  destruct (fragments s !! fragment_index op) as [existing|] eqn:E.
  - destruct (bool_decide (existing = fragment_payload op)).
    + eexists _, _, _. split; [done|]. split; [|done]. eapply touched_handled; try done; [|repeat constructor; set_solver].
      split; cbn; [by exists i, p | unfold idle_timeout_ms; lia].
    + rewrite (release_spec _ _ _ Hk), ok_bind, add_counts_add. eexists _, _, _. split; [done|]. split; [|done].
      apply (released_handled op st _ 0 1 _ s); try done; try lia. repeat constructor; set_solver.
  - rewrite Ef in E |- *. apply lookup_singleton_None in E. cbn [fragments].
    rewrite map_size_insert_None by (by apply lookup_singleton_None). rewrite map_size_singleton. cbn [Z.of_nat Z.eqb Pos.of_succ_nat Pos.succ Pos.eqb].
    erewrite release_spec by (cbn; apply lookup_insert_eq). rewrite ok_bind. cbn [owners set_owners].
    rewrite delete_insert_eq, add_counts_add. eexists _, _, _. split; [done|]. split; [|done].
    apply (released_handled op st _ 1 0 _ s); try done; try lia. constructor; [by apply fragment_accept_known | repeat constructor; set_solver].
Qed.

Lemma source_active_0 s st : preauth_inv st ->
  source_active s st = 0 \/ source_active s st = 1 /\ exists k, is_Some (owners st !! k) /\ key_source k = s.
Proof.
  intros I. unfold source_active. set (f := filter _ (owners st)).
  destruct (decide (f = ∅)) as [->|Hf]; [left; by rewrite map_size_empty|]. right.
  apply map_choose in Hf as (k & x & Hk). assert (Hk' := Hk). apply map_lookup_filter_Some in Hk' as [H1 H2]. cbn in H2.
  split; [|exists k; split; [by eexists | done]].
  assert (E : f = {[ k := x ]}).
  { apply map_eq. intros k'. apply option_eq. intros x'. rewrite lookup_singleton_Some. split; [|by intros [<- <-]].
    intros H. assert (H' := H). apply map_lookup_filter_Some in H' as [H3 H4]. cbn in H4.
    assert (k = k') as <- by (eapply inv_sources; [done | by eexists | by eexists | congruence]). split; congruence. }
  rewrite E, map_size_singleton. done.
Qed.

Lemma source_active_none s st : source_active s st = 0 <-> forall k, is_Some (owners st !! k) -> key_source k <> s.
Proof.
  unfold source_active. rewrite (Nat2Z.inj_iff _ 0), map_size_empty_iff, map_empty. split.
  - intros H k [x Hx] Hs. specialize (H k). apply map_lookup_filter_None in H as [H|H]; [congruence | by apply (H x)].
  - intros H k. apply map_lookup_filter_None. right. intros x Hx. cbn. apply H. by eexists.
Qed.

(** The verdict on a fragment of a key without scratch, given the tokens available. *)
Definition admission (available active total : Z) : string :=
  if available <? 1 then "TOKEN_BUCKET_DENY"
  else if per_source_limit <=? active then "PER_SOURCE_QUOTA_DENY"
  else if global_limit <=? total then "GLOBAL_QUOTA_DENY"
  else "FRAGMENT_ACCEPTED_ALLOCATED".

Lemma refilled_inv st s : preauth_inv st ->
  preauth_inv (set_buckets (<[s := refilled (last_now st) (token_buckets st !! s)]> (token_buckets st)) st).
Proof.
  intros [H1 H2 H3 H4 H5]. split; cbn; try done.
  intros s' b [[<- <-]|[_ H]]%lookup_insert_Some; [|by eapply H4].
  apply refilled_ok. intros b Hb. by apply (H4 s).
Qed.

Lemma bucket_inv st s b : preauth_inv st -> token_buckets st !! s = Some b -> bucket_ok (last_now st) b.
Proof. intros I H. by apply (inv_buckets st I s). Qed.

(** Bringing a bucket up to date changes no allowance. *)
Lemma refilled_allowance st s s' until : preauth_inv st ->
  allowance s' until (set_buckets (<[s := refilled (last_now st) (token_buckets st !! s)]> (token_buckets st)) st) = allowance s' until st.
Proof.
  intros I. unfold allowance. cbn. destruct (decide (s = s')) as [<-|Hs].
  - rewrite lookup_insert_eq, refilled_idem; [done|]. intros b Hb. by eapply bucket_inv.
  - by rewrite lookup_insert_ne.
Qed.

(** Taking a token pays for an allocation. *)
Lemma allocate_handled op st b hits p :
  preauth_inv st -> index_ok op -> op_kind op = RECEIVE_FRAGMENT -> owners st !! key_of op = None ->
  token_buckets st !! source_locator op = Some b -> 1 <= tokens b -> last_now st - last_refill_ms b < token_refill_ms ->
  source_active (source_locator op) st = 0 -> active_scratch_count st < global_limit -> Forall (.∈ required_branches) hits ->
  handled op st "FRAGMENT_ACCEPTED_ALLOCATED" hits
    (set_owners (<[key_of op := {| last_activity_ms := last_now st; fragments := {[ fragment_index op := p ]} |}]> (owners st))
      (set_buckets (alter (fun b => {| tokens := tokens b - 1; last_refill_ms := last_refill_ms b |}) (source_locator op) (token_buckets st)) st)).
Proof.
  intros I Hix Hop Hk Hb Ht Hr Hs Hg Hh.
  assert (Hz : size (<[key_of op := {| last_activity_ms := last_now st; fragments := {[ fragment_index op := p ]} |}]> (owners st)) = S (size (owners st)))
    by (by apply map_size_insert_None).
  destruct (bucket_inv _ _ _ I Hb) as [Hb1 Hb2]. pose proof (proj1 (source_active_none _ _) Hs) as Hs'.
  unfold active_scratch_count in Hg. destruct I as [H1 H2 H3 H4 H5]. split; try done.
  - split; cbn; try done.
    + intros k s [[<- <-]|[_ H]]%lookup_insert_Some; [|by eapply H1].
      split; cbn; [eexists _, _; split; [done | by apply Hix] | unfold idle_timeout_ms; lia].
    + intros k k' Hk1 Hk2 E. rewrite !lookup_insert_is_Some in Hk1, Hk2.
      destruct Hk1 as [<-|[N1 Hk1]], Hk2 as [<-|[N2 Hk2]]; [done | | | by apply H2]; exfalso.
      * by apply (Hs' _ Hk2).
      * by apply (Hs' _ Hk1).
    + unfold active_scratch_count. cbn. rewrite Hz. lia.
    + intros s b' [(<- & x & Hx & ->)|[_ H]]%lookup_alter_Some; [|by eapply H4].
      rewrite Hb in Hx. injection Hx as <-. cbn. lia.
  - unfold active_scratch_count. cbn. rewrite Hz. cbn. lia.
  - intros s until Hu. unfold allowance. cbn. destruct (decide (s = source_locator op)) as [->|Hn].
    + rewrite bool_decide_eq_true_2, lookup_alter_eq, Hb by done. cbn [fmap option_fmap option_map refilled tokens last_refill_ms].
      rewrite (Z.div_small (last_now st - _)) by lia. unfold token_capacity in *. cbn.
      rewrite Z.mul_0_l, !Z.add_0_r. lia.
    + rewrite bool_decide_eq_false_2, lookup_alter_ne by done. lia.
Qed.

Lemma admit_spec bucket op st :
  preauth_inv st -> at_ms op = last_now st -> index_ok op -> op_kind op = RECEIVE_FRAGMENT -> owners st !! key_of op = None ->
  exists hits st', 
    let r := admission (tokens (refilled (last_now st) (token_buckets st !! source_locator op))) (source_active (source_locator op) st) (active_scratch_count st) in
    admit_fragment bucket op st = Ok (r, hits, st') /\ handled op st r hits st'.
Proof.
  intros I Ht Hix Hop Hk. unfold admit_fragment. cbv zeta. change (key_source (key_of op)) with (source_locator op). rewrite Ht.
  destruct (refill_spec (source_locator op) (last_now st) st) as (h & E & Hh); [intros b Hb; by eapply bucket_inv|].
  rewrite E, ok_bind. clear E. set (b := refilled _ _). set (st1 := set_buckets _ st).
  pose proof (refilled_inv st (source_locator op) I) as I1. fold b st1 in I1.
  pose proof (fun s until => refilled_allowance st (source_locator op) s until I) as A1. fold b st1 in A1.
  change (source_active (source_locator op) st1) with (source_active (source_locator op) st).
  change (active_scratch_count st1) with (active_scratch_count st). unfold admission.
  assert (Hdeny : forall r hit, allocated r = 0 -> hit ∈ required_branches -> handled op st r (h ++ [hit]) st1).
  { intros r hit Hr Hhit. split; try done; [apply Forall_app; split; [done | constructor; [done | constructor]] | rewrite Hr; cbn; unfold active_scratch_count; cbn; lia |].
    intros s until _. rewrite Hr, A1. destruct (bool_decide _); lia. }
  destruct (Z.ltb_spec (tokens b) 1) as [H1|H1]; [|destruct (Z.leb_spec per_source_limit (source_active (source_locator op) st)) as [H2|H2];
    [|destruct (Z.leb_spec global_limit (active_scratch_count st)) as [H3|H3]]].
  1-3: eexists _, _; split; [done|]; apply Hdeny; [done | set_solver].
  eexists _, _. split; [done|].
  pose proof (refilled_ok (last_now st) (token_buckets st !! source_locator op) (fun b Hb => bucket_inv _ _ _ I Hb)) as [Hb1 Hb2]. fold b in Hb1, Hb2.
  edestruct (allocate_handled op st1 b (h ++ ["ALLOCATE"%string; fragment_accept (fragment_index op);
      (if cookie_bucket op =? bucket then "COOKIE_CURRENT_ACCEPT"%string else "COOKIE_PREVIOUS_ACCEPT"%string)]) (fragment_payload op))
    as [D1 D2 D3 D4 D5 D6]; try done.
  - cbn. by rewrite lookup_insert_eq.
  - change (source_active (source_locator op) st1) with (source_active (source_locator op) st).
    destruct (source_active_0 (source_locator op) st I) as [E|[E _]]; [done | unfold per_source_limit in H2; lia].
  - apply Forall_app. split; [done|]. constructor; [set_solver|]. constructor; [by apply fragment_accept_known, Hix|].
    destruct (_ =? _); repeat constructor; set_solver.
  - split; try done. intros s until Hu. rewrite <- A1. by apply D6.
Qed.

Lemma receive_spec bucket op st :
  preauth_inv st -> at_ms op = last_now st -> index_ok op -> op_kind op = RECEIVE_FRAGMENT ->
  exists r hits st', receive_fragment bucket op st = Ok (r, hits, st') /\ handled op st r hits st' /\
    (r = "FRAGMENT_ACCEPTED_ALLOCATED"%string <->
     (cookie_bucket op = bucket \/ cookie_bucket op = bucket - 1) /\ owners st !! key_of op = None /\
     1 <= tokens (refilled (last_now st) (token_buckets st !! source_locator op)) /\
     source_active (source_locator op) st = 0 /\ active_scratch_count st < global_limit).
Proof.
  intros I Ht Hix Hop. unfold receive_fragment. cbv zeta.
  assert (Hb : negb ((cookie_bucket op =? bucket) || (cookie_bucket op =? bucket - 1)) = false <->
               cookie_bucket op = bucket \/ cookie_bucket op = bucket - 1) by (rewrite negb_false_iff, orb_true_iff, !Z.eqb_eq; done).
  destruct (negb _) eqn:En.
  - assert (Hb' : ~ (cookie_bucket op = bucket \/ cookie_bucket op = bucket - 1)) by (intros H%Hb; done).
    destruct (owners st !! key_of op) as [s|] eqn:Hk.
    + rewrite (release_spec _ _ _ Hk), ok_bind, add_counts_add. eexists _, _, _. split; [done|]. split; [|split; [done | tauto]].
      apply (released_handled op st _ 0 1 _ s); try done; try lia. repeat constructor; set_solver.
    + eexists _, _, _. split; [done|]. split; [|split; [done | tauto]]. apply handled_nothing; [done | repeat constructor; set_solver | done].
  - apply proj1 in Hb. specialize (Hb eq_refl). destruct (owners st !! key_of op) as [s|] eqn:Hk.
    + destruct (continue_spec op st s I Ht (Hix Hop) Hk) as (r & hits & st' & E & D & ->). eexists _, _, _. split; [done|]. split; [done|].
      split; [|naive_solver]. destruct (fragments s !! _); [destruct (bool_decide _)|]; done.
    + destruct (admit_spec bucket op st I Ht Hix Hop Hk) as (hits & st' & E & D). eexists _, _, _. split; [done|]. split; [done|].
      unfold admission. unfold per_source_limit, global_limit.
      pose proof (source_active_0 (source_locator op) st I) as Ha.
      destruct (Z.ltb_spec (tokens (refilled (last_now st) (token_buckets st !! source_locator op))) 1);
        [|destruct (Z.leb_spec 1 (source_active (source_locator op) st)); [|destruct (Z.leb_spec 8 (active_scratch_count st))]].
      all: split; [intros H'; try discriminate H' | intros (_ & _ & ? & ? & ?); try lia]; try done.
      split; [done|]. split; [done|]. split; [done|]. split; [lia | done].
Qed.

(** *** One operation *)

(** The limits every report stays inside. *)
Record within (e : expected) : Prop := {
  wi_active : 0 <= e_active e <= global_limit;
  wi_source : 0 <= e_source_active e <= per_source_limit;
  wi_tokens : -1 <= e_source_tokens e <= token_capacity;
  wi_mask : e_received_mask e ∈ [0; 1; 2];
  wi_counts : 0 <= e_completions e /\ 0 <= e_discards e /\ e_completions e + e_discards e <= e_releases e;
  wi_identity : identity_allocations e = 0 /\ credential_resolver_calls e = 0 }.

Lemma report_within op r hits e st : preauth_inv st -> within (report op r hits e st).
Proof.
  intros I. split; cbn.
  - split; [unfold active_scratch_count; lia | apply inv_global, I].
  - unfold per_source_limit. destruct (op_kind op); [|lia]. pose proof (source_active_0 (source_locator op) st I). lia.
  - unfold token_capacity. destruct (op_kind op); [|lia]. destruct (token_buckets st !! _) as [b|] eqn:E; [|lia].
    destruct (bucket_inv _ _ _ I E) as [H _]. unfold token_capacity in H. lia.
  - destruct (op_kind op); [|set_solver]. unfold received_mask. destruct (owners st !! key_of op) as [s|] eqn:E; [|set_solver].
    destruct (inv_scratch st I _ _ E) as [(i & p & -> & Hi) _]. rewrite map_to_list_singleton. cbn.
    destruct Hi as [-> | ->]; vm_compute; set_solver.
  - apply inv_counts, I.
  - done.
Qed.

(** The state an operation finds after the idle owners are gone. *)
Definition settled (now : Z) (e : Z) (st : preauth) : preauth :=
  add_counts 0 e 0 (set_owners (awake now (owners st)) (set_now now st)).

Lemma settled_keeps_inv now e st : preauth_inv st -> last_now st <= now -> 0 <= e -> preauth_inv (settled now e st).
Proof.
  intros [H1 H2 H3 H4 H5] Hn He. apply counts_inv; [|lia..]. split; cbn; try done.
  - intros k s [Hk Ha]%awake_lookup. destruct (H1 _ _ Hk) as [Hf Hs]. split; [done | unfold idle_timeout_ms in *; lia].
  - intros k k' [s Hk] [s' Hk']. apply awake_lookup in Hk as [Hk _]. apply awake_lookup in Hk' as [Hk' _]. apply H2; by eexists.
  - unfold active_scratch_count in *. cbn. assert (size (awake now (owners st)) <= size (owners st))%nat; [|lia].
    apply map_subseteq_size, map_filter_subseteq.
  - intros s b Hb. destruct (H4 _ _ Hb). lia.
Qed.

Record performed (bucket : Z) (op : operation) (st : preauth) (e : expected) (st' : preauth) : Prop := {
  pf_inv : preauth_inv st';
  pf_now : last_now st' = at_ms op;
  pf_scenario : current_scenario st' = current_scenario st;
  pf_hits : Forall (.∈ required_branches) (branches e);
  pf_report : within e;
  pf_state : e_active e = active_scratch_count st' /\ e_releases e = release_count st';
  pf_flow : release_count st' + active_scratch_count st' = release_count st + active_scratch_count st + allocated (result e);
  pf_allowance : forall s until, at_ms op <= until ->
    allowance s until st' + (if bool_decide (s = source_locator op) then allocated (result e) else 0) <= allowance s until (set_now (at_ms op) st);
  pf_admission : result e = "FRAGMENT_ACCEPTED_ALLOCATED"%string <->
    op_kind op = RECEIVE_FRAGMENT /\ (cookie_bucket op = bucket \/ cookie_bucket op = bucket - 1) /\
    awake (at_ms op) (owners st) !! key_of op = None /\
    1 <= tokens (refilled (at_ms op) (token_buckets st !! source_locator op)) /\
    (forall k, is_Some (awake (at_ms op) (owners st) !! k) -> key_source k <> source_locator op) /\
    Z.of_nat (size (awake (at_ms op) (owners st))) < global_limit;
  pf_tick : op_kind op = TICK -> owners st' = awake (at_ms op) (owners st) }.

(** The state the loop body starts from. *)
Definition entered (op : operation) (st : preauth) : preauth := if reset_before op then reset_state (scenario op) else st.

Definition in_order (op : operation) (st : preauth) : Prop := scenario op = current_scenario st /\ last_now st <= at_ms op.

Lemma entered_inv op st : preauth_inv st -> preauth_inv (entered op st).
Proof. intros I. unfold entered. destruct (reset_before op); [apply reset_inv | done]. Qed.

Lemma perform_spec bucket op st : preauth_inv st -> index_ok op ->
  (in_order op (entered op st) -> exists e st', perform bucket op st = Ok (e, st') /\ performed bucket op (entered op st) e st') /\
  (~ in_order op (entered op st) -> perform bucket op st = Raise (AssertionError "preauth scenario/time ordering")).
Proof.
  intros I Hix. apply (entered_inv op) in I. unfold perform. fold (entered op st). cbv zeta. generalize dependent (entered op st). clear st. intros st I.
  set (g := negb _ || _). assert (Hg : g = false <-> in_order op st).
  { unfold g, in_order. rewrite orb_false_iff, negb_false_iff, String.eqb_eq, Z.ltb_ge. done. }
  split; intros Ho; [|assert (g = true) as -> by (destruct g; tauto); done].
  rewrite raise_if_skip by tauto. destruct Ho as [Hsc Hnow].
  destruct (expire_spec (at_ms op) (set_now (at_ms op) st)) as (n & h & -> & Hn & Hsize & Hh).
  { intros k s Hk. destruct (inv_scratch st I k s Hk) as [_ ?]. lia. }
  rewrite ok_bind. cbn [owners set_now] in Hsize |- *. fold (settled (at_ms op) n st).
  pose proof (settled_keeps_inv (at_ms op) n st I Hnow Hn) as Is.
  assert (Hflow : release_count (settled (at_ms op) n st) + active_scratch_count (settled (at_ms op) n st) = release_count st + active_scratch_count st)
    by (unfold active_scratch_count; cbn; lia).
  assert (Hall : forall s until, allowance s until (settled (at_ms op) n st) = allowance s until (set_now (at_ms op) st)) by done.
  destruct (op_kind op) eqn:Hop.
  - destruct (receive_spec bucket op (settled (at_ms op) n st) Is eq_refl Hix Hop) as (r & hits & st' & -> & [D1 D2 D3 D4 D5 D6] & Hr).
    rewrite ok_bind. eexists _, _. split; [done|].
    split; try done; [by apply Forall_app | by apply report_within | cbn; lia | | congruence].
    + cbn [result report]. rewrite Hr. rewrite source_active_none. unfold active_scratch_count. cbn. tauto.
  - eexists _, _. split; [done|].
    assert (Ha : allocated (if n =? 0 then "TICK_NO_EXPIRY"%string else "IDLE_EXPIRED_RELEASED"%string) = 0) by (by destruct (n =? 0)).
    split; try done.
    + by apply report_within.
    + cbn [result report]. rewrite Ha. cbn in Hflow |- *. lia.
    + intros s until _. cbn [result report]. rewrite Ha, <- Hall. destruct (bool_decide _); lia.
    + cbn [result report]. split; [by destruct (n =? 0) | intros [? _]; congruence].
Qed.

(** *** Runs *)

Lemma count_hits_Ok hits counts : Forall (fun h => is_Some (counts !! h)) hits ->
  exists counts', count_hits hits counts = Ok counts' /\ dom counts' = dom counts.
Proof.
  revert counts. induction hits as [|h hits IH]; intros counts H; [by eexists|].
  inversion H as [|? ? [n Hn] Ht]; subst. cbn. rewrite Hn. destruct (IH (<[h := n + 1]> counts)) as (c & -> & Hd).
  - eapply Forall_impl; [exact Ht|]. intros h' Hh. cbn. apply lookup_insert_is_Some'. by right.
  - exists c. split; [done|]. rewrite Hd, dom_insert_L. apply elem_of_dom_2 in Hn. set_solver.
Qed.

Definition branches_known (counts : gmap string Z) : Prop := dom counts = list_to_set required_branches.

Lemma zero_counts_known : branches_known zero_counts.
Proof. unfold branches_known, zero_counts. rewrite dom_list_to_map_L. f_equal. Qed.

Lemma count_known hits counts : branches_known counts -> Forall (.∈ required_branches) hits ->
  exists counts', count_hits hits counts = Ok counts' /\ branches_known counts'.
Proof.
  intros Hk Hh. destruct (count_hits_Ok hits counts) as (c & E & Hd); [|exists c; split; [done | congruence]].
  eapply Forall_impl; [exact Hh|]. intros h H. cbn. apply elem_of_dom. rewrite Hk. by apply elem_of_list_to_set.
Qed.

(** The operations come in order: within a scenario time does not go back. *)
Fixpoint ordered (name : string) (now : Z) (ops : list operation) : Prop :=
  match ops with
  | [] => True
  | op :: ops =>
      (if reset_before op then 0 <= at_ms op else scenario op = name /\ now <= at_ms op) /\ ordered (scenario op) (at_ms op) ops
  end.

Lemma run_step bucket op ops counts st : preauth_inv st -> index_ok op -> branches_known counts -> in_order op (entered op st) ->
  exists e st' counts', performed bucket op (entered op st) e st' /\ branches_known counts' /\
    run_operations bucket (op :: ops) counts st = '(ts, c, st'') ← run_operations bucket ops counts' st'; mret ((op, e) :: ts, c, st'').
Proof.
  intros I Hix Hc Ho. destruct (proj1 (perform_spec bucket op st I Hix) Ho) as (e & st' & E & P).
  destruct (count_known (branches e) counts Hc (pf_hits _ _ _ _ _ P)) as (c' & Ec & Hc').
  exists e, st', c'. split; [done|]. split; [done|]. cbn [run_operations]. by rewrite E, ok_bind, Ec, ok_bind.
Qed.

Lemma in_order_entered op st : in_order op (entered op st) <->
  (if reset_before op then 0 <= at_ms op else scenario op = current_scenario st /\ last_now st <= at_ms op).
Proof. unfold in_order, entered. destruct (reset_before op); cbn; tauto. Qed.

Lemma entered_scenario op st : in_order op (entered op st) -> current_scenario (entered op st) = scenario op.
Proof. by intros [-> _]. Qed.

Lemma run_spec bucket ops counts st : preauth_inv st -> Forall index_ok ops -> branches_known counts ->
  (ordered (current_scenario st) (last_now st) ops ->
     exists ts counts' st', run_operations bucket ops counts st = Ok (ts, counts', st')) /\
  (forall ts counts' st', run_operations bucket ops counts st = Ok (ts, counts', st') ->
     ordered (current_scenario st) (last_now st) ops /\ ts.*1 = ops /\ Forall within ts.*2 /\ preauth_inv st' /\ branches_known counts').
Proof.
  revert counts st. induction ops as [|op ops IH]; intros counts st I Hix Hc.
  - cbn. split; [eauto|]. intros ? ? ? [= <- <- <-]. done.
  - apply Forall_cons in Hix as [Hop Hops]. cbn [ordered]. rewrite <- in_order_entered. split.
    + intros [Ho Hrest]. destruct (run_step bucket op ops counts st I Hop Hc Ho) as (e & st1 & c1 & P & Hc1 & ->).
      destruct (IH c1 st1 (pf_inv _ _ _ _ _ P) Hops Hc1) as [IH1 _]. rewrite (pf_scenario _ _ _ _ _ P), (pf_now _ _ _ _ _ P), entered_scenario in IH1 by done.
      destruct (IH1 Hrest) as (ts & c & st' & ->). eauto.
    + intros ts c st' H. destruct (decide (in_order op (entered op st))) as [Ho|Ho].
      * destruct (run_step bucket op ops counts st I Hop Hc Ho) as (e & st1 & c1 & P & Hc1 & E). rewrite E in H. clear E. cbn in H.
        destruct (IH c1 st1 (pf_inv _ _ _ _ _ P) Hops Hc1) as [_ IH2]. rewrite (pf_scenario _ _ _ _ _ P), (pf_now _ _ _ _ _ P), entered_scenario in IH2 by done.
        destruct (run_operations bucket ops c1 st1) as [[[ts1 c2] st2]|] eqn:E2; [|done]. injection H as <- <- <-.
        destruct (IH2 _ _ _ eq_refl) as (H1 & H2 & H3 & H4 & H5). cbn. rewrite H2.
        split; [split; [by apply in_order_entered | done]|]. split; [done|]. split; [constructor; [by eapply pf_report | done] | done].
      * cbn [run_operations] in H. by rewrite (proj2 (perform_spec bucket op st I Hop) Ho) in H.
Qed.

Lemma run_app bucket ops ops' counts st :
  run_operations bucket (ops ++ ops') counts st =
  '(ts, c, st) ← run_operations bucket ops counts st; '(ts', c, st) ← run_operations bucket ops' c st; mret (ts ++ ts', c, st).
Proof.
  revert counts st. induction ops as [|op ops IH]; intros counts st; cbn [run_operations app].
  - rewrite ok_bind. by destruct (run_operations bucket ops' counts st) as [[[? ?] ?]|].
  - destruct (perform bucket op st) as [[e st1]|]; [|done]. rewrite !ok_bind.
    destruct (count_hits (branches e) counts) as [c|]; [|done]. rewrite !ok_bind, IH.
    destruct (run_operations bucket ops c st1) as [[[ts c1] st2]|]; [|done]. rewrite !ok_bind.
    cbn. by destruct (run_operations bucket ops' c1 st2) as [[[? ?] ?]|].
Qed.

(** How many times a source was allocated scratch. *)
Fixpoint allocations (s : bytes) (ts : list (operation * expected)) : Z :=
  match ts with
  | [] => 0
  | (op, e) :: ts => (if bool_decide (s = source_locator op) then allocated (result e) else 0) + allocations s ts
  end.

Fixpoint all_allocations (ts : list (operation * expected)) : Z :=
  match ts with
  | [] => 0
  | (_, e) :: ts => allocated (result e) + all_allocations ts
  end.

#[local] Opaque zero_counts.

(** A window of operations: no reset in it, every time at most [until]. *)
Definition windowed (until : Z) (ops : list operation) : Prop := Forall (fun op => reset_before op = false /\ at_ms op <= until) ops.

(** The allowance at the time the next operation comes. *)
Definition allowance_from (from : Z) (s : bytes) (until : Z) (st : preauth) : Z := allowance s until (set_now from st).

Lemma allowance_from_nonneg from s until st : preauth_inv st -> last_now st <= from <= until -> 0 <= allowance_from from s until st.
Proof.
  intros I Hf. unfold allowance_from, allowance. cbn.
  assert (Hb : forall b, token_buckets st !! s = Some b -> bucket_ok from b) by (intros b Hb; destruct (bucket_inv _ _ _ I Hb); split; lia).
  destruct (refilled_ok from (token_buckets st !! s) Hb) as [[[Ht _] Hr] _].
  assert (0 <= (until - last_refill_ms (refilled from (token_buckets st !! s))) / token_refill_ms) by (apply Z.div_pos; unfold token_refill_ms; lia). lia.
Qed.

(** Within a scenario the scratch in use and the scratch released add up to what was
    allocated, and each allocation is paid from the allowance. *)
Lemma run_flow bucket ops counts st ts counts' st' until : preauth_inv st -> Forall index_ok ops -> branches_known counts -> windowed until ops ->
  run_operations bucket ops counts st = Ok (ts, counts', st') ->
  release_count st' + active_scratch_count st' = release_count st + active_scratch_count st + all_allocations ts /\
  (forall from s, last_now st <= from <= until -> Forall (fun op => from <= at_ms op) (firstn 1 ops) -> allocations s ts <= allowance_from from s until st).
Proof.
  revert counts st ts. induction ops as [|op ops IH]; intros counts st ts I Hix Hc Hw H.
  - injection H as <- <- <-. cbn. split; [lia|]. intros from s Hf _. by apply allowance_from_nonneg.
  - apply Forall_cons in Hix as [Hop Hops]. apply Forall_cons in Hw as [[Hr Hu] Hws].
    destruct (decide (in_order op (entered op st))) as [Ho|Ho];
      [|by cbn [run_operations] in H; rewrite (proj2 (perform_spec bucket op st I Hop) Ho) in H].
    destruct (run_step bucket op ops counts st I Hop Hc Ho) as (e & st1 & c1 & P & Hc1 & E). rewrite E in H. clear E.
    assert (Ee : entered op st = st) by (unfold entered; by rewrite Hr). rewrite Ee in Ho, P.
    destruct (run_operations bucket ops c1 st1) as [[[ts1 c2] st2]|] eqn:E2; [|done]. injection H as <- <- <-.
    destruct (IH c1 st1 _ (pf_inv _ _ _ _ _ P) Hops Hc1 Hws E2) as [H1 H2]. split.
    + cbn. pose proof (pf_flow _ _ _ _ _ P). lia.
    + intros from s Hf [Hf1 _]%Forall_cons. cbn.
      destruct (run_spec bucket ops c1 st1 (pf_inv _ _ _ _ _ P) Hops Hc1) as [_ H3]. destruct (H3 _ _ _ E2) as [H4 _].
      pose proof (pf_now _ _ _ _ _ P) as Hn1.
      assert (H5 : allocations s ts1 <= allowance_from (at_ms op) s until st1).
      { apply H2; [lia|]. destruct ops as [|op2 ops]; [constructor|]. apply Forall_cons in Hws as [[Hr2 _] _].
        cbn in H4 |- *. rewrite Hr2 in H4. constructor; [lia | constructor]. }
      assert (Hs1 : allowance_from (at_ms op) s until st1 = allowance s until st1) by (unfold allowance_from, allowance; cbn; by rewrite Hn1).
      pose proof (pf_allowance _ _ _ _ _ P s until Hu) as Ha.
      assert (allowance s until (set_now (at_ms op) st) <= allowance_from from s until st); [|lia].
      unfold allowance_from, allowance. cbn. apply refilled_later; [lia|].
      intros b Hb. destruct (bucket_inv _ _ _ I Hb). split; lia.
Qed.

Lemma reset_known name : preauth_inv (reset_state name) /\ branches_known zero_counts.
Proof. split; [apply reset_inv | apply zero_counts_known]. Qed.

(** C13. A run of operations succeeds exactly when their times and scenarios are in order,
    no assertion of the code can fail in it, and every report of it stays inside the
    limits: eight scratches in all, one a source, two tokens, one fragment a scratch.
    (The counts of identity and credential work are the constant zero, as they are in
    the source.) *)
Theorem preauth_bounded bucket ops :
  Forall index_ok ops ->
  (is_ok (run_operations bucket ops zero_counts (reset_state "")) = true <-> ordered "" 0 ops) /\
  (forall ts counts st, run_operations bucket ops zero_counts (reset_state "") = Ok (ts, counts, st) ->
     ts.*1 = ops /\ Forall within ts.*2 /\ preauth_inv st).
Proof.
  intros Hix. destruct (reset_known "") as [I Hk]. destruct (run_spec bucket ops zero_counts (reset_state "") I Hix Hk) as [H1 H2].
  split; [split|].
  - destruct (run_operations _ _ _ _) as [[[ts c] st]|]; [|done]. intros _. by destruct (H2 _ _ _ eq_refl).
  - intros Ho. by destruct (H1 Ho) as (? & ? & ? & ->).
  - intros ts c st E. destruct (H2 _ _ _ E) as (_ & G1 & G2 & G3 & _). exact (conj G1 (conj G2 G3)).
Qed.

(** C17. Within one scenario, in any window of time, no source is given more scratches
    than the two of its bucket and one for every two-second interval the window lasts,
    a last incomplete interval counted whole. *)
Theorem preauth_rate_limited bucket before window from until ts counts st s :
  Forall index_ok (before ++ window) ->
  run_operations bucket (before ++ window) zero_counts (reset_state "") = Ok (ts, counts, st) ->
  Forall (fun op => reset_before op = false /\ from <= at_ms op <= until) window -> from <= until ->
  allocations s (drop (length before) ts) <= token_capacity + ceil_div (until - from) token_refill_ms.
Proof.
  intros [Hb Hw]%Forall_app E Hr Hf. rewrite run_app in E. destruct (reset_known "") as [I Hk].
  destruct (run_spec bucket before zero_counts (reset_state "") I Hb Hk) as [_ H2].
  destruct (run_operations bucket before zero_counts (reset_state "")) as [[[ts0 c0] st0]|] eqn:E0; [|discriminate E]. rewrite ok_bind in E.
  destruct (H2 _ _ _ eq_refl) as (_ & Hl & _ & I0 & Hk0).
  destruct (run_operations bucket window c0 st0) as [[[ts1 c1] st1]|] eqn:E1; [|discriminate E]. injection E as <- <- <-.
  assert (length ts0 = length before) as <- by (by rewrite <- Hl, length_fmap). rewrite drop_app_length. clear E0 H2 Hl Hb.
  assert (H0 : 0 <= ceil_div (until - from) token_refill_ms) by (apply ceil_div_nonneg; unfold token_refill_ms; lia).
  destruct window as [|op window]; [injection E1 as <- <- <-; cbn; unfold token_capacity; lia|].
  destruct (run_spec bucket (op :: window) c0 st0 I0 Hw Hk0) as [_ H3]. destruct (H3 _ _ _ E1) as [Ho _].
  apply Forall_cons in Hr as [[Hr1 Ht] Hr]. cbn [ordered] in Ho. rewrite Hr1 in Ho. destruct Ho as [[Hs Hn] _].
  destruct (run_flow bucket (op :: window) c0 st0 ts1 c1 st1 until I0 Hw Hk0) as [_ H4].
  { constructor; [split; [done | lia]|]. eapply Forall_impl; [exact Hr|]. intros x [Hx1 Hx2]. split; [exact Hx1 | lia]. }
  { exact E1. }
  specialize (H4 (at_ms op) s ltac:(lia)). etransitivity; [apply H4; constructor; [lia | constructor]|].
  unfold allowance_from, allowance. cbn.
  destruct (refilled_ok (at_ms op) (token_buckets st0 !! s)) as [[[_ Ht2] _] Hlate].
  { intros b Hb'. destruct (bucket_inv _ _ _ I0 Hb'). split; lia. }
  apply Z.add_le_mono; [done|]. unfold ceil_div, token_refill_ms in *. apply Z.div_le_mono; lia.
Qed.

(** A source is given scratch exactly when its fragment belongs to the current or
    the previous cookie bucket, no scratch that is still awake has its key or its source,
    fewer than eight are awake, and a token is left once the bucket is brought up to
    date. *)
Theorem admission_exact bucket before op ts counts st e st' :
  Forall index_ok (before ++ [op]) -> reset_before op = false ->
  run_operations bucket before zero_counts (reset_state "") = Ok (ts, counts, st) ->
  perform bucket op st = Ok (e, st') ->
  (result e = "FRAGMENT_ACCEPTED_ALLOCATED"%string <->
   op_kind op = RECEIVE_FRAGMENT /\ (cookie_bucket op = bucket \/ cookie_bucket op = bucket - 1) /\
   awake (at_ms op) (owners st) !! key_of op = None /\
   1 <= tokens (refilled (at_ms op) (token_buckets st !! source_locator op)) /\
   (forall k, is_Some (awake (at_ms op) (owners st) !! k) -> key_source k <> source_locator op) /\
   Z.of_nat (size (awake (at_ms op) (owners st))) < global_limit).
Proof.
  intros [Hb Hop]%Forall_app Hr E Ep. destruct (reset_known "") as [I Hk].
  destruct (run_spec bucket before zero_counts (reset_state "") I Hb Hk) as [_ H2]. destruct (H2 _ _ _ E) as (_ & _ & _ & I0 & _).
  apply Forall_cons in Hop as [Hop _]. destruct (perform_spec bucket op st I0 Hop) as [P1 P2].
  assert (Ee : entered op st = st) by (unfold entered; by rewrite Hr). rewrite Ee in P1, P2.
  destruct (decide (in_order op st)) as [Ho|Ho]; [|rewrite (P2 Ho) in Ep; discriminate Ep].
  destruct (P1 Ho) as (e1 & st1 & E1 & P). rewrite E1 in Ep. injection Ep as <- <-. by apply P.
Qed.

(** Nothing is held for ever: nine seconds after the last operation of a scenario a
    tick finds no scratch left, and every scratch ever allocated in it has been
    released. *)
Theorem preauth_drains bucket ops ts counts st quiet :
  Forall index_ok ops -> Forall (fun op => reset_before op = false) (drop 1 ops) -> ops <> [] ->
  run_operations bucket ops zero_counts (reset_state "") = Ok (ts, counts, st) ->
  op_kind quiet = TICK -> reset_before quiet = false -> scenario quiet = current_scenario st -> last_now st + idle_timeout_ms <= at_ms quiet ->
  exists e st', perform bucket quiet st = Ok (e, st') /\ owners st' = ∅ /\ e_active e = 0 /\ e_releases e = all_allocations ts.
Proof.
  intros Hix Hres Hne E Hq Hqr Hqs Hqt. destruct (reset_known "") as [I Hk]. destruct ops as [|op ops]; [destruct Hne; reflexivity|]. cbn [drop] in Hres. clear Hne.
  apply Forall_cons in Hix as [Hop Hops].
  destruct (decide (in_order op (entered op (reset_state "")))) as [Ho|Ho];
    [|cbn [run_operations] in E; rewrite (proj2 (perform_spec bucket op _ I Hop) Ho) in E; discriminate E].
  destruct (run_step bucket op ops zero_counts (reset_state "") I Hop Hk Ho) as (e & st1 & c1 & P & Hc1 & Er). rewrite Er in E. clear Er.
  destruct (run_operations bucket ops c1 st1) as [[[ts1 c2] st2]|] eqn:E2; [|discriminate E]. injection E as <- <- <-.
  set (until := foldr Z.max 0 (map at_ms ops)).
  assert (Hw : windowed until ops).
  { apply Forall_and; split; [done|]. unfold until. clear. induction ops as [|o ops IH]; cbn; [constructor|].
    constructor; [lia|]. eapply Forall_impl; [exact IH|]. cbn. lia. }
  destruct (run_flow bucket ops c1 st1 ts1 c2 st2 until (pf_inv _ _ _ _ _ P) Hops Hc1 Hw E2) as [Hflow _].
  destruct (run_spec bucket ops c1 st1 (pf_inv _ _ _ _ _ P) Hops Hc1) as [_ H3]. destruct (H3 _ _ _ E2) as (_ & _ & _ & I2 & _).
  assert (Hqi : index_ok quiet) by (intros H; congruence).
  destruct (perform_spec bucket quiet st2 I2 Hqi) as [P1 _]. unfold entered in P1. rewrite Hqr in P1.
  destruct P1 as (e2 & st3 & E3 & P3); [split; [done|]; unfold idle_timeout_ms in Hqt; lia|].
  exists e2, st3. split; [done|].
  assert (Ho3 : owners st3 = ∅).
  { rewrite (pf_tick _ _ _ _ _ P3 Hq). apply map_empty. intros k. apply eq_None_not_Some. intros [s Hs].
    apply awake_lookup in Hs as [Hs Ha]. destruct (inv_scratch st2 I2 k s Hs) as [_ ?]. lia. }
  split; [done|]. destruct (pf_state _ _ _ _ _ P3) as [-> ->].
  assert (Ha : allocated (result e2) = 0).
  { unfold allocated. destruct (String.eqb_spec (result e2) "FRAGMENT_ACCEPTED_ALLOCATED") as [Hr|]; [|done].
    apply (pf_admission _ _ _ _ _ P3) in Hr as [Hr _]. congruence. }
  pose proof (pf_flow _ _ _ _ _ P3) as F3. pose proof (pf_flow _ _ _ _ _ P) as F1.
  assert (F0 : release_count (entered op (reset_state "")) + active_scratch_count (entered op (reset_state "")) = 0)
    by (unfold entered; destruct (reset_before op); done).
  unfold active_scratch_count in *. rewrite Ho3, map_size_empty in *. cbn [all_allocations]. split; [done | lia].
Qed.

(** ** The model on concrete inputs *)

#[local] Transparent zero_counts.

Definition sample_inputs : preauth_inputs := {|
  source_locator_digest := pattern 5 32; in_session := pattern 1 16; in_generation := 9; in_sequence := 0; complete_record_bytes := 184;
  in_digest16 := pattern 17 16; current_bucket := 1000; fragment_payloads := (pattern 3 124, pattern 4 60) |}.

(** The operations of the code reach every branch it requires. *)
Example sample_model : is_ok (build_preauth_owner_model sample_inputs) = true.
Proof. vm_compute. reflexivity. Qed.

Lemma receive_index x name at_ms label sequence bucket index variant reset :
  index = 0 \/ index = 1 -> index_ok (receive x name at_ms label sequence bucket index variant reset).
Proof. intros H _. exact H. Qed.

Lemma tick_index name at_ms reset : index_ok (tick name at_ms reset).
Proof. intros H. discriminate H. Qed.

Ltac solve_index :=
  repeat (apply Forall_cons_2; [first [apply tick_index | apply receive_index; (left; reflexivity) || (right; reflexivity)]|]);
  apply Forall_nil_2.

Lemma operations_index x : Forall index_ok (operations x).
Proof.
  unfold operations. cbv zeta. apply Forall_app. split; [solve_index|]. apply Forall_app. split; [|solve_index].
  apply Forall_map, Forall_forall. intros i _ _. by left.
Qed.

(** A scenario in which one source sends again and again: two scratches at once, and a
    third two seconds later. *)
Definition flood : list operation :=
  let x := sample_inputs in
  [receive x "FLOOD" 0 "A" 1 1000 0 "F0" true; receive x "FLOOD" 10 "A" 1 1000 1 "F1" false; receive x "FLOOD" 20 "A" 2 1000 0 "F0" false;
   receive x "FLOOD" 30 "A" 2 1000 1 "F1" false; receive x "FLOOD" 40 "A" 3 1000 0 "F0" false; receive x "FLOOD" 2500 "A" 3 1000 0 "F0" false].

Definition flood_run : list (operation * expected) * gmap string Z * preauth :=
  ok_or ([], ∅, reset_state "") (run_operations 1000 flood zero_counts (reset_state "")).

Lemma flood_index : Forall index_ok flood.
Proof. unfold flood. cbv zeta. solve_index. Qed.

Lemma flood_runs : run_operations 1000 flood zero_counts (reset_state "") = Ok (flood_run.1.1, flood_run.1.2, flood_run.2).
Proof. rewrite <- !surjective_pairing. apply ok_or_Ok. vm_compute. reflexivity. Qed.

Example flood_verdicts : map result flood_run.1.1.*2 =
  ["FRAGMENT_ACCEPTED_ALLOCATED"; "COMPLETE_RELEASED"; "FRAGMENT_ACCEPTED_ALLOCATED"; "COMPLETE_RELEASED"; "TOKEN_BUCKET_DENY";
   "FRAGMENT_ACCEPTED_ALLOCATED"]%string.
Proof. vm_compute. reflexivity. Qed.

Lemma preauth_bounded_witness : is_ok (run_operations 1000 flood zero_counts (reset_state "")) = true.
Proof. apply (proj1 (preauth_bounded 1000 flood flood_index)). vm_compute. split_and!; (reflexivity || discriminate || exact I). Defined.

Lemma preauth_rate_limited_witness :
  allocations (source sample_inputs "A") (drop 1 flood_run.1.1) <= token_capacity + ceil_div (2500 - 10) token_refill_ms.
Proof.
  apply (preauth_rate_limited 1000 (take 1 flood) (drop 1 flood) 10 2500 flood_run.1.1 flood_run.1.2 flood_run.2).
  - rewrite take_drop. exact flood_index.
  - rewrite take_drop. exact flood_runs.
  - repeat (apply Forall_cons_2; [split; [reflexivity|]; vm_compute; split; discriminate|]). apply Forall_nil_2.
  - lia.
Defined.

Definition flood_next : operation := receive sample_inputs "FLOOD" 2600 "B" 7 999 0 "F0" false.

Definition flood_next_result : expected * preauth :=
  ok_or (report flood_next "" [] 0 flood_run.2, flood_run.2) (perform 1000 flood_next flood_run.2).

Lemma flood_next_runs : perform 1000 flood_next flood_run.2 = Ok (flood_next_result.1, flood_next_result.2).
Proof. rewrite <- surjective_pairing. apply ok_or_Ok. vm_compute. reflexivity. Qed.

Lemma admission_exact_witness :
  awake 2600 (owners flood_run.2) !! key_of flood_next = None /\
  1 <= tokens (refilled 2600 (token_buckets flood_run.2 !! source_locator flood_next)).
Proof.
  assert (H : result flood_next_result.1 = "FRAGMENT_ACCEPTED_ALLOCATED"%string) by (vm_compute; reflexivity).
  apply (admission_exact 1000 flood flood_next flood_run.1.1 flood_run.1.2 flood_run.2 flood_next_result.1 flood_next_result.2) in H.
  - destruct H as (_ & _ & H1 & H2 & _). exact (conj H1 H2).
  - apply Forall_app. split; [exact flood_index|]. constructor; [|constructor]. intros _. by left.
  - reflexivity.
  - exact flood_runs.
  - exact flood_next_runs.
Defined.

Lemma preauth_drains_witness : exists e st', perform 1000 (tick "FLOOD" 11500 false) flood_run.2 = Ok (e, st') /\ owners st' = ∅ /\
  e_active e = 0 /\ e_releases e = all_allocations flood_run.1.1.
Proof.
  apply (preauth_drains 1000 flood flood_run.1.1 flood_run.1.2).
  - exact flood_index.
  - repeat (apply Forall_cons_2; [reflexivity|]). apply Forall_nil_2.
  - discriminate.
  - exact flood_runs.
  - reflexivity.
  - reflexivity.
  - vm_compute. reflexivity.
  - vm_compute. discriminate.
Defined.
