(* ===== verification/CrossPeer.v ===== *)
(** The peers of a durable row: the keys and envelopes of the domain store, the readers of
    the row bodies, and the rule that rebuilds, from one row alone, the key of the row it
    must be linked to ([tools/domain_scan_crossrow_vector_gen.py]). *)

From S2P Require Import Prelude Bytes Crc Sha256 Join DomainScan.

Definition PVD_OFF : Z := 72.
Definition HEADER_SUBTYPE_OFF : Z := 14.

(** ** Envelopes *)

Definition value_digest (complete_value : bytes) : bytes := sha256 complete_value.

(** The envelope before its checksum. *)
Definition env_parts (rtype st flags rev : Z) (primary_id head pvd body : bytes) : list (res bytes) :=
  [Ok (bytes_of_string "NLR1"); u16 rtype; u16 1; u32 (96 + len body); u16 1; Ok [Z.land st 255; Z.land flags 255]; u64 rev;
   Ok primary_id; Ok head; Ok pvd; u32 (len body); Ok body].

Definition enc_env_full (rtype st flags rev : Z) (primary_id head pvd body : bytes) : res bytes :=
  raise_if (negb ((len primary_id =? 16) && (len head =? 32) && (len pvd =? 32))) (AssertionError "");;
  out ← join (env_parts rtype st flags rev primary_id head pvd body);
  c ← u32 (crc32c out);
  mret (out ++ c).

Definition header_pvd (complete_value : bytes) : bytes :=
  if len complete_value <? PVD_OFF + 32 then [] else slice PVD_OFF (PVD_OFF + 32) complete_value.

Inductive value_framing := current_framing | future_framing | corrupt_framing.
#[export] Instance value_framing_eq_dec : EqDecision value_framing.
Proof. solve_decision. Defined.

Definition domain_value_framing (complete_value : bytes) : value_framing :=
  let n := len complete_value in
  if (n <? 16) || negb (bool_decide (slice 0 4 complete_value = bytes_of_string "NLR1")) then corrupt_framing
  else
    let rtype := be_val (slice 4 6 complete_value) in
    let rver := be_val (slice 6 8 complete_value) in
    let plen := be_val (slice 8 12 complete_value) in
    if (VALUE_CAP <? plen) || negb (n =? 12 + plen + 4) then corrupt_framing
    else if negb (be_val (slice (n - 4) n complete_value) =? crc32c (slice 0 (n - 4) complete_value)) then corrupt_framing
    else if negb (rtype =? 6) then corrupt_framing
    else if 2 <=? rver then future_framing
    else if negb (rver =? 1) then corrupt_framing
    else if n <? 112 then corrupt_framing
    else current_framing.

Definition patch_pvd (complete_value pvd : bytes) : res bytes :=
  raise_if (negb (len pvd =? 32)) (ValueError "pvd must be 32 bytes");;
  raise_if (len complete_value <? PVD_OFF + 32 + 4) (ValueError "value too short for PVD patch");;
  let b := slice_assign PVD_OFF (PVD_OFF + 32) pvd complete_value in
  let body := slice 0 (len b - 4) b in
  c ← u32 (crc32c body);
  mret (slice_assign (len b - 4) (len b) c b).

(** ** Keys *)

Definition composite (subtype : Z) (components : bytes) : bytes :=
  sha256 (bytes_of_string "NINLIL-DOMAIN-KEY-V1" ++ [Z.land subtype 255] ++ components).

Definition bkey (fam st kind : Z) (ident : bytes) : res bytes :=
  h ← bytes_of [Z.land fam 255; Z.land st 255; 1; Z.land kind 255; len ident];
  mret (ROOT_V1 ++ h ++ ident).

Definition raw16 (c : bytes) : res bytes :=
  raise_if (255 <? len c) (ValueError "raw16 contents > 255");;
  n ← u16 (len c);
  mret (n ++ c).

(** The subtypes of family 6. *)
Definition ST_SERVICE : Z := 0x10.
Definition ST_QUOTA : Z := 0x11.
Definition ST_ANCHOR : Z := 0x20.
Definition ST_SEQ : Z := 0x21.
Definition ST_STATE : Z := 0x22.
Definition ST_RES : Z := 0x23.
Definition ST_IDEM : Z := 0x24.
Definition ST_EVMAP : Z := 0x25.
Definition ST_SCHED : Z := 0x26.
Definition ST_INGRESS : Z := 0x27.
Definition ST_ATTEMPT : Z := 0x31.
Definition ST_EVIDENCE : Z := 0x32.
Definition ST_CANCEL : Z := 0x33.
Definition ST_AII : Z := 0x34.
Definition ST_DELIVERY : Z := 0x40.
Definition ST_RC : Z := 0x41.
Definition ST_RR : Z := 0x42.
Definition ST_ES : Z := 0x50.
Definition ST_RETRY : Z := 0x51.
Definition ST_MGMT : Z := 0x52.
Definition ST_RB : Z := 0x61.
Definition ST_CP : Z := 0x63.

Definition BIND_EXISTING_TX : Z := 1.
Definition BIND_EXISTING_DLV : Z := 2.
Definition BIND_NEW_DELIVERY : Z := 3.
Definition RC_ST_STARTED : Z := 2.
Definition RC_ST_RESULT : Z := 4.
Definition RC_ST_DISP : Z := 5.
Definition RC_ST_CANCEL : Z := 8.
Definition TS_ACTIVE : Z := 2.
Definition TX_TERMINAL : Z := 5.
Definition PARTY_LEN : Z := 100.
Definition TARGET_LEN : Z := 100.

Definition key_digest (complete_key : bytes) : bytes := sha256 (bytes_of_string "NINLIL-DOMAIN-ENCODED-KEY-V1" ++ complete_key).

(** [None] when the key is not a typed domain key; else family, subtype, kind, identity. *)
Definition parse_domain_key (key : bytes) : option (Z * Z * Z * bytes) :=
  if (len key <? 13) || negb (bool_decide (slice 0 8 key = ROOT_V1)) then None
  else if negb (byte_at 10 key =? 1) || negb (len key =? 13 + byte_at 12 key) then None
  else Some (byte_at 8 key, byte_at 9 key, byte_at 11 key, slice_from 13 key).

Definition k_composite (subtype : Z) (components : bytes) : res bytes := bkey 6 subtype 5 (composite subtype components).
Definition k_id128 (subtype : Z) (ident16 : bytes) : res bytes :=
  raise_if (negb (len ident16 =? 16)) (AssertionError "");; bkey 6 subtype 2 ident16.
Definition k_u64 (subtype : Z) (ident8 : bytes) : res bytes :=
  raise_if (negb (len ident8 =? 8)) (AssertionError "");; bkey 6 subtype 3 ident8.

Definition complete_key_digest_composite (subtype : Z) (components : bytes) : res bytes :=
  k ← k_composite subtype components; mret (key_digest k).
Definition complete_key_digest_id128 (subtype : Z) (identity16 : bytes) : res bytes :=
  k ← k_id128 subtype identity16; mret (key_digest k).
Definition complete_key_digest_u64 (subtype : Z) (identity8 : bytes) : res bytes :=
  k ← k_u64 subtype identity8; mret (key_digest k).

Definition scheduler_primary_key_digest (owner_kind : Z) (subject : bytes) : res bytes :=
  if owner_kind =? 1 then complete_key_digest_id128 ST_ANCHOR subject
  else if owner_kind =? 2 then r ← raw16 subject; complete_key_digest_composite ST_DELIVERY r
  else if owner_kind =? 3 then complete_key_digest_u64 ST_INGRESS subject
  else Raise (ValueError "bad scheduler owner_kind").

Definition scheduler_primary_id (owner_kind : Z) (subject : bytes) : res bytes :=
  if owner_kind =? 1 then Ok subject
  else if owner_kind =? 2 then r ← raw16 subject; mret (slice 0 16 (composite ST_DELIVERY r))
  else if owner_kind =? 3 then Ok (zeros 8 ++ slice 0 8 subject)
  else Raise (ValueError "bad scheduler owner_kind").

(** ** Readers of row bodies *)

(** A length and its bytes at an offset, with the offset behind them. *)
Definition parse_raw16_at (buf : bytes) (off : Z) : res (bytes * Z) :=
  raise_if (len buf <? off + 2) (ValueError "raw16 truncated header");;
  let ln := be_val (slice off (off + 2) buf) in
  let stop := off + 2 + ln in
  raise_if (len buf <? stop) (ValueError "raw16 truncated body");;
  mret (slice (off + 2) stop buf, stop).

Definition skip_text_id (buf : bytes) (off : Z) : res Z :=
  raise_if (len buf <=? off) (ValueError "text_id truncated");; mret (off + 1 + byte_at off buf).

Definition skip_service_identity (buf : bytes) (off : Z) : res Z :=
  off ← skip_text_id buf off; off ← skip_text_id buf off; off ← skip_text_id buf off;
  mret (off + 8 + 32 + 2 + 2 + 4).

Definition service_identity_family (buf : bytes) (off : Z) : res Z :=
  o ← skip_text_id buf off; o ← skip_text_id buf o; o ← skip_text_id buf o;
  let o := o + (8 + 32 + 2 + 2) in
  mret (be_val (slice o (o + 4) buf)).

(** Subtype, body and primary digest of a complete value. *)
Definition extract_envelope (complete_value : bytes) : res (Z * bytes * bytes) :=
  raise_if ((len complete_value <? 112) || negb (bool_decide (slice 0 4 complete_value = bytes_of_string "NLR1")))
    (ValueError "not NLR1 envelope");;
  let st := byte_at HEADER_SUBTYPE_OFF complete_value in
  let body_len := be_val (slice 104 108 complete_value) in
  let body := slice 108 (108 + body_len) complete_value in
  raise_if (negb (len body =? body_len)) (ValueError "body length mismatch");;
  mret (st, body, slice PVD_OFF (PVD_OFF + 32) complete_value).

Record anchor := { a_txn : bytes; a_txn_seq : Z; a_family : Z; a_event_id : bytes; a_scope : bytes; a_ikey : bytes; a_sched_seq : Z }.

Definition parse_anchor (body : bytes) : res anchor :=
  o ← skip_service_identity body (36 + PARTY_LEN);
  let o := o + 32 + 32 in
  let event_id := slice o (o + 16) body in
  let o := o + 16 + 8 + (16 + 8 + 16 + 8 + 8) + (4 + 4) + TARGET_LEN in
  '(scope, o) ← parse_raw16_at body o;
  '(ikey, o) ← parse_raw16_at body o;
  let o := o + 32 * 4 in
  mret {| a_txn := slice 0 16 body; a_txn_seq := be_val (slice 16 24 body); a_family := be_val (slice 32 36 body);
          a_event_id := event_id; a_scope := scope; a_ikey := ikey; a_sched_seq := be_val (slice o (o + 8) body) |}.

Definition parse_service (body : bytes) : res bytes := p ← parse_raw16_at body 0; mret p.1.

Record delivery := { d_raw : bytes; d_creation : Z; d_sched_seq : Z; d_txn : bytes; d_event_id : bytes; d_family : Z }.

Definition parse_delivery (body : bytes) : res delivery :=
  '(draw, o) ← parse_raw16_at body 0;
  let creation := be_val (slice o (o + 2) body) in
  let o := o + 2 + 2 in
  let sched_seq := be_val (slice o (o + 8) body) in
  let o := o + 8 in
  let txn := slice o (o + 16) body in
  let o := o + 16 in
  let event_id := slice o (o + 16) body in
  fam ← service_identity_family body (o + 16 + PARTY_LEN + TARGET_LEN);
  mret {| d_raw := draw; d_creation := creation; d_sched_seq := sched_seq; d_txn := txn; d_event_id := event_id; d_family := fam |}.

Record ingress := {
  i_ordered_seq : bytes; i_owner_seq : Z; i_binding : Z; i_txn : bytes; i_src_runtime : bytes; i_src_application : bytes;
  i_tgt_runtime : bytes; i_tgt_application : bytes }.

Definition parse_ingress (body : bytes) : res ingress :=
  raise_if (len body <? 76 + PARTY_LEN + TARGET_LEN) (ValueError "ORDERED_INGRESS body too short for party/target");;
  let tgt_off := 76 + PARTY_LEN in
  mret {| i_ordered_seq := slice 0 8 body; i_owner_seq := be_val (slice 8 16 body); i_binding := be_val (slice 16 18 body);
          i_txn := slice 28 44 body; i_src_runtime := slice 76 92 body; i_src_application := slice 92 108 body;
          i_tgt_runtime := slice (tgt_off + 4) (tgt_off + 20) body; i_tgt_application := slice (tgt_off + 20) (tgt_off + 36) body |}.

Definition compose_delivery_raw_from_ingress (ing : ingress) : res bytes :=
  let draw := i_src_runtime ing ++ i_src_application ing ++ i_txn ing ++ i_tgt_runtime ing ++ i_tgt_application ing in
  raise_if (negb (len draw =? 80)) (ValueError "composed delivery_raw length");; mret draw.

(** An owner kind and the bytes that name the owner. *)
Record owner_ref := { o_kind : Z; o_raw : bytes }.

Definition parse_reservation (body : bytes) : res owner_ref :=
  p ← parse_raw16_at body 4; mret {| o_kind := be_val (slice 0 2 body); o_raw := p.1 |}.

Record sched := { s_owner_seq : Z; s_owner_kind : Z; s_subject : bytes }.

Definition parse_sched (body : bytes) : res sched :=
  p ← parse_raw16_at body 12;
  mret {| s_owner_seq := be_val (slice 0 8 body); s_owner_kind := be_val (slice 8 10 body); s_subject := p.1 |}.

Record idem := { im_scope : bytes; im_ikey : bytes; im_txn : bytes }.

Definition parse_idem (body : bytes) : res idem :=
  '(scope, o) ← parse_raw16_at body 0;
  '(ikey, o) ← parse_raw16_at body o;
  mret {| im_scope := scope; im_ikey := ikey; im_txn := slice o (o + 16) body |}.

Record rcache := { rc_raw : bytes; rc_txn : bytes; rc_n : Z; rc_state : Z; rc_token_gen : Z; rc_token_state : Z }.

Definition parse_rc (body : bytes) : res rcache :=
  '(draw, o) ← parse_raw16_at body 0;
  let o := o + 32 in
  let txn := slice o (o + 16) body in
  let o := o + 16 in
  let n := be_val (slice o (o + 8) body) in
  let o := o + 8 + (4 + 4) in
  let st := be_val (slice o (o + 4) body) in
  let o := o + 4 + 4 + 16 in
  let token_gen := be_val (slice o (o + 8) body) in
  let o := o + 8 + (16 + 8 + 16 + 8 + 8 + 8 + 8 + 8 + 16 + 8 + 4 + 4 + 4 + 4 + 4 + 4 + 8 + 32) in
  mret {| rc_raw := draw; rc_txn := txn; rc_n := n; rc_state := st; rc_token_gen := token_gen;
          rc_token_state := be_val (slice o (o + 4) body) |}.

Record attempt := { at_id : bytes; at_owner_kind : Z; at_owner_raw : bytes }.

Definition parse_attempt (body : bytes) : res attempt :=
  p ← parse_raw16_at body 20;
  mret {| at_id := slice 0 16 body; at_owner_kind := be_val (slice 16 18 body); at_owner_raw := p.1 |}.

(** Attempt and transaction. *)
Definition parse_aii (body : bytes) : bytes * bytes := (slice 0 16 body, slice 16 32 body).
Definition parse_cancel (body : bytes) : res owner_ref :=
  p ← parse_raw16_at body 4; mret {| o_kind := be_val (slice 0 2 body); o_raw := p.1 |}.
Definition parse_evidence (body : bytes) : res owner_ref :=
  p ← parse_raw16_at body 4; mret {| o_kind := be_val (slice 0 2 body); o_raw := p.1 |}.
Definition parse_rb (body : bytes) : res owner_ref :=
  p ← parse_raw16_at body 4; mret {| o_kind := be_val (slice 0 2 body); o_raw := p.1 |}.

Record cleanup_plan := {
  cp_kind : Z; cp_subject : bytes; cp_key_digest : bytes; cp_value_digest : bytes; cp_value_digest_off : Z }.

Definition parse_cp (body : bytes) : res cleanup_plan :=
  '(subject, o) ← parse_raw16_at body 4;
  raise_if (len body <? o + 64) (ValueError "CLEANUP_PLAN body too short for digests");;
  mret {| cp_kind := be_val (slice 0 2 body); cp_subject := subject; cp_key_digest := slice o (o + 32) body;
          cp_value_digest := slice (o + 32) (o + 64) body; cp_value_digest_off := o + 32 |}.

Definition parse_rr (body : bytes) : res bytes :=
  '(_, o) ← parse_raw16_at body 0; p ← parse_raw16_at body o; mret p.1.

(** Transaction and state. *)
Definition parse_state (body : bytes) : bytes * Z := (slice 0 16 body, be_val (slice 48 52 body)).
(** Sequence number and transaction. *)
Definition parse_seq (body : bytes) : Z * bytes := (be_val (slice 0 8 body), slice 8 24 body).

(** Scope, event and transaction. *)
Definition parse_evmap (body : bytes) : res (bytes * bytes * bytes) :=
  '(scope, o) ← parse_raw16_at body 0; mret (scope, slice o (o + 16) body, slice (o + 16) (o + 32) body).

Definition parse_quota (body : bytes) : res bytes := p ← parse_raw16_at body 0; mret p.1.
Definition parse_es (body : bytes) : bytes := slice 0 16 body.
Definition parse_retry (body : bytes) : bytes := slice 0 16 body.
Definition parse_mgmt (body : bytes) : bytes := slice 28 44 body.

(** ** What a row says of its peer *)

Inductive presence := PRESENT | ABSENT.
#[export] Instance presence_eq_dec : EqDecision presence.
Proof. solve_decision. Defined.

Record PeerEval := {
  peer_key : bytes; expect_presence : presence; check_pvd : bool; skip_pvd : bool; dual_raw : option bytes; dual_raw2 : option bytes;
  owner_kind : option Z; subject_raw : option bytes; raw_bijection : bool; mode18_pair : bool }.

(** The constructor's defaults, and the keyword arguments it is called with.  The
    [note] is a comment for the reader of a report. *)
Definition peer_eval (key : bytes) : PeerEval :=
  {| peer_key := key; expect_presence := PRESENT; check_pvd := true; skip_pvd := false; dual_raw := None; dual_raw2 := None;
     owner_kind := None; subject_raw := None; raw_bijection := false; mode18_pair := false |}.
Definition absent (e : PeerEval) : PeerEval :=
  {| peer_key := peer_key e; expect_presence := ABSENT; check_pvd := false; skip_pvd := skip_pvd e; dual_raw := dual_raw e;
     dual_raw2 := dual_raw2 e; owner_kind := owner_kind e; subject_raw := subject_raw e; raw_bijection := raw_bijection e;
     mode18_pair := mode18_pair e |}.
Definition unchecked (e : PeerEval) : PeerEval :=
  {| peer_key := peer_key e; expect_presence := expect_presence e; check_pvd := false; skip_pvd := true; dual_raw := dual_raw e;
     dual_raw2 := dual_raw2 e; owner_kind := owner_kind e; subject_raw := subject_raw e; raw_bijection := raw_bijection e;
     mode18_pair := mode18_pair e |}.
Definition with_subject (raw : bytes) (e : PeerEval) : PeerEval :=
  {| peer_key := peer_key e; expect_presence := expect_presence e; check_pvd := check_pvd e; skip_pvd := skip_pvd e;
     dual_raw := dual_raw e; dual_raw2 := dual_raw2 e; owner_kind := owner_kind e; subject_raw := Some raw; raw_bijection := true;
     mode18_pair := mode18_pair e |}.
Definition with_owner (kind : Z) (raw : bytes) (e : PeerEval) : PeerEval :=
  {| peer_key := peer_key e; expect_presence := expect_presence e; check_pvd := check_pvd e; skip_pvd := skip_pvd e;
     dual_raw := dual_raw e; dual_raw2 := dual_raw2 e; owner_kind := Some kind; subject_raw := Some raw; raw_bijection := true;
     mode18_pair := mode18_pair e |}.
Definition with_dual (raw : bytes) (raw2 : option bytes) (e : PeerEval) : PeerEval :=
  {| peer_key := peer_key e; expect_presence := expect_presence e; check_pvd := check_pvd e; skip_pvd := skip_pvd e;
     dual_raw := Some raw; dual_raw2 := raw2; owner_kind := owner_kind e; subject_raw := subject_raw e; raw_bijection := true;
     mode18_pair := mode18_pair e |}.
Definition paired (e : PeerEval) : PeerEval :=
  {| peer_key := peer_key e; expect_presence := expect_presence e; check_pvd := check_pvd e; skip_pvd := skip_pvd e;
     dual_raw := dual_raw e; dual_raw2 := dual_raw2 e; owner_kind := owner_kind e; subject_raw := subject_raw e;
     raw_bijection := raw_bijection e; mode18_pair := true |}.

(** ** Rebuilding the peer *)

Definition peer (key : res bytes) (f : PeerEval -> PeerEval) : res (option PeerEval) := k ← key; mret (Some (f (peer_eval k))).
Definition keep (e : PeerEval) : PeerEval := e.
Definition not_applicable : res (option PeerEval) := Ok None.

(** The key of a composite row over two or three parts. *)
Definition k_of (subtype : Z) (parts : list (res bytes)) : res bytes := m ← join parts; k_composite subtype m.

(** An owner named by a transaction or by a delivery. *)
Definition owner_key (tx dlv : Z) (kind : Z) (raw : bytes) (bad : exn) : res bytes :=
  if kind =? tx then k_id128 ST_ANCHOR raw
  else if kind =? dlv then k_of ST_DELIVERY [raw16 raw]
  else Raise bad.

(** Modes 1 and 2. *)
Definition rebuild_service (mode : Z) (body : bytes) : res (option PeerEval) :=
  sk ← parse_service body;
  if mode =? 1 then peer (k_of ST_QUOTA [raw16 sk]) keep else peer (k_of ST_RES [u16 1; raw16 sk]) keep.

(** Modes 3 to 10. *)
Definition rebuild_anchor (mode : Z) (body : bytes) : res (option PeerEval) :=
  a ← parse_anchor body;
  if mode =? 3 then peer (n ← u64 (a_txn_seq a); k_u64 ST_SEQ n) keep
  else if mode =? 4 then peer (k_id128 ST_STATE (a_txn a)) keep
  else if mode =? 5 then peer (k_of ST_IDEM [raw16 (a_scope a); raw16 (a_ikey a)]) (with_dual (a_scope a) (Some (a_ikey a)))
  else if mode =? 6 then peer (k_of ST_RES [u16 2; raw16 (a_txn a)]) keep
  else if mode =? 7 then peer (n ← u64 (a_sched_seq a); k_u64 ST_SCHED n) (with_owner 1 (a_txn a))
  else if mode =? 8 then
    peer (k_of ST_EVMAP [raw16 (a_scope a); Ok (a_event_id a)]) (if a_family a =? 1 then keep else absent)
  else if mode =? 9 then peer (k_id128 ST_ES (a_txn a)) (if a_family a =? 1 then keep else absent)
  else peer (k_of ST_CANCEL [u16 1; raw16 (a_txn a)]) (if a_family a =? 2 then keep else absent).

(** Modes 11 to 14. *)
Definition rebuild_delivery (mode : Z) (body : bytes) : res (option PeerEval) :=
  d ← parse_delivery body;
  if mode =? 11 then peer (k_of ST_RC [raw16 (d_raw d)]) keep
  else if mode =? 12 then peer (k_of ST_RES [u16 4; raw16 (d_raw d)]) keep
  else if mode =? 13 then peer (n ← u64 (d_sched_seq d); k_u64 ST_SCHED n) (with_owner 2 (d_raw d))
  else peer (k_of ST_CANCEL [u16 2; raw16 (d_raw d)]) (if d_family d =? 2 then keep else absent).

(** Modes 15 and 16. *)
Definition rebuild_ingress (mode : Z) (body : bytes) : res (option PeerEval) :=
  ing ← parse_ingress body;
  if mode =? 15 then peer (k_of ST_RES [u16 3; raw16 (i_ordered_seq ing)]) keep
  else
    key ← (n ← u64 (i_owner_seq ing); k_u64 ST_SCHED n);
    if i_binding ing =? BIND_NEW_DELIVERY then peer (Ok key) (with_owner 3 (i_ordered_seq ing))
    else if i_binding ing =? BIND_EXISTING_TX then peer (Ok key) (fun e => unchecked (with_owner 1 (i_txn ing) e))
    else if i_binding ing =? BIND_EXISTING_DLV then
      draw ← compose_delivery_raw_from_ingress ing; peer (Ok key) (fun e => unchecked (with_owner 2 draw e))
    else Raise (ValueError "Mode16 unknown owner_binding_kind").

(** Mode 17: from a secondary row back to its primary. *)
Definition _rebuild_mode17 (st : Z) (body : bytes) : res (option PeerEval) :=
  let to_anchor (txn : bytes) := peer (k_id128 ST_ANCHOR txn) (with_subject txn) in
  let to_delivery (draw : bytes) := peer (k_of ST_DELIVERY [raw16 draw]) (with_subject draw) in
  if st =? ST_QUOTA then sk ← parse_quota body; peer (k_of ST_SERVICE [raw16 sk]) (with_dual sk None)
  else if st =? ST_RES then
    r ← parse_reservation body;
    let raw := o_raw r in
    peer
      (if o_kind r =? 1 then k_of ST_SERVICE [raw16 raw]
       else if o_kind r =? 2 then k_id128 ST_ANCHOR raw
       else if o_kind r =? 3 then k_u64 ST_INGRESS raw
       else if o_kind r =? 4 then k_of ST_DELIVERY [raw16 raw]
       else if o_kind r =? 5 then
         let dlen := be_val (slice 0 2 raw) in k_of ST_DELIVERY [raw16 (slice 2 (2 + dlen) raw)]
       else Raise (ValueError "M17 RES bad owner_kind"))
      (with_owner (o_kind r) raw)
  else if st =? ST_SEQ then to_anchor (parse_seq body).2
  else if st =? ST_STATE then to_anchor (parse_state body).1
  else if st =? ST_IDEM then
    im ← parse_idem body;
    peer (k_id128 ST_ANCHOR (im_txn im)) (fun e => with_dual (im_scope im) (Some (im_ikey im)) (with_subject (im_txn im) e))
  else if st =? ST_EVMAP then ev ← parse_evmap body; to_anchor ev.2
  else if st =? ST_ES then to_anchor (parse_es body)
  else if st =? ST_RETRY then to_anchor (parse_retry body)
  else if st =? ST_MGMT then to_anchor (parse_mgmt body)
  else if st =? ST_SCHED then
    s ← parse_sched body;
    peer
      (if s_owner_kind s =? 1 then k_id128 ST_ANCHOR (s_subject s)
       else if s_owner_kind s =? 2 then k_of ST_DELIVERY [raw16 (s_subject s)]
       else if s_owner_kind s =? 3 then k_u64 ST_INGRESS (s_subject s)
       else Raise (ValueError "M17 SCHED bad owner_kind"))
      (with_owner (s_owner_kind s) (s_subject s))
  else if st =? ST_ATTEMPT then
    att ← parse_attempt body;
    peer (owner_key 1 2 (at_owner_kind att) (at_owner_raw att) (ValueError "M17 ATTEMPT bad owner_kind"))
      (with_owner (at_owner_kind att) (at_owner_raw att))
  else if st =? ST_AII then to_anchor (parse_aii body).2
  else if st =? ST_CANCEL then
    c ← parse_cancel body;
    peer (owner_key 1 2 (o_kind c) (o_raw c) (ValueError "M17 CANCEL bad owner_kind")) (with_owner (o_kind c) (o_raw c))
  else if st =? ST_EVIDENCE then
    e ← parse_evidence body;
    peer (owner_key 1 2 (o_kind e) (o_raw e) (ValueError "M17 EVIDENCE bad owner_kind")) (with_owner (o_kind e) (o_raw e))
  else if st =? ST_RC then rc ← parse_rc body; to_delivery (rc_raw rc)
  else if st =? ST_RR then draw ← parse_rr body; to_delivery draw
  else if st =? ST_RB then
    rb ← parse_rb body;
    peer (owner_key 2 3 (o_kind rb) (o_raw rb) (ValueError "M17 RB bad kind")) (with_owner (o_kind rb) (o_raw rb))
  else if st =? ST_CP then
    cp ← parse_cp body;
    peer (owner_key 2 3 (cp_kind cp) (cp_subject cp) (ValueError "M17 CP bad kind")) (with_owner (cp_kind cp) (cp_subject cp))
  else not_applicable.

(** Mode 18: an attempt and its index entry. *)
Definition rebuild_pair (st : Z) (body : bytes) : res (option PeerEval) :=
  if st =? ST_ATTEMPT then
    att ← parse_attempt body;
    key ← k_id128 ST_AII (at_id att);
    if at_owner_kind att =? 1 then
      peer (Ok key) (fun e => paired (unchecked (with_owner (at_owner_kind att) (at_owner_raw att ++ at_id att) e)))
    else if at_owner_kind att =? 2 then peer (Ok key) (fun e => unchecked (absent e))
    else not_applicable
  else if st =? ST_AII then
    let '(attempt_id, txn) := parse_aii body in
    peer (k_of ST_ATTEMPT [u16 1; raw16 txn; Ok attempt_id]) (fun e => paired (unchecked (with_subject (txn ++ attempt_id) e)))
  else not_applicable.

(** Mode 19: an active callback and its reservation. *)
Definition rebuild_callback (st : Z) (body : bytes) : res (option PeerEval) :=
  if negb (st =? ST_RC) then not_applicable
  else
    rc ← parse_rc body;
    owner_raw ← join [raw16 (rc_raw rc); u64 (rc_token_gen rc)];
    peer (k_of ST_RES [u16 5; raw16 owner_raw])
      (if (rc_state rc =? RC_ST_STARTED) && (rc_token_state rc =? TS_ACTIVE)
       then fun e => unchecked (with_owner 5 owner_raw e) else fun e => unchecked (absent e)).

(** Mode 20: a terminal state and its retention. *)
Definition rebuild_retention (st : Z) (body : bytes) : res (option PeerEval) :=
  if st =? ST_STATE then
    let '(txn, state) := parse_state body in
    peer (k_of ST_RB [u16 2; raw16 txn])
      (if state =? TX_TERMINAL then fun e => unchecked (with_owner 2 txn e) else fun e => unchecked (absent e))
  else if st =? ST_RC then
    rc ← parse_rc body;
    peer (k_of ST_RB [u16 3; raw16 (rc_raw rc)])
      (if bool_decide (rc_state rc ∈ [RC_ST_RESULT; RC_ST_DISP; RC_ST_CANCEL])
       then fun e => unchecked (with_owner 3 (rc_raw rc) e) else fun e => unchecked (absent e))
  else not_applicable.

(** The peer a body names, by mode and subtype of its key. *)
Definition rebuild_body (mode st : Z) (body : bytes) : res (option PeerEval) :=
  if in_range 1 2 mode then if negb (st =? ST_SERVICE) then not_applicable else rebuild_service mode body
  else if in_range 3 10 mode then if negb (st =? ST_ANCHOR) then not_applicable else rebuild_anchor mode body
  else if in_range 11 14 mode then if negb (st =? ST_DELIVERY) then not_applicable else rebuild_delivery mode body
  else if in_range 15 16 mode then if negb (st =? ST_INGRESS) then not_applicable else rebuild_ingress mode body
  else if mode =? 17 then _rebuild_mode17 st body
  else if mode =? 18 then rebuild_pair st body
  else if mode =? 19 then rebuild_callback st body
  else if mode =? 20 then rebuild_retention st body
  else not_applicable.

Definition rebuild_peer (mode : Z) (source_key source_val : bytes) : res (option PeerEval) :=
  match parse_domain_key source_key with
  | None => not_applicable
  | Some (fam, st, _, _) =>
      if negb (fam =? 6) then not_applicable
      else match extract_envelope source_val with
           | Raise _ => not_applicable
           | Ok (_, body, _) => rebuild_body mode st body
           end
  end.

(** The check of a vector: its peer key must be the rebuilt one. *)
Definition assert_peer_key_rebuildable (mode : Z) (source_key_hex source_value_hex peer_key_hex : string) : res PeerEval :=
  k ← from_hex source_key_hex;
  v ← from_hex source_value_hex;
  ev ← rebuild_peer mode k v;
  match ev with
  | None => Raise (SystemExit "source not applicable for peer rebuild")
  | Some ev =>
      raise_if (negb (String.eqb (hex_of (peer_key ev)) peer_key_hex)) (SystemExit "peer key rebuild mismatch");; mret ev
  end.

(** ** Laws of keys *)

Lemma len_sha256 m : len (sha256 m) = 32.
Proof. apply (raw_sha m). Qed.
#[export] Hint Rewrite len_sha256 : lens.

Lemma bytes_of_Ok l : Forall is_byte l -> bytes_of l = Ok l.
Proof.
  induction 1 as [|b l [H1 H2] _ IH]; [done|]. cbn. unfold pybyte.
  rewrite (proj2 (Z.leb_le 0 b)), (proj2 (Z.ltb_lt b 256)) by lia. cbn. by rewrite IH.
Qed.

Lemma bkey_Ok fam st kind ident :
  is_byte fam -> is_byte st -> is_byte kind -> len ident <= 255 ->
  bkey fam st kind ident = Ok (ROOT_V1 ++ [fam; st; 1; kind; len ident] ++ ident).
Proof.
  intros Hf Hs Hk Hl. pose proof (len_nonneg ident). unfold bkey.
  assert (L : forall b, is_byte b -> Z.land b 255 = b).
  { intros b Hb. change 255 with (Z.ones 8). rewrite Z.land_ones by lia. apply Z.mod_small. exact Hb. }
  rewrite !L by done. rewrite bytes_of_Ok by (repeat (constructor; [unfold is_byte in *; lia|]); constructor). done.
Qed.

(** A key of family 6 whose identity has the kind and length of its subtype. *)
Definition typed_key (st : Z) (key : bytes) : Prop :=
  exists kind ident, subtype_expected_kind 6 st = Some kind /\ identity_kind_len_ok kind (len ident) = true /\
    key = ROOT_V1 ++ [6; st; 1; kind; len ident] ++ ident.

Lemma typed_key_parts st key : typed_key st key -> is_byte st ->
  exists kind ident, parse_domain_key key = Some (6, st, kind, ident) /\ current_key_fields_ok key = true /\
    subtype_expected_kind 6 st = Some kind /\ identity_kind_len_ok kind (len ident) = true.
Proof.
  intros (kind & ident & Hk & Hi & ->) Hst. exists kind, ident. pose proof (len_nonneg ident) as Hn.
  set (key := ROOT_V1 ++ [6; st; 1; kind; len ident] ++ ident).
  assert (Hl : len key = 13 + len ident) by (unfold key; rewrite !len_app; change (len ROOT_V1) with 8; change (len [6; st; 1; kind; len ident]) with 5; lia).
  assert (H8 : slice 0 8 key = ROOT_V1) by (unfold key; by rewrite slice_app_exact).
  assert (Hb : byte_at 8 key = 6 /\ byte_at 9 key = st /\ byte_at 10 key = 1 /\ byte_at 11 key = kind /\ byte_at 12 key = len ident)
    by (unfold key; split_and!; reflexivity).
  destruct Hb as (B8 & B9 & B10 & B11 & B12).
  assert (H45 : len ident <= 32).
  { unfold identity_kind_len_ok in Hi. case_ifs Hi; bool_to_prop; lia. }
  split; [|split; [|done]].
  - unfold parse_domain_key. rewrite (bool_decide_eq_true_2 _ H8), Hl, B8, B9, B10, B11, B12.
    rewrite (proj2 (Z.ltb_ge _ _)) by lia. cbn [orb negb]. by rewrite !Z.eqb_refl.
  - unfold current_key_fields_ok, root_matches. rewrite (bool_decide_eq_true_2 _ H8), Hl.
    rewrite (proj2 (Z.ltb_ge (13 + len ident) 13)), (proj2 (Z.ltb_ge 45 _)) by lia. cbn [orb negb].
    rewrite B8, B9, B10, B11, B12. cbn [Z.eqb Pos.eqb negb]. rewrite Hk, Z.eqb_refl, Hi, Z.eqb_refl. done.
Qed.

(** Subtypes by the kind of identity they have. *)
Definition composite_subtypes : list Z :=
  [ST_SERVICE; ST_QUOTA; ST_RES; ST_IDEM; ST_EVMAP; ST_ATTEMPT; ST_EVIDENCE; ST_CANCEL; ST_DELIVERY; ST_RC; ST_RR; ST_RETRY; ST_MGMT; ST_RB; ST_CP].
Definition id128_subtypes : list Z := [ST_ANCHOR; ST_STATE; ST_AII; ST_ES].
Definition u64_subtypes : list Z := [ST_SEQ; ST_SCHED; ST_INGRESS].

Lemma in_subtypes (P : Z -> bool) l : forallb P l = true -> forall st, st ∈ l -> P st = true.
Proof. intros H st Hst. rewrite forallb_forall in H. apply H. by apply list_elem_of_In. Qed.

Definition has_kind (kind st : Z) : bool := bool_decide (subtype_expected_kind 6 st = Some kind) && in_range 0 255 st.

Lemma has_kind_spec kind st : has_kind kind st = true -> subtype_expected_kind 6 st = Some kind /\ is_byte st.
Proof. unfold has_kind. intros H. bool_to_prop. split; [done|]. apply in_range_spec in H0. unfold is_byte. lia. Qed.

Lemma k_composite_Ok st c : st ∈ composite_subtypes ->
  k_composite st c = Ok (ROOT_V1 ++ [6; st; 1; 5; 32] ++ composite st c) /\ typed_key st (ROOT_V1 ++ [6; st; 1; 5; 32] ++ composite st c).
Proof.
  intros H. apply (in_subtypes (has_kind 5) composite_subtypes eq_refl) in H. apply has_kind_spec in H as [Hk Hb].
  assert (Hl : len (composite st c) = 32) by apply len_sha256. split.
  - unfold k_composite. rewrite bkey_Ok by (unfold is_byte in *; lia). by rewrite Hl.
  - exists 5, (composite st c). by rewrite Hl.
Qed.

Lemma k_id128_Ok st i : st ∈ id128_subtypes -> len i = 16 ->
  k_id128 st i = Ok (ROOT_V1 ++ [6; st; 1; 2; 16] ++ i) /\ typed_key st (ROOT_V1 ++ [6; st; 1; 2; 16] ++ i).
Proof.
  intros H Hl. apply (in_subtypes (has_kind 2) id128_subtypes eq_refl) in H. apply has_kind_spec in H as [Hk Hb]. split.
  - unfold k_id128. rewrite Hl. cbn [Z.eqb Pos.eqb negb raise_if]. rewrite ok_bind. rewrite bkey_Ok by (unfold is_byte in *; lia). by rewrite Hl.
  - exists 2, i. by rewrite Hl.
Qed.

Lemma k_u64_Ok st i : st ∈ u64_subtypes -> len i = 8 ->
  k_u64 st i = Ok (ROOT_V1 ++ [6; st; 1; 3; 8] ++ i) /\ typed_key st (ROOT_V1 ++ [6; st; 1; 3; 8] ++ i).
Proof.
  intros H Hl. apply (in_subtypes (has_kind 3) u64_subtypes eq_refl) in H. apply has_kind_spec in H as [Hk Hb]. split.
  - unfold k_u64. rewrite Hl. cbn [Z.eqb Pos.eqb negb raise_if]. rewrite ok_bind. rewrite bkey_Ok by (unfold is_byte in *; lia). by rewrite Hl.
  - exists 3, i. by rewrite Hl.
Qed.

(** ** What can be rebuilt *)

(** The exceptions the module raises on purpose. *)
Definition refusal (e : exn) : Prop := (exists s, e = ValueError s) \/ (exists s, e = AssertionError s).
Definition refuses {A} (m : res A) : Prop := forall e, m = Raise e -> refusal e.

Lemma refuses_Ok {A} (a : A) : refuses (Ok a).
Proof. by intros e. Qed.
Lemma refuses_raise_if c e : refusal e -> refuses (raise_if c e).
Proof. intros He e' H. inv_raise. done. Qed.
Lemma refuses_bind {A B} (m : res A) (f : A -> res B) : refuses m -> (forall a, m = Ok a -> refuses (f a)) -> refuses (m ≫= f).
Proof. intros Hm Hf e [H | (a & Ea & H)]%bind_Raise; [by apply Hm | by apply (Hf a Ea)]. Qed.
Lemma refuses_if {A} (c : bool) (a b : res A) : refuses a -> refuses b -> refuses (if c then a else b).
Proof. by destruct c. Qed.
Lemma refuses_value {A} s : refuses (@Raise A (ValueError s)).
Proof. intros e [= <-]. left. by eexists. Qed.
Lemma refuses_fine (p : res bytes) : fine p -> refuses p.
Proof. by intros [v ->] e. Qed.

(** [solve_refuses] follows a function through its binds. *)
Ltac solve_refuses :=
  repeat first
    [ apply refuses_Ok
    | apply refuses_value
    | apply refuses_raise_if; solve [left; eexists; reflexivity | right; eexists; reflexivity]
    | assumption
    | match goal with
      | |- refuses (if _ then _ else _) => apply refuses_if
      | |- refuses (raise_if _ _ ≫= _) => apply refuses_bind; [|intros ? _]
      | |- refuses (_ ≫= _) => apply refuses_bind; [|intros ? ?]
      | |- refuses (let '(_, _) := ?p in _) => destruct p
      | |- refuses (let _ := _ in _) => cbv zeta
      end ].

Lemma raw16_refuses c : refuses (raw16 c).
Proof.
  unfold raw16. apply refuses_bind; [solve_refuses|]. intros u Hu. inv_res. bool_to_prop. pose proof (len_nonneg c).
  apply refuses_bind; [|intros; solve_refuses]. apply refuses_fine, fine_u16. unfold u16_ok. lia.
Qed.

Lemma be_val_slice_bound body o k : bytes_ok body -> 0 <= k -> 0 <= be_val (slice o (o + k) body) < 256 ^ k.
Proof.
  intros Hb Hk. pose proof (be_val_bounds (slice o (o + k) body) (bytes_ok_slice _ _ _ Hb)) as H.
  assert (len (slice o (o + k) body) <= k).
  { unfold slice, len. rewrite length_take. lia. }
  assert (256 ^ len (slice o (o + k) body) <= 256 ^ k) by (apply Z.pow_le_mono_r; lia). lia.
Qed.

Lemma u64_field body o : bytes_ok body -> fine (u64 (be_val (slice o (o + 8) body))).
Proof. intros Hb. apply fine_u64. pose proof (be_val_slice_bound body o 8 Hb ltac:(lia)) as H. exact H. Qed.

Lemma parse_raw16_refuses buf off : refuses (parse_raw16_at buf off).
Proof. unfold parse_raw16_at. solve_refuses. Qed.
Lemma skip_service_refuses buf off : refuses (skip_service_identity buf off).
Proof. unfold skip_service_identity, skip_text_id. solve_refuses. Qed.
#[export] Hint Resolve raw16_refuses parse_raw16_refuses skip_service_refuses : ninlil.

Lemma parse_anchor_refuses body : refuses (parse_anchor body).
Proof. unfold parse_anchor. solve_refuses; auto with ninlil. Qed.
Lemma parse_delivery_refuses body : refuses (parse_delivery body).
Proof. unfold parse_delivery, service_identity_family, skip_text_id. solve_refuses; auto with ninlil. Qed.

(** The keys a computation can give have one of the subtypes. *)
Definition key_in (sts : list Z) (m : res bytes) : Prop :=
  (forall k, m = Ok k -> exists st, st ∈ sts /\ typed_key st k) /\ refuses m.
Definition peers_in (sts : list Z) (m : res (option PeerEval)) : Prop :=
  (forall ev, m = Ok (Some ev) -> exists st, st ∈ sts /\ typed_key st (peer_key ev)) /\ refuses m.

Lemma key_in_of st sts ps : st ∈ composite_subtypes -> st ∈ sts -> Forall refuses ps -> key_in sts (k_of st ps).
Proof.
  intros Hc Hs Hp. assert (Hj : refuses (join ps)).
  { clear Hc Hs. induction Hp as [|p ps Hp _ IH]; [apply refuses_Ok|]. cbn [join]. apply refuses_bind; [done|]. intros a _. solve_refuses. }
  unfold k_of. split.
  - intros k H. inv_res. destruct (k_composite_Ok st a Hc) as [E2 Ht]. rewrite E2 in H. injection H as <-. by exists st.
  - apply refuses_bind; [done|]. intros m _. by rewrite (proj1 (k_composite_Ok st m Hc)).
Qed.

Lemma key_in_id128 st sts i : st ∈ id128_subtypes -> st ∈ sts -> key_in sts (k_id128 st i).
Proof.
  intros Hc Hs. destruct (decide (len i = 16)) as [Hl|Hl].
  - destruct (k_id128_Ok st i Hc Hl) as [-> Ht]. split; [|apply refuses_Ok]. intros k [= <-]. by exists st.
  - unfold k_id128. rewrite (proj2 (Z.eqb_neq _ _) Hl). split; [done|]. intros e [= <-]. right. by eexists.
Qed.

Lemma key_in_u64 st sts i : st ∈ u64_subtypes -> st ∈ sts -> key_in sts (k_u64 st i).
Proof.
  intros Hc Hs. destruct (decide (len i = 8)) as [Hl|Hl].
  - destruct (k_u64_Ok st i Hc Hl) as [-> Ht]. split; [|apply refuses_Ok]. intros k [= <-]. by exists st.
  - unfold k_u64. rewrite (proj2 (Z.eqb_neq _ _) Hl). split; [done|]. intros e [= <-]. right. by eexists.
Qed.

Lemma key_in_number st sts v : st ∈ u64_subtypes -> st ∈ sts -> fine (u64 v) -> key_in sts (n ← u64 v; k_u64 st n).
Proof. intros Hc Hs [x Hx]. rewrite Hx, ok_bind. by apply key_in_u64. Qed.

Lemma key_in_if sts (c : bool) a b : key_in sts a -> key_in sts b -> key_in sts (if c then a else b).
Proof. by destruct c. Qed.
Lemma key_in_value sts s : key_in sts (Raise (ValueError s)).
Proof. split; [done | apply refuses_value]. Qed.

Lemma peers_in_peer sts key f : key_in sts key -> (forall e, peer_key (f e) = peer_key e) -> peers_in sts (peer key f).
Proof.
  intros [Hk Hr] Hf. unfold peer. split.
  - intros ev H. inv_res. rewrite Hf. by apply Hk.
  - apply refuses_bind; [done|]. intros k _. apply refuses_Ok.
Qed.

Lemma peers_in_none sts : peers_in sts not_applicable.
Proof. split; [done | apply refuses_Ok]. Qed.
Lemma peers_in_if sts (c : bool) a b : peers_in sts a -> peers_in sts b -> peers_in sts (if c then a else b).
Proof. by destruct c. Qed.
Lemma peers_in_value sts s : peers_in sts (Raise (ValueError s)).
Proof. split; [done | apply refuses_value]. Qed.
Lemma peers_in_bind {A} sts (m : res A) f : refuses m -> (forall a, m = Ok a -> peers_in sts (f a)) -> peers_in sts (m ≫= f).
Proof.
  intros Hm Hf. split.
  - intros ev (a & Ea & H)%bind_Ok. by apply (Hf a Ea).
  - apply refuses_bind; [done|]. intros a Ea. apply (Hf a Ea).
Qed.

(** The subtypes of the peers a row may have. *)
Definition peer_subtypes (mode st : Z) : list Z :=
  if mode =? 1 then [ST_QUOTA]
  else if bool_decide (mode ∈ [2; 6; 12; 15; 19]) then [ST_RES]
  else if mode =? 3 then [ST_SEQ]
  else if mode =? 4 then [ST_STATE]
  else if mode =? 5 then [ST_IDEM]
  else if bool_decide (mode ∈ [7; 13; 16]) then [ST_SCHED]
  else if mode =? 8 then [ST_EVMAP]
  else if mode =? 9 then [ST_ES]
  else if bool_decide (mode ∈ [10; 14]) then [ST_CANCEL]
  else if mode =? 11 then [ST_RC]
  else if mode =? 17 then
    if st =? ST_QUOTA then [ST_SERVICE]
    else if st =? ST_RES then [ST_SERVICE; ST_ANCHOR; ST_INGRESS; ST_DELIVERY]
    else if st =? ST_SCHED then [ST_ANCHOR; ST_DELIVERY; ST_INGRESS]
    else if bool_decide (st ∈ [ST_RC; ST_RR]) then [ST_DELIVERY]
    else if bool_decide (st ∈ [ST_ATTEMPT; ST_CANCEL; ST_EVIDENCE; ST_RB; ST_CP]) then [ST_ANCHOR; ST_DELIVERY]
    else [ST_ANCHOR]
  else if mode =? 18 then if st =? ST_ATTEMPT then [ST_AII] else [ST_ATTEMPT]
  else if mode =? 20 then [ST_RB]
  else [].


Ltac solve_peers :=
  repeat first
    [ apply peers_in_none | apply peers_in_value | apply key_in_value | apply peers_in_if | apply key_in_if
    | apply peers_in_peer; [|intros e; first [reflexivity | repeat case_match; reflexivity]]
    | apply key_in_of; [in_list | in_list |
        repeat first [apply Forall_nil_2 | apply Forall_cons_2]; first [apply raw16_refuses | apply refuses_Ok | apply refuses_fine, fine_u16; unfold u16_ok; lia]]
    | apply key_in_id128; [in_list | in_list]
    | apply key_in_u64; [in_list | in_list]
    | apply key_in_number; [in_list | in_list | first [assumption | by apply u64_field]] ].

Lemma rebuild_service_peers mode body : in_range 1 2 mode = true -> peers_in (peer_subtypes mode ST_SERVICE) (rebuild_service mode body).
Proof.
  intros Hm. apply in_range_spec in Hm. unfold rebuild_service. apply peers_in_bind.
  { unfold parse_service. solve_refuses; auto with ninlil. }
  intros sk _. assert (mode = 1 \/ mode = 2) as [-> | ->] by lia; cbn [Z.eqb Pos.eqb]; solve_peers.
Qed.

Lemma rebuild_anchor_peers mode body :
  bytes_ok body -> in_range 3 10 mode = true -> peers_in (peer_subtypes mode ST_ANCHOR) (rebuild_anchor mode body).
Proof.
  intros Hb Hm. apply in_range_spec in Hm. unfold rebuild_anchor. apply peers_in_bind; [apply parse_anchor_refuses|].
  intros a Ha. assert (N1 : fine (u64 (a_txn_seq a))) by (unfold parse_anchor in Ha; inv_res; case_match; inv_res; case_match; inv_res; by apply (u64_field body 16)).
  assert (N2 : fine (u64 (a_sched_seq a))) by (unfold parse_anchor in Ha; inv_res; case_match; inv_res; case_match; inv_res; by apply u64_field).
  assert (mode = 3 \/ mode = 4 \/ mode = 5 \/ mode = 6 \/ mode = 7 \/ mode = 8 \/ mode = 9 \/ mode = 10) as Hc by lia.
  destruct Hc as [-> | [-> | [-> | [-> | [-> | [-> | [-> | ->]]]]]]]; cbn [Z.eqb Pos.eqb]; solve_peers.
Qed.

Lemma rebuild_delivery_peers mode body :
  bytes_ok body -> in_range 11 14 mode = true -> peers_in (peer_subtypes mode ST_DELIVERY) (rebuild_delivery mode body).
Proof.
  intros Hb Hm. apply in_range_spec in Hm. unfold rebuild_delivery. apply peers_in_bind; [apply parse_delivery_refuses|].
  intros d Hd. assert (N1 : fine (u64 (d_sched_seq d))) by (unfold parse_delivery in Hd; inv_res; case_match; inv_res; by apply u64_field).
  assert (mode = 11 \/ mode = 12 \/ mode = 13 \/ mode = 14) as Hc by lia.
  destruct Hc as [-> | [-> | [-> | ->]]]; cbn [Z.eqb Pos.eqb]; solve_peers.
Qed.

Lemma rebuild_ingress_peers mode body :
  bytes_ok body -> in_range 15 16 mode = true -> peers_in (peer_subtypes mode ST_INGRESS) (rebuild_ingress mode body).
Proof.
  intros Hb Hm. apply in_range_spec in Hm. unfold rebuild_ingress. apply peers_in_bind; [unfold parse_ingress; solve_refuses|].
  intros ing Hi. assert (N1 : fine (u64 (i_owner_seq ing))) by (unfold parse_ingress in Hi; inv_res; by apply (u64_field body 8)).
  assert (mode = 15 \/ mode = 16) as [-> | ->] by lia; cbn [Z.eqb Pos.eqb]; [solve_peers|].
  assert (Hk : key_in (peer_subtypes 16 ST_INGRESS) (n ← u64 (i_owner_seq ing); k_u64 ST_SCHED n)) by solve_peers.
  apply peers_in_bind; [apply Hk|]. intros key Ekey.
  assert (Hk' : key_in (peer_subtypes 16 ST_INGRESS) (Ok key)).
  { split; [|apply refuses_Ok]. intros k [= <-]. by apply Hk. }
  repeat apply peers_in_if; try (apply peers_in_peer; [exact Hk' | done]); [|apply peers_in_value].
  apply peers_in_bind; [unfold compose_delivery_raw_from_ingress; solve_refuses|]. intros draw _. by apply peers_in_peer.
Qed.

Lemma key_in_owner tx dlv kind raw s sts : ST_ANCHOR ∈ sts -> ST_DELIVERY ∈ sts -> key_in sts (owner_key tx dlv kind raw (ValueError s)).
Proof.
  intros Ha Hd. unfold owner_key. apply key_in_if; [|apply key_in_if; [|apply key_in_value]].
  - apply key_in_id128; [in_list | done].
  - apply key_in_of; [in_list | done |]. apply Forall_cons_2; [apply raw16_refuses | apply Forall_nil_2].
Qed.

Lemma parse_rc_refuses body : refuses (parse_rc body).
Proof. unfold parse_rc. solve_refuses; auto with ninlil. Qed.
Lemma parse_owner_refuses {A} body off (f : bytes * Z -> A) : refuses (p ← parse_raw16_at body off; mret (f p)).
Proof. solve_refuses; auto with ninlil. Qed.

Lemma rebuild_mode17_peers st body : peers_in (peer_subtypes 17 st) (_rebuild_mode17 st body).
Proof.
  unfold _rebuild_mode17. cbv zeta.
  repeat match goal with
  | |- peers_in _ (if ?s =? ?c then _ else _) => destruct (Z.eqb_spec s c) as [->|]
  end; [..|apply peers_in_none];
  try (apply peers_in_peer; [apply key_in_id128; in_list | done]);
  (apply peers_in_bind; [first [ apply parse_owner_refuses | apply parse_rc_refuses | unfold parse_idem, parse_evmap, parse_rr, parse_cp; solve_refuses; auto with ninlil ]|]; intros x _);
  first [ apply peers_in_peer; [|done]; apply key_in_owner; in_list | solve_peers ].
Qed.

Lemma rebuild_pair_peers st body : peers_in (peer_subtypes 18 st) (rebuild_pair st body).
Proof.
  unfold rebuild_pair. destruct (Z.eqb_spec st ST_ATTEMPT) as [->|Hn].
  - apply peers_in_bind; [unfold parse_attempt; apply parse_owner_refuses|]. intros att _.
    assert (Hk : key_in (peer_subtypes 18 ST_ATTEMPT) (k_id128 ST_AII (at_id att))) by (apply key_in_id128; in_list).
    apply peers_in_bind; [apply Hk|]. intros key Ekey.
    assert (Hk' : key_in (peer_subtypes 18 ST_ATTEMPT) (Ok key)).
    { split; [|apply refuses_Ok]. intros k [= <-]. by apply Hk. }
    repeat apply peers_in_if; [by apply peers_in_peer.. | apply peers_in_none].
  - destruct (Z.eqb_spec st ST_AII) as [->|]; [|apply peers_in_none]. cbn [parse_aii]. solve_peers.
Qed.

Lemma rebuild_callback_peers st body : bytes_ok body -> peers_in (peer_subtypes 19 st) (rebuild_callback st body).
Proof.
  intros Hb. unfold rebuild_callback. destruct (negb _); [apply peers_in_none|].
  apply peers_in_bind; [apply parse_rc_refuses|]. intros rc Hrc.
  assert (N1 : fine (u64 (rc_token_gen rc))) by (unfold parse_rc in Hrc; inv_res; case_match; inv_res; by apply u64_field).
  apply peers_in_bind; [cbn [join]; solve_refuses; first [apply raw16_refuses | by apply refuses_fine]|]. intros raw _.
  change (peer_subtypes 19 st) with [ST_RES]. solve_peers.
Qed.

Lemma rebuild_retention_peers st body : peers_in (peer_subtypes 20 st) (rebuild_retention st body).
Proof.
  change (peer_subtypes 20 st) with [ST_RB]. unfold rebuild_retention. destruct (st =? ST_STATE).
  - cbn [parse_state]. solve_peers.
  - destruct (st =? ST_RC); [|apply peers_in_none]. apply peers_in_bind; [apply parse_rc_refuses|]. intros rc _. solve_peers.
Qed.

Lemma rebuild_body_peers mode st body : bytes_ok body -> peers_in (peer_subtypes mode st) (rebuild_body mode st body).
Proof.
  intros Hb. unfold rebuild_body.
  repeat match goal with
  | |- peers_in _ (if in_range ?a ?b mode then if negb (?s =? ?c) then _ else _ else _) =>
      destruct (in_range a b mode) eqn:?; [destruct (Z.eqb_spec s c) as [->|]; cbn [negb]; [|apply peers_in_none]|]
  end.
  1: by apply rebuild_service_peers. 1: by apply rebuild_anchor_peers. 1: by apply rebuild_delivery_peers. 1: by apply rebuild_ingress_peers.
  repeat match goal with
  | |- peers_in _ (if mode =? ?c then _ else _) => destruct (Z.eqb_spec mode c) as [->|]
  end; [apply rebuild_mode17_peers | apply rebuild_pair_peers | by apply rebuild_callback_peers | apply rebuild_retention_peers | apply peers_in_none].
Qed.

Lemma extract_envelope_ok v st body pvd : bytes_ok v -> extract_envelope v = Ok (st, body, pvd) -> bytes_ok body.
Proof. intros Hv H. unfold extract_envelope in H. inv_res. by apply bytes_ok_slice. Qed.

Lemma rebuild_peer_peers mode k v :
  bytes_ok v -> exists st, peers_in (peer_subtypes mode st) (rebuild_peer mode k v) /\
    (forall ev, rebuild_peer mode k v = Ok (Some ev) -> exists kind ident, parse_domain_key k = Some (6, st, kind, ident)).
Proof.
  intros Hv. unfold rebuild_peer. destruct (parse_domain_key k) as [[[[fam st] kind] ident]|]; [|exists 0; split; [apply peers_in_none | done]].
  exists st. destruct (Z.eqb_spec fam 6) as [->|]; cbn [negb]; [|split; [apply peers_in_none | done]].
  destruct (extract_envelope v) as [[[vst body] pvd]|] eqn:E; [|split; [apply peers_in_none | done]].
  split; [apply rebuild_body_peers; by eapply extract_envelope_ok | by eexists _, _].
Qed.

Lemma peer_subtypes_byte mode st : forall st', st' ∈ peer_subtypes mode st -> is_byte st'.
Proof.
  intros st' H. unfold peer_subtypes in H. repeat case_match;
    repeat (apply elem_of_cons in H as [-> | H]; [by vm_compute|]); by apply elem_of_nil in H.
Qed.

Lemma typed_key_current st key v : typed_key st key -> is_byte st -> classify_row key v = CURRENT.
Proof.
  intros Ht Hb. destruct (typed_key_parts st key Ht Hb) as (kind & ident & Hp & Hc & _).
  unfold classify_row. rewrite bool_decide_true; [done|]. unfold classify_key.
  assert (Hh : (len key <? 13) || (45 <? len key) || negb (root_matches key) = false).
  { unfold current_key_fields_ok in Hc. by destruct (_ || _ || _). }
  assert (Hf : future_root key = false).
  { destruct Ht as (kind' & ident' & _ & _ & ->). unfold future_root. by rewrite andb_comm. }
  bool_to_prop. rewrite Hf, andb_false_r, andb_false_l, Hc. repeat match goal with H : root_matches _ = _ |- _ => rewrite H end.
  rewrite (proj2 (Z.eqb_neq _ 0)), (proj2 (Z.ltb_ge 255 _)), (proj2 (Z.ltb_ge _ 8)), (proj2 (Z.ltb_ge _ 13)), (proj2 (Z.ltb_ge 45 _)) by lia.
  done.
Qed.

(** C9. Whatever the row, the rebuilt peer key is a well-formed key: a current typed key for
    the scanner, of family 6 and of a subtype the mode and the subtype of the row allow.
    Only rows of family 6 have peers, and the only exceptions are [ValueError] and
    [AssertionError]. *)
Theorem peer_key_well_typed mode k v :
  bytes_ok v ->
  (forall ev, rebuild_peer mode k v = Ok (Some ev) ->
     exists st kind ident st' kind' ident', parse_domain_key k = Some (6, st, kind, ident) /\ st' ∈ peer_subtypes mode st /\
       parse_domain_key (peer_key ev) = Some (6, st', kind', ident') /\ subtype_expected_kind 6 st' = Some kind' /\
       classify_row (peer_key ev) v = CURRENT) /\
  (forall e, rebuild_peer mode k v = Raise e -> refusal e).
Proof.
  intros Hv. destruct (rebuild_peer_peers mode k v Hv) as (st & [Hp Hr] & Hk). split; [|exact Hr].
  intros ev Hev. destruct (Hk ev Hev) as (kind & ident & Hkey). destruct (Hp ev Hev) as (st' & Hin & Ht).
  destruct (typed_key_parts st' _ Ht (peer_subtypes_byte _ _ _ Hin)) as (kind' & ident' & H1 & H2 & H3 & _).
  exists st, kind, ident, st', kind', ident'. split_and!; try done. apply (typed_key_current st'); [done | by eapply peer_subtypes_byte].
Qed.

(** A service row and its quota; and a state row without a body, for which mode 17 asserts. *)
Lemma peer_key_well_typed_witness :
  let row st body := ok_or [] (enc_env_full 6 st 0 1 (zeros 16) (zeros 32) (zeros 32) body) in
  let name := be_bytes 2 4 ++ pattern 1 4 in
  let key := ok_or [] (k_composite ST_SERVICE name) in
  let ev := peer_eval (ok_or [] (k_composite ST_QUOTA name)) in
  rebuild_peer 1 key (row ST_SERVICE name) = Ok (Some ev) /\
  (exists st kind ident st' kind' ident', parse_domain_key key = Some (6, st, kind, ident) /\ st' ∈ peer_subtypes 1 st /\
     parse_domain_key (peer_key ev) = Some (6, st', kind', ident') /\ subtype_expected_kind 6 st' = Some kind' /\
     classify_row (peer_key ev) (row ST_SERVICE name) = CURRENT) /\
  refusal (AssertionError "").
Proof.
  intros row name key ev. assert (E : rebuild_peer 1 key (row ST_SERVICE name) = Ok (Some ev)) by (vm_compute; reflexivity).
  split; [exact E|]. split.
  - apply (proj1 (peer_key_well_typed 1 key (row ST_SERVICE name) ltac:(in_list)) ev E).
  - apply (proj2 (peer_key_well_typed 17 (ok_or [] (k_id128 ST_STATE (zeros 16))) (row ST_STATE []) ltac:(in_list))). vm_compute. reflexivity.
Defined.

(** ** Laws of envelopes *)

(** Arguments that make a value of at most [VALUE_CAP] payload bytes. *)
Definition env_ok (st flags rev : Z) (primary_id head pvd body : bytes) : Prop :=
  is_byte st /\ is_byte flags /\ u64_ok rev /\ raw 16 primary_id /\ raw 32 head /\ raw 32 pvd /\ bytes_ok body /\ len body <= 4000.

Definition env_widths (body : bytes) : list Z := [4; 2; 2; 4; 2; 2; 8; 16; 32; 32; 4; len body].

(** A current envelope with its parts at their places. *)
Record envelope_holds (st flags rev : Z) (primary_id head pvd body v : bytes) : Prop := {
  eh_bytes : bytes_ok v; eh_len : len v = 112 + len body;
  eh_framing : domain_value_framing v = current_framing;
  eh_extract : extract_envelope v = Ok (st, body, pvd);
  eh_pvd : header_pvd v = pvd;
  eh_flags : byte_at 15 v = flags; eh_rev : be_val (slice 16 24 v) = rev; eh_id : slice 24 40 v = primary_id; eh_head : slice 40 72 v = head }.

Lemma land_byte b : is_byte b -> Z.land b 255 = b.
Proof. intros Hb. change 255 with (Z.ones 8). rewrite Z.land_ones by lia. apply Z.mod_small. exact Hb. Qed.

Lemma slice_app_in {A} lo hi (a b : list A) : 0 <= lo -> hi <= len a -> slice lo hi (a ++ b) = slice lo hi a.
Proof.
  intros Hlo Hhi. destruct (Z.le_gt_cases hi lo).
  - unfold slice. by replace (Z.to_nat (hi - lo)) with 0%nat by lia.
  - rewrite slice_app_l by lia. done.
Qed.

(** What the bytes before the checksum read as. *)
Record env_reads (st flags rev : Z) (primary_id head pvd body out : bytes) : Prop := {
  er_len : len out = 108 + len body; er_bytes : bytes_ok out; er_magic : slice 0 4 out = bytes_of_string "NLR1";
  er_type : be_val (slice 4 6 out) = 6; er_version : be_val (slice 6 8 out) = 1; er_payload : be_val (slice 8 12 out) = 96 + len body;
  er_st : byte_at 14 out = st; er_flags : byte_at 15 out = flags; er_rev : be_val (slice 16 24 out) = rev;
  er_id : slice 24 40 out = primary_id; er_head : slice 40 72 out = head; er_pvd : slice 72 104 out = pvd;
  er_body_len : be_val (slice 104 108 out) = len body; er_body : slice 108 (108 + len body) out = body }.

Lemma env_parts_read st flags rev primary_id head pvd body :
  env_ok st flags rev primary_id head pvd body ->
  exists out, join (env_parts 6 st flags rev primary_id head pvd body) = Ok out /\ env_reads st flags rev primary_id head pvd body out.
Proof.
  intros (Hst & Hfl & Hrev & [Lid Bid] & [Lhead Bhead] & [Lpvd Bpvd] & Hb & Hl). pose proof (len_nonneg body) as H0.
  set (ps := env_parts 6 st flags rev primary_id head pvd body).
  assert (Hfine : Forall fine ps).
  { unfold ps, env_parts. unfold u64_ok in Hrev.
    repeat first [apply Forall_nil_2 | apply Forall_cons_2]; first [apply fine_Ok | apply fine_u16; unfold u16_ok; lia | apply fine_u32; unfold u32_ok; lia | by apply fine_u64]. }
  destruct (join_total ps Hfine) as [out Hj]. exists out. split; [done|].
  assert (Hw : Forall2 wide ps (env_widths body)).
  { unfold ps, env_parts, env_widths. repeat first [apply Forall2_nil_2 | apply Forall2_cons_2]; first [apply wide_pack; reflexivity | by apply wide_Ok]. }
  assert (Hs : bytes_ok out).
  { apply (join_sound ps); [|done]. unfold ps, env_parts. rewrite !land_byte by done. solve_sound. }
  pose proof (join_len _ _ _ Hw Hj) as Lout. unfold env_widths, total_width in Lout. cbn [foldr] in Lout.
  pose proof (join_reads _ _ _ Hw Hj) as R. unfold ps, env_parts in R. rewrite !land_byte in R by done.
  apply Forall2_cons in R as [R0 R]. apply Forall2_cons in R as [R1 R]. apply Forall2_cons in R as [R2 R].
  apply Forall2_cons in R as [R3 R]. apply Forall2_cons in R as [_ R]. apply Forall2_cons in R as [R5 R].
  apply Forall2_cons in R as [R6 R]. apply Forall2_cons in R as [R7 R]. apply Forall2_cons in R as [R8 R].
  apply Forall2_cons in R as [R9 R]. apply Forall2_cons in R as [R10 R]. apply Forall2_cons in R as [R11 _].
  cbn [fst snd] in *. replace (start (env_widths body) 12) with (108 + len body) in R11 by (unfold start, env_widths, total_width; cbn [take foldr]; lia).
  assert (E : slice 14 16 out = [st; flags]) by (symmetry; exact (Ok_inj _ _ R5)).
  split; try done; try lia; try exact (pack_val _ _ _ R1); try exact (pack_val _ _ _ R2); try exact (pack_val _ _ _ R3);
    try exact (pack_val _ _ _ R6); try exact (pack_val _ _ _ R10); try (symmetry; first [exact (Ok_inj _ _ R0) | exact (Ok_inj _ _ R7) | exact (Ok_inj _ _ R8) | exact (Ok_inj _ _ R9) | exact (Ok_inj _ _ R11)]).
  - replace 14 with (14 + 0) by done. rewrite <- (byte_at_slice out 0 14 16) by lia. by rewrite E.
  - replace 15 with (14 + 1) by done. rewrite <- (byte_at_slice out 1 14 16) by lia. by rewrite E.
Qed.

Lemma enc_env_Ok st flags rev primary_id head pvd body :
  env_ok st flags rev primary_id head pvd body ->
  exists v, enc_env_full 6 st flags rev primary_id head pvd body = Ok v /\ envelope_holds st flags rev primary_id head pvd body v.
Proof.
  intros H. destruct (env_parts_read _ _ _ _ _ _ _ H) as (out & Hj & [Lout Hs E0 E4 E6 E8 E14 E15 E16 E24 E40 E72 E104 E108]).
  destruct H as (Hst & Hfl & Hrev & [Lid Bid] & [Lhead Bhead] & [Lpvd Bpvd] & Hb & Hl). pose proof (len_nonneg body) as H0.
  unfold enc_env_full. rewrite Lid, Lhead, Lpvd. cbn [Z.eqb Pos.eqb andb negb raise_if]. rewrite ok_bind, Hj, ok_bind.
  unfold u32. rewrite (pack_checksum crc32c out Hs), ok_bind. eexists. split; [reflexivity|].
  set (v := out ++ be_bytes 4 (crc32c out)).
  assert (Hin : forall a c, 0 <= a -> c <= len out -> slice a c v = slice a c out) by (intros; by apply slice_app_in).
  assert (Lv : len v = 112 + len body) by (unfold v; rewrite len_app, len_be_bytes; lia).
  assert (Hmagic : slice 0 4 v = bytes_of_string "NLR1") by (by rewrite Hin by lia).
  assert (Hat : forall i, 0 <= i < len out -> byte_at i v = byte_at i out) by (intros; by apply byte_at_app_l).
  split; try done; rewrite ?Hin, ?Hat by lia; try done.
  - unfold v. apply bytes_ok_app. split; [done | apply be_bytes_ok].
  - unfold domain_value_framing. cbv zeta. rewrite Lv. rewrite (proj2 (Z.ltb_ge _ 16)) by lia.
    rewrite (bool_decide_eq_true_2 _ Hmagic). cbn [orb negb]. rewrite (Hin 8 12), (Hin 4 6), (Hin 6 8), E4, E6, E8 by lia.
    unfold VALUE_CAP. rewrite (proj2 (Z.ltb_ge 4096 _)) by lia. rewrite (proj2 (Z.eqb_eq (112 + len body) _)) by lia. cbn [orb negb].
    replace (112 + len body - 4) with (len out) by lia.
    replace (slice (len out) (112 + len body) v) with (be_bytes 4 (crc32c out))
      by (unfold v; symmetry; rewrite slice_app_skip by (rewrite ?len_be_bytes; lia); done).
    replace (slice 0 (len out) v) with out by (unfold v; by rewrite slice_app_exact).
    rewrite (be_val_checksum crc32c out Hs), Z.eqb_refl. cbn [Z.eqb Pos.eqb negb Z.leb Z.compare Pos.compare Pos.compare_cont].
    by rewrite (proj2 (Z.ltb_ge _ 112)) by lia.
  - unfold extract_envelope. rewrite Lv, (proj2 (Z.ltb_ge _ 112)) by lia. rewrite (bool_decide_eq_true_2 _ Hmagic).
    cbn [orb negb raise_if]. rewrite ok_bind. cbv zeta. rewrite (Hin 104), E104, (Hin 108), E108, Z.eqb_refl by lia. cbn [negb raise_if].
    rewrite ok_bind. change (PVD_OFF + 32) with 104. unfold HEADER_SUBTYPE_OFF, PVD_OFF. by rewrite Hat, E14, Hin, E72 by lia.
  - unfold header_pvd. rewrite Lv. change (PVD_OFF + 32) with 104. unfold PVD_OFF. by rewrite (proj2 (Z.ltb_ge _ 104)), Hin by lia.
Qed.
