(* ===== verification/CrossGate.v ===== *)
(** The structural gate of family-6 rows and the builders of row bodies that must pass it
    ([tools/domain_scan_crossrow_vector_gen.py]). *)

From S2P Require Import Prelude Bytes Crc Sha256 Join DomainScan CrossPeer.

(** ** Builders *)

Definition make_sched_body (owner_seq owner_kind : Z) (subject : bytes) (work_class state_rev ready : Z) : res bytes :=
  pkd ← scheduler_primary_key_digest owner_kind subject;
  join [u64 owner_seq; u16 owner_kind; u16 work_class; raw16 subject; Ok pkd; u64 state_rev; Ok (0xC1 :: replicate 15 0xC2); u64 0;
        Ok (zeros 16); u64 0; u32 ready].

Definition res_primary_digest (owner_kind : Z) (owner_raw : bytes) : res bytes :=
  if owner_kind =? 1 then r ← raw16 owner_raw; complete_key_digest_composite ST_SERVICE r
  else if owner_kind =? 2 then complete_key_digest_id128 ST_ANCHOR owner_raw
  else if owner_kind =? 3 then complete_key_digest_u64 ST_INGRESS owner_raw
  else if owner_kind =? 4 then r ← raw16 owner_raw; complete_key_digest_composite ST_DELIVERY r
  else if owner_kind =? 5 then
    let dlen := be_val (slice 0 2 owner_raw) in complete_key_digest_composite ST_DELIVERY (slice 0 (2 + dlen) owner_raw)
  else Raise (ValueError "owner_kind").

(** Eleven pairs of zero counters. *)
Definition make_res_body (owner_kind : Z) (owner_raw : bytes) : res bytes :=
  pkd ← res_primary_digest owner_kind owner_raw;
  join [u16 owner_kind; u16 0; raw16 owner_raw; Ok pkd; Ok (zeros (16 * 11)); u32 0; u32 0; u64 0; u32 0].

Definition ingress_reservation_key_digest (ordered_seq8 : bytes) : res bytes :=
  raise_if (negb (len ordered_seq8 =? 8)) (ValueError "ordered_seq must be 8 bytes");;
  m ← join [u16 3; raw16 ordered_seq8];
  complete_key_digest_composite ST_RES m.

Definition make_ordered_ingress_body_with_seq (base_body ordered_seq8 : bytes) : res bytes :=
  raise_if (negb (len ordered_seq8 =? 8) || (be_val ordered_seq8 =? 0)) (ValueError "ordered_seq must be non-zero u64");;
  raise_if (len base_body <? 36) (ValueError "ORDERED_INGRESS body too short");;
  let b := slice_assign 0 8 ordered_seq8 base_body in
  d ← ingress_reservation_key_digest ordered_seq8;
  mret (slice_assign (len b - 32) (len b) d b).

Definition patch_cleanup_plan_live_primary_digest (complete_value live_pvd : bytes) : res bytes :=
  raise_if (negb (len live_pvd =? 32) || bool_decide (live_pvd = zeros 32)) (ValueError "live_pvd must be non-zero 32 bytes");;
  '(st, body, _) ← extract_envelope complete_value;
  raise_if (negb (st =? ST_CP)) (ValueError "expected CLEANUP_PLAN subtype");;
  cp ← parse_cp body;
  let off := cp_value_digest_off cp in
  let b := slice_assign off (off + 32) live_pvd body in
  let primary_id := slice 24 40 complete_value in
  let rev := be_val (slice 16 24 complete_value) in
  let flags := byte_at 15 complete_value in
  let head := slice 40 72 complete_value in
  enc_env_full 6 ST_CP flags rev primary_id head live_pvd b.

Definition recompute_anchor_idempotency_map_digest (body : bytes) : res bytes :=
  o ← skip_service_identity body (16 + 8 + 8 + 4 + PARTY_LEN);
  let o := o + (32 + 32) + 16 + 8 + (16 + 8 + 16 + 8 + 8) + (4 + 4) + TARGET_LEN in
  '(scope, o) ← parse_raw16_at body o;
  '(ikey, o) ← parse_raw16_at body o;
  let im_off := o + 32 in
  m ← join [raw16 scope; raw16 ikey];
  im_dig ← complete_key_digest_composite ST_IDEM m;
  mret (slice_assign im_off (im_off + 32) im_dig body).

Definition make_row (key body : bytes) (subtype : Z) (primary_id : bytes) (pvd head : option bytes) (rev : Z) : res (string * string) :=
  val ← enc_env_full 6 subtype 0 rev primary_id (default (replicate 32 0x11) head) (default (zeros 32) pvd) body;
  mret (hex_of key, hex_of val).

Definition recrc_value (complete_value : bytes) : res bytes :=
  let body := slice 0 (len complete_value - 4) complete_value in
  c ← u32 (crc32c body);
  mret (body ++ c).

Definition patch_body_bytes (complete_value : bytes) (body_off : Z) (new_bytes : bytes) : res bytes :=
  '(st, body, pvd) ← extract_envelope complete_value;
  let b := slice_assign body_off (body_off + len new_bytes) new_bytes body in
  let head := slice 40 72 complete_value in
  let primary_id := slice 24 40 complete_value in
  let rev := be_val (slice 16 24 complete_value) in
  let flags := byte_at 15 complete_value in
  enc_env_full 6 st flags rev primary_id head pvd b.

(** ** The gate *)

Inductive s3_status := S3_OK | S3_UNSUPPORTED | S3_CORRUPT.
#[export] Instance s3_status_eq_dec : EqDecision s3_status.
Proof. solve_decision. Defined.

(** [try: ... except ValueError: return "STORAGE_CORRUPT"]; the code's readers raise no
    [IndexError]. *)
Definition or_corrupt {A} (m : res A) (k : A -> res s3_status) : res s3_status :=
  match m with
  | Ok a => k a
  | Raise (ValueError _) => Ok S3_CORRUPT
  | Raise e => Raise e
  end.

Definition corrupt_if (c : bool) (rest : res s3_status) : res s3_status := if c then Ok S3_CORRUPT else rest.

Definition gate_ingress (kind : Z) (ident body : bytes) : res s3_status :=
  or_corrupt (parse_ingress body) (fun ing =>
  corrupt_if (negb (kind =? 3) || negb (len ident =? 8)) (
  corrupt_if (negb (bool_decide (i_ordered_seq ing = ident))) (
  corrupt_if ((be_val (i_ordered_seq ing) =? 0) || (i_owner_seq ing =? 0)) (
  let msg_kind := be_val (slice 20 24 body) in
  let app_like := bool_decide (msg_kind ∈ [1; 5]) in
  let tx_like := bool_decide (msg_kind ∈ [2; 3; 4; 6]) in
  corrupt_if (app_like && negb (bool_decide (i_binding ing ∈ [BIND_EXISTING_DLV; BIND_NEW_DELIVERY]))) (
  corrupt_if (tx_like && negb (i_binding ing =? BIND_EXISTING_TX)) (
  corrupt_if (negb app_like && negb tx_like) (
  want ← ingress_reservation_key_digest (i_ordered_seq ing);
  corrupt_if (negb (bool_decide (slice (len body - 32) (len body) body = want))) (
  Ok S3_OK)))))))).

Definition gate_cp (pvd body : bytes) : res s3_status :=
  or_corrupt (parse_cp body) (fun cp =>
  corrupt_if (bool_decide (cp_value_digest cp = zeros 32)) (
  corrupt_if (negb (bool_decide (cp_value_digest cp = pvd))) (
  Ok S3_OK))).

Definition gate_anchor (kind : Z) (ident body : bytes) : res s3_status :=
  or_corrupt (a ← parse_anchor body; fixed ← recompute_anchor_idempotency_map_digest body; mret (a, fixed)) (fun '(a, fixed) =>
  corrupt_if (negb (bool_decide (fixed = body))) (
  corrupt_if (bool_decide (a_scope a = []) || bool_decide (a_ikey a = []) || bool_decide (a_txn a = zeros 16)) (
  corrupt_if (negb (kind =? 2) || negb (len ident =? 16) || negb (bool_decide (ident = a_txn a))) (
  Ok S3_OK)))).

Definition gate_res (body : bytes) : res s3_status :=
  or_corrupt (parse_reservation body) (fun r =>
  if o_kind r =? 5 then
    let raw := o_raw r in
    corrupt_if (len raw <? 2 + 80 + 8) (
    let dlen := be_val (slice 0 2 raw) in
    corrupt_if (negb (dlen =? 80)) (
    corrupt_if (be_val (slice (2 + dlen) (2 + dlen + 8) raw) =? 0) (
    Ok S3_OK)))
  else Ok S3_OK).

Definition gate_sched (body : bytes) : res s3_status :=
  or_corrupt (parse_sched body) (fun s =>
  corrupt_if ((s_owner_seq s =? 0) || negb (bool_decide (s_owner_kind s ∈ [1; 2; 3]))) (
  want_pkd ← scheduler_primary_key_digest (s_owner_kind s) (s_subject s);
  '(_, o) ← parse_raw16_at body 12;
  corrupt_if (negb (bool_decide (slice o (o + 32) body = want_pkd))) (
  Ok S3_OK))).

Definition family6_current_row_s3_status (key value : bytes) : res s3_status :=
  match parse_domain_key key with
  | None => Ok S3_CORRUPT
  | Some (fam, st, kind, ident) =>
      if negb (fam =? 6) then Ok S3_OK
      else
        match domain_value_framing value with
        | future_framing => Ok S3_UNSUPPORTED
        | corrupt_framing => Ok S3_CORRUPT
        | current_framing =>
            or_corrupt (extract_envelope value) (fun '(vst, body, pvd) =>
            corrupt_if (negb (vst =? st)) (
            corrupt_if (if bool_decide (st ∈ [ST_SERVICE; ST_ANCHOR; ST_INGRESS; ST_DELIVERY])
                        then negb (bool_decide (pvd = zeros 32)) else bool_decide (pvd = zeros 32)) (
            corrupt_if (bool_decide (ident = [])) (
            if st =? ST_INGRESS then gate_ingress kind ident body
            else if st =? ST_CP then gate_cp pvd body
            else if st =? ST_ANCHOR then gate_anchor kind ident body
            else if st =? ST_RES then gate_res body
            else if st =? ST_SCHED then gate_sched body
            else Ok S3_OK))))
        end
  end.

(** The gate on the rows of a vector, before it is emitted. *)
Fixpoint assert_family6_s3_gate_on_rows (rows : list (string * string)) : res unit :=
  match rows with
  | [] => Ok tt
  | (key_hex, value_hex) :: rows =>
      key ← from_hex key_hex;
      val ← from_hex value_hex;
      match parse_domain_key key with
      | Some (6, _, _, _) =>
          st ← family6_current_row_s3_status key val;
          raise_if (bool_decide (st = S3_CORRUPT)) (SystemExit "S3 gate rejected family-6 CURRENT row")
      | _ => mret tt
      end;;
      assert_family6_s3_gate_on_rows rows
  end.

(** ** Laws of the readers *)

Lemma parse_raw16_app pre c post :
  len c <= 65535 -> parse_raw16_at (pre ++ (be_bytes 2 (len c) ++ c) ++ post) (len pre) = Ok (c, len pre + 2 + len c).
Proof.
  intros Hc. pose proof (len_nonneg pre) as Hp. pose proof (len_nonneg c) as Hc0. pose proof (len_nonneg post) as Hq.
  set (m := pre ++ (be_bytes 2 (len c) ++ c) ++ post).
  assert (Lm : len m = len pre + 2 + len c + len post) by (unfold m; simpl_lens; lia).
  assert (E : be_val (slice (len pre) (len pre + 2) m) = len c).
  { unfold m. rewrite <- !app_assoc. read_slices. rewrite be_val_be_bytes. apply Z.mod_small. cbn. lia. }
  unfold parse_raw16_at. rewrite Lm, (raise_if_skip (_ <? _)) by (apply Z.ltb_ge; lia). cbv zeta.
  rewrite E, raise_if_skip by (apply Z.ltb_ge; lia). do 2 f_equal. f_equal.
  unfold m. rewrite <- !app_assoc. by read_slices.
Qed.

Lemma raw16_Ok c : len c <= 255 -> raw16 c = Ok (be_bytes 2 (len c) ++ c).
Proof.
  intros H. pose proof (len_nonneg c). unfold raw16. rewrite raise_if_skip by (apply Z.ltb_ge; lia).
  unfold u16. by rewrite pack_bind by (pack_range; lia).
Qed.

(** The gate on an envelope that is current and of the key's subtype. *)
Definition gate_body (st kind : Z) (ident pvd body : bytes) : res s3_status :=
  if st =? ST_INGRESS then gate_ingress kind ident body
  else if st =? ST_CP then gate_cp pvd body
  else if st =? ST_ANCHOR then gate_anchor kind ident body
  else if st =? ST_RES then gate_res body
  else if st =? ST_SCHED then gate_sched body
  else Ok S3_OK.

Definition primary_subtypes : list Z := [ST_SERVICE; ST_ANCHOR; ST_INGRESS; ST_DELIVERY].

(** The header digest is zero for primaries and not zero for secondaries. *)
Definition pvd_fits (st : Z) (pvd : bytes) : Prop := if bool_decide (st ∈ primary_subtypes) then pvd = zeros 32 else pvd <> zeros 32.

Lemma gate_envelope st flags rev pid head pvd body key v kind ident :
  parse_domain_key key = Some (6, st, kind, ident) -> ident <> [] -> pvd_fits st pvd ->
  envelope_holds st flags rev pid head pvd body v ->
  family6_current_row_s3_status key v = gate_body st kind ident pvd body.
Proof.
  intros Hk Hi Hp [_ _ Hf He _ _ _ _ _]. unfold family6_current_row_s3_status. rewrite Hk, Hf, He. cbn [Z.eqb Pos.eqb negb or_corrupt].
  rewrite Z.eqb_refl. cbn [negb corrupt_if]. unfold pvd_fits, primary_subtypes in Hp. rewrite (bool_decide_false (ident = [])) by done.
  destruct (bool_decide (st ∈ _)); [rewrite (bool_decide_true (pvd = _)) by done | rewrite (bool_decide_false (pvd = _)) by done]; done.
Qed.

Lemma rebuild_envelope mode st flags rev pid head pvd body key v kind ident :
  parse_domain_key key = Some (6, st, kind, ident) -> envelope_holds st flags rev pid head pvd body v ->
  rebuild_peer mode key v = rebuild_body mode st body.
Proof. intros Hk [_ _ _ He _ _ _ _ _]. unfold rebuild_peer. by rewrite Hk, He. Qed.

(** ** Scheduler and reservation rows *)

(** A name of the right size for its kind of owner. *)
Definition sched_subject_ok (kind : Z) (subject : bytes) : Prop :=
  bytes_ok subject /\ (kind = 1 /\ len subject = 16 \/ kind = 2 /\ len subject <= 255 \/ kind = 3 /\ len subject = 8).

(** The key of the primary of a scheduler row. *)
Definition sched_primary_key (kind : Z) (subject : bytes) : res bytes :=
  if kind =? 1 then k_id128 ST_ANCHOR subject
  else if kind =? 2 then k_of ST_DELIVERY [raw16 subject]
  else if kind =? 3 then k_u64 ST_INGRESS subject
  else Raise (ValueError "M17 SCHED bad owner_kind").

Lemma sched_primary kind subject : sched_subject_ok kind subject ->
  exists k, scheduler_primary_key_digest kind subject = Ok (key_digest k) /\ sched_primary_key kind subject = Ok k.
Proof.
  unfold scheduler_primary_key_digest, sched_primary_key. intros [_ [[-> Hl] | [[-> Hl] | [-> Hl]]]]; cbn [Z.eqb Pos.eqb].
  - destruct (k_id128_Ok ST_ANCHOR subject ltac:(in_list) Hl) as [E _]. unfold complete_key_digest_id128. rewrite E. by eexists.
  - unfold complete_key_digest_composite, k_of. cbn [join]. rewrite (raw16_Ok subject Hl), !ok_bind. cbn. rewrite app_nil_r.
    destruct (k_composite_Ok ST_DELIVERY (be_bytes 2 (len subject) ++ subject) ltac:(in_list)) as [E _]. cbn in E. rewrite E. by eexists.
  - destruct (k_u64_Ok ST_INGRESS subject ltac:(in_list) Hl) as [E _]. unfold complete_key_digest_u64. rewrite E. by eexists.
Qed.

Lemma len_key_digest k : len (key_digest k) = 32.
Proof. apply len_sha256. Qed.
#[export] Hint Rewrite len_key_digest : lens.

Lemma sched_body_built seq kind subject work rev ready :
  u64_ok seq -> sched_subject_ok kind subject -> u16_ok work -> u64_ok rev -> u32_ok ready ->
  exists body k, make_sched_body seq kind subject work rev ready = Ok body /\ bytes_ok body /\ len body <= 4000 /\
    parse_sched body = Ok {| s_owner_seq := seq; s_owner_kind := kind; s_subject := subject |} /\
    parse_raw16_at body 12 = Ok (subject, 14 + len subject) /\ slice (14 + len subject) (14 + len subject + 32) body = key_digest k /\
    scheduler_primary_key_digest kind subject = Ok (key_digest k) /\ sched_primary_key kind subject = Ok k.
Proof.
  intros Hseq Hsub Hwork Hrev Hready. destruct (sched_primary kind subject Hsub) as (k & Hd & Hk).
  unfold make_sched_body. rewrite Hd, ok_bind.
  assert (Hs : len subject <= 255 /\ bytes_ok subject /\ u16_ok kind) by (destruct Hsub as [? ?]; split; [lia|]; split; [done | unfold u16_ok; lia]).
  destruct Hs as (Hl & Hb & Hkind). pose proof (len_nonneg subject) as Hl0.
  unfold u64_ok, u16_ok, u32_ok in *.
  unfold u64, u32, u16. rewrite (raw16_Ok subject Hl). cbn [join].
  rewrite !pack_total by (cbn; lia). rewrite !ok_bind. eexists _, k. split; [reflexivity|].
  set (head := be_bytes 8 seq ++ be_bytes 2 kind ++ be_bytes 2 work).
  set (tail := be_bytes 8 rev ++ (0xC1 :: replicate 15 0xC2) ++ be_bytes 8 0 ++ zeros 16 ++ be_bytes 8 0 ++ be_bytes 4 ready ++ []).
  replace (be_bytes 8 seq ++ be_bytes 2 kind ++ be_bytes 2 work ++ (be_bytes 2 (len subject) ++ subject) ++ key_digest k ++ tail)
    with (head ++ (be_bytes 2 (len subject) ++ subject) ++ key_digest k ++ tail) by (unfold head; by rewrite <- !app_assoc).
  assert (Lh : len head = 12) by done. assert (Lt : len tail = 60) by done.
  set (body := head ++ (be_bytes 2 (len subject) ++ subject) ++ key_digest k ++ tail).
  assert (Hr : parse_raw16_at body 12 = Ok (subject, 14 + len subject)).
  { unfold body. rewrite <- Lh, parse_raw16_app by lia. do 2 f_equal. }
  split_and!; try done.
  - unfold body, head, tail, key_digest. solve_bytes; try apply (raw_sha _). in_list.
  - unfold body. simpl_lens. lia.
  - unfold parse_sched. rewrite Hr, ok_bind. unfold body, head. rewrite <- !app_assoc. cbn [fst]. change (mret ?x) with (@Ok sched x). do 2 f_equal.
    + read_slices. rewrite be_val_be_bytes. apply Z.mod_small. cbn. lia.
    + read_slices. rewrite be_val_be_bytes. apply Z.mod_small. cbn. lia.
  - unfold body. by read_slices.
Qed.

(** The owners of a reservation; a callback is named by its delivery and token. *)
Definition res_owner_ok (kind : Z) (raw : bytes) : Prop :=
  bytes_ok raw /\
  (kind = 1 /\ len raw <= 255 \/ kind = 2 /\ len raw = 16 \/ kind = 3 /\ len raw = 8 \/ kind = 4 /\ len raw <= 255 \/
   kind = 5 /\ exists draw token, len draw = 80 /\ len token = 8 /\ be_val token <> 0 /\ raw = (be_bytes 2 80 ++ draw) ++ token).

(** The key of the primary of a reservation. *)
Definition res_primary_key (kind : Z) (raw : bytes) : res bytes :=
  if kind =? 1 then k_of ST_SERVICE [raw16 raw]
  else if kind =? 2 then k_id128 ST_ANCHOR raw
  else if kind =? 3 then k_u64 ST_INGRESS raw
  else if kind =? 4 then k_of ST_DELIVERY [raw16 raw]
  else if kind =? 5 then let dlen := be_val (slice 0 2 raw) in k_of ST_DELIVERY [raw16 (slice 2 (2 + dlen) raw)]
  else Raise (ValueError "M17 RES bad owner_kind").

Lemma k_of_raw16 st c : st ∈ composite_subtypes -> len c <= 255 ->
  exists k, k_of st [raw16 c] = Ok k /\ k_composite st (be_bytes 2 (len c) ++ c) = Ok k.
Proof.
  intros Hst Hl. unfold k_of. cbn [join]. rewrite (raw16_Ok c Hl), !ok_bind. cbn. rewrite app_nil_r.
  destruct (k_composite_Ok st (be_bytes 2 (len c) ++ c) Hst) as [E _]. cbn in E. rewrite E. by eexists.
Qed.

Lemma callback_raw_parts draw token : len draw = 80 -> len token = 8 ->
  let raw := (be_bytes 2 80 ++ draw) ++ token in
  len raw = 90 /\ be_val (slice 0 2 raw) = 80 /\ slice 2 82 raw = draw /\ slice 0 82 raw = be_bytes 2 80 ++ draw /\ slice 82 90 raw = token.
Proof.
  intros Hd Ht raw. unfold raw. split_and!.
  - simpl_lens. lia.
  - rewrite <- app_assoc. by read_slices.
  - rewrite <- app_assoc. by read_slices.
  - by rewrite slice_app_exact by solve_len.
  - by rewrite slice_app_skip by solve_len.
Qed.

Lemma res_primary kind raw : res_owner_ok kind raw ->
  exists k, res_primary_digest kind raw = Ok (key_digest k) /\ res_primary_key kind raw = Ok k.
Proof.
  unfold res_primary_digest, res_primary_key. intros [_ [[-> Hl] | [[-> Hl] | [[-> Hl] | [[-> Hl] | [-> (draw & token & Hd & Ht & _ & ->)]]]]]]; cbn [Z.eqb Pos.eqb].
  - destruct (k_of_raw16 ST_SERVICE raw ltac:(in_list) Hl) as (k & -> & E). rewrite (raw16_Ok raw Hl), ok_bind.
    unfold complete_key_digest_composite. rewrite E. by eexists.
  - destruct (k_id128_Ok ST_ANCHOR raw ltac:(in_list) Hl) as [E _]. unfold complete_key_digest_id128. rewrite E. by eexists.
  - destruct (k_u64_Ok ST_INGRESS raw ltac:(in_list) Hl) as [E _]. unfold complete_key_digest_u64. rewrite E. by eexists.
  - destruct (k_of_raw16 ST_DELIVERY raw ltac:(in_list) Hl) as (k & -> & E). rewrite (raw16_Ok raw Hl), ok_bind.
    unfold complete_key_digest_composite. rewrite E. by eexists.
  - destruct (callback_raw_parts draw token Hd Ht) as (_ & -> & E2 & E0 & _). cbv zeta. change (2 + 80) with 82. rewrite E2, E0.
    destruct (k_of_raw16 ST_DELIVERY draw ltac:(in_list) ltac:(lia)) as (k & -> & E). rewrite Hd in E.
    unfold complete_key_digest_composite. rewrite E. by eexists.
Qed.

Lemma res_owner_len kind raw : res_owner_ok kind raw -> len raw <= 255 /\ bytes_ok raw /\ 0 <= kind < 256.
Proof.
  intros [Hb H]. split; [|split; [done|lia]]. destruct H as [[_ H] | [[_ H] | [[_ H] | [[_ H] | [_ (d & t & Hd & Ht & _ & ->)]]]]]; try lia.
  destruct (callback_raw_parts d t Hd Ht) as [-> _]. lia.
Qed.

Lemma res_body_built kind raw : res_owner_ok kind raw ->
  exists body k, make_res_body kind raw = Ok body /\ bytes_ok body /\ len body <= 4000 /\
    parse_reservation body = Ok {| o_kind := kind; o_raw := raw |} /\ res_primary_digest kind raw = Ok (key_digest k) /\
    slice (6 + len raw) (6 + len raw + 32) body = key_digest k /\ res_primary_key kind raw = Ok k.
Proof.
  intros Hok. destruct (res_primary kind raw Hok) as (k & Hd & Hk). destruct (res_owner_len _ _ Hok) as (Hl & Hb & Hkind).
  pose proof (len_nonneg raw) as Hl0. unfold make_res_body. rewrite Hd, ok_bind.
  unfold u64, u32, u16. rewrite (raw16_Ok raw Hl). cbn [join]. rewrite !pack_total by (cbn; lia). rewrite !ok_bind.
  eexists _, k. split; [reflexivity|].
  set (head := be_bytes 2 kind ++ be_bytes 2 0).
  set (tail := zeros (16 * 11) ++ be_bytes 4 0 ++ be_bytes 4 0 ++ be_bytes 8 0 ++ be_bytes 4 0 ++ []).
  replace (be_bytes 2 kind ++ be_bytes 2 0 ++ (be_bytes 2 (len raw) ++ raw) ++ key_digest k ++ tail)
    with (head ++ (be_bytes 2 (len raw) ++ raw) ++ key_digest k ++ tail) by (unfold head; by rewrite <- !app_assoc).
  assert (Lh : len head = 4) by done. assert (Lt : len tail = 196) by done.
  set (body := head ++ (be_bytes 2 (len raw) ++ raw) ++ key_digest k ++ tail).
  assert (Hr : parse_raw16_at body 4 = Ok (raw, 6 + len raw)) by (unfold body; rewrite <- Lh, parse_raw16_app by lia; do 2 f_equal).
  split_and!; try done.
  - unfold body, head, tail, key_digest. solve_bytes. apply (raw_sha _).
  - unfold body. simpl_lens. lia.
  - unfold parse_reservation. rewrite Hr, ok_bind. unfold body, head. rewrite <- !app_assoc. cbn [fst]. change (mret ?x) with (@Ok owner_ref x). do 2 f_equal.
    read_slices. rewrite be_val_be_bytes. apply Z.mod_small. cbn. lia.
  - unfold body. by read_slices.
Qed.

Lemma gate_res_ok kind raw : res_owner_ok kind raw -> forall body, parse_reservation body = Ok {| o_kind := kind; o_raw := raw |} ->
  gate_res body = Ok S3_OK.
Proof.
  intros [_ H] body Hp. unfold gate_res. rewrite Hp. cbn [or_corrupt o_kind o_raw].
  destruct (Z.eqb_spec kind 5) as [->|Hk]; [|done].
  destruct H as [[? _] | [[? _] | [[? _] | [[? _] | [_ (d & t & Hd & Ht & Hz & ->)]]]]]; try lia. cbv zeta.
  destruct (callback_raw_parts d t Hd Ht) as (-> & -> & _ & _ & E). change (2 + 80) with 82. change (82 + 8) with 90. rewrite E.
  cbn. by rewrite (proj2 (Z.eqb_neq _ 0) Hz).
Qed.

(** The header of a secondary row. *)
Definition secondary_header (flags rev : Z) (pid head pvd : bytes) : Prop :=
  is_byte flags /\ u64_ok rev /\ raw 16 pid /\ raw 32 head /\ raw 32 pvd /\ pvd <> zeros 32.

Lemma typed_key_ident st key kind ident :
  typed_key st key -> is_byte st -> parse_domain_key key = Some (6, st, kind, ident) -> kind <> 1 -> ident <> [].
Proof.
  intros Ht Hb Hp Hk ->. destruct (typed_key_parts st key Ht Hb) as (kind1 & ident1 & E & _ & _ & Hi). rewrite E in Hp.
  injection Hp as -> ->. unfold identity_kind_len_ok in Hi. rewrite (proj2 (Z.eqb_neq _ _) Hk) in Hi. case_ifs Hi.
Qed.

(** C10. The scheduler and reservation rows the generator builds pass the gate, for every kind
    of owner, and lead back: mode 17 finds in them the owner they were built for, under the
    very key whose digest the body stores. *)
Theorem built_rows_lead_back flags rev pid head pvd :
  secondary_header flags rev pid head pvd ->
  (forall key seq kind subject work srev ready, typed_key ST_SCHED key -> 0 < seq -> u64_ok seq -> sched_subject_ok kind subject ->
     u16_ok work -> u64_ok srev -> u32_ok ready ->
     exists body v k, make_sched_body seq kind subject work srev ready = Ok body /\
       enc_env_full 6 ST_SCHED flags rev pid head pvd body = Ok v /\ family6_current_row_s3_status key v = Ok S3_OK /\
       rebuild_peer 17 key v = Ok (Some (with_owner kind subject (peer_eval k))) /\
       slice (14 + len subject) (46 + len subject) body = key_digest k) /\
  (forall key kind owner, typed_key ST_RES key -> res_owner_ok kind owner ->
     exists body v k, make_res_body kind owner = Ok body /\
       enc_env_full 6 ST_RES flags rev pid head pvd body = Ok v /\ family6_current_row_s3_status key v = Ok S3_OK /\
       rebuild_peer 17 key v = Ok (Some (with_owner kind owner (peer_eval k))) /\
       slice (6 + len owner) (38 + len owner) body = key_digest k).
Proof.
  intros (Hfl & Hrev & Hid & Hhead & Hpvd & Hnz). split.
  - intros key seq kind subject work srev ready Hkey Hpos Hseq Hsub Hwork Hsrev Hready.
    destruct (sched_body_built seq kind subject work srev ready) as (body & k & Hb & Hok & Hl & Hp & Hr & Hs & Hd & Hpeer); [done..|].
    destruct (enc_env_Ok ST_SCHED flags rev pid head pvd body) as (v & Hv & Hh); [done|].
    destruct (typed_key_parts ST_SCHED key Hkey ltac:(done)) as (k1 & ident & Hk & _ & Ek & _). injection Ek as <-.
    exists body, v, k. split; [done|]. split; [done|]. split; [|split].
    + rewrite (gate_envelope _ _ _ _ _ _ _ _ _ _ _ Hk (typed_key_ident _ _ _ _ Hkey ltac:(done) Hk ltac:(done)) Hnz Hh).
      change (gate_body ST_SCHED 3 ident pvd body) with (gate_sched body). unfold gate_sched. rewrite Hp. cbn [or_corrupt s_owner_seq s_owner_kind s_subject].
      assert (Hkind : bool_decide (kind ∈ [1; 2; 3]) = true).
      { apply bool_decide_eq_true. destruct Hsub as [_ [[-> _] | [[-> _] | [-> _]]]]; in_list. }
      rewrite (proj2 (Z.eqb_neq seq 0)), Hkind by lia. cbn [orb negb corrupt_if]. rewrite Hd, ok_bind, Hr, ok_bind.
      by rewrite Hs, bool_decide_true.
    + rewrite (rebuild_envelope 17 _ _ _ _ _ _ _ _ _ _ _ Hk Hh). change (rebuild_body 17 ST_SCHED body) with (_rebuild_mode17 ST_SCHED body).
      unfold _rebuild_mode17. cbn [Z.eqb Pos.eqb ST_SCHED ST_QUOTA ST_RES ST_SEQ ST_STATE ST_IDEM ST_EVMAP ST_ES ST_RETRY ST_MGMT].
      rewrite Hp, ok_bind. cbn [s_owner_kind s_subject]. fold (sched_primary_key kind subject). by rewrite Hpeer.
    + rewrite <- Hs. f_equal. lia.
  - intros key kind owner Hkey Hown.
    destruct (res_body_built kind owner Hown) as (body & k & Hb & Hok & Hl & Hp & Hd & Hs & Hpk).
    destruct (enc_env_Ok ST_RES flags rev pid head pvd body) as (v & Hv & Hh); [done|].
    destruct (typed_key_parts ST_RES key Hkey ltac:(done)) as (k1 & ident & Hk & _ & Ek & _). injection Ek as <-.
    exists body, v, k. split; [done|]. split; [done|]. split; [|split].
    + rewrite (gate_envelope _ _ _ _ _ _ _ _ _ _ _ Hk (typed_key_ident _ _ _ _ Hkey ltac:(done) Hk ltac:(done)) Hnz Hh).
      by apply (gate_res_ok kind owner Hown).
    + rewrite (rebuild_envelope 17 _ _ _ _ _ _ _ _ _ _ _ Hk Hh). change (rebuild_body 17 ST_RES body) with (_rebuild_mode17 ST_RES body).
      unfold _rebuild_mode17. cbn [Z.eqb Pos.eqb ST_QUOTA ST_RES]. rewrite Hp, ok_bind. cbv zeta. cbn [o_kind o_raw].
      fold (res_primary_key kind owner). by rewrite Hpk.
    + rewrite <- Hs. f_equal. lia.
Qed.

(** A delivery's scheduler row, and a service's reservation. *)
Lemma built_rows_lead_back_witness :
  let head := pattern 1 32 in
  let sched := ok_or [] (k_u64 ST_SCHED (be_bytes 8 7)) in
  let res := ok_or [] (k_composite ST_RES (be_bytes 2 1 ++ be_bytes 2 3 ++ pattern 5 3)) in
  (exists body v k, make_sched_body 7 3 (be_bytes 8 9) 2 1 0 = Ok body /\
     enc_env_full 6 ST_SCHED 0 1 (zeros 16) head head body = Ok v /\ family6_current_row_s3_status sched v = Ok S3_OK /\
     rebuild_peer 17 sched v = Ok (Some (with_owner 3 (be_bytes 8 9) (peer_eval k))) /\
     slice (14 + len (be_bytes 8 9)) (46 + len (be_bytes 8 9)) body = key_digest k) /\
  (exists body v k, make_res_body 1 (pattern 5 3) = Ok body /\
     enc_env_full 6 ST_RES 0 1 (zeros 16) head head body = Ok v /\ family6_current_row_s3_status res v = Ok S3_OK /\
     rebuild_peer 17 res v = Ok (Some (with_owner 1 (pattern 5 3) (peer_eval k))) /\
     slice (6 + len (pattern 5 3)) (38 + len (pattern 5 3)) body = key_digest k).
Proof.
  intros head sched res. assert (H : secondary_header 0 1 (zeros 16) head head) by (repeat split; in_list).
  split.
  - apply (proj1 (built_rows_lead_back 0 1 (zeros 16) head head H) sched 7 3 (be_bytes 8 9) 2 1 0); [ | lia | in_list | | in_list | in_list | in_list].
    + exists 3, (be_bytes 8 7). split; [|split]; vm_compute; reflexivity.
    + split; [in_list|]. right. right. split; [reflexivity | vm_compute; reflexivity].
  - apply (proj2 (built_rows_lead_back 0 1 (zeros 16) head head H) res 1 (pattern 5 3)).
    + exists 5, (ok_or [] (Ok (composite ST_RES (be_bytes 2 1 ++ be_bytes 2 3 ++ pattern 5 3)))). split; [|split]; vm_compute; reflexivity.
    + split; [in_list|]. left. split; [reflexivity|]. in_list.
Defined.

(** ** Patched rows *)

(** Message kinds and bindings that go together. *)
Definition binding_fits (msg_kind binding : Z) : Prop :=
  msg_kind ∈ [1; 5] /\ binding ∈ [BIND_EXISTING_DLV; BIND_NEW_DELIVERY] \/ msg_kind ∈ [2; 3; 4; 6] /\ binding = BIND_EXISTING_TX.

Lemma reservation_digest ident : len ident = 8 ->
  exists k, k_of ST_RES [u16 3; raw16 ident] = Ok k /\ ingress_reservation_key_digest ident = Ok (key_digest k).
Proof.
  intros Hl. unfold ingress_reservation_key_digest, k_of. rewrite Hl. cbn [Z.eqb Pos.eqb negb raise_if]. rewrite ok_bind.
  cbn [join]. rewrite (raw16_Ok ident) by lia. cbn [u16]. unfold u16. rewrite pack_total by (cbn; lia). rewrite !ok_bind.
  match goal with |- context [k_composite ST_RES ?m] => destruct (k_composite_Ok ST_RES m ltac:(in_list)) as [E _] end.
  unfold complete_key_digest_composite. rewrite E. by eexists.
Qed.

Lemma ingress_body_built base ident :
  bytes_ok base -> 276 <= len base -> raw 8 ident -> be_val ident <> 0 ->
  exists body k, make_ordered_ingress_body_with_seq base ident = Ok body /\ len body = len base /\ bytes_ok body /\
    k_of ST_RES [u16 3; raw16 ident] = Ok k /\ ingress_reservation_key_digest ident = Ok (key_digest k) /\
    slice 0 8 body = ident /\ slice (len body - 32) (len body) body = key_digest k /\
    (forall a c, 8 <= a -> a <= c -> c <= 244 -> slice a c body = slice a c base).
Proof.
  intros Hb Hl [Li Bi] Hz. destruct (reservation_digest ident Li) as (k & Hk & Hd).
  unfold make_ordered_ingress_body_with_seq. rewrite Li, (proj2 (Z.eqb_neq _ 0) Hz). cbn [Z.eqb Pos.eqb negb orb raise_if]. rewrite ok_bind.
  rewrite raise_if_skip by (apply Z.ltb_ge; lia). cbv zeta. rewrite Hd, ok_bind.
  set (b := slice_assign 0 8 ident base).
  assert (Lb : len b = len base) by (unfold b; rewrite len_slice_assign; lia).
  set (body := slice_assign (len b - 32) (len b) (key_digest k) b).
  assert (Lbody : len body = len base) by (unfold body; rewrite len_slice_assign; rewrite ?len_key_digest; lia).
  exists body, k. split_and!; try done.
  - unfold body, b. apply slice_assign_ok; [apply (raw_sha _) | by apply slice_assign_ok].
  - unfold body. rewrite slice_assign_other by (rewrite ?len_key_digest; lia). unfold b. apply slice_assign_read; lia.
  - rewrite Lbody, <- Lb. unfold body. apply slice_assign_read; rewrite ?len_key_digest; lia.
  - intros a c Ha Hac Hc. unfold body. rewrite slice_assign_other by (rewrite ?len_key_digest; lia). unfold b. by rewrite slice_assign_other by lia.
Qed.

Lemma gate_ingress_ok base ident body k :
  len body = len base -> 276 <= len base -> ingress_reservation_key_digest ident = Ok (key_digest k) ->
  len ident = 8 -> be_val ident <> 0 -> slice 0 8 body = ident -> slice (len body - 32) (len body) body = key_digest k ->
  (forall a c, 8 <= a -> a <= c -> c <= 244 -> slice a c body = slice a c base) ->
  be_val (slice 8 16 base) <> 0 -> binding_fits (be_val (slice 20 24 base)) (be_val (slice 16 18 base)) ->
  gate_ingress 3 ident body = Ok S3_OK.
Proof.
  intros Lb Hl Hd Li Hz H0 Hr Hin Hseq Hfit. unfold gate_ingress, parse_ingress.
  rewrite raise_if_skip by (unfold PARTY_LEN, TARGET_LEN; apply Z.ltb_ge; lia). cbv zeta.
  change (mret ?x) with (@Ok ingress x). cbn [or_corrupt i_ordered_seq i_owner_seq i_binding].
  rewrite H0, Li, !(Hin _ _) by lia. cbn [Z.eqb Pos.eqb negb orb corrupt_if]. rewrite bool_decide_true by done. cbn [negb corrupt_if].
  rewrite (proj2 (Z.eqb_neq _ 0) Hz), (proj2 (Z.eqb_neq _ 0) Hseq). cbn [orb corrupt_if].
  rewrite Hd, ok_bind, Hr, (bool_decide_true (key_digest k = _)) by done. cbn [negb corrupt_if].
  destruct Hfit as [[H1 H2] | [H1 ->]].
  - rewrite (bool_decide_true (_ ∈ [1; 5])), (bool_decide_true (_ ∈ [BIND_EXISTING_DLV; _])) by done. cbn [negb andb corrupt_if].
    assert (bool_decide (be_val (slice 20 24 base) ∈ [2; 3; 4; 6]) = false) as ->; [|done].
    apply bool_decide_eq_false. rewrite !elem_of_cons, elem_of_nil in *. lia.
  - rewrite (bool_decide_true (_ ∈ [2; 3; 4; 6])) by done. rewrite Z.eqb_refl.
    assert (bool_decide (be_val (slice 20 24 base) ∈ [1; 5]) = false) as ->; [|done].
    apply bool_decide_eq_false. rewrite !elem_of_cons, elem_of_nil in *. lia.
Qed.

(** ** Reading only a prefix *)

Definition same_upto (k : Z) (a b : bytes) : Prop := len a = len b /\ slice 0 k a = slice 0 k b.

Lemma same_upto_slice k a b lo hi : same_upto k a b -> 0 <= lo <= hi -> hi <= k -> slice lo hi a = slice lo hi b.
Proof.
  intros [_ H] Hlo Hhi. assert (E : forall m : bytes, slice lo hi m = slice lo hi (slice 0 k m)).
  { intros m. unfold slice. cbn [Z.to_nat]. rewrite Z.sub_0_r. cbn [drop].
    rewrite skipn_firstn_comm, take_take. f_equal. lia. }
  by rewrite (E a), (E b), H.
Qed.

Lemma same_upto_byte k a b i : same_upto k a b -> 0 <= i < k -> k <= len a -> byte_at i a = byte_at i b.
Proof.
  intros H Hi Hk. pose proof H as [Hl _]. replace i with (i + 0) by lia.
  rewrite <- (byte_at_slice a 0 i (i + 1)), <- (byte_at_slice b 0 i (i + 1)) by lia.
  by rewrite (same_upto_slice k a b i (i + 1) H) by lia.
Qed.

Lemma slice_assign_upto lo hi v buf : 0 <= lo <= hi -> hi <= len buf -> len v = hi - lo -> same_upto lo buf (slice_assign lo hi v buf).
Proof. intros H1 H2 H3. split; [by rewrite len_slice_assign|]. by rewrite slice_assign_other by lia. Qed.

Lemma parse_raw16_inv buf off c stop :
  bytes_ok buf -> 0 <= off -> parse_raw16_at buf off = Ok (c, stop) -> off + 2 <= stop <= len buf /\ len c = stop - off - 2 /\ c = slice (off + 2) stop buf /\ stop = off + 2 + be_val (slice off (off + 2) buf).
Proof.
  intros Hb Ho H. unfold parse_raw16_at in H. cbv zeta in H. inv_res. bool_to_prop.
  pose proof (be_val_slice_bound buf off 2 Hb ltac:(lia)). split; [lia|]. split; [|done]. rewrite len_slice by lia. lia.
Qed.

Lemma parse_raw16_local k a b off c stop :
  bytes_ok a -> 0 <= off -> same_upto k a b -> parse_raw16_at a off = Ok (c, stop) -> stop <= k -> parse_raw16_at b off = Ok (c, stop).
Proof.
  intros Ha Ho Hs H Hk. destruct (parse_raw16_inv a off c stop Ha Ho H) as (H1 & H2 & H3 & H4). pose proof Hs as [Hl _].
  unfold parse_raw16_at. rewrite raise_if_skip by (apply Z.ltb_ge; lia). cbv zeta.
  rewrite <- (same_upto_slice k a b off (off + 2) Hs), <- H4 by lia. rewrite raise_if_skip by (apply Z.ltb_ge; lia).
  by rewrite <- (same_upto_slice k a b (off + 2) stop Hs), H3 by lia.
Qed.

Lemma skip_text_inv a off o : bytes_ok a -> 0 <= off -> skip_text_id a off = Ok o -> off < o /\ off < len a /\ o = off + 1 + byte_at off a.
Proof.
  intros Ha Ho H. unfold skip_text_id in H. inv_res. bool_to_prop.
  pose proof (byte_at_ok off a Ha) as Hb. unfold is_byte in Hb. lia.
Qed.

Lemma skip_text_local k a b off o :
  bytes_ok a -> 0 <= off -> same_upto k a b -> k <= len a -> skip_text_id a off = Ok o -> o <= k -> skip_text_id b off = Ok o.
Proof.
  intros Ha Ho Hs Hka H Hk. destruct (skip_text_inv a off o Ha Ho H) as (H1 & H2 & H3). pose proof Hs as [Hl _].
  unfold skip_text_id. rewrite raise_if_skip by (apply Z.leb_gt; lia). by rewrite <- (same_upto_byte k a b off Hs), H3 by lia.
Qed.

Lemma skip_service_local k a b off o :
  bytes_ok a -> 0 <= off -> same_upto k a b -> k <= len a -> skip_service_identity a off = Ok o -> o <= k ->
  off < o /\ skip_service_identity b off = Ok o.
Proof.
  intros Ha Ho Hs Hka H Hk. unfold skip_service_identity in *. apply bind_Ok in H as (o1 & E1 & H). apply bind_Ok in H as (o2 & E2 & H).
  apply bind_Ok in H as (o3 & E3 & H). injection H as <-.
  destruct (skip_text_inv a off o1 Ha Ho E1) as (? & _). destruct (skip_text_inv a o1 o2 Ha ltac:(lia) E2) as (? & _).
  destruct (skip_text_inv a o2 o3 Ha ltac:(lia) E3) as (? & _). split; [lia|].
  rewrite (skip_text_local k a b off o1), ok_bind, (skip_text_local k a b o1 o2), ok_bind, (skip_text_local k a b o2 o3) by (done || lia). done.
Qed.

(** ** Anchors *)

(** Where the scope of an anchor starts, behind the end of its service identity. *)
Definition anchor_scope_off (o : Z) : Z := o + 32 + 32 + 16 + 8 + (16 + 8 + 16 + 8 + 8) + (4 + 4) + TARGET_LEN.

Lemma parse_anchor_shape body a :
  parse_anchor body = Ok a ->
  exists o o2 o3, skip_service_identity body (36 + PARTY_LEN) = Ok o /\
    parse_raw16_at body (anchor_scope_off o) = Ok (a_scope a, o2) /\ parse_raw16_at body o2 = Ok (a_ikey a, o3) /\
    a_txn a = slice 0 16 body /\ a_sched_seq a = be_val (slice (o3 + 128) (o3 + 136) body) /\
    a = {| a_txn := slice 0 16 body; a_txn_seq := be_val (slice 16 24 body); a_family := be_val (slice 32 36 body);
           a_event_id := slice (o + 64) (o + 80) body; a_scope := a_scope a; a_ikey := a_ikey a;
           a_sched_seq := be_val (slice (o3 + 128) (o3 + 136) body) |}.
Proof.
  intros H. unfold parse_anchor in H. apply bind_Ok in H as (o & E & H). cbv zeta in H.
  apply bind_Ok in H as ([scope o2] & E2 & H). apply bind_Ok in H as ([ikey o3] & E3 & H). injection H as <-. exists o, o2, o3.
  cbn [a_scope a_ikey a_txn a_sched_seq].
  replace (o3 + 32 * 4 + 8) with (o3 + 136) by lia. change (32 * 4) with 128.
  replace (o + 32 + 32 + 16) with (o + 80) by lia. replace (o + 32 + 32) with (o + 64) by lia.
  split_and!; try done.
Qed.

Lemma k_of_digest st ps : st ∈ composite_subtypes -> forall m, join ps = Ok m ->
  exists k, k_of st ps = Ok k /\ complete_key_digest_composite st m = Ok (key_digest k).
Proof.
  intros Hst m Hm. unfold k_of, complete_key_digest_composite. rewrite Hm, ok_bind. destruct (k_composite_Ok st m Hst) as [-> _]. by eexists.
Qed.

(** What [recompute_anchor_idempotency_map_digest] writes, and where. *)
Lemma recompute_shape body o scope o2 ikey o3 m k :
  skip_service_identity body (36 + PARTY_LEN) = Ok o -> parse_raw16_at body (anchor_scope_off o) = Ok (scope, o2) ->
  parse_raw16_at body o2 = Ok (ikey, o3) -> join [raw16 scope; raw16 ikey] = Ok m ->
  complete_key_digest_composite ST_IDEM m = Ok (key_digest k) ->
  recompute_anchor_idempotency_map_digest body = Ok (slice_assign (o3 + 32) (o3 + 64) (key_digest k) body).
Proof.
  intros E1 E2 E3 E4 E5. unfold recompute_anchor_idempotency_map_digest. change (16 + 8 + 8 + 4 + PARTY_LEN) with (36 + PARTY_LEN).
  rewrite E1, ok_bind. cbv zeta.
  replace (o + (32 + 32) + 16 + 8 + (16 + 8 + 16 + 8 + 8) + (4 + 4) + TARGET_LEN) with (anchor_scope_off o) by (unfold anchor_scope_off; lia).
  rewrite E2, ok_bind, E3, ok_bind, E4, ok_bind, E5, ok_bind. by replace (o3 + 32 + 32) with (o3 + 64) by lia.
Qed.

Lemma skip_service_ge body off o : bytes_ok body -> 0 <= off -> skip_service_identity body off = Ok o -> off < o.
Proof.
  intros Hb H0 H. unfold skip_service_identity in H. apply bind_Ok in H as (p1 & F1 & H).
  apply bind_Ok in H as (p2 & F2 & H). apply bind_Ok in H as (p3 & F3 & H). injection H as <-.
  destruct (skip_text_inv body off p1 Hb H0 F1) as (? & _). destruct (skip_text_inv body p1 p2 Hb ltac:(lia) F2) as (? & _).
  destruct (skip_text_inv body p2 p3 Hb ltac:(lia) F3) as (? & _). lia.
Qed.

(** Where an anchor body keeps the digest of its idempotency key: behind the scope, the
    key and the digest of the sequence index, as the readers find them. *)
Definition anchor_map_at (body : bytes) (im : Z) : Prop :=
  exists o scope o2 ikey o3, skip_service_identity body (36 + PARTY_LEN) = Ok o /\
    parse_raw16_at body (anchor_scope_off o) = Ok (scope, o2) /\ parse_raw16_at body o2 = Ok (ikey, o3) /\ im = o3 + 32.

Lemma recompute_built body a body' :
  bytes_ok body -> parse_anchor body = Ok a -> recompute_anchor_idempotency_map_digest body = Ok body' -> len body' = len body ->
  exists k im, k_of ST_IDEM [raw16 (a_scope a); raw16 (a_ikey a)] = Ok k /\ parse_anchor body' = Ok a /\ bytes_ok body' /\
    recompute_anchor_idempotency_map_digest body' = Ok body' /\ slice im (im + 32) body' = key_digest k /\
    anchor_map_at body im /\ body' = slice_assign im (im + 32) (key_digest k) body.
Proof.
  intros Hb Ha Hr Hl. destruct (parse_anchor_shape body a Ha) as (o & o2 & o3 & E1 & E2 & E3 & _ & _ & Ea).
  assert (Hj : exists m, join [raw16 (a_scope a); raw16 (a_ikey a)] = Ok m).
  { unfold recompute_anchor_idempotency_map_digest in Hr. change (16 + 8 + 8 + 4 + PARTY_LEN) with (36 + PARTY_LEN) in Hr.
    rewrite E1, ok_bind in Hr. cbv zeta in Hr.
    replace (o + (32 + 32) + 16 + 8 + (16 + 8 + 16 + 8 + 8) + (4 + 4) + TARGET_LEN) with (anchor_scope_off o) in Hr by (unfold anchor_scope_off; lia).
    rewrite E2, ok_bind, E3, ok_bind in Hr. apply bind_Ok in Hr as (m & Hm & _). by exists m. }
  destruct Hj as [m Hm]. destruct (k_of_digest ST_IDEM _ ltac:(in_list) m Hm) as (k & Hk & Hd).
  rewrite (recompute_shape _ _ _ _ _ _ _ _ E1 E2 E3 Hm Hd) in Hr. injection Hr as <-.
  pose proof (skip_service_ge body (36 + PARTY_LEN) o Hb ltac:(done) E1) as Ho.
  destruct (parse_raw16_inv body (anchor_scope_off o) _ _ Hb ltac:(unfold anchor_scope_off, PARTY_LEN, TARGET_LEN in *; lia) E2) as (I1 & _).
  destruct (parse_raw16_inv body o2 _ _ Hb ltac:(unfold anchor_scope_off, PARTY_LEN, TARGET_LEN in *; lia) E3) as (I2 & _).
  unfold anchor_scope_off, PARTY_LEN, TARGET_LEN in I1, Ho.
  assert (Hfit : o3 + 64 <= len body).
  { unfold slice_assign, len in Hl. rewrite !length_app, length_take, length_drop in Hl. pose proof (len_key_digest k) as Lk. unfold len in *. lia. }
  set (body' := slice_assign (o3 + 32) (o3 + 64) (key_digest k) body) in *.
  assert (Hs : same_upto (o3 + 32) body body') by (apply slice_assign_upto; rewrite ?len_key_digest; lia).
  destruct (skip_service_local _ body body' (36 + PARTY_LEN) o Hb ltac:(done) Hs ltac:(lia) E1 ltac:(lia)) as [_ E1'].
  pose proof (parse_raw16_local _ body body' (anchor_scope_off o) _ _ Hb ltac:(unfold anchor_scope_off, TARGET_LEN; lia) Hs E2 ltac:(lia)) as E2'.
  pose proof (parse_raw16_local _ body body' o2 _ _ Hb ltac:(lia) Hs E3 ltac:(lia)) as E3'.
  exists k, (o3 + 32). split; [done|]. split; [|split; [|split; [|split; [|split]]]].
  - unfold parse_anchor. rewrite E1', ok_bind. cbv zeta.
    replace (o + 32 + 32 + 16 + 8 + (16 + 8 + 16 + 8 + 8) + (4 + 4) + TARGET_LEN) with (anchor_scope_off o) by (unfold anchor_scope_off; lia).
    rewrite E2', ok_bind, E3', ok_bind. rewrite Ea at 3. cbn. f_equal.
    replace (o3 + 32 * 4 + 8) with (o3 + 136) by lia. replace (o + 32 + 32 + 16) with (o + 80) by lia. replace (o + 32 + 32) with (o + 64) by lia.
    change (32 * 4) with 128.
    rewrite <- !(same_upto_slice _ _ _ _ _ Hs) by lia. f_equal. f_equal.
    apply slice_assign_other; rewrite ?len_key_digest; lia.
  - apply slice_assign_ok; [apply (raw_sha _) | done].
  - rewrite (recompute_shape _ _ _ _ _ _ _ _ E1' E2' E3' Hm Hd). f_equal. apply slice_assign_twice; rewrite ?len_key_digest; lia.
  - replace (o3 + 32 + 32) with (o3 + 64) by lia. apply slice_assign_read; rewrite ?len_key_digest; lia.
  - exists o, (a_scope a), o2, (a_ikey a), o3. exact (conj E1 (conj E2 (conj E3 eq_refl))).
  - unfold body'. f_equal; lia.
Qed.

(** ** Cleanup plans *)

Lemma cp_body_patched body cp live :
  bytes_ok body -> parse_cp body = Ok cp -> raw 32 live ->
  let b := slice_assign (cp_value_digest_off cp) (cp_value_digest_off cp + 32) live body in
  len b = len body /\ bytes_ok b /\
  parse_cp b = Ok {| cp_kind := cp_kind cp; cp_subject := cp_subject cp; cp_key_digest := cp_key_digest cp; cp_value_digest := live;
                     cp_value_digest_off := cp_value_digest_off cp |}.
Proof.
  intros Hb H [Ll Bl] b. unfold parse_cp in H. apply bind_Ok in H as ([subject o] & E & H). inv_res. bool_to_prop.
  cbn [cp_value_digest_off cp_kind cp_subject cp_key_digest] in b |- *.
  destruct (parse_raw16_inv body 4 subject o Hb ltac:(done) E) as (I1 & _).
  assert (Hs : same_upto (o + 32) body b) by (apply slice_assign_upto; lia). pose proof Hs as [Hl _].
  split; [done|]. split; [by apply slice_assign_ok|].
  unfold parse_cp. rewrite (parse_raw16_local _ body b 4 _ _ Hb ltac:(done) Hs E ltac:(lia)), ok_bind.
  rewrite raise_if_skip by (apply Z.ltb_ge; lia). rewrite <- !(same_upto_slice _ _ _ _ _ Hs) by lia. do 2 f_equal.
  replace (o + 64) with (o + 32 + 32) by lia. unfold b. by apply slice_assign_read; lia.
Qed.

Lemma gate_cp_ok body cp live : parse_cp body = Ok cp -> cp_value_digest cp = live -> live <> zeros 32 -> gate_cp live body = Ok S3_OK.
Proof. intros H <- Hz. unfold gate_cp. rewrite H. cbn [or_corrupt]. rewrite bool_decide_false by done. by rewrite bool_decide_true. Qed.

Lemma patch_cleanup_built flags rev pid head pvd body v cp live :
  env_ok ST_CP flags rev pid head pvd body -> envelope_holds ST_CP flags rev pid head pvd body v -> parse_cp body = Ok cp ->
  raw 32 live -> live <> zeros 32 ->
  let b := slice_assign (cp_value_digest_off cp) (cp_value_digest_off cp + 32) live body in
  exists v', patch_cleanup_plan_live_primary_digest v live = Ok v' /\ enc_env_full 6 ST_CP flags rev pid head live b = Ok v' /\
    envelope_holds ST_CP flags rev pid head live b v' /\ gate_cp live b = Ok S3_OK /\
    parse_cp b = Ok {| cp_kind := cp_kind cp; cp_subject := cp_subject cp; cp_key_digest := cp_key_digest cp; cp_value_digest := live;
                       cp_value_digest_off := cp_value_digest_off cp |}.
Proof.
  intros He Hh Hcp Hlive Hz b. revert He Hh Hcp Hlive Hz.
  intros (Hst & Hfl & Hrev & Hid & Hhead & Hpvd & Hb & Hl) Hh Hcp Hlive Hz.
  destruct (cp_body_patched body cp live Hb Hcp Hlive) as (Lb & Bb & Hp). change (slice_assign _ _ _ _) with b in Lb, Bb, Hp.
  destruct (enc_env_Ok ST_CP flags rev pid head live b) as (v' & Hv' & Hh'); [unfold env_ok; by rewrite Lb|].
  exists v'. split; [|split; [done|split; [done|split; [|done]]]].
  - destruct Hh as [_ _ _ He _ H15 H16 H24 H40]. unfold patch_cleanup_plan_live_primary_digest.
    destruct Hlive as [Ll _]. rewrite Ll, bool_decide_false by done. cbn [Z.eqb Pos.eqb negb orb raise_if]. rewrite ok_bind, He, ok_bind.
    cbn [Z.eqb Pos.eqb ST_CP negb raise_if]. rewrite ok_bind, Hcp, ok_bind. cbv zeta. fold b. by rewrite H15, H16, H24, H40.
  - by eapply gate_cp_ok.
Qed.

Lemma rebuild17_cp body cp : parse_cp body = Ok cp ->
  rebuild_body 17 ST_CP body = peer (owner_key 2 3 (cp_kind cp) (cp_subject cp) (ValueError "M17 CP bad kind")) (with_owner (cp_kind cp) (cp_subject cp)).
Proof.
  intros H. change (rebuild_body 17 ST_CP body) with (cp ← parse_cp body; peer (owner_key 2 3 (cp_kind cp) (cp_subject cp) (ValueError "M17 CP bad kind"))
    (with_owner (cp_kind cp) (cp_subject cp))). by rewrite H.
Qed.

(** ** Properties of patched rows *)

Definition row_header (flags rev : Z) (pid head : bytes) : Prop := is_byte flags /\ u64_ok rev /\ raw 16 pid /\ raw 32 head.

(** An ingress body with a new sequence number. *)
Lemma patched_ingress flags rev pid head : row_header flags rev pid head ->
  forall base ident key, bytes_ok base -> 276 <= len base <= 4000 -> raw 8 ident -> be_val ident <> 0 -> be_val (slice 8 16 base) <> 0 ->
   binding_fits (be_val (slice 20 24 base)) (be_val (slice 16 18 base)) -> k_u64 ST_INGRESS ident = Ok key ->
   exists body v k, make_ordered_ingress_body_with_seq base ident = Ok body /\ enc_env_full 6 ST_INGRESS flags rev pid head (zeros 32) body = Ok v /\
     family6_current_row_s3_status key v = Ok S3_OK /\ rebuild_peer 15 key v = Ok (Some (peer_eval k)) /\
     slice (len body - 32) (len body) body = key_digest k.
Proof.
  intros (Hfl & Hrev & Hid & Hhead).
  intros base ident key Hb Hl Hi Hz Hseq Hfit Hkey.
  destruct (ingress_body_built base ident Hb ltac:(lia) Hi Hz) as (body & k & Hm & Lb & Bb & Hk & Hd & H0 & Hr & Hin).
  destruct (enc_env_Ok ST_INGRESS flags rev pid head (zeros 32) body) as (v & Hv & Hh); [split_and!; try done; [apply raw_zeros; lia | lia]|].
  destruct (k_u64_Ok ST_INGRESS ident ltac:(in_list) (proj1 Hi)) as [Ek Ht]. rewrite Ek in Hkey. apply Ok_inj in Hkey as <-.
  assert (Hp : parse_domain_key (ROOT_V1 ++ [6; ST_INGRESS; 1; 3; 8] ++ ident) = Some (6, ST_INGRESS, 3, ident)).
  { unfold parse_domain_key. rewrite !len_app, (proj1 Hi). done. }
  assert (Hne : ident <> []) by (intros ->; by destruct Hi).
  exists body, v, k. split_and!; try done.
  + rewrite (gate_envelope _ _ _ _ _ _ _ _ _ _ _ Hp Hne eq_refl Hh). apply (gate_ingress_ok base ident body k); try done; try lia. apply Hi.
  + rewrite (rebuild_envelope 15 _ _ _ _ _ _ _ _ _ _ _ Hp Hh). change (rebuild_body 15 ST_INGRESS body) with (rebuild_ingress 15 body).
    unfold rebuild_ingress, parse_ingress. rewrite raise_if_skip by (unfold PARTY_LEN, TARGET_LEN; apply Z.ltb_ge; lia).
    cbv zeta. rewrite ok_bind. cbn [Z.eqb Pos.eqb i_ordered_seq]. by rewrite H0, Hk.
Qed.

(** An anchor body with its map digest recomputed. *)
Lemma patched_anchor flags rev pid head : row_header flags rev pid head ->
  forall body a body' key, bytes_ok body -> parse_anchor body = Ok a -> recompute_anchor_idempotency_map_digest body = Ok body' ->
   len body' = len body -> len body <= 4000 -> a_scope a <> [] -> a_ikey a <> [] -> a_txn a <> zeros 16 -> k_id128 ST_ANCHOR (a_txn a) = Ok key ->
   recompute_anchor_idempotency_map_digest body' = Ok body' /\ parse_anchor body' = Ok a /\
   exists v k im, enc_env_full 6 ST_ANCHOR flags rev pid head (zeros 32) body' = Ok v /\ family6_current_row_s3_status key v = Ok S3_OK /\
     rebuild_peer 5 key v = Ok (Some (with_dual (a_scope a) (Some (a_ikey a)) (peer_eval k))) /\ slice im (im + 32) body' = key_digest k /\
     anchor_map_at body im /\ body' = slice_assign im (im + 32) (key_digest k) body.
Proof.
  intros (Hfl & Hrev & Hid & Hhead).
  intros body a body' key Hb Ha Hr Hl Hmax Hs Hi Hz Hkey.
  destruct (recompute_built body a body' Hb Ha Hr Hl) as (k & im & Hk & Ha' & Bb' & Hr' & Him & Hat & Heq). split; [done|]. split; [done|].
  destruct (enc_env_Ok ST_ANCHOR flags rev pid head (zeros 32) body') as (v & Hv & Hh); [split_and!; try done; [apply raw_zeros; lia | lia]|].
  destruct (decide (len (a_txn a) = 16)) as [Lt|Lt]; [|unfold k_id128 in Hkey; by rewrite (proj2 (Z.eqb_neq _ _) Lt) in Hkey].
  destruct (k_id128_Ok ST_ANCHOR (a_txn a) ltac:(in_list) Lt) as [Ek Ht]. rewrite Ek in Hkey. apply Ok_inj in Hkey as <-.
  assert (Hp : parse_domain_key (ROOT_V1 ++ [6; ST_ANCHOR; 1; 2; 16] ++ a_txn a) = Some (6, ST_ANCHOR, 2, a_txn a)).
  { unfold parse_domain_key. rewrite !len_app, Lt. done. }
  assert (Hne : a_txn a <> []) by (intros E; by rewrite E in Lt).
  exists v, k, im. split_and!; try done.
  + rewrite (gate_envelope _ _ _ _ _ _ _ _ _ _ _ Hp Hne eq_refl Hh).
    change (gate_body ST_ANCHOR 2 (a_txn a) (zeros 32) body') with (gate_anchor 2 (a_txn a) body').
    unfold gate_anchor. rewrite Ha', ok_bind, Hr', ok_bind. cbn [or_corrupt mret res_ret].
    rewrite (bool_decide_true (body' = body')), (bool_decide_false (a_scope a = [])), (bool_decide_false (a_ikey a = [])), (bool_decide_false (a_txn a = zeros 16)), Lt by done.
    by rewrite (bool_decide_true (a_txn a = a_txn a)).
  + rewrite (rebuild_envelope 5 _ _ _ _ _ _ _ _ _ _ _ Hp Hh). change (rebuild_body 5 ST_ANCHOR body') with (rebuild_anchor 5 body').
    unfold rebuild_anchor. rewrite Ha', ok_bind. cbn [Z.eqb Pos.eqb]. by rewrite Hk.
Qed.

(** A cleanup plan with the digest of its live primary. *)
Lemma patched_cleanup flags rev pid head : row_header flags rev pid head ->
  forall body cp live pvd v key, bytes_ok body -> len body <= 4000 -> parse_cp body = Ok cp -> raw 32 live -> live <> zeros 32 -> raw 32 pvd ->
   typed_key ST_CP key -> enc_env_full 6 ST_CP flags rev pid head pvd body = Ok v ->
   let b := slice_assign (cp_value_digest_off cp) (cp_value_digest_off cp + 32) live body in
   exists v', patch_cleanup_plan_live_primary_digest v live = Ok v' /\ enc_env_full 6 ST_CP flags rev pid head live b = Ok v' /\
     header_pvd v' = live /\ family6_current_row_s3_status key v' = Ok S3_OK /\
     parse_cp b = Ok {| cp_kind := cp_kind cp; cp_subject := cp_subject cp; cp_key_digest := cp_key_digest cp; cp_value_digest := live;
                        cp_value_digest_off := cp_value_digest_off cp |} /\
     rebuild_peer 17 key v' = rebuild_peer 17 key v /\
     (forall k, cp_kind cp = 2 -> k_id128 ST_ANCHOR (cp_subject cp) = Ok k -> rebuild_peer 17 key v' = Ok (Some (with_owner 2 (cp_subject cp) (peer_eval k)))) /\
     (forall k, cp_kind cp = 3 -> k_of ST_DELIVERY [raw16 (cp_subject cp)] = Ok k ->
        rebuild_peer 17 key v' = Ok (Some (with_owner 3 (cp_subject cp) (peer_eval k)))).
Proof.
  intros (Hfl & Hrev & Hid & Hhead).
  intros body cp live pvd v key Hb Hmax Hcp Hlive Hz Hpvd Hkey Hv.
  assert (He : env_ok ST_CP flags rev pid head pvd body) by (split_and!; done).
  destruct (enc_env_Ok _ _ _ _ _ _ _ He) as (v1 & Hv1 & Hh). rewrite Hv in Hv1. injection Hv1 as <-.
  destruct (patch_cleanup_built _ _ _ _ _ _ _ _ _ He Hh Hcp Hlive Hz) as (v' & Hv' & Ev' & Hh' & Hg & Hp'). intros b. exists v'.
  destruct (typed_key_parts ST_CP key Hkey ltac:(done)) as (k1 & ident & Hk & _ & Ek & _). injection Ek as <-.
  assert (R : forall p w c, envelope_holds ST_CP flags rev pid head p w v' -> parse_cp w = Ok c -> rebuild_peer 17 key v' =
            peer (owner_key 2 3 (cp_kind c) (cp_subject c) (ValueError "M17 CP bad kind")) (with_owner (cp_kind c) (cp_subject c))).
  { intros p w c Hw Hc. rewrite (rebuild_envelope 17 _ _ _ _ _ _ _ _ _ _ _ Hk Hw). by apply rebuild17_cp. }
  split; [done|]. split; [done|]. split; [by destruct Hh'|].
  split; [by rewrite (gate_envelope _ _ _ _ _ _ _ _ _ _ _ Hk (typed_key_ident _ _ _ _ Hkey ltac:(done) Hk ltac:(done)) Hz Hh')|].
  split; [done|]. rewrite (R _ _ _ Hh' Hp'). cbn [cp_kind cp_subject]. split.
  { rewrite (rebuild_envelope 17 _ _ _ _ _ _ _ _ _ _ _ Hk Hh). symmetry. by apply rebuild17_cp. }
  unfold owner_key. split; intros k -> ->; done.
Qed.

(** C11. The three patches give rows the gate accepts.  An ordered-ingress body given a new
    sequence number stores, as its last 32 bytes, the digest of the reservation key that
    mode 15 probes for that number.  An anchor body whose map digest is recomputed differs
    from the old one in that digest only, which is then that of the key mode 5 probes;
    recomputing it again changes nothing.  A cleanup plan patched with a live digest is the
    row encoded from the old header and body with that digest in both, and nothing else
    changed: the plan names the same primary, by the same key digest, and mode 17
    leads where it led before, to the anchor or the delivery the plan names. *)
Theorem patched_rows_pass_gate flags rev pid head :
  row_header flags rev pid head ->
  (forall base ident key, bytes_ok base -> 276 <= len base <= 4000 -> raw 8 ident -> be_val ident <> 0 -> be_val (slice 8 16 base) <> 0 ->
     binding_fits (be_val (slice 20 24 base)) (be_val (slice 16 18 base)) -> k_u64 ST_INGRESS ident = Ok key ->
     exists body v k, make_ordered_ingress_body_with_seq base ident = Ok body /\ enc_env_full 6 ST_INGRESS flags rev pid head (zeros 32) body = Ok v /\
       family6_current_row_s3_status key v = Ok S3_OK /\ rebuild_peer 15 key v = Ok (Some (peer_eval k)) /\
       slice (len body - 32) (len body) body = key_digest k) /\
  (forall body a body' key, bytes_ok body -> parse_anchor body = Ok a -> recompute_anchor_idempotency_map_digest body = Ok body' ->
     len body' = len body -> len body <= 4000 -> a_scope a <> [] -> a_ikey a <> [] -> a_txn a <> zeros 16 -> k_id128 ST_ANCHOR (a_txn a) = Ok key ->
     recompute_anchor_idempotency_map_digest body' = Ok body' /\ parse_anchor body' = Ok a /\
     exists v k im, enc_env_full 6 ST_ANCHOR flags rev pid head (zeros 32) body' = Ok v /\ family6_current_row_s3_status key v = Ok S3_OK /\
       rebuild_peer 5 key v = Ok (Some (with_dual (a_scope a) (Some (a_ikey a)) (peer_eval k))) /\ slice im (im + 32) body' = key_digest k /\
       anchor_map_at body im /\ body' = slice_assign im (im + 32) (key_digest k) body) /\
  (forall body cp live pvd v key, bytes_ok body -> len body <= 4000 -> parse_cp body = Ok cp -> raw 32 live -> live <> zeros 32 -> raw 32 pvd ->
     typed_key ST_CP key -> enc_env_full 6 ST_CP flags rev pid head pvd body = Ok v ->
     let b := slice_assign (cp_value_digest_off cp) (cp_value_digest_off cp + 32) live body in
     exists v', patch_cleanup_plan_live_primary_digest v live = Ok v' /\ enc_env_full 6 ST_CP flags rev pid head live b = Ok v' /\
       header_pvd v' = live /\ family6_current_row_s3_status key v' = Ok S3_OK /\
       parse_cp b = Ok {| cp_kind := cp_kind cp; cp_subject := cp_subject cp; cp_key_digest := cp_key_digest cp; cp_value_digest := live;
                          cp_value_digest_off := cp_value_digest_off cp |} /\
       rebuild_peer 17 key v' = rebuild_peer 17 key v /\
       (forall k, cp_kind cp = 2 -> k_id128 ST_ANCHOR (cp_subject cp) = Ok k -> rebuild_peer 17 key v' = Ok (Some (with_owner 2 (cp_subject cp) (peer_eval k)))) /\
       (forall k, cp_kind cp = 3 -> k_of ST_DELIVERY [raw16 (cp_subject cp)] = Ok k ->
          rebuild_peer 17 key v' = Ok (Some (with_owner 3 (cp_subject cp) (peer_eval k))))).
Proof. intros H. split; [by apply patched_ingress|]. split; [by apply patched_anchor | by apply patched_cleanup]. Qed.

(** An ingress row with a new sequence number, an anchor whose digest was zero, and the
    cleanup plan of a row. *)
Lemma patched_rows_pass_gate_witness :
  let head := pattern 1 32 in let txn := pattern 9 16 in
  let base := zeros 8 ++ be_bytes 8 5 ++ be_bytes 2 BIND_NEW_DELIVERY ++ zeros 2 ++ be_bytes 4 1 ++ zeros 260 in
  let text := be_bytes 2 2 ++ pattern 3 2 in
  let body := txn ++ be_bytes 8 4 ++ zeros (12 + 100) ++ zeros 51 ++ zeros 252 ++ text ++ text ++ zeros 160 in
  let body' := ok_or [] (recompute_anchor_idempotency_map_digest body) in
  let owner := be_bytes 2 16 ++ txn in
  let plan := be_bytes 2 2 ++ zeros 2 ++ owner ++ zeros 64 in
  let kin := ok_or [] (k_u64 ST_INGRESS (be_bytes 8 6)) in
  let kan := ok_or [] (k_id128 ST_ANCHOR txn) in
  let kcp := ok_or [] (k_composite ST_CP owner) in
  let value := ok_or [] (enc_env_full 6 ST_CP 0 1 (zeros 16) head (zeros 32) plan) in
  (exists body v k, make_ordered_ingress_body_with_seq base (be_bytes 8 6) = Ok body /\
     enc_env_full 6 ST_INGRESS 0 1 (zeros 16) head (zeros 32) body = Ok v /\
     family6_current_row_s3_status kin v = Ok S3_OK /\ rebuild_peer 15 kin v = Ok (Some (peer_eval k)) /\
     slice (len body - 32) (len body) body = key_digest k) /\
  recompute_anchor_idempotency_map_digest body' = Ok body' /\
  exists v', patch_cleanup_plan_live_primary_digest value head = Ok v' /\ header_pvd v' = head /\ family6_current_row_s3_status kcp v' = Ok S3_OK /\
    rebuild_peer 17 kcp v' = Ok (Some (with_owner 2 txn (peer_eval kan))).
Proof.
  intros head txn base text body body' owner plan kin kan kcp value. assert (H : row_header 0 1 (zeros 16) head) by (repeat split; in_list).
  destruct (patched_rows_pass_gate 0 1 (zeros 16) head H) as (Hin & Han & Hcp). split; [|split].
  - apply (Hin base (be_bytes 8 6) kin); [in_list | split; in_list | split; in_list | in_list | in_list | | vm_compute; reflexivity].
    left. split; in_list.
  - apply (Han body (ok_or (Build_anchor [] 0 0 [] [] [] 0) (parse_anchor body)) body' kan);
      [in_list | vm_compute; reflexivity | vm_compute; reflexivity | vm_compute; reflexivity | in_list | in_list | in_list | in_list | vm_compute; reflexivity].
  - set (cp := ok_or (Build_cleanup_plan 0 [] [] [] 0) (parse_cp plan)).
    destruct (Hcp plan cp head (zeros 32) value kcp) as (v' & H1 & _ & H2 & H3 & _ & _ & H4 & _);
      [in_list | in_list | vm_compute; reflexivity | split; in_list | in_list | split; in_list | | vm_compute; reflexivity |].
    { exists 5, (composite ST_CP owner). split; [|split]; vm_compute; reflexivity. }
    exists v'. split; [exact H1|]. split; [exact H2|]. split; [exact H3|]. apply (H4 kan); vm_compute; reflexivity.
Defined.
