(* ===== verification/Profile.v ===== *)
(** The profile rows of a domain store: the seventeen catalogue keys, their encodings, and the
    comparison of the rows read from the store with the binding a session expects
    ([tools/domain_scan_crossrow_vector_gen.py]). *)

From S2P Require Import Prelude Order Bytes Crc Join DomainScan CrossPeer.

Definition PROFILE_NAME : bytes := bytes_of_string "NINLIL-FOUNDATION-SMALL-1".
Definition ALL_MASK : Z := 0x1FFFF.

Definition catalog_key (key_id : Z) : res bytes :=
  if key_id =? 1 then Ok (ROOT_V1 ++ [0x01])
  else if key_id =? 2 then Ok (ROOT_V1 ++ [0x02])
  else if in_range 3 6 key_id then b ← bytes_of [0x03; key_id - 2]; mret (ROOT_V1 ++ b)
  else if in_range 7 17 key_id then b ← bytes_of [0x04; key_id - 6]; mret (ROOT_V1 ++ b)
  else Raise (ValueError "key_id").

Definition catalog_id (key : bytes) : option Z :=
  let root := bool_decide (slice 0 8 key = ROOT_V1) in
  if (len key =? 9) && root && (byte_at 8 key =? 0x01) then Some 1
  else if (len key =? 9) && root && (byte_at 8 key =? 0x02) then Some 2
  else if (len key =? 10) && root && (byte_at 8 key =? 0x03) && in_range 1 4 (byte_at 9 key) then Some (2 + byte_at 9 key)
  else if (len key =? 10) && root && (byte_at 8 key =? 0x04) && in_range 1 11 (byte_at 9 key) then Some (6 + byte_at 9 key)
  else None.

(** ** The binding *)

Record limits := {
  max_services : Z; max_nonterminal_transactions : Z; max_targets_per_transaction : Z; max_logical_payload_bytes : Z;
  max_durable_outbox_payload_bytes : Z; max_attempts_per_target_per_cycle : Z; max_cancel_attempts_per_transaction : Z;
  max_evidence_per_target : Z; max_retained_terminal_transactions : Z; max_nonterminal_deliveries : Z; max_event_spool_count : Z;
  max_event_spool_bytes : Z; max_result_cache_entries : Z; max_retained_dispositions : Z; max_ingress_per_step : Z;
  max_callbacks_per_step : Z; max_state_transitions_per_step : Z; max_bearer_sends_per_step : Z; max_deferred_tokens : Z }.

Record binding_fields := {
  storage_schema : Z; role : Z; environment : Z; runtime_id_hex : string; b_limits : limits; terminal_retention_ms : Z;
  result_cache_retention_ms : Z; observation_retention_ms : Z }.

Definition default_binding_fields : binding_fields :=
  {| storage_schema := 1; role := 1; environment := 1; runtime_id_hex := hex_of (pattern 0x10 16);
     b_limits :=
       {| max_services := 7; max_nonterminal_transactions := 20; max_targets_per_transaction := 1; max_logical_payload_bytes := 1000;
          max_durable_outbox_payload_bytes := 5000; max_attempts_per_target_per_cycle := 8; max_cancel_attempts_per_transaction := 1;
          max_evidence_per_target := 3; max_retained_terminal_transactions := 30; max_nonterminal_deliveries := 12;
          max_event_spool_count := 0; max_event_spool_bytes := 0; max_result_cache_entries := 13; max_retained_dispositions := 14;
          max_ingress_per_step := 15; max_callbacks_per_step := 16; max_state_transitions_per_step := 17;
          max_bearer_sends_per_step := 18; max_deferred_tokens := 19 |};
     terminal_retention_ms := 0; result_cache_retention_ms := 0; observation_retention_ms := 0 |}.

Definition binding_parts (f : binding_fields) (runtime_id : bytes) : list (res bytes) :=
  let lim := b_limits f in
  [u32 1; u16 25; Ok PROFILE_NAME; u32 (storage_schema f); u32 (role f); u32 (environment f); Ok runtime_id;
   u32 (max_services lim); u32 (max_nonterminal_transactions lim); u32 (max_targets_per_transaction lim); u32 (max_logical_payload_bytes lim);
   u64 (max_durable_outbox_payload_bytes lim);
   u32 (max_attempts_per_target_per_cycle lim); u32 (max_cancel_attempts_per_transaction lim); u32 (max_evidence_per_target lim);
   u32 (max_retained_terminal_transactions lim); u32 (max_nonterminal_deliveries lim); u32 (max_event_spool_count lim);
   u64 (max_event_spool_bytes lim);
   u32 (max_result_cache_entries lim); u32 (max_retained_dispositions lim); u32 (max_ingress_per_step lim);
   u32 (max_callbacks_per_step lim); u32 (max_state_transitions_per_step lim); u32 (max_bearer_sends_per_step lim);
   u32 (max_deferred_tokens lim);
   u64 (terminal_retention_ms f); u64 (result_cache_retention_ms f); u64 (observation_retention_ms f)].

Definition encode_binding (f : binding_fields) : res bytes :=
  id ← from_hex (runtime_id_hex f);
  payload ← join (binding_parts f id);
  raise_if (negb (len payload =? 167)) (AssertionError "len(payload)");;
  enc ← nlr1 1 1 payload;
  raise_if (negb (len enc =? 183)) (AssertionError "");;
  mret enc.

Definition encode_identity : res bytes :=
  payload ← join [u32 0x7; Ok (pattern 0x20 16); Ok (pattern 0x40 16); Ok (pattern 0x60 16); u64 1; u64 1];
  raise_if (negb (len payload =? 68)) (AssertionError "");;
  enc ← nlr1 2 1 payload;
  raise_if (negb (len enc =? 84)) (AssertionError "");;
  mret enc.

Definition encode_counter (kind : Z) : res bytes :=
  payload ← join [u32 kind; u64 0; u32 0];
  raise_if (negb (len payload =? 16)) (AssertionError "");;
  enc ← nlr1 3 1 payload;
  raise_if (negb (len enc =? 32)) (AssertionError "");;
  mret enc.

Definition encode_capacity (kind limit : Z) : res bytes :=
  payload ← join [u32 kind; u64 limit; u64 0; u64 0; u64 0; u64 1; u32 0; u32 0];
  raise_if (negb (len payload =? 52)) (AssertionError "");;
  enc ← nlr1 4 1 payload;
  raise_if (negb (len enc =? 68)) (AssertionError "");;
  mret enc.

(** The binding under another record version: the same payload in a new header. *)
Definition binding_of_version (f : binding_fields) (version : Z) : res bytes :=
  if negb (version =? 1) then
    enc ← encode_binding f;
    let payload := slice 12 (len enc - 4) enc in
    head ← join [Ok (bytes_of_string "NLR1"); u16 1; u16 version; u32 (len payload)];
    let body := head ++ payload in
    c ← u32 (crc32c body);
    mret (body ++ c)
  else encode_binding f.

(** [b[i] ^= 0xFF]; a negative index counts from the end. *)
Definition flip_byte (i : Z) (b : bytes) : res bytes :=
  let j := if i <? 0 then i + len b else i in
  if in_range 0 (len b - 1) j then Ok (slice_assign j (j + 1) [Z.lxor (byte_at j b) 0xFF] b) else Raise IndexError.

Definition profile_value (f : binding_fields) (binding_version : Z) (mutate_binding_byte : option Z) (key_id : Z) : res bytes :=
  if key_id =? 1 then
    value ← binding_of_version f binding_version;
    match mutate_binding_byte with Some i => flip_byte i value | None => mret value end
  else if key_id =? 2 then encode_identity
  else if in_range 3 6 key_id then encode_counter (key_id - 2)
  else encode_capacity (key_id - 6) (100 + key_id).

Fixpoint profile_rows_from (f : binding_fields) (binding_version : Z) (mutate : option Z) (ids : list Z) : res (list (bytes * bytes)) :=
  match ids with
  | [] => Ok []
  | i :: ids =>
      key ← catalog_key i;
      value ← profile_value f binding_version mutate i;
      rows ← profile_rows_from f binding_version mutate ids;
      mret ((key, value) :: rows)
  end.

(** [range(1, 18)]. *)
Definition key_ids : list Z := map Z.of_nat (seq 1 17).

(** The rows in hexadecimal, sorted by key. *)
Definition encode_all_profile_rows (f : binding_fields) (binding_version : Z) (mutate : option Z) : res (list (string * string)) :=
  rows ← profile_rows_from f binding_version mutate key_ids;
  mret (map (fun r => (hex_of r.1, hex_of r.2)) (sorted_by fst compare_bytes rows)).

(** ** The comparison with the store *)

Inductive profile_class := EXACT | MISMATCH | FUTURE | PROFILE_CORRUPT.
#[export] Instance profile_class_eq_dec : EqDecision profile_class.
Proof. solve_decision. Defined.

(** The defect of one retained row: corrupt, unsupported, or none. *)
Definition retained_defect (value : option bytes) : option bool :=
  match value with
  | None => Some true
  | Some val =>
      if (len val <? 16) || negb (bool_decide (slice 0 4 val = bytes_of_string "NLR1")) then Some true
      else if negb (be_val (slice 6 8 val) =? 1) then Some false
      else if negb (be_val (slice (len val - 4) (len val) val) =? crc32c (slice 0 (len val - 4) val)) then Some true
      else None
  end.

Definition validate_and_compare (binding : binding_fields) (retained : Z -> option bytes) : res profile_class :=
  let defects := map (fun kid => retained_defect (retained kid)) key_ids in
  if existsb (fun d => bool_decide (d = Some true)) defects then Ok PROFILE_CORRUPT
  else if existsb (fun d => bool_decide (d = Some false)) defects then Ok FUTURE
  else
    let bval := default [] (retained 1) in
    if 183 <=? len bval then
      want ← encode_binding binding;
      if negb (bool_decide (bval = want)) then Ok MISMATCH else Ok EXACT
    else Ok EXACT.
