(* ===== verification/Crossrow.v ===== *)
(** The cross-row scan of tools/domain_scan_crossrow_vector_gen.py: a session that reads the
    profile of a store, walks its rows in key order, and follows each row to the peer it
    names, with its port trace, faults and sessions. *)

From S2P Require Import Prelude Bytes Crc Sha256 DomainScan CrossPeer CrossGate Profile.

(** ** The peer's body *)

Definition opt_is (o : option bytes) (v : bytes) : bool := bool_decide (o = Some v).
(** [v == o] when the attribute is not [None]. *)
Definition is_some {A} (o : option A) : bool := match o with Some _ => true | None => false end.
(** [if ev.subject_raw and len(ev.subject_raw) >= n]. *)
Definition subject_from (ev : PeerEval) (n : Z) : option bytes :=
  match subject_raw ev with Some s => if n <=? len s then Some s else None | None => None end.

(** The obligations after the first two blocks: the pair of mode 18, the scheduler again, and
    the default. *)
Definition raw_ok_rest (mode : Z) (ev : PeerEval) (pst : Z) (pbody : bytes) : res bool :=
  if mode18_pair ev && (pst =? ST_AII) then
    mret (match subject_from ev 16 with
          | Some s => bool_decide ((parse_aii pbody).1 = slice (len s - 16) (len s) s)
          | None => false
          end)
  else if mode18_pair ev && (pst =? ST_ATTEMPT) then
    att ← parse_attempt pbody;
    mret (match subject_from ev 32 with
          | Some s => bool_decide (at_owner_raw att = slice 0 16 s) && bool_decide (at_id att = slice 16 32 s)
          | None => false
          end)
  else if raw_bijection ev && bool_decide (mode ∈ [7; 13; 16]) && (pst =? ST_SCHED) then
    s ← parse_sched pbody;
    mret (negb (match owner_kind ev with Some k => negb (s_owner_kind s =? k) | None => false end) &&
          negb (match subject_raw ev with Some r => negb (bool_decide (s_subject s = r)) | None => false end) &&
          negb ((mode =? 16) && negb (is_some (subject_raw ev))))
  else mret (negb ((mode =? 17) && raw_bijection ev)).

(** Kind and subject of the owner in a scheduler, reservation or retention row. *)
Definition raw_ok_owner (mode : Z) (ev : PeerEval) (pst : Z) (pbody : bytes) : res bool :=
  match owner_kind ev, subject_raw ev with
  | Some k, Some raw =>
      if negb (raw_bijection ev) then raw_ok_rest mode ev pst pbody
      else if pst =? ST_SCHED then
        s ← parse_sched pbody; mret ((s_owner_kind s =? k) && bool_decide (s_subject s = raw))
      else if pst =? ST_RES then
        r ← parse_reservation pbody; mret ((o_kind r =? k) && bool_decide (o_raw r = raw))
      else if pst =? ST_RB then
        rb ← parse_rb pbody; mret ((o_kind rb =? k) && bool_decide (o_raw rb = raw))
      else
        match dual_raw ev with
        | Some dual => if pst =? ST_SERVICE then sk ← parse_service pbody; mret (bool_decide (sk = dual))
                       else raw_ok_rest mode ev pst pbody
        | None => raw_ok_rest mode ev pst pbody
        end
  | _, _ => raw_ok_rest mode ev pst pbody
  end.

(** The identity a primary must have under mode 17. *)
Definition raw_ok_primary (mode : Z) (ev : PeerEval) (pst : Z) (pbody : bytes) : res bool :=
  if negb (mode =? 17) then raw_ok_owner mode ev pst pbody
  else if pst =? ST_SERVICE then
    sk ← parse_service pbody; mret (opt_is (match dual_raw ev with Some d => Some d | None => subject_raw ev end) sk)
  else if pst =? ST_ANCHOR then
    a ← parse_anchor pbody;
    mret (match subject_raw ev with Some s => (len s =? 16) && bool_decide (a_txn a = s) | None => false end)
  else if pst =? ST_INGRESS then
    ing ← parse_ingress pbody;
    mret (match subject_raw ev with Some s => (len s =? 8) && bool_decide (i_ordered_seq ing = s) | None => false end)
  else if pst =? ST_DELIVERY then
    d ← parse_delivery pbody;
    mret (match subject_raw ev with
          | None => false
          | Some expect =>
              if bool_decide (owner_kind ev = Some 5) && (2 + 8 <=? len expect) && (be_val (slice 0 2 expect) =? 80)
              then bool_decide (d_raw d = slice 2 (2 + 80) expect)
              else bool_decide (d_raw d = expect)
          end)
  else raw_ok_owner mode ev pst pbody.

Definition _peer_raw_ok (mode : Z) (ev : PeerEval) (peer_val : bytes) : res bool :=
  match extract_envelope peer_val with
  | Raise _ => Ok false
  | Ok (pst, pbody, _) =>
      match dual_raw ev, dual_raw2 ev with
      | Some d1, Some d2 =>
          if pst =? ST_IDEM then
            im ← parse_idem pbody; mret (bool_decide (im_scope im = d1) && bool_decide (im_ikey im = d2))
          else if pst =? ST_ANCHOR then
            a ← parse_anchor pbody;
            mret (if negb (bool_decide (a_scope a = d1)) || negb (bool_decide (a_ikey a = d2)) then false
                  else match subject_raw ev with
                       | Some s => if len s =? 16 then bool_decide (a_txn a = s) else true
                       | None => true
                       end)
          else mret false
      | _, _ => raw_ok_primary mode ev pst pbody
      end
  end.

(** ** Statuses, calls and faults *)

Inductive status :=
  | OK | WOULD_BLOCK | CAPACITY_EXHAUSTED | STORAGE | UNSUPPORTED | STORAGE_COMMIT_UNKNOWN | STORAGE_CORRUPT
  | INVALID_STATE | INVALID_ARGUMENT | VOID.
#[export] Instance status_eq_dec : EqDecision status.
Proof. solve_decision. Defined.

Definition map_storage (st : string) : status :=
  if String.eqb st "BUSY" then WOULD_BLOCK
  else if String.eqb st "NO_SPACE" then CAPACITY_EXHAUSTED
  else if String.eqb st "IO_ERROR" then STORAGE
  else if String.eqb st "UNSUPPORTED_SCHEMA" then UNSUPPORTED
  else if String.eqb st "COMMIT_UNKNOWN" then STORAGE_COMMIT_UNKNOWN
  else if String.eqb st "NOT_FOUND" || String.eqb st "OK" then OK
  else STORAGE_CORRUPT.

(** A missing key of a fault is [None]. *)
Record fault := Fault { f_op : string; f_on_call : Z; f_shape : option string; f_status : option string }.

Inductive op :=
  | Session_init
  | Use_rows (name : string)
  | Handle_drift
  | Begin_profiled (has_mode : bool) (context : option string)
  | Begin_profiled_d3s1 (mode : option Z) (context : option string)
  | Advance (row_budget : Z)
  | Exact_get (key_hex : string)
  | Note_terminal_corrupt
  | Finalize
  | Abort
  | Other (name : string).

Inductive port := P_begin | P_get | P_iter_open | P_iter_next | P_iter_close | P_rollback | P_close.
#[export] Instance port_eq_dec : EqDecision port.
Proof. solve_decision. Defined.

(** ** The session *)

(** What the profile of the store was read as. *)
Record profile := {
  present_mask : Z; retained : gmap Z bytes; profile_exact : bool; profile_mismatch : bool; future_profile : bool; recon : bool }.
Definition profile_init : profile :=
  {| present_mask := 0; retained := ∅; profile_exact := false; profile_mismatch := false; future_profile := false; recon := false |}.

(** What the walk over the rows has seen. *)
Record walk := {
  row_index : Z; previous : option bytes; seen_mask : Z; family14 : Z; current_dom : Z; ok_rows : Z; future_seen : bool }.
Definition walk_init : walk :=
  {| row_index := 0; previous := None; seen_mask := 0; family14 := 0; current_dom := 0; ok_rows := 0; future_seen := false |}.

(** The handles and what the port was asked. *)
Record ports := {
  txn_live : bool; iter_live : bool; fence_pending : bool; handle_drifted : bool; reopen_required : bool; close_count : Z;
  iter_open_count : Z; get_call : Z; port_trace : list port; used_faults : list nat; peer_get_count : Z; applicable_count : Z }.
Definition ports_init : ports :=
  {| txn_live := false; iter_live := false; fence_pending := false; handle_drifted := false; reopen_required := false; close_count := 0;
     iter_open_count := 0; get_call := 0; port_trace := []; used_faults := []; peer_get_count := 0; applicable_count := 0 |}.

Record session := {
  state : phase; sticky : option status; rows : list (bytes * bytes); active_mode : Z; d3_bound : bool; prof : profile; wk : walk; pt : ports }.

Definition with_state (v : phase) (s : session) : session :=
  {| state := v; sticky := sticky s; rows := rows s; active_mode := active_mode s; d3_bound := d3_bound s; prof := prof s; wk := wk s; pt := pt s |}.
Definition with_prof (v : profile) (s : session) : session :=
  {| state := state s; sticky := sticky s; rows := rows s; active_mode := active_mode s; d3_bound := d3_bound s; prof := v; wk := wk s; pt := pt s |}.
Definition with_wk (v : walk) (s : session) : session :=
  {| state := state s; sticky := sticky s; rows := rows s; active_mode := active_mode s; d3_bound := d3_bound s; prof := prof s; wk := v; pt := pt s |}.
Definition with_pt (v : ports) (s : session) : session :=
  {| state := state s; sticky := sticky s; rows := rows s; active_mode := active_mode s; d3_bound := d3_bound s; prof := prof s; wk := wk s; pt := v |}.
Definition with_rows (v : list (bytes * bytes)) (s : session) : session :=
  {| state := state s; sticky := sticky s; rows := v; active_mode := active_mode s; d3_bound := d3_bound s; prof := prof s; wk := wk s; pt := pt s |}.
Definition with_mode (m : Z) (bound : bool) (s : session) : session :=
  {| state := state s; sticky := sticky s; rows := rows s; active_mode := m; d3_bound := bound; prof := prof s; wk := wk s; pt := pt s |}.

Definition set_sticky (v : status) (s : session) : session :=
  {| state := state s; sticky := Some (default v (sticky s)); rows := rows s; active_mode := active_mode s; d3_bound := d3_bound s;
     prof := prof s; wk := wk s; pt := pt s |}.

(** Assignments to the ports. *)
Definition p_live (txn iter : bool) (p : ports) : ports :=
  {| txn_live := txn; iter_live := iter; fence_pending := fence_pending p; handle_drifted := handle_drifted p;
     reopen_required := reopen_required p; close_count := close_count p; iter_open_count := iter_open_count p; get_call := get_call p;
     port_trace := port_trace p; used_faults := used_faults p; peer_get_count := peer_get_count p; applicable_count := applicable_count p |}.
Definition p_fence (v : bool) (p : ports) : ports :=
  {| txn_live := txn_live p; iter_live := iter_live p; fence_pending := v; handle_drifted := handle_drifted p;
     reopen_required := reopen_required p; close_count := close_count p; iter_open_count := iter_open_count p; get_call := get_call p;
     port_trace := port_trace p; used_faults := used_faults p; peer_get_count := peer_get_count p; applicable_count := applicable_count p |}.
Definition p_drift (v : bool) (p : ports) : ports :=
  {| txn_live := txn_live p; iter_live := iter_live p; fence_pending := fence_pending p; handle_drifted := v;
     reopen_required := reopen_required p; close_count := close_count p; iter_open_count := iter_open_count p; get_call := get_call p;
     port_trace := port_trace p; used_faults := used_faults p; peer_get_count := peer_get_count p; applicable_count := applicable_count p |}.
Definition p_trace (e : port) (p : ports) : ports :=
  {| txn_live := txn_live p; iter_live := iter_live p; fence_pending := fence_pending p; handle_drifted := handle_drifted p;
     reopen_required := reopen_required p; close_count := close_count p; iter_open_count := iter_open_count p; get_call := get_call p;
     port_trace := port_trace p ++ [e]; used_faults := used_faults p; peer_get_count := peer_get_count p; applicable_count := applicable_count p |}.
Definition p_get_call (v : Z) (p : ports) : ports :=
  {| txn_live := txn_live p; iter_live := iter_live p; fence_pending := fence_pending p; handle_drifted := handle_drifted p;
     reopen_required := reopen_required p; close_count := close_count p; iter_open_count := iter_open_count p; get_call := v;
     port_trace := port_trace p; used_faults := used_faults p; peer_get_count := peer_get_count p; applicable_count := applicable_count p |}.
Definition p_used (v : list nat) (p : ports) : ports :=
  {| txn_live := txn_live p; iter_live := iter_live p; fence_pending := fence_pending p; handle_drifted := handle_drifted p;
     reopen_required := reopen_required p; close_count := close_count p; iter_open_count := iter_open_count p; get_call := get_call p;
     port_trace := port_trace p; used_faults := v; peer_get_count := peer_get_count p; applicable_count := applicable_count p |}.
Definition p_closed (p : ports) : ports :=
  {| txn_live := txn_live p; iter_live := iter_live p; fence_pending := false; handle_drifted := handle_drifted p;
     reopen_required := true; close_count := close_count p + 1; iter_open_count := iter_open_count p; get_call := get_call p;
     port_trace := port_trace p ++ [P_close]; used_faults := used_faults p; peer_get_count := peer_get_count p; applicable_count := applicable_count p |}.
Definition p_iter_open (p : ports) : ports :=
  {| txn_live := txn_live p; iter_live := true; fence_pending := fence_pending p; handle_drifted := handle_drifted p;
     reopen_required := reopen_required p; close_count := close_count p; iter_open_count := iter_open_count p + 1; get_call := get_call p;
     port_trace := port_trace p ++ [P_iter_open]; used_faults := used_faults p; peer_get_count := peer_get_count p; applicable_count := applicable_count p |}.
Definition p_applicable (p : ports) : ports :=
  {| txn_live := txn_live p; iter_live := iter_live p; fence_pending := fence_pending p; handle_drifted := handle_drifted p;
     reopen_required := reopen_required p; close_count := close_count p; iter_open_count := iter_open_count p; get_call := get_call p;
     port_trace := port_trace p; used_faults := used_faults p; peer_get_count := peer_get_count p + 1; applicable_count := applicable_count p + 1 |}.

(** [get_call += 1; port_trace.append("get")]. *)
Definition p_get (p : ports) : ports := p_trace P_get (p_get_call (get_call p + 1) p).

(** The first unused fault of the call; it is then used. *)
Definition find_fault (faults : list fault) (name : string) (on_call : Z) (p : ports) : option fault * ports :=
  let fits i := negb (bool_decide (i ∈ used_faults p)) &&
                match faults !! i with Some f => String.eqb (f_op f) name && (f_on_call f =? on_call) | None => false end in
  match List.find fits (seq 0 (length faults)) with
  | Some i => (faults !! i, p_used (i :: used_faults p) p)
  | None => (None, p)
  end.

Definition is_unknown (shape st : string) : bool := String.eqb shape "unknown" || String.eqb st "UNKNOWN_RAW".
Definition shape_of (f : fault) : string := default "natural"%string (f_shape f).

Definition lookup_row (key : bytes) (rows : list (bytes * bytes)) : option bytes :=
  snd <$> List.find (fun r => bool_decide (r.1 = key)) rows.

(** ** The profile *)

Definition capacity_of (kid : Z) : Z := if kid =? 1 then 183 else if kid =? 2 then 84 else if kid <=? 6 then 32 else 68.

Definition retain (kid : Z) (raw : bytes) (p : profile) : profile :=
  {| present_mask := Z.lor (present_mask p) (Z.shiftl 1 (kid - 1)); retained := <[kid := raw]> (retained p);
     profile_exact := profile_exact p; profile_mismatch := profile_mismatch p; future_profile := future_profile p; recon := recon p |}.

(** One read of the profile: a status ends the reads. *)
Definition profile_get (faults : list fault) (kid : Z) (s : session) : res (option status * session) :=
  let p := p_get (pt s) in
  key ← catalog_key kid;
  let '(flt, p) := find_fault faults "get" (get_call p) p in
  let found s :=
    match lookup_row key (rows s) with
    | None => (Some STORAGE_CORRUPT, s)
    | Some raw => if capacity_of kid <? len raw then (Some STORAGE_CORRUPT, s) else (None, with_prof (retain kid raw (prof s)) s)
    end in
  mret match flt with
       | Some f =>
           let st := default "OK"%string (f_status f) in
           if is_unknown (shape_of f) st then (Some STORAGE_CORRUPT, with_pt (p_fence true p) s)
           else if negb (String.eqb st "OK") then (Some (map_storage st), with_pt p s)
           else found (with_pt p s)
       | None => found (with_pt p s)
       end.

Fixpoint profile_gets (faults : list fault) (kids : list Z) (s : session) : res (option status * session) :=
  match kids with
  | [] => Ok (None, s)
  | kid :: kids =>
      '(st, s) ← profile_get faults kid s;
      match st with Some st => mret (Some st, s) | None => profile_gets faults kids s end
  end.

(** A status, or the class of a profile that was read. *)
Definition do_profile_gets (faults : list fault) (binding : binding_fields) (s : session) : res ((status + profile_class) * session) :=
  let fresh := {| present_mask := 0; retained := ∅; profile_exact := profile_exact (prof s); profile_mismatch := profile_mismatch (prof s);
                  future_profile := future_profile (prof s); recon := recon (prof s) |} in
  '(st, s) ← profile_gets faults key_ids (with_prof fresh s);
  match st with
  | Some st => mret (inl st, s)
  | None =>
      if negb (present_mask (prof s) =? ALL_MASK) then mret (inl STORAGE_CORRUPT, s)
      else
        c ← validate_and_compare binding (fun kid => retained (prof s) !! kid);
        mret (match c with PROFILE_CORRUPT => inl STORAGE_CORRUPT | c => inr c end, s)
  end.

(** ** Cleanup and restart *)

Definition cleanup (faults : list fault) (s : session) : status * session :=
  let p := pt s in
  let p := if iter_live p && txn_live p then p_live (txn_live p) false (p_trace P_iter_close p) else p in
  let '(s, p) :=
    if txn_live p then
      let rb_count := 1 + len (List.filter (fun e => bool_decide (e = P_rollback)) (port_trace p)) in
      let '(rb_fault, p) := find_fault faults "rollback" rb_count p in
      let p := p_live false false (p_trace P_rollback p) in
      match rb_fault with
      | Some f =>
          let st := default "IO_ERROR"%string (f_status f) in
          (set_sticky (if is_unknown (shape_of f) st then STORAGE_CORRUPT else map_storage st) s, p_fence true p)
      | None => (s, p)
      end
    else (s, p) in
  let p := if fence_pending p then p_closed p else p in
  (default OK (sticky s), with_state DONE (with_pt p s)).

(** The faults used, the trace and the counts of peers, opens and closes go on over sessions. *)
Definition reset_session_soft (s : session) : session :=
  let p := pt s in
  {| state := IDLE; sticky := None; rows := rows s; active_mode := active_mode s; d3_bound := false; prof := profile_init; wk := walk_init;
     pt := {| txn_live := false; iter_live := false; fence_pending := false; handle_drifted := false; reopen_required := reopen_required p;
              close_count := close_count p; iter_open_count := iter_open_count p; get_call := 0; port_trace := port_trace p;
              used_faults := used_faults p; peer_get_count := peer_get_count p; applicable_count := applicable_count p |} |}.

(** ** The peer of a row *)

(** The checks of a peer that is there. *)
Definition check_peer (mode : Z) (ev : PeerEval) (peer_val source_val : bytes) : res (option status) :=
  let corrupt := Ok (Some STORAGE_CORRUPT) in
  let raw_checks :=
    if raw_bijection ev || is_some (dual_raw ev) || mode18_pair ev then
      ok ← _peer_raw_ok mode ev peer_val;
      mret (if negb ok then Some STORAGE_CORRUPT else None)
    else Ok None in
  if mode =? 17 then
    if check_pvd ev && negb (skip_pvd ev) &&
       (bool_decide (header_pvd source_val = []) || negb (bool_decide (value_digest peer_val = header_pvd source_val)))
    then corrupt
    else match domain_value_framing peer_val with
         | future_framing => Ok None
         | corrupt_framing => corrupt
         | current_framing => raw_checks
         end
  else if check_pvd ev && negb (skip_pvd ev) &&
          (negb (bool_decide (header_pvd peer_val = [])) && negb (bool_decide (header_pvd peer_val = value_digest source_val)))
  then corrupt
  else raw_checks.

(** [None] when the row has no peer or its peer is right. *)
Definition apply_d3_peer (faults : list fault) (source_key source_val : bytes) (s : session) : res (option status * session) :=
  match rebuild_peer (active_mode s) source_key source_val with
  | Raise (ValueError _) => Ok (Some STORAGE_CORRUPT, s)
  | Raise e => Raise e
  | Ok None => Ok (None, s)
  | Ok (Some ev) =>
      let p := p_applicable (p_get (pt s)) in
      let '(flt, p) := find_fault faults "get" (get_call p) p in
      match flt with
      | Some f =>
          let st := default "IO_ERROR"%string (f_status f) in
          if is_unknown (shape_of f) st then Ok (Some STORAGE_CORRUPT, with_pt (p_fence true p) s)
          else Ok (Some (map_storage st), with_pt p s)
      | None =>
          let s := with_pt p s in
          match expect_presence ev, lookup_row (peer_key ev) (rows s) with
          | PRESENT, None => Ok (Some STORAGE_CORRUPT, s)
          | ABSENT, Some _ => Ok (Some STORAGE_CORRUPT, s)
          | ABSENT, None => Ok (None, s)
          | PRESENT, Some peer_val => st ← check_peer (active_mode s) ev peer_val source_val; mret (st, s)
          end
      end
  end.

(** ** The walk over the rows *)

(** [set_sticky("STORAGE_CORRUPT"); state = "FAILED"; return st]. *)
Definition fail_with (st : status) (s : session) : option status * session := (Some st, with_state FAILED (set_sticky st s)).
Definition corrupt_row (s : session) : option status * session := fail_with STORAGE_CORRUPT s.

Definition w_step (w : walk) : walk :=
  {| row_index := row_index w + 1; previous := previous w; seen_mask := seen_mask w; family14 := family14 w; current_dom := current_dom w;
     ok_rows := ok_rows w; future_seen := future_seen w |}.
Definition w_catalog (mask : Z) (w : walk) : walk :=
  {| row_index := row_index w; previous := previous w; seen_mask := mask; family14 := family14 w + 1; current_dom := current_dom w;
     ok_rows := ok_rows w; future_seen := future_seen w |}.
Definition w_future (w : walk) : walk :=
  {| row_index := row_index w; previous := previous w; seen_mask := seen_mask w; family14 := family14 w; current_dom := current_dom w;
     ok_rows := ok_rows w; future_seen := true |}.
Definition w_current (w : walk) : walk :=
  {| row_index := row_index w; previous := previous w; seen_mask := seen_mask w; family14 := family14 w; current_dom := current_dom w + 1;
     ok_rows := ok_rows w; future_seen := future_seen w |}.
Definition w_previous (key : bytes) (w : walk) : walk :=
  {| row_index := row_index w; previous := Some key; seen_mask := seen_mask w; family14 := family14 w; current_dom := current_dom w;
     ok_rows := ok_rows w; future_seen := future_seen w |}.
Definition w_ok (w : walk) : walk :=
  {| row_index := row_index w; previous := previous w; seen_mask := seen_mask w; family14 := family14 w; current_dom := current_dom w;
     ok_rows := ok_rows w + 1; future_seen := future_seen w |}.
Definition on_wk (f : walk -> walk) (s : session) : session := with_wk (f (wk s)) s.

(** A row of a later root version whose value is an intact envelope. *)
Definition future_row (key val : bytes) : bool :=
  (8 <=? len key) && (len key <=? KEY_CAP) && future_root key && (16 <=? len val) &&
  bool_decide (slice 0 4 val = bytes_of_string "NLR1") &&
  (be_val (slice (len val - 4) (len val) val) =? crc32c (slice 0 (len val - 4) val)).

(** A current row under an exact profile: the gate, then the peer. *)
Definition current_row (faults : list fault) (key val : bytes) (s : session) : res (option status * session) :=
  if negb (profile_exact (prof s)) then Ok (None, s)
  else
    s3 ← family6_current_row_s3_status key val;
    match s3 with
    | S3_UNSUPPORTED => mret (None, on_wk w_future s)
    | S3_CORRUPT =>
        let parsed := parse_domain_key key in
        if match parsed with Some (fam, _, _, _) => fam =? 6 | None => false end then mret (corrupt_row (on_wk (w_previous key) s))
        else match domain_value_framing val with
             | future_framing => mret (None, on_wk w_future s)
             | corrupt_framing => if is_some parsed then mret (corrupt_row (on_wk (w_previous key) s)) else mret (None, s)
             | current_framing => mret (None, s)
             end
    | S3_OK =>
        if d3_bound s && negb (is_some (sticky s)) then
          '(st, s) ← apply_d3_peer faults key val s;
          mret (match st with Some st => fail_with st (on_wk (w_previous key) s) | None => (None, s) end)
        else mret (None, s)
    end.

(** One row, after the port call. *)
Definition scan_row (faults : list fault) (key val : bytes) (s : session) : res (option status * session) :=
  let s := on_wk w_step s in
  let accept s := (None, on_wk (fun w => w_ok (w_previous key w)) s) in
  if negb (in_range 1 KEY_CAP (len key)) || (VALUE_CAP <? len val) then Ok (corrupt_row s)
  else if match previous (wk s) with Some p => negb (key_strictly_increases p key) | None => false end then Ok (corrupt_row s)
  else
    match catalog_id key with
    | Some kid =>
        if recon (prof s) then
          let bit := Z.shiftl 1 (kid - 1) in
          if negb (Z.land (seen_mask (wk s)) bit =? 0) then Ok (corrupt_row s)
          else if negb (bool_decide (retained (prof s) !! kid = Some val)) then Ok (corrupt_row s)
          else Ok (accept (on_wk (w_catalog (Z.lor (seen_mask (wk s)) bit)) s))
        else Ok (accept (on_wk (fun w => w_catalog (seen_mask w) w) s))
    | None =>
        if profile_mismatch (prof s) || future_profile (prof s) then Ok (accept s)
        else if future_row key val then Ok (accept (on_wk w_future s))
        else if (8 <=? len key) && future_root key then Ok (corrupt_row s)
        else
          '(st, s) ← current_row faults key val (on_wk w_current s);
          mret (match st with Some st => (Some st, s) | None => accept s end)
    end.

(** One iteration of the loop. *)
Definition advance_once (faults : list fault) (s : session) : res (option status * session) :=
  let s := with_pt (p_trace P_iter_next (pt s)) s in
  match rows s !! Z.to_nat (row_index (wk s)) with
  | None =>
      Ok (if recon (prof s) && negb (seen_mask (wk s) =? present_mask (prof s)) then corrupt_row s else (Some OK, with_state EXHAUSTED s))
  | Some (key, val) => scan_row faults key val s
  end.

Fixpoint advance_loop (n : nat) (faults : list fault) (s : session) : res (status * session) :=
  match n with
  | O => Ok (OK, s)
  | S n =>
      '(st, s) ← advance_once faults s;
      match st with Some st => mret (st, s) | None => advance_loop n faults s end
  end.

Definition do_advance (budget : Z) (faults : list fault) (s : session) : res (status * session) :=
  let fail s := (STORAGE_CORRUPT, with_state FAILED (set_sticky STORAGE_CORRUPT s)) in
  if negb (bool_decide (state s = OPEN)) then Ok (INVALID_STATE, s)
  else if budget =? 0 then Ok (INVALID_ARGUMENT, s)
  else if handle_drifted (pt s) then Ok (fail (with_pt (p_fence true (pt s)) s))
  else if negb (txn_live (pt s)) || negb (iter_live (pt s)) then Ok (fail s)
  else advance_loop (Z.to_nat budget) faults s.

Definition do_exact_get (key_hex : string) (s : session) : res (status * session) :=
  let fail s := (STORAGE_CORRUPT, with_state FAILED (set_sticky STORAGE_CORRUPT s)) in
  if negb (bool_decide (state s ∈ [OPEN; EXHAUSTED])) then Ok (INVALID_STATE, s)
  else
    key ← from_hex key_hex;
    if negb (in_range 1 KEY_CAP (len key)) then mret (INVALID_ARGUMENT, s)
    else if handle_drifted (pt s) then mret (fail (with_pt (p_fence true (pt s)) s))
    else if negb (txn_live (pt s)) || negb (iter_live (pt s)) then mret (fail s)
    else
      let s := with_pt (p_get (pt s)) s in
      match lookup_row key (rows s) with
      | None => mret (OK, s)
      | Some raw => if VALUE_CAP <? len raw then mret (fail s) else mret (OK, s)
      end.

Definition do_note (s : session) : status * session :=
  if negb (bool_decide (state s ∈ [OPEN; EXHAUSTED])) then (INVALID_STATE, s)
  else (STORAGE_CORRUPT, with_state FAILED (set_sticky STORAGE_CORRUPT s)).

(** ** The calls *)

Definition classified (c : profile_class) (p : profile) : profile :=
  {| present_mask := present_mask p; retained := retained p;
     profile_exact := profile_exact p || bool_decide (c = EXACT); profile_mismatch := profile_mismatch p || bool_decide (c = MISMATCH);
     future_profile := future_profile p || bool_decide (c = FUTURE); recon := true |}.

(** Both begins, once their arguments are accepted. *)
Definition begin_scan (faults : list fault) (binding : binding_fields) (mode : Z) (bound : bool) (s : session) : res (status * session) :=
  let s := with_mode mode bound (with_pt (p_live true (iter_live (pt s)) (p_trace P_begin (pt s))) s) in
  '(gate, s) ← do_profile_gets faults binding s;
  match gate with
  | inl st => mret (cleanup faults (set_sticky st s))
  | inr c =>
      let s := with_prof (classified c (prof s)) s in
      let '(flt, p) := find_fault faults "iter_open" 1 (pt s) in
      match flt with
      | Some _ => mret (cleanup faults (set_sticky STORAGE_CORRUPT (with_pt p s)))
      | None => mret (OK, with_wk {| row_index := 0; previous := previous (wk s); seen_mask := seen_mask (wk s); family14 := family14 (wk s);
                                     current_dom := current_dom (wk s); ok_rows := ok_rows (wk s); future_seen := future_seen (wk s) |}
                          (with_state OPEN (with_pt (p_iter_open p) s)))
      end
  end.

Record vector := {
  v_mode : Z; v_binding : binding_fields; v_rows : list (bytes * bytes); v_alt_rows : gmap string (list (bytes * bytes)); v_faults : list fault }.

Definition run_op (v : vector) (o : op) (s : session) : res (status * session) :=
  let faults := v_faults v in
  match o with
  | Session_init =>
      raise_if (negb (bool_decide (state s ∈ [DONE; IDLE]))) (SystemExit "illegal session_init ordering");; mret (VOID, reset_session_soft s)
  | Use_rows name =>
      match v_alt_rows v !! name with
      | None => Raise (SystemExit "unknown alt_rows name")
      | Some alt => raise_if (negb (bool_decide (state s = IDLE))) (SystemExit "illegal use_rows ordering");; mret (VOID, with_rows alt s)
      end
  | Handle_drift =>
      raise_if (negb (bool_decide (state s ∈ [OPEN; EXHAUSTED; FAILED]))) (SystemExit "illegal handle_drift ordering");;
      mret (VOID, with_pt (p_drift true (pt s)) s)
  | Begin_profiled has_mode context =>
      if negb (bool_decide (state s = IDLE)) then Ok (INVALID_STATE, s)
      else if has_mode || is_some context then Ok (INVALID_ARGUMENT, s)
      else begin_scan faults (v_binding v) 0 false s
  | Begin_profiled_d3s1 mode context =>
      if negb (bool_decide (state s = IDLE)) then Ok (INVALID_STATE, s)
      else
        let call_mode := default (v_mode v) mode in
        let s' := with_mode call_mode (d3_bound s) s in
        if negb (in_range 1 20 call_mode) then Ok (INVALID_ARGUMENT, s')
        else if bool_decide (context ∈ [Some "null"%string; Some "alias_session"%string]) then Ok (INVALID_ARGUMENT, s')
        else begin_scan faults (v_binding v) call_mode true s'
  | Advance budget => do_advance budget faults s
  | Exact_get key_hex => do_exact_get key_hex s
  | Note_terminal_corrupt => Ok (do_note s)
  | Finalize =>
      if negb (bool_decide (state s ∈ [EXHAUSTED; FAILED])) then Ok (INVALID_STATE, s)
      else
        let '(outcome, s) := cleanup faults s in
        mret (match sticky s with
              | Some st => st
              | None => if profile_mismatch (prof s) || future_profile (prof s) then UNSUPPORTED
                        else if future_seen (wk s) then UNSUPPORTED else outcome
              end, s)
  | Abort =>
      if negb (bool_decide (state s ∈ [OPEN; EXHAUSTED; FAILED])) then Ok (INVALID_STATE, s)
      else let '(outcome, s) := cleanup faults s in mret (default outcome (sticky s), s)
  | Other _ => Raise (SystemExit "unknown call op")
  end.

(** The calls in turn, with the status each is stamped with. *)
Fixpoint run_ops (v : vector) (calls : list op) (s : session) : res (list status * session) :=
  match calls with
  | [] => Ok ([], s)
  | o :: calls => '(st, s) ← run_op v o s; '(sts, s) ← run_ops v calls s; mret (st :: sts, s)
  end.

Definition harness_op (o : op) : bool := match o with Session_init | Use_rows _ | Handle_drift => true | _ => false end.

Record outcome := { statuses : list status; final_status : status; adopted : bool; final : session }.

Definition session_init (v : vector) : session :=
  {| state := IDLE; sticky := None; rows := v_rows v; active_mode := v_mode v; d3_bound := false; prof := profile_init; wk := walk_init;
     pt := ports_init |}.

(** A vector as it is written, in hexadecimal. *)
Record hex_vector := {
  h_mode : Z; h_binding : binding_fields; h_rows : list (string * string); h_alt_rows : list (string * list (string * string));
  h_faults : list fault }.

Fixpoint decode_alt_rows (alts : list (string * list (string * string))) : res (gmap string (list (bytes * bytes))) :=
  match alts with
  | [] => Ok ∅
  | (name, rows) :: alts => rows ← decode_rows rows; m ← decode_alt_rows alts; mret (<[name := rows]> m)
  end.

Definition decode_vector (h : hex_vector) : res vector :=
  rows ← decode_rows (h_rows h);
  alts ← decode_alt_rows (h_alt_rows h);
  mret {| v_mode := h_mode h; v_binding := h_binding h; v_rows := rows; v_alt_rows := alts; v_faults := h_faults h |}.

Definition run_vector (v : vector) (calls : list op) : res outcome :=
  '(sts, s) ← run_ops v calls (session_init v);
  match last calls with
  | None => Raise (SystemExit "vector has empty calls")
  | Some o =>
      raise_if (harness_op o) (SystemExit "vector must not end on harness-only op");;
      let st := default OK (last sts) in
      mret {| statuses := sts; final_status := st;
              adopted := match o with Finalize => true | _ => false end && bool_decide (st = OK) && negb (reopen_required (pt s)) &&
                         negb (is_some (sticky s)) && negb (profile_mismatch (prof s)) && negb (future_profile (prof s)) &&
                         negb (future_seen (wk s)) && bool_decide (state s = DONE);
              final := s |}
  end.

Definition run_case (h : hex_vector) (calls : list op) : res outcome := v ← decode_vector h; run_vector v calls.

(** ** What a clean walk is *)

(** The part of a session that scanning does not change. *)
Definition frame (s : session) := (rows s, active_mode s, d3_bound s, prof s).

(** The peer a row names is as the row says. *)
Definition linked (mode : Z) (all : list row) (r : row) : Prop :=
  match rebuild_peer mode r.1 r.2 with
  | Ok None => True
  | Ok (Some ev) =>
      match expect_presence ev, lookup_row (peer_key ev) all with
      | PRESENT, Some peer_val => check_peer mode ev peer_val r.2 = Ok None
      | ABSENT, None => True
      | _, _ => False
      end
  | Raise _ => False
  end.

(** A row that is neither of the catalogue nor of a later version: it passes the gate, and
    its peer is right; a key the gate cannot read is let through. *)
Definition current_fine (mode : Z) (bound : bool) (all : list row) (r : row) : Prop :=
  match family6_current_row_s3_status r.1 r.2 with
  | Ok S3_OK => bound = true -> linked mode all r
  | Ok S3_CORRUPT => parse_domain_key r.1 = None /\ domain_value_framing r.2 <> future_framing
  | _ => False
  end.

Definition row_fine (mode : Z) (bound : bool) (all : list row) (retained : gmap Z bytes) (r : row) : Prop :=
  match catalog_id r.1 with
  | Some kid => retained !! kid = Some r.2
  | None => (8 <=? len r.1) && future_root r.1 = false /\ current_fine mode bound all r
  end.

(** The data of a session that has let the rows [pre] pass. *)
Record walked (pre : list row) (s : session) : Prop := {
  wd_sticky : sticky s = None; wd_recon : recon (prof s) = true;
  wd_index : row_index (wk s) = len pre; wd_ok : ok_rows (wk s) = len pre;
  wd_previous : previous (wk s) = fst <$> last pre;
  wd_sized : forallb row_sized pre = true; wd_ascending : ascending (map fst pre) = true;
  wd_fine : profile_exact (prof s) = true -> profile_mismatch (prof s) = false -> future_profile (prof s) = false ->
            future_seen (wk s) = false -> Forall (row_fine (active_mode s) (d3_bound s) (rows s) (retained (prof s))) pre }.

Definition failed (s : session) : Prop := state s = FAILED /\ is_some (sticky s) = true.

(** ** The walk keeps to the rows *)

Lemma find_fault_ports faults name n p f p' :
  find_fault faults name n p = (f, p') -> p' = p \/ exists i, p' = p_used (i :: used_faults p) p /\ f = faults !! i.
Proof. unfold find_fault. destruct (List.find _ _); intros [= <- <-]; [right; by eexists | by left]. Qed.

(** A step that leaves everything but the ports and the walk alone. *)
Definition steady (s s' : session) : Prop := frame s' = frame s /\ state s' = state s /\ sticky s' = sticky s.

#[export] Instance steady_refl : Reflexive steady.
Proof. by intros s. Qed.
#[export] Instance steady_trans : Transitive steady.
Proof. unfold steady. intros a b c (H1 & H2 & H3) (H4 & H5 & H6). split_and!; congruence. Qed.

Lemma steady_pt p s : steady s (with_pt p s).
Proof. done. Qed.
Lemma steady_wk f s : steady s (on_wk f s).
Proof. done. Qed.
#[export] Hint Resolve steady_pt steady_wk : ninlil.

Lemma fail_with_failed st s o s' : fail_with st s = (o, s') -> (exists e, o = Some e) /\ failed s'.
Proof. intros [= <- <-]. split; [by eexists | done]. Qed.

Lemma corrupt_row_failed s o s' : corrupt_row s = (o, s') -> (exists e, o = Some e) /\ failed s'.
Proof. apply fail_with_failed. Qed.

Lemma apply_peer_sound faults k v s st s' :
  apply_d3_peer faults k v s = Ok (st, s') ->
  steady s s' /\ wk s' = wk s /\ (st = None -> linked (active_mode s) (rows s) (k, v)).
Proof.
  unfold apply_d3_peer, linked. cbn [fst snd]. intros H.
  destruct (rebuild_peer (active_mode s) k v) as [[ev|]|e] eqn:Er.
  - destruct (find_fault faults "get" _ _) as [[f|] p] eqn:Ef.
    + destruct (is_unknown _ _); injection H as <- <-; done.
    + change (rows (with_pt p s)) with (rows s) in H. change (active_mode (with_pt p s)) with (active_mode s) in H.
      destruct (expect_presence ev); destruct (lookup_row (peer_key ev) (rows s)) as [pv|]; try (injection H as <- <-; split_and!; try done; fail).
      apply bind_Ok in H as (c & Ec & H). injection H as <- <-. split; [done|]. split; [done|]. by intros ->.
  - injection H as <- <-. done.
  - destruct e; try discriminate. injection H as <- <-. done.
Qed.

Lemma gate_other_family k v fam st kind ident : parse_domain_key k = Some (fam, st, kind, ident) -> fam <> 6 -> family6_current_row_s3_status k v = Ok S3_OK.
Proof. intros H Hf. unfold family6_current_row_s3_status. by rewrite H, (proj2 (Z.eqb_neq _ _) Hf). Qed.

Lemma current_row_sound faults k v s st s' :
  sticky s = None -> current_row faults k v s = Ok (st, s') ->
  (st = None /\ steady s s' /\ (wk s' = wk s \/ wk s' = w_future (wk s)) /\
     (profile_exact (prof s) = true -> future_seen (wk s') = false -> current_fine (active_mode s) (d3_bound s) (rows s) (k, v))) \/
  ((exists e, st = Some e) /\ failed s').
Proof.
  intros Hs. unfold current_row, current_fine. cbn [fst snd]. destruct (profile_exact (prof s)); cbn [negb]; [|intros [= <- <-]; left; split_and!; auto; done].
  intros H. apply bind_Ok in H as (s3 & Eg & H). rewrite Eg. destruct s3.
  - rewrite Hs in H. cbn [is_some negb] in H. rewrite andb_true_r in H. destruct (d3_bound s) eqn:Eb.
    + apply bind_Ok in H as ([o s1] & Ea & H). destruct (apply_peer_sound _ _ _ _ _ _ Ea) as (S1 & W1 & L1).
      destruct o as [e|]; [right; apply Ok_inj in H; by eapply fail_with_failed|]. injection H as <- <-. left. split_and!; auto.
    + injection H as <- <-. left. split_and!; auto; done.
  - injection H as <- <-. left. split_and!; auto; done.
  - destruct (parse_domain_key k) as [[[[fam t] kind] ident]|] eqn:Ep; cbn [is_some] in H.
    + destruct (Z.eqb_spec fam 6) as [->|Hn]; [right; apply Ok_inj in H; by eapply corrupt_row_failed|].
      by rewrite (gate_other_family _ _ _ _ _ _ Ep Hn) in Eg.
    + left. destruct (domain_value_framing v) eqn:Ef; injection H as <- <-; split_and!; auto; done.
Qed.

Lemma accept_walked pre s s1 r :
  walked pre s -> steady s s1 -> row_index (wk s1) = len pre + 1 -> ok_rows (wk s1) = len pre ->
  (future_seen (wk s1) = false -> future_seen (wk s) = false) ->
  row_sized r = true -> after_last pre r = true ->
  (profile_exact (prof s) = true -> profile_mismatch (prof s) = false -> future_profile (prof s) = false -> future_seen (wk s1) = false ->
   row_fine (active_mode s) (d3_bound s) (rows s) (retained (prof s)) r) ->
  walked (pre ++ [r]) (on_wk (fun w => w_ok (w_previous r.1 w)) s1).
Proof.
  intros [H2 H3 H4 H5 H6 H7 H8 H9] (Hf & Hs & Hst) Hi Ho Hfut Hsz Hlast Hfine. unfold frame in Hf. injection Hf as F1 F2 F3 F4.
  split; cbn [on_wk with_wk wk w_ok w_previous row_index ok_rows previous future_seen sticky prof rows active_mode d3_bound];
    rewrite ?F1, ?F2, ?F3, ?F4; try congruence.
  - rewrite len_app. change (len [r]) with 1. lia.
  - rewrite len_app. change (len [r]) with 1. lia.
  - by rewrite last_snoc.
  - rewrite forallb_app, H7. cbn. by rewrite Hsz.
  - rewrite map_app. cbn [map]. rewrite ascending_snoc, H8. cbn [andb]. unfold after_last in Hlast.
    rewrite (fmap_last fst pre : last (map fst pre) = fst <$> last pre). destruct (last pre); done.
  - intros. apply Forall_app. split; [auto|]. constructor; [auto | constructor].
Qed.

Lemma scan_row_sound faults k v s pre st s' :
  walked pre s -> scan_row faults k v s = Ok (st, s') ->
  (st = None /\ walked (pre ++ [(k, v)]) s' /\ frame s' = frame s /\ state s' = state s) \/ ((exists e, st = Some e) /\ failed s').
Proof.
  intros Hw. pose proof Hw as [H2 H3 H4 H5 H6 H7 H8 H9]. unfold scan_row. cbv zeta.
  set (s0 := on_wk w_step s). change (wk s0) with (w_step (wk s)). change (prof s0) with (prof s).
  destruct (_ || _) eqn:Ez; [intros [= <- <-]; right; by eapply corrupt_row_failed|].
  assert (Hsz : row_sized (k, v) = true) by (unfold row_sized; cbn [fst snd]; by destruct (in_range _ _ _), (VALUE_CAP <? _)).
  cbn [w_step previous]. rewrite H6.
  destruct (match fst <$> last pre with Some p => _ | None => false end) eqn:Ea; [intros [= <- <-]; right; by eapply corrupt_row_failed|].
  assert (Hal : after_last pre (k, v) = true).
  { unfold after_last. cbn [fst]. destruct (last pre); [|done]. cbn in Ea. by apply negb_false_iff in Ea. }
  rewrite H3. cbn [seen_mask].
  pose proof (accept_walked pre s) as Hacc. specialize (Hacc) with (r := (k, v)). cbn [fst] in Hacc.
  destruct (catalog_id k) as [kid|] eqn:Ek.
  - destruct (negb (Z.land _ _ =? 0)); [intros [= <- <-]; right; by eapply corrupt_row_failed|].
    destruct (bool_decide (retained (prof s) !! kid = Some v)) eqn:Er; cbn [negb]; [|intros [= <- <-]; right; by eapply corrupt_row_failed].
    intros [= <- <-]. left. split; [done|]. split; [|by split].
    apply Hacc; cbn; try done; try lia. intros _ _ _ _. unfold row_fine. cbn [fst snd]. rewrite Ek. by bool_to_prop.
  - destruct (profile_mismatch (prof s) || future_profile (prof s)) eqn:Em.
    { intros [= <- <-]. left. split; [done|]. split; [|by split]. apply Hacc; cbn; try done; try lia.
      intros _ E1 E2 _. by rewrite E1, E2 in Em. }
    destruct (future_row k v).
    { intros [= <- <-]. left. split; [done|]. split; [|by split]. apply Hacc; cbn; try done; lia. }
    destruct ((8 <=? len k) && future_root k) eqn:Ef; [intros [= <- <-]; right; by eapply corrupt_row_failed|].
    intros H. apply bind_Ok in H as ([o s1] & Ec & H).
    apply current_row_sound in Ec; [|done]. destruct Ec as [(-> & Hst & Hwk & Hfine) | [[e ->] Hfail]];
      injection H as <- <-; [|right; split; [by eexists | done]]. left. split; [done|]. split; [|by destruct Hst as (? & ? & _)].
    apply Hacc; try done.
    + destruct Hwk as [-> | ->]; cbn; lia.
    + destruct Hwk as [-> | ->]; cbn; lia.
    + destruct Hwk as [-> | ->]; cbn; done.
    + intros E1 _ _ E4. unfold row_fine. cbn [fst snd]. rewrite Ek. split; [done|]. by apply Hfine.
Qed.

(** ** Sessions *)

(** The profile of the store was read in full, and found exact when the session says so. *)
Record profile_read (binding : binding_fields) (s : session) : Prop := {
  pr_recon : recon (prof s) = true; pr_mask : present_mask (prof s) = ALL_MASK;
  pr_rows : forall kid, kid ∈ key_ids -> exists key val, catalog_key kid = Ok key /\ lookup_row key (rows s) = Some val /\
    retained (prof s) !! kid = Some val /\ len val <= capacity_of kid;
  pr_class : profile_mismatch (prof s) = false -> future_profile (prof s) = false ->
    profile_exact (prof s) = true /\ validate_and_compare binding (fun kid => retained (prof s) !! kid) = Ok EXACT }.

Definition session_inv (binding : binding_fields) (s : session) : Prop :=
  match state s with
  | IDLE => sticky s = None /\ wk s = walk_init /\ prof s = profile_init
  | OPEN => profile_read binding s /\ exists n, walked (take n (rows s)) s /\ (n <= length (rows s))%nat
  | EXHAUSTED => profile_read binding s /\ walked (rows s) s /\ seen_mask (wk s) = ALL_MASK
  | FAILED => is_some (sticky s) = true
  | DONE => True
  end.

Lemma profile_read_frame binding s s' : frame s' = frame s -> profile_read binding s -> profile_read binding s'.
Proof.
  unfold frame. intros [= F1 F2 F3 F4] [H1 H2 H3 H4]. split; rewrite ?F4, ?F1; done.
Qed.

Lemma walked_pt pre s p : walked pre s -> walked pre (with_pt p s).
Proof. intros []. constructor; assumption. Qed.

Lemma walked_state pre s v : walked pre s -> walked pre (with_state v s).
Proof. intros []. constructor; assumption. Qed.

Lemma scan_once_inv binding faults s st s' :
  state s = OPEN -> session_inv binding s -> advance_once faults s = Ok (st, s') ->
  session_inv binding s' /\ (st = None -> state s' = OPEN).
Proof.
  intros Ho Hi H. unfold session_inv in Hi. rewrite Ho in Hi. destruct Hi as [Hr (n & Hw & Hn)].
  unfold advance_once in H. cbv zeta in H. set (s0 := with_pt (p_trace P_iter_next (pt s)) s) in H.
  assert (Hw0 : walked (take n (rows s)) s0) by (by apply walked_pt).
  change (wk s0) with (wk s) in H. change (rows s0) with (rows s) in H. change (prof s0) with (prof s) in H.
  assert (Hidx : Z.to_nat (row_index (wk s)) = n).
  { rewrite (wd_index _ _ Hw). unfold len. rewrite length_take. lia. }
  rewrite Hidx in H. destruct (rows s !! n) as [[k v]|] eqn:En.
  - destruct (scan_row_sound _ _ _ _ _ _ _ Hw0 H) as [(-> & Hw' & Hf & Hst) | [[e ->] [Hst Hsk]]].
    + assert (Hs' : state s' = OPEN) by (rewrite Hst; exact Ho). split; [|done]. unfold session_inv. rewrite Hs'.
      split; [by apply (profile_read_frame binding s)|]. exists (S n). unfold frame in Hf. injection Hf as F1 _ _ _. rewrite F1.
      change (rows s0) with (rows s). rewrite (take_S_r _ _ _ En). split; [done|]. by apply lookup_lt_Some in En.
    + split; [|done]. unfold session_inv. by rewrite Hst.
  - apply lookup_ge_None in En. rewrite (pr_recon _ _ Hr), (pr_mask _ _ Hr) in H. cbn [andb] in H.
    destruct (Z.eqb_spec (seen_mask (wk s)) ALL_MASK) as [Es|Es]; cbn [negb] in H; injection H as <- <-; (split; [|done]); [|done].
    unfold session_inv. cbn [state with_state]. rewrite take_ge in Hw0 by done. split; [|split; [|done]].
    + by apply (profile_read_frame binding s).
    + by apply walked_state.
Qed.

Lemma scan_loop_inv binding faults n s st s' :
  state s = OPEN -> session_inv binding s -> advance_loop n faults s = Ok (st, s') -> session_inv binding s'.
Proof.
  revert s. induction n as [|n IH]; intros s Ho Hi H; [by injection H as <- <-|]. cbn in H.
  apply bind_Ok in H as ([o s1] & E & H). destruct (scan_once_inv _ _ _ _ _ Ho Hi E) as [Hi1 Ho1].
  destruct o as [e|]; [by injection H as <- <-|]. by apply (IH s1); [apply Ho1 | |].
Qed.

Lemma failed_inv binding s : failed s -> session_inv binding s.
Proof. intros [Hs Hk]. unfold session_inv. by rewrite Hs. Qed.

Lemma do_advance_inv binding budget faults s st s' :
  session_inv binding s -> do_advance budget faults s = Ok (st, s') -> session_inv binding s'.
Proof.
  intros Hi. unfold do_advance. destruct (bool_decide (state s = OPEN)) eqn:Eo; cbn [negb]; [|by intros [= <- <-]]. bool_to_prop.
  destruct (budget =? 0); [by intros [= <- <-]|]. destruct (handle_drifted _); [intros [= <- <-]; by apply failed_inv|].
  destruct (_ || _); [intros [= <- <-]; by apply failed_inv|]. by apply scan_loop_inv.
Qed.

Lemma session_inv_pt binding p s : session_inv binding s -> session_inv binding (with_pt p s).
Proof.
  unfold session_inv. change (state (with_pt p s)) with (state s). destruct (state s); try done.
  - intros [Hr (n & Hw & Hn)]. split; [by apply (profile_read_frame binding s)|]. exists n. split; [by apply walked_pt | done].
  - intros (Hr & Hw & He). split; [by apply (profile_read_frame binding s)|]. split; [by apply walked_pt | done].
Qed.

Lemma do_exact_get_inv binding key s st s' :
  session_inv binding s -> do_exact_get key s = Ok (st, s') -> session_inv binding s'.
Proof.
  intros Hi. unfold do_exact_get. destruct (bool_decide _); cbn [negb]; [|by intros [= <- <-]]. intros H.
  apply bind_Ok in H as (k & _ & H). destruct (negb _); [by injection H as <- <-|].
  destruct (handle_drifted _); [injection H as <- <-; by apply failed_inv|].
  destruct (_ || _); [injection H as <- <-; by apply failed_inv|]. cbv zeta in H.
  destruct (lookup_row _ _); [destruct (_ <? _)|]; injection H as <- <-; first [by apply failed_inv | by apply session_inv_pt].
Qed.

(** What reading the profile leaves alone. *)
Definition outside (s : session) := (state s, sticky s, rows s, active_mode s, d3_bound s, wk s).
Definition flags (p : profile) := (profile_exact p, profile_mismatch p, future_profile p, recon p).

Lemma profile_get_spec faults kid s st s' :
  profile_get faults kid s = Ok (st, s') ->
  outside s' = outside s /\ flags (prof s') = flags (prof s) /\
  (st = None -> exists key val, catalog_key kid = Ok key /\ lookup_row key (rows s) = Some val /\ len val <= capacity_of kid /\
     retained (prof s') = <[kid := val]> (retained (prof s))).
Proof.
  unfold profile_get. cbv zeta. intros H. apply bind_Ok in H as (key & Ek & H). destruct (find_fault _ _ _ _) as [flt p].
  assert (Hfound : forall p', match lookup_row key (rows (with_pt p' s)) with
      | None => (Some STORAGE_CORRUPT, with_pt p' s)
      | Some raw => if capacity_of kid <? len raw then (Some STORAGE_CORRUPT, with_pt p' s)
                    else (None, with_prof (retain kid raw (prof (with_pt p' s))) (with_pt p' s))
      end = (st, s') -> outside s' = outside s /\ flags (prof s') = flags (prof s) /\
      (st = None -> exists key val, catalog_key kid = Ok key /\ lookup_row key (rows s) = Some val /\ len val <= capacity_of kid /\
         retained (prof s') = <[kid := val]> (retained (prof s)))).
  { intros p' H'. cbn [rows with_pt] in H'. destruct (lookup_row key (rows s)) as [val|] eqn:El; [|by injection H' as <- <-].
    destruct (Z.ltb_spec (capacity_of kid) (len val)); injection H' as <- <-; [done|]. split; [done|]. split; [done|].
    intros _. by exists key, val. }
  apply Ok_inj in H. destruct flt as [f|]; [|by apply (Hfound p)]. destruct (is_unknown _ _); [by injection H as <- <-|].
  destruct (negb _); [by injection H as <- <-|]. by apply (Hfound p).
Qed.

Lemma profile_gets_spec faults kids s st s' :
  NoDup kids -> profile_gets faults kids s = Ok (st, s') ->
  outside s' = outside s /\ flags (prof s') = flags (prof s) /\
  (st = None -> (forall kid, kid ∉ kids -> retained (prof s') !! kid = retained (prof s) !! kid) /\
     forall kid, kid ∈ kids -> exists key val, catalog_key kid = Ok key /\ lookup_row key (rows s) = Some val /\
       retained (prof s') !! kid = Some val /\ len val <= capacity_of kid).
Proof.
  revert s. induction kids as [|kid kids IH]; intros s Hnd H.
  { injection H as <- <-. split_and!; try done. intros _. split; [done|]. by intros kid ?%elem_of_nil. }
  apply NoDup_cons in Hnd as [Hnin Hnd]. cbn in H. apply bind_Ok in H as ([o s1] & E & H).
  destruct (profile_get_spec _ _ _ _ _ E) as (O1 & F1 & R1). destruct o as [e|]; [by injection H as <- <-|].
  destruct (R1 eq_refl) as (key & val & E1 & E2 & E3 & E4). destruct (IH s1 Hnd H) as (O2 & F2 & R2).
  split; [congruence|]. split; [congruence|]. intros Hst. destruct (R2 Hst) as [R3 R4]. unfold outside in O1. injection O1 as _ _ Erows _ _ _.
  split.
  - intros k' Hk'. rewrite R3 by set_solver. rewrite E4. apply lookup_insert_ne. set_solver.
  - intros k' [->|Hk']%elem_of_cons.
    + exists key, val. split_and!; try done. rewrite R3 by done. rewrite E4. apply lookup_insert_eq.
    + rewrite Erows in R4. by apply R4.
Qed.

Lemma cleanup_done faults s st s' : cleanup faults s = (st, s') ->
  state s' = DONE /\ rows s' = rows s /\ active_mode s' = active_mode s /\ d3_bound s' = d3_bound s /\ prof s' = prof s /\ wk s' = wk s /\
  (sticky s' = None -> sticky s = None).
Proof.
  unfold cleanup. cbv zeta. destruct (iter_live (pt s) && txn_live (pt s)).
  all: destruct (txn_live _); [destruct (find_fault _ _ _ _) as [[f|] p]|]; intros [= <- <-]; split_and!; done.
Qed.

Lemma key_ids_NoDup : NoDup key_ids.
Proof. apply (bool_decide_unpack (NoDup key_ids)). vm_compute. exact I. Qed.

Lemma do_profile_gets_spec faults binding s g s' :
  do_profile_gets faults binding s = Ok (g, s') ->
  outside s' = outside s /\ flags (prof s') = flags (prof s) /\
  (forall c, g = inr c -> present_mask (prof s') = ALL_MASK /\ c <> PROFILE_CORRUPT /\
     validate_and_compare binding (fun kid => retained (prof s') !! kid) = Ok c /\
     forall kid, kid ∈ key_ids -> exists key val, catalog_key kid = Ok key /\ lookup_row key (rows s) = Some val /\
       retained (prof s') !! kid = Some val /\ len val <= capacity_of kid).
Proof.
  unfold do_profile_gets. cbv zeta. intros H. apply bind_Ok in H as ([o s1] & E & H).
  destruct (profile_gets_spec _ _ _ _ _ key_ids_NoDup E) as (O1 & F1 & R1). destruct o as [e|]; [by injection H as <- <-|].
  destruct (R1 eq_refl) as [_ R2]. destruct (Z.eqb_spec (present_mask (prof s1)) ALL_MASK) as [Em|]; cbn [negb] in H; [|by injection H as <- <-].
  apply bind_Ok in H as (c & Ec & H). injection H as <- <-. split; [done|]. split; [done|]. intros c' Hc'.
  destruct c; try discriminate Hc'; injection Hc' as <-; done.
Qed.

Lemma begin_scan_inv faults binding mode bound s st s' :
  state s = IDLE -> session_inv binding s -> begin_scan faults binding mode bound s = Ok (st, s') -> session_inv binding s'.
Proof.
  intros Ho Hi H. unfold session_inv in Hi. rewrite Ho in Hi. destruct Hi as (H1 & H2 & H3).
  unfold begin_scan in H. cbv zeta in H. apply bind_Ok in H as ([g s1] & E & H).
  destruct (do_profile_gets_spec _ _ _ _ _ E) as (O1 & F1 & R1). unfold outside in O1. injection O1 as O1 O2 O3 O4 O5 O6.
  cbn [state sticky rows active_mode d3_bound wk prof with_mode with_pt] in *.
  destruct g as [e|c].
  { injection H as H. destruct (cleanup_done _ _ _ _ H) as (Hd & _). unfold session_inv. by rewrite Hd. }
  destruct (R1 c eq_refl) as (Hmask & Hc & Hval & Hrows).
  destruct (find_fault _ _ _ _) as [[f|] p].
  { injection H as H. destruct (cleanup_done _ _ _ _ H) as (Hd & _). unfold session_inv. by rewrite Hd. }
  injection H as <- <-. unfold session_inv. cbn [state with_wk with_state].
  unfold flags in F1. rewrite H3 in F1. injection F1 as F2 F3 F4 F5. rewrite H2 in O6.
  split.
  - split; cbn [prof with_wk with_state with_pt with_prof rows classified present_mask retained profile_exact profile_mismatch future_profile recon]; try done.
    + rewrite O3. done.
    + rewrite F2, F3, F4. cbn [orb]. intros Hm Hf. bool_to_prop. destruct c; try done.
  - exists 0%nat. split; [|lia]. rewrite take_0.
    split; cbn [prof with_wk with_state with_pt with_prof rows wk row_index ok_rows previous sticky recon classified]; rewrite ?O6; try done.
    by rewrite O2.
Qed.

Lemma run_op_inv v o s st s' :
  session_inv (v_binding v) s -> run_op v o s = Ok (st, s') -> session_inv (v_binding v) s'.
Proof.
  intros Hi H. destruct o as [ | name | | has_mode context | mode context | budget | key_hex | | | | name]; unfold run_op in H; cbv zeta in H.
  - inv_res. done.
  - destruct (v_alt_rows v !! name) as [alt|]; [|done]. inv_res. bool_to_prop.
    unfold session_inv in *. cbn [state with_rows]. match goal with Hs : state s = IDLE |- _ => by rewrite Hs in * end.
  - inv_res. by apply session_inv_pt.
  - destruct (bool_decide (state s = IDLE)) eqn:Es; cbn [negb] in H; [|by injection H as <- <-]. bool_to_prop.
    destruct (_ || _); [by injection H as <- <-|]. by eapply begin_scan_inv.
  - destruct (bool_decide (state s = IDLE)) eqn:Es; cbn [negb] in H; [|by injection H as <- <-]. bool_to_prop.
    assert (Hi' : session_inv (v_binding v) (with_mode (default (v_mode v) mode) (d3_bound s) s)).
    { unfold session_inv in *. cbn [state with_mode]. by rewrite Es in *. }
    destruct (negb _); [by injection H as <- <-|]. destruct (bool_decide _); [by injection H as <- <-|]. by eapply begin_scan_inv.
  - by eapply do_advance_inv.
  - by eapply do_exact_get_inv.
  - unfold do_note in H. destruct (bool_decide _); cbn [negb] in H; injection H as <- <-; [by apply failed_inv | done].
  - destruct (bool_decide _); cbn [negb] in H; [|by injection H as <- <-].
    destruct (cleanup (v_faults v) s) as [oc s1] eqn:Ec. injection H as <- <-. destruct (cleanup_done _ _ _ _ Ec) as (Hd & _).
    unfold session_inv. by rewrite Hd.
  - destruct (bool_decide _); cbn [negb] in H; [|by injection H as <- <-].
    destruct (cleanup (v_faults v) s) as [oc s1] eqn:Ec. injection H as <- <-. destruct (cleanup_done _ _ _ _ Ec) as (Hd & _).
    unfold session_inv. by rewrite Hd.
  - done.
Qed.

Lemma run_ops_app v a b s :
  run_ops v (a ++ b) s = '(sa, s) ← run_ops v a s; '(sb, s) ← run_ops v b s; mret (sa ++ sb, s).
Proof.
  revert s. induction a as [|o a IH]; intros s; cbn [app run_ops].
  - rewrite ok_bind. by destruct (run_ops v b s) as [[]|].
  - destruct (run_op v o s) as [[st s1]|]; [|done]. rewrite !ok_bind, IH. destruct (run_ops v a s1) as [[sa s2]|]; [|done].
    rewrite !ok_bind. by destruct (run_ops v b s2) as [[]|].
Qed.

Lemma run_ops_inv v calls s sts s' :
  session_inv (v_binding v) s -> run_ops v calls s = Ok (sts, s') -> session_inv (v_binding v) s'.
Proof.
  revert s sts. induction calls as [|o calls IH]; intros s sts Hi H; [by injection H as <- <-|]. cbn in H.
  apply bind_Ok in H as ([st s1] & E & H). apply bind_Ok in H as ([sts' s2] & E2 & H). injection H as <- <-.
  eapply IH; [|exact E2]. by eapply run_op_inv.
Qed.

(** What an adopted session has established about its rows. *)
Record store_fine (binding : binding_fields) (s : session) : Prop := {
  sf_profile : profile_read binding s; sf_exact : validate_and_compare binding (fun kid => retained (prof s) !! kid) = Ok EXACT;
  sf_sized : forallb row_sized (rows s) = true; sf_ascending : ascending (map fst (rows s)) = true;
  sf_catalog : seen_mask (wk s) = ALL_MASK; sf_count : ok_rows (wk s) = len (rows s);
  sf_fine : Forall (row_fine (active_mode s) (d3_bound s) (rows s) (retained (prof s))) (rows s) }.

Lemma adopted_fine v calls o : run_vector v calls = Ok o -> adopted o = true -> store_fine (v_binding v) (final o).
Proof.
  unfold run_vector. intros H Ha. apply bind_Ok in H as ([sts s] & E & H).
  destruct (last calls) as [oc|] eqn:El; [|done]. inv_res. cbn [adopted final] in *.
  destruct oc; try discriminate Ha. bool_to_prop.
  apply last_Some in El as [init ->]. rewrite run_ops_app in E. apply bind_Ok in E as ([sa s1] & E1 & E).
  apply bind_Ok in E as ([sb s2] & E2 & E). injection E as <- <-. cbn [run_ops] in E2. apply bind_Ok in E2 as ([st s3] & E3 & E2).
  injection E2 as <- <-. rewrite last_snoc in *. cbn [default] in *.
  assert (Hi : session_inv (v_binding v) s1) by (eapply run_ops_inv; [|exact E1]; done).
  unfold run_op in E3. cbv zeta in E3. destruct (bool_decide (state s1 ∈ _)) eqn:Es; cbn [negb] in E3; [|injection E3 as <- <-; done]. bool_to_prop.
  destruct (cleanup (v_faults v) s1) as [oc s4] eqn:Ec. injection E3 as Est <-.
  destruct (cleanup_done _ _ _ _ Ec) as (D1 & D2 & D3 & D4 & D5 & D6 & D7).
  assert (Hsk : sticky s1 = None) by (apply D7; destruct (sticky s4); done).
  unfold session_inv in Hi. rewrite elem_of_cons, elem_of_cons, elem_of_nil in Es. destruct Es as [Es | [Es | []]]; rewrite Es in Hi.
  2:{ by rewrite Hsk in Hi. }
  destruct Hi as (Hr & [W2 W3 W4 W5 W6 W7 W8 W9] & Hm).
  assert (Hr' : profile_read (v_binding v) s4) by (apply (profile_read_frame _ s1); [unfold frame; congruence | done]).
  rewrite <- D5, <- D6, <- D2, <- D3, <- D4 in W9.
  destruct (pr_class _ _ Hr' ltac:(done) ltac:(done)) as [Hx Hv].
  split; rewrite ?D2, ?D6; try done. rewrite <- D2. apply W9; done.
Qed.

(** ** Where the rows come from *)

Lemma current_row_frame faults k v s st s' : current_row faults k v s = Ok (st, s') -> frame s' = frame s.
Proof.
  unfold current_row. destruct (negb _); [by intros [= <- <-]|]. intros H. apply bind_Ok in H as (s3 & _ & H). destruct s3.
  - destruct (_ && _); [|by injection H as <- <-]. apply bind_Ok in H as ([o s1] & E & H).
    destruct (apply_peer_sound _ _ _ _ _ _ E) as ((Hf & _) & _). destruct o; injection H as <- <-; done.
  - by injection H as <- <-.
  - cbv zeta in H. repeat case_match; injection H as <- <-; done.
Qed.

Lemma advance_once_frame faults s st s' : advance_once faults s = Ok (st, s') -> frame s' = frame s.
Proof.
  unfold advance_once. cbv zeta. destruct (rows _ !! _) as [[k v]|]; [|by destruct (_ && _); intros [= <- <-]].
  unfold scan_row. cbv zeta. intros H.
  destruct (_ || _); [by injection H as <- <-|]. destruct (match previous _ with Some _ => _ | None => _ end); [by injection H as <- <-|].
  destruct (catalog_id k).
  - repeat case_match; injection H as <- <-; done.
  - destruct (_ || _); [by injection H as <- <-|]. destruct (future_row k v); [by injection H as <- <-|]. destruct (_ && _); [by injection H as <- <-|].
    apply bind_Ok in H as ([o s1] & E & H). apply current_row_frame in E. destruct o; injection H as <- <-; done.
Qed.

Lemma advance_loop_frame n faults s st s' : advance_loop n faults s = Ok (st, s') -> frame s' = frame s.
Proof.
  revert s. induction n as [|n IH]; intros s H; [by injection H as <- <-|]. cbn in H.
  apply bind_Ok in H as ([o s1] & E & H). apply advance_once_frame in E. destruct o; [by injection H as <- <-|]. rewrite <- E. by apply IH.
Qed.

Lemma begin_scan_target faults binding mode bound s st s' :
  begin_scan faults binding mode bound s = Ok (st, s') -> rows s' = rows s /\ active_mode s' = mode /\ d3_bound s' = bound.
Proof.
  unfold begin_scan. cbv zeta. intros H. apply bind_Ok in H as ([g s1] & E & H).
  destruct (do_profile_gets_spec _ _ _ _ _ E) as (O1 & _). unfold outside in O1. injection O1 as _ _ O3 O4 O5 _. cbn in O3, O4, O5.
  destruct g as [e|c]; [injection H as H; apply cleanup_done in H as (_ & Hr & Hm & Hb & _); cbn in Hr, Hm, Hb; split_and!; congruence|].
  destruct (find_fault _ _ _ _) as [[f|] p]; injection H; [intros H1|intros <- _; split_and!; assumption].
  apply cleanup_done in H1 as (_ & Hr & Hm & Hb & _). cbn in Hr, Hm, Hb. split_and!; congruence.
Qed.

Lemma run_op_rows v o s st s' : run_op v o s = Ok (st, s') -> rows s' = rows s \/ exists name, v_alt_rows v !! name = Some (rows s').
Proof.
  intros H. destruct o as [ | name | | has_mode context | mode context | budget | key_hex | | | | name]; unfold run_op in H; cbv zeta in H.
  - inv_res. by left.
  - destruct (v_alt_rows v !! name) as [alt|] eqn:E; [|done]. inv_res. right. by exists name.
  - inv_res. by left.
  - left. repeat (destruct (_ : bool); [by injection H as <- <-|]). by eapply begin_scan_target.
  - left. repeat (destruct (_ : bool); [by injection H as <- <-|]). apply begin_scan_target in H as (H & _). done.
  - left. unfold do_advance in H. repeat (destruct (_ : bool); [by injection H as <- <-|]). apply advance_loop_frame in H. by injection H.
  - left. unfold do_exact_get in H. destruct (negb _); [by injection H as <- <-|]. apply bind_Ok in H as (k & _ & H). cbv zeta in H.
    repeat case_match; injection H as <- <-; done.
  - left. unfold do_note in H. repeat case_match; injection H as <- <-; done.
  - left. destruct (negb _); [by injection H as <- <-|]. destruct (cleanup (v_faults v) s) as [oc s1] eqn:Ec.
    apply cleanup_done in Ec as (_ & Hr & _). by injection H as <- <-.
  - left. destruct (negb _); [by injection H as <- <-|]. destruct (cleanup (v_faults v) s) as [oc s1] eqn:Ec.
    apply cleanup_done in Ec as (_ & Hr & _). by injection H as <- <-.
  - done.
Qed.

Definition rows_ok (l : list row) : Prop := Forall (fun r => bytes_ok r.1 /\ bytes_ok r.2) l.

Lemma run_ops_rows v calls s sts s' :
  rows_ok (rows s) -> (forall name l, v_alt_rows v !! name = Some l -> rows_ok l) -> run_ops v calls s = Ok (sts, s') -> rows_ok (rows s').
Proof.
  intros Hr Ha. revert s sts Hr. induction calls as [|o calls IH]; intros s sts Hr H; [by injection H as <- <-|]. cbn in H.
  apply bind_Ok in H as ([st s1] & E & H). apply bind_Ok in H as ([sts' s2] & E2 & H). injection H as <- <-.
  apply (IH s1 sts'); [|done]. destruct (run_op_rows _ _ _ _ _ E) as [-> | [name Hn]]; [done | by eapply Ha].
Qed.

Lemma hex_val_range a d : hex_val a = Some d -> 0 <= d < 16.
Proof.
  unfold hex_val. intros H. repeat case_match; simplify_eq;
    repeat match goal with E : in_range _ _ _ = true |- _ => apply in_range_spec in E end; lia.
Qed.

Lemma from_hex_ok s l : from_hex s = Ok l -> bytes_ok l.
Proof.
  unfold from_hex. revert l.
  enough (G : forall n cs, (length cs <= n)%nat -> forall l, from_hex_list cs = Ok l -> bytes_ok l) by (intros l; by eapply G).
  intros n. induction n as [|n IH]; intros [|a cs] Hn l H; cbn in Hn; try lia; try (injection H as <-; constructor).
  cbn in H. destruct (is_space a); [apply (IH cs); [lia | done]|].
  destruct cs as [|b cs]; [done|]. destruct (hex_val a) as [h|] eqn:Eh; [|done]. destruct (hex_val b) as [d|] eqn:Ed; [|done].
  apply bind_Ok in H as (tl & Et & H). injection H as <-. apply hex_val_range in Eh, Ed. constructor; [unfold is_byte; lia|].
  apply (IH cs); [cbn in Hn; lia | done].
Qed.

Lemma decode_rows_ok l rs : decode_rows l = Ok rs -> rows_ok rs.
Proof.
  revert rs. induction l as [|[k v] l IH]; intros rs H; [injection H as <-; constructor|]. cbn in H.
  apply bind_Ok in H as (kb & Ek & H). apply bind_Ok in H as (vb & Ev & H). apply bind_Ok in H as (tl & Et & H). injection H as <-.
  constructor; [split; by eapply from_hex_ok | by apply IH].
Qed.

Lemma decode_alt_rows_ok alts m : decode_alt_rows alts = Ok m -> forall name l, m !! name = Some l -> rows_ok l.
Proof.
  revert m. induction alts as [|[n rs] alts IH]; intros m H name l Hl; [injection H as <-; by rewrite lookup_empty in Hl|]. cbn in H.
  apply bind_Ok in H as (r & Er & H). apply bind_Ok in H as (m' & Em & H). injection H as <-.
  destruct (decide (n = name)) as [->|Hne]; [rewrite lookup_insert_eq in Hl; injection Hl as <-; by eapply decode_rows_ok|].
  rewrite lookup_insert_ne in Hl by done. by eapply IH.
Qed.

Lemma lookup_row_in key l v : lookup_row key l = Some v -> (key, v) ∈ l.
Proof.
  unfold lookup_row. destruct (List.find _ l) as [[k v']|] eqn:E; [|done]. cbn. intros [= ->].
  apply List.find_some in E as [Hin Hk]. cbn in Hk. bool_to_prop. subst k. by apply list_elem_of_In.
Qed.

Lemma lookup_row_none key l : lookup_row key l = None -> key ∉ map fst l.
Proof.
  unfold lookup_row. destruct (List.find _ l) as [r|] eqn:E; [done|]. intros _ H. apply list_elem_of_In, in_map_iff in H as ([k v] & <- & Hin).
  pose proof (List.find_none _ _ E _ Hin) as Hn. cbn in Hn. bool_to_prop. done.
Qed.

(** The peer is there and carries what the row says. *)
Definition peer_agrees (mode : Z) (ev : PeerEval) (peer_val source_val : bytes) : Prop :=
  (check_pvd ev = true -> skip_pvd ev = false ->
     if mode =? 17 then header_pvd source_val = value_digest peer_val else header_pvd peer_val = value_digest source_val) /\
  (raw_bijection ev = true \/ is_some (dual_raw ev) = true \/ mode18_pair ev = true -> _peer_raw_ok mode ev peer_val = Ok true).

Lemma current_header_pvd v : domain_value_framing v = current_framing -> header_pvd v <> [].
Proof.
  unfold domain_value_framing, header_pvd. intros H. case_ifs H. bool_to_prop. change (PVD_OFF + 32) with 104. unfold PVD_OFF.
  rewrite (proj2 (Z.ltb_ge _ 104)) by lia. intros E. apply (f_equal len) in E. rewrite len_slice in E by lia. done.
Qed.

Lemma check_peer_agrees mode ev pv v :
  domain_value_framing pv = current_framing -> check_peer mode ev pv v = Ok None -> peer_agrees mode ev pv v.
Proof.
  intros Hf H. unfold check_peer in H. cbv zeta in H. unfold peer_agrees.
  assert (Hraw : (if raw_bijection ev || is_some (dual_raw ev) || mode18_pair ev
      then ok ← _peer_raw_ok mode ev pv; mret (if negb ok then Some STORAGE_CORRUPT else None) else Ok None) = Ok None ->
      raw_bijection ev = true \/ is_some (dual_raw ev) = true \/ mode18_pair ev = true -> _peer_raw_ok mode ev pv = Ok true).
  { intros Hr Hor. replace (raw_bijection ev || is_some (dual_raw ev) || mode18_pair ev) with true in Hr
      by (destruct Hor as [-> | [-> | ->]]; by rewrite ?orb_true_r).
    apply bind_Ok in Hr as ([] & E & Hr); [done|]. done. }
  destruct (mode =? 17).
  - destruct (check_pvd ev && negb (skip_pvd ev) && _) eqn:Ec; [done|]. rewrite Hf in H. split; [|by apply Hraw].
    intros E1 E2. rewrite E1, E2 in Ec. cbn [andb negb] in Ec. bool_to_prop. done.
  - destruct (check_pvd ev && negb (skip_pvd ev) && _) eqn:Ec; [done|]. split; [|by apply Hraw].
    intros E1 E2. rewrite E1, E2 in Ec. cbn [andb negb] in Ec. apply andb_false_iff in Ec as [Ec|Ec]; bool_to_prop; [|done].
    by apply current_header_pvd in Hf.
Qed.

Lemma catalog_id_short key kid : catalog_id key = Some kid -> len key <= 10.
Proof. unfold catalog_id. cbv zeta. intros H. case_ifs H; bool_to_prop; lia. Qed.

Lemma parse_domain_key_long key p : parse_domain_key key = Some p -> 13 <= len key.
Proof. unfold parse_domain_key. intros H. case_ifs H. bool_to_prop. lia. Qed.

Lemma gate_ok_current k v st kind ident :
  parse_domain_key k = Some (6, st, kind, ident) -> family6_current_row_s3_status k v = Ok S3_OK -> domain_value_framing v = current_framing.
Proof. unfold family6_current_row_s3_status. intros ->. cbn [Z.eqb Pos.eqb negb]. by destruct (domain_value_framing v). Qed.

Lemma fine_typed mode bound all ret k v st kind ident :
  row_fine mode bound all ret (k, v) -> parse_domain_key k = Some (6, st, kind, ident) ->
  family6_current_row_s3_status k v = Ok S3_OK /\ (bound = true -> linked mode all (k, v)).
Proof.
  intros Hf Hp. unfold row_fine in Hf. cbn [fst snd] in Hf. destruct (catalog_id k) as [kid|] eqn:Ec.
  { apply catalog_id_short in Ec. apply parse_domain_key_long in Hp. lia. }
  destruct Hf as [_ Hf]. unfold current_fine in Hf. cbn [fst snd] in Hf.
  destruct (family6_current_row_s3_status k v) as [[]|]; try done. destruct Hf as [Hf _]. congruence.
Qed.

Lemma ascending_lookup (all : list row) k v v' : ascending (map fst all) = true -> (k, v) ∈ all -> (k, v') ∈ all -> v' = v.
Proof.
  intros Ha H1 H2. apply list_elem_of_lookup in H1 as [i Hi], H2 as [j Hj].
  assert (i = j) as <-; [|congruence]. eapply (NoDup_lookup (map fst all)); [by apply ascending_NoDup | |].
  - rewrite list_lookup_fmap, Hi. done.
  - rewrite list_lookup_fmap, Hj. done.
Qed.

(** A row whose peer is right, in a store where every typed row passes the gate. *)
Lemma linked_peer mode (all : list row) k v :
  ascending (map fst all) = true -> bytes_ok v ->
  (forall k v st kind ident, (k, v) ∈ all -> parse_domain_key k = Some (6, st, kind, ident) -> family6_current_row_s3_status k v = Ok S3_OK) ->
  linked mode all (k, v) ->
  exists r, rebuild_peer mode k v = Ok r /\
    match r with
    | None => True
    | Some ev =>
        match expect_presence ev with
        | PRESENT => exists pv, (peer_key ev, pv) ∈ all /\ (forall pv', (peer_key ev, pv') ∈ all -> pv' = pv) /\
            family6_current_row_s3_status (peer_key ev) pv = Ok S3_OK /\ peer_agrees mode ev pv v
        | ABSENT => peer_key ev ∉ map fst all
        end
    end.
Proof.
  intros Ha Hv Hgate Hl. unfold linked in Hl. cbn [fst snd] in Hl. destruct (rebuild_peer mode k v) as [[ev|]|e] eqn:Er; [|by exists None|done].
  exists (Some ev). split; [done|]. destruct (expect_presence ev), (lookup_row (peer_key ev) all) as [pv|] eqn:El; try done; [|by apply lookup_row_none].
  apply lookup_row_in in El. exists pv. split; [done|]. split; [intros pv' H'; by eapply ascending_lookup|].
  destruct (rebuild_peer_peers mode k v Hv) as (st & [Hp _] & _). destruct (Hp ev Er) as (st' & Hin & Ht).
  destruct (typed_key_parts st' _ Ht (peer_subtypes_byte _ _ _ Hin)) as (kind' & ident' & H1 & _).
  pose proof (Hgate _ _ _ _ _ El H1) as Hg. split; [done|]. apply check_peer_agrees; [by eapply gate_ok_current | done].
Qed.

Lemma existsb_decided {A} (P : A -> Prop) {HD : forall x, Decision (P x)} l :
  existsb (fun x => bool_decide (P x)) l = false -> forall x, x ∈ l -> ~ P x.
Proof.
  intros H x Hx HP. assert (E : existsb (fun x => bool_decide (P x)) l = true); [|congruence].
  apply existsb_exists. exists x. split; [by apply list_elem_of_In | by apply bool_decide_eq_true].
Qed.

Lemma validate_exact binding ret :
  validate_and_compare binding ret = Ok EXACT ->
  (forall kid, kid ∈ key_ids -> retained_defect (ret kid) = None) /\
  forall val, ret 1 = Some val -> len val < 183 \/ encode_binding binding = Ok val.
Proof.
  unfold validate_and_compare. cbv zeta. intros H. destruct (existsb _ _) eqn:E1; [done|]. destruct (existsb (fun d => bool_decide (d = Some false)) _) eqn:E2; [done|].
  split.
  - intros kid Hk. pose proof (existsb_decided (fun d => d = Some true) _ E1) as H1. pose proof (existsb_decided (fun d => d = Some false) _ E2) as H2.
    assert (Hin : retained_defect (ret kid) ∈ map (fun kid => retained_defect (ret kid)) key_ids) by (apply list_elem_of_fmap; by exists kid).
    specialize (H1 _ Hin). specialize (H2 _ Hin). destruct (retained_defect (ret kid)) as [[]|]; done.
  - intros val Hval. rewrite Hval in H. unfold default, id in H. destruct (Z.leb_spec 183 (len val)) as [Hl|Hl]; [right|by left].
    apply bind_Ok in H as (want & Ew & H). destruct (bool_decide (val = want)) eqn:Eb; [|done]. bool_to_prop. by subst.
Qed.

(** C3. Whatever the calls and faults, a scan that is adopted has found the store
    whole. The keys are strictly increasing and within their sizes, every row is
    counted, the seventeen profile rows are there, and the binding row is the expected
    one or too short to be one. Every row of family 6 passes the gate. If moreover the
    session is one that follows peers (one begun by begin_profiled is adopted without
    any peer check), each row has the peer it names: the peer is in the store once, it
    passes the gate too, and digest, owner and names agree; a peer that must be absent
    is. *)
Theorem adopted_scan_links h calls o :
  run_case h calls = Ok o -> adopted o = true ->
  let all := rows (final o) in let mode := active_mode (final o) in
  ascending (map fst all) = true /\ forallb row_sized all = true /\ ok_rows (wk (final o)) = len all /\
  (forall kid, kid ∈ key_ids -> exists key val, catalog_key kid = Ok key /\ (key, val) ∈ all /\ retained_defect (Some val) = None /\
     (kid = 1 -> len val < 183 \/ encode_binding (h_binding h) = Ok val)) /\
  forall k v st kind ident, (k, v) ∈ all -> parse_domain_key k = Some (6, st, kind, ident) ->
    family6_current_row_s3_status k v = Ok S3_OK /\
    (d3_bound (final o) = true ->
     exists r, rebuild_peer mode k v = Ok r /\
     match r with
     | None => True
     | Some ev =>
         match expect_presence ev with
         | PRESENT => exists pv, (peer_key ev, pv) ∈ all /\ (forall pv', (peer_key ev, pv') ∈ all -> pv' = pv) /\
             family6_current_row_s3_status (peer_key ev) pv = Ok S3_OK /\ peer_agrees mode ev pv v
         | ABSENT => peer_key ev ∉ map fst all
         end
     end).
Proof.
  unfold run_case. intros H Had. apply bind_Ok in H as (v & Ev & H). pose proof (adopted_fine v calls o H Had) as [Hr Hx Hsz Hasc Hcat Hcnt Hfine].
  unfold decode_vector in Ev. apply bind_Ok in Ev as (vr & Er & Ev). apply bind_Ok in Ev as (va & Ea & Ev). injection Ev as <-.
  cbn [v_binding v_alt_rows v_rows] in *. set (all := rows (final o)) in *. set (mode := active_mode (final o)) in *.
  assert (Hok : rows_ok all).
  { unfold run_vector in H. apply bind_Ok in H as ([sts s] & E & H). destruct (last calls); [|done]. inv_res. cbn [final] in all.
    eapply run_ops_rows; [ | |exact E]; cbn; [by eapply decode_rows_ok | by eapply decode_alt_rows_ok]. }
  assert (Hin : forall k v, (k, v) ∈ all -> row_fine mode (d3_bound (final o)) all (retained (prof (final o))) (k, v)).
  { intros k v Hk. by apply (proj1 (Forall_forall _ _) Hfine). }
  destruct (validate_exact _ _ Hx) as [Hdef Hbind].
  split; [done|]. split; [done|]. split; [done|]. split.
  - intros kid Hk. destruct (pr_rows _ _ Hr kid Hk) as (key & val & E1 & E2 & E3 & _). exists key, val. split; [done|].
    split; [by apply lookup_row_in|]. specialize (Hdef kid Hk). rewrite E3 in Hdef. split; [done|]. intros ->. by apply Hbind.
  - intros k v0 st kind ident Hk Hp. destruct (fine_typed _ _ _ _ _ _ _ _ _ (Hin k v0 Hk) Hp) as [Hg Hl]. split; [done|]. intros Hb.
    apply linked_peer; [done | | | by apply Hl].
    + unfold rows_ok in Hok. rewrite Forall_forall in Hok. by apply (Hok (k, v0)).
    + intros k' v' st' kind' ident' Hk' Hp'. by destruct (fine_typed _ _ _ _ _ _ _ _ _ (Hin k' v' Hk') Hp').
Qed.

(** The seventeen profile rows with one service and its quota. *)
Lemma adopted_scan_links_witness :
  let name := be_bytes 2 4 ++ pattern 1 4 in
  let service := ok_or [] (enc_env_full 6 ST_SERVICE 0 1 (zeros 16) (zeros 32) (zeros 32) name) in
  let quota := ok_or [] (enc_env_full 6 ST_QUOTA 0 1 (zeros 16) (zeros 32) (value_digest service) name) in
  let rows := ok_or [] (encode_all_profile_rows default_binding_fields 1 None) ++
              [(hex_of (ok_or [] (k_composite ST_SERVICE name)), hex_of service); (hex_of (ok_or [] (k_composite ST_QUOTA name)), hex_of quota)] in
  let h := {| h_mode := 1; h_binding := default_binding_fields; h_rows := rows; h_alt_rows := []; h_faults := [] |} in
  exists o, run_case h [Begin_profiled_d3s1 (Some 1) None; Advance 100; Finalize] = Ok o /\ adopted o = true /\
    ascending (map fst (Crossrow.rows (final o))) = true /\ ok_rows (wk (final o)) = len (Crossrow.rows (final o)).
Proof.
  intros name service quota rows h.
  assert (E : match run_case h [Begin_profiled_d3s1 (Some 1) None; Advance 100; Finalize] with Ok o => adopted o | Raise _ => false end = true)
    by (vm_compute; reflexivity).
  destruct (run_case h _) as [o|] eqn:Eo; [|discriminate E]. exists o.
  destruct (adopted_scan_links h _ o Eo E) as (H1 & _ & H2 & _). split_and!; [reflexivity | exact E | exact H1 | exact H2].
Defined.
