(* ===== verification/CrossAdopt.v ===== *)
(** When a cross-row scan adopts a store: a run without faults adopts it exactly when the
    store is whole ([tools/domain_scan_crossrow_vector_gen.py]). *)

From S2P Require Import Prelude Bytes Crc DomainScan CrossPeer CrossGate Profile Crossrow.

(** ** The specification *)

(** The row of the store under a catalogue key. *)
Definition profile_row (all : list row) (kid : Z) : option bytes :=
  match catalog_key kid with Ok key => lookup_row key all | Raise _ => None end.

(** A whole store: profile in full and exact, rows sized and in order, and every other row of
    a current version, through its gate, with the peer it names. *)
Record whole (binding : binding_fields) (mode : Z) (all : list row) : Prop := {
  wh_profile : forall kid, kid ∈ key_ids -> exists val, profile_row all kid = Some val /\ len val <= capacity_of kid;
  wh_exact : validate_and_compare binding (profile_row all) = Ok EXACT;
  wh_sized : forallb row_sized all = true; wh_ascending : ascending (map fst all) = true;
  wh_rows : Forall (fun r => catalog_id r.1 = None -> (8 <=? len r.1) && future_root r.1 = false /\ current_fine mode true all r) all }.

(** ** The catalogue *)

Lemma catalog_key_id kid key : kid ∈ key_ids -> catalog_key kid = Ok key -> catalog_id key = Some kid.
Proof.
  intros Hk E.
  assert (H : Forall (fun kid => match catalog_key kid with Ok key => bool_decide (catalog_id key = Some kid) | Raise _ => false end = true) key_ids)
    by in_list.
  rewrite Forall_forall in H. specialize (H kid Hk). cbv beta in H. rewrite E in H. by bool_to_prop.
Qed.

(** The last bytes of a short key under the root. *)
Lemma key_tail n (key : bytes) : 0 <= n -> len key = 8 + n -> slice 0 8 key = ROOT_V1 -> key = ROOT_V1 ++ slice 8 (8 + n) key.
Proof. intros Hn Hl Hr. rewrite <- (slice_all key) at 1. rewrite Hl, (slice_split 0 8 (8 + n) key) by lia. by rewrite Hr. Qed.

Lemma catalog_id_key key kid : catalog_id key = Some kid -> kid ∈ key_ids /\ catalog_key kid = Ok key.
Proof.
  unfold catalog_id. cbv zeta. intros H.
  assert (H9 : forall b, (len key =? 9) && bool_decide (slice 0 8 key = ROOT_V1) && (byte_at 8 key =? b) = true -> key = ROOT_V1 ++ [b]).
  { intros b E. bool_to_prop. rewrite (key_tail 1 key) by done. rewrite (slice_single key 8) by lia. congruence. }
  assert (H10 : forall b hi, (len key =? 10) && bool_decide (slice 0 8 key = ROOT_V1) && (byte_at 8 key =? b) && in_range 1 hi (byte_at 9 key) = true ->
    exists x, 1 <= x <= hi /\ byte_at 9 key = x /\ key = ROOT_V1 ++ [b; x]).
  { intros b hi E. bool_to_prop. match goal with R : in_range _ _ _ = true |- _ => apply in_range_spec in R end.
    exists (byte_at 9 key). split; [done|]. split; [done|]. rewrite (key_tail 2 key) at 1 by done. rewrite (slice_split 8 9 (8 + 2)) by lia.
    pose proof (slice_single key 8 ltac:(lia)) as E8. pose proof (slice_single key 9 ltac:(lia)) as E9. change (8 + 1) with 9 in E8. change (9 + 1) with (8 + 2) in E9. rewrite E8, E9. cbn. congruence. }
  case_ifs H.
  all: try (match goal with E : _ = true |- _ => apply H9 in E end; injection H as <-; subst key; split; [in_list | reflexivity]).
  all: match goal with E : _ && in_range _ _ _ = true |- _ => apply H10 in E as (x & Hx & Ex & Ek) end; rewrite Ex in H; injection H as <-; subst key.
  - assert (Hc : x = 1 \/ x = 2 \/ x = 3 \/ x = 4) by lia. repeat destruct Hc as [-> | Hc]; [..| subst x]; (split; [in_list | reflexivity]).
  - assert (Hc : x = 1 \/ x = 2 \/ x = 3 \/ x = 4 \/ x = 5 \/ x = 6 \/ x = 7 \/ x = 8 \/ x = 9 \/ x = 10 \/ x = 11) by lia.
    repeat destruct Hc as [-> | Hc]; [..| subst x]; (split; [in_list | reflexivity]).
Qed.

(** ** The mask of catalogue rows seen *)

Definition add_kid (m : Z) (r : row) : Z := match catalog_id r.1 with Some kid => Z.lor m (Z.shiftl 1 (kid - 1)) | None => m end.
Definition mask_of (pre : list row) : Z := fold_left add_kid pre 0.

Lemma mask_snoc pre r : mask_of (pre ++ [r]) = add_kid (mask_of pre) r.
Proof. unfold mask_of. by rewrite fold_left_app. Qed.

Lemma key_ids_range kid : kid ∈ key_ids <-> 1 <= kid <= 17.
Proof.
  unfold key_ids. rewrite list_elem_of_fmap. setoid_rewrite elem_of_seq. split; [intros (n & -> & Hn); lia|].
  intros. exists (Z.to_nat kid). lia.
Qed.

Lemma bit_of_kid kid i : 1 <= kid -> 0 <= i -> Z.testbit (Z.shiftl 1 (kid - 1)) i = bool_decide (kid = i + 1).
Proof.
  intros. rewrite Z.shiftl_1_l, Z.pow2_bits_eqb by lia. destruct (Z.eqb_spec (kid - 1) i); symmetry; [apply bool_decide_eq_true | apply bool_decide_eq_false]; lia.
Qed.

Lemma mask_bit pre i : 0 <= i -> Z.testbit (mask_of pre) i = existsb (fun r => bool_decide (catalog_id r.1 = Some (i + 1))) pre.
Proof.
  intros Hi. induction pre as [|r pre IH] using rev_ind; [apply Z.testbit_0_l|]. rewrite mask_snoc, existsb_app. cbn [existsb]. rewrite orb_false_r, <- IH.
  unfold add_kid. destruct (catalog_id r.1) as [kid|] eqn:E; [|by rewrite orb_false_r].
  rewrite Z.lor_spec. f_equal. apply catalog_id_key in E as [E _]. apply key_ids_range in E. rewrite bit_of_kid by lia.
  apply bool_decide_ext. split; [by intros -> | by intros [= ->]].
Qed.

(** The bit of a catalogue key that has not been seen is clear. *)
Lemma mask_unseen pre k kid : catalog_id k = Some kid -> k ∉ map fst pre -> Z.land (mask_of pre) (Z.shiftl 1 (kid - 1)) = 0.
Proof.
  intros Ek Hk. pose proof Ek as Ek'. apply catalog_id_key in Ek' as [Hr Ek']. apply key_ids_range in Hr. apply Z.bits_inj'. intros i Hi.
  rewrite Z.land_spec, Z.testbit_0_l, bit_of_kid, mask_bit by lia. apply andb_false_iff.
  destruct (decide (kid = i + 1)) as [->|]; [left | right; by apply bool_decide_eq_false]. apply not_true_iff_false. intros H.
  apply existsb_exists in H as ([k' v'] & Hin & H). bool_to_prop. cbn [fst] in H. apply catalog_id_key in H as [_ H]. apply Hk.
  apply list_elem_of_In, in_map_iff. exists (k', v'). split; [cbn; congruence | done].
Qed.

(** A store with every profile row fills the mask. *)
Lemma mask_full all : (forall kid, kid ∈ key_ids -> exists val, profile_row all kid = Some val) -> mask_of all = ALL_MASK.
Proof.
  intros H. change ALL_MASK with (Z.ones 17). apply Z.bits_inj'. intros i Hi. rewrite mask_bit, Z.testbit_ones_nonneg by lia.
  apply eq_true_iff_eq. rewrite Z.ltb_lt, existsb_exists. split.
  - intros ([k v] & _ & E). bool_to_prop. apply catalog_id_key in E as [E _]. apply key_ids_range in E. lia.
  - intros Hlt. destruct (H (i + 1)) as [val Hv]; [apply key_ids_range; lia|]. unfold profile_row in Hv.
    destruct (catalog_key (i + 1)) as [key|] eqn:Ek; [|done]. exists (key, val). split; [by apply list_elem_of_In, lookup_row_in|].
    apply bool_decide_eq_true. apply catalog_key_id; [apply key_ids_range; lia | done].
Qed.

(** ** A run without faults *)

(** The handles while a scan runs and nothing has gone wrong. *)
Definition ports_fine (p : ports) : Prop :=
  txn_live p = true /\ iter_live p = true /\ fence_pending p = false /\ handle_drifted p = false /\ reopen_required p = false.

Lemma no_fault name n p : find_fault [] name n p = (None, p).
Proof. done. Qed.

Lemma lookup_row_own all k v : ascending (map fst all) = true -> (k, v) ∈ all -> lookup_row k all = Some v.
Proof.
  intros Ha Hin. destruct (lookup_row k all) as [v'|] eqn:E; [|exfalso; apply lookup_row_none in E; apply E, list_elem_of_fmap; by exists (k, v)].
  f_equal. apply lookup_row_in in E. by eapply ascending_lookup.
Qed.

Lemma apply_peer_clean k v s :
  ports_fine (pt s) -> linked (active_mode s) (rows s) (k, v) ->
  exists s', apply_d3_peer [] k v s = Ok (None, s') /\ ports_fine (pt s') /\ wk s' = wk s.
Proof.
  intros Hp Hl. unfold linked in Hl. cbn [fst snd] in Hl. unfold apply_d3_peer. destruct (rebuild_peer (active_mode s) k v) as [[ev|]|]; [|by exists s|done].
  cbv zeta. rewrite no_fault. change (rows (with_pt _ s)) with (rows s). change (active_mode (with_pt _ s)) with (active_mode s).
  destruct (expect_presence ev), (lookup_row (peer_key ev) (rows s)) as [pv|]; try done; [rewrite Hl|]; eexists; split; done.
Qed.

Lemma current_row_clean k v s :
  ports_fine (pt s) -> profile_exact (prof s) = true -> sticky s = None -> current_fine (active_mode s) (d3_bound s) (rows s) (k, v) ->
  exists s', current_row [] k v s = Ok (None, s') /\ ports_fine (pt s') /\ wk s' = wk s.
Proof.
  intros Hp Hx Hs Hf. unfold current_fine in Hf. cbn [fst snd] in Hf. unfold current_row. rewrite Hx. cbn [negb].
  destruct (family6_current_row_s3_status k v) as [[]|]; try done; rewrite ok_bind.
  - rewrite Hs. cbn [is_some negb]. rewrite andb_true_r. destruct (d3_bound s) eqn:Eb; [|by exists s].
    destruct (apply_peer_clean k v s Hp (Hf eq_refl)) as (s' & E & H1 & H2). rewrite E, ok_bind. by exists s'.
  - destruct Hf as [-> Hn]. destruct (domain_value_framing v); try done; by exists s.
Qed.

Section CleanRun.
  Context (binding : binding_fields) (mode : Z) (all : list row).
  Hypothesis Hwhole : whole binding mode all.

(** The state after the rows [pre]. *)
Record clean_scan (pre : list row) (s : session) : Prop := {
  cs_walked : walked pre s; cs_rows : rows s = all; cs_mode : active_mode s = mode; cs_bound : d3_bound s = true; cs_state : state s = OPEN;
  cs_ports : ports_fine (pt s); cs_future : future_seen (wk s) = false; cs_mask : seen_mask (wk s) = mask_of pre;
  cs_exact : profile_exact (prof s) = true; cs_mismatch : profile_mismatch (prof s) = false; cs_later : future_profile (prof s) = false;
  cs_present : present_mask (prof s) = ALL_MASK;
  cs_retained : forall kid, kid ∈ key_ids -> retained (prof s) !! kid = profile_row all kid }.

Lemma scan_row_passes pre k v post s :
  all = pre ++ (k, v) :: post -> clean_scan pre s ->
  exists s', scan_row [] k v s = Ok (None, s') /\ ports_fine (pt s') /\ future_seen (wk s') = false /\ seen_mask (wk s') = add_kid (mask_of pre) (k, v).
Proof.
  intros Hall [Hw Hrows Hm Hb Hst Hp Hf Hmask Hx Hmm Hl _ Hret]. destruct Hwhole as [_ _ Hsz Hasc Hfine].
  assert (Hin : (k, v) ∈ all) by (rewrite Hall; set_solver).
  assert (Hnin : k ∉ map fst pre).
  { pose proof (ascending_NoDup _ Hasc) as Hnd. rewrite Hall, map_app in Hnd. apply NoDup_app in Hnd as (_ & H & _). intros H'. apply (H k H'). by left. }
  rewrite forallb_forall in Hsz. specialize (Hsz (k, v) (proj1 (list_elem_of_In _ _) Hin)).
  unfold row_sized in Hsz. cbn [fst snd] in Hsz. bool_to_prop.
  unfold scan_row. cbv zeta. set (s0 := on_wk w_step s). change (wk s0) with (w_step (wk s)). change (prof s0) with (prof s).
  replace (negb (in_range 1 KEY_CAP (len k)) || (VALUE_CAP <? len v)) with false
    by (symmetry; apply orb_false_iff; split; [by apply negb_false_iff | by apply Z.ltb_ge]).
  cbn [w_step previous]. rewrite (wd_previous _ _ Hw).
  assert (Hlast : match fst <$> last pre with Some p => negb (key_strictly_increases p k) | None => false end = false).
  { assert (Ha : ascending (map fst pre ++ [k]) = true).
    { apply (ascending_app_l _ (map fst post)). rewrite <- app_assoc. rewrite Hall, map_app in Hasc. exact Hasc. }
    rewrite ascending_snoc in Ha. bool_to_prop. match goal with H : match _ with Some _ => _ | None => _ end = true |- _ => revert H end.
    rewrite (fmap_last fst pre : last (map fst pre) = fst <$> last pre). destruct (fst <$> last pre); [|done]. by intros ->. }
  rewrite Hlast, (wd_recon _ _ Hw). cbn [seen_mask w_step]. rewrite Hmask. rewrite Forall_forall in Hfine. specialize (Hfine (k, v) Hin). cbn [fst] in Hfine.
  unfold add_kid. cbn [fst]. destruct (catalog_id k) as [kid|] eqn:Ek.
  - pose proof Ek as Ek'. apply catalog_id_key in Ek' as [Hr Ek']. rewrite (mask_unseen pre k kid) by done. cbn [Z.eqb negb].
    rewrite Hret by done. unfold profile_row. rewrite Ek', (lookup_row_own all k v) by done. rewrite bool_decide_eq_true_2 by done. cbn [negb].
    eexists. split; [reflexivity|]. split; [exact Hp|]. by split.
  - destruct (Hfine eq_refl) as [Hroot Hcur]. rewrite Hmm, Hl. cbn [orb].
    replace (future_row k v) with false
      by (symmetry; unfold future_row; destruct (8 <=? len k); cbn [andb] in *; [by rewrite Hroot, andb_false_r | done]).
    rewrite Hroot. destruct (current_row_clean k v (on_wk w_current s0)) as (s1 & E & H1 & H2);
      [exact Hp | exact Hx | exact (wd_sticky _ _ Hw) | change (current_fine (active_mode s) (d3_bound s) (rows s) (k, v)); by rewrite Hm, Hb, Hrows |].
    rewrite E, ok_bind. eexists. split; [reflexivity|]. split; [exact H1|]. cbn. by rewrite H2.
Qed.

Lemma advance_once_passes pre k v post s :
  all = pre ++ (k, v) :: post -> clean_scan pre s -> exists s', advance_once [] s = Ok (None, s') /\ clean_scan (pre ++ [(k, v)]) s'.
Proof.
  intros Hall Hc. set (s0 := with_pt (p_trace P_iter_next (pt s)) s).
  assert (Hc0 : clean_scan pre s0) by (destruct Hc; split; try assumption; by apply walked_pt).
  destruct (scan_row_passes pre k v post s0 Hall Hc0) as (s' & E & H1 & H2 & H3). exists s'.
  assert (Ea : advance_once [] s = Ok (None, s')).
  { unfold advance_once. cbv zeta. fold s0. rewrite (wd_index _ _ (cs_walked _ _ Hc0)), (cs_rows _ _ Hc0), Hall. unfold len.
    rewrite Nat2Z.id, lookup_app_r, Nat.sub_diag by lia. exact E. }
  split; [exact Ea|]. destruct Hc0 as [Hw Hr Hm Hb Hst _ _ _ Hx Hmm Hl Hp Hret].
  destruct (scan_row_sound _ _ _ _ _ _ _ Hw E) as [(_ & Hw' & Hf & Hst') | [[e ?] _]]; [|done].
  unfold frame in Hf. injection Hf as F1 F2 F3 F4. split; rewrite ?F1, ?F2, ?F3, ?F4; try assumption; try congruence.
  by rewrite mask_snoc.
Qed.

Lemma advance_once_ends s :
  clean_scan all s -> exists s', advance_once [] s = Ok (Some OK, s') /\ state s' = EXHAUSTED /\ sticky s' = None /\ prof s' = prof s /\
    wk s' = wk s /\ ports_fine (pt s').
Proof.
  intros [Hw Hr Hm Hb Hst Hp Hf Hmask Hx Hmm Hl Hpm Hret]. unfold advance_once. cbv zeta. set (s0 := with_pt _ s).
  change (wk s0) with (wk s). change (rows s0) with (rows s). change (prof s0) with (prof s).
  rewrite (wd_index _ _ Hw), Hr, lookup_ge_None_2 by (unfold len; lia). rewrite Hmask, Hpm, mask_full.
  - rewrite Z.eqb_refl, andb_false_r. eexists. split; [reflexivity|]. split_and!; try done. exact (wd_sticky _ _ Hw).
  - intros kid Hk. destruct (wh_profile _ _ _ Hwhole kid Hk) as (val & E & _). by exists val.
Qed.

(** The state after the last row. *)
Record finished (s : session) : Prop := {
  fi_state : state s = EXHAUSTED; fi_sticky : sticky s = None; fi_mismatch : profile_mismatch (prof s) = false;
  fi_later : future_profile (prof s) = false; fi_future : future_seen (wk s) = false; fi_ports : ports_fine (pt s) }.

Lemma advance_loop_clean post : forall pre n s,
  all = pre ++ post -> clean_scan pre s ->
  exists s', advance_loop n [] s = Ok (OK, s') /\
    if (n <=? length post)%nat then clean_scan (pre ++ take n post) s' else finished s'.
Proof.
  induction post as [|[k v] post IH]; intros pre n s Hall Hc; (destruct n as [|n]; [exists s; by rewrite take_0, app_nil_r|]);
    cbn [advance_loop length Nat.leb take].
  - rewrite app_nil_r in Hall. subst pre. destruct (advance_once_ends s Hc) as (s' & E & H1 & H2 & H3 & H4 & H5). rewrite E, ok_bind.
    exists s'. split; [done|]. split; rewrite ?H3, ?H4; try done; by destruct Hc.
  - destruct (advance_once_passes pre k v post s Hall Hc) as (s1 & E & Hc1). rewrite E, ok_bind.
    destruct (IH (pre ++ [(k, v)]) n s1) as (s' & E' & H'); [by rewrite <- app_assoc | done |].
    exists s'. split; [done|]. by rewrite <- app_assoc in H'.
Qed.

Definition total (budgets : list Z) : Z := fold_right Z.add 0 budgets.

Lemma advances_finished v budgets s : finished s -> exists sts, run_ops v (map Advance budgets) s = Ok (sts, s).
Proof.
  intros Hf. induction budgets as [|b budgets [sts IH]]; [by exists []|]. cbn [map run_ops]. unfold run_op, do_advance.
  rewrite (fi_state _ Hf). rewrite bool_decide_eq_false_2 by done. cbn [negb]. rewrite ok_bind, IH, ok_bind. by eexists.
Qed.

(** The rows are walked in any number of pieces. *)
Lemma advances_clean v budgets : v_faults v = [] -> Forall (fun b => 0 < b) budgets -> forall pre post s,
  all = pre ++ post -> clean_scan pre s ->
  exists sts s', run_ops v (map Advance budgets) s = Ok (sts, s') /\ (finished s' \/ total budgets <= len post).
Proof.
  intros Hv. induction 1 as [|b budgets Hb _ IH]; intros pre post s Hall Hc.
  { exists [], s. split; [done|]. right. apply len_nonneg. }
  cbn [map run_ops]. unfold run_op, do_advance. rewrite (cs_state _ _ Hc), bool_decide_eq_true_2 by done. cbn [negb].
  destruct (cs_ports _ _ Hc) as (P1 & P2 & _ & P4 & _). rewrite (proj2 (Z.eqb_neq b 0)), P4, P1, P2, Hv by lia. cbn [negb orb].
  destruct (advance_loop_clean post pre (Z.to_nat b) s Hall Hc) as (s1 & E & H1). rewrite E, ok_bind.
  destruct (Nat.leb_spec (Z.to_nat b) (length post)) as [Hle|Hgt].
  - destruct (IH (pre ++ take (Z.to_nat b) post) (drop (Z.to_nat b) post) s1) as (sts & s' & E' & H');
      [by rewrite <- app_assoc, take_drop | done |]. rewrite E', ok_bind. exists (OK :: sts), s'. split; [done|].
    destruct H' as [H'|H']; [by left | right]. cbn [total fold_right]. unfold len in *. rewrite length_drop in H'. fold (total budgets). lia.
  - destruct (advances_finished v budgets s1 H1) as [sts E']. rewrite E', ok_bind. exists (OK :: sts), s1. split; [done | by left].
Qed.

(** ** The profile *)

Lemma profile_gets_clean kids s :
  (forall kid, kid ∈ kids -> exists val, profile_row (rows s) kid = Some val /\ len val <= capacity_of kid) ->
  exists s', profile_gets [] kids s = Ok (None, s') /\
    present_mask (prof s') = fold_left (fun m kid => Z.lor m (Z.shiftl 1 (kid - 1))) kids (present_mask (prof s)) /\
    txn_live (pt s') = txn_live (pt s) /\ fence_pending (pt s') = fence_pending (pt s) /\ handle_drifted (pt s') = handle_drifted (pt s) /\
    reopen_required (pt s') = reopen_required (pt s).
Proof.
  revert s. induction kids as [|kid kids IH]; intros s H; [by exists s|]. cbn [profile_gets fold_left].
  destruct (H kid ltac:(by left)) as (val & E & Hl). unfold profile_row in E. destruct (catalog_key kid) as [key|] eqn:Ek; [|done].
  unfold profile_get. cbv zeta. rewrite Ek, ok_bind, no_fault. change (rows (with_pt _ s)) with (rows s). rewrite E, (proj2 (Z.ltb_ge _ _) Hl).
  change (mret ?x) with (@Ok (option status * session) x). rewrite ok_bind.
  match goal with |- context [profile_gets [] kids ?s1] => destruct (IH s1) as (s' & E' & H1 & H2 & H3 & H4 & H5) end.
  - intros kid' Hk. apply (H kid'). by right.
  - exists s'. rewrite E'. split_and!; done.
Qed.

End CleanRun.

Lemma validate_ext binding f g :
  (forall kid, kid ∈ key_ids -> f kid = g kid) -> validate_and_compare binding f = validate_and_compare binding g.
Proof.
  intros H. unfold validate_and_compare. cbv zeta. rewrite (H 1) by in_list.
  replace (map (fun kid => retained_defect (f kid)) key_ids) with (map (fun kid => retained_defect (g kid)) key_ids); [done|].
  apply map_ext_in. intros kid Hk. by rewrite H by by apply list_elem_of_In.
Qed.

Lemma do_profile_gets_clean binding mode s :
  whole binding mode (rows s) ->
  exists s', do_profile_gets [] binding s = Ok (inr EXACT, s') /\ outside s' = outside s /\ flags (prof s') = flags (prof s) /\
    present_mask (prof s') = ALL_MASK /\ (forall kid, kid ∈ key_ids -> retained (prof s') !! kid = profile_row (rows s) kid) /\
    txn_live (pt s') = txn_live (pt s) /\ fence_pending (pt s') = fence_pending (pt s) /\ handle_drifted (pt s') = handle_drifted (pt s) /\
    reopen_required (pt s') = reopen_required (pt s).
Proof.
  intros [Hprof Hx _ _ _]. unfold do_profile_gets. cbv zeta. set (s0 := with_prof _ s).
  destruct (profile_gets_clean key_ids s0) as (s1 & E & Hm & Hports); [exact Hprof|].
  destruct (profile_gets_spec _ _ _ _ _ key_ids_NoDup E) as (O1 & F1 & R1). destruct (R1 eq_refl) as [_ R2]. rewrite E, ok_bind.
  assert (Hmask : present_mask (prof s1) = ALL_MASK) by (rewrite Hm; vm_compute; reflexivity).
  assert (Hret : forall kid, kid ∈ key_ids -> retained (prof s1) !! kid = profile_row (rows s) kid).
  { intros kid Hk. destruct (R2 kid Hk) as (key & val & E1 & E2 & E3 & _). unfold profile_row. rewrite E1, E3. symmetry. exact E2. }
  rewrite Hmask, Z.eqb_refl. cbn [negb]. rewrite (validate_ext binding _ _ Hret), Hx, ok_bind. by exists s1.
Qed.

Lemma begin_scan_clean v mode b :
  v_faults v = [] -> whole (v_binding v) mode (v_rows v) ->
  exists s, begin_scan [] (v_binding v) mode true (with_mode mode b (session_init v)) = Ok (OK, s) /\ clean_scan mode (v_rows v) [] s.
Proof.
  intros Hf Hw. unfold begin_scan. cbv zeta. set (s0 := with_mode mode true _).
  destruct (do_profile_gets_clean (v_binding v) mode s0 Hw) as (s1 & E & O1 & F1 & Hm & Hret & Ht & Hfe & Hd & Hr).
  rewrite E, ok_bind, no_fault. eexists. split; [reflexivity|]. unfold outside in O1. injection O1 as O1 O2 O3 O4 O5 O6.
  unfold flags in F1. injection F1 as F1 F2 F3 F4.
  split; [split| ..]; cbn; rewrite ?O2, ?O3, ?O4, ?O5, ?O6, ?F1, ?F2, ?F3; try done.
Qed.

Lemma finalize_clean v s :
  v_faults v = [] -> state s = EXHAUSTED -> sticky s = None -> profile_mismatch (prof s) = false -> future_profile (prof s) = false ->
  future_seen (wk s) = false -> ports_fine (pt s) ->
  exists s', run_op v Finalize s = Ok (OK, s') /\ state s' = DONE /\ sticky s' = None /\ reopen_required (pt s') = false /\
    prof s' = prof s /\ wk s' = wk s.
Proof.
  intros Hv Hs Hk Hm Hl Hf (P1 & P2 & P3 & P4 & P5). unfold run_op. rewrite Hs, Hv. cbn [negb]. rewrite bool_decide_eq_true_2 by in_list.
  cbn [negb]. unfold cleanup. cbv zeta. rewrite P1, P2. cbn [andb]. rewrite no_fault. cbn [p_live p_trace txn_live fence_pending].
  rewrite P3. cbn [sticky with_state with_pt]. rewrite Hk. cbn [prof with_state with_pt wk]. rewrite Hm, Hl, Hf. cbn [orb].
  eexists. split; [reflexivity|]. by split_and!.
Qed.

(** ** Adoption *)

Definition scan_calls (mode : Z) (budgets : list Z) : list op := Begin_profiled_d3s1 (Some mode) None :: map Advance budgets ++ [Finalize].

Lemma advances_frame v budgets s sts s' : run_ops v (map Advance budgets) s = Ok (sts, s') -> frame s' = frame s.
Proof.
  revert s sts. induction budgets as [|b budgets IH]; intros s sts H; [by injection H as <- <-|]. cbn [map run_ops] in H.
  apply bind_Ok in H as ([st s1] & E & H). apply bind_Ok in H as ([sts' s2] & E2 & H). injection H as <- <-. apply IH in E2.
  rewrite E2. unfold run_op, do_advance in E. repeat (destruct (_ : bool); [by injection E as <- <-|]). by apply advance_loop_frame in E.
Qed.

Lemma run_begin v mode s :
  state s = IDLE -> in_range 1 20 mode = true ->
  run_op v (Begin_profiled_d3s1 (Some mode) None) s = begin_scan (v_faults v) (v_binding v) mode true (with_mode mode (d3_bound s) s).
Proof.
  intros Hs Hm. unfold run_op. cbv zeta. rewrite Hs, bool_decide_eq_true_2 by done. change (default (v_mode v) (Some mode)) with mode. rewrite Hm.
  rewrite bool_decide_eq_false_2 by in_list. done.
Qed.

(** What the session of a scan was bound to. *)
Lemma scan_calls_target v mode budgets o :
  in_range 1 20 mode = true -> run_vector v (scan_calls mode budgets) = Ok o ->
  rows (final o) = v_rows v /\ active_mode (final o) = mode /\ d3_bound (final o) = true.
Proof.
  intros Hm. unfold run_vector, scan_calls. intros H. apply bind_Ok in H as ([sts s] & E & H). rewrite last_cons, last_snoc in H. inv_res. cbn [final].
  cbn [run_ops] in E. apply bind_Ok in E as ([st1 s1] & E1 & E). apply bind_Ok in E as ([sts2 s2] & E2 & E). injection E as <- <-.
  rewrite run_ops_app in E2. apply bind_Ok in E2 as ([sts3 s3] & E3 & E2). apply bind_Ok in E2 as ([sts4 s4] & E4 & E2). injection E2 as <- <-.
  rewrite run_begin in E1 by done. apply begin_scan_target in E1 as (R1 & R2 & R3). cbn in R1.
  apply advances_frame in E3. unfold frame in E3. injection E3 as F1 F2 F3 _.
  cbn [run_ops] in E4. apply bind_Ok in E4 as ([st5 s5] & E5 & E4). injection E4 as <- <-.
  unfold run_op in E5. destruct (negb _); [injection E5 as <- <-; split_and!; congruence|].
  destruct (cleanup (v_faults v) s3) as [oc s6] eqn:Ec. injection E5 as _ <-. destruct (cleanup_done _ _ _ _ Ec) as (_ & D2 & D3 & D4 & _).
  split_and!; congruence.
Qed.



(** ** Edges *)

(** A state row without a body passes the gate, and mode 17 does not refuse it: the assertion on
    its transaction escapes the scan. *)
Example short_state_row_escapes :
  let key := ok_or [] (k_id128 ST_STATE (zeros 16)) in
  let val := ok_or [] (enc_env_full 6 ST_STATE 0 1 (zeros 16) (zeros 32) (pattern 1 32) []) in
  family6_current_row_s3_status key val = Ok S3_OK /\ rebuild_peer 17 key val = Raise (AssertionError "").
Proof. vm_compute. split; reflexivity. Qed.

(** A scheduler row of a transaction whose subject is a byte short: the gate asserts instead of
    answering. *)
Example short_subject_escapes_gate :
  let key := ok_or [] (k_u64 ST_SCHED (be_bytes 8 7)) in
  let body := be_bytes 8 7 ++ be_bytes 2 1 ++ be_bytes 2 0 ++ be_bytes 2 15 ++ pattern 1 15 ++ zeros 80 in
  let val := ok_or [] (enc_env_full 6 ST_SCHED 0 1 (zeros 16) (zeros 32) (pattern 1 32) body) in
  family6_current_row_s3_status key val = Raise (AssertionError "").
Proof. vm_compute. reflexivity. Qed.

(** An intact record of no payload in place of the binding: the store is adopted under any
    binding. *)
Example short_binding_adopted :
  let rows := ok_or [] (profile_rows_from default_binding_fields 1 None key_ids) in
  let all := (ok_or [] (catalog_key 1), ok_or [] (nlr1 1 1 [])) :: drop 1 rows in
  match run_vector {| v_mode := 1; v_binding := default_binding_fields; v_rows := all; v_alt_rows := ∅; v_faults := [] |} (scan_calls 1 [30]) with
  | Ok o => adopted o
  | Raise _ => false
  end = true.
Proof. vm_compute. reflexivity. Qed.
