(* ===== verification/Ncl1.v ===== *)
(** The NCL1 codec oracle of tools/ncl1_u4_vector_gen.py: a second encoder and the pure
    decoder of session messages, the three semantic checks, the table of vectors and its
    check.  It is composed with [ControlFrame] (what the two programs call a frame) and with
    [Session] (what the two programs call a message). *)

From S2P Require Import Prelude Bytes Crc ControlFrame Session.

Definition OK : Z := 0.
Definition REJECT_SHORT : Z := 2.
Definition REJECT_MAGIC : Z := 3.
Definition REJECT_VERSION : Z := 4.
Definition REJECT_FLAGS : Z := 5.
Definition REJECT_BODY_LEN : Z := 6.
Definition REJECT_UNKNOWN : Z := 7.
Definition REJECT_TYPE_BINDING : Z := 8.
Definition REJECT_BODY_LAYOUT : Z := 9.

(** ** Encoders *)

Definition ncg1_encode (type_ stream_id sequence : Z) (payload : bytes) : res bytes :=
  f ← u16 0;
  s ← u32 (Z.land stream_id 0xFFFFFFFF);
  q ← u32 (Z.land sequence 0xFFFFFFFF);
  n ← u16 (Z.land (len payload) 0xFFFF);
  let prefix := MAGIC ++ [VERSION; Z.land type_ 0xFF] ++ f ++ s ++ q ++ n in
  raise_if (negb (len prefix =? 18)) (AssertionError "len(prefix)");;
  hc ← u32 (crc32c prefix);
  let body := (prefix ++ hc) ++ payload in
  fc ← u32 (crc32c body);
  mret (body ++ fc).

Definition ncg1_verify (frame : bytes) : bool :=
  if len frame <? 26 then false
  else if negb (bool_decide (slice 0 4 frame = MAGIC)) || negb (byte_at 4 frame =? VERSION) then false
  else
    let plen := be_val (slice 16 18 frame) in
    if negb (len frame =? 26 + plen) then false
    else if negb (be_val (slice 18 22 frame) =? crc32c (slice 0 18 frame)) then false
    else if negb (be_val (slice (len frame - 4) (len frame) frame) =? crc32c (slice 0 (len frame - 4) frame)) then false
    else true.

Definition ncl1_encode (msg_type request_id generation cookie : Z) (body : bytes) (flags version : Z) (magic : bytes) : res bytes :=
  f ← u16 (Z.land flags 0xFFFF);
  r ← u32 (Z.land request_id 0xFFFFFFFF);
  g ← u32 (Z.land generation 0xFFFFFFFF);
  c ← u64 (Z.land cookie 0xFFFFFFFFFFFFFFFF);
  n ← u16 (Z.land (len body) 0xFFFF);
  let hdr := magic ++ [Z.land version 0xFF; Z.land msg_type 0xFF] ++ f ++ r ++ g ++ c ++ n in
  raise_if (negb (len hdr =? 26)) (AssertionError "len(hdr)");;
  mret (hdr ++ body).

Definition hello_body (min_v max_v flags_supported reserved : Z) : res bytes := pack_HHHH min_v max_v flags_supported reserved.
Definition hello_ack_body (selected flags_selected result reserved : Z) : res bytes := pack_HHHH selected flags_selected result reserved.
Definition ping_body (token : Z) : res bytes := u64 (Z.land token 0xFFFFFFFFFFFFFFFF).
Definition reset_body (code : Z) (reserved : bytes) : bytes := [Z.land code 0xFF] ++ reserved.

(** ** The pure decoder *)

(** The length of the body of each type, and the frame type it travels in. *)
Definition exact : list (Z * Z) := [(MSG_HELLO, 8); (MSG_HELLO_ACK, 8); (MSG_CTRL_ERROR, 8); (MSG_PING, 8); (MSG_PONG, 8); (MSG_RESET, 4)].
Definition binding : list (Z * Z) :=
  [(MSG_HELLO, TYPE_DATA); (MSG_HELLO_ACK, TYPE_DATA); (MSG_CTRL_ERROR, TYPE_DATA); (MSG_PING, TYPE_PING); (MSG_PONG, TYPE_PONG);
   (MSG_RESET, TYPE_RESET)].

(** The field [i] of a body of 16-bit fields. *)
Definition half (i : Z) (body : bytes) : Z := be_val (slice (2 * i) (2 * i + 2) body).

Definition body_layout_ok (msg_type : Z) (body : bytes) : bool :=
  if msg_type =? MSG_HELLO then negb (half 1 body <? half 0 body)
  else if msg_type =? MSG_HELLO_ACK then bool_decide (half 2 body ∈ [0; 1; 2; 3])
  else if msg_type =? MSG_CTRL_ERROR then negb ((half 0 body <? 1) || (7 <? half 0 body))
  else if msg_type =? MSG_RESET then bool_decide (byte_at 0 body ∈ [1; 2; 3])
  else true.

Definition pure_decode (payload : bytes) (ncg1_type : Z) : Z :=
  if len payload <? 26 then REJECT_SHORT
  else if negb (bool_decide (slice 0 4 payload = MAGIC_NCL1)) then REJECT_MAGIC
  else if negb (byte_at 4 payload =? NCL1_VER) then REJECT_VERSION
  else if negb (be_val (slice 6 8 payload) =? 0) then REJECT_FLAGS
  else
    let body_len := be_val (slice 24 26 payload) in
    if 998 <? body_len then REJECT_BODY_LEN
    else if negb (len payload =? 26 + body_len) then REJECT_BODY_LEN
    else
      let msg_type := byte_at 5 payload in
      match assoc msg_type exact with
      | None => REJECT_UNKNOWN
      | Some want =>
          if negb (ncg1_type =? 0) && negb (bool_decide (assoc msg_type binding = Some ncg1_type)) then REJECT_TYPE_BINDING
          else if negb (body_len =? want) then REJECT_BODY_LAYOUT
          else if negb (body_layout_ok msg_type (slice_from 26 payload)) then REJECT_BODY_LAYOUT
          else OK
      end.

(** ** Semantic checks *)

Definition is_valid_hello_bootstrap (payload : bytes) : bool :=
  if negb (pure_decode payload TYPE_DATA =? OK) then false
  else if negb (byte_at 5 payload =? MSG_HELLO) then false
  else
    let gen := be_val (slice 12 16 payload) in
    let cookie := be_val (slice 16 24 payload) in
    let req := be_val (slice 8 12 payload) in
    if negb (gen =? 0) || negb (cookie =? 0) || (req =? 0) then false
    else
      let b := slice 26 34 payload in
      (half 0 b =? 1) && (half 1 b =? 1) && (half 2 b =? 0) && (half 3 b =? 0).

Definition is_structurally_valid_hello_ack (payload : bytes) : bool :=
  if negb (pure_decode payload TYPE_DATA =? OK) then false
  else if negb (byte_at 5 payload =? MSG_HELLO_ACK) then false
  else
    let req := be_val (slice 8 12 payload) in
    let gen := be_val (slice 12 16 payload) in
    let cookie := be_val (slice 16 24 payload) in
    if req =? 0 then false
    else
      let b := slice 26 34 payload in
      if negb (half 1 b =? 0) || negb (half 3 b =? 0) then false
      else if half 2 b =? 0 then negb (gen =? 0) && negb (cookie =? 0) && (half 0 b =? 1)
      else if bool_decide (half 2 b ∈ [1; 2; 3]) then (gen =? 0) && (cookie =? 0)
      else false.

Definition check_reserved_ok (payload : bytes) : bool :=
  if negb (pure_decode payload 0 =? OK) then false
  else
    let msg_type := byte_at 5 payload in
    let body := slice_from 26 payload in
    if msg_type =? MSG_HELLO then half 3 body =? 0
    else if msg_type =? MSG_HELLO_ACK then half 3 body =? 0
    else if msg_type =? MSG_CTRL_ERROR then half 1 body =? 0
    else if msg_type =? MSG_RESET then (byte_at 1 body =? 0) && (byte_at 2 body =? 0) && (byte_at 3 body =? 0)
    else true.

(** ** Vectors *)

(** A vector, as its dictionary: the frames and payloads it pins by key, and the answers it
    expects; a missing key is [None]. *)
Record vector := {
  v_id : string; kind : string; codec_case : bool; hexes : list (string * string); payload_hex : option string; v_type : option Z;
  expected_decode : option Z; bootstrap_valid : option bool; structurally_valid_ack : option bool; reserved_ok : option bool }.

Definition golden (id : string) (hexes : list (string * string)) (bootstrap ack : option bool) : vector :=
  {| v_id := id; kind := "golden_bytes"; codec_case := true; hexes := hexes; payload_hex := None; v_type := None;
     expected_decode := Some OK; bootstrap_valid := bootstrap; structurally_valid_ack := ack; reserved_ok := None |}.
Definition negative (id kind : string) (payload : bytes) (ty expected : Z) : vector :=
  {| v_id := id; kind := kind; codec_case := true; hexes := []; payload_hex := Some (hex_of payload); v_type := Some ty;
     expected_decode := Some expected; bootstrap_valid := None; structurally_valid_ack := None; reserved_ok := None |}.
Definition catalog (id : string) : vector :=
  {| v_id := id; kind := "behavior_catalog"; codec_case := false; hexes := []; payload_hex := None; v_type := None;
     expected_decode := None; bootstrap_valid := None; structurally_valid_ack := None; reserved_ok := None |}.
Definition with_answers (bootstrap ack reserved : option bool) (v : vector) : vector :=
  {| v_id := v_id v; kind := kind v; codec_case := codec_case v; hexes := hexes v; payload_hex := payload_hex v; v_type := v_type v;
     expected_decode := expected_decode v; bootstrap_valid := bootstrap; structurally_valid_ack := ack; reserved_ok := reserved |}.
Definition with_hexes (h : list (string * string)) (v : vector) : vector :=
  {| v_id := v_id v; kind := kind v; codec_case := codec_case v; hexes := h; payload_hex := payload_hex v; v_type := v_type v;
     expected_decode := expected_decode v; bootstrap_valid := bootstrap_valid v; structurally_valid_ack := structurally_valid_ack v;
     reserved_ok := reserved_ok v |}.

Definition put (v : vector) (by_id : gmap string vector) : res (gmap string vector) :=
  raise_if (bool_decide (is_Some (by_id !! v_id v))) (RuntimeError "duplicate vector id");; mret (<[v_id v := v]> by_id).

Fixpoint put_all (vs : list vector) (by_id : gmap string vector) : res (gmap string vector) :=
  match vs with [] => Ok by_id | v :: vs => m ← put v by_id; put_all vs m end.

Definition COOKIE : Z := 0xC0FFEE0123456789.
Definition ncl1 (msg_type request_id generation cookie : Z) (body : bytes) : res bytes :=
  ncl1_encode msg_type request_id generation cookie body 0 NCL1_VER MAGIC_NCL1.

(** [buf[i] = v]. *)
Definition store (i v : Z) (buf : bytes) : bytes := slice_assign i (i + 1) [v] buf.

Definition golden_vectors : res (list vector) :=
  hb ← hello_body 1 1 0 0; ab ← hello_ack_body 1 0 0 0; pb ← ping_body 0xA1B2C3D4E5F60718;
  hello ← ncl1 MSG_HELLO 0x1001 0 0 hb;
  ack ← ncl1 MSG_HELLO_ACK 0x1001 7 COOKIE ab;
  ping ← ncl1 MSG_PING 0x2002 7 COOKIE pb;
  pong ← ncl1 MSG_PONG 0x2002 7 COOKIE pb;
  reset ← ncl1 MSG_RESET 0x3003 7 COOKIE (reset_body 1 [0; 0; 0]);
  hello_f ← ncg1_encode TYPE_DATA 0 0 hello; ack_f ← ncg1_encode TYPE_DATA 0 0 ack;
  ping_f ← ncg1_encode TYPE_PING 0 1 ping; pong_f ← ncg1_encode TYPE_PONG 0 1 pong; reset_f ← ncg1_encode TYPE_RESET 0 2 reset;
  mret [golden "U4-G-HELLO-OK"
          [("hello_ncl1_hex", hex_of hello); ("hello_ncg1_hex", hex_of hello_f); ("ack_ncl1_hex", hex_of ack); ("ack_ncg1_hex", hex_of ack_f)]
          (Some true) (Some true);
        golden "U4-G-PING-PONG"
          [("ping_ncl1_hex", hex_of ping); ("ping_ncg1_hex", hex_of ping_f); ("pong_ncl1_hex", hex_of pong); ("pong_ncg1_hex", hex_of pong_f)]
          None None;
        golden "U4-G-RESET-SESSION"
          [("reset_ncl1_hex", hex_of reset); ("reset_ncg1_hex", hex_of reset_f); ("stale_ping_ncl1_hex", hex_of ping)] None None]%string.

Definition decode_case (id : string) (payload : bytes) (ty code : Z) : vector := negative id "negative_decode" payload ty code.
Definition semantic_case (id : string) (payload : bytes) (ty code : Z) : vector := negative id "negative_semantic" payload ty code.

Definition negative_vectors : res (list vector) :=
  hb ← hello_body 1 1 0 0; ab ← hello_ack_body 1 0 0 0; p1 ← ping_body 1; rb ← hello_body 1 1 0 1;
  hello ← ncl1 MSG_HELLO 0x1001 0 0 hb;
  hello1 ← ncl1 MSG_HELLO 1 0 0 hb;
  bad_flags ← ncl1_encode MSG_HELLO 1 0 0 hb 1 NCL1_VER MAGIC_NCL1;
  short ← ncl1 MSG_HELLO 1 0 0 (zeros 4);
  eight ← u16 8;
  req0 ← ncl1 MSG_HELLO 0 0 0 hb;
  sess0 ← ncl1 MSG_PING 0x55 0 COOKIE p1;
  cookie0 ← ncl1 MSG_PING 0x55 7 0 p1;
  stale_gen ← ncl1 MSG_PING 0x55 6 COOKIE p1;
  stale_cookie ← ncl1 MSG_PING 0x55 7 0xDEADBEEFCAFEBABE p1;
  ack_cookie0 ← ncl1 MSG_HELLO_ACK 0x1001 7 0 ab;
  ping_in_data ← ncl1 MSG_PING 1 7 COOKIE p1;
  bad_bootstrap ← ncl1 MSG_HELLO 1 3 0 hb;
  empty ← ncg1_encode TYPE_PING 0 0 [];
  hello_rsv ← ncl1 MSG_HELLO 1 0 0 rb;
  mret [decode_case "U4-N-BAD-MAGIC" (store 0 (Z.lxor (byte_at 0 hello) 1) hello) TYPE_DATA REJECT_MAGIC;
        decode_case "U4-N-VER" (store 4 2 hello) TYPE_DATA REJECT_VERSION;
        decode_case "U4-N-FLAGS" bad_flags TYPE_DATA REJECT_FLAGS;
        decode_case "U4-N-BODY-LEN" (slice_assign 24 26 eight (slice 0 26 short) ++ zeros 4) TYPE_DATA REJECT_BODY_LEN;
        with_answers (Some false) None None (semantic_case "U4-N-REQ-ZERO" req0 TYPE_DATA OK);
        semantic_case "U4-N-SESS-ZERO" sess0 TYPE_PING OK;
        semantic_case "U4-N-COOKIE-ZERO" cookie0 TYPE_PING OK;
        semantic_case "U4-N-STALE-GEN" stale_gen TYPE_PING OK;
        semantic_case "U4-N-STALE-COOKIE" stale_cookie TYPE_PING OK;
        with_answers None (Some false) None (semantic_case "U4-N-HELLO-OK-COOKIE-ZERO" ack_cookie0 TYPE_DATA OK);
        decode_case "U4-N-UNKNOWN-TYPE" (store 5 0x7F hello1) TYPE_DATA REJECT_UNKNOWN;
        decode_case "U4-N-TYPE-BIND-PING-IN-DATA" ping_in_data TYPE_DATA REJECT_TYPE_BINDING;
        decode_case "U4-N-TYPE-BIND-HELLO-IN-PING" hello1 TYPE_PING REJECT_TYPE_BINDING;
        with_answers (Some false) None None (semantic_case "U4-N-HELLO-BAD-BOOTSTRAP" bad_bootstrap TYPE_DATA OK);
        with_hexes [("ncg1_hex"%string, hex_of empty)] (semantic_case "U4-N-EMPTY-PING" [] TYPE_PING REJECT_SHORT);
        with_answers (Some false) None (Some false) (negative "U4-N-RESERVED-ORDER" "order_check" hello_rsv TYPE_DATA OK)].

Definition catalog_only : list string :=
  ["U4-G-HALFOPEN-REHELLO"; "U4-G-HELLO-RETRY-NEXT-SEQ"; "U4-G-ACKLOSS-LAST0-HALFOPEN"; "U4-G-ACKLOSS-REVERSE-SEQ1-BASELINE";
   "U4-G-RESTART-SEQ0-LAST0"; "U4-G-RESTART-SEQ0-LAST-HIGH"; "U4-G-RESTART-ACK-HIGH-BASELINE"; "U4-G-CELL-RESTART-ACK0-RETRY";
   "U4-G-CELL-RXCOLD-HIGH-HELLO"; "U4-G-CTRL-RXCOLD-HELLO-HIGH-ACK"; "U4-G-CELL-CONTINUITY-RESET-SESSION";
   "U4-G-CONTINUITY-RESET-NOTICE-CANCEL-ON-HELLO"; "U4-G-CONTINUITY-RESET-ACCEPTED-FIFO-BEFORE-ACK"; "U4-G-DUP-HELLO-RECEIVED";
   "U4-N-CONTINUITY-RESET-STALE-NEW-SESSION"; "U4-N-CONTINUITY-RESET-STALE-SEQ-ADVANCE"; "U4-N-SEQ-U32-MAX"; "U4-N-SEQ-GAP";
   "U4-N-SEQ-DUP"; "U4-N-STREAM-ID"; "U4-N-HELLO-ACTIVE-COOKIE-REJECT"; "U4-N-HELLO-RETRY-SEQ0-COLD"; "U4-N-SEQ-DISCARD-NO-NCL1-PEEK";
   "U4-N-ACK-BASELINE-NONMATCH"; "U4-N-BASELINE-NONHELLO"; "U4-N-HELLO-INVALID-ROLE"; "U4-N-CTRL-ERROR-LOOP"; "U4-N-COOKIE-RNG-FAIL"]%string.

Definition REQUIRED_IDS : list string :=
  ["U4-G-ACKLOSS-LAST0-HALFOPEN"; "U4-G-ACKLOSS-REVERSE-SEQ1-BASELINE"; "U4-G-CELL-CONTINUITY-RESET-SESSION"; "U4-G-CELL-RESTART-ACK0-RETRY";
   "U4-G-CELL-RXCOLD-HIGH-HELLO"; "U4-G-CONTINUITY-RESET-ACCEPTED-FIFO-BEFORE-ACK"; "U4-G-CONTINUITY-RESET-NOTICE-CANCEL-ON-HELLO";
   "U4-G-CTRL-RXCOLD-HELLO-HIGH-ACK"; "U4-G-DUP-HELLO-RECEIVED"; "U4-G-HALFOPEN-REHELLO"; "U4-G-HELLO-OK"; "U4-G-HELLO-RETRY-NEXT-SEQ";
   "U4-G-PING-PONG"; "U4-G-RESET-SESSION"; "U4-G-RESTART-ACK-HIGH-BASELINE"; "U4-G-RESTART-SEQ0-LAST-HIGH"; "U4-G-RESTART-SEQ0-LAST0";
   "U4-N-ACK-BASELINE-NONMATCH"; "U4-N-BAD-MAGIC"; "U4-N-BASELINE-NONHELLO"; "U4-N-BODY-LEN"; "U4-N-CONTINUITY-RESET-STALE-NEW-SESSION";
   "U4-N-CONTINUITY-RESET-STALE-SEQ-ADVANCE"; "U4-N-COOKIE-RNG-FAIL"; "U4-N-COOKIE-ZERO"; "U4-N-CTRL-ERROR-LOOP"; "U4-N-EMPTY-PING";
   "U4-N-FLAGS"; "U4-N-HELLO-ACTIVE-COOKIE-REJECT"; "U4-N-HELLO-BAD-BOOTSTRAP"; "U4-N-HELLO-INVALID-ROLE"; "U4-N-HELLO-OK-COOKIE-ZERO";
   "U4-N-HELLO-RETRY-SEQ0-COLD"; "U4-N-REQ-ZERO"; "U4-N-SEQ-DISCARD-NO-NCL1-PEEK"; "U4-N-SEQ-DUP"; "U4-N-SEQ-GAP"; "U4-N-SEQ-U32-MAX";
   "U4-N-SESS-ZERO"; "U4-N-STALE-COOKIE"; "U4-N-STALE-GEN"; "U4-N-STREAM-ID"; "U4-N-TYPE-BIND-HELLO-IN-PING"; "U4-N-TYPE-BIND-PING-IN-DATA";
   "U4-N-UNKNOWN-TYPE"; "U4-N-VER"]%string.
Definition EXTRA_ORDER_ID : string := "U4-N-RESERVED-ORDER".

(** [by_id[i]] for each [i]. *)
Fixpoint collect (ids : list string) (by_id : gmap string vector) : res (list vector) :=
  match ids with
  | [] => Ok []
  | i :: ids =>
      match by_id !! i with
      | None => Raise (KeyError i)
      | Some v => vs ← collect ids by_id; mret (v :: vs)
      end
  end.

Definition build_vectors : res (list vector) :=
  golds ← golden_vectors;
  negs ← negative_vectors;
  by_id ← put_all (golds ++ negs ++ map catalog catalog_only) ∅;
  raise_if (negb (forallb (fun i => bool_decide (is_Some (by_id !! i))) REQUIRED_IDS)) (RuntimeError "missing required IDs");;
  raise_if (negb (bool_decide (is_Some (by_id !! EXTRA_ORDER_ID)))) (RuntimeError "missing order diagnostic");;
  ordered ← collect (REQUIRED_IDS ++ [EXTRA_ORDER_ID]) by_id;
  raise_if (negb (len ordered =? 47)) (RuntimeError "expected 47 vectors");;
  mret ordered.

(** ** The check of a vector *)

Definition hex_at (key : string) (v : vector) : option string := (list_to_map (hexes v) : gmap string string) !! key.

(** The pinned hexadecimal under each key that is present satisfies a test. *)
Fixpoint each_hex (keys : list string) (v : vector) (test : bytes -> bool) (msg : string) : res unit :=
  match keys with
  | [] => Ok tt
  | key :: keys =>
      match hex_at key v with
      | None => Ok tt
      | Some h => raw ← from_hex h; raise_if (negb (test raw)) (SystemExit msg)
      end;;
      each_hex keys v test msg
  end.

(** An expected answer, when the vector has one. *)
Definition answers (expected : option bool) (got : bool) : bool := match expected with Some e => Bool.eqb got e | None => true end.

Definition verify_payload (v : vector) : res unit :=
  match codec_case v, payload_hex v with
  | true, Some h =>
      payload ← from_hex h;
      let empty := bool_decide (payload = []) in
      raise_if (match expected_decode v with Some e => negb (pure_decode payload (default 0 (v_type v)) =? e) | None => false end) (SystemExit "decode");;
      raise_if (negb (answers (bootstrap_valid v) (negb empty && is_valid_hello_bootstrap payload))) (SystemExit "bootstrap_valid mismatch");;
      raise_if (negb empty && negb (answers (structurally_valid_ack v) (is_structurally_valid_hello_ack payload))) (SystemExit "ack structural mismatch");;
      raise_if (negb empty && negb (answers (reserved_ok v) (check_reserved_ok payload))) (SystemExit "reserved_ok mismatch")
  | _, _ => Ok tt
  end.

Definition verify_golden (v : vector) : res unit :=
  each_hex ["hello_ncl1_hex"; "ack_ncl1_hex"; "ping_ncl1_hex"; "pong_ncl1_hex"; "reset_ncl1_hex"]%string v
    (fun p => pure_decode p 0 =? OK) "pure decode fail";;
  each_hex ["hello_ncg1_hex"; "ack_ncg1_hex"; "ping_ncg1_hex"; "pong_ncg1_hex"; "reset_ncg1_hex"]%string v ncg1_verify "NCG1 CRC/layout fail";;
  if negb (String.eqb (v_id v) "U4-G-HELLO-OK") then Ok tt
  else
    match hex_at "hello_ncl1_hex" v, hex_at "ack_ncl1_hex" v with
    | Some h, Some a =>
        h ← from_hex h;
        raise_if (negb (is_valid_hello_bootstrap h)) (SystemExit "HELLO-OK not valid bootstrap");;
        let b := slice 26 34 h in
        raise_if (negb ((half 0 b =? 1) && (half 1 b =? 1) && (half 2 b =? 0) && (half 3 b =? 0))) (SystemExit "HELLO body not U4 exact");;
        a ← from_hex a;
        raise_if (negb (is_structurally_valid_hello_ack a)) (SystemExit "ACK not structurally valid")
    | None, _ => Raise (KeyError "hello_ncl1_hex")
    | _, None => Raise (KeyError "ack_ncl1_hex")
    end.

Definition verify_vector_semantics (v : vector) : res unit :=
  if bool_decide (kind v ∈ ["negative_decode"; "order_check"; "negative_semantic"; "golden_bytes"]%string) then
    verify_payload v;;
    (if String.eqb (kind v) "golden_bytes" then verify_golden v else Ok tt);;
    match hex_at "ncg1_hex" v with
    | Some h => raw ← from_hex h; raise_if (negb (ncg1_verify raw)) (SystemExit "ncg1_hex CRC fail")
    | None => Ok tt
    end
  else Ok tt.

Fixpoint verify_all (vs : list vector) : res unit :=
  match vs with [] => Ok tt | v :: vs => verify_vector_semantics v;; verify_all vs end.

(** The part of [check] on the rebuilt vectors. *)
Definition check_vectors (vs : list vector) : res unit :=
  let ids := map v_id vs in
  raise_if (negb (len ids =? 47) || negb (bool_decide (NoDup ids))) (SystemExit "unique id count");;
  raise_if (negb (forallb (fun i => bool_decide (i ∈ ids)) REQUIRED_IDS)) (SystemExit "missing required");;
  raise_if (negb (bool_decide (EXTRA_ORDER_ID ∈ ids))) (SystemExit "missing U4-N-RESERVED-ORDER");;
  verify_all vs.

(** The generator builds its vectors and they all verify. *)
Example vectors_verify : (vs ← build_vectors; check_vectors vs) = Ok tt.
Proof. vm_compute. reflexivity. Qed.

(** ** What the decoder accepts *)

Record ncl1_message := { p_type : Z; p_req : Z; p_gen : Z; p_cookie : Z; p_body : bytes }.

Definition ncl1_ok (p : ncl1_message) : Prop :=
  0 <= p_req p <= U32_MAX /\ 0 <= p_gen p <= U32_MAX /\ 0 <= p_cookie p <= U64_MAX /\ bytes_ok (p_body p) /\
  assoc (p_type p) exact = Some (len (p_body p)) /\ body_layout_ok (p_type p) (p_body p) = true.

Definition ncl1_bytes (p : ncl1_message) : bytes :=
  MAGIC_NCL1 ++ [NCL1_VER; p_type p] ++ be_bytes 2 0 ++ be_bytes 4 (p_req p) ++ be_bytes 4 (p_gen p) ++ be_bytes 8 (p_cookie p) ++
  be_bytes 2 (len (p_body p)) ++ p_body p.

(** The message a payload is read as. *)
Definition ncl1_of (payload : bytes) : ncl1_message :=
  {| p_type := byte_at 5 payload; p_req := be_val (slice 8 12 payload); p_gen := be_val (slice 12 16 payload);
     p_cookie := be_val (slice 16 24 payload); p_body := slice_from 26 payload |}.

Definition binds (msg_type ncg1_type : Z) : Prop := ncg1_type = 0 \/ assoc msg_type binding = Some ncg1_type.

Lemma exact_types t n : assoc t exact = Some n -> is_byte t /\ 0 <= n <= 8.
Proof.
  intros H. assert (Hin : forall l, assoc t l = Some n -> (t, n) ∈ l).
  { induction l as [|[k v] l IH]; [done|]. cbn [assoc]. destruct (Z.eqb_spec t k) as [->|]; intros E; [|right; by apply IH].
    injection E as ->. by left. }
  apply Hin in H. assert (Hall : Forall (fun kn => is_byte kn.1 /\ 0 <= kn.2 <= 8) exact) by in_list.
  rewrite Forall_forall in Hall. by apply (Hall (t, n)).
Qed.

Lemma pure_decode_OK_spec payload ty :
  pure_decode payload ty = OK <->
  26 <= len payload /\ slice 0 4 payload = MAGIC_NCL1 /\ byte_at 4 payload = NCL1_VER /\ be_val (slice 6 8 payload) = 0 /\
  len payload = 26 + be_val (slice 24 26 payload) /\ assoc (byte_at 5 payload) exact = Some (be_val (slice 24 26 payload)) /\
  binds (byte_at 5 payload) ty /\ body_layout_ok (byte_at 5 payload) (slice_from 26 payload) = true.
Proof.
  unfold pure_decode, binds. cbv zeta. split.
  - intros H. destruct (len payload <? 26) eqn:E1; [done|]. destruct (bool_decide _) eqn:E2; [|done]. cbn [negb] in H.
    destruct (byte_at 4 payload =? NCL1_VER) eqn:E3; [|done]. cbn [negb] in H. destruct (_ =? 0) eqn:E4 in H; [|done]. cbn [negb] in H.
    destruct (998 <? _) in H; [done|]. destruct (len payload =? _) eqn:E5; [|done]. cbn [negb] in H.
    destruct (assoc _ exact) as [want|] eqn:E6; [|done].
    destruct (negb (ty =? 0) && negb (bool_decide _)) eqn:E7 in H; [done|].
    destruct (_ =? want) eqn:E8 in H; [|done]. cbn [negb] in H. destruct (body_layout_ok _ _) eqn:E9; [|done].
    bool_to_prop. split_and!; try done; try lia; [by f_equal|]. apply andb_false_iff in E7 as [E|E]; bool_to_prop; auto.
  - intros (H1 & H2 & H3 & H4 & H5 & H6 & H7 & H8). destruct (exact_types _ _ H6) as [_ Hn].
    rewrite (proj2 (Z.ltb_ge _ _) H1), (bool_decide_true _ H2), H3, H4, H6, H8. cbn [negb Z.eqb].
    rewrite (proj2 (Z.ltb_ge _ _)) by lia. rewrite <- H5, !Z.eqb_refl. cbn [negb].
    destruct H7 as [->|H7]; [done|]. rewrite (bool_decide_true _ H7). by rewrite andb_false_r.
Qed.

Lemma len_ncl1_bytes p : len (ncl1_bytes p) = 26 + len (p_body p).
Proof. unfold ncl1_bytes. simpl_lens. lia. Qed.

Lemma ncl1_bytes_reads p :
  ncl1_ok p ->
  let b := ncl1_bytes p in
  slice 0 4 b = MAGIC_NCL1 /\ byte_at 4 b = NCL1_VER /\ byte_at 5 b = p_type p /\ be_val (slice 6 8 b) = 0 /\
  be_val (slice 8 12 b) = p_req p /\ be_val (slice 12 16 b) = p_gen p /\ be_val (slice 16 24 b) = p_cookie p /\
  be_val (slice 24 26 b) = len (p_body p) /\ slice_from 26 b = p_body p.
Proof.
  intros (Hr & Hg & Hc & Hb & Ht & Hl). destruct (exact_types _ _ Ht) as [_ Hn]. unfold U32_MAX, U64_MAX in *. cbv zeta.
  assert (E26 : slice_from 26 (ncl1_bytes p) = p_body p).
  { rewrite slice_from_slice, len_ncl1_bytes by (rewrite ?len_ncl1_bytes; lia). unfold ncl1_bytes. read_slices; try done. }
  unfold ncl1_bytes in *. split_and!; try exact E26; read_slices; try done; rewrite be_val_be_bytes; apply Z.mod_small; cbn; lia.
Qed.

Lemma ncl1_of_bytes p : ncl1_ok p -> ncl1_of (ncl1_bytes p) = p.
Proof.
  intros Hp. destruct (ncl1_bytes_reads p Hp) as (_ & _ & H1 & _ & H2 & H3 & H4 & _ & H5). unfold ncl1_of.
  rewrite H1, H2, H3, H4, H5. by destruct p.
Qed.

Lemma decode_ncl1_bytes p ty : ncl1_ok p -> binds (p_type p) ty -> pure_decode (ncl1_bytes p) ty = OK.
Proof.
  intros Hp Hb. destruct (ncl1_bytes_reads p Hp) as (H1 & H2 & H3 & H4 & _ & _ & _ & H5 & H6). pose proof (len_nonneg (p_body p)).
  apply pure_decode_OK_spec. rewrite H3, H5, H6, len_ncl1_bytes. destruct Hp as (_ & _ & _ & _ & Ht & Hl). split_and!; done || lia.
Qed.

(** An accepted payload is the bytes of the message it is read as. *)
Lemma decode_OK_bytes payload ty :
  bytes_ok payload -> pure_decode payload ty = OK ->
  ncl1_ok (ncl1_of payload) /\ binds (p_type (ncl1_of payload)) ty /\ ncl1_bytes (ncl1_of payload) = payload.
Proof.
  intros Hok (Hlen & Hm & Hv & Hf & Hn & Ht & Hb & Hl)%pure_decode_OK_spec.
  assert (Hbody : len (slice_from 26 payload) = be_val (slice 24 26 payload)) by (rewrite slice_from_slice, len_slice by lia; lia).
  assert (H32 : forall lo, 0 <= lo -> lo + 4 <= len payload -> 0 <= be_val (slice lo (lo + 4) payload) <= U32_MAX).
  { intros lo H1 H2. pose proof (be_val_bounds (slice lo (lo + 4) payload) ltac:(auto with ninlil)) as Hbb.
    rewrite len_slice in Hbb by lia. replace (lo + 4 - lo) with 4 in Hbb by lia. unfold U32_MAX. lia. }
  assert (H64 : 0 <= be_val (slice 16 24 payload) <= U64_MAX).
  { pose proof (be_val_bounds (slice 16 24 payload) ltac:(auto with ninlil)) as Hbb. rewrite len_slice in Hbb by lia. unfold U64_MAX. lia. }
  split; [|split; [done|]].
  - unfold ncl1_ok, ncl1_of. cbn [p_type p_req p_gen p_cookie p_body]. rewrite Hbody. split_and!; try done; try (apply (H32 8); lia); try (apply (H32 12); lia); try apply H64.
    rewrite slice_from_slice by lia. by apply bytes_ok_slice.
  - unfold ncl1_bytes, ncl1_of. cbn [p_type p_req p_gen p_cookie p_body]. rewrite Hbody, <- Hm, <- Hv.
    change [byte_at 4 payload; byte_at 5 payload] with ([byte_at 4 payload] ++ [byte_at 5 payload]).
    rewrite <- !slice_single by lia.
    rewrite (be_bytes_slice 2 6 8 payload 0), (be_bytes_slice 4 8 12 payload), (be_bytes_slice 4 12 16 payload), (be_bytes_slice 8 16 24 payload),
      (be_bytes_slice 2 24 26 payload) by (done || lia).
    rewrite slice_from_slice by lia. rewrite <- app_assoc. rewrite <- !slice_split by lia. apply slice_all.
Qed.

Lemma ncl1_closed p : ncl1_ok p -> ncl1 (p_type p) (p_req p) (p_gen p) (p_cookie p) (p_body p) = Ok (ncl1_bytes p).
Proof.
  intros (Hr & Hg & Hc & Hb & Ht & _). destruct (exact_types _ _ Ht) as [Hty Hn]. unfold is_byte in Hty. unfold U32_MAX, U64_MAX in *.
  unfold ncl1, ncl1_encode.
  rewrite (land_ones_small (p_req p) 32), (land_ones_small (p_gen p) 32), (land_ones_small (p_cookie p) 64), (land_ones_small (len (p_body p)) 16),
    (land_ones_small (p_type p) 8) by (done || lia).
  change (Z.land 0 0xFFFF) with 0. change (Z.land NCL1_VER 0xFF) with NCL1_VER. cbv zeta. unfold u16, u32, u64.
  rewrite (pack_bind 2 0), (pack_bind 4 (p_req p)), (pack_bind 4 (p_gen p)), (pack_bind 8 (p_cookie p)), (pack_bind 2 (len (p_body p))) by (cbn; lia).
  rewrite raise_if_skip by (apply negb_false_iff, Z.eqb_eq; simpl_lens; lia). unfold ncl1_bytes. by rewrite <- !app_assoc.
Qed.

(** C35. The pure decoder accepts exactly what the encoder writes: a payload is accepted under a
    frame type when it is the encoding of a message of a known type, with a body of that
    type's length and layout, that this frame type carries.  That message is unique, and each
    of its fields is read at its offset. *)
Theorem pure_decode_exact payload ty :
  bytes_ok payload ->
  pure_decode payload ty = OK <->
  exists p, ncl1_ok p /\ binds (p_type p) ty /\ ncl1 (p_type p) (p_req p) (p_gen p) (p_cookie p) (p_body p) = Ok payload /\
    forall q, ncl1_ok q -> ncl1 (p_type q) (p_req q) (p_gen q) (p_cookie q) (p_body q) = Ok payload -> q = p.
Proof.
  intros Hok. split.
  - intros H. destruct (decode_OK_bytes payload ty Hok H) as (H1 & H2 & H3). exists (ncl1_of payload). split; [done|]. split; [done|].
    split; [by rewrite ncl1_closed, H3|]. intros q Hq E. rewrite ncl1_closed in E by done. injection E as <-. by rewrite ncl1_of_bytes.
  - intros (p & Hp & Hb & E & _). rewrite ncl1_closed in E by done. injection E as <-. by apply decode_ncl1_bytes.
Qed.

(** ** The messages of a session *)

Lemma half_fields a b c d :
  0 <= a < 65536 -> 0 <= b < 65536 -> 0 <= c < 65536 -> 0 <= d < 65536 ->
  let body := be_bytes 2 a ++ be_bytes 2 b ++ be_bytes 2 c ++ be_bytes 2 d in
  half 0 body = a /\ half 1 body = b /\ half 2 body = c /\ half 3 body = d.
Proof.
  intros Ha Hb Hc Hd body. unfold half. subst body. change (2 * 0) with 0. change (2 * 1) with 2. change (2 * 2) with 4. change (2 * 3) with 6.
  change (0 + 2) with 2. change (2 + 2) with 4. change (4 + 2) with 6. change (6 + 2) with 8.
  split_and!; read_slices; rewrite ?be_val_be_bytes; apply Z.mod_small; cbn; lia.
Qed.

Lemma body_halves body :
  bytes_ok body -> len body = 8 ->
  body = be_bytes 2 (half 0 body) ++ be_bytes 2 (half 1 body) ++ be_bytes 2 (half 2 body) ++ be_bytes 2 (half 3 body).
Proof.
  intros Hok Hl. unfold half. change (2 * 0) with 0. change (2 * 1) with 2. change (2 * 2) with 4. change (2 * 3) with 6.
  rewrite (be_bytes_slice 2 0 (0 + 2) body), (be_bytes_slice 2 2 (2 + 2) body), (be_bytes_slice 2 4 (4 + 2) body), (be_bytes_slice 2 6 (6 + 2) body)
    by (done || lia).
  rewrite <- !slice_split by lia. symmetry. apply slice_whole; lia.
Qed.

Definition of_session (m : message) : ncl1_message :=
  {| p_type := message_type m; p_req := message_req m; p_gen := (message_pair m).1; p_cookie := (message_pair m).2; p_body := message_body m |}.

Lemma of_session_bytes m : ncl1_bytes (of_session m) = message_payload m.
Proof. done. Qed.

Lemma of_session_ok m : wf_message m -> ncl1_ok (of_session m).
Proof.
  intros Hm. pose proof (wf_message_ranges m Hm) as (_ & Hr & Hg & Hc). destruct (message_body_ok m Hm) as [Hb Hl].
  unfold ncl1_ok, of_session. cbn [p_type p_req p_gen p_cookie p_body]. split_and!; try done; try lia.
  - rewrite Hl. by destruct m.
  - unfold wf_message, HELLO_OK in Hm. destruct m as [ | req gen cookie seq result | | | req gen cookie seq code | req gen cookie seq code related];
      unfold body_layout_ok; cbn [message_type message_body]; try reflexivity.
    + cbn [Z.eqb MSG_HELLO MSG_HELLO_ACK Pos.eqb]. apply bool_decide_eq_true.
      assert (Hres : 0 <= result <= 3) by (destruct Hm as (_ & _ & [[-> _]|[? _]]); lia).
      destruct (half_fields (if result =? 0 then 1 else 0) 0 result 0) as (_ & _ & -> & _); try lia; [clear; destruct (result =? 0); lia|].
      assert (result = 0 \/ result = 1 \/ result = 2 \/ result = 3) as [-> | [-> | [-> | ->]]] by lia; in_list.
    + cbn [Z.eqb MSG_HELLO MSG_HELLO_ACK MSG_CTRL_ERROR MSG_RESET Pos.eqb]. apply bool_decide_eq_true. change (byte_at 0 [code; 0; 0; 0]) with code.
      assert (code = 1 \/ code = 2 \/ code = 3) as [-> | [-> | ->]] by lia; in_list.
    + cbn [Z.eqb MSG_HELLO MSG_HELLO_ACK MSG_CTRL_ERROR Pos.eqb].
      assert (E : half 0 (be_bytes 2 code ++ be_bytes 2 0 ++ be_bytes 4 related) = code).
      { unfold half. change (2 * 0) with 0. change (0 + 2) with 2. read_slices. rewrite be_val_be_bytes. apply Z.mod_small. cbn. lia. }
      rewrite E. apply negb_true_iff, orb_false_iff. split; apply Z.ltb_ge; lia.
Qed.

Lemma of_session_binds m ty : binds (message_type m) ty <-> ty = 0 \/ ty = frame_type m.
Proof. unfold binds. destruct m; cbn; split; intros [->|H]; auto; right; congruence. Qed.

Lemma bootstrap_exact payload :
  bytes_ok payload -> is_valid_hello_bootstrap payload = true <-> exists req, req_ok req /\ payload = message_payload (Hello req 0).
Proof.
  intros Hok. unfold is_valid_hello_bootstrap. cbv zeta. split.
  - intros H. case_ifs H. bool_to_prop.
    match goal with E : pure_decode _ _ = OK |- _ => destruct (decode_OK_bytes _ _ Hok E) as (Hp & _ & Hpay) end.
    destruct Hp as (Hr & _ & _ & Hb & Ht & _). unfold ncl1_of in *. cbn [p_type p_req p_gen p_cookie p_body] in *.
    match goal with E : byte_at 5 payload = MSG_HELLO |- _ => rewrite E in * end. injection Ht as Hl.
    assert (Es : slice 26 34 payload = slice_from 26 payload).
    { pose proof (f_equal len Hpay) as L. rewrite len_ncl1_bytes in L. cbn [p_body] in L. rewrite slice_from_slice by lia. f_equal. lia. }
    rewrite Es in *. pose proof (body_halves _ Hb (eq_sym Hl)) as Eb. exists (be_val (slice 8 12 payload)). split; [unfold req_ok; lia|].
    refine (eq_trans (eq_sym Hpay) _). unfold ncl1_bytes, message_payload. cbn [p_type p_req p_gen p_cookie p_body message_type message_req message_pair fst snd].
    rewrite Eb. cbn [message_body]. repeat match goal with E : half _ _ = _ |- _ => rewrite E; clear E end.
    repeat match goal with E : be_val _ = 0 |- _ => rewrite E; clear E end. done.
  - intros (req & Hreq & ->). pose proof (of_session_ok (Hello req 0) ltac:(cbn; unfold seq_ok, U32_MAX; lia || (split; [done | unfold seq_ok, U32_MAX; lia]))) as Hp.
    destruct (ncl1_bytes_reads _ Hp) as (_ & _ & H1 & _ & H2 & H3 & H4 & _ & H5).
    pose proof (decode_ncl1_bytes _ TYPE_DATA Hp ltac:(right; reflexivity)) as Hd. rewrite of_session_bytes in *.
    rewrite Hd. cbn [Z.eqb OK negb].
    rewrite H1, H2, H3, H4. cbn [of_session p_type p_req p_gen p_cookie message_type message_req message_pair fst snd Z.eqb negb orb MSG_HELLO Pos.eqb].
    rewrite (proj2 (Z.eqb_neq req 0)) by (unfold req_ok in Hreq; lia).
    assert (Es : slice 26 34 (message_payload (Hello req 0)) = message_body (Hello req 0)).
    { unfold message_payload. read_slices. done. }
    rewrite Es. reflexivity.
Qed.

(** The payload of an acknowledgement that selects any version. *)
Definition ack_message (req gen cookie selected result : Z) : ncl1_message :=
  {| p_type := MSG_HELLO_ACK; p_req := req; p_gen := gen; p_cookie := cookie;
     p_body := be_bytes 2 selected ++ be_bytes 2 0 ++ be_bytes 2 result ++ be_bytes 2 0 |}.

Lemma ack_message_ok req gen cookie selected result :
  wf_message (HelloAck req gen cookie 0 result) -> 0 <= selected < 65536 -> ncl1_ok (ack_message req gen cookie selected result).
Proof.
  intros Hm Hs. destruct (of_session_ok _ Hm) as (Hr & Hg & Hc & _ & _ & Hl). unfold ncl1_ok, ack_message.
  assert (Hres : 0 <= result <= 3) by (destruct Hm as (_ & _ & [[-> _]|[? _]]); unfold HELLO_OK; lia).
  cbn [of_session p_type p_req p_gen p_cookie p_body message_req message_pair fst snd] in *. split_and!; try done; try lia. solve_bytes.
Qed.

Lemma ack_exact payload :
  bytes_ok payload ->
  is_structurally_valid_hello_ack payload = true <->
  exists req gen cookie selected result,
    wf_message (HelloAck req gen cookie 0 result) /\ 0 <= selected < 65536 /\ (result = 0 -> selected = 1) /\
    payload = ncl1_bytes (ack_message req gen cookie selected result).
Proof.
  intros Hok. unfold is_structurally_valid_hello_ack. cbv zeta. split.
  - intros H. destruct (pure_decode payload TYPE_DATA =? OK) eqn:E; [|done]. destruct (byte_at 5 payload =? MSG_HELLO_ACK) eqn:E5; [|done].
    destruct (be_val (slice 8 12 payload) =? 0) eqn:Er; [done|]. bool_to_prop. cbn [negb] in H.
    destruct (decode_OK_bytes _ _ Hok E) as ((Hr & Hg & Hc & Hb & Ht & Hl) & _ & Hpay).
    unfold ncl1_of in *. cbn [p_type p_req p_gen p_cookie p_body] in *. rewrite E5 in *. injection Ht as Hl8.
    assert (Es : slice 26 34 payload = slice_from 26 payload).
    { pose proof (f_equal len Hpay) as L. rewrite len_ncl1_bytes in L. cbn [p_body] in L. rewrite slice_from_slice by lia. f_equal. lia. }
    rewrite Es in *. pose proof (body_halves _ Hb (eq_sym Hl8)) as Eb. set (b := slice_from 26 payload) in *.
    assert (Hh : forall i, 0 <= i <= 3 -> 0 <= half i b < 65536).
    { intros i Hi. unfold half. pose proof (be_val_bounds (slice (2 * i) (2 * i + 2) b) ltac:(by apply bytes_ok_slice)) as Hbb.
      rewrite len_slice in Hbb by lia. replace (2 * i + 2 - 2 * i) with 2 in Hbb by lia. exact Hbb. }
    destruct (negb (half 1 b =? 0) || negb (half 3 b =? 0)) eqn:Ez; [done|]. bool_to_prop.
    exists (be_val (slice 8 12 payload)), (be_val (slice 12 16 payload)), (be_val (slice 16 24 payload)), (half 0 b), (half 2 b).
    assert (Hbytes : payload = ncl1_bytes (ack_message (be_val (slice 8 12 payload)) (be_val (slice 12 16 payload)) (be_val (slice 16 24 payload)) (half 0 b) (half 2 b))).
    { refine (eq_trans (eq_sym Hpay) _). f_equal. unfold ack_message. f_equal. rewrite Eb at 1. congruence. }
    unfold wf_message, req_ok, seq_ok, live_pair, HELLO_OK. specialize (Hh 0 ltac:(lia)). unfold U32_MAX, U64_MAX in *.
    destruct (half 2 b =? 0) eqn:E2; bool_to_prop.
    + split_and!; try lia; try done.
    + destruct (bool_decide (half 2 b ∈ [1; 2; 3])) eqn:E3; [|done]. bool_to_prop. rewrite !elem_of_cons, elem_of_nil in E3.
      split_and!; try lia; try done.
  - intros (req & gen & cookie & selected & result & Hm & Hs & Hsel & ->). pose proof (ack_message_ok _ _ _ _ _ Hm Hs) as Hp.
    destruct (ncl1_bytes_reads _ Hp) as (_ & _ & H1 & _ & H2 & H3 & H4 & _ & H5).
    rewrite (decode_ncl1_bytes _ TYPE_DATA Hp) by (right; reflexivity). rewrite H1, H2, H3, H4.
    assert (Es : slice 26 34 (ncl1_bytes (ack_message req gen cookie selected result)) = p_body (ack_message req gen cookie selected result)).
    { unfold ncl1_bytes, ack_message. cbn [p_body]. read_slices; try done. }
    rewrite Es. cbn [ack_message p_type p_req p_gen p_cookie p_body Z.eqb negb OK MSG_HELLO_ACK Pos.eqb].
    assert (Hres : 0 <= result <= 3) by (destruct Hm as (_ & _ & [[-> _]|[? _]]); unfold HELLO_OK; lia).
    destruct (half_fields selected 0 result 0) as (-> & -> & -> & ->); try lia. cbn [Z.eqb negb orb].
    destruct Hm as (Hreq & _ & Hcase). unfold req_ok, HELLO_OK, live_pair in *. rewrite (proj2 (Z.eqb_neq req 0)) by lia.
    destruct (Z.eqb_spec result 0) as [->|Hn].
    + rewrite (Hsel eq_refl). rewrite (proj2 (Z.eqb_neq gen 0)), (proj2 (Z.eqb_neq cookie 0)) by lia. done.
    + destruct Hcase as [[? _]|(Hr & -> & ->)]; [done|]. rewrite bool_decide_eq_true_2; [done|].
      assert (result = 1 \/ result = 2 \/ result = 3) as [-> | [-> | ->]] by lia; in_list.
Qed.

(** ** The two programs agree *)

(** The checksum and layout test is the exact decoder of [ControlFrame] without its tests of
    type, flags and size. *)
Lemma ncg1_verify_exact raw :
  bytes_ok raw ->
  decode_exact raw = RESULT_OK <->
  ncg1_verify raw = true /\ byte_at 5 raw ∈ KNOWN_TYPES /\ be_val (slice 6 8 raw) = 0 /\ be_val (slice 16 18 raw) <= MAX_PAYLOAD.
Proof.
  intros Hok. rewrite decode_exact_OK_spec. cbv zeta. unfold HEADER_PREFIX, HEADER, OVERHEAD, ncg1_verify. cbv zeta.
  pose proof (be_val_bounds (slice 16 18 raw) (bytes_ok_slice _ _ _ Hok)) as Hlb.
  assert (Htail : forall n, len raw = 26 + n -> slice (22 + n) (22 + n + 4) raw = slice (len raw - 4) (len raw) raw /\ slice 0 (22 + n) raw = slice 0 (len raw - 4) raw)
    by (intros n Hn; split; f_equal; lia).
  split.
  - intros (H1 & H2 & H3 & H4 & H5 & H6 & H7 & H8 & H9). destruct (Htail _ H7) as [E1 E2]. rewrite E1, E2 in H8. split; [|done].
    rewrite (proj2 (Z.ltb_ge (len raw) 26)) by lia.
    rewrite (bool_decide_true _ H1), H2, H6, H8, H7, !Z.eqb_refl. done.
  - intros (H & H3 & H4 & H5). case_ifs H. bool_to_prop. match goal with E : len raw = _ |- _ => destruct (Htail _ E) as [Ht1 Ht2] end.
    rewrite Ht1, Ht2. split_and!; done || lia.
Qed.

(** C23. What the session program encodes is what this program decodes.  The payload of every
    well-formed message is accepted under its own frame type and no other, its reserved fields
    are clear, and its frame passes both frame checks.  Conversely the payloads accepted as a
    bootstrap are exactly the session's HELLO messages, and those accepted as an
    acknowledgement are its HELLO_ACK messages, except that a refusal may select any version. *)
Theorem session_messages_decoded :
  (forall m, wf_message m ->
     (forall ty, pure_decode (message_payload m) ty = OK <-> ty = 0 \/ ty = frame_type m) /\
     check_reserved_ok (message_payload m) = true /\ ncg1_verify (message_frame m) = true) /\
  forall payload, bytes_ok payload ->
    (is_valid_hello_bootstrap payload = true <-> exists req, wf_message (Hello req 0) /\ payload = message_payload (Hello req 0)) /\
    (is_structurally_valid_hello_ack payload = true <->
     exists req gen cookie selected result, wf_message (HelloAck req gen cookie 0 result) /\ 0 <= selected < 65536 /\ (result = 0 -> selected = 1) /\
       payload = ncl1_bytes (ack_message req gen cookie selected result)).
Proof.
  split.
  - intros m Hm. pose proof (of_session_ok m Hm) as Hp. destruct (ncl1_bytes_reads _ Hp) as (_ & _ & H1 & _ & _ & _ & _ & _ & H5).
    rewrite of_session_bytes in *. split; [|split].
    + intros ty. rewrite <- of_session_binds. split.
      * intros (_ & _ & _ & _ & _ & _ & Hb & _)%pure_decode_OK_spec. by rewrite H1 in Hb.
      * intros Hb. rewrite <- of_session_bytes. by apply decode_ncl1_bytes.
    + unfold check_reserved_ok. rewrite <- of_session_bytes, decode_ncl1_bytes, of_session_bytes by (done || by left). rewrite H1, H5.
      by destruct m.
    + apply (proj1 (ncg1_verify_exact _ (message_frame_ok m Hm))). apply decode_frame_bytes. by apply message_frame_valid.
  - intros payload Hok. split; [|by apply ack_exact]. rewrite bootstrap_exact by done.
    split; intros (req & Hr & E); exists req; (split; [|done]); cbn in *; [split; [done | unfold seq_ok, U32_MAX; lia] | by destruct Hr].
Qed.

Lemma session_messages_decoded_witness :
  let p := message_payload sample_ack in
  (pure_decode p TYPE_DATA = OK <-> TYPE_DATA = 0 \/ TYPE_DATA = frame_type sample_ack) /\ check_reserved_ok p = true /\
  is_structurally_valid_hello_ack p = true.
Proof.
  intros p. destruct (proj1 session_messages_decoded sample_ack sample_ack_wf) as (H1 & H2 & _).
  split; [apply (H1 TYPE_DATA)|]. split; [exact H2|]. apply (proj2 (proj2 session_messages_decoded p ltac:(in_list))).
  exists 1, 1, 0xC0FFEE0123456789, 1, 0. split; [in_list|]. split; [lia|]. split; [done|]. vm_compute. reflexivity.
Defined.

Definition sample_ping : ncl1_message := {| p_type := MSG_PING; p_req := 1; p_gen := 7; p_cookie := 9; p_body := pattern 1 8 |}.

(** A ping is accepted in a PING frame, and in a DATA frame it is not. *)
Lemma pure_decode_exact_witness :
  let payload := ncl1_bytes sample_ping in
  pure_decode payload TYPE_PING = OK /\
  ~ exists p, ncl1_ok p /\ binds (p_type p) TYPE_DATA /\ ncl1 (p_type p) (p_req p) (p_gen p) (p_cookie p) (p_body p) = Ok payload /\
      forall q, ncl1_ok q -> ncl1 (p_type q) (p_req q) (p_gen q) (p_cookie q) (p_body q) = Ok payload -> q = p.
Proof.
  intros payload. split.
  - vm_compute. reflexivity.
  - intros H. apply (proj2 (pure_decode_exact payload TYPE_DATA ltac:(in_list))) in H. vm_compute in H. discriminate H.
Defined.
