(* ===== verification/MultiCount.v ===== *)
(** The close predicates of the second slice of the cross-row scan
    (tools/domain_scan_d3s2_semantic_oracle.py): what a carrier row declares in its counters
    against what the scan has observed, for the modes 21 to 26. *)

From S2P Require Import Prelude Bytes.

Definition MODES : list Z := [21; 22; 23; 24; 25; 26].
Definition MASK_BY_MODE (mode : Z) : option Z :=
  if mode =? 21 then Some 0x03 else if mode =? 22 then Some 0x01 else if mode =? 23 then Some 0x04
  else if mode =? 24 then Some 0x08 else if mode =? 25 then Some 0x10 else if mode =? 26 then Some 0x20 else None.
Definition EXPECTED_VECTOR_COUNT : Z := 31.

(** [bin(value & 0x0F).count("1")]. *)
Definition _popcount4 (value : Z) : Z :=
  let low := Z.land value 0x0F in
  Z.b2z (Z.testbit low 0) + Z.b2z (Z.testbit low 1) + Z.b2z (Z.testbit low 2) + Z.b2z (Z.testbit low 3).

Definition _required_evidence_mask (length : Z) : res Z :=
  raise_if (negb (in_range 0 8 length)) (ValueError "evidence L outside closed 0..8 range");; mret (Z.shiftl 1 (length + 1) - 1).

(** A case, as its dictionary: a missing key is [None], and [unknown_keys] are the keys that
    are not of [CASE_KEYS]. *)
Record case := {
  c_id : option string; c_mode : option Z; c_carrier_present : option bool; c_secondary_present : option bool; c_cleanup_skip : option bool;
  c_bind_ok : option bool; c_port_status : option string; c_declared : option (list Z); c_observed : option (list Z);
  c_evidence_l : option Z; c_evidence_slot_mask : option Z; c_evidence_empty_set : option bool; c_declared_reply_count : option Z;
  c_observed_reply_mask : option Z; c_declared_retry_recent_n : option Z; unknown_keys : list string }.

Record result := {
  final_status : string; state_after : string; phase_after : string; has_sticky_primary : Z; sticky_primary : string; note_count : Z;
  complete_ready : Z; required_count_mask : Z; count_complete_mask : Z; required_binding_mask : Z; binding_complete_mask : Z;
  mutation_calls : Z }.

Definition fresh (required : Z) (carrier_present : bool) : result :=
  {| final_status := "OK"; state_after := "DONE"; phase_after := "COMPLETE"; has_sticky_primary := 0; sticky_primary := "OK";
     note_count := 0; complete_ready := 1; required_count_mask := if carrier_present then required else 0;
     count_complete_mask := if carrier_present then required else 0; required_binding_mask := required;
     binding_complete_mask := required; mutation_calls := 0 |}.

(** [result.update(...)] of a failure. *)
Definition fails (status : string) (notes : Z) (r : result) : result :=
  {| final_status := status; state_after := "FAILED"; phase_after := "FAILED"; has_sticky_primary := 1; sticky_primary := status;
     note_count := notes; complete_ready := 0; required_count_mask := required_count_mask r; count_complete_mask := count_complete_mask r;
     required_binding_mask := required_binding_mask r; binding_complete_mask := binding_complete_mask r; mutation_calls := mutation_calls r |}.
Definition corrupt (r : result) : result := fails "STORAGE_CORRUPT" 1 r.
Definition unbound (r : result) : result :=
  {| final_status := final_status r; state_after := state_after r; phase_after := phase_after r; has_sticky_primary := has_sticky_primary r;
     sticky_primary := sticky_primary r; note_count := note_count r; complete_ready := complete_ready r;
     required_count_mask := required_count_mask r; count_complete_mask := count_complete_mask r;
     required_binding_mask := required_binding_mask r; binding_complete_mask := 0; mutation_calls := mutation_calls r |}.

(** The counters of the three lanes. *)
Record lanes := { lane_a : Z; lane_b : Z; lane_c : Z }.
Definition lanes_of (l : list Z) : option lanes := match l with [a; b; c] => Some {| lane_a := a; lane_b := b; lane_c := c |} | _ => None end.

(** The counts of a carrier that is present and bound: [false] is corrupt. *)
Definition evidence_counts (c : case) (d o : lanes) : res bool :=
  let length := default 0 (c_evidence_l c) in
  let slots := default 0 (c_evidence_slot_mask c) in
  let '(Build_lanes da db dc) := d in let '(Build_lanes oa ob oc) := o in
  if default false (c_evidence_empty_set c) then
    mret (negb (negb (slots =? 0) || existsb (fun v => negb (v =? 0)) [da; db; dc; oa; ob; oc]))
  else
    mask ← _required_evidence_mask length;
    mret (if negb (slots =? mask) then false
          else negb (negb (da =? oa + db) || (dc <? oc) || (da <? dc) || (da <? db) || negb (ob =? 0))).

Definition counts_ok (mode : Z) (c : case) (d o : lanes) : res bool :=
  let cleanup_skip := default false (c_cleanup_skip c) in
  let '(Build_lanes da db dc) := d in let '(Build_lanes oa ob oc) := o in
  if bool_decide (mode ∈ [21; 22]) then
    mret (if negb cleanup_skip && (negb (oa =? da) || negb (ob =? db)) then false
          else if (mode =? 21) && negb cleanup_skip && (negb (oc =? dc) || negb (dc =? da + db)) then false
          else negb ((mode =? 22) && (negb (dc =? 0) || negb (oc =? 0))))
  else if mode =? 23 then evidence_counts c d o
  else if mode =? 24 then
    let reply_count := default da (c_declared_reply_count c) in
    let reply_mask := default 0 (c_observed_reply_mask c) in
    mret (if negb (in_range 0 4 reply_count) || negb (Z.land reply_mask (Z.lnot 0x0F) =? 0) then false
          else if negb (da =? reply_count) || negb (oa =? da) || negb (oa =? _popcount4 reply_mask) then false
          else negb (negb (db =? 0) || negb (dc =? 0) || negb (ob =? 0) || negb (oc =? 0)))
  else if mode =? 25 then
    let retry_recent_n := default db (c_declared_retry_recent_n c) in
    mret (if negb (retry_recent_n =? db) || negb (db =? Z.min da 4) then false
          else if negb (oa =? db) || negb (oc =? dc) || negb (ob =? 0) then false
          else negb (negb (bool_decide (dc ∈ [0; 1])) || negb (bool_decide (oc ∈ [0; 1]))))
  else mret (negb (negb (oa =? da) || negb (db =? 0) || negb (dc =? 0) || negb (ob =? 0) || negb (oc =? 0))).

Definition evaluate (c : case) : res result :=
  raise_if (negb (bool_decide (unknown_keys c = []))) (ValueError "unknown case keys");;
  match c_mode c with
  | None => Raise (KeyError "mode")
  | Some mode =>
      match MASK_BY_MODE mode with
      | None => Raise (ValueError "mode must be 21..26")
      | Some required =>
          let carrier_present := default true (c_carrier_present c) in
          let secondary_present := default carrier_present (c_secondary_present c) in
          let bind_ok := default true (c_bind_ok c) in
          let port_status := default "OK"%string (c_port_status c) in
          let declared := default [0; 0; 0] (c_declared c) in
          let observed := default [0; 0; 0] (c_observed c) in
          match lanes_of declared, lanes_of observed with
          | Some d, Some o =>
              raise_if (existsb (fun v => (v <? 0) || (U64_MAX <? v)) (declared ++ observed)) (ValueError "counter outside u64");;
              let r := fresh required carrier_present in
              if negb (String.eqb port_status "OK") then Ok (fails port_status 0 r)
              else if negb carrier_present then Ok (if secondary_present || negb bind_ok then corrupt (unbound r) else r)
              else if negb bind_ok then Ok (corrupt (unbound r))
              else (ok ← counts_ok mode c d o; Ok (if (ok : bool) then r else corrupt r))
          | _, _ => Raise (ValueError "declared/observed require exactly A/B/C")
          end
      end
  end.

(** ** Vectors *)

Definition blank (id : string) (mode : Z) : case :=
  {| c_id := Some id; c_mode := Some mode; c_carrier_present := None; c_secondary_present := None; c_cleanup_skip := None; c_bind_ok := None;
     c_port_status := None; c_declared := None; c_observed := None; c_evidence_l := None; c_evidence_slot_mask := None;
     c_evidence_empty_set := None; c_declared_reply_count := None; c_observed_reply_mask := None; c_declared_retry_recent_n := None;
     unknown_keys := [] |}.
Definition with_presence (carrier secondary : option bool) (c : case) : case :=
  {| c_id := c_id c; c_mode := c_mode c; c_carrier_present := carrier; c_secondary_present := secondary; c_cleanup_skip := c_cleanup_skip c;
     c_bind_ok := c_bind_ok c; c_port_status := c_port_status c; c_declared := c_declared c; c_observed := c_observed c;
     c_evidence_l := c_evidence_l c; c_evidence_slot_mask := c_evidence_slot_mask c; c_evidence_empty_set := c_evidence_empty_set c;
     c_declared_reply_count := c_declared_reply_count c; c_observed_reply_mask := c_observed_reply_mask c;
     c_declared_retry_recent_n := c_declared_retry_recent_n c; unknown_keys := unknown_keys c |}.
Definition with_flags (skip bind_ok : option bool) (port : option string) (c : case) : case :=
  {| c_id := c_id c; c_mode := c_mode c; c_carrier_present := c_carrier_present c; c_secondary_present := c_secondary_present c;
     c_cleanup_skip := skip; c_bind_ok := bind_ok; c_port_status := port; c_declared := c_declared c; c_observed := c_observed c;
     c_evidence_l := c_evidence_l c; c_evidence_slot_mask := c_evidence_slot_mask c; c_evidence_empty_set := c_evidence_empty_set c;
     c_declared_reply_count := c_declared_reply_count c; c_observed_reply_mask := c_observed_reply_mask c;
     c_declared_retry_recent_n := c_declared_retry_recent_n c; unknown_keys := unknown_keys c |}.
Definition with_lanes (declared observed : list Z) (c : case) : case :=
  {| c_id := c_id c; c_mode := c_mode c; c_carrier_present := c_carrier_present c; c_secondary_present := c_secondary_present c;
     c_cleanup_skip := c_cleanup_skip c; c_bind_ok := c_bind_ok c; c_port_status := c_port_status c; c_declared := Some declared;
     c_observed := Some observed; c_evidence_l := c_evidence_l c; c_evidence_slot_mask := c_evidence_slot_mask c;
     c_evidence_empty_set := c_evidence_empty_set c; c_declared_reply_count := c_declared_reply_count c;
     c_observed_reply_mask := c_observed_reply_mask c; c_declared_retry_recent_n := c_declared_retry_recent_n c; unknown_keys := unknown_keys c |}.
Definition with_evidence (l mask : Z) (empty_set : option bool) (c : case) : case :=
  {| c_id := c_id c; c_mode := c_mode c; c_carrier_present := c_carrier_present c; c_secondary_present := c_secondary_present c;
     c_cleanup_skip := c_cleanup_skip c; c_bind_ok := c_bind_ok c; c_port_status := c_port_status c; c_declared := c_declared c;
     c_observed := c_observed c; c_evidence_l := Some l; c_evidence_slot_mask := Some mask; c_evidence_empty_set := empty_set;
     c_declared_reply_count := c_declared_reply_count c; c_observed_reply_mask := c_observed_reply_mask c;
     c_declared_retry_recent_n := c_declared_retry_recent_n c; unknown_keys := unknown_keys c |}.
Definition with_replies (count mask : Z) (c : case) : case :=
  {| c_id := c_id c; c_mode := c_mode c; c_carrier_present := c_carrier_present c; c_secondary_present := c_secondary_present c;
     c_cleanup_skip := c_cleanup_skip c; c_bind_ok := c_bind_ok c; c_port_status := c_port_status c; c_declared := c_declared c;
     c_observed := c_observed c; c_evidence_l := c_evidence_l c; c_evidence_slot_mask := c_evidence_slot_mask c;
     c_evidence_empty_set := c_evidence_empty_set c; c_declared_reply_count := Some count; c_observed_reply_mask := Some mask;
     c_declared_retry_recent_n := c_declared_retry_recent_n c; unknown_keys := unknown_keys c |}.
Definition with_retries (n : Z) (c : case) : case :=
  {| c_id := c_id c; c_mode := c_mode c; c_carrier_present := c_carrier_present c; c_secondary_present := c_secondary_present c;
     c_cleanup_skip := c_cleanup_skip c; c_bind_ok := c_bind_ok c; c_port_status := c_port_status c; c_declared := c_declared c;
     c_observed := c_observed c; c_evidence_l := c_evidence_l c; c_evidence_slot_mask := c_evidence_slot_mask c;
     c_evidence_empty_set := c_evidence_empty_set c; c_declared_reply_count := c_declared_reply_count c;
     c_observed_reply_mask := c_observed_reply_mask c; c_declared_retry_recent_n := Some n; unknown_keys := unknown_keys c |}.
Definition with_unknown (keys : list string) (c : case) : case :=
  {| c_id := c_id c; c_mode := c_mode c; c_carrier_present := c_carrier_present c; c_secondary_present := c_secondary_present c;
     c_cleanup_skip := c_cleanup_skip c; c_bind_ok := c_bind_ok c; c_port_status := c_port_status c; c_declared := c_declared c;
     c_observed := c_observed c; c_evidence_l := c_evidence_l c; c_evidence_slot_mask := c_evidence_slot_mask c;
     c_evidence_empty_set := c_evidence_empty_set c; c_declared_reply_count := c_declared_reply_count c;
     c_observed_reply_mask := c_observed_reply_mask c; c_declared_retry_recent_n := c_declared_retry_recent_n c; unknown_keys := keys |}.

Definition cases : list case :=
  [with_lanes [2; 1; 3] [2; 1; 3] (blank "mode21_counts_ok" 21);
   with_lanes [2; 1; 3] [2; 1; 2] (blank "mode21_index_mismatch" 21);
   with_flags (Some true) None None (with_lanes [2; 1; 3] [0; 0; 0] (blank "mode21_cleanup_skip_ok" 21));
   with_lanes [2; 1; 0] [2; 1; 0] (blank "mode22_app_first_ok" 22);
   with_lanes [2; 1; 0] [2; 1; 1] (blank "mode22_index_lane_mbz" 22);
   with_evidence 1 0x03 None (with_lanes [2; 1; 1] [1; 0; 1] (blank "mode23_slots_equation_ok" 23));
   with_evidence 1 0x01 None (with_lanes [2; 1; 1] [1; 0; 1] (blank "mode23_slot_missing" 23));
   with_evidence 1 0x03 None (with_lanes [1; 0; 0] [1; 0; 1] (blank "mode23_late_bound_fail" 23));
   with_evidence 0 0 (Some true) (with_lanes [0; 0; 0] [0; 0; 0] (blank "mode23_cancel_first_empty_success" 23));
   with_evidence 3 0x0F None (with_lanes [0; 0; 0] [0; 0; 0] (blank "mode23_nonempty_success" 23));
   with_replies 2 0x05 (with_lanes [2; 0; 0] [2; 0; 0] (blank "mode24_two_kinds_ok" 24));
   with_replies 2 0x01 (with_lanes [2; 0; 0] [2; 0; 0] (blank "mode24_popcount_mismatch" 24));
   with_replies 0 0 (with_lanes [0; 0; 0] [0; 0; 0] (blank "mode24_reply_zero_empty_success" 24));
   with_replies 1 0x01 (with_lanes [1; 0; 0] [1; 0; 0] (blank "mode24_reply_one_success" 24));
   with_replies 1 0 (with_lanes [1; 0; 0] [0; 0; 0] (blank "mode24_reply_one_missing" 24));
   with_retries 4 (with_lanes [5; 4; 1] [4; 0; 1] (blank "mode25_retry_ok" 25));
   with_retries 3 (with_lanes [3; 3; 1] [2; 0; 1] (blank "mode25_recent_missing" 25));
   with_retries 1 (with_lanes [1; 1; 1] [1; 0; 0] (blank "mode25_cumulative_missing" 25));
   with_retries 0 (with_lanes [0; 0; 1] [0; 0; 1] (blank "mode25_retry_zero_success" 25));
   with_retries 1 (with_lanes [1; 1; 1] [1; 0; 1] (blank "mode25_retry_one_success" 25));
   with_presence (Some false) (Some true) (blank "mode25_recent_without_cumulative_fail" 25);
   with_lanes [3; 0; 0] [3; 0; 0] (blank "mode26_management_ok" 26);
   with_lanes [3; 0; 0] [2; 0; 0] (blank "mode26_management_mismatch" 26);
   with_lanes [0; 0; 0] [0; 0; 0] (blank "mode26_management_zero_success" 26);
   with_lanes [1; 0; 0] [1; 0; 0] (blank "mode26_management_one_success" 26);
   with_presence (Some false) (Some true) (blank "mode26_management_without_spool_fail" 26);
   with_presence (Some false) (Some false) (blank "empty_carrier_empty_secondary_ok" 21);
   with_presence (Some false) (Some true) (blank "empty_carrier_orphan_fail" 21);
   with_flags None (Some false) None (with_lanes [0; 0; 0] [0; 0; 0] (blank "bind_primary_or_carrier_fail" 24));
   with_flags None None (Some "STORAGE"%string) (blank "port_failure_no_note" 25);
   with_flags (Some true) (Some false) None (with_lanes [9; 1; 0] [0; 0; 0] (blank "mode22_cleanup_still_binds" 22))].

Definition _case (c : case) : res (case * result) := r ← evaluate c; mret (c, r).

Fixpoint evaluate_cases (cs : list case) : res (list (case * result)) :=
  match cs with [] => Ok [] | c :: cs => v ← _case c; vs ← evaluate_cases cs; mret (v :: vs) end.

Definition build_vectors : res (list (case * result)) :=
  vectors ← evaluate_cases cases;
  raise_if (negb (len vectors =? EXPECTED_VECTOR_COUNT)) (AssertionError "");;
  mret vectors.

(** ** The self test *)

Definition find_vector (id : string) (vs : list (case * result)) : res (case * result) :=
  match List.find (fun v => bool_decide (c_id v.1 = Some id)) vs with Some v => Ok v | None => Raise StopIteration end.

(** [mutated["observed"][0] += 1]. *)
Definition bump_observed (c : case) : res case :=
  match c_observed c with
  | None => Raise (KeyError "observed")
  | Some [] => Raise IndexError
  | Some (o :: os) => mret (with_lanes (default [0; 0; 0] (c_declared c)) (o + 1 :: os) c)
  end.

Definition positives : list (Z * string) :=
  [(21, "mode21_counts_ok"); (22, "mode22_app_first_ok"); (23, "mode23_slots_equation_ok"); (24, "mode24_two_kinds_ok");
   (25, "mode25_retry_ok"); (26, "mode26_management_ok")]%string.

Fixpoint check_positives (ps : list (Z * string)) (vs : list (case * result)) : res unit :=
  match ps with
  | [] => Ok tt
  | (_, id) :: ps =>
      v ← find_vector id vs;
      mutated ← bump_observed v.1;
      r ← evaluate mutated;
      raise_if (negb (String.eqb (final_status r) "STORAGE_CORRUPT")) (AssertionError "");;
      check_positives ps vs
  end.

Definition self_test : res unit :=
  vectors ← build_vectors;
  let modes := omap (fun v => c_mode v.1) vectors in
  raise_if (negb (bool_decide ((list_to_set modes : gset Z) = list_to_set MODES))) (AssertionError "");;
  raise_if (negb (existsb (fun v => String.eqb (final_status v.2) "OK") vectors)) (AssertionError "");;
  raise_if (negb (existsb (fun v => String.eqb (final_status v.2) "STORAGE_CORRUPT") vectors)) (AssertionError "");;
  port ← find_vector "port_failure_no_note" vectors;
  raise_if (negb (note_count port.2 =? 0)) (AssertionError "");;
  cleanup_bind ← find_vector "mode22_cleanup_still_binds" vectors;
  raise_if (negb (String.eqb (final_status cleanup_bind.2) "STORAGE_CORRUPT")) (AssertionError "");;
  match vectors with
  | [] => Raise IndexError
  | v :: _ =>
      match evaluate (with_unknown ["unknown_future_field"%string] v.1) with
      | Raise (ValueError _) => Ok tt
      | Raise e => Raise e
      | Ok _ => Raise (AssertionError "unknown semantic case key accepted")
      end
  end;;
  check_positives positives vectors.

(** The 31 vectors are built and the self test passes. *)
Example self_test_passes : self_test = Ok tt.
Proof. vm_compute. reflexivity. Qed.

(** ** The close predicates *)

(** The kinds of reply a mask has seen. *)
Definition replies_in (mask : Z) : list Z := filter (fun i => Z.testbit mask i = true) [0; 1; 2; 3].

(** The declared counters close over the observed ones. *)
Definition closes (mode : Z) (c : case) (d o : lanes) : Prop :=
  let '(Build_lanes da db dc) := d in let '(Build_lanes oa ob oc) := o in
  let skip := default false (c_cleanup_skip c) in
  if mode =? 21 then skip = true \/ oa = da /\ ob = db /\ oc = dc /\ dc = da + db
  else if mode =? 22 then (skip = true \/ oa = da /\ ob = db) /\ dc = 0 /\ oc = 0
  else if mode =? 23 then
    let slots := default 0 (c_evidence_slot_mask c) in
    if default false (c_evidence_empty_set c) then slots = 0 /\ da = 0 /\ db = 0 /\ dc = 0 /\ oa = 0 /\ ob = 0 /\ oc = 0
    else (forall i, 0 <= i -> Z.testbit slots i = true <-> i <= default 0 (c_evidence_l c)) /\ da = oa + db /\ oc <= dc <= da /\ ob = 0
  else if mode =? 24 then
    let mask := default 0 (c_observed_reply_mask c) in
    default da (c_declared_reply_count c) = da /\ oa = da /\ oa = len (replies_in mask) /\ (forall i, 4 <= i -> Z.testbit mask i = false) /\
    db = 0 /\ dc = 0 /\ ob = 0 /\ oc = 0
  else if mode =? 25 then default db (c_declared_retry_recent_n c) = db /\ db = Z.min da 4 /\ oa = db /\ oc = dc /\ 0 <= dc <= 1 /\ ob = 0
  else oa = da /\ db = 0 /\ dc = 0 /\ ob = 0 /\ oc = 0.

Lemma required_mask_bits l i : 0 <= l -> 0 <= i -> Z.testbit (Z.shiftl 1 (l + 1) - 1) i = bool_decide (i <= l).
Proof.
  intros Hl Hi. rewrite Z.shiftl_1_l, Z.sub_1_r, <- Z.ones_equiv, Z.testbit_ones_nonneg by lia.
  destruct (Z.ltb_spec i (l + 1)); symmetry; [apply bool_decide_eq_true | apply bool_decide_eq_false]; lia.
Qed.

Lemma slots_exact l slots : 0 <= l -> slots = Z.shiftl 1 (l + 1) - 1 <-> forall i, 0 <= i -> Z.testbit slots i = true <-> i <= l.
Proof.
  intros Hl. split.
  - intros -> i Hi. rewrite required_mask_bits by done. apply bool_decide_eq_true.
  - intros H. apply Z.bits_inj'. intros i Hi. rewrite required_mask_bits by done. specialize (H i Hi).
    destruct (Z.testbit slots i), (decide (i <= l)); [rewrite bool_decide_eq_true_2 | | | rewrite bool_decide_eq_false_2]; naive_solver lia.
Qed.

Lemma popcount4_exact v : _popcount4 v = len (replies_in v).
Proof.
  unfold _popcount4, replies_in. cbv zeta. rewrite !Z.land_spec. change (Z.testbit 15 0) with true. change (Z.testbit 15 1) with true.
  change (Z.testbit 15 2) with true. change (Z.testbit 15 3) with true. rewrite !andb_true_r.
  repeat (rewrite filter_cons). rewrite filter_nil. by destruct (Z.testbit v 0), (Z.testbit v 1), (Z.testbit v 2), (Z.testbit v 3).
Qed.

Lemma low_mask v : Z.land v (Z.lnot 0x0F) = 0 <-> forall i, 4 <= i -> Z.testbit v i = false.
Proof.
  split.
  - intros H i Hi. assert (E : Z.testbit (Z.land v (Z.lnot 15)) i = Z.testbit 0 i) by congruence.
    rewrite Z.land_spec, Z.lnot_spec, Z.testbit_0_l in E by lia. change 15 with (Z.ones 4) in E. rewrite Z.testbit_ones_nonneg in E by lia.
    rewrite (proj2 (Z.ltb_ge i 4)) in E by lia. by rewrite andb_true_r in E.
  - intros H. apply Z.bits_inj'. intros i Hi. rewrite Z.land_spec, Z.lnot_spec, Z.testbit_0_l by lia. change 15 with (Z.ones 4).
    rewrite Z.testbit_ones_nonneg by lia. destruct (Z.ltb_spec i 4); [by rewrite andb_false_r | by rewrite H].
Qed.

Definition lanes_ok (l : lanes) : Prop := 0 <= lane_a l <= U64_MAX /\ 0 <= lane_b l <= U64_MAX /\ 0 <= lane_c l <= U64_MAX.

(** The arguments [evaluate] accepts. *)
Definition case_ok (c : case) (mode : Z) (d o : lanes) : Prop :=
  unknown_keys c = [] /\ c_mode c = Some mode /\ mode ∈ MODES /\ lanes_of (default [0; 0; 0] (c_declared c)) = Some d /\
  lanes_of (default [0; 0; 0] (c_observed c)) = Some o /\ lanes_ok d /\ lanes_ok o /\ 0 <= default 0 (c_evidence_l c) <= 8.

(** [bools] turns a boolean equation into the facts it states. *)
Ltac bools :=
  repeat first
    [ rewrite andb_true_iff | rewrite orb_true_iff | rewrite negb_true_iff | rewrite orb_false_iff | rewrite andb_false_iff
    | rewrite negb_false_iff | rewrite Z.eqb_eq | rewrite Z.eqb_neq | rewrite Z.ltb_ge | rewrite Z.ltb_lt ].

Lemma evidence_counts_exact c d o :
  lanes_ok d -> lanes_ok o -> 0 <= default 0 (c_evidence_l c) <= 8 ->
  exists b, evidence_counts c d o = Ok b /\ (b = true <-> closes 23 c d o).
Proof.
  destruct d as [da db dc], o as [oa ob oc]. unfold lanes_ok. cbn [lane_a lane_b lane_c]. intros Hd Ho Hl.
  unfold evidence_counts, closes. cbn [Z.eqb Pos.eqb]. destruct (default false (c_evidence_empty_set c)).
  - eexists. split; [reflexivity|]. cbn [existsb]. bools. intuition lia.
  - unfold _required_evidence_mask. rewrite raise_if_skip by (apply negb_false_iff, in_range_spec; lia). rewrite ok_bind.
    eexists. split; [reflexivity|]. rewrite <- slots_exact by lia.
    destruct (Z.eqb_spec (default 0 (c_evidence_slot_mask c)) (Z.shiftl 1 (default 0 (c_evidence_l c) + 1) - 1)) as [->|Hn]; cbn [negb]; [|naive_solver].
    bools. intuition lia.
Qed.

Lemma counts_exact mode c d o :
  case_ok c mode d o -> exists b, counts_ok mode c d o = Ok b /\ (b = true <-> closes mode c d o).
Proof.
  intros (_ & _ & Hm & _ & _ & Hd & Ho & Hl).
  destruct (decide (mode = 23)) as [->|Hn23].
  { destruct (evidence_counts_exact c d o Hd Ho Hl) as (b & E & H). exists b. split; [|done]. unfold counts_ok. destruct d, o. done. }
  destruct d as [da db dc], o as [oa ob oc]. unfold lanes_ok in *. cbn [lane_a lane_b lane_c] in *. unfold counts_ok, closes.
  assert (mode = 21 \/ mode = 22 \/ mode = 24 \/ mode = 25 \/ mode = 26) as [-> | [-> | [-> | [-> | ->]]]]
    by (unfold MODES in Hm; rewrite !elem_of_cons, elem_of_nil in Hm; intuition lia).
  all: cbn [Z.eqb Pos.eqb andb orb]; (eexists; split; [reflexivity|]).
  - destruct (default false (c_cleanup_skip c)); cbn [negb andb]; [naive_solver|].
    destruct (negb (oa =? da) || negb (ob =? db)) eqn:E1; [|destruct (negb (oc =? dc) || negb (dc =? da + db)) eqn:E2]; revert E1; try revert E2; bools; intuition lia.
  - destruct (default false (c_cleanup_skip c)); cbn [negb andb]; [bools; intuition lia|].
    destruct (negb (oa =? da) || negb (ob =? db)) eqn:E1; revert E1; bools; intuition lia.
  - rewrite <- popcount4_exact, <- low_mask. set (mask := default 0 (c_observed_reply_mask c)). set (n := default da (c_declared_reply_count c)).
    pose proof (popcount4_exact mask) as Hp.
    assert (Hle : 0 <= _popcount4 mask <= 4) by (unfold _popcount4; repeat destruct (Z.testbit _ _); cbn; lia).
    destruct (negb (in_range 0 4 n) || negb (Z.land mask (Z.lnot 15) =? 0)) eqn:E1;
      [|destruct (negb (da =? n) || negb (oa =? da) || negb (oa =? _popcount4 mask)) eqn:E2];
      revert E1; try revert E2; bools; rewrite ?in_range_spec, ?in_range_false; intuition lia.
  - set (n := default db (c_declared_retry_recent_n c)).
    destruct (negb (n =? db) || negb (db =? Z.min da 4)) eqn:E1; [|destruct (negb (oa =? db) || negb (oc =? dc) || negb (ob =? 0)) eqn:E2];
      revert E1; try revert E2; bools; rewrite ?bool_decide_eq_true, ?bool_decide_eq_false, ?elem_of_cons, ?elem_of_nil; intuition lia.
  - bools. intuition lia.
Qed.

(** The answer to an accepted case, given whether its counts close. *)
Definition verdict (c : case) (mode : Z) (closed : bool) : result :=
  let carrier := default true (c_carrier_present c) in
  let port := default "OK"%string (c_port_status c) in
  let bind_ok := default true (c_bind_ok c) in
  let r := fresh (default 0 (MASK_BY_MODE mode)) carrier in
  if negb (String.eqb port "OK") then fails port 0 r
  else if negb carrier then if default carrier (c_secondary_present c) || negb bind_ok then corrupt (unbound r) else r
  else if negb bind_ok then corrupt (unbound r)
  else if closed then r else corrupt r.

Lemma lanes_of_inv l x : lanes_of l = Some x -> l = [lane_a x; lane_b x; lane_c x].
Proof. destruct l as [|a [|b [|e [|? ?]]]]; try done. by intros [= <-]. Qed.

Lemma evaluate_verdict c mode d o :
  case_ok c mode d o -> exists b, (b = true <-> closes mode c d o) /\ evaluate c = Ok (verdict c mode b).
Proof.
  intros Hc. destruct (counts_exact mode c d o Hc) as (b & Eb & Hb). destruct Hc as (Hu & Hmode & Hm & Hd & Ho & Rd & Ro & _).
  exists b. split; [done|]. unfold evaluate, verdict. rewrite Hu, bool_decide_eq_true_2 by done. cbn [negb]. rewrite raise_if_skip by done.
  rewrite Hmode. assert (Hreq : exists required, MASK_BY_MODE mode = Some required).
  { unfold MODES in Hm. rewrite !elem_of_cons, elem_of_nil in Hm. destruct Hm as [-> | [-> | [-> | [-> | [-> | [-> | []]]]]]]; by eexists. }
  destruct Hreq as [required ->]. cbv zeta. rewrite Hd, Ho. rewrite (lanes_of_inv _ _ Hd), (lanes_of_inv _ _ Ho).
  unfold lanes_ok, U64_MAX in *. rewrite raise_if_skip.
  2:{ cbn [app existsb]. bools. unfold U64_MAX. lia. }
  change (default 0 (Some required)) with required. destruct (negb (String.eqb _ _)); [done|].
  destruct (default true (c_carrier_present c)); cbn [negb]; [|by destruct (_ || _)].
  destruct (default true (c_bind_ok c)); cbn [negb]; [|done]. rewrite Eb, ok_bind. by destruct b.
Qed.

(** C24. The oracle answers every well-formed case, and its answer is one of three: the
    port's own failure, without a note; success with every mask complete; or
    corruption with one note. When the port is well, success is given exactly when the
    binding is good and, if the carrier is present, its declared counters close over
    the observed ones, lane by lane (evidence slots are exactly those up to the
    declared length, and the replies seen are as many as declared), and if the carrier
    is absent, there is no secondary; its counters are then not read. *)
Theorem evaluate_exact c mode d o :
  case_ok c mode d o ->
  exists r, evaluate c = Ok r /\
    let carrier := default true (c_carrier_present c) in
    let port := default "OK"%string (c_port_status c) in
    let base := fresh (default 0 (MASK_BY_MODE mode)) carrier in
    (port <> "OK"%string -> r = fails port 0 base) /\
    (port = "OK"%string ->
       (final_status r = "OK"%string /\ r = base \/
        final_status r = "STORAGE_CORRUPT"%string /\ note_count r = 1 /\ complete_ready r = 0 /\ state_after r = "FAILED"%string) /\
       (final_status r = "OK"%string <->
        default true (c_bind_ok c) = true /\
        if carrier then closes mode c d o else default false (c_secondary_present c) = false)).
Proof.
  intros Hc. destruct (evaluate_verdict c mode d o Hc) as (b & Hb & E). exists (verdict c mode b). split; [done|]. cbv zeta. unfold verdict. split.
  - intros Hp. by rewrite (proj2 (String.eqb_neq _ _) Hp).
  - intros ->. cbn [String.eqb Ascii.eqb Bool.eqb negb].
    destruct (default true (c_carrier_present c)); cbn [negb].
    + destruct (default true (c_bind_ok c)); cbn [negb]; [|split; [by right | naive_solver]].
      destruct b; split; [by left | naive_solver | by right | naive_solver].
    + destruct (default false (c_secondary_present c)), (default true (c_bind_ok c)); cbn [negb orb]; split; try (by left); try (by right); naive_solver.
Qed.

(** C36. No wrong count goes unnoticed: take a well-formed case that succeeds with its carrier
    present, and in modes 21 and 22 without the flag that skips the count at cleanup;
    change the first observed counter to any other 64-bit value, and the answer is
    corruption with one note. *)
Theorem observed_count_matters c mode d o r n :
  case_ok c mode d o -> default true (c_carrier_present c) = true -> (mode ∈ [21; 22] -> default false (c_cleanup_skip c) = false) ->
  evaluate c = Ok r -> final_status r = "OK"%string -> 0 <= n <= U64_MAX -> n <> lane_a o ->
  exists r', evaluate (with_lanes (default [0; 0; 0] (c_declared c)) [n; lane_b o; lane_c o] c) = Ok r' /\
    final_status r' = "STORAGE_CORRUPT"%string /\ note_count r' = 1.
Proof.
  intros Hc Hcar Hskip E Hok Hn Hne. destruct (evaluate_verdict c mode d o Hc) as (b & Hb & E'). rewrite E' in E. injection E as <-.
  set (o' := {| lane_a := n; lane_b := lane_b o; lane_c := lane_c o |}). set (c' := with_lanes _ _ c).
  assert (Hc' : case_ok c' mode d o').
  { destruct Hc as (H1 & H2 & H3 & H4 & H5 & H6 & H7 & H8). destruct H7 as (_ & Hb2 & Hb3).
    exact (conj H1 (conj H2 (conj H3 (conj H4 (conj eq_refl (conj H6 (conj (conj Hn (conj Hb2 Hb3)) H8))))))). }
  destruct (evaluate_verdict c' mode d o' Hc') as (b' & Hb' & E2). exists (verdict c' mode b'). split; [done|].
  unfold verdict in *. change (c_carrier_present c') with (c_carrier_present c). change (c_port_status c') with (c_port_status c).
  change (c_bind_ok c') with (c_bind_ok c). rewrite Hcar in *. cbn [negb] in *.
  destruct (String.eqb (default "OK" (c_port_status c)) "OK") eqn:Ep; cbn [negb] in *.
  2:{ cbn in Hok. by rewrite Hok in Ep. }
  destruct (default true (c_bind_ok c)); cbn [negb] in *; [|done]. destruct b; [|done]. destruct b'; [|done]. exfalso.
  pose proof (proj1 Hb eq_refl) as C1. pose proof (proj1 Hb' eq_refl) as C2. clear Hb Hb' E' E2 Hok Hc' Hcar.
  destruct Hc as (_ & _ & Hm & _). destruct d as [da db dc], o as [oa ob oc]. unfold closes, o' in *. cbn [lane_a lane_b lane_c] in *.
  change (c_cleanup_skip c') with (c_cleanup_skip c) in *. change (c_evidence_empty_set c') with (c_evidence_empty_set c) in *.
  unfold MODES in Hm. rewrite !elem_of_cons, elem_of_nil in Hm.
  destruct Hm as [-> | [-> | [-> | [-> | [-> | [-> | []]]]]]]; cbn [Z.eqb Pos.eqb] in *;
    try (rewrite Hskip in * by in_list); try (destruct (default false (c_evidence_empty_set c))); naive_solver lia.
Qed.

(** ** Witnesses *)

Definition sample_case : case := with_replies 2 0x05 (with_lanes [2; 0; 0] [2; 0; 0] (blank "mode24_two_kinds_ok" 24)).
Definition sample_lanes : lanes := {| lane_a := 2; lane_b := 0; lane_c := 0 |}.

Lemma sample_case_ok : case_ok sample_case 24 sample_lanes sample_lanes.
Proof. repeat split; in_list. Qed.

Lemma evaluate_exact_witness : exists r, evaluate sample_case = Ok r /\ final_status r = "OK"%string /\ closes 24 sample_case sample_lanes sample_lanes.
Proof.
  destruct (evaluate_exact sample_case 24 sample_lanes sample_lanes sample_case_ok) as (r & E & _ & H).
  assert (Hr : final_status r = "OK"%string) by (vm_compute in E; injection E as <-; reflexivity).
  exists r. split; [exact E|]. split; [exact Hr|]. exact (proj2 (proj1 (proj2 (H eq_refl)) Hr)).
Defined.

Lemma observed_count_matters_witness :
  exists r', evaluate (with_lanes [2; 0; 0] [1; 0; 0] sample_case) = Ok r' /\ final_status r' = "STORAGE_CORRUPT"%string /\ note_count r' = 1.
Proof.
  destruct (evaluate_exact_witness) as (r & E & Hr & _).
  apply (observed_count_matters sample_case 24 sample_lanes sample_lanes r 1 sample_case_ok);
    [reflexivity | intros H; exfalso; revert H; apply (bool_decide_unpack (24 ∉ [21; 22])); vm_compute; exact I | exact E | exact Hr | in_list | done].
Defined.
