(* ===== verification/StoreRecords.v ===== *)
(** Byte strings and records of the domain store, as its schema-1 generator writes them
    (tools/domain_store_schema1_binding_vector_gen.py): keys, the NLR1 envelope with its
    inspection, and the values of runtime and domain rows. *)

From S2P Require Import Prelude Bytes Crc Sha256 Join.

Definition ROOT : bytes := [0x4e; 0x49; 0x4e; 0x4c; 0x49; 0x4c; 0x00; 0x01].
Definition ZERO16 : bytes := zeros 16.
Definition ZERO32 : bytes := zeros 32.

Definition raw16 (value : bytes) : res bytes := join [u16 (len value); Ok value].
Definition text_id (value : string) : res bytes := join [u8 (len (bytes_of_string value)); Ok (bytes_of_string value)].

Definition composite (subtype : Z) (components : bytes) : res bytes :=
  s ← u8 subtype; mret (sha256 (bytes_of_string "NINLIL-DOMAIN-KEY-V1" ++ s ++ components)).
Definition domain_key (subtype : Z) (identity : bytes) : res bytes := join [Ok ROOT; Ok [6]; u8 subtype; Ok [1; 5; 0x20]; Ok identity].
Definition domain_singleton_key (subtype : Z) : res bytes := join [Ok ROOT; Ok [6]; u8 subtype; Ok [1; 1; 0]].
Definition key_digest (key : bytes) : bytes := sha256 (bytes_of_string "NINLIL-DOMAIN-ENCODED-KEY-V1" ++ key).

(** ** The NLR1 envelope *)

Definition NLR1 : bytes := bytes_of_string "NLR1".

Definition nlr1 (record_type : Z) (payload : bytes) : res bytes :=
  framed ← join [Ok NLR1; u16 record_type; u16 1; u32 (len payload); Ok payload];
  crc ← u32 (crc32c_xorout framed);
  mret (framed ++ crc).

Definition domain_value (subtype revision : Z) (primary_id head pvd body : bytes) : res bytes :=
  common ← join [u16 1; u8 subtype; Ok [0]; u64 revision; Ok primary_id; Ok head; Ok pvd; u32 (len body)];
  raise_if (negb (len common =? 96)) (AssertionError "");;
  nlr1 6 (common ++ body).

Definition runtime_capacity_value (kind limit used reserved high_water epoch blocked exhausted : Z) : res bytes :=
  payload ← join [u32 kind; u64 limit; u64 used; u64 reserved; u64 high_water; u64 epoch; u32 blocked; u32 exhausted];
  raise_if (negb (len payload =? 52)) (AssertionError "");;
  nlr1 4 payload.

Definition witness_index_body (state : Z) (member_key member_value_digest member_head : bytes) : res bytes :=
  body ← join [u16 state; u16 0; Ok (key_digest member_key); u16 (len member_key); u16 0; Ok member_key; Ok member_value_digest; Ok member_head];
  raise_if (negb (len body =? 114)) (AssertionError "");;
  mret body.

(** A named row.  Its lengths are those of the key and the value; the digests of the object are
    output. *)
Record record := { name : string; key : bytes; value : bytes }.
Definition record_object (name : string) (key value : bytes) : record := {| name := name; key := key; value := value |}.
Definition key_length (r : record) : Z := len (key r).
Definition value_length (r : record) : Z := len (value r).

(** The verdict on an envelope: its payload, or a status and a reason. *)
Inductive envelope := Envelope (payload : bytes) | Refused (status reason : string).
Definition STORAGE_CORRUPT : string := "NINLIL_E_STORAGE_CORRUPT".
Definition UNSUPPORTED : string := "NINLIL_E_UNSUPPORTED".

(** [value[:-4]], [value[-4:]] and [value[12:-4]]. *)
Definition body_of (value : bytes) : bytes := slice 0 (len value - 4) value.
Definition trailer_of (value : bytes) : bytes := slice (Z.max 0 (len value - 4)) (len value) value.
Definition payload_of (value : bytes) : bytes := slice 12 (len value - 4) value.

Definition inspect_nlr1_envelope (value : bytes) (expected_type : Z) : envelope :=
  if len value <? 16 then Refused STORAGE_CORRUPT "NLR1_LENGTH"
  else if negb (bool_decide (slice 0 4 value = NLR1)) then Refused STORAGE_CORRUPT "NLR1_MAGIC"
  else if negb (be_val (slice 4 6 value) =? expected_type) then Refused STORAGE_CORRUPT "NLR1_RECORD_TYPE"
  else if negb (len value =? 12 + be_val (slice 8 12 value) + 4) then Refused STORAGE_CORRUPT "NLR1_DECLARED_LENGTH"
  else if negb (be_val (trailer_of value) =? crc32c_xorout (body_of value)) then Refused STORAGE_CORRUPT "NLR1_CRC32C"
  else
    let record_version := be_val (slice 6 8 value) in
    if 1 <? record_version then Refused UNSUPPORTED "NLR1_FUTURE_RECORD_VERSION"
    else if negb (record_version =? 1) then Refused STORAGE_CORRUPT "NLR1_RECORD_VERSION_ZERO"
    else Envelope (payload_of value).

Definition decode_nlr1_payload (value : bytes) (expected_type : Z) : res bytes :=
  let assert c := raise_if (negb c) (AssertionError "") in
  assert (16 <=? len value);;
  assert (bool_decide (slice 0 4 value = NLR1));;
  assert (be_val (slice 4 6 value) =? expected_type);;
  assert (be_val (slice 6 8 value) =? 1);;
  assert (len value =? 12 + be_val (slice 8 12 value) + 4);;
  assert (be_val (trailer_of value) =? crc32c_xorout (body_of value));;
  mret (payload_of value).

(** A field behind its length, from a cursor. *)
Definition parse_raw16_at (value : bytes) (cursor : Z) : res (bytes * Z) :=
  raise_if (len value - cursor <? 2) (ValueError "raw16 length");;
  let length := be_val (slice cursor (cursor + 2) value) in
  let cursor := cursor + 2 in
  raise_if (len value - cursor <? length) (ValueError "raw16 contents");;
  mret (slice cursor (cursor + length) value, cursor + length).

(** ** Lengths and the closed form of an envelope *)

Lemma len_digest m : len (sha256 m) = 32.
Proof. apply raw_sha. Qed.
#[export] Hint Rewrite len_digest : lens.
Lemma bytes_ok_sha m : bytes_ok (sha256 m).
Proof. apply raw_sha. Qed.
#[export] Hint Resolve bytes_ok_sha : ninlil.

Lemma raw16_written v : len v < 65536 -> raw16 v = Ok (be_bytes 2 (len v) ++ v).
Proof. intros H. pose proof (len_nonneg v). unfold raw16. run_join. by rewrite app_nil_r. Qed.

Definition nlr1_frame (t v : Z) (payload : bytes) : bytes := NLR1 ++ be_bytes 2 t ++ be_bytes 2 v ++ be_bytes 4 (len payload) ++ payload.
Definition nlr1_bytes (t v : Z) (payload : bytes) : bytes := nlr1_frame t v payload ++ be_bytes 4 (crc32c_xorout (nlr1_frame t v payload)).

Lemma len_nlr1_frame t v p : len (nlr1_frame t v p) = 12 + len p.
Proof. unfold nlr1_frame. simpl_lens. change (len NLR1) with 4. lia. Qed.
Lemma len_nlr1_bytes t v p : len (nlr1_bytes t v p) = 16 + len p.
Proof. unfold nlr1_bytes. rewrite len_app, len_nlr1_frame, len_be_bytes. lia. Qed.
Lemma nlr1_frame_ok t v p : bytes_ok p -> bytes_ok (nlr1_frame t v p).
Proof. intros. unfold nlr1_frame, NLR1. solve_bytes. Qed.
Lemma nlr1_bytes_ok t v p : bytes_ok p -> bytes_ok (nlr1_bytes t v p).
Proof. intros H. unfold nlr1_bytes. apply bytes_ok_app. split; [by apply nlr1_frame_ok | apply be_bytes_ok]. Qed.

Lemma nlr1_written t p : 0 <= t < 65536 -> bytes_ok p -> len p < 4294967296 -> nlr1 t p = Ok (nlr1_bytes t 1 p).
Proof.
  intros Ht Hp Hl. pose proof (len_nonneg p). unfold nlr1. run_join. rewrite app_nil_r.
  fold (nlr1_frame t 1 p). by rewrite (pack_checksum crc32c_xorout (nlr1_frame t 1 p)) by (by apply nlr1_frame_ok).
Qed.

Lemma nlr1_bytes_reads t v p :
  0 <= t < 65536 -> 0 <= v < 65536 -> bytes_ok p -> len p < 4294967296 ->
  let a := nlr1_bytes t v p in
  slice 0 4 a = NLR1 /\ be_val (slice 4 6 a) = t /\ be_val (slice 6 8 a) = v /\ be_val (slice 8 12 a) = len p /\
  payload_of a = p /\ body_of a = nlr1_frame t v p /\ be_val (trailer_of a) = crc32c_xorout (nlr1_frame t v p).
Proof.
  intros Ht Hv Hp Hl. cbv zeta. pose proof (len_nonneg p). pose proof (len_nlr1_bytes t v p) as L. pose proof (len_nlr1_frame t v p) as Lf.
  unfold payload_of, body_of, trailer_of. rewrite L, Z.max_r by lia. replace (16 + len p - 4) with (12 + len p) by lia.
  assert (Hf : slice 0 (12 + len p) (nlr1_bytes t v p) = nlr1_frame t v p) by (unfold nlr1_bytes; apply slice_app_exact; lia).
  assert (Hc : slice (12 + len p) (16 + len p) (nlr1_bytes t v p) = be_bytes 4 (crc32c_xorout (nlr1_frame t v p))).
  { unfold nlr1_bytes. apply slice_app_skip; [lia|]. rewrite len_be_bytes. lia. }
  rewrite Hf, Hc, (be_val_checksum crc32c_xorout) by (by apply nlr1_frame_ok).
  unfold nlr1_bytes. set (crc := be_bytes 4 (crc32c_xorout (nlr1_frame t v p))). unfold nlr1_frame. change NLR1 with [78; 76; 82; 49].
  rewrite <- !app_assoc. split_and!; try done; read_slices; (apply be_val_u16; lia) || (apply be_val_u32; lia) || done.
Qed.

Lemma inspect_spec value t p :
  inspect_nlr1_envelope value t = Envelope p <->
  16 <= len value /\ slice 0 4 value = NLR1 /\ be_val (slice 4 6 value) = t /\ be_val (slice 6 8 value) = 1 /\
  len value = 12 + be_val (slice 8 12 value) + 4 /\ be_val (trailer_of value) = crc32c_xorout (body_of value) /\ p = payload_of value.
Proof.
  unfold inspect_nlr1_envelope. cbv zeta. split.
  - intros E. case_ifs E. injection E as <-. bool_to_prop. split_and!; done || lia.
  - intros (H1 & H2 & H3 & H4 & H5 & H6 & ->). rewrite (proj2 (Z.ltb_ge _ _)), bool_decide_true, H3, <- H5, H6, H4, !Z.eqb_refl by (done || lia). done.
Qed.

(** The inspection accepts exactly what the encoder writes. *)
Lemma inspect_exact value t p :
  bytes_ok value -> 0 <= t < 65536 ->
  inspect_nlr1_envelope value t = Envelope p <-> bytes_ok p /\ len p < 4294967296 /\ nlr1 t p = Ok value.
Proof.
  intros Hok Ht. rewrite inspect_spec. split.
  - intros (H1 & H2 & H3 & H4 & H5 & H6 & ->). unfold payload_of.
    pose proof (be_val_bounds (slice 8 12 value) ltac:(auto with ninlil)) as Hb. rewrite len_slice in Hb by lia. change (256 ^ (12 - 8)) with 4294967296 in Hb.
    assert (Hp : bytes_ok (slice 12 (len value - 4) value)) by auto with ninlil.
    assert (Hl : len (slice 12 (len value - 4) value) = be_val (slice 8 12 value)) by (rewrite len_slice by lia; lia).
    split; [done|]. split; [lia|]. rewrite nlr1_written by (done || lia). f_equal.
    assert (Hf : nlr1_frame t 1 (slice 12 (len value - 4) value) = body_of value).
    { unfold nlr1_frame, body_of. rewrite Hl, <- H2, (be_bytes_slice 2 4 6 value t), (be_bytes_slice 2 6 8 value 1), (be_bytes_slice 4 8 12 value) by (done || lia).
      by rewrite <- !slice_split by lia. }
    unfold nlr1_bytes. rewrite Hf, <- H6. unfold body_of, trailer_of. rewrite Z.max_r by lia.
    rewrite (be_bytes_slice 4 (len value - 4) (len value) value) by (done || lia). rewrite <- slice_split by lia. apply slice_all.
  - intros (Hp & Hl & E). rewrite nlr1_written in E by done. apply Ok_inj in E as <-. pose proof (len_nonneg p).
    destruct (nlr1_bytes_reads t 1 p ltac:(lia) ltac:(lia) Hp Hl) as (R1 & R2 & R3 & R4 & R5 & R6 & R7).
    rewrite R1, R2, R3, R4, R5, R6, R7, len_nlr1_bytes. split_and!; done || lia.
Qed.

Lemma decode_inspected value t p : inspect_nlr1_envelope value t = Envelope p -> decode_nlr1_payload value t = Ok p.
Proof.
  intros (H1 & H2 & H3 & H4 & H5 & H6 & ->)%inspect_spec. unfold decode_nlr1_payload. cbv zeta.
  rewrite (proj2 (Z.leb_le _ _) H1), bool_decide_true, H3, H4, <- H5, H6, !Z.eqb_refl by done. done.
Qed.

Lemma raw16_parsed pre v post :
  len v < 65536 -> parse_raw16_at (pre ++ be_bytes 2 (len v) ++ v ++ post) (len pre) = Ok (v, len pre + 2 + len v).
Proof.
  intros Hv. pose proof (len_nonneg v). pose proof (len_nonneg post). pose proof (len_nonneg pre). unfold parse_raw16_at. cbv zeta.
  assert (L : len (pre ++ be_bytes 2 (len v) ++ v ++ post) = len pre + 2 + len v + len post) by (simpl_lens; lia).
  assert (R : be_val (slice (len pre) (len pre + 2) (pre ++ be_bytes 2 (len v) ++ v ++ post)) = len v) by (read_slices; apply be_val_u16; lia).
  rewrite L, R, !raise_if_skip by (apply Z.ltb_ge; lia). do 2 f_equal. by read_slices.
Qed.
