(* ===== verification/Export.v ===== *)
(** The portable export of a namespace (tools/domain_store_schema1_binding_vector_gen.py): the
    encoder of an artifact, its layout, the fail-closed classifier and the fixtures.  The main
    theorem says that the classifier accepts exactly what the encoder writes from rows in
    strictly ascending order of their keys, and finds those rows again. *)

From S2P Require Import Prelude Bytes Order Sha256 Join StoreRecords.

Definition EXPORT_MAGIC : bytes := bytes_of_string "NLEXP001".
Definition EXPORT_COMPLETION_MAGIC : bytes := bytes_of_string "NLEXDONE".
Definition EXPORT_PROVIDER_DOMAIN : bytes := bytes_of_string "NINLIL-LAB-EXPORT-PROVIDER-V1".
Definition EXPORT_ROW_DOMAIN : bytes := bytes_of_string "NINLIL-LAB-EXPORT-ROW-V1".
Definition EXPORT_CONTENT_DOMAIN : bytes := bytes_of_string "NINLIL-LAB-EXPORT-V1".
Definition CORRUPT : string := "NINLIL_E_STORAGE_CORRUPT".
Definition UNSUPPORTED : string := "NINLIL_E_UNSUPPORTED".

(** ** The encoder *)

(** The provider of the store, as the three arguments every function takes. *)
Record provider := { provider_kind : Z; provider_schema : Z; provider_config : bytes }.

Definition export_provider_identity_digest (p : provider) : res bytes :=
  m ← join [Ok EXPORT_PROVIDER_DOMAIN; u16 (provider_kind p); u16 (provider_schema p); raw16 (provider_config p)];
  mret (sha256 m).

Definition row : Type := (bytes * bytes)%type.

(** One pass of the loop over the rows: what it appends. *)
Definition encode_row (r : row) : res bytes :=
  let '(key, value) := r in
  raise_if (negb (in_range 1 255 (len key))) (ValueError "export key length out of range");;
  raise_if (negb (in_range 1 65536 (len value))) (ValueError "export value length out of range");;
  row_prefix ← join [u16 (len key); Ok key; u32 (len value); Ok value];
  join [u16 (len key); u16 0; u32 (len value); Ok key; Ok value; Ok (sha256 (EXPORT_ROW_DOMAIN ++ row_prefix))].

Fixpoint encode_rows (rows : list row) (artifact : bytes) : res bytes :=
  match rows with [] => Ok artifact | r :: rows => b ← encode_row r; encode_rows rows (artifact ++ b) end.

Definition encode_export_artifact (namespace : bytes) (rows : list row) (p : provider) (format_version source_profile flags : Z)
    (provider_digest : option bytes) : res bytes :=
  raise_if (negb (in_range 1 255 (len namespace))) (ValueError "namespace length out of range");;
  provider_digest ← match provider_digest with None => export_provider_identity_digest p | Some d => Ok d end;
  raise_if (negb (len provider_digest =? 32)) (ValueError "provider digest must be 32 bytes");;
  artifact ← join [Ok EXPORT_MAGIC; u16 format_version; u16 source_profile; u32 flags; u16 (provider_kind p); u16 (provider_schema p);
                   Ok provider_digest; u16 (len namespace); Ok namespace; u32 (len rows)];
  artifact ← encode_rows rows artifact;
  mret (artifact ++ sha256 (EXPORT_CONTENT_DOMAIN ++ artifact) ++ EXPORT_COMPLETION_MAGIC).

(** The encoder with its default arguments. *)
Definition encoded (namespace : bytes) (rows : list row) (context : provider) : res bytes :=
  encode_export_artifact namespace rows context 1 1 0 None.

(** ** The layout of a well-formed artifact *)

Record row_layout := {
  key_length_offset : Z; reserved_offset : Z; value_length_offset : Z; key_start : Z; value_start : Z; digest_start : Z }.

Definition layout_row (artifact : bytes) (cursor : Z) : row_layout :=
  let key_length := be_val (slice cursor (cursor + 2) artifact) in
  let value_length := be_val (slice (cursor + 4) (cursor + 8) artifact) in
  let key_start := cursor + 8 in
  let value_start := key_start + key_length in
  let digest_start := value_start + value_length in
  {| key_length_offset := cursor; reserved_offset := cursor + 2; value_length_offset := cursor + 4;
     key_start := key_start; value_start := value_start; digest_start := digest_start |}.

Fixpoint layout_rows (n : nat) (artifact : bytes) (cursor : Z) : list row_layout * Z :=
  match n with
  | O => ([], cursor)
  | S n => let r := layout_row artifact cursor in let '(rs, c) := layout_rows n artifact (digest_start r + 32) in (r :: rs, c)
  end.

(** The layouts of the rows and the offset of the content digest. *)
Definition export_artifact_layout (artifact : bytes) : res (list row_layout * Z) :=
  raise_if (negb (bool_decide (slice 0 8 artifact = EXPORT_MAGIC))) (AssertionError "");;
  let namespace_length := be_val (slice 52 54 artifact) in
  let cursor := 54 + namespace_length in
  let record_count := be_val (slice cursor (cursor + 4) artifact) in
  let '(rows, cursor) := layout_rows (Z.to_nat record_count) artifact (cursor + 4) in
  raise_if (negb (bool_decide (slice (cursor + 32) (cursor + 40) artifact = EXPORT_COMPLETION_MAGIC))) (AssertionError "");;
  raise_if (negb (cursor + 40 =? len artifact)) (AssertionError "");;
  mret (rows, cursor).

Definition refresh_export_content_digest (artifact : bytes) : res bytes :=
  raise_if (len artifact <? 40) (ValueError "artifact too short to refresh");;
  let prefix := slice 0 (len artifact - 40) artifact in
  mret (prefix ++ sha256 (EXPORT_CONTENT_DOMAIN ++ prefix) ++ slice_from (len artifact - 8) artifact).

Fixpoint patches (replacements : list (Z * bytes)) (patched : bytes) : bytes :=
  match replacements with
  | [] => patched
  | (offset, value) :: rs => patches rs (slice_assign offset (offset + len value) value patched)
  end.

Definition patch_export_artifact (artifact : bytes) (replacements : list (Z * bytes)) (refresh_content_digest : bool) : res bytes :=
  let result := patches replacements artifact in
  if refresh_content_digest then refresh_export_content_digest result else Ok result.

(** ** The classifier *)

(** The dictionary it returns: its status is ["NINLIL_OK"] with what was read, or another with
    the reason. *)
Inductive verdict :=
  | Accepted (namespace : bytes) (record_count : Z) (row_digests : list bytes) (content_digest : bytes)
  | Rejected (reason status : string).
Definition rejected (reason : string) : verdict := Rejected reason CORRUPT.
Definition status_of (v : verdict) : string := match v with Accepted _ _ _ _ => "NINLIL_OK" | Rejected _ status => status end.

(** One row: where the next begins, the key and the digest, or the reason of the refusal. *)
Inductive row_step := Row (cursor : Z) (key digest : bytes) | Bad (reason : string).

Definition read_row (artifact : bytes) (cursor : Z) (previous_key : option bytes) : res row_step :=
  if len artifact <? cursor + 8 then Ok (Bad "TRUNCATED_ROW_HEADER")
  else
    let key_length := be_val (slice cursor (cursor + 2) artifact) in
    let reserved := be_val (slice (cursor + 2) (cursor + 4) artifact) in
    let value_length := be_val (slice (cursor + 4) (cursor + 8) artifact) in
    let cursor := cursor + 8 in
    if negb (in_range 1 255 key_length) then Ok (Bad "KEY_LENGTH")
    else if negb (reserved =? 0) then Ok (Bad "ROW_RESERVED")
    else if negb (in_range 1 65536 value_length) then Ok (Bad "VALUE_LENGTH")
    else if len artifact <? cursor + key_length + value_length + 32 then Ok (Bad "TRUNCATED_ROW")
    else
      let key := slice cursor (cursor + key_length) artifact in
      let cursor := cursor + key_length in
      let value := slice cursor (cursor + value_length) artifact in
      let cursor := cursor + value_length in
      let actual_row_digest := slice cursor (cursor + 32) artifact in
      (m ← join [Ok EXPORT_ROW_DOMAIN; u16 key_length; Ok key; u32 value_length; Ok value];
       if negb (bool_decide (actual_row_digest = sha256 m)) then Ok (Bad "ROW_DIGEST")
       else if match previous_key with Some p => bool_decide (key = p) | None => false end then Ok (Bad "DUPLICATE_KEY")
       else if match previous_key with Some p => bool_decide (compare_bytes key p = Lt) | None => false end then Ok (Bad "ROW_ORDER")
       else Ok (Row (cursor + 32) key actual_row_digest)).

Inductive rows_read := Rows (cursor : Z) (digests : list bytes) | Stopped (reason : string).

Fixpoint read_rows (n : nat) (artifact : bytes) (cursor : Z) (previous_key : option bytes) (row_digests : list bytes) : res rows_read :=
  match n with
  | O => Ok (Rows cursor row_digests)
  | S n =>
      s ← read_row artifact cursor previous_key;
      match s with
      | Bad reason => Ok (Stopped reason)
      | Row cursor key digest => read_rows n artifact cursor (Some key) (row_digests ++ [digest])
      end
  end.

(** The footer, behind the rows. *)
Definition read_footer (artifact : bytes) (cursor : Z) (namespace : bytes) (record_count : Z) (row_digests : list bytes) : verdict :=
  if len artifact =? cursor + 32 then rejected "MISSING_COMPLETION"
  else if len artifact <? cursor + 40 then rejected "TRUNCATED_FOOTER"
  else
    let actual_content_digest := slice cursor (cursor + 32) artifact in
    if negb (bool_decide (actual_content_digest = sha256 (EXPORT_CONTENT_DOMAIN ++ slice 0 cursor artifact))) then rejected "CONTENT_DIGEST"
    else if negb (bool_decide (slice (cursor + 32) (cursor + 40) artifact = EXPORT_COMPLETION_MAGIC)) then rejected "COMPLETION_MAGIC"
    else if negb (len artifact =? cursor + 40) then rejected "TRAILING_BYTES"
    else Accepted namespace record_count row_digests actual_content_digest.

(** What follows the provider digest. *)
Definition read_contents (artifact : bytes) (namespace_length : Z) : res verdict :=
  if negb (in_range 1 255 namespace_length) then Ok (rejected "NAMESPACE_LENGTH")
  else
    let cursor := 54 in
    if len artifact <? cursor + namespace_length + 4 then Ok (rejected "TRUNCATED_NAMESPACE")
    else
      let namespace := slice cursor (cursor + namespace_length) artifact in
      let cursor := cursor + namespace_length in
      let record_count := be_val (slice cursor (cursor + 4) artifact) in
      let cursor := cursor + 4 in
      (rows ← read_rows (Z.to_nat record_count) artifact cursor None [];
       match rows with
       | Stopped reason => Ok (rejected reason)
       | Rows cursor row_digests => Ok (read_footer artifact cursor namespace record_count row_digests)
       end).

Definition classify_export_artifact (artifact : bytes) (known : provider) : res verdict :=
  if len artifact <? 54 then Ok (rejected "TRUNCATED_HEADER")
  else if negb (bool_decide (slice 0 8 artifact = EXPORT_MAGIC)) then Ok (rejected "MAGIC")
  else
    let format_version := be_val (slice 8 10 artifact) in
    let source_profile := be_val (slice 10 12 artifact) in
    let flags := be_val (slice 12 16 artifact) in
    let kind := be_val (slice 16 18 artifact) in
    let schema := be_val (slice 18 20 artifact) in
    let provider_digest := slice 20 52 artifact in
    let namespace_length := be_val (slice 52 54 artifact) in
    if negb (format_version =? 1) then Ok (Rejected "FORMAT_VERSION" UNSUPPORTED)
    else if negb (source_profile =? 1) then Ok (Rejected "SOURCE_PROFILE" UNSUPPORTED)
    else if negb (flags =? 0) then Ok (Rejected "FLAGS" UNSUPPORTED)
    else if kind =? 0 then Ok (rejected "ZERO_PROVIDER_KIND")
    else if schema =? 0 then Ok (rejected "ZERO_PROVIDER_SCHEMA")
    else if bool_decide (provider_digest = ZERO32) then Ok (rejected "ZERO_PROVIDER_IDENTITY_DIGEST")
    else if negb (kind =? provider_kind known) then Ok (Rejected "UNKNOWN_PROVIDER_KIND" UNSUPPORTED)
    else if negb (schema =? provider_schema known) then Ok (Rejected "UNKNOWN_PROVIDER_SCHEMA" UNSUPPORTED)
    else
      (expected_provider_digest ← export_provider_identity_digest
         {| provider_kind := kind; provider_schema := schema; provider_config := provider_config known |};
       if negb (bool_decide (provider_digest = expected_provider_digest)) then Ok (rejected "PROVIDER_IDENTITY_DIGEST")
       else read_contents artifact namespace_length).

(** ** Fixtures *)

Definition ascii_bytes : string -> bytes := bytes_of_string.
Definition min_context : provider := {| provider_kind := 1; provider_schema := 1; provider_config := ascii_bytes "m" |}.
Definition max_context : provider := {| provider_kind := 65535; provider_schema := 65535; provider_config := pattern 0 256 |}.
Definition mutation_context : provider := {| provider_kind := 7; provider_schema := 3; provider_config := ascii_bytes "sqlite:path=:memory:" |}.

Record fixture := { fixture_id : string; fixture_kind : string; artifact_of : bytes; context_of : provider; expected_status : string }.
Definition positive (id : string) (artifact : bytes) (context : provider) : fixture :=
  {| fixture_id := id; fixture_kind := "positive"; artifact_of := artifact; context_of := context; expected_status := "NINLIL_OK" |}.
Definition mutation (status id : string) (artifact : bytes) : fixture :=
  {| fixture_id := id; fixture_kind := "mutation"; artifact_of := artifact; context_of := mutation_context; expected_status := status |}.

Definition max_row : row := (mjoin (replicate 255 (ascii_bytes "k")), mjoin (replicate 256 (pattern 0 256))).
Definition max_namespace : bytes := mjoin (replicate 255 (ascii_bytes "n")).
Definition positive_fixtures : res (list fixture) :=
  positive_min ← encoded (ascii_bytes "m") [(ascii_bytes "k", ascii_bytes "v")] min_context;
  positive_max ← encoded max_namespace [max_row] max_context;
  mret [positive "EXPORT_POSITIVE_MIN" positive_min min_context; positive "EXPORT_POSITIVE_MAX" positive_max max_context].

(** [buffer[i] ^= 0x01]. *)
Definition flip (i : Z) (a : bytes) : bytes := slice_assign i (i + 1) [Z.lxor (byte_at i a) 1] a.

Definition lab : bytes := ascii_bytes "lab".
Definition row_a (value : string) : row := (ascii_bytes "a", ascii_bytes value).
Definition row_b : row := (ascii_bytes "b", ascii_bytes "B").
Definition base_artifact : res bytes := encoded lab [row_a "A"; row_b] mutation_context.

Definition mutation_fixtures : res (list fixture) :=
  base ← base_artifact;
  layout ← export_artifact_layout base;
  match layout with
  | (r0 :: r1 :: _, content_digest_offset) =>
      duplicate ← encoded lab [row_a "A"; row_a "B"] mutation_context;
      reordered ← encoded lab [row_b; row_a "A"] mutation_context;
      row_digest_mismatch ← refresh_export_content_digest (flip (digest_start r0) base);
      let declared_length := be_val (slice (value_length_offset r0) (value_length_offset r0 + 4) base) in
      longer ← u32 (declared_length + 1);
      length_mismatch ← patch_export_artifact base [(value_length_offset r0, longer)] true;
      unknown_kind_digest ← export_provider_identity_digest
        {| provider_kind := 8; provider_schema := provider_schema mutation_context; provider_config := provider_config mutation_context |};
      unknown_schema_digest ← export_provider_identity_digest
        {| provider_kind := provider_kind mutation_context; provider_schema := 4; provider_config := provider_config mutation_context |};
      two ← u16 2; one_flag ← u32 1; one ← u16 1; zero ← u16 0; kind8 ← u16 8; schema4 ← u16 4;
      version ← patch_export_artifact base [(8, two)] true;
      profile ← patch_export_artifact base [(10, two)] true;
      flag ← patch_export_artifact base [(12, one_flag)] true;
      reserved ← patch_export_artifact base [(reserved_offset r0, one)] true;
      zero_kind ← patch_export_artifact base [(16, zero)] true;
      unknown_kind ← patch_export_artifact base [(16, kind8); (20, unknown_kind_digest)] true;
      zero_schema ← patch_export_artifact base [(18, zero)] true;
      unknown_schema ← patch_export_artifact base [(18, schema4); (20, unknown_schema_digest)] true;
      zero_digest ← patch_export_artifact base [(20, ZERO32)] true;
      digest_mismatch ← patch_export_artifact base [(20, [Z.lxor (byte_at 20 base) 1] ++ slice 21 52 base)] true;
      mret [mutation CORRUPT "EXPORT_TRUNCATED" (slice 0 (value_start r1) base);
            mutation CORRUPT "EXPORT_MISSING_COMPLETION" (slice 0 (len base - 8) base);
            mutation CORRUPT "EXPORT_DUPLICATE_KEY" duplicate;
            mutation CORRUPT "EXPORT_REORDERED_KEY" reordered;
            mutation CORRUPT "EXPORT_ROW_DIGEST_MISMATCH" row_digest_mismatch;
            mutation CORRUPT "EXPORT_CONTENT_DIGEST_MISMATCH" (flip content_digest_offset base);
            mutation CORRUPT "EXPORT_DECLARED_LENGTH_MISMATCH" length_mismatch;
            mutation CORRUPT "EXPORT_TRAILING_BYTES" (base ++ [0]);
            mutation UNSUPPORTED "EXPORT_UNKNOWN_FORMAT_VERSION" version;
            mutation UNSUPPORTED "EXPORT_UNKNOWN_SOURCE_PROFILE" profile;
            mutation UNSUPPORTED "EXPORT_UNKNOWN_FLAG" flag;
            mutation CORRUPT "EXPORT_ROW_RESERVED_NONZERO" reserved;
            mutation CORRUPT "EXPORT_ZERO_PROVIDER_KIND" zero_kind;
            mutation UNSUPPORTED "EXPORT_UNKNOWN_PROVIDER_KIND" unknown_kind;
            mutation CORRUPT "EXPORT_ZERO_PROVIDER_SCHEMA" zero_schema;
            mutation UNSUPPORTED "EXPORT_UNKNOWN_PROVIDER_SCHEMA" unknown_schema;
            mutation CORRUPT "EXPORT_ZERO_PROVIDER_IDENTITY_DIGEST" zero_digest;
            mutation CORRUPT "EXPORT_PROVIDER_IDENTITY_DIGEST_MISMATCH" digest_mismatch]
  | _ => Raise IndexError
  end.

(** One pass of the loop over the fixtures: the computed verdict, and what the aggregate gains. *)
Definition vector_of (f : fixture) : res (verdict * bytes) :=
  computed ← classify_export_artifact (artifact_of f) (context_of f);
  raise_if (negb (String.eqb (status_of computed) (expected_status f))) (AssertionError "");;
  let encoded_id := ascii_bytes (fixture_id f) in
  let encoded_status := ascii_bytes (expected_status f) in
  entry ← join [u16 (len encoded_id); Ok encoded_id; u16 (len encoded_status); Ok encoded_status; u32 (len (artifact_of f)); Ok (artifact_of f)];
  mret (computed, entry).

Fixpoint vectors_of (fixtures : list fixture) (aggregate : bytes) : res (list (fixture * verdict) * bytes) :=
  match fixtures with
  | [] => Ok ([], aggregate)
  | f :: fixtures =>
      v ← vector_of f;
      r ← vectors_of fixtures (aggregate ++ v.2);
      mret ((f, v.1) :: r.1, r.2)
  end.

(** The vectors, and the digest over the whole set. *)
Definition build_export_artifact_vectors : res (list (fixture * verdict) * bytes) :=
  positives ← positive_fixtures;
  mutations ← mutation_fixtures;
  r ← vectors_of (positives ++ mutations) (ascii_bytes "NINLIL-LAB-EXPORT-VECTOR-SET-V1");
  mret (r.1, sha256 r.2).

(** ** What an artifact is *)

Definition row_ok (r : row) : Prop := bytes_ok r.1 /\ 1 <= len r.1 <= 255 /\ bytes_ok r.2 /\ 1 <= len r.2 <= 65536.
#[export] Instance row_ok_dec r : Decision (row_ok r).
Proof. unfold row_ok. apply _. Defined.

(** The key is above the one before it, if any. *)
Definition above (previous : option bytes) (key : bytes) : Prop :=
  match previous with Some p => compare_bytes p key = Lt | None => True end.
#[export] Instance above_dec previous key : Decision (above previous key).
Proof. destruct previous; cbn; apply _. Defined.

Fixpoint ascending (previous : option bytes) (rows : list row) : Prop :=
  match rows with [] => True | r :: rows => above previous r.1 /\ ascending (Some r.1) rows end.
#[export] Instance ascending_dec previous rows : Decision (ascending previous rows).
Proof. revert previous. induction rows; intros previous; cbn; apply _. Defined.

Definition row_digest (r : row) : bytes :=
  sha256 (EXPORT_ROW_DOMAIN ++ be_bytes 2 (len r.1) ++ r.1 ++ be_bytes 4 (len r.2) ++ r.2).
Definition row_bytes (r : row) : bytes :=
  be_bytes 2 (len r.1) ++ be_bytes 2 0 ++ be_bytes 4 (len r.2) ++ r.1 ++ r.2 ++ row_digest r.
Definition rows_bytes (rows : list row) : bytes := mjoin (map row_bytes rows).

Definition provider_digest_of (p : provider) : bytes :=
  sha256 (EXPORT_PROVIDER_DOMAIN ++ be_bytes 2 (provider_kind p) ++ be_bytes 2 (provider_schema p) ++
          be_bytes 2 (len (provider_config p)) ++ provider_config p).
Definition header_bytes (p : provider) : bytes :=
  EXPORT_MAGIC ++ be_bytes 2 1 ++ be_bytes 2 1 ++ be_bytes 4 0 ++ be_bytes 2 (provider_kind p) ++ be_bytes 2 (provider_schema p) ++
  provider_digest_of p.
Definition contents_bytes (p : provider) (namespace : bytes) (rows : list row) : bytes :=
  header_bytes p ++ be_bytes 2 (len namespace) ++ namespace ++ be_bytes 4 (len rows) ++ rows_bytes rows.
Definition content_digest_of (p : provider) (namespace : bytes) (rows : list row) : bytes :=
  sha256 (EXPORT_CONTENT_DOMAIN ++ contents_bytes p namespace rows).
Definition artifact_bytes (p : provider) (namespace : bytes) (rows : list row) : bytes :=
  contents_bytes p namespace rows ++ content_digest_of p namespace rows ++ EXPORT_COMPLETION_MAGIC.

(** A provider the classifier can know; its digest is not the reserved zero. *)
Definition provider_fits (p : provider) : Prop :=
  0 <= provider_kind p < 65536 /\ 0 <= provider_schema p < 65536 /\ len (provider_config p) < 65536.
Definition provider_ok (p : provider) : Prop :=
  provider_fits p /\ provider_kind p <> 0 /\ provider_schema p <> 0 /\ provider_digest_of p <> ZERO32.
Definition rows_ok (rows : list row) : Prop := Forall row_ok rows /\ len rows < 4294967296.
Definition export_ok (namespace : bytes) (rows : list row) : Prop :=
  bytes_ok namespace /\ 1 <= len namespace <= 255 /\ rows_ok rows /\ ascending None rows.
#[export] Instance provider_fits_dec p : Decision (provider_fits p).
Proof. unfold provider_fits. apply _. Defined.
#[export] Instance export_ok_dec namespace rows : Decision (export_ok namespace rows).
Proof. unfold export_ok, rows_ok. apply _. Defined.

(** ** Lengths *)

Lemma len_row_bytes r : len (row_bytes r) = 40 + len r.1 + len r.2.
Proof. unfold row_bytes, row_digest. simpl_lens. lia. Qed.

Lemma rows_bytes_cons r rows : rows_bytes (r :: rows) = row_bytes r ++ rows_bytes rows.
Proof. done. Qed.

Lemma len_header p : len (header_bytes p) = 52.
Proof. unfold header_bytes, provider_digest_of. simpl_lens. done. Qed.

Lemma len_contents p namespace rows : len (contents_bytes p namespace rows) = 58 + len namespace + len (rows_bytes rows).
Proof. unfold contents_bytes. rewrite len_app, len_header. simpl_lens. lia. Qed.

Lemma len_artifact p namespace rows : len (artifact_bytes p namespace rows) = 98 + len namespace + len (rows_bytes rows).
Proof. unfold artifact_bytes, content_digest_of. rewrite !len_app, len_contents, len_digest. change (len EXPORT_COMPLETION_MAGIC) with 8. lia. Qed.

(** ** The encoder writes these bytes *)

Lemma identity_digest_Ok p : provider_fits p -> export_provider_identity_digest p = Ok (provider_digest_of p).
Proof.
  intros (Hk & Hs & Hc). unfold export_provider_identity_digest. rewrite raw16_written by done.
  run_join. by rewrite app_nil_r.
Qed.

Lemma encode_row_Ok r : row_ok r -> encode_row r = Ok (row_bytes r).
Proof.
  destruct r as [k v]. intros (Hk & Hkl & Hv & Hvl). cbn [fst snd] in *. unfold encode_row.
  rewrite !raise_if_skip by (apply negb_false_iff, in_range_spec; lia). run_join. unfold row_bytes, row_digest. cbn [fst snd]. by rewrite !app_nil_r.
Qed.

Lemma encode_rows_Ok rows artifact : Forall row_ok rows -> encode_rows rows artifact = Ok (artifact ++ rows_bytes rows).
Proof.
  intros H. revert artifact. induction H as [|r rows Hr _ IH]; intros artifact; cbn [encode_rows]; [by rewrite app_nil_r|].
  rewrite encode_row_Ok by done. by rewrite ok_bind, IH, rows_bytes_cons, app_assoc.
Qed.

(** The encoder writes an artifact; it does not ask for the order of the keys. *)
Lemma encoded_Ok p namespace rows :
  provider_fits p -> 1 <= len namespace <= 255 -> rows_ok rows -> encoded namespace rows p = Ok (artifact_bytes p namespace rows).
Proof.
  intros Hp Hn [Hr Hl]. pose proof (len_nonneg rows). unfold encoded, encode_export_artifact.
  rewrite raise_if_skip by (apply negb_false_iff, in_range_spec; lia). rewrite identity_digest_Ok, ok_bind by done.
  rewrite raise_if_skip by (apply negb_false_iff, Z.eqb_eq; unfold provider_digest_of; by rewrite len_digest).
  destruct Hp as (Hk & Hs & _). run_join. rewrite encode_rows_Ok by done. run_join.
  unfold artifact_bytes, content_digest_of, contents_bytes, header_bytes. by rewrite !app_nil_r, <- !app_assoc.
Qed.

(** ** Reading what was written *)

Lemma above_spec previous key :
  above previous key <->
  match previous with Some p => bool_decide (key = p) | None => false end = false /\
  match previous with Some p => bool_decide (compare_bytes key p = Lt) | None => false end = false.
Proof.
  destruct previous as [p|]; cbn; [|done]. pose proof (cmp_eq (cmp := compare_bytes) key p) as E.
  rewrite !bool_decide_eq_false, (cmp_opp (cmp := compare_bytes) key p). destruct (compare_bytes key p); cbn; intuition congruence.
Qed.

(** The fields of a row that is read. *)
Lemma row_bytes_reads pre k v post :
  len k < 65536 -> len v < 4294967296 ->
  let a := pre ++ row_bytes (k, v) ++ post in
  let c := len pre in
  be_val (slice c (c + 2) a) = len k /\ be_val (slice (c + 2) (c + 4) a) = 0 /\ be_val (slice (c + 4) (c + 8) a) = len v /\
  slice (c + 8) (c + 8 + len k) a = k /\ slice (c + 8 + len k) (c + 8 + len k + len v) a = v /\
  slice (c + 8 + len k + len v) (c + 8 + len k + len v + 32) a = row_digest (k, v).
Proof.
  intros Hk Hv. pose proof (len_nonneg pre). pose proof (len_nonneg k). pose proof (len_nonneg v). pose proof (len_nonneg post). cbv zeta.
  assert (Hd : len (row_digest (k, v)) = 32) by (unfold row_digest; by rewrite len_digest).
  unfold row_bytes. cbn [fst snd]. set (dg := row_digest (k, v)) in *. rewrite <- !app_assoc.
  split_and!; read_slices; (apply be_val_u16; lia) || (apply be_val_u32; lia) || done.
Qed.

Lemma read_row_bytes artifact pre r post previous :
  artifact = pre ++ row_bytes r ++ post -> row_ok r ->
  read_row artifact (len pre) previous =
    if match previous with Some p => bool_decide (r.1 = p) | None => false end then Ok (Bad "DUPLICATE_KEY")
    else if match previous with Some p => bool_decide (compare_bytes r.1 p = Lt) | None => false end then Ok (Bad "ROW_ORDER")
    else Ok (Row (len pre + len (row_bytes r)) r.1 (row_digest r)).
Proof.
  intros -> Hr. destruct r as [k v]. destruct Hr as (Hk & Hkl & Hv & Hvl). cbn [fst snd] in *.
  pose proof (len_nonneg pre). pose proof (len_nonneg post).
  destruct (row_bytes_reads pre k v post ltac:(lia) ltac:(lia)) as (R1 & R2 & R3 & R4 & R5 & R6).
  assert (L : len (pre ++ row_bytes (k, v) ++ post) = len pre + 40 + len k + len v + len post) by (rewrite !len_app, len_row_bytes; cbn; lia).
  set (a := pre ++ row_bytes (k, v) ++ post) in *.
  unfold read_row. rewrite L, (proj2 (Z.ltb_ge _ _)) by lia. cbv zeta. rewrite R1, R2, R3.
  rewrite !(proj2 (in_range_spec _ _ _)) by lia. cbn [negb Z.eqb]. rewrite (proj2 (Z.ltb_ge _ _)) by lia. rewrite R4, R5, R6.
  run_join. rewrite bool_decide_true by (unfold row_digest; cbn [fst snd]; by rewrite app_nil_r). cbn [negb].
  rewrite len_row_bytes. cbn [fst snd]. by replace (len pre + 8 + len k + len v + 32) with (len pre + (40 + len k + len v)) by lia.
Qed.

(** A row that is read is the bytes of a row. *)
Lemma read_row_inv artifact cursor previous c k d :
  bytes_ok artifact -> 0 <= cursor -> read_row artifact cursor previous = Ok (Row c k d) ->
  exists v, row_ok (k, v) /\ above previous k /\ c = cursor + len (row_bytes (k, v)) /\ c <= len artifact /\ d = row_digest (k, v) /\
    slice cursor c artifact = row_bytes (k, v).
Proof.
  intros Hok Hc E. unfold read_row in E. destruct (Z.ltb_spec (len artifact) (cursor + 8)); [done|]. cbv zeta in E.
  destruct (in_range 1 255 _) eqn:Ek; [|done]. apply in_range_spec in Ek. cbn [negb] in E.
  destruct (_ =? 0) eqn:Er in E; [|done]. apply Z.eqb_eq in Er. cbn [negb] in E.
  destruct (in_range 1 65536 _) eqn:Ev; [|done]. apply in_range_spec in Ev. cbn [negb] in E.
  remember (be_val (slice cursor (cursor + 2) artifact)) as lk eqn:Hlk. remember (be_val (slice (cursor + 4) (cursor + 8) artifact)) as lv eqn:Hlv.
  destruct (Z.ltb_spec (len artifact) (cursor + 8 + lk + lv + 32)); [done|].
  remember (slice (cursor + 8) (cursor + 8 + lk) artifact) as key eqn:Hkey.
  remember (slice (cursor + 8 + lk) (cursor + 8 + lk + lv) artifact) as value eqn:Hvalue.
  assert (Lk : len key = lk) by (subst key; rewrite len_slice by lia; lia).
  assert (Lv : len value = lv) by (subst value; rewrite len_slice by lia; lia).
  assert (Bk : bytes_ok key) by (subst key; auto with ninlil). assert (Bv : bytes_ok value) by (subst value; auto with ninlil).
  rewrite <- Lk, <- Lv in E.
  unfold u16, u32 in E. cbn [join] in E. rewrite !pack_total in E by (pack_range; lia). cbn [mbind res_bind mret res_ret] in E. rewrite app_nil_r in E.
  destruct (bool_decide _) eqn:Ed in E; [|done]. apply bool_decide_eq_true in Ed. cbn [negb] in E.
  destruct (match previous with Some p => bool_decide (key = p) | None => false end) eqn:E1; [done|].
  destruct (match previous with Some p => bool_decide (compare_bytes key p = Lt) | None => false end) eqn:E2; [done|].
  injection E as <- <- <-. exists value. split_and!.
  - unfold row_ok. cbn [fst snd]. split_and!; done || lia.
  - by apply above_spec.
  - rewrite len_row_bytes. cbn [fst snd]. lia.
  - lia.
  - exact Ed.
  - unfold row_bytes. cbn [fst snd]. fold (row_digest (key, value)). change (sha256 _) with (row_digest (key, value)) in Ed.
    rewrite <- Ed, Lk, Lv, Hkey, Hvalue, (be_bytes_slice 2 cursor (cursor + 2) artifact), (be_bytes_slice 2 (cursor + 2) (cursor + 4) artifact 0),
      (be_bytes_slice 4 (cursor + 4) (cursor + 8) artifact) by (done || lia).
    rewrite <- !slice_split by lia. done.
Qed.

Lemma read_rows_bytes artifact pre rows post previous digests :
  artifact = pre ++ rows_bytes rows ++ post -> Forall row_ok rows -> ascending previous rows ->
  read_rows (length rows) artifact (len pre) previous digests = Ok (Rows (len pre + len (rows_bytes rows)) (digests ++ map row_digest rows)).
Proof.
  intros E H. revert pre previous digests E. induction H as [|r rows Hr _ IH]; intros pre previous digests E Ha.
  { cbn. by rewrite Z.add_0_r, app_nil_r. }
  destruct Ha as [Hab Ha]. rewrite rows_bytes_cons, <- app_assoc in E. cbn [length read_rows].
  rewrite (read_row_bytes _ _ _ _ _ E Hr). destruct (proj1 (above_spec _ _) Hab) as [-> ->]. rewrite ok_bind.
  rewrite <- len_app, (IH (pre ++ row_bytes r)) by (done || by rewrite E, <- app_assoc).
  rewrite rows_bytes_cons, !len_app, Z.add_assoc. cbn [map]. by rewrite <- app_assoc.
Qed.

Lemma read_rows_inv n artifact cursor previous digests c digests' :
  bytes_ok artifact -> 0 <= cursor <= len artifact -> read_rows n artifact cursor previous digests = Ok (Rows c digests') ->
  exists rows, length rows = n /\ Forall row_ok rows /\ ascending previous rows /\ c = cursor + len (rows_bytes rows) /\ c <= len artifact /\
    digests' = digests ++ map row_digest rows /\ slice cursor c artifact = rows_bytes rows.
Proof.
  intros Hok. revert cursor previous digests. induction n as [|n IH]; intros cursor previous digests Hc E; cbn [read_rows] in E.
  { injection E as <- <-. exists []. change (rows_bytes []) with (@nil Z). rewrite Z.add_0_r, app_nil_r. split_and!; try done; [lia |].
    unfold slice. by rewrite Z.sub_diag. }
  destruct (read_row artifact cursor previous) as [[c1 k d | reason]|] eqn:E1; [|done..]. rewrite ok_bind in E.
  destruct (read_row_inv _ _ _ _ _ _ Hok (proj1 Hc) E1) as (v & Hr & Hab & Hc1 & Hle & -> & Hs). pose proof (len_nonneg (row_bytes (k, v))).
  destruct (IH c1 _ _ ltac:(lia) E) as (rows & <- & Hrs & Ha & Hcc & Hle2 & -> & Hs2). pose proof (len_nonneg (rows_bytes rows)).
  exists ((k, v) :: rows). split_and!; try done; [by constructor | by rewrite rows_bytes_cons, len_app; lia | by rewrite <- app_assoc|].
  rewrite rows_bytes_cons, <- Hs, <- Hs2. apply slice_split; lia.
Qed.

Lemma read_row_total artifact cursor previous : is_ok (read_row artifact cursor previous) = true.
Proof.
  unfold read_row. destruct (_ <? _); [done|]. destruct (in_range 1 255 _) eqn:Ek; [|done]. apply in_range_spec in Ek. cbn [negb].
  destruct (negb _); [done|]. destruct (in_range 1 65536 _) eqn:Ev; [|done]. apply in_range_spec in Ev. cbn [negb].
  destruct (_ <? _); [done|]. run_join. by repeat case_match.
Qed.

Lemma read_rows_total n artifact cursor previous digests : is_ok (read_rows n artifact cursor previous digests) = true.
Proof.
  revert cursor previous digests. induction n as [|n IH]; intros cursor previous digests; cbn; [done|].
  pose proof (read_row_total artifact cursor previous). destruct (read_row _ _ _) as [[|]|]; [apply IH | done | done].
Qed.

(** ** The header and the contents *)

Lemma header_reads p rest :
  provider_fits p -> bytes_ok rest ->
  let a := header_bytes p ++ rest in
  slice 0 8 a = EXPORT_MAGIC /\ be_val (slice 8 10 a) = 1 /\ be_val (slice 10 12 a) = 1 /\ be_val (slice 12 16 a) = 0 /\
  be_val (slice 16 18 a) = provider_kind p /\ be_val (slice 18 20 a) = provider_schema p /\ slice 20 52 a = provider_digest_of p.
Proof.
  intros (Hk & Hs & _) _. cbv zeta. pose proof (len_nonneg rest).
  assert (Hd : len (provider_digest_of p) = 32) by (unfold provider_digest_of; by rewrite len_digest).
  assert (Hm : len EXPORT_MAGIC = 8) by done. unfold header_bytes. rewrite <- !app_assoc. set (dg := provider_digest_of p) in *.
  split_and!; read_slices; (apply be_val_u16; lia) || (apply be_val_u32; lia) || done.
Qed.

(** Behind the header of a provider it knows, the classifier reads the contents. *)
Lemma classify_behind_header artifact known :
  bytes_ok artifact -> provider_ok known -> 54 <= len artifact -> slice 0 52 artifact = header_bytes known ->
  classify_export_artifact artifact known = read_contents artifact (be_val (slice 52 54 artifact)).
Proof.
  intros Hok Hp Hl Hh. pose proof (slice_split 0 52 (len artifact) artifact ltac:(lia) ltac:(lia)) as Ha.
  rewrite slice_all, Hh in Ha. destruct Hp as (Hf & Hk & Hs & Hd). unfold classify_export_artifact. cbv zeta.
  destruct (header_reads known (slice 52 (len artifact) artifact) Hf ltac:(auto with ninlil)) as (R1 & R2 & R3 & R4 & R5 & R6 & R7). cbv zeta in *.
  rewrite <- Ha in *. rewrite (proj2 (Z.ltb_ge _ _)) by lia. rewrite R1, R2, R3, R4, R5, R6, R7.
  rewrite bool_decide_true by done. cbn [negb Z.eqb Pos.eqb]. rewrite (proj2 (Z.eqb_neq _ _) Hk), (proj2 (Z.eqb_neq _ _) Hs), bool_decide_false, !Z.eqb_refl by done.
  cbn [negb]. destruct known as [kind schema config]. cbn [provider_kind provider_schema provider_config] in *.
  by rewrite identity_digest_Ok, ok_bind, bool_decide_true by done.
Qed.

(** The classifier reads the contents exactly behind the header of a provider it knows. *)
Lemma classify_header artifact known ns n ds cd :
  bytes_ok artifact -> len (provider_config known) < 65536 ->
  classify_export_artifact artifact known = Ok (Accepted ns n ds cd) <->
  provider_ok known /\ 54 <= len artifact /\ slice 0 52 artifact = header_bytes known /\
  read_contents artifact (be_val (slice 52 54 artifact)) = Ok (Accepted ns n ds cd).
Proof.
  intros Hok Hc. split.
  - intros E. unfold classify_export_artifact in E. cbv zeta in E. destruct (Z.ltb_spec (len artifact) 54); [done|]. destruct (bool_decide (slice 0 8 artifact = _)) eqn:E1; [|done].
    apply bool_decide_eq_true in E1. cbn [negb] in E.
    destruct (be_val (slice 8 10 artifact) =? 1) eqn:E2; [|done]. destruct (be_val (slice 10 12 artifact) =? 1) eqn:E3; [|done].
    destruct (be_val (slice 12 16 artifact) =? 0) eqn:E4; [|done]. cbn [negb] in E.
    destruct (be_val (slice 16 18 artifact) =? 0) eqn:E5; [done|]. destruct (be_val (slice 18 20 artifact) =? 0) eqn:E6; [done|].
    destruct (bool_decide (slice 20 52 artifact = ZERO32)) eqn:E7; [done|].
    destruct (be_val (slice 16 18 artifact) =? provider_kind known) eqn:E8; [|done].
    destruct (be_val (slice 18 20 artifact) =? provider_schema known) eqn:E9; [|done]. cbn [negb] in E. bool_to_prop.
    pose proof (fun lo => be_val_16 artifact lo Hok) as Hb.
    pose proof (Hb 16 ltac:(lia) ltac:(lia)) as Hk. pose proof (Hb 18 ltac:(lia) ltac:(lia)) as Hs. change (16 + 2) with 18 in Hk. change (18 + 2) with 20 in Hs.
    assert (Hp : provider_fits known) by (unfold provider_fits; lia).
    rewrite E8, E9 in E. destruct known as [kind schema config]. cbn [provider_kind provider_schema provider_config] in *.
    rewrite identity_digest_Ok, ok_bind in E by done. destruct (bool_decide _) eqn:E10 in E; [|done]. apply bool_decide_eq_true in E10. cbn [negb] in E.
    split; [split; [done|]; cbn; rewrite <- E10; split_and!; lia || done|]. split; [lia|]. split; [|done].
    rewrite (slice_split 0 8 52), (slice_split 8 10 52), (slice_split 10 12 52), (slice_split 12 16 52), (slice_split 16 18 52),
      (slice_split 18 20 52), E1, E10 by lia.
    rewrite <- (be_bytes_slice 2 8 10 artifact 1), <- (be_bytes_slice 2 10 12 artifact 1), <- (be_bytes_slice 4 12 16 artifact 0),
      <- (be_bytes_slice 2 16 18 artifact kind), <- (be_bytes_slice 2 18 20 artifact schema) by (done || lia).
    done.
  - intros (Hp & Hl & Hh & <-). by apply classify_behind_header.
Qed.

Lemma read_contents_bytes p ns rows :
  export_ok ns rows ->
  let a := artifact_bytes p ns rows in
  slice 0 52 a = header_bytes p /\ be_val (slice 52 54 a) = len ns /\
  read_contents a (len ns) = Ok (Accepted ns (len rows) (map row_digest rows) (content_digest_of p ns rows)).
Proof.
  intros (_ & Hn & [Hr Hl] & Ha). pose proof (len_nonneg rows). pose proof (len_nonneg (rows_bytes rows)). pose proof (len_header p). cbv zeta.
  pose proof (len_artifact p ns rows) as L. pose proof (len_contents p ns rows) as Lc.
  assert (Lf : len EXPORT_COMPLETION_MAGIC = 8) by done. assert (Ld : len (content_digest_of p ns rows) = 32) by apply len_digest.
  set (pre := header_bytes p ++ be_bytes 2 (len ns) ++ ns ++ be_bytes 4 (len rows)).
  assert (Lp : len pre = 58 + len ns) by (unfold pre; simpl_lens; lia).
  assert (Ea : artifact_bytes p ns rows = pre ++ rows_bytes rows ++ content_digest_of p ns rows ++ EXPORT_COMPLETION_MAGIC)
    by (unfold artifact_bytes, contents_bytes, pre; by rewrite <- !app_assoc).
  assert (Ec : contents_bytes p ns rows = pre ++ rows_bytes rows) by (unfold contents_bytes, pre; by rewrite <- !app_assoc).
  pose proof (read_rows_bytes _ pre rows _ None [] Ea Hr Ha) as Er. rewrite Lp in Er. cbn [app] in Er.
  assert (F : slice 0 52 (artifact_bytes p ns rows) = header_bytes p /\ be_val (slice 52 54 (artifact_bytes p ns rows)) = len ns /\
    slice 54 (54 + len ns) (artifact_bytes p ns rows) = ns /\ be_val (slice (54 + len ns) (54 + len ns + 4) (artifact_bytes p ns rows)) = len rows).
  { unfold artifact_bytes, contents_bytes. set (dg := content_digest_of p ns rows) in *. set (h := header_bytes p) in *. rewrite <- !app_assoc.
    split_and!; read_slices; (apply be_val_u16; lia) || (apply be_val_u32; lia) || done. }
  destruct F as (F1 & F2 & F3 & F4). split; [done|]. split; [done|].
  unfold read_contents. rewrite (proj2 (in_range_spec _ _ _)) by lia. cbn [negb]. cbv zeta. rewrite L, (proj2 (Z.ltb_ge _ _)) by lia. rewrite F3, F4.
  replace (54 + len ns + 4) with (58 + len ns) by lia. replace (Z.to_nat (len rows)) with (length rows) by (unfold len; lia).
  rewrite Er, ok_bind. unfold read_footer. rewrite L, (proj2 (Z.eqb_neq _ _)), (proj2 (Z.ltb_ge _ _)) by lia.
  set (c := 58 + len ns + len (rows_bytes rows)).
  assert (F5 : slice 0 c (artifact_bytes p ns rows) = contents_bytes p ns rows) by (unfold artifact_bytes; apply slice_app_exact; unfold c; lia).
  assert (F6 : slice c (c + 32) (artifact_bytes p ns rows) = content_digest_of p ns rows).
  { unfold artifact_bytes. rewrite slice_app_r by (unfold c; lia). rewrite slice_app_l by (unfold c; lia). apply slice_whole; unfold c; lia. }
  assert (F7 : slice (c + 32) (c + 40) (artifact_bytes p ns rows) = EXPORT_COMPLETION_MAGIC).
  { unfold artifact_bytes. rewrite !slice_app_r by (unfold c; lia). apply slice_whole; unfold c; lia. }
  rewrite F5, F6, F7, !bool_decide_true by done. cbn [negb]. rewrite (proj2 (Z.eqb_eq _ _)) by (unfold c; lia). done.
Qed.

Lemma read_contents_inv p a ns n ds cd :
  bytes_ok a -> 54 <= len a -> slice 0 52 a = header_bytes p ->
  read_contents a (be_val (slice 52 54 a)) = Ok (Accepted ns n ds cd) ->
  exists rows, export_ok ns rows /\ a = artifact_bytes p ns rows /\ n = len rows /\ ds = map row_digest rows /\ cd = content_digest_of p ns rows.
Proof.
  intros Hok Hl Hh E. unfold read_contents in E. destruct (in_range 1 255 _) eqn:E1; [|done]. apply in_range_spec in E1. cbn [negb] in E. cbv zeta in E.
  remember (be_val (slice 52 54 a)) as ln eqn:Hln. destruct (Z.ltb_spec (len a) (54 + ln + 4)); [done|].
  remember (be_val (slice (54 + ln) (54 + ln + 4) a)) as count eqn:Hcount.
  pose proof (be_val_bounds (slice (54 + ln) (54 + ln + 4) a) ltac:(auto with ninlil)) as Hb. rewrite len_slice, <- Hcount in Hb by lia.
  replace (54 + ln + 4 - (54 + ln)) with 4 in Hb by lia. pack_range || change (256 ^ 4) with 4294967296 in Hb.
  destruct (read_rows _ _ _ _ _) as [[c ds' | reason]|] eqn:E2 in E; [|done..]. rewrite ok_bind in E.
  destruct (read_rows_inv _ a (54 + ln + 4) _ _ _ _ Hok ltac:(lia) E2) as (rows & Hlen & Hr & Ha & Hc & Hcl & -> & Hs). cbn [app] in *.
  pose proof (len_nonneg (rows_bytes rows)).
  unfold read_footer in E. destruct (_ =? c + 32) eqn:E3 in E; [done|]. destruct (Z.ltb_spec (len a) (c + 40)); [done|].
  destruct (bool_decide _) eqn:E4 in E; [|done]. destruct (bool_decide _) eqn:E5 in E; [|done]. destruct (len a =? c + 40) eqn:E6; [|done].
  cbn [negb] in E. bool_to_prop. injection E as <- <- <- <-.
  assert (Hn : len (slice 54 (54 + ln) a) = ln) by (rewrite len_slice by lia; lia).
  assert (Hrl : len rows = count) by (unfold len; lia).
  assert (Hcb : slice 0 c a = contents_bytes p (slice 54 (54 + ln) a) rows).
  { unfold contents_bytes. rewrite Hn, Hrl, <- Hh, <- Hs, (be_bytes_slice 2 52 54 a), (be_bytes_slice 4 (54 + ln) (54 + ln + 4) a) by (done || lia).
    rewrite <- !slice_split by lia. done. }
  exists rows. split_and!; try done.
  - split; [auto with ninlil|]. split; [lia|]. split; [|done]. split; [done|]. lia.
  - unfold artifact_bytes, content_digest_of. rewrite <- Hcb, <- E4, <- E5, <- !slice_split by lia. rewrite <- E6. symmetry. apply slice_all.
  - unfold content_digest_of. by rewrite <- Hcb.
Qed.

(** ** Artifacts determine their rows *)

Lemma row_bytes_locked r q x y : row_ok r -> row_ok q -> row_bytes r ++ x = row_bytes q ++ y -> r = q /\ x = y.
Proof.
  destruct r as [k v], q as [k' v']. intros (_ & Hk & _ & Hv) (_ & Hk' & _ & Hv') E. cbn [fst snd] in *.
  destruct (row_bytes_reads [] k v x ltac:(lia) ltac:(lia)) as (A1 & _ & A3 & A4 & A5 & _).
  destruct (row_bytes_reads [] k' v' y ltac:(lia) ltac:(lia)) as (B1 & _ & B3 & B4 & B5 & _). cbn [app] in *.
  rewrite E in *. rewrite A1 in B1. rewrite A3 in B3. rewrite <- B1 in *. rewrite <- B3 in *. rewrite A4 in B4. rewrite A5 in B5. subst k' v'.
  split; [done|]. by apply app_inv_head in E.
Qed.

Lemma rows_bytes_locked rows rows' x y :
  Forall row_ok rows -> Forall row_ok rows' -> length rows = length rows' -> rows_bytes rows ++ x = rows_bytes rows' ++ y -> rows = rows' /\ x = y.
Proof.
  intros H. revert rows'. induction H as [|r rows Hr _ IH]; intros [|q rows'] Hq Hl E; try done.
  apply Forall_cons in Hq as [Hq Hqs]. rewrite !rows_bytes_cons, <- !app_assoc in E.
  apply row_bytes_locked in E as [-> E]; [|done..]. injection Hl as Hl. by destruct (IH _ Hqs Hl E) as [-> ->].
Qed.

(** No artifact of a provider begins another. *)
Lemma artifact_locked p ns ns' rows rows' x y :
  len ns < 65536 -> len ns' < 65536 -> rows_ok rows -> rows_ok rows' -> artifact_bytes p ns rows ++ x = artifact_bytes p ns' rows' ++ y ->
  ns = ns' /\ rows = rows' /\ x = y.
Proof.
  intros Hn Hn' [Hr Hl] [Hr' Hl'] E. pose proof (len_nonneg ns). pose proof (len_nonneg ns'). pose proof (len_nonneg rows). pose proof (len_nonneg rows').
  assert (K : ns = ns' /\ rows = rows').
  { unfold artifact_bytes, contents_bytes in E. rewrite <- !app_assoc in E. apply app_inv_head in E.
    apply app_inj_1 in E as [E1 E]; [|by rewrite !length_be_bytes]. apply be_bytes_inj in E1; [|pack_range; lia..].
    apply app_inj_1 in E as [E2 E]; [|unfold len in E1; lia]. apply app_inj_1 in E as [E3 E]; [|by rewrite !length_be_bytes].
    apply be_bytes_inj in E3; [|pack_range; lia..]. apply rows_bytes_locked in E as [E _]; [|done..|unfold len in E3; lia]. done. }
  destruct K as [<- <-]. by apply app_inv_head in E.
Qed.

(** ** Every artifact gets a verdict *)

Lemma classify_total artifact known :
  bytes_ok artifact -> len (provider_config known) < 65536 -> exists v, classify_export_artifact artifact known = Ok v.
Proof.
  intros Hok Hc. unfold classify_export_artifact. cbv zeta. destruct (Z.ltb_spec (len artifact) 54); [by eexists|].
  pose proof (fun lo => be_val_16 artifact lo Hok) as Hb.
  pose proof (Hb 16 ltac:(lia) ltac:(lia)) as Hk. pose proof (Hb 18 ltac:(lia) ltac:(lia)) as Hs. change (16 + 2) with 18 in Hk. change (18 + 2) with 20 in Hs.
  repeat (case_match; [by eexists|]). rewrite identity_digest_Ok, ok_bind by done. case_match; [by eexists|].
  unfold read_contents. repeat (case_match; [by eexists|]). cbv zeta.
  match goal with |- context [read_rows ?n ?a ?c ?p ?d] => pose proof (read_rows_total n a c p d); destruct (read_rows n a c p d) as [[|]|]; [by eexists..|done] end.
Qed.

Lemma contents_status a n reason status : read_contents a n = Ok (Rejected reason status) -> status = CORRUPT.
Proof.
  unfold read_contents, read_footer, rejected. cbv zeta. intros E. case_ifs E; try (by injection E).
  destruct (read_rows _ _ _ _ _) as [[|]|] in E; cbn in E; [|by injection E|done]. case_ifs E; by injection E.
Qed.

(** What the encoder writes for a provider that can be known is accepted. *)
Lemma artifact_accepted known ns rows :
  bytes_ok (artifact_bytes known ns rows) -> provider_ok known -> export_ok ns rows ->
  classify_export_artifact (artifact_bytes known ns rows) known =
    Ok (Accepted ns (len rows) (map row_digest rows) (content_digest_of known ns rows)).
Proof.
  intros Hok Hp He. destruct (read_contents_bytes known ns rows He) as (F1 & F2 & F3). pose proof He as (_ & Hn & _).
  pose proof (len_artifact known ns rows). pose proof (len_nonneg (rows_bytes rows)).
  apply classify_header; [done | apply Hp|]. split; [done|]. split; [lia|]. split; [done|]. by rewrite F2.
Qed.

(** ** Properties *)

(** C14. The classifier gives every byte string a verdict, and it accepts exactly the artifacts the
    encoder writes for the provider it knows, with a namespace and rows of the declared sizes
    whose keys are strictly ascending.  It finds the namespace, the number of rows, their
    digests and the content digest; and the artifact has no other rows. *)
Theorem export_classified_exactly artifact known :
  bytes_ok artifact -> len (provider_config known) < 65536 ->
  (exists v, classify_export_artifact artifact known = Ok v) /\
  forall ns n ds cd, classify_export_artifact artifact known = Ok (Accepted ns n ds cd) <->
    exists rows, provider_ok known /\ export_ok ns rows /\ encoded ns rows known = Ok artifact /\
      n = len rows /\ ds = map row_digest rows /\ cd = content_digest_of known ns rows /\
      forall ns' rows', 1 <= len ns' <= 255 -> rows_ok rows' -> encoded ns' rows' known = Ok artifact -> ns' = ns /\ rows' = rows.
Proof.
  intros Hok Hc. split; [by apply classify_total|]. intros ns n ds cd. rewrite classify_header by done. split.
  - intros (Hp & Hl & Hh & E). destruct (read_contents_inv known _ _ _ _ _ Hok Hl Hh E) as (rows & He & -> & -> & -> & ->).
    exists rows. pose proof He as (_ & Hn & Hr & _). split_and!; try done; [by apply encoded_Ok; [apply Hp|..]|].
    intros ns' rows' Hn' Hr' E'. rewrite encoded_Ok in E' by (done || apply Hp). apply Ok_inj in E'.
    destruct (artifact_locked known ns' ns rows' rows [] []) as (-> & -> & _); [lia..| done | done | by rewrite E' | done].
  - intros (rows & Hp & He & E & -> & -> & -> & _). pose proof He as (_ & Hn & Hr & _).
    rewrite encoded_Ok in E by (done || apply Hp). apply Ok_inj in E as <-. by apply classify_header, artifact_accepted.
Qed.

(** The verdict on a byte string that shares an accepted artifact up to where the shorter ends. *)
Lemma overlap_refused a b x y known ns n ds cd :
  bytes_ok a -> bytes_ok b -> len (provider_config known) < 65536 -> a ++ x = b ++ y -> len a <> len b ->
  classify_export_artifact a known = Ok (Accepted ns n ds cd) ->
  exists reason, classify_export_artifact b known = Ok (Rejected reason CORRUPT).
Proof.
  intros Ha Hb Hc E Hne Ea.
  apply classify_header in Ea as (Hp & Hl & Hh & Ea); [|done..].
  destruct (read_contents_inv known _ _ _ _ _ Ha Hl Hh Ea) as (rows & (_ & Hn & Hr & _) & -> & _).
  destruct (Z.lt_ge_cases (len b) 54) as [Hlb | Hlb].
  { exists "TRUNCATED_HEADER"%string. unfold classify_export_artifact. by rewrite (proj2 (Z.ltb_lt _ _)). }
  assert (Hhb : slice 0 52 b = header_bytes known).
  { rewrite <- Hh, <- (slice_app_l 0 52 b y), <- (slice_app_l 0 52 (artifact_bytes known ns rows) x) by lia. by rewrite E. }
  rewrite classify_behind_header by done. destruct (classify_total b known Hb Hc) as [v Ev]. rewrite classify_behind_header in Ev by done.
  destruct v as [ns' n' ds' cd' | reason status]; [|exists reason; pose proof (contents_status _ _ _ _ Ev); by subst].
  destruct (read_contents_inv known _ _ _ _ _ Hb Hlb Hhb Ev) as (rows' & (_ & Hn' & Hr' & _) & -> & _).
  exfalso. apply Hne. destruct (artifact_locked known ns ns' rows rows' x y) as (-> & -> & _); done || lia.
Qed.

(** C40. An interrupted or overrun export is never mistaken for a whole one: cut an accepted artifact
    anywhere, or append anything to it, and it is refused as corrupt. *)
Theorem export_cut_refused artifact known ns n ds cd :
  bytes_ok artifact -> len (provider_config known) < 65536 ->
  classify_export_artifact artifact known = Ok (Accepted ns n ds cd) ->
  (forall k, 0 <= k < len artifact -> exists reason, classify_export_artifact (slice 0 k artifact) known = Ok (Rejected reason CORRUPT)) /\
  (forall x, bytes_ok x -> x <> [] -> exists reason, classify_export_artifact (artifact ++ x) known = Ok (Rejected reason CORRUPT)).
Proof.
  intros Hok Hc E. split.
  - intros k Hk. apply (overlap_refused artifact (slice 0 k artifact) [] (slice k (len artifact) artifact) known ns n ds cd); auto with ninlil.
    + by rewrite app_nil_r, <- slice_split, slice_all by lia.
    + rewrite len_slice by lia. lia.
  - intros x Hx Hne. apply (overlap_refused artifact (artifact ++ x) x [] known ns n ds cd); auto with ninlil.
    + by apply bytes_ok_app.
    + by rewrite app_nil_r.
    + rewrite len_app. destruct x; [done|]. rewrite len_cons. pose proof (len_nonneg x). lia.
Qed.

(** ** The fixtures pass *)

Lemma rows_bytes_ok rows : Forall row_ok rows -> bytes_ok (rows_bytes rows).
Proof.
  induction 1 as [|r rows (Hk & _ & Hv & _) _ IH]; [constructor|]. rewrite rows_bytes_cons. apply bytes_ok_app. split; [|done].
  unfold row_bytes, row_digest. rewrite !bytes_ok_app. auto 10 using bytes_ok_sha with ninlil.
Qed.

Lemma artifact_bytes_ok p ns rows : export_ok ns rows -> bytes_ok (artifact_bytes p ns rows).
Proof.
  intros (Hn & _ & [Hr _] & _). unfold artifact_bytes, contents_bytes, header_bytes, EXPORT_MAGIC, EXPORT_COMPLETION_MAGIC, provider_digest_of, content_digest_of.
  rewrite !bytes_ok_app. split_and!; auto using bytes_ok_sha, rows_bytes_ok with ninlil.
Qed.

(** A fixture whose verdict is the expected one, with texts that fit their length fields. *)
Definition passes (f : fixture) : Prop :=
  (exists v, classify_export_artifact (artifact_of f) (context_of f) = Ok v /\ status_of v = expected_status f) /\
  len (ascii_bytes (fixture_id f)) < 65536 /\ len (ascii_bytes (expected_status f)) < 65536 /\ len (artifact_of f) < 4294967296.

Lemma vectors_pass fs aggregate : Forall passes fs -> exists r, vectors_of fs aggregate = Ok r /\ map fst r.1 = fs.
Proof.
  intros H. revert aggregate. induction H as [|f fs ((v & Ev & Hv) & H1 & H2 & H3) _ IH]; intros aggregate; [by eexists|].
  cbn [vectors_of]. unfold vector_of. rewrite Ev, ok_bind, raise_if_skip by (by rewrite Hv, String.eqb_refl).
  pose proof (len_nonneg (ascii_bytes (fixture_id f))). pose proof (len_nonneg (ascii_bytes (expected_status f))). pose proof (len_nonneg (artifact_of f)).
  cbv zeta. run_join. match goal with |- context [vectors_of fs ?m] => destruct (IH m) as (r & -> & Hr) end.
  eexists. split; [done|]. cbn. by rewrite Hr.
Qed.

Definition passes_bool (f : fixture) : bool :=
  match classify_export_artifact (artifact_of f) (context_of f) with Ok v => String.eqb (status_of v) (expected_status f) | Raise _ => false end &&
  (len (ascii_bytes (fixture_id f)) <? 65536) && (len (ascii_bytes (expected_status f)) <? 65536) && (len (artifact_of f) <? 4294967296).

Lemma passes_bool_spec f : passes_bool f = true -> passes f.
Proof.
  unfold passes_bool, passes. intros H. bool_to_prop. split; [|done].
  destruct (classify_export_artifact _ _) as [v|]; [|done]. exists v. by split; [|apply String.eqb_eq].
Qed.

Lemma mutations_pass : exists fs, mutation_fixtures = Ok fs /\ Forall passes fs /\ length fs = 18%nat.
Proof.
  assert (H : match mutation_fixtures with Ok fs => forallb passes_bool fs && (length fs =? 18)%nat | Raise _ => false end = true) by (vm_compute; reflexivity).
  destruct mutation_fixtures as [fs|]; [|discriminate H]. apply andb_true_iff in H as [H1 H2]. exists fs. split; [reflexivity|].
  split; [|by apply Nat.eqb_eq]. apply Forall_forall. intros f Hf. apply passes_bool_spec. rewrite forallb_forall in H1.
  apply H1. by apply list_elem_of_In.
Qed.

Lemma provider_ok_of p : provider_fits p -> provider_kind p <> 0 -> provider_schema p <> 0 -> bool_decide (provider_digest_of p = ZERO32) = false -> provider_ok p.
Proof. intros H1 H2 H3 H4%bool_decide_eq_false. by split. Qed.

Lemma contexts_ok : provider_ok min_context /\ provider_ok max_context /\ provider_ok mutation_context.
Proof. split; [|split]; (apply provider_ok_of; [in_list | done | done | vm_compute; reflexivity]). Qed.

Lemma max_export_ok : export_ok max_namespace [max_row].
Proof. in_list. Qed.

Lemma positive_passes id p ns rows :
  provider_ok p -> export_ok ns rows -> len (ascii_bytes id) < 65536 -> len (artifact_bytes p ns rows) < 4294967296 ->
  passes (positive id (artifact_bytes p ns rows) p).
Proof.
  intros Hp He Hi Hl. split; [|split; [exact Hi|]; split; [apply Z.ltb_lt; vm_compute; reflexivity | exact Hl]].
  eexists. split; [exact (artifact_accepted p ns rows (artifact_bytes_ok p ns rows He) Hp He) | done].
Qed.

Lemma positives_pass : exists fs, positive_fixtures = Ok fs /\ Forall passes fs /\ length fs = 2%nat.
Proof.
  destruct contexts_ok as (Hmin & Hmax & _). set (m := ascii_bytes "m"). set (kv := [(ascii_bytes "k", ascii_bytes "v")]).
  assert (He : export_ok m kv) by in_list. pose proof max_export_ok as He2.
  unfold positive_fixtures. fold m. fold kv.
  rewrite (encoded_Ok min_context m kv), ok_bind, (encoded_Ok max_context max_namespace [max_row]), ok_bind by (apply Hmin || apply Hmax || apply He || apply He2).
  eexists. split; [reflexivity|]. split; [|done].
  assert (L1 : 98 + len m + len (rows_bytes kv) < 4294967296) by (vm_compute; reflexivity).
  assert (L2 : 98 + len max_namespace + (40 + len max_row.1 + len max_row.2) < 4294967296) by (vm_compute; reflexivity).
  assert (I1 : len (ascii_bytes "EXPORT_POSITIVE_MIN") < 65536) by (vm_compute; reflexivity).
  assert (I2 : len (ascii_bytes "EXPORT_POSITIVE_MAX") < 65536) by (vm_compute; reflexivity).
  apply Forall_cons_2; [|apply Forall_cons_2; [|apply Forall_nil_2]].
  - apply positive_passes; [exact Hmin | exact He | exact I1 | rewrite len_artifact; exact L1].
  - apply positive_passes; [exact Hmax | exact He2 | exact I2|].
    rewrite len_artifact, rows_bytes_cons, len_app, len_row_bytes. change (len (rows_bytes [])) with 0. rewrite Z.add_0_r. exact L2.
Qed.

Lemma vectors_classified fs aggregate vs out :
  vectors_of fs aggregate = Ok (vs, out) ->
  Forall (fun v => classify_export_artifact (artifact_of v.1) (context_of v.1) = Ok v.2 /\ status_of v.2 = expected_status v.1) vs.
Proof.
  revert aggregate vs. induction fs as [|f fs IH]; intros aggregate vs E; [injection E as <- <-; constructor|].
  cbn [vectors_of] in E. apply bind_Ok in E as ((computed & entry) & Ev & E). apply bind_Ok in E as ([vs' out'] & Er & E). injection E as <- <-.
  unfold vector_of in Ev. apply bind_Ok in Ev as (computed' & Ec & Ev). apply raise_if_then_Ok in Ev as [Hs Ev]. apply bind_Ok in Ev as (e & _ & Ev).
  injection Ev as -> ->. constructor; [|by eapply IH]. split; [done|]. by apply negb_false_iff, String.eqb_eq in Hs.
Qed.

(** The fixtures of the export build and every one of them gets its expected status: the smallest
    and the largest artifact are accepted, the eighteen mutations are refused. *)
Theorem export_vectors_build :
  exists vs digest, build_export_artifact_vectors = Ok (vs, digest) /\ length vs = 20%nat /\
    Forall (fun v => classify_export_artifact (artifact_of v.1) (context_of v.1) = Ok v.2 /\ status_of v.2 = expected_status v.1) vs.
Proof.
  destruct positives_pass as (ps & Ep & Hp & Lp). destruct mutations_pass as (ms & Em & Hm & Lm).
  unfold build_export_artifact_vectors. rewrite Ep, ok_bind, Em, ok_bind.
  destruct (vectors_pass (ps ++ ms) (ascii_bytes "NINLIL-LAB-EXPORT-VECTOR-SET-V1") (Forall_app_2 _ _ _ Hp Hm)) as ([vs out] & Ev & Hvs).
  rewrite Ev, ok_bind. exists vs, (sha256 out). split; [done|]. split; [|by eapply vectors_classified].
  cbn [fst] in Hvs. rewrite <- (length_map fst), Hvs, length_app, Lp, Lm. done.
Qed.

(** ** Witnesses *)

Definition sample_rows : list row := [row_a "A"; row_b].
Definition sample_artifact : bytes := artifact_bytes mutation_context lab sample_rows.

Lemma sample_ok : bytes_ok sample_artifact /\ len (provider_config mutation_context) < 65536 /\ export_ok lab sample_rows.
Proof.
  assert (H : export_ok lab sample_rows) by in_list. split; [by apply artifact_bytes_ok|]. split; [|done]. in_list.
Qed.

Lemma sample_accepted :
  classify_export_artifact sample_artifact mutation_context =
    Ok (Accepted lab 2 (map row_digest sample_rows) (content_digest_of mutation_context lab sample_rows)).
Proof. destruct sample_ok as (H1 & _ & H3). exact (artifact_accepted mutation_context lab sample_rows H1 (proj2 (proj2 contexts_ok)) H3). Qed.

(** The base of the mutations is accepted; its rows are the two it was written from. *)
Lemma export_classified_exactly_witness :
  exists rows, encoded lab rows mutation_context = Ok sample_artifact /\ export_ok lab rows /\ 2 = len rows /\ sample_rows = rows.
Proof.
  destruct sample_ok as (H1 & H2 & H3).
  destruct (proj1 (proj2 (export_classified_exactly sample_artifact mutation_context H1 H2) _ _ _ _) sample_accepted) as (rows & _ & He & E & Hn & _ & _ & Hu).
  exists rows. split; [exact E|]. split; [exact He|]. split; [exact Hn|].
  destruct H3 as (_ & Hl & Hr & _).
  exact (proj2 (Hu lab sample_rows Hl Hr (encoded_Ok _ _ _ (proj1 (proj2 (proj2 contexts_ok))) Hl Hr))).
Defined.

(** Half of it is refused, and so is the artifact behind a byte more. *)
Lemma export_cut_refused_witness :
  (exists reason, classify_export_artifact (slice 0 60 sample_artifact) mutation_context = Ok (Rejected reason CORRUPT)) /\
  exists reason, classify_export_artifact (sample_artifact ++ [0]) mutation_context = Ok (Rejected reason CORRUPT).
Proof.
  destruct sample_ok as (H1 & H2 & _).
  destruct (export_cut_refused sample_artifact mutation_context _ _ _ _ H1 H2 sample_accepted) as [Hc Hx].
  split; [apply (Hc 60) | apply (Hx [0])].
  - unfold sample_artifact. rewrite len_artifact. in_list.
  - in_list.
  - done.
Defined.
