(* ===== verification/Bootstrap.v ===== *)
(** The bootstrap rows of a schema-1 store (tools/domain_store_schema1_binding_vector_gen.py): the
    binding of formats 1 and 2, its classification for a canonical writer and for the last lab
    binary, the seventeen runtime rows and the sixteen metadata rows. *)

From S2P Require Import Prelude Bytes Order Crc Sha256 Join StoreRecords.

(** ** The fixture *)

Record limits := {
  max_services : Z; max_nonterminal_transactions : Z; max_targets_per_transaction : Z; max_logical_payload_bytes : Z;
  max_durable_outbox_payload_bytes : Z; max_attempts_per_target_per_cycle : Z; max_cancel_attempts_per_transaction : Z;
  max_evidence_per_target : Z; max_retained_terminal_transactions : Z; max_nonterminal_deliveries : Z; max_event_spool_count : Z;
  max_event_spool_bytes : Z; max_result_cache_entries : Z; max_retained_dispositions : Z; max_ingress_per_step : Z;
  max_callbacks_per_step : Z; max_state_transitions_per_step : Z; max_bearer_sends_per_step : Z; max_deferred_tokens : Z }.

Record identity := {
  id_flags : Z; device_id : bytes; installation_id : bytes; site_domain_id : bytes; binding_epoch : Z; membership_epoch : Z }.

Record fixture := {
  storage_schema : Z; role : Z; environment : Z; runtime_id : bytes; limits_of : limits; terminal_retention_ms : Z;
  result_cache_retention_ms : Z; observation_retention_ms : Z; identity_of : identity }.

Definition octets (n : nat) (b : Z) : bytes := replicate n b.

Definition bootstrap_fixture : fixture :=
  {| storage_schema := 1; role := 1; environment := 1; runtime_id := octets 16 0x44;
     limits_of :=
       {| max_services := 16; max_nonterminal_transactions := 32; max_targets_per_transaction := 1; max_logical_payload_bytes := 256;
          max_durable_outbox_payload_bytes := 8192; max_attempts_per_target_per_cycle := 8; max_cancel_attempts_per_transaction := 1;
          max_evidence_per_target := 3; max_retained_terminal_transactions := 64; max_nonterminal_deliveries := 32;
          max_event_spool_count := 0; max_event_spool_bytes := 0; max_result_cache_entries := 32; max_retained_dispositions := 64;
          max_ingress_per_step := 8; max_callbacks_per_step := 8; max_state_transitions_per_step := 16; max_bearer_sends_per_step := 8;
          max_deferred_tokens := 16 |};
     terminal_retention_ms := 2000; result_cache_retention_ms := 1000; observation_retention_ms := 3000;
     identity_of :=
       {| id_flags := 7; device_id := octets 16 0x55; installation_id := octets 16 0x66; site_domain_id := octets 16 0x77;
          binding_epoch := 1; membership_epoch := 1 |} |}.

(** ** The binding *)

Definition PROFILE : bytes := bytes_of_string "NINLIL-FOUNDATION-SMALL-1".
Definition STORAGE_PROFILE : bytes := bytes_of_string "NINLIL-DOMAIN-S1".

(** What the two formats share, behind the discriminator. *)
Definition common_fields (f : fixture) : list (res bytes) :=
  let l := limits_of f in
  [u32 (storage_schema f); u32 (role f); u32 (environment f); Ok (runtime_id f); u32 (max_services l); u32 (max_nonterminal_transactions l);
   u32 (max_targets_per_transaction l); u32 (max_logical_payload_bytes l); u64 (max_durable_outbox_payload_bytes l);
   u32 (max_attempts_per_target_per_cycle l); u32 (max_cancel_attempts_per_transaction l); u32 (max_evidence_per_target l);
   u32 (max_retained_terminal_transactions l); u32 (max_nonterminal_deliveries l); u32 (max_event_spool_count l);
   u64 (max_event_spool_bytes l); u32 (max_result_cache_entries l); u32 (max_retained_dispositions l); u32 (max_ingress_per_step l);
   u32 (max_callbacks_per_step l); u32 (max_state_transitions_per_step l); u32 (max_bearer_sends_per_step l); u32 (max_deferred_tokens l);
   u64 (terminal_retention_ms f); u64 (result_cache_retention_ms f); u64 (observation_retention_ms f)].

Definition encode_binding_payload (binding_format : Z) (f : fixture) : res bytes :=
  payload ← join [u32 binding_format; raw16 PROFILE];
  payload ← (if binding_format =? 2 then
               raise_if (negb (len STORAGE_PROFILE =? 16)) (AssertionError "");;
               join [Ok payload; Ok STORAGE_PROFILE; u32 1; u32 2; u64 1]
             else raise_if (negb (binding_format =? 1)) (ValueError "binding_format must be 1 or 2");; mret payload);
  tail ← join (common_fields f);
  let payload := payload ++ tail in
  raise_if (negb (len payload =? (if binding_format =? 1 then 167 else 199))) (AssertionError "");;
  mret payload.

Definition derive_capacity_limits (l : limits) : list Z :=
  let transaction := max_nonterminal_transactions l + max_retained_terminal_transactions l in
  let target := transaction * max_targets_per_transaction l in
  [max_services l; transaction; target; max_durable_outbox_payload_bytes l; max_nonterminal_deliveries l; max_event_spool_count l;
   max_event_spool_bytes l; max_result_cache_entries l + max_retained_dispositions l; target * (max_evidence_per_target l + 1);
   max_ingress_per_step l; max_deferred_tokens l].

(** The fields the classification reads: those of the discriminator are there in format 2. *)
Record binding_fields := {
  f_binding_format : Z; f_profile : bytes; f_storage_profile_id : option bytes; f_storage_profile_revision : option Z;
  f_minimum_writer_generation : option Z; f_rollback_epoch : option Z; f_storage_schema : Z; f_role : Z; f_environment : Z;
  f_runtime_id : bytes; f_payload : bytes }.

Definition decode_binding_payload_fields (value : bytes) : res binding_fields :=
  payload ← decode_nlr1_payload value 1;
  raise_if (len payload <? 6) (ValueError "binding payload short");;
  let binding_format := be_val (slice 0 4 payload) in
  '(profile, cursor) ← parse_raw16_at payload 4;
  let two := binding_format =? 2 in
  raise_if (two && (len payload - cursor <? 32)) (ValueError "format2 discriminator short");;
  let field {A} (x : A) := if two then Some x else None in
  let base := cursor in
  let cursor := if two then cursor + 32 else cursor in
  raise_if (negb (len payload - cursor =? 136)) (ValueError "binding common tail length");;
  mret {| f_binding_format := binding_format; f_profile := profile;
          f_storage_profile_id := field (slice base (base + 16) payload);
          f_storage_profile_revision := field (be_val (slice (base + 16) (base + 20) payload));
          f_minimum_writer_generation := field (be_val (slice (base + 20) (base + 24) payload));
          f_rollback_epoch := field (be_val (slice (base + 24) (base + 32) payload));
          f_storage_schema := be_val (slice cursor (cursor + 4) payload);
          f_role := be_val (slice (cursor + 4) (cursor + 8) payload);
          f_environment := be_val (slice (cursor + 8) (cursor + 12) payload);
          f_runtime_id := slice (cursor + 12) (cursor + 28) payload; f_payload := payload |}.

(** The verdict: its status and its reason. *)
Definition binding_verdict : Type := (string * option string)%type.
Definition binding_ok : binding_verdict := ("NINLIL_OK"%string, None).
Definition rejected (reason : string) : binding_verdict := (UNSUPPORTED, Some reason).

(** [fields[key]]. *)
Definition field_of {A} (key : string) (x : option A) : res A := match x with Some a => Ok a | None => Raise (KeyError key) end.

(** The checks of the fields, in their order. *)
Definition check_fields (fields : binding_fields) (writer_generation : Z) : res binding_verdict :=
  if negb (bool_decide (f_profile fields = PROFILE)) then Ok (rejected "RESOURCE_PROFILE_NAME")
  else
    (profile_id ← field_of "storage_profile_id" (f_storage_profile_id fields);
     if negb (bool_decide (profile_id = STORAGE_PROFILE)) then Ok (rejected "STORAGE_PROFILE_ID")
     else
       (revision ← field_of "storage_profile_revision" (f_storage_profile_revision fields);
        if negb (revision =? 1) then Ok (rejected "STORAGE_PROFILE_REVISION")
        else
          (generation ← field_of "minimum_writer_generation" (f_minimum_writer_generation fields);
           if writer_generation <? generation then Ok (rejected "WRITER_GENERATION_INSUFFICIENT")
           else if negb (generation =? 2) then Ok (rejected "MINIMUM_WRITER_GENERATION")
           else
             (epoch ← field_of "rollback_epoch" (f_rollback_epoch fields);
              if negb (epoch =? 1) then Ok (rejected "ROLLBACK_EPOCH")
              else if negb (f_storage_schema fields =? 1) then Ok (rejected "STORAGE_SCHEMA")
              else
                (expected_payload ← encode_binding_payload 2 bootstrap_fixture;
                 Ok (if negb (bool_decide (f_payload fields = expected_payload)) then rejected "BINDING_COMMON_FIELD" else binding_ok)))))).

Definition classify_canonical_binding (value : bytes) (writer_generation : Z) (consumer : string) : res binding_verdict :=
  match inspect_nlr1_envelope value 1 with
  | Refused status reason => Ok (status, Some reason)
  | Envelope payload =>
      if len payload <? 4 then Ok (STORAGE_CORRUPT, Some "BINDING_FORMAT_LENGTH"%string)
      else
        let binding_format := be_val (slice 0 4 payload) in
        if String.eqb consumer "LAST_LAB_BINARY" then
          Ok (if negb (binding_format =? 1) then rejected "LAST_LAB_BINARY_FORMAT2_DOWNGRADE_FENCE" else binding_ok)
        else if negb (binding_format =? 2) then Ok (rejected "BINDING_FORMAT")
        else
          match decode_binding_payload_fields value with
          | Raise (AssertionError _) | Raise (ValueError _) => Ok (STORAGE_CORRUPT, Some "BINDING_CURRENT_PAYLOAD"%string)
          | Raise e => Raise e
          | Ok fields => check_fields fields writer_generation
          end
  end.

(** ** The rows of a store *)

Definition counter_names : list string :=
  ["RS_COUNTER_TRANSACTION"; "RS_COUNTER_ORDERED_INPUT"; "RS_COUNTER_ASSIGNED_OWNER"; "RS_COUNTER_VISITED_OWNER"]%string.
Definition capacity_names : list string :=
  ["RS_CAPACITY_SERVICE"; "RS_CAPACITY_TRANSACTION"; "RS_CAPACITY_TARGET"; "RS_CAPACITY_OUTBOX_BYTES"; "RS_CAPACITY_DELIVERY";
   "RS_CAPACITY_EVENT_SPOOL_COUNT"; "RS_CAPACITY_EVENT_SPOOL_BYTES"; "RS_CAPACITY_RESULT_CACHE"; "RS_CAPACITY_EVIDENCE";
   "RS_CAPACITY_INGRESS"; "RS_CAPACITY_DEFERRED_TOKEN"]%string.

Fixpoint counter_rows (kind : Z) (names : list string) : res (list record) :=
  match names with
  | [] => Ok []
  | name :: names =>
      payload ← join [u32 kind; u64 0; u32 0];
      value ← nlr1 3 payload;
      k ← u8 kind;
      rows ← counter_rows (kind + 1) names;
      mret (record_object name (ROOT ++ [3] ++ k) value :: rows)
  end.

Fixpoint capacity_rows (kind : Z) (names : list string) (capacities : list Z) : res (list record) :=
  match names, capacities with
  | [], [] => Ok []
  | name :: names, limit :: capacities =>
      value ← runtime_capacity_value kind limit 0 0 0 1 0 0;
      k ← u8 kind;
      rows ← capacity_rows (kind + 1) names capacities;
      mret (record_object name (ROOT ++ [4] ++ k) value :: rows)
  | _, _ => Raise (ValueError "zip() arguments differ in length")
  end.

Definition sum_of (f : record -> Z) (rows : list record) : Z := fold_left (fun s r => s + f r) rows 0.

Definition identity_payload_of (i : identity) : res bytes :=
  join [u32 (id_flags i); Ok (device_id i); Ok (installation_id i); Ok (site_domain_id i); u64 (binding_epoch i); u64 (membership_epoch i)].

(** The rows, in the order of their keys; the sums are checked and are output. *)
Definition build_bootstrap_vector (binding_format : Z) : res (list record) :=
  payload ← encode_binding_payload binding_format bootstrap_fixture;
  binding_value ← nlr1 1 payload;
  identity_payload ← identity_payload_of (identity_of bootstrap_fixture);
  raise_if (negb (len identity_payload =? 68)) (AssertionError "");;
  identity_value ← nlr1 2 identity_payload;
  counters ← counter_rows 1 counter_names;
  capacities ← capacity_rows 1 capacity_names (derive_capacity_limits (limits_of bootstrap_fixture));
  let records := record_object "RS_BINDING" (ROOT ++ [1]) binding_value :: record_object "RS_IDENTITY" (ROOT ++ [2]) identity_value ::
                 counters ++ capacities in
  let more := if binding_format =? 2 then 32 else 0 in
  raise_if (negb (len records =? 17)) (AssertionError "");;
  let keys := map key records in
  raise_if (negb (bool_decide (keys = sorted_by id compare_bytes keys))) (AssertionError "");;
  raise_if (negb (sum_of (fun r => key_length r + value_length r) records =? 1311 + more)) (AssertionError "");;
  raise_if (negb (sum_of value_length records =? 1143 + more)) (AssertionError "");;
  raise_if (negb (sum_of (fun r => 16 + key_length r + value_length r) records =? 1583 + more)) (AssertionError "");;
  mret records.

(** [row["name"].startswith(...)]. *)
Definition is_indexed (r : record) : bool := String.prefix "RS_COUNTER_" (name r) || String.prefix "RS_CAPACITY_" (name r).

Fixpoint index_rows (members : list record) : res (list record) :=
  match members with
  | [] => Ok []
  | member :: members =>
      identity ← composite 0x7D (key_digest (key member));
      index_key ← domain_key 0x7D identity;
      index_body ← witness_index_body 1 (key member) (sha256 (value member)) ZERO32;
      index_value ← domain_value 0x7D 1 (slice 0 16 identity) ZERO32 ZERO32 index_body;
      rows ← index_rows members;
      mret (record_object ("DOM_WITNESS_HEAD_INDEX_" ++ name member)%string index_key index_value :: rows)
  end.

Definition clock_body_of (state : Z) (epoch : bytes) (now trusted : Z) : res bytes := join [u32 state; u32 0; Ok epoch; u64 now; u64 trusted].

Definition tagged_id (tag : Z) : bytes := pattern tag 16.

(** The metadata rows in the order of their keys, and the trusted variant of the clock. *)
Definition build_legacy_metadata_group (bootstrap_records : list record) : res (list record * record) :=
  let indexed_records := filter (fun r => is_indexed r = true) bootstrap_records in
  raise_if (negb (len indexed_records =? 15)) (AssertionError "");;
  rows ← index_rows indexed_records;
  clock_key ← domain_singleton_key 0x62;
  clock_body ← clock_body_of 1 ZERO16 0 0;
  clock_value ← domain_value 0x62 1 ZERO16 ZERO32 ZERO32 clock_body;
  trusted_body ← clock_body_of 2 (tagged_id 0xD1) 123 1;
  trusted_value ← domain_value 0x62 2 ZERO16 ZERO32 ZERO32 trusted_body;
  let metadata_records := sorted_by key compare_bytes (rows ++ [record_object "DOM_CLOCK_BASELINE_UNINITIALIZED" clock_key clock_value]) in
  raise_if (negb (len metadata_records =? 16)) (AssertionError "");;
  raise_if (negb (bool_decide (NoDup (map key metadata_records)))) (AssertionError "");;
  mret (metadata_records, record_object "DOM_CLOCK_BASELINE_TRUSTED" clock_key trusted_value).

(** ** Compatibility vectors *)

(** [payload[offset : offset + len(replacement)] = replacement], in an envelope. *)
Definition mutated (positive_payload : bytes) (offset : Z) (replacement : bytes) : res bytes :=
  nlr1 1 (slice_assign offset (offset + len replacement) replacement positive_payload).

Record candidate := { candidate_id : string; candidate_value : bytes; consumer : string; expected : binding_verdict }.

Definition compatibility_candidates (format2_records : list record) : res (list candidate) :=
  match List.find (fun r => String.eqb (name r) "RS_BINDING") format2_records with
  | None => Raise StopIteration
  | Some binding_record =>
      let positive_value := value binding_record in
      positive_payload ← decode_nlr1_payload positive_value 1;
      let canonical id v reason := {| candidate_id := id; candidate_value := v; consumer := "CANONICAL_DOMAIN"; expected := rejected reason |} in
      n3 ← u32 3; unknown_format ← mutated positive_payload 0 n3;
      profile_id ← mutated positive_payload 31 (bytes_of_string "NINLIL-DOMAIN-S2");
      n0 ← u32 0; revision ← mutated positive_payload 47 n0;
      generation ← mutated positive_payload 51 n3;
      e0 ← u64 0; epoch ← mutated positive_payload 55 e0;
      n2 ← u32 2; schema ← mutated positive_payload 63 n2;
      mret [{| candidate_id := "BINDING_FORMAT2_POSITIVE_EXACT"; candidate_value := positive_value; consumer := "CANONICAL_DOMAIN"; expected := binding_ok |};
            canonical "BINDING_FORMAT2_UNKNOWN_FORMAT" unknown_format "BINDING_FORMAT";
            canonical "BINDING_FORMAT2_UNKNOWN_PROFILE_ID" profile_id "STORAGE_PROFILE_ID";
            canonical "BINDING_FORMAT2_PROFILE_REVISION_ROLLBACK" revision "STORAGE_PROFILE_REVISION";
            canonical "BINDING_FORMAT2_WRITER_GENERATION_INSUFFICIENT" generation "WRITER_GENERATION_INSUFFICIENT";
            canonical "BINDING_FORMAT2_ROLLBACK_EPOCH_REGRESSION" epoch "ROLLBACK_EPOCH";
            canonical "BINDING_FORMAT2_SCHEMA_MISMATCH" schema "STORAGE_SCHEMA";
            {| candidate_id := "BINDING_FORMAT2_LAST_LAB_BINARY_DOWNGRADE_REJECT"; candidate_value := positive_value;
               consumer := "LAST_LAB_BINARY"; expected := rejected "LAST_LAB_BINARY_FORMAT2_DOWNGRADE_FENCE" |}]%string
  end.

Fixpoint compatibility_aggregate (candidates : list candidate) (aggregate : bytes) : res bytes :=
  match candidates with
  | [] => Ok aggregate
  | c :: candidates =>
      computed ← classify_canonical_binding (candidate_value c) 2 (consumer c);
      raise_if (negb (bool_decide (computed = expected c))) (AssertionError "");;
      let encoded_id := bytes_of_string (candidate_id c) in
      let status := bytes_of_string (fst (expected c)) in
      entry ← join [u16 (len encoded_id); Ok encoded_id; u32 (len (candidate_value c)); Ok (candidate_value c); u16 (len status); Ok status];
      compatibility_aggregate candidates (aggregate ++ entry)
  end.

Definition build_binding_compatibility_vectors (format2_records : list record) : res (list candidate * bytes) :=
  candidates ← compatibility_candidates format2_records;
  aggregate ← compatibility_aggregate candidates (bytes_of_string "NINLIL-DOMAIN-BINDING-COMPAT-V1");
  mret (candidates, sha256 aggregate).

(** Both bootstraps, the metadata group and the compatibility vectors build. *)
Example bootstrap_builds :
  (format1 ← build_bootstrap_vector 1; format2 ← build_bootstrap_vector 2; group ← build_legacy_metadata_group format1;
   compat ← build_binding_compatibility_vectors format2;
   mret (map len [format1; format2; group.1], len compat.1)) = Ok ([17; 17; 16], 8).
Proof. vm_compute. reflexivity. Qed.

(** ** Who may open a store *)

(** The one binding of a canonical store. *)
Definition canonical_binding : res bytes := payload ← encode_binding_payload 2 bootstrap_fixture; nlr1 1 payload.

Definition canonical_payload : bytes := ok_or [] (encode_binding_payload 2 bootstrap_fixture).
Definition canonical_value : bytes := ok_or [] canonical_binding.

Lemma canonical_payload_Ok : encode_binding_payload 2 bootstrap_fixture = Ok canonical_payload.
Proof. apply ok_or_Ok. vm_compute. reflexivity. Qed.
Lemma canonical_Ok : canonical_binding = Ok canonical_value.
Proof. apply ok_or_Ok. vm_compute. reflexivity. Qed.
Lemma canonical_ok : bytes_ok canonical_value.
Proof. in_list. Qed.

(** Fields that are read from a binding of format 2. *)
Definition discriminated (p : bytes) (f : binding_fields) : Prop :=
  f_payload f = p /\ exists i r g e, f_storage_profile_id f = Some i /\ f_storage_profile_revision f = Some r /\
    f_minimum_writer_generation f = Some g /\ f_rollback_epoch f = Some e.

Lemma decode_fields_cases value p :
  inspect_nlr1_envelope value 1 = Envelope p -> be_val (slice 0 4 p) = 2 ->
  match decode_binding_payload_fields value with
  | Raise (AssertionError _) | Raise (ValueError _) => True
  | Raise _ => False
  | Ok fields => discriminated p fields
  end.
Proof.
  intros E E2. unfold decode_binding_payload_fields. rewrite (decode_inspected _ _ _ E), ok_bind, E2. cbv zeta. cbn [Z.eqb Pos.eqb andb].
  unfold raise_if. destruct (len p <? 6); cbn [mbind res_bind]; [done|]. unfold parse_raw16_at, raise_if.
  destruct (len p - 4 <? 2); cbn [mbind res_bind]; [done|]. destruct (_ <? be_val _); cbn [mbind res_bind mret res_ret]; [done|].
  destruct (_ <? 32); cbn [mbind res_bind mret res_ret]; [done|]. destruct (negb _); cbn [mbind res_bind mret res_ret]; [done|].
  split; [done|]. by do 4 eexists.
Qed.

Lemma check_fields_total fields w p : discriminated p fields -> exists v, check_fields fields w = Ok v /\
  (v = binding_ok -> 2 <= w /\ p = canonical_payload).
Proof.
  intros (Hp & i & r & g & e & Hi & Hr & Hg & He). unfold check_fields. rewrite Hi, Hr, Hg, He, canonical_payload_Ok, Hp. cbn [field_of mbind res_bind].
  repeat (case_match; [eexists; split; [reflexivity | discriminate]|]). eexists. split; [reflexivity|]. intros _.
  bool_to_prop. by subst.
Qed.

Lemma canonical_accepted w : 2 <= w -> classify_canonical_binding canonical_value w "CANONICAL_DOMAIN" = Ok binding_ok.
Proof.
  intros Hw.
  assert (H : match inspect_nlr1_envelope canonical_value 1 with Envelope p => bool_decide (p = canonical_payload) | _ => false end &&
    match decode_binding_payload_fields canonical_value with Ok f => bool_decide (f_minimum_writer_generation f = Some 2) && bool_decide (check_fields f 2 = Ok binding_ok) | _ => false end = true)
    by (vm_compute; reflexivity).
  unfold classify_canonical_binding. destruct (inspect_nlr1_envelope canonical_value 1) as [p|]; [|discriminate H]. apply andb_true_iff in H as [H1 H].
  apply bool_decide_eq_true in H1 as ->. replace (len canonical_payload <? 4) with false by (vm_compute; reflexivity).
  replace (be_val (slice 0 4 canonical_payload)) with 2 by (vm_compute; reflexivity). cbv zeta. cbn [String.eqb Ascii.eqb Bool.eqb Z.eqb Pos.eqb negb].
  destruct (decode_binding_payload_fields canonical_value) as [f|]; [|discriminate H]. apply andb_true_iff in H as [Hg Hc]. apply bool_decide_eq_true in Hg, Hc.
  rewrite <- Hc. unfold check_fields. rewrite Hg. cbn [field_of mbind res_bind]. rewrite !(proj2 (Z.ltb_ge _ _)) by lia. reflexivity.
Qed.

(** C16. A store is opened under a canonical binding or not at all.  Every value gets a verdict.  A
    canonical consumer accepts exactly one value, the binding of the fixture, and only with a
    writer of generation two or above; the last lab binary accepts exactly the envelopes of
    format-1 payloads.  So no value is accepted by both: neither can open the other's store. *)
Theorem canonical_binding_exact value w :
  bytes_ok value ->
  (forall consumer, exists v, classify_canonical_binding value w consumer = Ok v) /\
  (forall consumer, consumer <> "LAST_LAB_BINARY"%string ->
     classify_canonical_binding value w consumer = Ok binding_ok <-> 2 <= w /\ canonical_binding = Ok value) /\
  (classify_canonical_binding value w "LAST_LAB_BINARY" = Ok binding_ok <->
     exists rest, bytes_ok rest /\ len rest + 4 < 4294967296 /\ nlr1 1 (be_bytes 4 1 ++ rest) = Ok value).
Proof.
  intros Hok.
  assert (K : forall consumer, consumer <> "LAST_LAB_BINARY"%string -> exists v, classify_canonical_binding value w consumer = Ok v /\
    (v = binding_ok -> 2 <= w /\ canonical_binding = Ok value)).
  { intros consumer Hc. unfold classify_canonical_binding. destruct (inspect_nlr1_envelope value 1) as [p|] eqn:E; [|eexists; split; [reflexivity | discriminate]].
    rewrite (proj2 (String.eqb_neq _ _) Hc). destruct (len p <? 4); [eexists; split; [reflexivity | discriminate]|]. cbv zeta.
    destruct (Z.eqb_spec (be_val (slice 0 4 p)) 2) as [E2|]; cbn [negb]; [|eexists; split; [reflexivity | discriminate]].
    pose proof (decode_fields_cases value p E E2) as Hd.
    destruct (decode_binding_payload_fields value) as [fields | []]; try done; try (eexists; split; [reflexivity | discriminate]).
    destruct (check_fields_total fields w p Hd) as (v & Ev & Hv). exists v. split; [done|]. intros Hv'. destruct (Hv Hv') as [Hw ->]. split; [done|].
    apply inspect_exact in E as (_ & _ & E); [|done..]. unfold canonical_binding. by rewrite canonical_payload_Ok, ok_bind. }
  split; [|split].
  - intros consumer. destruct (decide (consumer = "LAST_LAB_BINARY"%string)) as [->|Hc]; [|destruct (K consumer Hc) as (v & Ev & _); by exists v].
    unfold classify_canonical_binding. destruct (inspect_nlr1_envelope value 1) as [p|]; [|by eexists].
    destruct (len p <? 4); by eexists.
  - intros consumer Hc. destruct (K consumer Hc) as (v & Ev & Hv). split.
    + rewrite Ev. intros E. apply Ok_inj in E. by apply Hv.
    + intros [Hw E]. rewrite canonical_Ok in E. apply Ok_inj in E as <-. rewrite <- (canonical_accepted w Hw).
      unfold classify_canonical_binding. by rewrite (proj2 (String.eqb_neq _ _) Hc).
  - unfold classify_canonical_binding. change (String.eqb "LAST_LAB_BINARY" "LAST_LAB_BINARY") with true. split.
    + destruct (inspect_nlr1_envelope value 1) as [p|] eqn:E; [|discriminate]. destruct (Z.ltb_spec (len p) 4); [discriminate|]. cbv zeta.
      destruct (Z.eqb_spec (be_val (slice 0 4 p)) 1) as [E1|]; [|discriminate]. intros _.
      apply inspect_exact in E as (Hp & Hl & E); [|done..]. exists (slice 4 (len p) p).
      split; [auto with ninlil|]. split; [rewrite len_slice by lia; lia|].
      rewrite (be_bytes_slice 4 0 4 p 1) by (done || lia). by rewrite <- slice_split, slice_all by lia.
    + intros (rest & Hr & Hl & E). pose proof (len_nonneg rest).
      rewrite (proj2 (inspect_exact value 1 (be_bytes 4 1 ++ rest) Hok ltac:(lia))).
      2:{ split; [apply bytes_ok_app; split; [apply be_bytes_ok | done]|]. split; [rewrite len_app, len_be_bytes; lia | done]. }
      rewrite (proj2 (Z.ltb_ge _ _)) by (rewrite len_app, len_be_bytes; lia). cbv zeta.
      rewrite slice_app_exact by (by rewrite len_be_bytes). reflexivity.
Qed.

Lemma canonical_binding_exact_witness :
  classify_canonical_binding canonical_value 2 "CANONICAL_DOMAIN" = Ok binding_ok /\
  classify_canonical_binding canonical_value 1 "CANONICAL_DOMAIN" <> Ok binding_ok /\
  classify_canonical_binding canonical_value 2 "LAST_LAB_BINARY" <> Ok binding_ok.
Proof.
  split; [|split].
  - apply (proj2 (proj1 (proj2 (canonical_binding_exact canonical_value 2 canonical_ok)) "CANONICAL_DOMAIN"%string ltac:(discriminate))).
    split; [lia | exact canonical_Ok].
  - intros H. destruct (proj1 (proj1 (proj2 (canonical_binding_exact canonical_value 1 canonical_ok)) "CANONICAL_DOMAIN"%string ltac:(discriminate)) H) as [H1 _]. lia.
  - vm_compute. discriminate.
Defined.
