(* ===== verification/InitSnapshot.v ===== *)
(** The initialization of a schema-1 store (tools/domain_store_schema1_binding_vector_gen.py): three
    groups of rows are committed one after the other, each commit may have an unknown outcome,
    and the snapshot found afterwards is classified as old, new or corrupt.  Then the order of
    the startup stages, and what a fault at one of them leaves undone. *)

From S2P Require Import Prelude Bytes Order Sha256 Join StoreRecords Bootstrap.

(** A snapshot of the store is the dictionary of its rows: [{key: value for row in records}]. *)
Definition rows_of (records : list record) : gmap bytes bytes := fold_left (fun m r => <[key r := value r]> m) records ∅.

(** [sorted(rows.items())]: the keys of a dictionary differ. *)
Definition sorted_items (rows : gmap bytes bytes) : list (bytes * bytes) := sorted_by fst compare_bytes (map_to_list rows).

Fixpoint items_transcript (items : list (bytes * bytes)) : res bytes :=
  match items with
  | [] => Ok []
  | (k, v) :: items => row ← join [u16 (len k); Ok k; u32 (len v); Ok v]; rest ← items_transcript items; mret (row ++ rest)
  end.

Definition snapshot_sha256 (rows : gmap bytes bytes) : res bytes :=
  transcript ← items_transcript (sorted_items rows);
  n ← u32 (Z.of_nat (size rows));
  mret (sha256 (bytes_of_string "NINLIL-DOMAIN-INIT-SNAPSHOT-V1" ++ n ++ transcript)).

(** ** The classification of a snapshot *)

(** The classification and its reason. *)
Definition snapshot_verdict : Type := (string * option string)%type.
Definition OLD : snapshot_verdict := ("OLD"%string, None).
Definition NEW : snapshot_verdict := ("NEW"%string, None).
Definition corrupt (reason : string) : snapshot_verdict := (STORAGE_CORRUPT, Some reason).

(** What a group is committed over: the rows of the bootstrap, those of the metadata with the
    clock uninitialized, the key of the clock and its trusted value. *)
Record context := { format2_rows : gmap bytes bytes; metadata_uninitialized : gmap bytes bytes; clock_key : bytes; trusted_clock_value : bytes }.

Definition without (k : bytes) (rows : gmap bytes bytes) : gmap bytes bytes := filter (fun kv => kv.1 <> k) rows.

Definition classify_initialization_snapshot (group : string) (rows : gmap bytes bytes) (c : context) : res snapshot_verdict :=
  if String.eqb group "T1A" then
    Ok (if bool_decide (rows = ∅) then OLD
        else if bool_decide (rows = format2_rows c) then NEW
        else corrupt "T1A_PARTIAL_EXTRA_OR_FORMAT_MISMATCH")
  else if negb (bool_decide (map_Forall (fun k v => rows !! k = Some v) (format2_rows c))) then Ok (corrupt (group ++ "_BOOTSTRAP_MISMATCH"))
  else
    let metadata_observed := filter (fun kv => format2_rows c !! kv.1 = None) rows in
    if String.eqb group "T1B" then
      Ok (if bool_decide (metadata_observed = ∅) then OLD
          else if bool_decide (metadata_observed = metadata_uninitialized c) then NEW
          else corrupt "T1B_PARTIAL_EXTRA_OR_TRUSTED")
    else if negb (String.eqb group "T5") then Raise (ValueError "unknown initialization group")
    else
      let expected_non_clock := without (clock_key c) (metadata_uninitialized c) in
      let observed_non_clock := without (clock_key c) metadata_observed in
      if negb (bool_decide (observed_non_clock = expected_non_clock)) ||
         negb (bool_decide (dom metadata_observed = dom (metadata_uninitialized c)))
      then Ok (corrupt "T5_METADATA_OR_CLOCK_MISSING")
      else
        match metadata_observed !! clock_key c, metadata_uninitialized c !! clock_key c with
        | Some found, Some uninitialized =>
            Ok (if bool_decide (found = uninitialized) then OLD
                else if bool_decide (found = trusted_clock_value c) then NEW
                else corrupt "T5_THIRD_CLOCK_VALUE")
        | _, _ => Raise (KeyError "clock_key")
        end.

(** ** Vectors *)

Definition clock_value_of (epoch : bytes) (now_ms : Z) : res bytes :=
  body ← clock_body_of 2 epoch now_ms 1;
  domain_value 0x62 2 ZERO16 ZERO32 ZERO32 body.

Record snapshot_case := { case_id : string; case_group : string; case_rows : gmap bytes bytes; case_expected : string }.

Definition extra_row : bytes := [0xDE; 0xAD; 0xBE; 0xEF].
(** [dict(items[:n])] and [{**a, **b}]. *)
Definition first_items (n : nat) (rows : gmap bytes bytes) : gmap bytes bytes := list_to_map (take n (sorted_items rows)).
Definition updated (a b : gmap bytes bytes) : gmap bytes bytes := b ∪ a.

Definition snapshot_cases (format1_rows : gmap bytes bytes) (c : context) (third_epoch_clock third_sample_clock : bytes) : list snapshot_case :=
  let format2 := format2_rows c in
  let metadata := metadata_uninitialized c in
  let clock := clock_key c in
  let case group id rows expected := {| case_id := id; case_group := group; case_rows := rows; case_expected := expected |} in
  let t1b_new := updated format2 metadata in
  let trusted_metadata := <[clock := trusted_clock_value c]> metadata in
  let t5_old := updated format2 metadata in
  [case "T1A" "T1A_COMMIT_UNKNOWN_ALL_OLD_0_OF_17" ∅ "OLD";
   case "T1A" "T1A_COMMIT_UNKNOWN_ALL_NEW_17_OF_17" format2 "NEW";
   case "T1A" "T1A_COMMIT_UNKNOWN_PARTIAL_1_OF_17" (first_items 1 format2) STORAGE_CORRUPT;
   case "T1A" "T1A_COMMIT_UNKNOWN_PARTIAL_16_OF_17" (first_items 16 format2) STORAGE_CORRUPT;
   case "T1A" "T1A_COMMIT_UNKNOWN_EXTRA_ROW" (<[extra_row := [0]]> format2) STORAGE_CORRUPT;
   case "T1A" "T1A_COMMIT_UNKNOWN_FORMAT_MISMATCH" format1_rows STORAGE_CORRUPT;
   case "T1B" "T1B_COMMIT_UNKNOWN_ALL_OLD_0_OF_16" format2 "OLD";
   case "T1B" "T1B_COMMIT_UNKNOWN_ALL_NEW_16_OF_16" t1b_new "NEW";
   case "T1B" "T1B_COMMIT_UNKNOWN_PARTIAL_1_OF_16" (updated format2 (first_items 1 metadata)) STORAGE_CORRUPT;
   case "T1B" "T1B_COMMIT_UNKNOWN_PARTIAL_15_OF_16" (updated format2 (first_items 15 metadata)) STORAGE_CORRUPT;
   case "T1B" "T1B_COMMIT_UNKNOWN_EXTRA_ROW" (<[extra_row := [0]]> t1b_new) STORAGE_CORRUPT;
   case "T1B" "T1B_COMMIT_UNKNOWN_TRUSTED_MIX" (updated format2 trusted_metadata) STORAGE_CORRUPT;
   case "T5" "T5_COMMIT_UNKNOWN_OLD_UNINITIALIZED" t5_old "OLD";
   case "T5" "T5_COMMIT_UNKNOWN_NEW_TRUSTED" (updated format2 trusted_metadata) "NEW";
   case "T5" "T5_COMMIT_UNKNOWN_MISSING" (delete clock t5_old) STORAGE_CORRUPT;
   case "T5" "T5_COMMIT_UNKNOWN_THIRD_EPOCH" (<[clock := third_epoch_clock]> t5_old) STORAGE_CORRUPT;
   case "T5" "T5_COMMIT_UNKNOWN_THIRD_SAMPLE" (<[clock := third_sample_clock]> t5_old) STORAGE_CORRUPT]%string.

(** Each case with its verdict and the digest of its rows. *)
Fixpoint materialize (cases : list snapshot_case) (c : context) : res (list (snapshot_case * snapshot_verdict * bytes)) :=
  match cases with
  | [] => Ok []
  | s :: cases =>
      computed ← classify_initialization_snapshot (case_group s) (case_rows s) c;
      raise_if (negb (String.eqb (fst computed) (case_expected s))) (AssertionError "");;
      digest ← snapshot_sha256 (case_rows s);
      rest ← materialize cases c;
      mret ((s, computed, digest) :: rest)
  end.

Definition pinned_epoch : bytes := octets 16 0x33.
Definition pinned_now_ms : Z := 123456.

(** The context of the vectors, from the bootstrap and the metadata group. *)
Definition initialization_context (format2_bootstrap metadata_records : list record) : res context :=
  clock ← domain_singleton_key 0x62;
  trusted ← clock_value_of pinned_epoch pinned_now_ms;
  mret {| format2_rows := rows_of format2_bootstrap; metadata_uninitialized := rows_of metadata_records; clock_key := clock;
          trusted_clock_value := trusted |}.

Definition build_initialization_transition_vectors (format1_bootstrap format2_bootstrap metadata_records : list record) :
    res (list (snapshot_case * snapshot_verdict * bytes)) :=
  c ← initialization_context format2_bootstrap metadata_records;
  third_epoch ← clock_value_of (octets 16 0x34) pinned_now_ms;
  third_sample ← clock_value_of pinned_epoch (pinned_now_ms + 1);
  materialize (snapshot_cases (rows_of format1_bootstrap) c third_epoch third_sample) c.

(** ** What the classification promises *)

(** The bootstrap and the metadata share no key, and the clock of the metadata is not yet the
    trusted one. *)
Definition context_ok (c : context) : Prop :=
  format2_rows c <> ∅ /\ format2_rows c ##ₘ metadata_uninitialized c /\
  exists u, metadata_uninitialized c !! clock_key c = Some u /\ u <> trusted_clock_value c.

(** The store before and after the commit of each group. *)
Definition before (c : context) (group : string) : gmap bytes bytes :=
  if String.eqb group "T1A" then ∅ else if String.eqb group "T1B" then format2_rows c else format2_rows c ∪ metadata_uninitialized c.
Definition after (c : context) (group : string) : gmap bytes bytes :=
  if String.eqb group "T1A" then format2_rows c
  else if String.eqb group "T1B" then format2_rows c ∪ metadata_uninitialized c
  else format2_rows c ∪ <[clock_key c := trusted_clock_value c]> (metadata_uninitialized c).

Definition observed (base rows : gmap bytes bytes) : gmap bytes bytes := filter (fun kv => base !! kv.1 = None) rows.

(** A snapshot is the base and what is observed beyond it. *)
Lemma observed_exact (base X rows : gmap bytes bytes) :
  base ##ₘ X -> (map_Forall (fun k v => rows !! k = Some v) base /\ observed base rows = X) <-> rows = base ∪ X.
Proof.
  intros Hd. unfold observed. split.
  - intros [Hb <-]. apply map_eq. intros k. rewrite lookup_union, map_lookup_filter.
    destruct (base !! k) as [v|] eqn:E; cbn.
    + rewrite (Hb k v E). cbn. by case_guard.
    + destruct (rows !! k); cbn; [|done]. by rewrite option_guard_True.
  - intros ->. split.
    + intros k v E. by apply lookup_union_Some_l.
    + apply map_eq. intros k. rewrite map_lookup_filter, lookup_union.
      destruct (base !! k) as [v|] eqn:E; cbn.
      * rewrite (map_disjoint_Some_l base X k v Hd E). cbn. rewrite option_guard_False by congruence. done.
      * destruct (X !! k); cbn; [|done]. by rewrite option_guard_True.
Qed.

Lemma without_lookup (k i : bytes) (m : gmap bytes bytes) : without k m !! i = if decide (i = k) then None else m !! i.
Proof.
  unfold without. rewrite map_lookup_filter. destruct (m !! i); cbn; [|by case_decide]. case_decide; case_guard; naive_solver.
Qed.

Lemma without_eq (k : bytes) (a b : gmap bytes bytes) : without k a = without k b -> a !! k = b !! k -> a = b.
Proof.
  intros E Ek. apply map_eq. intros i. destruct (decide (i = k)) as [->|Hi]; [done|].
  pose proof (f_equal (fun m : gmap bytes bytes => m !! i) E) as Ei. cbn in Ei. rewrite !without_lookup in Ei. by rewrite !decide_False in Ei by done.
Qed.

Lemma without_insert (k v : bytes) (m : gmap bytes bytes) : without k (<[k := v]> m) = without k m.
Proof. apply map_eq. intros i. rewrite !without_lookup. case_decide; [done|]. by rewrite lookup_insert_ne. Qed.

Section Context.
Context (c : context) (Hc : context_ok c).
Let format2 := format2_rows c.
Let metadata := metadata_uninitialized c.
Let clock := clock_key c.

Lemma trusted_disjoint : format2 ##ₘ <[clock := trusted_clock_value c]> metadata.
Proof using Hc.
  destruct Hc as (_ & Hd & u & Hu & _). apply map_disjoint_insert_r_2; [|done].
  by apply (map_disjoint_Some_r format2 metadata clock u).
Qed.

Lemma metadata_nonempty : metadata <> ∅.
Proof using Hc. destruct Hc as (_ & _ & u & Hu & _). intros E. unfold metadata in E. by rewrite E, lookup_empty in Hu. Qed.

(** Behind an intact bootstrap, the verdict on the rows is a verdict on what is observed beyond it. *)
Lemma observed_group (rows X : gmap bytes bytes) :
  format2 ##ₘ X -> map_Forall (fun k v => rows !! k = Some v) format2 -> observed format2 rows = X <-> rows = format2 ∪ X.
Proof using. intros Hd Hb. rewrite <- observed_exact by done. tauto. Qed.

(** The clock is the one row the last group changes. *)
Lemma clock_verdict obs :
  exists v,
    (let expected_non_clock := without clock metadata in
     let observed_non_clock := without clock obs in
     if negb (bool_decide (observed_non_clock = expected_non_clock)) || negb (bool_decide (dom obs = dom metadata))
     then Ok (corrupt "T5_METADATA_OR_CLOCK_MISSING")
     else
       match obs !! clock, metadata !! clock with
       | Some found, Some uninitialized =>
           Ok (if bool_decide (found = uninitialized) then OLD
               else if bool_decide (found = trusted_clock_value c) then NEW
               else corrupt "T5_THIRD_CLOCK_VALUE")
       | _, _ => Raise (KeyError "clock_key")
       end) = Ok v /\
    (v = OLD <-> obs = metadata) /\ (v = NEW <-> obs = <[clock := trusted_clock_value c]> metadata) /\ (v = OLD \/ v = NEW \/ fst v = STORAGE_CORRUPT).
Proof using Hc.
  destruct Hc as (_ & _ & u & Hu & Hne). fold clock metadata in Hu. cbv zeta. set (t := trusted_clock_value c) in *.
  destruct (bool_decide (without clock obs = without clock metadata)) eqn:E1; cbn [negb orb].
  2:{ apply bool_decide_eq_false in E1. eexists. split; [reflexivity|]. split_and!; [split; [discriminate | intros ->; done] | | by right; right].
      split; [discriminate|]. intros ->. by rewrite without_insert in E1. }
  apply bool_decide_eq_true in E1. destruct (bool_decide (dom obs = dom metadata)) eqn:E2; cbn [negb].
  2:{ apply bool_decide_eq_false in E2. eexists. split; [reflexivity|]. split_and!; [split; [discriminate | intros ->; done] | | by right; right].
      split; [discriminate|]. intros ->. exfalso. apply E2. rewrite dom_insert_L. apply subseteq_union_1_L, singleton_subseteq_l, elem_of_dom. by exists u. }
  apply bool_decide_eq_true in E2. rewrite Hu.
  assert (Hin : clock ∈ dom obs) by (rewrite E2; apply elem_of_dom; by exists u).
  apply elem_of_dom in Hin as [f Hf]. rewrite Hf. eexists. split; [reflexivity|].
  assert (K : forall x, obs = <[clock := x]> metadata <-> f = x).
  { intros x. split; [intros ->; rewrite lookup_insert_eq in Hf; by injection Hf|]. intros ->.
    apply (without_eq clock); [by rewrite without_insert | by rewrite lookup_insert_eq]. }
  assert (K0 : obs = metadata <-> f = u) by (by rewrite <- K, insert_id).
  rewrite K0, K. case_bool_decide; [subst; naive_solver|]. case_bool_decide; naive_solver.
Qed.
End Context.

(** C15. After a commit of unknown outcome the snapshot tells what happened.  For each of the three
    groups, the snapshot is classified as old exactly when the store is what it was before the
    group, as new exactly when it is what the whole group makes of it, and as corrupt
    otherwise; the two stores differ, and what one group leaves is what the next begins with. *)
Theorem initialization_snapshot_exact c group rows :
  context_ok c -> group ∈ ["T1A"; "T1B"; "T5"]%string ->
  (exists v, classify_initialization_snapshot group rows c = Ok v /\
     (v = OLD <-> rows = before c group) /\ (v = NEW <-> rows = after c group) /\ (v = OLD \/ v = NEW \/ fst v = STORAGE_CORRUPT)) /\
  before c group <> after c group /\ before c "T1B" = after c "T1A" /\ before c "T5" = after c "T1B".
Proof.
  intros Hc Hg. pose proof Hc as (Hne & Hd & u & Hu & Hut). split; [|split; [|done]].
  - assert (T : group = "T1A"%string \/ group <> "T1A"%string /\ group ∈ ["T1B"; "T5"]%string) by set_solver.
    unfold classify_initialization_snapshot. destruct T as [-> | [Hn1 Hg2]].
    { cbn [String.eqb Ascii.eqb Bool.eqb]. eexists. split; [reflexivity|]. unfold before, after. cbn [String.eqb Ascii.eqb Bool.eqb].
      case_bool_decide; [subst; naive_solver|]. case_bool_decide; naive_solver. }
    rewrite (proj2 (String.eqb_neq _ _) Hn1).
    destruct (bool_decide (map_Forall _ _)) eqn:Eb; cbn [negb].
    2:{ apply bool_decide_eq_false in Eb. eexists. split; [reflexivity|].
        assert (N : forall X, rows <> format2_rows c ∪ X) by (intros X ->; apply Eb; intros k v E; by apply lookup_union_Some_l).
        pose proof (N ∅) as N0. rewrite map_union_empty in N0.
        assert (Ec : forall r, corrupt r <> OLD /\ corrupt r <> NEW) by done.
        destruct (Ec (group ++ "_BOOTSTRAP_MISMATCH")%string) as [Eo En].
        split_and!; [split; [done | intros E; exfalso] | split; [done | intros E; exfalso] | by right; right]; revert E; unfold before, after;
          rewrite (proj2 (String.eqb_neq _ _) Hn1); destruct (String.eqb group "T1B"); auto; apply N. }
    apply bool_decide_eq_true in Eb. cbv zeta. fold (observed (format2_rows c) rows).
    assert (T : group = "T1B"%string \/ group = "T5"%string) by set_solver. destruct T as [-> | ->]; cbn [String.eqb Ascii.eqb Bool.eqb negb].
    + eexists. split; [reflexivity|]. unfold before, after. cbn [String.eqb Ascii.eqb Bool.eqb].
      pose proof (metadata_nonempty c Hc) as Hm.
      pose proof (observed_group c rows ∅ (map_disjoint_empty_r _) Eb) as K0. rewrite map_union_empty in K0.
      pose proof (observed_group c rows _ Hd Eb) as K1. rewrite <- K0, <- K1.
      case_bool_decide as E0; [rewrite E0; naive_solver|]. case_bool_decide; naive_solver.
    + destruct (clock_verdict c Hc (observed (format2_rows c) rows)) as (v & Ev & H1 & H2 & H3). exists v. split; [exact Ev|].
      unfold before, after. cbn [String.eqb Ascii.eqb Bool.eqb].
      rewrite <- (observed_group c rows _ Hd Eb), <- (observed_group c rows _ (trusted_disjoint c Hc) Eb). done.
  - unfold before, after. destruct (String.eqb group "T1A"); [done|]. destruct (String.eqb group "T1B").
    + intros E. pose proof (f_equal (fun m => m !! clock_key c) E) as Ek. cbn in Ek. rewrite lookup_union, Hu in Ek.
      rewrite (map_disjoint_Some_r _ _ _ _ Hd Hu) in Ek. done.
    + intros E. pose proof (f_equal (fun m => m !! clock_key c) E) as Ek. cbn in Ek. rewrite !lookup_union, Hu, lookup_insert_eq in Ek.
      rewrite (map_disjoint_Some_r _ _ _ _ Hd Hu) in Ek. cbn in Ek. by injection Ek.
Qed.

(** ** The stages of a startup *)

Definition stages : list string :=
  ["T0_same_rw_zero_row_scan"; "T1a_format2_bootstrap_full"; "T1b_uninitialized_metadata_full"; "T2_d3_s4_s12_cross_row_validation";
   "T3_d4_recovery_full_and_rescan"; "T4_identity_recovery"; "T5_trusted_clock_sample"; "T5_clock_full_commit_and_rescan";
   "T6_durable_health_reconstruction"; "bearer_open"; "metrics_entropy"; "T7_publication_gate"; "public_runtime_publish"]%string.

Definition startup_candidates : list (string * option nat * string) :=
  [("STARTUP_T0_ZERO_ROW_SCAN_FAULT", Some 0%nat, "NINLIL_E_STORAGE");
   ("STARTUP_T1A_BOOTSTRAP_COMMIT_UNKNOWN", Some 1%nat, "NINLIL_E_STORAGE_COMMIT_UNKNOWN");
   ("STARTUP_T1B_METADATA_COMMIT_UNKNOWN", Some 2%nat, "NINLIL_E_STORAGE_COMMIT_UNKNOWN");
   ("STARTUP_T2_CROSS_ROW_VALIDATION_FAULT", Some 3%nat, "NINLIL_E_STORAGE_CORRUPT");
   ("STARTUP_T3_D4_RECOVERY_COMMIT_UNKNOWN", Some 4%nat, "NINLIL_E_STORAGE_COMMIT_UNKNOWN");
   ("STARTUP_T4_IDENTITY_CONFLICT", Some 5%nat, "NINLIL_E_CONFLICT");
   ("STARTUP_T5_TRUSTED_CLOCK_FAULT", Some 6%nat, "NINLIL_E_CLOCK_UNCERTAIN");
   ("STARTUP_T5_COMMIT_UNKNOWN", Some 7%nat, "NINLIL_E_STORAGE_COMMIT_UNKNOWN");
   ("STARTUP_T6_HEALTH_FAULT", Some 8%nat, "NINLIL_E_STORAGE_CORRUPT");
   ("STARTUP_BEARER_OPEN_FAULT", Some 9%nat, "NINLIL_E_WOULD_BLOCK");
   ("STARTUP_ENTROPY_FAULT", Some 10%nat, "NINLIL_E_ENTROPY");
   ("STARTUP_T7_PUBLICATION_GATE_FAULT", Some 11%nat, "NINLIL_E_STORAGE_CORRUPT");
   ("STARTUP_SUCCESS", None, "NINLIL_OK")]%string.

(** The transcript, with its flags as booleans; [callback] is always zero. *)
Record transcript := {
  attempted : list string; completed : list string; T0_complete : bool; T1a_complete : bool; T1b_complete : bool; T2_complete : bool;
  T3_complete : bool; T4_complete : bool; storage_recovery_complete : bool; trusted_clock_sample_count : bool;
  T5_commit_attempt_count : bool; T6_health_attempt_count : bool; T5_complete : bool; T6_complete : bool; T7_complete : bool;
  bearer_open : bool; metrics_entropy : bool; published : bool }.

Definition startup_transcript (fault_stage_index : option nat) : res transcript :=
  let '(attempted, completed) := match fault_stage_index with None => (stages, stages) | Some k => (take (k + 1) stages, take k stages) end in
  let tried s := bool_decide (s ∈ attempted) in
  let done s := bool_decide (s ∈ completed) in
  let bearer_open := tried "bearer_open"%string in
  let published := done "public_runtime_publish"%string in
  let t2 := done "T2_d3_s4_s12_cross_row_validation"%string in
  let t3 := done "T3_d4_recovery_full_and_rescan"%string in
  let t4 := done "T4_identity_recovery"%string in
  let t5 := done "T5_clock_full_commit_and_rescan"%string in
  let t6 := done "T6_durable_health_reconstruction"%string in
  let t7 := done "T7_publication_gate"%string in
  raise_if (negb (t5 && t6) && (bearer_open || published)) (AssertionError "");;
  raise_if (negb t7 && published) (AssertionError "");;
  mret {| attempted := attempted; completed := completed; T0_complete := done "T0_same_rw_zero_row_scan"%string;
          T1a_complete := done "T1a_format2_bootstrap_full"%string; T1b_complete := done "T1b_uninitialized_metadata_full"%string;
          T2_complete := t2; T3_complete := t3; T4_complete := t4; storage_recovery_complete := t2 && t3 && t4;
          trusted_clock_sample_count := tried "T5_trusted_clock_sample"%string;
          T5_commit_attempt_count := tried "T5_clock_full_commit_and_rescan"%string;
          T6_health_attempt_count := tried "T6_durable_health_reconstruction"%string; T5_complete := t5; T6_complete := t6; T7_complete := t7;
          bearer_open := bearer_open; metrics_entropy := tried "metrics_entropy"%string; published := published |}.

Fixpoint startup_vectors (candidates : list (string * option nat * string)) : res (list (string * transcript)) :=
  match candidates with
  | [] => Ok []
  | (id, k, _) :: candidates => t ← startup_transcript k; rest ← startup_vectors candidates; mret ((id, t) :: rest)
  end.
Definition build_startup_lifecycle_fault_vectors : res (list (string * transcript)) := startup_vectors startup_candidates.

Example startup_vectors_build : is_ok build_startup_lifecycle_fault_vectors = true.
Proof. vm_compute. reflexivity. Qed.

(** Wherever a startup stops, it has done the stages before the fault and no other; the bearer is
    opened only behind the clock and the health of the store, which come behind the recovery, and
    the runtime is published only by a startup that has done everything. *)
Lemma startup_gated k :
  exists t, startup_transcript k = Ok t /\
    completed t = match k with Some k => take k stages | None => stages end /\
    (bearer_open t = true -> T5_complete t = true /\ T6_complete t = true /\ storage_recovery_complete t = true /\
       T0_complete t = true /\ T1a_complete t = true /\ T1b_complete t = true) /\
    (T5_commit_attempt_count t = true -> storage_recovery_complete t = true /\ trusted_clock_sample_count t = true) /\
    (published t = true -> completed t = stages).
Proof.
  assert (H : forall k, (k <= 13)%nat -> match startup_transcript (Some k) with Ok t =>
     bool_decide (completed t = take k stages) &&
     implb (bearer_open t) (T5_complete t && T6_complete t && storage_recovery_complete t && T0_complete t && T1a_complete t && T1b_complete t) &&
     implb (T5_commit_attempt_count t) (storage_recovery_complete t && trusted_clock_sample_count t) &&
     implb (published t) (bool_decide (completed t = stages)) | Raise _ => false end = true).
  { intros n Hn. do 14 (destruct n as [|n]; [vm_compute; reflexivity|]). lia. }
  assert (E : exists n, (n <= 13)%nat /\ startup_transcript k = startup_transcript (Some n) /\
              match k with Some k => take k stages | None => stages end = take n stages).
  { destruct k as [n|]; [|by exists 13%nat]. destruct (Nat.le_gt_cases n 13) as [Hn|Hn]; [by exists n|]. exists 13%nat. split; [lia|].
    assert (T : take n stages = stages /\ take (n + 1) stages = stages) by (split; apply take_ge; cbn; lia).
    destruct T as [T1 T2]. unfold startup_transcript. by rewrite T1, T2. }
  destruct E as (n & Hn & -> & ->). specialize (H n Hn). destruct (startup_transcript (Some n)) as [t|]; [|discriminate H]. exists t. split; [reflexivity|].
  bool_to_prop. split; [done|]. destruct (bearer_open t), (T5_commit_attempt_count t), (published t); cbn [implb] in *; bool_to_prop; split_and!; intros; done || split_and!; done.
Qed.

(** ** Witnesses *)

Definition sample_contexts : res context :=
  format1 ← build_bootstrap_vector 1; format2 ← build_bootstrap_vector 2; group ← build_legacy_metadata_group format1;
  initialization_context format2 group.1.
Definition empty_context : context :=
  {| format2_rows := ∅; metadata_uninitialized := ∅; clock_key := []; trusted_clock_value := [] |}.
Definition sample_context : context := ok_or empty_context sample_contexts.

Definition context_check (c : context) : bool :=
  negb (bool_decide (format2_rows c = ∅)) && bool_decide (dom (format2_rows c) ∩ dom (metadata_uninitialized c) = (∅ : gset bytes)) &&
  match metadata_uninitialized c !! clock_key c with Some u => negb (bool_decide (u = trusted_clock_value c)) | None => false end.

Lemma context_check_ok c : context_check c = true -> context_ok c.
Proof.
  unfold context_check, context_ok. intros H. bool_to_prop. split; [done|]. split; [by apply map_disjoint_dom, disjoint_intersection_L|].
  destruct (metadata_uninitialized c !! clock_key c) as [u|]; [|done]. exists u. by bool_to_prop.
Qed.

Lemma sample_context_ok : context_ok sample_context.
Proof. apply context_check_ok. vm_compute. reflexivity. Qed.

Lemma bootstrap_before c : format2_rows c = before c "T1B".
Proof. reflexivity. Qed.

(** On the rows of the vectors: the bootstrap alone is what the second group begins with. *)
Lemma initialization_snapshot_exact_witness :
  exists v, classify_initialization_snapshot "T1B" (format2_rows sample_context) sample_context = Ok v /\ v = OLD /\
    before sample_context "T1B" <> after sample_context "T1B".
Proof.
  destruct (initialization_snapshot_exact sample_context "T1B" (format2_rows sample_context) sample_context_ok) as ((v & E & H & _) & Hne & _).
  - apply (bool_decide_unpack ("T1B"%string ∈ ["T1A"; "T1B"; "T5"]%string)). vm_compute. exact I.
  - exists v. split; [exact E|]. split; [|exact Hne]. apply (proj2 H). exact (bootstrap_before sample_context).
Defined.

(** The seventeen vectors of the three groups build. *)
Example initialization_vectors_build :
  (format1 ← build_bootstrap_vector 1; format2 ← build_bootstrap_vector 2; group ← build_legacy_metadata_group format1;
   vs ← build_initialization_transition_vectors format1 format2 group.1;
   mret (map (fun v => case_expected v.1.1) vs)) =
  Ok (["OLD"; "NEW"; STORAGE_CORRUPT; STORAGE_CORRUPT; STORAGE_CORRUPT; STORAGE_CORRUPT;
       "OLD"; "NEW"; STORAGE_CORRUPT; STORAGE_CORRUPT; STORAGE_CORRUPT; STORAGE_CORRUPT;
       "OLD"; "NEW"; STORAGE_CORRUPT; STORAGE_CORRUPT; STORAGE_CORRUPT]%string).
Proof. vm_compute. reflexivity. Qed.

