(* ===== verification/Cursor.v ===== *)
(** Parsers that walk a byte string with a cursor, and what it means that such a parser reads
    back exactly what an encoder writes: fields of a width, fields behind their length, pairs
    and counted sequences. *)

From S2P Require Import Prelude Bytes.

(** A parser reads from the cursor and gives a value and the next cursor. *)
Definition parser (A : Type) : Type := bytes -> Z -> res (A * Z).

Definition parsed {A} (x : A) : parser A := fun _ c => Ok (x, c).
Definition and_then {A B} (p : parser A) (f : A -> parser B) : parser B := fun a c => '(x, c) ← p a c; f x a c.

(** [take(length)]: the next bytes, or an error when there are not so many. *)
Definition take_bytes (msg : string) (length : Z) : parser bytes :=
  fun a c => raise_if ((length <? 0) || (len a - c <? length)) (ValueError msg);; Ok (slice c (c + length) a, c + length).
Definition take_int (msg : string) (width : Z) : parser Z := and_then (take_bytes msg width) (fun b => parsed (be_val b)).
(** [take(take_int())]. *)
Definition take_sized (msg : string) (width : Z) : parser bytes := and_then (take_int msg width) (take_bytes msg).
Definition take_pair {A B} (p : parser A) (q : parser B) : parser (A * B) := and_then p (fun x => and_then q (fun y => parsed (x, y))).
Fixpoint take_times {A} (p : parser A) (n : nat) : parser (list A) :=
  match n with O => parsed [] | S n => and_then p (fun x => and_then (take_times p n) (fun xs => parsed (x :: xs))) end.
(** [[p() for _ in range(take_int())]]. *)
Definition take_counted {A} (msg : string) (width : Z) (p : parser A) : parser (list A) :=
  and_then (take_int msg width) (fun n => take_times p (Z.to_nat n)).

(** The parser inverts the encoder, on the values it can read, wherever the bytes are found. *)
Class Exact {A} (p : parser A) (enc : A -> bytes) (ok : A -> Prop) : Prop := {
  parse_written : forall pre x post, ok x -> p (pre ++ enc x ++ post) (len pre) = Ok (x, len pre + len (enc x));
  parse_read : forall a c x c', bytes_ok a -> 0 <= c <= len a -> p a c = Ok (x, c') ->
    ok x /\ c' = c + len (enc x) /\ c' <= len a /\ slice c c' a = enc x }.

Lemma take_written msg pre x post : take_bytes msg (len x) (pre ++ x ++ post) (len pre) = Ok (x, len pre + len x).
Proof.
  pose proof (len_nonneg x). pose proof (len_nonneg post). pose proof (len_nonneg pre). unfold take_bytes.
  rewrite raise_if_skip; [|apply orb_false_iff; rewrite !len_app; split; apply Z.ltb_ge; lia]. do 2 f_equal.
  rewrite slice_app_r by lia. rewrite slice_app_l by lia. apply slice_whole; lia.
Qed.

Lemma take_read msg n a c x c' :
  0 <= c -> take_bytes msg n a c = Ok (x, c') -> 0 <= n /\ c' = c + n /\ c' <= len a /\ x = slice c c' a /\ len x = n.
Proof.
  unfold take_bytes. intros Hc E. apply raise_if_then_Ok in E as [E1 E]. injection E as <- <-. bool_to_prop.
  split_and!; try done; try lia. rewrite len_slice; lia.
Qed.

#[export] Instance exact_int msg (k : nat) : Exact (take_int msg (Z.of_nat k)) (be_bytes k) (fun v => 0 <= v < 256 ^ Z.of_nat k).
Proof.
  split.
  - intros pre v post Hv. unfold take_int, and_then. rewrite <- (len_be_bytes k v) at 1. rewrite take_written. cbn.
    by rewrite be_val_be_bytes, Z.mod_small.
  - intros a c v c' Ha Hc E. unfold take_int, and_then in E. destruct (take_bytes msg (Z.of_nat k) a c) as [[b c1]|] eqn:E1; [|done].
    cbn in E. injection E as <- <-. apply take_read in E1 as (_ & -> & Hle & -> & Hl); [|lia].
    pose proof (be_val_bounds (slice c (c + Z.of_nat k) a) ltac:(auto with ninlil)) as Hb. rewrite Hl in Hb.
    rewrite len_be_bytes. split; [done|]. split; [done|]. split; [done|]. symmetry. apply be_bytes_slice; done || lia.
Qed.

#[export] Instance exact_sized msg (k : nat) :
  Exact (take_sized msg (Z.of_nat k)) (fun v => be_bytes k (len v) ++ v) (fun v => bytes_ok v /\ len v < 256 ^ Z.of_nat k).
Proof.
  split.
  - intros pre v post [_ Hv]. pose proof (len_nonneg v). unfold take_sized, and_then. rewrite <- app_assoc.
    rewrite (parse_written (Exact := exact_int msg k) pre (len v) (v ++ post)) by (cbn beta; lia). cbn. rewrite app_assoc, <- len_app, take_written.
    rewrite !len_app. do 2 f_equal. lia.
  - intros a c v c' Ha Hc E. unfold take_sized, and_then in E. destruct (take_int msg (Z.of_nat k) a c) as [[n c1]|] eqn:E1; [|done]. cbn in E.
    apply (parse_read (Exact := exact_int msg k)) in E1 as (Hn & -> & Hle & E1); [|done..]. rewrite len_be_bytes in *.
    apply take_read in E as (_ & -> & Hle2 & -> & Hl); [|lia].
    set (v := slice (c + Z.of_nat k) (c + Z.of_nat k + n) a) in *. split; [split; [unfold v; auto with ninlil | lia]|].
    rewrite len_app, len_be_bytes, Hl. split; [lia|]. split; [done|].
    rewrite <- E1. unfold v. rewrite <- slice_split by lia. done.
Qed.

#[export] Instance exact_pair {A B} (p : parser A) (q : parser B) ep eq okp okq `{!Exact p ep okp} `{!Exact q eq okq} :
  Exact (take_pair p q) (fun xy => ep xy.1 ++ eq xy.2) (fun xy => okp xy.1 /\ okq xy.2).
Proof.
  split.
  - intros pre [x y] post [Hx Hy]. cbn [fst snd] in *. unfold take_pair, and_then. rewrite <- app_assoc, parse_written by done. cbn.
    rewrite app_assoc, <- len_app, parse_written by done. cbn. unfold parsed. rewrite !len_app. do 2 f_equal. lia.
  - intros a c [x y] c' Ha Hc E. unfold take_pair, and_then in E. destruct (p a c) as [[x1 c1]|] eqn:E1; [|done]. cbn in E.
    destruct (q a c1) as [[y1 c2]|] eqn:E2; [|done]. cbn in E. injection E as <- <- <-.
    apply parse_read in E1 as (Hx & -> & Hl1 & S1); [|done..]. pose proof (len_nonneg (ep x1)).
    apply parse_read in E2 as (Hy & -> & Hl2 & S2); [|done | lia]. pose proof (len_nonneg (eq y1)). cbn [fst snd].
    split; [done|]. rewrite len_app. split; [lia|]. split; [done|]. rewrite (slice_split c (c + len (ep x1))) by lia. by rewrite S1, S2.
Qed.

Section Sequence.
Context {A} (p : parser A) (enc : A -> bytes) (ok : A -> Prop) `{!Exact p enc ok}.
Definition enc_all (xs : list A) : bytes := mjoin (map enc xs).

Lemma enc_all_cons x xs : enc_all (x :: xs) = enc x ++ enc_all xs.
Proof using. done. Qed.

Lemma times_written pre xs post :
  Forall ok xs -> take_times p (length xs) (pre ++ enc_all xs ++ post) (len pre) = Ok (xs, len pre + len (enc_all xs)).
Proof using All.
  intros H. revert pre. induction H as [|x xs Hx _ IH]; intros pre; cbn [length take_times].
  { unfold parsed. change (len (enc_all [])) with 0. by rewrite Z.add_0_r. }
  unfold and_then. rewrite enc_all_cons, <- app_assoc, parse_written by done. cbn. rewrite app_assoc, <- len_app, IH. cbn. unfold parsed.
  rewrite !len_app. do 2 f_equal. lia.
Qed.

Lemma times_read n a c xs c' :
  bytes_ok a -> 0 <= c <= len a -> take_times p n a c = Ok (xs, c') ->
  Forall ok xs /\ length xs = n /\ c' = c + len (enc_all xs) /\ c' <= len a /\ slice c c' a = enc_all xs.
Proof using All.
  intros Ha. revert c xs c'. induction n as [|n IH]; intros c xs c' Hc E; cbn [take_times] in E.
  { injection E as <- <-. change (enc_all []) with (@nil Z). rewrite Z.add_0_r. split_and!; try done; [lia|]. unfold slice. by rewrite Z.sub_diag. }
  unfold and_then in E. destruct (p a c) as [[x c1]|] eqn:E1; [|done]. cbn in E.
  destruct (take_times p n a c1) as [[ys c2]|] eqn:E2; [|done]. cbn in E. injection E as <- <-.
  apply parse_read in E1 as (Hx & -> & Hl1 & S1); [|done..]. pose proof (len_nonneg (enc x)).
  destruct (IH _ _ _ (conj (Z.add_nonneg_nonneg _ _ (proj1 Hc) (len_nonneg (enc x))) Hl1) E2) as (Hys & <- & -> & Hl2 & S2).
  pose proof (len_nonneg (enc_all ys)). rewrite enc_all_cons, len_app. split_and!; try done; [by constructor | lia |].
  rewrite (slice_split c (c + len (enc x))) by lia. by rewrite S1, S2.
Qed.

#[export] Instance exact_counted msg (k : nat) :
  Exact (take_counted msg (Z.of_nat k) p) (fun xs => be_bytes k (len xs) ++ enc_all xs) (fun xs => Forall ok xs /\ len xs < 256 ^ Z.of_nat k).
Proof using All.
  split.
  - intros pre xs post [Hxs Hl]. pose proof (len_nonneg xs). unfold take_counted, and_then. rewrite <- app_assoc.
    rewrite (parse_written (Exact := exact_int msg k) pre (len xs) (enc_all xs ++ post)) by (cbn beta; lia). cbn.
    replace (Z.to_nat (len xs)) with (length xs) by (unfold len; lia). rewrite app_assoc, <- len_app, times_written by done. unfold parsed.
    rewrite !len_app. do 2 f_equal. lia.
  - intros a c xs c' Ha Hc E. unfold take_counted, and_then in E. destruct (take_int msg (Z.of_nat k) a c) as [[n c1]|] eqn:E1; [|done]. cbn in E.
    apply (parse_read (Exact := exact_int msg k)) in E1 as (Hn & -> & Hle & S1); [|done..]. rewrite len_be_bytes in *.
    destruct (times_read _ _ (c + Z.of_nat k) _ _ Ha ltac:(lia) E) as (Hxs & Hlen & -> & Hl & S2). pose proof (len_nonneg (enc_all xs)).
    assert (Hlx : len xs = n) by (unfold len; lia). split; [split; [done | lia]|]. rewrite len_app, len_be_bytes, Hlx. split; [lia|]. split; [done|].
    rewrite (slice_split c (c + Z.of_nat k)) by lia. by rewrite S1, S2.
Qed.
End Sequence.

(** ** Refusals *)

(** All the parser raises is a [ValueError]. *)
Class Refuses {A} (p : parser A) : Prop := refuses : forall a c e, p a c = Raise e -> exists msg, e = ValueError msg.

#[export] Instance refuses_take msg n : Refuses (take_bytes msg n).
Proof. intros a c e H. unfold take_bytes in H. inv_raise. by eexists. Qed.
#[export] Instance refuses_parsed {A} (x : A) : Refuses (parsed x).
Proof. by intros a c e H. Qed.
#[export] Instance refuses_then {A B} (p : parser A) (f : A -> parser B) : Refuses p -> (forall x, Refuses (f x)) -> Refuses (and_then p f).
Proof.
  intros Hp Hf a c e H. unfold and_then in H. apply bind_Raise in H as [H | ([x c'] & _ & H)]; [by apply (Hp _ _ _ H) | by apply (Hf _ _ _ _ H)].
Qed.
#[export] Instance refuses_int msg w : Refuses (take_int msg w).
Proof. unfold take_int. apply _. Qed.
#[export] Instance refuses_sized msg w : Refuses (take_sized msg w).
Proof. unfold take_sized. apply _. Qed.
#[export] Instance refuses_pair {A B} (p : parser A) (q : parser B) : Refuses p -> Refuses q -> Refuses (take_pair p q).
Proof. intros. unfold take_pair. apply _. Qed.
#[export] Instance refuses_times {A} (p : parser A) n : Refuses p -> Refuses (take_times p n).
Proof. intros Hp. induction n as [|n IH]; cbn [take_times]; apply _. Qed.
#[export] Instance refuses_counted {A} msg w (p : parser A) : Refuses p -> Refuses (take_counted msg w p).
Proof. intros. unfold take_counted. apply _. Qed.
