(* ===== verification/Kind1.v ===== *)
(** The registration of a service, the first kind of durable operation of a schema-1 store
    (tools/domain_store_schema1_binding_vector_gen.py): the rows one registration writes, the
    witness that lists them, the frame of a fixture and the readers of its rows. *)

From S2P Require Import Prelude Bytes Order Crc Sha256 Join StoreRecords Cursor.

Definition KIND1_FIXTURE_MAGIC : bytes := bytes_of_string "NINLIL-DOMAIN-KIND1-FIXTURE-V1".

(** ** The service a fixture registers *)

Record service_fixture := {
  local_application_instance_id : bytes; namespace : string; service : string; schema : string; descriptor_revision : Z;
  descriptor_digest : bytes; schema_major : Z; schema_minor_min : Z; schema_minor_max : Z; family : Z; direction : Z;
  admission_authority : Z; apply_contract : Z; custody_policy : Z; supported_evidence_mask : Z; logical_payload_limit : Z;
  target_limit : Z; inflight_limit : Z; attempts_per_cycle : Z; admission_window_ms : Z; max_admissions_window : Z;
  max_payload_window : Z; minimum_deadline_ms : Z; maximum_deadline_ms : Z; maximum_evidence_grace_ms : Z;
  attempt_receipt_timeout_ms : Z; retry_backoff_ms : Z; application_completion_timeout_ms : Z; required_dedup_window_ms : Z;
  trusted_clock_epoch : bytes; trusted_now_ms : Z; service_capacity_limit : Z }.

Definition octets (n : nat) (b : Z) : bytes := replicate n b.

(** The fixture, with the overrides the generator uses. *)
Definition kind1_fixture (app_id : bytes) (service : string) (digest : bytes) : service_fixture :=
  {| local_application_instance_id := app_id; namespace := "acme"; service := service; schema := "v"; descriptor_revision := 1;
     descriptor_digest := digest; schema_major := 1; schema_minor_min := 1; schema_minor_max := 1; family := 2; direction := 2;
     admission_authority := 1; apply_contract := 1; custody_policy := 1; supported_evidence_mask := 8; logical_payload_limit := 64;
     target_limit := 1; inflight_limit := 2; attempts_per_cycle := 8; admission_window_ms := 1000; max_admissions_window := 10;
     max_payload_window := 640; minimum_deadline_ms := 100; maximum_deadline_ms := 10000; maximum_evidence_grace_ms := 1000;
     attempt_receipt_timeout_ms := 1000; retry_backoff_ms := 100; application_completion_timeout_ms := 2000;
     required_dedup_window_ms := 86400000; trusted_clock_epoch := octets 16 0x33; trusted_now_ms := 123456; service_capacity_limit := 16 |}.
Definition default_fixture : service_fixture := kind1_fixture (octets 16 0x11) "pump" (octets 32 0x22).
Definition ALTERNATE_KIND1_FIXTURE : service_fixture := kind1_fixture (octets 16 0x12) "valve" (octets 32 0x23).

(** ** The bodies of its rows *)

Definition encode_service_body (service_raw : bytes) (f : service_fixture) (quota_key_digest reservation_key_digest : bytes) : res bytes :=
  join [raw16 service_raw; u64 (descriptor_revision f); Ok (descriptor_digest f); Ok (local_application_instance_id f); text_id (namespace f);
        text_id (service f); text_id (schema f); u16 (schema_major f); u16 (schema_minor_min f); u16 (schema_minor_max f); u32 (family f);
        u32 (direction f); u32 (admission_authority f); u32 (apply_contract f); u32 (custody_policy f); u32 (supported_evidence_mask f);
        u32 (logical_payload_limit f); u32 (target_limit f); u32 (inflight_limit f); u32 (attempts_per_cycle f); u32 (admission_window_ms f);
        u32 (max_admissions_window f); u32 (max_payload_window f); u64 (minimum_deadline_ms f); u64 (maximum_deadline_ms f);
        u64 (maximum_evidence_grace_ms f); u64 (attempt_receipt_timeout_ms f); u64 (retry_backoff_ms f);
        u64 (application_completion_timeout_ms f); u64 (required_dedup_window_ms f); Ok quota_key_digest; Ok reservation_key_digest].

Definition encode_quota_body (service_raw service_key_digest clock_epoch : bytes) (window_start_ms : Z) : res bytes :=
  join [raw16 service_raw; Ok service_key_digest; Ok clock_epoch; u64 window_start_ms; u32 0; u64 0; u32 0; u32 0; u64 0].

(** Eleven resources, used and reserved; the first is the service itself. *)
Definition encode_resource_vector : res bytes :=
  result ← join (concat (map (fun kind => [u64 (if kind =? 1 then 1 else 0); u64 0]) [1; 2; 3; 4; 5; 6; 7; 8; 9; 10; 11]));
  raise_if (negb (len result =? 176)) (AssertionError "");;
  mret result.

Definition encode_reservation_body (service_raw service_key_digest : bytes) : res bytes :=
  join [u16 1; u16 0; raw16 service_raw; Ok service_key_digest; encode_resource_vector; u32 0; u32 0; u64 0; u32 0].

Definition witness_entry (role action : Z) (key : bytes) (old_present new_present : Z) (prior_head old_digest new_digest : bytes) : res bytes :=
  join [u16 role; u8 action; Ok [0]; u16 (len key); u16 0; Ok key; u8 old_present; u8 new_present; u16 0; Ok prior_head; Ok old_digest; Ok new_digest].

(** ** The known answer *)

Definition CAPACITY_KEY : bytes := ROOT ++ [4; 1].

(** The witness over the rows: its header body, for a manifest of encoded entries. *)
Definition chunk_body_of (witness : bytes) (entries : list bytes) : res bytes :=
  join ([Ok witness; u16 0; u16 1; u16 (len entries); u16 0] ++ map Ok entries).
Definition manifest_digest_of (chunk_body : bytes) : bytes := sha256 (bytes_of_string "NINLIL-DOMAIN-MANIFEST-V1" ++ chunk_body).
Definition canonical_digest_of (operation_identity manifest_digest : bytes) : res bytes :=
  m ← join [Ok (bytes_of_string "NINLIL-DOMAIN-OPERATION-V1"); u16 1; raw16 operation_identity; Ok (slice 0 16 operation_identity);
            Ok manifest_digest; u16 0; Ok ZERO32];
  mret (sha256 m).
Definition header_body_of (operation_identity canonical_digest : bytes) (member_count : Z) (manifest_digest : bytes) : res bytes :=
  join [u16 1; u16 1; raw16 operation_identity; Ok (slice 0 16 operation_identity); Ok canonical_digest; u16 member_count; u16 1;
        Ok manifest_digest; u16 0; u16 0; Ok ZERO32; Ok ZERO32].

(** The identities of the witness rows. *)
Definition witness_of (operation_identity : bytes) : res bytes := m ← join [u16 1; raw16 operation_identity]; composite 0x7F m.
Definition chunk_key_of (witness : bytes) : res bytes := z ← u16 0; i ← composite 0x7E (witness ++ z); domain_key 0x7E i.

Record kind1_kat := {
  kat_fixture : service_fixture; kat_service_key_digest : bytes; kat_witness : bytes; kat_capacity : record; kat_head_index : record;
  kat_entries : list (string * bytes); kat_post_records : list record; kat_aggregate : bytes }.

Fixpoint rows_transcript (rows : list record) : res bytes :=
  match rows with
  | [] => Ok []
  | r :: rows =>
      f ← join [u16 (key_length r); Ok (key r); u32 (value_length r); Ok (value r)];
      rest ← rows_transcript rows;
      mret (f ++ rest)
  end.

(** The keys a service derives from its raw name. *)
Definition service_raw_of (f : service_fixture) : res bytes :=
  join [Ok (local_application_instance_id f); text_id (namespace f); text_id (service f); u64 (descriptor_revision f); Ok (descriptor_digest f)].
Definition service_identity_of (service_raw : bytes) : res bytes := c ← raw16 service_raw; composite 0x10 c.
Definition service_key_of (service_raw : bytes) : res bytes := i ← service_identity_of service_raw; domain_key 0x10 i.
Definition quota_key_of (service_raw : bytes) : res bytes := c ← raw16 service_raw; i ← composite 0x11 c; domain_key 0x11 i.
Definition reservation_key_of (service_raw : bytes) : res bytes := c ← join [u16 1; raw16 service_raw]; i ← composite 0x23 c; domain_key 0x23 i.
Definition head_key_of (member_key : bytes) : res bytes := i ← composite 0x7D (key_digest member_key); domain_key 0x7D i.

Definition build_kind1_kat (f : service_fixture) : res kind1_kat :=
  service_raw ← service_raw_of f;
  service_identity ← service_identity_of service_raw;
  service_key ← service_key_of service_raw;
  quota_key ← quota_key_of service_raw;
  reservation_key ← reservation_key_of service_raw;
  let service_kd := key_digest service_key in
  witness ← witness_of service_kd;
  witness_header_key ← domain_key 0x7F witness;
  witness_chunk_key ← chunk_key_of witness;
  old_capacity_value ← runtime_capacity_value 1 (service_capacity_limit f) 0 0 0 1 0 0;
  new_capacity_value ← runtime_capacity_value 1 (service_capacity_limit f) 1 0 1 2 0 0;
  head_identity ← composite 0x7D (key_digest CAPACITY_KEY);
  head_key ← domain_key 0x7D head_identity;
  old_head_body ← witness_index_body 1 CAPACITY_KEY (sha256 old_capacity_value) ZERO32;
  old_head_value ← domain_value 0x7D 1 (slice 0 16 head_identity) ZERO32 ZERO32 old_head_body;
  service_body ← encode_service_body service_raw f (key_digest quota_key) (key_digest reservation_key);
  let primary := slice 0 16 service_identity in
  service_value ← domain_value 0x10 1 primary witness ZERO32 service_body;
  let service_pvd := sha256 service_value in
  raise_if (admission_window_ms f =? 0) ZeroDivisionError;;
  let window_start := trusted_now_ms f / admission_window_ms f * admission_window_ms f in
  quota_body ← encode_quota_body service_raw service_kd (trusted_clock_epoch f) window_start;
  quota_value ← domain_value 0x11 1 primary witness service_pvd quota_body;
  reservation_body ← encode_reservation_body service_raw service_kd;
  reservation_value ← domain_value 0x23 1 primary witness service_pvd reservation_body;
  new_head_body ← witness_index_body 2 CAPACITY_KEY (sha256 new_capacity_value) witness;
  new_head_value ← domain_value 0x7D 2 (slice 0 16 head_identity) witness ZERO32 new_head_body;
  e1 ← witness_entry 0x0400 2 CAPACITY_KEY 1 1 ZERO32 (sha256 old_capacity_value) (sha256 new_capacity_value);
  e2 ← witness_entry 0x0610 1 service_key 0 1 ZERO32 ZERO32 (sha256 service_value);
  e3 ← witness_entry 0x0611 1 quota_key 0 1 ZERO32 ZERO32 (sha256 quota_value);
  e4 ← witness_entry 0x0623 1 reservation_key 0 1 ZERO32 ZERO32 (sha256 reservation_value);
  e5 ← witness_entry 0x067D 2 head_key 1 1 ZERO32 (sha256 old_head_value) (sha256 new_head_value);
  let keys := [CAPACITY_KEY; service_key; quota_key; reservation_key; head_key] in
  raise_if (negb (bool_decide (keys = sorted_by id compare_bytes keys))) (AssertionError "");;
  let entries := [("capacity_service", e1); ("service", e2); ("service_quota", e3); ("service_reservation", e4); ("capacity_head_index", e5)]%string in
  chunk_body ← chunk_body_of witness (map snd entries);
  let manifest_digest := manifest_digest_of chunk_body in
  canonical_digest ← canonical_digest_of service_kd manifest_digest;
  header_body ← header_body_of service_kd canonical_digest 5 manifest_digest;
  header_value ← domain_value 0x7F 1 (slice 0 16 witness) ZERO32 ZERO32 header_body;
  chunk_value ← domain_value 0x7E 1 (slice 0 16 witness) ZERO32 ZERO32 chunk_body;
  let records := [record_object "capacity_service" CAPACITY_KEY new_capacity_value; record_object "service" service_key service_value;
                  record_object "service_quota" quota_key quota_value; record_object "service_reservation" reservation_key reservation_value;
                  record_object "capacity_head_index" head_key new_head_value; record_object "witness_manifest_chunk" witness_chunk_key chunk_value;
                  record_object "witness_header" witness_header_key header_value] in
  let record_keys := map key records in
  raise_if (negb (bool_decide (record_keys = sorted_by id compare_bytes record_keys))) (AssertionError "");;
  transcript ← rows_transcript records;
  mret {| kat_fixture := f; kat_service_key_digest := service_kd; kat_witness := witness;
          kat_capacity := record_object "capacity_service_old" CAPACITY_KEY old_capacity_value;
          kat_head_index := record_object "capacity_head_index_old" head_key old_head_value;
          kat_entries := entries; kat_post_records := records;
          kat_aggregate := sha256 (bytes_of_string "NINLIL-DOMAIN-KIND1-KAT-V1" ++ transcript) |}.

(** The known answers are those the repository publishes. *)
Example kat_published :
  map (fun f => k ← build_kind1_kat f; mret (hex_of (kat_aggregate k))) [default_fixture; ALTERNATE_KIND1_FIXTURE] =
  [Ok "93206bcc2029da0d6df3dba982bdfd1ed84fae7b8a32b441463f2ab26c552f04"%string;
   Ok "d07340a424795d286a6272eac376e0423b096b63a0da90f038414b0b24cdb036"%string].
Proof. vm_compute. reflexivity. Qed.

(** ** The frame of a fixture *)

Definition kind1_row_frame (r : bytes * bytes) : res bytes := join [u16 (len r.1); Ok r.1; u32 (len r.2); Ok r.2].

Definition encode_kind1_fixture (entries : list bytes) (pre_records post_records : list (bytes * bytes)) : res bytes :=
  artifact ← join [Ok KIND1_FIXTURE_MAGIC; u16 (len entries)];
  es ← join (map raw16 entries);
  pres ← join (u16 (len pre_records) :: map kind1_row_frame pre_records);
  posts ← join (u16 (len post_records) :: map kind1_row_frame post_records);
  mret (artifact ++ es ++ pres ++ posts).

Definition TRUNCATED : string := "fixture truncated".
Definition take_records : parser (list (bytes * bytes)) := take_counted TRUNCATED 2 (take_pair (take_sized TRUNCATED 2) (take_sized TRUNCATED 4)).

Definition parse_kind1_fixture (artifact : bytes) : res (list bytes * list (bytes * bytes) * list (bytes * bytes)) :=
  '(magic, cursor) ← take_bytes TRUNCATED (len KIND1_FIXTURE_MAGIC) artifact 0;
  raise_if (negb (bool_decide (magic = KIND1_FIXTURE_MAGIC))) (ValueError "fixture magic");;
  '(entries, cursor) ← take_counted TRUNCATED 2 (take_sized TRUNCATED 2) artifact cursor;
  '(pre_records, cursor) ← take_records artifact cursor;
  '(post_records, cursor) ← take_records artifact cursor;
  raise_if (negb (cursor =? len artifact)) (ValueError "fixture trailing bytes");;
  mret (entries, pre_records, post_records).

(** ** The readers *)

Record entry_fields := {
  e_role : Z; e_action : Z; e_key : bytes; e_old_present : Z; e_new_present : Z; e_prior_head : bytes; e_old_digest : bytes; e_new_digest : bytes }.

Definition decode_witness_entry (entry : bytes) : res entry_fields :=
  raise_if (len entry <? 108) (ValueError "witness entry short");;
  raise_if (negb (byte_at 3 entry =? 0)) (ValueError "witness entry action reserved");;
  let key_length := be_val (slice 4 6 entry) in
  raise_if (negb (be_val (slice 6 8 entry) =? 0)) (ValueError "witness entry key reserved");;
  raise_if (negb (len entry =? 108 + key_length)) (ValueError "witness entry length");;
  let cursor := 8 + key_length in
  raise_if (negb (be_val (slice (cursor + 2) (cursor + 4) entry) =? 0)) (ValueError "witness entry state reserved");;
  mret {| e_role := be_val (slice 0 2 entry); e_action := byte_at 2 entry; e_key := slice 8 cursor entry;
          e_old_present := byte_at cursor entry; e_new_present := byte_at (cursor + 1) entry;
          e_prior_head := slice (cursor + 4) (cursor + 36) entry; e_old_digest := slice (cursor + 36) (cursor + 68) entry;
          e_new_digest := slice (cursor + 68) (cursor + 100) entry |}.

Record domain_fields := { d_subtype : Z; d_revision : Z; d_primary_id : bytes; d_head : bytes; d_pvd : bytes; d_body : bytes }.

Definition decode_domain_record_value (value : bytes) : res domain_fields :=
  raise_if ((len value <? 16) || negb (bool_decide (slice 0 4 value = NLR1))) (ValueError "domain envelope");;
  raise_if (negb (be_val (slice 4 6 value) =? 6) || negb (be_val (slice 6 8 value) =? 1)) (ValueError "domain envelope type/version");;
  raise_if (negb (len value =? 12 + be_val (slice 8 12 value) + 4)) (ValueError "domain envelope length");;
  raise_if (negb (be_val (trailer_of value) =? crc32c_xorout (body_of value))) (ValueError "domain envelope crc");;
  let payload := payload_of value in
  raise_if (len payload <? 96) (ValueError "domain common short");;
  let body_length := be_val (slice 92 96 payload) in
  let body := slice_from 96 payload in
  raise_if (negb (be_val (slice 0 2 payload) =? 1) || negb (byte_at 3 payload =? 0) || negb (len body =? body_length)) (ValueError "domain common");;
  mret {| d_subtype := byte_at 2 payload; d_revision := be_val (slice 4 12 payload); d_primary_id := slice 12 28 payload;
          d_head := slice 28 60 payload; d_pvd := slice 60 92 payload; d_body := body |}.

(** Whether bytes are well-formed UTF-8, as a strict decoder has it: no overlong form, no
    surrogate, nothing above U+10FFFF. *)
Definition continues (b : Z) : bool := (0x80 <=? b) && (b <=? 0xBF).
Fixpoint utf8_ok (text : bytes) : bool :=
  match text with
  | [] => true
  | a :: rest =>
      if a <? 0x80 then utf8_ok rest
      else
        match rest with
        | b :: rest1 =>
            if (0xC2 <=? a) && (a <=? 0xDF) then continues b && utf8_ok rest1
            else
              match rest1 with
              | c :: rest2 =>
                  if (0xE0 <=? a) && (a <=? 0xEF) then
                    continues b && continues c && negb ((a =? 0xE0) && (b <? 0xA0)) && negb ((a =? 0xED) && (0x9F <? b)) && utf8_ok rest2
                  else
                    match rest2 with
                    | d :: rest3 =>
                        (0xF0 <=? a) && (a <=? 0xF4) && continues b && continues c && continues d && negb ((a =? 0xF0) && (b <? 0x90)) &&
                        negb ((a =? 0xF4) && (0x8F <? b)) && utf8_ok rest3
                    | [] => false
                    end
              | [] => false
              end
        | [] => false
        end
  end.

(** The decoded text encodes to the same bytes, so the last check of the code never fails. *)
Definition parse_text_id_at (value : bytes) (cursor : Z) : res (bytes * Z) :=
  raise_if (len value - cursor <? 1) (ValueError "text id length");;
  let length := byte_at cursor value in
  let cursor := cursor + 1 in
  raise_if ((length =? 0) || (63 <? length) || (len value - cursor <? length)) (ValueError "text id length");;
  let text := slice cursor (cursor + length) value in
  raise_if (negb (utf8_ok text)) (ValueError "text id utf8");;
  mret (text, cursor + length).

(** [n] integers of a width, one behind the other. *)
Fixpoint integers_at (n : nat) (width : Z) (cursor : Z) (value : bytes) : list Z :=
  match n with O => [] | S n => be_val (slice cursor (cursor + width) value) :: integers_at n width (cursor + width) value end.

Record service_semantics := {
  s_service_raw : bytes; s_descriptor_revision : Z; s_descriptor_digest : bytes; s_application_id : bytes; s_namespace : bytes;
  s_service : bytes; s_schema : bytes; s_schema_major : Z; s_schema_minor_min : Z; s_schema_minor_max : Z; s_u32_fields : list Z;
  s_u64_fields : list Z; s_quota_key_digest : bytes; s_reservation_key_digest : bytes }.
Definition s_admission_window_ms (s : service_semantics) : Z := default 0 (s_u32_fields s !! 10%nat).

Definition decode_kind1_service_semantics (body : bytes) : res service_semantics :=
  '(service_raw, cursor) ← parse_raw16_at body 0;
  raise_if (len body - cursor <? 8 + 32 + 16) (ValueError "service descriptor prefix");;
  let revision := be_val (slice cursor (cursor + 8) body) in
  let digest := slice (cursor + 8) (cursor + 40) body in
  let application := slice (cursor + 40) (cursor + 56) body in
  '(namespace, cursor) ← parse_text_id_at body (cursor + 56);
  '(service, cursor) ← parse_text_id_at body cursor;
  '(schema, cursor) ← parse_text_id_at body cursor;
  raise_if (negb (len body - cursor =? 6 + 13 * 4 + 7 * 8 + 64)) (ValueError "service descriptor length");;
  let wide := cursor + 6 in
  let long := wide + 13 * 4 in
  let last := long + 7 * 8 in
  raise_if (negb (last + 64 =? len body)) (ValueError "service descriptor trailing");;
  mret {| s_service_raw := service_raw; s_descriptor_revision := revision; s_descriptor_digest := digest; s_application_id := application;
          s_namespace := namespace; s_service := service; s_schema := schema; s_schema_major := be_val (slice cursor (cursor + 2) body);
          s_schema_minor_min := be_val (slice (cursor + 2) (cursor + 4) body); s_schema_minor_max := be_val (slice (cursor + 4) (cursor + 6) body);
          s_u32_fields := integers_at 13 4 wide body; s_u64_fields := integers_at 7 8 long body; s_quota_key_digest := slice last (last + 32) body;
          s_reservation_key_digest := slice (last + 32) (last + 64) body |}.

Record quota_semantics := { q_service_raw : bytes; q_service_key_digest : bytes; q_clock_epoch : bytes; q_window_start_ms : Z; q_counters : list Z }.

Definition decode_kind1_quota_semantics (body : bytes) : res quota_semantics :=
  '(service_raw, cursor) ← parse_raw16_at body 0;
  raise_if (negb (len body - cursor =? 84)) (ValueError "quota body length");;
  mret {| q_service_raw := service_raw; q_service_key_digest := slice cursor (cursor + 32) body; q_clock_epoch := slice (cursor + 32) (cursor + 48) body;
          q_window_start_ms := be_val (slice (cursor + 48) (cursor + 56) body);
          q_counters := [be_val (slice (cursor + 56) (cursor + 60) body); be_val (slice (cursor + 60) (cursor + 68) body);
                         be_val (slice (cursor + 68) (cursor + 72) body); be_val (slice (cursor + 72) (cursor + 76) body);
                         be_val (slice (cursor + 76) (cursor + 84) body)] |}.

Fixpoint resources_at (n : nat) (cursor : Z) (body : bytes) : list (Z * Z) :=
  match n with
  | O => []
  | S n => (be_val (slice cursor (cursor + 8) body), be_val (slice (cursor + 8) (cursor + 16) body)) :: resources_at n (cursor + 16) body
  end.

Record reservation_semantics := {
  r_owner_kind : Z; r_owner_reserved : Z; r_owner_raw : bytes; r_primary_key_digest : bytes; r_resources : list (Z * Z); r_service_inflight : Z;
  r_grant_count : Z; r_grant_bytes : Z; r_released_mask : Z }.

Definition decode_kind1_reservation_semantics (body : bytes) : res reservation_semantics :=
  raise_if (len body <? 4) (ValueError "reservation body prefix");;
  '(owner_raw, cursor) ← parse_raw16_at body 4;
  raise_if (negb (len body - cursor =? 32 + 176 + 20)) (ValueError "reservation body length");;
  let vector := cursor + 32 in
  let last := vector + 11 * 16 in
  raise_if (negb (last + 20 =? len body)) (ValueError "reservation body trailing");;
  mret {| r_owner_kind := be_val (slice 0 2 body); r_owner_reserved := be_val (slice 2 4 body); r_owner_raw := owner_raw;
          r_primary_key_digest := slice cursor (cursor + 32) body; r_resources := resources_at 11 vector body;
          r_service_inflight := be_val (slice last (last + 4) body); r_grant_count := be_val (slice (last + 4) (last + 8) body);
          r_grant_bytes := be_val (slice (last + 8) (last + 16) body); r_released_mask := be_val (slice (last + 16) (last + 20) body) |}.

Record capacity_semantics := {
  c_kind : Z; c_limit : Z; c_used : Z; c_reserved : Z; c_high_water : Z; c_epoch : Z; c_blocked : Z; c_exhausted : Z }.
#[export] Instance capacity_eq_dec : EqDecision capacity_semantics.
Proof. solve_decision. Defined.

Definition capacity_fields (payload : bytes) : capacity_semantics :=
  {| c_kind := be_val (slice 0 4 payload); c_limit := be_val (slice 4 12 payload); c_used := be_val (slice 12 20 payload);
     c_reserved := be_val (slice 20 28 payload); c_high_water := be_val (slice 28 36 payload); c_epoch := be_val (slice 36 44 payload);
     c_blocked := be_val (slice 44 48 payload); c_exhausted := be_val (slice 48 52 payload) |}.

Definition decode_runtime_capacity_semantics (value : bytes) : res capacity_semantics :=
  payload ← decode_nlr1_payload value 4;
  raise_if (negb (len payload =? 52)) (ValueError "capacity payload length");;
  mret (capacity_fields payload).

Record head_semantics := {
  h_record : domain_fields; h_state : Z; h_state_reserved : Z; h_member_key_digest : bytes; h_member_key : bytes; h_member_value_digest : bytes;
  h_member_head : bytes }.

Definition decode_kind1_head_semantics (value : bytes) : res head_semantics :=
  decoded ← decode_domain_record_value value;
  let body := d_body decoded in
  raise_if (negb (d_subtype decoded =? 0x7D) || negb (len body =? 114)) (ValueError "head index shape");;
  raise_if (negb (be_val (slice 36 38 body) =? 10) || negb (be_val (slice 38 40 body) =? 0)) (ValueError "head index member length");;
  mret {| h_record := decoded; h_state := be_val (slice 0 2 body); h_state_reserved := be_val (slice 2 4 body);
          h_member_key_digest := slice 4 36 body; h_member_key := slice 40 50 body; h_member_value_digest := slice 50 82 body;
          h_member_head := slice 82 114 body |}.

(** ** A fixture reads back *)

Definition entry_frame (e : bytes) : bytes := be_bytes 2 (len e) ++ e.
Definition entry_ok (e : bytes) : Prop := bytes_ok e /\ len e < 65536.
Definition row_frame (r : bytes * bytes) : bytes := (be_bytes 2 (len r.1) ++ r.1) ++ be_bytes 4 (len r.2) ++ r.2.
Definition frame_ok (r : bytes * bytes) : Prop := (bytes_ok r.1 /\ len r.1 < 65536) /\ bytes_ok r.2 /\ len r.2 < 4294967296.
Definition entries_bytes (es : list bytes) : bytes := be_bytes 2 (len es) ++ enc_all entry_frame es.
Definition rows_bytes (rows : list (bytes * bytes)) : bytes := be_bytes 2 (len rows) ++ enc_all row_frame rows.
Definition fixture_bytes (es : list bytes) (pre post : list (bytes * bytes)) : bytes :=
  KIND1_FIXTURE_MAGIC ++ entries_bytes es ++ rows_bytes pre ++ rows_bytes post.
Definition fixture_ok (es : list bytes) (pre post : list (bytes * bytes)) : Prop :=
  (Forall entry_ok es /\ len es < 65536) /\ (Forall frame_ok pre /\ len pre < 65536) /\ (Forall frame_ok post /\ len post < 65536).

#[export] Instance entries_exact :
  Exact (take_counted TRUNCATED 2 (take_sized TRUNCATED 2)) entries_bytes (fun es => Forall entry_ok es /\ len es < 65536).
Proof. exact (@exact_counted _ (take_sized TRUNCATED 2) entry_frame entry_ok (exact_sized TRUNCATED 2) TRUNCATED 2). Qed.

#[export] Instance records_exact : Exact take_records rows_bytes (fun rows => Forall frame_ok rows /\ len rows < 65536).
Proof.
  exact (@exact_counted _ (take_pair (take_sized TRUNCATED 2) (take_sized TRUNCATED 4)) row_frame frame_ok
           (@exact_pair _ _ _ _ _ _ _ _ (exact_sized TRUNCATED 2) (exact_sized TRUNCATED 4)) TRUNCATED 2).
Qed.

Lemma entries_written es : Forall entry_ok es -> join (map raw16 es) = Ok (enc_all entry_frame es).
Proof.
  induction 1 as [|e es [_ He] _ IH]; [done|]. cbn [map join]. by rewrite raw16_written, ok_bind, IH by done.
Qed.

Lemma row_written r : frame_ok r -> kind1_row_frame r = Ok (row_frame r).
Proof.
  intros [[_ Hk] [_ Hv]]. pose proof (len_nonneg r.1). pose proof (len_nonneg r.2). unfold kind1_row_frame, row_frame. run_join.
  by rewrite app_nil_r, <- !app_assoc.
Qed.

Lemma rows_written rows : Forall frame_ok rows -> join (map kind1_row_frame rows) = Ok (enc_all row_frame rows).
Proof. induction 1 as [|r rows Hr _ IH]; [done|]. cbn [map join]. by rewrite row_written, ok_bind, IH by done. Qed.

Lemma fixture_written es pre post : fixture_ok es pre post -> encode_kind1_fixture es pre post = Ok (fixture_bytes es pre post).
Proof.
  intros ([He Le] & [Hp Lp] & [Hq Lq]). pose proof (len_nonneg es). pose proof (len_nonneg pre). pose proof (len_nonneg post).
  unfold encode_kind1_fixture. rewrite (entries_written es He). run_join.
  rewrite (rows_written pre Hp), (rows_written post Hq). run_join. unfold fixture_bytes, entries_bytes, rows_bytes. by rewrite app_nil_r, <- !app_assoc.
Qed.

(** The frame of a fixture is exact: a byte string parses as entries and rows when it is what
    the encoder writes for them, so nothing else has that reading and nothing written is
    misread; every other byte string is refused as truncated, as another format, or for what
    follows the rows. *)
Theorem kind1_fixture_exact artifact :
  bytes_ok artifact ->
  (forall es pre post, parse_kind1_fixture artifact = Ok (es, pre, post) <->
     fixture_ok es pre post /\ encode_kind1_fixture es pre post = Ok artifact) /\
  (forall e, parse_kind1_fixture artifact = Raise e -> exists msg, e = ValueError msg).
Proof.
  intros Ha. split.
  - intros es pre post. split.
    + intros E. unfold parse_kind1_fixture in E.
      destruct (take_bytes _ _ _ _) as [[magic c0]|] eqn:E0 in E; [|done]. rewrite ok_bind in E. apply raise_if_then_Ok in E as [Hm E].
      apply decided_false in Hm as ->. apply take_read in E0 as (_ & -> & H0 & S0 & _); [|lia].
      destruct (take_counted _ _ _ _ _) as [[es' c1]|] eqn:E1 in E; [|done]. rewrite ok_bind in E.
      change (0 + len KIND1_FIXTURE_MAGIC) with 30 in *.
      apply (parse_read (Exact := entries_exact)) in E1 as (Hes & -> & L1 & S1); [|done | lia]. pose proof (len_nonneg (entries_bytes es')).
      destruct (take_records _ _) as [[pre' c2]|] eqn:E2 in E; [|done]. rewrite ok_bind in E.
      apply (parse_read (Exact := records_exact)) in E2 as (Hpre & -> & L2 & S2); [|done | lia]. pose proof (len_nonneg (rows_bytes pre')).
      destruct (take_records _ _) as [[post' c3]|] eqn:E3 in E; [|done]. rewrite ok_bind in E.
      apply (parse_read (Exact := records_exact)) in E3 as (Hpost & -> & L3 & S3); [|done | lia]. pose proof (len_nonneg (rows_bytes post')).
      apply raise_if_then_Ok in E as [Hl E]. bool_to_prop. injection E as <- <- <-.
      assert (Hok : fixture_ok es' pre' post') by done. split; [done|]. rewrite fixture_written by done. f_equal.
      unfold fixture_bytes. rewrite S0, <- S1, <- S2, <- S3. rewrite <- !slice_split by lia. rewrite Hl. apply slice_all.
    + intros [Hok E]. rewrite fixture_written in E by done. apply Ok_inj in E as <-. destruct Hok as (He & Hp & Hq).
      unfold parse_kind1_fixture, fixture_bytes.
      pose proof (take_written TRUNCATED [] KIND1_FIXTURE_MAGIC (entries_bytes es ++ rows_bytes pre ++ rows_bytes post)) as T0.
      cbn [app] in T0. change (len []) with 0 in T0. rewrite T0, ok_bind, raise_if_skip by (by apply decided_false). rewrite Z.add_0_l.
      rewrite (parse_written (Exact := entries_exact)), ok_bind by done.
      rewrite app_assoc, <- len_app, (parse_written (Exact := records_exact)), ok_bind by done.
      rewrite app_assoc, <- len_app. rewrite <- (app_nil_r (rows_bytes post)) at 1. rewrite (parse_written (Exact := records_exact)), ok_bind by done.
      rewrite raise_if_skip; [done|]. apply negb_false_iff, Z.eqb_eq. by rewrite !len_app.
  - intros e E. unfold parse_kind1_fixture in E.
    apply bind_Raise in E as [E | ([magic c0] & _ & E)]; [exact (refuses (p := take_bytes TRUNCATED (len KIND1_FIXTURE_MAGIC)) _ _ _ E)|]. apply bind_Raise in E as [E | (? & _ & E)]; [apply raise_if_Raise in E as [_ ->]; by eexists|].
    apply bind_Raise in E as [E | ([es c1] & _ & E)]; [exact (refuses (p := take_counted TRUNCATED 2 (take_sized TRUNCATED 2)) _ _ _ E)|].
    assert (R : Refuses take_records) by (unfold take_records; apply _).
    apply bind_Raise in E as [E | ([pre c2] & _ & E)]; [exact (R _ _ _ E)|]. apply bind_Raise in E as [E | ([post c3] & _ & E)]; [exact (R _ _ _ E)|].
    inv_raise. by eexists.
Qed.
